(* ===== verification/_CoqProject ===== *)
-Q . S2P
Prelude.v
Dict.v
PyFloat.v
Models.v
Sha256.v
FloatInt.v
BarFreshness.v
Preemption.v
EntryAuthority.v
ConfigHash.v
HashChain.v
Lifecycle.v
Degradation.v
IdempotentExecution.v
ExecutionAdapter.v
CommandQueue.v
CommandBus.v
ControlPlane.v
PendingOrders.v
Flatten.v
Journal.v
Governance.v
PreFlight.v
Watchdog.v
Alerts.v
Monitors.v
ColdStart.v
Capital.v
RollingWindow.v
Correlation.v
RiskGovernor.v
WriteQueue.v
CapacityGovernor.v
MarketCalendar.v
SloMonitor.v
SimBroker.v
FeedGuard.v
Coroutine.v
FillSieve.v
PolicyLifecycle.v
PortfolioBrain.v
PortfolioCoordinator.v
MatrixRing.v
DualBuffer.v
StatusText.v
Microstructure.v
TelemetryGate.v
ExecutionRouting.v
ConfigWatcher.v
ConfigEngine.v
CostFilter.v
ConfigCommit.v
Maintenance.v
Indicators.v
VectorBacktest.v
