(* ===== verification/Prelude.v ===== *)
(** * Systematic trading validation platform: verification library

    The repository is a Python platform that runs trading strategies ("legs")
    through a lifecycle from paper to live capital. This library models the parts
    that decide whether an order may be sent, sent only once, taken back, or halted,
    and proves what each part promises. File names below are under [src/].

    ** How the parts interact

    An operator enqueues control commands on a two-store bus ([CommandQueue]:
    SQLite and Supabase). The trading process claims them and drives the risk
    escalation engine and its preemption latch ([Preemption]). The heartbeat
    watchdog ([Watchdog]) drives the same engine when the main loop stalls. Every
    order meets one entry authority ([EntryAuthority]), which reads that engine, the
    degradation manager ([Degradation]), the lifecycle ([Lifecycle]), the running
    config's hash ([ConfigHash], [HashChain]) and the sizing ([Capital]). Entries
    that pass are sent through the idempotent submitter and adapter
    ([IdempotentExecution], [ExecutionAdapter]); exits run the flatten protocol
    ([Flatten]) over the staged orders ([PendingOrders]). Scheduled jobs ([Maintenance]) run as
    runbooks of the supervisor ([ControlPlane]), which open and close the gate of live consumption, monitors move a leg down the ladder
    ([Monitors]), and a human is paged through throttles and caps ([Alerts]).

    At a cold start the pre-flight engine ([PreFlight]) compares the stored positions
    with the broker's and either restores them or locks the engine; the cold-start gate
    ([ColdStart]) holds each leg back until its feed, whose age [BarFreshness] measures
    and whose bars [RollingWindow] keeps, stands verified: the dual buffer ([DualBuffer])
    streams bars into the windows' forming slots, closes them from REST and compares the two
    tapes in the rings of [MatrixRing]. Human overrides
    ([Governance]) are engaged and released through the signed journal ([Journal]). The
    risk governor ([RiskGovernor]) reads the windows and the positions and holds a leg
    in drawdown to exits; the capacity governor ([CapacityGovernor]) caps the session's
    turnover and an order's share of the volume. What a submission left unfilled is followed
    up by the fill sieve ([FillSieve]), which also holds each leg's memory to the broker's
    position. Whether a learned policy may act for a leg at all is the policy lifecycle's
    decision ([PolicyLifecycle]). The signals of a cycle's legs meet in the portfolio
    coordinator ([PortfolioCoordinator]), which lets the portfolio brain ([PortfolioBrain])
    divide the risk, resolve what collides, weigh the exposure and date the inventory, and
    leaves one plan per leg for the router. Before an order is worked, the microstructure
    guard ([Microstructure], whose texts [StatusText] reads) must not see its symbol halted or
    banded, the telemetry gate ([TelemetryGate]) must not have seen a reject storm, and the
    depth router ([ExecutionRouting]) decides how eagerly it may trade. The legs' parameters
    come from the configuration watcher ([ConfigWatcher]) over the cached hosted client; the
    config engine ([ConfigEngine]) locks their versions, writes them back and merges the
    layers, and new parameters go live through an audited commit ([ConfigCommit]), against
    the slippage grid that the cost filter ([CostFilter]) penalises scores with. The parameters of
    a leg steer its rule on the rolling window ([Indicators]), and are searched for by simulating
    the same rule on stored bars ([VectorBacktest]). Their rows, like all of the platform's
    records, reach the database through the write-ahead queue ([WriteQueue]).

    ** Files

    - [Prelude]: exceptions as values ([result]), the state monad [py] of methods
      that may raise, strings as Python has them, histories ([runs]), automation.
    - [Dict]: Python dicts whose order shows, as association lists.
    - [PyFloat]: Python floats as binary64 [spec_float], never rationals or reals.
    - [Models]: [src/models.py]; the closed enumerations, orders, signals, JSON.
    - [FloatInt]: whole numbers below 2^53 in binary64, whose sums and comparisons are
      those of the integers.
    - [Sha256]: [hashlib.sha256(..).hexdigest()], FIPS 180-4 on test vectors.
    - [Preemption]: [src/engine/engine_preemption.py]; the class
      [RiskEscalationEngine] is a record, a method is a function on it, the latch's
      methods are the constructors of [latch_event].
    - [EntryAuthority]: [src/engine/entry_authority.py] and
      [src/engine/commissioning_gate.py].
    - [ConfigHash], [HashChain], [Lifecycle], [Monitors]: [src/lifecycle/] with
      [src/persistence/hash_chain_store.py] and [src/control/leg_return.py].
    - [Degradation]: [src/engine/degradation_manager.py] over the row of
      [src/persistence/governance_state_store.py] and the verdicts of
      [src/engine/slo_monitor.py].
    - [IdempotentExecution], [ExecutionAdapter]: the two files of
      [src/execution/] with the same names. The broker is a class with laws; the
      adapter's calls are tasks stepped from one await to the next over a heap of
      shared, mutable orders.
    - [CommandQueue], [CommandBus]: [src/control/command_queue.py]. The first holds
      the operations, over a class [Supabase] with laws and a concrete instance; the
      second the histories of the bus and the theorems.
    - [ControlPlane]: [src/engine/control_plane.py]; callbacks, job table and pager
      are an environment whose every operation may raise.
    - [PendingOrders]: the class [PendingOrderStore] of
      [src/persistence/governance_state_store.py], SQLite's [LIKE] included.
    - [Flatten]: [src/engine/flatten_protocol.py] over a broker that may raise.
    - [Watchdog]: [src/control/heartbeat_watchdog.py] and
      [src/control/liveness_watchdogs.py].
    - [Alerts]: [src/alerts/throttle.py], [src/alerts/outbound_cap.py] and the page
      cooldown and dead-man decision of [src/control/alerts.py].
    - [BarFreshness]: [src/engine/bar_freshness.py].
    - [Journal], [Governance]: [src/engine/governance.py] and the deferred latch of
      [src/engine/recon_recovery.py]; the journal's table and the override table are
      lists of rows, the mirror file an optional snapshot.
    - [PreFlight]: [src/engine/pre_flight_reconciliation.py] over an environment (broker,
      stores, locks) whose every call may raise.
    - [ColdStart]: [src/engine/cold_start_gate.py] over an arbitrary monotonic clock.
    - [RollingWindow]: [src/core/rolling_window.py]; the deque and the numpy rings side by
      side, as the class keeps them.
    - [Correlation]: the correlation of returns that the risk governor and the portfolio
      brain share.
    - [RiskGovernor]: [src/engine/portfolio_risk_governor.py] and
      [src/persistence/portfolio_risk_state_store.py].
    - [CapacityGovernor]: [src/engine/capacity_governor.py].
    - [WriteQueue]: [src/persistence/db_queue.py] and
      [src/persistence/store_handlers.py]; enqueues, passes of the worker, stops, crashes
      and deaths in the middle of a flush are the events of a history, and which writes and
      deletes fail is arbitrary.
    - [Capital]: [src/engine/reserved_capital_ledger.py] and
      [src/engine/sizing_authority.py].
    - [MarketCalendar]: [src/core/market_calendar.py]; wall-clock time is a class with
      laws, New York from 2025 to 2027 its instance.
    - [SloMonitor]: [src/engine/slo_monitor.py].
    - [FeedGuard]: [src/ingestor/feed_ingest_guard.py] and
      [src/ingestor/feed_stream_health.py].
    - [SimBroker]: [src/broker/simulated.py].
    - [Coroutine]: async methods that share an object: a call runs from one await to the
      next, calls interleave at the awaits, and a rule for what holds whatever runs between.
    - [FillSieve]: [src/engine/broker_fill_sieve.py] and the broker-primary
      reconciliation of [src/engine/execution_adaptor.py], as such calls over a heap of
      shared bundles.
    - [PolicyLifecycle]: [src/engine/policy_lifecycle.py]; the vault's ledgers are lists of
      rows, its stores and the journal an environment whose every call may raise.
    - [PortfolioBrain], [PortfolioCoordinator]: [src/engine/portfolio_brain.py] and
      [src/engine/portfolio_coordinator.py] with [src/router/default.py]; the stages of a
      cycle are calls that change the coordinator's state, the inventory registry a map, the
      constraint ledger a list of rows; every use of the database may raise.
    - [MatrixRing], [DualBuffer]: [src/ingestor/dual_buffer_manager.py]; the first holds the
      rings, their comparison and the refresh's clock, the second the coordinator over a
      heap of windows it shares with the legs and a REST fetch that answers or raises.
    - [StatusText], [Microstructure]: [src/engine/microstructure_guard.py] with
      [src/ingestor/level1_depth_cache.py]; the guard is a map of per-symbol states, stream
      messages and looks are the events of its history.
    - [TelemetryGate]: [src/engine/telemetry_gate.py] over an interface of the risk manager.
    - [ExecutionRouting]: [src/engine/execution_adaptor.py] and [src/engine/depth_router.py];
      the feedback loop, the residuals and the polling worker are records.
    - [ConfigWatcher]: [src/control/supabase_client.py] and [src/control/config_watcher.py];
      the service is a world that every call changes and that may fail each of them.
    - [ConfigEngine]: the resolver of [src/engine/config_engine.py] over that watcher.
    - [CostFilter]: [src/engine/slippage_calibration.py] and [src/engine/cost_filter.py].
    - [ConfigCommit]: [src/config/research_validation.py], [src/config/parity_auditor.py] and
      the commit and backup drill of [src/engine/config_engine.py]; the disk is a map of texts
      and a list of the writes that will fail.
    - [Maintenance]: [src/control/maintenance_scheduler.py]; its workers and validators are the
      plane of [ControlPlane]'s supervisor, the readings of the clock are the polls of a history.
    - [Indicators]: [src/math/indicators.py], [src/strategies/mean_reversion_logic.py] and
      [src/strategies/regime_filter.py]; arrays are lists, the live rule reads [RollingWindow].
    - [VectorBacktest]: [src/backtest/vectorized_mr.py]; a kernel's locals are two records, a bar
      a function on them that may raise, a slice a fold of it.

    ** What the theorems show

    - Orders and commands happen once: while the hosted service answers and SQLite refuses
      no mirror, a command is claimed at most once between
      crash recoveries ([claim_exactly_once], [claims_bounded]), an order id is
      delegated once under every interleaving ([adapter_never_delegates_twice]),
      a submission storm reaches the broker once per id
      ([submit_storm_sends_once]), a fill is booked once
      ([fill_booked_once_per_id]), a record reaches its table once while deletes work and
      no flush is cut by a death ([writes_reach_their_table_once]).
    - Detailed state refines a small specification: the override registry is a set of
      switches ([registry_follows_commands]), the rings are a list of bars
      ([window_refines_bars]), the risk governor is a family of independent trackers
      ([governor_refines_trackers]), the turnover governor is a capped counter
      ([turnover_refines_counter]), the journal replays to the registry
      ([journal_replays_registry]), the simulated broker is a book of cash and signed
      shares ([sim_refines_book]).
    - Data is judged by the exchange's clock: the reference is the last moment of a
      session ([reference_time_is_last_session_moment]), the missing rate counts
      absent slots ([missing_rate_counts_absent_slots]), the guard keeps newer bars
      only ([guard_accepts_newer_bars]), the quote rate is a symbol's own history
      ([quote_rate_is_own_history]).
    - A start is safe: pre-flight aligns or locks ([preflight_aligns_or_locks]), a
      fail-safe leg enters on evidence only ([fail_safe_entry_needs_evidence]), also as the
      dual buffer drives its gate ([entry_needs_tape_evidence]), no bar closes on the stream's
      word ([closed_bars_come_from_rest]), a governor's trackers survive the restart ([governor_survives_restart]).
    - Exits run: a portfolio flatten reaches every position whatever the broker raises
      ([portfolio_flatten_reaches_all]; the clearing of the staged orders is the exception), protective commands never expire
      ([emergency_never_expires]), flattens do not nest ([leg_flatten_guarded]).
    - Halts hold: the latch is one-way ([engine_shutdown_latch_one_way]), a
      watchdog halt lifts only after the streak ([halt_lifts_only_after_streak]),
      a degraded mode survives a restart ([degradation_survives_restart]) and ends
      with exactly the missing verdicts.
    - Authority is earned: a leg is sovereign only after an evening whose ledgers met every
      criterion, or by its configuration while it has no row ([sovereign_is_earned]), and a shock's demotion is undone by a recovery
      ([shock_recovery_roundtrip]); a leg's memory follows the broker
      ([memory_follows_broker]).
    - A cycle's plans are cleared: an entry passed every gate ([entry_plan_is_cleared]), no
      two approved entries collide ([approved_entries_do_not_collide]) and the strongest is
      among them ([strongest_entry_is_approved]); a cycle that returns blocks no exit
      ([exits_are_never_blocked]); inventory is dated ([registry_tracks_runs]), locks entries
      ([entry_lock_spec]) and is liquidated when its days are up
      ([overdue_inventory_is_liquidated]).
    - The market is looked at before it is traded: a halt is lifted on evidence
      ([halt_clears_on_evidence]), entries stay blocked from a reject storm to a clean sync
      ([entries_blocked_since_storm]), the depth router leaves an order alone exactly on a
      fresh, deep and tight book ([unconstrained_means_a_deep_book]), a participation cap and an entry scale stay shares
      ([participation_cap_bounded], [entry_scale_in_unit]).
    - Parameters are what they claim to be: the watcher's state agrees with itself and
      overrides are in force ([watcher_history]), a write lands on the version it was based on
      ([applied_write_was_on_its_version]), an aligned preflight compared every row
      ([aligned_means_checked]), layers merge by precedence ([resolved_by_precedence]), an
      audited configuration has parity ([audited_configuration_has_parity]), a commit is all or
      nothing but for its log ([commit_is_all_or_nothing]), a cost is never a reward
      ([costs_never_reward]).
    - Maintenance gates trading: live consumption is open exactly after a runbook that succeeded
      ([gate_follows_the_runbook]), a passing pre-open run has fresh champions
      ([ready_means_fresh_champions]), jobs run once a day ([jobs_fire_once_a_day]), a restore
      launders no tuned champion ([restore_never_launders]).
    - Research tests what runs: an entry of the live rule is cleared ([live_entry_is_cleared]), a
      simulation never looks ahead ([simulation_never_looks_ahead]) nor outlives its time-stop
      ([no_position_outlives_the_time_stop], [scanned_position_is_closed]), the two kernels agree
      ([equal_horizons_are_coupled]), the symmetric scan has no memory
      ([symmetric_scan_is_stateless]), a sweep visits every combination once
      ([sweep_visits_every_combination_once]).
    - Loops end: [adapter_retry_is_noop], [flush_terminates_and_drains],
      [three_rounds_empty_the_sieve].
    - Machines follow their tables ([supervisor_follows_table],
      [lifecycle_history_climbs_the_ladder]) and decisions equal their
      specifications ([entry_allowed_is_first_block], [judge_integrity_is_worst_fired],
      [refit_runner_lineage]).
    - Numbers stay in bounds in binary64 ([reserve_within_available],
      [cusum_trips_at_first_crossing], [throttle_spacing], [outbound_cap_holds]).
    - Where the code does less than its comments say, a theorem states what it does:
      [hosted_orphan_never_refires], [recon_latch_released_by_slo],
      [not_running_runbook_raises], [claim_twice_under_faults],
      [stale_beat_adopts_operator_halt], [cap_exceeded_by_two_processes],
      [lock_outlives_the_session], [postgres_outage_repeats_rows],
      [drain_isolates_poison_within_a_batch], [strategy_global_halt_is_inert],
      [early_close_opens_in_hard_breach], [tripped_breaker_holds_the_verdict],
      [short_leverage_is_unbounded], [sliced_order_reads_as_partial],
      [rollback_reset_is_undone], [scheduled_evening_never_decays],
      [shadow_only_never_enters], [one_sector_book_never_enters],
      [book_without_spy_stays_flat], [refresh_verifies_itself],
      [forced_refresh_skips_the_close], [silence_lifts_the_halt],
      [dropped_connection_reads_as_local], [fallback_outlives_recovery],
      [failed_tuner_blocks_for_good], [dividend_is_paid_on_every_bar],
      [regime_mask_reads_the_days_close], [live_day_is_never_allowed],
      [refused_clear_stops_the_flatten], [claim_twice_after_a_refused_mirror],
      [commit_raises_after_it_is_done], [death_repeats_a_row],
      [one_bad_cap_stops_every_exit] and others.

    ** Conventions

    Text is ASCII. A moment is microseconds since the epoch, or the ISO-8601 text
    where the code compares texts. A payload column holds the dict that was
    serialised. A dict whose order never shows is a [gmap], one whose order shows is
    an association list. An object that methods change is a record; a lock that every
    method holds makes it atomic. A callback, broker or hosted service is an argument
    or class; it may raise and answer anything unless a named law says otherwise, and
    an instance shows the laws can hold. Notifiers are assumed not to raise; the
    module [persistence.db] and the packages the sources import are not part of the
    repository, so their calls are operations of an environment. Log lines have no
    state. The supervisor runs one runbook at a time, as its event loop does.

    ** Bounds and fuel

    No result depends on a fuel running out. The adapter runs a call of [n] orders
    for [S (2 * n)] steps, and [adapter_retry_is_noop] proves that is always enough;
    a flush of the write queue ends within one turn more than it has staged rows, and
    [flush_terminates_and_drains] proves that it ends by itself and more turns change nothing;
    [shortest_digits] tries at most the 17 digits that determine a double; SHA-256
    takes as many rounds as there are blocks. Crash recovery requeues a command
    [MAX_RECLAIM_ATTEMPTS] = 3 times, as the source does.

    ** Not modelled

    Network clients (Alpaca, the notifiers, the hosted client's transport) and threads or
    timers around modelled components (listeners, heartbeat emitter) are
    I/O; ingestors, regime intelligence, drift and attribution reports, the data loading and the
    statistics of backtests and research and the cluster brain are numpy and pandas code, whose libraries would all be parameters; the
    session table, the challenger registry, the trade quarantine, the trial ledger and the
    remaining stores are statements of databases or calls of a module that is not in the
    repository, without decisions of their own; the legs' own strategy modules are not published, and
    reporting, command line, REST API and dashboard present what is modelled here. *)

From stdpp Require Import base gmap strings list relations sorting.
From Stdlib Require Import ZArith Lia Ascii.

Declare Scope py_scope.
Delimit Scope py_scope with py.

(** ** Python exceptions as values

    A call either returns a value or raises an exception. *)

Inductive result (E A : Type) : Type :=
  | Ok (a : A)
  | Raise (e : E).
Arguments Ok {E A} a.
Arguments Raise {E A} e.

Definition result_bind {E A B} (c : result E A) (k : A -> result E B) : result E B :=
  match c with
  | Ok a => k a
  | Raise e => Raise e
  end.

(** ** Stateful calls

    A method of a Python object that mutates the object and may raise: the
    mutations made before the exception stay, so the state is returned on both
    branches. *)

Definition py (S E A : Type) : Type := S -> result E A * S.

Definition py_ret {S E A} (a : A) : py S E A := fun s => (Ok a, s).
Definition py_raise {S E A} (e : E) : py S E A := fun s => (Raise e, s).
Definition py_bind {S E A B} (c : py S E A) (k : A -> py S E B) : py S E B :=
  fun s => match c s with
           | (Ok a, s') => k a s'
           | (Raise e, s') => (Raise e, s')
           end.
Definition py_get {S E} : py S E S := fun s => (Ok s, s).
Definition py_modify {S E} (f : S -> S) : py S E unit := fun s => (Ok tt, f s).

Notation "'let!' x ':=' c 'in' k" := (py_bind c (fun x => k))
  (at level 10, x name, c at level 100, k at level 200) : py_scope.
Notation "c ;;! k" := (py_bind c (fun _ => k))
  (at level 190, right associativity) : py_scope.
Notation "'try!' x ':=' c 'in' k" := (result_bind c (fun x => k))
  (at level 10, x name, c at level 100, k at level 200) : py_scope.

(** ** Text

    Python text is modelled by Stdlib strings, that is, by its ASCII part:
    [upper], [lower] and [strip] act on ASCII letters and ASCII blanks. *)

Definition ascii_upper (c : ascii) : ascii :=
  let n := nat_of_ascii c in
  if (97 <=? n)%nat && (n <=? 122)%nat then ascii_of_nat (n - 32) else c.

Definition ascii_lower (c : ascii) : ascii :=
  let n := nat_of_ascii c in
  if (65 <=? n)%nat && (n <=? 90)%nat then ascii_of_nat (n + 32) else c.

Fixpoint str_map (f : ascii -> ascii) (s : string) : string :=
  match s with
  | EmptyString => EmptyString
  | String c s' => String (f c) (str_map f s')
  end.

Definition upper : string -> string := str_map ascii_upper.
Definition lower : string -> string := str_map ascii_lower.

(** [str.isspace] on ASCII: tab, newline, vertical tab, form feed, return,
    the four separators 28..31 and the blank. *)
Definition ascii_space (c : ascii) : bool :=
  let n := nat_of_ascii c in
  ((9 <=? n)%nat && (n <=? 13)%nat) || ((28 <=? n)%nat && (n <=? 32)%nat).

Fixpoint lstrip (s : string) : string :=
  match s with
  | String c s' => if ascii_space c then lstrip s' else s
  | EmptyString => EmptyString
  end.

Fixpoint rstrip (s : string) : string :=
  match s with
  | EmptyString => EmptyString
  | String c s' =>
      match rstrip s' with
      | EmptyString => if ascii_space c then EmptyString else String c EmptyString
      | r => String c r
      end
  end.

Definition strip (s : string) : string := rstrip (lstrip s).

(** [deque.append] on a deque with [maxlen]: the oldest items fall off. *)
Definition deque_append {A} (n : nat) (l : list A) (x : A) : list A :=
  drop (S (length l) - n) (l ++ [x]).

(** Truth value of a string and of an optional string; [x or y] on both. *)
Definition truthy (s : string) : bool :=
  match s with EmptyString => false | _ => true end.

Definition truthy_opt (o : option string) : bool :=
  match o with Some s => truthy s | None => false end.

Definition str_or (s d : string) : string := if truthy s then s else d.
Definition opt_or (o : option string) (d : string) : string :=
  match o with Some s => str_or s d | None => d end.

(** [m in s]. *)
Definition str_contains (m s : string) : bool :=
  match String.index 0 m s with Some _ => true | None => false end.

Lemma ascii_upper_idem c : ascii_upper (ascii_upper c) = ascii_upper c.
Proof. by destruct c as [[] [] [] [] [] [] [] []]. Qed.

Lemma ascii_lower_idem c : ascii_lower (ascii_lower c) = ascii_lower c.
Proof. by destruct c as [[] [] [] [] [] [] [] []]. Qed.

Lemma str_map_idem f s : (forall c, f (f c) = f c) -> str_map f (str_map f s) = str_map f s.
Proof. intros Hf. induction s as [|c s IH]; simpl; [done|]. by rewrite Hf, IH. Qed.

Lemma upper_idem s : upper (upper s) = upper s.
Proof. apply str_map_idem, ascii_upper_idem. Qed.

Lemma lower_idem s : lower (lower s) = lower s.
Proof. apply str_map_idem, ascii_lower_idem. Qed.

(** [sorted] on text compares code points; [sorted_keys] is [sorted(keys)]. *)
Definition str_le (a b : string) : Prop := String.leb a b = true.
#[export] Instance str_le_dec : RelDecision str_le.
Proof. intros a b. unfold str_le. apply _. Defined.

Definition sorted_keys (ks : list string) : list string := merge_sort str_le ks.
Definition sorted_strings (s : gset string) : list string := sorted_keys (elements s).

#[export] Instance str_le_total : Total str_le.
Proof. intros a b. apply String.leb_total. Qed.

#[export] Instance str_le_antisymm : AntiSymm (=) str_le.
Proof. intros a b. apply String.leb_antisym. Qed.

Lemma ascii_compare_nat a b : Ascii.compare a b = Nat.compare (nat_of_ascii a) (nat_of_ascii b).
Proof. unfold Ascii.compare, nat_of_ascii. by rewrite N2Nat.inj_compare. Qed.

#[export] Instance str_le_trans : Transitive str_le.
Proof.
  intros a. induction a as [|x a IH]; intros [|y b] [|z c]; unfold str_le, String.leb in *;
    simpl; try done.
  rewrite !ascii_compare_nat.
  destruct (Nat.compare_spec (nat_of_ascii x) (nat_of_ascii y)),
    (Nat.compare_spec (nat_of_ascii y) (nat_of_ascii z)),
    (Nat.compare_spec (nat_of_ascii x) (nat_of_ascii z)); try done; try lia.
  apply IH.
Qed.

Lemma sorted_keys_perm ks : sorted_keys ks ≡ₚ ks.
Proof. apply merge_sort_Permutation. Qed.

Lemma sorted_keys_unique ks ks' : ks ≡ₚ ks' -> sorted_keys ks = sorted_keys ks'.
Proof.
  intros Hp. apply (Sorted_unique str_le); try apply (Sorted_merge_sort str_le).
  by rewrite !sorted_keys_perm.
Qed.

Lemma elem_of_sorted_strings x s : x ∈ sorted_strings s <-> x ∈ s.
Proof. unfold sorted_strings. by rewrite sorted_keys_perm, elem_of_elements. Qed.

(** ** Transition systems

    Components are driven by sequences of calls. [runs step s evs] folds a
    state transformer over the events; an invariant of the steps is an
    invariant of every run. *)

Section Runs.
Context {S Ev : Type} (step : S -> Ev -> S).

Definition runs (s : S) (evs : list Ev) : S := fold_left step evs s.

Lemma runs_nil s : runs s [] = s.
Proof. done. Qed.

Lemma runs_cons s e evs : runs s (e :: evs) = runs (step s e) evs.
Proof. done. Qed.

Lemma runs_app s evs1 evs2 : runs s (evs1 ++ evs2) = runs (runs s evs1) evs2.
Proof. apply fold_left_app. Qed.

Lemma runs_snoc s evs e : runs s (evs ++ [e]) = step (runs s evs) e.
Proof. apply runs_app. Qed.

Lemma runs_invariant (I : S -> Prop) s evs :
  I s -> (forall s e, I s -> I (step s e)) -> I (runs s evs).
Proof. intros HI Hstep. revert s HI. induction evs; simpl; eauto. Qed.

(** A preorder every step respects is respected by runs. *)
Lemma runs_mono (R : S -> S -> Prop) `{!PreOrder R} s evs :
  (forall s e, R s (step s e)) -> R s (runs s evs).
Proof.
  intros Hstep. revert s. induction evs as [|e evs IH]; intros s; simpl; [done|].
  etrans; [apply Hstep|apply IH].
Qed.
End Runs.

(** The same for relational steps: stdpp's [rtc] with an invariant. *)
Lemma rtc_invariant {S} (R : S -> S -> Prop) (I : S -> Prop) s s' :
  rtc R s s' -> I s -> (forall a b, R a b -> I a -> I b) -> I s'.
Proof. induction 1; eauto. Qed.

(** ** Automation shared by the components *)

Create HintDb py.
Create Rewrite HintDb py.
#[export] Hint Rewrite @runs_nil @runs_cons @runs_app : py.
#[export] Hint Rewrite upper_idem lower_idem : py.

(** Split every [match]/[if] of the goal and the hypotheses, closing the
    branches that are contradictory or immediate. *)
Ltac split_matches :=
  repeat (first [ case_match | progress simplify_eq/= ]); try done.

(** Turn the boolean tests of the code into propositions. *)
Ltac bool_prop :=
  repeat match goal with
  | H : context [ (_ && _) = true ] |- _ => rewrite andb_true_iff in H
  | H : context [ (_ || _) = true ] |- _ => rewrite orb_true_iff in H
  | H : context [ (_ || _) = false ] |- _ => rewrite orb_false_iff in H
  | H : context [ negb _ = true ] |- _ => rewrite negb_true_iff in H
  | H : context [ negb _ = false ] |- _ => rewrite negb_false_iff in H
  | H : context [ (_ <=? _)%Z = true ] |- _ => rewrite Z.leb_le in H
  | H : context [ (_ <=? _)%Z = false ] |- _ => rewrite Z.leb_gt in H
  | H : context [ (_ <? _)%Z = true ] |- _ => rewrite Z.ltb_lt in H
  | H : context [ (_ <? _)%Z = false ] |- _ => rewrite Z.ltb_ge in H
  | H : context [ (_ =? _)%Z = true ] |- _ => rewrite Z.eqb_eq in H
  | H : context [ (_ =? _)%Z = false ] |- _ => rewrite Z.eqb_neq in H
  | H : bool_decide _ = true |- _ => apply bool_decide_eq_true in H
  | H : bool_decide _ = false |- _ => apply bool_decide_eq_false in H
  | H : _ /\ _ |- _ => destruct H
  end.
