(* ===== verification/Dict.v ===== *)
(** * Dicts whose order shows

    A Python dict keeps the order its keys were inserted in. Where that order shows, it
    is an association list, each key once: reading, writing and popping a key. *)

From stdpp Require Import base gmap strings list.
From S2P Require Import Prelude.

(** [dict.get] on an object kept in insertion order with distinct keys. *)
Fixpoint assoc `{EqDecision K} {A} (k : K) (fs : list (K * A)) : option A :=
  match fs with
  | [] => None
  | (k', v) :: fs => if decide (k = k') then Some v else assoc k fs
  end.

(** [d[k] = v]: the key keeps its place. *)
Fixpoint assoc_set `{EqDecision K} {A} (k : K) (v : A) (d : list (K * A)) : list (K * A) :=
  match d with
  | [] => [(k, v)]
  | (k', v') :: d => if decide (k = k') then (k', v) :: d else (k', v') :: assoc_set k v d
  end.

(** [d.pop(k, None)]. *)
Definition assoc_del `{EqDecision K} {A} (k : K) (d : list (K * A)) : list (K * A) :=
  List.filter (fun e => negb (bool_decide (e.1 = k))) d.

Lemma assoc_Some_elem `{EqDecision K} {A} (k : K) (v : A) fs : assoc k fs = Some v -> (k, v) ∈ fs.
Proof.
  induction fs as [|[k' v'] fs IH]; simpl; [done|]. case_decide; intros; simplify_eq.
  - by left.
  - right. auto.
Qed.

Lemma assoc_elem `{EqDecision K} {A} (k : K) (v : A) fs : NoDup (map fst fs) -> (k, v) ∈ fs -> assoc k fs = Some v.
Proof.
  induction fs as [|[k' v'] fs IH]; simpl; [by intros _ ?%not_elem_of_nil|].
  intros [Hn Hd]%NoDup_cons [H|H]%elem_of_cons; simplify_eq; case_decide as E; try done.
  - exfalso. apply Hn. subst. by apply (list_elem_of_fmap_2 fst fs (k', v)).
  - auto.
Qed.

Lemma assoc_None `{EqDecision K} {A} (k : K) (fs : list (K * A)) : assoc k fs = None <-> k ∉ map fst fs.
Proof.
  induction fs as [|[k' v'] fs IH]; simpl; [by split; intros; [apply not_elem_of_nil|]|].
  rewrite not_elem_of_cons. case_decide; [subst; intuition done|]. rewrite IH. intuition.
Qed.

Lemma assoc_perm `{EqDecision K} {A} (k : K) (fs gs : list (K * A)) :
  NoDup (map fst fs) -> fs ≡ₚ gs -> assoc k fs = assoc k gs.
Proof.
  intros Hd Hp. destruct (assoc k gs) as [v|] eqn:E.
  - apply assoc_elem; [done|]. rewrite Hp. by apply assoc_Some_elem.
  - apply assoc_None. apply assoc_None in E. contradict E. by rewrite <- Hp.
Qed.

Lemma assoc_set_some `{EqDecision K} {A} (k k' : K) (v x : A) d :
  assoc k (assoc_set k' v d) = Some x -> x = v \/ assoc k d = Some x.
Proof.
  induction d as [|[k0 v0] d IH]; simpl; [case_decide; naive_solver|].
  repeat (case_decide; simpl); naive_solver.
Qed.

Lemma assoc_set_keys `{EqDecision K} {A} (k : K) (v : A) l :
  forall x, x ∈ (assoc_set k v l).*1 -> x = k \/ x ∈ l.*1.
Proof.
  induction l as [|[k1 v1] l IH]; intros x; cbn; [set_solver|].
  destruct (decide (k = k1)) as [->|]; cbn; [set_solver|].
  intros [->|Hx]%elem_of_cons; [set_solver|]. destruct (IH x Hx); set_solver.
Qed.

Lemma assoc_none `{EqDecision K} {A} (k : K) (l : list (K * A)) : k ∉ l.*1 -> assoc k l = None.
Proof.
  induction l as [|[k1 v1] l IH]; [done|]. cbn. intros Hk. apply not_elem_of_cons in Hk as [H1 H2].
  rewrite decide_False by done. by apply IH.
Qed.

Lemma assoc_del_none `{EqDecision K} {A} (k : K) (l : list (K * A)) : k ∉ l.*1 -> assoc_del k l = l.
Proof.
  unfold assoc_del. induction l as [|[k1 v1] l IH]; [done|]. cbn. intros Hk.
  apply not_elem_of_cons in Hk as [H1 H2]. rewrite bool_decide_false by done. cbn. by rewrite IH.
Qed.

Lemma assoc_cons `{EqDecision K} {A} (k k1 : K) (v : A) l : assoc k ((k1, v) :: l) = if decide (k = k1) then Some v else assoc k l.
Proof. done. Qed.

Lemma assoc_set_same `{EqDecision K} {A} (k : K) (v : A) d : assoc k (assoc_set k v d) = Some v.
Proof.
  induction d as [|[k1 v1] d IH]; cbn; [by rewrite decide_True|].
  destruct (decide (k = k1)) as [->|]; cbn; [by rewrite decide_True|by rewrite decide_False].
Qed.

Lemma assoc_set_other `{EqDecision K} {A} (k k' : K) (v : A) d : k <> k' -> assoc k (assoc_set k' v d) = assoc k d.
Proof.
  intros Hne. induction d as [|[k1 v1] d IH]; cbn; [by rewrite decide_False|].
  destruct (decide (k' = k1)) as [->|]; cbn; [by rewrite !decide_False|]. by rewrite IH.
Qed.

Lemma elem_of_assoc_del `{EqDecision K} {A} (k : K) (d : list (K * A)) e : e ∈ assoc_del k d <-> e.1 <> k /\ e ∈ d.
Proof.
  unfold assoc_del. rewrite !list_elem_of_In, filter_In, negb_true_iff, bool_decide_eq_false. tauto.
Qed.

Lemma assoc_del_same `{EqDecision K} {A} (k : K) (d : list (K * A)) : assoc k (assoc_del k d) = None.
Proof. apply assoc_none. intros (e & -> & He)%list_elem_of_fmap. by apply elem_of_assoc_del in He as []. Qed.

Lemma assoc_del_other `{EqDecision K} {A} (k k' : K) (d : list (K * A)) : k <> k' -> assoc k (assoc_del k' d) = assoc k d.
Proof.
  intros Hne. unfold assoc_del. induction d as [|[k1 v1] d IH]; [done|]. cbn.
  destruct (decide (k1 = k')) as [->|].
  - rewrite bool_decide_true, decide_False by done. exact IH.
  - rewrite bool_decide_false by done. cbn. by rewrite IH.
Qed.

Lemma elem_of_assoc_set `{EqDecision K} {A} (k : K) (v : A) d e : e ∈ assoc_set k v d -> e = (k, v) \/ e ∈ d.
Proof.
  induction d as [|[k1 v1] d IH]; cbn; [set_solver|].
  destruct (decide (k = k1)) as [->|]; intros [->|He]%elem_of_cons; set_solver.
Qed.

(** The keys of a dict stay distinct. *)
Lemma assoc_del_NoDup `{EqDecision K} {A} (k : K) (d : list (K * A)) : NoDup d.*1 -> NoDup (assoc_del k d).*1.
Proof.
  unfold assoc_del. induction d as [|[k1 v1] d IH]; [done|].
  cbn. intros [Hk Hnd]%NoDup_cons. destruct (negb _); cbn; [|by apply IH].
  apply NoDup_cons. split; [|by apply IH]. intros (e & Ek & He)%list_elem_of_fmap.
  apply Hk, list_elem_of_fmap. exists e. split; [done|]. by apply elem_of_assoc_del in He as [].
Qed.

Lemma assoc_set_NoDup `{EqDecision K} {A} (k : K) (v : A) d : NoDup d.*1 -> NoDup (assoc_set k v d).*1.
Proof.
  induction d as [|[k1 v1] d IH]; cbn [assoc_set]; intros Hnd; [apply NoDup_singleton|].
  rewrite fmap_cons in Hnd. apply NoDup_cons in Hnd as [Hk Hnd].
  destruct (decide (k = k1)) as [->|]; rewrite fmap_cons; apply NoDup_cons; split; try done;
    [|by apply IH]. by intros [?|?]%assoc_set_keys.
Qed.

Lemma filter_keys_NoDup {K A} (f : K * A -> bool) (d : list (K * A)) : NoDup d.*1 -> NoDup (List.filter f d).*1.
Proof.
  induction d as [|e d IH]; [done|]. cbn. intros [He Hd]%NoDup_cons. destruct (f e); [|by apply IH].
  cbn. constructor; [|by apply IH]. intros (e' & Ee & He')%list_elem_of_fmap. apply He. rewrite Ee.
  apply list_elem_of_In, filter_In in He' as [He' _]. apply list_elem_of_fmap. exists e'. split; [done|].
  by apply list_elem_of_In.
Qed.

(** Setting a key that is there. *)
Lemma assoc_set_same_keys `{EqDecision K} {A} (k : K) (v : A) d : k ∈ d.*1 -> (assoc_set k v d).*1 = d.*1.
Proof.
  induction d as [|[k1 v1] d IH]; cbn; [by intros ?%not_elem_of_nil|]. intros Hk.
  destruct (decide (k = k1)) as [->|Hne]; cbn; [done|]. f_equal. apply IH. set_solver.
Qed.
