(* ===== verification/PyFloat.v ===== *)
(** * Python floats

    A Python [float] is an IEEE 754 binary64 number. It is modelled by the
    Standard Library's executable specification of that format ([spec_float]
    with 53 bits of precision and maximal exponent 1024): rounding, signed
    zeros, infinities and NaN are the code's, nothing is idealised. This file
    names the operations the sources use, Python's [max], [min] and comparisons
    included, and gives the order theory the guards of the program rest on. *)

From stdpp Require Import base list.
From Stdlib Require Import ZArith Lia Floats.SpecFloat.
From S2P Require Import Prelude.

Declare Scope float_scope.
Delimit Scope float_scope with f.

Abbreviation float := spec_float.

(** ** Operations *)

Definition fprec : Z := 53.
Definition femax : Z := 1024.

Definition fadd : float -> float -> float := SFadd fprec femax.
Definition fsub : float -> float -> float := SFsub fprec femax.
Definition fmul : float -> float -> float := SFmul fprec femax.

(** IEEE division; Python raises [ZeroDivisionError] instead when the divisor
    is a zero, so the code's divisions are [fdiv] behind the code's guard, or
    [py_div]. *)
Definition fdiv : float -> float -> float := SFdiv fprec femax.

Definition fneg : float -> float := SFopp.
Definition fabs : float -> float := SFabs.

Definition fltb : float -> float -> bool := SFltb.
Definition fleb : float -> float -> bool := SFleb.
Definition feqb : float -> float -> bool := SFeqb.

Definition fzero : float := S754_zero false.
Definition fnan : float := S754_nan.
Definition finf : float := S754_infinity false.
Definition fninf : float := S754_infinity true.

(** [float(n)] for an integer, correctly rounded. *)
Definition of_Z (n : Z) : float := binary_normalize fprec femax n 0 false.

(** The literal [n / 10^k]: the correctly rounded quotient of two integers that
    are exact in binary64, hence the nearest double of the decimal literal. *)
Definition lit (n : Z) (k : nat) : float := fdiv (of_Z n) (of_Z (10 ^ Z.of_nat k)).

Definition fone : float := of_Z 1.

(** [(a - b).total_seconds()] of two moments in microseconds. *)
Definition total_seconds (micros : Z) : float := fdiv (of_Z micros) (of_Z 1000000).

Definition is_nan (x : float) : bool := match x with S754_nan => true | _ => false end.
Definition is_inf (x : float) : bool := match x with S754_infinity _ => true | _ => false end.

(** [math.isfinite]. *)
Definition isfinite (x : float) : bool := negb (is_nan x) && negb (is_inf x).

(** [bool(x)]: every float but the zeros, NaN included. *)
Definition ftruthy (x : float) : bool := negb (feqb x fzero).

(** [int(x)]: truncation towards zero; a NaN or an infinity raises. *)
Definition ftrunc (x : float) : option Z :=
  match x with
  | S754_zero _ => Some 0
  | S754_finite s m e =>
      let n := if (0 <=? e)%Z then (Z.pos m * 2 ^ e)%Z else (Z.pos m / 2 ^ (- e))%Z in
      Some (if s then (- n)%Z else n)
  | _ => None
  end%Z.

(** A value written to a REAL NOT NULL column: SQLite stores a NaN as NULL, which is
    refused, and a zero without its sign. *)
Definition sql_real (x : float) : option float :=
  if is_nan x then None else Some (if feqb x fzero then fzero else x).

(** [math.sqrt] and [np.sqrt] round correctly. *)
Definition fsqrt (x : float) : float := SFsqrt fprec femax x.

(** Python's [max(a, b)] keeps [a] unless [b > a]; [min(a, b)] keeps [a] unless
    [b < a]. With a NaN the answer depends on the order of the arguments. *)
Definition py_max (a b : float) : float := if fltb a b then b else a.
Definition py_min (a b : float) : float := if fltb b a then b else a.

(** [x / y]. *)
Inductive float_error := ZeroDivisionError.
Definition py_div (x y : float) : result float_error float :=
  if feqb y fzero then Raise ZeroDivisionError else Ok (fdiv x y).

(** [sum(xs)] of CPython 3.12 and later: the first float is added to the integer
    0, the others with Neumaier's compensation, which is added at the end when it
    is a finite non-zero. *)
Definition sum_step (fc : float * float) (x : float) : float * float :=
  let '(f, c) := fc in
  let t := fadd f x in
  (t, if fleb (fabs x) (fabs f) then fadd c (fadd (fsub f t) x) else fadd c (fadd (fsub x t) f)).

Definition fsum (xs : list float) : float :=
  match xs with
  | [] => fzero
  | x :: rest =>
      let '(f, c) := fold_left sum_step rest (fadd fzero x, fzero) in
      if ftruthy c && isfinite c then fadd f c else f
  end.

Infix "+" := fadd : float_scope.
Infix "-" := fsub : float_scope.
Infix "*" := fmul : float_scope.
Infix "/" := fdiv : float_scope.
Infix "<?" := fltb : float_scope.
Infix "<=?" := fleb : float_scope.
Infix "=?" := feqb : float_scope.
Notation "x >? y" := (fltb y x) (at level 70, only parsing) : float_scope.
Notation "x >=? y" := (fleb y x) (at level 70, only parsing) : float_scope.

#[export] Instance float_eq_dec : EqDecision float.
Proof. solve_decision. Defined.

(** ** Order

    The comparison of two floats that are not NaN is the lexicographic order of
    their keys (class, exponent, mantissa). *)

Definition fkey (x : float) : Z * Z * Z :=
  (match x with
   | S754_infinity true => (-2, 0, 0)
   | S754_finite true m e => (-1, - e, Zneg m)
   | S754_zero _ | S754_nan => (0, 0, 0)
   | S754_finite false m e => (1, e, Zpos m)
   | S754_infinity false => (2, 0, 0)
   end)%Z.

Definition key_lt (a b : Z * Z * Z) : Prop :=
  (let '(a1, a2, a3) := a in
   let '(b1, b2, b3) := b in
   a1 < b1 \/ (a1 = b1 /\ (a2 < b2 \/ (a2 = b2 /\ a3 < b3))))%Z.

Lemma fcompare_spec x y :
  match SFcompare x y with
  | None => is_nan x = true \/ is_nan y = true
  | Some Lt => is_nan x = false /\ is_nan y = false /\ key_lt (fkey x) (fkey y)
  | Some Eq => is_nan x = false /\ is_nan y = false /\ fkey x = fkey y
  | Some Gt => is_nan x = false /\ is_nan y = false /\ key_lt (fkey y) (fkey x)
  end.
Proof.
  destruct x as [[]|[]| |[] mx ex], y as [[]|[]| |[] my ey]; simpl;
    try (repeat split; lia); auto.
  - destruct (Z.compare_spec ex ey); simpl; try (repeat split; lia).
    fold (Pos.compare mx my).
    destruct (Pos.compare_spec mx my); simpl; repeat split; try lia; subst; done.
  - destruct (Z.compare_spec ex ey); simpl; try (repeat split; lia).
    fold (Pos.compare mx my).
    destruct (Pos.compare_spec mx my); simpl; repeat split; try lia; subst; done.
Qed.

(** The three comparisons, as propositions on keys. *)
Ltac float_cmp_spec x y :=
  pose proof (fcompare_spec x y) as H;
  destruct (fkey x) as [[a1 a2] a3], (fkey y) as [[b1 b2] b3];
  destruct (SFcompare x y) as [[]|]; simpl in *;
  split; intros K; try done; destruct_and?; simplify_eq;
  intuition (first [congruence | lia | idtac]).

Lemma fltb_spec x y :
  fltb x y = true <-> is_nan x = false /\ is_nan y = false /\ key_lt (fkey x) (fkey y).
Proof. unfold fltb, SFltb. float_cmp_spec x y. Qed.

Lemma feqb_spec x y :
  feqb x y = true <-> is_nan x = false /\ is_nan y = false /\ fkey x = fkey y.
Proof. unfold feqb, SFeqb. float_cmp_spec x y. Qed.

Lemma fleb_spec x y :
  fleb x y = true <-> is_nan x = false /\ is_nan y = false /\ ~ key_lt (fkey y) (fkey x).
Proof. unfold fleb, SFleb. float_cmp_spec x y. Qed.

(** [forder] decides goals about comparisons of floats: it replaces every
    comparison by its meaning on keys and calls [lia] and [congruence]. *)
Ltac forder_hyps :=
  repeat match goal with
  | H : fltb _ _ = true |- _ => apply fltb_spec in H
  | H : fleb _ _ = true |- _ => apply fleb_spec in H
  | H : feqb _ _ = true |- _ => apply feqb_spec in H
  | H : fltb ?x ?y = false |- _ =>
      assert (~ (is_nan x = false /\ is_nan y = false /\ key_lt (fkey x) (fkey y)))
        by (rewrite <- fltb_spec, H; discriminate); clear H
  | H : fleb ?x ?y = false |- _ =>
      assert (~ (is_nan x = false /\ is_nan y = false /\ ~ key_lt (fkey y) (fkey x)))
        by (rewrite <- fleb_spec, H; discriminate); clear H
  | H : feqb ?x ?y = false |- _ =>
      assert (~ (is_nan x = false /\ is_nan y = false /\ fkey x = fkey y))
        by (rewrite <- feqb_spec, H; discriminate); clear H
  end.

Ltac forder :=
  intros;
  repeat match goal with
  | |- fltb ?x ?y = false => apply not_true_is_false; intro
  | |- fleb ?x ?y = false => apply not_true_is_false; intro
  | |- feqb ?x ?y = false => apply not_true_is_false; intro
  end;
  rewrite ?fltb_spec, ?fleb_spec, ?feqb_spec; forder_hyps;
  repeat match goal with
  | |- context [ fkey ?x ] => destruct (fkey x) as [[? ?] ?]
  | H : context [ fkey ?x ] |- _ => destruct (fkey x) as [[? ?] ?]
  end;
  simpl in *;
  repeat match goal with
  | H : is_nan ?x = _ |- _ => rewrite H in *; clear H
  end;
  intuition (try congruence; try lia).

Lemma fltb_irrefl x : fltb x x = false.
Proof. forder. Qed.

Lemma fltb_trans x y z : fltb x y = true -> fltb y z = true -> fltb x z = true.
Proof. forder. Qed.

Lemma fleb_trans x y z : fleb x y = true -> fleb y z = true -> fleb x z = true.
Proof. forder. Qed.

Lemma fleb_refl x : is_nan x = false -> fleb x x = true.
Proof. forder. Qed.

Lemma fltb_fleb_trans x y z : fltb x y = true -> fleb y z = true -> fltb x z = true.
Proof. forder. Qed.

Lemma fleb_fltb_trans x y z : fleb x y = true -> fltb y z = true -> fltb x z = true.
Proof. forder. Qed.

Lemma fltb_fleb x y : fltb x y = true -> fleb x y = true.
Proof. forder. Qed.

Lemma fltb_negb_fleb x y :
  is_nan x = false -> is_nan y = false -> fltb x y = negb (fleb y x).
Proof.
  intros. destruct (fleb y x) eqn:?; simpl; [|apply fltb_spec]; forder.
Qed.

Lemma fleb_total x y :
  is_nan x = false -> is_nan y = false -> fleb x y = true \/ fleb y x = true.
Proof. intros. destruct (fleb x y) eqn:?; [by left|right]. forder. Qed.

(** A comparison with a NaN is false. *)
Lemma fltb_nan_l x y : is_nan x = true -> fltb x y = false.
Proof. forder. Qed.
Lemma fltb_nan_r x y : is_nan y = true -> fltb x y = false.
Proof. forder. Qed.

(** ** [max] and [min] *)

Lemma py_max_nan a b : is_nan a = false -> is_nan b = false -> is_nan (py_max a b) = false.
Proof. unfold py_max. by destruct (fltb a b). Qed.

Lemma py_min_nan a b : is_nan a = false -> is_nan b = false -> is_nan (py_min a b) = false.
Proof. unfold py_min. by destruct (fltb b a). Qed.

Lemma py_max_le_l a b : is_nan a = false -> fleb a (py_max a b) = true.
Proof. unfold py_max. destruct (fltb a b) eqn:?; forder. Qed.

Lemma py_max_le_r a b : is_nan a = false -> is_nan b = false -> fleb b (py_max a b) = true.
Proof. unfold py_max. destruct (fltb a b) eqn:?; forder. Qed.

Lemma py_min_le_l a b : is_nan a = false -> fleb (py_min a b) a = true.
Proof. unfold py_min. destruct (fltb b a) eqn:?; forder. Qed.

Lemma py_min_le_r a b : is_nan a = false -> is_nan b = false -> fleb (py_min a b) b = true.
Proof. unfold py_min. destruct (fltb b a) eqn:?; forder. Qed.

(** ** Signs and NaN through the arithmetic

    Rounding keeps the sign of the exact result and never makes a NaN. *)

Definition fsign (x : float) : bool :=
  match x with
  | S754_zero s | S754_infinity s | S754_finite s _ _ => s
  | S754_nan => false
  end.

Lemma iter_pos_ind {A} (P : A -> Prop) (f : A -> A) n :
  (forall a, P a -> P (f a)) -> forall a, P a -> P (iter_pos f n a).
Proof. intros Hf. induction n; simpl; auto. Qed.

Lemma shr_fexp_nonneg m e l : (0 <= m)%Z -> (0 <= shr_m (fst (shr_fexp fprec femax m e l)))%Z.
Proof.
  intros Hm. unfold shr_fexp, shr.
  assert (Hr : (0 <= shr_m (shr_record_of_loc m l))%Z) by (destruct l as [|[]]; simpl; lia).
  destruct (_ - e)%Z; simpl; auto.
  apply (iter_pos_ind (fun r => 0 <= shr_m r)%Z); [|done].
  intros [[|[]|[]] ? ?]; simpl; lia.
Qed.

Lemma round_nearest_even_nonneg m l : (0 <= m)%Z -> (0 <= round_nearest_even m l)%Z.
Proof. intros. destruct l as [|[]]; simpl; try destruct (Z.even m); lia. Qed.

Lemma binary_round_aux_sign s m e l :
  (0 <= m)%Z ->
  is_nan (binary_round_aux fprec femax s m e l) = false /\
  fsign (binary_round_aux fprec femax s m e l) = s.
Proof.
  intros Hm. unfold binary_round_aux.
  pose proof (shr_fexp_nonneg m e l Hm) as H1.
  destruct (shr_fexp _ _ m e l) as [r1 e1]. simpl in H1.
  pose proof (shr_fexp_nonneg _ e1 loc_Exact
    (round_nearest_even_nonneg _ (loc_of_shr_record r1) H1)) as H2.
  destruct (shr_fexp _ _ _ e1 _) as [r2 e2]. simpl in H2.
  destruct (shr_m r2); [done| |lia]. by destruct (_ <=? _)%Z.
Qed.

Lemma binary_normalize_sign m e :
  is_nan (binary_normalize fprec femax m e false) = false /\
  fsign (binary_normalize fprec femax m e false) = (m <? 0)%Z.
Proof.
  destruct m; simpl; [done| |]; unfold binary_round;
    destruct (shl_align _ _ _); by apply binary_round_aux_sign.
Qed.

(** Non-negative: a number, at least zero. *)
Definition fnonneg (x : float) : bool := fleb fzero x.

Lemma fnonneg_sign x : is_nan x = false -> fsign x = false -> fnonneg x = true.
Proof. by destruct x as [[]|[]| |[] ? ?]. Qed.

Lemma of_Z_not_nan n : is_nan (of_Z n) = false.
Proof. apply binary_normalize_sign. Qed.

Lemma of_Z_nonneg n : (0 <= n)%Z -> fnonneg (of_Z n) = true.
Proof.
  intros. destruct (binary_normalize_sign n 0) as [? Hs].
  apply fnonneg_sign; [done|]. unfold of_Z. rewrite Hs. by apply Z.ltb_ge.
Qed.

Lemma fadd_nonneg x y : fnonneg x = true -> fnonneg y = true -> fnonneg (fadd x y) = true.
Proof.
  intros Hx Hy. destruct x as [[]|[]| |[] mx ex], y as [[]|[]| |[] my ey]; try done.
  unfold fadd, SFadd.
  match goal with |- fnonneg (binary_normalize _ _ ?m ?e _) = _ =>
    destruct (binary_normalize_sign m e) as [? Hs] end.
  apply fnonneg_sign; [done|]. rewrite Hs. cbn [cond_Zopp]. by apply Z.ltb_ge.
Qed.

Lemma fsub_not_nan x y :
  isfinite x = true -> isfinite y = true -> is_nan (fsub x y) = false.
Proof.
  destruct x as [[]|[]| |sx mx ex], y as [[]|[]| |sy my ey]; try done; intros _ _;
    by apply binary_normalize_sign.
Qed.

Lemma fadd_not_nan x y :
  isfinite x = true -> isfinite y = true -> is_nan (fadd x y) = false.
Proof.
  destruct x as [[]|[]| |sx mx ex], y as [[]|[]| |sy my ey]; try done; intros _ _;
    by apply binary_normalize_sign.
Qed.

Lemma fmul_not_nan x y :
  isfinite x = true -> isfinite y = true -> is_nan (fmul x y) = false.
Proof.
  destruct x as [[]|[]| |sx mx ex], y as [[]|[]| |sy my ey]; try done; intros _ _;
    by apply binary_round_aux_sign.
Qed.

Lemma fmul_nonneg x y :
  isfinite x = true -> isfinite y = true ->
  fnonneg x = true -> fnonneg y = true -> fnonneg (fmul x y) = true.
Proof.
  intros Fx Fy Hx Hy. destruct x as [[]|[]| |[] mx ex], y as [[]|[]| |[] my ey]; try done.
  apply fnonneg_sign; by apply binary_round_aux_sign.
Qed.

Lemma fnonneg_not_nan x : fnonneg x = true -> is_nan x = false.
Proof. by destruct x as [[]|[]| |[] ? ?]. Qed.

Lemma py_max_zero_nonneg x : is_nan x = false -> fnonneg (py_max x fzero) = true.
Proof. intros. unfold fnonneg. by apply py_max_le_r. Qed.

(** [max(x, 0.0)] is a number at least zero even for [x] NaN when the zero
    comes first. *)
Lemma py_max_zero_first x : fnonneg (py_max fzero x) = true.
Proof. unfold fnonneg, py_max. destruct (fltb fzero x) eqn:H; [|done]. forder. Qed.

Create HintDb pyfloat.
#[export] Hint Resolve of_Z_not_nan of_Z_nonneg fadd_nonneg fmul_nonneg fsub_not_nan
  fadd_not_nan fmul_not_nan fnonneg_not_nan py_max_nan py_min_nan py_max_zero_nonneg
  py_max_zero_first : pyfloat.
