(* ===== verification/Models.v ===== *)
(** * Domain models

    The enumerations and records of [src/models.py] that the components share, the match
    of a leg's position ([src/engine/leg_performance.py]),
    and the JSON values stored in the program's text columns. Enumerations are
    inductive types with their Python [value]; a JSON column is modelled by the
    value it encodes. *)

From stdpp Require Import base gmap strings list.
From Stdlib Require Import ZArith Ascii.
From S2P Require Import Prelude PyFloat.

(** ** JSON *)

Inductive json : Type :=
  | JNull
  | JBool (b : bool)
  | JInt (n : Z)
  | JFloat (x : float)
  | JStr (s : string)
  | JArr (l : list json)
  | JObj (fields : list (string * json)).

(** Induction over the nesting of arrays and objects. *)
Section JsonInd.
Context (P : json -> Prop).
Context (Hnull : P JNull) (Hbool : forall b, P (JBool b)) (Hint : forall n, P (JInt n))
  (Hfloat : forall x, P (JFloat x)) (Hstr : forall s, P (JStr s))
  (Harr : forall l, Forall P l -> P (JArr l))
  (Hobj : forall fs, Forall (fun kv => P kv.2) fs -> P (JObj fs)).

Fixpoint json_nested_ind (j : json) : P j :=
  match j with
  | JNull => Hnull
  | JBool b => Hbool b
  | JInt n => Hint n
  | JFloat x => Hfloat x
  | JStr s => Hstr s
  | JArr l => Harr l ((fix go l : Forall P l :=
      match l with [] => List.Forall_nil _ | x :: l => List.Forall_cons _ _ _ (json_nested_ind x) (go l) end) l)
  | JObj fs => Hobj fs ((fix go fs : Forall (fun kv => P kv.2) fs :=
      match fs with
      | [] => List.Forall_nil _
      | (k, x) :: fs => List.Forall_cons _ (k, x) _ (json_nested_ind x) (go fs)
      end) fs)
  end.
End JsonInd.

(** ** Enumerations *)

Inductive Side := BUY | SELL.
#[export] Instance Side_eq_dec : EqDecision Side. Proof. solve_decision. Defined.
Definition Side_value (s : Side) : string :=
  match s with BUY => "buy" | SELL => "sell" end.

Inductive SignalAction := LONG | SHORT | EXIT | HOLD.
#[export] Instance SignalAction_eq_dec : EqDecision SignalAction. Proof. solve_decision. Defined.
Definition SignalAction_value (a : SignalAction) : string :=
  match a with LONG => "long" | SHORT => "short" | EXIT => "exit" | HOLD => "hold" end.

(** [action in (SignalAction.LONG, SignalAction.SHORT)]: the actions that open
    a position. *)
Definition is_entry_action (a : SignalAction) : bool :=
  match a with LONG | SHORT => true | EXIT | HOLD => false end.

(** ** Records *)

Record Bar := mkBar {
  bar_timestamp : Z;              (* microseconds since the epoch *)
  bar_open : float; bar_high : float; bar_low : float; bar_close : float;
  bar_volume : float;
  bar_symbol : string
}.

Record Signal := mkSignal {
  sig_symbol : string;
  sig_action : SignalAction;
  sig_price : float;
  sig_timestamp : Z;
  sig_strategy_id : string;
  sig_metadata : list (string * json)
}.

Record Order := mkOrder {
  ord_symbol : string;
  ord_side : Side;
  ord_qty : float;
  ord_type : string;
  ord_stop_price : option float;
  ord_strategy_id : string;
  ord_client_order_id : option string
}.

Record OrderResult := mkOrderResult {
  res_symbol : string;
  res_side : Side;
  res_qty : float;
  res_filled_price : float;
  res_filled_at : Z;
  res_order_id : option string;
  res_status : string
}.

Record Position := mkPosition {
  pos_symbol : string;
  pos_qty : float;
  pos_side : string;
  pos_avg_entry_price : float;
  pos_unrealized_pl : float
}.

Record Account := mkAccount {
  equity : float;
  cash : float;
  buying_power : float
}.

(** The exact value of [s.value] determines the member, so [SignalAction(v)]
    inverts it. *)
Lemma SignalAction_value_inj a b : SignalAction_value a = SignalAction_value b -> a = b.
Proof. by destruct a, b. Qed.

Lemma Side_value_inj a b : Side_value a = Side_value b -> a = b.
Proof. by destruct a, b. Qed.

(** ** Positions of a leg *)

(** [s.upper().replace("/", "")]. *)
Fixpoint drop_slashes (s : string) : string :=
  match s with
  | EmptyString => EmptyString
  | String c s' => if decide (c = "/"%char) then drop_slashes s' else String c (drop_slashes s')
  end.

Definition crypto_position_symbol (symbol : string) : string := drop_slashes (upper symbol).

Definition match_position (symbol : string) (positions : list Position) : option Position :=
  let target := crypto_position_symbol symbol in
  List.find (fun p => bool_decide (crypto_position_symbol (pos_symbol p) = target)) positions.
