(* ===== verification/Sha256.v ===== *)
(** * SHA-256

    Python's [hashlib.sha256(data).hexdigest()], which pins configurations
    ([src/lifecycle/config_hash.py]) and makes client order ids deterministic
    ([src/execution/idempotent_execution.py]). An executable definition of FIPS
    180-4 on 32-bit words held as [Z], checked on the standard test vectors. *)

From stdpp Require Import base list strings.
From Stdlib Require Import ZArith Ascii Lia.
From S2P Require Import Prelude.

Local Open Scope Z_scope.

(** ** Words *)

Definition w32 (x : Z) : Z := Z.land x 0xffffffff.
Definition add32 (x y : Z) : Z := w32 (x + y).
Definition rotr (n x : Z) : Z := Z.lor (Z.shiftr x n) (w32 (Z.shiftl x (32 - n))).
Definition not32 (x : Z) : Z := Z.lxor x 0xffffffff.

Definition Ch (x y z : Z) : Z := Z.lxor (Z.land x y) (Z.land (not32 x) z).
Definition Maj (x y z : Z) : Z :=
  Z.lxor (Z.lxor (Z.land x y) (Z.land x z)) (Z.land y z).
Definition bsig0 (x : Z) : Z := Z.lxor (Z.lxor (rotr 2 x) (rotr 13 x)) (rotr 22 x).
Definition bsig1 (x : Z) : Z := Z.lxor (Z.lxor (rotr 6 x) (rotr 11 x)) (rotr 25 x).
Definition ssig0 (x : Z) : Z := Z.lxor (Z.lxor (rotr 7 x) (rotr 18 x)) (Z.shiftr x 3).
Definition ssig1 (x : Z) : Z := Z.lxor (Z.lxor (rotr 17 x) (rotr 19 x)) (Z.shiftr x 10).

(** The constants are the first 32 bits of the fractional parts of the cube
    roots of the first 64 primes, and of the square roots of the first 8. *)
Definition is_prime (n : Z) : bool :=
  forallb (fun d => negb (n mod Z.of_nat d =? 0)) (seq 2 (Z.to_nat (Z.sqrt n) - 1)).

Definition first_primes (k : nat) : list Z :=
  take k (filter (fun n => Is_true (is_prime n)) (map Z.of_nat (seq 2 320))).

(** The largest [r] with [r ^ 3 <= n], one bit at a time from bit [k - 1] down. *)
Fixpoint cube_root (k : nat) (r n : Z) : Z :=
  match k with
  | O => r
  | S k =>
      let r' := r + Z.shiftl 1 (Z.of_nat k) in
      cube_root k (if r' * r' * r' <=? n then r' else r) n
  end.

Definition sha_K : list Z :=
  Eval vm_compute in
    map (fun p => w32 (cube_root 36 0 (Z.shiftl p 96))) (first_primes 64).

Definition sha_H0 : list Z :=
  Eval vm_compute in map (fun p => w32 (Z.sqrt (Z.shiftl p 64))) (first_primes 8).

(** ** Padding and blocks *)

Definition be_bytes (n : nat) (x : Z) : list Z :=
  map (fun i => Z.land (Z.shiftr x (8 * Z.of_nat (n - 1 - i))) 0xff) (seq 0 n).

Definition sha_pad (msg : list Z) : list Z :=
  let len := Z.of_nat (length msg) in
  let zeros := Z.to_nat ((55 - len) mod 64) in
  msg ++ [0x80] ++ repeat 0 zeros ++ be_bytes 8 (8 * len).

Fixpoint words_of (bs : list Z) : list Z :=
  match bs with
  | b0 :: b1 :: b2 :: b3 :: bs =>
      (Z.shiftl b0 24 + Z.shiftl b1 16 + Z.shiftl b2 8 + b3) :: words_of bs
  | _ => []
  end.

(** The message schedule, newest word first. *)
Fixpoint schedule (fuel : nat) (rev_w : list Z) : list Z :=
  match fuel with
  | O => rev_w
  | S fuel =>
      let w k := nth k rev_w 0 in
      schedule fuel (add32 (add32 (ssig1 (w 1%nat)) (w 6%nat)) (add32 (ssig0 (w 14%nat)) (w 15%nat)) :: rev_w)
  end.

Definition sha_round (st : list Z) (kw : Z * Z) : list Z :=
  match st with
  | [a; b; c; d; e; f; g; h] =>
      let t1 := add32 h (add32 (bsig1 e) (add32 (Ch e f g) (add32 kw.1 kw.2))) in
      let t2 := add32 (bsig0 a) (Maj a b c) in
      [add32 t1 t2; a; b; c; add32 d t1; e; f; g]
  | _ => st
  end.

Definition compress (h : list Z) (block : list Z) : list Z :=
  let w := rev (schedule 48 (rev block)) in
  zip_with add32 h (fold_left sha_round (zip sha_K w) h).

Fixpoint sha_blocks (fuel : nat) (h : list Z) (ws : list Z) : list Z :=
  match fuel, ws with
  | S fuel, _ :: _ => sha_blocks fuel (compress h (take 16 ws)) (drop 16 ws)
  | _, _ => h
  end.

Definition sha256_words (msg : list Z) : list Z :=
  let ws := words_of (sha_pad msg) in
  sha_blocks (length ws) sha_H0 ws.

(** ** Text *)

Definition hex_digit (n : Z) : ascii :=
  if n <? 10 then ascii_of_nat (48 + Z.to_nat n) else ascii_of_nat (87 + Z.to_nat n).

Definition hex32 (x : Z) : list ascii :=
  map (fun i => hex_digit (Z.land (Z.shiftr x (4 * Z.of_nat (7 - i))) 15)) (seq 0 8).

Definition string_of (l : list ascii) : string := String.string_of_list_ascii l.

Definition str_bytes (s : string) : list Z :=
  map (fun c => Z.of_nat (nat_of_ascii c)) (String.list_ascii_of_string s).

Definition sha256_hex (s : string) : string :=
  string_of (flat_map hex32 (sha256_words (str_bytes s))).

Lemma sha256_test_empty :
  sha256_hex "" = "e3b0c44298fc1c149afbf4c8996fb92427ae41e4649b934ca495991b7852b855".
Proof. vm_compute. reflexivity. Qed.

Lemma sha256_test_abc :
  sha256_hex "abc" = "ba7816bf8f01cfea414140de5dae2223b00361a396177a9cb410ff61f20015ad".
Proof. vm_compute. reflexivity. Qed.

Lemma sha256_test_two_blocks :
  sha256_hex "abcdbcdecdefdefgefghfghighijhijkijkljklmklmnlmnomnopnopq" =
  "248d6a61d20638b8e5c026930c3e6039a33ce45964ff2167f6ecedd419db06c1".
Proof. vm_compute. reflexivity. Qed.

(** ** HMAC

    Python's [hmac.new(key, msg, hashlib.sha256).hexdigest()] (RFC 2104), on bytes. *)

Definition sha256_bytes (msg : list Z) : list Z := flat_map (be_bytes 4) (sha256_words msg).

Definition hmac_block (key : list Z) : list Z :=
  let key := if (64 <? Z.of_nat (length key)) then sha256_bytes key else key in
  key ++ repeat 0 (64 - length key).

Definition hmac_sha256_words (key msg : list Z) : list Z :=
  let pad p := map (Z.lxor p) (hmac_block key) in
  sha256_words (pad 0x5c ++ sha256_bytes (pad 0x36 ++ msg)).

Definition hmac_sha256_hex (key msg : string) : string :=
  string_of (flat_map hex32 (hmac_sha256_words (str_bytes key) (str_bytes msg))).

(** Test case 2 of RFC 4231. *)
Lemma hmac_test_jefe :
  hmac_sha256_hex "Jefe" "what do ya want for nothing?" =
  "5bdcc146bf60754e6a042426089575c75a003f089d2739839dec58b964ec3843".
Proof. vm_compute. reflexivity. Qed.

(** ** The digest has 64 hexadecimal digits *)

Lemma sha_round_length st kw : length st = 8%nat -> length (sha_round st kw) = 8%nat.
Proof. intros. by do 9 (destruct st as [|? st]; try done). Qed.

Lemma sha_rounds_length kws st : length st = 8%nat -> length (fold_left sha_round kws st) = 8%nat.
Proof. revert st. induction kws; simpl; auto using sha_round_length. Qed.

Lemma sha_blocks_length fuel h ws : length h = 8%nat -> length (sha_blocks fuel h ws) = 8%nat.
Proof.
  revert h ws. induction fuel as [|fuel IH]; intros h ws Hh; simpl; [done|].
  destruct ws; [done|]. apply IH. unfold compress.
  rewrite length_zip_with, sha_rounds_length by done. lia.
Qed.

Lemma flat_map_hex32_length ws : length (flat_map hex32 ws) = (8 * length ws)%nat.
Proof. induction ws; simpl in *; [done|]. rewrite IHws. lia. Qed.

Lemma string_of_length l : String.length (string_of l) = length l.
Proof. induction l; simpl; auto. Qed.

Lemma sha256_hex_length s : String.length (sha256_hex s) = 64%nat.
Proof.
  unfold sha256_hex. rewrite string_of_length, flat_map_hex32_length.
  unfold sha256_words. by rewrite sha_blocks_length.
Qed.
