(* ===== verification/FloatInt.v ===== *)
(** * Whole numbers in floats

    Integers below 2^53 are binary64 numbers, and the sums, differences and
    comparisons of their floats are those of the integers: share counts, and whole
    amounts of money, are exact. *)

From stdpp Require Import base list.
From Stdlib Require Import ZArith Lia Floats.SpecFloat.
From S2P Require Import Prelude PyFloat.

Local Open Scope Z_scope.

(** [whole n]: an integer whose float is exact. *)
Definition whole (n : Z) : Prop := Z.abs n < 2 ^ 53.

(** ** Shifted mantissas *)

Definition shl (p : positive) (n : nat) : positive := Nat.iter n xO p.

Lemma shl_value p n : Z.pos (shl p n) = Z.pos p * 2 ^ Z.of_nat n.
Proof.
  induction n as [|n IH]; [simpl; lia|].
  change (shl p (S n)) with (xO (shl p n)).
  rewrite Pos2Z.inj_xO, IH, Nat2Z.inj_succ, Z.pow_succ_r by lia. lia.
Qed.

Lemma shl_add p n k : shl (shl p n) k = shl p (n + k).
Proof. unfold shl. by rewrite Nat.add_comm, Nat.iter_add. Qed.

Lemma pos_iter_shl p k : Pos.iter xO p k = shl p (Pos.to_nat k).
Proof. apply Pos2Nat.inj_iter. Qed.

Lemma digits_shl p n : Z.pos (digits2_pos (shl p n)) = Z.pos (digits2_pos p) + Z.of_nat n.
Proof.
  induction n as [|n IH]; [simpl; lia|]. change (shl p (S n)) with (xO (shl p n)).
  cbn [digits2_pos]. lia.
Qed.

Lemma digits_bounds p :
  2 ^ (Z.pos (digits2_pos p) - 1) <= Z.pos p < 2 ^ Z.pos (digits2_pos p).
Proof.
  assert (Hs : forall q, 2 ^ Z.pos (digits2_pos q) = 2 * 2 ^ (Z.pos (digits2_pos q) - 1))
    by (intros q; rewrite <- Z.pow_succ_r by lia; f_equal; lia).
  induction p as [p IH|p IH|]; cbn [digits2_pos]; [| |simpl; lia];
    rewrite Pos2Z.inj_succ, Z.pow_succ_r by lia;
    replace (Z.succ (Z.pos (digits2_pos p)) - 1) with (Z.pos (digits2_pos p)) by lia;
    specialize (Hs p); revert IH Hs; generalize (2 ^ Z.pos (digits2_pos p));
    generalize (2 ^ (Z.pos (digits2_pos p) - 1)); lia.
Qed.

Lemma digits_whole p : whole (Z.pos p) -> Z.pos (digits2_pos p) <= 53.
Proof.
  unfold whole. intros Hp. destruct (digits_bounds p) as [Hl _].
  destruct (Z.le_gt_cases (Z.pos (digits2_pos p)) 53) as [|Hd]; [done|].
  assert (2 ^ 53 <= 2 ^ (Z.pos (digits2_pos p) - 1)) by (apply Z.pow_le_mono_r; lia). lia.
Qed.

Lemma digits_mono p q : (p <= q)%positive -> Z.pos (digits2_pos p) <= Z.pos (digits2_pos q).
Proof.
  intros Hpq. destruct (digits_bounds p) as [Hl _], (digits_bounds q) as [_ Hu].
  destruct (Z.le_gt_cases (Z.pos (digits2_pos p)) (Z.pos (digits2_pos q))) as [|Hd]; [done|].
  assert (2 ^ Z.pos (digits2_pos q) <= 2 ^ (Z.pos (digits2_pos p) - 1))
    by (apply Z.pow_le_mono_r; lia). lia.
Qed.

(** ** Rounding an exact mantissa *)

Lemma iter_pos_iter {A} (f : A -> A) n x : iter_pos f n x = Nat.iter (Pos.to_nat n) f x.
Proof.
  revert x. induction n as [n IH|n IH|]; intros x; simpl iter_pos; [| |done]; rewrite !IH.
  - rewrite Pos2Nat.inj_xI. replace (S (2 * Pos.to_nat n)) with (Pos.to_nat n + (Pos.to_nat n + 1))%nat by lia.
    by rewrite !Nat.iter_add.
  - rewrite Pos2Nat.inj_xO. replace (2 * Pos.to_nat n)%nat with (Pos.to_nat n + Pos.to_nat n)%nat by lia.
    by rewrite Nat.iter_add.
Qed.

Lemma iter_shr_shl p n k :
  Nat.iter k shr_1 (Build_shr_record (Z.pos (shl p (n + k))) false false) =
  Build_shr_record (Z.pos (shl p n)) false false.
Proof.
  induction k as [|k IH]; simpl; [by rewrite Nat.add_0_r|].
  rewrite <- Nat.iter_succ, Nat.iter_succ_r. replace (n + S k)%nat with (S (n + k)) by lia.
  change (shl p (S (n + k))) with (xO (shl p (n + k))). simpl. apply IH.
Qed.

(** The canonical float of [p], [d] being its digits: the mantissa has 53 bits. *)
Definition canon (s : bool) (p : positive) : float :=
  S754_finite s (shl p (Z.to_nat (53 - Z.pos (digits2_pos p)))) (Z.pos (digits2_pos p) - 53).

Lemma fexp_small e : -1000 <= e <= 100 -> fexp fprec femax e = e - 53.
Proof. intros. unfold fexp, emin, fprec, femax. lia. Qed.

Lemma shr_fexp_canon p (j : nat) :
  Z.pos (digits2_pos p) <= 53 -> (j <= 200)%nat -> 53 <= Z.pos (digits2_pos p) + Z.of_nat j ->
  shr_fexp fprec femax (Z.pos (shl p j)) (- Z.of_nat j) loc_Exact =
  (Build_shr_record (Z.pos (shl p (Z.to_nat (53 - Z.pos (digits2_pos p))))) false false,
   Z.pos (digits2_pos p) - 53).
Proof.
  intros Hd Hj Ht. unfold shr_fexp, shr, shr_record_of_loc, Zdigits2.
  rewrite digits_shl, fexp_small by lia.
  replace (Z.pos (digits2_pos p) + Z.of_nat j + - Z.of_nat j - 53 - - Z.of_nat j)
    with (Z.pos (digits2_pos p) - 53 + Z.of_nat j) by lia.
  destruct (Z.pos (digits2_pos p) - 53 + Z.of_nat j) as [|t|t] eqn:Et; [| |lia].
  - do 3 f_equal; [|lia]. f_equal. lia.
  - rewrite iter_pos_iter.
    replace j with (Z.to_nat (53 - Z.pos (digits2_pos p)) + Pos.to_nat t)%nat at 1 by lia.
    rewrite iter_shr_shl. f_equal. lia.
Qed.

Lemma round_aux_canon s p (j : nat) :
  Z.pos (digits2_pos p) <= 53 -> (j <= 200)%nat -> 53 <= Z.pos (digits2_pos p) + Z.of_nat j ->
  binary_round_aux fprec femax s (Z.pos (shl p j)) (- Z.of_nat j) loc_Exact = canon s p.
Proof.
  intros Hd Hj Ht. unfold binary_round_aux. rewrite shr_fexp_canon by done.
  cbn [shr_m loc_of_shr_record round_nearest_even].
  set (n := Z.to_nat (53 - Z.pos (digits2_pos p))).
  replace (Z.pos (digits2_pos p) - 53) with (- Z.of_nat n) by lia.
  rewrite shr_fexp_canon by lia. fold n. cbn [shr_m].
  unfold canon. fold n. replace (Z.pos (digits2_pos p) - 53 <=? femax - fprec) with true; [done|].
  symmetry. apply Z.leb_le. unfold femax, fprec. lia.
Qed.

Lemma round_canon s p (j : nat) :
  Z.pos (digits2_pos p) <= 53 -> (j <= 52)%nat ->
  binary_round fprec femax s (shl p j) (- Z.of_nat j) = canon s p.
Proof.
  intros Hd Hj. unfold binary_round, shl_align. rewrite digits_shl, fexp_small by lia.
  replace (Z.pos (digits2_pos p) + Z.of_nat j + - Z.of_nat j - 53 - - Z.of_nat j)
    with (Z.pos (digits2_pos p) - 53 + Z.of_nat j) by lia.
  destruct (Z.pos (digits2_pos p) - 53 + Z.of_nat j) as [|t|t] eqn:Et.
  1,2: apply round_aux_canon; lia.
  rewrite pos_iter_shl, shl_add.
  replace (j + Pos.to_nat t)%nat with (Z.to_nat (53 - Z.pos (digits2_pos p))) by lia.
  replace (Z.pos (digits2_pos p) + Z.of_nat j + - Z.of_nat j - 53)
    with (- Z.of_nat (Z.to_nat (53 - Z.pos (digits2_pos p)))) by lia.
  apply round_aux_canon; lia.
Qed.

(** ** The float of a whole number *)

Definition of_whole (n : Z) : float :=
  match n with
  | Z0 => fzero
  | Zpos p => canon false p
  | Zneg p => canon true p
  end.

Lemma whole_pos p : whole (Z.pos p) -> whole (Z.neg p).
Proof. done. Qed.

Lemma of_Z_whole n : whole n -> of_Z n = of_whole n.
Proof.
  intros Hn. unfold of_Z, of_whole, binary_normalize. destruct n as [|p|p]; [done| |];
    apply (round_canon _ p 0); try lia; apply digits_whole, Hn.
Qed.

(** A sum aligned at a common exponent. *)
Lemma normalize_whole c (n : nat) :
  whole c -> (n <= 52)%nat ->
  binary_normalize fprec femax (c * 2 ^ Z.of_nat n) (- Z.of_nat n) false = of_Z c.
Proof.
  intros Hc Hn. rewrite of_Z_whole by done. destruct c as [|p|p]; [done| |].
  - rewrite <- shl_value. unfold binary_normalize. by apply round_canon, Hn; apply digits_whole.
  - rewrite <- Pos2Z.opp_pos, Z.mul_opp_l, <- shl_value. unfold binary_normalize, Z.opp.
    by apply round_canon, Hn; apply digits_whole.
Qed.

Lemma align_canon p e :
  Z.pos (digits2_pos p) <= 53 -> e <= Z.pos (digits2_pos p) - 53 ->
  Z.pos (fst (shl_align (shl p (Z.to_nat (53 - Z.pos (digits2_pos p)))) (Z.pos (digits2_pos p) - 53) e)) =
  Z.pos p * 2 ^ Z.of_nat (Z.to_nat (- e)).
Proof.
  intros Hd He. unfold shl_align. destruct (e - (Z.pos (digits2_pos p) - 53)) as [|t|t] eqn:Et; [|lia|];
    cbn [fst]; rewrite ?pos_iter_shl, ?shl_add, shl_value; do 2 f_equal; lia.
Qed.

Lemma fsub_of_Z a b :
  whole a -> whole b -> whole (a - b) -> fsub (of_Z a) (of_Z b) = of_Z (a - b).
Proof.
  intros Ha Hb Hc. rewrite (of_Z_whole a), (of_Z_whole b) by done.
  assert (forall s t p q, Z.pos (digits2_pos p) <= 53 -> Z.pos (digits2_pos q) <= 53 ->
    whole (cond_Zopp s (Z.pos p) - cond_Zopp t (Z.pos q)) ->
    fsub (canon s p) (canon t q) = of_Z (cond_Zopp s (Z.pos p) - cond_Zopp t (Z.pos q))) as Hf.
  { intros s t p q Hp Hq Hw. unfold fsub, SFsub, canon.
    set (ez := Z.min _ _).
    rewrite !align_canon by (unfold ez; lia). set (n := Z.to_nat (- ez)).
    replace ez with (- Z.of_nat n) by (unfold n, ez; lia).
    rewrite <- normalize_whole with (n := n) by (done || (unfold n, ez; lia)).
    f_equal. destruct s, t; unfold cond_Zopp; ring. }
  destruct a as [|p|p], b as [|q|q]; try done;
    try (pose proof (digits_whole _ Ha)); try (pose proof (digits_whole _ Hb)).
  - rewrite of_Z_whole by done. done.
  - rewrite of_Z_whole by done. done.
  - rewrite Z.sub_0_r, of_Z_whole by done. done.
  - exact (Hf false false p q ltac:(done) ltac:(done) Hc).
  - exact (Hf false true p q ltac:(done) ltac:(done) Hc).
  - rewrite Z.sub_0_r, of_Z_whole by done. done.
  - exact (Hf true false p q ltac:(done) ltac:(done) Hc).
  - exact (Hf true true p q ltac:(done) ltac:(done) Hc).
Qed.

Lemma fadd_of_Z a b :
  whole a -> whole b -> whole (a + b) -> fadd (of_Z a) (of_Z b) = of_Z (a + b).
Proof.
  intros Ha Hb Hc. rewrite (of_Z_whole a), (of_Z_whole b) by done.
  assert (forall s t p q, Z.pos (digits2_pos p) <= 53 -> Z.pos (digits2_pos q) <= 53 ->
    whole (cond_Zopp s (Z.pos p) + cond_Zopp t (Z.pos q)) ->
    fadd (canon s p) (canon t q) = of_Z (cond_Zopp s (Z.pos p) + cond_Zopp t (Z.pos q))) as Hf.
  { intros s t p q Hp Hq Hw. unfold fadd, SFadd, canon.
    set (ez := Z.min _ _).
    rewrite !align_canon by (unfold ez; lia). set (n := Z.to_nat (- ez)).
    replace ez with (- Z.of_nat n) by (unfold n, ez; lia).
    rewrite <- normalize_whole with (n := n) by (done || (unfold n, ez; lia)).
    f_equal. destruct s, t; unfold cond_Zopp; ring. }
  destruct a as [|p|p], b as [|q|q]; try done;
    try (pose proof (digits_whole _ Ha)); try (pose proof (digits_whole _ Hb)).
  - by rewrite of_Z_whole.
  - by rewrite of_Z_whole.
  - by rewrite Z.add_0_r, of_Z_whole.
  - exact (Hf false false p q ltac:(done) ltac:(done) Hc).
  - exact (Hf false true p q ltac:(done) ltac:(done) Hc).
  - by rewrite Z.add_0_r, of_Z_whole.
  - exact (Hf true false p q ltac:(done) ltac:(done) Hc).
  - exact (Hf true true p q ltac:(done) ltac:(done) Hc).
Qed.

(** ** Order *)

Lemma compare_canon p q :
  match Z.compare (Z.pos (digits2_pos p) - 53) (Z.pos (digits2_pos q) - 53) with
  | Lt => Lt
  | Gt => Gt
  | Eq => Pos.compare_cont Eq (shl p (Z.to_nat (53 - Z.pos (digits2_pos p))))
            (shl q (Z.to_nat (53 - Z.pos (digits2_pos q))))
  end = Pos.compare p q.
Proof.
  destruct (Z.compare_spec (Z.pos (digits2_pos p) - 53) (Z.pos (digits2_pos q) - 53)) as [He|Hl|Hg].
  - replace (Z.pos (digits2_pos q)) with (Z.pos (digits2_pos p)) by lia.
    set (n := Z.to_nat _). change (Pos.compare_cont Eq ?x ?y) with (Pos.compare x y).
    change (Z.compare (Z.pos (shl p n)) (Z.pos (shl q n)) = Z.compare (Z.pos p) (Z.pos q)).
    rewrite !shl_value. symmetry. apply Zmult_compare_compat_r.
    apply Z.lt_gt, Z.pow_pos_nonneg; lia.
  - symmetry. apply Pos.compare_lt_iff, Pos.lt_nle. intros Hqp%digits_mono. lia.
  - symmetry. apply Pos.compare_gt_iff, Pos.lt_nle. intros Hqp%digits_mono. lia.
Qed.

Lemma compare_of_Z a b :
  whole a -> whole b -> SFcompare (of_Z a) (of_Z b) = Some (Z.compare a b).
Proof.
  intros Ha Hb. rewrite !of_Z_whole by done.
  destruct a as [|p|p], b as [|q|q]; try done; unfold of_whole, canon, SFcompare; f_equal.
  - apply (compare_canon p q).
  - change (Z.compare (Z.neg p) (Z.neg q)) with (CompOpp (Pos.compare p q)).
    rewrite <- (compare_canon p q). by destruct (Z.compare _ _).
Qed.

Lemma fltb_of_Z a b : whole a -> whole b -> fltb (of_Z a) (of_Z b) = (a <? b).
Proof. intros. unfold fltb, SFltb. rewrite compare_of_Z by done. unfold Z.ltb. by destruct (a ?= b). Qed.

Lemma fleb_of_Z a b : whole a -> whole b -> fleb (of_Z a) (of_Z b) = (a <=? b).
Proof. intros. unfold fleb, SFleb. rewrite compare_of_Z by done. unfold Z.leb. by destruct (a ?= b). Qed.

Lemma feqb_of_Z a b : whole a -> whole b -> feqb (of_Z a) (of_Z b) = (a =? b).
Proof.
  intros. unfold feqb, SFeqb. rewrite compare_of_Z by done. rewrite Z.eqb_compare.
  by destruct (a ?= b).
Qed.

Lemma fabs_of_Z a : whole a -> fabs (of_Z a) = of_Z (Z.abs a).
Proof. intros Ha. rewrite !of_Z_whole by (unfold whole in *; lia). by destruct a. Qed.

(** The float of zero is the positive one, so only other numbers are negated. *)
Lemma fneg_of_Z a : whole a -> a <> 0 -> fneg (of_Z a) = of_Z (- a).
Proof. intros Ha Hz. rewrite !of_Z_whole by (unfold whole in *; lia). by destruct a. Qed.

Lemma fneg_involutive_of_Z a : whole a -> a <> 0 -> fneg (of_Z (- a)) = of_Z a.
Proof. intros Ha Hz. rewrite fneg_of_Z by (unfold whole in *; lia). by rewrite Z.opp_involutive. Qed.

(** A tolerance below one separates zero from the other whole numbers. *)
Lemma fltb_tolerance tol a :
  whole a -> fleb fzero tol = true -> fltb tol fone = true ->
  fltb tol (of_Z a) = (0 <? a).
Proof.
  intros Ha H0 H1. destruct (Z.ltb_spec 0 a) as [Hp|Hn].
  - apply (fltb_fleb_trans _ fone); [done|]. unfold fone. rewrite fleb_of_Z by (done || unfold whole; lia).
    apply Z.leb_le. lia.
  - assert (fleb (of_Z a) fzero = true) as Hle.
    { change fzero with (of_Z 0). rewrite fleb_of_Z by done. by apply Z.leb_le. }
    destruct (fltb tol (of_Z a)) eqn:E; [|done].
    pose proof (fltb_fleb_trans _ _ _ E Hle) as E2. forder.
Qed.

Lemma fzero_of_Z : fzero = of_Z 0.
Proof. done. Qed.

Lemma py_max_of_Z a b : whole a -> whole b -> py_max (of_Z a) (of_Z b) = of_Z (Z.max a b).
Proof.
  intros. unfold py_max. rewrite fltb_of_Z by done.
  destruct (Z.ltb_spec a b); f_equal; lia.
Qed.

Lemma py_min_of_Z a b : whole a -> whole b -> py_min (of_Z a) (of_Z b) = of_Z (Z.min a b).
Proof.
  intros. unfold py_min. rewrite fltb_of_Z by done.
  destruct (Z.ltb_spec b a); f_equal; lia.
Qed.

Lemma sql_real_of_Z a : whole a -> sql_real (of_Z a) = Some (of_Z a).
Proof.
  intros Ha. unfold sql_real. rewrite of_Z_not_nan, fzero_of_Z, feqb_of_Z by done.
  destruct (Z.eqb_spec a 0) as [->|]; done.
Qed.

(** ** Products and truncated quotients *)

Lemma fmul_of_Z a b :
  0 <= a -> 0 <= b -> whole a -> whole b -> whole (a * b) -> fmul (of_Z a) (of_Z b) = of_Z (a * b).
Proof.
  intros Ha0 Hb0 Ha Hb Hc. rewrite !of_Z_whole by done.
  destruct a as [|p|p], b as [|q|q]; try done; try lia.
  pose proof (digits_whole _ Ha) as Hp. pose proof (digits_whole _ Hb) as Hq.
  change (Z.pos p * Z.pos q) with (Z.pos (p * q)) in *.
  pose proof (digits_whole _ Hc) as Hpq. unfold of_whole. fold (canon false (p * q)).
  change (fmul (canon false p) (canon false q)) with
    (binary_round_aux fprec femax false
       (Z.pos (shl p (Z.to_nat (53 - Z.pos (digits2_pos p))) * shl q (Z.to_nat (53 - Z.pos (digits2_pos q)))))
       (Z.pos (digits2_pos p) - 53 + (Z.pos (digits2_pos q) - 53)) loc_Exact).
  set (n := Z.to_nat (53 - Z.pos (digits2_pos p))). set (k := Z.to_nat (53 - Z.pos (digits2_pos q))).
  assert (Z.pos (shl p n * shl q k) = Z.pos (shl (p * q) (n + k))) as E.
  { rewrite Pos2Z.inj_mul, !shl_value, Pos2Z.inj_mul, Nat2Z.inj_add, Z.pow_add_r by lia. ring. }
  rewrite E. replace (_ - 53 + (_ - 53)) with (- Z.of_nat (n + k)) by lia.
  apply round_aux_canon; [done|lia|].
  assert (Z.pos (digits2_pos p) <= Z.pos (digits2_pos (p * q))) by (apply digits_mono; nia).
  unfold n, k. lia.
Qed.

Lemma Zdigits2_53 m : 2 ^ 52 <= m < 2 ^ 53 -> Zdigits2 m = 53.
Proof.
  destruct m as [|p|p]; try lia. cbn [Zdigits2]. intros Hm.
  pose proof (digits_bounds p) as Hd.
  destruct (Z.lt_trichotomy (Z.pos (digits2_pos p)) 53) as [Hlt|[|Hgt]]; [|done|]; exfalso.
  - assert (2 ^ Z.pos (digits2_pos p) <= 2 ^ 52) by (apply Z.pow_le_mono_r; lia). lia.
  - assert (2 ^ 53 <= 2 ^ (Z.pos (digits2_pos p) - 1)) by (apply Z.pow_le_mono_r; lia). lia.
Qed.

Lemma Zdigits2_54 m : 2 ^ 53 <= m < 2 ^ 54 -> Zdigits2 m = 54.
Proof.
  destruct m as [|p|p]; try lia. cbn [Zdigits2]. intros Hm.
  pose proof (digits_bounds p) as Hd.
  destruct (Z.lt_trichotomy (Z.pos (digits2_pos p)) 54) as [Hlt|[|Hgt]]; [|done|]; exfalso.
  - assert (2 ^ Z.pos (digits2_pos p) <= 2 ^ 53) by (apply Z.pow_le_mono_r; lia). lia.
  - assert (2 ^ 54 <= 2 ^ (Z.pos (digits2_pos p) - 1)) by (apply Z.pow_le_mono_r; lia). lia.
Qed.

(** A location that rounds up when nearest is asked for. *)
Definition upper_half (l : location) : Prop := l = loc_Inexact Eq \/ l = loc_Inexact Gt.

Lemma round_nearest_cases m l :
  round_nearest_even m l = m \/ round_nearest_even m l = m + 1 /\ upper_half l.
Proof.
  unfold round_nearest_even, upper_half. destruct l as [|[]]; auto. destruct (Z.even m); auto.
Qed.

Lemma shr_1_value m l :
  0 < m -> shr_m (shr_1 (shr_record_of_loc m l)) = m / 2 /\
  (upper_half (loc_of_shr_record (shr_1 (shr_record_of_loc m l))) -> m mod 2 = 1).
Proof.
  intros Hm. unfold upper_half.
  destruct m as [|[p|p|]|p]; try lia; destruct l as [|[]]; cbn; split;
    try (intros [?|?]; done); try done;
    try (change (Z.pos p~1) with (2 * Z.pos p + 1) || change (Z.pos p~0) with (2 * Z.pos p));
    Z.to_euclidean_division_equations; lia.
Qed.

(** The first normalisation of a quotient keeps or halves it. *)
Lemma shr_quotient q e l :
  2 ^ 52 <= q < 2 ^ 54 -> -200 <= e <= -1 ->
  exists d, (d = 0 \/ d = 1) /\ (shr_fexp fprec femax q e l).2 = e + d /\
    shr_m (shr_fexp fprec femax q e l).1 = q / 2 ^ d /\ 2 ^ 52 <= q / 2 ^ d < 2 ^ 53 /\
    (upper_half (loc_of_shr_record (shr_fexp fprec femax q e l).1) ->
     if d =? 0 then upper_half l else q mod 2 = 1).
Proof.
  intros Hq He. unfold shr_fexp, shr.
  destruct (Z.lt_ge_cases q (2 ^ 53)) as [Hlt|Hge].
  - exists 0. rewrite Zdigits2_53, fexp_small by lia. replace (53 + e - 53 - e) with 0 by lia. cbn [fst snd].
    rewrite Z.div_1_r. repeat split; try lia; [by destruct l as [|[]]|]. intros H. cbn. revert H.
    by destruct l as [|[]].
  - exists 1. rewrite Zdigits2_54, fexp_small by lia. replace (54 + e - 53 - e) with 1 by lia.
    cbn [fst snd iter_pos]. destruct (shr_1_value q l ltac:(lia)) as [E Hu].
    rewrite E. repeat split; try lia; [..|exact Hu]; Z.to_euclidean_division_equations; lia.
Qed.

(** The second one, of a rounded mantissa, changes no value. *)
Lemma shr_rounded m e :
  2 ^ 52 <= m <= 2 ^ 53 -> -200 <= e <= 0 ->
  let r := shr_fexp fprec femax m e loc_Exact in
  ftrunc (match shr_m r.1 with
          | Z0 => S754_zero false
          | Zpos p => if r.2 <=? femax - fprec then S754_finite false p r.2 else S754_infinity false
          | Zneg _ => S754_nan
          end) = Some (m / 2 ^ (- e)).
Proof.
  intros Hm He. unfold shr_fexp, shr.
  destruct (decide (m = 2 ^ 53)) as [->|].
  - rewrite Zdigits2_54, fexp_small by lia. replace (54 + e - 53 - e) with 1 by lia.
    cbn [fst snd iter_pos].
    replace (shr_m (shr_1 (shr_record_of_loc (2 ^ 53) loc_Exact))) with (Z.pos 4503599627370496)
      by (vm_compute; reflexivity).
    rewrite (proj2 (Z.leb_le _ _)) by (unfold femax, fprec; lia). cbn [ftrunc].
    destruct (Z.leb_spec 0 (e + 1)) as [H0|H0].
    + assert (e = 0 \/ e = -1) as [-> | ->] by lia; vm_compute; reflexivity.
    + f_equal. replace (- e) with (1 + - (e + 1)) by lia. rewrite Z.pow_add_r, <- Z.div_div by lia.
      by replace (2 ^ 53 / 2 ^ 1) with (Z.pos 4503599627370496) by (vm_compute; reflexivity).
  - rewrite Zdigits2_53, fexp_small by lia. replace (53 + e - 53 - e) with 0 by lia. cbn [fst snd shr_m].
    cbn [shr_record_of_loc shr_m]. destruct m as [|p|p]; try lia.
    rewrite (proj2 (Z.leb_le _ _)) by (unfold femax, fprec; lia). cbn [ftrunc].
    destruct (Z.leb_spec 0 e) as [H0|H0]; [|done].
    assert (e = 0) as -> by lia. rewrite Z.mul_1_r, Z.div_1_r. done.
Qed.

Lemma new_location_upper m r : upper_half (new_location m r) -> m <= 2 * r.
Proof.
  unfold new_location, new_location_even, new_location_odd, upper_half.
  destruct (Z.even m), (r =? 0); try (intros [?|?]; done);
    match goal with |- context [Z.compare ?x ?y] => destruct (Z.compare_spec x y) end;
    intros [?|?]; try done; lia.
Qed.

(** The scaled quotient of two canonical mantissas. *)
Lemma div_core p q :
  whole (Z.pos p) -> whole (Z.pos q) ->
  let n := 53 - Z.pos (digits2_pos p) in
  let k := 53 - Z.pos (digits2_pos q) in
  let m2 := Z.pos q * 2 ^ k in
  let A := Z.pos p * 2 ^ n * 2 ^ 53 in
  fdiv (canon false p) (canon false q) =
    binary_round_aux fprec femax false (A / m2) (- (53 + n - k)) (new_location m2 (A mod m2)) /\
  0 <= n <= 52 /\ 0 <= k <= 52 /\ 2 ^ 52 <= Z.pos p * 2 ^ n < 2 ^ 53 /\ 2 ^ 52 <= m2 < 2 ^ 53.
Proof.
  intros Hp Hq n k m2 A. pose proof (digits_whole _ Hp). pose proof (digits_whole _ Hq).
  assert (forall x, Z.pos (digits2_pos x) <= 53 ->
    2 ^ 52 <= Z.pos x * 2 ^ (53 - Z.pos (digits2_pos x)) < 2 ^ 53) as Hb.
  { intros x Hx. destruct (digits_bounds x) as [Hl Hu]. set (d := Z.pos (digits2_pos x)) in *.
    assert (2 ^ 53 = 2 ^ d * 2 ^ (53 - d)) as E1 by (rewrite <- Z.pow_add_r by lia; f_equal; lia).
    assert (2 ^ 52 = 2 ^ (d - 1) * 2 ^ (53 - d)) as E2 by (rewrite <- Z.pow_add_r by lia; f_equal; lia).
    assert (0 < 2 ^ (53 - d)) by (apply Z.pow_pos_nonneg; lia). rewrite E1, E2. nia. }
  assert (2 ^ 52 <= Z.pos p * 2 ^ n < 2 ^ 53) as Hm1 by (by apply Hb).
  assert (2 ^ 52 <= m2 < 2 ^ 53) as Hm2 by (by apply Hb).
  split; [|repeat split; lia].
  change (fdiv (canon false p) (canon false q)) with
    (let '(mz, ez, lz) := SFdiv_core_binary fprec femax (Z.pos (shl p (Z.to_nat n))) (- n)
       (Z.pos (shl q (Z.to_nat k))) (- k) in binary_round_aux fprec femax false mz ez lz)
    || replace (fdiv (canon false p) (canon false q)) with
    (let '(mz, ez, lz) := SFdiv_core_binary fprec femax (Z.pos (shl p (Z.to_nat n))) (- n)
       (Z.pos (shl q (Z.to_nat k))) (- k) in binary_round_aux fprec femax false mz ez lz)
    by (unfold fdiv, SFdiv, canon; cbn [xorb]; fold n k;
        replace (Z.pos (digits2_pos p) - 53) with (- n) by lia;
        replace (Z.pos (digits2_pos q) - 53) with (- k) by lia; done).
  unfold SFdiv_core_binary. rewrite !shl_value, !Z2Nat.id by lia. fold m2.
  rewrite (Zdigits2_53 (Z.pos p * 2 ^ n)), (Zdigits2_53 m2) by done.
  rewrite fexp_small by lia.
  replace (Z.min _ _) with (- (53 + n - k)) by lia.
  replace (- n - - k - - (53 + n - k)) with 53 by lia.
  rewrite Z.shiftl_mul_pow2 by lia. fold A.
  unfold Z.div, Z.modulo. by destruct (Z.div_eucl A m2).
Qed.

(** A quotient rounded up at the scale [w] stays below the next whole number. *)
Lemma nearest_below_next a b w :
  0 < b -> 0 < w -> a < 2 ^ 53 -> 2 ^ 52 <= a * w / b ->
  (2 * (a * w / b) + 1) * b <= 2 * (a * w) -> (a * w / b + 1) / w = a / b.
Proof.
  intros Hb Hw Ha HM Hge. set (M := a * w / b) in *. set (f := a / b).
  assert (M / w = f) as Ef.
  { unfold M, f. rewrite Z.div_div, (Z.mul_comm b), <- Z.div_div, Z.div_mul by lia. done. }
  assert (f * w <= M < (f + 1) * w) as Hfw.
  { pose proof (Z.div_mod M w ltac:(lia)). pose proof (Z.mod_pos_bound M w ltac:(lia)). rewrite Ef in *. lia. }
  enough (M + 1 <> (f + 1) * w) as Hne
    by (symmetry; apply (Z.div_unique _ _ f (M + 1 - f * w)); lia).
  intros Htop. pose proof (Z.mul_succ_div_gt a b ltac:(lia)) as Hf. fold f in Hf.
  assert (2 * w <= b) as Hwb by nia.
  assert (M * b <= a * w) as HMb by (unfold M; rewrite Z.mul_comm; apply Z.mul_div_le; lia). nia.
Qed.

Lemma ftrunc_div_of_Z a b :
  0 <= a -> 0 < b -> whole a -> whole b -> ftrunc (fdiv (of_Z a) (of_Z b)) = Some (a / b).
Proof.
  intros Ha0 Hb0 Ha Hb. rewrite !of_Z_whole by done.
  destruct b as [|q|q]; try lia. destruct a as [|p|p]; try lia; [done|]. unfold of_whole.
  destruct (div_core p q Ha Hb) as (-> & Hn & Hk & Hm1 & Hm2).
  set (n := 53 - Z.pos (digits2_pos p)) in *. set (k := 53 - Z.pos (digits2_pos q)) in *. set (m2 := Z.pos q * 2 ^ k) in *.
  set (A := Z.pos p * 2 ^ n * 2 ^ 53) in *. set (u := 53 + n - k).
  assert (0 < 2 ^ k) as Hpk by (apply Z.pow_pos_nonneg; lia).
  assert (A = Z.pos p * 2 ^ u * 2 ^ k) as EA.
  { unfold A, u. rewrite <- !Z.mul_assoc, <- !Z.pow_add_r by lia. do 2 f_equal. lia. }
  assert (A / m2 = Z.pos p * 2 ^ u / Z.pos q) as Eq.
  { rewrite EA. unfold m2. apply Z.div_mul_cancel_r; lia. }
  assert (A mod m2 = (Z.pos p * 2 ^ u mod Z.pos q) * 2 ^ k) as Er.
  { rewrite EA. unfold m2. apply Z.mul_mod_distr_r; lia. }
  assert (2 ^ 52 <= A / m2 < 2 ^ 54) as Hq.
  { unfold A. clear - Hm1 Hm2. clearbody m2. revert Hm1. generalize (Z.pos p * 2 ^ n). intros m1 Hm1.
    split; [apply Z.div_le_lower_bound|apply Z.div_lt_upper_bound]; lia. }
  unfold binary_round_aux.
  destruct (shr_quotient (A / m2) (- u) (new_location m2 (A mod m2)) Hq ltac:(lia))
    as (d & Hd & E2 & E1 & HM & Hup).
  destruct (shr_fexp fprec femax (A / m2) (- u) _) as [mrs e']. cbn [fst snd] in *. subst e'.
  pose proof (round_nearest_cases (shr_m mrs) (loc_of_shr_record mrs)) as Hr.
  set (m := round_nearest_even _ _) in *. rewrite E1 in Hr.
  set (M := A / m2 / 2 ^ d) in *.
  assert (0 < 2 ^ d) as Hpd by (apply Z.pow_pos_nonneg; lia).
  assert (2 ^ u = 2 ^ (u - d) * 2 ^ d) as Eu by (rewrite <- Z.pow_add_r by lia; f_equal; lia).
  assert (0 < 2 ^ (u - d)) as Hpu by (apply Z.pow_pos_nonneg; lia).
  assert (M = Z.pos p * 2 ^ (u - d) / Z.pos q) as EM.
  { unfold M. rewrite Eq, Eu, Z.div_div, (Z.mul_comm (Z.pos q)), Z.mul_assoc by lia.
    rewrite <- Z.div_div, Z.div_mul by lia. done. }
  pose proof (shr_rounded m (- u + d) ltac:(lia) ltac:(lia)) as Ht.
  destruct (shr_fexp fprec femax m (- u + d) loc_Exact) as [mrs' e'']. cbn [fst snd] in Ht.
  rewrite Ht. f_equal. replace (- (- u + d)) with (u - d) by lia.
  assert (M / 2 ^ (u - d) = Z.pos p / Z.pos q) as Efl.
  { rewrite EM, Z.div_div, (Z.mul_comm (Z.pos q)), <- Z.div_div, Z.div_mul by lia. done. }
  destruct Hr as [->|[-> Hhalf]]; [done|].
  (* rounding up does not reach the next whole number *)
  specialize (Hup Hhalf).
  assert ((2 * M + 1) * Z.pos q <= 2 * (Z.pos p * 2 ^ (u - d))) as Hge.
  { destruct Hd as [-> | ->]; cbn [Z.eqb] in Hup.
    - apply new_location_upper in Hup. rewrite Er in Hup. unfold m2 in Hup.
      rewrite Z.sub_0_r in *. pose proof (Z.div_mod (Z.pos p * 2 ^ u) (Z.pos q) ltac:(lia)). nia.
    - assert (A / m2 = 2 * M + 1) as E.
      { unfold M. rewrite Z.pow_1_r. pose proof (Z.div_mod (A / m2) 2 ltac:(lia)). lia. }
      rewrite Eq in E. rewrite Eu, Z.pow_1_r in E.
      pose proof (Z.mul_div_le (Z.pos p * (2 ^ (u - 1) * 2)) (Z.pos q) ltac:(lia)) as Hle. rewrite E in Hle. nia. }
  rewrite EM in *. apply nearest_below_next; try done; lia.
Qed.

(** Half of an even whole number. *)
Lemma fmul_half h :
  0 < h -> whole (2 * h) -> fmul (of_Z (2 * h)) (lit 5 1) = of_Z h.
Proof.
  intros Hh Hw. assert (whole h) as Hwh by (unfold whole in *; lia).
  rewrite !of_Z_whole by done. destruct h as [|p|p]; try lia.
  change (2 * Z.pos p) with (Z.pos (xO p)) in *. pose proof (digits_whole _ Hw) as Hd.
  cbn [digits2_pos] in Hd. unfold of_whole.
  replace (lit 5 1) with (S754_finite false 4503599627370496 (-53)) by (vm_compute; reflexivity).
  change (fmul (canon false (xO p)) (S754_finite false 4503599627370496 (-53))) with
    (binary_round_aux fprec femax false
       (Z.pos (shl (xO p) (Z.to_nat (53 - Z.pos (digits2_pos (xO p)))) * 4503599627370496))
       (Z.pos (digits2_pos (xO p)) - 53 + -53) loc_Exact).
  set (n := Z.to_nat (53 - Z.pos (digits2_pos (xO p)))).
  assert (Z.pos (shl (xO p) n * 4503599627370496) = Z.pos (shl p (n + 53))) as ->.
  { rewrite Pos2Z.inj_mul, !shl_value, Nat2Z.inj_add, Z.pow_add_r by lia.
    change (2 ^ Z.of_nat 53) with (2 * 4503599627370496). lia. }
  replace (Z.pos (digits2_pos (xO p)) - 53 + -53) with (- Z.of_nat (n + 53)) by (unfold n; cbn [digits2_pos]; lia).
  apply round_aux_canon; unfold n; cbn [digits2_pos]; lia.
Qed.

Lemma ftrunc_of_Z a : whole a -> ftrunc (of_Z a) = Some a.
Proof.
  intros Ha. rewrite of_Z_whole by done. destruct a as [|p|p]; [done| |];
    pose proof (digits_whole p Ha) as Hd; unfold of_whole, canon, ftrunc;
    set (n := 53 - Z.pos (digits2_pos p)); replace (Z.pos (digits2_pos p) - 53) with (- n) by lia;
    rewrite shl_value, Z2Nat.id, Z.opp_involutive by lia;
    (destruct (Z.leb_spec 0 (- n)) as [H0|H0];
     [replace n with 0 by lia; rewrite !Z.mul_1_r|rewrite Z.div_mul by (apply Z.pow_nonzero; lia)]; done).
Qed.

(** [sum] of whole numbers is exact: nothing is left for the compensation. *)
Definition zsum (l : list Z) : Z := fold_right Z.add 0 l.

Lemma zsum_nonneg l : Forall (fun n => 0 <= n) l -> 0 <= zsum l.
Proof. unfold zsum. induction 1; cbn; lia. Qed.

Lemma fsum_of_Z l :
  Forall (fun n => 0 <= n) l -> whole (zsum l) -> fsum (map of_Z l) = of_Z (zsum l).
Proof.
  intros Hl Hw. destruct l as [|x l]; [done|]. apply Forall_cons in Hl as [Hx Hl].
  assert (forall a, 0 <= a -> whole (a + zsum l) ->
    fold_left sum_step (map of_Z l) (of_Z a, of_Z 0) = (of_Z (a + zsum l), of_Z 0)) as H.
  { clear Hx Hw x. induction Hl as [|x l Hx Hl IH]; intros a Ha Hw; [by rewrite Z.add_0_r|].
    pose proof (zsum_nonneg l Hl) as Hs. unfold whole in *. cbn [zsum fold_right] in *. fold (zsum l) in *.
    cbn [map fold_left]. unfold sum_step at 2.
    rewrite fadd_of_Z by (unfold whole; lia).
    replace (if fleb _ _ then _ else _) with (of_Z 0).
    - rewrite IH by lia. f_equal. f_equal. lia.
    - destruct (fleb _ _); rewrite !fsub_of_Z, !fadd_of_Z by (unfold whole; lia); f_equal; lia. }
  pose proof (zsum_nonneg l Hl) as Hs. cbn [zsum fold_right] in *. fold (zsum l) in *.
  cbn [map fsum]. rewrite fzero_of_Z, fadd_of_Z by (unfold whole in *; lia).
  rewrite H by (rewrite ?Z.add_0_l; done || (unfold whole in *; lia)). done.
Qed.

(** ** Rounding a sum up at most to the next multiple *)

Lemma iter_shr_div n r : 0 <= shr_m r -> shr_m (Nat.iter n shr_1 r) = shr_m r / 2 ^ Z.of_nat n.
Proof.
  intros Hr. assert (forall r, 0 <= shr_m r -> shr_m (shr_1 r) = shr_m r / 2) as H1.
  { intros [m rr ss]. cbn. destruct m as [|[p|p|]|]; intros; try done; cbn.
    - apply Z.div_unique with 1; lia.
    - apply Z.div_unique with 0; lia. }
  induction n as [|n IH]; [by rewrite Z.div_1_r|]. cbn [Nat.iter nat_rect].
  change (nat_rect _ _ _ n) with (Nat.iter n shr_1 r).
  assert (0 < 2 ^ Z.of_nat n) as Hp by (apply Z.pow_pos_nonneg; lia).
  rewrite H1, IH by (rewrite IH; apply Z.div_pos; lia).
  rewrite Z.div_div by lia. f_equal. rewrite Nat2Z.inj_succ, Z.pow_succ_r by lia. lia.
Qed.

Lemma shr_fexp_div m e d :
  Zdigits2 m = d -> 0 <= m -> 53 <= d -> -1000 <= d + e <= 100 ->
  exists l, shr_fexp fprec femax m e loc_Exact = (l, d + e - 53) /\ shr_m l = m / 2 ^ (d - 53).
Proof.
  intros Hd Hm H53 Hr. unfold shr_fexp. rewrite Hd, fexp_small by done.
  replace (d + e - 53 - e) with (d - 53) by lia. unfold shr, shr_record_of_loc.
  destruct (d - 53) as [|k|k] eqn:Ek; [|clear Hr|lia].
  - eexists. split; [f_equal; lia|]. cbn. by rewrite Z.div_1_r.
  - eexists. split; [f_equal; lia|]. rewrite iter_pos_iter, iter_shr_div by done. cbn [shr_m].
    do 2 f_equal. lia.
Qed.

Lemma Zdigits2_pos p : Zdigits2 (Z.pos p) = Z.pos (digits2_pos p).
Proof. done. Qed.

(** A positive [m * 2^e] of more than 53 bits, rounded: 53 bits again, and no more than the next
    multiple of the last bit that is left. *)
Lemma round_bound p e :
  53 < Z.pos (digits2_pos p) -> -1000 <= Z.pos (digits2_pos p) + e <= 99 ->
  let k := Z.pos (digits2_pos p) - 53 in
  exists q f, binary_round fprec femax false p e = S754_finite false q (e + f) /\ k <= f /\
    2 ^ 52 <= Z.pos q < 2 ^ 53 /\ Z.pos q * 2 ^ f <= (Z.pos p / 2 ^ k + 1) * 2 ^ k.
Proof.
  intros Hd Hr k. set (d := Z.pos (digits2_pos p)) in *. destruct (digits_bounds p) as [Hlo Hhi]. fold d in Hlo, Hhi.
  assert (0 < 2 ^ k) as Hk by (apply Z.pow_pos_nonneg; lia).
  assert (2 ^ (d - 1) = 2 ^ 52 * 2 ^ k) as E1 by (rewrite <- Z.pow_add_r by lia; f_equal; lia).
  assert (2 ^ d = 2 ^ 53 * 2 ^ k) as E2 by (rewrite <- Z.pow_add_r by lia; f_equal; lia).
  set (M := Z.pos p / 2 ^ k). assert (2 ^ 52 <= M < 2 ^ 53) as HM.
  { unfold M. split; [apply Z.div_le_lower_bound; lia|apply Z.div_lt_upper_bound; lia]. }
  unfold binary_round, shl_align. fold d. rewrite fexp_small by lia.
  destruct (d + e - 53 - e) as [|t|t] eqn:Et; [lia| |lia].
  unfold binary_round_aux. destruct (shr_fexp_div (Z.pos p) e d) as (l & -> & El); [done|lia..|].
  rewrite El. fold k M.
  destruct (round_nearest_cases M (loc_of_shr_record l)) as [-> | [-> _]].
  - destruct (shr_fexp_div M (d + e - 53) 53) as (l2 & -> & El2); [by apply Zdigits2_53|lia..|].
    change (53 - 53) with 0 in El2. rewrite Z.div_1_r in El2. rewrite El2. destruct M as [|q|q]; [lia| |lia].
    rewrite (proj2 (Z.leb_le _ _)) by (unfold femax, fprec; lia).
    exists q, k. split; [f_equal; lia|]. split; [lia|]. split; [done|]. nia.
  - destruct (decide (M + 1 = 2 ^ 53)) as [E|Hne].
    + rewrite E. destruct (shr_fexp_div (2 ^ 53) (d + e - 53) 54) as (l2 & -> & El2); [by vm_compute|lia..|].
      change (2 ^ 53 / 2 ^ (54 - 53)) with (Z.pos 4503599627370496) in El2. rewrite El2.
      rewrite (proj2 (Z.leb_le _ _)) by (unfold femax, fprec; lia).
      exists 4503599627370496%positive, (k + 1). split; [f_equal; lia|]. split; [lia|]. split; [lia|].
      rewrite Z.pow_add_r by lia. lia.
    + destruct (shr_fexp_div (M + 1) (d + e - 53) 53) as (l2 & -> & El2); [apply Zdigits2_53; lia|lia..|].
      change (53 - 53) with 0 in El2. rewrite Z.div_1_r in El2. rewrite El2.
      destruct (M + 1) as [|q|q] eqn:EM; [lia| |lia].
      rewrite (proj2 (Z.leb_le _ _)) by (unfold femax, fprec; lia).
      exists q, k. split; [f_equal; lia|]. split; [lia|]. split; [lia|]. nia.
Qed.

(** A normalised positive below a whole number compares so. *)
Lemma fltb_normal q f b :
  0 < b -> whole b -> 2 ^ 52 <= Z.pos q < 2 ^ 53 -> -1000 <= f <= 0 ->
  Z.pos q < b * 2 ^ (- f) -> fltb (S754_finite false q f) (of_Z b) = true.
Proof.
  intros Hb Hw Hq Hf Hlt. rewrite of_Z_whole by done. destruct b as [|p|p]; [lia| |lia].
  pose proof (digits_whole p Hw) as Hd. destruct (digits_bounds p) as [Hlo Hhi].
  unfold of_whole, canon, fltb, SFltb, SFcompare.
  set (d := Z.pos (digits2_pos p)) in *. set (n := Z.to_nat (53 - d)).
  destruct (Z.compare_spec f (d - 53)) as [E|E|E]; [|done|].
  - assert (q < shl p n)%positive as Hql.
    { change (Z.pos q < Z.pos (shl p n)). rewrite shl_value. unfold n. rewrite Z2Nat.id by lia.
      replace (53 - d) with (- f) by lia. done. }
    change (Pos.compare_cont Eq q (shl p n)) with (Pos.compare q (shl p n)).
    rewrite (proj2 (Pos.compare_lt_iff _ _)) by done. done.
  - exfalso. assert (Z.pos p * 2 ^ (- f) < 2 ^ 52) as H; [|lia].
    apply Z.lt_le_trans with (2 ^ d * 2 ^ (- f)).
    + apply Z.mul_lt_mono_pos_r; [apply Z.pow_pos_nonneg; lia|done].
    + rewrite <- Z.pow_add_r by lia. apply Z.pow_le_mono_r; lia.
Qed.

(** The tolerance of the comparisons of quantities, 1e-9, does not reach the next whole number. *)
Lemma fltb_add_tolerance a b :
  0 <= a -> a < b -> a < 2 ^ 52 -> whole b -> fltb (fadd (of_Z a) (lit 1 9)) (of_Z b) = true.
Proof.
  intros Ha Hab H52 Hw. assert (whole a) as Hwa by (unfold whole in *; lia).
  replace (lit 1 9) with (S754_finite false 4835703278458517 (-82)) by (vm_compute; reflexivity).
  rewrite (of_Z_whole a) by done. destruct a as [|p|p]; [|clear Ha|lia].
  { apply fltb_normal; [lia|done|lia..|]. change (- -82) with 82. nia. }
  pose proof (digits_whole p Hwa) as Hd. destruct (digits_bounds p) as [Hlo Hhi].
  set (dp := Z.pos (digits2_pos p)) in *.
  unfold of_whole, canon, fadd, SFadd. fold dp.
  rewrite Z.min_r by lia.
  assert (Z.pos (fst (shl_align (shl p (Z.to_nat (53 - dp))) (dp - 53) (-82))) = Z.pos p * 2 ^ 82) as E1
    by (apply align_canon; lia).
  change (fst (shl_align 4835703278458517 (-82) (-82))) with 4835703278458517%positive.
  cbn [cond_Zopp]. rewrite E1. set (m := Z.pos p * 2 ^ 82 + Z.pos 4835703278458517).
  assert (0 < m) as Hm by lia. destruct m as [|x|x] eqn:Em; [lia| |lia].
  change (binary_normalize fprec femax (Z.pos x) (-82) false) with (binary_round fprec femax false x (-82)).
  assert (82 + dp <= Z.pos (digits2_pos x) <= 134) as Hdx.
  { destruct (digits_bounds x) as [Hl Hh]. rewrite <- Em in Hl, Hh. subst m. split.
    - apply Z.lt_pred_le, (Z.pow_lt_mono_r_iff 2); [lia..|]. apply Z.le_lt_trans with (2 := Hh).
      replace (Z.pred (82 + dp)) with (dp - 1 + 82) by lia. rewrite Z.pow_add_r by lia. nia.
    - apply Z.lt_succ_r. assert (Z.pos (digits2_pos x) - 1 < 134); [|lia].
      apply (Z.pow_lt_mono_r_iff 2); [lia..|]. lia. }
  destruct (round_bound x (-82)) as (q & f & -> & Hf & Hq & Hle); [lia..|].
  set (k := Z.pos (digits2_pos x) - 53) in *.
  assert (Z.pos q * 2 ^ f < b * 2 ^ 82) as Hlt.
  { assert (2 ^ k <= 2 ^ 81) by (apply Z.pow_le_mono_r; lia).
    pose proof (Z.mul_div_le (Z.pos x) (2 ^ k) ltac:(apply Z.pow_pos_nonneg; lia)). lia. }
  assert (f <= 82) as Hf82.
  { destruct (Z.le_gt_cases f 82); [done|]. exfalso.
    assert (2 ^ 83 <= 2 ^ f) by (apply Z.pow_le_mono_r; lia). unfold whole in Hw.
    assert (2 ^ 52 * 2 ^ 83 <= Z.pos q * 2 ^ f) by (apply Z.mul_le_mono_nonneg; lia). lia. }
  apply fltb_normal; [lia|done|done|lia|].
  apply (Z.mul_lt_mono_pos_r (2 ^ f)); [apply Z.pow_pos_nonneg; lia|].
  rewrite <- Z.mul_assoc, <- Z.pow_add_r by lia. replace (- (-82 + f) + f) with 82 by lia. done.
Qed.

(** A finite number divided by itself. *)
Lemma fdiv_self s m e : fdiv (S754_finite s m e) (S754_finite s m e) = fone.
Proof.
  unfold fdiv, SFdiv. unfold SFdiv_core_binary.
  rewrite !Z.sub_diag. replace (Zdigits2 (Z.pos m) + e - (Zdigits2 (Z.pos m) + e))%Z with 0%Z by lia.
  change (Z.min (fexp fprec femax 0) 0) with (-53)%Z. cbn -[Z.div_eucl binary_round_aux Z.shiftl].
  assert (E : Z.div_eucl (Z.shiftl (Z.pos m) 53) (Z.pos m) = (2 ^ 53, 0)%Z).
  { rewrite Z.shiftl_mul_pow2 by lia. rewrite Z.mul_comm.
    pose proof (Z.div_mul (2 ^ 53) (Z.pos m) ltac:(done)) as Hd. pose proof (Z.mod_mul (2 ^ 53) (Z.pos m) ltac:(done)) as Hm.
    unfold Z.div, Z.modulo in *. destruct (Z.div_eucl _ _) as [q r]. by subst. }
  change (match (0 - -53)%Z with 0%Z => Z.pos m | Z.pos _ => Z.shiftl (Z.pos m) (0 - -53) | Z.neg _ => 0%Z end) with (Z.shiftl (Z.pos m) 53). unfold Z.div_eucl in E. unfold Z.div_eucl. rewrite E. cbv beta iota zeta.
  replace (new_location (Z.pos m) 0) with loc_Exact by (unfold new_location, new_location_even, new_location_odd; by destruct (Z.even _)).
  rewrite xorb_nilpotent. vm_compute. done.
Qed.
