(* ===== verification/BarFreshness.v ===== *)
(** * Bar freshness

    [src/engine/bar_freshness.py]: the one measurement of how old market data is.
    A bar is stamped when it opens and is complete when it closes, so its age is
    counted from its close; a feed is stale once the next bar is overdue. Moments
    are microseconds since the epoch, in UTC. *)

From stdpp Require Import base.
From Stdlib Require Import ZArith Lia.
From S2P Require Import Prelude PyFloat.

(** The bar period is a whole number of seconds. *)
Definition bar_staleness_seconds (bar_open_ts bar_period_seconds now : Z) : float :=
  let bar_close := (bar_open_ts + bar_period_seconds * 1000000)%Z in
  py_max (total_seconds (now - bar_close)) fzero.

Definition stale_after_seconds (bar_period delivery_latency : float) : float :=
  fadd bar_period delivery_latency.
