(* ===== verification/Preemption.v ===== *)
(** * Risk escalation and cooperative preemption

    [src/engine/engine_preemption.py]: the escalation engine whose level outranks
    every other entry permission, and the latch that aborts a cycle in flight.
    Every method runs under one lock, so it is one atomic state transformer. *)

From stdpp Require Import base gmap strings list.
From S2P Require Import Prelude Models.

Inductive RiskEscalationLevel :=
  | NOMINAL
  | ENTRY_GATE_HALT
  | STRATEGY_LIQUIDATE
  | GLOBAL_FLATTEN_AND_HALT.

#[export] Instance RiskEscalationLevel_eq_dec : EqDecision RiskEscalationLevel.
Proof. solve_decision. Defined.

Definition level_value (l : RiskEscalationLevel) : string :=
  match l with
  | NOMINAL => "NOMINAL"
  | ENTRY_GATE_HALT => "ENTRY_GATE_HALT"
  | STRATEGY_LIQUIDATE => "STRATEGY_LIQUIDATE"
  | GLOBAL_FLATTEN_AND_HALT => "GLOBAL_FLATTEN_AND_HALT"
  end.

(** [RiskEscalationLevel(text)]: the member with that value, else [ValueError]. *)
Definition level_of_value (s : string) : option RiskEscalationLevel :=
  list_find (fun l => level_value l = s)
    [NOMINAL; ENTRY_GATE_HALT; STRATEGY_LIQUIDATE; GLOBAL_FLATTEN_AND_HALT] ≫= (fun p => Some p.2).

Definition preempts_in_flight_cycle (l : RiskEscalationLevel) : bool :=
  match l with STRATEGY_LIQUIDATE | GLOBAL_FLATTEN_AND_HALT => true | _ => false end.

Definition commands_portfolio_liquidation (l : RiskEscalationLevel) : bool :=
  bool_decide (l = GLOBAL_FLATTEN_AND_HALT).

Record RiskEscalationSnapshot := mkSnapshot {
  snap_level : RiskEscalationLevel;
  snap_scope_key : string;
  snap_strategy_id : option string;
  snap_symbol : option string;
  portfolio_liquidation_commanded : bool;
  engine_shutdown_latched : bool;
  snap_commanded_by : string
}.

Record PreemptionCheckpoint := mkCheckpoint {
  cp_phase : string;
  cp_step : string;
  cp_strategy_id : option string;
  cp_symbol : option string
}.

(** [parse_escalation_level]: the payload's [escalation_level] after [str],
    [strip] and [upper]; a missing key (or a None value) and an unknown name
    raise [ValueError]. The value is given as its [str] image. *)
Inductive parse_error := ValueError (msg : string).

Definition parse_escalation_level (raw : option string)
    : result parse_error RiskEscalationLevel :=
  match raw with
  | None => Raise (ValueError "escalation_level is required")
  | Some r =>
      match level_of_value (upper (strip r)) with
      | Some l => Ok l
      | None => Raise (ValueError "not a valid RiskEscalationLevel")
      end
  end.

(** ** The escalation engine *)

Definition engine_init : RiskEscalationSnapshot :=
  mkSnapshot NOMINAL "GLOBAL" None None false false "system".

(** [str(x) if x else None]. *)
Definition some_if_truthy (o : option string) : option string :=
  match o with Some s => if truthy s then Some s else None | None => None end.

Definition escalation_transition (new_level : RiskEscalationLevel) (scope : string)
    (sid sym : option string) (by_ : string) (prior : RiskEscalationSnapshot)
    : RiskEscalationSnapshot :=
  let portfolio_liquidation := commands_portfolio_liquidation new_level in
  let engine_shutdown :=
    if decide (new_level = GLOBAL_FLATTEN_AND_HALT) then true
    else engine_shutdown_latched prior in
  mkSnapshot new_level (str_or scope "GLOBAL") (some_if_truthy sid)
    (upper <$> some_if_truthy sym) portfolio_liquidation engine_shutdown
    (str_or by_ "system").

Definition is_engine_shutdown_latched (s : RiskEscalationSnapshot) : bool :=
  engine_shutdown_latched s.

Definition should_flatten_portfolio (s : RiskEscalationSnapshot) : bool :=
  bool_decide (snap_level s = GLOBAL_FLATTEN_AND_HALT) || portfolio_liquidation_commanded s.

Definition blocks_entries_for_strategy (sid : string) (s : RiskEscalationSnapshot) : bool :=
  match snap_level s with
  | NOMINAL => false
  | STRATEGY_LIQUIDATE => bool_decide (snap_strategy_id s = Some sid)
  | ENTRY_GATE_HALT | GLOBAL_FLATTEN_AND_HALT => true
  end.

Definition blocks_all_entries (s : RiskEscalationSnapshot) : bool :=
  match snap_level s with ENTRY_GATE_HALT | GLOBAL_FLATTEN_AND_HALT => true | _ => false end.

Definition requires_preemption (sid sym : option string) (s : RiskEscalationSnapshot) : bool :=
  match snap_level s with
  | GLOBAL_FLATTEN_AND_HALT => true
  | STRATEGY_LIQUIDATE =>
      (truthy_opt sid && truthy_opt (snap_strategy_id s) && bool_decide (sid = snap_strategy_id s))
      || (truthy_opt sym && truthy_opt (snap_symbol s) && bool_decide (upper <$> sym = snap_symbol s))
      || (bool_decide (snap_strategy_id s = None) && bool_decide (snap_symbol s = None))
  | _ => false
  end.

(** ** The preemption latch

    [wake] counts the calls that woke the bound cycle; [loop_open] says that an
    event loop is bound and not closed. [Cmd] is the control command the latch
    carries, [cmd_type] its [command_type.value]. *)

Section Latch.
Context {Cmd : Type} (cmd_type : Cmd -> string).

Record EnginePreemptionLatch := mkLatch {
  escalation : RiskEscalationSnapshot;
  preemption_armed : bool;
  pending_command : option Cmd;
  checkpoint : PreemptionCheckpoint;
  wake_bound : bool;
  loop_open : bool;
  wakes : nat
}.

Definition latch_init : EnginePreemptionLatch :=
  mkLatch engine_init false None (mkCheckpoint "idle" "start" None None) false false 0.

Definition bind_cycle_wake (open : bool) (l : EnginePreemptionLatch) : EnginePreemptionLatch :=
  mkLatch (escalation l) (preemption_armed l) (pending_command l) (checkpoint l)
    true open (wakes l).

Definition wake_cycle (l : EnginePreemptionLatch) : EnginePreemptionLatch :=
  if wake_bound l && loop_open l then
    mkLatch (escalation l) (preemption_armed l) (pending_command l) (checkpoint l)
      (wake_bound l) (loop_open l) (S (wakes l))
  else l.

Definition arm_command (c : Cmd) (lv : RiskEscalationLevel) (scope : string)
    (sid sym : option string) (l : EnginePreemptionLatch) : EnginePreemptionLatch :=
  let e := escalation_transition lv scope sid sym (cmd_type c) (escalation l) in
  let armed :=
    if preempts_in_flight_cycle lv || bool_decide (lv = GLOBAL_FLATTEN_AND_HALT)
    then true else preemption_armed l in
  wake_cycle (mkLatch e armed (Some c) (checkpoint l) (wake_bound l) (loop_open l) (wakes l)).

Definition arm_flatten_and_halt (c : Cmd) : EnginePreemptionLatch -> EnginePreemptionLatch :=
  arm_command c GLOBAL_FLATTEN_AND_HALT "GLOBAL" None None.

Definition should_preempt (sid sym : option string) (l : EnginePreemptionLatch) : bool :=
  preemption_armed l && requires_preemption sid sym (escalation l).

Definition set_checkpoint (cp : PreemptionCheckpoint) (l : EnginePreemptionLatch)
    : EnginePreemptionLatch :=
  mkLatch (escalation l) (preemption_armed l) (pending_command l) cp
    (wake_bound l) (loop_open l) (wakes l).

Definition take_pending_command (l : EnginePreemptionLatch)
    : option Cmd * EnginePreemptionLatch :=
  (pending_command l,
   mkLatch (escalation l) (preemption_armed l) None (checkpoint l)
     (wake_bound l) (loop_open l) (wakes l)).

Definition clear_preemption_arm (l : EnginePreemptionLatch) : EnginePreemptionLatch :=
  mkLatch (escalation l) false None (mkCheckpoint "idle" "cleared" None None)
    (wake_bound l) (loop_open l) (wakes l).
End Latch.
Arguments EnginePreemptionLatch : clear implicits.

(** ** Properties of the escalation engine *)

Lemma level_of_value_roundtrip l : level_of_value (level_value l) = Some l.
Proof. by destruct l. Qed.

Lemma level_of_value_inv s l : level_of_value s = Some l -> level_value l = s.
Proof.
  unfold level_of_value. intros H.
  apply bind_Some in H as ([i l'] & Hf & [= <-]).
  apply list_find_Some in Hf as (?&?&?). done.
Qed.

(** The calls that change an escalation engine are transitions; a run is the
    list of their arguments. *)
Definition transition_args : Type :=
  RiskEscalationLevel * string * option string * option string * string.

Definition engine_step (s : RiskEscalationSnapshot) (a : transition_args)
    : RiskEscalationSnapshot :=
  let '(lv, scope, sid, sym, by_) := a in escalation_transition lv scope sid sym by_ s.

(** Well-formed snapshots: the liquidation flag is exactly the top level, the
    top level has latched the shutdown, ids are not blank, symbols are upper
    case. *)
Record snapshot_wf (s : RiskEscalationSnapshot) : Prop := {
  wf_liq : portfolio_liquidation_commanded s = bool_decide (snap_level s = GLOBAL_FLATTEN_AND_HALT);
  wf_latch : snap_level s = GLOBAL_FLATTEN_AND_HALT -> engine_shutdown_latched s = true;
  wf_sid : snap_strategy_id s <> Some "";
  wf_sym : forall y, snap_symbol s = Some y -> upper y = y;
  wf_scope : snap_scope_key s <> "";
  wf_by : snap_commanded_by s <> ""
}.

Lemma str_or_nonempty s d : d <> "" -> str_or s d <> "".
Proof. by destruct s. Qed.

Lemma engine_init_wf : snapshot_wf engine_init.
Proof. split; done. Qed.

Lemma engine_step_wf s a : snapshot_wf (engine_step s a).
Proof.
  destruct a as [[[[lv scope] sid] sym] by_]. split; simpl; try done.
  - intros ->. done.
  - destruct sid as [[]|]; done.
  - intros y. destruct sym as [[]|]; simpl; intros; simplify_eq/=. apply upper_idem.
  - by apply str_or_nonempty.
  - by apply str_or_nonempty.
Qed.

Lemma engine_runs_wf evs : snapshot_wf (runs engine_step engine_init evs).
Proof. apply runs_invariant; [apply engine_init_wf|]. intros; apply engine_step_wf. Qed.

Definition is_global (a : transition_args) : bool :=
  let '(lv, _, _, _, _) := a in bool_decide (lv = GLOBAL_FLATTEN_AND_HALT).

Lemma engine_step_latch s a :
  engine_shutdown_latched (engine_step s a) = engine_shutdown_latched s || is_global a.
Proof.
  destruct a as [[[[lv scope] sid] sym] by_]; simpl.
  case_decide as H; [|rewrite bool_decide_eq_false_2 by done; by rewrite orb_false_r].
  by rewrite bool_decide_eq_true_2, orb_true_r.
Qed.

(** The engine shutdown latch is a one-way latch: over any sequence of
    transitions it is set exactly when a global flatten was commanded at least
    once, whatever later transitions de-escalate the level. *)
Theorem engine_shutdown_latch_one_way evs :
  engine_shutdown_latched (runs engine_step engine_init evs) = existsb is_global evs.
Proof.
  enough (H : forall s, engine_shutdown_latched (runs engine_step s evs)
                = engine_shutdown_latched s || existsb is_global evs) by apply H.
  induction evs as [|a evs IH]; intros s; simpl.
  - by rewrite orb_false_r.
  - rewrite IH, engine_step_latch. by rewrite <- orb_assoc.
Qed.

(** What the level of a reachable engine means to its clients. *)
Lemma should_flatten_portfolio_iff s :
  snapshot_wf s ->
  should_flatten_portfolio s = bool_decide (snap_level s = GLOBAL_FLATTEN_AND_HALT).
Proof. intros []. unfold should_flatten_portfolio. by rewrite wf_liq0, orb_diag. Qed.

Lemma flatten_blocks_everything s sid sym :
  snapshot_wf s -> should_flatten_portfolio s = true ->
  blocks_all_entries s = true /\ requires_preemption sid sym s = true /\
  engine_shutdown_latched s = true.
Proof.
  intros Hwf. rewrite should_flatten_portfolio_iff, bool_decide_eq_true by done.
  intros Hl. pose proof (wf_latch s Hwf Hl).
  unfold blocks_all_entries, requires_preemption. by rewrite Hl.
Qed.

Lemma blocks_all_blocks_each s sid :
  blocks_all_entries s = true -> blocks_entries_for_strategy sid s = true.
Proof. unfold blocks_all_entries, blocks_entries_for_strategy. by destruct (snap_level s). Qed.

(** ** Properties of the latch *)

Section LatchProps.
Context {Cmd : Type} (cmd_type : Cmd -> string).

Inductive latch_event : Type :=
  | EvArm (c : Cmd) (lv : RiskEscalationLevel) (scope : string) (sid sym : option string)
  | EvTake
  | EvClear
  | EvCheckpoint (cp : PreemptionCheckpoint)
  | EvBind (open : bool)
  | EvWake.

Definition latch_step (l : EnginePreemptionLatch Cmd) (e : latch_event)
    : EnginePreemptionLatch Cmd :=
  match e with
  | EvArm c lv scope sid sym => arm_command cmd_type c lv scope sid sym l
  | EvTake => (take_pending_command l).2
  | EvClear => clear_preemption_arm l
  | EvCheckpoint cp => set_checkpoint cp l
  | EvBind open => bind_cycle_wake open l
  | EvWake => wake_cycle l
  end.

Lemma wake_cycle_escalation l : escalation (@wake_cycle Cmd l) = escalation l.
Proof. unfold wake_cycle. by destruct (_ && _). Qed.

Lemma latch_step_wf l e :
  snapshot_wf (escalation l) -> snapshot_wf (escalation (latch_step l e)).
Proof.
  intros H. destruct e; try done; unfold latch_step, arm_command;
    rewrite wake_cycle_escalation; [|done].
  apply (engine_step_wf _ (lv, scope, sid, sym, cmd_type c)).
Qed.

(** Over any history of the latch: a cycle is preempted only while the latch
    is armed at a level that liquidates, and an armed global flatten preempts
    every strategy and symbol, blocks every entry and has latched the engine
    shutdown. Clearing the arm stops the preemption and keeps the level, so
    the entry block outlives it. *)
Theorem preemption_implies_liquidation_level evs sid sym :
  let l := runs latch_step latch_init evs in
  (should_preempt sid sym l = true ->
     preempts_in_flight_cycle (snap_level (escalation l)) = true) /\
  (should_flatten_portfolio (escalation l) = true ->
     blocks_entries_for_strategy (opt_or sid "") (escalation l) = true /\
     should_preempt sid sym l = preemption_armed l /\
     engine_shutdown_latched (escalation l) = true) /\
  (should_preempt sid sym (clear_preemption_arm l) = false /\
     escalation (clear_preemption_arm l) = escalation l).
Proof.
  simpl. set (l := runs latch_step latch_init evs).
  assert (Hwf : snapshot_wf (escalation l)).
  { apply (runs_invariant latch_step (fun l => snapshot_wf (escalation l)));
      [apply engine_init_wf|intros; by apply latch_step_wf]. }
  split; [|split; [|done]].
  - unfold should_preempt, requires_preemption. intros [_ H]%andb_true_iff.
    by destruct (snap_level (escalation l)).
  - intros Hf. destruct (flatten_blocks_everything _ sid sym Hwf Hf) as (Hb & Hr & Hl).
    unfold should_preempt. rewrite Hr, andb_true_r. by auto using blocks_all_blocks_each.
Qed.
End LatchProps.
