(* ===== verification/EntryAuthority.v ===== *)
(** * The composed entry authority

    [src/engine/entry_authority.py]: every gate that may refuse an order, in one
    total order, and [src/engine/commissioning_gate.py]: which legs load at all. *)

From stdpp Require Import base gmap strings list sorting.
From S2P Require Import Prelude Models Preemption.

(** ** [EntryContext] and [entry_allowed] *)

Record EntryContext := mkEntryContext {
  action : option string;
  preemption_flatten_portfolio : bool;
  preemption_blocks_strategy : bool;
  portfolio_halted : bool;
  strategy_halted : bool;
  capital_gate_block_new_entries : bool;
  degradation_block_new_entries : bool;
  safe_mode : bool;
  commissioning_gate_blocked : bool;
  force_liquidation : bool;
  pre_flight_recon_locked : bool;
  risk_halted : bool
}.

Record EntryDecision := mkEntryDecision {
  allowed : bool;
  block_reason : option string
}.

(** [ctx.action in ENTRY_ACTIONS]. *)
Definition ctx_is_entry (ctx : EntryContext) : bool :=
  match action ctx with
  | Some a => bool_decide (a = "LONG") || bool_decide (a = "SHORT")
  | None => false
  end.

Definition entry_allowed (ctx : EntryContext) : EntryDecision :=
  let is_entry := ctx_is_entry ctx in
  if preemption_flatten_portfolio ctx || preemption_blocks_strategy ctx then
    mkEntryDecision false (Some "preemption_escalation")
  else if pre_flight_recon_locked ctx then
    mkEntryDecision false (Some "pre_flight_recon_lock")
  else if risk_halted ctx then
    mkEntryDecision false (Some "risk_halt")
  else if portfolio_halted ctx then
    mkEntryDecision false (Some "portfolio_halt")
  else if strategy_halted ctx && is_entry then
    mkEntryDecision false (Some "strategy_halt")
  else if capital_gate_block_new_entries ctx && is_entry then
    mkEntryDecision false (Some "capital_gate_block_new_entries")
  else if degradation_block_new_entries ctx && is_entry && negb (force_liquidation ctx) then
    mkEntryDecision false (Some "degradation_block_entries")
  else if safe_mode ctx then
    mkEntryDecision false (Some "safe_mode")
  else if commissioning_gate_blocked ctx then
    mkEntryDecision false (Some "commissioning_fail_closed")
  else mkEntryDecision true None.

(** *** Specification: a table of gates in precedence order *)

Definition gate : Type := string * (EntryContext -> bool).

Definition global_gates : list gate :=
  [("preemption_escalation",
     fun c => preemption_flatten_portfolio c || preemption_blocks_strategy c);
   ("pre_flight_recon_lock", pre_flight_recon_locked);
   ("risk_halt", risk_halted);
   ("portfolio_halt", portfolio_halted)].

Definition entry_gates : list gate :=
  [("strategy_halt", fun c => strategy_halted c);
   ("capital_gate_block_new_entries", fun c => capital_gate_block_new_entries c);
   ("degradation_block_entries",
     fun c => degradation_block_new_entries c && negb (force_liquidation c))].

Definition leg_gates : list gate :=
  [("safe_mode", safe_mode);
   ("commissioning_fail_closed", commissioning_gate_blocked)].

(** The gates in force for a context: the entry gates apply to entries only. *)
Definition gates_for (c : EntryContext) : list gate :=
  global_gates ++ (if ctx_is_entry c then entry_gates else []) ++ leg_gates.

Fixpoint first_block (c : EntryContext) (gs : list gate) : EntryDecision :=
  match gs with
  | [] => mkEntryDecision true None
  | (reason, g) :: gs => if g c then mkEntryDecision false (Some reason) else first_block c gs
  end.

(** The order [c1 <= c2]: every blocking flag of [c1] is set in [c2], the
    action is the same and the only exemption, an active force liquidation, is
    not granted by [c2] when [c1] lacks it. *)
Record more_blocked (c1 c2 : EntryContext) : Prop := {
  mb_action : action c1 = action c2;
  mb_flatten : preemption_flatten_portfolio c1 = true -> preemption_flatten_portfolio c2 = true;
  mb_preempt : preemption_blocks_strategy c1 = true -> preemption_blocks_strategy c2 = true;
  mb_portfolio : portfolio_halted c1 = true -> portfolio_halted c2 = true;
  mb_strategy : strategy_halted c1 = true -> strategy_halted c2 = true;
  mb_capital : capital_gate_block_new_entries c1 = true -> capital_gate_block_new_entries c2 = true;
  mb_degraded : degradation_block_new_entries c1 = true -> degradation_block_new_entries c2 = true;
  mb_safe : safe_mode c1 = true -> safe_mode c2 = true;
  mb_commissioning : commissioning_gate_blocked c1 = true -> commissioning_gate_blocked c2 = true;
  mb_force : force_liquidation c2 = true -> force_liquidation c1 = true;
  mb_recon : pre_flight_recon_locked c1 = true -> pre_flight_recon_locked c2 = true;
  mb_risk : risk_halted c1 = true -> risk_halted c2 = true
}.

(** ** [resolve_active_legs] *)

Record StrategyConfig := mkStrategyConfig {
  cfg_strategy_id : string;
  cfg_enabled : bool
}.

Record SoakConfig := mkSoakConfig {
  soak_enabled : bool;
  commissioning_legs : list string
}.

Inductive LoadSource :=
  SOURCE_COMMISSIONING | SOURCE_SUPABASE | SOURCE_LOCAL_DEFAULT | SOURCE_FAIL_CLOSED.
#[export] Instance LoadSource_eq_dec : EqDecision LoadSource. Proof. solve_decision. Defined.

Record LegLoadDecision := mkLegLoadDecision {
  lld_strategy_id : string;
  lld_loaded : bool;
  lld_source : LoadSource;
  lld_commissioning : bool;
  lld_config : option StrategyConfig
}.

(** [{s.strategy_id: s for s in ss}]: the last configuration of an id wins. *)
Definition by_id (ss : list StrategyConfig) : gmap string StrategyConfig :=
  fold_left (fun m s => <[cfg_strategy_id s := s]> m) ss ∅.

Definition decide_leg (soak : SoakConfig) (allowlist : gset string)
    (local_by_id watcher_by_id : gmap string StrategyConfig)
    (supabase_authoritative : bool) (sid : string) : LegLoadDecision :=
  match (if decide (sid ∈ allowlist) then local_by_id !! sid else None) with
  | Some cfg => mkLegLoadDecision sid true SOURCE_COMMISSIONING true (Some cfg)
  | None =>
      if soak_enabled soak then
        mkLegLoadDecision sid false SOURCE_FAIL_CLOSED false None
      else
        let ws := watcher_by_id !! sid in
        let loaded := match ws with Some w => cfg_enabled w | None => false end in
        mkLegLoadDecision sid loaded
          (if supabase_authoritative then SOURCE_SUPABASE else SOURCE_LOCAL_DEFAULT) false
          (if loaded then ws else None)
  end.

Definition resolve_active_legs (environment : string) (soak : SoakConfig)
    (local_strategies watcher_strategies : list StrategyConfig)
    (supabase_authoritative : bool) : list LegLoadDecision :=
  let local_by_id := by_id local_strategies in
  let watcher_by_id := by_id watcher_strategies in
  let commissioning_active := soak_enabled soak && bool_decide (environment = "paper") in
  let allowlist : gset string :=
    if commissioning_active then list_to_set (commissioning_legs soak) else ∅ in
  map (decide_leg soak allowlist local_by_id watcher_by_id supabase_authoritative)
    (sorted_strings (dom local_by_id ∪ dom watcher_by_id)).

(** ** Lemmas *)

Lemma first_block_allowed c gs :
  allowed (first_block c gs) = true <-> Forall (fun g => g.2 c = false) gs.
Proof.
  induction gs as [|[r g] gs IH]; simpl; [split; eauto|].
  rewrite Forall_cons. destruct (g c) eqn:E; simpl; rewrite ?E; [|rewrite IH]; intuition done.
Qed.

Lemma entry_allowed_first_block c : entry_allowed c = first_block c (gates_for c).
Proof.
  unfold entry_allowed, gates_for. destruct (ctx_is_entry c); simpl;
    rewrite ?andb_true_r, ?andb_false_r, ?andb_false_l; reflexivity.
Qed.

Lemma gates_for_mono c1 c2 :
  more_blocked c1 c2 -> gates_for c1 = gates_for c2 /\
  Forall (fun g => g.2 c1 = true -> g.2 c2 = true) (gates_for c2).
Proof.
  intros []. assert (He : ctx_is_entry c1 = ctx_is_entry c2) by (unfold ctx_is_entry; by rewrite mb_action0).
  unfold gates_for. rewrite He. split; [done|].
  assert (Hpre : preemption_flatten_portfolio c1 || preemption_blocks_strategy c1 = true ->
    preemption_flatten_portfolio c2 || preemption_blocks_strategy c2 = true)
    by (rewrite !orb_true_iff; tauto).
  assert (Hdeg : degradation_block_new_entries c1 && negb (force_liquidation c1) = true ->
    degradation_block_new_entries c2 && negb (force_liquidation c2) = true).
  { rewrite !andb_true_iff, !negb_true_iff. intros [? Hf]. split; [auto|].
    destruct (force_liquidation c2); [|done]. by rewrite mb_force0 in Hf. }
  destruct (ctx_is_entry c2); simpl; repeat apply List.Forall_cons; auto using List.Forall_nil.
Qed.

Lemma lld_decide_leg_id soak al l w b sid : lld_strategy_id (decide_leg soak al l w b sid) = sid.
Proof. unfold decide_leg. by repeat case_match. Qed.

Lemma resolve_active_legs_ids environment soak local watcher b :
  map lld_strategy_id (resolve_active_legs environment soak local watcher b) =
  sorted_strings (dom (by_id local) ∪ dom (by_id watcher)).
Proof.
  unfold resolve_active_legs. rewrite map_map.
  rewrite <- (map_id (sorted_strings _)) at 2. apply map_ext. intros. apply lld_decide_leg_id.
Qed.

Lemma elem_of_resolve environment soak local watcher b d :
  d ∈ resolve_active_legs environment soak local watcher b ->
  d = decide_leg soak
        (if soak_enabled soak && bool_decide (environment = "paper")
         then list_to_set (commissioning_legs soak) else ∅)
        (by_id local) (by_id watcher) b (lld_strategy_id d).
Proof.
  unfold resolve_active_legs. intros (sid & -> & _)%list_elem_of_fmap.
  by rewrite lld_decide_leg_id.
Qed.

(** ** Properties *)

(** The gauntlet of early returns is the table of gates: the decision is the
    first gate in force that blocks, in the registered precedence, with that
    gate's reason, and permission when none blocks. *)
Theorem entry_allowed_is_first_block c :
  entry_allowed c = first_block c (gates_for c) /\
  (allowed (entry_allowed c) = true <-> Forall (fun g => g.2 c = false) (gates_for c)) /\
  (allowed (entry_allowed c) = true <-> block_reason (entry_allowed c) = None).
Proof.
  rewrite entry_allowed_first_block. split; [done|]. split; [apply first_block_allowed|].
  induction (gates_for c) as [|[r g] gs IH]; simpl; [done|].
  destruct (g c); [done|apply IH].
Qed.

(** No composition of gates can open what a gate closed: a context with more
    blocks set than an allowed one, or a context allowed under more blocks, is
    allowed under fewer. *)
Theorem entry_allowed_antitone c1 c2 :
  more_blocked c1 c2 ->
  allowed (entry_allowed c2) = true -> allowed (entry_allowed c1) = true.
Proof.
  intros Hm. destruct (gates_for_mono c1 c2 Hm) as [Hg Hall].
  rewrite !entry_allowed_first_block, !first_block_allowed, Hg, !Forall_forall.
  intros H2 g Hin. rewrite Forall_forall in Hall. specialize (Hall g Hin). specialize (H2 g Hin).
  destruct (g.2 c1); [|done]. by rewrite Hall in H2.
Qed.

Definition blocked_ctx : EntryContext :=
  mkEntryContext (Some "LONG") false false false false false true false false true false false.
Definition open_ctx : EntryContext :=
  mkEntryContext (Some "LONG") false false false false false false false false true false false.

Lemma entry_allowed_antitone_witness :
  allowed (entry_allowed blocked_ctx) = true /\ allowed (entry_allowed open_ctx) = true.
Proof.
  split; [reflexivity|]. apply (entry_allowed_antitone open_ctx blocked_ctx); [|reflexivity].
  split; done.
Defined.

(** During the soak the boot is decided by the local charter alone: a known leg
    loads exactly when the environment is paper, the leg is on the allowlist and
    it has a local configuration, which is the one loaded; what the watcher
    fetched, and whether the fetch was authoritative, does not change any
    decision, and every leg that does not load is fail-closed. *)
Theorem soak_boot_is_fail_closed environment soak local watcher watcher' b b' :
  soak_enabled soak = true ->
  dom (by_id watcher) = dom (by_id watcher') ->
  resolve_active_legs environment soak local watcher b =
    resolve_active_legs environment soak local watcher' b' /\
  forall d, d ∈ resolve_active_legs environment soak local watcher b ->
    (lld_loaded d = true <->
       environment = "paper" /\ lld_strategy_id d ∈ commissioning_legs soak /\
       is_Some (by_id local !! lld_strategy_id d)) /\
    (lld_loaded d = true -> lld_config d = by_id local !! lld_strategy_id d) /\
    (lld_loaded d = false -> lld_source d = SOURCE_FAIL_CLOSED /\ lld_config d = None).
Proof.
  intros Hs Hdom. split.
  - unfold resolve_active_legs. rewrite Hdom. apply map_ext. intros sid.
    unfold decide_leg. by rewrite Hs.
  - intros d Hd. apply elem_of_resolve in Hd. revert Hd.
    generalize (lld_strategy_id d). intros sid Hd. rewrite Hs in Hd. simpl in Hd.
    assert (Hal : sid ∈ (if bool_decide (environment = "paper")
        then list_to_set (commissioning_legs soak) else ∅ : gset string) <->
        environment = "paper" /\ sid ∈ commissioning_legs soak).
    { case_bool_decide; set_solver. }
    unfold decide_leg in Hd. rewrite Hs in Hd. case_decide as Hin.
    + destruct (by_id local !! sid) eqn:El; subst d; simpl; split_and!; try done;
        [naive_solver|split; [done|intros (_&_&[? ?]); congruence]].
    + subst d. simpl. split_and!; try done. split; [done|]. naive_solver.
Qed.

Definition soak_example : SoakConfig := mkSoakConfig true ["leg_a"].
Definition local_example : list StrategyConfig :=
  [mkStrategyConfig "leg_a" false; mkStrategyConfig "leg_b" true].

(** With the remote flapping between two answers the boot is the same, and it
    loads leg_a, which the remote disabled, but not the enabled leg_b. *)
Lemma soak_boot_is_fail_closed_witness :
  map lld_loaded (resolve_active_legs "paper" soak_example local_example
    [mkStrategyConfig "leg_a" false; mkStrategyConfig "leg_b" true] true) = [true; false] /\
  resolve_active_legs "paper" soak_example local_example
    [mkStrategyConfig "leg_a" false; mkStrategyConfig "leg_b" true] true =
  resolve_active_legs "paper" soak_example local_example
    [mkStrategyConfig "leg_a" true; mkStrategyConfig "leg_b" false] false.
Proof.
  split; [reflexivity|].
  apply (soak_boot_is_fail_closed "paper" soak_example local_example _ _ true false);
    reflexivity.
Defined.
