(* ===== verification/ConfigHash.v ===== *)
(** * Canonical configuration text and hash

    [src/lifecycle/config_hash.py]: a configuration is normalised (keys sorted
    at every depth, floats re-read from 12 significant digits), printed as
    compact JSON and hashed with SHA-256. Printing a float is Python's [repr]:
    the shortest decimal text that reads back as the same double. *)

From stdpp Require Import base gmap strings list pretty sorting.
From Stdlib Require Import ZArith Ascii Lia Floats.SpecFloat.
From S2P Require Import Prelude Dict PyFloat Models Sha256 Preemption.

Local Open Scope Z_scope.

(** ** Decimal text of a float *)

(** The double nearest to [m * 10^k], ties to even. *)
Definition parse_decimal (m k : Z) : float :=
  match m with
  | Z0 => fzero
  | _ =>
      if 0 <=? k then of_Z (m * 10 ^ k)
      else let '(q, e, l) := SFdiv_core_binary fprec femax (Z.abs m) 0 (10 ^ (- k)) 0 in
           binary_round_aux fprec femax (m <? 0) q e l
  end.

(** The exact value of [m * 2^e] as a fraction. *)
Definition frac_of (m : positive) (e : Z) : Z * Z :=
  if 0 <=? e then (Zpos m * 2 ^ e, 1) else (Zpos m, 2 ^ (- e)).

(** [10^d <= num/den], with [d] of either sign. *)
Definition pow10_le (d num den : Z) : bool :=
  if 0 <=? d then 10 ^ d * den <=? num else den <=? num * 10 ^ (- d).

(** The decimal exponent: the [d] with [10^d <= x < 10^(d+1)], searched around
    the estimate [log2(x) * log10(2)]. *)
Definition decimal_exponent (m : positive) (e : Z) : Z :=
  let '(num, den) := frac_of m e in
  let est := (Z.log2 (Zpos m) + e) * 1233 / 4096 in
  if pow10_le (est + 1) num den then est + 1
  else if pow10_le est num den then est else est - 1.

(** [x * 10^s] as quotient, remainder and divisor. *)
Definition scaled (m : positive) (e s : Z) : Z * Z * Z :=
  let '(num, den) := frac_of m e in
  let '(num, den) := if 0 <=? s then (num * 10 ^ s, den) else (num, den * 10 ^ (- s)) in
  (num / den, num mod den, den).

(** [n] significant digits, correctly rounded (half to even): [%.ng]. *)
Definition round_digits (n : Z) (m : positive) (e : Z) : Z * Z :=
  let d := decimal_exponent m e in
  let '(q, r, den) := scaled m e (n - 1 - d) in
  let q' := match Z.compare (2 * r) den with
            | Lt => q
            | Gt => q + 1
            | Eq => if Z.even q then q else q + 1
            end in
  (q', d - (n - 1)).

(** The shortest digits that read back as [x]: for growing [n], the [n]-digit
    neighbours of [x] that read back, the nearer one first. *)
Fixpoint shortest_digits (fuel : nat) (n : Z) (x : float) (m : positive) (e : Z) : Z * Z :=
  let d := decimal_exponent m e in
  let '(q, r, den) := scaled m e (n - 1 - d) in
  let k := d - (n - 1) in
  let lo := feqb (parse_decimal q k) x in
  let hi := feqb (parse_decimal (q + 1) k) x in
  if lo && (negb hi || (2 * r <=? den)) then (q, k)
  else if hi then (q + 1, k)
  else match fuel with
       | O => round_digits 17 m e
       | S fuel => shortest_digits fuel (n + 1) x m e
       end.

Fixpoint strip_zeros (fuel : nat) (q k : Z) : Z * Z :=
  match fuel with
  | O => (q, k)
  | S fuel => if (q mod 10 =? 0) then strip_zeros fuel (q / 10) (k + 1) else (q, k)
  end.

Definition zeros (n : Z) : string := string_of (repeat "0"%char (Z.to_nat n)).

Definition exponent_text (x : Z) : string :=
  String.append (if x <? 0 then "-" else "+")
    (if Z.abs x <? 10 then String.append "0" (pretty (Z.abs x)) else pretty (Z.abs x)).

Definition repr_pos (m : positive) (e : Z) : string :=
  let '(q, k) := shortest_digits 16 1 (S754_finite false m e) m e in
  let '(q, k) := strip_zeros 20 q k in
  let s : string := pretty q in
  let len := Z.of_nat (String.length s) in
  let decpt := len + k in
  if (decpt <=? -4) || (16 <? decpt) then
    String.append (String.substring 0 1 s)
      (String.append (if len =? 1 then "" else String.append "." (String.substring 1 (String.length s - 1) s))
        (String.append "e" (exponent_text (decpt - 1))))
  else if decpt <=? 0 then String.append "0." (String.append (zeros (- decpt)) s)
  else if len <=? decpt then String.append s (String.append (zeros (decpt - len)) ".0")
  else String.append (String.substring 0 (Z.to_nat decpt) s)
         (String.append "." (String.substring (Z.to_nat decpt) (Z.to_nat (len - decpt)) s)).

(** [json.dumps] of a float. *)
Definition repr_float (x : float) : string :=
  match x with
  | S754_nan => "NaN"
  | S754_infinity s => if s then "-Infinity" else "Infinity"
  | S754_zero s => if s then "-0.0" else "0.0"
  | S754_finite s m e => if s then String.append "-" (repr_pos m e) else repr_pos m e
  end.

(** [float(f"{value:.12g}")], with the zeros collapsed to [0.0]. *)
Definition norm_float (x : float) : float :=
  let norm :=
    match x with
    | S754_finite s m e =>
        let '(q, k) := round_digits 12 m e in
        let v := parse_decimal q k in if s then fneg v else v
    | _ => x
    end in
  if feqb norm fzero then fzero else norm.

(** ** [json.dumps(value, separators=(",", ":"))] *)

Definition quote : string := String (ascii_of_nat 34) EmptyString.

Definition json_escape_char (c : ascii) : string :=
  let n := nat_of_ascii c in
  if (n =? 34)%nat then String "\" quote
  else if (n =? 92)%nat then "\\"
  else if (n =? 10)%nat then "\n"
  else if (n =? 13)%nat then "\r"
  else if (n =? 9)%nat then "\t"
  else if (n =? 12)%nat then "\f"
  else if (n =? 8)%nat then "\b"
  else if (32 <=? n)%nat && (n <=? 126)%nat then String c EmptyString
  else String.append "\u00"
         (string_of [hex_digit (Z.of_nat n / 16); hex_digit (Z.of_nat n mod 16)]).

Fixpoint json_escape (s : string) : string :=
  match s with
  | EmptyString => EmptyString
  | String c s => String.append (json_escape_char c) (json_escape s)
  end.

Definition json_string (s : string) : string :=
  String.append quote (String.append (json_escape s) quote).

Fixpoint join (sep : string) (l : list string) : string :=
  match l with
  | [] => ""
  | [x] => x
  | x :: l => String.append x (String.append sep (join sep l))
  end.

Fixpoint dumps (j : json) : string :=
  match j with
  | JNull => "null"
  | JBool b => if b then "true" else "false"
  | JInt n => pretty n
  | JFloat x => repr_float x
  | JStr s => json_string s
  | JArr l => String.append "[" (String.append (join "," (map dumps l)) "]")
  | JObj fs =>
      String.append "{"
        (String.append
           (join "," (map (fun kv => String.append (json_string kv.1) (String.append ":" (dumps kv.2))) fs))
           "}")
  end.

(** ** Canonical form *)

(** [{k: value[k] for k in sorted(value)}]. *)
Definition sort_fields {A} (fs : list (string * A)) : list (string * A) :=
  omap (fun k => v ← assoc k fs; Some (k, v)) (sorted_keys (map fst fs)).

Fixpoint normalize (j : json) : json :=
  match j with
  | JFloat x => JFloat (norm_float x)
  | JArr l => JArr (map normalize l)
  | JObj fs => JObj (sort_fields (map (fun kv => (kv.1, normalize kv.2)) fs))
  | _ => j
  end.

(** [sort_keys=True] sorts the keys of every object. *)
Fixpoint sort_json (j : json) : json :=
  match j with
  | JArr l => JArr (map sort_json l)
  | JObj fs => JObj (sort_fields (map (fun kv => (kv.1, sort_json kv.2)) fs))
  | _ => j
  end.

(** [sort_keys=True] sorts the keys of [normalize]'s result once more: they are
    already sorted. *)
Definition canonical_config_json (config : json) : string := dumps (normalize config).

Definition canonical_config_hash (config : json) : string :=
  sha256_hex (canonical_config_json config).

Definition pin_config_hash : json -> string := canonical_config_hash.

(** [assert_running_hash]: on a mismatch the escalation engine is moved to the
    entry halt and a report is emitted; the running configuration is returned
    by neither, so it is never adopted. *)
Record hash_report := mkHashReport {
  hr_leg_id : string; hr_phase : string; hr_pinned : string; hr_running : string
}.

Definition assert_running_hash (running : json) (pinned leg phase : string)
    (escalation : option RiskEscalationSnapshot)
    : bool * option RiskEscalationSnapshot * list hash_report :=
  let running_hash := canonical_config_hash running in
  if decide (running_hash = pinned) then (true, escalation, [])
  else (false,
        escalation_transition ENTRY_GATE_HALT "GLOBAL" (Some leg) None
          (String.append "config_hash_mismatch_" phase) <$> escalation,
        [mkHashReport leg phase pinned running_hash]).

(** Texts printed by the interpreter the program runs on. *)
Lemma repr_examples :
  map repr_float [lit 23 1; of_Z 100; lit 1 4; lit 1 5; of_Z (10 ^ 16); of_Z (123456789 * 10 ^ 14);
    fdiv fone (of_Z 3); parse_decimal 5 (-324); parse_decimal 17976931348623157 292;
    fneg (lit 15 1); fdiv fone (of_Z (2 ^ 44)); norm_float (fdiv fone (of_Z 3))] =
  ["2.3"; "100.0"; "0.0001"; "1e-05"; "1e+16"; "1.23456789e+22"; "0.3333333333333333"; "5e-324";
   "1.7976931348623157e+308"; "-1.5"; "5.684341886080802e-14"; "0.333333333333"]%string.
Proof. vm_compute. reflexivity. Qed.

(** The module's own example: key order and float spelling do not matter. *)
Lemma canonical_example :
  canonical_config_json (JObj [("b", JInt 1); ("a", JFloat (lit 230 2))]) =
  canonical_config_json (JObj [("a", JFloat (lit 23 1)); ("b", JInt 1)]).
Proof. vm_compute. reflexivity. Qed.

(** ** Equivalent configurations *)

(** Two configurations that differ only in the order of the fields of their
    objects, at any depth, and in floats that agree to 12 digits. Objects have
    distinct keys, as Python dicts do. *)
Inductive json_equiv : json -> json -> Prop :=
  | equiv_refl j : json_equiv j j
  | equiv_float x y : norm_float x = norm_float y -> json_equiv (JFloat x) (JFloat y)
  | equiv_arr l l' : Forall2 json_equiv l l' -> json_equiv (JArr l) (JArr l')
  | equiv_obj fs gs fs' :
      NoDup (map fst fs) -> fs ≡ₚ gs ->
      Forall2 (fun a b => a.1 = b.1 /\ json_equiv a.2 b.2) gs fs' ->
      json_equiv (JObj fs) (JObj fs')
  | equiv_trans a b c : json_equiv a b -> json_equiv b c -> json_equiv a c.

Lemma sort_fields_perm {A} (fs gs : list (string * A)) :
  NoDup (map fst fs) -> fs ≡ₚ gs -> sort_fields fs = sort_fields gs.
Proof.
  intros Hd Hp. unfold sort_fields.
  rewrite (sorted_keys_unique (map fst fs) (map fst gs)) by (by apply Permutation_map).
  apply list_omap_ext, Forall_Forall2_diag, Forall_forall. intros k _.
  by rewrite (assoc_perm k fs gs).
Qed.

Lemma normalize_equiv : forall a b, json_equiv a b -> normalize a = normalize b.
Proof.
  fix IH 3. intros a b [j|x y Hxy|l l' Hl|fs gs fs' Hd Hp Hf|a1 b1 c1 H1 H2]; simpl.
  - done.
  - by rewrite Hxy.
  - f_equal. induction Hl as [|x y l l' Hxy Hl IHl]; simpl; [done|].
    by rewrite (IH x y Hxy), IHl.
  - f_equal.
    rewrite (sort_fields_perm _ (map (fun kv => (kv.1, normalize kv.2)) gs)).
    + f_equal. clear Hp Hd.
      induction Hf as [|x y l l' Hxy Hl IHl]; simpl; [done|].
      destruct Hxy as [Hk Hv]. by rewrite Hk, (IH _ _ Hv), IHl.
    + by rewrite map_map.
    + by apply Permutation_map.
  - by rewrite (IH a1 b1 H1), (IH b1 c1 H2).
Qed.

(** Equivalence is an equivalence relation up to the direction of the object
    rule; hashing is [Proper] for it, so equivalent configurations may be
    rewritten under the hash. *)
#[export] Instance canonical_config_hash_proper : Proper (json_equiv ==> eq) canonical_config_hash.
Proof.
  intros a b H. unfold canonical_config_hash, canonical_config_json. by rewrite (normalize_equiv a b H).
Qed.

(** ** Properties *)

(** The running configuration is accepted whenever it is the pinned one up to
    the order of the fields at any depth and float spelling; and when its hash
    differs, whatever the escalation engine was doing, the engine ends in the
    entry halt, which blocks every entry, commanded by the mismatch, and exactly
    one report names both hashes. *)
Theorem assert_running_hash_outcome running pinned leg phase esc :
  (json_equiv running pinned ->
     assert_running_hash running (pin_config_hash pinned) leg phase (Some esc) = (true, Some esc, [])) /\
  (canonical_config_hash running <> pin_config_hash pinned ->
     exists esc',
       assert_running_hash running (pin_config_hash pinned) leg phase (Some esc) =
         (false, Some esc', [mkHashReport leg phase (pin_config_hash pinned) (canonical_config_hash running)]) /\
       blocks_all_entries esc' = true /\
       engine_shutdown_latched esc' = engine_shutdown_latched esc /\
       snap_commanded_by esc' = String.append "config_hash_mismatch_" phase).
Proof.
  unfold assert_running_hash, pin_config_hash. split.
  - intros H. by rewrite decide_True by (by rewrite H).
  - intros H. rewrite decide_False by done. simpl. eexists. by split.
Qed.
