(* ===== verification/HashChain.v ===== *)
(** * The configuration hash chain

    [src/lifecycle/hash_chain.py] over [src/persistence/hash_chain_store.py]: an
    append-only lineage of configuration leaves, written by the refit runner and
    checked against the running configuration. The SQLite table is the list of
    its rows in the order of their autoincremented ids. *)

From stdpp Require Import base gmap strings list.
From Stdlib Require Import ZArith Lia.
From S2P Require Import Prelude Models Preemption ConfigHash.

(** ** The store *)

Record chain_row := mkChainRow {
  cr_leg_id : string;
  cr_epoch : Z;
  cr_parent_hash : option string;
  cr_leaf_hash : string;
  cr_refit_evidence_ref : option string;
  cr_created_utc : string
}.

Abbreviation chain_db := (list chain_row).

(** The payload of one insertion: a row without its timestamp. *)
Record chain_payload := mkChainPayload {
  cp_leg_id : string;
  cp_epoch : Z;
  cp_parent_hash : option string;
  cp_leaf_hash : string;
  cp_refit_evidence_ref : option string
}.

Definition persist_chain_entries (payloads : list chain_payload) (now : string) (db : chain_db)
    : chain_db :=
  db ++ map (fun p => mkChainRow (cp_leg_id p) (cp_epoch p) (cp_parent_hash p) (cp_leaf_hash p)
                        (cp_refit_evidence_ref p) now) payloads.

Definition read_chain (leg : string) (db : chain_db) : list chain_row :=
  filter (fun r => cr_leg_id r = leg) db.

(** [ORDER BY id DESC LIMIT 1]. *)
Definition read_latest_leaf (leg : string) (db : chain_db) : option string :=
  cr_leaf_hash <$> head (filter (fun r => cr_leg_id r = leg) (rev db)).

(** ** The chain *)

Definition append_chain_entry (leg leaf : string) (epoch : Z) (parent evidence : option string)
    (now : string) (db : chain_db) : chain_db :=
  persist_chain_entries [mkChainPayload leg epoch parent leaf evidence] now db.

(** The loop over [chain[1:]] with [prev_leaf] and [prev_epoch]. *)
Fixpoint verify_links (prev_leaf : string) (prev_epoch : Z) (chain : list chain_row) : bool :=
  match chain with
  | [] => true
  | e :: chain =>
      if negb (bool_decide (cr_parent_hash e = Some prev_leaf)) then false
      else if (cr_epoch e <=? prev_epoch)%Z then false
      else verify_links (cr_leaf_hash e) (cr_epoch e) chain
  end.

Definition verify_chain (leg : string) (db : chain_db) : bool :=
  match read_chain leg db with
  | [] => true
  | e :: chain =>
      if negb (bool_decide (cr_parent_hash e = None)) then false
      else verify_links (cr_leaf_hash e) (cr_epoch e) chain
  end.

Record oob_report := mkOobReport {
  oob_leg_id : string; oob_running_hash : string; oob_chain_head : option string
}.

Definition detect_out_of_band_change (leg : string) (running : json) (db : chain_db)
    (escalation : option RiskEscalationSnapshot)
    : bool * option RiskEscalationSnapshot * list oob_report :=
  let running_hash := canonical_config_hash running in
  let latest := read_latest_leaf leg db in
  if bool_decide (latest = Some running_hash) then (false, escalation, [])
  else (true,
        escalation_transition ENTRY_GATE_HALT "GLOBAL" (Some leg) None "config_chain_out_of_band"
          <$> escalation,
        [mkOobReport leg running_hash latest]).

(** ** The refit runner *)

Definition promote_genesis (leg : string) (config : json) (epoch : Z) (evidence : option string)
    (now : string) (db : chain_db) : string * chain_db :=
  let leaf := canonical_config_hash config in
  (leaf, append_chain_entry leg leaf epoch None evidence now db).

Definition record_refit (leg : string) (new_config : json) (epoch : Z) (evidence : string)
    (now : string) (db : chain_db) : string * chain_db :=
  let parent := read_latest_leaf leg db in
  let leaf := canonical_config_hash new_config in
  (leaf, append_chain_entry leg leaf epoch parent (Some evidence) now db).

(** ** Specification

    A valid lineage: the first entry has no parent, every later entry's parent
    is its predecessor's leaf and its epoch is larger. *)

Inductive lineage : list chain_row -> Prop :=
  | lineage_nil : lineage []
  | lineage_genesis r : cr_parent_hash r = None -> lineage [r]
  | lineage_snoc c p r :
      lineage (c ++ [p]) -> cr_parent_hash r = Some (cr_leaf_hash p) ->
      (cr_epoch p < cr_epoch r)%Z -> lineage (c ++ [p; r]).

(** ** Lemmas *)

Lemma read_chain_append leg leg' leaf epoch parent ev now db :
  read_chain leg (append_chain_entry leg' leaf epoch parent ev now db) =
  read_chain leg db ++
    (if decide (leg' = leg) then [mkChainRow leg' epoch parent leaf ev now] else []).
Proof.
  unfold read_chain, append_chain_entry, persist_chain_entries. simpl.
  by rewrite filter_app.
Qed.

Lemma head_rev_last {A} (l : list A) : head (rev l) = last l.
Proof. induction l using rev_ind; [done|]. by rewrite rev_app_distr, last_snoc. Qed.

Lemma filter_rev {A} (P : A -> Prop) `{!forall x, Decision (P x)} (l : list A) :
  filter P (rev l) = rev (filter P l).
Proof.
  induction l as [|x l IH]; simpl; [done|]. rewrite filter_app, IH, !filter_cons, filter_nil.
  case_decide; simpl; rewrite ?app_nil_r; done.
Qed.

Lemma read_latest_leaf_last leg db : read_latest_leaf leg db = cr_leaf_hash <$> last (read_chain leg db).
Proof. unfold read_latest_leaf. by rewrite filter_rev, head_rev_last. Qed.

Lemma verify_links_snoc leaf epoch c r :
  verify_links leaf epoch (c ++ [r]) =
  verify_links leaf epoch c &&
    match last c with
    | Some p => bool_decide (cr_parent_hash r = Some (cr_leaf_hash p)) && negb (cr_epoch r <=? cr_epoch p)%Z
    | None => bool_decide (cr_parent_hash r = Some leaf) && negb (cr_epoch r <=? epoch)%Z
    end.
Proof.
  revert leaf epoch. induction c as [|e c IH]; intros leaf epoch; simpl.
  - by destruct (bool_decide _), (_ <=? _)%Z.
  - rewrite IH. destruct (bool_decide _), (cr_epoch e <=? epoch)%Z; simpl; try done.
    rewrite last_cons. by destruct (last c).
Qed.

(** What one appended row does to the verdict on its leg. *)
Definition row_extends (c : list chain_row) (r : chain_row) : bool :=
  match last c with
  | None => bool_decide (cr_parent_hash r = None)
  | Some p => bool_decide (cr_parent_hash r = Some (cr_leaf_hash p)) && negb (cr_epoch r <=? cr_epoch p)%Z
  end.

Definition verify_rows (c : list chain_row) : bool :=
  match c with
  | [] => true
  | e :: c => bool_decide (cr_parent_hash e = None) && verify_links (cr_leaf_hash e) (cr_epoch e) c
  end.

Lemma verify_chain_rows leg db : verify_chain leg db = verify_rows (read_chain leg db).
Proof.
  unfold verify_chain, verify_rows. destruct (read_chain leg db) as [|e c]; [done|].
  by destruct (bool_decide _).
Qed.

Lemma verify_rows_snoc c r : verify_rows (c ++ [r]) = verify_rows c && row_extends c r.
Proof.
  unfold row_extends. destruct c as [|e c]; simpl; [by rewrite andb_true_r|].
  rewrite verify_links_snoc, last_cons, andb_assoc. by destruct (last c).
Qed.

Lemma verify_rows_lineage c : verify_rows c = true <-> lineage c.
Proof.
  split.
  - induction c as [|r c IH] using rev_ind; [constructor|].
    rewrite verify_rows_snoc, andb_true_iff. intros [Hc Hr]. unfold row_extends in Hr.
    destruct c as [|p c _] using rev_ind; [simpl in Hr; bool_prop; by apply lineage_genesis|].
    rewrite last_snoc in Hr. bool_prop. rewrite <- app_assoc. simpl. constructor; auto.
  - induction 1 as [|r Hr|c p r Hl IH Hp He]; [done|simpl; by rewrite bool_decide_eq_true_2|].
    change [p; r] with ([p] ++ [r]). rewrite app_assoc, verify_rows_snoc, IH.
    unfold row_extends. rewrite last_snoc, bool_decide_eq_true_2 by done. simpl.
    apply negb_true_iff. by apply Z.leb_gt.
Qed.

Lemma record_refit_chain leg leg' cfg epoch ev now db :
  read_chain leg (record_refit leg' cfg epoch ev now db).2 =
  read_chain leg db ++
    (if decide (leg' = leg)
     then [mkChainRow leg' epoch (read_latest_leaf leg' db) (canonical_config_hash cfg) (Some ev) now]
     else []).
Proof. apply read_chain_append. Qed.

Lemma promote_genesis_chain leg leg' cfg epoch ev now db :
  read_chain leg (promote_genesis leg' cfg epoch ev now db).2 =
  read_chain leg db ++
    (if decide (leg' = leg)
     then [mkChainRow leg' epoch None (canonical_config_hash cfg) ev now] else []).
Proof. apply read_chain_append. Qed.

(** ** Properties *)

(** [verify_chain] decides the lineage of a leg, and the refit runner keeps it:
    a refit extends a valid chain exactly when the chain is empty or its epoch
    is larger than the head's, a genesis promotion exactly when the chain is
    empty, and writes for one leg never touch the verdict on another. *)
Theorem refit_runner_lineage leg leg' cfg epoch ev ev' now db :
  (verify_chain leg db = true <-> lineage (read_chain leg db)) /\
  verify_chain leg (record_refit leg cfg epoch ev now db).2 =
    verify_chain leg db &&
      match last (read_chain leg db) with
      | None => true
      | Some head => (cr_epoch head <? epoch)%Z
      end /\
  verify_chain leg (promote_genesis leg cfg epoch ev' now db).2 =
    verify_chain leg db && bool_decide (read_chain leg db = []) /\
  (leg <> leg' ->
     verify_chain leg (record_refit leg' cfg epoch ev now db).2 = verify_chain leg db /\
     verify_chain leg (promote_genesis leg' cfg epoch ev' now db).2 = verify_chain leg db).
Proof.
  rewrite !verify_chain_rows, !record_refit_chain, !promote_genesis_chain.
  split; [apply verify_rows_lineage|].
  rewrite !(decide_True (P := leg = leg)), !verify_rows_snoc by done. split_and!.
  - f_equal. unfold row_extends. simpl. rewrite read_latest_leaf_last.
    destruct (last _) as [p|]; simpl; [|done].
    rewrite bool_decide_eq_true_2 by done. simpl. by rewrite Z.ltb_antisym.
  - f_equal. unfold row_extends.
    destruct (read_chain leg db) as [|p c _] using rev_ind; [done|].
    rewrite last_snoc, !bool_decide_eq_false_2; [done| |done]. by destruct c.
  - intros Hne. by rewrite !decide_False, !app_nil_r by done.
Qed.

(** Out-of-band detection is exact: after a refit was recorded the running
    configuration passes if and only if it hashes to the refit's leaf; anything
    else halts entries and reports the two hashes. *)
Theorem out_of_band_after_refit leg cfg epoch ev now db running esc :
  let db' := (record_refit leg cfg epoch ev now db).2 in
  if decide (canonical_config_hash running = canonical_config_hash cfg) then
    detect_out_of_band_change leg running db' (Some esc) = (false, Some esc, [])
  else exists esc',
    detect_out_of_band_change leg running db' (Some esc) =
      (true, Some esc',
       [mkOobReport leg (canonical_config_hash running) (Some (canonical_config_hash cfg))]) /\
    blocks_all_entries esc' = true.
Proof.
  simpl. unfold detect_out_of_band_change.
  rewrite read_latest_leaf_last, read_chain_append, (decide_True (P := leg = leg)), last_snoc
    by done.
  simpl. case_decide as H.
  - by rewrite bool_decide_eq_true_2 by congruence.
  - rewrite bool_decide_eq_false_2 by congruence. eauto.
Qed.
