(* ===== verification/Lifecycle.v ===== *)
(** * The leg lifecycle

    [src/lifecycle/state_machine.py]: the seven-state ladder a trading leg
    climbs through gates and leaves by demotion, and the report emitted on every
    change. A machine is driven by calls of [transition]; a refused call raises
    [IllegalTransition] and changes nothing. *)

From stdpp Require Import base gmap strings list.
From Stdlib Require Import ZArith.
From S2P Require Import Prelude PyFloat.

(** ** States *)

Inductive LifecycleState :=
  CANDIDATE | VALIDATED | PAPER | ACTIVE | WATCH | SAFE_MODE | RETIRED.

#[export] Instance LifecycleState_eq_dec : EqDecision LifecycleState.
Proof. solve_decision. Defined.

Definition LifecycleState_value (s : LifecycleState) : string :=
  match s with
  | CANDIDATE => "CANDIDATE" | VALIDATED => "VALIDATED" | PAPER => "PAPER"
  | ACTIVE => "ACTIVE" | WATCH => "WATCH" | SAFE_MODE => "SAFE_MODE" | RETIRED => "RETIRED"
  end.

Definition LEGAL_TRANSITIONS (s : LifecycleState) : list LifecycleState :=
  match s with
  | CANDIDATE => [VALIDATED; SAFE_MODE; RETIRED]
  | VALIDATED => [PAPER; SAFE_MODE; RETIRED]
  | PAPER => [ACTIVE; SAFE_MODE; RETIRED]
  | ACTIVE => [WATCH; SAFE_MODE; RETIRED]
  | WATCH => [ACTIVE; SAFE_MODE; RETIRED]
  | SAFE_MODE => [RETIRED]
  | RETIRED => []
  end.

Definition PROMOTION_TARGETS : list LifecycleState := [VALIDATED; PAPER; ACTIVE].

(** [_SIZING.get(state, 1.0)]. *)
Definition sizing_factor (s : LifecycleState) : float :=
  match s with WATCH => lit 5 1 | _ => fone end.

(** ** The machine *)

Record TransitionRecord := mkTransitionRecord {
  tr_leg_id : string;
  tr_from : LifecycleState;
  tr_to : LifecycleState;
  tr_reason : string;
  tr_actor : string
}.

(** The report handed to the sink: the record and the episode counter. *)
Record lifecycle_report := mkLifecycleReport {
  lr_record : TransitionRecord;
  lr_safe_mode_episodes : nat
}.

Record LifecycleStateMachine := mkLifecycle {
  leg_id : string;
  lc_state : LifecycleState;
  safe_mode_episodes : nat;
  reports : list lifecycle_report        (* what the sink received, oldest first *)
}.

Inductive IllegalTransition :=
  | AlreadyIn (s : LifecycleState)
  | Illegal (from to : LifecycleState) (actor : string).

Definition lifecycle_init (leg : string) (s : LifecycleState) : LifecycleStateMachine :=
  mkLifecycle leg s 0 [].

Definition can_transition (m : LifecycleStateMachine) (to_state : LifecycleState)
    (actor : string) : bool :=
  if negb (bool_decide (to_state ∈ LEGAL_TRANSITIONS (lc_state m))) then false
  else if bool_decide (actor = "operator") && bool_decide (to_state ∈ PROMOTION_TARGETS)
  then false
  else true.

Definition lifecycle_transition (to_state : LifecycleState) (reason actor : string)
    : py LifecycleStateMachine IllegalTransition TransitionRecord := fun m =>
  if bool_decide (to_state = lc_state m) then (Raise (AlreadyIn to_state), m)
  else if negb (can_transition m to_state actor) then
    (Raise (Illegal (lc_state m) to_state actor), m)
  else
    let record := mkTransitionRecord (leg_id m) (lc_state m) to_state reason actor in
    let episodes :=
      if bool_decide (to_state = SAFE_MODE) then S (safe_mode_episodes m)
      else safe_mode_episodes m in
    (Ok record,
     mkLifecycle (leg_id m) to_state episodes
       (reports m ++ [mkLifecycleReport record episodes])).

(** ** Histories *)

Definition lifecycle_call : Type := LifecycleState * string * string.

Definition lifecycle_step (m : LifecycleStateMachine) (c : lifecycle_call)
    : LifecycleStateMachine :=
  let '(to_state, reason, actor) := c in (lifecycle_transition to_state reason actor m).2.

(** The rungs of the ladder a leg must have stood on to be in a state. *)
Definition ladder_rank (s : LifecycleState) : nat :=
  match s with
  | CANDIDATE => 0 | VALIDATED => 1 | PAPER => 2 | ACTIVE => 3 | WATCH => 4
  | SAFE_MODE => 5 | RETIRED => 6
  end.

(** A list of records is a path of the ladder from [s0] to [s]. *)
Inductive ladder_path (s0 : LifecycleState) : list TransitionRecord -> LifecycleState -> Prop :=
  | path_nil : ladder_path s0 [] s0
  | path_snoc rs r s :
      ladder_path s0 rs s -> tr_from r = s -> tr_to r ∈ LEGAL_TRANSITIONS s ->
      (tr_actor r = "operator" -> tr_to r ∉ PROMOTION_TARGETS) ->
      ladder_path s0 (rs ++ [r]) (tr_to r).

Definition entered (s : LifecycleState) (rs : list TransitionRecord) : nat :=
  length (filter (fun r => tr_to r = s) rs).

Definition records (m : LifecycleStateMachine) : list TransitionRecord :=
  map lr_record (reports m).

(** ** Lemmas *)

Lemma can_transition_spec m to_ actor :
  can_transition m to_ actor = true <->
  to_ ∈ LEGAL_TRANSITIONS (lc_state m) /\ (actor = "operator" -> to_ ∉ PROMOTION_TARGETS).
Proof.
  unfold can_transition.
  destruct (bool_decide_reflect (to_ ∈ LEGAL_TRANSITIONS (lc_state m))); simpl; [|intuition done].
  destruct (bool_decide_reflect (actor = "operator")), (bool_decide_reflect (to_ ∈ PROMOTION_TARGETS));
    simpl; intuition done.
Qed.

(** A call either is refused and changes nothing, or appends its record. *)
Lemma lifecycle_step_cases m to_ reason actor :
  (lifecycle_step m (to_, reason, actor) = m) \/
  (exists ep,
    let r := mkTransitionRecord (leg_id m) (lc_state m) to_ reason actor in
    lifecycle_step m (to_, reason, actor) =
      mkLifecycle (leg_id m) to_ ep (reports m ++ [mkLifecycleReport r ep]) /\
    ep = safe_mode_episodes m + (if decide (to_ = SAFE_MODE) then 1 else 0) /\
    to_ ∈ LEGAL_TRANSITIONS (lc_state m) /\ (actor = "operator" -> to_ ∉ PROMOTION_TARGETS)).
Proof.
  unfold lifecycle_step, lifecycle_transition.
  destruct (bool_decide _); [by left|].
  destruct (can_transition m to_ actor) eqn:E; simpl; [|by left].
  right. eexists. apply can_transition_spec in E as [??]. split_and!; [done| |done|done].
  destruct (bool_decide_reflect (to_ = SAFE_MODE)); case_decide; try done; lia.
Qed.

Record lifecycle_inv (s0 : LifecycleState) (m : LifecycleStateMachine) : Prop := {
  inv_path : ladder_path s0 (records m) (lc_state m);
  inv_episodes : safe_mode_episodes m = entered SAFE_MODE (records m)
}.

Lemma lifecycle_step_inv s0 m c : lifecycle_inv s0 m -> lifecycle_inv s0 (lifecycle_step m c).
Proof.
  destruct c as [[to_ reason] actor]. intros Hi.
  destruct (lifecycle_step_cases m to_ reason actor) as [->|(ep & -> & -> & Hl & Ho)]; [done|].
  destruct Hi as [Hp He].
  split; unfold records; simpl; rewrite map_app; simpl; fold (records m).
  - by eapply (path_snoc s0 (records m) (mkTransitionRecord _ _ _ _ _)).
  - unfold entered in *. rewrite filter_app, length_app, He.
    f_equal. unfold filter; simpl. by case_decide.
Qed.

Lemma lifecycle_runs_inv leg s0 cs :
  lifecycle_inv s0 (runs lifecycle_step (lifecycle_init leg s0) cs).
Proof.
  apply runs_invariant; [split; [constructor|done]|]. intros; by apply lifecycle_step_inv.
Qed.

(** How often a path from the bottom of the ladder has entered each state, by
    the state it ends in. *)
Definition rungs (s : LifecycleState) (v p a w sm re : nat) : Prop :=
  match s with
  | CANDIDATE => v = 0 /\ p = 0 /\ a = 0 /\ w = 0 /\ sm = 0 /\ re = 0
  | VALIDATED => v = 1 /\ p = 0 /\ a = 0 /\ w = 0 /\ sm = 0 /\ re = 0
  | PAPER => v = 1 /\ p = 1 /\ a = 0 /\ w = 0 /\ sm = 0 /\ re = 0
  | ACTIVE => v = 1 /\ p = 1 /\ a = S w /\ sm = 0 /\ re = 0
  | WATCH => v = 1 /\ p = 1 /\ 1 <= a /\ a = w /\ sm = 0 /\ re = 0
  | SAFE_MODE => p <= v <= 1 /\ (a > 0 -> p = 1) /\ sm = 1 /\ re = 0
  | RETIRED => p <= v <= 1 /\ (a > 0 -> p = 1) /\ sm <= 1 /\ re = 1
  end.

Lemma entered_snoc t rs r :
  entered t (rs ++ [r]) = entered t rs + (if decide (tr_to r = t) then 1 else 0).
Proof.
  unfold entered. rewrite filter_app, length_app. f_equal.
  unfold filter; simpl. by case_decide.
Qed.

Lemma ladder_path_rungs rs s :
  ladder_path CANDIDATE rs s ->
  rungs s (entered VALIDATED rs) (entered PAPER rs) (entered ACTIVE rs) (entered WATCH rs)
    (entered SAFE_MODE rs) (entered RETIRED rs).
Proof.
  induction 1 as [|rs r s Hp IH _ Hl _]; [by split_and!|].
  rewrite !entered_snoc. clear Hp. revert IH.
  generalize (entered VALIDATED rs), (entered PAPER rs), (entered ACTIVE rs),
    (entered WATCH rs), (entered SAFE_MODE rs), (entered RETIRED rs).
  apply list_elem_of_In in Hl.
  destruct s, (tr_to r); simpl in *; try (exfalso; intuition discriminate); lia.
Qed.

Lemma ladder_path_operator s0 rs s :
  ladder_path s0 rs s -> Forall (fun r => tr_actor r = "operator" -> tr_to r ∉ PROMOTION_TARGETS) rs.
Proof. induction 1; [constructor|]. apply Forall_app. by repeat constructor. Qed.

(** ** Properties *)

(** Every history of a fresh leg climbs the ladder rung by rung: its reports
    are a path of legal transitions from CANDIDATE to the current state; a leg
    that trades has passed VALIDATED and PAPER exactly once each, has entered
    ACTIVE through a gate and never by the operator; SAFE_MODE is entered at
    most once and left only for RETIRED, which is final; and the episode counter
    counts the entries into SAFE_MODE. *)
Theorem lifecycle_history_climbs_the_ladder leg cs :
  let m := runs lifecycle_step (lifecycle_init leg CANDIDATE) cs in
  ladder_path CANDIDATE (records m) (lc_state m) /\
  rungs (lc_state m) (entered VALIDATED (records m)) (entered PAPER (records m))
    (entered ACTIVE (records m)) (entered WATCH (records m))
    (entered SAFE_MODE (records m)) (entered RETIRED (records m)) /\
  Forall (fun r => tr_actor r = "operator" -> tr_to r ∉ PROMOTION_TARGETS) (records m) /\
  safe_mode_episodes m = entered SAFE_MODE (records m) /\
  safe_mode_episodes m <= 1.
Proof.
  simpl. destruct (lifecycle_runs_inv leg CANDIDATE cs) as [Hp He].
  pose proof (ladder_path_rungs _ _ Hp) as Hr.
  split_and!; [done|done|by eapply ladder_path_operator|done|].
  rewrite He. revert Hr. by destruct (lc_state _); simpl; lia.
Qed.

(** The outcome of one call, on every branch: the state already held and an
    illegal or operator-forced promotion raise and leave the machine and its
    reports as they were; a legal transition moves the state, returns its record
    and emits exactly one report carrying it. From any state but RETIRED and
    SAFE_MODE itself, anyone may demote to SAFE_MODE. *)
Theorem lifecycle_transition_outcome m to_ reason actor :
  match lifecycle_transition to_ reason actor m with
  | (Raise (AlreadyIn s), m') => s = lc_state m /\ to_ = s /\ m' = m
  | (Raise (Illegal from to' a), m') =>
      m' = m /\ from = lc_state m /\ to' = to_ /\ a = actor /\ to_ <> lc_state m /\
      (to_ ∉ LEGAL_TRANSITIONS (lc_state m) \/ (actor = "operator" /\ to_ ∈ PROMOTION_TARGETS))
  | (Ok r, m') =>
      r = mkTransitionRecord (leg_id m) (lc_state m) to_ reason actor /\
      lc_state m' = to_ /\ leg_id m' = leg_id m /\ records m' = records m ++ [r] /\
      to_ ∈ LEGAL_TRANSITIONS (lc_state m)
  end /\
  (lc_state m <> RETIRED -> lc_state m <> SAFE_MODE ->
     lc_state (lifecycle_transition SAFE_MODE reason actor m).2 = SAFE_MODE).
Proof.
  split.
  - unfold lifecycle_transition.
    destruct (bool_decide_reflect (to_ = lc_state m)) as [->|Hne]; [done|].
    destruct (can_transition m to_ actor) eqn:E; simpl.
    + apply can_transition_spec in E as [? ?]. unfold records; simpl. by rewrite map_app.
    + split_and!; try done. apply not_true_iff_false in E. rewrite can_transition_spec in E.
      destruct (decide (to_ ∈ LEGAL_TRANSITIONS (lc_state m))); [right|by left].
      destruct (decide (actor = "operator")), (decide (to_ ∈ PROMOTION_TARGETS)); tauto.
  - intros. unfold lifecycle_transition, can_transition.
    destruct (lc_state m); try done; by destruct (bool_decide (actor = "operator")).
Qed.
