(* ===== verification/Degradation.v ===== *)
(** * The degradation manager

    [src/engine/degradation_manager.py] over the governance row of
    [src/persistence/governance_state_store.py]: four operational modes, driven
    by the SLO verdicts of [src/engine/slo_monitor.py] and by explicit calls,
    persisted on every change and rehydrated after a restart. The clock is an
    argument [now] of the operations that read it. *)

From stdpp Require Import base gmap strings list.
From Stdlib Require Import ZArith Lia.
From S2P Require Import Prelude Dict PyFloat Models BarFreshness.

(** ** Verdicts *)

Inductive IntegritySeverity := SevOK | SevWARNING | SevSOFT_BREACH | SevHARD_BREACH.
#[export] Instance IntegritySeverity_eq_dec : EqDecision IntegritySeverity.
Proof. solve_decision. Defined.

Definition severity_rank (s : IntegritySeverity) : Z :=
  match s with SevOK => 0 | SevWARNING => 1 | SevSOFT_BREACH => 2 | SevHARD_BREACH => 3 end.

Definition max_severity (current candidate : IntegritySeverity) : IntegritySeverity :=
  if (severity_rank candidate <=? severity_rank current)%Z then current else candidate.

(** The part of a verdict the manager reads. *)
Record slo_verdict := mkVerdict {
  v_severity : IntegritySeverity;
  v_reasons : list string
}.

(** The metrics [evaluate_data_integrity] has computed when it starts to judge
    a leg whose market is open. *)
Record integrity_metrics := mkMetrics {
  bar_period_secs : float;
  freshness_seconds : float;
  missing_bar_rate : float;
  nbbo_success_rate : float;
  ingest_circuit_breaker_tripped : bool;
  sequence_misalignments : Z;
  ingest_arrival_lag : float;
  arrival_bar_period_seconds : float
}.

Definition INGEST_ARRIVAL_LAG_SOFT_FRACTION : float := fdiv (of_Z 15) (of_Z 900).
Definition INGEST_ARRIVAL_LAG_HARD_FRACTION : float := fdiv (of_Z 30) (of_Z 900).

(** One judgement: append the reason and raise the severity when the test holds. *)
Definition judge (test : bool) (reason : string) (set : IntegritySeverity -> IntegritySeverity)
    (acc : IntegritySeverity * list string) : IntegritySeverity * list string :=
  if test then (set acc.1, acc.2 ++ [reason]) else acc.

Definition soft : IntegritySeverity -> IntegritySeverity := fun s => max_severity s SevSOFT_BREACH.
Definition hard : IntegritySeverity -> IntegritySeverity := fun _ => SevHARD_BREACH.

Definition judge_integrity (m : integrity_metrics) : slo_verdict :=
  let stale_soft := stale_after_seconds (bar_period_secs m) (of_Z 150) in
  let stale_hard := stale_after_seconds (bar_period_secs m) (of_Z 600) in
  let acc := (SevOK, []) in
  let acc := judge (fltb stale_soft (freshness_seconds m)) "bar_freshness_drift" soft acc in
  let acc := judge (fltb stale_hard (freshness_seconds m)) "bar_freshness_critical" hard acc in
  let acc := judge (fltb (lit 6 2) (missing_bar_rate m)) "missing_bar_rate_elevated" soft acc in
  let acc := judge (fltb (lit 18 2) (missing_bar_rate m)) "missing_bar_rate_critical" hard acc in
  let acc := judge (fltb (nbbo_success_rate m) (lit 85 2)) "nbbo_fetch_degraded" soft acc in
  let acc := judge (fltb (nbbo_success_rate m) (lit 55 2)) "nbbo_fetch_critical" hard acc in
  let acc := judge (ingest_circuit_breaker_tripped m) "ingest_circuit_breaker_tripped" soft acc in
  let acc :=
    if (5 <=? sequence_misalignments m)%Z then judge true "sequence_misalignment_critical" hard acc
    else judge (1 <=? sequence_misalignments m)%Z "sequence_misalignment" soft acc in
  let lag_fraction :=
    if fltb fzero (arrival_bar_period_seconds m)
    then fdiv (ingest_arrival_lag m) (arrival_bar_period_seconds m) else fzero in
  let acc :=
    if fltb INGEST_ARRIVAL_LAG_HARD_FRACTION lag_fraction
    then judge true "ingest_arrival_lag_critical" hard acc
    else judge (fltb INGEST_ARRIVAL_LAG_SOFT_FRACTION lag_fraction) "ingest_arrival_lag" soft acc in
  mkVerdict acc.1 acc.2.

(** ** The persisted row *)

Inductive OperationalMode := NORMAL | SOFT_DEGRADE | RECON_DEGRADED_MANAGE | HARD_CRITICAL_DEGRADE.
#[export] Instance OperationalMode_eq_dec : EqDecision OperationalMode.
Proof. solve_decision. Defined.

Definition mode_value (m : OperationalMode) : string :=
  match m with
  | NORMAL => "NORMAL" | SOFT_DEGRADE => "SOFT_DEGRADE"
  | RECON_DEGRADED_MANAGE => "RECON_DEGRADED_MANAGE"
  | HARD_CRITICAL_DEGRADE => "HARD_CRITICAL_DEGRADE"
  end.

(** [OperationalMode(text)], with the [except ValueError] of the caller. *)
Definition mode_of_value (s : string) : OperationalMode :=
  if decide (s = "SOFT_DEGRADE") then SOFT_DEGRADE
  else if decide (s = "RECON_DEGRADED_MANAGE") then RECON_DEGRADED_MANAGE
  else if decide (s = "HARD_CRITICAL_DEGRADE") then HARD_CRITICAL_DEGRADE
  else NORMAL.

Record PersistedGovernanceState := mkPersisted {
  degradation_mode : string;
  trigger_reason : string;
  entered_at : option string;
  p_flatten_latched : bool;
  p_recovery_streak : Z
}.

(** [persist_governance_state]: the upsert of the single ["degradation"] row;
    [load_governance_state] reads it back. *)
Definition persist_governance_state (mode reason : string) (entered : option string)
    (latched : bool) (streak : Z) (_db : option PersistedGovernanceState)
    : option PersistedGovernanceState :=
  Some (mkPersisted mode reason entered latched (Z.max streak 0)).

Definition load_governance_state (db : option PersistedGovernanceState)
    : option PersistedGovernanceState := db.

(** ** The manager *)

Definition SOFT_RECOVERY_STREAK : Z := 3.
Definition HARD_RECOVERY_STREAK : Z := 6.

(** What leaves the process: the notifier's calls and the critical page. *)
Inductive degrade_alert :=
  | NotifyEntered (reason : string)
  | CriticalPage (reason : string)
  | ResolveEntered
  | NotifyRecovered (mode : OperationalMode) (reason : string).

Record DegradationManager := mkManager {
  dm_mode : OperationalMode;
  dm_reason : string;
  dm_activated_at : option string;
  dm_recovery_streak : Z;
  dm_flatten_latched : bool;
  dm_hydrated : bool;
  dm_notifier : bool;                            (* a notifier is configured *)
  dm_alerts : list degrade_alert;
  dm_db : option PersistedGovernanceState
}.

Definition manager_init (notifier : bool) (db : option PersistedGovernanceState)
    : DegradationManager :=
  mkManager NORMAL "" None 0 false false notifier [] db.

Record DegradationState := mkDegradationState {
  ds_mode : OperationalMode;
  block_new_entries : bool;
  ignore_model_signals : bool;
  force_emergency_flatten : bool;
  bypass_standard_timers : bool;
  allow_exit_tracking : bool;
  ds_reason : string;
  ds_activated_at : string
}.

Definition build_state (now : string) (m : DegradationManager) : DegradationState :=
  let at_ := opt_or (dm_activated_at m) now in
  match dm_mode m with
  | SOFT_DEGRADE => mkDegradationState SOFT_DEGRADE true false false false true (dm_reason m) at_
  | RECON_DEGRADED_MANAGE =>
      mkDegradationState RECON_DEGRADED_MANAGE true false false false true (dm_reason m) at_
  | HARD_CRITICAL_DEGRADE =>
      mkDegradationState HARD_CRITICAL_DEGRADE true true true true false (dm_reason m) at_
  | NORMAL =>
      mkDegradationState NORMAL false false false false true (dm_reason m)
        (opt_or (dm_activated_at m) "")
  end.

Definition persist_state (m : DegradationManager) : DegradationManager :=
  mkManager (dm_mode m) (dm_reason m) (dm_activated_at m) (dm_recovery_streak m)
    (dm_flatten_latched m) true (dm_notifier m) (dm_alerts m)
    (persist_governance_state (mode_value (dm_mode m)) (dm_reason m) (dm_activated_at m)
       (dm_flatten_latched m) (dm_recovery_streak m) (dm_db m)).

Definition emit (alerts : list degrade_alert) (m : DegradationManager) : DegradationManager :=
  mkManager (dm_mode m) (dm_reason m) (dm_activated_at m) (dm_recovery_streak m)
    (dm_flatten_latched m) (dm_hydrated m) (dm_notifier m) (dm_alerts m ++ alerts) (dm_db m).

(** Change the fields a transition assigns. *)
Definition assign (mode : OperationalMode) (reason : string) (at_ : option string) (streak : Z)
    (latched : bool) (m : DegradationManager) : DegradationManager :=
  mkManager mode reason at_ streak latched (dm_hydrated m) (dm_notifier m) (dm_alerts m) (dm_db m).

Definition dispatch_degradation_entered (reason : string) (m : DegradationManager)
    : DegradationManager :=
  emit ((if dm_notifier m then [NotifyEntered reason] else []) ++ [CriticalPage reason]) m.

Definition dispatch_degradation_recovered (reason : string) (m : DegradationManager)
    : DegradationManager :=
  emit (if dm_notifier m then [ResolveEntered; NotifyRecovered (dm_mode m) reason] else []) m.

(** The assignments of [apply_soft_degrade], before the row is written. *)
Definition soft_degrade_memory (reason now : string) (m : DegradationManager) : DegradationManager :=
  if bool_decide (dm_mode m = SOFT_DEGRADE)
  then assign SOFT_DEGRADE reason (dm_activated_at m) (dm_recovery_streak m) false m
  else assign SOFT_DEGRADE reason (Some now) 0 false m.

Definition apply_soft_degrade (reason now : string) (m : DegradationManager) : DegradationManager :=
  if bool_decide (dm_mode m = HARD_CRITICAL_DEGRADE) then m
  else persist_state (soft_degrade_memory reason now m).

Definition apply_recon_degraded_manage (reason now : string) (m : DegradationManager)
    : DegradationManager :=
  if bool_decide (dm_mode m = HARD_CRITICAL_DEGRADE) then m
  else persist_state (assign RECON_DEGRADED_MANAGE reason (Some now) 0 false m).

Definition apply_hard_critical_degrade (reason now : string) (m : DegradationManager)
    : DegradationManager :=
  let entering := negb (bool_decide (dm_mode m = HARD_CRITICAL_DEGRADE)) in
  let at_ := if entering then Some now else dm_activated_at m in
  let m' := persist_state (assign HARD_CRITICAL_DEGRADE reason at_ 0 true m) in
  if entering then dispatch_degradation_entered reason m' else m'.

Definition downgrade_hard_to_soft (reason now : string) (m : DegradationManager)
    : DegradationManager :=
  dispatch_degradation_recovered reason
    (persist_state (assign SOFT_DEGRADE reason (Some now) 0 false m)).

Definition reset_to_normal (reason : string) (m : DegradationManager) : DegradationManager :=
  let was_degraded := negb (bool_decide (dm_mode m = NORMAL)) in
  let m' := persist_state (assign NORMAL reason None 0 false m) in
  if was_degraded then dispatch_degradation_recovered reason m' else m'.

(** [self._recovery_streak += 1] on an OK verdict. *)
Definition bump_streak (v : slo_verdict) (m : DegradationManager) : DegradationManager :=
  if bool_decide (v_severity v = SevOK) then
    assign (dm_mode m) (dm_reason m) (dm_activated_at m) (dm_recovery_streak m + 1)
      (dm_flatten_latched m) m
  else m.

(** ["|".join(reasons) or default]. *)
Fixpoint join_bar (l : list string) : string :=
  match l with
  | [] => ""
  | [x] => x
  | x :: l => String.append x (String.append "|" (join_bar l))
  end.

Definition evaluate_from_slo (v : slo_verdict) (now : string) (m : DegradationManager)
    : DegradationManager :=
  if bool_decide (v_severity v = SevHARD_BREACH) then
    apply_hard_critical_degrade (str_or (join_bar (v_reasons v)) "hard_slo_breach") now m
  else match dm_mode m with
  | HARD_CRITICAL_DEGRADE =>
      let m := bump_streak v m in
      if (HARD_RECOVERY_STREAK <=? dm_recovery_streak m)%Z
      then downgrade_hard_to_soft "hard_critical_recovered_to_soft" now m
      else persist_state m
  | SOFT_DEGRADE =>
      let m := bump_streak v m in
      if (SOFT_RECOVERY_STREAK <=? dm_recovery_streak m)%Z
      then reset_to_normal "slo_recovered" m
      else persist_state m
  | mode =>
      if bool_decide (v_severity v = SevSOFT_BREACH) then
        apply_soft_degrade (str_or (join_bar (v_reasons v)) "soft_slo_breach") now m
      else if bool_decide (mode = RECON_DEGRADED_MANAGE) then m
      else persist_state
             (assign (dm_mode m) (dm_reason m) (dm_activated_at m) 0 (dm_flatten_latched m) m)
  end.

Definition should_block_entry_action (action : option SignalAction) (now : string)
    (m : DegradationManager) : bool :=
  match action with
  | None => false
  | Some a => block_new_entries (build_state now m) && is_entry_action a
  end.

Definition consume_flatten_request (m : DegradationManager) : bool * DegradationManager :=
  if negb (dm_flatten_latched m) then (false, m)
  else (true, persist_state (assign (dm_mode m) (dm_reason m) (dm_activated_at m)
                               (dm_recovery_streak m) false m)).

Definition should_ignore_model_signal (now : string) (m : DegradationManager) : bool :=
  ignore_model_signals (build_state now m).

Definition override_routing_params (params : list (string * json)) (now : string)
    (m : DegradationManager) : list (string * json) :=
  let state := build_state now m in
  if bool_decide (ds_mode state = NORMAL) then params else
  let adjusted := assoc_set "operational_mode" (JStr (mode_value (ds_mode state))) params in
  let adjusted := assoc_set "degradation_reason" (JStr (ds_reason state)) adjusted in
  let adjusted :=
    if bypass_standard_timers state
    then assoc_set "poll_interval_seconds" (JInt 0)
           (assoc_set "bypass_standard_timers" (JBool true) adjusted)
    else adjusted in
  if block_new_entries state then assoc_set "block_new_entries" (JBool true) adjusted else adjusted.

Definition hydrate_from_vault (m : DegradationManager) : DegradationManager :=
  if dm_hydrated m then m
  else match load_governance_state (dm_db m) with
  | Some p =>
      mkManager (mode_of_value (degradation_mode p)) (trigger_reason p) (entered_at p) 0
        (p_flatten_latched p) true (dm_notifier m) (dm_alerts m) (dm_db m)
  | None =>
      mkManager (dm_mode m) (dm_reason m) (dm_activated_at m) (dm_recovery_streak m)
        (dm_flatten_latched m) true (dm_notifier m) (dm_alerts m) (dm_db m)
  end.

(** A restart: a new process over the same database. *)
Definition restart (m : DegradationManager) : DegradationManager :=
  hydrate_from_vault (manager_init (dm_notifier m) (dm_db m)).

(** ** Histories *)

Inductive degrade_event :=
  | EvSlo (v : slo_verdict) (now : string)
  | EvSoft (reason now : string)
  | EvRecon (reason now : string)
  | EvHard (reason now : string)
  | EvReset (reason : string)
  | EvConsume
  | EvHydrate
  | EvRestart.

Definition degrade_step (m : DegradationManager) (e : degrade_event) : DegradationManager :=
  match e with
  | EvSlo v now => evaluate_from_slo v now m
  | EvSoft r now => apply_soft_degrade r now m
  | EvRecon r now => apply_recon_degraded_manage r now m
  | EvHard r now => apply_hard_critical_degrade r now m
  | EvReset r => reset_to_normal r m
  | EvConsume => (consume_flatten_request m).2
  | EvHydrate => hydrate_from_vault m
  | EvRestart => restart m
  end.

(** The persisted row says what the manager is: after a restart the same mode,
    reason, entry time and flatten latch come back. *)
Definition row_matches (p : PersistedGovernanceState) (m : DegradationManager) : Prop :=
  mode_of_value (degradation_mode p) = dm_mode m /\ trigger_reason p = dm_reason m /\
  entered_at p = dm_activated_at m /\ p_flatten_latched p = dm_flatten_latched m.

Record degrade_inv (m : DegradationManager) : Prop := {
  inv_latch : dm_flatten_latched m = true -> dm_mode m = HARD_CRITICAL_DEGRADE;
  inv_streak : (0 <= dm_recovery_streak m < HARD_RECOVERY_STREAK)%Z;
  inv_soft_streak : dm_mode m = SOFT_DEGRADE -> (dm_recovery_streak m < SOFT_RECOVERY_STREAK)%Z;
  inv_calm_streak : dm_mode m = NORMAL \/ dm_mode m = RECON_DEGRADED_MANAGE -> dm_recovery_streak m = 0%Z;
  inv_row : match dm_db m with
            | Some p => row_matches p m
            | None => m = manager_init (dm_notifier m) None \/
                      m = hydrate_from_vault (manager_init (dm_notifier m) None)
            end
}.

Lemma mode_of_value_roundtrip m : mode_of_value (mode_value m) = m.
Proof. by destruct m. Qed.

Lemma persist_inv m :
  (dm_flatten_latched m = true -> dm_mode m = HARD_CRITICAL_DEGRADE) ->
  (0 <= dm_recovery_streak m < HARD_RECOVERY_STREAK)%Z ->
  (dm_mode m = SOFT_DEGRADE -> (dm_recovery_streak m < SOFT_RECOVERY_STREAK)%Z) ->
  (dm_mode m = NORMAL \/ dm_mode m = RECON_DEGRADED_MANAGE -> dm_recovery_streak m = 0%Z) ->
  degrade_inv (persist_state m).
Proof. intros. split; try done. split; [apply mode_of_value_roundtrip|done]. Qed.

Lemma emit_inv al m : dm_db m <> None -> degrade_inv m -> degrade_inv (emit al m).
Proof. intros Hdb []. split; try done. simpl. by destruct (dm_db m). Qed.

Lemma persist_emit_inv al m : degrade_inv (persist_state m) -> degrade_inv (emit al (persist_state m)).
Proof. by apply emit_inv. Qed.

Lemma manager_init_inv n : degrade_inv (manager_init n None).
Proof. split; simpl; try done; try lia. by left. Qed.

#[local] Hint Resolve persist_emit_inv : degrade.

(** Close the side conditions of [persist_inv] after a case analysis. *)
Ltac degrade_solve :=
  apply persist_inv; simpl in *; try done; try lia; try (by intros [?|?]);
  try (by intros; congruence); try (intros; intuition (try congruence; lia)).

Lemma reset_to_normal_inv r m : degrade_inv (reset_to_normal r m).
Proof.
  unfold reset_to_normal. destruct (negb _); [apply persist_emit_inv|]; degrade_solve.
Qed.

Lemma downgrade_inv r now m : degrade_inv (downgrade_hard_to_soft r now m).
Proof. apply persist_emit_inv. degrade_solve. Qed.

Lemma apply_hard_inv r now m : degrade_inv (apply_hard_critical_degrade r now m).
Proof.
  unfold apply_hard_critical_degrade. destruct (negb _); [apply persist_emit_inv|];
    degrade_solve.
Qed.

Lemma apply_soft_inv r now m : degrade_inv m -> degrade_inv (apply_soft_degrade r now m).
Proof.
  intros Hi. unfold apply_soft_degrade, soft_degrade_memory.
  destruct (bool_decide_reflect (dm_mode m = HARD_CRITICAL_DEGRADE)); [done|].
  destruct (bool_decide_reflect (dm_mode m = SOFT_DEGRADE)); [destruct Hi|]; degrade_solve.
Qed.

Lemma apply_recon_inv r now m : degrade_inv m -> degrade_inv (apply_recon_degraded_manage r now m).
Proof.
  intros Hi. unfold apply_recon_degraded_manage. destruct (bool_decide _); [done|]. degrade_solve.
Qed.

(** The recovery credit of a verdict. *)
Definition credit (v : slo_verdict) : Z := if bool_decide (v_severity v = SevOK) then 1 else 0.

Lemma credit_bounds v : (0 <= credit v <= 1)%Z.
Proof. unfold credit. destruct (bool_decide _); lia. Qed.

Lemma bump_streak_cases v m :
  bump_streak v m =
    assign (dm_mode m) (dm_reason m) (dm_activated_at m) (dm_recovery_streak m + credit v)
      (dm_flatten_latched m) m.
Proof.
  unfold bump_streak, credit. destruct (bool_decide _); [done|].
  rewrite Z.add_0_r. by destruct m.
Qed.

Lemma evaluate_inv v now m : degrade_inv m -> degrade_inv (evaluate_from_slo v now m).
Proof.
  intros Hi. unfold evaluate_from_slo.
  destruct (bool_decide _); [apply apply_hard_inv|].
  pose proof Hi as [Hl Hs Hss Hc _].
  destruct (dm_mode m) eqn:Em.
  - destruct (bool_decide (_ = SevSOFT_BREACH)); [by apply apply_soft_inv|].
    rewrite bool_decide_eq_false_2 by done. degrade_solve.
  - rewrite bump_streak_cases. simpl.
    destruct (Z.leb_spec SOFT_RECOVERY_STREAK (dm_recovery_streak m + credit v));
      [apply reset_to_normal_inv|].
    pose proof (credit_bounds v). unfold SOFT_RECOVERY_STREAK, HARD_RECOVERY_STREAK in *.
    apply persist_inv; simpl; rewrite ?Em;
      unfold SOFT_RECOVERY_STREAK, HARD_RECOVERY_STREAK in *; try done; try lia; by intros [?|?].
  - destruct (bool_decide (_ = SevSOFT_BREACH)); [by apply apply_soft_inv|].
    by rewrite bool_decide_eq_true_2.
  - rewrite bump_streak_cases. simpl.
    destruct (Z.leb_spec HARD_RECOVERY_STREAK (dm_recovery_streak m + credit v));
      [apply downgrade_inv|].
    pose proof (credit_bounds v). unfold SOFT_RECOVERY_STREAK, HARD_RECOVERY_STREAK in *.
    apply persist_inv; simpl; rewrite ?Em;
      unfold SOFT_RECOVERY_STREAK, HARD_RECOVERY_STREAK in *; try done; try lia; by intros [?|?].
Qed.

Lemma consume_inv m : degrade_inv m -> degrade_inv (consume_flatten_request m).2.
Proof.
  intros Hi. unfold consume_flatten_request. destruct (dm_flatten_latched m); [|done].
  destruct Hi. simpl. degrade_solve.
Qed.

Lemma hydrate_some_inv n al p m :
  degrade_inv m -> dm_db m = Some p ->
  degrade_inv (mkManager (mode_of_value (degradation_mode p)) (trigger_reason p) (entered_at p) 0
                 (p_flatten_latched p) true n al (Some p)).
Proof.
  intros [Hl Hs Hss Hc Hr] Hdb. rewrite Hdb in Hr. destruct Hr as (Hm & _ & _ & Hf).
  split; simpl; try done; try lia. by rewrite Hf, Hm.
Qed.

Lemma hydrate_inv m : degrade_inv m -> degrade_inv (hydrate_from_vault m).
Proof.
  intros Hi. unfold hydrate_from_vault. destruct (dm_hydrated m) eqn:Hh; [done|].
  unfold load_governance_state. destruct (dm_db m) as [p|] eqn:Hdb; [by eapply hydrate_some_inv|].
  destruct Hi as [Hl Hs Hss Hc Hr]. rewrite Hdb in Hr.
  split; try done. simpl. right. destruct Hr as [-> | Hr]; [done|]. by rewrite Hr in Hh.
Qed.

Lemma restart_inv m : degrade_inv m -> degrade_inv (restart m).
Proof.
  intros Hi. unfold restart, hydrate_from_vault, load_governance_state. simpl.
  destruct (dm_db m) as [p|] eqn:Hdb; [by eapply hydrate_some_inv|].
  apply (hydrate_inv (manager_init (dm_notifier m) None)), manager_init_inv.
Qed.

Lemma degrade_step_inv m e : degrade_inv m -> degrade_inv (degrade_step m e).
Proof.
  destruct e; simpl; auto using evaluate_inv, apply_soft_inv, apply_recon_inv, consume_inv,
    hydrate_inv, restart_inv. intros; apply apply_hard_inv. intros; apply reset_to_normal_inv.
Qed.

Lemma degrade_runs_inv n evs : degrade_inv (runs degrade_step (manager_init n None) evs).
Proof. apply runs_invariant; [apply manager_init_inv|]. intros; by apply degrade_step_inv. Qed.

(** ** Recovery *)

(** OK verdicts still missing before a degraded manager returns to NORMAL. *)
Definition oks_to_normal (m : DegradationManager) : Z :=
  match dm_mode m with
  | HARD_CRITICAL_DEGRADE => HARD_RECOVERY_STREAK - dm_recovery_streak m + SOFT_RECOVERY_STREAK
  | SOFT_DEGRADE => SOFT_RECOVERY_STREAK - dm_recovery_streak m
  | _ => 0
  end.

Definition is_ok (v : slo_verdict * string) : Prop := v_severity v.1 = SevOK.
Definition count_ok (vs : list (slo_verdict * string)) : Z :=
  Z.of_nat (length (filter (fun v => v_severity v.1 = SevOK) vs)).

Definition slo_step (m : DegradationManager) (v : slo_verdict * string) : DegradationManager :=
  evaluate_from_slo v.1 v.2 m.

Lemma slo_step_inv m v : degrade_inv m -> degrade_inv (slo_step m v).
Proof. apply evaluate_inv. Qed.

Lemma count_ok_cons v vs : count_ok (v :: vs) = (credit v.1 + count_ok vs)%Z.
Proof.
  unfold count_ok, credit. rewrite filter_cons.
  destruct (bool_decide_reflect (v_severity v.1 = SevOK)); case_decide;
    cbn [length]; try done; lia.
Qed.

Lemma slo_step_recovers m v :
  degrade_inv m -> (0 < oks_to_normal m)%Z -> v_severity v.1 <> SevHARD_BREACH ->
  oks_to_normal (slo_step m v) = (oks_to_normal m - credit v.1)%Z /\
  (oks_to_normal (slo_step m v) = 0%Z -> dm_mode (slo_step m v) = NORMAL).
Proof.
  intros Hi Hpos Hv. pose proof Hi as [_ Hs Hss _ _]. pose proof (credit_bounds v.1).
  unfold slo_step, evaluate_from_slo, oks_to_normal in *.
  rewrite bool_decide_eq_false_2 by done. rewrite !bump_streak_cases.
  unfold SOFT_RECOVERY_STREAK, HARD_RECOVERY_STREAK in *.
  destruct (dm_mode m) eqn:Em; try lia; simpl in *.
  - specialize (Hss eq_refl). destruct (Z.leb_spec 3 (dm_recovery_streak m + credit v.1));
      unfold reset_to_normal; simpl; rewrite ?Em; simpl; split; try done; lia.
  - destruct (Z.leb_spec 6 (dm_recovery_streak m + credit v.1)); simpl; rewrite ?Em; split;
      try done; lia.
Qed.

Lemma slo_step_ok_soft m v :
  dm_mode m = SOFT_DEGRADE -> is_ok v ->
  dm_recovery_streak (slo_step m v) =
    (if (3 <=? dm_recovery_streak m + 1)%Z then 0 else dm_recovery_streak m + 1)%Z /\
  dm_mode (slo_step m v) =
    (if (3 <=? dm_recovery_streak m + 1)%Z then NORMAL else SOFT_DEGRADE).
Proof.
  intros Hm Hok. unfold is_ok in Hok. unfold slo_step, evaluate_from_slo. rewrite Hok, Hm. simpl.
  rewrite bump_streak_cases. unfold credit. rewrite Hok. simpl. unfold SOFT_RECOVERY_STREAK.
  destruct (3 <=? _)%Z; simpl; [|by rewrite Hm].
  unfold reset_to_normal. simpl. by rewrite Hm.
Qed.

Lemma slo_runs_recover m vs :
  degrade_inv m -> Forall (fun v => v_severity v.1 <> SevHARD_BREACH) vs ->
  (count_ok vs < oks_to_normal m)%Z ->
  degrade_inv (runs slo_step m vs) /\
  oks_to_normal (runs slo_step m vs) = (oks_to_normal m - count_ok vs)%Z.
Proof.
  revert m. induction vs as [|v vs IH]; intros m Hi Hv Hc; simpl.
  - unfold count_ok; simpl. split; [done|lia].
  - apply Forall_cons in Hv as [Hv1 Hv]. rewrite count_ok_cons in Hc |- *.
    pose proof (credit_bounds v.1).
    assert (0 <= count_ok vs)%Z by (unfold count_ok; lia).
    destruct (slo_step_recovers m v Hi) as [He _]; [lia|done|].
    destruct (IH (slo_step m v)) as [Hi' He']; [by apply slo_step_inv|done|lia|].
    split; [done|]. rewrite He'. lia.
Qed.

(** ** Properties *)

(** After any history of verdicts, degrades, resets, consumed flattens and
    restarts, a flatten request is latched only in HARD_CRITICAL_DEGRADE, and a
    further restart brings back the same mode, reason, entry time and latch, so
    that it blocks exactly the entries that were blocked, but no recovery credit. *)
Theorem degradation_survives_restart n evs :
  let m := runs degrade_step (manager_init n None) evs in
  (dm_flatten_latched m = true -> dm_mode m = HARD_CRITICAL_DEGRADE) /\
  dm_mode (restart m) = dm_mode m /\
  dm_reason (restart m) = dm_reason m /\
  dm_activated_at (restart m) = dm_activated_at m /\
  dm_flatten_latched (restart m) = dm_flatten_latched m /\
  dm_recovery_streak (restart m) = 0%Z /\
  (forall a now now', should_block_entry_action a now (restart m) = should_block_entry_action a now' m).
Proof.
  simpl. destruct (degrade_runs_inv n evs) as [Hl _ _ _ Hr].
  set (m := runs degrade_step (manager_init n None) evs) in *. clearbody m.
  assert (Hm : dm_mode (restart m) = dm_mode m /\ dm_reason (restart m) = dm_reason m /\
    dm_activated_at (restart m) = dm_activated_at m /\
    dm_flatten_latched (restart m) = dm_flatten_latched m /\ dm_recovery_streak (restart m) = 0%Z).
  { unfold restart, hydrate_from_vault, load_governance_state. simpl.
    destruct (dm_db m) as [p|] eqn:Hdb.
    - destruct Hr as (?&?&?&?). done.
    - by destruct Hr as [-> | ->]. }
  destruct Hm as (Hm & ? & ? & ? & ?). split_and!; try done.
  intros [a|] now now'; [|done]. unfold should_block_entry_action, build_state.
  rewrite Hm. by destruct (dm_mode m).
Qed.

(** Recovery is staged and needs the whole number of OK verdicts, however they
    are interleaved with WARNING and SOFT_BREACH verdicts, which neither earn
    nor lose credit: until the last one the manager stays degraded (HARD while
    more than SOFT's three are missing) and blocks entries; the last one
    returns it to NORMAL. A fresh HARD engage needs nine. *)
Theorem degradation_recovers_after_exactly_the_missing_oks n evs vs last_ok :
  let m := runs degrade_step (manager_init n None) evs in
  Forall (fun v => v_severity v.1 <> SevHARD_BREACH) vs ->
  (count_ok vs < oks_to_normal m)%Z ->
  is_ok last_ok ->
  let m' := runs slo_step m vs in
  oks_to_normal m' = (oks_to_normal m - count_ok vs)%Z /\
  dm_mode m' = (if (SOFT_RECOVERY_STREAK <? oks_to_normal m')%Z
                then HARD_CRITICAL_DEGRADE else SOFT_DEGRADE) /\
  (forall now, block_new_entries (build_state now m') = true) /\
  (oks_to_normal m' = 1%Z -> dm_mode (slo_step m' last_ok) = NORMAL) /\
  (oks_to_normal m' <= 9)%Z.
Proof.
  simpl. intros Hv Hc Hok. pose proof (degrade_runs_inv n evs) as Hi.
  destruct (slo_runs_recover _ vs Hi Hv Hc) as [Hi' He].
  set (m' := runs slo_step _ vs) in *.
  assert (Hpos : (0 < oks_to_normal m')%Z) by lia.
  pose proof Hi' as [_ Hs Hss _ _].
  split; [done|]. split; [|split; [|split]].
  - unfold oks_to_normal in *. destruct (dm_mode m'); try lia.
    + specialize (Hss eq_refl).
      by rewrite (proj2 (Z.ltb_ge _ _)) by (unfold SOFT_RECOVERY_STREAK in *; lia).
    + by rewrite (proj2 (Z.ltb_lt _ _)) by (unfold SOFT_RECOVERY_STREAK, HARD_RECOVERY_STREAK in *; lia).
  - intros now. unfold oks_to_normal, build_state in *. by destruct (dm_mode m').
  - intros H1. destruct (slo_step_recovers m' last_ok Hi' Hpos) as [Hs1 Hn];
      [unfold is_ok in Hok; congruence|].
    apply Hn. rewrite Hs1, H1. unfold credit. by rewrite bool_decide_eq_true_2.
  - unfold oks_to_normal in *. unfold SOFT_RECOVERY_STREAK, HARD_RECOVERY_STREAK in *.
    destruct (dm_mode m'); lia.
Qed.

Definition v_ok : slo_verdict := mkVerdict SevOK [].
Definition v_soft : slo_verdict := mkVerdict SevSOFT_BREACH ["nbbo_fetch_degraded"].
Definition v_hard : slo_verdict := mkVerdict SevHARD_BREACH ["nbbo_fetch_critical"].

(** A hard breach, then eight OK verdicts with two soft breaches among them:
    still degraded; the ninth OK trades again. *)
Definition recovery_example : list (slo_verdict * string) :=
  [(v_ok, "t1"); (v_ok, "t2"); (v_soft, "t3"); (v_ok, "t4"); (v_ok, "t5"); (v_ok, "t6"); (v_ok, "t7");
   (v_soft, "t8"); (v_ok, "t9"); (v_ok, "t10")].

Lemma degradation_recovers_witness :
  let m := runs degrade_step (manager_init true None) [EvSlo v_hard "t0"] in
  dm_mode (runs slo_step m recovery_example) = SOFT_DEGRADE /\
  dm_mode (slo_step (runs slo_step m recovery_example) (v_ok, "t11")) = NORMAL.
Proof.
  cbv zeta.
  pose proof (degradation_recovers_after_exactly_the_missing_oks true [EvSlo v_hard "t0"]
    recovery_example (v_ok, "t11")) as H.
  destruct H as (_ & Hm & _ & Hn & _);
    [repeat constructor; discriminate|vm_compute; reflexivity|reflexivity|].
  split; [rewrite Hm; vm_compute; reflexivity|apply Hn; vm_compute; reflexivity].
Defined.

(** The reconciliation latch against the SLO signal: OK and WARNING verdicts
    leave it untouched, but one SOFT_BREACH verdict replaces it by SOFT_DEGRADE,
    which three OK verdicts release, so entries reopen although no
    reconciliation succeeded. *)
Theorem recon_latch_released_by_slo m soft_v ok1 ok2 ok3 :
  dm_mode m = RECON_DEGRADED_MANAGE ->
  v_severity soft_v.1 = SevSOFT_BREACH -> is_ok ok1 -> is_ok ok2 -> is_ok ok3 ->
  slo_step m ok1 = m /\
  dm_mode (slo_step m soft_v) = SOFT_DEGRADE /\
  dm_mode (runs slo_step m [soft_v; ok1; ok2; ok3]) = NORMAL /\
  (forall now, block_new_entries (build_state now (runs slo_step m [soft_v; ok1; ok2; ok3])) = false).
Proof.
  intros Hm Hs H1 H2 H3. unfold is_ok in *. simpl.
  assert (Hsoft : slo_step m soft_v =
    persist_state (assign SOFT_DEGRADE (str_or (join_bar (v_reasons soft_v.1)) "soft_slo_breach")
      (Some soft_v.2) 0 false m)).
  { unfold slo_step, evaluate_from_slo, apply_soft_degrade, soft_degrade_memory. by rewrite Hs, Hm. }
  assert (Hn : dm_mode (slo_step (slo_step (slo_step (slo_step m soft_v) ok1) ok2) ok3) = NORMAL).
  { rewrite Hsoft.
    destruct (slo_step_ok_soft _ ok1 (eq_refl : dm_mode (persist_state (assign SOFT_DEGRADE
      (str_or (join_bar (v_reasons soft_v.1)) "soft_slo_breach") (Some soft_v.2) 0 false m)) = _) H1)
      as [Ha1 Ha2]. simpl in Ha1, Ha2.
    destruct (slo_step_ok_soft _ ok2 Ha2 H2) as [Hb1 Hb2].
    rewrite Ha1 in Hb1, Hb2. simpl in Hb1, Hb2.
    destruct (slo_step_ok_soft _ ok3 Hb2 H3) as [_ Hc]. rewrite Hb1 in Hc. exact Hc. }
  split_and!.
  - unfold slo_step, evaluate_from_slo. by rewrite H1, Hm.
  - by rewrite Hsoft.
  - exact Hn.
  - intros now. unfold build_state. by rewrite Hn.
Qed.

Lemma recon_latch_released_by_slo_witness :
  let m := apply_recon_degraded_manage "recon failed" "t0" (manager_init true None) in
  dm_mode m = RECON_DEGRADED_MANAGE /\
  dm_mode (runs slo_step m [(v_soft, "t1"); (v_ok, "t2"); (v_ok, "t3"); (v_ok, "t4")]) = NORMAL.
Proof.
  split; [reflexivity|].
  apply (recon_latch_released_by_slo
    (apply_recon_degraded_manage "recon failed" "t0" (manager_init true None))
    (v_soft, "t1") (v_ok, "t2") (v_ok, "t3") (v_ok, "t4")); reflexivity.
Defined.

(** ** The verdict *)

(** Specification: the table of tests in the order they are made, each with the
    severity it demands; of an if/elif pair the second is tried when the first
    failed. *)
Definition integrity_table (m : integrity_metrics) : list (bool * string * IntegritySeverity) :=
  let lag_fraction :=
    if fltb fzero (arrival_bar_period_seconds m)
    then fdiv (ingest_arrival_lag m) (arrival_bar_period_seconds m) else fzero in
  let seq_hard := (5 <=? sequence_misalignments m)%Z in
  let lag_hard := fltb INGEST_ARRIVAL_LAG_HARD_FRACTION lag_fraction in
  [(fltb (fadd (bar_period_secs m) (of_Z 150)) (freshness_seconds m), "bar_freshness_drift", SevSOFT_BREACH);
   (fltb (fadd (bar_period_secs m) (of_Z 600)) (freshness_seconds m), "bar_freshness_critical", SevHARD_BREACH);
   (fltb (lit 6 2) (missing_bar_rate m), "missing_bar_rate_elevated", SevSOFT_BREACH);
   (fltb (lit 18 2) (missing_bar_rate m), "missing_bar_rate_critical", SevHARD_BREACH);
   (fltb (nbbo_success_rate m) (lit 85 2), "nbbo_fetch_degraded", SevSOFT_BREACH);
   (fltb (nbbo_success_rate m) (lit 55 2), "nbbo_fetch_critical", SevHARD_BREACH);
   (ingest_circuit_breaker_tripped m, "ingest_circuit_breaker_tripped", SevSOFT_BREACH);
   (seq_hard, "sequence_misalignment_critical", SevHARD_BREACH);
   (negb seq_hard && (1 <=? sequence_misalignments m)%Z, "sequence_misalignment", SevSOFT_BREACH);
   (lag_hard, "ingest_arrival_lag_critical", SevHARD_BREACH);
   (negb lag_hard && fltb INGEST_ARRIVAL_LAG_SOFT_FRACTION lag_fraction, "ingest_arrival_lag", SevSOFT_BREACH)]%string.

Definition fired_reason (e : bool * string * IntegritySeverity) : string := e.1.2.

Definition fired (tb : list (bool * string * IntegritySeverity)) :=
  filter (fun e : bool * string * IntegritySeverity => e.1.1 = true) tb.

Definition worst (tb : list (bool * string * IntegritySeverity)) : IntegritySeverity :=
  foldr (fun (e : bool * string * IntegritySeverity) s => max_severity e.2 s) SevOK tb.

Lemma judge_else (h t : bool) a b acc :
  (if h then judge true a hard acc else judge t b soft acc) =
  judge (negb h && t) b soft (judge h a hard acc).
Proof. by destruct h. Qed.

Lemma max_severity_assoc a b c :
  max_severity (max_severity a b) c = max_severity a (max_severity b c).
Proof. by destruct a, b, c. Qed.

Definition judge_entry (acc : IntegritySeverity * list string) (e : bool * string * IntegritySeverity) :=
  judge e.1.1 e.1.2 (fun s => max_severity s e.2) acc.

Lemma judge_hard t r acc : judge t r hard acc = judge_entry acc (t, r, SevHARD_BREACH).
Proof. unfold judge_entry, judge. simpl. destruct t; [|done]. by destruct acc as [[] ?]. Qed.

Lemma judge_soft t r acc : judge t r soft acc = judge_entry acc (t, r, SevSOFT_BREACH).
Proof. done. Qed.

Lemma judge_table tb acc :
  fold_left judge_entry tb acc =
  (max_severity acc.1 (worst (fired tb)), acc.2 ++ map fired_reason (fired tb)).
Proof.
  revert acc. induction tb as [|[[t r] s] tb IH]; intros [sev rs]; simpl.
  - rewrite app_nil_r. by destruct sev.
  - rewrite IH. unfold judge_entry, judge, fired. rewrite filter_cons. simpl.
    destruct t; simpl; rewrite ?decide_True, ?decide_False by done; simpl; [|done].
    by rewrite max_severity_assoc, <- app_assoc.
Qed.

(** The verdict is the worst severity demanded by the tests that fired, with
    their reasons in order; the leg passes exactly when no test fired. *)
Theorem judge_integrity_is_worst_fired m :
  judge_integrity m =
    mkVerdict (worst (fired (integrity_table m))) (map fired_reason (fired (integrity_table m))) /\
  (v_severity (judge_integrity m) = SevOK \/ v_severity (judge_integrity m) = SevWARNING <->
     fired (integrity_table m) = []) /\
  (v_severity (judge_integrity m) = SevHARD_BREACH <->
     Exists (fun e => e.2 = SevHARD_BREACH) (fired (integrity_table m))).
Proof.
  assert (He : judge_integrity m =
    mkVerdict (worst (fired (integrity_table m))) (map fired_reason (fired (integrity_table m)))).
  { unfold judge_integrity, stale_after_seconds. cbv zeta. rewrite !judge_else, !judge_hard, !judge_soft.
    pose proof (judge_table (integrity_table m) (SevOK, [])) as Ht.
    unfold integrity_table at 1 in Ht. cbv zeta in Ht. cbn [fold_left] in Ht.
    rewrite Ht. by destruct (worst _). }
  rewrite He. cbn [v_severity]. split; [done|]. clear He.
  assert (Hs : Forall (fun e => e.2 = SevSOFT_BREACH \/ e.2 = SevHARD_BREACH) (fired (integrity_table m))).
  { assert (Ht : Forall (fun e => e.2 = SevSOFT_BREACH \/ e.2 = SevHARD_BREACH) (integrity_table m)).
    { unfold integrity_table. cbv zeta.
      repeat (apply List.Forall_cons; [first [left; exact eq_refl | right; exact eq_refl]|]). constructor. }
    apply Forall_forall. intros e [_ Hin]%list_elem_of_filter. by eapply Forall_forall in Ht. }
  induction Hs as [|e l Hes Hl [IH1 IH2]]; simpl.
  - split; [by split; [|left]|]. split; [done|]. by intros ?%Exists_nil.
  - rewrite Exists_cons, <- IH2. split.
    + split; [|done]. destruct Hes as [-> | ->], (worst l); simpl; intros [?|?]; done.
    + destruct Hes as [-> | ->], (worst l); simpl; intuition done.
Qed.
