(* ===== verification/IdempotentExecution.v ===== *)
(** * Idempotent execution

    [src/execution/idempotent_execution.py]: deterministic client order ids, the
    query-before-submit placement behind the single entry gate, fills applied to
    internal positions, and the boot reconciliation. The broker is the code's
    [ExecutionBroker] protocol, a type class whose laws are what the protocol
    promises: an accepted submission can be found again under its id. *)

From stdpp Require Import base gmap strings list pretty sorting.
From Stdlib Require Import ZArith Lia.
From S2P Require Import Prelude PyFloat Models Sha256 Preemption EntryAuthority.

(** ** Orders *)

(** [signal_ts] is the text the code hashes: [isoformat()] of a datetime, or the
    string itself. *)
Definition deterministic_client_order_id (leg signal_ts side : string) (epoch : Z) : string :=
  let raw := String.append leg (String.append "|" (String.append signal_ts (String.append "|"
               (String.append (lower side) (String.append "|" (pretty epoch)))))) in
  String.append "mbappe-" (String.substring 0 38 (sha256_hex raw)).

Record OrderIntent := mkIntent {
  oi_leg_id : string;
  oi_symbol : string;
  oi_side : string;
  oi_qty : float;
  oi_signal_ts : string;
  oi_epoch : Z
}.

Definition intent_client_order_id (i : OrderIntent) : string :=
  deterministic_client_order_id (oi_leg_id i) (oi_signal_ts i) (oi_side i) (oi_epoch i).

Record BrokerOrder := mkBrokerOrder {
  bo_client_order_id : string;
  bo_symbol : string;
  bo_side : string;
  bo_qty : float;
  bo_status : string;
  bo_filled_qty : float;
  bo_filled_avg_price : float;
  bo_order_id : option string
}.

Definition TERMINAL_STATUSES : list string :=
  ["filled"; "canceled"; "cancelled"; "expired"; "rejected"].

Definition bo_is_terminal (o : BrokerOrder) : bool :=
  bool_decide (lower (bo_status o) ∈ TERMINAL_STATUSES).

Definition bo_remainder (o : BrokerOrder) : float :=
  py_max (fsub (bo_qty o) (bo_filled_qty o)) fzero.

(** ** The broker interface *)

Class ExecutionBroker (B : Type) := {
  br_submit : OrderIntent -> B -> BrokerOrder * B;
  br_get_by_client_order_id : string -> B -> option BrokerOrder
}.

(** What the protocol promises: a submitted order carries the intent's id and is
    found under it, and a submission does not lose the orders already there. *)
Class ExecutionBrokerLaws (B : Type) `{!ExecutionBroker B} : Prop := {
  br_submit_id : forall i b, bo_client_order_id (br_submit i b).1 = intent_client_order_id i;
  br_submit_found : forall i b,
    is_Some (br_get_by_client_order_id (intent_client_order_id i) (br_submit i b).2);
  br_submit_keeps : forall i b c,
    is_Some (br_get_by_client_order_id c b) -> is_Some (br_get_by_client_order_id c (br_submit i b).2)
}.

(** ** Idempotent submission *)

Record SubmitResult := mkSubmitResult { sr_order : BrokerOrder; sr_was_noop : bool }.

Inductive submit_error :=
  | EntryBlocked (d : EntryDecision) (leg symbol : string)
  | EnginePreempted (cp : PreemptionCheckpoint) (lv : RiskEscalationLevel).

Record rejection_report := mkRejection { rj_leg : string; rj_symbol : string; rj_coid : string }.

Section Submitter.
Context {B : Type} `{!ExecutionBroker B}.

(** The submitter's world: the broker, the escalation engine it reports to, the
    reports sent to the sink and, as a ghost, the ids of the orders sent. *)
Record submitter := mkSubmitter {
  sm_broker : B;
  sm_escalation : RiskEscalationSnapshot;
  sm_reports : list rejection_report;
  sm_sent : list string
}.

(** [submit], under the lock of the order's id. [entry_guard] and
    [preempt_check] are the values the optional callbacks return. *)
Definition submit (i : OrderIntent) (preempt_check : option bool)
    (entry_guard : option EntryDecision) : py submitter submit_error SubmitResult := fun s =>
  let coid := intent_client_order_id i in
  match br_get_by_client_order_id coid (sm_broker s) with
  | Some existing => (Ok (mkSubmitResult existing true), s)
  | None =>
      match entry_guard with
      | Some (mkEntryDecision false reason) =>
          (Raise (EntryBlocked (mkEntryDecision false reason) (oi_leg_id i) (oi_symbol i)), s)
      | _ =>
          if match preempt_check with Some true => true | _ => false end then
            (Raise (EnginePreempted
               (mkCheckpoint "submit" "pre_send" (Some (oi_leg_id i)) (Some (oi_symbol i)))
               (snap_level (sm_escalation s))), s)
          else
            let '(order, b') := br_submit i (sm_broker s) in
            let reports :=
              if decide (lower (bo_status order) = "rejected")
              then sm_reports s ++ [mkRejection (oi_leg_id i) (oi_symbol i) coid]
              else sm_reports s in
            (Ok (mkSubmitResult order false),
             mkSubmitter b' (sm_escalation s) reports (sm_sent s ++ [coid]))
      end
  end.

Definition attempt : Type := OrderIntent * option bool * option EntryDecision.
Definition submit_step (s : submitter) (a : attempt) : submitter :=
  (submit a.1.1 a.1.2 a.2 s).2.
End Submitter.
Arguments submitter : clear implicits.

(** ** Position tracking *)

Record TrackedPosition := mkTracked { tp_qty : float; tp_avg_price : float }.

Record PositionTracker := mkTracker {
  pt_positions : gmap string TrackedPosition;
  pt_applied : gset string
}.

Definition tracker_init : PositionTracker := mkTracker ∅ ∅.

Definition tracker_position (symbol : string) (t : PositionTracker) : float :=
  match pt_positions t !! upper symbol with Some p => tp_qty p | None => fzero end.

Definition unfilled_statuses : list string :=
  ["rejected"; "submission_failed"; "canceled"; "cancelled"; "new"].

(** [apply]: the unfilled remainder and the new state. *)
Definition tracker_apply (o : BrokerOrder) (fill_price : option float) (t : PositionTracker)
    : float * PositionTracker :=
  let status := lower (bo_status o) in
  if bool_decide (status ∈ unfilled_statuses) && fleb (bo_filled_qty o) fzero then
    (if bool_decide (status = "new") then bo_remainder o else fzero, t)
  else if bool_decide (bo_client_order_id o ∈ pt_applied t) then (bo_remainder o, t)
  else if fleb (bo_filled_qty o) fzero then (bo_remainder o, t)
  else
    let sym := upper (bo_symbol o) in
    let pos := default (mkTracked fzero fzero) (pt_positions t !! sym) in
    let signed := if bool_decide (lower (bo_side o) = "buy") then bo_filled_qty o
                  else fneg (bo_filled_qty o) in
    let price := match fill_price with Some p => p | None => bo_filled_avg_price o end in
    let new_qty := fadd (tp_qty pos) signed in
    let avg :=
      if feqb (tp_qty pos) fzero || Bool.eqb (fltb fzero (tp_qty pos)) (fltb fzero signed) then
        let total := fadd (fabs (tp_qty pos)) (fabs signed) in
        if fltb fzero total
        then fdiv (fadd (fmul (fabs (tp_qty pos)) (tp_avg_price pos)) (fmul (fabs signed) price)) total
        else tp_avg_price pos
      else tp_avg_price pos in
    (bo_remainder o,
     mkTracker (<[sym := mkTracked new_qty avg]> (pt_positions t))
       ({[bo_client_order_id o]} ∪ pt_applied t)).

(** ** Boot reconciliation *)

Inductive mismatch_kind :=
  unknown_broker_position | missing_broker_position | position_qty | orphan_open_order.
#[export] Instance mismatch_kind_eq_dec : EqDecision mismatch_kind. Proof. solve_decision. Defined.

Record ReconcileMismatch := mkMismatch {
  mm_kind : mismatch_kind;
  mm_symbol : string;
  mm_internal : option float;
  mm_broker : option float
}.

Record ReconcileReport := mkReport { mismatches : list ReconcileMismatch; tripped : bool }.

(** [{s.upper(): q for s, q in positions.items()}]: the last binding of a key wins. *)
Definition upper_positions (ps : list (string * float)) : gmap string float :=
  fold_left (fun m sq => <[upper sq.1 := sq.2]> m) ps ∅.

Definition compare_position (tol : float) (iq bq : float) : option mismatch_kind :=
  if fltb (fabs iq) tol && fleb tol (fabs bq) then Some unknown_broker_position
  else if fleb tol (fabs iq) && fltb (fabs bq) tol then Some missing_broker_position
  else if fltb tol (fabs (fsub iq bq)) then Some position_qty
  else None.

Definition position_mismatches (tol : float) (internal broker : gmap string float)
    : list ReconcileMismatch :=
  omap (fun sym =>
          let iq := default fzero (internal !! sym) in
          let bq := default fzero (broker !! sym) in
          (fun k => mkMismatch k sym (Some iq) (Some bq)) <$> compare_position tol iq bq)
    (sorted_strings (dom internal ∪ dom broker)).

Definition orphan_mismatches (ioc boc : option (gset string)) : list ReconcileMismatch :=
  match ioc, boc with
  | None, None => []
  | _, _ => map (fun c => mkMismatch orphan_open_order c None None)
              (sorted_strings (default ∅ boc ∖ default ∅ ioc))
  end.

(** The report, the escalation engine afterwards and what the sink received. *)
Definition reconcile_boot (internal_positions broker_positions : list (string * float))
    (internal_open broker_open : option (gset string)) (qty_tol : float)
    (escalation : option RiskEscalationSnapshot)
    : ReconcileReport * option RiskEscalationSnapshot * list (list ReconcileMismatch) :=
  let ms := position_mismatches qty_tol (upper_positions internal_positions)
              (upper_positions broker_positions) ++ orphan_mismatches internal_open broker_open in
  match ms with
  | [] => (mkReport [] false, escalation, [])
  | _ => (mkReport ms true,
          escalation_transition ENTRY_GATE_HALT "GLOBAL" None None "boot_reconciliation" <$> escalation,
          [ms])
  end.

(** ** A concrete broker

    An order book keyed by client order id that accepts everything as [new]: the
    instance on which the interface's theorems are run. *)

Abbreviation book := (gmap string BrokerOrder).

#[export] Instance book_broker : ExecutionBroker book := {
  br_submit i b :=
    let o := mkBrokerOrder (intent_client_order_id i) (oi_symbol i) (oi_side i) (oi_qty i) "new"
               fzero fzero None in
    (o, <[intent_client_order_id i := o]> b);
  br_get_by_client_order_id c b := b !! c
}.

#[export] Instance book_broker_laws : ExecutionBrokerLaws book.
Proof.
  split; simpl; intros.
  - done.
  - rewrite lookup_insert_eq. eauto.
  - rewrite lookup_insert. case_decide; eauto.
Qed.

(** ** Lemmas *)

Lemma substring_length n s :
  n <= String.length s -> String.length (String.substring 0 n s) = n.
Proof.
  revert n. induction s as [|c s IH]; intros [|n]; simpl; intros; try done; try lia.
  rewrite IH; lia.
Qed.

Lemma coid_length leg ts side epoch :
  String.length (deterministic_client_order_id leg ts side epoch) = 45.
Proof.
  unfold deterministic_client_order_id. cbv zeta.
  match goal with |- context [ sha256_hex ?r ] =>
    pose proof (sha256_hex_length r) as Hd; revert Hd; generalize (sha256_hex r) end.
  intros d Hd. pose proof (substring_length 38 d ltac:(lia)) as Hs.
  change (7 + String.length (String.substring 0 38 d) = 45). by rewrite Hs.
Qed.

Section SubmitterLemmas.
Context {B : Type} `{!ExecutionBroker B, !ExecutionBrokerLaws B}.

Definition at_broker (c : string) (s : submitter B) : Prop :=
  is_Some (br_get_by_client_order_id c (sm_broker s)).

(** An attempt that reaches the broker: not found, not blocked, not preempted. *)
Definition reaches (a : attempt) : bool :=
  match a.2 with Some (mkEntryDecision false _) => false | _ => true end &&
  match a.1.2 with Some true => false | _ => true end.

Lemma submit_step_cases (s : submitter B) a :
  (submit_step s a = s /\ (at_broker (intent_client_order_id a.1.1) s \/ reaches a = false)) \/
  (exists reports,
     let b' := (br_submit a.1.1 (sm_broker s)).2 in
     submit_step s a = mkSubmitter b' (sm_escalation s) reports
                         (sm_sent s ++ [intent_client_order_id a.1.1]) /\
     ~ at_broker (intent_client_order_id a.1.1) s /\ reaches a = true).
Proof.
  destruct a as [[i p] g]. unfold submit_step, submit, at_broker, reaches. simpl.
  destruct (br_get_by_client_order_id _ (sm_broker s)) as [o|] eqn:E; [left; eauto|].
  destruct g as [[[] r]|]; [| by left; split; [|right] |];
    (destruct p as [[]|]; [by left; split; [|right]| |]);
    (right; destruct (br_submit i (sm_broker s)) as [o b']; eexists; split; [done|split; [by intros []|done]]).
Qed.

Lemma submit_step_keeps s a c : at_broker c s -> at_broker c (submit_step s a).
Proof.
  intros H. destruct (submit_step_cases s a) as [[-> _]|(r & -> & _)]; [done|].
  by apply br_submit_keeps.
Qed.

Lemma submit_runs_keeps s l c : at_broker c s -> at_broker c (runs submit_step s l).
Proof. intros. by apply (runs_invariant submit_step (at_broker c)); [|auto using submit_step_keeps]. Qed.
End SubmitterLemmas.

(** ** Properties *)

(** The client order id has 45 characters, within the broker's limit of 48, and
    does not depend on the letter case of the side. *)
Theorem client_order_id_fits leg ts side epoch :
  String.length (deterministic_client_order_id leg ts side epoch) = 45 /\
  deterministic_client_order_id leg ts (lower side) epoch =
    deterministic_client_order_id leg ts side epoch.
Proof.
  split; [apply coid_length|]. unfold deterministic_client_order_id. by rewrite lower_idem.
Qed.

(** C32: Exactly once: over any storm of attempts, with any guards and preemptions
    interleaved, the orders sent have distinct ids, none of them was at the
    broker before, each is found there afterwards, and each was sent by an
    attempt whose guard allowed it and that was not preempted. *)
Theorem submit_storm_sends_once {B} `{!ExecutionBroker B} (Laws : ExecutionBrokerLaws B)
    (s : submitter B) (storm : list attempt) :
  exists sent,
    sm_sent (runs submit_step s storm) = sm_sent s ++ sent /\
    NoDup sent /\
    (forall c, c ∈ sent ->
       ~ at_broker c s /\ at_broker c (runs submit_step s storm) /\
       exists a, a ∈ storm /\ intent_client_order_id a.1.1 = c /\ reaches a = true).
Proof.
  revert s. induction storm as [|a storm IH]; intros s; simpl.
  - exists []. rewrite app_nil_r. split; [done|]. split; [constructor|]. by intros c ?%elem_of_nil.
  - destruct (IH (submit_step s a)) as (sent & Hs & Hn & Hc).
    destruct (submit_step_cases s a) as [[He _]|(r & He & Hna & Hr)].
    + rewrite He in *. exists sent. split; [done|]. split; [done|].
      intros c Hin. destruct (Hc c Hin) as (?&?&a'&?&?&?). split; [done|]. split; [done|].
      exists a'. split; [by right|done].
    + set (c0 := intent_client_order_id a.1.1) in *.
      assert (Hat : at_broker c0 (submit_step s a)) by (rewrite He; apply br_submit_found).
      exists (c0 :: sent). split; [|split].
      * rewrite Hs, He. simpl. by rewrite <- app_assoc.
      * constructor; [|done]. intros Hin. by destruct (Hc c0 Hin) as [? _].
      * intros c [-> | Hin]%elem_of_cons.
        -- split; [done|]. split; [by apply submit_runs_keeps|]. exists a. split; [by left|done].
        -- destruct (Hc c Hin) as (Hn'&?&a'&?&?&?). split; [|split; [done|]].
           ++ intros ?. apply Hn'. by apply submit_step_keeps.
           ++ exists a'. split; [by right|done].
Qed.

Definition intent_example : OrderIntent :=
  mkIntent "leg_a" "SPY" "BUY" fone "2026-07-06T14:30:00+00:00" 3.
Definition sub_example : submitter book := mkSubmitter ∅ engine_init [] [].
Definition storm_example : list attempt :=
  [(intent_example, Some true, None);
   (intent_example, None, Some (entry_allowed blocked_ctx));
   (intent_example, Some false, Some (entry_allowed open_ctx));
   (intent_example, None, None)].

Lemma submit_storm_sends_once_witness :
  sm_sent (runs submit_step sub_example storm_example) = [intent_client_order_id intent_example] /\
  exists sent, sm_sent (runs submit_step sub_example storm_example) = [] ++ sent /\ NoDup sent.
Proof.
  split; [vm_compute; reflexivity|].
  destruct (submit_storm_sends_once book_broker_laws sub_example storm_example) as (sent & H & Hn & _).
  exists sent. split; [exact H|exact Hn].
Defined.

(** A retry is a no-op: once a submission has returned an order, any later
    submission of an intent with the same id, whatever happened in between and
    whatever its guard and preemption say, returns an order the broker already
    had and changes nothing. *)
Theorem submit_retry_is_noop {B} `{!ExecutionBroker B} (Laws : ExecutionBrokerLaws B)
    (s : submitter B) i j p g p' g' r between :
  intent_client_order_id j = intent_client_order_id i ->
  (submit i p g s).1 = Ok r ->
  let s1 := runs submit_step (submit i p g s).2 between in
  exists o, submit j p' g' s1 = (Ok (mkSubmitResult o true), s1).
Proof.
  intros Hj Hr s1.
  assert (Hat : at_broker (intent_client_order_id i) (submit i p g s).2).
  { revert Hr. unfold submit.
    destruct (br_get_by_client_order_id _ (sm_broker s)) as [o|] eqn:E;
      [intros _; unfold at_broker; cbn [snd]; rewrite E; eauto|].
    pose proof (br_submit_found i (sm_broker s)) as Hf.
    destruct g as [[[] ?]|]; [| done |]; (destruct p as [[]|]; [done| |]);
      by destruct (br_submit i (sm_broker s)). }
  apply (submit_runs_keeps _ between) in Hat. fold s1 in Hat. destruct Hat as [o Ho].
  exists o. unfold submit. by rewrite Hj, Ho.
Qed.

Lemma submit_retry_is_noop_witness :
  let s1 := runs submit_step (submit intent_example None None sub_example).2
              [(intent_example, Some true, None)] in
  exists o, submit intent_example (Some true) (Some (entry_allowed blocked_ctx)) s1 =
              (Ok (mkSubmitResult o true), s1).
Proof.
  refine (submit_retry_is_noop book_broker_laws sub_example intent_example intent_example
    None None (Some true) (Some (entry_allowed blocked_ctx)) _
    [(intent_example, Some true, None)] _ _); reflexivity.
Defined.

(** ** Fills *)

(** The order books a fill: it has a positive filled quantity (or NaN) and was
    not applied before. *)
Definition books_fill (o : BrokerOrder) (t : PositionTracker) : bool :=
  negb (fleb (bo_filled_qty o) fzero) && negb (bool_decide (bo_client_order_id o ∈ pt_applied t)).

Lemma tracker_apply_no_fill o p t : books_fill o t = false -> (tracker_apply o p t).2 = t.
Proof.
  unfold books_fill, tracker_apply. intros H.
  destruct (bool_decide (lower _ ∈ _)) eqn:E1, (fleb (bo_filled_qty o) fzero) eqn:E2; simpl in *;
    try done; by destruct (bool_decide (bo_client_order_id o ∈ pt_applied t)) eqn:E3.
Qed.

Lemma tracker_apply_fill o p t :
  books_fill o t = true ->
  pt_applied (tracker_apply o p t).2 = {[bo_client_order_id o]} ∪ pt_applied t /\
  (forall sym, sym <> upper (bo_symbol o) ->
     pt_positions (tracker_apply o p t).2 !! sym = pt_positions t !! sym) /\
  (exists avg, pt_positions (tracker_apply o p t).2 !! upper (bo_symbol o) =
     Some (mkTracked
       (fadd (tp_qty (default (mkTracked fzero fzero) (pt_positions t !! upper (bo_symbol o))))
          (if bool_decide (lower (bo_side o) = "buy") then bo_filled_qty o else fneg (bo_filled_qty o)))
       avg)).
Proof.
  unfold books_fill, tracker_apply. intros [H1 H2]%andb_true_iff.
  apply negb_true_iff in H1, H2. rewrite H1, H2, andb_false_r. cbn [snd pt_applied pt_positions].
  split; [done|]. split.
  - intros sym Hs. by rewrite lookup_insert_ne.
  - eexists. by rewrite lookup_insert_eq.
Qed.

(** An id is booked at most once: after an order with a positive fill was
    applied, applying any order carrying the same client order id, with whatever
    status, price and filled quantity, leaves every position as it is. In
    particular a retry does not double count; and the further fills of an order
    first applied while partially filled are never booked. *)
Theorem fill_booked_once_per_id o o' p p' t :
  fleb (bo_filled_qty o) fzero = false ->
  bo_client_order_id o' = bo_client_order_id o ->
  let t1 := (tracker_apply o p t).2 in
  (tracker_apply o' p' t1).2 = t1 /\
  (bo_client_order_id o ∉ pt_applied t ->
     tracker_position (bo_symbol o) (tracker_apply o' p' t1).2 =
       fadd (tracker_position (bo_symbol o) t)
         (if bool_decide (lower (bo_side o) = "buy") then bo_filled_qty o
          else fneg (bo_filled_qty o))).
Proof.
  intros Hf Hid t1.
  assert (Hin : bo_client_order_id o ∈ pt_applied t1).
  { subst t1. destruct (books_fill o t) eqn:E.
    - destruct (tracker_apply_fill o p t E) as [-> _]. set_solver.
    - rewrite tracker_apply_no_fill by done. unfold books_fill in E. rewrite Hf in E. simpl in E.
      by apply negb_false_iff, bool_decide_eq_true in E. }
  assert (Ht : (tracker_apply o' p' t1).2 = t1).
  { apply tracker_apply_no_fill. unfold books_fill.
    by rewrite Hid, (bool_decide_eq_true_2 _ Hin), andb_false_r. }
  rewrite Ht. split; [done|]. intros Hn.
  assert (E : books_fill o t = true).
  { unfold books_fill. by rewrite Hf, bool_decide_eq_false_2. }
  destruct (tracker_apply_fill o p t E) as (_ & _ & avg & Hp).
  subst t1. unfold tracker_position at 1. rewrite Hp. simpl. unfold tracker_position.
  by destruct (pt_positions t !! upper (bo_symbol o)).
Qed.

Definition partial_fill : BrokerOrder :=
  mkBrokerOrder "mbappe-1" "spy" "buy" (of_Z 100) "partially_filled" (of_Z 40) (of_Z 500) None.
Definition complete_fill : BrokerOrder :=
  mkBrokerOrder "mbappe-1" "spy" "buy" (of_Z 100) "filled" (of_Z 100) (of_Z 501) None.

(** The order filled 100 shares at the broker; the tracker stays at 40. *)
Lemma fill_booked_once_per_id_witness :
  tracker_position "SPY" (tracker_apply complete_fill None (tracker_apply partial_fill None tracker_init).2).2
    = of_Z 40 /\
  (tracker_apply complete_fill None (tracker_apply partial_fill None tracker_init).2).2 =
    (tracker_apply partial_fill None tracker_init).2.
Proof.
  split; [vm_compute; reflexivity|].
  apply (fill_booked_once_per_id partial_fill complete_fill None None tracker_init); reflexivity.
Defined.

(** ** Reconciliation *)

Lemma app_nil_iff {A} (l k : list A) : l ++ k = [] <-> l = [] /\ k = [].
Proof. split; [apply app_nil|by intros [-> ->]]. Qed.

Lemma omap_nil_iff {A C} (f : A -> option C) l : omap f l = [] <-> Forall (fun x => f x = None) l.
Proof.
  induction l as [|x l IH]; simpl; [by split|]. rewrite Forall_cons.
  destruct (f x); [split; [done|by intros [? _]]|]. rewrite IH. by split; [|intros [_ ?]].
Qed.

Lemma position_mismatches_nil tol internal broker :
  position_mismatches tol internal broker = [] <->
  forall sym, sym ∈ dom internal ∪ dom broker ->
    compare_position tol (default fzero (internal !! sym)) (default fzero (broker !! sym)) = None.
Proof.
  unfold position_mismatches. rewrite omap_nil_iff, Forall_forall. split; intros H sym Hs.
  - specialize (H sym). rewrite elem_of_sorted_strings in H. specialize (H Hs).
    by apply fmap_None in H.
  - apply elem_of_sorted_strings in Hs. by rewrite H.
Qed.

Lemma orphan_mismatches_nil ioc boc :
  orphan_mismatches ioc boc = [] <->
  forall c : string, c ∈ (default ∅ boc : gset string) -> c ∈ (default ∅ ioc : gset string).
Proof.
  assert (Hn : orphan_mismatches ioc boc = [] <->
    sorted_strings (default ∅ boc ∖ default ∅ ioc) = []).
  { destruct ioc, boc; simpl; try (split; [apply fmap_nil_inv|by intros ->]).
    split; [intros _|done]. reflexivity. }
  rewrite Hn. split.
  - intros H c Hc. destruct (decide (c ∈ (default ∅ ioc : gset string))) as [|Hni]; [done|exfalso].
    assert (c ∈ sorted_strings (default ∅ boc ∖ default ∅ ioc)) as Hin
      by (apply elem_of_sorted_strings; set_solver).
    rewrite H in Hin. by apply not_elem_of_nil in Hin.
  - intros H. assert (He : default ∅ boc ∖ default ∅ ioc = (∅ : gset string)) by set_solver.
    by rewrite He.
Qed.

(** Boot reconciliation is exact and fail-closed: it reports no mismatch if and
    only if every symbol held on either side compares equal within the tolerance
    and no broker order is unknown internally. A mismatch trips the report, hands
    the sink that same list once and halts the escalation engine, which then
    blocks every strategy's entries; a clean boot leaves the engine alone. *)
Theorem reconcile_boot_exact internal broker ioc boc tol esc :
  let '(report, esc', sunk) := reconcile_boot internal broker ioc boc tol (Some esc) in
  (mismatches report = [] <->
     (forall sym, sym ∈ dom (upper_positions internal) ∪ dom (upper_positions broker) ->
        compare_position tol (default fzero (upper_positions internal !! sym))
          (default fzero (upper_positions broker !! sym)) = None) /\
     (forall c, c ∈ (default ∅ boc : gset string) -> c ∈ (default ∅ ioc : gset string))) /\
  tripped report = negb (bool_decide (mismatches report = [])) /\
  (tripped report = false -> esc' = Some esc /\ sunk = []) /\
  (tripped report = true -> sunk = [mismatches report] /\
     exists e, esc' = Some e /\ forall sid, blocks_entries_for_strategy sid e = true).
Proof.
  set (ms := position_mismatches tol (upper_positions internal) (upper_positions broker) ++
             orphan_mismatches ioc boc).
  assert (Hms : ms = [] <->
     (forall sym, sym ∈ dom (upper_positions internal) ∪ dom (upper_positions broker) ->
        compare_position tol (default fzero (upper_positions internal !! sym))
          (default fzero (upper_positions broker !! sym)) = None) /\
     (forall c, c ∈ (default ∅ boc : gset string) -> c ∈ (default ∅ ioc : gset string))).
  { unfold ms. by rewrite app_nil_iff, position_mismatches_nil, orphan_mismatches_nil. }
  unfold reconcile_boot. fold ms. destruct ms as [|x ms']; simpl; rewrite <- Hms.
  - by split_and!.
  - split_and!; try done. intros _. split; [done|]. eexists. by split.
Qed.

(** A quantity that is NaN on either side compares equal to anything. *)
Lemma compare_position_nan tol q :
  compare_position tol fnan q = None /\ compare_position tol q fnan = None.
Proof.
  unfold compare_position.
  assert (forall x, fltb x fnan = false) as H1 by (intros; by apply fltb_nan_r).
  assert (forall x, fltb fnan x = false) as H2 by (intros; by apply fltb_nan_l).
  assert (forall x, fleb x fnan = false) as H3 by forder.
  assert (forall x, fleb fnan x = false) as H4 by forder.
  assert (fsub q fnan = fnan) as H5 by (by destruct q).
  change (fabs fnan) with fnan. change (fsub fnan q) with fnan. rewrite H5.
  change (fabs fnan) with fnan. by rewrite ?H1, ?H2, ?H3, ?H4, ?andb_false_r.
Qed.
