(* ===== verification/ExecutionAdapter.v ===== *)
(** * The idempotent execution adapter

    [src/execution/idempotent_execution_adapter.py]: the one live order path. It
    reserves a client order id before its first [await], so that calls that
    interleave at the awaits cannot submit an id twice. [Order] objects are
    mutable and shared, so they live in a heap; a call is a task that runs from
    one await to the next, and a history is a schedule of such steps. *)

From stdpp Require Import base gmap strings list.
From Stdlib Require Import ZArith Lia.
From S2P Require Import Prelude PyFloat Models Preemption IdempotentExecution.

Definition DUPLICATE_NOOP_STATUS : string := "duplicate_noop".

Definition set_client_order_id (c : string) (o : Order) : Order :=
  mkOrder (ord_symbol o) (ord_side o) (ord_qty o) (ord_type o) (ord_stop_price o)
    (ord_strategy_id o) (Some c).

Section Adapter.
(** [uuid4().hex[:32]] of the n-th call. *)
Context (uuid_hex : nat -> string).

Record adapter := mkAdapter {
  heap : gmap nat Order;
  seen : gset string;
  uuid_calls : nat;
  delegated : list string        (* ids handed to the inner broker, in order *)
}.

(** [assign_client_order_id(order, signal_ts=.., epoch=..)]. *)
Definition assign_client_order_id (o : Order) (signal_ts : option string) (epoch : Z) (n : nat)
    : string * Order * nat :=
  match ord_client_order_id o with
  | Some c => if truthy c then (c, o, n) else
      let c := match signal_ts with
               | Some ts => deterministic_client_order_id (str_or (ord_strategy_id o) "leg") ts
                              (Side_value (ord_side o)) epoch
               | None => String.append "mbappe-" (uuid_hex n)
               end in
      (c, set_client_order_id c o, match signal_ts with Some _ => n | None => S n end)
  | None =>
      let c := match signal_ts with
               | Some ts => deterministic_client_order_id (str_or (ord_strategy_id o) "leg") ts
                              (Side_value (ord_side o)) epoch
               | None => String.append "mbappe-" (uuid_hex n)
               end in
      (c, set_client_order_id c o, match signal_ts with Some _ => n | None => S n end)
  end.

Definition noop_result (now : Z) (o : Order) : OrderResult :=
  mkOrderResult (ord_symbol o) (ord_side o) fzero fzero now (ord_client_order_id o)
    DUPLICATE_NOOP_STATUS.

(** A call of [submit_orders] in flight: the orders still to look at, the
    order whose broker query is awaited, those collected for submission, and
    the results; it ends with its results or with the inner broker's exception. *)
Record task := mkTask {
  tk_todo : list nat;
  tk_query : option nat;
  tk_submit : list nat;
  tk_results : list OrderResult;
  tk_end : option (result string (list OrderResult))
}.

Definition new_task (orders : list nat) : task := mkTask orders None [] [] None.

Definition order_id (h : gmap nat Order) (r : nat) : string :=
  match h !! r with Some o => default "" (ord_client_order_id o) | None => "" end.

(** What the environment answers at an await: whether the broker knows the id
    (a raising or missing getter counts as no), and what the inner submission
    returns. *)
Record answer := mkAnswer { an_exists : bool; an_submit : result string (list OrderResult); an_now : Z }.

(** From one await to the next. *)
Definition task_step (an : answer) (a : adapter) (t : task) : adapter * task :=
  match tk_end t with
  | Some _ => (a, t)
  | None =>
      match tk_query t with
      | Some r =>
          if an_exists an then
            (a, mkTask (tk_todo t) None (tk_submit t)
                  (tk_results t ++ match heap a !! r with
                                   | Some o => [noop_result (an_now an) o] | None => [] end) None)
          else (a, mkTask (tk_todo t) None (tk_submit t ++ [r]) (tk_results t) None)
      | None =>
          match tk_todo t with
          | r :: rest =>
              match heap a !! r with
              | None => (a, mkTask rest None (tk_submit t) (tk_results t) None)
              | Some o =>
                  let '(coid, o', n) := assign_client_order_id o None 0 (uuid_calls a) in
                  let h := <[r := o']> (heap a) in
                  if bool_decide (coid ∈ seen a) then
                    (mkAdapter h (seen a) n (delegated a),
                     mkTask rest None (tk_submit t) (tk_results t ++ [noop_result (an_now an) o']) None)
                  else
                    (mkAdapter h ({[coid]} ∪ seen a) n (delegated a),
                     mkTask rest (Some r) (tk_submit t) (tk_results t) None)
              end
          | [] =>
              match tk_submit t with
              | [] => (a, mkTask [] None [] (tk_results t) (Some (Ok (tk_results t))))
              | _ =>
                  (mkAdapter (heap a) (seen a) (uuid_calls a)
                     (delegated a ++ map (order_id (heap a)) (tk_submit t)),
                   mkTask [] None [] (tk_results t)
                     (Some match an_submit an with
                           | Ok rs => Ok (tk_results t ++ rs)
                           | Raise e => Raise e
                           end))
              end
          end
      end
  end.

(** A schedule: which task runs next, and the answer it gets. *)
Definition world : Type := adapter * list task.

Definition sched_step (w : world) (e : nat * answer) : world :=
  match w.2 !! e.1 with
  | Some t => let '(a, t') := task_step e.2 w.1 t in (a, <[e.1 := t']> w.2)
  | None => w
  end.

(** [submit_orders] on its own: the steps of one task until it ends. *)
Fixpoint run_task (fuel : nat) (ans : nat -> answer) (a : adapter) (t : task) : adapter * task :=
  match fuel with
  | O => (a, t)
  | S fuel =>
      match tk_end t with
      | Some _ => (a, t)
      | None => let '(a', t') := task_step (ans fuel) a t in run_task fuel ans a' t'
      end
  end.

Definition submit_orders (orders : list nat) (ans : nat -> answer) (a : adapter) : adapter * task :=
  run_task (S (2 * length orders)) ans a (new_task orders).
End Adapter.

(** [reconcile_boot(internal_positions)]: the broker's positions, shorts negated
    (in the dict a later position of a symbol replaces an earlier one, which is
    what [upper_positions] does with the list). *)
Definition broker_signed_positions (ps : list Position) : list (string * float) :=
  map (fun p => (upper (pos_symbol p),
                 if bool_decide (lower (pos_side p) = "long") then pos_qty p else fneg (pos_qty p))) ps.

Definition adapter_reconcile_boot (internal : list (string * float)) (broker_positions : list Position)
    (esc : RiskEscalationSnapshot)
    : ReconcileReport * option RiskEscalationSnapshot * list (list ReconcileMismatch) :=
  reconcile_boot internal (broker_signed_positions broker_positions) None None (lit 1 6) (Some esc).

(** ** Lemmas *)

Section AdapterLemmas.
(** [s0]: the ids seen before the history starts. *)
Context (uuid_hex : nat -> string) (s0 : gset string).

Definition pending (t : task) : list nat :=
  tk_submit t ++ match tk_query t with Some r => [r] | None => [] end.

Definition has_id (h : gmap nat Order) (r : nat) : Prop := truthy (order_id h r) = true.

Lemma pending_update ts i t :
  ts !! i = Some t ->
  exists rest, concat (map pending ts) ≡ₚ pending t ++ rest /\
    forall t', concat (map pending (<[i:=t']> ts)) ≡ₚ pending t' ++ rest.
Proof.
  revert i. induction ts as [|t0 ts IH]; intros [|i] Hi; simpl in *; try done.
  - simplify_eq. by exists (concat (map pending ts)).
  - destruct (IH i Hi) as (rest & H1 & H2). exists (pending t0 ++ rest). split.
    + rewrite H1. solve_Permutation.
    + intros t'. rewrite H2. solve_Permutation.
Qed.

Lemma assign_id o ts ep n :
  let '(c, o', _) := assign_client_order_id uuid_hex o ts ep n in
  ord_client_order_id o' = Some c /\ truthy c = true /\
  (truthy_opt (ord_client_order_id o) = true -> o' = o).
Proof.
  unfold assign_client_order_id.
  assert (forall leg t s e, truthy (deterministic_client_order_id leg t s e) = true) as Hd by done.
  destruct (ord_client_order_id o) as [c|] eqn:E; [destruct (truthy c) eqn:Et|];
    destruct ts; simpl; rewrite ?E, ?Hd; auto; (split_and!; [done..|]; congruence).
Qed.

(** Giving an order without an id its id moves no id already given. *)
Lemma assign_keeps h r o o' l :
  h !! r = Some o -> (truthy_opt (ord_client_order_id o) = true -> o' = o) ->
  Forall (has_id h) l ->
  map (order_id (<[r := o']> h)) l = map (order_id h) l /\ Forall (has_id (<[r := o']> h)) l.
Proof.
  intros Hr Hk. induction 1 as [|x l Hx _ [IH1 IH2]]; simpl; [done|].
  assert (order_id (<[r:=o']> h) x = order_id h x) as He.
  { unfold order_id. destruct (decide (r = x)) as [->|]; [|by rewrite lookup_insert_ne].
    rewrite lookup_insert_eq, Hr. rewrite Hk; [done|].
    unfold has_id, order_id in Hx. rewrite Hr in Hx. by destruct (ord_client_order_id o). }
  rewrite IH1, He. split; [done|]. constructor; [|done]. unfold has_id. by rewrite He.
Qed.

(** [ps] are the references pending in any task; claimed ids are distinct and
    were seen since the start. *)
Definition inv_with (a : adapter) (ps : list nat) : Prop :=
  NoDup (delegated a ++ map (order_id (heap a)) ps) /\
  (forall c, c ∈ delegated a ++ map (order_id (heap a)) ps -> c ∈ seen a /\ c ∉ s0) /\
  Forall (has_id (heap a)) ps /\ s0 ⊆ seen a.

Definition adapter_inv (w : world) : Prop := inv_with w.1 (concat (map pending w.2)).

Lemma inv_with_perm a ps ps' : ps ≡ₚ ps' -> inv_with a ps -> inv_with a ps'.
Proof. intros Hp. unfold inv_with. by setoid_rewrite Hp. Qed.

Lemma inv_with_sub a ps ps' : inv_with a (ps ++ ps') -> inv_with a ps'.
Proof.
  unfold inv_with. rewrite map_app. intros (Hn & Hs & Hf & H0). apply Forall_app in Hf as [_ Hf].
  split; [|split; [|done]].
  - rewrite !NoDup_app in *. set_solver.
  - set_solver.
Qed.

Lemma task_step_inv an a t rest :
  inv_with a (pending t ++ rest) ->
  let '(a', t') := task_step uuid_hex an a t in inv_with a' (pending t' ++ rest).
Proof.
  intros Hi. unfold task_step.
  destruct (tk_end t); [done|].
  destruct (tk_query t) as [r|] eqn:Eq; unfold pending in Hi; rewrite Eq in Hi.
  - destruct (an_exists an); unfold pending; simpl; rewrite app_nil_r.
    + apply (inv_with_sub _ [r]). eapply inv_with_perm, Hi. solve_Permutation.
    + done.
  - rewrite app_nil_r in Hi. destruct (tk_todo t) as [|r todo].
    + destruct (tk_submit t) as [|x sub] eqn:Es; [done|].
      unfold pending; simpl. destruct Hi as (Hn & Hs & Hf & H0). rewrite map_app in Hn, Hs.
      split; [|split; [|split; [|done]]]; simpl.
      * by rewrite <- app_assoc.
      * by rewrite <- app_assoc.
      * by apply Forall_app in Hf as [_ ?].
    + destruct (heap a !! r) as [o|] eqn:Er; [|unfold pending; simpl; by rewrite app_nil_r].
      pose proof (assign_id o None 0 (uuid_calls a)) as Ha.
      destruct (assign_client_order_id _ _ _ _ _) as [[c o'] n] eqn:Ea.
      destruct Ha as (Hc & Ht & Hk). destruct Hi as (Hn & Hs & Hf & H0).
      destruct (assign_keeps (heap a) r o o' _ Er Hk Hf) as [Hm Hf'].
      case_bool_decide; unfold pending; cbn [tk_submit tk_query].
      * rewrite app_nil_r. split; [|split; [|split]]; cbn [heap seen delegated]; by rewrite ?Hm.
      * apply (inv_with_perm _ (r :: tk_submit t ++ rest)); [solve_Permutation|].
        assert (order_id (<[r:=o']> (heap a)) r = c) as Hoc
          by (unfold order_id; by rewrite lookup_insert_eq, Hc).
        split; [|split; [|split; [|set_solver]]]; cbn [heap seen delegated map]; rewrite ?Hm, ?Hoc.
        -- rewrite <- Permutation_middle. constructor; [by intros [? _]%Hs|done].
        -- intros c'. rewrite <- Permutation_middle, elem_of_cons. intros [->|Hc'].
           ++ split; [by apply elem_of_union_l, elem_of_singleton|]. by intros ?%H0.
           ++ destruct (Hs _ Hc'). split; [by apply elem_of_union_r|done].
        -- constructor; [by unfold has_id; rewrite Hoc|done].
Qed.

Lemma sched_step_inv w e : adapter_inv w -> adapter_inv (sched_step uuid_hex w e).
Proof.
  destruct w as [a ts], e as [i an]. unfold sched_step; simpl. intros Hi.
  destruct (ts !! i) as [t|] eqn:Ei; [|done].
  destruct (pending_update ts i t Ei) as (rest & H1 & H2).
  apply (inv_with_perm _ _ _ H1), (task_step_inv an) in Hi. cbn [fst] in Hi.
  destruct (task_step uuid_hex an a t) as [a' t'].
  eapply inv_with_perm; [|apply Hi]. cbn [snd]. by rewrite H2.
Qed.

(** An order the adapter has looked at: it has an id, which was seen. *)
Definition known (a : adapter) (r : nat) : Prop :=
  forall o, heap a !! r = Some o ->
    exists c, ord_client_order_id o = Some c /\ truthy c = true /\ c ∈ seen a.

Lemma task_step_known an a t r : known a r -> known (task_step uuid_hex an a t).1 r.
Proof.
  intros Hk. unfold task_step. destruct (tk_end t), (tk_query t) as [q|]; try done;
    [by destruct (an_exists an)|].
  destruct (tk_todo t) as [|x todo]; [by destruct (tk_submit t)|].
  destruct (heap a !! x) as [o|] eqn:Ex; [|done].
  pose proof (assign_id o None 0 (uuid_calls a)) as Ha.
  destruct (assign_client_order_id _ _ _ _ _) as [[c o'] n].
  destruct Ha as (Hc & Ht & Hid).
  assert (forall S, seen a ⊆ S -> c ∈ S ->
    known (mkAdapter (<[x:=o']> (heap a)) S n (delegated a)) r) as H.
  { intros S HS HcS o''. cbn. destruct (decide (x = r)) as [->|].
    - rewrite lookup_insert_eq. intros [= <-]. eauto.
    - rewrite lookup_insert_ne by done. intros (c'&?&?&?)%Hk. exists c'. set_solver. }
  case_bool_decide; apply H; set_solver.
Qed.

Lemma sched_step_known w e r : known w.1 r -> known (sched_step uuid_hex w e).1 r.
Proof.
  intros Hk. unfold sched_step. destruct (w.2 !! e.1) as [t|]; [|done].
  pose proof (task_step_known e.2 w.1 t r Hk). by destruct (task_step uuid_hex e.2 w.1 t).
Qed.

(** The number of steps a task still takes. *)
Definition tk_measure (t : task) : nat :=
  match tk_end t with
  | Some _ => 0
  | None => S (2 * length (tk_todo t) + match tk_query t with Some _ => 1 | None => 0 end)
  end.

Lemma task_step_measure an a t :
  tk_measure (task_step uuid_hex an a t).2 = pred (tk_measure t) \/
  (tk_measure (task_step uuid_hex an a t).2 < pred (tk_measure t))%nat.
Proof.
  unfold task_step, tk_measure. destruct (tk_end t) eqn:Ee; [cbn; rewrite ?Ee; by left|].
  destruct (tk_query t) as [q|]; [destruct (an_exists an); simpl; lia|].
  destruct (tk_todo t) as [|x todo]; [destruct (tk_submit t); simpl; lia|].
  destruct (heap a !! x); [|simpl; lia].
  destruct (assign_client_order_id _ _ _ _ _) as [[c o'] n]. case_bool_decide; simpl; lia.
Qed.

Lemma run_task_ends fuel ans a t :
  (tk_measure t <= fuel)%nat -> is_Some (tk_end (run_task uuid_hex fuel ans a t).2).
Proof.
  revert a t. induction fuel as [|fuel IH]; intros a t Hm; simpl.
  - unfold tk_measure in Hm. destruct (tk_end t); [done|lia].
  - destruct (tk_end t) eqn:Ee; [by cbn; rewrite ?Ee|].
    pose proof (task_step_measure (ans fuel) a t) as Hs.
    destruct (task_step uuid_hex (ans fuel) a t) as [a' t']. apply IH. simpl in Hs. lia.
Qed.

Lemma run_task_inv (I : adapter -> task -> Prop) fuel ans a t :
  (forall an a t, I a t -> let '(a', t') := task_step uuid_hex an a t in I a' t') ->
  I a t -> let '(a', t') := run_task uuid_hex fuel ans a t in I a' t'.
Proof.
  intros Hstep. revert a t. induction fuel as [|fuel IH]; intros a t Hi; simpl; [done|].
  destruct (tk_end t); [done|]. specialize (Hstep (ans fuel) a t Hi).
  destruct (task_step uuid_hex (ans fuel) a t). by apply IH.
Qed.

Lemma submit_orders_ends orders ans a :
  is_Some (tk_end (submit_orders uuid_hex orders ans a).2).
Proof. apply run_task_ends. unfold tk_measure, new_task; simpl. lia. Qed.

(** When a call has ended, however it ended, its orders are known. *)
Lemma submit_orders_known orders ans a r :
  r ∈ orders -> known (submit_orders uuid_hex orders ans a).1 r.
Proof.
  intros Hr.
  pose proof (run_task_inv (fun a t => (r ∈ tk_todo t \/ known a r) /\
                             (is_Some (tk_end t) -> tk_todo t = []))
    (S (2 * length orders)) ans a (new_task orders)) as H.
  pose proof (submit_orders_ends orders ans a) as He. unfold submit_orders in *.
  destruct (run_task uuid_hex _ ans a (new_task orders)) as [a' t']. destruct H as [[H|H] Hnil].
  - clear. intros an a t [Hk Hnil].
    pose proof (fun H => task_step_known an a t r H) as Hkn. revert Hkn. unfold task_step.
    destruct (tk_end t) as [e|] eqn:Ee; [auto|].
    destruct (tk_query t) as [q|]; [destruct (an_exists an); cbn; intuition (done || auto)|].
    destruct (tk_todo t) as [|x todo].
    { destruct (tk_submit t); cbn; intros ?; (split; [|done]); destruct Hk; auto. }
    destruct (heap a !! x) as [o|] eqn:Ex.
    + pose proof (assign_id o None 0 (uuid_calls a)) as Ha.
      destruct (assign_client_order_id _ _ _ _ _) as [[c o'] n]. destruct Ha as (Hc & Ht & _).
      assert (r = x -> forall S, c ∈ S ->
        known (mkAdapter (<[x:=o']> (heap a)) S n (delegated a)) r) as Hx.
      { intros -> S HS o''. cbn. rewrite lookup_insert_eq. intros [= <-]. eauto. }
      case_bool_decide; cbn; intros Hkn; (split; [|by intros []]);
        (destruct Hk as [[->|?]%elem_of_cons|?]; [right; apply Hx; set_solver|auto..]).
    + cbn. intros Hkn. split; [|by intros []].
      destruct Hk as [[->|?]%elem_of_cons|?]; [right|auto..]. intros o Ho. congruence.
  - split; [by left|]. by intros [].
  - rewrite Hnil in H by done. by apply elem_of_nil in H.
  - done.
Qed.

Definition is_noop (res : OrderResult) : Prop :=
  res_status res = DUPLICATE_NOOP_STATUS /\ res_qty res = fzero.

(** A call all of whose orders are known delegates nothing. *)
Lemma known_orders_noop orders ans a :
  Forall (known a) orders ->
  let '(a', t') := submit_orders uuid_hex orders ans a in
  delegated a' = delegated a /\
  exists rs, tk_end t' = Some (Ok rs) /\ Forall is_noop rs.
Proof.
  intros Hall.
  pose proof (run_task_inv (fun a' t => delegated a' = delegated a /\ Forall (known a') (tk_todo t) /\
      tk_query t = None /\ tk_submit t = [] /\ Forall is_noop (tk_results t) /\
      (is_Some (tk_end t) -> tk_end t = Some (Ok (tk_results t))))
    (S (2 * length orders)) ans a (new_task orders)) as H.
  pose proof (submit_orders_ends orders ans a) as He. unfold submit_orders in *.
  destruct (run_task uuid_hex _ ans a (new_task orders)) as [a' t'].
  destruct H as (Hd & _ & _ & _ & Hn & Hend); [|by (split_and!; try done; intros [])|eauto 6].
  clear. intros an b t (Hd & Hk & Hq & Hs & Hn & He).
  pose proof (fun r => task_step_known an b t r) as Hkn.
  revert Hkn. unfold task_step.
  destruct (tk_end t) eqn:Ee; [by rewrite ?Ee|]. rewrite Hq, Hs.
  destruct (tk_todo t) as [|x todo]; [by cbn|]. apply Forall_cons in Hk as [Hx Hk].
  destruct (heap b !! x) as [o|] eqn:Ex; [|by (cbn; intros _; split_and!; try done; intros [])].
  pose proof (assign_id o None 0 (uuid_calls b)) as Ha.
  destruct (assign_client_order_id _ _ _ _ _) as [[c o'] n]. destruct Ha as (Hc & Ht & Hid).
  destruct (Hx o Ex) as (c' & Hc' & Ht' & Hs'). rewrite Hid in Hc by (by rewrite Hc').
  rewrite bool_decide_eq_true_2 by congruence. cbn. intros Hkn.
  split_and!; try done; [|apply Forall_app; split; [done|by apply Forall_singleton]].
  apply Forall_forall. intros r Hr. apply Hkn. rewrite Forall_forall in Hk. auto.
Qed.
End AdapterLemmas.

(** ** Properties *)

(** C2: No double submission, under every interleaving: start any number of
    [submit_orders] calls over a shared heap of orders, let them run in any
    order from await to await with any answers of the broker (queries that miss,
    submissions that raise), with any generator of fallback ids. The client order
    ids handed to the inner broker are distinct, none had been seen before, and
    all are remembered. *)
Theorem adapter_never_delegates_twice uuid_hex h s0 n calls sched :
  let w := runs (sched_step uuid_hex) (mkAdapter h s0 n [], map new_task calls) sched in
  NoDup (delegated w.1) /\ forall c, c ∈ delegated w.1 -> c ∈ seen w.1 /\ c ∉ s0.
Proof.
  intros w.
  assert (adapter_inv s0 w) as (Hn & Hs & _).
  { apply runs_invariant; [|apply sched_step_inv].
    unfold adapter_inv, inv_with. cbn.
    replace (concat _) with (@nil nat) by (by induction calls).
    split_and!; [constructor|by intros c ?%elem_of_nil|done|done]. }
  rewrite NoDup_app in Hn. split; [apply Hn|]. intros c Hc. apply Hs. set_solver.
Qed.

(** A call always ends, and a retry of its orders is a no-op: whatever the
    broker answered (also when the inner submission raised, so that nothing may
    have reached the broker), and whatever other calls did in between, submitting
    the same orders again delegates nothing and returns only no-op results. *)
Theorem adapter_retry_is_noop uuid_hex orders ans ans' a ts sched :
  let '(a1, t1) := submit_orders uuid_hex orders ans a in
  let a2 := (runs (sched_step uuid_hex) (a1, ts) sched).1 in
  let '(a3, t3) := submit_orders uuid_hex orders ans' a2 in
  is_Some (tk_end t1) /\ delegated a3 = delegated a2 /\
  exists rs, tk_end t3 = Some (Ok rs) /\ Forall is_noop rs.
Proof.
  pose proof (submit_orders_ends uuid_hex orders ans a) as He.
  pose proof (fun r => submit_orders_known uuid_hex orders ans a r) as Hk.
  destruct (submit_orders uuid_hex orders ans a) as [a1 t1]. cbn [fst snd] in *.
  set (a2 := (runs (sched_step uuid_hex) (a1, ts) sched).1).
  assert (Forall (known a2) orders) as Hall.
  { apply Forall_forall. intros r Hr. subst a2.
    apply (runs_invariant (sched_step uuid_hex) (fun w => known w.1 r)); [by apply Hk|].
    intros. by apply sched_step_known. }
  pose proof (known_orders_noop uuid_hex orders ans' a2 Hall) as Hn.
  cbv zeta. fold a2. by destruct (submit_orders uuid_hex orders ans' a2).
Qed.
