(* ===== verification/CommandQueue.v ===== *)
(** * The persistent command bus

    [src/control/command_queue.py]: operators enqueue control commands, the
    trading process claims and executes them. A command lives in a local SQLite
    table, in the hosted Supabase table, or in both. Supabase is a service: it is
    the class [Supabase], whose laws say what requests do while the service is up;
    a request that faults may do anything. A JSON payload column holds the
    dict that both writers put there; times are ISO-8601 text, compared as the
    code compares them. The one local write whose failure the code catches, the mirror of a
    hosted claim, may fail in the model too; anywhere else a statement SQLite refuses
    raises out of its call, which then is a call that was not made. *)

From stdpp Require Import base gmap strings list sorting pretty.
From Stdlib Require Import ZArith Lia.
From S2P Require Import Prelude Models.

(** ** Commands and rows *)

Inductive ControlCommandType :=
  FLATTEN_AND_HALT | GO_LIVE | ENGAGE_KILL_SWITCH | RELEASE_KILL_SWITCH | RELOAD_CONFIG | PING.
#[export] Instance ControlCommandType_eq_dec : EqDecision ControlCommandType.
Proof. solve_decision. Defined.

Definition command_type_value (t : ControlCommandType) : string :=
  match t with
  | FLATTEN_AND_HALT => "FLATTEN_AND_HALT" | GO_LIVE => "GO_LIVE"
  | ENGAGE_KILL_SWITCH => "ENGAGE_KILL_SWITCH" | RELEASE_KILL_SWITCH => "RELEASE_KILL_SWITCH"
  | RELOAD_CONFIG => "RELOAD_CONFIG" | PING => "PING"
  end.

Definition command_types : list ControlCommandType :=
  [FLATTEN_AND_HALT; GO_LIVE; ENGAGE_KILL_SWITCH; RELEASE_KILL_SWITCH; RELOAD_CONFIG; PING].

(** [ControlCommandType(text)]. *)
Definition command_type_of (s : string) : option ControlCommandType :=
  List.find (fun t => bool_decide (command_type_value t = s)) command_types.

Definition EMERGENCY_COMMAND_TYPES : list ControlCommandType := [FLATTEN_AND_HALT; ENGAGE_KILL_SWITCH].
Definition is_emergency (t : ControlCommandType) : bool := bool_decide (t ∈ EMERGENCY_COMMAND_TYPES).

Inductive ControlCommandStatus := PENDING | PROCESSING | COMPLETED | FAILED.
#[export] Instance ControlCommandStatus_eq_dec : EqDecision ControlCommandStatus.
Proof. solve_decision. Defined.

Definition status_value (s : ControlCommandStatus) : string :=
  match s with
  | PENDING => "pending" | PROCESSING => "processing" | COMPLETED => "completed" | FAILED => "failed"
  end.

Definition status_of (s : string) : option ControlCommandStatus :=
  List.find (fun t => bool_decide (status_value t = s)) [PENDING; PROCESSING; COMPLETED; FAILED].

Definition CQ_TERMINAL_STATUSES : list string := ["completed"; "failed"].
Definition MAX_RECLAIM_ATTEMPTS : Z := 3.

(** A row of the table [control_commands]; the hosted table has the same columns
    but [attempts]. *)
Record cmd_row := mkRow {
  cr_id : string;
  cr_type : string;
  cr_payload : list (string * json);
  cr_status : string;
  cr_requested_by : option string;
  cr_idem : option string;
  cr_error : option string;
  cr_created : string;
  cr_processed : option string;
  cr_attempts : Z;
  cr_expires : option string
}.

Definition set_status (s : string) (processed : option string) (r : cmd_row) : cmd_row :=
  mkRow (cr_id r) (cr_type r) (cr_payload r) s (cr_requested_by r) (cr_idem r) (cr_error r)
    (cr_created r) processed (cr_attempts r) (cr_expires r).
Definition set_terminal (s : string) (processed error : option string) (r : cmd_row) : cmd_row :=
  mkRow (cr_id r) (cr_type r) (cr_payload r) s (cr_requested_by r) (cr_idem r) error
    (cr_created r) processed (cr_attempts r) (cr_expires r).
Definition set_attempts (s : string) (n : Z) (r : cmd_row) : cmd_row :=
  mkRow (cr_id r) (cr_type r) (cr_payload r) s (cr_requested_by r) (cr_idem r) (cr_error r)
    (cr_created r) (cr_processed r) n (cr_expires r).

Definition has_cmd_id (c : string) (r : cmd_row) : bool := bool_decide (cr_id r = c).
Definition has_status (s : ControlCommandStatus) (r : cmd_row) : bool :=
  bool_decide (cr_status r = status_value s).

Record ControlCommand := mkCommand {
  command_id : string;
  command_type : ControlCommandType;
  payload : list (string * json);
  cc_status : ControlCommandStatus;
  requested_by : option string;
  idempotency_key : option string;
  error_message : option string;
  created_at : string;
  processed_at : option string;
  expires_at : option string
}.

(** [_row_to_command] and [_sqlite_row_to_command]: an unknown type or status
    raises [ValueError]. *)
Definition row_to_command (r : cmd_row) : result string ControlCommand :=
  match command_type_of (cr_type r), status_of (str_or (cr_status r) "pending") with
  | Some t, Some s =>
      Ok (mkCommand (cr_id r) t (cr_payload r) s (cr_requested_by r) (cr_idem r) (cr_error r)
            (cr_created r) (cr_processed r) (cr_expires r))
  | _, _ => Raise "ValueError"
  end.

(** ** Tables *)

Definition table : Type := list cmd_row.

(** [UPDATE .. SET f WHERE p], and its row count. *)
Definition update_where (p : cmd_row -> bool) (f : cmd_row -> cmd_row) (t : table) : table :=
  map (fun r => if p r then f r else r) t.
Definition rowcount (p : cmd_row -> bool) (t : table) : nat := length (List.filter p t).

(** [INSERT]: the primary key [command_id] and the unique [idempotency_key]. *)
Definition conflicts (r r' : cmd_row) : bool :=
  bool_decide (cr_id r = cr_id r') ||
  match cr_idem r, cr_idem r' with Some k, Some k' => bool_decide (k = k') | _, _ => false end.
Definition insert_row (r : cmd_row) (t : table) : option table :=
  if existsb (conflicts r) t then None else Some (t ++ [r]).

Definition created_le (r r' : cmd_row) : Prop := str_le (cr_created r) (cr_created r').
#[export] Instance created_le_dec : RelDecision created_le.
Proof. intros r r'. unfold created_le. apply _. Defined.

Definition created_ge (r r' : cmd_row) : Prop := created_le r' r.
#[export] Instance created_ge_dec : RelDecision created_ge.
Proof. intros r r'. unfold created_ge. apply _. Defined.

(** [SELECT * WHERE p ORDER BY created_at LIMIT n]. *)
Definition select_oldest (p : cmd_row -> bool) (n : nat) (t : table) : list cmd_row :=
  take n (merge_sort created_le (List.filter p t)).

(** ** The hosted table *)

(** The columns the mirror writes, into a row the table has or not. *)
Definition merge_row (r r' : cmd_row) : cmd_row :=
  mkRow (cr_id r') (cr_type r) (cr_payload r) (cr_status r) (cr_requested_by r) (cr_idem r) (cr_error r)
    (cr_created r) (cr_processed r) (cr_attempts r') (cr_expires r').
(** [upsert(record, on_conflict="command_id")]: another row with the same [idempotency_key]
    violates the column's UNIQUE constraint. *)
Definition upsert_row (r : cmd_row) (t : table) : option table :=
  if existsb (fun x => negb (has_cmd_id (cr_id r) x) && conflicts r x) t then None
  else Some (if existsb (has_cmd_id (cr_id r)) t
             then update_where (has_cmd_id (cr_id r)) (merge_row r) t else t ++ [r]).

(** A request returns its rows or raises an exception with a text. *)
Class Supabase (B : Type) := {
  sb_insert : cmd_row -> B -> result string (list cmd_row) * B;
  sb_update : (cmd_row -> bool) -> (cmd_row -> cmd_row) -> B -> result string (list cmd_row) * B;
  sb_select : (cmd_row -> bool) -> nat -> B -> result string (list cmd_row) * B;
  sb_upsert : cmd_row -> B -> result string (list cmd_row) * B
}.

(** What the queue relies on. [sb_up b]: the service answers from now on. *)
Class SupabaseLaws (B : Type) `{!Supabase B} := {
  sb_table : B -> table;
  sb_up : B -> Prop;
  sb_insert_spec r b : sb_up b ->
    sb_up (sb_insert r b).2 /\
    match insert_row r (sb_table b) with
    | Some t => (sb_insert r b).1 = Ok [r] /\ sb_table (sb_insert r b).2 = t
    | None => (exists e, (sb_insert r b).1 = Raise e) /\ sb_table (sb_insert r b).2 = sb_table b
    end;
  sb_update_spec p f b : sb_up b ->
    sb_up (sb_update p f b).2 /\
    (sb_update p f b).1 = Ok (map f (List.filter p (sb_table b))) /\
    sb_table (sb_update p f b).2 = update_where p f (sb_table b);
  sb_select_spec p n b : sb_up b ->
    sb_up (sb_select p n b).2 /\
    (sb_select p n b).1 = Ok (select_oldest p n (sb_table b)) /\
    sb_table (sb_select p n b).2 = sb_table b;
  sb_upsert_spec r b : sb_up b ->
    sb_up (sb_upsert r b).2 /\
    match upsert_row r (sb_table b) with
    | Some t => (exists rs, (sb_upsert r b).1 = Ok rs) /\ sb_table (sb_upsert r b).2 = t
    | None => (exists e, (sb_upsert r b).1 = Raise e) /\ sb_table (sb_upsert r b).2 = sb_table b
    end
}.

Fixpoint contains (needle s : string) : bool :=
  String.prefix needle s || match s with EmptyString => false | String _ s' => contains needle s' end.

(** [run_with_supabase_retry(op, attempts=..)]: a recycled connection is retried,
    any other fault gives up; [None] when it never succeeded. *)
Fixpoint run_with_supabase_retry {B A} (op : B -> result string A * B) (attempts : nat) (b : B)
    : option A * B :=
  match attempts with
  | O => (None, b)
  | S n =>
      match op b with
      | (Ok a, b') => (Some a, b')
      | (Raise e, b') =>
          if contains "ConnectionTerminated" e && negb (Nat.eqb n 0)
          then run_with_supabase_retry op n b' else (None, b')
      end
  end.

(** ** Operations *)

Section Queue.
Context {B : Type} `{!Supabase B}.

(** The two buses: [get_supabase()], [None] when not configured, and the local
    table; and which of the coming mirror writes SQLite will refuse. *)
Record bus := mkBus { cloud : option B; local : table; mirror_faults : list bool }.

Definition set_local (t : table) (w : bus) : bus := mkBus (cloud w) t (mirror_faults w).
Definition set_cloud (b : B) (w : bus) : bus := mkBus (Some b) (local w) (mirror_faults w).

(** [enqueue_control_command_local]; a violated key is sqlite's
    [IntegrityError]. *)
Definition enqueue_control_command_local (t : ControlCommandType) (body : list (string * json))
    (requested_by idempotency_key : option string) (resolved_id now : string)
    (expires_at : option string) (w : bus) : result string ControlCommand * bus :=
  if (match expires_at with Some _ => true | None => false end) && is_emergency t
  then (Raise "ValueError", w) else
  let r := mkRow resolved_id (command_type_value t) body "pending" requested_by
             idempotency_key None now None 0 expires_at in
  match insert_row r (local w) with
  | Some tb => (Ok (mkCommand resolved_id t body PENDING requested_by idempotency_key None now
                      None expires_at), set_local tb w)
  | None => (Raise "IntegrityError", w)
  end.

(** [fetch_command_by_idempotency_key]. *)
Definition fetch_local_by_key (key : string) (w : bus) : result string (option ControlCommand) :=
  match List.find (fun r => bool_decide (cr_idem r = Some key)) (local w) with
  | Some r => try! c := row_to_command r in Ok (Some c)
  | None => Ok None
  end%py.

Definition fetch_command_by_idempotency_key (key : string) (w : bus)
    : result string (option ControlCommand) * bus :=
  match cloud w with
  | Some b =>
      let '(resp, b') := sb_select (fun r => bool_decide (cr_idem r = Some key)) 1 b in
      let w' := set_cloud b' w in
      match resp with
      | Ok (row :: _) =>
          match row_to_command row with
          | Ok c => (Ok (Some c), w')
          | Raise _ => (fetch_local_by_key key w', w')
          end
      | _ => (fetch_local_by_key key w', w')
      end
  | None => (fetch_local_by_key key w, w)
  end.

(** [enqueue_control_command]: Supabase first, the local table when there is
    none or it refuses. *)
Definition enqueue_control_command (t : ControlCommandType) (body : list (string * json))
    (requested_by idempotency_key : option string) (resolved_id now : string) (w : bus)
    : result string ControlCommand * bus :=
  let stage := enqueue_control_command_local t body requested_by idempotency_key resolved_id now None in
  match cloud w with
  | None => stage w
  | Some b =>
      let row := mkRow resolved_id (command_type_value t) body "pending" requested_by
                   idempotency_key None now None 0 None in
      let '(resp, b') := sb_insert row b in
      let w' := set_cloud b' w in
      let on_exception (e : string) :=
        match idempotency_key with
        | Some key =>
            if truthy key && contains "duplicate" (lower e) then
              match fetch_command_by_idempotency_key key w' with
              | (Ok (Some existing), w'') => (Ok existing, w'')
              | (Ok None, w'') => stage w''
              | (Raise e', w'') => (Raise e', w'')
              end
            else stage w'
        | None => stage w'
        end in
      match resp with
      | Ok data =>
          match row_to_command (List.hd row data) with
          | Ok c => (Ok c, w')
          | Raise e => on_exception e
          end
      | Raise e => on_exception e
      end
  end.

(** [fetch_pending_commands(limit=..)]. Rows already fetched stay when a later
    hosted row does not parse; a local one that does not parse raises. *)
Fixpoint merge_cloud (rows : list cmd_row) (merged : list ControlCommand) : list ControlCommand :=
  match rows with
  | [] => merged
  | r :: rest =>
      match row_to_command r with
      | Ok c => merge_cloud rest (if bool_decide (command_id c ∈ map command_id merged)
                                  then merged else merged ++ [c])
      | Raise _ => merged
      end
  end.

Fixpoint merge_local (rows : list cmd_row) (merged : list ControlCommand)
    : result string (list ControlCommand) :=
  match rows with
  | [] => Ok merged
  | r :: rest =>
      match row_to_command r with
      | Ok c => merge_local rest (if bool_decide (command_id c ∈ map command_id merged)
                                  then merged else merged ++ [c])
      | Raise e => Raise e
      end
  end.

Definition command_le (c c' : ControlCommand) : Prop := str_le (created_at c) (created_at c').
#[local] Instance command_le_dec : RelDecision command_le.
Proof. intros c c'. unfold command_le. apply _. Defined.

Definition cap_of (limit : Z) : nat := Z.to_nat (Z.max limit 1).

Definition fetch_pending_commands (limit : Z) (w : bus) : result string (list ControlCommand) * bus :=
  let cap := cap_of limit in
  let '(resp, w') :=
    match cloud w with
    | Some b => let '(resp, b') := run_with_supabase_retry (sb_select (has_status PENDING) cap) 3 b in
                (resp, set_cloud b' w)
    | None => (None, w)
    end in
  let merged := merge_cloud (default [] resp) [] in
  (match merge_local (select_oldest (has_status PENDING) cap (local w')) merged with
   | Ok merged => Ok (take cap (merge_sort command_le merged))
   | Raise e => Raise e
   end, w').

(** The compare-and-set [pending -> processing] of both tables. *)
Definition pending_row (c : string) (r : cmd_row) : bool := has_cmd_id c r && has_status PENDING r.
Definition to_processing (now : string) : cmd_row -> cmd_row := set_status "processing" (Some now).

(** [_transition_local_pending_to_processing]: best effort, a refused write counts no row. *)
Definition transition_local_pending_to_processing (c now : string) (w : bus) : nat * bus :=
  match mirror_faults w with
  | true :: fs => (0%nat, mkBus (cloud w) (local w) fs)
  | fs => (rowcount (pending_row c) (local w),
           mkBus (cloud w) (update_where (pending_row c) (to_processing now) (local w)) (tail fs))
  end.

(** [try_claim_command]. *)
Definition try_claim_local (c now : string) (w : bus) : bool * bus :=
  (negb (Nat.eqb (rowcount (pending_row c) (local w)) 0),
   set_local (update_where (pending_row c) (to_processing now) (local w)) w).

Definition try_claim_command (c now : string) (w : bus) : bool * bus :=
  match cloud w with
  | None => try_claim_local c now w
  | Some b =>
      let '(resp, b1) := sb_update (pending_row c) (to_processing now) b in
      match resp with
      | Ok (_ :: _) => (true, (transition_local_pending_to_processing c now (set_cloud b1 w)).2)
      | _ =>
          let '(sel, b2) := sb_select (has_cmd_id c) 1 b1 in
          match sel with
          | Ok (_ :: _) => (false, set_cloud b2 w)
          | _ => try_claim_local c now (set_cloud b2 w)
          end
      end
  end.

(** [fetch_and_claim_emergency_commands]; [nows] answers the clock. *)
Definition claimed_command (now : string) (c : ControlCommand) : ControlCommand :=
  mkCommand (command_id c) (command_type c) (payload c) PROCESSING (requested_by c)
    (idempotency_key c) None (created_at c) (Some now) None.

Fixpoint claim_emergencies (now : string) (cs : list ControlCommand) (w : bus)
    : list ControlCommand * bus :=
  match cs with
  | [] => ([], w)
  | c :: rest =>
      if negb (is_emergency (command_type c)) then claim_emergencies now rest w else
      let '(ok, w1) := try_claim_command (command_id c) now w in
      let '(claimed, w2) := claim_emergencies now rest w1 in
      (if ok then claimed_command now c :: claimed else claimed, w2)
  end.

Definition fetch_and_claim_emergency_commands (limit : Z) (now : string) (w : bus)
    : result string (list ControlCommand) * bus :=
  match fetch_pending_commands limit w with
  | (Ok cs, w') => let '(claimed, w'') := claim_emergencies now cs w' in (Ok claimed, w'')
  | (Raise e, w') => (Raise e, w')
  end.

(** [mark_command_processing]: unguarded. *)
Definition mark_command_processing (c now : string) (w : bus) : bus :=
  let mark_local w := set_local (update_where (has_cmd_id c) (to_processing now) (local w)) w in
  match cloud w with
  | Some b => match sb_update (has_cmd_id c) (to_processing now) b with
              | (Ok _, b') => set_cloud b' w
              | (Raise _, b') => mark_local (set_cloud b' w)
              end
  | None => mark_local w
  end.

(** [_mark_terminal]: true when it logs the error of a command found nowhere. *)
Definition not_terminal (r : cmd_row) : bool := negb (bool_decide (cr_status r ∈ CQ_TERMINAL_STATUSES)).

Definition mark_terminal (c now status : string) (error : option string) (w : bus) : bool * bus :=
  let f := set_terminal status (Some now) error in
  let '(wrote, w1) :=
    match cloud w with
    | Some b => match sb_update (has_cmd_id c) f b with
                | (Ok (_ :: _), b') => (true, set_cloud b' w)
                | (_, b') => (false, set_cloud b' w)
                end
    | None => (false, w)
    end in
  let p r := has_cmd_id c r && not_terminal r in
  let wrote := wrote || negb (Nat.eqb (rowcount p (local w1)) 0) in
  let w2 := set_local (update_where p f (local w1)) w1 in
  let already_terminal := existsb (has_cmd_id c) (local w2) in
  (negb (wrote || already_terminal), w2).

Definition mark_command_completed (c now : string) (w : bus) : bool * bus :=
  mark_terminal c now "completed" None w.
Definition mark_command_failed (c now error_message : string) (w : bus) : bool * bus :=
  mark_terminal c now "failed" (Some (String.substring 0 2000 error_message)) w.

(** [mirror_local_commands_to_supabase]: the newest rows, each upserted. *)
Definition select_newest (n : nat) (t : table) : list cmd_row :=
  take n (merge_sort created_ge t).

Fixpoint mirror_rows (rows : list cmd_row) (w : bus) : nat * bus :=
  match rows, cloud w with
  | r :: rest, Some b =>
      let '(resp, b') := sb_upsert r b in
      let '(n, w') := mirror_rows rest (set_cloud b' w) in
      (match resp with Ok _ => S n | Raise _ => n end, w')
  | _, _ => (0%nat, w)
  end.

Definition mirror_local_commands_to_supabase (limit : Z) (w : bus) : nat * bus :=
  match cloud w with
  | None => (0%nat, w)
  | Some _ => mirror_rows (select_newest (cap_of limit) (local w)) w
  end.

(** [reclaim_orphaned_processing_commands]: the orphans are read once, then
    requeued or dead-lettered one by one; the pages of failed dead-letters are
    the third counter. *)
Record reclaim_state := mkReclaim {
  rc_table : table; requeued : nat; poisoned : nat; poison_failures : list string
}.

Definition poison_text (max_attempts : Z) : string :=
  String.append "poison: exceeded " (String.append (pretty.pretty max_attempts) " reclaim attempts").

Definition processing_row (c : string) (r : cmd_row) : bool := has_cmd_id c r && has_status PROCESSING r.

Definition reclaim_one (max_attempts : Z) (now : string) (st : reclaim_state) (o : cmd_row)
    : reclaim_state :=
  let p := processing_row (cr_id o) in
  if (max_attempts <=? cr_attempts o)%Z then
    let t := update_where p (set_terminal "failed" (Some now) (Some (poison_text max_attempts)))
               (rc_table st) in
    if (1 <=? rowcount p (rc_table st))%nat
    then mkReclaim t (requeued st) (S (poisoned st)) (poison_failures st)
    else mkReclaim t (requeued st) (poisoned st) (poison_failures st ++ [cr_id o])
  else
    mkReclaim (update_where p (set_attempts "pending" (cr_attempts o + 1)) (rc_table st))
      (S (requeued st)) (poisoned st) (poison_failures st).

Definition reclaim_orphaned_processing_commands (max_attempts : Z) (now : string) (w : bus)
    : reclaim_state * bus :=
  let st := fold_left (reclaim_one max_attempts now) (List.filter (has_status PROCESSING) (local w))
              (mkReclaim (local w) 0 0 []) in
  (st, set_local (rc_table st) w).

(** [retire_expired_commands]. *)
Definition expired (now : string) (r : cmd_row) : bool :=
  (has_status PENDING r || has_status PROCESSING r) &&
  match cr_expires r with Some e => String.ltb e now | None => false end.

Definition retire_expired_commands (now : string) (w : bus) : nat * bus :=
  (rowcount (expired now) (local w),
   set_local (update_where (expired now)
     (set_terminal "failed" (Some now) (Some "expired: TTL elapsed before terminal")) (local w)) w).

(** [retire_stale_processing_orphans]; [cutoff] is the text of
    [now - older_than_minutes]. The rows read are the rows updated. *)
Definition stale (cutoff : string) (t : option ControlCommandType) (r : cmd_row) : bool :=
  has_status PROCESSING r && String.ltb (cr_created r) cutoff &&
  match t with Some t => bool_decide (cr_type r = command_type_value t) | None => true end.

Definition retire_one (reason now : string) (st : nat * table) (o : cmd_row) : nat * table :=
  let p := processing_row (cr_id o) in
  (if (1 <=? rowcount p st.2)%nat then S st.1 else st.1,
   update_where p (set_terminal "failed" (Some now) (Some (String.append "retired: " reason))) st.2).

Definition retire_stale_processing_orphans (reason cutoff now : string)
    (t : option ControlCommandType) (w : bus) : nat * bus :=
  let '(n, tb) := fold_left (retire_one reason now) (List.filter (stale cutoff t) (local w))
                    (0%nat, local w) in
  (n, set_local tb w).
End Queue.
Arguments bus B : clear implicits.

(** ** A hosted table that may fault

    Each request consumes an entry: [None] is served; [Some (applied, e)] raises
    [e], the write having been applied or not. *)

Record hosted := mkHosted { h_rows : table; h_faults : list (option (bool * string)) }.

Definition serve {A} (ok : table) (data : result string A) (h : hosted) : result string A * hosted :=
  match h_faults h with
  | Some (applied, e) :: fs => (Raise e, mkHosted (if applied : bool then ok else h_rows h) fs)
  | None :: fs => (data, mkHosted ok fs)
  | [] => (data, mkHosted ok [])
  end.

#[export] Instance hosted_supabase : Supabase hosted := {
  sb_insert r h := match insert_row r (h_rows h) with
                   | Some t => serve t (Ok [r]) h
                   | None => serve (h_rows h) (Raise "duplicate key value violates unique constraint") h
                   end;
  sb_update p f h := serve (update_where p f (h_rows h)) (Ok (map f (List.filter p (h_rows h)))) h;
  sb_select p n h := serve (h_rows h) (Ok (select_oldest p n (h_rows h))) h;
  sb_upsert r h := match upsert_row r (h_rows h) with
                   | Some t => serve t (Ok [r]) h
                   | None => serve (h_rows h) (Raise "duplicate key value violates unique constraint") h
                   end
}.

Definition hosted_up (h : hosted) : Prop := Forall (fun f => f = None) (h_faults h).

Lemma serve_up {A} ok (data : result string A) h :
  hosted_up h -> hosted_up (serve ok data h).2 /\ (serve ok data h).1 = data /\
  h_rows (serve ok data h).2 = ok.
Proof.
  unfold hosted_up, serve. destruct (h_faults h) as [|[[]|] fs]; cbn; [done| |];
    intros H%Forall_cons; by destruct H.
Qed.

#[export] Instance hosted_laws : SupabaseLaws hosted.
Proof.
  refine {| sb_table := h_rows; sb_up := hosted_up |}.
  - intros r b Hb. simpl. destruct (insert_row r (h_rows b)) as [t|];
      [destruct (serve_up t (Ok [r]) b Hb) as (?&?&?); eauto|].
    destruct (serve_up (h_rows b) (Raise (A:=list cmd_row)
      "duplicate key value violates unique constraint") b Hb) as (?&?&?); eauto.
  - intros p f b Hb. by destruct (serve_up (update_where p f (h_rows b))
      (Ok (map f (List.filter p (h_rows b)))) b Hb) as (?&?&?).
  - intros p n b Hb. by destruct (serve_up (h_rows b) (Ok (select_oldest p n (h_rows b))) b Hb)
      as (?&?&?).
  - intros r b Hb. simpl. destruct (upsert_row r (h_rows b)) as [t|];
      [destruct (serve_up t (Ok [r]) b Hb) as (?&?&?); eauto|].
    destruct (serve_up (h_rows b) (Raise (A:=list cmd_row)
      "duplicate key value violates unique constraint") b Hb) as (?&?&?); eauto.
Defined.
