(* ===== verification/CommandBus.v ===== *)
(** * Histories of the command bus

    The calls of [CommandQueue] in any order: how often a command is claimed,
    what crash recovery does, and that protective commands do not expire. *)

From stdpp Require Import base gmap strings list sorting pretty.
From Stdlib Require Import ZArith Lia.
From S2P Require Import Prelude Models CommandQueue.

(** ** Tables under updates *)

Lemma rowcount_existsb p t : Nat.eqb (rowcount p t) 0 = negb (existsb p t).
Proof. induction t as [|r t IH]; [done|]. unfold rowcount in *. simpl. by destruct (p r). Qed.

Lemma map_filter_nil {A} p (f : cmd_row -> A) t :
  match map f (List.filter p t) with [] => false | _ => true end = existsb p t.
Proof. induction t as [|r t IH]; [done|]. simpl. by destruct (p r). Qed.

Lemma select_one_found p t :
  match select_oldest p 1 t with [] => false | _ => true end = existsb p t.
Proof.
  unfold select_oldest. pose proof (merge_sort_Permutation created_le (List.filter p t)) as Hp.
  apply Permutation_length in Hp. pose proof (rowcount_existsb p t) as Hc. unfold rowcount in Hc.
  destruct (merge_sort created_le (List.filter p t)); simpl in *; rewrite <- Hp in Hc; simpl in Hc;
    destruct (existsb p t); done.
Qed.

Lemma existsb_update q p f t :
  existsb q (update_where p f t) = existsb (fun r => q (if p r then f r else r)) t.
Proof. induction t as [|r t IH]; [done|]. simpl. by rewrite IH. Qed.

Lemma existsb_mono {A} (p q : A -> bool) l :
  (forall x, x ∈ l -> p x = true -> q x = true) -> existsb p l = true -> existsb q l = true.
Proof.
  rewrite !existsb_exists. intros H (x & Hx & Hp). exists x. split; [done|].
  apply H; [by apply list_elem_of_In|done].
Qed.

Lemma existsb_false {A} (p : A -> bool) l : (forall x, p x = false) -> existsb p l = false.
Proof. intros H. induction l as [|x l IH]; [done|]. simpl. by rewrite H. Qed.

Lemma update_where_id p f t : existsb p t = false -> update_where p f t = t.
Proof.
  induction t as [|r t IH]; simpl; [done|]. intros [H1 H2]%orb_false_iff. rewrite H1. f_equal. auto.
Qed.

(** An update that keeps keys and attempts and makes no row pending. *)
Record tame (p : cmd_row -> bool) (f : cmd_row -> cmd_row) : Prop := {
  tame_id : forall r, cr_id (f r) = cr_id r;
  tame_attempts : forall r, cr_attempts (f r) = cr_attempts r;
  tame_pending : forall r, p r = true -> has_status PENDING (f r) = true -> has_status PENDING r = true
}.

Lemma tame_set_terminal p s n e : s <> "pending" -> tame p (set_terminal s n e).
Proof. intros Hs. split; [done..|]. intros r _ H%bool_decide_eq_true. by destruct Hs. Qed.

Lemma tame_set_status p s n : s <> "pending" -> tame p (set_status s n).
Proof. intros Hs. split; [done..|]. intros r _ H%bool_decide_eq_true. by destruct Hs. Qed.

#[export] Hint Resolve tame_set_terminal tame_set_status : py.

Definition pends (c : string) (t : table) : bool := existsb (pending_row c) t.

Lemma pends_tame c p f t : tame p f -> pends c (update_where p f t) = true -> pends c t = true.
Proof.
  intros [Hid _ Hp]. unfold pends. rewrite existsb_update. apply existsb_mono. intros r _.
  destruct (p r) eqn:E; [|done]. unfold pending_row, has_cmd_id. rewrite Hid.
  intros [-> H]%andb_true_iff. by rewrite (Hp r E H).
Qed.

Lemma pends_claimed c now t : pends c (update_where (pending_row c) (to_processing now) t) = false.
Proof.
  unfold pends. rewrite existsb_update. apply existsb_false. intros r.
  destruct (pending_row c r) eqn:E; [|done]. by apply andb_false_intro2.
Qed.

Lemma ids_update p f t : (forall r, cr_id (f r) = cr_id r) -> map cr_id (update_where p f t) = map cr_id t.
Proof.
  intros Hid. induction t as [|r t IH]; [done|]. simpl. rewrite IH. f_equal. by destruct (p r).
Qed.

Lemma find_update c p f t : (forall r, cr_id (f r) = cr_id r) ->
  List.find (has_cmd_id c) (update_where p f t) =
    option_map (fun r => if p r then f r else r) (List.find (has_cmd_id c) t).
Proof.
  intros Hid. induction t as [|r t IH]; [done|]. simpl.
  assert (has_cmd_id c (if p r then f r else r) = has_cmd_id c r) as ->
    by (unfold has_cmd_id; destruct (p r); by rewrite ?Hid).
  by destruct (has_cmd_id c r).
Qed.

(** ** Histories of the bus *)

Inductive cmd_event :=
  | EvEnqueue (t : ControlCommandType) (body : list (string * json)) (by_ key : option string)
      (id now : string)
  | EvEnqueueLocal (t : ControlCommandType) (body : list (string * json)) (by_ key : option string)
      (id now : string) (expires : option string)
  | EvClaim (c now : string)
  | EvEmergency (limit : Z) (now : string)
  | EvProcessing (c now : string)
  | EvCompleted (c now : string)
  | EvFailed (c now error : string)
  | EvMirror (limit : Z)
  | EvReclaim (now : string)
  | EvExpire (now : string)
  | EvStale (reason cutoff now : string) (t : option ControlCommandType).

Section Histories.
Context {B : Type} `{!Supabase B}.

(** The ids a call claims for execution, and the buses after it. *)
Definition cmd_step (w : bus B) (e : cmd_event) : list string * bus B :=
  match e with
  | EvEnqueue t body by_ key id now => ([], (enqueue_control_command t body by_ key id now w).2)
  | EvEnqueueLocal t body by_ key id now ex =>
      ([], (enqueue_control_command_local t body by_ key id now ex w).2)
  | EvClaim c now => let '(ok, w') := try_claim_command c now w in (if ok then [c] else [], w')
  | EvEmergency limit now =>
      match fetch_and_claim_emergency_commands limit now w with
      | (Ok cs, w') => (map command_id cs, w')
      | (Raise _, w') => ([], w')
      end
  | EvProcessing c now => ([], mark_command_processing c now w)
  | EvCompleted c now => ([], (mark_command_completed c now w).2)
  | EvFailed c now err => ([], (mark_command_failed c now err w).2)
  | EvMirror limit => ([], (mirror_local_commands_to_supabase limit w).2)
  | EvReclaim now => ([], (reclaim_orphaned_processing_commands MAX_RECLAIM_ATTEMPTS now w).2)
  | EvExpire now => ([], (retire_expired_commands now w).2)
  | EvStale reason cutoff now t => ([], (retire_stale_processing_orphans reason cutoff now t w).2)
  end.

(** The ids claimed along a history, in order. *)
Fixpoint claims (w : bus B) (evs : list cmd_event) : list string :=
  match evs with
  | [] => []
  | e :: rest => let '(cs, w') := cmd_step w e in cs ++ claims w' rest
  end.

Definition times_claimed (c : string) (w : bus B) (evs : list cmd_event) : nat :=
  count_occ String.string_dec (claims w evs) c.
End Histories.

Definition is_reclaim (e : cmd_event) : bool := match e with EvReclaim _ => true | _ => false end.
Definition enqueues (c : string) (e : cmd_event) : bool :=
  match e with
  | EvEnqueue _ _ _ _ id _ | EvEnqueueLocal _ _ _ _ id _ _ => bool_decide (id = c)
  | _ => false
  end.
Definition reclaims (evs : list cmd_event) : nat := length (List.filter is_reclaim evs).

(** ** What a call does to one command *)

(** Requeues a row may still get. *)
Definition room_of (c : string) (t : table) : nat :=
  match List.find (has_cmd_id c) t with
  | Some r => Z.to_nat (MAX_RECLAIM_ATTEMPTS - cr_attempts r)
  | None => 0
  end.

(** The table [t'] comes from [t] without making [c] pending or requeueing it. *)
Record table_follows (c : string) (t t' : table) : Prop := {
  tf_nodup : NoDup (map cr_id t) -> NoDup (map cr_id t');
  tf_pends : pends c t' = true -> pends c t = true;
  tf_room : room_of c t' = room_of c t
}.

#[export] Instance table_follows_refl c : Reflexive (table_follows c).
Proof. by intros t. Qed.

#[export] Instance table_follows_trans c : Transitive (table_follows c).
Proof. intros t1 t2 t3 [] []. split; [auto..|congruence]. Qed.

Lemma update_follows c p f t : tame p f -> table_follows c t (update_where p f t).
Proof.
  intros Ht. pose proof Ht as [Hid Ha _]. split.
  - by rewrite ids_update.
  - by apply pends_tame.
  - unfold room_of. rewrite find_update by done. destruct (List.find _ t) as [r|]; [|done].
    simpl. by destruct (p r); rewrite ?Ha.
Qed.

Lemma find_app_ne c (t : table) r : cr_id r <> c ->
  List.find (has_cmd_id c) (t ++ [r]) = List.find (has_cmd_id c) t.
Proof.
  intros Hr. induction t as [|x t IH]; simpl.
  - unfold has_cmd_id. by rewrite bool_decide_eq_false_2.
  - by destruct (has_cmd_id c x).
Qed.

Lemma pends_app_ne c t r : cr_id r <> c -> pends c (t ++ [r]) = pends c t.
Proof.
  intros Hr. unfold pends. rewrite existsb_app. simpl. unfold pending_row at 2, has_cmd_id.
  by rewrite bool_decide_eq_false_2, !orb_false_r.
Qed.

Lemma insert_row_some r t t' : insert_row r t = Some t' -> t' = t ++ [r] /\ ~ cr_id r ∈ map cr_id t.
Proof.
  unfold insert_row. destruct (existsb (conflicts r) t) eqn:E; [done|]. intros [= <-].
  split; [done|]. intros (x & Hx & Hin)%list_elem_of_fmap.
  assert (existsb (conflicts r) t = true); [|congruence].
  apply existsb_exists. exists x. split; [by apply list_elem_of_In|].
  unfold conflicts. by rewrite (bool_decide_eq_true_2 _ Hx).
Qed.

Lemma insert_follows c r t t' : cr_id r <> c -> insert_row r t = Some t' -> table_follows c t t'.
Proof.
  intros Hr [-> Hni]%insert_row_some. split.
  - rewrite map_app, NoDup_app. intros Hn. split; [done|]. split; [|apply NoDup_singleton].
    intros x Hx ->%list_elem_of_singleton. done.
  - by rewrite pends_app_ne.
  - unfold room_of. by rewrite find_app_ne.
Qed.

Lemma fold_follows {X} c (g : table -> X -> table) l t :
  (forall t x, table_follows c t (g t x)) -> table_follows c t (fold_left g l t).
Proof.
  intros Hg. revert t. induction l as [|x l IH]; intros t; simpl; [done|].
  etrans; [apply Hg|apply IH].
Qed.

Section Claims.
Context {B : Type} `{!Supabase B} {Laws : SupabaseLaws B}.
Implicit Types w : bus B.

Definition cloud_table w : table := match cloud w with Some b => sb_table b | None => [] end.
(** Supabase is not configured, or it is up, and no mirror write is refused. *)
Definition bus_up w : Prop :=
  match cloud w with Some b => sb_up b | None => True end /\ Forall (fun f => f = false) (mirror_faults w).
Definition ready w : Prop := bus_up w /\ NoDup (map cr_id (local w)).
Definition pend (c : string) w : bool := pends c (cloud_table w) || pends c (local w).
Definition room (c : string) w : nat := room_of c (local w).

(** From [w] to [w'] the command was claimed [k] times and not requeued. *)
Definition follows (c : string) (k : nat) w w' : Prop :=
  ready w -> ready w' /\ (k + Nat.b2n (pend c w') <= Nat.b2n (pend c w))%nat /\ room c w' = room c w.

Lemma pend_set_local c t w : pend c (set_local t w) = pends c (cloud_table w) || pends c t.
Proof. done. Qed.
Lemma pend_set_cloud c b w : pend c (set_cloud b w) = pends c (sb_table b) || pends c (local w).
Proof. done. Qed.

Lemma follows_refl c w : follows c 0 w w.
Proof. by intros. Qed.

Lemma follows_trans c k1 k2 w1 w2 w3 :
  follows c k1 w1 w2 -> follows c k2 w2 w3 -> follows c (k1 + k2) w1 w3.
Proof.
  intros H1 H2 H. destruct (H1 H) as (Hr & ? & ?). destruct (H2 Hr) as (? & ? & ?).
  split; [done|]. split; [lia|congruence].
Qed.

Lemma follows_local c t w : table_follows c (local w) t -> follows c 0 w (set_local t w).
Proof.
  intros [Hn Hp Hr] [Hu Hd]. split; [split; auto|]. split; [|done].
  rewrite pend_set_local. unfold pend.
  destruct (pends c t); [rewrite Hp by done; simpl; lia|].
  destruct (pends c (cloud_table w)), (pends c (local w)); simpl; lia.
Qed.

Lemma follows_cloud c b b' w : cloud w = Some b ->
  (sb_up b -> sb_up b' /\ (pends c (sb_table b') = true -> pend c w = true)) ->
  follows c 0 w (set_cloud b' w).
Proof.
  intros Hc Hb [[Hu Hm] Hd]. rewrite Hc in Hu. destruct (Hb Hu) as [Hu' Hp].
  split; [done|]. split; [|done].
  rewrite pend_set_cloud.
  destruct (pends c (sb_table b')); [rewrite Hp by done; simpl; lia|].
  unfold pend. destruct (pends c (local w)); rewrite ?orb_true_r; simpl; lia.
Qed.

Lemma follows_select c p n b w : cloud w = Some b ->
  follows c 0 w (set_cloud (sb_select p n b).2 w).
Proof.
  intros Hc. apply (follows_cloud _ b); [done|]. intros Hu.
  destruct (sb_select_spec p n b Hu) as (Hu' & _ & ->). split; [done|].
  unfold pend, cloud_table. rewrite Hc. by intros ->.
Qed.

Lemma follows_update c p f b w : cloud w = Some b -> tame p f ->
  follows c 0 w (set_cloud (sb_update p f b).2 w).
Proof.
  intros Hc Ht. apply (follows_cloud _ b); [done|]. intros Hu.
  destruct (sb_update_spec p f b Hu) as (Hu' & _ & ->). split; [done|].
  unfold pend, cloud_table. rewrite Hc. by intros ->%pends_tame.
Qed.

(** *** Claims *)

(** The authoritative copy of a command: the hosted one where there is one. *)
Definition claimable (c : string) w : bool :=
  if existsb (has_cmd_id c) (cloud_table w) then pends c (cloud_table w) else pends c (local w).

Lemma pends_has_id c t : pends c t = true -> existsb (has_cmd_id c) t = true.
Proof. apply existsb_mono. by intros r _ [? _]%andb_true_iff. Qed.

Lemma claimable_pend c w : claimable c w = true -> pend c w = true.
Proof. unfold claimable, pend. case_match; intros ->; by rewrite ?orb_true_r. Qed.

Lemma follows_claim c w w' : follows c 0 w w' ->
  (ready w -> pend c w = true /\ pend c w' = false) -> follows c 1 w w'.
Proof.
  intros Hf Hp Hr. destruct (Hf Hr) as (? & _ & ?). destruct (Hp Hr) as [-> ->]. by split_and!.
Qed.

Lemma follows_transition c c' now w :
  follows c 0 w (transition_local_pending_to_processing c' now w).2.
Proof.
  unfold transition_local_pending_to_processing. intros [[Hu Hm] Hn].
  assert (Forall (fun f => f = false) (tail (mirror_faults w))) as Ht by (by destruct Hm).
  destruct (follows_local c _ w (update_follows c (pending_row c') (to_processing now) (local w)
    ltac:(by apply tame_set_status)) (conj (conj Hu Hm) Hn)) as ([_ Hn'] & Hp & Hr).
  destruct (mirror_faults w) as [|[] fs]; [done|by inversion_clear Hm|done].
Qed.

(** Without a refusal the mirror write leaves no pending local copy. *)
Lemma transition_local c now w : Forall (fun f => f = false) (mirror_faults w) ->
  let w' := (transition_local_pending_to_processing c now w).2 in
  local w' = update_where (pending_row c) (to_processing now) (local w) /\ cloud w' = cloud w.
Proof. unfold transition_local_pending_to_processing. intros Hm. destruct (mirror_faults w) as [|[] fs]; [done|by inversion_clear Hm|done]. Qed.

Definition claim_count (c c' : string) (ok : bool) : nat :=
  if ok && bool_decide (c' = c) then 1 else 0.

(** One claim: it succeeds exactly on a claimable command, and then leaves no
    pending copy of it; a failed one changes neither table. *)
Definition claim_ok (c : string) w (out : bool * bus B) : Prop :=
  out.1 = claimable c w /\
  (forall c', follows c' (claim_count c' c out.1) w out.2) /\
  (out.1 = true -> pend c out.2 = false) /\
  (out.1 = false -> local out.2 = local w /\ cloud_table out.2 = cloud_table w).

Lemma claim_count_follows c c' ok w w' :
  follows c' 0 w w' ->
  (ok = true -> ready w -> pend c w = true /\ pend c w' = false) ->
  follows c' (claim_count c' c ok) w w'.
Proof.
  intros Hf Hp. unfold claim_count. destruct ok; [|done]. simpl. case_bool_decide; [|done].
  subst. by apply follows_claim; [|apply Hp].
Qed.

(** The local claim, on buses [w1] with the tables of [w] and no hosted copy. *)
Lemma try_claim_local_ok c now w w1 :
  local w1 = local w -> cloud_table w1 = cloud_table w ->
  existsb (has_cmd_id c) (cloud_table w) = false ->
  (forall c', follows c' 0 w w1) ->
  claim_ok c w (try_claim_local c now w1).
Proof.
  intros Hl Hc He Hf. unfold try_claim_local.
  rewrite rowcount_existsb, negb_involutive, Hl. fold (pends c (local w)).
  assert (pends c (cloud_table w) = false) as Hn.
  { destruct (pends c (cloud_table w)) eqn:E; [|done]. apply pends_has_id in E. congruence. }
  split; [|split; [|split]]; cbn [fst snd].
  - unfold claimable. by rewrite He.
  - intros c'. apply claim_count_follows.
    + eapply (follows_trans _ 0 0); [apply Hf|]. rewrite <- Hl. by apply follows_local, update_follows, tame_set_status.
    + intros Hp _. rewrite pend_set_local, Hc, Hn, pends_claimed. unfold pend.
      by rewrite Hp, orb_true_r.
  - intros _. by rewrite pend_set_local, Hc, Hn, pends_claimed.
  - intros Hp. cbn. by rewrite update_where_id.
Qed.

Lemma try_claim_ok c now w : bus_up w -> claim_ok c w (try_claim_command c now w).
Proof.
  intros [Hu Hmf]. unfold try_claim_command. destruct (cloud w) as [b|] eqn:Ec.
  2: { apply try_claim_local_ok; try done. by unfold cloud_table; rewrite Ec. }
  destruct (sb_update_spec (pending_row c) (to_processing now) b Hu) as (Hu1 & H1 & Ht1).
  assert (forall c', follows c' 0 w (set_cloud (sb_update (pending_row c) (to_processing now) b).2 w))
    as Hf1 by (intros; apply follows_update; [done|by apply tame_set_status]).
  destruct (sb_update (pending_row c) (to_processing now) b) as [resp b1]. cbn [fst snd] in *. subst resp.
  pose proof (map_filter_nil (pending_row c) (to_processing now) (sb_table b)) as Hm.
  fold (pends c (sb_table b)) in Hm.
  destruct (map (to_processing now) _) as [|x xs].
  - destruct (sb_select_spec (has_cmd_id c) 1 b1 Hu1) as (Hu2 & H2 & Ht2).
    assert (forall c', follows c' 0 w (set_cloud (sb_select (has_cmd_id c) 1 b1).2 w)) as Hf2.
    { intros c'. apply (follows_trans _ 0 0 _ _ _ (Hf1 c')).
      apply (follows_select c' (has_cmd_id c) 1 b1 (set_cloud b1 w)). done. }
    destruct (sb_select (has_cmd_id c) 1 b1) as [sel b2]. cbn [fst snd] in *. subst sel.
    pose proof (select_one_found (has_cmd_id c) (sb_table b1)) as Hs.
    rewrite Ht1 in Hs, Ht2. rewrite update_where_id in Hs, Ht2 by done.
    assert (cloud_table (set_cloud b2 w) = cloud_table w) as Hct
      by (unfold cloud_table; cbn; by rewrite Ec).
    rewrite Ht1, update_where_id by done.
    destruct (select_oldest (has_cmd_id c) 1 (sb_table b)) as [|y ys] eqn:Es.
    + apply try_claim_local_ok; try done. unfold cloud_table. by rewrite Ec, <- Hs.
    + split; [|split; [|split]]; cbn [fst snd]; try done.
      unfold claimable, cloud_table. by rewrite Ec, <- Hs, <- Hm.
  - assert (pend c (transition_local_pending_to_processing c now (set_cloud b1 w)).2 = false) as Hp.
    { destruct (transition_local c now (set_cloud b1 w) Hmf) as [Hl Hc]. unfold pend, cloud_table. rewrite Hl, Hc.
      cbn [cloud set_cloud local]. by rewrite Ht1, !pends_claimed. }
    split; [|split; [|split]]; cbn [fst snd]; try done.
    + unfold claimable, cloud_table. rewrite Ec, <- Hm. by rewrite pends_has_id by done.
    + intros c'. apply claim_count_follows.
      * apply (follows_trans _ 0 0 _ _ _ (Hf1 c')). apply (follows_transition c' c now (set_cloud b1 w)).
      * intros _ _. split; [|done]. unfold pend, cloud_table. by rewrite Ec, <- Hm.
Qed.

(** *** Every other call *)

Lemma follows_weaken c k w w' : (ready w -> follows c k w w') -> follows c k w w'.
Proof. intros H Hr. by apply H. Qed.

Lemma enqueue_local_follows c t body by_ key id now ex w : id <> c ->
  follows c 0 w (enqueue_control_command_local t body by_ key id now ex w).2.
Proof.
  intros Hid. unfold enqueue_control_command_local. case_match; [apply follows_refl|].
  destruct (insert_row _ (local w)) eqn:E; [|apply follows_refl].
  apply follows_local. eapply insert_follows; [|done]. done.
Qed.

Lemma fetch_by_key_follows c key w : follows c 0 w (fetch_command_by_idempotency_key key w).2.
Proof.
  unfold fetch_command_by_idempotency_key. destruct (cloud w) as [b|] eqn:E; [|apply follows_refl].
  pose proof (follows_select c (fun r => bool_decide (cr_idem r = Some key)) 1 b w E) as Hf.
  destruct (sb_select _ 1 b) as [[[|row ?]|?] b']; cbn in *; try done. by destruct (row_to_command row).
Qed.

Lemma insert_cloud_follows c r b w : cloud w = Some b -> cr_id r <> c ->
  follows c 0 w (set_cloud (sb_insert r b).2 w).
Proof.
  intros Hc Hr. apply (follows_cloud _ b); [done|]. intros Hu.
  destruct (sb_insert_spec r b Hu) as [Hu' Hi]. split; [done|].
  unfold pend, cloud_table. rewrite Hc. destruct (insert_row r (sb_table b)) eqn:E.
  - destruct Hi as [_ ->]. apply insert_row_some in E as [-> _]. rewrite pends_app_ne by done. by intros ->.
  - destruct Hi as [_ ->]. by intros ->.
Qed.

Lemma enqueue_follows c t body by_ key id now w : id <> c ->
  follows c 0 w (enqueue_control_command t body by_ key id now w).2.
Proof.
  intros Hid. unfold enqueue_control_command.
  destruct (cloud w) as [b|] eqn:E; [|by apply enqueue_local_follows].
  set (row := mkRow id _ _ _ _ _ _ _ _ _ _).
  pose proof (insert_cloud_follows c row b w E Hid) as Hf.
  destruct (sb_insert row b) as [resp b']. cbn [fst snd] in Hf. set (w' := set_cloud b' w) in *.
  assert (forall w'', follows c 0 w w'' ->
    follows c 0 w (enqueue_control_command_local t body by_ key id now None w'').2) as Hst.
  { intros w'' H. eapply (follows_trans _ 0 0); [done|]. by apply enqueue_local_follows. }
  assert (forall e, follows c 0 w
    (match key with
     | Some k =>
         if truthy k && contains "duplicate" (lower e) then
           match fetch_command_by_idempotency_key k w' with
           | (Ok (Some existing), w'') => (Ok existing, w'')
           | (Ok None, w'') => enqueue_control_command_local t body by_ key id now None w''
           | (Raise e', w'') => (Raise e', w'')
           end
         else enqueue_control_command_local t body by_ key id now None w'
     | None => enqueue_control_command_local t body by_ key id now None w'
     end).2) as He.
  { intros e. destruct key as [k|]; [|by apply Hst]. destruct (_ && _); [|by apply Hst].
    pose proof (follows_trans _ 0 0 _ _ _ Hf (fetch_by_key_follows c k w')) as Hk.
    destruct (fetch_command_by_idempotency_key k w') as [[[x|]|] w'']; cbn [fst snd] in *; try done.
    by apply Hst. }
  destruct resp as [data|e]; [|apply He]. destruct (row_to_command _); [done|apply He].
Qed.

Lemma retry_up p n k b : sb_up b ->
  run_with_supabase_retry (sb_select p n) (S k) b =
    (Some (select_oldest p n (sb_table b)), (sb_select p n b).2).
Proof.
  intros Hu. destruct (sb_select_spec p n b Hu) as (_ & He & _). simpl.
  destruct (sb_select p n b) as [? b']. cbn in *. by subst.
Qed.

Lemma fetch_pending_follows c limit w : follows c 0 w (fetch_pending_commands limit w).2.
Proof.
  unfold fetch_pending_commands. destruct (cloud w) as [b|] eqn:E; [|apply follows_refl].
  apply follows_weaken. intros [[Hu _] _]. rewrite E in Hu.
  rewrite retry_up by done. cbn. by apply follows_select.
Qed.

Lemma claim_emergencies_follows c now cs w :
  let '(claimed, w') := claim_emergencies now cs w in
  follows c (count_occ String.string_dec (map command_id claimed) c) w w'.
Proof.
  revert w. induction cs as [|x cs IH]; intros w; simpl; [apply follows_refl|].
  destruct (negb (is_emergency (command_type x))); [apply IH|].
  pose proof (try_claim_ok (command_id x) now w) as Hc.
  destruct (try_claim_command (command_id x) now w) as [ok w1]. specialize (IH w1).
  destruct (claim_emergencies now cs w1) as [claimed w2].
  apply follows_weaken. intros [Hu _]. destruct (Hc Hu) as (_ & Hf & _).
  pose proof (follows_trans _ _ _ _ _ _ (Hf c) IH) as H. cbn [fst] in H. unfold claim_count in H.
  destruct ok; [|done]. simpl in *. destruct (String.string_dec (command_id x) c).
  - by rewrite bool_decide_eq_true_2 in H.
  - by rewrite bool_decide_eq_false_2 in H.
Qed.

Lemma mark_processing_follows c id now w : follows c 0 w (mark_command_processing id now w).
Proof.
  unfold mark_command_processing.
  assert (forall w', follows c 0 w'
    (set_local (update_where (has_cmd_id id) (to_processing now) (local w')) w')) as Hl
    by (intros; by apply follows_local, update_follows, tame_set_status).
  destruct (cloud w) as [b|] eqn:E; [|done].
  pose proof (follows_update c (has_cmd_id id) (to_processing now) b w E) as Hf.
  destruct (sb_update _ _ b) as [[]]; cbn [snd] in Hf; [by apply Hf, tame_set_status|].
  eapply (follows_trans _ 0 0); [by apply Hf, tame_set_status|apply Hl].
Qed.

Lemma mark_terminal_follows c id now st err w : st <> "pending" ->
  follows c 0 w (mark_terminal id now st err w).2.
Proof.
  intros Hst. unfold mark_terminal.
  assert (exists wrote w1, match cloud w with
    | Some b => match sb_update (has_cmd_id id) (set_terminal st (Some now) err) b with
                | (Ok (_ :: _), b') => (true, set_cloud b' w)
                | (_, b') => (false, set_cloud b' w)
                end
    | None => (false, w)
    end = (wrote, w1) /\ follows c 0 w w1) as (wrote & w1 & -> & Hf).
  { destruct (cloud w) as [b|] eqn:E; [|by exists false, w; split; [|apply follows_refl]].
    pose proof (follows_update c (has_cmd_id id) (set_terminal st (Some now) err) b w E) as Hf.
    destruct (sb_update _ _ b) as [[[|]|] b']; eexists _, _; (split; [done|]);
      by apply Hf, tame_set_terminal. }
  eapply (follows_trans _ 0 0); [done|]. by apply follows_local, update_follows, tame_set_terminal.
Qed.

(** *** The mirror *)

Lemma pends_upsert c r t t' : upsert_row r t = Some t' -> pends c t' = true ->
  pends c t = true \/ pending_row c r = true.
Proof.
  unfold upsert_row. destruct (existsb _ t); [done|]. intros [= <-]. destruct (existsb (has_cmd_id (cr_id r)) t); unfold pends.
  - rewrite existsb_update. intros (x & Hx & Hp)%existsb_exists.
    destruct (has_cmd_id (cr_id r) x) eqn:E.
    + right. apply bool_decide_eq_true in E. revert Hp. unfold pending_row, has_cmd_id, has_status.
      simpl. by rewrite E.
    + left. apply existsb_exists. eauto.
  - rewrite existsb_app. intros [?|H]%orb_true_iff; [by left|right]. simpl in H. by rewrite orb_false_r in H.
Qed.

Lemma mirror_rows_follows c rows w : (forall r, r ∈ rows -> r ∈ local w) ->
  follows c 0 w (mirror_rows rows w).2.
Proof.
  revert w. induction rows as [|r rows IH]; intros w Hr; simpl; [apply follows_refl|].
  destruct (cloud w) as [b|] eqn:E; [|apply follows_refl].
  assert (follows c 0 w (set_cloud (sb_upsert r b).2 w)) as Hf.
  { apply (follows_cloud _ b); [done|]. intros Hu.
    destruct (sb_upsert_spec r b Hu) as (Hu' & Hs). split; [done|].
    unfold pend, cloud_table. rewrite E. destruct (upsert_row r (sb_table b)) as [t|] eqn:Eu; destruct Hs as [_ ->]; [|by intros ->].
    intros [->|Hp]%(pends_upsert _ _ _ _ Eu); [done|].
    apply orb_true_iff. right. apply existsb_exists. exists r. split; [|done].
    apply list_elem_of_In, Hr. by left. }
  destruct (sb_upsert r b) as [resp b']. cbn [snd] in Hf.
  specialize (IH (set_cloud b' w)). destruct (mirror_rows rows (set_cloud b' w)) as [n w2].
  eapply (follows_trans _ 0 0); [done|]. apply IH. intros x Hx. apply Hr. by right.
Qed.

Lemma mirror_follows c limit w : follows c 0 w (mirror_local_commands_to_supabase limit w).2.
Proof.
  unfold mirror_local_commands_to_supabase. destruct (cloud w); [|apply follows_refl].
  apply mirror_rows_follows. intros r Hr. unfold select_newest in Hr.
  assert (r ∈ merge_sort created_ge (local w)) as Hin by (by eapply elem_of_take in Hr as (?&?&?); eapply list_elem_of_lookup_2).
  by rewrite merge_sort_Permutation in Hin.
Qed.

Lemma retire_one_fold reason now l n t :
  (fold_left (retire_one reason now) l (n, t)).2 =
  fold_left (fun t o => update_where (processing_row (cr_id o))
    (set_terminal "failed" (Some now) (Some (String.append "retired: " reason))) t) l t.
Proof. revert n t. induction l as [|o l IH]; intros n t; simpl; [done|]. apply IH. Qed.

Lemma stale_follows c reason cutoff now ty w :
  follows c 0 w (retire_stale_processing_orphans reason cutoff now ty w).2.
Proof.
  unfold retire_stale_processing_orphans.
  pose proof (retire_one_fold reason now (List.filter (stale cutoff ty) (local w)) 0 (local w)) as H.
  destruct (fold_left _ _ _) as [n tb]. cbn [snd] in *. subst tb. apply follows_local, fold_follows.
  intros. by apply update_follows, tame_set_terminal.
Qed.

Lemma cmd_step_follows c w e : enqueues c e = false -> is_reclaim e = false ->
  follows c (count_occ String.string_dec (cmd_step w e).1 c) w (cmd_step w e).2.
Proof.
  intros He Hr. destruct e; simpl in *; try done.
  - apply bool_decide_eq_false in He. by apply enqueue_follows.
  - apply bool_decide_eq_false in He. by apply enqueue_local_follows.
  - apply follows_weaken. intros [Hu _]. destruct (try_claim_ok c0 now w Hu) as (_ & Hf & _).
    specialize (Hf c). destruct (try_claim_command c0 now w) as [ok w']. unfold claim_count in Hf.
    destruct ok; [|done]. simpl in *. destruct (String.string_dec c0 c).
    + by rewrite bool_decide_eq_true_2 in Hf.
    + by rewrite bool_decide_eq_false_2 in Hf.
  - unfold fetch_and_claim_emergency_commands.
    pose proof (fetch_pending_follows c limit w) as Hf.
    destruct (fetch_pending_commands limit w) as [[cs|] w1]; [|done].
    pose proof (claim_emergencies_follows c now cs w1) as Hc.
    destruct (claim_emergencies now cs w1) as [claimed w2]. exact (follows_trans _ 0 _ _ _ _ Hf Hc).
  - apply mark_processing_follows.
  - by apply mark_terminal_follows.
  - by apply mark_terminal_follows.
  - apply mirror_follows.
  - by apply follows_local, update_follows, tame_set_terminal.
  - apply stale_follows.
Qed.
End Claims.

(** ** Crash recovery *)

(** What the reclaim makes of one row. *)
Definition reclaim_row (max_attempts : Z) (now : string) (r : cmd_row) : cmd_row :=
  if has_status PROCESSING r then
    if (max_attempts <=? cr_attempts r)%Z
    then set_terminal "failed" (Some now) (Some (poison_text max_attempts)) r
    else set_attempts "pending" (cr_attempts r + 1) r
  else r.

Section Reclaim.
Context (max_attempts : Z) (now : string).
Notation reclaim := (reclaim_one max_attempts now).

(** One orphan's update, on one row. *)
Definition reclaim_for (o r : cmd_row) : cmd_row :=
  if processing_row (cr_id o) r then
    if (max_attempts <=? cr_attempts o)%Z
    then set_terminal "failed" (Some now) (Some (poison_text max_attempts)) r
    else set_attempts "pending" (cr_attempts o + 1) r
  else r.

Lemma reclaim_one_table st o : rc_table (reclaim st o) = map (reclaim_for o) (rc_table st).
Proof.
  unfold reclaim_one, update_where, reclaim_for. destruct (max_attempts <=? _)%Z; [|done].
  by destruct (1 <=? _)%nat.
Qed.

Lemma reclaim_tables os st :
  rc_table (fold_left reclaim os st) = map (fun r => fold_left (fun r o => reclaim_for o r) os r) (rc_table st).
Proof.
  revert st. induction os as [|o os IH]; intros st; simpl; [by rewrite map_id|].
  rewrite IH, reclaim_one_table, map_map. done.
Qed.

Lemma reclaim_for_other o r : has_status PROCESSING r = false \/ cr_id r <> cr_id o -> reclaim_for o r = r.
Proof.
  unfold reclaim_for, processing_row, has_cmd_id. intros [->|H]; [by rewrite andb_false_r|].
  by rewrite bool_decide_eq_false_2.
Qed.

Lemma reclaim_fold_other os r :
  has_status PROCESSING r = false \/ cr_id r ∉ map cr_id os ->
  fold_left (fun r o => reclaim_for o r) os r = r.
Proof.
  induction os as [|o os IH]; simpl; [done|]. rewrite not_elem_of_cons. intros H.
  rewrite reclaim_for_other by (destruct H as [?|[? _]]; auto). apply IH. tauto.
Qed.

Lemma reclaim_fold_self os r : r ∈ os -> NoDup (map cr_id os) -> has_status PROCESSING r = true ->
  fold_left (fun r o => reclaim_for o r) os r = reclaim_row max_attempts now r.
Proof.
  intros Hin. induction os as [|o os IH]; simpl; [by apply elem_of_nil in Hin|].
  rewrite NoDup_cons. intros [Hni Hn] Hp. apply elem_of_cons in Hin as [<-|Hin].
  - assert (reclaim_for r r = reclaim_row max_attempts now r) as ->.
    { unfold reclaim_for, processing_row, has_cmd_id, reclaim_row. by rewrite bool_decide_eq_true_2, Hp. }
    apply reclaim_fold_other. right. unfold reclaim_row. rewrite Hp. by destruct (_ <=? _)%Z.
  - rewrite reclaim_for_other; [by apply IH|]. right. intros Heq. apply Hni. rewrite <- Heq.
    by apply list_elem_of_fmap_2.
Qed.

Lemma nodup_filter_ids p (t : table) : NoDup (map cr_id t) -> NoDup (map cr_id (List.filter p t)).
Proof.
  induction t as [|r t IH]; simpl; [done|]. rewrite NoDup_cons. intros [Hni Hn].
  destruct (p r); simpl; [|by apply IH]. rewrite NoDup_cons. split; [|by apply IH].
  intros (x & Hx & [Hin _]%list_elem_of_In%filter_In)%list_elem_of_fmap. apply Hni. rewrite Hx.
  by apply list_elem_of_fmap_2, list_elem_of_In.
Qed.

Lemma reclaim_fold_table t : NoDup (map cr_id t) ->
  rc_table (fold_left reclaim (List.filter (has_status PROCESSING) t) (mkReclaim t 0 0 [])) =
    map (reclaim_row max_attempts now) t.
Proof.
  intros Hn. rewrite reclaim_tables. apply map_ext_in. intros r Hr.
  destruct (has_status PROCESSING r) eqn:E.
  - apply reclaim_fold_self; [|by apply nodup_filter_ids|done]. by apply list_elem_of_In, filter_In.
  - rewrite reclaim_fold_other by auto. unfold reclaim_row. by rewrite E.
Qed.

Definition poison (r : cmd_row) : bool := (max_attempts <=? cr_attempts r)%Z.

Lemma reclaim_counts os st :
  NoDup (map cr_id os) -> (forall o, o ∈ os -> o ∈ rc_table st /\ has_status PROCESSING o = true) ->
  let st' := fold_left reclaim os st in
  requeued st' = (requeued st + length (List.filter (fun o => negb (poison o)) os))%nat /\
  poisoned st' = (poisoned st + length (List.filter poison os))%nat /\
  poison_failures st' = poison_failures st.
Proof.
  revert st. induction os as [|o os IH]; intros st Hn Hin; simpl; [by rewrite !Nat.add_0_r|].
  apply NoDup_cons in Hn as [Hni Hn]. destruct (Hin o) as [Ho Hp]; [by left|].
  destruct (IH (reclaim st o) Hn) as (-> & -> & ->).
  - intros x Hx. split; [|by apply Hin; right]. rewrite reclaim_one_table.
    apply list_elem_of_fmap. exists x. split; [|by apply Hin; right]. symmetry.
    apply reclaim_for_other. right. intros Heq. apply Hni. change (cr_id o ∈ map cr_id os). rewrite <- Heq.
    by apply list_elem_of_fmap_2.
  - assert ((1 <=? rowcount (processing_row (cr_id o)) (rc_table st))%nat = true) as H1.
    { pose proof (rowcount_existsb (processing_row (cr_id o)) (rc_table st)) as Hc.
      assert (existsb (processing_row (cr_id o)) (rc_table st) = true) as Hex.
      { apply existsb_exists. exists o. split; [by apply list_elem_of_In|].
        unfold processing_row, has_cmd_id. by rewrite bool_decide_eq_true_2, Hp. }
      rewrite Hex in Hc. apply Nat.eqb_neq in Hc. apply Nat.leb_le. lia. }
    unfold reclaim_one. fold (poison o). rewrite H1. destruct (poison o); simpl; split_and!; lia || done.
Qed.
End Reclaim.

Lemma find_nodup c r (t : table) : NoDup (map cr_id t) -> r ∈ t -> cr_id r = c ->
  List.find (has_cmd_id c) t = Some r.
Proof.
  intros Hn Hin <-. induction t as [|x t IH]; simpl in *; [by apply elem_of_nil in Hin|].
  apply NoDup_cons in Hn as [Hni Hn]. unfold has_cmd_id at 1.
  apply elem_of_cons in Hin as [->|Hin]; [by rewrite bool_decide_eq_true_2|].
  rewrite bool_decide_eq_false_2; [by apply IH|]. intros He. apply Hni. rewrite He.
  by apply list_elem_of_fmap_2.
Qed.

Lemma map_reclaim_ids max_attempts now t : map cr_id (map (reclaim_row max_attempts now) t) = map cr_id t.
Proof.
  rewrite map_map. apply map_ext. intros r. unfold reclaim_row.
  by destruct (has_status PROCESSING r), (max_attempts <=? cr_attempts r)%Z.
Qed.

Lemma find_reclaim c max_attempts now t :
  List.find (has_cmd_id c) (map (reclaim_row max_attempts now) t) =
    option_map (reclaim_row max_attempts now) (List.find (has_cmd_id c) t).
Proof.
  induction t as [|r t IH]; [done|]. simpl.
  assert (has_cmd_id c (reclaim_row max_attempts now r) = has_cmd_id c r) as ->.
  { unfold reclaim_row, has_cmd_id. by destruct (has_status PROCESSING r), (max_attempts <=? cr_attempts r)%Z. }
  by destruct (has_cmd_id c r).
Qed.

(** The reclaim makes a command pending only by using up one of its requeues. *)
Lemma reclaim_pends c now t : NoDup (map cr_id t) ->
  let t' := map (reclaim_row MAX_RECLAIM_ATTEMPTS now) t in
  (room_of c t' <= room_of c t)%nat /\
  (pends c t' = true -> pends c t = true \/ (S (room_of c t') = room_of c t)%nat).
Proof.
  intros Hn t'. unfold room_of. subst t'. rewrite find_reclaim. split.
  - destruct (List.find _ t) as [r|]; [|done]. simpl. unfold reclaim_row.
    destruct (has_status PROCESSING r), (MAX_RECLAIM_ATTEMPTS <=? cr_attempts r)%Z; simpl; unfold MAX_RECLAIM_ATTEMPTS; lia.
  - unfold pends. intros (r' & (r & <- & Hr)%in_map_iff & Hp)%existsb_exists.
    unfold reclaim_row, pending_row in Hp. destruct (has_status PROCESSING r) eqn:E.
    + right. destruct (_ <=? cr_attempts r)%Z eqn:El; [by apply andb_true_iff in Hp as [_ ?]|].
      apply andb_true_iff in Hp as [Hid%bool_decide_eq_true _]. simpl in Hid.
      rewrite (find_nodup c r) by (done || by apply list_elem_of_In). simpl. unfold reclaim_row.
      rewrite E, El. simpl. unfold MAX_RECLAIM_ATTEMPTS in *. apply Z.leb_gt in El. lia.
    + left. apply existsb_exists. exists r. by split.
Qed.

Section Bounds.
Context {B : Type} `{!Supabase B} {Laws : SupabaseLaws B}.
Implicit Types w : bus B.

Lemma reclaim_local now w : NoDup (map cr_id (local w)) ->
  (reclaim_orphaned_processing_commands MAX_RECLAIM_ATTEMPTS now w).2 =
    set_local (map (reclaim_row MAX_RECLAIM_ATTEMPTS now) (local w)) w.
Proof. intros Hn. unfold reclaim_orphaned_processing_commands. cbn. by rewrite reclaim_fold_table. Qed.

Lemma reclaim_step c now w : ready w ->
  let w' := (cmd_step w (EvReclaim now)).2 in
  ready w' /\ (room c w' <= room c w)%nat /\
  (pend c w' = true -> pend c w = true \/ S (room c w') = room c w).
Proof.
  intros [Hu Hn] w'. subst w'. cbn [cmd_step snd]. rewrite reclaim_local by done.
  destruct (reclaim_pends c now (local w) Hn) as [Hr Hp].
  split; [split; [done|]|split; [done|]].
  - cbn. by rewrite map_reclaim_ids.
  - rewrite pend_set_local. intros [H|H]%orb_true_iff; [left; unfold pend; by rewrite H|].
    destruct (Hp H) as [H'|H']; [left; unfold pend; by rewrite H', orb_true_r|by right].
Qed.

Lemma reclaims_cons e evs : reclaims (e :: evs) = (Nat.b2n (is_reclaim e) + reclaims evs)%nat.
Proof. unfold reclaims. simpl. by destruct (is_reclaim e). Qed.

Lemma times_claimed_cons c w e evs :
  times_claimed c w (e :: evs) =
    (count_occ String.string_dec (cmd_step w e).1 c + times_claimed c (cmd_step w e).2 evs)%nat.
Proof. unfold times_claimed. cbn [claims]. destruct (cmd_step w e). apply count_occ_app. Qed.

Lemma claims_bound c evs w : ready w -> Forall (fun e => enqueues c e = false) evs ->
  (times_claimed c w evs <= Nat.b2n (pend c w) + Nat.min (reclaims evs) (room c w))%nat.
Proof.
  intros Hr He. revert w Hr. induction He as [|e evs He _ IH]; intros w Hr; [unfold times_claimed; simpl; lia|].
  rewrite reclaims_cons, times_claimed_cons. destruct (is_reclaim e) eqn:Ei.
  - destruct e; try done. destruct (reclaim_step c now w Hr) as (Hr' & Hroom & Hp).
    specialize (IH _ Hr'). change (cmd_step w (EvReclaim now)).1 with (@nil string).
    set (w' := (cmd_step w (EvReclaim now)).2) in *. cbn [count_occ].
    destruct (pend c w'); [destruct (Hp eq_refl) as [H|H]; rewrite ?H in *|];
      destruct (pend c w); cbn [Nat.b2n] in *; lia.
  - pose proof (cmd_step_follows c w e He Ei Hr) as (Hr' & Hp & Hroom).
    specialize (IH _ Hr'). cbn [Nat.b2n] in *. lia.
Qed.

Lemma reclaims_none evs : Forall (fun e => is_reclaim e = false) evs -> reclaims evs = 0%nat.
Proof. unfold reclaims. induction 1 as [|e evs H _ IH]; simpl; [done|]. by rewrite H. Qed.
End Bounds.

(** ** Properties *)

(** C10: Bounded re-fire: while Supabase answers (or is not configured) and no mirror of a
    hosted claim is refused by SQLite, along any history of claims, emergency polls,
    terminal marks, mirrors, enqueues of other ids, expiries, retirements and crash
    recoveries, a command is claimed at most once, plus once for every reclaim that had
    one of its three requeues left. *)
Theorem claims_bounded {B} `{!Supabase B} {Laws : SupabaseLaws B} c (w : bus B) evs :
  bus_up w -> NoDup (map cr_id (local w)) -> Forall (fun e => enqueues c e = false) evs ->
  (times_claimed c w evs <= Nat.b2n (pend c w) + Nat.min (reclaims evs) (room c w))%nat.
Proof. intros Hu Hn He. by apply claims_bound. Qed.

Definition flatten_row : cmd_row :=
  mkRow "cmd-1" "FLATTEN_AND_HALT" [] "pending" (Some "ops") None None "2026-07-06T14:30:00+00:00" None 0 None.
Definition local_bus : bus hosted := mkBus None [flatten_row] [].

(** A command on the local table only, whose process dies after every claim: it
    is claimed four times, then dead-lettered. *)
Definition crash_loop : list cmd_event :=
  [EvClaim "cmd-1" "t1"; EvReclaim "t2"; EvClaim "cmd-1" "t3"; EvReclaim "t4"; EvClaim "cmd-1" "t5";
   EvReclaim "t6"; EvEmergency 16 "t7"; EvReclaim "t8"; EvClaim "cmd-1" "t9"].

Lemma claims_bounded_witness :
  times_claimed "cmd-1" local_bus crash_loop = 4%nat /\
  (times_claimed "cmd-1" local_bus crash_loop <=
     Nat.b2n (pend "cmd-1" local_bus) + Nat.min (reclaims crash_loop) (room "cmd-1" local_bus))%nat.
Proof.
  split; [vm_compute; reflexivity|].
  apply claims_bounded; [split; [exact I|constructor]|apply NoDup_singleton|repeat constructor].
Defined.

(** C1: Exactly once across both buses, while Supabase answers (or is not configured) and
    no mirror of a hosted claim is refused by SQLite: a claim succeeds if and only if the
    authoritative copy (the hosted one where it exists) is pending; it is then the only
    claim of the command along any history that neither enqueues its id nor recovers from
    a crash; a failed claim changes neither table. *)
Theorem claim_exactly_once {B} `{!Supabase B} {Laws : SupabaseLaws B} c now (w : bus B) evs :
  bus_up w -> NoDup (map cr_id (local w)) ->
  Forall (fun e => enqueues c e = false /\ is_reclaim e = false) evs ->
  let '(ok, w') := try_claim_command c now w in
  ok = claimable c w /\
  (ok = true -> times_claimed c w (EvClaim c now :: evs) = 1%nat) /\
  (ok = false -> local w' = local w /\ cloud_table w' = cloud_table w).
Proof.
  intros Hu Hn He. unfold times_claimed. cbn [claims cmd_step].
  destruct (try_claim_ok c now w Hu) as (H1 & Hf & H2 & H3).
  destruct (try_claim_command c now w) as [ok w']. cbn [fst snd] in *.
  split; [done|]. split; [|done]. intros ->.
  destruct (Hf c (conj Hu Hn)) as (Hr & _ & _).
  assert (times_claimed c w' evs <= 0)%nat as Hb.
  { etrans; [apply claims_bound; [done|]|].
    - eapply Forall_impl; [done|]. by intros ? [].
    - rewrite H2, reclaims_none by done || (eapply Forall_impl; [done|]; by intros ? []). simpl. lia. }
  unfold times_claimed in Hb. simpl. destruct (String.string_dec c c); [lia|done].
Qed.

(** The command is on both buses, and two consumers race for it. *)
Definition dual_bus : bus hosted := mkBus (Some (mkHosted [flatten_row] [])) [flatten_row] [].
Definition race : list cmd_event :=
  [EvMirror 500; EvClaim "cmd-1" "t2"; EvCompleted "cmd-1" "t3"; EvMirror 500; EvEmergency 16 "t4"].

Lemma claim_exactly_once_witness :
  times_claimed "cmd-1" dual_bus (EvClaim "cmd-1" "t1" :: race) = 1%nat.
Proof.
  refine (proj1 (proj2 (claim_exactly_once "cmd-1" "t1" dual_bus race _ _ _)) _);
    [split; constructor|apply NoDup_singleton|repeat constructor|reflexivity].
Defined.

(** When Supabase does not answer the compare-and-set and the lookup that
    follows it, the claim falls back to the local copy, and the hosted copy is
    claimed again at the next poll. *)
Lemma claim_twice_under_faults :
  times_claimed "cmd-1"
    (mkBus (Some (mkHosted [flatten_row] [Some (false, "timeout"); Some (false, "timeout")])) [flatten_row] [])
    [EvClaim "cmd-1" "t1"; EvClaim "cmd-1" "t2"] = 2%nat.
Proof. vm_compute. reflexivity. Qed.

(** When SQLite refuses the mirror of a hosted claim, nothing says so, and the mirror job
    writes the local copy, still pending, over the hosted one: the command is claimed
    again, with Supabase answering all along. *)
Lemma claim_twice_after_a_refused_mirror :
  times_claimed "cmd-1" (mkBus (Some (mkHosted [flatten_row] [])) [flatten_row] [true])
    [EvClaim "cmd-1" "t1"; EvMirror 500; EvEmergency 16 "t2"] = 2%nat.
Proof. vm_compute. reflexivity. Qed.

(** Crash recovery reads the local table only: once a command that lives on
    Supabase alone has been claimed, no reclaim, poll or mirror ever lets anyone
    claim it again; a process that dies while executing it leaves it unexecuted. *)
Theorem hosted_orphan_never_refires {B} `{!Supabase B} {Laws : SupabaseLaws B} c now (w : bus B) evs :
  bus_up w -> NoDup (map cr_id (local w)) -> existsb (has_cmd_id c) (local w) = false ->
  Forall (fun e => enqueues c e = false) evs ->
  (try_claim_command c now w).1 = true ->
  times_claimed c (try_claim_command c now w).2 evs = 0%nat.
Proof.
  intros Hu Hn Hl He Hok. destruct (try_claim_ok c now w Hu) as (_ & Hf & Hp & _).
  destruct (Hf c (conj Hu Hn)) as (Hr & _ & Hroom).
  pose proof (claims_bound c evs _ Hr He) as Hb. rewrite Hp, Hroom in Hb by done.
  assert (room c w = 0%nat) as H0.
  { unfold room, room_of. destruct (List.find (has_cmd_id c) (local w)) as [r|] eqn:E; [|done].
    apply find_some in E as [Hin Hid]. assert (existsb (has_cmd_id c) (local w) = true); [|congruence].
    apply existsb_exists. eauto. }
  simpl in Hb. lia.
Qed.

Definition hosted_bus : bus hosted :=
  (enqueue_control_command FLATTEN_AND_HALT [] (Some "ops") None "cmd-1" "2026-07-06T14:30:00+00:00"
     (mkBus (Some (mkHosted [] [])) [] [])).2.

Lemma hosted_orphan_never_refires_witness :
  (try_claim_command "cmd-1" "t1" hosted_bus).1 = true /\
  times_claimed "cmd-1" (try_claim_command "cmd-1" "t1" hosted_bus).2
    [EvReclaim "t2"; EvClaim "cmd-1" "t3"; EvMirror 500; EvReclaim "t4"; EvEmergency 16 "t5"] = 0%nat.
Proof.
  split; [vm_compute; reflexivity|].
  apply hosted_orphan_never_refires; [split; constructor|constructor|reflexivity|repeat constructor|reflexivity].
Defined.

(** Crash recovery is exact: every row in [processing] is requeued with one more
    attempt or, with its attempts used up, dead-lettered; no other row changes; the
    counters are the numbers of rows requeued and dead-lettered, no dead-letter
    write is ever lost, and no row is left in [processing]. *)
Theorem reclaim_exact {B} max_attempts now (w : bus B) :
  NoDup (map cr_id (local w)) ->
  let '(st, w') := reclaim_orphaned_processing_commands max_attempts now w in
  cloud w' = cloud w /\
  local w' = map (reclaim_row max_attempts now) (local w) /\
  requeued st = rowcount (fun r => has_status PROCESSING r && negb (poison max_attempts r)) (local w) /\
  poisoned st = rowcount (fun r => has_status PROCESSING r && poison max_attempts r) (local w) /\
  poison_failures st = [] /\
  existsb (has_status PROCESSING) (local w') = false.
Proof.
  intros Hn. unfold reclaim_orphaned_processing_commands. cbn [cloud local set_local].
  rewrite reclaim_fold_table by done.
  destruct (reclaim_counts max_attempts now (List.filter (has_status PROCESSING) (local w))
    (mkReclaim (local w) 0 0 [])) as (-> & -> & ->); [by apply nodup_filter_ids| |].
  { by intros o [? ?]%list_elem_of_In%filter_In; split; [apply list_elem_of_In|]. }
  assert (forall p q (t : table), length (List.filter q (List.filter p t)) = rowcount (fun r => p r && q r) t) as Hff.
  { intros p q t. unfold rowcount. induction t as [|r t IH]; simpl; [done|].
    destruct (p r); simpl; [|done]. destruct (q r); simpl; by rewrite IH. }
  rewrite !Hff. split_and!; try done.
  clear. induction (local w) as [|r t IH]; [done|]. simpl. rewrite IH, orb_false_r.
  unfold reclaim_row. destruct (has_status PROCESSING r) eqn:E; [|done]. by destruct (_ <=? _)%Z.
Qed.

Lemma reclaim_exact_witness :
  requeued (reclaim_orphaned_processing_commands 3 "t2"
    (try_claim_command "cmd-1" "t1" local_bus).2).1 = 1%nat /\
  poison_failures (reclaim_orphaned_processing_commands 3 "t2"
    (try_claim_command "cmd-1" "t1" local_bus).2).1 = [].
Proof.
  split; [vm_compute; reflexivity|].
  refine (proj1 (proj2 (proj2 (proj2 (proj2 (reclaim_exact 3 "t2" (try_claim_command "cmd-1" "t1" local_bus).2 _)))))).
  apply NoDup_singleton.
Defined.

(** *** Protective commands do not expire *)

Lemma command_type_of_value t : command_type_of (command_type_value t) = Some t.
Proof. by destruct t. Qed.

(** The type and expiry columns, which only an insertion writes. *)
Definition ttl_columns (t : table) : list (string * option string) :=
  map (fun r => (cr_type r, cr_expires r)) t.

Lemma ttl_update p f t :
  (forall r, cr_type (f r) = cr_type r /\ cr_expires (f r) = cr_expires r) ->
  ttl_columns (update_where p f t) = ttl_columns t.
Proof.
  intros Hf. induction t as [|r t IH]; [done|]. simpl. rewrite IH. f_equal. destruct (p r); [|done].
  by destruct (Hf r) as [-> ->].
Qed.

Lemma ttl_fold {X} (g : table -> X -> table) l t :
  (forall t x, ttl_columns (g t x) = ttl_columns t) -> ttl_columns (fold_left g l t) = ttl_columns t.
Proof. intros Hg. revert t. induction l as [|x l IH]; intros t; simpl; [done|]. by rewrite IH. Qed.

Section Expiry.
Context {B : Type} `{!Supabase B}.
Implicit Types w : bus B.

Definition safe_ttl (t : table) : Prop :=
  Forall (fun te => forall ty, command_type_of te.1 = Some ty -> is_emergency ty = true -> te.2 = None)
    (ttl_columns t).

Lemma enqueue_local_safe t body by_ key id now ex w : safe_ttl (local w) ->
  safe_ttl (local (enqueue_control_command_local t body by_ key id now ex w).2).
Proof.
  intros Hs. unfold enqueue_control_command_local.
  destruct (_ && is_emergency t) eqn:E; [done|]. destruct (insert_row _ (local w)) eqn:Ei; [|done].
  apply insert_row_some in Ei as [-> _]. cbn. unfold safe_ttl, ttl_columns. rewrite map_app.
  apply Forall_app. split; [done|]. apply Forall_singleton. simpl. rewrite command_type_of_value.
  intros ty [= <-] Hem. rewrite Hem, andb_true_r in E. by destruct ex.
Qed.

Lemma fetch_by_key_local key w : local (fetch_command_by_idempotency_key key w).2 = local w.
Proof.
  unfold fetch_command_by_idempotency_key. destruct (cloud w) as [b|]; [|done].
  destruct (sb_select _ 1 b) as [[[|row ?]|?] b']; try done. by destruct (row_to_command row).
Qed.

Lemma enqueue_safe t body by_ key id now w : safe_ttl (local w) ->
  safe_ttl (local (enqueue_control_command t body by_ key id now w).2).
Proof.
  intros Hs. unfold enqueue_control_command.
  destruct (cloud w) as [b|]; [|by apply enqueue_local_safe].
  destruct (sb_insert _ b) as [resp b']. set (w' := set_cloud b' w).
  assert (safe_ttl (local w')) as Hs' by done. clearbody w'. clear Hs.
  destruct resp as [data|e]; [destruct (row_to_command _); [done|]|];
    (destruct key as [k|]; [|by apply enqueue_local_safe]);
    (destruct (_ && _); [|by apply enqueue_local_safe]);
    pose proof (fetch_by_key_local k w') as Hl;
    destruct (fetch_command_by_idempotency_key k w') as [[[x|]|] w'']; cbn [snd] in *;
    first [by rewrite Hl | apply enqueue_local_safe; by rewrite Hl].
Qed.

Definition same_ttl w w' : Prop := ttl_columns (local w') = ttl_columns (local w).

Lemma transition_ttl c now w : same_ttl w (transition_local_pending_to_processing c now w).2.
Proof. unfold transition_local_pending_to_processing. destruct (mirror_faults w) as [|[] ?]; (done || by apply ttl_update). Qed.

Lemma try_claim_ttl c now w : same_ttl w (try_claim_command c now w).2.
Proof.
  unfold try_claim_command, try_claim_local.
  destruct (cloud w) as [b|]; [|by apply ttl_update].
  destruct (sb_update _ _ b) as [[[|]|] b1]; [|apply (transition_ttl c now (set_cloud b1 w))|];
    (destruct (sb_select _ 1 b1) as [[[|]|] b2]; try done);
    by apply ttl_update.
Qed.

Lemma claim_emergencies_ttl now cs w : same_ttl w (claim_emergencies now cs w).2.
Proof.
  revert w. induction cs as [|x cs IH]; intros w; simpl; [done|].
  destruct (negb _); [apply IH|]. pose proof (try_claim_ttl (command_id x) now w) as Ht.
  destruct (try_claim_command (command_id x) now w) as [ok w1]. specialize (IH w1).
  destruct (claim_emergencies now cs w1) as [claimed w2]. unfold same_ttl in *. cbn in *. congruence.
Qed.

Lemma fetch_pending_local limit w : local (fetch_pending_commands limit w).2 = local w.
Proof.
  unfold fetch_pending_commands. destruct (cloud w) as [b|]; [|done].
  by destruct (run_with_supabase_retry _ 3 b).
Qed.

Lemma mirror_rows_local rows w : local (mirror_rows rows w).2 = local w.
Proof.
  revert w. induction rows as [|r rows IH]; intros w; simpl; [done|].
  destruct (cloud w) as [b|]; [|done]. destruct (sb_upsert r b) as [resp b'].
  specialize (IH (set_cloud b' w)). by destruct (mirror_rows rows (set_cloud b' w)).
Qed.

Lemma reclaim_one_ttl m now st o : ttl_columns (rc_table (reclaim_one m now st o)) = ttl_columns (rc_table st).
Proof.
  unfold reclaim_one. destruct (_ <=? _)%Z; [|by apply ttl_update].
  destruct (1 <=? _)%nat; by apply ttl_update.
Qed.

Lemma reclaim_fold_ttl m now os st :
  ttl_columns (rc_table (fold_left (reclaim_one m now) os st)) = ttl_columns (rc_table st).
Proof. revert st. induction os as [|o os IH]; intros st; simpl; [done|]. by rewrite IH, reclaim_one_ttl. Qed.

Lemma mark_terminal_ttl c now st err w : same_ttl w (mark_terminal c now st err w).2.
Proof.
  unfold mark_terminal, same_ttl.
  destruct (cloud w) as [b|]; [destruct (sb_update _ _ b) as [[[|]|] b']|]; by apply ttl_update.
Qed.

Lemma mark_processing_ttl c now w : same_ttl w (mark_command_processing c now w).
Proof.
  unfold mark_command_processing, same_ttl.
  destruct (cloud w) as [b|]; [destruct (sb_update _ _ b) as [[] b']|]; (done || by apply ttl_update).
Qed.

Lemma cmd_step_safe w e : safe_ttl (local w) -> safe_ttl (local (cmd_step w e).2).
Proof.
  assert (forall w', same_ttl w w' -> safe_ttl (local w) -> safe_ttl (local w')) as H
    by (unfold safe_ttl; by intros w' ->).
  destruct e; cbn [cmd_step snd]; [apply enqueue_safe|apply enqueue_local_safe|apply H..].
  - pose proof (try_claim_ttl c now w). by destruct (try_claim_command c now w).
  - unfold fetch_and_claim_emergency_commands. pose proof (fetch_pending_local limit w) as Hl.
    destruct (fetch_pending_commands limit w) as [[cs|] w1]; cbn in Hl |- *; unfold same_ttl; [|by rewrite Hl].
    pose proof (claim_emergencies_ttl now cs w1) as Hc. destruct (claim_emergencies now cs w1).
    unfold same_ttl in Hc. cbn in *. by rewrite Hc, Hl.
  - apply mark_processing_ttl.
  - apply mark_terminal_ttl.
  - apply mark_terminal_ttl.
  - unfold mirror_local_commands_to_supabase, same_ttl. destruct (cloud w); [|done].
    by rewrite mirror_rows_local.
  - unfold same_ttl, reclaim_orphaned_processing_commands. cbn. by rewrite reclaim_fold_ttl.
  - by apply ttl_update.
  - unfold same_ttl, retire_stale_processing_orphans.
    pose proof (retire_one_fold reason now (List.filter (stale cutoff t) (local w)) 0 (local w)) as Hr.
    destruct (fold_left _ _ _) as [n tb]. cbn [snd] in *. subst tb. apply ttl_fold.
    intros. by apply ttl_update.
Qed.
End Expiry.

(** A protective command never expires: giving [FLATTEN_AND_HALT] or
    [ENGAGE_KILL_SWITCH] an expiry raises and stages nothing, and along every
    history of the bus, whatever Supabase answers, no such command on the local
    table carries one, so that no expiry sweep retires it. *)
Theorem emergency_never_expires {B} `{!Supabase B} (cl : option B) faults evs now t body by_ key id at_ e :
  let w := runs (fun w e => (cmd_step w e).2) (mkBus cl [] faults) evs in
  (is_emergency t = true ->
     enqueue_control_command_local t body by_ key id at_ (Some e) w = (Raise "ValueError", w)) /\
  (forall r ty, r ∈ local w -> command_type_of (cr_type r) = Some ty -> is_emergency ty = true ->
     cr_expires r = None /\ r ∈ local (retire_expired_commands now w).2).
Proof.
  intros w. split; [unfold enqueue_control_command_local; by intros ->|].
  assert (safe_ttl (local w)) as Hs.
  { apply (runs_invariant (fun w e => (cmd_step w e).2) (fun w => safe_ttl (local w))); [constructor|].
    intros. by apply cmd_step_safe. }
  intros r ty Hr Hty Hem.
  assert (cr_expires r = None) as Hex.
  { unfold safe_ttl, ttl_columns in Hs. rewrite Forall_forall in Hs.
    refine (Hs (cr_type r, cr_expires r) _ ty Hty Hem). apply list_elem_of_fmap. by exists r. }
  split; [done|]. cbn. apply list_elem_of_fmap. exists r. split; [|done].
  unfold expired. by rewrite Hex, andb_false_r.
Qed.
