(* ===== verification/ControlPlane.v ===== *)
(** * The control-plane supervisor

    [src/engine/control_plane.py]: the supervisor's states, and the runbooks it
    executes: run a worker, validate its payload, restore the last known good
    state once and retry, then release or block the live consumption of the
    result. The callbacks it is built with, the job table and the pager are
    operations of an environment [W], any of which may raise. *)

From stdpp Require Import base strings list relations.
From Stdlib Require Import ZArith Lia.
From S2P Require Import Prelude Dict Models.

Open Scope py_scope.

Inductive SupervisorState := INACTIVE | STARTING | RUNNING | SUP_DEGRADED | STOPPING | SUP_FAILED.
#[export] Instance SupervisorState_eq_dec : EqDecision SupervisorState.
Proof. solve_decision. Defined.

Definition SupervisorState_value (s : SupervisorState) : string :=
  match s with
  | INACTIVE => "inactive" | STARTING => "starting" | RUNNING => "running"
  | SUP_DEGRADED => "degraded" | STOPPING => "stopping" | SUP_FAILED => "failed"
  end.

Inductive CronLifecycleStage :=
  IDLE | SCHEDULED | DISPATCHED | EXECUTING | VALIDATING | STAGE_COMPLETED | STAGE_FAILED | ALERTED.
#[export] Instance CronLifecycleStage_eq_dec : EqDecision CronLifecycleStage.
Proof. solve_decision. Defined.

Inductive RunbookStep :=
  PRE_OPEN_HYDRATION | POST_CLOSE_RECONCILIATION | WEEKEND_PARAMETER_TUNER | WEEKLY_POLICY_SWAP.
#[export] Instance RunbookStep_eq_dec : EqDecision RunbookStep.
Proof. solve_decision. Defined.

Definition RunbookStep_value (s : RunbookStep) : string :=
  match s with
  | PRE_OPEN_HYDRATION => "PRE_OPEN_HYDRATION"
  | POST_CLOSE_RECONCILIATION => "POST_CLOSE_RECONCILIATION"
  | WEEKEND_PARAMETER_TUNER => "WEEKEND_PARAMETER_TUNER"
  | WEEKLY_POLICY_SWAP => "WEEKLY_POLICY_SWAP"
  end.

Definition RUNBOOK_JOB_ID (s : RunbookStep) : string :=
  match s with
  | PRE_OPEN_HYDRATION => "pre_open_readiness"
  | POST_CLOSE_RECONCILIATION => "post_close_reconciliation"
  | WEEKEND_PARAMETER_TUNER => "weekend_parameter_tuner"
  | WEEKLY_POLICY_SWAP => "weekly_policy_brain"
  end.

Definition RUNBOOK_RESTORE_ON_FAILURE (s : RunbookStep) : bool :=
  match s with
  | PRE_OPEN_HYDRATION | WEEKEND_PARAMETER_TUNER => true
  | POST_CLOSE_RECONCILIATION | WEEKLY_POLICY_SWAP => false
  end.

Definition ALLOWED_SUPERVISOR_TRANSITIONS (s : SupervisorState) : list SupervisorState :=
  match s with
  | INACTIVE => [STARTING]
  | STARTING => [RUNNING; SUP_FAILED]
  | RUNNING => [SUP_DEGRADED; STOPPING; SUP_FAILED]
  | SUP_DEGRADED => [RUNNING; STOPPING; SUP_FAILED]
  | STOPPING => [INACTIVE; SUP_FAILED]
  | SUP_FAILED => [INACTIVE; STARTING]
  end.

Definition run_payload : Type := list (string * json).

(** [payload[k] = v]. *)
Fixpoint set_key (k : string) (v : json) (p : run_payload) : run_payload :=
  match p with
  | [] => [(k, v)]
  | (k', v') :: rest => if bool_decide (k = k') then (k, v) :: rest else (k', v') :: set_key k v rest
  end.

Record RunbookExecutionResult := mkRunResult {
  rr_step : RunbookStep;
  rr_job_id : string;
  rr_stage : CronLifecycleStage;
  rr_success : bool;
  rr_validation_passed : bool;
  rr_payload : run_payload;
  rr_error : option string;
  rr_hooks : list string
}.

(** What pre-flight reconciliation returns, as far as the supervisor reads it. *)
Record recon_result := mkRecon { latched_soft_degrade : bool; failure_reason : string }.

(** The calls the supervisor makes to its surroundings, as they happen. *)
Inductive sup_event :=
  | CalledWorker
  | CalledValidator (p : run_payload)
  | CalledRestore
  | BlockedConsumption (reason : string)
  | ReleasedConsumption
  | RecordedJob (job status : string) (validation_passed : bool)
  | SentAlert (step error : string).

Section ControlPlane.
Context {W : Type}.

(** A callback: it may raise, and changes its surroundings. *)
Definition callback (A : Type) : Type := W -> result string A * W.

Record plane := mkPlane {
  workers : RunbookStep -> option (callback run_payload);
  validators : RunbookStep -> option (run_payload -> callback (bool * string));
  pre_hooks : RunbookStep -> list (string * callback unit);
  post_hooks : RunbookStep -> list (string * (run_payload -> callback run_payload));
  restore_on_failure : option (callback bool);
  on_block_consumption : option (string -> callback unit);
  on_release_consumption : option (callback unit);
  pre_flight_engine : option (callback recon_result);
  log_system_event : recon_result -> callback unit;
  upsert_maintenance_job_status : string -> string -> callback unit;
  dispatch_system_alert : RunbookStep -> string -> callback unit
}.

Record supervisor := mkSupervisor {
  sv_state : SupervisorState;
  sv_active : option RunbookStep;
  sv_stage : CronLifecycleStage;
  sv_pre_flight : option recon_result;
  sv_env : W;
  sv_hooks : list string;                  (* [ctx.hooks_executed] of the runbook *)
  sv_log : list sup_event;
  sv_visited : list SupervisorState       (* every state entered, oldest first *)
}.

Definition set_state (t : SupervisorState) (s : supervisor) : supervisor :=
  mkSupervisor t (sv_active s) (sv_stage s) (sv_pre_flight s) (sv_env s) (sv_hooks s) (sv_log s) (sv_visited s ++ [t]).
Definition set_active (a : option RunbookStep) (s : supervisor) : supervisor :=
  mkSupervisor (sv_state s) a (sv_stage s) (sv_pre_flight s) (sv_env s) (sv_hooks s) (sv_log s) (sv_visited s).
Definition put_stage (g : CronLifecycleStage) (s : supervisor) : supervisor :=
  mkSupervisor (sv_state s) (sv_active s) g (sv_pre_flight s) (sv_env s) (sv_hooks s) (sv_log s) (sv_visited s).
Definition put_pre_flight (r : recon_result) (s : supervisor) : supervisor :=
  mkSupervisor (sv_state s) (sv_active s) (sv_stage s) (Some r) (sv_env s) (sv_hooks s) (sv_log s) (sv_visited s).
Definition put_env (w : W) (evs : list sup_event) (s : supervisor) : supervisor :=
  mkSupervisor (sv_state s) (sv_active s) (sv_stage s) (sv_pre_flight s) w (sv_hooks s) (sv_log s ++ evs) (sv_visited s).
Definition put_hooks (hs : list string) (s : supervisor) : supervisor :=
  mkSupervisor (sv_state s) (sv_active s) (sv_stage s) (sv_pre_flight s) (sv_env s) hs (sv_log s) (sv_visited s).

Definition M (A : Type) : Type := py supervisor string A.

(** Call out, leaving [evs] in the history. *)
Definition call {A} (evs : list sup_event) (f : callback A) : M A :=
  fun s => let '(r, w) := f (sv_env s) in (r, put_env w evs s).

Definition call_opt (evs : list sup_event) (f : option (callback unit)) : M unit :=
  match f with Some f => call evs f | None => py_ret tt end.

Definition set_stage (g : CronLifecycleStage) : M unit := py_modify (put_stage g).

(** [transition(target)]. *)
Definition illegal_text (prior target : SupervisorState) : string :=
  String.append "illegal supervisor transition "
    (String.append (SupervisorState_value prior)
       (String.append " -> " (SupervisorState_value target))).

Definition sup_transition (target : SupervisorState) : M unit :=
  fun s =>
    if bool_decide (target <> sv_state s) &&
       negb (bool_decide (target ∈ ALLOWED_SUPERVISOR_TRANSITIONS (sv_state s)))
    then (Raise (illegal_text (sv_state s) target), s)
    else (Ok tt, set_state target s).

Context (P : plane).

Definition block (reason : string) : M unit :=
  call_opt [BlockedConsumption reason]
    (match on_block_consumption P with Some f => Some (f reason) | None => None end).
Definition release : M unit := call_opt [ReleasedConsumption] (on_release_consumption P).
Definition record_job (step : RunbookStep) (status : string) (passed : bool) : M unit :=
  call [RecordedJob (RUNBOOK_JOB_ID step) status passed]
    (upsert_maintenance_job_status P (RUNBOOK_JOB_ID step) status).
Definition alert_failure (step : RunbookStep) (error : string) : M unit :=
  call [SentAlert (RunbookStep_value step) error] (dispatch_system_alert P step error).

(** [execute_pre_flight_broker_reconciliation]. *)
Definition execute_pre_flight : M (option recon_result) :=
  match pre_flight_engine P with
  | None => py_ret None
  | Some engine =>
      let! r := call [] engine in
      let! _ := py_modify (put_pre_flight r) in
      let! _ := call [] (log_system_event P r) in
      let! _ := if latched_soft_degrade r then block (failure_reason r) else py_ret tt in
      py_ret (Some r)
  end.

(** [start(run_pre_flight=..)] and [stop]. *)
Definition start (run_pre_flight : bool) : M bool :=
  let! _ := sup_transition STARTING in
  let! r := if run_pre_flight then execute_pre_flight else py_ret None in
  match r with
  | Some r =>
      if latched_soft_degrade r
      then let! _ := sup_transition SUP_FAILED in py_ret false
      else let! _ := sup_transition RUNNING in py_ret true
  | None => let! _ := sup_transition RUNNING in py_ret true
  end.

Definition stop : M unit :=
  let! _ := sup_transition STOPPING in sup_transition INACTIVE.

(** [escalate_liquidation_race_failure]; [reason] is its formatted text. *)
Definition escalate_liquidation_race_failure (reason : string) : M unit :=
  let! _ := block reason in
  fun s => if bool_decide (sv_state s = RUNNING) then sup_transition SUP_DEGRADED s else (Ok tt, s).

(** [_run_structural_hooks] and its post form. *)
Definition note_hook (name : string) : M unit := py_modify (fun s => put_hooks (sv_hooks s ++ [name]) s).

Fixpoint run_hooks (hs : list (string * callback unit)) : M unit :=
  match hs with
  | [] => py_ret tt
  | (name, h) :: rest => let! _ := call [] h in let! _ := note_hook name in run_hooks rest
  end.

Fixpoint run_post_hooks (hs : list (string * (run_payload -> callback run_payload)))
    (p : run_payload) : M run_payload :=
  match hs with
  | [] => py_ret p
  | (name, h) :: rest => let! p := call [] (h p) in let! _ := note_hook name in run_post_hooks rest p
  end.

(** The result reads the stage the supervisor is in. *)
Definition run_result (step : RunbookStep) (ok : bool) (p : run_payload) (error : option string)
    : M RunbookExecutionResult :=
  fun s => (Ok (mkRunResult step (RUNBOOK_JOB_ID step) (sv_stage s) ok ok p error (sv_hooks s)), s).

(** [_fail_runbook]. *)
Definition fail_runbook (step : RunbookStep) (error : string) : M RunbookExecutionResult :=
  let! _ := block error in
  let! _ := sup_transition SUP_DEGRADED in
  let! _ := record_job step "error" false in
  let! _ := alert_failure step error in
  let! _ := set_stage ALERTED in
  run_result step false [] (Some error).

(** The restore of a step that has one. *)
Definition restore (step : RunbookStep) : option (callback bool) :=
  if RUNBOOK_RESTORE_ON_FAILURE step then restore_on_failure P else None.

(** The validation of a payload; when it fails and a restore succeeds, the
    worker and the validation once more. *)
Definition validate_with_restore (step : RunbookStep) (worker : callback run_payload)
    (validator : run_payload -> callback (bool * string)) (p : run_payload)
    : M (bool * string * run_payload) :=
  let! v := call [CalledValidator p] (validator p) in
  if v.1 then py_ret (true, v.2, p) else
  match restore step with
  | None => py_ret (false, v.2, p)
  | Some f =>
      let! restored := call [CalledRestore] f in
      if restored : bool then
        let! p2 := call [CalledWorker] worker in
        let p2 := set_key "revalidated_after_restore" (JBool true)
                    (set_key "lkg_restored" (JBool true) p2) in
        let! v2 := call [CalledValidator p2] (validator p2) in
        py_ret (v2.1, v2.2, p2)
      else py_ret (false, v.2, set_key "lkg_restored" (JBool false) p)
  end.

(** The [try] block of [execute_runbook]. *)
Definition runbook_body (step : RunbookStep) (worker : callback run_payload)
    (validator : run_payload -> callback (bool * string)) : M RunbookExecutionResult :=
  let! _ := run_hooks (pre_hooks P step) in
  let! _ := set_stage DISPATCHED in
  let! _ := set_stage EXECUTING in
  let! p := call [CalledWorker] worker in
  let! p := run_post_hooks (post_hooks P step) p in
  let! _ := set_stage VALIDATING in
  let! v := validate_with_restore step worker validator p in
  if v.1.1 then
    let! _ := release in
    let! _ := (fun s => if bool_decide (sv_state s = SUP_DEGRADED)
                        then sup_transition RUNNING s else (Ok tt, s)) in
    let! _ := record_job step "success" true in
    let! _ := set_stage STAGE_COMPLETED in
    run_result step true v.2 None
  else
    let! _ := block v.1.2 in
    let! _ := sup_transition SUP_DEGRADED in
    let! _ := record_job step "validation_failed" false in
    let! _ := alert_failure step v.1.2 in
    let! _ := set_stage ALERTED in
    run_result step false v.2 (Some v.1.2).

(** Its [except] block. *)
Definition runbook_except (step : RunbookStep) (exc : string) : M RunbookExecutionResult :=
  let! restored := match restore step with
                   | Some f => call [CalledRestore] f
                   | None => py_ret false
                   end in
  let! _ := block exc in
  let! _ := sup_transition SUP_DEGRADED in
  let! _ := record_job step "error" false in
  let! _ := alert_failure step exc in
  let! _ := set_stage STAGE_FAILED in
  run_result step false [("lkg_restored", JBool restored)] (Some exc).

(** Its [finally] block. *)
Definition runbook_finally (s : supervisor) : supervisor :=
  let s := set_active None s in
  if bool_decide (sv_stage s = STAGE_FAILED) || bool_decide (sv_stage s = ALERTED)
  then s else put_stage IDLE s.

Definition execute_runbook (step : RunbookStep) : M RunbookExecutionResult :=
  let! _ := py_modify (fun s => put_hooks [] (set_active (Some step) s)) in
  let! _ := set_stage SCHEDULED in
  let! s := py_get in
  if negb (bool_decide (sv_state s = RUNNING) || bool_decide (sv_state s = SUP_DEGRADED))
  then fail_runbook step (String.append "supervisor not runnable state=" (SupervisorState_value (sv_state s)))
  else
    match workers P step, validators P step with
    | Some worker, Some validator =>
        fun s =>
          let '(r, s') := match runbook_body step worker validator s with
                          | (Raise e, s') => runbook_except step e s'
                          | done => done
                          end in
          (r, runbook_finally s')
    | _, _ => fail_runbook step (String.append "missing worker or validator for " (RunbookStep_value step))
    end.
End ControlPlane.
Arguments plane W : clear implicits.
Arguments supervisor W : clear implicits.

(** ** What a stretch of a runbook does *)

Definition is_worker (e : sup_event) : bool := match e with CalledWorker => true | _ => false end.
Definition is_restore (e : sup_event) : bool := match e with CalledRestore => true | _ => false end.
Definition occurs (p : sup_event -> bool) (evs : list sup_event) : nat := length (List.filter p evs).

Lemma occurs_app p evs evs' : occurs p (evs ++ evs') = (occurs p evs + occurs p evs')%nat.
Proof. unfold occurs. by rewrite List.filter_app, length_app. Qed.

(** The consumption gate after a history: its last block or release. *)
Definition gate_after (g : option bool) (e : sup_event) : option bool :=
  match e with
  | BlockedConsumption _ => Some false
  | ReleasedConsumption => Some true
  | _ => g
  end.
Definition gate (evs : list sup_event) : option bool := fold_left gate_after evs None.

Lemma gate_fold g evs : fold_left gate_after evs g = match gate evs with None => g | g' => g' end.
Proof.
  unfold gate. revert g. induction evs as [|e evs IH]; intros g; simpl; [done|].
  rewrite IH, (IH (gate_after None e)). by destruct (fold_left gate_after evs None), e.
Qed.

Lemma gate_app evs evs' : gate (evs ++ evs') = match gate evs' with None => gate evs | g => g end.
Proof. unfold gate at 1. rewrite fold_left_app. apply gate_fold. Qed.

Section Runbooks.
Context {W : Type} (P : plane W).
Implicit Types s : supervisor W.

(** From [s] to [s'] the supervisor stayed in its state and made the calls
    [evs], none of which moved the gate. *)
Record quiet (n_workers n_restores : nat) s s' : Prop := {
  q_state : sv_state s' = sv_state s;
  q_calls : exists evs, sv_log s' = sv_log s ++ evs /\ gate evs = None /\
    (occurs is_worker evs <= n_workers)%nat /\ (occurs is_restore evs <= n_restores)%nat
}.

Lemma quiet_trans n1 r1 n2 r2 s1 s2 s3 :
  quiet n1 r1 s1 s2 -> quiet n2 r2 s2 s3 -> quiet (n1 + n2) (r1 + r2) s1 s3.
Proof.
  intros [H1 (e1 & L1 & G1 & W1 & R1)] [H2 (e2 & L2 & G2 & W2 & R2)]. split; [congruence|].
  exists (e1 ++ e2). rewrite L2, L1, <- app_assoc, gate_app, G2, !occurs_app. split_and!; [done..|lia|lia].
Qed.

Lemma quiet_local s s' : sv_state s' = sv_state s -> sv_log s' = sv_log s -> quiet 0 0 s s'.
Proof. intros H L. split; [done|]. exists []. by rewrite L, app_nil_r. Qed.

Lemma quiet_call {A} evs (f : callback A) s :
  gate evs = None ->
  quiet (occurs is_worker evs) (occurs is_restore evs) s (call evs f s).2.
Proof. intros Hg. unfold call. destruct (f (sv_env s)) as [r w]. split; [done|]. exists evs. by split_and!. Qed.

Lemma quiet_refl s : quiet 0 0 s s.
Proof. by apply quiet_local. Qed.

Lemma quiet_weaken n r n' r' s s' : quiet n r s s' -> (n <= n')%nat -> (r <= r')%nat -> quiet n' r' s s'.
Proof. intros [? (evs & ? & ? & ? & ?)] ? ?. split; [done|]. exists evs. split_and!; done || lia. Qed.

(** Sequencing. *)
Lemma quiet_bind {A B} n1 r1 n2 r2 (m : M A) (k : A -> M B) s :
  quiet n1 r1 s (m s).2 ->
  (forall a, (m s).1 = Ok a -> quiet n2 r2 (m s).2 (k a (m s).2).2) ->
  quiet (n1 + n2) (r1 + r2) s (py_bind m k s).2.
Proof.
  intros Hm Hk. unfold py_bind. destruct (m s) as [[a|e] s'] eqn:E; cbn in *.
  - eapply quiet_trans; [done|]. by apply Hk.
  - destruct Hm as [? (evs & ? & ? & ? & ?)]. split; [done|]. exists evs. split_and!; [done..|lia|lia].
Qed.

Lemma quiet_hooks hs s : quiet 0 0 s (run_hooks hs s).2.
Proof.
  revert s. induction hs as [|[name h] hs IH]; intros s; simpl; [apply quiet_refl|].
  apply (quiet_bind 0 0 0 0); [by apply (quiet_call [])|]. intros _ _.
  apply (quiet_bind 0 0 0 0); [by apply quiet_local|]. intros _ _. apply IH.
Qed.

Lemma quiet_post_hooks hs p s : quiet 0 0 s (run_post_hooks hs p s).2.
Proof.
  revert p s. induction hs as [|[name h] hs IH]; intros p s; simpl; [apply quiet_refl|].
  apply (quiet_bind 0 0 0 0); [by apply (quiet_call [])|]. intros p' _.
  apply (quiet_bind 0 0 0 0); [by apply quiet_local|]. intros _ _. apply IH.
Qed.

(** The payload a validation answers for: the validator's last word on it. *)
Definition judged (validator : run_payload -> @callback W (bool * string)) (p : run_payload) (ok : bool)
    (reason : string) : Prop :=
  exists p0 w, (validator p0 w).1 = Ok (ok, reason) /\ (ok = true -> p0 = p).

Lemma validate_spec step worker validator p s :
  quiet 1 1 s (validate_with_restore P step worker validator p s).2 /\
  forall ok reason p', (validate_with_restore P step worker validator p s).1 = Ok (ok, reason, p') ->
    judged validator p' ok reason.
Proof.
  unfold validate_with_restore.
  assert (forall p s, quiet 0 0 s (call [CalledValidator p] (validator p) s).2) as Hv
    by (intros q t; by apply (quiet_call [CalledValidator q])).
  assert (forall p s ok r, (call [CalledValidator p] (validator p) s).1 = Ok (ok, r) ->
    exists w, (validator p w).1 = Ok (ok, r)) as Hj.
  { intros q t ok r. unfold call. intros H. exists (sv_env t). by destruct (validator q (sv_env t)). }
  split.
  - apply (quiet_bind 0 0 1 1); [done|]. intros [ok r] _. destruct ok; cbn [fst].
    + apply (quiet_weaken 0 0); [apply quiet_refl|lia..].
    + destruct (restore P step) as [f|].
      * apply (quiet_bind 0 1 1 0); [by apply (quiet_call [CalledRestore])|]. intros [] _.
        -- apply (quiet_bind 1 0 0 0); [by apply (quiet_call [CalledWorker])|]. intros p2 _.
           apply (quiet_bind 0 0 0 0); [done|]. intros; apply quiet_refl.
        -- apply (quiet_weaken 0 0); [apply quiet_refl|lia..].
      * apply (quiet_weaken 0 0); [apply quiet_refl|lia..].
  - intros ok reason p'. unfold py_bind at 1.
    destruct (call [CalledValidator p] (validator p) s) as [[[ok1 r1]|e] s1] eqn:E1; [|done].
    destruct (Hj p s ok1 r1) as [w Hw]; [by rewrite E1|]. destruct ok1; cbn [fst snd].
    { intros [= <- <- <-]. by exists p, w. }
    destruct (restore P step) as [f|]; [|intros [= <- <- <-]; by exists p, w].
    unfold py_bind at 1. destruct (call [CalledRestore] f s1) as [[[]|e] s2]; [|intros [= <- <- <-]; by exists p, w|done].
    unfold py_bind at 1. destruct (call [CalledWorker] worker s2) as [[p2|e] s3]; [|done].
    cbv zeta. set (p2' := set_key _ _ _). unfold py_bind.
    destruct (call [CalledValidator p2'] (validator p2') s3) as [[[ok2 r2]|e] s4] eqn:E2; [|done].
    destruct (Hj p2' s3 ok2 r2) as [w2 Hw2]; [by rewrite E2|].
    intros [= <- <- <-]. by exists p2', w2.
Qed.

Definition runnable s : Prop := sv_state s = RUNNING \/ sv_state s = SUP_DEGRADED.

(** The calls from [s] to [s'], and the gate they leave. *)
Definition moves (n r : nat) (g : option bool) s s' : Prop :=
  exists evs, sv_log s' = sv_log s ++ evs /\ gate evs = g /\
    (occurs is_worker evs <= n)%nat /\ (occurs is_restore evs <= r)%nat.

Lemma quiet_moves n r s s' : quiet n r s s' -> moves n r None s s'.
Proof. by intros []. Qed.

Lemma moves_trans n1 r1 g1 n2 r2 g2 s1 s2 s3 :
  moves n1 r1 g1 s1 s2 -> moves n2 r2 g2 s2 s3 ->
  moves (n1 + n2) (r1 + r2) (match g2 with None => g1 | g => g end) s1 s3.
Proof.
  intros (e1 & L1 & G1 & W1 & R1) (e2 & L2 & G2 & W2 & R2). exists (e1 ++ e2).
  rewrite L2, L1, <- app_assoc, gate_app, G1, G2, !occurs_app. split_and!; [done|by destruct g2|lia|lia].
Qed.

Lemma quiet_runnable n r s s' : quiet n r s s' -> runnable s -> runnable s'.
Proof. unfold runnable. by intros [-> _]. Qed.

Definition configured : Prop :=
  is_Some (on_block_consumption P) /\ is_Some (on_release_consumption P).

(** The end of the [try] block after an accepted or a rejected payload, and of
    the [except] block after its restore. *)
Definition accept_tail (step : RunbookStep) (p : run_payload) : M RunbookExecutionResult :=
  let! _ := release P in
  let! _ := (fun s => if bool_decide (sv_state s = SUP_DEGRADED)
                      then sup_transition RUNNING s else (Ok tt, s)) in
  let! _ := record_job P step "success" true in
  let! _ := set_stage STAGE_COMPLETED in
  run_result step true p None.

Definition reject_tail (step : RunbookStep) (status error : string) (g : CronLifecycleStage)
    (p : run_payload) : M RunbookExecutionResult :=
  let! _ := block P error in
  let! _ := sup_transition SUP_DEGRADED in
  let! _ := record_job P step status false in
  let! _ := alert_failure P step error in
  let! _ := set_stage g in
  run_result step false p (Some error).

Definition tail_spec (ok : bool) (p : run_payload) (st : SupervisorState) (g : CronLifecycleStage) s
    (out : result string RunbookExecutionResult * supervisor W) : Prop :=
  runnable out.2 /\
  match out.1 with
  | Ok r => moves 0 0 (Some ok) s out.2 /\ rr_success r = ok /\ rr_payload r = p /\
            sv_state out.2 = st /\ sv_stage out.2 = g /\ (ok = false -> is_Some (rr_error r))
  | Raise _ => exists g, moves 0 0 g s out.2
  end.

(** Evaluate the tests on known states. *)
Ltac decide_states :=
  repeat match goal with
  | |- context [bool_decide ?Q] =>
      let b := eval vm_compute in (bool_decide Q) in
      lazymatch b with
      | true => change (bool_decide Q) with true
      | false => change (bool_decide Q) with false
      end
  end; cbn.

(** The answer of the next callback. *)
Ltac answer_call :=
  match goal with
  | |- context [let '(_, _) := ?c in _] =>
      lazymatch c with
      | context [let '(_, _) := _ in _] => fail
      | _ => destruct c as [[[]|?] ?]
      end
  end; cbn; decide_states.

(** Close a leaf: the state, and the calls appended to the history. *)
Ltac close_moves :=
  eexists; split; [cbn; rewrite <- ?app_assoc; reflexivity|];
  split; [reflexivity|]; split; vm_compute; lia.
Ltac close_leaf :=
  split; [first [by left | by right]|];
  first [eexists; close_moves | split; [close_moves|]; by split_and!].

Lemma accept_tail_spec step p s : configured -> runnable s ->
  tail_spec true p RUNNING STAGE_COMPLETED s (accept_tail step p s).
Proof.
  intros [_ [rl Hrl]] Hs. unfold accept_tail, release, call_opt, record_job, call, set_stage,
    py_modify, sup_transition, py_bind, run_result. rewrite Hrl.
  destruct s as [st ac sg pf env hk lg vs]. destruct Hs as [Hs|Hs]; cbn in Hs; subst st; cbn; decide_states;
    (answer_call; [|close_leaf]); (answer_call; [|close_leaf]); close_leaf.
Qed.

Lemma reject_tail_spec step status error g p s : configured -> runnable s ->
  tail_spec false p SUP_DEGRADED g s (reject_tail step status error g p s).
Proof.
  intros [[bl Hbl] _] Hs. unfold reject_tail, block, call_opt, record_job, alert_failure, call, set_stage,
    py_modify, sup_transition, py_bind, run_result. rewrite Hbl.
  destruct s as [st ac sg pf env hk lg vs]. destruct Hs as [Hs|Hs]; cbn in Hs; subst st; cbn; decide_states;
    (answer_call; [|close_leaf]); (answer_call; [|close_leaf]); (answer_call; [|close_leaf]);
    close_leaf.
Qed.

(** *** A whole runbook *)

Definition body_spec (validator : run_payload -> @callback W (bool * string)) s
    (out : result string RunbookExecutionResult * supervisor W) : Prop :=
  runnable out.2 /\
  match out.1 with
  | Ok r => moves 2 1 (Some (rr_success r)) s out.2 /\
      if rr_success r
      then sv_state out.2 = RUNNING /\ sv_stage out.2 = STAGE_COMPLETED /\
           exists reason, judged validator (rr_payload r) true reason
      else sv_state out.2 = SUP_DEGRADED /\ sv_stage out.2 = ALERTED /\ is_Some (rr_error r)
  | Raise _ => exists g, moves 2 1 g s out.2
  end.

(** A quiet step, then the rest. *)
Lemma body_quiet {A} validator n r (m : M A) (k : A -> M RunbookExecutionResult) s :
  runnable s -> (n <= 2)%nat -> (r <= 1)%nat ->
  quiet n r s (m s).2 ->
  (forall a s1, (m s).1 = Ok a -> quiet n r s s1 -> body_spec validator s (k a s1)) ->
  body_spec validator s (py_bind m k s).
Proof.
  intros Hs Hn Hr Hq Hk. unfold py_bind. destruct (m s) as [[a|e] s1] eqn:E; cbn in *; [by apply Hk|].
  split; [by eapply quiet_runnable|]. exists None. by eapply quiet_moves, quiet_weaken.
Qed.

Lemma runbook_body_spec step worker validator s : configured -> runnable s ->
  body_spec validator s (runbook_body P step worker validator s).
Proof.
  intros Hc Hs. unfold runbook_body.
  set (front := let! _ := run_hooks (pre_hooks P step) in
                let! _ := set_stage DISPATCHED in
                let! _ := set_stage EXECUTING in
                let! p := call [CalledWorker] worker in
                let! p := run_post_hooks (post_hooks P step) p in
                let! _ := set_stage VALIDATING in
                validate_with_restore P step worker validator p).
  set (k := fun v : bool * string * run_payload =>
              if v.1.1 then accept_tail step v.2
              else reject_tail step "validation_failed" v.1.2 ALERTED v.2).
  assert (forall A B C (m : M A) (f : A -> M B) (g : B -> M C) s,
    py_bind m (fun a => py_bind (f a) g) s = py_bind (py_bind m f) g s) as Hassoc.
  { intros A B C m f g t. unfold py_bind. by destruct (m t) as [[]]. }
  change (body_spec validator s
    ((let! _ := run_hooks (pre_hooks P step) in let! _ := set_stage DISPATCHED in
      let! _ := set_stage EXECUTING in let! p := call [CalledWorker] worker in
      let! p := run_post_hooks (post_hooks P step) p in let! _ := set_stage VALIDATING in
      let! v := validate_with_restore P step worker validator p in k v) s)).
  assert (forall s, (let! _ := run_hooks (pre_hooks P step) in let! _ := set_stage DISPATCHED in
      let! _ := set_stage EXECUTING in let! p := call [CalledWorker] worker in
      let! p := run_post_hooks (post_hooks P step) p in let! _ := set_stage VALIDATING in
      let! v := validate_with_restore P step worker validator p in k v) s = py_bind front k s) as ->.
  { intros t. unfold front, py_bind.
    destruct (run_hooks _ t) as [[?|?] t1]; [|done]. cbn.
    destruct (call [CalledWorker] worker _) as [[?|?] t2]; [|done].
    by destruct (run_post_hooks _ _ t2) as [[?|?] t3]. }
  clear Hassoc.
  assert (quiet 2 1 s (front s).2 /\ forall ok reason p, (front s).1 = Ok (ok, reason, p) ->
    judged validator p ok reason) as [Hq Hj].
  { split.
    - apply (quiet_bind 0 0 2 1); [apply quiet_hooks|]. intros _ _.
      apply (quiet_bind 0 0 2 1); [by apply quiet_local|]. intros _ _.
      apply (quiet_bind 0 0 2 1); [by apply quiet_local|]. intros _ _.
      apply (quiet_bind 1 0 1 1); [by apply (quiet_call [CalledWorker])|]. intros p _.
      apply (quiet_bind 0 0 1 1); [apply quiet_post_hooks|]. intros p' _.
      apply (quiet_bind 0 0 1 1); [by apply quiet_local|]. intros _ _. apply validate_spec.
    - intros ok reason p. unfold front, py_bind.
      destruct (run_hooks _ s) as [[?|?] t1]; [|done]. cbn.
      destruct (call [CalledWorker] worker _) as [[?|?] t2]; [|done].
      destruct (run_post_hooks _ _ t2) as [[?|?] t3]; [|done]. cbn.
      apply validate_spec. }
  apply (body_quiet _ 2 1); [done|lia|lia|done|]. intros [[ok reason] p] s1 Hf Hq1.
  pose proof (quiet_runnable _ _ _ _ Hq1 Hs) as Hs1. subst k. cbn [fst snd].
  destruct ok.
  - destruct (accept_tail_spec step p s1 Hc Hs1) as [H1 H2]. split; [done|].
    destruct (accept_tail step p s1) as [[r|e] s2]; cbn in *.
    + destruct H2 as (Hm & Hok & <- & Hst & Hsg & _). rewrite Hok.
      split; [exact (moves_trans 2 1 None 0 0 _ _ _ _ (quiet_moves _ _ _ _ Hq1) Hm)|]. eauto.
    + destruct H2 as [g Hm]. eexists. exact (moves_trans 2 1 None 0 0 _ _ _ _ (quiet_moves _ _ _ _ Hq1) Hm).
  - destruct (reject_tail_spec step "validation_failed" reason ALERTED p s1 Hc Hs1) as [H1 H2]. split; [done|].
    destruct (reject_tail step "validation_failed" reason ALERTED p s1) as [[r|e] s2]; cbn in *.
    + destruct H2 as (Hm & Hok & _ & Hst & Hsg & He). rewrite Hok.
      split; [exact (moves_trans 2 1 None 0 0 _ _ _ _ (quiet_moves _ _ _ _ Hq1) Hm)|]. eauto.
    + destruct H2 as [g Hm]. eexists. exact (moves_trans 2 1 None 0 0 _ _ _ _ (quiet_moves _ _ _ _ Hq1) Hm).
Qed.

Definition except_spec s (out : result string RunbookExecutionResult * supervisor W) : Prop :=
  runnable out.2 /\
  match out.1 with
  | Ok r => moves 0 1 (Some false) s out.2 /\ rr_success r = false /\ sv_state out.2 = SUP_DEGRADED /\
            sv_stage out.2 = STAGE_FAILED /\ is_Some (rr_error r)
  | Raise _ => exists g, moves 0 1 g s out.2
  end.

Lemma runbook_except_spec step exc s : configured -> runnable s ->
  except_spec s (runbook_except P step exc s).
Proof.
  intros Hc Hs. unfold runbook_except.
  set (m := match restore P step with Some f => call [CalledRestore] f | None => py_ret false end).
  assert (quiet 0 1 s (m s).2) as Hq.
  { subst m. destruct (restore P step); [by apply (quiet_call [CalledRestore])|].
    by apply (quiet_weaken 0 0); [apply quiet_refl|lia..]. }
  change (except_spec s (py_bind m
    (fun b => reject_tail step "error" exc STAGE_FAILED [("lkg_restored", JBool b)]) s)).
  unfold py_bind. destruct (m s) as [[b|e] s1]; cbn [fst snd] in *.
  - pose proof (quiet_runnable _ _ _ _ Hq Hs) as Hs1.
    destruct (reject_tail_spec step "error" exc STAGE_FAILED [("lkg_restored", JBool b)] s1 Hc Hs1) as [H1 H2].
    split; [done|].
    destruct (reject_tail step "error" exc STAGE_FAILED _ s1) as [[r|e] s2]; cbn in *.
    + destruct H2 as (Hm & Hok & _ & Hst & Hsg & He).
      split; [exact (moves_trans 0 1 None 0 0 _ _ _ _ (quiet_moves _ _ _ _ Hq) Hm)|]. split_and!; auto.
    + destruct H2 as [g Hm]. eexists. exact (moves_trans 0 1 None 0 0 _ _ _ _ (quiet_moves _ _ _ _ Hq) Hm).
  - split; [by eapply quiet_runnable|]. exists None. by apply quiet_moves.
Qed.
End Runbooks.


(** ** Histories of the supervisor *)

(** Consecutive states are equal or an allowed transition. *)
Fixpoint legal_path (s : SupervisorState) (path : list SupervisorState) (last : SupervisorState) : Prop :=
  match path with
  | [] => s = last
  | t :: rest => (t = s \/ t ∈ ALLOWED_SUPERVISOR_TRANSITIONS s) /\ legal_path t rest last
  end.

Lemma legal_path_snoc s path last t :
  legal_path s path last -> t = last \/ t ∈ ALLOWED_SUPERVISOR_TRANSITIONS last ->
  legal_path s (path ++ [t]) t.
Proof. revert s. induction path as [|x path IH]; intros s; simpl; [by intros ->|]. intros [? ?] ?. auto. Qed.

Inductive sup_call :=
  | CStart (run_pre_flight : bool)
  | CStop
  | CEscalate (reason : string)
  | CRunbook (step : RunbookStep).

Section Paths.
Context {W : Type} (P : plane W).
Implicit Types s : supervisor W.

(** A call ends with a value or an exception; the supervisor goes on. *)
Definition sup_step s (c : sup_call) : supervisor W :=
  match c with
  | CStart b => (start P b s).2
  | CStop => (stop s).2
  | CEscalate reason => (escalate_liquidation_race_failure P reason s).2
  | CRunbook step => (execute_runbook P step s).2
  end.

Context (s0 : SupervisorState).
Definition on_path s : Prop := legal_path s0 (sv_visited s) (sv_state s).

(** A computation keeps the path legal. *)
Definition keeps {A} (m : M A) : Prop := forall s, on_path s -> on_path (m s).2.

Lemma keeps_ret {A} (a : A) : keeps (py_ret a).
Proof. by intros s. Qed.
Lemma keeps_bind {A B} (m : M A) (k : A -> M B) : keeps m -> (forall a, keeps (k a)) -> keeps (py_bind m k).
Proof.
  intros Hm Hk s Hs. unfold py_bind. specialize (Hm s Hs).
  destruct (m s) as [[a|e] s']; cbn in *; [by apply Hk|done].
Qed.
Lemma keeps_call {A} evs (f : callback A) : keeps (call evs f).
Proof. intros s Hs. unfold call. by destruct (f (sv_env s)). Qed.
Lemma keeps_call_opt evs f : keeps (call_opt evs f).
Proof. destruct f; [apply keeps_call|apply keeps_ret]. Qed.
Lemma keeps_stage g : keeps (set_stage g).
Proof. by intros s. Qed.
Lemma keeps_transition t : keeps (sup_transition t).
Proof.
  intros s Hs. unfold sup_transition. destruct (_ && _) eqn:E; [done|].
  apply andb_false_iff in E. unfold on_path. cbn. eapply legal_path_snoc; [done|].
  destruct E as [E|E].
  - left. apply bool_decide_eq_false in E. by destruct (decide (t = sv_state s)).
  - right. by apply negb_false_iff, bool_decide_eq_true in E.
Qed.
Lemma keeps_result step ok p e : keeps (run_result step ok p e).
Proof. by intros s. Qed.
Lemma keeps_hook name : keeps (note_hook name).
Proof. by intros s. Qed.
Lemma keeps_hooks hs : keeps (run_hooks hs).
Proof.
  induction hs as [|[name h] hs IH]; [apply keeps_ret|].
  apply keeps_bind; [apply keeps_call|intros _]. apply keeps_bind; [apply keeps_hook|auto].
Qed.
Lemma keeps_post_hooks hs p : keeps (run_post_hooks hs p).
Proof.
  revert p. induction hs as [|[name h] hs IH]; intros p; [apply keeps_ret|].
  apply keeps_bind; [apply keeps_call|intros p']. apply keeps_bind; [apply keeps_hook|auto].
Qed.

#[local] Hint Resolve keeps_ret keeps_bind keeps_call keeps_call_opt keeps_stage keeps_transition
  keeps_result keeps_hooks keeps_post_hooks : keeps.

Ltac keep := repeat first [apply keeps_bind; [|intros ?] | case_match | solve [eauto with keeps]].

Lemma keeps_fail step error : keeps (fail_runbook P step error).
Proof. unfold fail_runbook, block, record_job, alert_failure. keep. Qed.

Lemma keeps_except step e : keeps (runbook_except P step e).
Proof. unfold runbook_except, block, record_job, alert_failure. keep. Qed.

Lemma keeps_validate step worker validator p : keeps (validate_with_restore P step worker validator p).
Proof. unfold validate_with_restore. keep. Qed.

Lemma keeps_if_state (q : supervisor W -> bool) t :
  keeps (fun s => if q s then sup_transition t s else (Ok tt, s)).
Proof. intros s Hs. destruct (q s); [by apply keeps_transition|done]. Qed.

Lemma keeps_body step worker validator : keeps (runbook_body P step worker validator).
Proof.
  unfold runbook_body, release, block, record_job, alert_failure.
  do 6 (apply keeps_bind; [eauto with keeps|intros ?]). apply keeps_bind; [apply keeps_validate|intros v].
  destruct v.1.1; keep. apply (keeps_if_state (fun s => bool_decide (sv_state s = SUP_DEGRADED))).
Qed.

Lemma keeps_pre_flight : keeps (execute_pre_flight P).
Proof. unfold execute_pre_flight, block. keep. by intros s. Qed.

Lemma sup_step_on_path s c : on_path s -> on_path (sup_step s c).
Proof.
  intros Hs. destruct c; simpl.
  - revert s Hs. change (keeps (start P run_pre_flight)). unfold start.
    apply keeps_bind; [apply keeps_transition|intros _].
    apply keeps_bind; [destruct run_pre_flight; [apply keeps_pre_flight|apply keeps_ret]|intros r]. keep.
  - revert s Hs. change (keeps (stop (W:=W))). unfold stop. keep.
  - revert s Hs. change (keeps (escalate_liquidation_race_failure P reason)).
    unfold escalate_liquidation_race_failure, block. apply keeps_bind; [apply keeps_call_opt|intros _].
    apply (keeps_if_state (fun s => bool_decide (sv_state s = RUNNING))).
  - unfold execute_runbook, py_bind, py_modify, set_stage, py_get. cbn.
    set (s1 := put_stage _ _). assert (on_path s1) as Hs1 by done. change (sv_state s) with (sv_state s1). clearbody s1.
    destruct (negb _); [by apply keeps_fail|]. destruct (workers P step) as [wk|]; [|by apply keeps_fail].
    destruct (validators P step) as [vl|]; [|by apply keeps_fail].
    pose proof (keeps_body step wk vl s1 Hs1) as Hb.
    assert (forall s, on_path s -> on_path (runbook_finally s)) as Hfin.
    { intros s2 H2. unfold runbook_finally. by destruct (_ || _). }
    destruct (runbook_body P step wk vl s1) as [[r|e] s2]; cbn in *; [by apply Hfin|].
    pose proof (keeps_except step e s2 Hb) as He.
    destruct (runbook_except P step e s2); cbn in *. by apply Hfin.
Qed.
End Paths.

(** ** Properties *)

(** The supervisor never leaves its transition table: over any calls of start,
    stop, escalation and runbooks, with any workers, validators, hooks and
    callbacks, returning or raising, every state it enters is the state it was in
    or an allowed transition from it, and the last one entered is its state. *)
Theorem supervisor_follows_table {W} (P : plane W) s0 env calls :
  let s := runs (sup_step P) (mkSupervisor s0 None IDLE None env [] [] []) calls in
  legal_path s0 (sv_visited s) (sv_state s).
Proof.
  intros s. apply (runs_invariant (sup_step P) (on_path s0)); [done|]. intros. by apply sup_step_on_path.
Qed.

(** A runbook of a running supervisor decides the consumption gate: when it
    reports success the gate was released last, the validator accepted the very
    payload reported, and the supervisor runs; when it reports failure the gate
    was blocked last, the supervisor is degraded, and an error is given. The
    worker is called at most twice and the last known good state restored at most
    twice, and the supervisor stays runnable whatever raises. *)
Theorem runbook_decides_gate {W} (P : plane W) step worker validator s :
  configured P -> workers P step = Some worker -> validators P step = Some validator -> runnable s ->
  let '(out, s') := execute_runbook P step s in
  sv_active s' = None /\ runnable s' /\
  exists evs, sv_log s' = sv_log s ++ evs /\
    (occurs is_worker evs <= 2)%nat /\ (occurs is_restore evs <= 2)%nat /\
    match out with
    | Ok r =>
        gate evs = Some (rr_success r) /\
        if rr_success r
        then sv_state s' = RUNNING /\ sv_stage s' = IDLE /\
             exists reason, judged validator (rr_payload r) true reason
        else sv_state s' = SUP_DEGRADED /\ (sv_stage s' = ALERTED \/ sv_stage s' = STAGE_FAILED) /\
             is_Some (rr_error r)
    | Raise _ => True
    end.
Proof.
  intros Hc Hw Hv Hs. unfold execute_runbook, py_bind, py_modify, set_stage, py_get. cbn.
  set (s1 := put_stage _ _). assert (runnable s1) as Hs1 by done.
  assert (sv_log s1 = sv_log s) as Hl by done. change (sv_state s) with (sv_state s1). clearbody s1.
  rewrite Hw, Hv. replace (negb _) with false by (by destruct Hs1 as [->| ->]).
  assert (forall s2 : supervisor W, sv_active (runbook_finally s2) = None /\ sv_log (runbook_finally s2) = sv_log s2 /\
    sv_state (runbook_finally s2) = sv_state s2 /\ (sv_stage s2 = STAGE_COMPLETED -> sv_stage (runbook_finally s2) = IDLE) /\
    (sv_stage s2 = ALERTED -> sv_stage (runbook_finally s2) = ALERTED) /\
    (sv_stage s2 = STAGE_FAILED -> sv_stage (runbook_finally s2) = STAGE_FAILED)) as Hfin.
  { intros s2. unfold runbook_finally. cbn. destruct (sv_stage s2) eqn:E; cbn; rewrite ?E; by split_and!. }
  destruct (runbook_body_spec P step worker validator s1 Hc Hs1) as [Hr Hm].
  destruct (runbook_body P step worker validator s1) as [[r|e] s2]; cbn in Hr, Hm.
  - destruct (Hfin s2) as (Ha & Hlg & Hst & HC & HA & _). unfold runnable. rewrite Ha, Hst.
    split; [done|]. split; [done|]. destruct Hm as [(evs & L & G & Wk & Rs) Hm]. exists evs.
    rewrite Hlg, L, Hl. split; [done|]. split; [done|]. split; [lia|]. split; [done|].
    destruct (rr_success r); destruct Hm as (? & ? & ?); auto.
  - destruct Hm as [g1 Hm1]. destruct (runbook_except_spec P step e s2 Hc Hr) as [Hr2 Hm2].
    destruct (runbook_except P step e s2) as [out s3]; cbn in Hr2, Hm2.
    destruct (Hfin s3) as (Ha & Hlg & Hst & _ & _ & HF). unfold runnable. rewrite Ha, Hst.
    split; [done|]. split; [done|]. destruct out as [r|e'].
    + destruct Hm2 as (Hm2 & Hok & Hd & Hsg & He).
      destruct (moves_trans _ _ _ _ _ _ _ _ _ Hm1 Hm2) as (evs & L & G & Wk & Rs). exists evs.
      rewrite Hlg, L, Hl, Hok. split_and!; auto; lia.
    + destruct Hm2 as [g2 Hm2].
      destruct (moves_trans _ _ _ _ _ _ _ _ _ Hm1 Hm2) as (evs & L & G & Wk & Rs). exists evs.
      rewrite Hlg, L, Hl. split_and!; auto; lia.
Qed.

(** A plane over a list of answers: the worker takes the next one, raising when
    it is an error; payloads are valid when they carry ["ok"]. *)
Definition script : Type := list (result string run_payload).
Definition script_worker : @callback script run_payload :=
  fun w => match w with a :: rest => (a, rest) | [] => (Raise "worker exhausted", []) end.
Definition script_plane : plane script :=
  mkPlane (fun _ => Some script_worker)
    (fun _ => Some (fun p w => (Ok (match assoc "ok" p with Some _ => (true, "valid")
                                    | None => (false, "stale_champion") end), w)))
    (fun _ => []) (fun _ => []) (Some (fun w => (Ok true, w)))
    (Some (fun _ w => (Ok tt, w))) (Some (fun w => (Ok tt, w))) None
    (fun _ w => (Ok tt, w)) (fun _ _ w => (Ok tt, w)) (fun _ _ w => (Ok tt, w)).
Definition running_with (answers : script) : supervisor script :=
  mkSupervisor RUNNING None IDLE None answers [] [] [].

(** The payload is stale, the champion is restored, the second one is accepted. *)
Definition healed : script := [Ok []; Ok [("ok", JBool true)]].

Lemma runbook_decides_gate_witness :
  let out := execute_runbook script_plane PRE_OPEN_HYDRATION (running_with healed) in
  sv_state out.2 = RUNNING /\ gate (sv_log out.2) = Some true /\ sv_active out.2 = None.
Proof.
  split; [vm_compute; reflexivity|]. split; [vm_compute; reflexivity|].
  pose proof (runbook_decides_gate script_plane PRE_OPEN_HYDRATION script_worker _ (running_with healed)
    ltac:(split; eauto) eq_refl eq_refl ltac:(by left)) as H.
  destruct (execute_runbook script_plane PRE_OPEN_HYDRATION (running_with healed)) as [o t].
  exact (proj1 H).
Defined.

(** The restore can run twice: the worker of the second attempt raises, and the
    [except] branch restores again. *)
Lemma restores_twice :
  occurs is_restore (sv_log (execute_runbook script_plane PRE_OPEN_HYDRATION
    (running_with [Ok []; Raise "research vault locked"])).2) = 2%nat.
Proof. vm_compute. reflexivity. Qed.

(** A runbook of a supervisor that is not running cannot even fail: whatever the
    callbacks are, it raises (the state machine refuses [degraded] there), no job
    status is recorded, no alert is sent, no worker is called, the state is what it
    was, and the runbook stays marked active and scheduled. *)
Theorem not_running_runbook_raises {W} (P : plane W) step s :
  ~ (sv_state s = RUNNING \/ sv_state s = SUP_DEGRADED) ->
  let '(out, s') := execute_runbook P step s in
  (exists e, out = Raise e) /\ sv_state s' = sv_state s /\ sv_active s' = Some step /\
  sv_stage s' = SCHEDULED /\
  exists evs, sv_log s' = sv_log s ++ evs /\
    forall e, e ∈ evs -> exists reason, e = BlockedConsumption reason.
Proof.
  intros Hs. unfold execute_runbook, py_bind, py_modify, set_stage, py_get. cbn.
  set (s1 := put_stage _ _). assert (sv_log s1 = sv_log s) as Hl by done.
  assert (sv_active s1 = Some step /\ sv_stage s1 = SCHEDULED) as [Ha Hg] by done.
  change (sv_state s) with (sv_state s1) in *. rewrite <- Hl. clearbody s1. clear Hl s.
  replace (negb _) with true by (destruct (sv_state s1); done || tauto).
  unfold fail_runbook. set (error := String.append _ _). unfold py_bind at 1, block, call_opt.
  assert (forall (s2 : supervisor W), sv_state s2 = sv_state s1 ->
    exists e, sup_transition SUP_DEGRADED s2 = (Raise e, s2)) as Ht.
  { intros s2 H2. unfold sup_transition. rewrite H2. destruct (sv_state s1); try tauto; eauto. }
  destruct (on_block_consumption P) as [f|]; cbn.
  - unfold call. destruct (f error (sv_env s1)) as [[[]|e] w]; cbn.
    + destruct (Ht (put_env w [BlockedConsumption error] s1) eq_refl) as [e He].
      unfold py_bind. rewrite He. split; [eauto|]. split_and!; try done. eexists. split; [done|].
      intros x Hx. apply list_elem_of_singleton in Hx. eauto.
    + split; [eauto|]. split_and!; try done. eexists. split; [done|].
      intros x Hx. apply list_elem_of_singleton in Hx. eauto.
  - destruct (Ht s1 eq_refl) as [e He]. unfold py_bind. rewrite He. split; [eauto|]. split_and!; try done.
    exists []. rewrite app_nil_r. split; [done|]. by intros x ?%elem_of_nil.
Qed.

Lemma not_running_runbook_raises_witness :
  let s := mkSupervisor SUP_FAILED None IDLE None [] [] [] [] in
  let '(out, s') := execute_runbook script_plane PRE_OPEN_HYDRATION s in
  (exists e, out = Raise e) /\ sv_active s' = Some PRE_OPEN_HYDRATION.
Proof.
  pose proof (not_running_runbook_raises script_plane PRE_OPEN_HYDRATION
    (mkSupervisor SUP_FAILED None IDLE None [] [] [] []) ltac:(by intros [])) as H.
  cbv zeta. destruct (execute_runbook script_plane PRE_OPEN_HYDRATION _) as [out s'].
  by destruct H as (? & _ & ? & _).
Defined.
