(* ===== verification/PendingOrders.v ===== *)
(** * The registry of pending orders

    [src/persistence/governance_state_store.py], class [PendingOrderStore]: the
    SQLite table [pending_order_stage], keyed by [order_key], and SQLite's [LIKE],
    by which one leg's orders are cleared. *)

From stdpp Require Import base gmap strings list.
From Stdlib Require Import ZArith Lia Ascii.
From S2P Require Import Prelude.

Record staged_order := mkStaged {
  st_strategy_id : string;
  st_symbol : string;
  st_side : string;
  st_broker_order_id : option string;
  st_submitted_at : string
}.

Notation pending_store := (gmap string staged_order).

(** [x LIKE pattern]: [%] is any text, [_] any character, letters of ASCII
    compare without case. *)
Fixpoint like (pattern s : string) : bool :=
  match pattern with
  | EmptyString => match s with EmptyString => true | _ => false end
  | String p rest =>
      if Ascii.eqb p "%" then
        (fix any (s : string) : bool :=
           like rest s || match s with EmptyString => false | String _ s' => any s' end) s
      else match s with
           | EmptyString => false
           | String c s' => (Ascii.eqb p "_" || Ascii.eqb (ascii_lower p) (ascii_lower c)) && like rest s'
           end
  end.

(** [load_all]. *)
Definition load_all (db : pending_store) : gmap string (option string) := st_broker_order_id <$> db.

(** [stage]: a key already staged keeps its strategy, symbol and side. *)
Definition stage (order_key strategy_id symbol side : string) (broker_order_id : option string)
    (now : string) (db : pending_store) : pending_store :=
  <[order_key := match db !! order_key with
                 | Some r => mkStaged (st_strategy_id r) (st_symbol r) (st_side r) broker_order_id now
                 | None => mkStaged strategy_id (upper symbol) side broker_order_id now
                 end]> db.

(** [pop]. *)
Definition pop (order_key : string) (db : pending_store) : option string * pending_store :=
  match db !! order_key with
  | None => (None, db)
  | Some r => (st_broker_order_id r, delete order_key db)
  end.

(** [DELETE .. WHERE p(order_key)], and its row count. *)
Definition delete_keys (p : string -> bool) (db : pending_store) : nat * pending_store :=
  (size (filter (fun kr => p kr.1 = true) db), filter (fun kr => p kr.1 = false) db).

Definition key_prefix (strategy_id symbol : string) : string :=
  String.append strategy_id (String.append ":" (String.append (upper symbol) ":")).

(** [clear_prefix] and [clear_all]. *)
Definition clear_prefix (strategy_id symbol : string) (db : pending_store) : nat * pending_store :=
  delete_keys (like (String.append (key_prefix strategy_id symbol) "%")) db.

Definition clear_all (db : pending_store) : nat * pending_store := (size db, ∅).

(** [reconcile_with_broker_open_orders]. *)
Record pending_report := mkPendingReport { staged_count : nat; broker_open_count : nat; stale_removed : nat }.

Definition stale_staged (broker_open : gset string) (o : option string) : bool :=
  match o with None => true | Some b => negb (bool_decide (b ∈ broker_open)) end.

Definition reconcile_with_broker_open_orders (broker_open : gset string) (db : pending_store)
    : pending_report * pending_store :=
  let staged := load_all db in
  let '(removed, db') :=
    delete_keys (fun k => match staged !! k with Some o => stale_staged broker_open o | None => false end) db in
  (mkPendingReport (size staged) (size broker_open) removed, db').

(** ** Lemmas *)

Lemma lookup_delete_keys p db k :
  (delete_keys p db).2 !! k = if p k then None else db !! k.
Proof.
  unfold delete_keys. cbn [snd]. rewrite map_lookup_filter.
  destruct (db !! k) as [r|]; simpl; [|by destruct (p k)].
  by destruct (p k).
Qed.

Lemma delete_keys_count p db : ((delete_keys p db).1 + size (delete_keys p db).2 = size db)%nat.
Proof.
  unfold delete_keys. cbn [fst snd]. rewrite <- map_size_disj_union.
  - f_equal. apply map_eq. intros k. rewrite lookup_union, !map_lookup_filter.
    destruct (db !! k) as [x|]; simpl; [|done].
    by destruct (p k).
  - apply map_disjoint_spec. intros k x y. rewrite !map_lookup_filter_Some. simpl.
    intros [_ H1] [_ H2]. congruence.
Qed.

Lemma delete_keys_none p db : (forall k, p k = false) -> delete_keys p db = (0%nat, db).
Proof.
  intros Hp. pose proof (delete_keys_count p db) as Hc.
  assert ((delete_keys p db).2 = db) as H2 by (apply map_eq; intros k; by rewrite lookup_delete_keys, Hp).
  destruct (delete_keys p db) as [n db']. cbn in *. subst db'. f_equal. lia.
Qed.

(** The prefix test [LIKE] is meant to be. *)
Fixpoint like_literal (prefix s : string) : bool :=
  match prefix, s with
  | EmptyString, _ => true
  | String p rest, String c s' => Ascii.eqb (ascii_lower p) (ascii_lower c) && like_literal rest s'
  | _, EmptyString => false
  end.

Fixpoint no_wildcards (s : string) : bool :=
  match s with
  | EmptyString => true
  | String c s' => negb (Ascii.eqb c "%") && negb (Ascii.eqb c "_") && no_wildcards s'
  end.

Lemma like_percent s : like "%" s = true.
Proof. induction s as [|c s IH]; [done|]. exact IH. Qed.

Lemma like_prefix_literal prefix s : no_wildcards prefix = true ->
  like (String.append prefix "%") s = like_literal prefix s.
Proof.
  revert s. induction prefix as [|p prefix IH]; intros s Hn; [apply like_percent|].
  simpl in Hn. apply andb_true_iff in Hn as [[H1 H2]%andb_true_iff Hn].
  apply negb_true_iff in H1, H2. change (String.append (String p prefix) "%") with (String p (String.append prefix "%")).
  cbn [like like_literal]. rewrite H1. destruct s as [|c s]; [done|].
  by rewrite H2, IH.
Qed.

Lemma like_own prefix s : like (String.append prefix "%") (String.append prefix s) = true.
Proof.
  induction prefix as [|p prefix IH]; [apply like_percent|].
  change (String.append (String p prefix) "%") with (String p (String.append prefix "%")).
  change (String.append (String p prefix) s) with (String p (String.append prefix s)).
  cbn [like].
  destruct (Ascii.eqb p "%") eqn:E.
  - apply Ascii.eqb_eq in E. subst p. apply orb_true_iff. right.
    assert (forall t, like (String.append prefix "%") t = true ->
      (fix any (s : string) : bool := like (String.append prefix "%") s ||
         match s with EmptyString => false | String _ s' => any s' end) t = true) as H
      by (intros [|c t] ->; done).
    by apply H.
  - by rewrite Ascii.eqb_refl, orb_true_r, IH.
Qed.

(** ** Properties *)

(** Clearing a leg is complete and local: it removes every order of the leg, keeps
    every order it does not match untouched, and, when neither the strategy id nor
    the symbol holds a wildcard of [LIKE], it removes exactly the keys that start
    with the leg's prefix up to case. *)
Theorem clear_prefix_spec strategy_id symbol db :
  let db' := (clear_prefix strategy_id symbol db).2 in
  (forall s, db' !! String.append (key_prefix strategy_id symbol) s = None) /\
  (forall k r, db' !! k = Some r -> db !! k = Some r) /\
  (no_wildcards (key_prefix strategy_id symbol) = true ->
     forall k, db' !! k = if like_literal (key_prefix strategy_id symbol) k then None else db !! k).
Proof.
  unfold clear_prefix. split_and!.
  - intros s. by rewrite lookup_delete_keys, like_own.
  - intros k r. rewrite lookup_delete_keys. by destruct (like _ k).
  - intros Hn k. by rewrite lookup_delete_keys, like_prefix_literal.
Qed.

(** An underscore in a strategy id is a wildcard: clearing [leg_a] also drops the
    staged orders of the leg [leg1a]. *)
Lemma clear_prefix_overreaches :
  let r := mkStaged "leg1a" "SPY" "buy" (Some "b1") "t" in
  (clear_prefix "leg_a" "spy" {["leg1a:SPY:1" := r]}).2 !! "leg1a:SPY:1" = None.
Proof. vm_compute. reflexivity. Qed.

(** Reconciling with the broker keeps exactly the staged orders whose broker id is
    open, each as it was; the report counts the orders staged and removed; and a
    second reconciliation against the same broker orders removes nothing. *)
Theorem reconcile_keeps_open broker_open db :
  let '(report, db') := reconcile_with_broker_open_orders broker_open db in
  (forall k r, db' !! k = Some r <->
     db !! k = Some r /\ exists b, st_broker_order_id r = Some b /\ b ∈ broker_open) /\
  staged_count report = size db /\ (stale_removed report + size db' = size db)%nat /\
  reconcile_with_broker_open_orders broker_open db' =
    (mkPendingReport (size db') (size broker_open) 0, db').
Proof.
  unfold reconcile_with_broker_open_orders.
  set (p := fun k => match load_all db !! k with Some o => stale_staged broker_open o | None => false end).
  pose proof (lookup_delete_keys p db) as Hl.
  assert (forall k, p k = match db !! k with Some r => stale_staged broker_open (st_broker_order_id r)
                          | None => false end) as Hp.
  { intros k. unfold p, load_all. rewrite lookup_fmap. by destruct (db !! k). }
  assert (forall r, stale_staged broker_open (st_broker_order_id r) = false <->
    exists b, st_broker_order_id r = Some b /\ b ∈ broker_open) as Hst.
  { intros r. unfold stale_staged. destruct (st_broker_order_id r) as [b|]; [|by split; [|intros (?&?&?)]].
    rewrite negb_false_iff, bool_decide_eq_true. split; [eauto|by intros (?&[= ->]&?)]. }
  assert (forall k r, (delete_keys p db).2 !! k = Some r <->
     db !! k = Some r /\ exists b, st_broker_order_id r = Some b /\ b ∈ broker_open) as Hk.
  { intros k r. rewrite Hl, Hp, <- Hst. destruct (db !! k) as [r'|]; [|by split; [|intros []]].
    destruct (stale_staged broker_open (st_broker_order_id r')) eqn:E; split; try done.
    - intros [[= ->] ?]. congruence.
    - by intros [= ->].
    - by intros [[= ->] ?]. }
  pose proof (delete_keys_count p db) as Hsz.
  assert (forall k, match load_all (delete_keys p db).2 !! k with
                    | Some o => stale_staged broker_open o | None => false end = false) as Hagain.
  { intros k. unfold load_all. rewrite lookup_fmap.
    destruct ((delete_keys p db).2 !! k) as [r|] eqn:E; [|done]. apply Hst. by apply Hk in E as [_ ?]. }
  assert (size (load_all db) = size db) as Hs1 by apply map_size_fmap.
  assert (size (load_all (delete_keys p db).2) = size (delete_keys p db).2) as Hs2 by apply map_size_fmap.
  destruct (delete_keys p db) as [n db']. cbn [fst snd] in *. split; [done|]. split; [done|]. split; [done|].
  by rewrite delete_keys_none, Hs2.
Qed.
