(* ===== verification/Flatten.v ===== *)
(** * The unified flatten protocol

    [src/engine/flatten_protocol.py]: cancel the open orders, wait for the
    exchange to clear them, flatten the exposure. Every broker call, and every write to the
    table of staged orders, is an operation of an environment that answers or raises; a call that raises for one
    symbol must not keep the others from being flattened. *)

From stdpp Require Import base gmap strings list.
From Stdlib Require Import ZArith Lia.
From S2P Require Import Prelude PyFloat Models PendingOrders.

Open Scope py_scope.

(** Broker calls, in the order they are made. *)
Inductive flatten_event :=
  | AskedPositions
  | CancelledFor (symbol : string)
  | AwaitedFor (symbol : string)
  | ForceCancelled (symbol : string)
  | FlattenSent (symbol side : string) (qty : float)
  | ClosedAll
  | ClearedStaged
  | LoggedEvent (kind : string).

Record FlattenResult := mkFlattenResult {
  fr_executed : bool;
  fr_skipped : bool;
  fr_reason : string;
  symbols_flattened : list string;
  symbols_failed : list string
}.
Definition partial_failure (r : FlattenResult) : bool := negb (Nat.eqb (length (symbols_failed r)) 0).

Section Flatten.
Context {W : Type}.

Definition broker_call (A : Type) : Type := W -> result string A * W.

(** [FlattenBroker], the event log of the persistence layer, and what SQLite says to a
    delete from the staged orders ([ensure_db_writable] and the statement). *)
Record flatten_broker := mkFlattenBroker {
  get_positions : broker_call (list Position);
  cancel_open_orders_for_symbol : string -> broker_call Z;
  force_cancel_all_orders_for_symbol : string -> broker_call Z;
  await_open_orders_cleared : string -> broker_call (bool * Z);
  (* [true]: something was flattened; [false]: [None], no position *)
  force_flatten_symbol_position : string -> string -> float -> broker_call bool;
  close_all_positions : broker_call unit;
  log_system_event : string -> broker_call unit;
  stage_write : broker_call unit
}.

Record protocol := mkProtocol {
  portfolio_flattening : bool;
  leg_flattening : gset string;
  pending_orders : pending_store;
  fl_env : W;
  fl_log : list flatten_event
}.

Definition F (A : Type) : Type := py protocol string A.

Definition set_flattening (b : bool) (s : protocol) : protocol :=
  mkProtocol b (leg_flattening s) (pending_orders s) (fl_env s) (fl_log s).
Definition set_legs (g : gset string) (s : protocol) : protocol :=
  mkProtocol (portfolio_flattening s) g (pending_orders s) (fl_env s) (fl_log s).
Definition set_pending (p : pending_store) (s : protocol) : protocol :=
  mkProtocol (portfolio_flattening s) (leg_flattening s) p (fl_env s) (fl_log s).
Definition put_env (w : W) (e : flatten_event) (s : protocol) : protocol :=
  mkProtocol (portfolio_flattening s) (leg_flattening s) (pending_orders s) w (fl_log s ++ [e]).

Definition bcall {A} (e : flatten_event) (f : broker_call A) : F A :=
  fun s => let '(r, w) := f (fl_env s) in (r, put_env w e s).

(** [try: m except Exception: log]. *)
Definition guarded (m : F unit) : F unit :=
  fun s => match m s with (Raise _, s') => (Ok tt, s') | done => done end.

Fixpoint for_each {A} (l : list A) (m : A -> F unit) : F unit :=
  match l with
  | [] => py_ret tt
  | x :: rest => let! _ := m x in for_each rest m
  end.

Context (B : flatten_broker).

Definition is_leg_flattening (strategy_id symbol : string) (s : protocol) : bool :=
  bool_decide (String.append strategy_id (String.append ":" (upper symbol)) ∈ leg_flattening s).

Definition await_cleared (symbol : string) : F (bool * Z) :=
  bcall (AwaitedFor symbol) (await_open_orders_cleared B symbol).
Definition cancel_open (symbol : string) : F Z :=
  bcall (CancelledFor symbol) (cancel_open_orders_for_symbol B symbol).
Definition force_cancel (symbol : string) : F Z :=
  bcall (ForceCancelled symbol) (force_cancel_all_orders_for_symbol B symbol).

(** The bodies of the cancel and the clearance loops. *)
Definition cancel_symbol (symbol : string) : F unit :=
  guarded (let! _ := cancel_open symbol in py_ret tt).

Definition await_symbol (symbol : string) : F unit :=
  guarded (let! c := await_cleared symbol in
           if c.1 then py_ret tt
           else let! _ := force_cancel symbol in
                let! _ := await_cleared symbol in
                py_ret tt).

(** The body of the flatten loop, over the lists of symbols flattened and failed. *)
Definition flatten_position (p : Position) (acc : list string * list string)
    : F (list string * list string) :=
  if fleb (pos_qty p) fzero then py_ret acc else
  let symbol := upper (pos_symbol p) in
  let side := str_or (pos_side p) "flat" in
  fun s =>
    match bcall (FlattenSent symbol side (pos_qty p))
            (force_flatten_symbol_position B symbol side (pos_qty p)) s with
    | (Ok true, s') => (Ok (acc.1 ++ [symbol], acc.2), s')
    | (Ok false, s') => (Ok acc, s')
    | (Raise _, s') => (Ok (acc.1, acc.2 ++ [symbol]), s')
    end.

Fixpoint flatten_positions (ps : list Position) (acc : list string * list string)
    : F (list string * list string) :=
  match ps with
  | [] => py_ret acc
  | p :: rest => let! acc := flatten_position p acc in flatten_positions rest acc
  end.

Definition clear_staged : F unit :=
  let! _ := bcall ClearedStaged (stage_write B) in
  py_modify (fun s => set_pending (clear_all (pending_orders s)).2 s).

Definition clear_staged_leg (strategy_id symbol : string) : F unit :=
  let! _ := bcall ClearedStaged (stage_write B) in
  py_modify (fun s => set_pending (clear_prefix strategy_id symbol (pending_orders s)).2 s).

Definition portfolio_symbols (ps : list Position) : list string :=
  sorted_strings (list_to_set (map (fun p => upper (pos_symbol p)) ps)).

(** The [try] block of [execute_portfolio_flatten]. *)
Definition portfolio_body (reason : string) : F FlattenResult :=
  let! ps := bcall AskedPositions (get_positions B) in
  let symbols := portfolio_symbols ps in
  let! _ := for_each symbols cancel_symbol in
  let! _ := for_each symbols await_symbol in
  let! _ := clear_staged in
  let! acc := match ps with
              | [] => let! _ := bcall ClosedAll (close_all_positions B) in py_ret ([], [])
              | _ => flatten_positions ps ([], [])
              end in
  let! _ := bcall (LoggedEvent "portfolio_flatten_executed")
              (log_system_event B "portfolio_flatten_executed") in
  py_ret (mkFlattenResult true false reason acc.1 acc.2).

Definition execute_portfolio_flatten (reason : string) : F FlattenResult :=
  fun s =>
    if portfolio_flattening s
    then (Ok (mkFlattenResult false true "portfolio_flatten_already_active" [] []), s)
    else let '(r, s') := portfolio_body reason (set_flattening true s) in (r, set_flattening false s').

(** [execute_leg_flatten]. *)
Definition leg_body (strategy_id symbol position_side : string) (position_qty : float) : F bool :=
  let! _ := cancel_open symbol in
  let! _ := clear_staged_leg strategy_id symbol in
  let! c := await_cleared (upper symbol) in
  let! c := if negb c.1 && (0 <? c.2)%Z
            then let! _ := force_cancel symbol in await_cleared (upper symbol)
            else py_ret c in
  let exposed := fltb fzero position_qty &&
                 (bool_decide (position_side = "long") || bool_decide (position_side = "short")) in
  let! found := if exposed
                then bcall (FlattenSent symbol position_side position_qty)
                       (force_flatten_symbol_position B symbol position_side position_qty)
                else py_ret true in
  if found : bool
  then let! _ := bcall (LoggedEvent "leg_flatten_executed") (log_system_event B "leg_flatten_executed") in
       py_ret c.1
  else py_ret c.1.

Definition execute_leg_flatten (strategy_id symbol position_side : string) (position_qty : float)
    : F bool :=
  fun s =>
    let leg_key := String.append strategy_id (String.append ":" (upper symbol)) in
    if bool_decide (leg_key ∈ leg_flattening s) then (Ok false, s)
    else
      let '(r, s') := leg_body strategy_id symbol position_side position_qty
                        (set_legs ({[leg_key]} ∪ leg_flattening s) s) in
      (r, set_legs (leg_flattening s' ∖ {[leg_key]}) s').
End Flatten.
Arguments flatten_broker W : clear implicits.
Arguments protocol W : clear implicits.

(** ** Lemmas *)

Definition flatten_sent (e : flatten_event) : list (string * string * float) :=
  match e with FlattenSent sym side q => [(sym, side, q)] | _ => [] end.
Definition sent (log : list flatten_event) : list (string * string * float) := concat (map flatten_sent log).

Lemma sent_app l k : sent (l ++ k) = sent l ++ sent k.
Proof. unfold sent. by rewrite map_app, concat_app. Qed.

(** The exposures a portfolio flatten owes the positions. *)
Definition owed (p : Position) : list (string * string * float) :=
  if fleb (pos_qty p) fzero then []
  else [(upper (pos_symbol p), str_or (pos_side p) "flat", pos_qty p)].

Section FlattenLemmas.
Context {W : Type} (B : flatten_broker W).
Implicit Types s : protocol W.

(** The log grew, by events that send nothing, and the guards are untouched. *)
Record preparing s s' : Prop := {
  pr_log : sent (fl_log s') = sent (fl_log s);
  pr_flag : portfolio_flattening s' = portfolio_flattening s;
  pr_legs : leg_flattening s' = leg_flattening s
}.

#[export] Instance preparing_refl : Reflexive preparing.
Proof. by intros s. Qed.
#[export] Instance preparing_trans : Transitive preparing.
Proof. intros s1 s2 s3 [] []. split; congruence. Qed.

Lemma bcall_preparing {A} e (f : broker_call A) s : flatten_sent e = [] -> preparing s (bcall e f s).2.
Proof.
  intros He. unfold bcall. destruct (f (fl_env s)) as [r w]. split; [|done..].
  unfold put_env. cbn [snd fl_log]. rewrite sent_app. unfold sent at 2. cbn.
  by rewrite He, !app_nil_r.
Qed.

(** A guarded step that prepares never raises. *)
Lemma guarded_ok (m : F unit) s : preparing s (m s).2 ->
  (guarded m s).1 = Ok tt /\ preparing s (guarded m s).2.
Proof. unfold guarded. by destruct (m s) as [[[]|e] s']. Qed.

Lemma bind_preparing {A C} (m : F A) (k : A -> F C) s :
  preparing s (m s).2 -> (forall a s', preparing s' (k a s').2) -> preparing s (py_bind m k s).2.
Proof.
  intros Hm Hk. unfold py_bind. destruct (m s) as [[a|e] s1]; [|done]. etrans; [done|apply Hk].
Qed.

Lemma cancel_symbol_ok sym s :
  (cancel_symbol B sym s).1 = Ok tt /\ preparing s (cancel_symbol B sym s).2.
Proof. apply guarded_ok, bind_preparing; [by apply bcall_preparing|done]. Qed.

Lemma await_symbol_ok sym s : (await_symbol B sym s).1 = Ok tt /\ preparing s (await_symbol B sym s).2.
Proof.
  apply guarded_ok, bind_preparing; [by apply bcall_preparing|]. intros [[] n] s1; [done|]. cbn [fst].
  apply bind_preparing; [by apply bcall_preparing|]. intros z s2.
  apply bind_preparing; [by apply bcall_preparing|done].
Qed.

Lemma for_each_ok {A} (l : list A) (m : A -> F unit) s :
  (forall x s, (m x s).1 = Ok tt /\ preparing s (m x s).2) ->
  exists s', for_each l m s = (Ok tt, s') /\ preparing s s'.
Proof.
  intros Hm. revert s. induction l as [|x l IH]; intros s; simpl; [by exists s|].
  unfold py_bind. destruct (Hm x s) as [H1 H2]. destruct (m x s) as [r s1]. cbn in *. subst r.
  destruct (IH s1) as (s' & -> & H). exists s'. split; [done|]. by etrans.
Qed.

(** The flatten loop sends every exposure, in order, whatever raises; the
    symbols it reports are among those sent. *)
Lemma flatten_positions_spec ps acc s :
  exists fl fa s', flatten_positions B ps acc s = (Ok (acc.1 ++ fl, acc.2 ++ fa), s') /\
    sent (fl_log s') = sent (fl_log s) ++ concat (map owed ps) /\
    leg_flattening s' = leg_flattening s /\ pending_orders s' = pending_orders s /\
    (forall sym, sym ∈ fl ++ fa -> sym ∈ map (fun o => o.1.1) (concat (map owed ps))) /\
    (length fl + length fa <= length (concat (map owed ps)))%nat.
Proof.
  revert acc s. induction ps as [|p ps IH]; intros acc s; simpl.
  { exists [], [], s. rewrite !app_nil_r. split; [by destruct acc|]. by split_and!. }
  unfold py_bind, flatten_position, owed at 1 3 5.
  destruct (fleb (pos_qty p) fzero); [apply IH|].
  set (sym := upper (pos_symbol p)). set (side := str_or (pos_side p) "flat").
  unfold bcall. destruct (force_flatten_symbol_position B sym side (pos_qty p) (fl_env s)) as [[[]|e] w];
    [destruct (IH (acc.1 ++ [sym], acc.2) (put_env w (FlattenSent sym side (pos_qty p)) s))
       as (fl & fa & s' & -> & Hs & Hp & Hl & Hin & Hlen);
     exists (sym :: fl), fa, s'
    |destruct (IH acc (put_env w (FlattenSent sym side (pos_qty p)) s))
       as (fl & fa & s' & -> & Hs & Hp & Hl & Hin & Hlen);
     exists fl, fa, s'
    |destruct (IH (acc.1, acc.2 ++ [sym]) (put_env w (FlattenSent sym side (pos_qty p)) s))
       as (fl & fa & s' & -> & Hs & Hp & Hl & Hin & Hlen);
     exists fl, (sym :: fa), s'];
    cbn [fst snd app length map]; rewrite <- ?app_assoc; cbn [app];
    (split; [done|]; rewrite Hs; unfold put_env; cbn [fl_log]; rewrite sent_app, <- app_assoc;
     split_and!; [done..| |lia]);
    intros x Hx; rewrite elem_of_cons; set_solver.
Qed.

(** *** One leg *)

(** The calls of a leg flatten from [s]: [n] flattens sent, and what became of
    the staged orders. *)
Definition leg_spec (sid symbol side : string) (qty : float) s (out : result string bool * protocol W) : Prop :=
  let exposed := fltb fzero qty && (bool_decide (side = "long") || bool_decide (side = "short")) in
  let cleared := (clear_prefix sid symbol (pending_orders s)).2 in
  leg_flattening out.2 = leg_flattening s /\ portfolio_flattening out.2 = portfolio_flattening s /\
  (pending_orders out.2 = pending_orders s \/ pending_orders out.2 = cleared) /\
  exists n, sent (fl_log out.2) = sent (fl_log s) ++ repeat (symbol, side, qty) n /\ (n <= 1)%nat /\
    (exposed = false -> n = 0%nat) /\
    (forall c, out.1 = Ok c -> (exposed = true -> n = 1%nat) /\ pending_orders out.2 = cleared).

(** Preparation that keeps the staged orders. *)
Definition holding s s' : Prop := preparing s s' /\ pending_orders s' = pending_orders s.

Lemma bcall_holding {A} e (f : broker_call A) s : flatten_sent e = [] -> holding s (bcall e f s).2.
Proof.
  intros He. split; [by apply bcall_preparing|]. unfold bcall. by destruct (f (fl_env s)).
Qed.

Lemma holding_trans s1 s2 s3 : holding s1 s2 -> holding s2 s3 -> holding s1 s3.
Proof. intros [H1 E1] [H2 E2]. split; [by etrans|congruence]. Qed.

Lemma leg_raise sid symbol side qty s s' e : preparing s s' ->
  pending_orders s' = pending_orders s \/
    pending_orders s' = (clear_prefix sid symbol (pending_orders s)).2 ->
  leg_spec sid symbol side qty s (Raise e, s').
Proof.
  intros [L F G] Hp. unfold leg_spec. cbn. split_and!; try done. exists 0%nat. rewrite L, app_nil_r.
  by split_and!; [|lia| |].
Qed.

(** The end of the body: expose, then log. *)
Definition leg_tail (symbol side : string) (qty : float) (c : bool * Z) : F bool :=
  let exposed := fltb fzero qty && (bool_decide (side = "long") || bool_decide (side = "short")) in
  let! found := if exposed
                then bcall (FlattenSent symbol side qty)
                       (force_flatten_symbol_position B symbol side qty)
                else py_ret true in
  if found : bool
  then let! _ := bcall (LoggedEvent "leg_flatten_executed") (log_system_event B "leg_flatten_executed") in
       py_ret c.1
  else py_ret c.1.

Lemma leg_tail_spec sid symbol side qty c s s' :
  preparing s s' -> pending_orders s' = (clear_prefix sid symbol (pending_orders s)).2 ->
  leg_spec sid symbol side qty s (leg_tail symbol side qty c s').
Proof.
  intros [L F G] Hp. unfold leg_tail, leg_spec. cbv zeta.
  set (exposed := fltb fzero qty && _). destruct exposed.
  - unfold py_bind, bcall, py_ret.
    destruct (force_flatten_symbol_position B symbol side qty (fl_env s')) as [[[]|e] w]; cbn [fl_env put_env];
      [destruct (log_system_event B "leg_flatten_executed" w) as [[[]|e] w2]| |];
      unfold put_env; cbn [fst snd fl_log leg_flattening portfolio_flattening pending_orders];
      (split_and!; [done..|by right|]; exists 1%nat; rewrite !sent_app, L, ?app_nil_r; by split_and!).
  - unfold py_bind, bcall, py_ret.
    destruct (log_system_event B "leg_flatten_executed" (fl_env s')) as [[[]|e] w2];
      unfold put_env; cbn [fst snd fl_log leg_flattening portfolio_flattening pending_orders];
      (split_and!; [done..|by right|]; exists 0%nat; rewrite !sent_app, L, ?app_nil_r; split_and!; first [done|lia]).
Qed.

Lemma leg_body_spec sid symbol side qty s :
  leg_spec sid symbol side qty s (leg_body B sid symbol side qty s).
Proof.
  unfold leg_body. fold (leg_tail symbol side qty). unfold py_bind at 1.
  pose proof (bcall_holding (CancelledFor symbol) (cancel_open_orders_for_symbol B symbol) s eq_refl) as [P1 Q1].
  unfold cancel_open. destruct (bcall (CancelledFor symbol) _ s) as [[z|e] s1]; cbn [fst snd] in *;
    [|apply leg_raise; auto].
  unfold py_bind at 1, clear_staged_leg. unfold py_bind at 1.
  pose proof (bcall_holding ClearedStaged (stage_write B) s1 eq_refl) as [P1' Q1'].
  destruct (bcall ClearedStaged _ s1) as [[u|e] s1']; cbn [fst snd] in *; [|apply leg_raise; [by etrans|left; congruence]].
  unfold py_modify. set (s2 := set_pending _ s1').
  assert (preparing s s2) as P2 by (assert (preparing s s1') as [] by (by etrans); by split).
  assert (pending_orders s2 = (clear_prefix sid symbol (pending_orders s)).2) as Q2
    by (unfold s2; cbn; by rewrite Q1', Q1).
  clearbody s2. unfold py_bind at 1, await_cleared.
  pose proof (bcall_holding (AwaitedFor (upper symbol)) (await_open_orders_cleared B (upper symbol)) s2 eq_refl) as [P3 Q3].
  destruct (bcall (AwaitedFor _) _ s2) as [[c|e] s3]; cbn [fst snd] in *;
    [|apply leg_raise; [by etrans|right; congruence]].
  assert (preparing s s3) as P3' by (by etrans). rewrite Q2 in Q3.
  unfold py_bind at 1. destruct (negb c.1 && (0 <? c.2)%Z); [|by apply leg_tail_spec].
  unfold py_bind at 1, force_cancel.
  pose proof (bcall_holding (ForceCancelled symbol) (force_cancel_all_orders_for_symbol B symbol) s3 eq_refl) as [P4 Q4].
  destruct (bcall (ForceCancelled symbol) _ s3) as [[n|e] s4]; cbn [fst snd] in *;
    [|apply leg_raise; [by etrans|right; congruence]].
  pose proof (bcall_holding (AwaitedFor (upper symbol)) (await_open_orders_cleared B (upper symbol)) s4 eq_refl) as [P5 Q5].
  assert (preparing s s4) as P4' by (by etrans).
  destruct (bcall (AwaitedFor _) _ s4) as [[c'|e] s5]; cbn [fst snd] in *;
    [apply leg_tail_spec; [by etrans|congruence]|apply leg_raise; [by etrans|right; congruence]].
Qed.
End FlattenLemmas.

(** ** Properties *)

(** C3: Per-symbol isolation: once the broker has listed its positions, a portfolio
    flatten sends a flatten for every position with a positive (or NaN) quantity,
    in order and exactly once, and drops every staged order, whichever cancellation,
    clearance, flatten or log call raises; the one exception is the clearing of the staged
    orders itself: when SQLite refuses it, that error is raised and nothing is flattened.
    Either way the guard is released, the leg guards are left alone, and a result that is
    returned reports only symbols that were sent. *)
Theorem portfolio_flatten_reaches_all {W} (B : flatten_broker W) reason s ps w :
  portfolio_flattening s = false -> get_positions B (fl_env s) = (Ok ps, w) ->
  let '(out, s') := execute_portfolio_flatten B reason s in
  portfolio_flattening s' = false /\ leg_flattening s' = leg_flattening s /\
  ((exists e w1 w2, stage_write B w1 = (Raise e, w2) /\ out = Raise e /\ sent (fl_log s') = sent (fl_log s)) \/
   (sent (fl_log s') = sent (fl_log s) ++ concat (map owed ps) /\ pending_orders s' = ∅ /\
    forall r, out = Ok r ->
      fr_executed r = true /\
      forall sym, sym ∈ symbols_flattened r ++ symbols_failed r ->
        sym ∈ map (fun o => o.1.1) (concat (map owed ps)))).
Proof.
  intros Hf Hp. unfold execute_portfolio_flatten. rewrite Hf. unfold portfolio_body.
  set (s1 := set_flattening true s). unfold py_bind at 1, bcall at 1. cbn [fl_env s1 set_flattening]. rewrite Hp.
  set (s2 := put_env w AskedPositions s1).
  assert (preparing s1 s2) as P2.
  { split; [|done..]. unfold s2, put_env. cbn [fl_log]. rewrite sent_app. by rewrite app_nil_r. }
  cbv zeta. unfold py_bind at 1.
  destruct (for_each_ok (portfolio_symbols ps) (cancel_symbol B) s2) as (s3 & -> & P3);
    [intros; apply cancel_symbol_ok|].
  unfold py_bind at 1.
  destruct (for_each_ok (portfolio_symbols ps) (await_symbol B) s3) as (s4 & -> & P4);
    [intros; apply await_symbol_ok|].
  assert (preparing s1 s4) as [L4 F4 G4] by (by etrans; [|etrans]).
  unfold py_bind at 1, clear_staged. unfold py_bind at 1, bcall at 1.
  destruct (stage_write B (fl_env s4)) as [[u|e] w5] eqn:Ew.
  2: { unfold put_env. cbn [portfolio_flattening leg_flattening set_flattening fl_log]. rewrite sent_app, L4, app_nil_r.
       split_and!; [done..|]. left. eauto 10. }
  unfold py_modify. set (s5 := set_pending _ _).
  assert (sent (fl_log s5) = sent (fl_log s)) as L5.
  { unfold s5, put_env. cbn [fl_log set_pending]. rewrite sent_app, L4. by rewrite app_nil_r. }
  assert (pending_orders s5 = ∅ /\ leg_flattening s5 = leg_flattening s) as [Q5 G5] by done.
  clearbody s5. clear -L5 Q5 G5.
  set (loop := match ps with [] => _ | _ => _ end). unfold py_bind at 1.
  assert (exists r s6, loop s5 = (r, s6) /\ sent (fl_log s6) = sent (fl_log s) ++ concat (map owed ps) /\
    pending_orders s6 = ∅ /\ leg_flattening s6 = leg_flattening s /\
    forall acc, r = Ok acc -> forall sym, sym ∈ acc.1 ++ acc.2 -> sym ∈ map (fun o => o.1.1) (concat (map owed ps)))
    as (r & s6 & -> & L6 & Q6 & G6 & Hin).
  { subst loop. destruct ps as [|p ps].
    - unfold py_bind, bcall. destruct (close_all_positions B (fl_env s5)) as [[[]|e] w1];
        (do 2 eexists; split; [done|]); unfold put_env; cbn [fl_log pending_orders leg_flattening];
        rewrite sent_app, L5; (split_and!; [done..|]); by intros acc [= <-].
    - destruct (flatten_positions_spec B (p :: ps) ([], []) s5)
        as (fl & fa & s' & -> & Hs & Hl & Hq & Hin & _).
      do 2 eexists. split; [done|]. rewrite Hs, L5, Hl, Hq. split_and!; [done..|].
      by intros acc [= <-]. }
  unfold py_bind, bcall, py_ret. destruct r as [acc|e]; cbn [set_flattening].
  - destruct (log_system_event B _ (fl_env s6)) as [[[]|e] w2]; unfold put_env; cbn [fl_log];
      cbn [pending_orders portfolio_flattening leg_flattening set_flattening fl_log];
      (split_and!; [done..|]; right); rewrite sent_app, L6, app_nil_r; (split_and!; [done..|]); intros r [= <-]; cbn. split; [done|].
    by apply Hin.
  - split_and!; [done..|]. right. by split_and!.
Qed.

(** A broker that lists three positions, raises on every cancellation and on the
    flatten of SPY, and answers otherwise. *)
Definition failing_broker : flatten_broker unit :=
  mkFlattenBroker
    (fun w => (Ok [mkPosition "qqq" (of_Z 10) "long" fzero fzero; mkPosition "SPY" (of_Z 5) "short" fzero fzero;
                   mkPosition "iwm" fzero "long" fzero fzero; mkPosition "dia" (of_Z 2) "long" fzero fzero], w))
    (fun _ w => (Raise "cancel", w)) (fun _ w => (Raise "force", w)) (fun _ w => (Ok (false, 1%Z), w))
    (fun sym _ _ w => (if bool_decide (sym = "SPY") then Raise "rejected" else Ok true, w))
    (fun w => (Ok tt, w)) (fun _ w => (Ok tt, w)) (fun w => (Ok tt, w)).
Definition fresh_protocol : protocol unit := mkProtocol false ∅ ∅ tt [].

Lemma portfolio_flatten_reaches_all_witness :
  let out := execute_portfolio_flatten failing_broker "kill" fresh_protocol in
  map (fun o => o.1.1) (sent (fl_log out.2)) = ["QQQ"; "SPY"; "DIA"] /\
  portfolio_flattening out.2 = false.
Proof.
  split; [vm_compute; reflexivity|].
  pose proof (portfolio_flatten_reaches_all failing_broker "kill" fresh_protocol _ tt eq_refl eq_refl) as H.
  destruct (execute_portfolio_flatten failing_broker "kill" fresh_protocol) as [out s'].
  exact (proj1 H).
Defined.

(** A database that refuses the delete stops the flatten of the whole portfolio. *)
Lemma refused_clear_stops_the_flatten :
  let B := mkFlattenBroker (fun w : unit => (Ok [mkPosition "SPY" (of_Z 5) "long" fzero fzero], w)) (fun _ w => (Ok 0%Z, w))
    (fun _ w => (Ok 0%Z, w)) (fun _ w => (Ok (true, 0%Z), w)) (fun _ _ _ w => (Ok true, w)) (fun w => (Ok tt, w))
    (fun _ w => (Ok tt, w)) (fun w => (Raise "database is locked", w)) in
  let out := execute_portfolio_flatten B "kill" fresh_protocol in
  out.1 = Raise "database is locked" /\ sent (fl_log out.2) = [].
Proof. by vm_compute. Qed.

(** A flatten already in progress is not started twice: the second call returns a
    skipped result and makes no broker call. A leg flatten, however it ends, hands
    its guard back, sends at most one flatten, and sends it (after cancelling and
    clearing the staged orders of the leg) whenever it returns and the leg held a
    position; it leaves the staged orders alone when the cancellation raised. *)
Theorem leg_flatten_guarded {W} (B : flatten_broker W) sid symbol side qty s :
  (portfolio_flattening s = true -> forall reason,
     execute_portfolio_flatten B reason s =
       (Ok (mkFlattenResult false true "portfolio_flatten_already_active" [] []), s)) /\
  (is_leg_flattening sid symbol s = true -> execute_leg_flatten B sid symbol side qty s = (Ok false, s)) /\
  (is_leg_flattening sid symbol s = false ->
     let '(out, s') := execute_leg_flatten B sid symbol side qty s in
     let exposed := fltb fzero qty && (bool_decide (side = "long") || bool_decide (side = "short")) in
     leg_flattening s' = leg_flattening s /\ portfolio_flattening s' = portfolio_flattening s /\
     (pending_orders s' = pending_orders s \/
      pending_orders s' = (clear_prefix sid symbol (pending_orders s)).2) /\
     (exists n, sent (fl_log s') = sent (fl_log s) ++ repeat (symbol, side, qty) n /\ (n <= 1)%nat /\
        (exposed = false -> n = 0%nat) /\
        (forall c, out = Ok c -> (exposed = true -> n = 1%nat) /\
           pending_orders s' = (clear_prefix sid symbol (pending_orders s)).2))).
Proof.
  split_and!.
  - intros Hf reason. unfold execute_portfolio_flatten. by rewrite Hf.
  - unfold is_leg_flattening, execute_leg_flatten. by intros ->.
  - unfold is_leg_flattening, execute_leg_flatten. intros Hk. rewrite Hk.
    apply bool_decide_eq_false in Hk. set (key := String.append sid _) in *.
    set (exposed := fltb fzero qty && _).
    set (s1 := set_legs _ s).
    pose proof (leg_body_spec B sid symbol side qty s1) as (H1 & H2 & H3 & H4).
    destruct (leg_body B sid symbol side qty s1) as [out s2]. cbn [fst snd] in *.
    unfold set_legs at 1 2 3 4 5 6. cbn [leg_flattening portfolio_flattening pending_orders fl_log].
    rewrite H1, H2. unfold s1 at 1. cbn [leg_flattening set_legs]. split; [set_solver|]. by split_and!.
Qed.

Definition open_leg : protocol unit :=
  mkProtocol false ∅ {["leg_a:SPY:1" := mkStaged "leg_a" "SPY" "buy" (Some "b1") "t"]} tt [].
Definition clearing_broker : flatten_broker unit :=
  mkFlattenBroker (fun w => (Ok [], w)) (fun _ w => (Ok 1%Z, w)) (fun _ w => (Ok 1%Z, w))
    (fun _ w => (Ok (true, 0%Z), w)) (fun _ _ _ w => (Ok true, w)) (fun w => (Ok tt, w)) (fun _ w => (Ok tt, w)) (fun w => (Ok tt, w)).

Lemma leg_flatten_guarded_witness :
  (execute_leg_flatten clearing_broker "leg_a" "spy" "long" (of_Z 3) open_leg).1 = Ok true /\
  leg_flattening (execute_leg_flatten clearing_broker "leg_a" "spy" "long" (of_Z 3) open_leg).2 = ∅.
Proof.
  split; [vm_compute; reflexivity|].
  pose proof (proj2 (proj2 (leg_flatten_guarded clearing_broker "leg_a" "spy" "long" (of_Z 3) open_leg))
    ltac:(vm_compute; reflexivity)) as H.
  destruct (execute_leg_flatten clearing_broker "leg_a" "spy" "long" (of_Z 3) open_leg) as [o t].
  exact (proj1 H).
Defined.
