(* ===== verification/Journal.v ===== *)
(** * The immutable change journal

    [src/engine/governance.py], class [ImmutableChangeJournal]: the append-only audit
    trail, every row signed with an HMAC over its canonical text. The SQLite table is
    the list of its rows in the order of their autoincremented ids (its triggers
    refuse updates and deletes); a JSON column holds the dict that was written. [key]
    is the environment variable that holds the signing key. *)

From stdpp Require Import base gmap strings list.
From Stdlib Require Import ZArith Lia.
From S2P Require Import Prelude PyFloat Models Sha256 ConfigHash.

Inductive TriggeredBy := SYSTEM_AUTOMATIC | HUMAN_OPERATOR.
#[export] Instance TriggeredBy_eq_dec : EqDecision TriggeredBy.
Proof. solve_decision. Defined.

Definition TriggeredBy_value (t : TriggeredBy) : string :=
  match t with SYSTEM_AUTOMATIC => "SYSTEM_AUTOMATIC" | HUMAN_OPERATOR => "HUMAN_OPERATOR" end.

Definition SYSTEM_OPERATOR_MARKERS : list string :=
  ["risk_escalation"; "governor"; "system"; "automatic"; "degrad"; "preempt"; "boot_recon";
   "reconcil"; "watchdog"; "kill_switch"; "capacity"].

Definition actor_from_operator (operator : string) : TriggeredBy :=
  let op := lower (strip operator) in
  if existsb (fun marker => str_contains marker op) SYSTEM_OPERATOR_MARKERS
  then SYSTEM_AUTOMATIC else HUMAN_OPERATOR.

Definition EVENT_KILL_SWITCH_ENGAGED : string := "KILL_SWITCH_ENGAGED".
Definition EVENT_KILL_SWITCH_RELEASED : string := "KILL_SWITCH_RELEASED".
Definition EVENT_STATE_RECON_RECOVERY : string := "STATE_RECON_RECOVERY".
Definition EVENT_PARAMETER_UPDATE : string := "PARAMETER_UPDATE".
Definition EVENT_CHAMPION_PROMOTION : string := "CHAMPION_PROMOTION".
Definition EVENT_AI_LIFECYCLE_ADJUSTMENT : string := "AI_LIFECYCLE_ADJUSTMENT".
Definition EVENT_MANUAL_CONFIG_OVERRIDE : string := "MANUAL_CONFIG_OVERRIDE".
Definition EVENT_RECOVERY_ROLLBACK : string := "RECOVERY_ROLLBACK".

Notation dict := (list (string * json)).

Record ChangeJournalEntry := mkJournalEntry {
  journal_id : Z;
  ce_timestamp : string;
  ce_event_type : string;
  ce_triggered_by : string;
  ce_scope_key : string;
  previous_state : dict;
  requested_state : dict;
  ce_rationale_hash : string;
  payload_signature : string;
  ce_metadata : dict
}.

(** ** Signatures *)

Definition hash_rationale : string -> string := sha256_hex.

Definition signing_key (key : option string) : string :=
  default "local-dev-governance-signing-key" key.

Definition sign_journal_payload (key : option string)
    (timestamp event_type triggered_by scope_key : string) (previous requested : dict)
    (rationale_hash : string) : string :=
  let canonical := dumps (sort_json (JObj
    [("timestamp", JStr timestamp); ("event_type", JStr event_type);
     ("triggered_by", JStr triggered_by); ("scope_key", JStr scope_key);
     ("previous_state", JObj previous); ("requested_state", JObj requested);
     ("rationale_hash", JStr rationale_hash)])) in
  hmac_sha256_hex (signing_key key) canonical.

Definition verify_journal_signature (key : option string) (e : ChangeJournalEntry) : bool :=
  bool_decide (payload_signature e =
    sign_journal_payload key (ce_timestamp e) (ce_event_type e) (ce_triggered_by e)
      (ce_scope_key e) (previous_state e) (requested_state e) (ce_rationale_hash e)).

(** ** The table *)

Notation journal := (list ChangeJournalEntry).

(** [append]: the row gets the next id. *)
Definition journal_append (key : option string) (event_type triggered scope_key timestamp : string)
    (previous requested : dict) (rationale : string) (metadata : dict) (j : journal)
    : result string ChangeJournalEntry * journal :=
  let rationale_hash := hash_rationale rationale in
  let signature := sign_journal_payload key timestamp event_type triggered scope_key previous
                     requested rationale_hash in
  let entry := mkJournalEntry (Z.of_nat (S (length j))) timestamp event_type triggered scope_key
                 previous requested rationale_hash signature metadata in
  (if verify_journal_signature key entry then Ok entry
   else Raise "journal signature verification failed after insert",
   j ++ [entry]).

Definition record_parameter_update (key : option string) (strategy_id : string)
    (previous_params requested_params : dict) (rationale : string) (triggered_by : TriggeredBy)
    (metadata : dict) (now : string) (j : journal) : result string ChangeJournalEntry * journal :=
  journal_append key EVENT_PARAMETER_UPDATE (TriggeredBy_value triggered_by) strategy_id now
    [("params", JObj previous_params)] [("params", JObj requested_params)] rationale metadata j.

Definition record_champion_promotion (key : option string) (symbol regime : string)
    (previous_champion : option dict) (requested_champion : dict) (rationale : string)
    (triggered_by : TriggeredBy) (now : string) (j : journal)
    : result string ChangeJournalEntry * journal :=
  journal_append key EVENT_CHAMPION_PROMOTION (TriggeredBy_value triggered_by)
    (String.append (upper symbol) (String.append ":" regime)) now
    (default [] previous_champion) requested_champion rationale [] j.

Definition record_ai_lifecycle_adjustment (key : option string) (strategy_id : string)
    (previous requested : dict) (rationale : string) (triggered_by : TriggeredBy) (now : string)
    (j : journal) : result string ChangeJournalEntry * journal :=
  journal_append key EVENT_AI_LIFECYCLE_ADJUSTMENT (TriggeredBy_value triggered_by) strategy_id now
    previous requested rationale [] j.

Definition record_manual_override (key : option string) (scope_key : string)
    (previous requested : dict) (rationale operator now : string) (j : journal)
    : result string ChangeJournalEntry * journal :=
  journal_append key EVENT_MANUAL_CONFIG_OVERRIDE (TriggeredBy_value HUMAN_OPERATOR) scope_key now
    previous requested rationale [("operator", JStr operator)] j.

Definition record_recovery_rollback (key : option string) (scope_key : string)
    (previous requested : dict) (rationale : string) (triggered_by : TriggeredBy) (metadata : dict)
    (now : string) (j : journal) : result string ChangeJournalEntry * journal :=
  journal_append key EVENT_RECOVERY_ROLLBACK (TriggeredBy_value triggered_by) scope_key now
    previous requested rationale metadata j.

(** [_row_to_journal_entry]: an empty scope key reads back as [GLOBAL]. *)
Definition row_to_journal_entry (row : ChangeJournalEntry) : ChangeJournalEntry :=
  mkJournalEntry (journal_id row) (ce_timestamp row) (ce_event_type row) (ce_triggered_by row)
    (str_or (ce_scope_key row) "GLOBAL") (previous_state row) (requested_state row)
    (ce_rationale_hash row) (payload_signature row) (ce_metadata row).

Definition fetch_entry (id : Z) (j : journal) : option ChangeJournalEntry :=
  row_to_journal_entry <$> head (filter (fun r => journal_id r = id) j).

(** SQLite's [LIMIT]: a negative limit is none. *)
Definition sql_limit {A} (n : Z) (l : list A) : list A :=
  if (n <? 0)%Z then l else take (Z.to_nat n) l.

Definition fetch_recent (limit : Z) (event_type scope_key : option string) (j : journal) : journal :=
  let keep r :=
    (if truthy_opt event_type then bool_decide (Some (ce_event_type r) = event_type) else true) &&
    (if truthy_opt scope_key then bool_decide (Some (ce_scope_key r) = scope_key) else true) in
  map row_to_journal_entry (sql_limit limit (List.filter keep (rev j))).

(** ** The production check *)

Definition is_production_environment (environment : string) : bool :=
  bool_decide (lower (strip environment) ∈ ["live"; "production"]).

Inductive governance_error := SigningKeyMissing | SignatureInvalid (id : Z).

Definition validate_production_governance_journal (key : option string) (environment : string)
    (scan_limit : Z) (j : journal) : result governance_error unit :=
  if negb (is_production_environment environment) then Ok tt else
  if negb (truthy (strip (default "" key))) then Raise SigningKeyMissing else
  match List.find (fun e => negb (verify_journal_signature key e))
          (fetch_recent (Z.max scan_limit 1) None None j) with
  | Some e => Raise (SignatureInvalid (journal_id e))
  | None => Ok tt
  end.

(** ** What an append does: it succeeds, and the new row is the last one *)

Lemma journal_append_spec key ty by_ scope now prev req why meta j :
  exists e, journal_append key ty by_ scope now prev req why meta j = (Ok e, j ++ [e]) /\
    ce_event_type e = ty /\ ce_scope_key e = scope /\
    verify_journal_signature key e = true /\ journal_id e = Z.of_nat (S (length j)).
Proof.
  unfold journal_append. cbv zeta. set (e := mkJournalEntry _ _ _ _ _ _ _ _ _ _).
  assert (verify_journal_signature key e = true) as Hv
    by (unfold verify_journal_signature; by apply bool_decide_true).
  exists e. by rewrite Hv.
Qed.

(** Replaces the append of the goal by its outcome, the new row [e]. *)
Ltac journal_append_case e :=
  let Ht := fresh "Htype" in let Hs := fresh "Hscope" in
  let Hv := fresh "Hsigned" in let Hi := fresh "Hid" in
  match goal with |- context [journal_append ?a ?b ?c ?d ?e1 ?f ?g ?h ?i ?j] =>
    destruct (journal_append_spec a b c d e1 f g h i j) as (e & -> & Ht & Hs & Hv & Hi) end.

(** ** What the production check accepts *)

Record append_call := mkAppendCall {
  ap_event_type : string; ap_triggered_by : string; ap_scope_key : string; ap_timestamp : string;
  ap_previous : dict; ap_requested : dict; ap_rationale : string; ap_metadata : dict
}.

Definition append_step (key : option string) (j : journal) (c : append_call) : journal :=
  (journal_append key (ap_event_type c) (ap_triggered_by c) (ap_scope_key c) (ap_timestamp c)
     (ap_previous c) (ap_requested c) (ap_rationale c) (ap_metadata c) j).2.

Definition appended (key : option string) (calls : list append_call) : journal :=
  runs (append_step key) [] calls.

(** The row, as it is read back, carries the signature of what it says. *)
Definition intact (key : option string) (r : ChangeJournalEntry) : bool :=
  verify_journal_signature key (row_to_journal_entry r).

Lemma appended_intact key calls :
  Forall (fun c => truthy (ap_scope_key c) = true) calls ->
  Forall (fun r => intact key r = true) (appended key calls) /\
  length (appended key calls) = length calls.
Proof.
  unfold appended. induction calls as [|c calls IH] using rev_ind; [done|].
  intros [H1 H2]%Forall_app. inversion_clear H2 as [|? ? Hc _]. destruct (IH H1) as [Hi Hl].
  rewrite runs_snoc. unfold append_step at 1 3, journal_append. cbn [snd].
  rewrite !length_app, Hl. split; [|done]. apply Forall_app_2; [done|]. constructor; [|done].
  unfold intact, verify_journal_signature, row_to_journal_entry, str_or; simpl. rewrite Hc.
  by apply bool_decide_true.
Qed.

Lemma fetch_recent_all n j :
  fetch_recent n None None j = map row_to_journal_entry (sql_limit n (rev j)).
Proof.
  unfold fetch_recent; simpl. f_equal. f_equal. induction (rev j); simpl; by f_equal.
Qed.

Lemma find_not_intact key l :
  Forall (fun r => intact key r = true) l ->
  List.find (fun e => negb (verify_journal_signature key e)) (map row_to_journal_entry l) = None.
Proof.
  induction 1 as [|r l Hr _ IH]; simpl; [done|]. unfold intact in Hr. by rewrite Hr.
Qed.

Lemma find_app_none {A} (f : A -> bool) l l' :
  List.find f l = None -> List.find f (l ++ l') = List.find f l'.
Proof. induction l as [|x l IH]; simpl; [done|]. destruct (f x); [done|auto]. Qed.

(** In production, a journal written through [append] passes for every scan limit, and
    a journal in which one row was replaced passes exactly when the new row carries
    the signature of its content or is older than the scanned ones; otherwise the check
    names that row. *)
Theorem production_check_finds_edit key env limit calls i row'
    (Hprod : is_production_environment env = true)
    (Hkey : truthy (strip (default "" key)) = true)
    (Hscopes : Forall (fun c => truthy (ap_scope_key c) = true) calls)
    (Hi : (i < length calls)%nat) :
  validate_production_governance_journal key env limit (appended key calls) = Ok tt /\
  validate_production_governance_journal key env limit (<[i := row']> (appended key calls)) =
    (if intact key row' || (Z.of_nat i <? Z.of_nat (length calls) - Z.max limit 1)%Z then Ok tt
     else Raise (SignatureInvalid (journal_id row'))).
Proof.
  unfold validate_production_governance_journal. rewrite Hprod, Hkey. cbn [negb].
  destruct (appended_intact key calls Hscopes) as [Hall Hlen].
  rewrite !fetch_recent_all. set (n := Z.max limit 1). unfold sql_limit.
  destruct (Z.ltb_spec n 0) as [|_]; [lia|]. split.
  { rewrite find_not_intact; [done|]. by apply Forall_take, Forall_rev. }
  set (j := appended key calls) in *.
  rewrite (insert_take_drop j i row') by lia.
  assert (Forall (fun r => intact key r = true) (rev (drop (S i) j))) as Hnew
    by (by apply Forall_rev, Forall_drop).
  assert (Forall (fun r => intact key r = true) (rev (take i j))) as Hold
    by (by apply Forall_rev, Forall_take).
  rewrite rev_app_distr. simpl rev. rewrite <- app_assoc. simpl app.
  set (new := rev (drop (S i) j)) in *. set (old := rev (take i j)) in *.
  assert (length new = (length calls - S i)%nat) as Hm
    by (unfold new; rewrite length_rev, length_drop; lia).
  rewrite take_app, map_app, find_app_none by (apply find_not_intact, Forall_take, Hnew).
  destruct (Z.ltb_spec (Z.of_nat i) (Z.of_nat (length calls) - n)) as [Hlt|Hge].
  - replace (Z.to_nat n - length new)%nat with 0%nat by lia. simpl. by rewrite orb_true_r.
  - destruct (Z.to_nat n - length new)%nat as [|m] eqn:En; [lia|]. simpl.
    fold (intact key row'). destruct (intact key row'); simpl; [|done].
    by rewrite find_not_intact by (by apply Forall_take).
Qed.

Definition promote_call : append_call :=
  mkAppendCall EVENT_CHAMPION_PROMOTION "HUMAN_OPERATOR" "BTC:CALM" "2026-01-05T10:00:00+00:00"
    [("id", JStr "old")] [("id", JStr "new"); ("w", JFloat (lit 5 1))] "better" [].

(** The same row, its requested state edited. *)
Definition forged_row : ChangeJournalEntry :=
  match appended (Some "k") [promote_call] with
  | r :: _ => mkJournalEntry (journal_id r) (ce_timestamp r) (ce_event_type r) (ce_triggered_by r)
                (ce_scope_key r) (previous_state r) [("id", JStr "mine")] (ce_rationale_hash r)
                (payload_signature r) (ce_metadata r)
  | [] => mkJournalEntry 0 "" "" "" "" [] [] "" "" []
  end.

Lemma production_check_finds_edit_witness :
  validate_production_governance_journal (Some "k") " LIVE " 500
    (<[0%nat := forged_row]> (appended (Some "k") [promote_call])) = Raise (SignatureInvalid 1).
Proof.
  destruct (production_check_finds_edit (Some "k") " LIVE " 500 [promote_call] 0 forged_row
              ltac:(vm_compute; reflexivity) ltac:(vm_compute; reflexivity)
              ltac:(repeat constructor) ltac:(simpl; lia)) as [_ H].
  rewrite H. vm_compute. reflexivity.
Defined.

(** The signature does not cover the metadata, where a manual override keeps its
    operator: a row whose metadata was edited verifies as before. *)
Lemma metadata_is_not_signed key e meta :
  verify_journal_signature key
    (mkJournalEntry (journal_id e) (ce_timestamp e) (ce_event_type e) (ce_triggered_by e)
       (ce_scope_key e) (previous_state e) (requested_state e) (ce_rationale_hash e)
       (payload_signature e) meta) = verify_journal_signature key e.
Proof. done. Qed.

(** A row appended under an empty scope is read back under [GLOBAL], which is not
    what was signed: production then refuses the journal. *)
Lemma empty_scope_fails_production :
  validate_production_governance_journal (Some "k") "live" 500
    (appended (Some "k") [mkAppendCall EVENT_PARAMETER_UPDATE "SYSTEM_AUTOMATIC" ""
       "2026-01-05T10:00:00+00:00" [] [] "tune" []]) = Raise (SignatureInvalid 1).
Proof. vm_compute. reflexivity. Qed.
