(* ===== verification/Governance.v ===== *)
(** * Human overrides and control-plane latches

    [src/engine/governance.py]: the kill-switch registry, a SQLite table with a
    mirror in a JSON file that survives the loss of the database, every change
    journalled in [Journal]; and the pre-flight reconciliation lock. With it the
    deferred-reconciliation latch of [src/engine/recon_recovery.py], a row of the
    same table. *)

From stdpp Require Import base gmap strings list.
From Stdlib Require Import ZArith Lia.
From S2P Require Import Prelude PyFloat Models Sha256 Journal.

(** ** Kill switches *)

Inductive KillLevel := STRATEGY_HALT | PORTFOLIO_HALT | RESEARCH_HALT | AI_HALT.
#[export] Instance KillLevel_eq_dec : EqDecision KillLevel.
Proof. solve_decision. Defined.

Definition KillLevel_value (k : KillLevel) : string :=
  match k with
  | STRATEGY_HALT => "STRATEGY_HALT"
  | PORTFOLIO_HALT => "PORTFOLIO_HALT"
  | RESEARCH_HALT => "RESEARCH_HALT"
  | AI_HALT => "AI_HALT"
  end.

(** [KillLevel(text)]: [None] where Python raises [ValueError]. *)
Definition KillLevel_of_value (s : string) : option KillLevel :=
  if bool_decide (s = "STRATEGY_HALT") then Some STRATEGY_HALT
  else if bool_decide (s = "PORTFOLIO_HALT") then Some PORTFOLIO_HALT
  else if bool_decide (s = "RESEARCH_HALT") then Some RESEARCH_HALT
  else if bool_decide (s = "AI_HALT") then Some AI_HALT
  else None.

Lemma KillLevel_value_roundtrip k : KillLevel_of_value (KillLevel_value k) = Some k.
Proof. by destruct k. Qed.

#[export] Instance KillLevel_countable : Countable KillLevel.
Proof.
  apply (inj_countable KillLevel_value KillLevel_of_value).
  exact KillLevel_value_roundtrip.
Defined.

Notation switch := (KillLevel * string)%type.

(** A row of [human_override_registry], by its primary key. *)
Record override_row := mkOverrideRow {
  or_active : bool;
  or_engaged_at : option string;
  or_engaged_by : option string;
  or_rationale_hash : option string;
  or_metadata : dict
}.

Record KillSwitchState := mkKillState {
  ks_level : KillLevel;
  ks_scope : string;
  ks_active : bool;
  ks_engaged_at : option string;
  ks_engaged_by : option string;
  ks_rationale_hash : option string
}.

Record OverrideSnapshot := mkOverrideSnapshot {
  strategy_halts : gset string;
  portfolio_halt : bool;
  research_halt : bool;
  ai_halt : bool;
  ov_states : list KillSwitchState
}.

(** An item of the state file; the level is a text until it is parsed. *)
Record file_item := mkFileItem {
  fi_level : string;
  fi_scope : option string;
  fi_active : bool;
  fi_engaged_at : option string;
  fi_engaged_by : option string;
  fi_rationale_hash : option string
}.

(** [None]: the file is absent, or is not readable as JSON. *)
Notation state_file := (option (list file_item)).

Record HumanOverrideRegistry := mkRegistry {
  hr_rows : gmap (KillLevel * string) override_row;
  hr_file : option (list file_item);
  hr_journal : list ChangeJournalEntry
}.

Definition registry_init : HumanOverrideRegistry := mkRegistry ∅ None [].

Definition set_rows (m : gmap (KillLevel * string) override_row) (r : HumanOverrideRegistry)
    : HumanOverrideRegistry := mkRegistry m (hr_file r) (hr_journal r).

Definition get_state (k : switch) (r : HumanOverrideRegistry) : KillSwitchState :=
  match hr_rows r !! k with
  | None => mkKillState k.1 k.2 false None None None
  | Some o => mkKillState k.1 k.2 (or_active o) (or_engaged_at o) (or_engaged_by o)
                (or_rationale_hash o)
  end.

(** The upsert of [engage]; the one of the hydration keeps the old metadata. *)
Definition upsert (k : switch) (o : override_row) (keep_metadata : bool)
    (m : gmap (KillLevel * string) override_row) : gmap (KillLevel * string) override_row :=
  match m !! k with
  | Some old =>
      <[k := mkOverrideRow (or_active o) (or_engaged_at o) (or_engaged_by o) (or_rationale_hash o)
               (if keep_metadata then or_metadata old else or_metadata o)]> m
  | None => <[k := o]> m
  end.

(** The states [_read_db_snapshot] collects: the active rows, an empty scope read
    as [GLOBAL]. *)
Definition active_states (m : gmap (KillLevel * string) override_row) : list KillSwitchState :=
  omap (fun p : switch * override_row =>
    if or_active p.2
    then Some (mkKillState p.1.1 (str_or p.1.2 "GLOBAL") true (or_engaged_at p.2)
                 (or_engaged_by p.2) (or_rationale_hash p.2))
    else None) (map_to_list m).

Definition read_db_snapshot (r : HumanOverrideRegistry) : OverrideSnapshot :=
  let states := active_states (hr_rows r) in
  mkOverrideSnapshot
    (list_to_set (map ks_scope (List.filter (fun s =>
       bool_decide (ks_level s = STRATEGY_HALT) && negb (bool_decide (ks_scope s = "GLOBAL")))
       states)))
    (existsb (fun s => bool_decide (ks_level s = PORTFOLIO_HALT)) states)
    (existsb (fun s => bool_decide (ks_level s = RESEARCH_HALT)) states)
    (existsb (fun s => bool_decide (ks_level s = AI_HALT)) states)
    states.

Definition file_of (s : OverrideSnapshot) : list file_item :=
  map (fun k => mkFileItem (KillLevel_value (ks_level k)) (Some (ks_scope k)) (ks_active k)
                  (ks_engaged_at k) (ks_engaged_by k) (ks_rationale_hash k)) (ov_states s).

(** [_sync_state_file]: the file mirrors the database. *)
Definition sync_state_file (r : HumanOverrideRegistry) : HumanOverrideRegistry :=
  mkRegistry (hr_rows r) (Some (file_of (read_db_snapshot r))) (hr_journal r).

(** One item of [_hydrate_from_state_file]. *)
Definition hydrate_item (r : HumanOverrideRegistry) (i : file_item) : HumanOverrideRegistry :=
  if negb (fi_active i) then r else
  match KillLevel_of_value (fi_level i) with
  | None => r
  | Some level =>
      let k := (level, opt_or (fi_scope i) "GLOBAL") in
      if ks_active (get_state k r) then r
      else set_rows (upsert k (mkOverrideRow true (fi_engaged_at i) (fi_engaged_by i)
                                 (fi_rationale_hash i) []) true (hr_rows r)) r
  end.

(** The file is read once, the items are then applied one by one. *)
Definition hydrate_items (items : list file_item) (r : HumanOverrideRegistry)
    : HumanOverrideRegistry := fold_left hydrate_item items r.

Definition hydrate_from_state_file (r : HumanOverrideRegistry) : HumanOverrideRegistry :=
  match hr_file r with
  | None => r
  | Some items => hydrate_items items r
  end.

Definition override_snapshot (r : HumanOverrideRegistry)
    : OverrideSnapshot * HumanOverrideRegistry :=
  let r := hydrate_from_state_file r in (read_db_snapshot r, r).

Definition is_strategy_halted (strategy_id : string) (r : HumanOverrideRegistry)
    : bool * HumanOverrideRegistry :=
  let '(snap, r) := override_snapshot r in
  (if portfolio_halt snap then true
   else bool_decide (strategy_id ∈ strategy_halts snap) ||
        bool_decide ("GLOBAL" ∈ strategy_halts snap), r).

Definition is_portfolio_halted (r : HumanOverrideRegistry) : bool * HumanOverrideRegistry :=
  let '(snap, r) := override_snapshot r in (portfolio_halt snap, r).

Definition is_research_halted (r : HumanOverrideRegistry) : bool * HumanOverrideRegistry :=
  let '(snap, r) := override_snapshot r in (research_halt snap, r).

Definition is_ai_halted (r : HumanOverrideRegistry) : bool * HumanOverrideRegistry :=
  let '(snap, r) := override_snapshot r in (ai_halt snap, r).

(** [passive_shadow] is the constant [AI_POLICY_PASSIVE_SHADOW] of the risk manager. *)
Definition apply_ai_halt_to_params (passive_shadow : json) (params : gmap string json)
    (r : HumanOverrideRegistry) : gmap string json * HumanOverrideRegistry :=
  let '(halted, r) := is_ai_halted r in
  if halted
  then (<["ai_halt_active" := JBool true]>
          (delete "_shadow_action_live"
             (<["ai_policy_execution_state" := passive_shadow]> params)), r)
  else (params, r).

(** The journal's scope of a switch. *)
Definition switch_scope (k : switch) : string :=
  String.append (KillLevel_value k.1) (String.append ":" k.2).

Definition actor_of (actor : option TriggeredBy) (operator : string) : string :=
  TriggeredBy_value (default (actor_from_operator operator) actor).

(** The first write of [engage], and the whole call. *)
Definition engage_row (k : switch) (operator rationale now : string) (metadata : dict)
    (r : HumanOverrideRegistry) : HumanOverrideRegistry :=
  set_rows (upsert k (mkOverrideRow true (Some now) (Some operator)
                        (Some (hash_rationale rationale)) metadata) false (hr_rows r)) r.

Definition engage (key : option string) (k : switch) (operator rationale : string)
    (metadata : dict) (actor : option TriggeredBy) (now : string)
    : py HumanOverrideRegistry string KillSwitchState := fun r =>
  let prior := get_state k r in
  let r := sync_state_file (engage_row k operator rationale now metadata r) in
  let '(entry, j) := journal_append key EVENT_KILL_SWITCH_ENGAGED (actor_of actor operator)
                       (switch_scope k) now [("active", JBool (ks_active prior))]
                       [("active", JBool true); ("operator", JStr operator)] rationale metadata
                       (hr_journal r) in
  let r := mkRegistry (hr_rows r) (hr_file r) j in
  match entry with
  | Raise e => (Raise e, r)
  | Ok _ => (Ok (mkKillState k.1 k.2 true (Some now) (Some operator)
                   (Some (hash_rationale rationale))), r)
  end.

(** The first write of [release]: the rows it updates, and the table after it. *)
Definition release_row (k : switch) (r : HumanOverrideRegistry) : nat * HumanOverrideRegistry :=
  match hr_rows r !! k with
  | Some o => (1%nat, set_rows (<[k := mkOverrideRow false (or_engaged_at o) (or_engaged_by o)
                                       (or_rationale_hash o) (or_metadata o)]> (hr_rows r)) r)
  | None => (0%nat, r)
  end.

Definition release (key : option string) (k : switch) (operator rationale : string)
    (actor : option TriggeredBy) (now : string)
    : py HumanOverrideRegistry string KillSwitchState := fun r =>
  let prior := get_state k r in
  let '(updated, r) := release_row k r in
  let r := sync_state_file r in
  let '(entry, r) :=
    if (updated =? 0)%nat || negb (ks_active prior) then (Ok tt, r)
    else
      let '(entry, j) := journal_append key EVENT_KILL_SWITCH_RELEASED (actor_of actor operator)
                           (switch_scope k) now [("active", JBool (ks_active prior))]
                           [("active", JBool false); ("operator", JStr operator)] rationale []
                           (hr_journal r) in
      (match entry with Ok _ => Ok tt | Raise e => Raise e end,
       mkRegistry (hr_rows r) (hr_file r) j) in
  match entry with
  | Raise e => (Raise e, r)
  | Ok _ =>
      if ks_active (get_state k r) then (Raise "KillSwitchReleaseError", r)
      else (Ok (mkKillState k.1 k.2 false (ks_engaged_at prior) (Some operator)
                  (Some (hash_rationale rationale))), r)
  end.

(** ** Latches

    [control_plane_latches]: the pre-flight reconciliation lock, and the deferred
    full reconciliation of [recon_recovery.py]. *)

Record latch_row := mkLatchRow {
  lr_active : bool;
  lr_reason : string;
  lr_metadata : dict;
  lr_updated_at : string
}.

Notation latches := (gmap string latch_row).

Definition PRE_FLIGHT_RECON_LATCH_KEY : string := "PRE_FLIGHT_RECON_LOCK".
Definition DEFERRED_PRE_OPEN_RECON_LATCH_KEY : string := "DEFERRED_PRE_OPEN_RECON".

Definition is_pre_flight_recon_locked (l : latches) : bool * string :=
  match l !! PRE_FLIGHT_RECON_LATCH_KEY with
  | Some r => if lr_active r then (true, lr_reason r) else (false, "")
  | None => (false, "")
  end.

Definition engage_pre_flight_recon_lock (reason : string) (metadata : dict) (now : string)
    (l : latches) : latches :=
  <[PRE_FLIGHT_RECON_LATCH_KEY := mkLatchRow true reason metadata now]> l.

Definition release_pre_flight_recon_lock (operator rationale now : string) (l : latches)
    : bool * latches :=
  match l !! PRE_FLIGHT_RECON_LATCH_KEY with
  | Some r =>
      if lr_active r
      then (true, <[PRE_FLIGHT_RECON_LATCH_KEY :=
              mkLatchRow false (String.append "released_by:" operator)
                [("release_rationale", JStr rationale)] now]> l)
      else (false, l)
  | None => (false, l)
  end.

Definition schedule_pre_open_full_recon (reason : string) (metadata : dict) (now : string)
    (l : latches) : latches :=
  <[DEFERRED_PRE_OPEN_RECON_LATCH_KEY := mkLatchRow true reason metadata now]> l.

(** [db_exists]: the vault file is there. *)
Definition is_deferred_pre_open_recon_scheduled (db_exists : bool) (l : latches) : bool :=
  db_exists &&
  match l !! DEFERRED_PRE_OPEN_RECON_LATCH_KEY with Some r => lr_active r | None => false end.

Definition clear_deferred_pre_open_recon (db_exists : bool) (now : string) (l : latches)
    : bool * latches :=
  if negb db_exists then (false, l) else
  match l !! DEFERRED_PRE_OPEN_RECON_LATCH_KEY with
  | Some r =>
      if lr_active r
      then (true, <[DEFERRED_PRE_OPEN_RECON_LATCH_KEY :=
              mkLatchRow false (lr_reason r) (lr_metadata r) now]> l)
      else (false, l)
  | None => (false, l)
  end.

(** ** Histories of the registry *)

(** A complete call, any of the queries, or the loss of the state file. *)
Inductive override_event :=
  | EvEngage (k : switch) (operator rationale : string) (metadata : dict)
      (actor : option TriggeredBy) (now : string)
  | EvRelease (k : switch) (operator rationale : string) (actor : option TriggeredBy) (now : string)
  | EvSnapshot
  | EvFileLost.

Definition override_step (key : option string) (r : HumanOverrideRegistry) (e : override_event)
    : HumanOverrideRegistry :=
  match e with
  | EvEngage k op rationale metadata actor now => (engage key k op rationale metadata actor now r).2
  | EvRelease k op rationale actor now => (release key k op rationale actor now r).2
  | EvSnapshot => (override_snapshot r).2
  | EvFileLost => mkRegistry (hr_rows r) None (hr_journal r)
  end.

(** The switches the commands leave engaged: the abstract registry. *)
Definition engaged_step (s : gset switch) (e : override_event) : gset switch :=
  match e with
  | EvEngage k _ _ _ _ _ => {[k]} ∪ s
  | EvRelease k _ _ _ _ => s ∖ {[k]}
  | _ => s
  end.

Definition engaged (evs : list override_event) : gset switch := runs engaged_step ∅ evs.

(** The commands name a scope. *)
Definition names_scope (e : override_event) : Prop :=
  match e with
  | EvEngage k _ _ _ _ _ | EvRelease k _ _ _ _ => truthy k.2 = true
  | _ => True
  end.

(** ** The mirror never resurrects a switch *)

Definition is_active (k : switch) (r : HumanOverrideRegistry) : bool := ks_active (get_state k r).

Definition scoped (r : HumanOverrideRegistry) : Prop :=
  map_Forall (fun k _ => truthy k.2 = true) (hr_rows r).

(** Every active item of the file is active in the database. *)
Definition mirrored (r : HumanOverrideRegistry) : Prop :=
  match hr_file r with
  | None => True
  | Some items => Forall (fun i => fi_active i = true -> forall level,
      KillLevel_of_value (fi_level i) = Some level ->
      is_active (level, opt_or (fi_scope i) "GLOBAL") r = true) items
  end.

Lemma str_or_truthy s d : truthy s = true -> str_or s d = s.
Proof. unfold str_or. by intros ->. Qed.

Lemma hydrate_items_noop items r :
  Forall (fun i => fi_active i = true -> forall level,
      KillLevel_of_value (fi_level i) = Some level ->
      is_active (level, opt_or (fi_scope i) "GLOBAL") r = true) items ->
  hydrate_items items r = r.
Proof.
  unfold hydrate_items. induction 1 as [|i items Hi _ IH]; simpl; [done|].
  assert (hydrate_item r i = r) as ->; [|done].
  unfold hydrate_item. destruct (fi_active i); simpl; [|done].
  destruct (KillLevel_of_value (fi_level i)) as [level|]; [|done].
  specialize (Hi eq_refl level eq_refl). unfold is_active in Hi. by rewrite Hi.
Qed.

Lemma hydrate_noop r : mirrored r -> hydrate_from_state_file r = r.
Proof.
  unfold mirrored, hydrate_from_state_file. destruct (hr_file r); [|done]. apply hydrate_items_noop.
Qed.

Lemma is_active_rows k r :
  is_active k r = true <-> exists o, hr_rows r !! k = Some o /\ or_active o = true.
Proof. unfold is_active, get_state. destruct (hr_rows r !! k); naive_solver. Qed.

Lemma elem_of_active_states s m :
  s ∈ active_states m <->
  exists k o, m !! k = Some o /\ or_active o = true /\
    s = mkKillState k.1 (str_or k.2 "GLOBAL") true (or_engaged_at o) (or_engaged_by o)
          (or_rationale_hash o).
Proof.
  unfold active_states. rewrite list_elem_of_omap. split.
  - intros ([k o] & Hin%elem_of_map_to_list & Hs). simpl in Hs. destruct (or_active o) eqn:E; naive_solver.
  - intros (k & o & Hk & Ho & ->). exists (k, o). rewrite elem_of_map_to_list. simpl. by rewrite Ho.
Qed.

(** Some switch of a level is active. *)
Definition level_active (l : KillLevel) (r : HumanOverrideRegistry) : Prop :=
  exists scope, is_active (l, scope) r = true.

Lemma active_state_iff l (P : string -> Prop) r :
  scoped r ->
  (exists s, s ∈ active_states (hr_rows r) /\ ks_level s = l /\ P (ks_scope s)) <->
  (exists scope, is_active (l, scope) r = true /\ P scope).
Proof.
  intros Hw. split.
  - intros (s & (k & o & Hk & Ho & ->)%elem_of_active_states & <- & HP); simpl in *.
    rewrite str_or_truthy in HP by apply (Hw k o Hk). exists k.2. split; [|done].
    apply is_active_rows. exists o. by destruct k.
  - intros (scope & (o & Hk & Ho)%is_active_rows & HP).
    eexists. rewrite elem_of_active_states. split; [by exists (l, scope), o|]. simpl.
    by rewrite str_or_truthy by apply (Hw _ o Hk).
Qed.

Lemma existsb_level l r :
  scoped r ->
  existsb (fun s => bool_decide (ks_level s = l)) (active_states (hr_rows r)) = true <->
  level_active l r.
Proof.
  intros Hw. rewrite existsb_exists. setoid_rewrite bool_decide_eq_true.
  pose proof (active_state_iff l (fun _ => True) r Hw) as H. unfold level_active.
  setoid_rewrite <- list_elem_of_In. naive_solver.
Qed.

Lemma sync_mirrored r : scoped r -> mirrored (sync_state_file r).
Proof.
  intros Hw. unfold mirrored, sync_state_file, file_of; simpl.
  apply Forall_map, Forall_forall. simpl. intros s (k & o & Hk & Ho & ->)%elem_of_active_states; simpl.
  intros _ level Hl. rewrite KillLevel_value_roundtrip in Hl. simplify_eq.
  rewrite !str_or_truthy; try apply (Hw _ _ Hk).
  - apply is_active_rows. exists o. by destruct k.
  - by rewrite str_or_truthy; apply (Hw _ _ Hk).
Qed.

(** What the two commands and the queries do. *)
Definition good (r : HumanOverrideRegistry) : Prop := scoped r /\ mirrored r.

(** The journal row of a command. *)
Definition logs (key : option string) (ty : string) (k : switch) (j : journal)
    (e : ChangeJournalEntry) : Prop :=
  ce_event_type e = ty /\ ce_scope_key e = switch_scope k /\
  verify_journal_signature key e = true /\ journal_id e = Z.of_nat (S (length j)).

Lemma upsert_active k k' o keep m :
  or_active o = true ->
  is_active k' (mkRegistry (upsert k o keep m) None []) =
  bool_decide (k' = k) || is_active k' (mkRegistry m None []).
Proof.
  intros Ho. unfold is_active, get_state, upsert; simpl.
  case_bool_decide as Hk; [subst k'|]; destruct (m !! k); simpl;
    rewrite ?lookup_insert_eq, ?lookup_insert_ne by done; done.
Qed.

Lemma is_active_table k r : is_active k r = is_active k (mkRegistry (hr_rows r) None []).
Proof. done. Qed.

Lemma upsert_scoped k o keep m f j f' j' :
  scoped (mkRegistry m f j) -> truthy k.2 = true -> scoped (mkRegistry (upsert k o keep m) f' j').
Proof.
  unfold scoped, upsert; simpl. intros Hw Hk. by destruct (m !! k); apply map_Forall_insert_2.
Qed.

Lemma engage_spec key k op why meta actor now r :
  scoped r -> truthy k.2 = true ->
  let '(res, r') := engage key k op why meta actor now r in
  (exists s, res = Ok s /\ ks_active s = true) /\ good r' /\
  (forall k', is_active k' r' = bool_decide (k' = k) || is_active k' r) /\
  exists e, hr_journal r' = hr_journal r ++ [e] /\ logs key EVENT_KILL_SWITCH_ENGAGED k (hr_journal r) e.
Proof.
  intros Hw Hk. unfold engage. set (r1 := engage_row k op why now meta r).
  assert (scoped r1) as Hw1 by (by apply (upsert_scoped _ _ _ _ (hr_file r) (hr_journal r))).
  pose proof (sync_mirrored r1 Hw1) as Hm.
  journal_append_case e. cbn iota beta.
  split; [by eexists|]. split; [done|]. split.
  - intros k'. rewrite (is_active_table k' (mkRegistry _ _ _)), (is_active_table k' r).
    by apply upsert_active.
  - by exists e.
Qed.

Lemma release_row_spec k r :
  scoped r ->
  scoped (release_row k r).2 /\ hr_journal (release_row k r).2 = hr_journal r /\
  (forall k', is_active k' (release_row k r).2 = negb (bool_decide (k' = k)) && is_active k' r) /\
  ((release_row k r).1 =? 0)%nat || negb (is_active k r) = negb (is_active k r).
Proof.
  intros Hw. unfold release_row. destruct (hr_rows r !! k) as [o|] eqn:Ek; simpl.
  - split; [|split; [done|split; [|done]]].
    + apply map_Forall_insert_2; [by apply (Hw k o Ek)|done].
    + intros k'. unfold is_active, get_state, set_rows; simpl.
      case_bool_decide as Hk; [subst; by rewrite lookup_insert_eq|by rewrite lookup_insert_ne].
  - split; [done|split; [done|split]].
    + intros k'. case_bool_decide as Hk; [subst|done]. unfold is_active, get_state. by rewrite Ek.
    + unfold is_active, get_state. by rewrite Ek.
Qed.

Lemma release_spec key k op why actor now r :
  scoped r ->
  let '(res, r') := release key k op why actor now r in
  (exists s, res = Ok s /\ ks_active s = false) /\ good r' /\
  (forall k', is_active k' r' = negb (bool_decide (k' = k)) && is_active k' r) /\
  (if is_active k r
   then exists e, hr_journal r' = hr_journal r ++ [e] /\
          logs key EVENT_KILL_SWITCH_RELEASED k (hr_journal r) e
   else hr_journal r' = hr_journal r).
Proof.
  intros Hw. unfold release. change (ks_active (get_state k r)) with (is_active k r).
  destruct (release_row_spec k r Hw) as (Hw1 & Hj1 & Ha1 & Hu).
  destruct (release_row k r) as [updated r1]; cbn [fst snd] in *. rewrite Hu.
  pose proof (sync_mirrored r1 Hw1) as Hm.
  assert (forall f j, ks_active (get_state k (mkRegistry (hr_rows r1) f j)) = false) as Hoff.
  { intros f j. change (is_active k r1 = false). rewrite Ha1. by rewrite bool_decide_true. }
  destruct (is_active k r); cbn [negb].
  - journal_append_case e. cbn iota beta.
    change (hr_rows (sync_state_file r1)) with (hr_rows r1). rewrite Hoff.
    split; [by eexists|]. split; [done|]. split; [done|]. exists e.
    change (hr_journal (sync_state_file r1)) with (hr_journal r1) in *. by rewrite <- Hj1.
  - cbn iota beta. unfold sync_state_file at 1. rewrite Hoff.
    split; [by eexists|]. split; [done|]. split; done.
Qed.

Lemma override_step_good key r e : names_scope e -> good r -> good (override_step key r e).
Proof.
  intros He [Hw Hm]. destruct e; simpl in *.
  - pose proof (engage_spec key k operator rationale metadata actor now r Hw He) as H.
    destruct (engage _ _ _ _ _ _ _ r). naive_solver.
  - pose proof (release_spec key k operator rationale actor now r Hw) as H.
    destruct (release _ _ _ _ _ _ r). naive_solver.
  - by rewrite hydrate_noop.
  - done.
Qed.

Lemma override_step_active key r e k :
  names_scope e -> good r ->
  is_active k (override_step key r e) =
  bool_decide (k ∈ engaged_step (if is_active k r then {[k]} else ∅) e).
Proof.
  intros He [Hw Hm]. symmetry. destruct e; simpl in *.
  - pose proof (engage_spec key k0 operator rationale metadata actor now r Hw He) as H.
    destruct (engage _ _ _ _ _ _ _ r) as [res r']. destruct H as (_ & _ & H & _). simpl. rewrite H.
    repeat case_bool_decide; destruct (is_active k r); set_solver.
  - pose proof (release_spec key k0 operator rationale actor now r Hw) as H.
    destruct (release _ _ _ _ _ _ r) as [res r']. destruct H as (_ & _ & H & _). simpl. rewrite H.
    repeat case_bool_decide; destruct (is_active k r); set_solver.
  - rewrite hydrate_noop by done. case_bool_decide; destruct (is_active k r); set_solver.
  - unfold is_active, get_state; simpl.
    case_bool_decide; destruct (ks_active _); set_solver.
Qed.

(** ** The registry over a history *)

Section History.
Context (key : option string).
Notation reg evs := (runs (override_step key) registry_init evs).

Lemma engaged_snoc evs e : engaged (evs ++ [e]) = engaged_step (engaged evs) e.
Proof. unfold engaged. apply runs_snoc. Qed.

Lemma engaged_step_local s e k :
  k ∈ engaged_step (if bool_decide (k ∈ s) then {[k]} else ∅) e <-> k ∈ engaged_step s e.
Proof. destruct e; simpl; case_bool_decide; set_solver. Qed.

Lemma registry_good evs : Forall names_scope evs -> good (reg evs).
Proof.
  induction evs as [|e evs IH] using rev_ind; [by split|].
  rewrite runs_snoc. intros [H1 H2]%Forall_app. inversion_clear H2. apply override_step_good; auto.
Qed.

Lemma registry_active evs k :
  Forall names_scope evs -> is_active k (reg evs) = bool_decide (k ∈ engaged evs).
Proof.
  induction evs as [|e evs IH] using rev_ind; [done|].
  intros [H1 H2]%Forall_app. inversion_clear H2. rewrite runs_snoc, engaged_snoc.
  rewrite override_step_active, IH by auto using registry_good.
  apply bool_decide_ext, engaged_step_local.
Qed.

Lemma is_active_engaged evs k :
  Forall names_scope evs -> is_active k (reg evs) = true <-> k ∈ engaged evs.
Proof. intros He. rewrite registry_active by done. apply bool_decide_eq_true. Qed.

Lemma level_active_engaged evs l :
  Forall names_scope evs -> level_active l (reg evs) <-> exists s, (l, s) ∈ engaged evs.
Proof. intros He. unfold level_active. by setoid_rewrite (is_active_engaged evs _ He). Qed.

Lemma strategy_halts_spec evs sid :
  Forall names_scope evs ->
  sid ∈ strategy_halts (read_db_snapshot (reg evs)) <->
  sid <> "GLOBAL" /\ (STRATEGY_HALT, sid) ∈ engaged evs.
Proof.
  intros He. destruct (registry_good evs He) as [Hw _]. rewrite <- is_active_engaged by done.
  unfold read_db_snapshot; simpl. rewrite elem_of_list_to_set, list_elem_of_fmap.
  setoid_rewrite list_elem_of_In. setoid_rewrite filter_In.
  setoid_rewrite andb_true_iff. setoid_rewrite negb_true_iff.
  setoid_rewrite bool_decide_eq_true. setoid_rewrite bool_decide_eq_false.
  pose proof (active_state_iff STRATEGY_HALT (fun s => sid = s /\ s <> "GLOBAL") _ Hw) as H.
  setoid_rewrite list_elem_of_In in H. naive_solver.
Qed.

Lemma level_halted_spec evs l :
  Forall names_scope evs ->
  existsb (fun s => bool_decide (ks_level s = l)) (active_states (hr_rows (reg evs))) = true <->
  exists s, (l, s) ∈ engaged evs.
Proof.
  intros He. destruct (registry_good evs He) as [Hw _].
  by rewrite existsb_level, level_active_engaged.
Qed.

Lemma is_strategy_halted_spec evs sid :
  Forall names_scope evs ->
  (is_strategy_halted sid (reg evs)).1 = true <->
  (exists s, (PORTFOLIO_HALT, s) ∈ engaged evs) \/
  (sid <> "GLOBAL" /\ (STRATEGY_HALT, sid) ∈ engaged evs).
Proof.
  intros He. destruct (registry_good evs He) as [Hw Hm].
  pose proof (level_halted_spec evs PORTFOLIO_HALT He) as Hp.
  change (existsb _ _) with (portfolio_halt (read_db_snapshot (reg evs))) in Hp.
  unfold is_strategy_halted, override_snapshot. rewrite hydrate_noop by done. cbn [fst].
  destruct (portfolio_halt _); [naive_solver|].
  rewrite orb_true_iff, !bool_decide_eq_true, !strategy_halts_spec by done. naive_solver.
Qed.

(** [replay]: the switches an auditor reads off the journal, by their scope text. *)
Definition replay_step (s : gset string) (e : ChangeJournalEntry) : gset string :=
  if decide (ce_event_type e = EVENT_KILL_SWITCH_ENGAGED) then {[ce_scope_key e]} ∪ s
  else if decide (ce_event_type e = EVENT_KILL_SWITCH_RELEASED) then s ∖ {[ce_scope_key e]}
  else s.

Definition replay (j : journal) : gset string := runs replay_step ∅ j.

Lemma switch_scope_inj k k' : switch_scope k = switch_scope k' -> k = k'.
Proof.
  destruct k as [[] s], k' as [[] s'];
    cbv [switch_scope KillLevel_value String.append fst snd]; intros; by simplify_eq.
Qed.

Lemma replay_engaged_log k j e s :
  logs key EVENT_KILL_SWITCH_ENGAGED k j e -> replay_step s e = {[switch_scope k]} ∪ s.
Proof. intros (Ht & Hs & _). unfold replay_step. by rewrite Ht, Hs. Qed.

Lemma replay_released_log k j e s :
  logs key EVENT_KILL_SWITCH_RELEASED k j e -> replay_step s e = s ∖ {[switch_scope k]}.
Proof. intros (Ht & Hs & _). unfold replay_step. by rewrite Ht, Hs. Qed.

(** The journal replays to the engaged switches, its rows are signed and numbered
    without gaps. *)
Definition audited (evs : list override_event) (j : journal) : Prop :=
  replay j = set_map switch_scope (engaged evs) /\
  Forall (fun e => verify_journal_signature key e = true) j /\
  map journal_id j = map (fun n => Z.of_nat (S n)) (seq 0 (length j)).

Lemma audited_snoc evs evs' j e ty k :
  audited evs j -> logs key ty k j e ->
  replay_step (replay j) e = set_map switch_scope (engaged evs') -> audited evs' (j ++ [e]).
Proof.
  intros (Hr & Hv & Hi) (_ & _ & Hver & Hid) Hs. split; [|split].
  - unfold replay in *. by rewrite runs_snoc.
  - by apply Forall_app_2; [|constructor].
  - rewrite length_app, seq_app, !map_app, Hi. simpl. by rewrite Hid.
Qed.

Lemma registry_audited evs : Forall names_scope evs -> audited evs (hr_journal (reg evs)).
Proof.
  induction evs as [|e evs IH] using rev_ind; [done|].
  intros [H1 H2]%Forall_app. inversion_clear H2 as [|? ? He _]. specialize (IH H1).
  destruct (registry_good evs H1) as [Hw Hm]. pose proof (registry_active evs) as Hact.
  rewrite runs_snoc. destruct e; simpl in *.
  - pose proof (engage_spec key k operator rationale metadata actor now _ Hw He) as H.
    destruct (engage _ _ _ _ _ _ _ _) as [res r']. destruct H as (_ & _ & _ & e & Hj & Hl).
    simpl. rewrite Hj. eapply audited_snoc; [done|done|].
    rewrite (replay_engaged_log _ _ _ _ Hl), (proj1 IH), engaged_snoc. simpl. set_solver.
  - pose proof (release_spec key k operator rationale actor now _ Hw) as H.
    destruct (release _ _ _ _ _ _ _) as [res r']. destruct H as (_ & _ & _ & H).
    rewrite (Hact k H1) in H. case_bool_decide as Hk.
    + destruct H as (e & Hj & Hl). simpl. rewrite Hj. eapply audited_snoc; [done|done|].
      rewrite (replay_released_log _ _ _ _ Hl), (proj1 IH), engaged_snoc. simpl.
      apply set_eq. intros x. rewrite elem_of_difference, !elem_of_map. set_unfold.
      split; [naive_solver|]. intros (k' & -> & Hk' & Hne). split; [by exists k'|].
      by intros ?%switch_scope_inj.
    + simpl. rewrite H. destruct IH as (Hr & Hv & Hi). split; [|done].
      rewrite Hr, engaged_snoc. simpl. set_solver.
  - rewrite hydrate_noop by done. unfold audited. by rewrite engaged_snoc.
  - unfold audited. by rewrite engaged_snoc.
Qed.
End History.

(** C6: The registry over any history of commands, queries and losses of the state file:
    a switch is active exactly when its last command engaged it, so a release holds
    until the next engagement and the mirror file never brings a switch back; the
    portfolio, research and AI answers are those of the engaged levels; a strategy is
    halted by any portfolio halt and by its own halt; and a release succeeds. *)
Theorem registry_follows_commands key evs (Hscopes : Forall names_scope evs) :
  let r := runs (override_step key) registry_init evs in
  (forall k, ks_active (get_state k r) = bool_decide (k ∈ engaged evs)) /\
  ((is_portfolio_halted r).1 = true <-> exists s, (PORTFOLIO_HALT, s) ∈ engaged evs) /\
  ((is_research_halted r).1 = true <-> exists s, (RESEARCH_HALT, s) ∈ engaged evs) /\
  ((is_ai_halted r).1 = true <-> exists s, (AI_HALT, s) ∈ engaged evs) /\
  (forall sid, (is_strategy_halted sid r).1 = true <->
     (exists s, (PORTFOLIO_HALT, s) ∈ engaged evs) \/
     (sid <> "GLOBAL" /\ (STRATEGY_HALT, sid) ∈ engaged evs)) /\
  (forall k op why actor now, exists s, (release key k op why actor now r).1 = Ok s).
Proof.
  intros r. destruct (registry_good key evs Hscopes) as [Hw Hm].
  unfold is_portfolio_halted, is_research_halted, is_ai_halted, override_snapshot.
  subst r. rewrite hydrate_noop by done.
  split; [by intros; apply registry_active|]. do 3 (split; [by apply level_halted_spec|]).
  split; [by intros; apply is_strategy_halted_spec|]. intros k op why actor now.
  pose proof (release_spec key k op why actor now _ Hw) as H.
  destruct (release _ _ _ _ _ _ _) as [res r']. naive_solver.
Qed.

Definition halt_btc : switch := (STRATEGY_HALT, "btc").
Definition engage_btc : override_event :=
  EvEngage halt_btc "ops@desk" "manual halt" [] None "2026-01-05T10:00:00+00:00".
Definition release_btc : override_event :=
  EvRelease halt_btc "ops@desk" "clear" None "2026-01-05T11:00:00+00:00".

Lemma registry_follows_commands_witness :
  let r evs := runs (override_step None) registry_init evs in
  (is_strategy_halted "btc" (r [engage_btc; EvSnapshot; EvFileLost])).1 = true /\
  ks_active (get_state halt_btc (r [engage_btc; release_btc; EvSnapshot])) = false.
Proof.
  split.
  - apply registry_follows_commands; [by repeat constructor|].
    right. split; [done|]. by apply (bool_decide_unpack _); vm_compute.
  - rewrite (proj1 (registry_follows_commands None [engage_btc; release_btc; EvSnapshot]
                      ltac:(by repeat constructor))). vm_compute. reflexivity.
Defined.

(** Over any history of commands, queries and losses of the file, the signed journal
    replays to the engaged switches, every row verifies under the signing key, and
    the ids number the rows without gaps: an engagement is always journalled, a
    release exactly when it released something. *)
Theorem journal_replays_registry key evs (Hscopes : Forall names_scope evs) :
  let j := hr_journal (runs (override_step key) registry_init evs) in
  replay j = set_map switch_scope (engaged evs) /\
  Forall (fun e => verify_journal_signature key e = true) j /\
  map journal_id j = map (fun n => Z.of_nat (S n)) (seq 0 (length j)).
Proof. apply (registry_audited key evs Hscopes). Qed.

Lemma journal_replays_registry_witness :
  let j := hr_journal (runs (override_step None) registry_init
             [engage_btc; release_btc; release_btc]) in
  replay j = ∅ /\ map journal_id j = [1; 2]%Z.
Proof.
  destruct (journal_replays_registry None [engage_btc; release_btc; release_btc]) as (Hr & _ & _);
    [by repeat constructor|].
  split; [rewrite Hr|]; vm_compute; reflexivity.
Defined.

(** Halting every strategy at once does nothing: engaging [STRATEGY_HALT] with the
    scope [GLOBAL], the default of [engage] and of the command line, changes the
    answer for no strategy, although [is_strategy_halted] asks for that scope. *)
Theorem strategy_global_halt_is_inert key evs op why meta actor now
    (Hscopes : Forall names_scope evs) :
  let r := runs (override_step key) registry_init evs in
  let r' := (engage key (STRATEGY_HALT, "GLOBAL") op why meta actor now r).2 in
  ks_active (get_state (STRATEGY_HALT, "GLOBAL") r') = true /\
  forall sid, (is_strategy_halted sid r').1 = (is_strategy_halted sid r).1.
Proof.
  intros r r'. set (e := EvEngage (STRATEGY_HALT, "GLOBAL") op why meta actor now).
  assert (Forall names_scope (evs ++ [e])) as He by (apply Forall_app_2; [done|by repeat constructor]).
  assert (r' = runs (override_step key) registry_init (evs ++ [e])) as -> by (by rewrite runs_snoc).
  split.
  - apply is_active_engaged; [done|]. rewrite engaged_snoc. simpl. set_solver.
  - intros sid. subst r. apply eq_true_iff_eq. rewrite !is_strategy_halted_spec by done.
    rewrite engaged_snoc. simpl. setoid_rewrite elem_of_union. setoid_rewrite elem_of_singleton.
    split; [intros [[s [?|?]]|[? [?|?]]]|intros [[s ?]|[? ?]]]; simplify_eq; eauto 6.
Qed.

Lemma strategy_global_halt_is_inert_witness :
  let r := (engage None (STRATEGY_HALT, "GLOBAL") "ops@desk" "stop everything" [] None
              "2026-01-05T10:00:00+00:00" registry_init).2 in
  (is_strategy_halted "btc" r).1 = false.
Proof.
  intros r. destruct (strategy_global_halt_is_inert None [] "ops@desk" "stop everything" [] None
    "2026-01-05T10:00:00+00:00" ltac:(constructor)) as [_ H].
  exact (eq_trans (H "btc") eq_refl).
Defined.

(** ** Where the mirror brings a switch back

    A release whose process dies between its commit and the mirror, and a query of
    another process that read the file before the release, re-engage the switch. *)
Lemma interrupted_release_comes_back :
  let r := runs (override_step None) registry_init [engage_btc] in
  let r' := (release_row halt_btc r).2 in
  ks_active (get_state halt_btc r') = false /\ (is_strategy_halted "btc" r').1 = true.
Proof. vm_compute. split; reflexivity. Qed.

Lemma concurrent_hydration_undoes_release :
  let r := runs (override_step None) registry_init [engage_btc] in
  let read := default [] (hr_file r) in
  let '(res, r') := release None halt_btc "ops@desk" "clear" None "2026-01-05T11:00:00+00:00" r in
  (exists s, res = Ok s) /\ ks_active (get_state halt_btc (hydrate_items read r')) = true.
Proof. vm_compute. split; [by eexists|reflexivity]. Qed.

(** An engagement under an empty scope is mirrored as [GLOBAL] and hydrated as a
    second row, which the release of the empty scope leaves active. *)
Lemma empty_scope_leaves_a_ghost :
  let ghost := [EvEngage (PORTFOLIO_HALT, "") "ops@desk" "halt" [] None "2026-01-05T10:00:00+00:00";
                EvSnapshot;
                EvRelease (PORTFOLIO_HALT, "") "ops@desk" "clear" None "2026-01-05T11:00:00+00:00"] in
  let r := runs (override_step None) registry_init ghost in
  engaged ghost = ∅ /\ (is_portfolio_halted r).1 = true.
Proof. vm_compute. split; reflexivity. Qed.
