(* ===== verification/PreFlight.v ===== *)
(** * Pre-flight reconciliation

    [src/engine/pre_flight_reconciliation.py]: at a cold start the local snapshots of
    the legs are compared with the broker's positions and orders. What can be
    aligned is aligned to the broker, the age of a position being rebuilt from the
    broker's fills; what cannot engages the reconciliation lock. The broker, the
    stores of [persistence.db] and the governance vault, at each of its reads and writes, are
    operations of an environment that answer or raise.
    A dict is the list of its items in insertion order. *)

From stdpp Require Import base gmap strings list.
From Stdlib Require Import ZArith Lia Floats.SpecFloat.
From S2P Require Import Prelude Dict PyFloat FloatInt Models Sha256 ConfigHash Degradation Journal Governance.

Open Scope py_scope.

Definition QTY_TOLERANCE : float := Eval vm_compute in lit 1 4.
Definition PRICE_TOLERANCE : float := Eval vm_compute in lit 2 2.
Definition PRE_FLIGHT_RECON_LOCK_SCOPE : string := "PRE_FLIGHT_RECON".
Definition DEFAULT_BAR_INTERVAL_SECONDS : Z := 900.
Definition FILL_LOOKBACK_DAYS : Z := 30.
Definition FILL_LOOKBACK_EXPANSION_DAYS : list Z := [60; 90]%Z.
Definition DEEP_POSITION_ENTRY_UNRESOLVED : string := "deep_position_entry_fill_unresolved".

(** ** Data *)

Record OpenOrderSnapshot := mkOpenOrder {
  oo_order_id : string;
  oo_symbol : string;
  oo_side : string;
  oo_qty : float;
  oo_status : string
}.

Record BrokerFillSnapshot := mkFill {
  bf_order_id : string;
  bf_symbol : string;
  bf_side : string;
  bf_filled_qty : float;
  bf_filled_at : Z
}.

(** The row [persistence.db] loads for a leg, by the fields the engine reads. *)
Record StrategyRuntimeSnapshot := mkRuntime {
  rs_strategy_id : string;
  rs_symbol : string;
  rs_side : string;
  rs_qty : float;
  rs_avg_entry_price : float;
  rs_bars_in_trade : Z;
  rs_max_bars_in_trade : Z;
  rs_open_order_count : Z
}.

Record LegMemoryBound := mkBound {
  lb_strategy_id : string;
  lb_symbol : string;
  lb_in_position : bool;
  lb_position_side : string;
  lb_bars_in_trade : Z;
  lb_qty : float;
  lb_avg_entry_price : float;
  lb_max_bars_in_trade : Z;
  lb_open_order_count : Z
}.

Inductive delta_value := DNum (x : float) | DStr (s : string).

Record PositionDelta := mkDelta {
  pd_strategy_id : string;
  pd_symbol : string;
  pd_field_name : string;
  pd_local_value : delta_value;
  pd_broker_value : delta_value
}.

Record PreFlightReconciliationResult := mkReconResult {
  rr_success : bool;
  rr_recovered : bool;
  rr_latched_soft_degrade : bool;
  rr_deltas : list PositionDelta;
  rr_failure_reason : string;
  rr_journal_event_id : option Z;
  rr_metadata : dict
}.

Definition broker_positions_by_symbol (positions : list Position) : list (string * Position) :=
  fold_left (fun d p => assoc_set (upper (pos_symbol p)) p d) positions [].

Definition open_order_counts (orders : list OpenOrderSnapshot) : list (string * Z) :=
  fold_left (fun d o => let s := upper (oo_symbol o) in
    assoc_set s (default 0 (assoc s d) + 1)%Z d) orders [].

(** ** Whole shares *)

(** [infer_asset_class(symbol) != "crypto"]. *)
Definition requires_whole_shares (symbol : string) : bool :=
  negb (str_contains "/" symbol ||
        bool_decide (upper symbol ∈ ["BTCUSD"; "ETHUSD"; "BTC"; "ETH"])).

(** [round(x)]: the nearest integer, ties to the even one. *)
Definition py_round (x : float) : result string Z :=
  match x with
  | S754_nan => Raise "ValueError"
  | S754_infinity _ => Raise "OverflowError"
  | S754_zero _ => Ok 0%Z
  | S754_finite s m e =>
      let n :=
        if (0 <=? e)%Z then (Z.pos m * 2 ^ e)%Z
        else
          let d := (2 ^ (- e))%Z in
          let q := (Z.pos m / d)%Z in
          let r := (Z.pos m mod d)%Z in
          match Z.compare (2 * r) d with
          | Lt => q
          | Gt => (q + 1)%Z
          | Eq => if Z.even q then q else (q + 1)%Z
          end in
      Ok (if s then (- n)%Z else n)
  end.

(** [abs(qty - round(qty)) > QTY_TOLERANCE]. *)
Definition fractional (qty : float) : result string bool :=
  match py_round qty with
  | Ok n => Ok (fltb QTY_TOLERANCE (fabs (fsub qty (of_Z n))))
  | Raise e => Raise e
  end.

(** [str] of a float. *)
Definition py_str_float (x : float) : string :=
  match x with
  | S754_nan => "nan"
  | S754_infinity s => if s then "-inf" else "inf"
  | _ => repr_float x
  end.

Definition qty_reason (kind symbol : string) (qty : float) : string :=
  String.append kind (String.append ":" (String.append symbol (String.append ":" (py_str_float qty)))).

(** The first order that cannot be reconciled. *)
Fixpoint order_mismatch (mapped : gset string) (orders : list OpenOrderSnapshot)
    : result string string :=
  match orders with
  | [] => Ok ""
  | o :: orders =>
      let symbol := upper (oo_symbol o) in
      let qty := oo_qty o in
      if negb (bool_decide (symbol ∈ mapped))
      then Ok (String.append "unmapped_open_order_symbol:" symbol)
      else if fleb qty fzero then Ok (qty_reason "fractional_open_order_qty" symbol qty)
      else if requires_whole_shares (oo_symbol o) then
        match fractional qty with
        | Raise e => Raise e
        | Ok true => Ok (qty_reason "fractional_open_order_qty" symbol qty)
        | Ok false => order_mismatch mapped orders
        end
      else order_mismatch mapped orders
  end.

Fixpoint position_mismatch (by_symbol : list (string * Position)) : result string string :=
  match by_symbol with
  | [] => Ok ""
  | (symbol, p) :: rest =>
      if fleb (pos_qty p) fzero then position_mismatch rest
      else if requires_whole_shares symbol then
        match fractional (pos_qty p) with
        | Raise e => Raise e
        | Ok true => Ok (qty_reason "fractional_share_position_conflict" symbol (pos_qty p))
        | Ok false => position_mismatch rest
        end
      else position_mismatch rest
  end.

Definition detect_irrecoverable_mismatch (by_symbol : list (string * Position))
    (mapped : gset string) (orders : list OpenOrderSnapshot) : result string string :=
  match List.find (fun p => negb (bool_decide (p.1 ∈ mapped))) by_symbol with
  | Some (symbol, _) => Ok (String.append "unmapped_broker_symbol:" symbol)
  | None =>
      match order_mismatch mapped orders with
      | Ok reason => if truthy reason then Ok reason else position_mismatch by_symbol
      | Raise e => Raise e
      end
  end.

(** ** Differences *)

Definition qty_of (b : option Position) : float := match b with Some p => pos_qty p | None => fzero end.
Definition side_of (b : option Position) : string := match b with Some p => pos_side p | None => "flat" end.
Definition avg_of (b : option Position) : float :=
  match b with Some p => pos_avg_entry_price p | None => fzero end.

Definition qty_differs (local_qty broker_qty qty_tol : float) : bool :=
  fltb qty_tol (fabs (fsub local_qty broker_qty)).
Definition side_differs (local_side broker_side : string) (broker_qty qty_tol : float) : bool :=
  negb (bool_decide (local_side = broker_side)) &&
  negb (bool_decide (local_side = "flat") && fleb broker_qty qty_tol).
Definition avg_differs (local_avg broker_avg broker_qty qty_tol price_tol : float) : bool :=
  fltb qty_tol broker_qty && fltb price_tol (fabs (fsub local_avg broker_avg)).

Definition diff_one (by_symbol : list (string * Position)) (local_pending broker_pending : list (string * Z))
    (qty_tol price_tol : float) (sid : string) (s : StrategyRuntimeSnapshot) : list PositionDelta :=
  let symbol := upper (rs_symbol s) in
  let b := assoc symbol by_symbol in
  let local_open := default 0%Z (assoc sid local_pending) in
  let broker_open := default 0%Z (assoc symbol broker_pending) in
  (if qty_differs (rs_qty s) (qty_of b) qty_tol
   then [mkDelta sid symbol "qty" (DNum (rs_qty s)) (DNum (qty_of b))] else []) ++
  (if side_differs (rs_side s) (side_of b) (qty_of b) qty_tol
   then [mkDelta sid symbol "side" (DStr (rs_side s)) (DStr (side_of b))] else []) ++
  (if avg_differs (rs_avg_entry_price s) (avg_of b) (qty_of b) qty_tol price_tol
   then [mkDelta sid symbol "avg_entry_price" (DNum (rs_avg_entry_price s)) (DNum (avg_of b))] else []) ++
  (if (local_open =? broker_open)%Z then []
   else [mkDelta sid symbol "open_order_count" (DNum (of_Z local_open)) (DNum (of_Z broker_open))]).

Definition diff_snapshots (local : list (string * StrategyRuntimeSnapshot))
    (by_symbol : list (string * Position)) (local_pending broker_pending : list (string * Z))
    (qty_tol price_tol : float) : list PositionDelta :=
  concat (map (fun p => diff_one by_symbol local_pending broker_pending qty_tol price_tol p.1 p.2) local).

Definition lacks_matching_local_telemetry (prior : option StrategyRuntimeSnapshot) (b : Position)
    (qty_tol price_tol : float) : bool :=
  match prior with
  | None => true
  | Some p =>
      qty_differs (rs_qty p) (pos_qty b) qty_tol ||
      side_differs (rs_side p) (pos_side b) (pos_qty b) qty_tol ||
      avg_differs (rs_avg_entry_price p) (pos_avg_entry_price b) (pos_qty b) qty_tol price_tol
  end.

(** ** The age of a position *)

Definition signed_fill_inventory_delta (side : string) (qty : float) : float :=
  let normalized := lower (strip side) in
  if bool_decide (normalized = "buy") then qty
  else if bool_decide (normalized = "sell") then fneg qty
  else fzero.

Definition inventory_crossed_zero_boundary (prior_net net qty_tol : float) : bool :=
  if fleb (fabs net) qty_tol then fltb qty_tol (fabs prior_net)
  else if fltb qty_tol prior_net && fltb net (fneg qty_tol) then true
  else if fltb prior_net (fneg qty_tol) && fltb qty_tol net then true
  else false.

Definition signed_position_inventory_target (qty : float) (side : string) (qty_tol : float)
    : option float :=
  let side := lower (strip side) in
  if fleb qty qty_tol || negb (bool_decide (side ∈ ["long"; "short"])) then None
  else Some (if bool_decide (side = "long") then qty else fneg qty).

(** [sorted(.., key=filled_at, reverse=True)]: newest first, equal keys in the
    order they came. *)
Fixpoint insert_fill (f : BrokerFillSnapshot) (l : list BrokerFillSnapshot)
    : list BrokerFillSnapshot :=
  match l with
  | [] => [f]
  | g :: l' => if (bf_filled_at g <=? bf_filled_at f)%Z then f :: l else g :: insert_fill f l'
  end.

Definition newest_first (l : list BrokerFillSnapshot) : list BrokerFillSnapshot :=
  foldr insert_fill [] l.

(** The walk over the ordered fills. *)
Fixpoint walk_fills (qty_tol running : float) (fills : list BrokerFillSnapshot) : option Z :=
  match fills with
  | [] => None
  | f :: fills =>
      let next := fsub running (signed_fill_inventory_delta (bf_side f) (bf_filled_qty f)) in
      if inventory_crossed_zero_boundary running next qty_tol then Some (bf_filled_at f)
      else walk_fills qty_tol next fills
  end.

Definition relevant_fill (symbol : string) (qty_tol : float) (f : BrokerFillSnapshot) : bool :=
  bool_decide (upper (strip (bf_symbol f)) = upper (strip symbol)) &&
  fltb qty_tol (bf_filled_qty f).

Definition find_position_entry_fill_ts (fills : list BrokerFillSnapshot) (symbol : string)
    (position_qty : float) (position_side : string) (qty_tol : float) : option Z :=
  match signed_position_inventory_target position_qty position_side qty_tol with
  | None => None
  | Some target => walk_fills qty_tol target (newest_first (List.filter (relevant_fill symbol qty_tol) fills))
  end.

(** The floor of [x / n] for a finite [x], [n] positive. *)
Definition floor_div (x : float) (n : Z) : Z :=
  match x with
  | S754_finite s m e =>
      let v := if s then (- Z.pos m)%Z else Z.pos m in
      if (0 <=? e)%Z then (v * 2 ^ e / n)%Z else (v / (n * 2 ^ (- e)))%Z
  | _ => 0%Z
  end.

(** [a or b] on integers. *)
Definition int_or (a b : Z) : Z := if (a =? 0)%Z then b else a.

Definition deduce_bars_in_trade (entry_ts now bar_interval_seconds max_bars : Z) : Z :=
  let interval := Z.max (int_or bar_interval_seconds DEFAULT_BAR_INTERVAL_SECONDS) 1 in
  let elapsed := py_max fzero (total_seconds (now - entry_ts)) in
  let bars := (floor_div elapsed interval + 1)%Z in
  let ceiling := Z.max (int_or max_bars 1%Z) 1 in
  Z.max 1 (Z.min bars ceiling).

Definition snapshot_from_broker (sid symbol : string) (broker : option Position)
    (prior : option StrategyRuntimeSnapshot) (bars_override : option Z) : LegMemoryBound :=
  let symbol_key := upper symbol in
  let prior_max := match prior with Some p => rs_max_bars_in_trade p | None => 40%Z end in
  let open_orders := match prior with Some p => rs_open_order_count p | None => 0%Z end in
  match broker with
  | Some b =>
      if fleb (pos_qty b) QTY_TOLERANCE
      then mkBound sid symbol_key false "flat" 0 fzero fzero prior_max open_orders
      else
        let max_bars := int_or prior_max 40 in
        let bars :=
          match bars_override with
          | Some n => Z.max 1 (Z.min n max_bars)
          | None =>
              let prior_bars := match prior with Some p => rs_bars_in_trade p | None => 0%Z end in
              Z.max 1 (Z.min (if (0 <? prior_bars)%Z then prior_bars else 1%Z) max_bars)
          end in
        mkBound sid symbol_key true (pos_side b) bars (pos_qty b) (pos_avg_entry_price b) max_bars
          open_orders
  | None => mkBound sid symbol_key false "flat" 0 fzero fzero prior_max open_orders
  end.

(** ** The engine *)

Record recon_config := mkReconConfig {
  strategy_symbols : list (string * string);
  strategy_bar_intervals : list (string * Z);
  qty_tolerance : float;
  price_tolerance : float;
  fill_lookback_days : Z;
  defer_latch : bool
}.

(** The calls of the environment, in order; that for the positions with its
    answer. *)
Inductive recon_event :=
  | AskedForPositions (answer : result string (list Position))
  | AskedForOrders
  | LoadedSnapshots
  | CountedPending
  | AskedForFills (symbol : string) (days : Z)
  | PersistedBounds (bounds : list (string * LegMemoryBound))
  | ReconstructedLegs (bounds : list (string * LegMemoryBound))
  | SyncedLiability (counts : list (string * Z)).

(** The accesses to the governance vault. *)
Inductive vault_op := ReadLock | WriteLock | WriteMode | WriteJournal.

Section Engine.
Context {W : Type}.

Definition env_call (A : Type) : Type := W -> result string A * W.

Record recon_env := mkReconEnv {
  re_get_positions : env_call (list Position);
  re_get_open_orders : env_call (list OpenOrderSnapshot);
  re_get_symbol_fills : string -> Z -> env_call (list BrokerFillSnapshot);
  load_strategy_runtime_snapshots : env_call (list (string * StrategyRuntimeSnapshot));
  count_local_pending_orders : env_call (list (string * Z));
  persist_strategy_runtime_snapshots : list (string * LegMemoryBound) -> env_call unit;
  sync_local_open_order_liability : list (string * Z) -> env_call unit;
  on_reconstruct_leg_memory : option (list (string * LegMemoryBound) -> env_call unit);
  vault_access : vault_op -> env_call unit
}.

Record recon := mkRecon {
  rc_latches : gmap string latch_row;
  rc_degradation : option DegradationManager;
  rc_journal : list ChangeJournalEntry;
  rc_env : W;
  rc_log : list recon_event
}.

Definition R (A : Type) : Type := py recon string A.

Context (E : recon_env) (cfg : recon_config) (key : option string).

Definition note (w : W) (e : recon_event) (s : recon) : recon :=
  mkRecon (rc_latches s) (rc_degradation s) (rc_journal s) w (rc_log s ++ [e]).

Definition ecall {A} (e : recon_event) (f : env_call A) : R A :=
  fun s => let '(r, w) := f (rc_env s) in (r, note w e s).

(** An access to the vault, before it has its effect on the tables below. *)
Definition vault (o : vault_op) : R unit :=
  fun s => let '(r, w) := vault_access E o (rc_env s) in
    (r, mkRecon (rc_latches s) (rc_degradation s) (rc_journal s) w (rc_log s)).

Definition set_latches (l : gmap string latch_row) (s : recon) : recon :=
  mkRecon l (rc_degradation s) (rc_journal s) (rc_env s) (rc_log s).
Definition set_degradation (d : option DegradationManager) (s : recon) : recon :=
  mkRecon (rc_latches s) d (rc_journal s) (rc_env s) (rc_log s).

Definition ask_positions (f : env_call (list Position)) : R (list Position) :=
  fun s => let '(r, w) := f (rc_env s) in (r, note w (AskedForPositions r) s).

(** The distinct lookbacks, widening. *)
Definition lookbacks (initial : Z) : list Z :=
  fold_left (fun acc d => let n := Z.max d 1 in if decide (n ∈ acc) then acc else acc ++ [n])
    (initial :: FILL_LOOKBACK_EXPANSION_DAYS) [].

Fixpoint try_lookbacks (symbol : string) (qty : float) (side : string) (days : list Z)
    : R (option Z) :=
  match days with
  | [] => py_ret None
  | d :: days =>
      let! fills := ecall (AskedForFills symbol d) (re_get_symbol_fills E symbol d) in
      match find_position_entry_fill_ts fills symbol qty side (qty_tolerance cfg) with
      | Some ts => py_ret (Some ts)
      | None => try_lookbacks symbol qty side days
      end
  end.

Definition resolve_position_entry_fill_ts (symbol : string) (qty : float) (side : string)
    : R (option Z) := try_lookbacks symbol qty side (lookbacks (fill_lookback_days cfg)).

(** One leg of [_apply_broker_baseline]: its bound, and whether it is resolved. *)
Definition baseline_leg (by_symbol : list (string * Position))
    (local : list (string * StrategyRuntimeSnapshot)) (market_now : Z) (sid symbol : string)
    : R (LegMemoryBound * bool) :=
  let broker := assoc (upper symbol) by_symbol in
  let prior := assoc sid local in
  match broker with
  | Some b =>
      if fltb (qty_tolerance cfg) (pos_qty b) &&
         lacks_matching_local_telemetry prior b (qty_tolerance cfg) (price_tolerance cfg)
      then
        let! ts := resolve_position_entry_fill_ts symbol (pos_qty b) (pos_side b) in
        match ts with
        | None => py_ret (snapshot_from_broker sid symbol broker prior None, false)
        | Some entry_ts =>
            let interval := int_or (default DEFAULT_BAR_INTERVAL_SECONDS
                                      (assoc sid (strategy_bar_intervals cfg)))
                              DEFAULT_BAR_INTERVAL_SECONDS in
            let max_bars := int_or (match prior with Some p => rs_max_bars_in_trade p | None => 40%Z end) 40 in
            let bars := deduce_bars_in_trade entry_ts market_now interval max_bars in
            py_ret (snapshot_from_broker sid symbol broker prior (Some bars), true)
        end
      else py_ret (snapshot_from_broker sid symbol broker prior None, true)
  | None => py_ret (snapshot_from_broker sid symbol broker prior None, true)
  end.

Fixpoint baseline_legs (by_symbol : list (string * Position))
    (local : list (string * StrategyRuntimeSnapshot)) (market_now : Z)
    (legs : list (string * string)) : R (list (string * LegMemoryBound) * list string) :=
  match legs with
  | [] => py_ret ([], [])
  | (sid, symbol) :: legs =>
      let! b := baseline_leg by_symbol local market_now sid symbol in
      let! rest := baseline_legs by_symbol local market_now legs in
      py_ret ((sid, b.1) :: rest.1, if b.2 : bool then rest.2 else sid :: rest.2)
  end.

Definition apply_broker_baseline (by_symbol : list (string * Position))
    (local : list (string * StrategyRuntimeSnapshot)) (market_now : Z)
    : R (list (string * LegMemoryBound) * list string) :=
  let! r := baseline_legs by_symbol local market_now (strategy_symbols cfg) in
  match r.2 with
  | [] =>
      let! _ := ecall (PersistedBounds r.1) (persist_strategy_runtime_snapshots E r.1) in
      py_ret (r.1, [])
  | unresolved => py_ret ([], unresolved)
  end.

(** ** What the journal and the lock keep *)

Definition runtime_to_dict (s : option StrategyRuntimeSnapshot) : json :=
  match s with
  | None => JObj []
  | Some s => JObj
      [("strategy_id", JStr (rs_strategy_id s)); ("symbol", JStr (rs_symbol s));
       ("side", JStr (rs_side s)); ("bars_in_trade", JInt (rs_bars_in_trade s));
       ("qty", JFloat (rs_qty s)); ("avg_entry_price", JFloat (rs_avg_entry_price s));
       ("open_order_count", JInt (rs_open_order_count s));
       ("max_bars_in_trade", JInt (rs_max_bars_in_trade s))]
  end.

Definition bound_to_dict (b : LegMemoryBound) : json :=
  JObj [("strategy_id", JStr (lb_strategy_id b)); ("symbol", JStr (lb_symbol b));
        ("in_position", JBool (lb_in_position b)); ("position_side", JStr (lb_position_side b));
        ("bars_in_trade", JInt (lb_bars_in_trade b)); ("qty", JFloat (lb_qty b));
        ("avg_entry_price", JFloat (lb_avg_entry_price b))].

Definition counts_to_dict (c : list (string * Z)) : json :=
  JObj (map (fun p => (p.1, JInt p.2)) c).

Definition delta_to_dict (d : PositionDelta) : json :=
  let value v := match v with DNum x => JFloat x | DStr s => JStr s end in
  JObj [("strategy_id", JStr (pd_strategy_id d)); ("symbol", JStr (pd_symbol d));
        ("field_name", JStr (pd_field_name d)); ("local_value", value (pd_local_value d));
        ("broker_value", value (pd_broker_value d))].

Definition serialize_positions (by_symbol : list (string * Position)) : json :=
  JArr (map (fun p => JObj [("symbol", JStr p.1); ("qty", JFloat (pos_qty p.2));
    ("side", JStr (pos_side p.2)); ("avg_entry_price", JFloat (pos_avg_entry_price p.2))]) by_symbol).

Definition serialize_open_orders (orders : list OpenOrderSnapshot) : json :=
  JArr (map (fun o => JObj [("order_id", JStr (oo_order_id o)); ("symbol", JStr (upper (oo_symbol o)));
    ("side", JStr (oo_side o)); ("qty", JFloat (oo_qty o)); ("status", JStr (oo_status o))]) orders).

(** [degradation_manager.apply_soft_degrade(reason)] when the row of the mode may be refused:
    the mode in memory is degraded first, then the row is written. *)
Definition degrade_mode (reason now : string) : R unit := fun s =>
  match rc_degradation s with
  | None => (Ok tt, s)
  | Some m =>
      if bool_decide (dm_mode m = HARD_CRITICAL_DEGRADE) then (Ok tt, s) else
      (let! _ := py_modify (set_degradation (Some (soft_degrade_memory reason now m))) in
       let! _ := vault WriteMode in
       py_modify (set_degradation (Some (persist_state (soft_degrade_memory reason now m))))) s
  end.

(** [_latch_soft_degrade]: nothing is latched while the caller retries. *)
Definition latch_soft_degrade (reason : string) (metadata : dict) (now : string)
    : R PreFlightReconciliationResult :=
  let result := mkReconResult false false true [] reason None metadata in
  if defer_latch cfg then py_ret result else
  let! _ := vault WriteLock in
  let! _ := py_modify (fun s => set_latches (engage_pre_flight_recon_lock reason metadata now (rc_latches s)) s) in
  let! _ := degrade_mode reason now in
  py_ret result.

Definition append_recovery (local : list (string * StrategyRuntimeSnapshot))
    (pending : list (string * Z)) (bounds : list (string * LegMemoryBound))
    (counts : list (string * Z)) (deltas : list PositionDelta) (now : string) : R Z :=
  let! _ := vault WriteJournal in fun s =>
  let '(r, j) := journal_append key EVENT_STATE_RECON_RECOVERY
    (TriggeredBy_value SYSTEM_AUTOMATIC) PRE_FLIGHT_RECON_LOCK_SCOPE now
    [("local_snapshots", JObj (map (fun p => (p.1, runtime_to_dict (assoc p.1 local))) (strategy_symbols cfg)));
     ("local_pending_orders", counts_to_dict pending)]
    [("broker_snapshots", JObj (map (fun p => (p.1, bound_to_dict p.2)) bounds));
     ("open_order_counts", counts_to_dict counts)]
    "pre_flight_broker_reconciliation_recovery"
    [("delta_count", JInt (Z.of_nat (length deltas))); ("deltas", JArr (map delta_to_dict deltas))]
    (rc_journal s) in
  (match r with Ok e => Ok (journal_id e) | Raise e => Raise e end,
   mkRecon (rc_latches s) (rc_degradation s) j (rc_env s) (rc_log s)).

Definition lift {A} (r : result string A) : R A := fun s => (r, s).

(** The end of a reconciliation that succeeded. *)
Definition finish (by_symbol : list (string * Position)) (orders : list OpenOrderSnapshot)
    (deltas : list PositionDelta) (event : option Z) : R PreFlightReconciliationResult :=
  let counts := open_order_counts orders in
  let! _ := ecall (SyncedLiability counts) (sync_local_open_order_liability E counts) in
  py_ret (mkReconResult true (match event with Some _ => true | None => false end) false deltas ""
            event [("broker_position_count", JInt (Z.of_nat (length by_symbol)));
                   ("open_order_count", JInt (Z.of_nat (length orders)))]).

(** [on_reconstruct_leg_memory(bounds)], if there is such a callback. *)
Definition reconstruct (bounds : list (string * LegMemoryBound)) : R unit :=
  match on_reconstruct_leg_memory E with
  | Some f => ecall (ReconstructedLegs bounds) (f bounds)
  | None => py_ret tt
  end.

(** The branch with differences. *)
Definition recover (by_symbol : list (string * Position)) (orders : list OpenOrderSnapshot)
    (local : list (string * StrategyRuntimeSnapshot)) (pending : list (string * Z))
    (deltas : list PositionDelta) (now : string) (market_now : Z) : R PreFlightReconciliationResult :=
  let! r := apply_broker_baseline by_symbol local market_now in
  match r.2 with
  | [] =>
      let! _ := reconstruct r.1 in
      let! id := append_recovery local pending r.1 (open_order_counts orders) deltas now in
      finish by_symbol orders deltas (Some id)
  | unresolved =>
      latch_soft_degrade
        (String.append DEEP_POSITION_ENTRY_UNRESOLVED (String.append ":" (join "," unresolved)))
        [("unresolved_strategies", JArr (map JStr unresolved));
         ("fill_lookback_days", JInt (fill_lookback_days cfg));
         ("fill_lookback_expansion_days", JArr (map JInt FILL_LOOKBACK_EXPANSION_DAYS))] now
  end.

(** The branch without: the snapshots are refreshed. *)
Definition refresh (by_symbol : list (string * Position)) (orders : list OpenOrderSnapshot)
    (local : list (string * StrategyRuntimeSnapshot)) : R PreFlightReconciliationResult :=
  let bounds := map (fun p => (p.1, snapshot_from_broker p.1 p.2 (assoc (upper p.2) by_symbol)
                                      (assoc p.1 local) None)) (strategy_symbols cfg) in
  let! _ := ecall (PersistedBounds bounds) (persist_strategy_runtime_snapshots E bounds) in
  finish by_symbol orders [] None.

Definition recon_execute (now : string) (market_now : Z) : R PreFlightReconciliationResult :=
  let! _ := vault ReadLock in
  fun s =>
  let '(locked, lock_reason) := is_pre_flight_recon_locked (rc_latches s) in
  if locked then
    (Ok (mkReconResult false false true [] (str_or lock_reason "pre_flight_recon_lock_active") None
           [("pre_existing_lock", JBool true)]), s)
  else
  (let! positions := ask_positions (re_get_positions E) in
   let! orders := ecall AskedForOrders (re_get_open_orders E) in
   let! local := ecall LoadedSnapshots (load_strategy_runtime_snapshots E) in
   let! pending := ecall CountedPending (count_local_pending_orders E) in
   let by_symbol := broker_positions_by_symbol positions in
   let mapped : gset string := list_to_set (map (fun p => upper p.2) (strategy_symbols cfg)) in
   let! irrecoverable := lift (detect_irrecoverable_mismatch by_symbol mapped orders) in
   if truthy irrecoverable then
     latch_soft_degrade irrecoverable
       [("broker_positions", serialize_positions by_symbol);
        ("open_orders", serialize_open_orders orders)] now
   else
   let deltas := diff_snapshots local by_symbol pending (open_order_counts orders)
                   (qty_tolerance cfg) (price_tolerance cfg) in
   match deltas with
   | [] => refresh by_symbol orders local
   | _ => recover by_symbol orders local pending deltas now market_now
   end) s.
End Engine.

(** ** The age of a position: the fill that opened it

    Quantities are whole shares, so the walk is exact. *)

Lemma fltb_fneg x y : fltb (fneg x) (fneg y) = fltb y x.
Proof.
  unfold fltb, SFltb, fneg. destruct x as [[]|[]| |[] mx ex], y as [[]|[]| |[] my ey]; try done; simpl;
    rewrite (Z.compare_antisym ey ex); destruct (ey ?= ex)%Z; simpl; try done;
    rewrite (Pos.compare_cont_spec mx my), (Pos.compare_cont_spec my mx), (Pos.compare_antisym mx my);
    by destruct (mx ?= my)%positive.
Qed.

(** A tolerance between zero and one share. *)
Definition share_tolerance (tol : float) : Prop := fleb fzero tol = true /\ fltb tol fone = true.

Section Shares.
Context (tol : float) (Htol : share_tolerance tol).

Lemma above_tolerance a : whole a -> fltb tol (of_Z a) = (0 <? a)%Z.
Proof. intros. by apply fltb_tolerance; [|apply Htol..]. Qed.

Lemma below_tolerance a : whole a -> fltb (of_Z a) (fneg tol) = (a <? 0)%Z.
Proof.
  intros Ha. destruct (Z.eq_dec a 0) as [->|Hz].
  - destruct Htol as [H _]. by destruct tol as [[]|[]| |[] ? ?].
  - rewrite <- (fneg_involutive_of_Z a) by done. rewrite fltb_fneg, above_tolerance.
    + destruct (Z.ltb_spec 0 (- a)), (Z.ltb_spec a 0); lia || done.
    + unfold whole in *. lia.
Qed.

Lemma crossed_whole r r' :
  whole r -> whole r' -> r <> 0%Z ->
  inventory_crossed_zero_boundary (of_Z r) (of_Z r') tol = (r * r' <=? 0)%Z.
Proof.
  intros Hr Hr' Hz. unfold inventory_crossed_zero_boundary.
  rewrite !fabs_of_Z, !below_tolerance by done.
  assert (Habs : forall x, whole x -> fltb tol (of_Z (Z.abs x)) = (0 <? Z.abs x)%Z)
    by (intros x Hx; apply above_tolerance; unfold whole in *; lia).
  assert (Hle : fleb (of_Z (Z.abs r')) tol = negb (0 <? Z.abs r')%Z).
  { rewrite <- Habs by done. destruct Htol as [H0 _].
    assert (is_nan tol = false) by (by apply fnonneg_not_nan).
    pose proof (of_Z_not_nan (Z.abs r')).
    destruct (fleb (of_Z (Z.abs r')) tol) eqn:E1, (fltb tol (of_Z (Z.abs r'))) eqn:E2; forder || done. }
  rewrite Hle, Habs, !above_tolerance by done.
  destruct (Z.ltb_spec 0 (Z.abs r')); cbn [negb];
    destruct (Z.ltb_spec 0 r), (Z.ltb_spec r 0), (Z.ltb_spec 0 r'), (Z.ltb_spec r' 0), (Z.ltb_spec 0 (Z.abs r)),
      (Z.leb_spec (r * r') 0); try done; try lia; nia.
Qed.

(** A fill of [d] signed whole shares. *)
Definition fill_shares (f : BrokerFillSnapshot) (d : Z) : Prop :=
  whole d /\
  (lower (strip (bf_side f)) = "buy" /\ (0 < d)%Z /\ bf_filled_qty f = of_Z d \/
   lower (strip (bf_side f)) = "sell" /\ (d < 0)%Z /\ bf_filled_qty f = of_Z (- d)).

Lemma fill_delta f d :
  fill_shares f d -> signed_fill_inventory_delta (bf_side f) (bf_filled_qty f) = of_Z d.
Proof.
  unfold signed_fill_inventory_delta. intros [Hw [(-> & Hd & ->)|(-> & Hd & ->)]]; [done|].
  rewrite bool_decide_false, bool_decide_true by done. apply fneg_involutive_of_Z; [done|lia].
Qed.

Definition shares_sum (ds : list Z) : Z := foldr Z.add 0%Z ds.

(** [held p ds]: going back over the fills [ds] from the position [p], newest first,
    it stays open in its direction. *)
Definition held (p : Z) (ds : list Z) : Prop :=
  forall k, (0 < p * (p - shares_sum (take k ds)))%Z /\ whole (p - shares_sum (take k ds)).

Lemma walk_finds p r newer ds f d older :
  Forall2 fill_shares newer ds -> fill_shares f d ->
  (forall k, (0 < p * (r - shares_sum (take k ds)))%Z /\ whole (r - shares_sum (take k ds))) ->
  (p * (r - shares_sum ds - d) <= 0)%Z -> whole (r - shares_sum ds - d) ->
  walk_fills tol (of_Z r) (newer ++ f :: older) = Some (bf_filled_at f).
Proof.
  intros Hs Hf. revert r. induction Hs as [|g e newer ds Hg _ IH]; intros r Hk Hend Hw; simpl.
  - destruct (Hk 0%nat) as [Hp Hr]. simpl in *. rewrite Z.sub_0_r in *.
    rewrite (fill_delta f d), fsub_of_Z by (done || apply Hf).
    rewrite crossed_whole by (done || nia).
    by rewrite (proj2 (Z.leb_le _ _)) by nia.
  - destruct (Hk 0%nat) as [Hp Hr], (Hk 1%nat) as [Hp1 Hr1]. simpl in *.
    rewrite Z.sub_0_r in *. rewrite Z.add_0_r in *.
    rewrite (fill_delta g e), fsub_of_Z by (done || apply Hg).
    rewrite crossed_whole by (done || nia).
    rewrite (proj2 (Z.leb_gt _ _)) by nia.
    replace (r - (e + shares_sum ds) - d)%Z with (r - e - shares_sum ds - d)%Z in * by lia.
    apply IH; [|done..]. intros k. specialize (Hk (S k)). simpl in Hk.
    by replace (r - (e + shares_sum (take k ds)))%Z with (r - e - shares_sum (take k ds))%Z in Hk by lia.
Qed.
End Shares.

(** A position is dated by the fill that opened it. When the fills of its symbol, newest
    first, are whole shares, and going back from the position they keep it open in its
    direction up to a fill before which it was flat or reversed, the time found is that
    of this fill, whatever came before. *)
Theorem entry_fill_opens_position tol fills symbol side p newer ds f d older
    (Htol : share_tolerance tol)
    (Hside : lower (strip side) = (if (0 <? p)%Z then "long" else "short"))
    (Hfills : newest_first (List.filter (relevant_fill symbol tol) fills) = newer ++ f :: older)
    (Hnewer : Forall2 fill_shares newer ds) (Hf : fill_shares f d)
    (Hheld : held p ds)
    (Hopens : (p * (p - shares_sum ds - d) <= 0)%Z /\ whole (p - shares_sum ds - d)) :
  find_position_entry_fill_ts fills symbol (of_Z (Z.abs p)) side tol = Some (bf_filled_at f).
Proof.
  destruct (Hheld 0%nat) as [Hp Hw]. simpl in Hp, Hw. rewrite Z.sub_0_r in *.
  assert (p <> 0)%Z by (intros ->; lia).
  assert (whole (Z.abs p)) by (unfold whole in *; lia).
  assert (signed_position_inventory_target (of_Z (Z.abs p)) side tol = Some (of_Z p)) as Ht.
  { unfold signed_position_inventory_target. rewrite Hside.
    assert (fltb tol (of_Z (Z.abs p)) = true) as Hlt
      by (rewrite above_tolerance by done; apply Z.ltb_lt; lia).
    destruct (fleb (of_Z (Z.abs p)) tol) eqn:E; [forder|].
    destruct (Z.ltb_spec 0 p).
    - do 2 (rewrite bool_decide_true by (done || set_solver)). simpl. f_equal. f_equal. lia.
    - rewrite bool_decide_true by set_solver. rewrite bool_decide_false by done. simpl. f_equal.
      rewrite fneg_of_Z by (done || lia). f_equal. lia. }
  unfold find_position_entry_fill_ts. rewrite Ht, Hfills.
  destruct Hopens. eapply walk_finds; eauto.
Qed.

Definition btc_fill (side : string) (qty at_ : Z) : BrokerFillSnapshot :=
  mkFill "id" "btc" side (of_Z qty) at_.

(** Bought 3, sold 3, bought 5, bought 2: the position of 7 was opened by the third. *)
Lemma entry_fill_opens_position_witness :
  find_position_entry_fill_ts
    [btc_fill "buy" 2 40; btc_fill "buy" 3 10; btc_fill "sell" 3 20; btc_fill "buy" 5 30]
    "BTC" (of_Z 7) "Long" QTY_TOLERANCE = Some 30%Z.
Proof.
  apply (entry_fill_opens_position QTY_TOLERANCE _ "BTC" "Long" 7
           [btc_fill "buy" 2 40] [2%Z] (btc_fill "buy" 5 30) 5 [btc_fill "sell" 3 20; btc_fill "buy" 3 10]).
  - split; vm_compute; reflexivity.
  - vm_compute. reflexivity.
  - vm_compute. reflexivity.
  - repeat constructor; left; repeat split; vm_compute; reflexivity.
  - repeat constructor; left; repeat split; vm_compute; reflexivity.
  - intros [|[|k]]; repeat split.
  - repeat split. vm_compute. discriminate.
Defined.

(** ** A reconciliation aligns the legs with the broker, or locks *)

(** Asking the broker or the stores. *)
Definition is_read (e : recon_event) : bool :=
  match e with PersistedBounds _ | ReconstructedLegs _ | SyncedLiability _ => false | _ => true end.

(** A position difference by the engine's own test. *)
Definition position_differs (cfg : recon_config) (b : LegMemoryBound) (broker : option Position) : bool :=
  qty_differs (lb_qty b) (qty_of broker) (qty_tolerance cfg) ||
  side_differs (lb_position_side b) (side_of broker) (qty_of broker) (qty_tolerance cfg) ||
  avg_differs (lb_avg_entry_price b) (avg_of broker) (qty_of broker) (qty_tolerance cfg)
    (price_tolerance cfg).

Lemma fsub_self_tolerance tol x :
  fleb fzero tol = true -> fltb tol (fabs (fsub x x)) = false.
Proof.
  intros Ht. assert (fabs (fsub x x) = fzero \/ is_nan (fabs (fsub x x)) = true) as [->|Hn].
  - destruct x as [[]|[]| |s m e]; try (by left); try (by right).
    left. unfold fsub, SFsub. by rewrite Z.sub_diag.
  - destruct (fltb tol fzero) eqn:E; [forder|done].
  - by apply fltb_nan_r.
Qed.


Lemma snapshot_aligned cfg sid symbol broker prior ov :
  fleb QTY_TOLERANCE (qty_tolerance cfg) = true -> fleb fzero (price_tolerance cfg) = true ->
  (forall p, broker = Some p -> fnonneg (pos_qty p) = true) ->
  position_differs cfg (snapshot_from_broker sid symbol broker prior ov) broker = false.
Proof.
  intros Hq Hp Hn. unfold position_differs, snapshot_from_broker.
  assert (fleb fzero (qty_tolerance cfg) = true) as H0.
  { assert (fltb fzero QTY_TOLERANCE = true) by (vm_compute; reflexivity). forder. }
  destruct broker as [b|]; [destruct (fleb (pos_qty b) QTY_TOLERANCE) eqn:Eb|];
    cbn [qty_of side_of avg_of lb_qty lb_position_side lb_avg_entry_price];
    unfold qty_differs, side_differs, avg_differs.
  - specialize (Hn b eq_refl).
    assert (fleb (pos_qty b) (qty_tolerance cfg) = true) as Hle by forder.
    assert (fltb (qty_tolerance cfg) (pos_qty b) = false) as Hlt
      by (destruct (fltb _ (pos_qty b)) eqn:?; [forder|done]).
    rewrite Hle, Hlt.
    replace (bool_decide ("flat" = "flat")) with true by (symmetry; by apply bool_decide_true).
    cbn [andb negb]. rewrite andb_false_r, !orb_false_r.
    destruct (fltb _ (fabs _)) eqn:E; [|done].
    assert (fleb (fabs (fsub fzero (pos_qty b))) (pos_qty b) = true) as Ha.
    { destruct (pos_qty b) as [[]|[]| |[] m e]; try done. unfold fsub, SFsub, fabs, fleb, SFleb; simpl.
      rewrite Z.compare_refl. change (Pos.compare_cont Eq m m) with (Pos.compare m m).
      by rewrite Pos.compare_refl. }
    forder.
  - rewrite !fsub_self_tolerance, bool_decide_true by done. by rewrite andb_false_r.
  - rewrite (fsub_self_tolerance (qty_tolerance cfg) fzero) by done.
    assert (fltb (qty_tolerance cfg) fzero = false) as ->
      by (destruct (fltb _ fzero) eqn:?; [forder|done]). done.
Qed.

Lemma by_symbol_elem k p ps : assoc k (broker_positions_by_symbol ps) = Some p -> p ∈ ps.
Proof.
  unfold broker_positions_by_symbol. induction ps as [|q ps IH] using rev_ind; [done|].
  rewrite fold_left_app. simpl. intros [->|H]%assoc_set_some; set_solver.
Qed.

Arguments snapshot_from_broker : simpl never.

Section Outcomes.
Context {W : Type} (E : recon_env (W:=W)) (cfg : recon_config) (key : option string).

Definition same_mode (s s' : recon (W:=W)) : Prop :=
  rc_latches s' = rc_latches s /\ rc_degradation s' = rc_degradation s.

(** The state after calls that only asked. *)
Definition reads_only (s s' : recon (W:=W)) : Prop :=
  same_mode s s' /\ rc_journal s' = rc_journal s /\
  exists l, rc_log s' = rc_log s ++ l /\ Forall (fun e => is_read e = true) l.

#[export] Instance reads_only_preorder : PreOrder reads_only.
Proof.
  split.
  - intros s. split; [done|]. split; [done|]. exists []. by rewrite app_nil_r.
  - intros s1 s2 s3 ([? ?] & ? & l & Hl & Fl) ([? ?] & ? & l' & Hl' & Fl').
    repeat split; try congruence. exists (l ++ l'). rewrite Hl', Hl, app_assoc.
    split; [done|]. by apply Forall_app_2.
Qed.

(** A computation that only asks. *)
Definition asks {A} (m : R (W:=W) A) : Prop := forall s, reads_only s (m s).2.

Lemma asks_ret {A} (a : A) : asks (py_ret a).
Proof. intros s. simpl. reflexivity. Qed.

Lemma asks_bind {A B} (m : R (W:=W) A) (k : A -> R (W:=W) B) :
  asks m -> (forall a, asks (k a)) -> asks (py_bind m k).
Proof.
  intros Hm Hk s. unfold py_bind. specialize (Hm s). destruct (m s) as [[a|e] s1]; simpl in *; [|done].
  etrans; [exact Hm|apply Hk].
Qed.

Lemma asks_ecall {A} e (f : env_call (W:=W) A) : is_read e = true -> asks (ecall e f).
Proof.
  intros He s. unfold ecall. destruct (f (rc_env s)) as [r w]; simpl.
  split; [done|]. split; [done|]. exists [e]. by repeat constructor.
Qed.

Lemma asks_positions s ps w :
  re_get_positions E (rc_env s) = (Ok ps, w) -> reads_only s (note w (AskedForPositions (Ok ps)) s).
Proof. intros _. split; [done|]. split; [done|]. eexists [_]. split; [done|by constructor]. Qed.

Lemma asks_lookbacks symbol qty side days : asks (try_lookbacks E cfg symbol qty side days).
Proof.
  induction days as [|d days IH]; simpl; [apply asks_ret|].
  apply asks_bind; [by apply asks_ecall|]. intros fills.
  destruct (find_position_entry_fill_ts _ _ _ _ _); [apply asks_ret|done].
Qed.

(** A leg's bound is its snapshot of the broker's position. *)
Definition bound_of (by_symbol : list (string * Position)) (leg : string * string)
    (b : string * LegMemoryBound) : Prop :=
  b.1 = leg.1 /\
  exists prior ov, b.2 = snapshot_from_broker leg.1 leg.2 (assoc (upper leg.2) by_symbol) prior ov.

Lemma baseline_leg_spec by_symbol local now sid symbol s :
  let '(r, s') := baseline_leg E cfg by_symbol local now sid symbol s in
  reads_only s s' /\
  (forall x, r = Ok x -> bound_of by_symbol (sid, symbol) (sid, x.1)).
Proof.
  unfold baseline_leg, bound_of; simpl. destruct (assoc (upper symbol) by_symbol) as [b|]; [destruct (_ && _)|].
  - pose proof (asks_lookbacks symbol (pos_qty b) (pos_side b)
      (lookbacks (fill_lookback_days cfg)) s) as Ha.
    unfold resolve_position_entry_fill_ts, py_bind.
    destruct (try_lookbacks _ _ _ _ _ _ s) as [[[ts|]|e] s1]; (split; [done|]);
      intros x Hx; simplify_eq/=; (split; [done|by eexists _, _]).
  - split; [reflexivity|]. intros x Hx. simplify_eq. split; [done|by eexists _, _].
  - split; [reflexivity|]. intros x Hx. simplify_eq. split; [done|by eexists _, _].
Qed.

Lemma baseline_legs_spec by_symbol local now legs s :
  let '(r, s') := baseline_legs E cfg by_symbol local now legs s in
  reads_only s s' /\ (forall x, r = Ok x -> Forall2 (bound_of by_symbol) legs x.1).
Proof.
  revert s. induction legs as [|[sid symbol] legs IH]; intros s; simpl.
  { split; [reflexivity|]. intros x Hx. by simplify_eq. }
  unfold py_bind. pose proof (baseline_leg_spec by_symbol local now sid symbol s) as Hb.
  destruct (baseline_leg _ _ _ _ _ _ _ s) as [[b|e] s1]; [|by destruct Hb].
  specialize (IH s1). destruct (baseline_legs _ _ _ _ _ _ s1) as [[rest|e] s2]; destruct Hb as [Hb1 Hb2],
    IH as [IH1 IH2]; (split; [by etrans|]); intros x Hx; simplify_eq. simpl. constructor; auto.
Qed.

(** Every leg is stored with the broker's position, by the engine's own test. *)
Definition aligned (by_symbol : list (string * Position)) (bounds : list (string * LegMemoryBound)) : Prop :=
  Forall2 (fun leg b => b.1 = leg.1 /\
             position_differs cfg b.2 (assoc (upper leg.2) by_symbol) = false)
    (strategy_symbols cfg) bounds.

(** The stores of a success: one write of the bounds, the reconstruction of the legs
    in memory if there is one, and the order counts last. *)
Definition stored (by_symbol : list (string * Position)) (r : PreFlightReconciliationResult)
    (s s' : recon (W:=W)) : Prop :=
  same_mode s s' /\
  (exists asked bounds rec counts,
     rc_log s' = rc_log s ++ asked ++ [PersistedBounds bounds] ++ rec ++ [SyncedLiability counts] /\
     Forall (fun e => is_read e = true) asked /\
     (rec = [] \/ rec = [ReconstructedLegs bounds]) /\ aligned by_symbol bounds) /\
  (if rr_recovered r
   then exists e, rc_journal s' = rc_journal s ++ [e] /\
          ce_event_type e = EVENT_STATE_RECON_RECOVERY /\ verify_journal_signature key e = true /\
          rr_journal_event_id r = Some (journal_id e)
   else rc_journal s' = rc_journal s /\ rr_deltas r = []).

(** The lock of a failure: nothing is stored; the lock carries the reason and the
    degradation manager is degraded, unless the caller defers both. *)
Definition locked_out (now : string) (r : PreFlightReconciliationResult) (s s' : recon (W:=W)) : Prop :=
  rr_latched_soft_degrade r = true /\ rc_journal s' = rc_journal s /\
  (exists asked, rc_log s' = rc_log s ++ asked /\ Forall (fun e => is_read e = true) asked) /\
  (if defer_latch cfg then same_mode s s'
   else is_pre_flight_recon_locked (rc_latches s') = (true, rr_failure_reason r) /\
        rc_degradation s' = apply_soft_degrade (rr_failure_reason r) now <$> rc_degradation s).

(** The one failure in between: the lock is set and the mode degraded in memory, but the
    vault refused the mode's row. *)
Definition half_locked (now : string) (s s' : recon (W:=W)) : Prop :=
  defer_latch cfg = false /\ rc_journal s' = rc_journal s /\
  (exists asked, rc_log s' = rc_log s ++ asked /\ Forall (fun e => is_read e = true) asked) /\
  (exists e w w', vault_access E WriteMode w = (Raise e, w')) /\
  exists reason m, is_pre_flight_recon_locked (rc_latches s') = (true, reason) /\
    rc_degradation s = Some m /\ rc_degradation s' = Some (soft_degrade_memory reason now m).

Definition outcome (now : string) (by_symbol : list (string * Position)) (s : recon (W:=W))
    (out : result string PreFlightReconciliationResult * recon (W:=W)) : Prop :=
  match out.1 with
  | Raise _ => same_mode s out.2 \/ half_locked now s out.2
  | Ok r => if rr_success r then stored by_symbol r s out.2 else locked_out now r s out.2
  end.

Lemma same_mode_trans s1 s2 s3 : same_mode s1 s2 -> same_mode s2 s3 -> same_mode s1 s3.
Proof. intros [] []. split; congruence. Qed.

Lemma outcome_after_reads now by_symbol s s1 out :
  reads_only s s1 -> outcome now by_symbol s1 out -> outcome now by_symbol s out.
Proof.
  intros (Hm & Hj & l & Hl & Fl). unfold outcome. destruct out as [[r|e] s']; simpl.
  - destruct (rr_success r).
    + intros (Hm' & (asked & bounds & rec & counts & Hlog & Fa & Hrec & Hal) & Hjj).
      split; [by eapply same_mode_trans|]. split.
      * exists (l ++ asked), bounds, rec, counts. rewrite Hlog, Hl, <- !app_assoc.
        split; [done|]. split; [by apply Forall_app_2|done].
      * by rewrite <- Hj.
    + intros (Ht & Hjj & (asked & Hlog & Fa) & Hd). split; [done|]. split; [by rewrite Hjj|]. split.
      * exists (l ++ asked). rewrite Hlog, Hl, <- app_assoc. split; [done|]. by apply Forall_app_2.
      * destruct (defer_latch cfg); [by eapply same_mode_trans|].
        destruct Hm as [_ Hdeg]. by rewrite <- Hdeg.
  - intros [H|(Hd & Hjj & (asked & Hlog & Fa) & Hv & reason & m & Hl' & Hm' & Hm'')]; [left; by eapply same_mode_trans|right].
    split_and!; [done|by rewrite Hjj| |done|].
    + exists (l ++ asked). rewrite Hlog, Hl, <- app_assoc. split; [done|]. by apply Forall_app_2.
    + destruct Hm as [_ Hdeg]. rewrite Hdeg in Hm'. eauto.
Qed.

Lemma asks_vault o : asks (vault E o).
Proof.
  intros s. unfold vault. destruct (vault_access E o (rc_env s)) as [r w]. split; [done|]. split; [done|]. exists [].
  by rewrite app_nil_r.
Qed.

Lemma outcome_bind {A} now by_symbol (m : R (W:=W) A) k s :
  asks m -> (forall a s1, outcome now by_symbol s1 (k a s1)) ->
  outcome now by_symbol s (py_bind m k s).
Proof.
  intros Hm Hk. unfold py_bind. specialize (Hm s). destruct (m s) as [[a|e] s1]; simpl in *.
  - by eapply outcome_after_reads.
  - left. by destruct Hm.
Qed.

Lemma locked_outcome now by_symbol reason metadata s :
  outcome now by_symbol s (latch_soft_degrade E cfg reason metadata now s).
Proof.
  unfold latch_soft_degrade. destruct (defer_latch cfg) eqn:Ed.
  { unfold outcome, locked_out. cbn. rewrite Ed. split_and!; [done|done| |done]. exists []. by rewrite app_nil_r. }
  apply outcome_bind; [apply asks_vault|]. intros _ s1. unfold py_bind at 1, py_modify.
  set (s2 := set_latches _ s1). unfold py_bind, degrade_mode.
  assert (is_pre_flight_recon_locked (rc_latches s2) = (true, reason)) as Hl.
  { unfold is_pre_flight_recon_locked, engage_pre_flight_recon_lock, s2. cbn. by rewrite lookup_insert_eq. }
  assert (exists asked, rc_log s1 = rc_log s1 ++ asked /\ Forall (fun e => is_read e = true) asked) as Hlog
    by (exists []; by rewrite app_nil_r).
  change (rc_degradation s2) with (rc_degradation s1).
  destruct (rc_degradation s1) as [m|] eqn:Em.
  2: { unfold outcome, locked_out. cbn. rewrite Ed. change (rc_degradation s2) with (rc_degradation s1).
       rewrite Em. by split_and!. }
  case_bool_decide as Hh.
  { unfold outcome, locked_out. cbn. rewrite Ed. change (rc_degradation s2) with (rc_degradation s1).
    rewrite Em. unfold apply_soft_degrade. cbn. rewrite bool_decide_true by done. by split_and!. }
  unfold vault, py_bind, py_modify. cbn [rc_env set_degradation].
  destruct (vault_access E WriteMode (rc_env s2)) as [[[]|e] w] eqn:Ew.
  - unfold outcome, locked_out. cbn. rewrite Ed. split_and!; [done..|]. rewrite Em. unfold apply_soft_degrade. cbn.
    by rewrite bool_decide_false.
  - right. unfold half_locked. cbn. split_and!; [done..|eauto|]. exists reason, m. by split_and!.
Qed.

Section Aligned.
Context (by_symbol : list (string * Position)).
Context (Hq : fleb QTY_TOLERANCE (qty_tolerance cfg) = true)
        (Hp : fleb fzero (price_tolerance cfg) = true)
        (Hn : forall k p, assoc k by_symbol = Some p -> fnonneg (pos_qty p) = true).

Lemma bounds_aligned bounds :
  Forall2 (bound_of by_symbol) (strategy_symbols cfg) bounds -> aligned by_symbol bounds.
Proof.
  unfold aligned. induction 1 as [|leg b legs bounds [H1 (prior & ov & H2)] _ IH]; constructor; [|done].
  split; [done|]. rewrite H2. apply snapshot_aligned; [done..|]. eauto.
Qed.

Lemma refresh_outcome now orders local s :
  outcome now by_symbol s (refresh E cfg by_symbol orders local s).
Proof.
  unfold refresh, finish, py_bind, ecall. set (bounds := map _ (strategy_symbols cfg)).
  assert (aligned by_symbol bounds) as Ha.
  { apply bounds_aligned. unfold bounds. induction (strategy_symbols cfg); constructor; [|done].
    split; [done|]. by eexists _, _. }
  destruct (persist_strategy_runtime_snapshots E bounds (rc_env s)) as [[[]|e] w]; [|by left].
  cbn [rc_env note].
  destruct (sync_local_open_order_liability E _ w) as [[[]|e] w']; [|by left].
  simpl. split; [done|]. split; [|done].
  exists [], bounds, [], (open_order_counts orders). cbn [py_ret snd rc_log note]. rewrite <- app_assoc.
  repeat split; [constructor|by left|done].
Qed.

Lemma recover_outcome now market_now orders local pending deltas s :
  outcome now by_symbol s (recover E cfg key by_symbol orders local pending deltas now market_now s).
Proof.
  unfold recover, apply_broker_baseline, py_bind.
  pose proof (baseline_legs_spec by_symbol local market_now (strategy_symbols cfg) s) as Hb.
  destruct (baseline_legs _ _ _ _ _ _ s) as [[[bounds un]|e] s1]; destruct Hb as [Hr Hb];
    [|left; by destruct Hr].
  apply (outcome_after_reads _ _ _ _ _ Hr). specialize (Hb _ eq_refl). simpl in Hb.
  apply bounds_aligned in Hb. clear Hr s. cbn [snd fst].
  destruct un as [|u un]; [|apply locked_outcome].
  unfold ecall at 1.
  destruct (persist_strategy_runtime_snapshots E bounds (rc_env s1)) as [[[]|e] w1]; [|by left].
  cbn [snd fst py_ret]. set (s2 := note w1 _ s1).
  destruct (reconstruct E bounds s2) as [rr s3] eqn:Er.
  assert (same_mode s2 s3 /\ rc_journal s3 = rc_journal s2 /\ exists rec,
    rc_log s3 = rc_log s2 ++ rec /\ (rec = [] \/ rec = [ReconstructedLegs bounds])) as (Hm & Hj & rec & Hl & Hrec).
  { unfold reconstruct in Er.
    destruct (on_reconstruct_leg_memory E) as [f|]; unfold ecall, py_ret in Er.
    - destruct (f bounds (rc_env s2)) as [r w]. simplify_eq. repeat split. exists [ReconstructedLegs bounds].
      by split; [|right].
    - simplify_eq. repeat split. exists []. rewrite app_nil_r. by split; [|left]. }
  destruct rr as [[]|e]; [|left; exact Hm].
  unfold append_recovery, vault, py_bind.
  destruct (vault_access E WriteJournal (rc_env s3)) as [[[]|e] w3]; [|left; exact Hm].
  cbn [rc_journal rc_latches rc_degradation rc_env rc_log].
  journal_append_case e. cbn iota beta zeta.
  unfold finish, py_bind, ecall. cbn [rc_env].
  destruct (sync_local_open_order_liability E _ _) as [[[]|e'] w4]; [|left; exact Hm].
  split; [exact Hm|]. split.
  - exists [], bounds, rec, (open_order_counts orders). cbn [py_ret snd rc_log note] in *. rewrite Hl.
    unfold s2; simpl. rewrite <- !app_assoc. simpl. repeat split; [constructor|done|done].
  - exists e. cbn. by rewrite Hj.
Qed.
End Aligned.
End Outcomes.

(** C5: For tolerances that are not below the engine's own and not negative, and a broker that
    lists no negative quantity, a cold start ends in one of these ways. When the lock is set,
    nothing is asked or changed and a result is a failure. A call that raises leaves
    lock and mode as they were, but for one: when only the row of the degraded mode is
    refused, the lock is already set and the mode degraded in memory. A success has stored the broker's position for every
    leg, so that comparing again finds no difference, wrote the order counts last,
    changed neither lock nor mode, and journalled exactly when there was a difference.
    A failure stored nothing; it set the lock with its reason and degraded the mode, or, when
    the caller defers both to retry, it changed neither. *)
Theorem preflight_aligns_or_locks {W} (E : recon_env (W:=W)) cfg key now market_now s
    (Hq : fleb QTY_TOLERANCE (qty_tolerance cfg) = true)
    (Hp : fleb fzero (price_tolerance cfg) = true)
    (Hpos : forall w ps w', re_get_positions E w = (Ok ps, w') ->
              Forall (fun p => fnonneg (pos_qty p) = true) ps) :
  let '(res, s') := recon_execute E cfg key now market_now s in
  if (is_pre_flight_recon_locked (rc_latches s)).1
  then same_mode s s' /\ rc_journal s' = rc_journal s /\ rc_log s' = rc_log s /\
       forall r, res = Ok r -> rr_success r = false
  else match res with
       | Raise _ => same_mode s s' \/ half_locked E cfg now s s'
       | Ok r =>
           if rr_success r
           then exists positions,
                  (re_get_positions E (rc_env (vault E ReadLock s).2)).1 = Ok positions /\
                  stored cfg key (broker_positions_by_symbol positions) r s s'
           else locked_out cfg now r s s'
       end.
Proof.
  destruct (recon_execute E cfg key now market_now s) as [res s'] eqn:Ex. unfold recon_execute in Ex.
  unfold py_bind at 1 in Ex. pose proof (asks_vault E ReadLock s) as Hv.
  assert (rc_log (vault E ReadLock s).2 = rc_log s /\ same_mode s (vault E ReadLock s).2 /\
    rc_journal (vault E ReadLock s).2 = rc_journal s) as (Hvl & [Hvm Hvd] & Hvj)
    by (unfold vault; by destruct (vault_access E ReadLock (rc_env s))).
  destruct (vault E ReadLock s) as [[[]|e] s0]; cbn [snd] in Hv, Hvl, Hvm, Hvd, Hvj;
    [|simplify_eq; destruct (is_pre_flight_recon_locked (rc_latches s)).1; [by split_and!|by left]].
  rewrite Hvm in Ex.
  destruct (is_pre_flight_recon_locked (rc_latches s)) as [[] why]; cbn [fst].
  { simplify_eq. split_and!; [done..|]. by intros r [= <-]. }
  unfold py_bind at 1, ask_positions in Ex.
  destruct (re_get_positions E (rc_env s0)) as [[ps|e] w] eqn:Eps; [|simplify_eq; by left].
  set (s1 := note w (AskedForPositions (Ok ps)) s0) in Ex.
  set (by_symbol := broker_positions_by_symbol ps) in *.
  assert (forall k p, assoc k by_symbol = Some p -> fnonneg (pos_qty p) = true) as Hn.
  { intros k p Hk%by_symbol_elem. specialize (Hpos _ _ _ Eps).
    rewrite Forall_forall in Hpos. auto. }
  assert (outcome E cfg key now by_symbol s (res, s')) as Hout.
  { apply (outcome_after_reads E cfg key now by_symbol s s1).
    { etrans; [exact Hv|]. apply (asks_positions E _ _ _ Eps). }
    rewrite <- Ex. clear Ex.
    repeat (apply outcome_bind; [by apply asks_ecall|intros ? ?]).
    apply outcome_bind; [intros ?; simpl; reflexivity|]. intros reason sx.
    destruct (truthy reason); [apply locked_outcome|].
    destruct (diff_snapshots _ _ _ _ _ _); [by apply refresh_outcome|by apply recover_outcome]. }
  unfold outcome in Hout. cbn [fst snd] in Hout. destruct res as [r|e]; [|done].
  destruct (rr_success r); [|done]. exists ps. cbn [snd]. by rewrite Eps.
Qed.

(** A boot that has lost a leg's memory: the broker holds 7 shares of the leg's symbol. *)
Definition lost_memory_env : recon_env (W:=unit) :=
  mkReconEnv
    (fun w => (Ok [mkPosition "btc" (of_Z 7) "long" (of_Z 100) fzero], w))
    (fun w => (Ok [], w))
    (fun _ _ w => (Ok [btc_fill "buy" 2 40; btc_fill "buy" 5 30], w))
    (fun w => (Ok [("leg", mkRuntime "leg" "BTC" "flat" fzero fzero 0 40 0)], w))
    (fun w => (Ok [("leg", 0%Z)], w))
    (fun _ w => (Ok tt, w))
    (fun _ w => (Ok tt, w))
    None
    (fun _ w => (Ok tt, w)).

Definition one_leg : recon_config :=
  mkReconConfig [("leg", "BTC")] [] QTY_TOLERANCE PRICE_TOLERANCE FILL_LOOKBACK_DAYS false.

Definition booting : recon (W:=unit) := mkRecon ∅ None [] tt [].

Lemma preflight_aligns_or_locks_witness :
  let '(res, s') := recon_execute lost_memory_env one_leg None "2026-01-05T10:00:00+00:00" 50 booting in
  exists r, res = Ok r /\ rr_recovered r = true /\
    stored one_leg None (broker_positions_by_symbol
      [mkPosition "btc" (of_Z 7) "long" (of_Z 100) fzero]) r booting s'.
Proof.
  pose proof (preflight_aligns_or_locks lost_memory_env one_leg None "2026-01-05T10:00:00+00:00" 50
    booting ltac:(vm_compute; reflexivity) ltac:(vm_compute; reflexivity)) as H.
  assert (forall w ps w', re_get_positions lost_memory_env w = (Ok ps, w') ->
            Forall (fun p => fnonneg (pos_qty p) = true) ps) as Hpos.
  { intros w ps w' Heq. injection Heq as <- _. by repeat constructor. }
  specialize (H Hpos).
  assert (match recon_execute lost_memory_env one_leg None "2026-01-05T10:00:00+00:00" 50 booting with
          | (Ok r, _) => rr_success r && rr_recovered r | _ => false end = true) as Hc
    by (vm_compute; reflexivity).
  destruct (recon_execute _ _ _ _ _ _) as [[r|e] s']; [|discriminate].
  apply andb_true_iff in Hc as [Hs Hr]. exists r. split; [reflexivity|]. split; [exact Hr|].
  change (is_pre_flight_recon_locked (rc_latches booting)) with (false, "") in H. cbn [fst] in H.
  rewrite Hs in H. destruct H as (ps & Hps & Hst). injection Hps as <-. exact Hst.
Defined.

(** Two legs on one symbol are each told they hold the whole position. *)
Lemma shared_symbol_counts_twice :
  let p := mkPosition "BTC" (of_Z 7) "long" (of_Z 100) fzero in
  map lb_qty [snapshot_from_broker "leg_a" "BTC" (Some p) None None;
              snapshot_from_broker "leg_b" "BTC" (Some p) None None] = [of_Z 7; of_Z 7].
Proof. vm_compute. reflexivity. Qed.

(** The age of a reconstructed position is at least one bar and at most the leg's
    limit, whatever the clocks say. *)
Theorem deduced_bars_bounded entry_ts now interval max_bars :
  (1 <= deduce_bars_in_trade entry_ts now interval max_bars <= Z.max 1 max_bars)%Z.
Proof.
  unfold deduce_bars_in_trade, int_or. destruct (Z.eqb_spec max_bars 0); lia.
Qed.
