(* ===== verification/Watchdog.v ===== *)
(** * The heartbeat watchdog

    [src/control/heartbeat_watchdog.py], with the two instances built by
    [src/control/liveness_watchdogs.py]: an independent check of the age of the
    main loop's heartbeat, which halts entries through the escalation engine of
    [Preemption] and, outside live trading, lifts a halt of its own after enough
    healthy checks. Times are microseconds since the epoch. *)

From stdpp Require Import base strings list.
From Stdlib Require Import ZArith Lia.
From S2P Require Import Prelude PyFloat Preemption.

Record WatchdogResult := mkWatchdogResult {
  tripped : bool;
  age_seconds : option float;
  wr_market_open : bool;
  wr_reason : string
}.

(** The alerts, by [kind] and [severity], and the clear notice of a
    notifier that has one. *)
Inductive watchdog_alert :=
  | HeartbeatStale (message : string) (age : option float)
  | GateBlocked (gate_reason : string)
  | ConditionCleared.

(** The status payload of the latest beat; [last_cycle_ts] as parsed, [None] when
    absent or unreadable. *)
Record heartbeat_status := mkStatus {
  last_cycle_ts : option Z;
  status_gate : string;
  gate_reason : string
}.

(** What one check reads: the clock, the calendar, the latest beat and its
    status. *)
Record reading := mkReading {
  rd_now : Z;
  rd_market_open : bool;
  rd_latest : option Z;
  rd_status : option heartbeat_status
}.

Record watchdog_config := mkWatchdogConfig {
  wd_threshold : float;
  wd_component : string;
  wd_started_at : Z;
  wd_allow_deesc : bool;
  wd_streak_required : Z;
  (* [NullEscalation] has no snapshot and ignores transitions *)
  wd_null_escalation : bool;
  wd_notifier_resolves : bool
}.

(** [__init__]. *)
Definition watchdog_init (threshold : float) (component environment : string)
    (auto_deescalation_enabled : bool) (streak_required started_at : Z)
    (null_escalation notifier_resolves : bool) : watchdog_config :=
  mkWatchdogConfig threshold component started_at
    (auto_deescalation_enabled && negb (bool_decide (lower environment = "live")))
    streak_required null_escalation notifier_resolves.

Definition SOAK_STALE_THRESHOLD_S : float := of_Z 120.
Definition MIRROR_SYNC_STALE_THRESHOLD_S : float := of_Z 3600.

Definition build_soak_watchdog (environment : string) (auto_deescalation_enabled : bool)
    (started_at : Z) (notifier_resolves : bool) : watchdog_config :=
  watchdog_init SOAK_STALE_THRESHOLD_S "soak" environment auto_deescalation_enabled 10 started_at
    false notifier_resolves.

Definition build_mirror_sync_watchdog (started_at : Z) (notifier_resolves : bool) : watchdog_config :=
  watchdog_init MIRROR_SYNC_STALE_THRESHOLD_S "mirror_sync" "paper" true 10 started_at true notifier_resolves.

Record watchdog := mkWatchdog {
  wd_engine : RiskEscalationSnapshot;
  fresh_streak : Z;
  logged_prior_age : bool;
  wd_alerts : list watchdog_alert
}.

Section Check.
Context (cfg : watchdog_config).

(** [self._escalation.transition(level, commanded_by=..)]. *)
Definition escalate (level : RiskEscalationLevel) (by_ : string) (e : RiskEscalationSnapshot)
    : RiskEscalationSnapshot :=
  if wd_null_escalation cfg then e else escalation_transition level "GLOBAL" None None by_ e.

Definition trip (message : string) (age : option float) (w : watchdog) : watchdog :=
  mkWatchdog (escalate ENTRY_GATE_HALT "heartbeat_watchdog" (wd_engine w)) 0 (logged_prior_age w)
    (wd_alerts w ++ [HeartbeatStale message age]).

(** [_resolve()]. *)
Definition resolve (w : watchdog) : watchdog :=
  if wd_notifier_resolves cfg
  then mkWatchdog (wd_engine w) (fresh_streak w) (logged_prior_age w) (wd_alerts w ++ [ConditionCleared])
  else w.

(** The halt is the watchdog's own. *)
Definition own_halt (s : RiskEscalationSnapshot) : bool :=
  bool_decide (snap_level s = ENTRY_GATE_HALT) &&
  bool_decide (snap_commanded_by s = "heartbeat_watchdog") &&
  negb (portfolio_liquidation_commanded s) && negb (engine_shutdown_latched s).

(** The end of a healthy check: the streak, and the bounded de-escalation. *)
Definition accrue (w : watchdog) : watchdog :=
  let streak := (fresh_streak w + 1)%Z in
  if wd_allow_deesc cfg && negb (wd_null_escalation cfg) && (wd_streak_required cfg <=? streak)%Z &&
     own_halt (wd_engine w)
  then mkWatchdog (escalate NOMINAL "heartbeat_watchdog_recovery" (wd_engine w)) 0
         (logged_prior_age w) (wd_alerts w)
  else mkWatchdog (wd_engine w) streak (logged_prior_age w) (wd_alerts w).

Definition set_streak (n : Z) (w : watchdog) : watchdog :=
  mkWatchdog (wd_engine w) n (logged_prior_age w) (wd_alerts w).

Definition add_alert (a : watchdog_alert) (w : watchdog) : watchdog :=
  mkWatchdog (wd_engine w) (fresh_streak w) (logged_prior_age w) (wd_alerts w ++ [a]).

Definition note_prior_age (w : watchdog) : watchdog :=
  mkWatchdog (wd_engine w) (fresh_streak w) true (wd_alerts w).

(** [check(now)]. *)
Definition check (r : reading) (w : watchdog) : WatchdogResult * watchdog :=
  if negb (rd_market_open r) then (mkWatchdogResult false None false "market_closed", w) else
  let age := (fun latest => total_seconds (rd_now r - latest)) <$> rd_latest r in
  let w := if logged_prior_age w then w else note_prior_age w in
  let elapsed := total_seconds (rd_now r - wd_started_at cfg) in
  if fleb fzero elapsed && fltb elapsed (wd_threshold cfg)
  then (mkWatchdogResult false age true "startup_grace", w) else
  if match age with None => true | Some a => fltb (wd_threshold cfg) a end
  then (mkWatchdogResult true age true "stale_heartbeat",
        trip (String.append (wd_component cfg) " heartbeat stale") age w)
  else
  let cycle_age := s ← rd_status r; lct ← last_cycle_ts s; Some (total_seconds (rd_now r - lct)) in
  if match cycle_age with None => false | Some c => fltb (wd_threshold cfg) c end
  then (mkWatchdogResult true age true "engine_cycle_stale",
        trip (String.append (wd_component cfg) " consumption stalled (heartbeat task alive)") cycle_age w)
  else if match rd_status r with Some s => bool_decide (upper (status_gate s) = "BLOCKED") | None => false end
  then (mkWatchdogResult false age true "gate_blocked",
        add_alert (GateBlocked (match rd_status r with Some s => gate_reason s | None => "" end))
          (resolve (set_streak 0 w)))
  else (mkWatchdogResult false age true "healthy", accrue (resolve w)).

(** [run]: one check per reading. *)
Definition watchdog_step (w : watchdog) (r : reading) : watchdog := (check r w).2.
End Check.

(** ** Lemmas *)

Definition healthy (cfg : watchdog_config) (w : watchdog) (r : reading) : bool :=
  bool_decide (wr_reason (check cfg r w).1 = "healthy").

(** The five ways a check ends. *)
Lemma check_cases cfg r w :
  let '(res, w') := check cfg r w in
  (tripped res = true /\ fresh_streak w' = 0%Z /\
     wd_engine w' = escalate cfg ENTRY_GATE_HALT "heartbeat_watchdog" (wd_engine w) /\
     (wr_reason res = "stale_heartbeat" \/ wr_reason res = "engine_cycle_stale") /\
     exists m a, wd_alerts w' = wd_alerts w ++ [HeartbeatStale m a]) \/
  (tripped res = false /\ wd_engine w' = wd_engine w /\ fresh_streak w' = fresh_streak w /\
     (wr_reason res = "market_closed" \/ wr_reason res = "startup_grace")) \/
  (tripped res = false /\ wd_engine w' = wd_engine w /\ fresh_streak w' = 0%Z /\ wr_reason res = "gate_blocked") \/
  (tripped res = false /\ wr_reason res = "healthy" /\
     exists w0, wd_engine w0 = wd_engine w /\ fresh_streak w0 = fresh_streak w /\ w' = accrue cfg w0).
Proof.
  unfold check. destruct (rd_market_open r); simpl; [|right; left; auto].
  set (w1 := if logged_prior_age w then w else note_prior_age w).
  assert (wd_engine w1 = wd_engine w /\ fresh_streak w1 = fresh_streak w /\ wd_alerts w1 = wd_alerts w)
    as (He & Hf & Ha) by (unfold w1; by destruct (logged_prior_age w)).
  clearbody w1.
  destruct (_ && _); [right; left; auto|].
  destruct (match _ with None => true | Some a => fltb _ a end).
  { left. split_and!; try done; simpl; [by rewrite He|auto|]. do 2 eexists. by rewrite Ha. }
  destruct (match _ with None => false | Some c => fltb _ c end).
  { left. split_and!; try done; simpl; [by rewrite He|auto|]. do 2 eexists. by rewrite Ha. }
  destruct (match rd_status r with Some s => bool_decide _ | None => false end).
  { right; right; left. unfold resolve. by destruct (wd_notifier_resolves cfg). }
  right; right; right. split; [done|]. split; [done|]. exists (resolve cfg w1).
  unfold resolve. by destruct (wd_notifier_resolves cfg).
Qed.

Lemma escalate_halts cfg w : wd_null_escalation cfg = false ->
  snap_level (escalate cfg ENTRY_GATE_HALT "heartbeat_watchdog" w) = ENTRY_GATE_HALT.
Proof. unfold escalate. by intros ->. Qed.

(** ** Properties *)

(** A check trips exactly when the market is open, the startup grace is over, and
    the beat is missing or too old or the engine's last cycle is; a trip with a
    real engine leaves every strategy's entries blocked and pages once, and any
    other check leaves the escalation engine as it was unless it lifts a halt the
    watchdog itself commanded. *)
Theorem watchdog_trips_exactly cfg r w :
  let '(res, w') := check cfg r w in
  let stale := match rd_latest r with
               | None => true
               | Some latest => fltb (wd_threshold cfg) (total_seconds (rd_now r - latest))
               end in
  let cycle_stale := match rd_status r with
                     | Some (mkStatus (Some lct) _ _) => fltb (wd_threshold cfg) (total_seconds (rd_now r - lct))
                     | _ => false
                     end in
  let elapsed := total_seconds (rd_now r - wd_started_at cfg) in
  tripped res = rd_market_open r && negb (fleb fzero elapsed && fltb elapsed (wd_threshold cfg)) &&
                (stale || cycle_stale) /\
  (tripped res = true ->
     (exists m a, wd_alerts w' = wd_alerts w ++ [HeartbeatStale m a]) /\
     (wd_null_escalation cfg = false -> forall sid, blocks_entries_for_strategy sid (wd_engine w') = true)) /\
  (tripped res = false -> wd_engine w' <> wd_engine w -> own_halt (wd_engine w) = true).
Proof.
  pose proof (check_cases cfg r w) as Hc. destruct (check cfg r w) as [res w'] eqn:E.
  cbv zeta. split_and!.
  - unfold check in E. destruct (rd_market_open r); simpl in *; [|by simplify_eq].
    destruct (fleb fzero _ && fltb _ (wd_threshold cfg)); simpl; [by simplify_eq|].
    destruct (rd_latest r) as [l|]; simpl in *; [|by simplify_eq].
    destruct (fltb (wd_threshold cfg) (total_seconds (rd_now r - l))); simpl; [by simplify_eq|].
    destruct (rd_status r) as [[[lct|] g gr]|]; simpl in *;
      [destruct (fltb (wd_threshold cfg) (total_seconds (rd_now r - lct))); [by simplify_eq|]|..];
      repeat case_match; by simplify_eq.
  - intros Ht. destruct Hc as [(_ & _ & He & _ & Ha)|[(?&_)|[(?&_)|(?&_)]]]; [|congruence..].
    split; [done|]. intros Hn sid. rewrite He. unfold blocks_entries_for_strategy. by rewrite escalate_halts.
  - intros Ht Hne. destruct Hc as [(?&_)|[(_&?&_)|[(_&?&_)|(_ & _ & w0 & H1 & H2 & ->)]]]; try congruence.
    unfold accrue in Hne. rewrite <- H1.
    destruct (_ && _ && _ && own_halt (wd_engine w0)) eqn:Ea; [by apply andb_true_iff in Ea as [_ ?]|].
    simpl in Hne. congruence.
Qed.

(** *** The streak over a history

    Between checks the escalation engine is also commanded by others. *)
Inductive watchdog_event :=
  | EvCheck (r : reading)
  | EvCommand (level : RiskEscalationLevel) (scope : string) (sid sym : option string) (by_ : string).

Definition watchdog_event_step (cfg : watchdog_config) (w : watchdog) (e : watchdog_event) : watchdog :=
  match e with
  | EvCheck r => watchdog_step cfg w r
  | EvCommand level scope sid sym by_ =>
      mkWatchdog (escalation_transition level scope sid sym by_ (wd_engine w)) (fresh_streak w)
        (logged_prior_age w) (wd_alerts w)
  end.

(** What a reading shows, in its own terms: nothing (the market is closed, or the process has just
    started), trouble (no beat, an old one, an old engine cycle, a blocked gate), or health. *)
Inductive showing := Nothing | Trouble | Health.

Definition shows (cfg : watchdog_config) (r : reading) : showing :=
  let elapsed := total_seconds (rd_now r - wd_started_at cfg) in
  let old t := fltb (wd_threshold cfg) (total_seconds (rd_now r - t)) in
  if negb (rd_market_open r) || (fleb fzero elapsed && fltb elapsed (wd_threshold cfg)) then Nothing
  else match rd_latest r, rd_status r with
       | None, _ => Trouble
       | Some latest, None => if old latest then Trouble else Health
       | Some latest, Some st =>
           if old latest || match last_cycle_ts st with Some t => old t | None => false end
              || bool_decide (upper (status_gate st) = "BLOCKED")
           then Trouble else Health
       end.

(** The check lifted a halt. *)
Definition lifts (w w' : watchdog) : bool :=
  blocks_all_entries (wd_engine w) && negb (blocks_all_entries (wd_engine w')).

(** The healthy checks since the last one that showed trouble and the last one that lifted a halt. *)
Fixpoint streak (cfg : watchdog_config) (w : watchdog) (n : Z) (evs : list watchdog_event) : Z :=
  match evs with
  | [] => n
  | e :: evs =>
      let w' := watchdog_event_step cfg w e in
      streak cfg w'
        match e with
        | EvCheck r => match shows cfg r with
                       | Nothing => n
                       | Trouble => 0
                       | Health => if lifts w w' then 0 else n + 1
                       end
        | EvCommand _ _ _ _ _ => n
        end evs
  end.

Lemma check_shows cfg r w :
  let w' := watchdog_step cfg w r in
  match shows cfg r with
  | Nothing => wd_engine w' = wd_engine w /\ fresh_streak w' = fresh_streak w
  | Trouble => fresh_streak w' = 0%Z /\
      (wd_engine w' = wd_engine w \/
       tripped (check cfg r w).1 = true /\
       wd_engine w' = escalate cfg ENTRY_GATE_HALT "heartbeat_watchdog" (wd_engine w))
  | Health => exists w0, wd_engine w0 = wd_engine w /\ fresh_streak w0 = fresh_streak w /\ w' = accrue cfg w0
  end.
Proof.
  cbv zeta. unfold watchdog_step, check, shows. destruct (rd_market_open r); cbn [negb orb fst snd]; [|done].
  set (w1 := if logged_prior_age w then w else note_prior_age w).
  assert (wd_engine w1 = wd_engine w /\ fresh_streak w1 = fresh_streak w) as (He & Hf)
    by (unfold w1; by destruct (logged_prior_age w)).
  clearbody w1. destruct (fleb fzero _ && fltb _ _); [by split|].
  destruct (rd_latest r) as [latest|]; cbn; [|split; [done|right; by rewrite He]].
  destruct (fltb (wd_threshold cfg) (total_seconds (rd_now r - latest))); cbn.
  { destruct (rd_status r); (split; [done|right; by rewrite He]). }
  destruct (rd_status r) as [[[t|] gate reason]|]; cbn.
  - destruct (fltb _ (total_seconds (rd_now r - t))); cbn; [split; [done|right; by rewrite He]|].
    case_bool_decide; cbn; unfold resolve; destruct (wd_notifier_resolves cfg); cbn;
      first [split; [reflexivity|by left]|eexists; split; [|split; [|reflexivity]]; done].
  - case_bool_decide; cbn; unfold resolve; destruct (wd_notifier_resolves cfg); cbn;
      first [split; [reflexivity|by left]|eexists; split; [|split; [|reflexivity]]; done].
  - unfold resolve; destruct (wd_notifier_resolves cfg); (eexists; split; [|split; [|reflexivity]]; done).
Qed.

Lemma escalate_blocks cfg e :
  blocks_all_entries e = true -> blocks_all_entries (escalate cfg ENTRY_GATE_HALT "heartbeat_watchdog" e) = true.
Proof. unfold escalate. by destruct (wd_null_escalation cfg). Qed.

(** A check that lifts, and what the streak counter holds after any check. *)
Lemma check_counts cfg r w :
  let w' := watchdog_step cfg w r in
  fresh_streak w' = match shows cfg r with
                    | Nothing => fresh_streak w
                    | Trouble => 0%Z
                    | Health => if lifts w w' then 0%Z else (fresh_streak w + 1)%Z
                    end /\
  (lifts w w' = true ->
     shows cfg r = Health /\ wd_allow_deesc cfg = true /\ wd_null_escalation cfg = false /\
     own_halt (wd_engine w) = true /\ (wd_streak_required cfg <= fresh_streak w + 1)%Z).
Proof.
  intros w'. pose proof (check_shows cfg r w) as Hc. fold w' in Hc. cbv zeta in Hc. unfold lifts.
  destruct (shows cfg r).
  - destruct Hc as [He Hf]. split; [done|]. rewrite He. by destruct (blocks_all_entries _).
  - destruct Hc as [Hf [He|[_ He]]]; (split; [done|]); rewrite He.
    + by destruct (blocks_all_entries _).
    + intros [Hb Hn]%andb_true_iff. by rewrite escalate_blocks in Hn.
  - destruct Hc as (w0 & He & Hf & ->). unfold accrue. rewrite He, Hf.
    destruct (_ && _ && _ && own_halt _) eqn:Ea; cbn [wd_engine fresh_streak].
    + apply andb_true_iff in Ea as [[[Ha Hn]%andb_true_iff Hq]%andb_true_iff Ho].
      apply negb_true_iff in Hn. apply Z.leb_le in Hq. split; [|by intros _].
      unfold escalate. rewrite Hn. unfold own_halt in Ho.
      apply andb_true_iff in Ho as [[[Hl _]%andb_true_iff _]%andb_true_iff _]. apply bool_decide_eq_true in Hl.
      unfold blocks_all_entries. rewrite Hl. done.
    + by destruct (blocks_all_entries _).
Qed.

(** The counter is the streak. *)
Lemma streak_counts cfg w evs :
  fresh_streak (runs (watchdog_event_step cfg) w evs) = streak cfg w (fresh_streak w) evs.
Proof.
  revert w. induction evs as [|e evs IH]; intros w; [done|]. rewrite runs_cons, IH. cbn [streak]. f_equal.
  destruct e as [r|]; [|done]. apply (check_counts cfg r w).
Qed.

Fixpoint any_trip (cfg : watchdog_config) (w : watchdog) (rs : list reading) : bool :=
  match rs with
  | [] => false
  | r :: rest => tripped (check cfg r w).1 || any_trip cfg (watchdog_step cfg w r) rest
  end.

(** C31: whatever is commanded between its checks, the check of a watchdog built by the constructor lifts a
    halt only outside live trading, with the de-escalation enabled and a real engine, when the halt
    is the watchdog's own, the reading is healthy, and it completes the required number of healthy
    checks in a row since the last check that showed trouble (a missing or old beat, an old engine
    cycle, a blocked gate) and the last lift. In live trading no checks ever lift a halt. And a
    halt that is not the watchdog's own is not touched while no check trips. *)
Theorem halt_lifts_only_after_streak threshold component environment enabled required started null resolves w evs :
  let cfg := watchdog_init threshold component environment enabled required started null resolves in
  fresh_streak w = 0%Z ->
  (forall pre r post, evs = pre ++ EvCheck r :: post ->
     let w1 := runs (watchdog_event_step cfg) w pre in
     blocks_all_entries (wd_engine w1) = true -> blocks_all_entries (wd_engine (watchdog_step cfg w1 r)) = false ->
     lower environment <> "live" /\ enabled = true /\ null = false /\ own_halt (wd_engine w1) = true /\
     shows cfg r = Health /\ (required <= streak cfg w 0 pre + 1)%Z) /\
  (forall rs, lower environment = "live" -> blocks_all_entries (wd_engine w) = true ->
     blocks_all_entries (wd_engine (runs (watchdog_step cfg) w rs)) = true) /\
  (forall rs, own_halt (wd_engine w) = false -> any_trip cfg w rs = false ->
     wd_engine (runs (watchdog_step cfg) w rs) = wd_engine w).
Proof.
  intros cfg Hzero. split; [|split].
  - intros pre r post _ w1 Hb Hn. destruct (check_counts cfg r w1) as [_ Hl].
    destruct Hl as (Hs & Ha & Hnull & Ho & Hq); [unfold lifts; by rewrite Hb, Hn|].
    apply andb_true_iff in Ha as [Hen Hlive]. apply negb_true_iff, bool_decide_eq_false in Hlive.
    unfold w1 in Hq. rewrite streak_counts, Hzero in Hq. by split_and!.
  - intros rs Hlive. clear Hzero. revert w. induction rs as [|r rs IH]; intros w Hb; [done|]. rewrite runs_cons. apply IH.
    destruct (blocks_all_entries (wd_engine (watchdog_step cfg w r))) eqn:Hn; [done|].
    destruct (check_counts cfg r w) as [_ Hl]. destruct Hl as (_ & Ha & _); [unfold lifts; by rewrite Hb, Hn|].
    cbn in Ha. rewrite bool_decide_true, andb_false_r in Ha by done. done.
  - clear Hzero. intros rs. revert w. induction rs as [|r rs IH]; intros w Ho Ht; [done|]. rewrite runs_cons.
    cbn [any_trip] in Ht. apply orb_false_iff in Ht as [Ht Hts].
    assert (wd_engine (watchdog_step cfg w r) = wd_engine w) as He.
    { pose proof (check_shows cfg r w) as Hc. cbv zeta in Hc. destruct (shows cfg r).
      - apply Hc.
      - destruct Hc as [_ [He|[Htr _]]]; [done|congruence].
      - destruct Hc as (w0 & He & _ & ->). unfold accrue. by rewrite He, Ho, andb_false_r. }
    rewrite <- He. apply IH; [by rewrite He|done].
Qed.

(** *** A concrete history *)

Definition paper_cfg : watchdog_config := build_soak_watchdog "paper" true 0 true.
Definition at_minute (n : Z) : Z := (n * 60000000)%Z.
(** The beat is fresh, or ten minutes old. *)
Definition fresh_at (n : Z) : reading := mkReading (at_minute n) true (Some (at_minute n - 5000000)%Z) None.
Definition stale_at (n : Z) : reading := mkReading (at_minute n) true (Some (at_minute (n - 10))) None.
Definition operator_halt : RiskEscalationSnapshot :=
  escalation_transition ENTRY_GATE_HALT "GLOBAL" None None "operator" engine_init.
Definition halted_by_operator : watchdog := mkWatchdog operator_halt 0 false [].

(** The watchdog's own halt: nine healthy checks and a blocked gate do not lift it, ten in a row do. *)
Definition blocked_at (n : Z) : reading :=
  mkReading (at_minute n) true (Some (at_minute n - 5000000)%Z) (Some (mkStatus None "blocked" "drawdown")).
Definition trouble_then_health : list watchdog_event :=
  map EvCheck (stale_at 20 :: map fresh_at [21; 22; 23; 24; 25; 26; 27; 28; 29]%Z ++ blocked_at 30 ::
               map fresh_at [31; 32; 33; 34; 35; 36; 37; 38; 39]%Z).

Lemma halt_lifts_only_after_streak_witness :
  let w1 := runs (watchdog_event_step paper_cfg) (mkWatchdog engine_init 0 false []) trouble_then_health in
  blocks_all_entries (wd_engine w1) = true /\
  blocks_all_entries (wd_engine (watchdog_step paper_cfg w1 (fresh_at 40))) = false /\
  own_halt (wd_engine w1) = true /\
  (10 <= streak paper_cfg (mkWatchdog engine_init 0 false []) 0 trouble_then_health + 1)%Z /\
  blocks_all_entries (wd_engine (runs (watchdog_step paper_cfg) halted_by_operator
    (map fresh_at [10; 11; 12; 13; 14; 15; 16; 17; 18; 19; 20; 21]%Z))) = true.
Proof.
  intros w1. split; [vm_compute; reflexivity|]. split; [vm_compute; reflexivity|].
  pose proof (halt_lifts_only_after_streak SOAK_STALE_THRESHOLD_S "soak" "paper" true 10 0 false true
    (mkWatchdog engine_init 0 false []) (trouble_then_health ++ [EvCheck (fresh_at 40)]) eq_refl) as [H1 _].
  destruct (H1 trouble_then_health (fresh_at 40) [] eq_refl) as (_ & _ & _ & Ho & _ & Hs);
    [vm_compute; reflexivity..|].
  split; [exact Ho|]. split; [exact Hs|].
  pose proof (halt_lifts_only_after_streak SOAK_STALE_THRESHOLD_S "soak" "paper" true 10 0 false true
    halted_by_operator [] eq_refl) as (_ & _ & H3).
  change paper_cfg with (watchdog_init SOAK_STALE_THRESHOLD_S "soak" "paper" true 10 0 false true).
  rewrite (H3 (map fresh_at [10; 11; 12; 13; 14; 15; 16; 17; 18; 19; 20; 21]%Z)); [reflexivity|vm_compute; reflexivity..].
Defined.

(** An operator's halt is adopted by a stale heartbeat: the trip overwrites who
    commanded it, and ten healthy checks later the entries are open again. *)
Lemma stale_beat_adopts_operator_halt :
  blocks_all_entries (wd_engine (runs (watchdog_step paper_cfg) halted_by_operator
    (stale_at 20 :: map fresh_at [21; 22; 23; 24; 25; 26; 27; 28; 29; 30]%Z))) = false.
Proof. vm_compute. reflexivity. Qed.

(** A stale heartbeat also takes back a commanded portfolio flatten. *)
Lemma stale_beat_clears_flatten :
  let flattening := escalation_transition GLOBAL_FLATTEN_AND_HALT "GLOBAL" None None "operator" engine_init in
  should_flatten_portfolio flattening = true /\
  should_flatten_portfolio
    (wd_engine (watchdog_step paper_cfg (mkWatchdog flattening 0 false []) (stale_at 20))) = false.
Proof. split; vm_compute; reflexivity. Qed.
