(* ===== verification/Alerts.v ===== *)
(** * Alert channels

    [src/alerts/throttle.py], [src/alerts/outbound_cap.py] and the cooldown and
    dead-man switch of [src/control/alerts.py]: how often a human is paged. Times
    are microseconds since the epoch (the ISO texts the cap stores order as the
    instants do); the monotonic clock is a float of seconds. *)

From stdpp Require Import base gmap strings list.
From Stdlib Require Import ZArith Lia.
From S2P Require Import Prelude PyFloat.

Definition SECOND : Z := 1000000.

(** ** The throttled notifier *)

Definition alert_key : Type := string * string.        (* component, kind *)

Record channel_alert := mkAlert {
  al_kind : string;
  al_severity : string;
  al_message : string;
  al_component : string
}.

Definition key_of (a : channel_alert) : alert_key := (al_component a, al_kind a).

Record throttle_entry := mkEntry { last_sent : Z; sends : Z }.

(** The state, and what the wrapped notifier was given. *)
Record throttled := mkThrottled {
  th_state : gmap alert_key throttle_entry;
  th_sent : list channel_alert
}.

Definition BACKOFF_SCHEDULE_S : list Z := [300; 900; 3600]%Z.

(** [_required_wait]. *)
Definition required_wait (n : Z) : Z :=
  nth (Z.to_nat (Z.min (n - 1) (Z.of_nat (length BACKOFF_SCHEDULE_S) - 1))) BACKOFF_SCHEDULE_S 0%Z.

(** [notify(alert)] at [now]: [elapsed >= wait] is on seconds. *)
Definition throttle_notify (a : channel_alert) (now : Z) (t : throttled) : throttled :=
  match th_state t !! key_of a with
  | None => mkThrottled (<[key_of a := mkEntry now 1]> (th_state t)) (th_sent t ++ [a])
  | Some st =>
      if (required_wait (sends st) * SECOND <=? now - last_sent st)%Z
      then mkThrottled (<[key_of a := mkEntry now (sends st + 1)]> (th_state t)) (th_sent t ++ [a])
      else t
  end.

(** [resolve(component, kind)]; a recovered ping that raises is swallowed. *)
Definition throttle_resolve (k : alert_key) (t : throttled) : throttled :=
  match th_state t !! k with
  | None => t
  | Some _ =>
      mkThrottled (delete k (th_state t))
        (th_sent t ++ [mkAlert k.2 "info" (String.append k.1 (String.append " " (String.append k.2 " RECOVERED"))) k.1])
  end.

(** ** The shared outbound cap *)

Inductive lane := priority | routine.
#[export] Instance lane_eq_dec : EqDecision lane. Proof. solve_decision. Defined.
Definition lane_value (l : lane) : string := match l with priority => "priority" | routine => "routine" end.

Record cap_send := mkSend { sent_at : Z; sent_kind : string; sent_lane : lane }.

(** The tables [alert_channel_sends] and [alert_channel_incidents]. *)
Record cap_db := mkCapDb { cap_sends : list cap_send; cap_incidents : list Z }.

Record cap_limits := mkCapLimits {
  max_routine_per_hour : nat;
  max_routine_per_day : nat;
  priority_per_hour : nat;
  backoff : Z                              (* microseconds *)
}.
Definition default_limits : cap_limits := mkCapLimits 8 50 4 (3600 * SECOND).

Definition HOUR : Z := 3600 * SECOND.
Definition DAY : Z := 24 * HOUR.

Definition PRIORITY_KINDS : list string := ["daily_liveness"].
Definition PRIORITY_SEVERITIES : list string := ["urgent"; "critical"; "high"].
Definition is_priority (kind severity : string) : bool :=
  bool_decide (kind ∈ PRIORITY_KINDS) || bool_decide (lower severity ∈ PRIORITY_SEVERITIES).
Definition lane_of (kind severity : string) : lane := if is_priority kind severity then priority else routine.

(** [_count_since(.., lane)]. *)
Definition in_lane_since (l : lane) (since : Z) (s : cap_send) : bool :=
  (since <=? sent_at s)%Z && bool_decide (sent_lane s = l).
Definition count_since (l : lane) (since : Z) (sends : list cap_send) : nat :=
  length (List.filter (in_lane_since l since) sends).

Definition last_429 (db : cap_db) : option Z :=
  match cap_incidents db with [] => None | x :: rest => Some (fold_left Z.max rest x) end.

(** The decision of [allow], from the rows it reads. *)
Definition cap_verdict (lim : cap_limits) (now : Z) (l : lane) (db : cap_db) : bool * string :=
  if match last_429 db, l with
     | Some at_, routine => (now - at_ <? backoff lim)%Z
     | _, _ => false
     end
  then (false, "channel_backoff_after_429") else
  match l with
  | priority =>
      if (priority_per_hour lim <=? count_since priority (now - HOUR) (cap_sends db))%nat
      then (false, "priority_hourly_cap") else (true, "priority")
  | routine =>
      if (max_routine_per_hour lim <=? count_since routine (now - HOUR) (cap_sends db))%nat
      then (false, "routine_hourly_cap") else
      if (max_routine_per_day lim <=? count_since routine (now - DAY) (cap_sends db))%nat
      then (false, "routine_daily_cap") else (true, "routine")
  end.

Definition record_send (now : Z) (kind : string) (l : lane) (db : cap_db) : cap_db :=
  mkCapDb (cap_sends db ++ [mkSend now kind l]) (cap_incidents db).

(** [allow(kind, severity)]; with [db_ok = false] the database raises and the cap
    fails open. *)
Definition allow (lim : cap_limits) (now : Z) (kind severity : string) (db_ok : bool) (db : cap_db)
    : (bool * string) * cap_db :=
  if negb db_ok then ((true, "cap_error_fail_open"), db) else
  let l := lane_of kind severity in
  match cap_verdict lim now l db with
  | (true, why) => ((true, why), record_send now kind l db)
  | no => (no, db)
  end.

Definition note_429 (now : Z) (db_ok : bool) (db : cap_db) : cap_db :=
  if db_ok then mkCapDb (cap_sends db) (cap_incidents db ++ [now]) else db.

(** Two processes share the database: sqlite takes the write lock at the
    [INSERT], so the rows another process adds after the counts were read are not
    seen. A request is a read, then a write. *)
Inductive cap_request :=
  | CapRead (p : nat) (now : Z) (kind severity : string)
  | CapWrite (p : nat).

Record cap_world := mkCapWorld {
  cw_db : cap_db;
  cw_pending : gmap nat (Z * string * lane)    (* admitted, not yet inserted *)
}.

Definition cap_step (lim : cap_limits) (w : cap_world) (r : cap_request) : cap_world :=
  match r with
  | CapRead p now kind severity =>
      let l := lane_of kind severity in
      if (cap_verdict lim now l (cw_db w)).1
      then mkCapWorld (cw_db w) (<[p := (now, kind, l)]> (cw_pending w)) else w
  | CapWrite p =>
      match cw_pending w !! p with
      | Some (now, kind, l) => mkCapWorld (record_send now kind l (cw_db w)) (delete p (cw_pending w))
      | None => w
      end
  end.

(** ** Critical pages and the dead-man switch *)

Record page_result := mkPageResult { delivered : bool; channel : string; page_reason : string }.

(** [dispatch_critical_page]: [recent] is [_recent_pages], [now] the monotonic
    clock, [post] what the webhook answers, [None] when none is configured. *)
Definition dispatch_critical_page (incident : string) (cooldown_seconds now : float)
    (post : option page_result) (recent : gmap string float) : page_result * gmap string float :=
  let last_sent := default fzero (recent !! incident) in
  if fltb (fsub now last_sent) (py_max cooldown_seconds fzero)
  then (mkPageResult false "suppressed" "cooldown_active", recent)
  else (match post with
        | Some r => r
        | None => mkPageResult false "log_only" "webhook_not_configured"
        end, <[incident := now]> recent).

Definition DEFAULT_PAGE_COOLDOWN_SECONDS : float := of_Z 300.
Definition DEAD_MAN_CYCLE_MULTIPLIER : float := of_Z 2.

(** [SystemHeartbeatMonitor.is_dead_man_stale]; [age] is [heartbeat_age_seconds]. *)
Record heartbeat_monitor := mkMonitor {
  cycle_interval_seconds : float;
  none_stale_after_seconds : float;
  hm_started_at : float
}.

Definition monitor_init (cycle_interval : float) (none_stale_after : option float) (now : float)
    : heartbeat_monitor :=
  let c := py_max cycle_interval fone in
  mkMonitor c (match none_stale_after with Some x => x | None => fmul (of_Z 3) c end) now.

Definition heartbeat_age_seconds (last : option Z) (now : Z) : option float :=
  (fun l => py_max (fdiv (of_Z (now - l)) (of_Z SECOND)) fzero) <$> last.

Definition is_dead_man_stale (m : heartbeat_monitor) (age : option float) (now : float) : bool :=
  match age with
  | None => fltb (none_stale_after_seconds m) (fsub now (hm_started_at m))
  | Some a => fltb (fmul (cycle_interval_seconds m) DEAD_MAN_CYCLE_MULTIPLIER) a
  end.

Definition evaluate_dead_man_once (m : heartbeat_monitor) (age : option float) (now : float)
    (post : option page_result) (recent : gmap string float)
    : bool * option page_result * gmap string float :=
  if is_dead_man_stale m age now
  then let '(r, recent') := dispatch_critical_page "DEAD_MAN_HEARTBEAT" DEFAULT_PAGE_COOLDOWN_SECONDS
                              now post recent in (true, Some r, recent')
  else (false, None, recent).

(** ** Lemmas *)

Definition limit_of (lim : cap_limits) (l : lane) : nat :=
  match l with priority => priority_per_hour lim | routine => max_routine_per_hour lim end.

(** Sends of a lane in the closed window [[a, a + len]]. *)
Definition in_window (l : lane) (a len : Z) (s : cap_send) : bool :=
  in_lane_since l a s && (sent_at s <=? a + len)%Z.
Definition window_count (l : lane) (a len : Z) (sends : list cap_send) : nat :=
  length (List.filter (in_window l a len) sends).

Lemma filter_le {A} (p q : A -> bool) l :
  (forall x, x ∈ l -> p x = true -> q x = true) -> (length (List.filter p l) <= length (List.filter q l))%nat.
Proof.
  induction l as [|x l IH]; intros H; simpl; [done|].
  assert (length (List.filter p l) <= length (List.filter q l))%nat by (apply IH; set_solver).
  destruct (p x) eqn:Ep; [rewrite (H x) by (done || by left); simpl; lia|]. destruct (q x); simpl; lia.
Qed.

(** Every send was admitted: with it, its lane's count over the last [len] is
    within [bound]. *)
Inductive admitted (l : lane) (len : Z) (bound : nat) : list cap_send -> Prop :=
  | adm_nil : admitted l len bound []
  | adm_snoc ss s : admitted l len bound ss ->
      (sent_lane s = l -> (count_since l (sent_at s - len) (ss ++ [s]) <= bound)%nat) ->
      admitted l len bound (ss ++ [s]).

Lemma admitted_window l len bound ss a : admitted l len bound ss -> (window_count l a len ss <= bound)%nat.
Proof.
  unfold window_count. induction 1 as [|ss s Hss IH Hs]; simpl; [lia|].
  rewrite List.filter_app, length_app. simpl.
  destruct (in_window l a len s) eqn:Ew; [|simpl; lia].
  unfold in_window, in_lane_since in Ew. bool_prop.
  etrans; [|by apply Hs]. unfold count_since. rewrite List.filter_app, length_app. simpl.
  unfold in_lane_since at 2. rewrite (bool_decide_eq_true_2 (sent_lane s = l)) by done.
  replace (sent_at s - len <=? sent_at s)%Z with (0 <=? len)%Z by (destruct (Z.leb_spec 0 len), (Z.leb_spec (sent_at s - len) (sent_at s)); lia).
  assert (0 <= len)%Z by lia. rewrite (proj2 (Z.leb_le 0 len)) by done. simpl.
  apply Nat.add_le_mono_r, filter_le. intros x _ Hx. unfold in_window, in_lane_since in *. bool_prop.
  apply andb_true_iff. split; [apply Z.leb_le; lia|by apply bool_decide_eq_true].
Qed.

Lemma cap_verdict_admits lim now l db :
  (0 < limit_of lim l)%nat -> (cap_verdict lim now l db).1 = true ->
  (S (count_since l (now - HOUR) (cap_sends db)) <= limit_of lim l)%nat /\
  (l = routine -> (S (count_since l (now - DAY) (cap_sends db)) <= max_routine_per_day lim)%nat).
Proof.
  intros _. unfold cap_verdict. destruct (match last_429 db with Some _ => _ | None => _ end); [done|].
  destruct l; simpl.
  - destruct (Nat.leb_spec (priority_per_hour lim) (count_since priority (now - HOUR) (cap_sends db))); [done|].
    intros _. split; [lia|done].
  - destruct (Nat.leb_spec (max_routine_per_hour lim) (count_since routine (now - HOUR) (cap_sends db))); [done|].
    destruct (Nat.leb_spec (max_routine_per_day lim) (count_since routine (now - DAY) (cap_sends db))); [done|].
    intros _. split; [lia|intros _; lia].
Qed.

Lemma count_since_snoc l since ss s :
  (count_since l since (ss ++ [s]) <= S (count_since l since ss))%nat.
Proof.
  unfold count_since. rewrite List.filter_app, length_app. simpl. destruct (in_lane_since l since s); simpl; lia.
Qed.

Inductive cap_event :=
  | EvAllow (now : Z) (kind severity : string) (db_ok : bool)
  | Ev429 (now : Z) (db_ok : bool).

Definition cap_event_step (lim : cap_limits) (db : cap_db) (e : cap_event) : cap_db :=
  match e with
  | EvAllow now kind severity ok => (allow lim now kind severity ok db).2
  | Ev429 now ok => note_429 now ok db
  end.

Record cap_inv (lim : cap_limits) (db : cap_db) : Prop := {
  ci_hour : forall l, admitted l HOUR (limit_of lim l) (cap_sends db);
  ci_day : admitted routine DAY (max_routine_per_day lim) (cap_sends db)
}.

Lemma cap_step_inv lim db e : cap_inv lim db -> cap_inv lim (cap_event_step lim db e).
Proof.
  intros [Hh Hd]. destruct e as [now kind sev ok|now ok]; simpl; [|unfold note_429; by destruct ok].
  unfold allow. destruct ok; [|done]. cbn [negb].
  destruct (cap_verdict lim now (lane_of kind sev) db) as [[] why] eqn:Ev; [|done].
  assert ((cap_verdict lim now (lane_of kind sev) db).1 = true) as Hv by (by rewrite Ev).
  assert ((S (count_since (lane_of kind sev) (now - HOUR) (cap_sends db)) <= limit_of lim (lane_of kind sev))%nat /\
    (lane_of kind sev = routine ->
       (S (count_since (lane_of kind sev) (now - DAY) (cap_sends db)) <= max_routine_per_day lim)%nat)) as [H1 H2].
  { destruct (decide (0 < limit_of lim (lane_of kind sev))%nat); [by apply cap_verdict_admits|].
    exfalso. unfold cap_verdict in Hv. destruct (match last_429 db with Some _ => _ | None => _ end); [done|].
    destruct (lane_of kind sev); simpl in *.
    - by rewrite (proj2 (Nat.leb_le (priority_per_hour lim) _)) in Hv by lia.
    - by rewrite (proj2 (Nat.leb_le (max_routine_per_hour lim) _)) in Hv by lia. }
  cbn. split.
  - intros l. constructor; [done|]. cbn. intros <-. etrans; [apply count_since_snoc|done].
  - constructor; [done|]. cbn. intros Hl. rewrite Hl in *. etrans; [apply count_since_snoc|by apply H2].
Qed.

(** ** Properties *)

(** The outbound cap holds over sliding windows: after any requests and 429 notes,
    at any clock readings (not even monotone ones), every closed window of one hour
    holds at most the lane's limit of recorded sends, and every window of a day at
    most the daily limit of routine ones. Routine requests and 429 notes, however
    many, do not change what the cap answers to the priority lane. *)
Theorem outbound_cap_holds lim db evs :
  let w := runs (cap_event_step lim) (mkCapDb [] []) evs in
  (forall l a, (window_count l a HOUR (cap_sends w) <= limit_of lim l)%nat) /\
  (forall a, (window_count routine a DAY (cap_sends w) <= max_routine_per_day lim)%nat) /\
  (Forall (fun e => match e with EvAllow _ kind sev _ => is_priority kind sev = false | Ev429 _ _ => True end) evs ->
   forall now, cap_verdict lim now priority (runs (cap_event_step lim) db evs) = cap_verdict lim now priority db).
Proof.
  intros w.
  assert (cap_inv lim w) as [Hh Hd].
  { apply (runs_invariant (cap_event_step lim) (cap_inv lim)); [|intros; by apply cap_step_inv].
    split; [intros|]; constructor. }
  split_and!; [intros; by apply admitted_window|intros; by apply admitted_window|].
  intros He now. clear w Hh Hd.
  assert (forall db e, match e with EvAllow _ kind sev _ => is_priority kind sev = false | Ev429 _ _ => True end ->
    cap_verdict lim now priority (cap_event_step lim db e) = cap_verdict lim now priority db) as Hstep.
  { clear. intros db e He.
    assert (count_since priority (now - HOUR) (cap_sends (cap_event_step lim db e)) =
            count_since priority (now - HOUR) (cap_sends db)) as Hc.
    { destruct e as [t kind sev []|t []]; try done. simpl. unfold allow, lane_of. rewrite He. simpl.
      destruct (cap_verdict lim t routine db) as [[] why]; [|done]. cbn. unfold count_since.
      rewrite List.filter_app, length_app. simpl. unfold in_lane_since at 2. simpl.
      rewrite andb_false_r. simpl. lia. }
    unfold cap_verdict. rewrite Hc. by destruct (last_429 _), (last_429 db). }
  revert db. induction He as [|e evs He _ IH]; intros db; [done|]. rewrite runs_cons, IH. by apply Hstep.
Qed.

(** Two processes that read before either writes exceed the hourly limit: with
    seven sends in the hour, both are admitted. *)
Lemma cap_exceeded_by_two_processes :
  let seven := mkCapDb (map (fun n => mkSend (Z.of_nat n * SECOND) "degrade" routine) (seq 0 7)) [] in
  let w := runs (cap_step default_limits) (mkCapWorld seven ∅)
             [CapRead 0 (60 * SECOND) "degrade" "warning"; CapRead 1 (61 * SECOND) "degrade" "warning";
              CapWrite 0; CapWrite 1] in
  window_count routine 0 HOUR (cap_sends (cw_db w)) = 9%nat /\ limit_of default_limits routine = 8%nat.
Proof. split; vm_compute; reflexivity. Qed.

(** The first page of an incident is suppressed when the host has been up for less
    than the cooldown: a missing entry counts as a page at monotonic time zero. *)
Lemma early_page_suppressed :
  (dispatch_critical_page "BOOT_BLOCKING_ERROR" DEFAULT_PAGE_COOLDOWN_SECONDS (of_Z 120) None ∅).1 =
    mkPageResult false "suppressed" "cooldown_active".
Proof. vm_compute. reflexivity. Qed.

(** *** Throttling *)

Inductive throttle_event :=
  | EvNotify (a : channel_alert) (now : Z)
  | EvResolve (k : alert_key).

Definition throttle_step (t : throttled) (e : throttle_event) : throttled :=
  match e with EvNotify a now => throttle_notify a now t | EvResolve k => throttle_resolve k t end.

Definition pages_of (k : alert_key) (sent : list channel_alert) : Z :=
  Z.of_nat (length (List.filter (fun a => bool_decide (key_of a = k)) sent)).

(** The waits before the n-th page of a repeating condition, in seconds. *)
Fixpoint waits_before (n : nat) : Z :=
  match n with
  | O | S O => 0
  | S m => waits_before m + required_wait (Z.of_nat m)
  end%Z.

Lemma waits_before_S n : (1 <= n)%nat ->
  waits_before (S n) = (waits_before n + required_wait (Z.of_nat n))%Z.
Proof. by destruct n; [lia|]. Qed.

Record spaced (k : alert_key) (p0 : Z) (times : list Z) (t : throttled) : Prop := {
  sp_none : th_state t !! k = None -> pages_of k (th_sent t) = p0;
  sp_some : forall st, th_state t !! k = Some st ->
    pages_of k (th_sent t) = (p0 + sends st)%Z /\ (1 <= sends st)%Z /\
    exists first, first ∈ times /\
      (waits_before (Z.to_nat (sends st)) * SECOND <= last_sent st - first)%Z
}.

Lemma pages_of_snoc k sent a :
  pages_of k (sent ++ [a]) = (pages_of k sent + if bool_decide (key_of a = k) then 1 else 0)%Z.
Proof.
  unfold pages_of. rewrite List.filter_app, length_app. simpl. destruct (bool_decide _); simpl; lia.
Qed.

(** When a key's alerts are notified. *)
Definition notified_at (k : alert_key) (e : throttle_event) : list Z :=
  match e with EvNotify a now => if bool_decide (key_of a = k) then [now] else [] | EvResolve _ => [] end.

Lemma spaced_step k p0 times t e :
  (forall k', e = EvResolve k' -> k' <> k) ->
  spaced k p0 times t -> spaced k p0 (times ++ notified_at k e) (throttle_step t e).
Proof.
  intros Hr [Hn Hs]. destruct e as [a now|k']; simpl.
  - unfold throttle_notify. case_bool_decide as Hk.
    + rewrite Hk. destruct (th_state t !! k) as [st|] eqn:Est.
      * destruct (Hs st eq_refl) as (Hp & H1 & first & Hin & Hw).
        destruct (Z.leb_spec (required_wait (sends st) * SECOND) (now - last_sent st)).
        -- split; cbn; rewrite lookup_insert_eq; [done|]. intros ? [= <-]. cbn.
           rewrite pages_of_snoc, bool_decide_eq_true_2 by done. split; [lia|]. split; [lia|].
           exists first. split; [set_solver|].
           replace (Z.to_nat (sends st + 1)) with (S (Z.to_nat (sends st))) by lia.
           rewrite waits_before_S by lia. rewrite Z2Nat.id by lia. unfold SECOND in *. lia.
        -- split; [congruence|]. intros st' Hst'. rewrite Est in Hst'. injection Hst' as <-.
           split; [done|]. split; [done|]. exists first. split; [set_solver|done].
      * split; cbn; rewrite lookup_insert_eq; [done|]. intros ? [= <-]. cbn.
        rewrite pages_of_snoc, bool_decide_eq_true_2, Hn by done. split; [lia|]. split; [lia|].
        exists now. split; [set_solver|]. rewrite Z.sub_diag. done.
    + assert (forall st, spaced k p0 (times ++ []) (mkThrottled (<[key_of a := st]> (th_state t)) (th_sent t ++ [a]))) as H.
      { intros st. split; cbn; rewrite lookup_insert_ne, pages_of_snoc, bool_decide_eq_false_2, Z.add_0_r by done; [done|].
        intros st' Hst'. destruct (Hs st' Hst') as (?&?&first&?&?). rewrite app_nil_r. eauto. }
      rewrite app_nil_r in *. destruct (th_state t !! key_of a) as [st|]; [|by apply H].
      destruct (_ <=? _)%Z; [by apply H|by split].
  - rewrite app_nil_r. unfold throttle_resolve. destruct (th_state t !! k') as [st|]; [|by split].
    assert (k' <> k) as Hk by (by apply Hr).
    split; cbn; rewrite lookup_delete_ne, pages_of_snoc by done.
    + rewrite bool_decide_eq_false_2, Z.add_0_r by (unfold key_of; simpl; by destruct k'). done.
    + rewrite bool_decide_eq_false_2, Z.add_0_r by (unfold key_of; simpl; by destruct k'). done.
Qed.

(** A repeating condition pages on the backoff schedule: along any alerts and
    clears (of other conditions), starting from a condition that is not firing, its
    n-th page comes at least 0, 5, 20, 80, 140, .. minutes after its first alert, and
    the throttle's counter is the number of its pages. *)
Theorem throttle_spacing t k evs :
  th_state t !! k = None -> Forall (fun e => forall k', e = EvResolve k' -> k' <> k) evs ->
  let t' := runs throttle_step t evs in
  forall st, th_state t' !! k = Some st ->
    pages_of k (th_sent t') = (pages_of k (th_sent t) + sends st)%Z /\
    exists first, first ∈ concat (map (notified_at k) evs) /\
      (waits_before (Z.to_nat (sends st)) * SECOND <= last_sent st - first)%Z.
Proof.
  intros Hn He t'.
  assert (spaced k (pages_of k (th_sent t)) ([] ++ concat (map (notified_at k) evs)) t') as [_ Hs].
  { subst t'. assert (spaced k (pages_of k (th_sent t)) [] t) as H0 by (split; [done|congruence]).
    clear Hn. revert H0. generalize (@nil Z) as times, (pages_of k (th_sent t)) as p0.
    revert t. induction He as [|e evs He _ IH]; intros t times p0 H0; simpl; [by rewrite app_nil_r|].
    rewrite app_assoc. apply IH. by apply spaced_step. }
  intros st Hst. destruct (Hs st Hst) as (? & _ & ?). by split.
Qed.

Definition stale_alert : channel_alert := mkAlert "heartbeat_stale" "critical" "soak heartbeat stale" "soak".
(** One alert a minute for an hour and a half: four pages. *)
Definition storm : list throttle_event := map (fun n => EvNotify stale_alert (Z.of_nat n * 60 * SECOND)) (seq 0 90).

Lemma throttle_spacing_witness :
  let t' := runs throttle_step (mkThrottled ∅ []) storm in
  sends <$> th_state t' !! ("soak", "heartbeat_stale") = Some 4%Z /\
  (forall st, th_state t' !! ("soak", "heartbeat_stale") = Some st ->
     pages_of ("soak", "heartbeat_stale") (th_sent t') = (0 + sends st)%Z).
Proof.
  split; [vm_compute; reflexivity|]. intros st Hst.
  refine (proj1 (throttle_spacing (mkThrottled ∅ []) ("soak", "heartbeat_stale") storm eq_refl _ st Hst)).
  apply Forall_forall. intros e He k' ->. apply list_elem_of_fmap in He as (n & ? & _). discriminate.
Defined.
