(* ===== verification/Monitors.v ===== *)
(** * Demotion monitors and the unitized return series

    [src/lifecycle/demotion_monitors.py]: the evaluators whose trips move a leg to
    WATCH or SAFE_MODE, in binary64 as the code computes them; and
    [src/control/leg_return.py], the NAV of a leg. The binomial quantile (scipy)
    and the powers and square roots of the C library are parameters. *)

From stdpp Require Import base strings list.
From Stdlib Require Import ZArith Lia SpecFloat.
From S2P Require Import Prelude PyFloat.

Open Scope Z_scope.

Inductive Tier := TIER_NONE | TIER_WATCH | TIER_SAFE_MODE.
#[export] Instance Tier_eq_dec : EqDecision Tier. Proof. solve_decision. Defined.

(** The details a monitor reports. *)
Inductive monitor_detail :=
  | InvalidSigma
  | Cusum (trip_index : option Z) (s_max h : float)
  | Drawdown (live_max_dd threshold : float)
  | Unarmed (history : Z)
  | Consecutive (run : Z)
  | HitRate (rate lower_bound : float)
  | Integrity (hash_ok parity_ok reconciliation_ok : bool)
  | IntegrityOk
  | WatchWeeks (weeks max_weeks : Z).

Record MonitorVerdict := mkVerdict { mv_name : string; tier : Tier; detail : monitor_detail }.
Definition mv_tripped (v : MonitorVerdict) : bool := negb (bool_decide (tier v = TIER_NONE)).

(** ** Tier 2 *)

Definition cusum_next (mu0 sigma k s r : float) : float :=
  py_max fzero (fsub (fadd s (fdiv (fsub mu0 r) sigma)) k).

(** The loop: the index, [s], [s_max] and [trip_index]. *)
Fixpoint cusum_loop (mu0 sigma k h : float) (returns : list float) (i : Z) (s s_max : float)
    (trip : option Z) : float * option Z :=
  match returns with
  | [] => (s_max, trip)
  | r :: rest =>
      let s := cusum_next mu0 sigma k s r in
      let s_max := py_max s_max s in
      let trip := if fltb h s && match trip with None => true | Some _ => false end then Some i else trip in
      cusum_loop mu0 sigma k h rest (i + 1) s s_max trip
  end.

(** [cusum_drift]. *)
Definition cusum_drift (returns : list float) (mu0 sigma k h : float) : MonitorVerdict :=
  if fleb sigma fzero then mkVerdict "cusum" TIER_NONE InvalidSigma else
  let '(s_max, trip) := cusum_loop mu0 sigma k h returns 0 fzero fzero None in
  mkVerdict "cusum" (match trip with Some _ => TIER_SAFE_MODE | None => TIER_NONE end)
    (Cusum trip s_max h).

(** [drawdown_bound]: [peak] starts at minus infinity. *)
Fixpoint drawdown_loop (equity : list float) (peak max_dd : float) : float :=
  match equity with
  | [] => max_dd
  | v :: rest =>
      let peak := py_max peak v in
      drawdown_loop rest peak
        (if fltb fzero peak then py_max max_dd (fdiv (fsub peak v) peak) else max_dd)
  end.

Definition drawdown_bound (equity : list float) (oos_max_dd multiplier : float) : MonitorVerdict :=
  let max_dd := drawdown_loop equity fninf fzero in
  let threshold := fmul multiplier (fabs oos_max_dd) in
  mkVerdict "drawdown_bound" (if fltb threshold max_dd then TIER_SAFE_MODE else TIER_NONE)
    (Drawdown max_dd threshold).

(** ** Tier 1 *)

Section Tier1.
Context (sqrt_pow math_sqrt : float -> float).
Context (binom_ppf : float -> Z -> float -> float).

(** One window of [_rolling_sharpe]; [sqrt_pow x] is [x ** 0.5]. *)
Definition window_sharpe (periods_per_year : float) (window : Z) (w : list float) : float :=
  let mean := fdiv (fsum w) (of_Z window) in
  let var := if 1 <? window
             then fdiv (fsum (map (fun x => fmul (fsub x mean) (fsub x mean)) w)) (of_Z (window - 1))
             else fzero in
  let sd := sqrt_pow var in
  if fltb fzero sd then fmul (fdiv mean sd) (math_sqrt periods_per_year) else fzero.

Definition rolling_sharpe (returns : list float) (window : Z) : list float :=
  map (fun e => window_sharpe (of_Z 52) window
                  (take (Z.to_nat window) (drop (e - Z.to_nat window) returns)))
    (seq (Z.to_nat window) (S (length returns) - Z.to_nat window)).

Fixpoint below_loop (lower : float) (need run : Z) (series : list float) : Tier * Z :=
  match series with
  | [] => (TIER_NONE, run)
  | s :: rest =>
      let run := if fltb s lower then run + 1 else 0 in
      if need <=? run then (TIER_WATCH, run) else below_loop lower need run rest
  end.

(** [rolling_sharpe_monitor]. *)
Definition rolling_sharpe_monitor (weekly : list float) (oos_ci_lower : float)
    (window breach_consecutive min_armed_weeks : Z) : MonitorVerdict :=
  let armed := Z.of_nat (length weekly) in
  if armed <? Z.max min_armed_weeks window
  then mkVerdict "rolling_sharpe" TIER_NONE (Unarmed armed) else
  let '(t, run) := below_loop oos_ci_lower breach_consecutive 0 (rolling_sharpe weekly window) in
  mkVerdict "rolling_sharpe" t (Consecutive run).

(** [hit_rate_monitor]. *)
Definition hit_rate_monitor (wins : list bool) (oos_hit_rate : float) (n min_armed_trades : Z)
    : MonitorVerdict :=
  let count := Z.of_nat (length wins) in
  if count <? Z.max min_armed_trades n then mkVerdict "hit_rate" TIER_NONE (Unarmed count) else
  let lower := fdiv (binom_ppf (lit 5 2) n oos_hit_rate) (of_Z n) in
  let window := drop (length wins - Z.to_nat n) wins in
  let rate := fdiv (of_Z (Z.of_nat (length (List.filter id window)))) (of_Z n) in
  mkVerdict "hit_rate" (if fltb rate lower then TIER_WATCH else TIER_NONE) (HitRate rate lower).
End Tier1.

Definition cost_exceeds (multiplier realized modeled : float) : bool :=
  fltb fzero modeled && fltb (fmul multiplier modeled) realized.

Fixpoint cost_loop (multiplier : float) (need run : Z) (days : list (float * float)) : Tier * Z :=
  match days with
  | [] => (TIER_NONE, run)
  | (realized, modeled) :: rest =>
      if cost_exceeds multiplier realized modeled then
        if need <=? run + 1 then (TIER_WATCH, run + 1) else cost_loop multiplier need (run + 1) rest
      else cost_loop multiplier need 0 rest
  end.

(** [cost_divergence_monitor]. *)
Definition cost_divergence_monitor (realized modeled : list float) (multiplier : float)
    (consecutive_days : Z) : MonitorVerdict :=
  let '(t, run) := cost_loop multiplier consecutive_days 0 (combine realized modeled) in
  mkVerdict "cost_divergence" t (Consecutive run).

(** [integrity_trip] and [watch_persistence_trip]. *)
Definition integrity_trip (hash_ok parity_ok reconciliation_ok : bool) : MonitorVerdict :=
  if hash_ok && parity_ok && reconciliation_ok then mkVerdict "integrity" TIER_NONE IntegrityOk
  else mkVerdict "integrity" TIER_SAFE_MODE (Integrity hash_ok parity_ok reconciliation_ok).

Definition watch_persistence_trip (watch_weeks max_weeks : Z) : MonitorVerdict :=
  mkVerdict "watch_persistence" (if max_weeks <=? watch_weeks then TIER_SAFE_MODE else TIER_NONE)
    (WatchWeeks watch_weeks max_weeks).

(** [worst_tier]. *)
Definition worst_tier (vs : list MonitorVerdict) : Tier :=
  if existsb (fun v => bool_decide (tier v = TIER_SAFE_MODE)) vs then TIER_SAFE_MODE
  else if existsb (fun v => bool_decide (tier v = TIER_WATCH)) vs then TIER_WATCH
  else TIER_NONE.

(** ** The unitized return series *)

Definition START_NAV : float := of_Z 100.

Record LegNavState := mkNav { units : float; nav : float; pnl_cum : float; capital_base : float }.

(** [next_nav_state]. *)
Definition next_nav_state (prev : option LegNavState) (pnl capital : float) : LegNavState :=
  match prev with
  | None =>
      mkNav (if fltb fzero capital then fdiv capital START_NAV else fzero) START_NAV pnl capital
  | Some p =>
      if fleb (units p) fzero || fleb (nav p) fzero
      then mkNav (if fltb fzero capital then fdiv capital START_NAV else fzero) START_NAV pnl capital
      else
        let nav' := fadd (nav p) (fdiv (fsub pnl (pnl_cum p)) (units p)) in
        let nav' := if fleb nav' fzero then lit 1 9 else nav' in
        mkNav (if fltb fzero capital then fdiv capital nav' else units p) nav' pnl capital
  end.

Definition cumulative_return_pct (s : LegNavState) : float :=
  fmul (fsub (fdiv (nav s) START_NAV) fone) (of_Z 100).

(** ** Lemmas *)

(** Consecutive hits, started with [run] of them. *)
Fixpoint streak_trips {A} (p : A -> bool) (need run : Z) (l : list A) : bool :=
  match l with
  | [] => false
  | x :: rest =>
      if p x then (need <=? run + 1) || streak_trips p need (run + 1) rest
      else streak_trips p need 0 rest
  end.

Definition all_hit {A} (p : A -> bool) (l : list A) : Prop := Forall (fun x => p x = true) l.

Lemma streak_trips_spec {A} (p : A -> bool) need run l : 0 <= run < need ->
  streak_trips p need run l = true <->
  exists pre mid post, l = pre ++ mid ++ post /\ all_hit p mid /\
    (Z.of_nat (length mid) = need \/ pre = [] /\ Z.of_nat (length mid) = need - run).
Proof.
  revert run. induction l as [|x l IH]; intros run Hr; simpl.
  - split; [done|]. intros ([|? ?] & [|? ?] & post & He & _ & H); simplify_eq/=. lia.
  - destruct (p x) eqn:Ep; [rewrite orb_true_iff, Z.leb_le|].
    + split.
      * intros [Hle|Ht].
        -- exists [], [x], l. split_and!; [done|by constructor|]. right. split; [done|]. simpl. lia.
        -- destruct (Z_le_gt_dec need (run + 1)).
           ++ exists [], [x], l. split_and!; [done|by constructor|]. right. split; [done|]. simpl. lia.
           ++ apply IH in Ht as (pre & mid & post & -> & Hm & [H|[-> H]]); [|..|lia].
              ** exists (x :: pre), mid, post. split_and!; [done|done|by left].
              ** exists [], (x :: mid), post. split_and!; [done|by constructor|]. right. split; [done|]. simpl. lia.
      * intros (pre & mid & post & He & Hm & H).
        destruct (Z_le_gt_dec need (run + 1)); [by left; lia|right]. apply IH; [lia|].
        destruct pre as [|y pre]; simplify_eq/=.
        -- destruct mid as [|y mid]; simplify_eq/=; [lia|]. apply Forall_cons in Hm as [_ Hm].
           destruct H as [H|[_ H]].
           ++ exists [], (take (Z.to_nat (need - (run + 1))) mid), (drop (Z.to_nat (need - (run + 1))) mid ++ post).
              split_and!; [by simpl; rewrite app_assoc, take_drop|by apply Forall_take|].
              right. split; [done|]. rewrite length_take. lia.
           ++ exists [], mid, post. split_and!; [done|done|]. right. split; [done|lia].
        -- exists pre, mid, post. split_and!; [done|done|]. destruct H as [H|[? _]]; [by left|done].
    + rewrite IH by lia. split.
      * intros (pre & mid & post & -> & Hm & H). exists (x :: pre), mid, post.
        split_and!; [done|done|]. left. destruct H as [H|[_ H]]; lia.
      * intros (pre & mid & post & He & Hm & H). destruct pre as [|y pre]; simplify_eq/=.
        -- exfalso. destruct mid as [|y mid]; simplify_eq/=; [lia|]. apply Forall_cons in Hm as [? _]. congruence.
        -- exists pre, mid, post. split_and!; [done|done|]. left. by destruct H as [H|[? _]].
Qed.

Lemma cost_loop_trips multiplier need run days :
  (cost_loop multiplier need run days).1 = TIER_WATCH <->
  streak_trips (fun d => cost_exceeds multiplier d.1 d.2) need run days = true.
Proof.
  revert run. induction days as [|[r m] days IH]; intros run; simpl; [done|].
  destruct (cost_exceeds multiplier r m); [|apply IH].
  destruct (need <=? run + 1); simpl; [done|apply IH].
Qed.

Lemma below_loop_trips lower need run series : 0 < need ->
  (below_loop lower need run series).1 = TIER_WATCH <->
  streak_trips (fun s => fltb s lower) need run series = true.
Proof.
  intros Hn. revert run. induction series as [|s series IH]; intros run; simpl; [done|].
  destruct (fltb s lower).
  - destruct (need <=? run + 1); simpl; [done|apply IH].
  - replace (need <=? 0) with false by (symmetry; apply Z.leb_gt; lia). apply IH.
Qed.

(** The CUSUM statistic after each return. *)
Fixpoint cusum_path (mu0 sigma k s : float) (returns : list float) : list float :=
  match returns with
  | [] => []
  | r :: rest => let s := cusum_next mu0 sigma k s r in s :: cusum_path mu0 sigma k s rest
  end.

(** The index of the first element that satisfies [p]. *)
Fixpoint first_index {A} (p : A -> bool) (l : list A) (i : Z) : option Z :=
  match l with
  | [] => None
  | x :: rest => if p x then Some i else first_index p rest (i + 1)
  end.

Lemma cusum_next_not_nan mu0 sigma k s r : is_nan (cusum_next mu0 sigma k s r) = false.
Proof. unfold cusum_next. apply fnonneg_not_nan, py_max_zero_first. Qed.

Lemma cusum_loop_spec mu0 sigma k h returns i s s_max trip :
  is_nan s_max = false ->
  let path := cusum_path mu0 sigma k s returns in
  let '(m, t) := cusum_loop mu0 sigma k h returns i s s_max trip in
  t = match trip with Some _ => trip | None => first_index (fltb h) path i end /\
  fleb s_max m = true /\ Forall (fun x => fleb x m = true) path /\ (m = s_max \/ m ∈ path).
Proof.
  revert i s s_max trip. induction returns as [|r returns IH]; intros i s s_max trip Hm; simpl.
  - split; [by destruct trip|]. split; [by apply fleb_refl|]. split; [constructor|by left].
  - set (s' := cusum_next mu0 sigma k s r).
    pose proof (cusum_next_not_nan mu0 sigma k s r : is_nan s' = false) as Hs'.
    assert (is_nan (py_max s_max s') = false) as Hm' by (by apply py_max_nan).
    match goal with |- context [cusum_loop _ _ _ _ returns (i + 1) s' _ ?t] => specialize (IH (i + 1) s' (py_max s_max s') t Hm') end.
    destruct (cusum_loop mu0 sigma k h returns (i + 1) s' _ _) as [m t]. destruct IH as (-> & H1 & H2 & H3).
    split; [|split; [|split]].
    + destruct trip as [j|]; [by rewrite andb_false_r|]. rewrite andb_true_r. by destruct (fltb h s').
    + eapply fleb_trans; [|done]. by apply py_max_le_l.
    + constructor; [|done]. eapply fleb_trans; [|done]. by apply py_max_le_r.
    + destruct H3 as [->|H3]; [|right; by right]. unfold py_max. destruct (fltb s_max s'); [right; by left|by left].
Qed.

Lemma first_index_some {A} (p : A -> bool) l i : is_Some (first_index p l i) <-> Exists (fun x => p x = true) l.
Proof.
  revert i. induction l as [|x l IH]; intros i; simpl.
  - rewrite Exists_nil. by split; [intros []|].
  - rewrite Exists_cons. destruct (p x) eqn:E; [by split; eauto|]. rewrite IH. split; [by right|]. by intros [|].
Qed.

(** ** Properties *)

(** The CUSUM monitor is exact: with a positive sigma it trips if and only if the
    statistic exceeds the threshold after some return, reports the first such index,
    and reports the largest value the statistic reached. *)
Theorem cusum_trips_at_first_crossing returns mu0 sigma k h :
  fleb sigma fzero = false ->
  let path := cusum_path mu0 sigma k fzero returns in
  exists s_max, cusum_drift returns mu0 sigma k h =
    mkVerdict "cusum"
      (if existsb (fltb h) path then TIER_SAFE_MODE else TIER_NONE)
      (Cusum (first_index (fltb h) path 0) s_max h) /\
    Forall (fun x => fleb x s_max = true) path /\ (s_max = fzero \/ s_max ∈ path).
Proof.
  intros Hs path. unfold cusum_drift. rewrite Hs.
  pose proof (cusum_loop_spec mu0 sigma k h returns 0 fzero fzero None eq_refl) as H.
  destruct (cusum_loop mu0 sigma k h returns 0 fzero fzero None) as [m t].
  destruct H as (-> & _ & H2 & H3). exists m. split; [|by split]. f_equal.
  fold path. destruct (first_index (fltb h) path 0) as [j|] eqn:E.
  - assert (is_Some (first_index (fltb h) path 0)) as Hi by (by rewrite E).
    apply first_index_some, Exists_exists in Hi as (x & Hx & Hp).
    replace (existsb (fltb h) path) with true; [done|]. symmetry. apply existsb_exists.
    exists x. split; [by apply list_elem_of_In|done].
  - destruct (existsb (fltb h) path) eqn:Eb; [|done]. apply existsb_exists in Eb as (x & Hx & Hp).
    assert (is_Some (first_index (fltb h) path 0)) as Hi.
    { apply first_index_some, Exists_exists. exists x. split; [by apply list_elem_of_In|done]. }
    rewrite E in Hi. by destruct Hi.
Qed.

(** Six bad weeks of two sigma each. *)
Lemma cusum_trips_at_first_crossing_witness :
  tier (cusum_drift (repeat (of_Z (-2)) 6) fzero fone (lit 5 1) (of_Z 5)) = TIER_SAFE_MODE /\
  exists s_max, cusum_drift (repeat (of_Z (-2)) 6) fzero fone (lit 5 1) (of_Z 5) =
    mkVerdict "cusum" TIER_SAFE_MODE (Cusum (Some 3) s_max (of_Z 5)).
Proof.
  split; [vm_compute; reflexivity|].
  destruct (cusum_trips_at_first_crossing (repeat (of_Z (-2)) 6) fzero fone (lit 5 1) (of_Z 5) eq_refl)
    as (s_max & H & _). exists s_max. rewrite H. vm_compute. reflexivity.
Defined.

(** A NaN return erases the accumulated drift: [max(0.0, nan)] is [0.0]. *)
Lemma cusum_nan_resets mu0 sigma k s : cusum_next mu0 sigma k s fnan = fzero.
Proof.
  unfold cusum_next. destruct mu0, sigma, k, s; reflexivity.
Qed.

(** The confirmation windows are exact: the cost monitor reports WATCH if and only
    if some run of [consecutive_days] consecutive days all exceed the multiple of
    the modelled cost, and the rolling Sharpe loop if and only if some run of
    [breach_consecutive] consecutive windows all lie below the bound; a single good
    day or window in between starts the count again. *)
Theorem confirmation_windows_exact realized modeled multiplier need lower series :
  0 < need ->
  (tier (cost_divergence_monitor realized modeled multiplier need) = TIER_WATCH <->
     exists pre mid post, combine realized modeled = pre ++ mid ++ post /\
       Z.of_nat (length mid) = need /\ all_hit (fun d => cost_exceeds multiplier d.1 d.2) mid) /\
  ((below_loop lower need 0 series).1 = TIER_WATCH <->
     exists pre mid post, series = pre ++ mid ++ post /\ Z.of_nat (length mid) = need /\
       all_hit (fun s => fltb s lower) mid).
Proof.
  intros Hn.
  assert (forall A (p : A -> bool) l, streak_trips p need 0 l = true <->
    exists pre mid post, l = pre ++ mid ++ post /\ Z.of_nat (length mid) = need /\ all_hit p mid) as Hst.
  { intros A p l. rewrite streak_trips_spec by lia. split.
    - intros (pre & mid & post & -> & Hm & H). exists pre, mid, post. split_and!; [done| |done].
      destruct H as [?|[_ ?]]; lia.
    - intros (pre & mid & post & -> & H & Hm). exists pre, mid, post. split_and!; [done|done|by left]. }
  split.
  - unfold cost_divergence_monitor. rewrite <- Hst, <- cost_loop_trips.
    by destruct (cost_loop multiplier need 0 (combine realized modeled)).
  - by rewrite below_loop_trips, Hst.
Qed.

Lemma confirmation_windows_exact_witness :
  tier (cost_divergence_monitor (map of_Z [2; 2; 1; 2; 2; 2]) (map of_Z [1; 1; 1; 1; 1; 1]) (lit 15 1) 3) = TIER_WATCH /\
  (exists pre mid post, combine (map of_Z [2; 2; 1; 2; 2; 2]) (map of_Z [1; 1; 1; 1; 1; 1]) = pre ++ mid ++ post /\
     Z.of_nat (length mid) = 3 /\ all_hit (fun d => cost_exceeds (lit 15 1) d.1 d.2) mid).
Proof.
  split; [vm_compute; reflexivity|].
  refine (proj1 (proj1 (confirmation_windows_exact (map of_Z [2; 2; 1; 2; 2; 2]) (map of_Z [1; 1; 1; 1; 1; 1])
    (lit 15 1) 3 fzero [] _)) _); [lia|vm_compute; reflexivity].
Defined.

(** A pure reallocation leaves the NAV exactly flat, in binary64: when a live leg's
    cumulative P&L is the finite value last seen, the next NAV is the previous one
    bit for bit, whatever the new capital base. *)
Theorem reallocation_keeps_nav p pnl capital :
  fltb fzero (units p) = true -> fltb fzero (nav p) = true -> isfinite pnl = true ->
  pnl_cum p = pnl ->
  nav (next_nav_state (Some p) pnl capital) = nav p.
Proof.
  intros Hu Hn Hp He. unfold next_nav_state.
  assert (fleb (units p) fzero = false) as Hu' by forder.
  assert (fleb (nav p) fzero = false) as Hn' by forder.
  rewrite Hu', Hn'. simpl. rewrite He.
  assert (fsub pnl pnl = fzero) as ->.
  { destruct pnl as [[]| | |s m e]; try done. unfold fsub, fzero, SpecFloat.SFsub. rewrite Z.sub_diag. done. }
  assert (fdiv fzero (units p) = fzero) as -> by (by destruct (units p) as [[]|[]| |[]]).
  assert (fadd (nav p) fzero = nav p) as -> by (by destruct (nav p) as [[]|[]| |[]]).
  by rewrite Hn'.
Qed.

Lemma reallocation_keeps_nav_witness :
  nav (next_nav_state (Some (mkNav (of_Z 7) (lit 10325 2) (lit 1234 1) (of_Z 700))) (lit 1234 1) (of_Z 4200)) = lit 10325 2.
Proof. apply reallocation_keeps_nav; vm_compute; reflexivity. Defined.
