(* ===== verification/ColdStart.v ===== *)
(** * The cold-start gate

    [src/engine/cold_start_gate.py]: after a boot a leg may not enter positions
    until its live bars are shown to agree with the verified tape. A leg that is
    not verified in time is blocked or let through at a reduced size, as its
    policy says. Bar times are microseconds since the epoch in UTC; the monotonic
    clock is a sequence of readings in float seconds, one per call, about which
    nothing is assumed. What only the log lines carry is not modelled. *)

From stdpp Require Import base gmap strings list.
From Stdlib Require Import ZArith Lia.
From S2P Require Import Prelude PyFloat BarFreshness.

(** ** Data *)

Inductive ColdStartPolicy := HIGH_AVAILABILITY | FAIL_SAFE_CLOSE.
#[export] Instance ColdStartPolicy_eq_dec : EqDecision ColdStartPolicy.
Proof. solve_decision. Defined.

Definition DEFAULT_COLD_START_POLICY : ColdStartPolicy := FAIL_SAFE_CLOSE.

Inductive ColdStartGateState :=
  | CS_PENDING
  | PENDING_BLOCKED
  | HEURISTIC_PARITY
  | STABILIZED_VERIFIED
  | STALE_REVERIFY
  | BYPASS_OVERRIDE.
#[export] Instance ColdStartGateState_eq_dec : EqDecision ColdStartGateState.
Proof. solve_decision. Defined.

Definition ColdStartGateState_value (s : ColdStartGateState) : string :=
  match s with
  | CS_PENDING => "PENDING"
  | PENDING_BLOCKED => "PENDING_BLOCKED"
  | HEURISTIC_PARITY => "HEURISTIC_PARITY"
  | STABILIZED_VERIFIED => "STABILIZED_VERIFIED"
  | STALE_REVERIFY => "STALE_REVERIFY"
  | BYPASS_OVERRIDE => "BYPASS_OVERRIDE"
  end.

Record ColdStartGateConfig := mkColdStartConfig {
  max_cold_start_wait_seconds : float;
  max_bar_age_seconds : float;
  heuristic_entry_scale : float;
  bypass_entry_scale : float
}.

Definition default_cold_start_config : ColdStartGateConfig :=
  mkColdStartConfig (of_Z 120) (of_Z 65) (lit 25 2) (lit 15 2).

Definition STALE_FEED_WARNING_FRACTION : float := lit 5 1.

Record StreamHealthSnapshot := mkStreamHealth {
  latest_bar_timestamp : option Z;
  prior_bar_timestamp : option Z;
  latest_volume : float;
  prior_volume : float;
  bar_count : Z
}.

Record ColdStartGateTransition := mkGateTransition {
  gt_strategy_id : string;
  prior_state : ColdStartGateState;
  new_state : ColdStartGateState;
  gt_reason : string;
  wall_clock_lag_seconds : option float;
  gt_elapsed_seconds : float;
  gt_matrix_aligned : bool;
  gt_stream_intact : bool
}.

(** What a policy setting holds: the policy itself, a text, or another value,
    whose text names no policy. *)
Inductive policy_setting := SetPolicyValue (p : ColdStartPolicy) | SetText (s : string) | SetOther.

Definition parse_cold_start_policy (raw : policy_setting) : ColdStartPolicy :=
  match raw with
  | SetPolicyValue p => p
  | SetText s => if bool_decide (upper (strip s) = "HIGH_AVAILABILITY") then HIGH_AVAILABILITY
                 else FAIL_SAFE_CLOSE
  | SetOther => FAIL_SAFE_CLOSE
  end.

(** [index] is what [load_research_validation_index()] returns: the constraints
    by symbol. *)
Definition resolve_cold_start_policy (index : gmap string (gmap string policy_setting))
    (strategy_params : option (gmap string policy_setting)) (symbol : string) : ColdStartPolicy :=
  match default ∅ strategy_params !! "cold_start_policy" with
  | Some raw => parse_cold_start_policy raw
  | None =>
      match index !! upper symbol ≫= (.!! "cold_start_policy") with
      | Some raw => parse_cold_start_policy raw
      | None => DEFAULT_COLD_START_POLICY
      end
  end.

(** ** Freshness and structure of a stream *)

(** [TIMEFRAME_MINUTES.get(timeframe, 15)]. *)
Definition timeframe_minutes (timeframe : string) : Z :=
  if bool_decide (timeframe = "1Min") then 1
  else if bool_decide (timeframe = "15Min") then 15
  else if bool_decide (timeframe = "1Hour") then 60
  else if bool_decide (timeframe = "4Hour") then 240
  else if bool_decide (timeframe = "1Day") then 1440
  else 15.

(** A whole number of seconds, which the float holds exactly. *)
Definition bar_period_seconds_for (timeframe : string) : Z := timeframe_minutes timeframe * 60.

Definition max_bar_age_for_timeframe (timeframe : string) (config : ColdStartGateConfig) : float :=
  stale_after_seconds (of_Z (bar_period_seconds_for timeframe)) (max_bar_age_seconds config).

Definition stream_is_structurally_intact (s : StreamHealthSnapshot) : bool :=
  if (bar_count s <? 2)%Z then false else
  match latest_bar_timestamp s, prior_bar_timestamp s with
  | Some latest, Some prior =>
      if (latest <=? prior)%Z then false
      else if fleb (latest_volume s) fzero && fleb (prior_volume s) fzero then false
      else true
  | _, _ => false
  end.

Definition wall_clock_freshness_ok (latest : option Z) (bar_period_seconds now : Z)
    (max_age_seconds : float) : bool * option float :=
  match latest with
  | None => (false, None)
  | Some t =>
      let lag := bar_staleness_seconds t bar_period_seconds now in
      (fleb lag (py_max max_age_seconds fzero), Some lag)
  end.

(** ** The engine *)

Record ColdStartGateEngine := mkGate {
  state_by_strategy : gmap string ColdStartGateState;
  policy_by_strategy : gmap string ColdStartPolicy;
  symbol_by_strategy : gmap string string;
  started_at_monotonic : option float;
  paused_accumulated_seconds : float;
  paused_since_monotonic : option float;
  transition_log : gmap string ColdStartGateTransition;
  policy_suppression_logged : gset (string * string);
  stale_feed_warned : gset string;
  (** the number of readings of the monotonic clock *)
  clock_reads : nat
}.

Definition gate_init : ColdStartGateEngine := mkGate ∅ ∅ ∅ None fzero None ∅ ∅ ∅ 0.

Definition set_gate_state (m : gmap string ColdStartGateState)
    (log : gmap string ColdStartGateTransition) (g : ColdStartGateEngine) : ColdStartGateEngine :=
  mkGate m (policy_by_strategy g) (symbol_by_strategy g) (started_at_monotonic g)
    (paused_accumulated_seconds g) (paused_since_monotonic g) log
    (policy_suppression_logged g) (stale_feed_warned g) (clock_reads g).

Definition set_suppressed (s : gset (string * string)) (g : ColdStartGateEngine)
    : ColdStartGateEngine :=
  mkGate (state_by_strategy g) (policy_by_strategy g) (symbol_by_strategy g)
    (started_at_monotonic g) (paused_accumulated_seconds g) (paused_since_monotonic g)
    (transition_log g) s (stale_feed_warned g) (clock_reads g).

Definition set_warned (s : gset string) (g : ColdStartGateEngine) : ColdStartGateEngine :=
  mkGate (state_by_strategy g) (policy_by_strategy g) (symbol_by_strategy g)
    (started_at_monotonic g) (paused_accumulated_seconds g) (paused_since_monotonic g)
    (transition_log g) (policy_suppression_logged g) s (clock_reads g).

Definition set_pause (acc : float) (since : option float) (g : ColdStartGateEngine)
    : ColdStartGateEngine :=
  mkGate (state_by_strategy g) (policy_by_strategy g) (symbol_by_strategy g)
    (started_at_monotonic g) acc since (transition_log g) (policy_suppression_logged g)
    (stale_feed_warned g) (clock_reads g).

Definition gate_policy (sid : string) (g : ColdStartGateEngine) : ColdStartPolicy :=
  default DEFAULT_COLD_START_POLICY (policy_by_strategy g !! sid).

Definition gate_state (sid : string) (g : ColdStartGateEngine) : ColdStartGateState :=
  default CS_PENDING (state_by_strategy g !! sid).

Definition operational_gate_cleared (g : ColdStartGateEngine) : bool :=
  negb (bool_decide (state_by_strategy g = ∅)) &&
  forallb (fun p => negb (bool_decide (p.2 = CS_PENDING) || bool_decide (p.2 = PENDING_BLOCKED)))
    (map_to_list (state_by_strategy g)).

Definition fully_verified (g : ColdStartGateEngine) : bool :=
  negb (bool_decide (state_by_strategy g = ∅)) &&
  forallb (fun p => bool_decide (p.2 = STABILIZED_VERIFIED)) (map_to_list (state_by_strategy g)).

Definition blocks_all_entries (sid : string) (g : ColdStartGateEngine) : bool :=
  bool_decide (gate_state sid g ∈ [CS_PENDING; PENDING_BLOCKED; STALE_REVERIFY]).

Definition last_transition (sid : string) (g : ColdStartGateEngine)
    : option ColdStartGateTransition := transition_log g !! sid.

(** The set is the memory that keeps the warning from repeating. *)
Definition emit_entry_suppressed_by_policy (sid : string) (st : ColdStartGateState)
    (g : ColdStartGateEngine) : ColdStartGateEngine :=
  let cache_key := (sid, ColdStartGateState_value st) in
  if bool_decide (cache_key ∈ policy_suppression_logged g) then g
  else set_suppressed ({[cache_key]} ∪ policy_suppression_logged g) g.

Definition blocks_entry_signals (sid : string) (g : ColdStartGateEngine)
    : bool * ColdStartGateEngine :=
  let st := gate_state sid g in
  if bool_decide (st ∈ [CS_PENDING; PENDING_BLOCKED; STALE_REVERIFY]) then (true, g)
  else if bool_decide (st ∈ [HEURISTIC_PARITY; BYPASS_OVERRIDE]) then
    if bool_decide (gate_policy sid g = FAIL_SAFE_CLOSE)
    then (true, emit_entry_suppressed_by_policy sid st g)
    else (false, g)
  else (negb (bool_decide (st = STABILIZED_VERIFIED)), g).

Section Gate.
Context (cfg : ColdStartGateConfig) (mono : nat -> float).

(** [time.monotonic()]. *)
Definition monotonic (g : ColdStartGateEngine) : float * ColdStartGateEngine :=
  (mono (clock_reads g),
   mkGate (state_by_strategy g) (policy_by_strategy g) (symbol_by_strategy g)
     (started_at_monotonic g) (paused_accumulated_seconds g) (paused_since_monotonic g)
     (transition_log g) (policy_suppression_logged g) (stale_feed_warned g) (S (clock_reads g))).

Definition cold_start_entry_scale (sid : string) (g : ColdStartGateEngine)
    : float * ColdStartGateEngine :=
  let st := gate_state sid g in
  if bool_decide (st = STABILIZED_VERIFIED) then (fone, g)
  else if bool_decide (st = STALE_REVERIFY) then (fzero, g)
  else if bool_decide (st ∈ [HEURISTIC_PARITY; BYPASS_OVERRIDE]) then
    if bool_decide (gate_policy sid g = FAIL_SAFE_CLOSE)
    then (fzero, emit_entry_suppressed_by_policy sid st g)
    else if bool_decide (st = HEURISTIC_PARITY) then (heuristic_entry_scale cfg, g)
    else (bypass_entry_scale cfg, g)
  else (fzero, g).

Definition allows_conservative_entries (sid : string) (g : ColdStartGateEngine)
    : bool * ColdStartGateEngine :=
  let '(scale, g) := cold_start_entry_scale sid g in (fltb fzero scale, g).

(** One leg of [begin_cold_start]: the state, the policy and the symbol. *)
Definition begin_leg (policies : gmap string policy_setting) (symbols : gmap string string)
    (g : ColdStartGateEngine) (sid : string) : ColdStartGateEngine :=
  mkGate (<[sid := CS_PENDING]> (state_by_strategy g))
    (<[sid := parse_cold_start_policy
                (default (SetPolicyValue DEFAULT_COLD_START_POLICY) (policies !! sid))]>
       (policy_by_strategy g))
    (match symbols !! sid with
     | Some s => <[sid := upper s]> (symbol_by_strategy g)
     | None => symbol_by_strategy g
     end)
    (started_at_monotonic g) (paused_accumulated_seconds g) (paused_since_monotonic g)
    (transition_log g) (policy_suppression_logged g) (stale_feed_warned g) (clock_reads g).

Definition begin_cold_start (strategy_ids : list string) (policies : gmap string policy_setting)
    (symbols : gmap string string) (g : ColdStartGateEngine) : ColdStartGateEngine :=
  let '(now, g) := monotonic g in
  fold_left (begin_leg policies symbols) strategy_ids
    (mkGate (state_by_strategy g) (policy_by_strategy g) (symbol_by_strategy g) (Some now)
       (paused_accumulated_seconds g) (paused_since_monotonic g) ∅ ∅ ∅ (clock_reads g)).

Definition set_policy (sid : string) (policy : policy_setting) (g : ColdStartGateEngine)
    : ColdStartGateEngine :=
  mkGate (state_by_strategy g)
    (<[sid := parse_cold_start_policy policy]> (policy_by_strategy g)) (symbol_by_strategy g)
    (started_at_monotonic g) (paused_accumulated_seconds g) (paused_since_monotonic g)
    (transition_log g) (policy_suppression_logged g) (stale_feed_warned g) (clock_reads g).

Definition set_symbol (sid symbol : string) (g : ColdStartGateEngine) : ColdStartGateEngine :=
  mkGate (state_by_strategy g) (policy_by_strategy g)
    (<[sid := upper symbol]> (symbol_by_strategy g))
    (started_at_monotonic g) (paused_accumulated_seconds g) (paused_since_monotonic g)
    (transition_log g) (policy_suppression_logged g) (stale_feed_warned g) (clock_reads g).

Definition elapsed_seconds (g : ColdStartGateEngine) : float * ColdStartGateEngine :=
  match started_at_monotonic g with
  | None => (fzero, g)
  | Some started =>
      let '(paused, g) :=
        match paused_since_monotonic g with
        | Some since =>
            let '(t, g) := monotonic g in
            (fadd (paused_accumulated_seconds g) (py_max (fsub t since) fzero), g)
        | None => (paused_accumulated_seconds g, g)
        end in
      let '(t, g) := monotonic g in
      (py_max (fsub (fsub t started) paused) fzero, g)
  end.

Definition pause_time_bound_progression (g : ColdStartGateEngine) : ColdStartGateEngine :=
  match paused_since_monotonic g with
  | None => let '(t, g) := monotonic g in set_pause (paused_accumulated_seconds g) (Some t) g
  | Some _ => g
  end.

Definition resume_time_bound_progression (g : ColdStartGateEngine) : ColdStartGateEngine :=
  match paused_since_monotonic g with
  | Some since =>
      let '(t, g) := monotonic g in
      set_pause (fadd (paused_accumulated_seconds g) (py_max (fsub t since) fzero)) None g
  | None => g
  end.

Definition set_readiness (readiness_ok : bool) (g : ColdStartGateEngine) : ColdStartGateEngine :=
  if readiness_ok then resume_time_bound_progression g else pause_time_bound_progression g.

(** [_transition]: the scale it logs is read through [cold_start_entry_scale],
    which may note a suppression. *)
Definition gate_transition (sid : string) (target : ColdStartGateState) (reason : string)
    (lag : option float) (matrix_aligned stream_intact : bool) (g : ColdStartGateEngine)
    : option ColdStartGateTransition * ColdStartGateEngine :=
  let prior := gate_state sid g in
  if bool_decide (prior = target) then
    let '(elapsed, g) := elapsed_seconds g in
    (Some (mkGateTransition sid prior target reason lag elapsed matrix_aligned stream_intact), g)
  else
    let g := set_gate_state (<[sid := target]> (state_by_strategy g)) (transition_log g) g in
    let '(elapsed, g) := elapsed_seconds g in
    let t := mkGateTransition sid prior target reason lag elapsed matrix_aligned stream_intact in
    let g := set_gate_state (state_by_strategy g) (<[sid := t]> (transition_log g)) g in
    let '(_, g) := cold_start_entry_scale sid g in
    (Some t, g).

Definition check_stale_feed_early_warning (sid : string) (lag : option float)
    (max_age_seconds : float) (fresh : bool) (g : ColdStartGateEngine) : ColdStartGateEngine :=
  match lag with
  | None => g
  | Some lag =>
      let warning_threshold := fmul max_age_seconds STALE_FEED_WARNING_FRACTION in
      if fresh && fltb warning_threshold lag then
        if bool_decide (sid ∈ stale_feed_warned g) then g
        else set_warned ({[sid]} ∪ stale_feed_warned g) g
      else if negb fresh || fleb lag warning_threshold
      then set_warned (stale_feed_warned g ∖ {[sid]}) g
      else g
  end.

(** [_evaluate_time_bound]. *)
Definition evaluate_time_bound (sid timeframe : string)
    (matrix_aligned background_verified fresh intact : bool) (lag : option float)
    (g : ColdStartGateEngine) : option ColdStartGateTransition * ColdStartGateEngine :=
  let current := gate_state sid g in
  if bool_decide (current = BYPASS_OVERRIDE) then (None, g) else
  let g := check_stale_feed_early_warning sid lag (max_bar_age_for_timeframe timeframe cfg) fresh g in
  match current with
  | STABILIZED_VERIFIED =>
      if negb fresh
      then gate_transition sid STALE_REVERIFY "stabilized_verified_feed_stale" lag
             matrix_aligned intact g
      else (None, g)
  | STALE_REVERIFY =>
      if fresh && matrix_aligned
      then gate_transition sid STABILIZED_VERIFIED "stale_reverify_feed_recovered" lag true intact g
      else (None, g)
  | _ =>
      let '(elapsed, g) := elapsed_seconds g in
      if fltb elapsed (max_cold_start_wait_seconds cfg) then (None, g)
      else if matrix_aligned && background_verified && fresh && intact
      then gate_transition sid STABILIZED_VERIFIED "time_bound_stabilized_verified" lag true intact g
      else if bool_decide (gate_policy sid g = FAIL_SAFE_CLOSE) then
        if bool_decide (current = CS_PENDING)
        then gate_transition sid PENDING_BLOCKED "fail_safe_timeout_without_matrix_parity" lag
               matrix_aligned intact g
        else (None, g)
      else if intact && fresh && bool_decide (current = CS_PENDING)
      then gate_transition sid HEURISTIC_PARITY "time_bound_heuristic_parity" lag
             matrix_aligned true g
      else gate_transition sid BYPASS_OVERRIDE "time_bound_system_bypass" lag matrix_aligned intact g
  end.

Definition evaluate_verification (sid timeframe : string) (matrix_aligned : bool)
    (matrix_skip_reason : option string) (stream_health : StreamHealthSnapshot)
    (background_verified divergent : bool) (now : Z) (g : ColdStartGateEngine)
    : option ColdStartGateTransition * ColdStartGateEngine :=
  if divergent then (None, g) else
  let max_age := max_bar_age_for_timeframe timeframe cfg in
  let '(fresh, lag) := wall_clock_freshness_ok (latest_bar_timestamp stream_health)
                         (bar_period_seconds_for timeframe) now max_age in
  let intact := stream_is_structurally_intact stream_health in
  let aligned := matrix_aligned && bool_decide (matrix_skip_reason = None) in
  let current := gate_state sid g in
  if aligned && background_verified && fresh && intact &&
     bool_decide (current <> STABILIZED_VERIFIED)
  then gate_transition sid STABILIZED_VERIFIED "matrix_parity_and_wall_clock_fresh" lag true intact g
  else if aligned && negb fresh then (None, g)
  else
    let '(_, g) := evaluate_time_bound sid timeframe aligned background_verified fresh intact lag g in
    (last_transition sid g, g).

Definition tick_time_bound (sid timeframe : string) (stream_health : StreamHealthSnapshot)
    (matrix_aligned background_verified readiness_ok : bool) (now : Z) (g : ColdStartGateEngine)
    : option ColdStartGateTransition * ColdStartGateEngine :=
  let g := set_readiness readiness_ok g in
  if negb readiness_ok then (None, g) else
  let max_age := max_bar_age_for_timeframe timeframe cfg in
  let '(fresh, lag) := wall_clock_freshness_ok (latest_bar_timestamp stream_health)
                         (bar_period_seconds_for timeframe) now max_age in
  let intact := stream_is_structurally_intact stream_health in
  evaluate_time_bound sid timeframe matrix_aligned background_verified fresh intact lag g.

Record gate_telemetry := mkGateTelemetry {
  cold_start_gate_states : gmap string string;
  cold_start_policies : gmap string ColdStartPolicy;
  cold_start_elapsed_seconds : float;
  cold_start_operational_gate_cleared : bool;
  cold_start_fully_verified : bool;
  gt_max_cold_start_wait_seconds : float
}.

Definition telemetry_snapshot (g : ColdStartGateEngine) : gate_telemetry * ColdStartGateEngine :=
  let '(elapsed, g) := elapsed_seconds g in
  (mkGateTelemetry (ColdStartGateState_value <$> state_by_strategy g) (policy_by_strategy g) elapsed
     (operational_gate_cleared g) (fully_verified g) (max_cold_start_wait_seconds cfg), g).

(** ** Histories of calls *)

Inductive gate_call :=
  | CallBegin (ids : list string) (policies : gmap string policy_setting) (symbols : gmap string string)
  | CallPolicy (sid : string) (policy : policy_setting)
  | CallSymbol (sid symbol : string)
  | CallReadiness (readiness_ok : bool)
  | CallEvaluate (sid timeframe : string) (matrix_aligned : bool) (skip : option string)
      (health : StreamHealthSnapshot) (background_verified divergent : bool) (now : Z)
  | CallTick (sid timeframe : string) (health : StreamHealthSnapshot)
      (matrix_aligned background_verified readiness_ok : bool) (now : Z)
  | CallBlocks (sid : string)
  | CallScale (sid : string)
  | CallTelemetry.

Definition gate_step (g : ColdStartGateEngine) (c : gate_call) : ColdStartGateEngine :=
  match c with
  | CallBegin ids policies symbols => begin_cold_start ids policies symbols g
  | CallPolicy sid policy => set_policy sid policy g
  | CallSymbol sid symbol => set_symbol sid symbol g
  | CallReadiness ok => set_readiness ok g
  | CallEvaluate sid tf aligned skip health verified divergent now =>
      (evaluate_verification sid tf aligned skip health verified divergent now g).2
  | CallTick sid tf health aligned verified ok now =>
      (tick_time_bound sid tf health aligned verified ok now g).2
  | CallBlocks sid => (blocks_entry_signals sid g).2
  | CallScale sid => (cold_start_entry_scale sid g).2
  | CallTelemetry => (telemetry_snapshot g).2
  end.
End Gate.

(** ** What the calls change

    [alike g g']: the same states and policies. *)

Definition alike (g g' : ColdStartGateEngine) : Prop :=
  state_by_strategy g' = state_by_strategy g /\ policy_by_strategy g' = policy_by_strategy g.

Section Lemmas.
Context (cfg : ColdStartGateConfig) (mono : nat -> float).

Lemma alike_state g g' sid : alike g g' -> gate_state sid g' = gate_state sid g.
Proof. intros [H _]. unfold gate_state. by rewrite H. Qed.

Lemma alike_policy g g' sid : alike g g' -> gate_policy sid g' = gate_policy sid g.
Proof. intros [_ H]. unfold gate_policy. by rewrite H. Qed.

Lemma elapsed_alike g : alike g (elapsed_seconds mono g).2.
Proof.
  unfold elapsed_seconds, alike.
  by destruct (started_at_monotonic g), (paused_since_monotonic g).
Qed.

Lemma emit_alike sid st g : alike g (emit_entry_suppressed_by_policy sid st g).
Proof. unfold emit_entry_suppressed_by_policy, alike. by case_bool_decide. Qed.

Lemma scale_alike sid g : alike g (cold_start_entry_scale cfg sid g).2.
Proof.
  unfold cold_start_entry_scale. repeat case_bool_decide; try done. apply emit_alike.
Qed.

Lemma blocks_alike sid g : alike g (blocks_entry_signals sid g).2.
Proof. unfold blocks_entry_signals. repeat case_bool_decide; try done. apply emit_alike. Qed.

Lemma warning_alike sid lag age fresh g :
  alike g (check_stale_feed_early_warning sid lag age fresh g).
Proof. unfold check_stale_feed_early_warning, alike. by repeat case_match. Qed.

Lemma readiness_alike ok g : alike g (set_readiness mono ok g).
Proof.
  unfold set_readiness, resume_time_bound_progression, pause_time_bound_progression, alike.
  by destruct ok, (paused_since_monotonic g).
Qed.

Lemma telemetry_alike g : alike g (telemetry_snapshot cfg mono g).2.
Proof.
  unfold telemetry_snapshot. pose proof (elapsed_alike g). by destruct (elapsed_seconds mono g).
Qed.

(** A transition moves its leg, and its leg only. *)
Lemma transition_spec sid target reason lag al ok g sid' :
  let g' := (gate_transition cfg mono sid target reason lag al ok g).2 in
  gate_state sid' g' = (if decide (sid' = sid) then target else gate_state sid' g) /\
  policy_by_strategy g' = policy_by_strategy g.
Proof.
  unfold gate_transition. pose proof (elapsed_alike g) as [Hs Hp].
  case_bool_decide as Hb.
  - destruct (elapsed_seconds mono g) as [el g1]; simpl in *. split; [|done].
    case_decide; subst; unfold gate_state in *; by rewrite Hs.
  - set (g1 := set_gate_state _ _ g). pose proof (elapsed_alike g1) as [Hs1 Hp1].
    destruct (elapsed_seconds mono g1) as [el g2]; simpl in *.
    set (g3 := set_gate_state _ _ g2). pose proof (scale_alike sid g3) as [Hs3 Hp3].
    destruct (cold_start_entry_scale cfg sid g3) as [sc g4]; simpl in *. split; [|by rewrite Hp3].
    unfold gate_state. rewrite Hs3, Hs1. case_decide; subst.
    + by rewrite lookup_insert_eq.
    + by rewrite lookup_insert_ne.
Qed.

(** The state a time-bound evaluation leaves the leg in. [waited]: the bound of
    the wait has passed. *)
Definition time_bound_next (st : ColdStartGateState) (p : ColdStartPolicy)
    (waited aligned verified fresh intact : bool) : ColdStartGateState :=
  match st with
  | BYPASS_OVERRIDE => BYPASS_OVERRIDE
  | STABILIZED_VERIFIED => if fresh then STABILIZED_VERIFIED else STALE_REVERIFY
  | STALE_REVERIFY => if fresh && aligned then STABILIZED_VERIFIED else STALE_REVERIFY
  | _ =>
      if negb waited then st
      else if aligned && verified && fresh && intact then STABILIZED_VERIFIED
      else match p, st with
           | FAIL_SAFE_CLOSE, CS_PENDING => PENDING_BLOCKED
           | FAIL_SAFE_CLOSE, _ => st
           | _, CS_PENDING => if intact && fresh then HEURISTIC_PARITY else BYPASS_OVERRIDE
           | _, _ => BYPASS_OVERRIDE
           end
  end.

(** The wait of the leg is over, as the engine will read it. *)
Definition waited (g : ColdStartGateEngine) : bool :=
  negb (fltb (elapsed_seconds mono g).1 (max_cold_start_wait_seconds cfg)).

Lemma warned_elapsed s g : (elapsed_seconds mono (set_warned s g)).1 = (elapsed_seconds mono g).1.
Proof. destruct g as [? ? ? [|] ? [|] ? ? ? ?]; reflexivity. Qed.

Lemma warning_elapsed sid lag age fresh g :
  (elapsed_seconds mono (check_stale_feed_early_warning sid lag age fresh g)).1 =
  (elapsed_seconds mono g).1.
Proof.
  unfold check_stale_feed_early_warning. repeat case_match; auto using warned_elapsed.
Qed.

Lemma time_bound_spec sid tf al ver fresh intact lag g sid' :
  let g' := (evaluate_time_bound cfg mono sid tf al ver fresh intact lag g).2 in
  gate_state sid' g' =
    (if decide (sid' = sid)
     then time_bound_next (gate_state sid g) (gate_policy sid g) (waited g) al ver fresh intact
     else gate_state sid' g) /\
  policy_by_strategy g' = policy_by_strategy g.
Proof.
  unfold evaluate_time_bound. case_bool_decide as Hby.
  { simpl. rewrite Hby. split; [|done]. by case_decide; subst. }
  pose proof (warning_alike sid lag (max_bar_age_for_timeframe tf cfg) fresh g) as Ha.
  pose proof (warning_elapsed sid lag (max_bar_age_for_timeframe tf cfg) fresh g) as He.
  set (g1 := check_stale_feed_early_warning _ _ _ _ g) in *.
  assert (forall s r a i g2, alike g g2 ->
    gate_state sid' (gate_transition cfg mono sid s r lag a i g2).2 =
      (if decide (sid' = sid) then s else gate_state sid' g) /\
    policy_by_strategy (gate_transition cfg mono sid s r lag a i g2).2 = policy_by_strategy g)
    as Ht.
  { intros s r a i g2 H2. destruct (transition_spec sid s r lag a i g2 sid') as [-> ->].
    rewrite (alike_state _ _ _ H2). by destruct H2. }
  assert (forall g2, alike g g2 -> forall s, gate_state sid g = s ->
    gate_state sid' g2 = (if decide (sid' = sid) then s else gate_state sid' g) /\
    policy_by_strategy g2 = policy_by_strategy g) as Hk.
  { intros g2 H2 s <-. rewrite (alike_state _ _ _ H2). split; [by case_decide; subst|by destruct H2]. }
  pose proof (elapsed_alike g1) as Hea. unfold waited. rewrite <- He.
  destruct (elapsed_seconds mono g1) as [el g2]; cbn [fst snd] in *.
  assert (alike g g2) as H2 by (destruct Ha, Hea; split; congruence).
  rewrite (alike_policy g g2 sid H2).
  destruct (fltb el (max_cold_start_wait_seconds cfg)), (gate_state sid g) eqn:Est; try done;
    unfold time_bound_next; cbn [negb]; destruct al, ver, fresh, intact, (gate_policy sid g); simpl; eauto.
Qed.

(** The freshness test of a call, and the state an evaluation leaves its leg in. *)
Definition fresh_at (tf : string) (health : StreamHealthSnapshot) (now : Z) : bool :=
  (wall_clock_freshness_ok (latest_bar_timestamp health) (bar_period_seconds_for tf) now
     (max_bar_age_for_timeframe tf cfg)).1.

Definition evaluate_next (st : ColdStartGateState) (p : ColdStartPolicy)
    (w divergent aligned verified fresh intact : bool) : ColdStartGateState :=
  if divergent then st
  else if aligned && verified && fresh && intact then STABILIZED_VERIFIED
  else if aligned && negb fresh then st
  else time_bound_next st p w aligned verified fresh intact.

Lemma evaluate_spec sid tf al skip health ver div now g sid' :
  let g' := (evaluate_verification cfg mono sid tf al skip health ver div now g).2 in
  gate_state sid' g' =
    (if decide (sid' = sid)
     then evaluate_next (gate_state sid g) (gate_policy sid g) (waited g) div
            (al && bool_decide (skip = None)) ver (fresh_at tf health now)
            (stream_is_structurally_intact health)
     else gate_state sid' g) /\
  policy_by_strategy g' = policy_by_strategy g.
Proof.
  unfold evaluate_verification, evaluate_next, fresh_at.
  destruct div; [by simpl; case_decide; subst|].
  destruct (wall_clock_freshness_ok _ _ _ _) as [fresh lag]; cbn [fst].
  set (a := al && _). set (intact := stream_is_structurally_intact health).
  pose proof (time_bound_spec sid tf a ver fresh intact lag g sid') as Ht.
  destruct (a && ver && fresh && intact) eqn:Eall; simpl.
  - case_bool_decide as Hs; [apply transition_spec|].
    destruct a, ver, fresh, intact; try done. simpl.
    destruct (evaluate_time_bound _ _ _ _ _ _ _ _ _ g) as [o g']; cbn [snd] in *.
    destruct Ht as [-> ->]. by destruct (gate_state sid g).
  - destruct (a && negb fresh); [by simpl; case_decide; subst|].
    by destruct (evaluate_time_bound _ _ _ _ _ _ _ _ _ g) as [o g'].
Qed.

Lemma tick_spec sid tf health al ver ok now g sid' :
  let g' := (tick_time_bound cfg mono sid tf health al ver ok now g).2 in
  gate_state sid' g' =
    (if decide (sid' = sid /\ ok = true)
     then time_bound_next (gate_state sid g) (gate_policy sid g) (waited (set_readiness mono true g))
            al ver (fresh_at tf health now) (stream_is_structurally_intact health)
     else gate_state sid' g) /\
  policy_by_strategy g' = policy_by_strategy g.
Proof.
  unfold tick_time_bound, fresh_at. pose proof (readiness_alike ok g) as Ha.
  destruct ok; simpl negb; cbv iota.
  - destruct (wall_clock_freshness_ok _ _ _ _) as [fresh lag]; cbn [fst].
    destruct (time_bound_spec sid tf al ver fresh (stream_is_structurally_intact health) lag
                (set_readiness mono true g) sid') as [-> ->].
    rewrite !(alike_state _ _ _ Ha), (alike_policy _ _ _ Ha). destruct Ha as [_ ->].
    split; [|done]. repeat case_decide; naive_solver.
  - cbn [snd]. rewrite (alike_state _ _ _ Ha), (proj2 Ha). split; [|done].
    by rewrite decide_False by naive_solver.
Qed.

Lemma begin_spec ids policies symbols g sid :
  let g' := begin_cold_start mono ids policies symbols g in
  gate_state sid g' = (if decide (sid ∈ ids) then CS_PENDING else gate_state sid g) /\
  gate_policy sid g' =
    (if decide (sid ∈ ids)
     then parse_cold_start_policy
            (default (SetPolicyValue DEFAULT_COLD_START_POLICY) (policies !! sid))
     else gate_policy sid g).
Proof.
  unfold begin_cold_start; simpl. set (g0 := mkGate _ _ _ _ _ _ _ _ _ _).
  change (gate_state sid g) with (gate_state sid g0).
  change (gate_policy sid g) with (gate_policy sid g0). clearbody g0. revert g0.
  induction ids as [|i ids IH]; intros g0; simpl; [done|].
  destruct (IH (begin_leg policies symbols g0 i)) as [-> ->].
  unfold gate_state, gate_policy; simpl.
  destruct (decide (i = sid)) as [<-|Hn].
  - rewrite !lookup_insert_eq. split; repeat case_decide; set_solver.
  - rewrite !lookup_insert_ne by done. split; repeat case_decide; set_solver.
Qed.

(** The call gave the leg complete evidence: the tapes agree and the background check is
    done, the feed is fresh and the stream intact. *)
Definition verifies (sid : string) (c : gate_call) : Prop :=
  match c with
  | CallEvaluate s tf al skip health ver div now =>
      s = sid /\ div = false /\ al = true /\ skip = None /\ ver = true /\
      fresh_at tf health now = true /\ stream_is_structurally_intact health = true
  | CallTick s tf health al ver ok now =>
      s = sid /\ ok = true /\ al = true /\ ver = true /\
      fresh_at tf health now = true /\ stream_is_structurally_intact health = true
  | _ => False
  end.

(** The call saw the tapes agree and the feed fresh: what a leg demoted for a stale feed
    comes back by, whatever the background check and the stream say. *)
Definition sees_recovery (sid : string) (c : gate_call) : Prop :=
  match c with
  | CallEvaluate s tf al skip health ver div now =>
      s = sid /\ div = false /\ al = true /\ skip = None /\ fresh_at tf health now = true
  | CallTick s tf health al ver ok now =>
      s = sid /\ ok = true /\ al = true /\ fresh_at tf health now = true
  | _ => False
  end.

(** The call looked at the feed and found it stale: a tick looks when the readiness gate
    passed, an evaluation when the tapes differ. *)
Definition sees_stale_feed (sid : string) (c : gate_call) : Prop :=
  match c with
  | CallEvaluate s tf al skip health ver div now =>
      s = sid /\ div = false /\ al && bool_decide (skip = None) = false /\
      fresh_at tf health now = false
  | CallTick s tf health al ver ok now => s = sid /\ ok = true /\ fresh_at tf health now = false
  | _ => False
  end.

Definition restarts (sid : string) (c : gate_call) : Prop :=
  match c with CallBegin ids _ _ => sid ∈ ids | _ => False end.

Definition keeps_fail_safe (sid : string) (c : gate_call) : Prop :=
  match c with
  | CallBegin ids policies _ =>
      sid ∈ ids ->
      parse_cold_start_policy
        (default (SetPolicyValue DEFAULT_COLD_START_POLICY) (policies !! sid)) = FAIL_SAFE_CLOSE
  | CallPolicy s p => s = sid -> parse_cold_start_policy p = FAIL_SAFE_CLOSE
  | _ => True
  end.

Lemma policy_of_eq g g' sid :
  policy_by_strategy g' = policy_by_strategy g -> gate_policy sid g' = gate_policy sid g.
Proof. unfold gate_policy. by intros ->. Qed.

Lemma gate_step_fail_safe sid g c :
  keeps_fail_safe sid c -> gate_policy sid g = FAIL_SAFE_CLOSE ->
  gate_policy sid (gate_step cfg mono g c) = FAIL_SAFE_CLOSE.
Proof.
  intros Hc Hp. destruct c; simpl in *.
  - destruct (begin_spec ids policies symbols g sid) as [_ ->]. case_decide; auto.
  - unfold gate_policy in *; simpl. destruct (decide (sid0 = sid)) as [->|].
    + rewrite lookup_insert_eq. by apply Hc.
    + by rewrite lookup_insert_ne.
  - done.
  - by rewrite (alike_policy _ _ _ (readiness_alike readiness_ok g)).
  - by erewrite policy_of_eq by apply evaluate_spec, sid.
  - by erewrite policy_of_eq by apply tick_spec, sid.
  - by rewrite (alike_policy _ _ _ (blocks_alike sid0 g)).
  - by rewrite (alike_policy _ _ _ (scale_alike sid0 g)).
  - by rewrite (alike_policy _ _ _ (telemetry_alike g)).
Qed.

Ltac gate_cases :=
  try case_bool_decide; subst;
  repeat match goal with
  | |- context [fresh_at ?a ?b ?c] => destruct (fresh_at a b c)
  | |- context [stream_is_structurally_intact ?h] => destruct (stream_is_structurally_intact h)
  | |- context [waited ?g] => destruct (waited g)
  | |- context [gate_policy ?s ?g] => destruct (gate_policy s g)
  | |- context [gate_state ?s ?g] => destruct (gate_state s g)
  | b : bool |- _ => destruct b
  end; simpl; intros; try discriminate; intuition congruence.

(** How a leg comes to be verified, and how it stays so. *)
Lemma gate_step_stabilized sid g c :
  gate_state sid (gate_step cfg mono g c) = STABILIZED_VERIFIED ->
  (gate_state sid g = STABILIZED_VERIFIED /\ ~ restarts sid c /\ ~ sees_stale_feed sid c) \/
  verifies sid c \/ (gate_state sid g = STALE_REVERIFY /\ sees_recovery sid c).
Proof.
  destruct c; simpl; try (intros; left; tauto).
  - destruct (begin_spec ids policies symbols g sid) as [-> _]. case_decide; [done|]. tauto.
  - rewrite (alike_state _ _ _ (readiness_alike readiness_ok g)). tauto.
  - destruct (evaluate_spec sid0 timeframe matrix_aligned skip health background_verified
                divergent now g sid) as [-> _].
    case_decide as Hs; [subst sid0|intros ->; left; naive_solver].
    unfold evaluate_next, time_bound_next. gate_cases.
  - destruct (tick_spec sid0 timeframe health matrix_aligned background_verified readiness_ok now
                g sid) as [-> _].
    case_decide as Hs; [destruct Hs as [-> ->]|intros ->; left; naive_solver].
    unfold time_bound_next. gate_cases.
  - rewrite (alike_state _ _ _ (blocks_alike sid0 g)). tauto.
  - rewrite (alike_state _ _ _ (scale_alike sid0 g)). tauto.
  - rewrite (alike_state _ _ _ (telemetry_alike g)). tauto.
Qed.

(** Only a verified leg is demoted. *)
Lemma gate_step_stale sid g c :
  gate_state sid (gate_step cfg mono g c) = STALE_REVERIFY ->
  ~ restarts sid c /\ (gate_state sid g = STABILIZED_VERIFIED \/ gate_state sid g = STALE_REVERIFY).
Proof.
  destruct c; simpl; try tauto.
  - destruct (begin_spec ids policies symbols g sid) as [-> _]. case_decide; [done|]. tauto.
  - rewrite (alike_state _ _ _ (readiness_alike readiness_ok g)). tauto.
  - destruct (evaluate_spec sid0 timeframe matrix_aligned skip health background_verified
                divergent now g sid) as [-> _].
    case_decide as Hs; [subst sid0|tauto]. unfold evaluate_next, time_bound_next. gate_cases.
  - destruct (tick_spec sid0 timeframe health matrix_aligned background_verified readiness_ok now
                g sid) as [-> _].
    case_decide as Hs; [destruct Hs as [-> ->]|tauto]. unfold time_bound_next. gate_cases.
  - rewrite (alike_state _ _ _ (blocks_alike sid0 g)). tauto.
  - rewrite (alike_state _ _ _ (scale_alike sid0 g)). tauto.
  - rewrite (alike_state _ _ _ (telemetry_alike g)). tauto.
Qed.

(** The last complete evidence of the leg, with no restart since: [post] is what came after. *)
Definition evidence_since (sid : string) (evs post : list gate_call) : Prop :=
  exists pre c, evs = pre ++ c :: post /\ verifies sid c /\ Forall (fun d => ~ restarts sid d) post.

(** Every stale look was followed by a recovery. *)
Definition recovered (sid : string) (post : list gate_call) : Prop :=
  forall p d q, post = p ++ d :: q -> sees_stale_feed sid d -> Exists (sees_recovery sid) q.

Definition verified_since (sid : string) (evs : list gate_call) : Prop :=
  exists post, evidence_since sid evs post /\ recovered sid post.

Lemma evidence_since_snoc sid evs post c :
  evidence_since sid evs post -> ~ restarts sid c -> evidence_since sid (evs ++ [c]) (post ++ [c]).
Proof.
  intros (pre & c0 & -> & Hv & Hr) Hc. exists pre, c0. rewrite <- app_assoc. split_and!; [done..|].
  by apply Forall_app_2; [|constructor].
Qed.

Lemma recovered_snoc sid post c :
  recovered sid post -> ~ sees_stale_feed sid c -> recovered sid (post ++ [c]).
Proof.
  intros H Hc p d q Heq Hd. destruct q as [|z q' _] using rev_ind.
  - apply app_inj_tail in Heq as [_ ->]. done.
  - rewrite app_comm_cons, app_assoc in Heq. apply app_inj_tail in Heq as [-> ->].
    apply Exists_app. left. by eapply H.
Qed.

Lemma recovered_by sid post c : sees_recovery sid c -> recovered sid (post ++ [c]).
Proof.
  intros Hr p d q Heq Hd. destruct q as [|z q' _] using rev_ind.
  - apply app_inj_tail in Heq as [_ <-]. exfalso. destruct c; simpl in *; intuition congruence.
  - rewrite app_comm_cons, app_assoc in Heq. apply app_inj_tail in Heq as [_ ->].
    apply Exists_app. right. by constructor.
Qed.

Lemma verified_history sid evs :
  let st := gate_state sid (runs (gate_step cfg mono) gate_init evs) in
  (st = STABILIZED_VERIFIED -> verified_since sid evs) /\
  (st = STALE_REVERIFY -> exists post, evidence_since sid evs post).
Proof.
  induction evs as [|c evs [IH1 IH2]] using rev_ind; [done|]. simpl. rewrite runs_snoc. split.
  - intros [(Hs & Hr & Hd)|[Hv|(Hs & Hr)]]%gate_step_stabilized.
    + destruct (IH1 Hs) as (post & He & Hp). exists (post ++ [c]).
      split; [by apply evidence_since_snoc|by apply recovered_snoc].
    + exists []. split; [by exists evs, c; repeat split|]. intros p d q Heq. by destruct p.
    + destruct (IH2 Hs) as (post & He). exists (post ++ [c]). split; [|by apply recovered_by].
      apply evidence_since_snoc; [done|]. destruct c; simpl in *; tauto.
  - intros [Hr [Hs|Hs]]%gate_step_stale.
    + destruct (IH1 Hs) as (post & He & _). eauto using evidence_since_snoc.
    + destruct (IH2 Hs) as (post & He). eauto using evidence_since_snoc.
Qed.

Lemma stabilized_verified_since sid evs :
  gate_state sid (runs (gate_step cfg mono) gate_init evs) = STABILIZED_VERIFIED ->
  verified_since sid evs.
Proof. apply verified_history. Qed.

(** An evaluation with complete evidence verifies the leg, whatever it was. *)
Lemma evaluation_verifies sid g c tf al skip health ver div now :
  c = CallEvaluate sid tf al skip health ver div now -> verifies sid c ->
  gate_state sid (gate_step cfg mono g c) = STABILIZED_VERIFIED.
Proof.
  intros ->. simpl. intros (_ & -> & -> & -> & -> & Hf & Hi).
  destruct (evaluate_spec sid tf true None health true false now g sid) as [-> _].
  rewrite decide_True by done. unfold evaluate_next. by rewrite Hf, Hi.
Qed.

Lemma runs_fail_safe sid evs :
  Forall (keeps_fail_safe sid) evs ->
  gate_policy sid (runs (gate_step cfg mono) gate_init evs) = FAIL_SAFE_CLOSE.
Proof.
  induction evs as [|c evs IH] using rev_ind; [done|].
  rewrite runs_snoc. intros [H1 H2]%Forall_app. inversion_clear H2. apply gate_step_fail_safe; auto.
Qed.

Lemma fail_safe_scale sid g :
  gate_policy sid g = FAIL_SAFE_CLOSE ->
  (blocks_entry_signals sid g).1 = negb (bool_decide (gate_state sid g = STABILIZED_VERIFIED)) /\
  (cold_start_entry_scale cfg sid g).1 =
    (if bool_decide (gate_state sid g = STABILIZED_VERIFIED) then fone else fzero).
Proof.
  intros Hp. unfold blocks_entry_signals, cold_start_entry_scale. rewrite Hp.
  by destruct (gate_state sid g).
Qed.
End Lemmas.


Definition boot_leg : gate_call := CallBegin ["leg"] ∅ {[ "leg" := "btc" ]}.
Definition live_stream : StreamHealthSnapshot :=
  mkStreamHealth (Some 1000000000000000%Z) (Some 999999100000000%Z) fone fone 2.
Definition verify_leg (now : Z) : gate_call :=
  CallEvaluate "leg" "15Min" true None live_stream true false now.


(** ** A high-availability leg *)

(** The call neither restarts the leg, nor changes its policy, nor is an
    evaluation with complete evidence. *)
Definition leaves_bypassed (cfg : ColdStartGateConfig) (sid : string) (c : gate_call) : Prop :=
  match c with
  | CallBegin ids _ _ => sid ∉ ids
  | CallPolicy s p => s = sid -> parse_cold_start_policy p = HIGH_AVAILABILITY
  | CallEvaluate _ _ _ _ _ _ _ _ => ~ verifies cfg sid c
  | _ => True
  end.

Lemma bypassed_step cfg mono sid g c :
  leaves_bypassed cfg sid c ->
  gate_state sid g = BYPASS_OVERRIDE /\ gate_policy sid g = HIGH_AVAILABILITY ->
  gate_state sid (gate_step cfg mono g c) = BYPASS_OVERRIDE /\
  gate_policy sid (gate_step cfg mono g c) = HIGH_AVAILABILITY.
Proof.
  intros Hc [Hs Hp].
  assert (forall g', alike g g' ->
    gate_state sid g' = BYPASS_OVERRIDE /\ gate_policy sid g' = HIGH_AVAILABILITY) as Ha.
  { intros g' H. by rewrite (alike_state _ _ _ H), (alike_policy _ _ _ H). }
  destruct c; simpl in *;
    eauto using readiness_alike, blocks_alike, scale_alike, telemetry_alike.
  - destruct (begin_spec mono ids policies symbols g sid) as [-> ->]. by rewrite !decide_False.
  - split; [done|]. unfold gate_policy in *; simpl.
    destruct (decide (sid0 = sid)) as [->|]; [by rewrite lookup_insert_eq; apply Hc|].
    by rewrite lookup_insert_ne.
  - destruct (evaluate_spec cfg mono sid0 timeframe matrix_aligned skip health background_verified
                divergent now g sid) as [-> Hpol].
    rewrite (policy_of_eq _ _ _ Hpol). split; [|done].
    case_decide as Heq; [|done]. subst sid0. rewrite Hs. unfold evaluate_next.
    destruct divergent, matrix_aligned; try done; case_bool_decide; try done.
    destruct background_verified, (fresh_at _ _ _ _) eqn:Hf, (stream_is_structurally_intact _) eqn:Hi;
      try done. destruct Hc. naive_solver.
  - destruct (tick_spec cfg mono sid0 timeframe health matrix_aligned background_verified
                readiness_ok now g sid) as [-> Hpol].
    rewrite (policy_of_eq _ _ _ Hpol). split; [|done].
    case_decide as Heq; [|done]. destruct Heq as [-> _]. by rewrite Hs.
Qed.

(** A high-availability leg let through at the heuristic size keeps it until the next
    tick only: once the wait is over, a tick without complete evidence bypasses the
    gate, and from then on no reading of the feed, however stale, and no failed
    readiness blocks its entries or takes the bypass size from it. *)
Theorem heuristic_parity_ends_in_bypass cfg mono sid tf health al ver now g evs
    (Hh : gate_state sid g = HEURISTIC_PARITY)
    (Hp : gate_policy sid g = HIGH_AVAILABILITY)
    (Hw : waited cfg mono (set_readiness mono true g) = true)
    (He : al && ver && fresh_at cfg tf health now && stream_is_structurally_intact health = false)
    (Hev : Forall (leaves_bypassed cfg sid) evs) :
  let g' := runs (gate_step cfg mono) g (CallTick sid tf health al ver true now :: evs) in
  gate_state sid g' = BYPASS_OVERRIDE /\ (blocks_entry_signals sid g').1 = false /\
  (cold_start_entry_scale cfg sid g').1 = bypass_entry_scale cfg.
Proof.
  rewrite runs_cons; simpl. set (g1 := (tick_time_bound _ _ _ _ _ _ _ _ _ g).2).
  assert (gate_state sid g1 = BYPASS_OVERRIDE /\ gate_policy sid g1 = HIGH_AVAILABILITY) as H1.
  { destruct (tick_spec cfg mono sid tf health al ver true now g sid) as [Hs Hpol].
    fold g1 in Hs, Hpol. rewrite (policy_of_eq _ _ _ Hpol), Hs, decide_True by done.
    split; [|done]. rewrite Hh, Hp, Hw. unfold time_bound_next. by rewrite He. }
  assert (gate_state sid (runs (gate_step cfg mono) g1 evs) = BYPASS_OVERRIDE /\
          gate_policy sid (runs (gate_step cfg mono) g1 evs) = HIGH_AVAILABILITY) as [H2 H3].
  { clearbody g1. clear - Hev H1. revert g1 H1. induction Hev as [|c evs Hc _ IH]; intros; [done|].
    rewrite runs_cons. by apply IH, bypassed_step. }
  unfold blocks_entry_signals, cold_start_entry_scale. by rewrite H2, H3.
Qed.

Definition minute_clock (n : nat) : float := of_Z (60 * Z.of_nat n).
Definition ha_leg : gate_call :=
  CallBegin ["leg"] {[ "leg" := SetText " high_availability " ]} ∅.
Definition tick_leg (now : Z) : gate_call := CallTick "leg" "15Min" live_stream false false true now.
Definition heuristic_gate : ColdStartGateEngine :=
  runs (gate_step default_cold_start_config minute_clock) gate_init
    (ha_leg :: replicate 2 (tick_leg 1000001000000000)).

Lemma heuristic_parity_ends_in_bypass_witness :
  gate_state "leg" heuristic_gate = HEURISTIC_PARITY /\
  let g := runs (gate_step default_cold_start_config minute_clock) heuristic_gate
             [tick_leg 1000001000000000; tick_leg 2000000000000000] in
  (blocks_entry_signals "leg" g).1 = false.
Proof.
  assert (gate_state "leg" heuristic_gate = HEURISTIC_PARITY) as Hh by (vm_compute; reflexivity).
  split; [exact Hh|].
  apply (heuristic_parity_ends_in_bypass default_cold_start_config minute_clock "leg" "15Min"
           live_stream false false 1000001000000000 heuristic_gate [tick_leg 2000000000000000]);
    [exact Hh|vm_compute; reflexivity..|by repeat constructor].
Defined.

(** A second boot keeps the pauses of the first: with 1000 seconds paused before it,
    600 seconds after the second [begin_cold_start] the wait still reads zero. *)
Lemma restart_keeps_pauses :
  let mono := fun n => nth n [of_Z 0; of_Z 1000; of_Z 1000; of_Z 1600] fzero in
  let g := runs (gate_step default_cold_start_config mono) gate_init
             [CallReadiness false; CallReadiness true; boot_leg] in
  (elapsed_seconds mono g).1 = fzero.
Proof. vm_compute. reflexivity. Qed.

(** Tapes that agree hide a stale feed from an evaluation: a verified leg stays
    verified, while the same feed with differing tapes demotes it. *)
Lemma aligned_stale_feed_keeps_entries :
  let g := runs (gate_step default_cold_start_config minute_clock) gate_init
             [boot_leg; verify_leg 1000001000000000; verify_leg 2000000000000000] in
  (blocks_entry_signals "leg" g).1 = false /\
  let g' := gate_step default_cold_start_config minute_clock g
              (CallEvaluate "leg" "15Min" false None live_stream true false 2000000000000000) in
  (blocks_entry_signals "leg" g').1 = true.
Proof. vm_compute. split; reflexivity. Qed.
