(* ===== verification/Capital.v ===== *)
(** * Capital: the reservation ledger and the sizing authority

    [src/engine/reserved_capital_ledger.py] (class [ReservedCapitalLedger]): the
    buying power the legs of one cycle have claimed; and
    [src/engine/sizing_authority.py]: the composed position cap and risk budget. *)

From stdpp Require Import base gmap strings list.
From Stdlib Require Import ZArith Lia.
From S2P Require Import Prelude PyFloat Models.

(** ** The ledger *)

Record ReservedCapitalLedger := mkLedger {
  snapshot : option Account;
  reserved_total : float;
  reserved_by_strategy : gmap string float
}.

Definition ledger_init : ReservedCapitalLedger := mkLedger None fzero ∅.

Definition begin_cycle (account : Account) (l : ReservedCapitalLedger) : ReservedCapitalLedger :=
  mkLedger (Some account) fzero ∅.

Definition available_buying_power (l : ReservedCapitalLedger) : float :=
  match snapshot l with
  | None => fzero
  | Some a => py_max (fsub (buying_power a) (reserved_total l)) fzero
  end.

Definition available_account (l : ReservedCapitalLedger) : Account :=
  match snapshot l with
  | None => mkAccount fzero fzero fzero
  | Some a => mkAccount (equity a) (py_max (fsub (cash a) (reserved_total l)) fzero)
                (available_buying_power l)
  end.

Definition own_reservation (sid : string) (l : ReservedCapitalLedger) : float :=
  default fzero (reserved_by_strategy l !! sid).

Definition execution_account_for (sid : string) (l : ReservedCapitalLedger) : Account :=
  match snapshot l with
  | None => available_account l
  | Some a =>
      let other := py_max (fsub (reserved_total l) (own_reservation sid l)) fzero in
      mkAccount (equity a) (py_max (fsub (cash a) other) fzero) (py_max (fsub (buying_power a) other) fzero)
  end.

(** The ledger with the strategy's earlier claim handed back, as [reserve] prices
    the new one. *)
Definition without_own (sid : string) (l : ReservedCapitalLedger) : ReservedCapitalLedger :=
  mkLedger (snapshot l) (py_max (fsub (reserved_total l) (own_reservation sid l)) fzero)
    (reserved_by_strategy l).

Definition reserve (sid : string) (amount : float) (l : ReservedCapitalLedger)
    : float * ReservedCapitalLedger :=
  match snapshot l with
  | None => (fzero, l)
  | Some a =>
      let l1 := without_own sid l in
      let reserved := py_min (py_max amount fzero) (available_buying_power l1) in
      (reserved, mkLedger (snapshot l) (fadd (reserved_total l1) reserved)
                   (<[sid := reserved]> (reserved_by_strategy l)))
  end.

Definition release (sid : string) (l : ReservedCapitalLedger) : float * ReservedCapitalLedger :=
  let released := own_reservation sid l in
  (released, mkLedger (snapshot l) (py_max (fsub (reserved_total l) released) fzero)
               (delete sid (reserved_by_strategy l))).

Definition release_all (l : ReservedCapitalLedger) : ReservedCapitalLedger :=
  mkLedger (snapshot l) fzero ∅.

Definition sync_from_broker (account : Account) (sid : option string) (l : ReservedCapitalLedger)
    : ReservedCapitalLedger :=
  let l := mkLedger (Some account) (reserved_total l) (reserved_by_strategy l) in
  match sid with
  | Some sid => (release sid l).2
  | None => mkLedger (snapshot l) fzero ∅
  end.

(** ** The sizing authority *)

Record CapContext := mkCapContext {
  base_cap : float; max_position_pct : float; safe_mode : bool;
  quality_multiplier : float; parity_multiplier : float; corr_shutter_multiplier : float;
  portfolio_throttle : float; vol_size_scalar : float;
  thin_liquidity_active : bool; thin_liquidity_mult : float
}.

Record BudgetContext := mkBudgetContext {
  pad_leg_budget : float; governor_corr_clamp : float; governor_cold_start_clamp : float;
  lld_watch_mult : float;
  exit_only : bool; signal_conflict_block : bool; leg_disabled : bool; breaker_halt : bool
}.

Record SizingDecision := mkSizing {
  final_cap : float; risk_budget_fraction : float; zeroed_by : option string
}.

(** The cap before the multipliers that follow the clamp. *)
Definition clamped_cap (c : CapContext) : float :=
  py_max fzero (py_min (max_position_pct c)
    (fmul (fmul (fmul (fmul (base_cap c) (quality_multiplier c)) (parity_multiplier c))
       (corr_shutter_multiplier c)) (portfolio_throttle c))).

Definition composed_final_cap (c : CapContext) : float :=
  if safe_mode c then fzero else
  let cap := fmul (clamped_cap c) (vol_size_scalar c) in
  if thin_liquidity_active c then fmul cap (thin_liquidity_mult c) else cap.

Definition budget_flags (b : BudgetContext) : list (bool * string) :=
  [(breaker_halt b, "breaker_halt"); (exit_only b, "exit_only");
   (leg_disabled b, "leg_disabled"); (signal_conflict_block b, "signal_conflict")].

Definition composed_risk_budget_fraction (b : BudgetContext) : float * option string :=
  match List.find fst (budget_flags b) with
  | Some (_, name) => (fzero, Some name)
  | None => (fmul (fmul (fmul (pad_leg_budget b) (governor_corr_clamp b)) (governor_cold_start_clamp b))
               (lld_watch_mult b), None)
  end.

Definition composed_sizing (c : CapContext) (b : BudgetContext) : SizingDecision :=
  let '(frac, zeroed) := composed_risk_budget_fraction b in
  mkSizing (composed_final_cap c) frac zeroed.

(** ** Properties *)

Lemma py_max_zero_ge x : fleb fzero (py_max x fzero) = true \/ is_nan x = true.
Proof. unfold py_max. destruct (fltb x fzero) eqn:E; [by left|]. destruct (is_nan x) eqn:N; [by right|left]. forder. Qed.

Lemma py_max_nan_first x y : is_nan x = true -> py_max x y = x.
Proof. intros H. unfold py_max. by rewrite fltb_nan_l. Qed.

(** A reservation never over-commits: when the amounts are numbers, [reserve]
    returns at least zero, at most what was asked (or zero) and at most the buying
    power left once the strategy's own earlier claim is handed back; it is recorded
    as the strategy's claim and added to the total, no other strategy's claim moves,
    and a release returns exactly that amount. *)
Theorem reserve_within_available sid amount l a :
  snapshot l = Some a -> is_nan amount = false -> is_nan (available_buying_power (without_own sid l)) = false ->
  let '(r, l') := reserve sid amount l in
  fleb fzero r = true /\ fleb r (py_max amount fzero) = true /\
  fleb r (available_buying_power (without_own sid l)) = true /\
  reserved_total l' = fadd (reserved_total (without_own sid l)) r /\
  (forall other, other <> sid -> reserved_by_strategy l' !! other = reserved_by_strategy l !! other) /\
  (release sid l').1 = r /\ snapshot l' = snapshot l.
Proof.
  intros Hs Ha Hn. unfold reserve. rewrite Hs. cbv zeta.
  set (avail := available_buying_power (without_own sid l)) in *.
  set (want := py_max amount fzero).
  assert (fleb fzero want = true) as Hw.
  { destruct (py_max_zero_ge amount) as [|]; [done|congruence]. }
  assert (is_nan want = false) as Hwn by (by apply py_max_nan).
  assert (fleb fzero avail = true) as Hav.
  { unfold avail, available_buying_power. cbn [snapshot without_own]. rewrite Hs.
    destruct (py_max_zero_ge (fsub (buying_power a) (reserved_total (without_own sid l)))) as [|Hx]; [done|].
    exfalso. unfold avail, available_buying_power in Hn. cbn [snapshot without_own] in Hn. rewrite Hs in Hn.
    rewrite py_max_nan_first in Hn by done. congruence. }
  split_and!.
  - unfold py_min. by destruct (fltb avail want).
  - by apply py_min_le_l.
  - by apply py_min_le_r.
  - done.
  - intros other Ho. cbn. by rewrite lookup_insert_ne.
  - unfold release, own_reservation. cbn. by rewrite lookup_insert_eq.
  - done.
Qed.

Definition cycle_open : ReservedCapitalLedger :=
  begin_cycle (mkAccount (of_Z 1000) (of_Z 800) (of_Z 1000)) ledger_init.

Lemma reserve_within_available_witness :
  let l := (reserve "leg_a" (of_Z 700) cycle_open).2 in
  (reserve "leg_b" (of_Z 500) l).1 = of_Z 300 /\
  fleb (reserve "leg_b" (of_Z 500) l).1 (available_buying_power (without_own "leg_b" l)) = true.
Proof.
  split; [vm_compute; reflexivity|].
  pose proof (reserve_within_available "leg_b" (of_Z 500) (reserve "leg_a" (of_Z 700) cycle_open).2
    (mkAccount (of_Z 1000) (of_Z 800) (of_Z 1000)) eq_refl eq_refl ltac:(vm_compute; reflexivity)) as H.
  destruct (reserve "leg_b" (of_Z 500) (reserve "leg_a" (of_Z 700) cycle_open).2) as [r l'].
  exact (proj1 (proj2 (proj2 H))).
Defined.

(** The composed sizing: every hard zero wins, in the order breaker, exit-only,
    disabled leg, signal conflict, and names itself; safe mode zeroes the cap; and
    otherwise the cap before the post-clamp multipliers lies between zero and the
    maximal position fraction. *)
Theorem composed_sizing_zeros_and_clamp c b :
  let d := composed_sizing c b in
  (zeroed_by d <> None <-> breaker_halt b || exit_only b || leg_disabled b || signal_conflict_block b = true) /\
  (zeroed_by d <> None -> risk_budget_fraction d = fzero) /\
  (forall n, zeroed_by d = Some n ->
     exists pre post, budget_flags b = pre ++ (true, n) :: post /\ Forall (fun f => f.1 = false) pre) /\
  (safe_mode c = true -> final_cap d = fzero) /\
  (safe_mode c = false -> final_cap d =
     (if thin_liquidity_active c then fmul (fmul (clamped_cap c) (vol_size_scalar c)) (thin_liquidity_mult c)
      else fmul (clamped_cap c) (vol_size_scalar c)) /\
     fleb fzero (clamped_cap c) = true /\
     (fleb fzero (max_position_pct c) = true -> fleb (clamped_cap c) (max_position_pct c) = true)).
Proof.
  unfold composed_sizing, composed_risk_budget_fraction, composed_final_cap, budget_flags.
  destruct c as [bc mp sm q p cs pt vs ta tm], b as [pl gc gs lw eo sc ld bh]. cbn.
  assert (forall x, fleb fzero (py_max fzero x) = true) as Hz.
  { intros x. unfold py_max. destruct (fltb fzero x) eqn:E; [by apply fltb_fleb|done]. }
  assert (forall m x, fleb fzero m = true -> fleb (py_max fzero (py_min m x)) m = true) as Hc.
  { intros m x Hm. unfold py_max, py_min.
    destruct (fltb x m) eqn:E1; destruct (fltb fzero _) eqn:E2; try done; forder. }
  split_and!.
  - by destruct bh, eo, ld, sc.
  - by destruct bh, eo, ld, sc.
  - intros n Hn. destruct bh; [simplify_eq/=; by exists [], [(eo, "exit_only"); (ld, "leg_disabled"); (sc, "signal_conflict")]|].
    destruct eo; [simplify_eq/=; exists [(false, "breaker_halt")], [(ld, "leg_disabled"); (sc, "signal_conflict")]; by repeat constructor|].
    destruct ld; [simplify_eq/=; exists [(false, "breaker_halt"); (false, "exit_only")], [(sc, "signal_conflict")]; by repeat constructor|].
    destruct sc; [simplify_eq/=; exists [(false, "breaker_halt"); (false, "exit_only"); (false, "leg_disabled")], []; by repeat constructor|done].
  - intros ->. by destruct bh, eo, ld, sc.
  - intros ->. split_and!; [by destruct bh, eo, ld, sc|apply Hz|apply Hc].
Qed.

(** The multipliers applied after the clamp can exceed it. *)
Lemma post_clamp_bypass :
  let c := mkCapContext (of_Z 1) (lit 1 1) false fone fone fone fone (lit 125 2) false (lit 7 1) in
  fltb (max_position_pct c) (composed_final_cap c) = true.
Proof. vm_compute. reflexivity. Qed.
