(* ===== verification/RollingWindow.v ===== *)
(** * Rolling bar window

    [src/core/rolling_window.py]: closed bars in a bounded deque, mirrored field by
    field in ring buffers for the indicators, and the forming bar held beside them.
    [RollingWindow] is the object; a numpy buffer is the list of its cells. The
    abstract window of the theorems is the list of closed bars alone. *)

From stdpp Require Import base list strings.
From Stdlib Require Import ZArith Lia Sorted.
From S2P Require Import Prelude PyFloat Models.

(** ** The object *)

Record RollingWindow := mkWindow {
  rw_maxlen : nat;
  rw_label : string;
  rw_bars : list Bar;
  rw_last_ts : option Z;
  rw_count : nat;
  rw_head : nat;
  rw_opens : list float;
  rw_highs : list float;
  rw_lows : list float;
  rw_closes : list float;
  rw_volumes : list float;
  rw_offset : float;
  rw_forming : option Bar;
  rw_last_reject_log : float
}.

Definition zeros (n : nat) : list float := replicate n fzero.

Definition window_init (maxlen : Z) (label : string) : result string RollingWindow :=
  if (maxlen <=? 0)%Z then Raise "ValueError: maxlen must be positive" else
  let n := Z.to_nat maxlen in
  Ok (mkWindow n label [] None 0 0 (zeros n) (zeros n) (zeros n) (zeros n) (zeros n)
        fzero None fzero).

(** [l[-1] = x] on a list or a deque with at least one item. *)
Definition replace_last {A} (l : list A) (x : A) : list A := <[length l - 1 := x]> l.

Definition set_ring (f : list float -> float -> list float) (b : Bar) (w : RollingWindow)
    : RollingWindow :=
  mkWindow (rw_maxlen w) (rw_label w) (rw_bars w) (rw_last_ts w) (rw_count w) (rw_head w)
    (f (rw_opens w) (bar_open b)) (f (rw_highs w) (bar_high b)) (f (rw_lows w) (bar_low b))
    (f (rw_closes w) (bar_close b)) (f (rw_volumes w) (bar_volume b))
    (rw_offset w) (rw_forming w) (rw_last_reject_log w).

Definition set_counters (count head : nat) (w : RollingWindow) : RollingWindow :=
  mkWindow (rw_maxlen w) (rw_label w) (rw_bars w) (rw_last_ts w) count head
    (rw_opens w) (rw_highs w) (rw_lows w) (rw_closes w) (rw_volumes w)
    (rw_offset w) (rw_forming w) (rw_last_reject_log w).

Definition set_bars (bars : list Bar) (ts : option Z) (w : RollingWindow) : RollingWindow :=
  mkWindow (rw_maxlen w) (rw_label w) bars ts (rw_count w) (rw_head w)
    (rw_opens w) (rw_highs w) (rw_lows w) (rw_closes w) (rw_volumes w)
    (rw_offset w) (rw_forming w) (rw_last_reject_log w).

Definition set_forming_slot (f : option Bar) (w : RollingWindow) : RollingWindow :=
  mkWindow (rw_maxlen w) (rw_label w) (rw_bars w) (rw_last_ts w) (rw_count w) (rw_head w)
    (rw_opens w) (rw_highs w) (rw_lows w) (rw_closes w) (rw_volumes w)
    (rw_offset w) f (rw_last_reject_log w).

(** ** Writing *)

Definition REJECT_LOG_MIN_INTERVAL_S : float := Eval vm_compute in lit 30 0.

(** Returns whether the rejection is logged, with the reason. *)
Definition note_rejection (now : float) (reason : string) (w : RollingWindow)
    : option string * RollingWindow :=
  if fltb (fsub now (rw_last_reject_log w)) REJECT_LOG_MIN_INTERVAL_S then (None, w) else
  (Some reason,
   mkWindow (rw_maxlen w) (rw_label w) (rw_bars w) (rw_last_ts w) (rw_count w) (rw_head w)
     (rw_opens w) (rw_highs w) (rw_lows w) (rw_closes w) (rw_volumes w)
     (rw_offset w) (rw_forming w) now).

Definition write_bar_slot (b : Bar) (w : RollingWindow) : RollingWindow :=
  let idx := rw_head w in
  set_counters (min (rw_count w + 1) (rw_maxlen w)) ((idx + 1) mod rw_maxlen w)
    (set_ring (fun buf v => <[idx := v]> buf) b w).

(** Python's [%] of a negative number is in range: [(0 - 1) % n] is [n - 1]. *)
Definition rewrite_latest (b : Bar) (w : RollingWindow) : RollingWindow :=
  if bool_decide (rw_count w = 0) then w else
  let latest_idx := (rw_head w + (rw_maxlen w - 1)) mod rw_maxlen w in
  set_bars (replace_last (rw_bars w) b) (Some (bar_timestamp b))
    (set_ring (fun buf v => <[latest_idx := v]> buf) b w).

Definition push_bar (b : Bar) (w : RollingWindow) : RollingWindow :=
  set_bars (deque_append (rw_maxlen w) (rw_bars w) b) (Some (bar_timestamp b))
    (write_bar_slot b w).

Definition append (now : float) (b : Bar) (w : RollingWindow) : bool * RollingWindow :=
  match rw_last_ts w with
  | Some ts =>
      if (bar_timestamp b <=? ts)%Z then
        (false, (note_rejection now
                   (if (bar_timestamp b =? ts)%Z then "duplicate" else "stale_or_out_of_order") w).2)
      else (true, push_bar b w)
  | None => (true, push_bar b w)
  end.

(** [self._bars[-1]] of an empty deque raises; a window with a count has bars. *)
Definition upsert_bar (now : float) (b : Bar) (w : RollingWindow)
    : result string string * RollingWindow :=
  if bool_decide (rw_count w = 0) then (Ok "appended", push_bar b w) else
  match last (rw_bars w) with
  | None => (Raise "IndexError", w)
  | Some latest =>
      if (bar_timestamp b =? bar_timestamp latest)%Z then (Ok "updated", rewrite_latest b w)
      else if (bar_timestamp latest <? bar_timestamp b)%Z then
        let r := append now b w in (Ok (if r.1 then "appended" else "ignored"), r.2)
      else (Ok "ignored", (note_rejection now "out_of_order_before_latest" w).2)
  end.

Definition set_forming (b : Bar) (w : RollingWindow) : string * RollingWindow :=
  let covered := match rw_last_ts w with
                 | Some ts => (bar_timestamp b <=? ts)%Z | None => false end in
  let older := match rw_forming w with
               | Some f => (bar_timestamp b <? bar_timestamp f)%Z | None => false end in
  if covered then ("ignored", w)
  else if older then ("ignored", w)
  else ("set", set_forming_slot (Some b) w).

Definition clear (w : RollingWindow) : RollingWindow :=
  set_forming_slot None (set_counters 0 0 (set_bars [] None w)).

(** [buf[:active] += offset]. *)
Definition shift_prefix (active : nat) (offset : float) (buf : list float) : list float :=
  map (fun x => fadd x offset) (take active buf) ++ drop active buf.

(** [dataclasses.replace] of the four prices. *)
Definition shift_bar (offset : float) (b : Bar) : Bar :=
  mkBar (bar_timestamp b) (fadd (bar_open b) offset) (fadd (bar_high b) offset)
    (fadd (bar_low b) offset) (fadd (bar_close b) offset) (bar_volume b) (bar_symbol b).

Definition apply_corporate_action_offset (offset : float) (w : RollingWindow)
    : bool * RollingWindow :=
  if fleb offset fzero || bool_decide (rw_count w = 0) || fltb fzero (rw_offset w)
  then (false, w) else
  let active := if bool_decide (rw_count w < rw_maxlen w) then rw_count w else rw_maxlen w in
  let shift := fun buf => if bool_decide (rw_count w < rw_maxlen w)
                          then shift_prefix active offset buf
                          else map (fun x => fadd x offset) buf in
  (true,
   mkWindow (rw_maxlen w) (rw_label w) (map (shift_bar offset) (rw_bars w)) (rw_last_ts w)
     (rw_count w) (rw_head w)
     (shift (rw_opens w)) (shift (rw_highs w)) (shift (rw_lows w)) (shift (rw_closes w))
     (rw_volumes w) offset (rw_forming w) (rw_last_reject_log w)).

(** ** Reading *)

Definition is_ready (min_bars : Z) (w : RollingWindow) : bool :=
  (min_bars <=? Z.of_nat (rw_count w))%Z.

Definition latest (w : RollingWindow) : option Bar := last (rw_bars w).

Definition forming_bar (w : RollingWindow) : option Bar :=
  match rw_forming w with
  | None => None
  | Some f =>
      match rw_last_ts w with
      | Some ts => if (bar_timestamp f <=? ts)%Z then None else Some f
      | None => Some f
      end
  end.

Definition latest_including_forming (w : RollingWindow) : option Bar :=
  match forming_bar w with Some f => Some f | None => latest w end.

Definition chronological_bars (w : RollingWindow) : list Bar := rw_bars w.

Definition ordered (w : RollingWindow) (buf : list float) : list float :=
  if bool_decide (rw_count w < rw_maxlen w) then take (rw_count w) buf
  else drop (rw_head w) buf ++ take (rw_head w) buf.

Definition opens_array (w : RollingWindow) : list float := ordered w (rw_opens w).
Definition highs_array (w : RollingWindow) : list float := ordered w (rw_highs w).
Definition lows_array (w : RollingWindow) : list float := ordered w (rw_lows w).
Definition closes_array (w : RollingWindow) : list float := ordered w (rw_closes w).
Definition volumes_array (w : RollingWindow) : list float := ordered w (rw_volumes w).

(** [full[-period:]]: a period of zero or less is not a tail. *)
Definition tail_closes (period : Z) (w : RollingWindow) : list float :=
  let full := closes_array w in
  if (Z.of_nat (length full) <=? period)%Z then full
  else if (0 <? period)%Z then drop (length full - Z.to_nat period) full
  else drop (Z.to_nat (- period)) full.

(** ** The abstract window

    What a client is promised: a list of closed bars with strictly increasing
    timestamps, at most [n] of them, and the offset that was applied to it. *)

Inductive window_op :=
  | OpAppend (now : float) (b : Bar)
  | OpUpsert (now : float) (b : Bar)
  | OpForming (b : Bar)
  | OpOffset (offset : float)
  | OpClear.

Definition window_step (w : RollingWindow) (op : window_op) : RollingWindow :=
  match op with
  | OpAppend now b => (append now b w).2
  | OpUpsert now b => (upsert_bar now b w).2
  | OpForming b => (set_forming b w).2
  | OpOffset o => (apply_corporate_action_offset o w).2
  | OpClear => clear w
  end.

Definition is_forming_op (op : window_op) : bool :=
  match op with OpForming _ => true | _ => false end.

Definition closed_bars : Type := (list Bar * float)%type.

Definition newer_than (bars : list Bar) (b : Bar) : bool :=
  match last bars with
  | None => true
  | Some l => (bar_timestamp l <? bar_timestamp b)%Z
  end.

Definition closed_step (n : nat) (a : closed_bars) (op : window_op) : closed_bars :=
  let '(bars, offset) := a in
  match op with
  | OpAppend _ b => (if newer_than bars b then deque_append n bars b else bars, offset)
  | OpUpsert _ b =>
      (match last bars with
       | Some l => if (bar_timestamp b =? bar_timestamp l)%Z then replace_last bars b
                   else if newer_than bars b then deque_append n bars b else bars
       | None => deque_append n bars b
       end, offset)
  | OpForming _ => (bars, offset)
  | OpOffset o =>
      if fleb o fzero || bool_decide (bars = []) || fltb fzero offset then (bars, offset)
      else (map (shift_bar o) bars, o)
  | OpClear => ([], offset)
  end.

Definition window_abs (w : RollingWindow) : closed_bars := (rw_bars w, rw_offset w).

(** ** The ring

    A ring of [n] cells with [count] of them written represents a list; [ring_ok]
    says which. The five buffers share the counters. *)

Section Ring.
Context {A : Type}.
Implicit Types (buf l : list A) (n count head : nat).

Definition ring_read n count head buf : list A :=
  if bool_decide (count < n) then take count buf else drop head buf ++ take head buf.

Definition ring_ok n count head buf l : Prop :=
  length buf = n /\ ring_read n count head buf = l.

Definition counters_ok n count head : Prop :=
  0 < n /\ count <= n /\ head < n /\ (count < n -> head = count).

Lemma deque_append_short n l x : length l < n -> deque_append n l x = l ++ [x].
Proof. intros ?. unfold deque_append. replace (S (length l) - n) with 0 by lia. done. Qed.

Lemma deque_append_full n l x : length l = n -> 0 < n -> deque_append n l x = tail l ++ [x].
Proof.
  intros <- ?. unfold deque_append. replace (S (length l) - length l) with 1 by lia.
  destruct l; simpl in *; [lia|done].
Qed.

Lemma deque_append_length n l x :
  length l <= n -> 0 < n -> length (deque_append n l x) = min (length l + 1) n.
Proof. intros. unfold deque_append. rewrite length_drop, length_app. simpl. lia. Qed.

Lemma ring_length n count head buf l :
  counters_ok n count head -> ring_ok n count head buf l -> length l = count.
Proof.
  intros (? & ? & ? & ?) [<- <-]. unfold ring_read.
  case_bool_decide; [rewrite length_take; lia|].
  rewrite length_app, length_drop, length_take. lia.
Qed.

Lemma counters_next n count head :
  counters_ok n count head -> counters_ok n (min (count + 1) n) ((head + 1) mod n).
Proof.
  intros (? & ? & ? & Hh). repeat split; [lia|lia|apply Nat.mod_upper_bound; lia|].
  intros ?. rewrite Hh by lia. rewrite Nat.mod_small; lia.
Qed.

Lemma take_insert_end buf i x : i < length buf -> take (S i) (<[i := x]> buf) = take i buf ++ [x].
Proof.
  intros Hi. erewrite take_S_r; [|apply list_lookup_insert_eq; done].
  rewrite take_insert_ge by lia. done.
Qed.

Lemma ring_write n count head buf l x :
  counters_ok n count head -> ring_ok n count head buf l ->
  ring_ok n (min (count + 1) n) ((head + 1) mod n) (<[head := x]> buf) (deque_append n l x).
Proof.
  intros Hc Hr. pose proof (ring_length _ _ _ _ _ Hc Hr) as Hl.
  destruct Hc as (? & ? & ? & Hh), Hr as [Hn Hr]. split; [by rewrite length_insert|].
  unfold ring_read in *. destruct (decide (count < n)) as [Hlt|Hge].
  - rewrite Hh in * by done. rewrite bool_decide_true in Hr by lia.
    rewrite deque_append_short by lia. subst l. case_bool_decide.
    + replace (count + 1) with (S count) in * by lia. rewrite Nat.min_l by lia.
      apply take_insert_end. lia.
    + assert (count + 1 = n) as -> by lia. rewrite Nat.Div0.mod_same. simpl.
      rewrite app_nil_r. rewrite <- (take_ge (<[count := x]> buf) (S count))
        by (rewrite length_insert; lia). apply take_insert_end. lia.
  - rewrite bool_decide_false in Hr by lia. rewrite bool_decide_false by lia.
    rewrite deque_append_full by lia. subst l.
    assert (exists y r, drop head buf = y :: r) as (y & r & Ed).
    { destruct (drop head buf) as [|y r] eqn:Ed; [|by eexists _, _].
      apply (f_equal length) in Ed. rewrite length_drop in Ed. simpl in Ed. lia. }
    assert (drop (S head) buf = r) as Er by (by rewrite <- Nat.add_1_r, <- drop_drop, Ed).
    rewrite insert_take_drop, Er, Ed by lia. simpl.
    assert (length (take head buf) = head) as Ht by (rewrite length_take; lia).
    destruct (decide (head + 1 = n)) as [E|].
    + rewrite E, Nat.Div0.mod_same. simpl. rewrite app_nil_r.
      assert (r = []) as -> by (rewrite <- Er; apply drop_ge; lia). done.
    + rewrite Nat.mod_small by lia.
      replace (head + 1) with (length (take head buf) + 1) by lia.
      rewrite drop_app_add, take_app_add. simpl. by rewrite drop_0, take_0, app_assoc.
Qed.

Lemma ring_rewrite n count head buf l x :
  counters_ok n count head -> ring_ok n count head buf l -> 0 < count ->
  ring_ok n count head (<[(head + (n - 1)) mod n := x]> buf) (replace_last l x).
Proof.
  intros Hc Hr Hpos. pose proof (ring_length _ _ _ _ _ Hc Hr) as Hl.
  destruct Hc as (? & ? & ? & Hh), Hr as [Hn Hr]. split; [by rewrite length_insert|].
  unfold replace_last. rewrite Hl. unfold ring_read in *.
  assert ((head + (n - 1)) mod n = if decide (head = 0) then n - 1 else head - 1) as ->.
  { destruct (decide (head = 0)) as [->|]; [apply Nat.mod_small; lia|].
    replace (head + (n - 1)) with (head - 1 + 1 * n) by lia.
    rewrite Nat.Div0.mod_add. apply Nat.mod_small. lia. }
  case_bool_decide.
  - rewrite Hh in * by done. rewrite decide_False by lia. subst l. apply take_insert_lt; lia.
  - subst l. destruct (decide (head = 0)) as [->|].
    + simpl. rewrite !app_nil_r. replace count with n by lia. done.
    + rewrite drop_insert_lt, take_insert_lt by lia.
      rewrite insert_app_r_alt by (rewrite length_drop; lia).
      rewrite length_drop. f_equal. f_equal. lia.
Qed.
End Ring.

Lemma map_deque_append {A B} (f : A -> B) n l x :
  map f (deque_append n l x) = deque_append n (map f l) (f x).
Proof. unfold deque_append. by rewrite <- skipn_map, map_app, length_map. Qed.

Lemma map_replace_last {A B} (f : A -> B) l x :
  map f (replace_last l x) = replace_last (map f l) (f x).
Proof. unfold replace_last. rewrite length_map. apply list_fmap_insert. Qed.

Lemma ring_shift n count head buf l o :
  counters_ok n count head -> ring_ok n count head buf l ->
  ring_ok n count head
    (if bool_decide (count < n)
     then shift_prefix (if bool_decide (count < n) then count else n) o buf
     else map (fun x => fadd x o) buf)
    (map (fun x => fadd x o) l).
Proof.
  intros (? & ? & ? & ?) [Hn <-]. unfold shift_prefix, ring_ok, ring_read.
  destruct (decide (count < n)).
  - rewrite !bool_decide_true by done. split.
    + rewrite length_app, length_map, length_take, length_drop. lia.
    + rewrite take_app_le by (rewrite length_map, length_take; lia).
      by rewrite firstn_map, take_take, Nat.min_id.
  - rewrite !bool_decide_false by done. split; [by rewrite length_map|].
    by rewrite map_app, skipn_map, firstn_map.
Qed.

(** ** Well-formed windows *)

Definition mirrors (w : RollingWindow) (buf : list float) (f : Bar -> float) : Prop :=
  ring_ok (rw_maxlen w) (rw_count w) (rw_head w) buf (map f (rw_bars w)).

Record window_ok (w : RollingWindow) : Prop := {
  ok_counters : counters_ok (rw_maxlen w) (rw_count w) (rw_head w);
  ok_opens : mirrors w (rw_opens w) bar_open;
  ok_highs : mirrors w (rw_highs w) bar_high;
  ok_lows : mirrors w (rw_lows w) bar_low;
  ok_closes : mirrors w (rw_closes w) bar_close;
  ok_volumes : mirrors w (rw_volumes w) bar_volume;
  ok_sorted : StronglySorted Z.lt (map bar_timestamp (rw_bars w));
  ok_last : rw_last_ts w = bar_timestamp <$> last (rw_bars w)
}.

Lemma ok_count w : window_ok w -> rw_count w = length (rw_bars w).
Proof.
  intros [Hc Ho _ _ _ _ _ _]. apply (ring_length _ _ _ _ _ Hc) in Ho.
  by rewrite length_map in Ho.
Qed.

Lemma sorted_deque_append n (l : list Z) x :
  StronglySorted Z.lt l -> (forall y, last l = Some y -> (y < x)%Z) ->
  StronglySorted Z.lt (deque_append n l x).
Proof.
  intros Hl Hx. unfold deque_append. generalize (S (length l) - n).
  assert (StronglySorted Z.lt (l ++ [x])) as Hs.
  { clear n. induction Hl as [|y l Hl IH Hy]; simpl; [by repeat constructor|].
    constructor.
    - apply IH. intros z Hz. apply Hx. by rewrite last_cons, Hz.
    - apply Forall_app. split; [done|]. constructor; [|done].
      destruct (last l) as [z|] eqn:E.
      + trans z; [|apply Hx; by rewrite last_cons, E].
        rewrite Forall_forall in Hy. apply Hy. by apply last_Some_elem_of.
      + apply Hx. by rewrite last_cons, E. }
  revert Hs. generalize (l ++ [x]). clear. intros l Hs k. revert k.
  induction Hs; intros [|k]; simpl; try constructor; auto.
Qed.

Lemma last_deque_append {A} n (l : list A) x : 0 < n -> last (deque_append n l x) = Some x.
Proof.
  intros ?. unfold deque_append. rewrite drop_app_le by lia. apply last_snoc.
Qed.

Lemma last_replace_last {A} (l : list A) x : l <> [] -> last (replace_last l x) = Some x.
Proof.
  intros Hl. unfold replace_last. rewrite last_lookup, length_insert.
  replace (Nat.pred (length l)) with (length l - 1) by lia.
  apply list_lookup_insert_eq. destruct l; simpl in *; [done|lia].
Qed.

Lemma last_map {A B} (f : A -> B) l : last (map f l) = f <$> last l.
Proof. apply fmap_last. Qed.

(** *** Each operation keeps the window well formed *)

Lemma push_bar_ok w b :
  window_ok w -> newer_than (rw_bars w) b = true -> window_ok (push_bar b w).
Proof.
  intros [Hc Ho Hh Hl Hcl Hv Hs Hla] Hnew. unfold newer_than in Hnew.
  split; unfold mirrors in *; simpl; try (rewrite map_deque_append; by apply ring_write).
  - by apply counters_next.
  - rewrite map_deque_append. apply sorted_deque_append; [done|].
    intros y. rewrite last_map. destruct (last (rw_bars w)); simpl; intros; [|done].
    simplify_eq. lia.
  - rewrite last_deque_append; [done|]. apply Hc.
Qed.

Lemma rewrite_latest_ok w b l :
  window_ok w -> last (rw_bars w) = Some l -> bar_timestamp b = bar_timestamp l ->
  window_ok (rewrite_latest b w) /\ rw_bars (rewrite_latest b w) = replace_last (rw_bars w) b
  /\ rw_maxlen (rewrite_latest b w) = rw_maxlen w
  /\ rw_offset (rewrite_latest b w) = rw_offset w.
Proof.
  intros Hok Hlast Hts. pose proof (ok_count _ Hok) as Hn.
  assert (rw_bars w <> []) as Hne by (by intros E; rewrite E in Hlast).
  assert (0 < rw_count w) by (destruct (rw_bars w); simpl in *; [done|lia]).
  unfold rewrite_latest. rewrite bool_decide_false by lia. split; [|done].
  destruct Hok as [Hc Ho Hh Hl Hcl Hv Hs Hla].
  split; unfold mirrors in *; simpl; try (rewrite map_replace_last; by apply ring_rewrite).
  - done.
  - rewrite map_replace_last. unfold replace_last. rewrite list_insert_id; [done|].
    rewrite last_lookup in Hlast.
    replace (Nat.pred (length (rw_bars w))) with (length (rw_bars w) - 1) in Hlast by lia.
    rewrite length_map. by rewrite list_lookup_fmap, Hlast, Hts.
  - by rewrite last_replace_last.
Qed.

(** An operation refines its abstract step: it keeps the window well formed and
    commutes with the abstraction. *)
Definition refines (w w' : RollingWindow) (a : closed_bars) : Prop :=
  window_ok w' /\ window_abs w' = a /\ rw_maxlen w' = rw_maxlen w.

Lemma note_rejection_refines now r w :
  window_ok w -> refines w (note_rejection now r w).2 (window_abs w).
Proof.
  intros Hok. unfold note_rejection. destruct (fltb _ _); [done|]. by destruct Hok.
Qed.

Lemma push_bar_refines b w :
  window_ok w -> newer_than (rw_bars w) b = true ->
  refines w (push_bar b w) (deque_append (rw_maxlen w) (rw_bars w) b, rw_offset w).
Proof. intros Hok Hn. split; [by apply push_bar_ok|done]. Qed.

Lemma append_refines now b w :
  window_ok w ->
  refines w (append now b w).2
    (if newer_than (rw_bars w) b then deque_append (rw_maxlen w) (rw_bars w) b else rw_bars w,
     rw_offset w)
  /\ (append now b w).1 = newer_than (rw_bars w) b.
Proof.
  intros Hok. pose proof (ok_last _ Hok) as Hl. unfold append. rewrite Hl.
  pose proof (push_bar_refines b w Hok) as Hp. unfold newer_than in *.
  destruct (last (rw_bars w)) as [l|]; simpl; [|split; [by apply Hp|done]].
  destruct (Z.leb_spec (bar_timestamp b) (bar_timestamp l)) as [Hle|Hgt].
  - rewrite (proj2 (Z.ltb_ge _ _)) by done. split; [|done]. by apply note_rejection_refines.
  - rewrite (proj2 (Z.ltb_lt _ _)) in * by lia. split; [by apply Hp|done].
Qed.

Lemma upsert_refines now b w :
  window_ok w ->
  refines w (upsert_bar now b w).2 (closed_step (rw_maxlen w) (window_abs w) (OpUpsert now b)).
Proof.
  intros Hok. pose proof (ok_count _ Hok) as Hn. unfold upsert_bar. simpl.
  destruct (rw_bars w) as [|x bs] eqn:Hb; simpl in Hn.
  - rewrite bool_decide_true by done. simpl. rewrite <- Hb.
    apply push_bar_refines; [done|]. by rewrite Hb.
  - rewrite bool_decide_false by lia. rewrite <- Hb. clear Hn.
    destruct (last (rw_bars w)) as [l|] eqn:Hl; [|by rewrite Hb, last_cons in Hl; destruct (last bs)].
    destruct (Z.eqb_spec (bar_timestamp b) (bar_timestamp l)) as [E|Hne].
    + simpl. destruct (rewrite_latest_ok w b l Hok Hl E) as (? & H1 & ? & H2).
      split; [done|]. split; [|done]. unfold window_abs. by rewrite H1, H2.
    + destruct (Z.ltb_spec (bar_timestamp l) (bar_timestamp b)) as [Hlt|Hge]; simpl.
      * apply append_refines, Hok.
      * unfold newer_than. rewrite Hl, (proj2 (Z.ltb_ge _ _)) by lia.
        by apply note_rejection_refines.
Qed.

Lemma set_forming_refines b w : window_ok w -> refines w (set_forming b w).2 (window_abs w).
Proof. intros Hok. unfold set_forming. split_matches; by destruct Hok. Qed.

Lemma empty_window_ok w :
  0 < rw_maxlen w -> rw_bars w = [] -> rw_last_ts w = None -> rw_count w = 0 -> rw_head w = 0 ->
  Forall (fun buf => length buf = rw_maxlen w)
    [rw_opens w; rw_highs w; rw_lows w; rw_closes w; rw_volumes w] -> window_ok w.
Proof.
  intros Hpos Hb Ht Hc Hh Hbufs.
  assert (forall buf f, length buf = rw_maxlen w -> mirrors w buf f) as Hm.
  { intros buf f Hlen. split; [done|]. unfold ring_read. rewrite Hb, Hc.
    by rewrite bool_decide_true by lia. }
  rewrite !Forall_cons in Hbufs. destruct Hbufs as (? & ? & ? & ? & ? & _).
  split; try (by apply Hm).
  - unfold counters_ok. lia.
  - rewrite Hb. apply SSorted_nil.
  - by rewrite Ht, Hb.
Qed.

Lemma clear_refines w : window_ok w -> refines w (clear w) ([], rw_offset w).
Proof.
  intros [(? & ? & ? & ?) [] [] [] [] [] _ _]. split; [|done].
  apply empty_window_ok; try done. by rewrite !Forall_cons.
Qed.

Lemma offset_refines o w :
  window_ok w ->
  refines w (apply_corporate_action_offset o w).2
    (closed_step (rw_maxlen w) (window_abs w) (OpOffset o)).
Proof.
  intros Hok. pose proof (ok_count _ Hok) as Hn. unfold apply_corporate_action_offset. simpl.
  assert (bool_decide (rw_count w = 0) = bool_decide (rw_bars w = [])) as ->.
  { apply bool_decide_ext. rewrite Hn. apply length_zero_iff_nil. }
  destruct (_ || _ || _); [done|]. destruct Hok as [Hc Ho Hh Hl Hcl Hv Hs Hla].
  assert (forall buf f, mirrors w buf f ->
    ring_ok (rw_maxlen w) (rw_count w) (rw_head w)
      (if bool_decide (rw_count w < rw_maxlen w)
       then shift_prefix (if bool_decide (rw_count w < rw_maxlen w) then rw_count w else rw_maxlen w)
              o buf
       else map (fun x => fadd x o) buf)
      (map (fun b => fadd (f b) o) (rw_bars w))) as Hshift.
  { intros buf f Hm. rewrite <- (map_map f (fun x => fadd x o)). by apply ring_shift. }
  split; [|done]. split; unfold mirrors; simpl; rewrite ?map_map; simpl;
    try done; try (by apply (Hshift _ _)).
  rewrite Hla, last_map. by destruct (last (rw_bars w)).
Qed.

Lemma window_step_refines w op :
  window_ok w -> refines w (window_step w op) (closed_step (rw_maxlen w) (window_abs w) op).
Proof.
  intros Hok. destruct op as [now b|now b|b|o|].
  - apply append_refines, Hok.
  - by apply upsert_refines.
  - by apply set_forming_refines.
  - by apply offset_refines.
  - by apply clear_refines.
Qed.

Lemma window_init_ok maxlen label w : window_init maxlen label = Ok w -> window_ok w.
Proof.
  unfold window_init. destruct (Z.leb_spec maxlen 0); [done|]. intros. simplify_eq.
  apply empty_window_ok; try done; simpl; [lia|].
  rewrite !Forall_cons. unfold zeros. by rewrite !length_replicate.
Qed.

Lemma window_runs_refine w ops :
  window_ok w ->
  refines w (runs window_step w ops) (runs (closed_step (rw_maxlen w)) (window_abs w) ops).
Proof.
  revert w. induction ops as [|op ops IH]; intros w Hok; [done|].
  rewrite !runs_cons. destruct (window_step_refines w op Hok) as (Hok' & Ha & Hm).
  destruct (IH _ Hok') as (? & Ha' & Hm'). rewrite Ha, Hm in Ha'. split; [done|].
  split; [done|congruence].
Qed.

Lemma closed_runs_skip_forming n a ops :
  runs (closed_step n) a ops = runs (closed_step n) a (List.filter (fun op => negb (is_forming_op op)) ops).
Proof.
  revert a. induction ops as [|op ops IH]; intros a; [done|].
  rewrite runs_cons, IH. by destruct op, a.
Qed.

(** ** Theorems *)

Definition numeric_views (w : RollingWindow) : list (list float) :=
  [opens_array w; highs_array w; lows_array w; closes_array w; volumes_array w].

Definition field_views (bars : list Bar) : list (list float) :=
  [map bar_open bars; map bar_high bars; map bar_low bars; map bar_close bars;
   map bar_volume bars].

Lemma views_of_ok w : window_ok w -> numeric_views w = field_views (rw_bars w).
Proof.
  intros [_ [_ Ho] [_ Hh] [_ Hl] [_ Hc] [_ Hv] _ _].
  unfold numeric_views, field_views, opens_array, highs_array, lows_array, closes_array,
    volumes_array, ordered. unfold ring_read in *. congruence.
Qed.

(** C34: after any history of appended, revised and forming bars, offsets and clears,
    the five arrays the indicators read are the fields of the closed bars of the
    abstract window, in order; that window has strictly increasing timestamps, at
    most [maxlen] bars, and no forming bar ever enters it: the same history without
    its forming bars gives the same one. *)
Theorem window_refines_bars maxlen label w0 ops :
  window_init maxlen label = Ok w0 ->
  let w := runs window_step w0 ops in
  let closed := runs (closed_step (Z.to_nat maxlen)) ([], fzero)
                  (List.filter (fun op => negb (is_forming_op op)) ops) in
  chronological_bars w = closed.1 /\
  rw_offset w = closed.2 /\
  numeric_views w = field_views closed.1 /\
  latest w = last closed.1 /\
  (forall k, is_ready k w = (k <=? Z.of_nat (length closed.1))%Z) /\
  (forall k, (0 < k)%Z ->
     tail_closes k w = drop (length closed.1 - Z.to_nat k) (map bar_close closed.1)) /\
  (Z.of_nat (length closed.1) <= maxlen)%Z /\
  StronglySorted Z.lt (map bar_timestamp closed.1).
Proof.
  intros Hinit w closed. pose proof (window_init_ok _ _ _ Hinit) as Hok0.
  destruct (window_runs_refine w0 ops Hok0) as (Hok & Habs & Hmax). fold w in Hok, Habs, Hmax.
  unfold window_init in Hinit. destruct (Z.leb_spec maxlen 0); [done|]. simplify_eq.
  rewrite closed_runs_skip_forming in Habs. cbn in Habs, Hmax.
  change (window_abs w = closed) in Habs. rewrite <- Habs.
  clearbody w. clear Habs closed. unfold chronological_bars, latest. simpl.
  pose proof (ok_count _ Hok) as Hn. pose proof (views_of_ok _ Hok) as Hviews.
  split_and!; try done.
  - intros k. unfold is_ready. by rewrite Hn.
  - intros k Hk. unfold tail_closes. injection Hviews as _ _ _ -> _. rewrite length_map.
    destruct (Z.leb_spec (Z.of_nat (length (rw_bars w))) k).
    + replace (_ - _) with 0 by lia. done.
    + by rewrite (proj2 (Z.ltb_lt _ _)).
  - rewrite <- Hn. destruct (ok_counters _ Hok) as (_ & ? & _). lia.
  - apply Hok.
Qed.

Definition bar_at (t : Z) (p : Z) : Bar :=
  mkBar t (of_Z p) (of_Z (p + 2)) (of_Z (p - 2)) (of_Z (p + 1)) (of_Z 100) "SPY".

Definition demo_ops : list window_op :=
  [OpAppend fzero (bar_at 1 10); OpForming (bar_at 2 11); OpUpsert fzero (bar_at 2 12);
   OpAppend fzero (bar_at 1 99); OpUpsert fzero (bar_at 3 13); OpUpsert fzero (bar_at 3 14);
   OpOffset (of_Z 5)].

Lemma window_refines_bars_witness :
  exists w0, window_init 2 "SPY:15Min" = Ok w0 /\
  closes_array (runs window_step w0 demo_ops) = [of_Z 18; of_Z 20] /\
  numeric_views (runs window_step w0 demo_ops)
  = field_views (runs (closed_step 2) ([], fzero)
      (List.filter (fun op => negb (is_forming_op op)) demo_ops)).1.
Proof.
  eexists. split; [reflexivity|]. split; [vm_compute; reflexivity|].
  eapply (window_refines_bars 2 "SPY:15Min" _ demo_ops). reflexivity.
Defined.

(** The forming bar, when there is one, is younger than every closed bar. *)
Lemma forming_is_live w f :
  window_ok w -> forming_bar w = Some f ->
  Forall (fun b => (bar_timestamp b < bar_timestamp f)%Z) (rw_bars w).
Proof.
  intros Hok Hf. unfold forming_bar in Hf. pose proof (ok_last _ Hok) as Hl.
  pose proof (ok_sorted _ Hok) as Hs. rewrite Hl in Hf.
  destruct (rw_forming w) as [g|]; [|done]. destruct (last (rw_bars w)) as [b|] eqn:Hb.
  - simpl in Hf. destruct (Z.leb_spec (bar_timestamp g) (bar_timestamp b)); [done|]. simplify_eq.
    apply last_Some in Hb as [bs Hbs]. rewrite Hbs in *. rewrite map_app in Hs. simpl in Hs.
    apply Forall_app. split; [|by repeat constructor]. clear Hl Hok Hbs.
    induction bs as [|x bs IH]; simpl in *; [constructor|]. inversion_clear Hs as [|? ? Hs' Hx].
    constructor; [|by apply IH]. apply Forall_app in Hx as [_ Hx]. inversion_clear Hx. lia.
  - apply last_None in Hb. rewrite Hb. constructor.
Qed.

(** [clear] does not forget that an offset was applied: a window that is cleared and
    seeded again with unadjusted history refuses every later offset. *)
Lemma offset_refused_ever_after w ops o :
  fltb fzero (rw_offset w) = true ->
  apply_corporate_action_offset o (runs window_step w ops)
  = (false, runs window_step w ops).
Proof.
  intros Ho. assert (fltb fzero (rw_offset (runs window_step w ops)) = true) as Hr.
  { apply (runs_invariant window_step (fun w => fltb fzero (rw_offset w) = true)); [done|].
    clear. intros w op Ho. destruct op; simpl; try done.
    - unfold append, note_rejection. by split_matches.
    - unfold upsert_bar, append, note_rejection, rewrite_latest. by split_matches.
    - unfold set_forming. by split_matches.
    - unfold apply_corporate_action_offset. by rewrite Ho, !orb_true_r. }
  unfold apply_corporate_action_offset. by rewrite Hr, !orb_true_r.
Qed.
