(* ===== verification/Correlation.v ===== *)
(** * Correlation of returns

    [compute_return_correlation] of [src/engine/portfolio_brain.py], which the portfolio brain and the
    risk governor share. numpy's functions are arguments. *)

From stdpp Require Import base list.
From Stdlib Require Import ZArith.
From S2P Require Import Prelude PyFloat.

Definition ONE_RISK_UNIT_CORRELATION : float := Eval vm_compute in lit 85 2.
Definition TINY_STD : float := Eval vm_compute in lit 1 12.

(** [np.diff]. *)
Fixpoint np_diff (l : list float) : list float :=
  match l with
  | x :: (y :: _) as r => fsub y x :: np_diff r
  | _ => []
  end.

(** [l[-n:]] for a positive [n]. *)
Definition tail_of {A} (n : nat) (l : list A) : list A := drop (length l - n) l.

Section Numpy.
Context (np_log : float -> float) (np_std : list float -> float)
  (np_corrcoef : list float -> list float -> float).

Definition compute_return_correlation (a b : list float) : float :=
  let lookback := 60 in
  if bool_decide (length a < lookback + 1) || bool_decide (length b < lookback + 1)
  then fzero else
  let ra := np_diff (map np_log (tail_of (lookback + 1) a)) in
  let rb := np_diff (map np_log (tail_of (lookback + 1) b)) in
  let n := min (length ra) (length rb) in
  if bool_decide (n < 5) then fzero else
  let ra := tail_of n ra in
  let rb := tail_of n rb in
  if fltb (np_std ra) TINY_STD || fltb (np_std rb) TINY_STD then fzero
  else np_corrcoef ra rb.
End Numpy.
