(* ===== verification/RiskGovernor.v ===== *)
(** * Portfolio risk governor and its stored state

    [src/engine/portfolio_risk_governor.py] (class [PortfolioRiskGovernor])
    and [src/persistence/portfolio_risk_state_store.py]. The price windows are those of
    [RollingWindow], their correlation is [Correlation]'s; numpy's logarithm,
    standard deviation and correlation are arguments. *)

From stdpp Require Import base gmap strings list.
From Stdlib Require Import ZArith Lia Ascii.
From S2P Require Import Prelude PyFloat Models Correlation ConfigHash RollingWindow.

(** ** Constants *)

Definition MAX_SAFE_CORRELATION : float := ONE_RISK_UNIT_CORRELATION.
Definition CORRELATION_CLAMP_MULTIPLIER : float := Eval vm_compute in lit 6 1.
Definition STRATEGY_MAX_DRAWDOWN : float := Eval vm_compute in lit 6 2.
Definition MIN_CORRELATION_SAMPLES : Z := 20.
Definition EQUITY_HISTORY_LIMIT : nat := 256.
Definition FORMULA_VERSION : string := "v-GV3-pnlcurve".

(** The fields of [StrategyConfig] the governor reads. *)
Record LegConfig := mkLegConfig {
  cfg_strategy_id : string;
  cfg_symbol : string;
  cfg_enabled : bool
}.

Record GovernorVerdict := mkVerdict {
  sizing_multipliers : gmap string float;
  exit_only_strategy_ids : gset string;
  correlation_pairs : list ((string * string) * float);
  strategy_drawdowns : gmap string float;
  cold_start_clamped_strategy_ids : gset string
}.

Record PortfolioRiskGovernor := mkGovernor {
  max_safe_correlation : float;
  clamp_multiplier : float;
  strategy_max_drawdown : float;
  min_correlation_samples : Z;
  equity_history_by_strategy : gmap string (list float);
  strategy_peaks : gmap string float;
  drawdown_by_strategy : gmap string float;
  strategy_exit_only : gset string;
  last_persisted_fingerprint : string;
  peak_broker_equity : float
}.

Definition governor_init : PortfolioRiskGovernor :=
  mkGovernor MAX_SAFE_CORRELATION CORRELATION_CLAMP_MULTIPLIER STRATEGY_MAX_DRAWDOWN
    MIN_CORRELATION_SAMPLES ∅ ∅ ∅ ∅ "" fzero.

(** What the governor remembers of the legs and the account. *)
Definition set_memory (hist : gmap string (list float)) (peaks dds : gmap string float)
    (exits : gset string) (g : PortfolioRiskGovernor) : PortfolioRiskGovernor :=
  mkGovernor (max_safe_correlation g) (clamp_multiplier g) (strategy_max_drawdown g)
    (min_correlation_samples g) hist peaks dds exits (last_persisted_fingerprint g)
    (peak_broker_equity g).

Definition set_peak_broker (x : float) (g : PortfolioRiskGovernor) : PortfolioRiskGovernor :=
  mkGovernor (max_safe_correlation g) (clamp_multiplier g) (strategy_max_drawdown g)
    (min_correlation_samples g) (equity_history_by_strategy g) (strategy_peaks g)
    (drawdown_by_strategy g) (strategy_exit_only g) (last_persisted_fingerprint g) x.

Definition set_fingerprint (x : string) (g : PortfolioRiskGovernor) : PortfolioRiskGovernor :=
  mkGovernor (max_safe_correlation g) (clamp_multiplier g) (strategy_max_drawdown g)
    (min_correlation_samples g) (equity_history_by_strategy g) (strategy_peaks g)
    (drawdown_by_strategy g) (strategy_exit_only g) x (peak_broker_equity g).

(** ** Correlations *)

(** [d[k] = v] on a dict keyed by pairs: the key keeps its place. *)
Fixpoint pair_set (k : string * string) (v : float) (d : list ((string * string) * float)) :=
  match d with
  | [] => [(k, v)]
  | (k', v') :: d => if decide (k = k') then (k', v) :: d else (k', v') :: pair_set k v d
  end.

Section Numpy.
Context (np_log : float -> float) (np_std : list float -> float)
  (np_corrcoef : list float -> list float -> float).

Notation compute_return_correlation := (compute_return_correlation np_log np_std np_corrcoef).

Definition closes_of (windows : gmap string RollingWindow) (sid : string) : list float :=
  match windows !! sid with Some w => closes_array w | None => [] end.

Definition enough_closes (g : PortfolioRiskGovernor) (closes : list float) : bool :=
  (min_correlation_samples g <=? Z.of_nat (length closes))%Z.

Fixpoint correlation_loop (g : PortfolioRiskGovernor) (windows : gmap string RollingWindow)
    (legs : list LegConfig) (acc : list ((string * string) * float)) :=
  match legs with
  | [] => acc
  | lcfg :: rest =>
      let left_closes := closes_of windows (cfg_strategy_id lcfg) in
      let acc :=
        if negb (enough_closes g left_closes) then acc else
        fold_left (fun acc rcfg =>
          let right_closes := closes_of windows (cfg_strategy_id rcfg) in
          if negb (enough_closes g right_closes) then acc else
          let corr := compute_return_correlation left_closes right_closes in
          pair_set (cfg_strategy_id rcfg, cfg_strategy_id lcfg) corr
            (pair_set (cfg_strategy_id lcfg, cfg_strategy_id rcfg) corr acc)) rest acc in
      correlation_loop g windows rest acc
  end.

Definition compute_correlation_pairs (g : PortfolioRiskGovernor) (configs : list LegConfig)
    (windows : gmap string RollingWindow) : list ((string * string) * float) :=
  correlation_loop g windows (List.filter cfg_enabled configs) [].

(** ** One cycle *)

(** [max(values, default=0.0)]. *)
Definition max_default (l : list float) : float :=
  match l with [] => fzero | x :: l => fold_left py_max l x end.

Definition get_or_zero (m : gmap string float) (k : string) : float := default fzero (m !! k).

(** [_resolve_peak]: the new peak, which the caller stores. *)
Definition resolve_peak (g : PortfolioRiskGovernor) (sid : string) (pnl : float)
    (history : list float) : float :=
  py_max (py_max (get_or_zero (strategy_peaks g) sid) (max_default history)) pnl.

Definition compute_drawdown_from_peak (peak_pnl leg_pnl peak_broker : float) : float :=
  if fleb peak_broker fzero then fzero
  else py_max fzero (fdiv (fsub peak_pnl leg_pnl) peak_broker).

Definition leg_reading (positions : list Position) (realized : gmap string float)
    (c : LegConfig) : float :=
  let unrealized := match match_position (cfg_symbol c) positions with
                    | Some p => pos_unrealized_pl p | None => fzero end in
  fadd (get_or_zero realized (cfg_strategy_id c)) unrealized.

(** The state threaded through the loop over the legs: governor, [exit_only],
    [strategy_drawdowns]. *)
Definition leg_loop_state : Type := (PortfolioRiskGovernor * gset string * gmap string float)%type.

Definition carry_forward (sid : string) (st : leg_loop_state) : leg_loop_state :=
  let '(g, exit_only, dds) := st in
  (g, if decide (sid ∈ strategy_exit_only g) then {[sid]} ∪ exit_only else exit_only,
   <[sid := get_or_zero (drawdown_by_strategy g) sid]> dds).

Definition measure_leg (sid : string) (leg_pnl : float) (st : leg_loop_state) : leg_loop_state :=
  let '(g, exit_only, dds) := st in
  let history := deque_append EQUITY_HISTORY_LIMIT
                   (default [] (equity_history_by_strategy g !! sid)) leg_pnl in
  let peak := resolve_peak g sid leg_pnl history in
  let drawdown := compute_drawdown_from_peak peak leg_pnl (peak_broker_equity g) in
  let over := fltb (strategy_max_drawdown g) drawdown in
  (set_memory (<[sid := history]> (equity_history_by_strategy g))
     (<[sid := peak]> (strategy_peaks g)) (<[sid := drawdown]> (drawdown_by_strategy g))
     (if over then {[sid]} ∪ strategy_exit_only g else strategy_exit_only g ∖ {[sid]}) g,
   if over then {[sid]} ∪ exit_only else exit_only,
   <[sid := drawdown]> dds).

Definition evaluate_leg (positions : list Position) (realized fractions : gmap string float)
    (st : leg_loop_state) (c : LegConfig) : leg_loop_state :=
  if negb (cfg_enabled c) then st
  else match fractions !! cfg_strategy_id c with
       | None => carry_forward (cfg_strategy_id c) st
       | Some _ => measure_leg (cfg_strategy_id c) (leg_reading positions realized c) st
       end.

Definition clamp_to (limit : float) (sid : string) (m : gmap string float) : gmap string float :=
  <[sid := py_min (default fone (m !! sid)) limit]> m.

Definition clamp_correlated (g : PortfolioRiskGovernor) (m : gmap string float)
    (p : (string * string) * float) : gmap string float :=
  let '((a, b), corr) := p in
  if fltb (fabs corr) (max_safe_correlation g) then m
  else clamp_to (clamp_multiplier g) b (clamp_to (clamp_multiplier g) a m).

Definition clamp_cold (g : PortfolioRiskGovernor) (windows : gmap string RollingWindow)
    (acc : gmap string float * gset string) (c : LegConfig) : gmap string float * gset string :=
  if negb (cfg_enabled c) then acc
  else if (Z.of_nat (length (closes_of windows (cfg_strategy_id c)))
             <? min_correlation_samples g)%Z
  then (clamp_to CORRELATION_CLAMP_MULTIPLIER (cfg_strategy_id c) acc.1,
        {[cfg_strategy_id c]} ∪ acc.2)
  else acc.

Definition initial_multipliers (configs : list LegConfig) : gmap string float :=
  fold_left (fun m c => if cfg_enabled c then <[cfg_strategy_id c := fone]> m else m) configs ∅.

Definition evaluate (configs : list LegConfig) (windows : gmap string RollingWindow)
    (positions : list Position) (realized : gmap string float) (broker_equity : float)
    (fractions : gmap string float) (g : PortfolioRiskGovernor)
    : GovernorVerdict * PortfolioRiskGovernor :=
  let correlations := compute_correlation_pairs g configs windows in
  let g := set_peak_broker (py_max (peak_broker_equity g) broker_equity) g in
  let '(g, exit_only, dds) :=
    fold_left (evaluate_leg positions realized fractions) configs (g, ∅, ∅) in
  let m := fold_left (clamp_correlated g) correlations (initial_multipliers configs) in
  let '(m, cold) := fold_left (clamp_cold g windows) configs (m, ∅) in
  (mkVerdict m exit_only correlations dds cold, g).

Definition blocks_new_entries (sid : string) (action : option SignalAction)
    (v : GovernorVerdict) : bool :=
  match action with
  | Some (LONG | SHORT) => bool_decide (sid ∈ exit_only_strategy_ids v)
  | _ => false
  end.
End Numpy.

(** ** The persisted payload *)

Record risk_row := mkRiskRow {
  rr_peak_equity : float;
  rr_trailing_drawdown_pct : float;
  rr_exit_only_mode : bool
}.

(** The dict [serialize_risk_state] builds and [load_portfolio_risk_state] returns;
    a row that is not a mapping is [None]. *)
Record risk_payload := mkRiskPayload {
  rp_formula_version : option string;
  rp_peak_broker_equity : option float;
  rp_strategies : list (string * option risk_row)
}.

Definition governed_ids (g : PortfolioRiskGovernor) : gset string :=
  dom (strategy_peaks g) ∪ dom (drawdown_by_strategy g) ∪ strategy_exit_only g.

Definition serialize_row (g : PortfolioRiskGovernor) (sid : string) : risk_row :=
  mkRiskRow (get_or_zero (strategy_peaks g) sid) (get_or_zero (drawdown_by_strategy g) sid)
    (bool_decide (sid ∈ strategy_exit_only g)).

Definition serialize_risk_state (g : PortfolioRiskGovernor) : risk_payload :=
  mkRiskPayload (Some FORMULA_VERSION) (Some (peak_broker_equity g))
    (map (fun sid => (sid, Some (serialize_row g sid))) (sorted_strings (governed_ids g))).

Definition row_json (r : option risk_row) : json :=
  match r with
  | None => JNull
  | Some r => JObj [("peak_equity", JFloat (rr_peak_equity r));
                    ("trailing_drawdown_pct", JFloat (rr_trailing_drawdown_pct r));
                    ("exit_only_mode", JBool (rr_exit_only_mode r))]
  end.

Definition payload_json (p : risk_payload) : json :=
  JObj [("version", JInt 2);
        ("formula_version", match rp_formula_version p with Some v => JStr v | None => JNull end);
        ("peak_broker_equity",
         match rp_peak_broker_equity p with Some x => JFloat x | None => JNull end);
        ("strategies", JObj (map (fun kr => (kr.1, row_json kr.2)) (rp_strategies p)))].

Definition payload_fingerprint (p : risk_payload) : string := dumps (sort_json (payload_json p)).

Definition forget_all (g : PortfolioRiskGovernor) : PortfolioRiskGovernor :=
  set_fingerprint "" (set_peak_broker fzero (set_memory ∅ ∅ ∅ ∅ g)).

Definition seed_baseline (g : PortfolioRiskGovernor) (sid : string) : PortfolioRiskGovernor :=
  set_memory (<[sid := [fzero]]> (equity_history_by_strategy g))
    (<[sid := fzero]> (strategy_peaks g)) (<[sid := fzero]> (drawdown_by_strategy g))
    (strategy_exit_only g ∖ {[sid]}) g.

Definition restore_row (g : PortfolioRiskGovernor) (kr : string * option risk_row)
    : PortfolioRiskGovernor :=
  match kr with
  | (_, None) => g
  | (sid, Some r) =>
      set_memory (<[sid := [rr_peak_equity r]]> (equity_history_by_strategy g))
        (<[sid := rr_peak_equity r]> (strategy_peaks g))
        (<[sid := rr_trailing_drawdown_pct r]> (drawdown_by_strategy g))
        (if rr_exit_only_mode r then {[sid]} ∪ strategy_exit_only g
         else strategy_exit_only g ∖ {[sid]}) g
  end.

(** [float(x or 0.0)]: a zero of either sign is [0.0]. *)
Definition float_or_zero (x : option float) : float :=
  match x with Some x => if ftruthy x then x else fzero | None => fzero end.

Definition rehydrate_risk_state (payload : option risk_payload) (baselines : list string)
    (g : PortfolioRiskGovernor) : bool * PortfolioRiskGovernor :=
  match payload with
  | Some p =>
      match rp_strategies p with
      | [] => (false, set_fingerprint "" (fold_left seed_baseline baselines g))
      | _ :: _ =>
          if negb (bool_decide (rp_formula_version p = Some FORMULA_VERSION))
          then (false, forget_all g) else
          let g := set_peak_broker (float_or_zero (rp_peak_broker_equity p)) g in
          let g := fold_left restore_row (rp_strategies p) g in
          (true, set_fingerprint (payload_fingerprint (serialize_risk_state g)) g)
      end
  | None => (false, set_fingerprint "" (fold_left seed_baseline baselines g))
  end.

(** The payload to enqueue, if any. *)
Definition maybe_enqueue_persist (g : PortfolioRiskGovernor)
    : option risk_payload * PortfolioRiskGovernor :=
  let payload := serialize_risk_state g in
  if bool_decide (rp_strategies payload = []) then (None, g) else
  let fingerprint := payload_fingerprint payload in
  if bool_decide (fingerprint = last_persisted_fingerprint g) then (None, g)
  else (Some payload, set_fingerprint fingerprint g).

(** ** The store *)

Record state_row := mkStateRow {
  st_peak_equity : float;
  st_trailing_drawdown_pct : float;
  st_exit_only_mode : Z;
  st_updated_at : string;
  st_formula_version : option string
}.

Record archived_row := mkArchived {
  ar_strategy_id : string;
  ar_state : state_row;
  ar_archived_at : string;
  ar_reason : string
}.

Record risk_store := mkRiskStore {
  live_rows : gmap string state_row;
  archive_rows : list archived_row
}.

(** Inserts inside one transaction: a failing row rolls everything back. *)
Fixpoint insert_rows (now : string) (formula : option string)
    (rows : list (string * option risk_row)) (t : gmap string state_row)
    : result string (gmap string state_row) :=
  match rows with
  | [] => Ok t
  | (_, None) :: rows => insert_rows now formula rows t
  | (sid, Some r) :: rows =>
      match sql_real (rr_peak_equity r), sql_real (rr_trailing_drawdown_pct r), t !! sid with
      | Some peak, Some dd, None =>
          insert_rows now formula rows
            (<[sid := mkStateRow peak dd (if rr_exit_only_mode r then 1 else 0)%Z now formula]> t)
      | _, _, _ => Raise "IntegrityError"
      end
  end.

Definition persist_portfolio_risk_state (now : string) (p : risk_payload) (db : risk_store)
    : result string unit * risk_store :=
  match insert_rows now (rp_formula_version p) (rp_strategies p) ∅ with
  | Ok t => (Ok tt, mkRiskStore t (archive_rows db))
  | Raise e => (Raise e, db)
  end.

Definition loaded_row (r : state_row) : risk_row :=
  mkRiskRow (st_peak_equity r) (st_trailing_drawdown_pct r)
    (negb (st_exit_only_mode r =? 0)%Z).

(** [stamps.pop() if len(stamps) == 1 else None]. *)
Definition single_stamp (stamps : list (option string)) : option string :=
  match stamps with
  | s :: rest => if forallb (fun s' => bool_decide (s' = s)) rest then s else None
  | [] => None
  end.

(** The loaded payload has no [peak_broker_equity]: the table has no column for it. *)
Definition load_portfolio_risk_state (db : risk_store) : option risk_payload :=
  let ids := sorted_strings (dom (live_rows db)) in
  match omap (fun sid => r ← live_rows db !! sid; Some (sid, r)) ids with
  | [] => None
  | rows => Some (mkRiskPayload (single_stamp (map (fun kr => st_formula_version kr.2) rows)) None
                    (map (fun kr => (kr.1, Some (loaded_row kr.2))) rows))
  end.

Definition archive_portfolio_risk_state (now reason : string) (db : risk_store)
    : Z * risk_store :=
  let rows := map_to_list (live_rows db) in
  (Z.of_nat (length rows),
   mkRiskStore ∅ (archive_rows db ++ map (fun kr => mkArchived kr.1 kr.2 now reason) rows)).

(** ** The specification: one tracker per leg

    A leg's tracker sees its own readings and the account's high water, nothing else. *)

Record leg_tracker := mkTracker { lt_peak : float; lt_drawdown : float; lt_exit_only : bool }.

Definition tracker_init : leg_tracker := mkTracker fzero fzero false.

Definition tracker_step (limit high_water : float) (t : leg_tracker) (reading : float)
    : leg_tracker :=
  let peak := py_max (lt_peak t) reading in
  let dd := compute_drawdown_from_peak peak reading high_water in
  mkTracker peak dd (fltb limit dd).

Definition leg_of (g : PortfolioRiskGovernor) (sid : string) : leg_tracker :=
  mkTracker (get_or_zero (strategy_peaks g) sid) (get_or_zero (drawdown_by_strategy g) sid)
    (bool_decide (sid ∈ strategy_exit_only g)).

Definition due (fractions : gmap string float) (sid : string) (c : LegConfig) : bool :=
  cfg_enabled c && bool_decide (cfg_strategy_id c = sid) &&
  bool_decide (is_Some (fractions !! sid)).

(** The readings a cycle takes of a leg: one, unless two configs share its id. *)
Definition readings (positions : list Position) (realized fractions : gmap string float)
    (configs : list LegConfig) (sid : string) : list float :=
  map (leg_reading positions realized) (List.filter (due fractions sid) configs).

Definition enabled_ids (configs : list LegConfig) : list string :=
  map cfg_strategy_id (List.filter cfg_enabled configs).

(** ** The invariant

    A stored amount is zero or positive, so neither NaN nor a negative zero; a value
    of the history never exceeds the peak. *)

Definition amount (x : float) : Prop := x = fzero \/ fltb fzero x = true.

Record governor_ok (g : PortfolioRiskGovernor) : Prop := {
  gok_peaks : forall sid, amount (get_or_zero (strategy_peaks g) sid);
  gok_drawdowns : forall sid, amount (get_or_zero (drawdown_by_strategy g) sid);
  gok_broker : amount (peak_broker_equity g);
  gok_history : forall sid h v, equity_history_by_strategy g !! sid = Some h -> v ∈ h ->
    fltb (get_or_zero (strategy_peaks g) sid) v = false
}.

Lemma amount_max x y : amount x -> amount (py_max x y).
Proof. unfold py_max. intros [->|Hx]; destruct (fltb _ y) eqn:E; [by right|by left| |by right].
  right. by eapply fltb_trans. Qed.

Lemma amount_zero : amount fzero.
Proof. by left. Qed.

Lemma amount_drawdown p x b : amount (compute_drawdown_from_peak p x b).
Proof.
  unfold compute_drawdown_from_peak. destruct (fleb _ _); [apply amount_zero|].
  apply amount_max, amount_zero.
Qed.
#[export] Hint Resolve amount_max amount_zero amount_drawdown : py.

Lemma amount_not_nan x : amount x -> is_nan x = false.
Proof. intros [->|H]; [done|]. destruct (is_nan x) eqn:E; [|done]. by rewrite fltb_nan_r in H. Qed.

Lemma positive_not_zero x : fltb fzero x = true -> feqb x fzero = false.
Proof. by destruct x as [[]|[]| |[] m e]. Qed.

Lemma sql_real_amount x : amount x -> sql_real x = Some x.
Proof.
  intros Hx. unfold sql_real. rewrite (amount_not_nan x Hx).
  destruct Hx as [->|Hx]; [done|]. by rewrite positive_not_zero.
Qed.

Lemma float_or_zero_amount x : amount x -> float_or_zero (Some x) = x.
Proof. unfold float_or_zero, ftruthy. intros [->|Hx]; [done|]. by rewrite positive_not_zero. Qed.

Lemma fold_max_elem l x : fold_left py_max l x ∈ x :: l.
Proof.
  revert x. induction l as [|y l IH]; intros x; simpl; [set_solver|].
  specialize (IH (py_max x y)). unfold py_max in *. destruct (fltb x y); set_solver.
Qed.

Lemma max_default_elem l : l <> [] -> max_default l ∈ l.
Proof. destruct l; [done|]. intros _. apply fold_max_elem. Qed.

Lemma elem_of_deque_append {A} n (l : list A) x v : v ∈ deque_append n l x -> v ∈ l \/ v = x.
Proof.
  unfold deque_append. intros Hv. assert (v ∈ l ++ [x]) as Hin.
  { rewrite <- (take_drop (S (length l) - n) (l ++ [x])). set_solver. }
  set_solver.
Qed.

(** On a governor whose history is below the peak, the peak is a plain ratchet. *)
Lemma resolve_peak_ratchet g sid x :
  governor_ok g ->
  resolve_peak g sid x (deque_append EQUITY_HISTORY_LIMIT
    (default [] (equity_history_by_strategy g !! sid)) x)
  = py_max (get_or_zero (strategy_peaks g) sid) x.
Proof.
  intros Hok. unfold resolve_peak. set (p := get_or_zero (strategy_peaks g) sid).
  set (h := deque_append _ _ x).
  assert (max_default h = x \/ fltb p (max_default h) = false) as [->|Hm].
  { assert (h <> []) as Hne.
    { intros E. apply (f_equal last) in E. subst h. rewrite last_deque_append in E; [done|].
      unfold EQUITY_HISTORY_LIMIT. lia. }
    apply max_default_elem in Hne. subst h. apply elem_of_deque_append in Hne as [Hin|E]; [|by left].
    right. destruct (equity_history_by_strategy g !! sid) as [l|] eqn:El; [|set_solver].
    by apply (gok_history g Hok sid l). }
  - unfold py_max. destruct (fltb p x) eqn:E; [by rewrite fltb_irrefl|by rewrite E].
  - unfold py_max at 2. by rewrite Hm.
Qed.

(** ** The loop over the legs *)

Definition same_settings (g g' : PortfolioRiskGovernor) : Prop :=
  max_safe_correlation g' = max_safe_correlation g /\ clamp_multiplier g' = clamp_multiplier g /\
  strategy_max_drawdown g' = strategy_max_drawdown g /\
  min_correlation_samples g' = min_correlation_samples g /\
  last_persisted_fingerprint g' = last_persisted_fingerprint g /\
  peak_broker_equity g' = peak_broker_equity g.

Lemma get_insert_eq m k v : get_or_zero (<[k := v]> m) k = v.
Proof. unfold get_or_zero. by rewrite lookup_insert_eq. Qed.
Lemma get_insert_ne m k k' v : k <> k' -> get_or_zero (<[k := v]> m) k' = get_or_zero m k'.
Proof. intros. unfold get_or_zero. by rewrite lookup_insert_ne. Qed.

Lemma get_insert m k k' v :
  get_or_zero (<[k := v]> m) k' = if decide (k = k') then v else get_or_zero m k'.
Proof. case_decide as E; [subst; apply get_insert_eq|by apply get_insert_ne]. Qed.

(** What one measured leg does, read through the trackers. *)
Definition measured (g : PortfolioRiskGovernor) (sid : string) (x : float) : leg_tracker :=
  tracker_step (strategy_max_drawdown g) (peak_broker_equity g) (leg_of g sid) x.

Lemma measure_leg_spec g ex dds sid x :
  governor_ok g ->
  exists g',
    measure_leg sid x (g, ex, dds)
    = (g', if lt_exit_only (leg_of g' sid) then {[sid]} ∪ ex else ex,
       <[sid := lt_drawdown (leg_of g' sid)]> dds) /\
    governor_ok g' /\ same_settings g g' /\
    (forall s, leg_of g' s = if decide (sid = s) then measured g s x else leg_of g s).
Proof.
  intros Hok. unfold measure_leg. rewrite (resolve_peak_ratchet g sid x Hok).
  set (h := deque_append _ _ x). set (p := py_max _ x).
  set (dd := compute_drawdown_from_peak p x _). set (over := fltb _ dd).
  eexists. split; [|split; [|split]].
  - f_equal; [f_equal|].
    + unfold leg_of. simpl. destruct over; [by rewrite bool_decide_true by set_solver|].
      by rewrite bool_decide_false by set_solver.
    + unfold leg_of. simpl. by rewrite get_insert_eq.
  - destruct Hok as [Hp Hd Hb Hh].
    split; simpl.
    + intros s. rewrite get_insert. case_decide; [subst p|]; auto with py.
    + intros s. rewrite get_insert. case_decide; [subst dd|]; auto with py.
    + done.
    + intros s l v Hl Hv. rewrite get_insert. destruct (decide (sid = s)) as [<-|];
        [|rewrite lookup_insert_ne in Hl by done; by eapply Hh].
      rewrite lookup_insert_eq in Hl. injection Hl as <-. subst h.
      apply elem_of_deque_append in Hv as [Hin| ->].
      * destruct (_ !! sid) as [l|] eqn:El; [|set_solver].
        pose proof (Hh sid l v El Hin). subst p. unfold py_max. case_match; forder.
      * subst p. unfold py_max. case_match; [apply fltb_irrefl|done].
  - done.
  - intros s. unfold leg_of, measured, tracker_step. simpl. rewrite !get_insert.
    case_decide as E.
    + subst s. fold p. fold dd. f_equal. subst over.
      destruct (fltb _ dd); [by rewrite bool_decide_true by set_solver|].
      by rewrite bool_decide_false by set_solver.
    + f_equal. apply bool_decide_ext. destruct over; set_solver.
Qed.

Section Cycle.
Context (positions : list Position) (realized fractions : gmap string float).

Definition track (g : PortfolioRiskGovernor) (configs : list LegConfig) (sid : string)
    : leg_tracker :=
  fold_left (tracker_step (strategy_max_drawdown g) (peak_broker_equity g))
    (readings positions realized fractions configs sid) (leg_of g sid).

Lemma same_settings_trans g1 g2 g3 :
  same_settings g1 g2 -> same_settings g2 g3 -> same_settings g1 g3.
Proof. unfold same_settings. intuition congruence. Qed.

Lemma enabled_leg_spec g ex dds c :
  governor_ok g -> cfg_enabled c = true ->
  let sid := cfg_strategy_id c in
  exists g',
    evaluate_leg positions realized fractions (g, ex, dds) c
    = (g', if lt_exit_only (leg_of g' sid) then {[sid]} ∪ ex else ex,
       <[sid := lt_drawdown (leg_of g' sid)]> dds) /\
    governor_ok g' /\ same_settings g g' /\
    (forall s, leg_of g' s = track g [c] s).
Proof.
  intros Hok He sid. unfold evaluate_leg. rewrite He. cbn [negb]. fold sid.
  assert (forall s, readings positions realized fractions [c] s
    = if decide (sid = s) then if fractions !! sid then [leg_reading positions realized c] else []
      else []) as Hr.
  { intros s. unfold readings, due. simpl. rewrite He. fold sid. simpl.
    case_decide as E; [subst s|by rewrite bool_decide_false].
    rewrite bool_decide_true by done. by destruct (fractions !! sid). }
  unfold track. destruct (fractions !! sid) as [q|] eqn:Ef.
  - destruct (measure_leg_spec g ex dds sid (leg_reading positions realized c) Hok)
      as (g' & E & Hok' & Hs & Hl).
    exists g'. rewrite E. split; [done|]. split; [done|]. split; [done|]. intros s'.
    rewrite Hr, Hl. by case_decide.
  - exists g. split; [|split; [done|split; [done|]]].
    + unfold carry_forward, leg_of. simpl. f_equal. f_equal.
      case_decide; [by rewrite bool_decide_true|by rewrite bool_decide_false].
    + intros s. rewrite Hr. by case_decide.
Qed.

Lemma readings_cons c cs s :
  readings positions realized fractions (c :: cs) s
  = readings positions realized fractions [c] s ++ readings positions realized fractions cs s.
Proof. unfold readings. simpl. by destruct (due fractions s c). Qed.

Lemma readings_not_enabled cs s :
  s ∉ enabled_ids cs -> readings positions realized fractions cs s = [].
Proof.
  induction cs as [|c cs IH]; [done|]. unfold enabled_ids, readings in *. simpl. unfold due at 1.
  destruct (cfg_enabled c); simpl; [|by apply IH]. intros [Hne Hn]%not_elem_of_cons.
  rewrite bool_decide_false by done. by apply IH.
Qed.

Lemma legs_loop cs g ex dds g' ex' dds' :
  governor_ok g ->
  fold_left (evaluate_leg positions realized fractions) cs (g, ex, dds) = (g', ex', dds') ->
  governor_ok g' /\ same_settings g g' /\
  (forall s, leg_of g' s = track g cs s) /\
  (forall s, dds' !! s = if decide (s ∈ enabled_ids cs)
                         then Some (lt_drawdown (leg_of g' s)) else dds !! s) /\
  (NoDup (enabled_ids cs) -> forall s,
     s ∈ ex' <-> s ∈ ex \/ (s ∈ enabled_ids cs /\ lt_exit_only (leg_of g' s) = true)).
Proof.
  revert g ex dds. induction cs as [|c cs IH]; intros g ex dds Hok Hf.
  { simpl in Hf. simplify_eq. unfold track, enabled_ids. simpl.
    split_and!; try done. intros _ s. set_solver. }
  cbn [fold_left] in Hf. destruct (cfg_enabled c) eqn:He.
  - destruct (enabled_leg_spec g ex dds c Hok He) as (g1 & E & Hok1 & Hs1 & Hl1).
    set (sid := cfg_strategy_id c) in *. rewrite E in Hf.
    destruct (IH _ _ _ Hok1 Hf) as (Hok' & Hs' & Hl' & Hd' & Hx').
    assert (forall s, leg_of g' s = track g (c :: cs) s) as Hl.
    { intros s. rewrite Hl'. unfold track. rewrite (readings_cons c cs), fold_left_app, Hl1.
      destruct Hs1 as (_ & _ & -> & _ & _ & ->). done. }
    assert (s_eq : forall s, s ∉ enabled_ids cs -> leg_of g' s = leg_of g1 s).
    { intros s Hn. rewrite Hl'. unfold track. by rewrite readings_not_enabled. }
    assert (enabled_ids (c :: cs) = sid :: enabled_ids cs) as Hids
      by (unfold enabled_ids; simpl; by rewrite He).
    rewrite Hids. split_and!; try done.
    + by eapply same_settings_trans.
    + intros s. rewrite Hd'. destruct (decide (s ∈ enabled_ids cs)) as [Hin|Hn];
        [by rewrite decide_True by set_solver|].
      destruct (decide (s = sid)) as [->|];
        [|rewrite lookup_insert_ne, decide_False by set_solver; done].
      rewrite lookup_insert_eq, decide_True by set_solver. by rewrite s_eq.
    + intros [Hn Hnd]%NoDup_cons s. rewrite (Hx' Hnd s).
      destruct (decide (s = sid)) as [->|Hne].
      * rewrite (s_eq sid Hn). destruct (lt_exit_only (leg_of g1 sid)); set_solver.
      * destruct (lt_exit_only (leg_of g1 sid)); set_solver.
  - assert (evaluate_leg positions realized fractions (g, ex, dds) c = (g, ex, dds)) as E
      by (unfold evaluate_leg; by rewrite He).
    rewrite E in Hf. destruct (IH _ _ _ Hok Hf) as (? & ? & Hl' & Hd' & Hx').
    assert (enabled_ids (c :: cs) = enabled_ids cs) as -> by (unfold enabled_ids; simpl; by rewrite He).
    assert (forall s, track g (c :: cs) s = track g cs s) as Ht
      by (intros s; unfold track, readings; simpl; unfold due at 1; by rewrite He).
    split_and!; try done. intros s. by rewrite Ht.
Qed.
End Cycle.

(** ** Histories *)

Record risk_cycle := mkCycle {
  cy_configs : list LegConfig;
  cy_windows : gmap string RollingWindow;
  cy_positions : list Position;
  cy_realized : gmap string float;
  cy_broker_equity : float;
  cy_fractions : gmap string float
}.

(** The specification of one leg along the cycles: its tracker and the account's high
    water. Of the allocation fractions it reads whether the leg has one. *)
Definition leg_cycle (sid : string) (limit : float) (st : leg_tracker * float) (c : risk_cycle)
    : leg_tracker * float :=
  let high_water := py_max st.2 (cy_broker_equity c) in
  (fold_left (tracker_step limit high_water)
     (readings (cy_positions c) (cy_realized c) (cy_fractions c) (cy_configs c) sid) st.1,
   high_water).

Section Histories.
Context (np_log : float -> float) (np_std : list float -> float)
  (np_corrcoef : list float -> list float -> float).

Definition run_cycle (c : risk_cycle) (g : PortfolioRiskGovernor)
    : GovernorVerdict * PortfolioRiskGovernor :=
  evaluate np_log np_std np_corrcoef (cy_configs c) (cy_windows c) (cy_positions c)
    (cy_realized c) (cy_broker_equity c) (cy_fractions c) g.

Definition governor_after (g : PortfolioRiskGovernor) (cycles : list risk_cycle)
    : PortfolioRiskGovernor :=
  runs (fun g c => (run_cycle c g).2) g cycles.

Lemma run_cycle_spec g c v g' :
  governor_ok g -> run_cycle c g = (v, g') ->
  governor_ok g' /\ strategy_max_drawdown g' = strategy_max_drawdown g /\
  (forall s, (leg_of g' s, peak_broker_equity g')
             = leg_cycle s (strategy_max_drawdown g) (leg_of g s, peak_broker_equity g) c) /\
  (forall s, s ∈ enabled_ids (cy_configs c) ->
     strategy_drawdowns v !! s = Some (lt_drawdown (leg_of g' s))) /\
  (NoDup (enabled_ids (cy_configs c)) -> forall s,
     s ∈ exit_only_strategy_ids v <->
     s ∈ enabled_ids (cy_configs c) /\ lt_exit_only (leg_of g' s) = true).
Proof.
  intros Hok. unfold run_cycle, evaluate.
  set (g0 := set_peak_broker _ g). 
  destruct (fold_left (evaluate_leg (cy_positions c) (cy_realized c) (cy_fractions c)) (cy_configs c)
    (g0, ∅, ∅)) as [[g1 ex] dds] eqn:Hf.
  destruct (fold_left (clamp_cold g1 (cy_windows c)) _ _) as [m cold]. intros Hr. simplify_eq.
  assert (governor_ok g0) as Hok0 by (destruct Hok; split; simpl; auto with py).
  destruct (legs_loop _ _ _ _ _ _ _ _ _ _ Hok0 Hf) as (Hok' & Hs & Hl & Hd & Hx).
  destruct Hs as (_ & _ & Hmd & _ & _ & Hpb). split_and!; try done.
  - intros s. rewrite Hl, Hpb. done.
  - intros s Hin. simpl. rewrite Hd. by rewrite decide_True.
  - intros Hnd s. simpl. rewrite (Hx Hnd). set_solver.
Qed.

Lemma governor_init_ok : governor_ok governor_init.
Proof. split; simpl; auto with py. intros s h v Hh. done. Qed.

Lemma governor_after_spec g cycles :
  governor_ok g ->
  governor_ok (governor_after g cycles) /\
  strategy_max_drawdown (governor_after g cycles) = strategy_max_drawdown g /\
  forall s, (leg_of (governor_after g cycles) s, peak_broker_equity (governor_after g cycles))
    = runs (leg_cycle s (strategy_max_drawdown g)) (leg_of g s, peak_broker_equity g) cycles.
Proof.
  revert g. induction cycles as [|c cycles IH]; intros g Hok; [done|].
  unfold governor_after. rewrite runs_cons. fold (governor_after (run_cycle c g).2 cycles).
  destruct (run_cycle c g) as [v g'] eqn:E. simpl.
  destruct (run_cycle_spec _ _ _ _ Hok E) as (Hok' & Hmd & Hl & _).
  destruct (IH g' Hok') as (? & Hmd' & Hl'). split; [done|]. split; [congruence|].
  intros s. rewrite Hl', Hmd, Hl. done.
Qed.

(** C21: along any cycles the governor is a family of independent trackers: the
    drawdown a cycle reports for an enabled leg, and whether the leg is held to exits,
    are those of a tracker that ratchets the peak of the leg's own realised and
    unrealised profit from zero and divides its fall by the account's high water. The
    tracker reads of the allocation fractions only whether the leg was due, so no
    reallocation, and no other leg, moves a leg's drawdown. *)
Theorem governor_refines_trackers cycles c s v g' :
  NoDup (enabled_ids (cy_configs c)) -> s ∈ enabled_ids (cy_configs c) ->
  run_cycle c (governor_after governor_init cycles) = (v, g') ->
  let t := (runs (leg_cycle s STRATEGY_MAX_DRAWDOWN) (tracker_init, fzero) (cycles ++ [c])).1 in
  strategy_drawdowns v !! s = Some (lt_drawdown t) /\
  (s ∈ exit_only_strategy_ids v <-> lt_exit_only t = true) /\
  (forall action, blocks_new_entries s (Some action) v
                  = is_entry_action action && lt_exit_only t).
Proof.
  intros Hnd Hin Hrun t. destruct (governor_after_spec _ cycles governor_init_ok) as (Hok & Hmd & Hl).
  destruct (run_cycle_spec _ _ _ _ Hok Hrun) as (_ & _ & Hl' & Hd & Hx).
  assert (leg_of g' s = t) as Ht.
  { subst t. rewrite runs_snoc. change (tracker_init, fzero) with
      (leg_of governor_init s, peak_broker_equity governor_init).
    rewrite <- Hl. specialize (Hl' s). rewrite Hmd in Hl'.
    by apply (f_equal fst) in Hl'. }
  rewrite <- Ht. split; [by apply Hd|]. split; [rewrite (Hx Hnd); intuition|].
  intros action. unfold blocks_new_entries.
  assert (bool_decide (s ∈ exit_only_strategy_ids v) = lt_exit_only (leg_of g' s)) as ->.
  { case_bool_decide as E; rewrite (Hx Hnd) in E.
    - by destruct E.
    - destruct (lt_exit_only _); [|done]. by destruct E. }
  by destruct action.
Qed.
End Histories.

(** ** Persistence *)

Definition serialized_rows (g : PortfolioRiskGovernor) (ids : list string)
    : list (string * option risk_row) :=
  map (fun sid => (sid, Some (serialize_row g sid))) ids.

Lemma restore_rows g ids g0 s :
  leg_of (fold_left restore_row (serialized_rows g ids) g0) s
  = (if decide (s ∈ ids) then leg_of g s else leg_of g0 s) /\
  peak_broker_equity (fold_left restore_row (serialized_rows g ids) g0) = peak_broker_equity g0.
Proof.
  revert g0. induction ids as [|x ids IH]; intros g0; [done|].
  change (serialized_rows g (x :: ids)) with ((x, Some (serialize_row g x)) :: serialized_rows g ids).
  cbn [fold_left].
  destruct (IH (restore_row g0 (x, Some (serialize_row g x)))) as [-> ->]. split; [|done].
  destruct (decide (s ∈ ids)); [by rewrite decide_True by set_solver|].
  unfold leg_of. simpl. rewrite !get_insert. destruct (decide (x = s)) as [->|].
  - rewrite decide_True by set_solver. f_equal. simpl.
    destruct (bool_decide (s ∈ strategy_exit_only g));
      [apply bool_decide_true|apply bool_decide_false]; set_solver.
  - rewrite decide_False by set_solver. f_equal. apply bool_decide_ext.
    simpl. destruct (bool_decide (x ∈ strategy_exit_only g)); set_solver.
Qed.

Lemma not_governed g s : s ∉ governed_ids g -> leg_of g s = tracker_init.
Proof.
  unfold governed_ids. rewrite !not_elem_of_union, !not_elem_of_dom. intros [[Hp Hd] Hx].
  unfold leg_of, get_or_zero. rewrite Hp, Hd. by rewrite bool_decide_false.
Qed.

(** Restoring the rows of a governor, stamped with the current formula, in a fresh one. *)
Lemma rehydrate_fresh g broker baselines :
  governed_ids g <> ∅ ->
  let p := mkRiskPayload (Some FORMULA_VERSION) broker (rp_strategies (serialize_risk_state g)) in
  exists g', rehydrate_risk_state (Some p) baselines governor_init = (true, g') /\
    (forall s, leg_of g' s = leg_of g s) /\ peak_broker_equity g' = float_or_zero broker.
Proof.
  intros Hne p. simpl. set (ids := sorted_strings (governed_ids g)).
  fold (serialized_rows g ids). destruct (serialized_rows g ids) as [|r rows] eqn:E.
  { destruct Hne. apply set_eq. intros x. split; [|set_solver]. intros Hx.
    apply elem_of_sorted_strings in Hx. fold ids in Hx. unfold serialized_rows in E.
    apply map_eq_nil in E. rewrite E in Hx. set_solver. }
  rewrite <- E. eexists. split; [reflexivity|]. cbn [set_fingerprint peak_broker_equity].
  pose proof (restore_rows g ids (set_peak_broker (float_or_zero broker) governor_init)) as Hr.
  split; [|by apply (Hr "")]. intros s. destruct (Hr s) as [Hs _].
  etrans; [exact Hs|]. case_decide as Hin; [done|].
  rewrite (not_governed g s); [done|]. intros Hg. by apply elem_of_sorted_strings in Hg.
Qed.

Lemma insert_rows_spec now formula g ids t :
  governor_ok g -> NoDup ids -> (forall s, s ∈ ids -> t !! s = None) ->
  exists t', insert_rows now formula (serialized_rows g ids) t = Ok t' /\
    forall s, t' !! s
      = if decide (s ∈ ids)
        then Some (mkStateRow (get_or_zero (strategy_peaks g) s) (get_or_zero (drawdown_by_strategy g) s)
               (if bool_decide (s ∈ strategy_exit_only g) then 1 else 0)%Z now formula)
        else t !! s.
Proof.
  intros Hok. revert t. induction ids as [|x ids IH]; intros t Hnd Hfresh; [by exists t|].
  apply NoDup_cons in Hnd as [Hx Hnd].
  change (serialized_rows g (x :: ids)) with ((x, Some (serialize_row g x)) :: serialized_rows g ids).
  cbn [insert_rows].
  cbn [serialize_row rr_peak_equity rr_trailing_drawdown_pct rr_exit_only_mode].
  rewrite (sql_real_amount _ (gok_peaks g Hok x)), (sql_real_amount _ (gok_drawdowns g Hok x)).
  rewrite Hfresh by set_solver.
  match goal with |- context [ insert_rows _ _ _ ?t1 ] => destruct (IH t1 Hnd) as (t' & -> & Ht') end.
  { intros s Hs. rewrite lookup_insert_ne by set_solver. apply Hfresh. set_solver. }
  exists t'. split; [done|]. intros s. rewrite Ht'.
  destruct (decide (s ∈ ids)); [by rewrite decide_True by set_solver|].
  destruct (decide (s = x)) as [->|].
  - by rewrite lookup_insert_eq, decide_True by set_solver.
  - by rewrite lookup_insert_ne, decide_False by set_solver.
Qed.

Lemma omap_lookup_all {A} (m : gmap string A) (f : string -> A) ids :
  (forall s, s ∈ ids -> m !! s = Some (f s)) ->
  omap (fun sid => r ← m !! sid; Some (sid, r)) ids = map (fun sid => (sid, f sid)) ids.
Proof.
  induction ids as [|x ids IH]; intros Hm; [done|]. cbn. rewrite Hm by set_solver. cbn.
  f_equal. apply IH. set_solver.
Qed.

Lemma NoDup_sorted_strings s : NoDup (sorted_strings s).
Proof. unfold sorted_strings. rewrite sorted_keys_perm. apply NoDup_elements. Qed.

(** The store keeps every row of the payload and its stamp, and drops the account's
    high water. *)
Lemma store_roundtrip now g db :
  governor_ok g -> governed_ids g <> ∅ ->
  exists db', persist_portfolio_risk_state now (serialize_risk_state g) db = (Ok tt, db') /\
    archive_rows db' = archive_rows db /\
    load_portfolio_risk_state db'
    = Some (mkRiskPayload (Some FORMULA_VERSION) None (rp_strategies (serialize_risk_state g))).
Proof.
  intros Hok Hne. unfold persist_portfolio_risk_state. cbn [rp_formula_version rp_strategies serialize_risk_state].
  set (ids := sorted_strings (governed_ids g)). fold (serialized_rows g ids).
  destruct (insert_rows_spec now (Some FORMULA_VERSION) g ids ∅ Hok) as (t & -> & Ht);
    [apply NoDup_sorted_strings|done|].
  eexists. split; [done|]. split; [done|]. unfold load_portfolio_risk_state. cbn [live_rows].
  assert (dom t = governed_ids g) as ->.
  { apply set_eq. intros s. rewrite elem_of_dom, Ht.
    rewrite <- (elem_of_sorted_strings s (governed_ids g)). fold ids.
    case_decide; [naive_solver|]. rewrite lookup_empty. split; [by intros [? ?]|done]. }
  fold ids.
  rewrite (omap_lookup_all t (fun s => mkStateRow (get_or_zero (strategy_peaks g) s)
    (get_or_zero (drawdown_by_strategy g) s)
    (if bool_decide (s ∈ strategy_exit_only g) then 1 else 0)%Z now (Some FORMULA_VERSION)))
    by (intros s Hs; by rewrite Ht, decide_True).
  assert (ids <> []) as Hids.
  { intros E. apply Hne. apply set_eq. intros x. split; [|set_solver]. intros Hx.
    apply elem_of_sorted_strings in Hx. fold ids in Hx. rewrite E in Hx. set_solver. }
  clearbody ids. destruct ids as [|x ids]; [done|]. cbn [map]. f_equal. f_equal.
  - simpl. match goal with |- (if ?b then _ else _) = _ => assert (b = true) as -> end; [|done].
    apply forallb_forall. intros v Hv. apply bool_decide_eq_true. rewrite map_map in Hv.
    apply in_map_iff in Hv as (? & <- & _). done.
  - unfold serialized_rows. rewrite !map_map. cbn [map]. 
    assert (forall y, loaded_row (mkStateRow (get_or_zero (strategy_peaks g) y)
      (get_or_zero (drawdown_by_strategy g) y)
      (if bool_decide (y ∈ strategy_exit_only g) then 1 else 0)%Z now (Some FORMULA_VERSION))
      = serialize_row g y) as Hl.
    { intros y. unfold loaded_row, serialize_row. cbn. by case_bool_decide. }
    cbn [fst snd]. rewrite Hl. f_equal. apply map_ext. intros y. exact (f_equal (fun r => (y, Some r)) (Hl y)).
Qed.

Section Restart.
Context (np_log : float -> float) (np_std : list float -> float)
  (np_corrcoef : list float -> list float -> float).

(** after any cycles, rehydrating a fresh governor from the serialised state gives
    back every leg's tracker and the account's high water, so every later verdict on a
    leg is the one an uninterrupted governor gives. Through the store the legs come back exactly
    and the stored payload is read back whole, but for the account's high water, which
    the table does not hold: the restarted governor measures falls against an account
    that starts at zero. *)
Theorem governor_survives_restart cycles baselines now db :
  let g := governor_after np_log np_std np_corrcoef governor_init cycles in
  governed_ids g <> ∅ ->
  (exists g1,
     rehydrate_risk_state (Some (serialize_risk_state g)) baselines governor_init = (true, g1) /\
     (forall s, leg_of g1 s = leg_of g s) /\ peak_broker_equity g1 = peak_broker_equity g) /\
  exists db' p g2,
    persist_portfolio_risk_state now (serialize_risk_state g) db = (Ok tt, db') /\
    archive_rows db' = archive_rows db /\
    load_portfolio_risk_state db' = Some p /\
    rp_strategies p = rp_strategies (serialize_risk_state g) /\
    rehydrate_risk_state (Some p) baselines governor_init = (true, g2) /\
    (forall s, leg_of g2 s = leg_of g s) /\ peak_broker_equity g2 = fzero.
Proof.
  intros g Hne. destruct (governor_after_spec np_log np_std np_corrcoef _ cycles governor_init_ok)
    as (Hok & _). fold g in Hok. split.
  - destruct (rehydrate_fresh g (Some (peak_broker_equity g)) baselines Hne) as (g1 & H & Hl & Hb).
    exists g1. split; [exact H|]. split; [done|]. rewrite Hb. by apply float_or_zero_amount, Hok.
  - destruct (store_roundtrip now g db Hok Hne) as (db' & Hp & Ha & Hload).
    destruct (rehydrate_fresh g None baselines Hne) as (g2 & H & Hl & Hb).
    exists db', (mkRiskPayload (Some FORMULA_VERSION) None (rp_strategies (serialize_risk_state g))), g2.
    done.
Qed.
End Restart.

(** *** A concrete account

    The account peaks at 100, falls to 50, and the leg loses 5: five percent of the
    high water, below the six percent limit. After a restart through the store the same
    loss is ten percent of what the governor takes for the high water. *)

Definition no_log (x : float) : float := x.
Definition no_std (l : list float) : float := fone.
Definition no_corr (a b : list float) : float := fzero.

Definition demo_cycle (equity pnl : Z) : risk_cycle :=
  mkCycle [mkLegConfig "leg_a" "SPY" true; mkLegConfig "leg_b" "BTC/USD" true] ∅
    [mkPosition "SPY" fone "long" fone (of_Z pnl); mkPosition "BTCUSD" fone "long" fone fzero] ∅
    (of_Z equity) {[ "leg_a" := lit 5 1 ]}.

Definition demo_history : list risk_cycle := [demo_cycle 100 0; demo_cycle 50 (-5)].

Definition demo_governor : PortfolioRiskGovernor :=
  governor_after no_log no_std no_corr governor_init demo_history.

Definition reloaded (g : PortfolioRiskGovernor) : PortfolioRiskGovernor :=
  let db := (persist_portfolio_risk_state "t" (serialize_risk_state g) (mkRiskStore ∅ [])).2 in
  (rehydrate_risk_state (load_portfolio_risk_state db) [] governor_init).2.

Lemma restart_through_store_trips_exit_only :
  exit_only_strategy_ids (run_cycle no_log no_std no_corr (demo_cycle 50 (-5)) demo_governor).1 = ∅ /\
  exit_only_strategy_ids
    (run_cycle no_log no_std no_corr (demo_cycle 50 (-5)) (reloaded demo_governor)).1 = {[ "leg_a" ]}.
Proof. split; vm_compute; reflexivity. Qed.

Lemma governor_refines_trackers_witness :
  exists v g', run_cycle no_log no_std no_corr (demo_cycle 50 (-7)) demo_governor = (v, g') /\
  bool_decide ("leg_a" ∈ exit_only_strategy_ids v) = true /\
  strategy_drawdowns v !! "leg_a"
  = Some (lt_drawdown (runs (leg_cycle "leg_a" STRATEGY_MAX_DRAWDOWN) (tracker_init, fzero)
                         (demo_history ++ [demo_cycle 50 (-7)])).1).
Proof.
  eexists _, _. split; [apply surjective_pairing|]. split; [vm_compute; reflexivity|].
  refine (proj1 (governor_refines_trackers no_log no_std no_corr demo_history (demo_cycle 50 (-7))
    "leg_a" _ _ _ _ (surjective_pairing _))).
  - change (NoDup ["leg_a"; "leg_b"]). apply (bool_decide_eq_true_1 (NoDup ["leg_a"; "leg_b"])). reflexivity.
  - change ("leg_a" ∈ ["leg_a"; "leg_b"]). left.
Defined.

Lemma governor_survives_restart_witness :
  exists g1, rehydrate_risk_state (Some (serialize_risk_state demo_governor)) [] governor_init
             = (true, g1) /\
  leg_of g1 "leg_a" = leg_of demo_governor "leg_a" /\
  lt_drawdown (leg_of demo_governor "leg_a") = lit 5 2.
Proof.
  destruct (governor_survives_restart no_log no_std no_corr demo_history [] "t" (mkRiskStore ∅ []))
    as [(g1 & H & Hl & _) _].
  - intros H. apply (f_equal (fun X => bool_decide ("leg_a" ∈ X))) in H.
    vm_compute in H. discriminate H.
  - exists g1. split; [exact H|]. split; [apply Hl|vm_compute; reflexivity].
Defined.

(** State stamped under a retired formula, or under none, is refused and forgotten. *)
Lemma retired_formula_is_refused p baselines g :
  rp_strategies p <> [] -> rp_formula_version p <> Some FORMULA_VERSION ->
  rehydrate_risk_state (Some p) baselines g = (false, forget_all g).
Proof.
  intros Hne Hv. unfold rehydrate_risk_state. destruct (rp_strategies p); [done|].
  by rewrite bool_decide_false.
Qed.

(** An unchanged state is enqueued once. *)
Lemma persist_is_enqueued_once g p g' :
  maybe_enqueue_persist g = (Some p, g') -> maybe_enqueue_persist g' = (None, g').
Proof.
  unfold maybe_enqueue_persist. case_bool_decide; [done|]. case_bool_decide; [done|].
  intros. simplify_eq. cbn [last_persisted_fingerprint set_fingerprint].
  change (serialize_risk_state (set_fingerprint ?x g)) with (serialize_risk_state g).
  rewrite bool_decide_false by done. by rewrite bool_decide_true.
Qed.
