(* ===== verification/WriteQueue.v ===== *)
(** * The write-ahead queue

    [src/persistence/db_queue.py] ([AsyncDBWriter], [WalLeakyBucketDrainer], the
    [enqueue_*] helpers) and [src/persistence/store_handlers.py]: writes are staged in a
    local table and drained in batches to their target tables. The stage and the
    targets are durable; the limiter, the counters and the worker die with the process.
    A write to a target may raise, a Postgres batch and a delete may fail: [faults]
    decides per attempt. The wake queue is written and never read, and is left out. *)

From stdpp Require Import base gmap strings list.
From Stdlib Require Import ZArith Lia.
From S2P Require Import Prelude Dict PyFloat Models.

(** ** Kinds of writes *)

Inductive WriteKind :=
  | TRADE_ATTRIBUTION | PORTFOLIO_CONSTRAINT | COUNTERFACTUAL_STATE | PORTFOLIO_RISK_STATE
  | CYCLE_METRICS | TRIAL_LEDGER | DIAGNOSTIC_REPORT | QUARANTINED_HYPOTHESIS | HEARTBEAT
  | CONFIG_HASH_CHAIN | RECONCILIATION.
#[export] Instance WriteKind_eq_dec : EqDecision WriteKind.
Proof. solve_decision. Defined.

Definition WriteKind_value (k : WriteKind) : string :=
  match k with
  | TRADE_ATTRIBUTION => "trade_attribution"
  | PORTFOLIO_CONSTRAINT => "portfolio_constraint"
  | COUNTERFACTUAL_STATE => "counterfactual_state"
  | PORTFOLIO_RISK_STATE => "portfolio_risk_state"
  | CYCLE_METRICS => "cycle_metrics"
  | TRIAL_LEDGER => "trial_ledger"
  | DIAGNOSTIC_REPORT => "diagnostic_report"
  | QUARANTINED_HYPOTHESIS => "quarantined_hypothesis"
  | HEARTBEAT => "heartbeat"
  | CONFIG_HASH_CHAIN => "config_hash_chain"
  | RECONCILIATION => "reconciliation"
  end.

Definition all_kinds : list WriteKind :=
  [TRADE_ATTRIBUTION; PORTFOLIO_CONSTRAINT; COUNTERFACTUAL_STATE; PORTFOLIO_RISK_STATE;
   CYCLE_METRICS; TRIAL_LEDGER; DIAGNOSTIC_REPORT; QUARANTINED_HYPOTHESIS; HEARTBEAT;
   CONFIG_HASH_CHAIN; RECONCILIATION].

(** [WriteKind(value)]. *)
Definition kind_of_value (v : string) : option WriteKind :=
  List.find (fun k => bool_decide (WriteKind_value k = v)) all_kinds.

Lemma kind_of_value_of k : kind_of_value (WriteKind_value k) = Some k.
Proof. by destruct k. Qed.

Record QueuedWrite := mkQueued { qw_kind : WriteKind; qw_payload : json; qw_db_path : string }.

(** A row of [local_write_ahead_stage]; its kind is text, which another version of the
    program may have written. *)
Record staged_row := mkStaged {
  sr_stage_id : Z;
  sr_write_kind : string;
  sr_payload : json;
  sr_target : string
}.

Record StagedWrite := mkStagedWrite { sw_stage_id : Z; sw_item : QueuedWrite }.

(** The kinds [store_handlers] registers. *)
Definition registered_kind (k : WriteKind) : bool :=
  match k with
  | TRIAL_LEDGER | DIAGNOSTIC_REPORT | QUARANTINED_HYPOTHESIS | HEARTBEAT | CONFIG_HASH_CHAIN
  | RECONCILIATION => true
  | _ => false
  end.

(** ** The drain limiter *)

Definition WAL_MAX_BATCHES_PER_BAR_INTERVAL : Z := 2.
Definition WAL_BURST_MAX_BATCHES_PER_INTERVAL : Z := 8.
Definition WAL_BAR_INTERVAL_SECONDS : float := Eval vm_compute in of_Z 900.
Definition WAL_BACKLOG_HIGH_WATER : Z := 128.

Record WalLeakyBucketDrainer := mkDrainer {
  dr_base_max_batches : Z;
  dr_burst_max_batches : Z;
  dr_max_batches : Z;
  dr_interval_seconds : float;
  dr_tokens : float;
  dr_last_refill : float
}.

Definition drainer_init (max_batches burst : Z) (interval now : float) : WalLeakyBucketDrainer :=
  let base := Z.max max_batches 1 in
  mkDrainer base (Z.max burst base) base (py_max interval fone) (of_Z base) now.

Definition set_tokens (max_batches : Z) (tokens last : float) (d : WalLeakyBucketDrainer)
    : WalLeakyBucketDrainer :=
  mkDrainer (dr_base_max_batches d) (dr_burst_max_batches d) max_batches (dr_interval_seconds d)
    tokens last.

Definition update_backlog_depth (depth : Z) (d : WalLeakyBucketDrainer) : WalLeakyBucketDrainer :=
  let target := if (WAL_BACKLOG_HIGH_WATER <=? depth)%Z then dr_burst_max_batches d
                else dr_base_max_batches d in
  if (target =? dr_max_batches d)%Z then d
  else if (dr_max_batches d <? target)%Z then set_tokens target (of_Z target) (dr_last_refill d) d
  else set_tokens target (py_min (dr_tokens d) (of_Z target)) (dr_last_refill d) d.

Definition refill_locked (now : float) (d : WalLeakyBucketDrainer) : WalLeakyBucketDrainer :=
  let elapsed := fsub now (dr_last_refill d) in
  if fleb elapsed fzero then d else
  let refill := fmul (fdiv elapsed (dr_interval_seconds d)) (of_Z (dr_max_batches d)) in
  if fleb refill fzero then d
  else set_tokens (dr_max_batches d) (py_min (of_Z (dr_max_batches d)) (fadd (dr_tokens d) refill))
         now d.

Definition acquire (force : bool) (now : float) (d : WalLeakyBucketDrainer)
    : bool * WalLeakyBucketDrainer :=
  if force then (true, d) else
  let d := refill_locked now d in
  if fleb fone (dr_tokens d)
  then (true, set_tokens (dr_max_batches d) (fsub (dr_tokens d) fone) (dr_last_refill d) d)
  else (false, d).

(** ** The writer *)

Record writer_stats := mkStats {
  n_enqueued : Z; n_flushed : Z; n_postgres_batches : Z; n_sqlite_batches : Z;
  n_wal_deleted : Z; n_wal_throttled : Z; n_errors : Z
}.

Definition stats_init : writer_stats := mkStats 0 0 0 0 0 0 0.

(** A target table is keyed by its kind and its path; [delivered] is the log of the
    groups whose write was confirmed, with their stage ids. *)
Record writer := mkWriter {
  wr_stage : list staged_row;
  wr_next_id : Z;
  wr_sqlite : gmap (string * string) (list json);
  wr_postgres : gmap string (list json);
  wr_delivered : list (WriteKind * string * list (Z * json));
  wr_attempts : nat;
  wr_max_batch_size : Z;
  wr_postgres_configured : bool;
  wr_limiter : WalLeakyBucketDrainer;
  wr_stats : writer_stats;
  wr_running : bool
}.

Definition set_stage (rows : list staged_row) (next : Z) (s : writer) : writer :=
  mkWriter rows next (wr_sqlite s) (wr_postgres s) (wr_delivered s) (wr_attempts s)
    (wr_max_batch_size s) (wr_postgres_configured s) (wr_limiter s) (wr_stats s) (wr_running s).
Definition set_sqlite (t : gmap (string * string) (list json)) (s : writer) : writer :=
  mkWriter (wr_stage s) (wr_next_id s) t (wr_postgres s) (wr_delivered s) (wr_attempts s)
    (wr_max_batch_size s) (wr_postgres_configured s) (wr_limiter s) (wr_stats s) (wr_running s).
Definition set_postgres (t : gmap string (list json)) (s : writer) : writer :=
  mkWriter (wr_stage s) (wr_next_id s) (wr_sqlite s) t (wr_delivered s) (wr_attempts s)
    (wr_max_batch_size s) (wr_postgres_configured s) (wr_limiter s) (wr_stats s) (wr_running s).
Definition set_delivered (l : list (WriteKind * string * list (Z * json))) (s : writer) : writer :=
  mkWriter (wr_stage s) (wr_next_id s) (wr_sqlite s) (wr_postgres s) l (wr_attempts s)
    (wr_max_batch_size s) (wr_postgres_configured s) (wr_limiter s) (wr_stats s) (wr_running s).
Definition count_attempt (s : writer) : writer :=
  mkWriter (wr_stage s) (wr_next_id s) (wr_sqlite s) (wr_postgres s) (wr_delivered s)
    (S (wr_attempts s))
    (wr_max_batch_size s) (wr_postgres_configured s) (wr_limiter s) (wr_stats s) (wr_running s).
Definition set_limiter (d : WalLeakyBucketDrainer) (s : writer) : writer :=
  mkWriter (wr_stage s) (wr_next_id s) (wr_sqlite s) (wr_postgres s) (wr_delivered s)
    (wr_attempts s) (wr_max_batch_size s) (wr_postgres_configured s) d (wr_stats s) (wr_running s).
Definition set_stats (f : writer_stats -> writer_stats) (s : writer) : writer :=
  mkWriter (wr_stage s) (wr_next_id s) (wr_sqlite s) (wr_postgres s) (wr_delivered s)
    (wr_attempts s) (wr_max_batch_size s) (wr_postgres_configured s) (wr_limiter s)
    (f (wr_stats s)) (wr_running s).
Definition set_running (b : bool) (s : writer) : writer :=
  mkWriter (wr_stage s) (wr_next_id s) (wr_sqlite s) (wr_postgres s) (wr_delivered s)
    (wr_attempts s) (wr_max_batch_size s) (wr_postgres_configured s) (wr_limiter s) (wr_stats s) b.

Definition incr_enqueued (t : writer_stats) := mkStats (n_enqueued t + 1) (n_flushed t)
  (n_postgres_batches t) (n_sqlite_batches t) (n_wal_deleted t) (n_wal_throttled t) (n_errors t).
Definition add_flushed (n : Z) (t : writer_stats) := mkStats (n_enqueued t) (n_flushed t + n)
  (n_postgres_batches t) (n_sqlite_batches t) (n_wal_deleted t) (n_wal_throttled t) (n_errors t).
Definition incr_postgres (t : writer_stats) := mkStats (n_enqueued t) (n_flushed t)
  (n_postgres_batches t + 1) (n_sqlite_batches t) (n_wal_deleted t) (n_wal_throttled t) (n_errors t).
Definition incr_sqlite (t : writer_stats) := mkStats (n_enqueued t) (n_flushed t)
  (n_postgres_batches t) (n_sqlite_batches t + 1) (n_wal_deleted t) (n_wal_throttled t) (n_errors t).
Definition add_deleted (n : Z) (t : writer_stats) := mkStats (n_enqueued t) (n_flushed t)
  (n_postgres_batches t) (n_sqlite_batches t) (n_wal_deleted t + n) (n_wal_throttled t) (n_errors t).
Definition incr_throttled (t : writer_stats) := mkStats (n_enqueued t) (n_flushed t)
  (n_postgres_batches t) (n_sqlite_batches t) (n_wal_deleted t) (n_wal_throttled t + 1) (n_errors t).
Definition incr_errors (t : writer_stats) := mkStats (n_enqueued t) (n_flushed t)
  (n_postgres_batches t) (n_sqlite_batches t) (n_wal_deleted t) (n_wal_throttled t) (n_errors t + 1).

Definition WRITER_MAX_BATCH_SIZE : Z := 64.

Definition writer_init (batch_size : Z) (postgres : bool) (now : float) : writer :=
  mkWriter [] 1 ∅ ∅ [] 0 (Z.max batch_size 1) postgres
    (drainer_init WAL_MAX_BATCHES_PER_BAR_INTERVAL WAL_BURST_MAX_BATCHES_PER_INTERVAL
       WAL_BAR_INTERVAL_SECONDS now) stats_init false.

(** ** Staging *)

Definition append_write_ahead (item : QueuedWrite) (s : writer) : Z * writer :=
  let id := wr_next_id s in
  (id, set_stage (wr_stage s ++ [mkStaged id (WriteKind_value (qw_kind item)) (qw_payload item)
                                   (qw_db_path item)]) (id + 1) s).

Definition enqueue (item : QueuedWrite) (s : writer) : writer :=
  set_stats incr_enqueued (append_write_ahead item s).2.

Definition pending_write_ahead_count (s : writer) : Z := Z.of_nat (length (wr_stage s)).

Definition queue_depth : writer -> Z := pending_write_ahead_count.

Definition start (s : writer) : writer := if wr_running s then s else set_running true s.

(** The module's helpers: start the worker if it is not running, then stage. *)
Definition enqueue_kind (k : WriteKind) (default_path : string) (payload : json)
    (db_path : option string) (s : writer) : writer :=
  enqueue (mkQueued k payload (opt_or db_path default_path)) (start s).

Section Helpers.
Context (RESEARCH_VAULT_PATH DB_PATH : string).

Definition enqueue_trade_attribution := enqueue_kind TRADE_ATTRIBUTION RESEARCH_VAULT_PATH.
Definition enqueue_trial_ledger := enqueue_kind TRIAL_LEDGER RESEARCH_VAULT_PATH.
Definition enqueue_diagnostic_report := enqueue_kind DIAGNOSTIC_REPORT RESEARCH_VAULT_PATH.
Definition enqueue_quarantined_hypothesis := enqueue_kind QUARANTINED_HYPOTHESIS RESEARCH_VAULT_PATH.
Definition enqueue_heartbeat := enqueue_kind HEARTBEAT RESEARCH_VAULT_PATH.
Definition enqueue_hash_chain_entry := enqueue_kind CONFIG_HASH_CHAIN RESEARCH_VAULT_PATH.
Definition enqueue_reconciliation := enqueue_kind RECONCILIATION RESEARCH_VAULT_PATH.
Definition enqueue_portfolio_constraint := enqueue_kind PORTFOLIO_CONSTRAINT RESEARCH_VAULT_PATH.
Definition enqueue_counterfactual_state := enqueue_kind COUNTERFACTUAL_STATE RESEARCH_VAULT_PATH.
Definition enqueue_portfolio_risk_state := enqueue_kind PORTFOLIO_RISK_STATE DB_PATH.
Definition enqueue_cycle_metrics := enqueue_kind CYCLE_METRICS DB_PATH.
End Helpers.

(** ** Draining *)

(** [max(int(limit), 1)] rows in the order of their ids. A kind the enumeration does
    not know raises. *)
Fixpoint parse_rows (rows : list staged_row) : result string (list StagedWrite) :=
  match rows with
  | [] => Ok []
  | r :: rows =>
      match kind_of_value (sr_write_kind r) with
      | None => Raise "ValueError"
      | Some k => try! rest := parse_rows rows in
                  Ok (mkStagedWrite (sr_stage_id r) (mkQueued k (sr_payload r) (sr_target r)) :: rest)
      end
  end%py.

Definition fetch_staged_batch (limit : Z) (s : writer) : result string (list StagedWrite) :=
  parse_rows (take (Z.to_nat (Z.max limit 1)) (wr_stage s)).

Definition delete_staged_rows (ids : list Z) (s : writer) : writer :=
  match ids with
  | [] => s
  | _ => set_stats (add_deleted (Z.of_nat (length ids)))
           (set_stage (List.filter (fun r => negb (bool_decide (sr_stage_id r ∈ ids))) (wr_stage s))
              (wr_next_id s) s)
  end.

(** What can go wrong while a group is written: the SQLite write raises, after some
    rows where the store commits row by row; the Postgres batch raises. *)
Record fault := mkFault { f_write : option nat; f_postgres : bool }.

(** *** Target tables *)

Definition field (k : string) (j : json) : option json :=
  match j with JObj fs => assoc k fs | _ => None end.

(** [ON CONFLICT(trade_id) DO UPDATE]: the columns taken from the new row. The local
    table also keeps its old mark-out when the new row has none; the Postgres one
    updates three columns only. *)
Definition local_columns : list string :=
  ["pnl"; "slippage_pct"; "execution_direction_type"; "slip_direction_long_entry";
   "slip_direction_long_exit"; "slip_direction_short_entry"; "slip_direction_short_exit";
   "metadata_json"].
Definition postgres_columns : list string := ["pnl"; "slippage_pct"; "metadata_json"].

Definition merge_column (local : bool) (new : list (string * json)) (kv : string * json)
    : string * json :=
  let '(k, v) := kv in
  if decide (k ∈ if local then local_columns else postgres_columns)
  then (k, default JNull (assoc k new))
  else if local && bool_decide (k = "markout_5bar")
  then (k, match assoc k new with Some JNull | None => v | Some x => x end)
  else kv.

Definition merge_attribution (local : bool) (old new : json) : json :=
  match old, new with
  | JObj o, JObj n => JObj (map (merge_column local n) o)
  | _, _ => old
  end.

(** Two rows conflict when their trade ids are the same text. *)
Definition same_trade (a b : json) : bool :=
  match field "trade_id" a, field "trade_id" b with
  | Some (JStr x), Some (JStr y) => bool_decide (x = y)
  | _, _ => false
  end.

Fixpoint upsert_attribution (local : bool) (new : json) (tbl : list json) : list json :=
  match tbl with
  | [] => [new]
  | old :: tbl => if same_trade old new then merge_attribution local old new :: tbl
                  else old :: upsert_attribution local new tbl
  end.

(** [to_insert_tuple]: the local row has the symbol in capitals and its amounts as
    floats. *)
Definition attribution_column (kv : string * json) : string * json :=
  let '(k, v) := kv in
  (k, match v with
      | JStr x => if decide (k = "symbol") then JStr (upper x) else v
      | JInt n => if decide (k ∈ ["qty"; "pnl"]) then JFloat (of_Z n) else v
      | _ => v
      end).

Definition attribution_row (p : json) : json :=
  match p with JObj fs => JObj (map attribution_column fs) | _ => p end.

(** The rows a kind's store adds. The risk state is a snapshot: the last payload of the
    group replaces the table. *)
Definition write_rows (k : WriteKind) (payloads tbl : list json) : list json :=
  match k with
  | TRADE_ATTRIBUTION => fold_left (fun t p => upsert_attribution true (attribution_row p) t) payloads tbl
  | PORTFOLIO_RISK_STATE => match last payloads with Some p => [p] | None => tbl end
  | _ => tbl ++ payloads
  end.

(** The rows of the Postgres half of a batch. *)
Definition postgres_rows (k : WriteKind) (payloads tbl : list json) : list json :=
  match k with
  | TRADE_ATTRIBUTION => fold_left (fun t p => upsert_attribution false p t) payloads tbl
  | _ => tbl ++ payloads
  end.

(** What is committed when the store raises after [n] rows: cycle metrics commit row by
    row, fill costs are committed before timing deltas; the rest is one transaction. *)
Definition partial_rows (k : WriteKind) (n : nat) (payloads : list json) : list json :=
  match k with
  | CYCLE_METRICS => take n payloads
  | RECONCILIATION =>
      if bool_decide (n = 0) then []
      else List.filter (fun p => match field "record_type" p with
                                 | Some (JStr t) => bool_decide (t = "fill_cost")
                                 | _ => false end) payloads
  | _ => []
  end.

Definition drives_postgres (k : WriteKind) : bool :=
  match k with TRADE_ATTRIBUTION | PORTFOLIO_CONSTRAINT | COUNTERFACTUAL_STATE => true | _ => false end.

Definition table_of (k : WriteKind) (path : string) (s : writer) : list json :=
  default [] (wr_sqlite s !! (WriteKind_value k, path)).

Definition write_table (k : WriteKind) (path : string) (payloads : list json) (s : writer)
    : writer :=
  set_sqlite (<[(WriteKind_value k, path) := write_rows k payloads (table_of k path s)]>
                (wr_sqlite s)) s.

Section Drain.
Context (registered : WriteKind -> bool)
  (faults : nat -> WriteKind -> string -> list json -> fault)
  (delete_fails : nat -> bool).

(** [_flush_*_batch] after the SQLite write: the Postgres half decides the answer. *)
Definition flush_postgres (k : WriteKind) (payloads : list json) (f : fault) (s : writer)
    : bool * writer :=
  if negb (wr_postgres_configured s) then (true, s)
  else if f_postgres f then (false, s)
  else (true, set_stats incr_postgres
                (set_postgres (<[WriteKind_value k := postgres_rows k payloads
                   (default [] (wr_postgres s !! WriteKind_value k))]> (wr_postgres s)) s)).

(** [_persist_group]: whether the group is confirmed; the payloads of a group are never
    empty. A kind without a handler and without a legacy branch is confirmed by
    nobody. *)
Definition persist_group (k : WriteKind) (path : string) (items : list StagedWrite) (s : writer)
    : result string bool * writer :=
  let payloads := map (fun i => qw_payload (sw_item i)) items in
  let f := faults (wr_attempts s) k path payloads in
  let s := count_attempt s in
  if negb (registered k) && registered_kind k then (Ok false, s) else
  match f_write f with
  | Some n => (Raise "sqlite3.Error", write_table k path (partial_rows k n payloads) s)
  | None =>
      let s := set_stats incr_sqlite (write_table k path payloads s) in
      if drives_postgres k then let r := flush_postgres k payloads f s in (Ok r.1, r.2)
      else (Ok true, s)
  end.

(** [grouped.setdefault(key, []).append(staged)]. *)
Fixpoint group_add (i : StagedWrite) (gs : list ((WriteKind * string) * list StagedWrite)) :=
  let key := (qw_kind (sw_item i), qw_db_path (sw_item i)) in
  match gs with
  | [] => [(key, [i])]
  | (key', items) :: gs =>
      if decide (key = key') then (key', items ++ [i]) :: gs else (key', items) :: group_add i gs
  end.

Definition group_batch (batch : list StagedWrite) : list ((WriteKind * string) * list StagedWrite) :=
  fold_left (fun gs i => group_add i gs) batch [].

(** One group of [_persist_staged_batch], its failure isolated. *)
Definition persist_one (acc : list Z * writer) (g : (WriteKind * string) * list StagedWrite)
    : list Z * writer :=
  let '((k, path), items) := g in
  let '(ids, s) := acc in
  match persist_group k path items s with
  | (Ok true, s') =>
      (ids ++ map sw_stage_id items,
       set_delivered (wr_delivered s' ++
         [(k, path, map (fun i => (sw_stage_id i, qw_payload (sw_item i))) items)]) s')
  | (Ok false, s') => (ids, s')
  | (Raise _, s') => (ids, set_stats incr_errors s')
  end.

Definition persist_staged_batch (batch : list StagedWrite) (s : writer) : list Z * writer :=
  fold_left persist_one (group_batch batch) ([], s).

(** One turn of the loop of [_flush_from_write_ahead_locked]: whether it goes on. *)
Definition flush_turn (force : bool) (now : float) (s : writer) : result string bool * writer :=
  let '(granted, d) := acquire force now (wr_limiter s) in
  let s := set_limiter d s in
  if negb granted then (Ok false, set_stats incr_throttled s) else
  match fetch_staged_batch (wr_max_batch_size s) s with
  | Raise e => (Raise e, s)
  | Ok [] => (Ok false, s)
  | Ok batch =>
      let '(ids, s) := persist_staged_batch batch s in
      if bool_decide (ids = []) then (Ok false, s)
      else if delete_fails (wr_attempts s) then (Ok false, set_stats incr_errors s)
      else (Ok force, set_stats (add_flushed (Z.of_nat (length ids))) (delete_staged_rows ids s))
  end.

(** The [while True]; none when the turns allowed do not reach its end. *)
Fixpoint flush_loop (turns : nat) (force : bool) (now : float) (s : writer)
    : option (result string unit * writer) :=
  match turns with
  | 0 => None
  | S turns =>
      match flush_turn force now s with
      | (Ok true, s') => flush_loop turns force now s'
      | (Ok false, s') => Some (Ok tt, s')
      | (Raise e, s') => Some (Raise e, s')
      end
  end.

(** What a flush does first. *)
Definition begin_flush (s : writer) : writer :=
  set_limiter (update_backlog_depth (pending_write_ahead_count s) (wr_limiter s)) s.

(** Every turn that goes on deletes a row, so one turn more than there are rows is
    enough: the default is never taken ([flush_loop_ends]). *)
Definition flush_from_write_ahead (force : bool) (now : float) (s : writer)
    : result string unit * writer :=
  default (Raise "a flush that does not end", s)
    (flush_loop (S (length (wr_stage s))) force now (begin_flush s)).

(** [_drain_until_empty]; [patience] is how many passes start before the deadline. *)
Fixpoint drain_until_empty (patience : nat) (now : float) (s : writer)
    : result string unit * writer :=
  if (pending_write_ahead_count s <=? 0)%Z then (Ok tt, s) else
  match patience with
  | 0 => (Ok tt, s)
  | S patience =>
      match flush_from_write_ahead true now s with
      | (Raise e, s') => (Raise e, s')
      | (Ok _, s') =>
          if (pending_write_ahead_count s <=? pending_write_ahead_count s')%Z then (Ok tt, s')
          else drain_until_empty patience now s'
      end
  end.

(** [_worker_loop]: an exception that leaves a flush ends the thread. *)
Definition worker_flush (now : float) (s : writer) : writer :=
  if wr_running s then
    match flush_from_write_ahead false now s with
    | (Ok _, s') => s'
    | (Raise _, s') => set_running false s'
    end
  else s.

(** [stop]: the worker's last forced flush, then the bounded drain. *)
Definition stop (patience : nat) (now : float) (s : writer) : result string unit * writer :=
  let s := if wr_running s then set_running false (flush_from_write_ahead true now s).2 else s in
  drain_until_empty patience now s.

Definition telemetry_snapshot (s : writer) : Z * writer_stats * bool * bool :=
  (pending_write_ahead_count s, wr_stats s, wr_running s, wr_postgres_configured s).

(** The process dies: the stage and the tables stay. *)
Definition crash (now : float) (s : writer) : writer :=
  let fresh := writer_init (wr_max_batch_size s) (wr_postgres_configured s) now in
  set_limiter (wr_limiter fresh) (set_stats (fun _ => stats_init) (set_running false s)).

(** A flush that the process does not survive: [turns] turns of its loop were done, and of the
    batch read then [groups] groups; [inside] says what of the next group's SQLite
    write was committed, none of it confirmed: nothing, all, or what it commits with [n] rows.
    The rows of the batch are still staged. *)
Fixpoint turns_done (turns : nat) (force : bool) (now : float) (s : writer) : writer :=
  match turns with
  | 0 => s
  | S turns => match flush_turn force now s with
               | (Ok true, s') => turns_done turns force now s'
               | (_, s') => s'
               end
  end.

Definition half_written (inside : option (option nat)) (g : (WriteKind * string) * list StagedWrite)
    (s : writer) : writer :=
  let payloads := map (fun i => qw_payload (sw_item i)) g.2 in
  match inside with
  | None => s
  | Some None => write_table g.1.1 g.1.2 payloads s
  | Some (Some n) => write_table g.1.1 g.1.2 (partial_rows g.1.1 n payloads) s
  end.

Definition interrupted (groups : nat) (inside : option (option nat))
    (gs : list ((WriteKind * string) * list StagedWrite)) (s : writer) : writer :=
  let s := (fold_left persist_one (take groups gs) ([], s)).2 in
  match drop groups gs with
  | g :: _ => half_written inside g s
  | [] => s
  end.

Definition die (turns groups : nat) (inside : option (option nat)) (force : bool) (now : float)
    (s : writer) : writer :=
  let s := turns_done turns force now (begin_flush s) in
  crash now
    (match fetch_staged_batch (wr_max_batch_size s) s with
     | Raise _ => s
     | Ok batch => interrupted groups inside (group_batch batch) s
     end).

(** ** Keys

    A group is named by its kind and its target path. *)

Definition key : Type := (WriteKind * string)%type.

Definition row_entry (r : staged_row) : Z * json := (sr_stage_id r, sr_payload r).
Definition item_entry (i : StagedWrite) : Z * json := (sw_stage_id i, qw_payload (sw_item i)).

Definition row_matches (q : key) (r : staged_row) : bool :=
  bool_decide (sr_write_kind r = WriteKind_value q.1) && bool_decide (sr_target r = q.2).
Definition item_key (i : StagedWrite) : key := (qw_kind (sw_item i), qw_db_path (sw_item i)).
Definition item_matches (q : key) (i : StagedWrite) : bool := bool_decide (item_key i = q).

(** The staged rows of a key and the confirmed ones, oldest first. *)
Definition staged_for (q : key) (rows : list staged_row) : list (Z * json) :=
  map row_entry (List.filter (row_matches q) rows).
Definition batch_for (q : key) (b : list StagedWrite) : list (Z * json) :=
  map item_entry (List.filter (item_matches q) b).
Definition delivered_for (q : key) (l : list (WriteKind * string * list (Z * json)))
    : list (list (Z * json)) :=
  map snd (List.filter (fun g => bool_decide (g.1 = q)) l).

Lemma kind_of_value_inv v k : kind_of_value v = Some k -> v = WriteKind_value k.
Proof. intros H%find_some. destruct H as [_ H%bool_decide_eq_true]. done. Qed.

Lemma WriteKind_value_inj a b : WriteKind_value a = WriteKind_value b -> a = b.
Proof. by destruct a, b. Qed.

Definition is_parsed (r : staged_row) (i : StagedWrite) : Prop :=
  sw_stage_id i = sr_stage_id r /\ qw_payload (sw_item i) = sr_payload r /\
  qw_db_path (sw_item i) = sr_target r /\ WriteKind_value (qw_kind (sw_item i)) = sr_write_kind r.

Lemma parse_rows_spec rows b : parse_rows rows = Ok b -> Forall2 is_parsed rows b.
Proof.
  revert b. induction rows as [|r rows IH]; intros b; simpl; [intros; simplify_eq; constructor|].
  destruct (kind_of_value _) as [k|] eqn:E; [|done]. destruct (parse_rows rows) as [b'|]; [|done].
  simpl. intros. simplify_eq. constructor; [|by apply IH].
  split_and!; try done. simpl. by rewrite (kind_of_value_inv _ _ E).
Qed.

Definition known_kind (r : staged_row) : Prop := is_Some (kind_of_value (sr_write_kind r)).

Lemma parse_rows_known rows : Forall known_kind rows -> exists b, parse_rows rows = Ok b.
Proof.
  induction 1 as [|r rows [k Hk] _ [b IH]]; simpl; [by eexists|]. rewrite Hk, IH. by eexists.
Qed.

Lemma parsed_matches q r i : is_parsed r i -> item_matches q i = row_matches q r.
Proof.
  intros (_ & _ & Hp & Hk). unfold item_matches, row_matches, item_key. destruct q as [k p]. simpl.
  rewrite <- Hk, <- Hp. destruct (decide (qw_kind (sw_item i) = k)) as [->|Hne].
  - rewrite (bool_decide_true (WriteKind_value k = _)) by done. simpl. apply bool_decide_ext. naive_solver.
  - rewrite (bool_decide_false (WriteKind_value _ = _)); [|by intros ?%WriteKind_value_inj].
    apply bool_decide_false. naive_solver.
Qed.

Lemma parsed_batch q rows b : Forall2 is_parsed rows b -> batch_for q b = staged_for q rows.
Proof.
  unfold batch_for, staged_for. induction 1 as [|r i rows b Hp _ IH]; [done|]. simpl.
  rewrite (parsed_matches q r i Hp). destruct (row_matches q r); simpl; [|done].
  f_equal; [|done]. destruct Hp as (? & ? & _). unfold item_entry, row_entry. congruence.
Qed.

(** ** Groups *)

Definition group_of (q : key) (gs : list (key * list StagedWrite)) : list StagedWrite :=
  concat (map (fun g => if decide (g.1 = q) then g.2 else []) gs).

Lemma group_of_absent q gs : q ∉ map fst gs -> group_of q gs = [].
Proof.
  induction gs as [|g gs IH]; [done|]. simpl. intros [Hne Hn]%not_elem_of_cons.
  unfold group_of. simpl. rewrite decide_False by done. by apply IH.
Qed.

Lemma group_add_spec i gs :
  NoDup (map fst gs) ->
  NoDup (map fst (group_add i gs)) /\
  (forall q, q ∈ map fst (group_add i gs) <-> q ∈ map fst gs \/ q = item_key i) /\
  (forall q, group_of q (group_add i gs)
             = group_of q gs ++ (if item_matches q i then [i] else [])).
Proof.
  change (qw_kind (sw_item i), qw_db_path (sw_item i)) with (item_key i).
  induction gs as [|[k its] gs IH]; intros Hnd; simpl.
  - split; [apply NoDup_singleton|]. split; [set_solver|]. intros q. unfold group_of, item_matches. simpl.
    case_decide; [by rewrite bool_decide_true|by rewrite bool_decide_false].
  - apply NoDup_cons in Hnd as [Hk Hnd]. destruct (IH Hnd) as (IH1 & IH2 & IH3).
    simpl in Hk. case_decide as E; [change (item_key i = k) in E|change (item_key i <> k) in E; rename E into Hne];
      simpl.
    + split; [by constructor|]. split; [subst k; set_solver|]. intros q. unfold group_of. simpl.
      fold (group_of q gs). unfold item_matches. rewrite E. case_decide as Hq.
      * subst q. rewrite bool_decide_true, (group_of_absent k gs), !app_nil_r by done. done.
      * rewrite bool_decide_false by done. by rewrite app_nil_r.
    + split; [constructor; [|done]; rewrite IH2; naive_solver|].
      split; [intros q; specialize (IH2 q); set_solver|]. intros q. unfold group_of in *. simpl.
      rewrite IH3. by rewrite app_assoc.
Qed.

Lemma group_batch_spec b :
  NoDup (map fst (group_batch b)) /\
  (forall q, q ∈ map fst (group_batch b) <-> exists i, i ∈ b /\ item_key i = q) /\
  forall q, group_of q (group_batch b) = List.filter (item_matches q) b.
Proof.
  unfold group_batch. induction b as [|i b IH] using rev_ind.
  { simpl. split; [constructor|]. split; [|done]. set_solver. }
  rewrite fold_left_app. simpl. destruct IH as (H1 & H2 & H3).
  destruct (group_add_spec i _ H1) as (G1 & G2 & G3). split; [done|]. split.
  - intros q. rewrite G2, H2. set_solver.
  - intros q. rewrite G3, H3, List.filter_app. simpl. by destruct (item_matches q i).
Qed.

(** ** One batch *)

(** Persisting touches neither the stage nor the settings. *)
Definition same_stage (s s' : writer) : Prop :=
  wr_stage s' = wr_stage s /\ wr_next_id s' = wr_next_id s /\
  wr_max_batch_size s' = wr_max_batch_size s /\
  wr_postgres_configured s' = wr_postgres_configured s /\ wr_limiter s' = wr_limiter s /\
  wr_running s' = wr_running s.

#[local] Instance same_stage_preorder : PreOrder same_stage.
Proof. split; [done|]. unfold same_stage. intros ???. intuition congruence. Qed.

Lemma persist_group_same k path items s :
  same_stage s (persist_group k path items s).2 /\
  wr_delivered (persist_group k path items s).2 = wr_delivered s.
Proof.
  unfold persist_group, flush_postgres. destruct (negb _ && _); [done|].
  destruct (f_write _); [done|]. destruct (drives_postgres k); [|done].
  destruct (negb _); [done|]. by destruct (f_postgres _).
Qed.

(** Whether the group is confirmed at this attempt. *)
Definition confirmed (q : key) (items : list StagedWrite) (s : writer) : bool :=
  match (persist_group q.1 q.2 items s).1 with Ok b => b | Raise _ => false end.

Lemma persist_one_spec q items ids s :
  let r := persist_one (ids, s) (q, items) in
  same_stage s r.2 /\
  r.1 = ids ++ (if confirmed q items s then map sw_stage_id items else []) /\
  wr_delivered r.2 = wr_delivered s ++
    (if confirmed q items s then [(q, map item_entry items)] else []).
Proof.
  destruct q as [k path]. unfold persist_one, confirmed. cbn [fst snd].
  destruct (persist_group_same k path items s) as [Hs Hd].
  destruct (persist_group k path items s) as [[[]|e] s']; simpl in *.
  - by rewrite Hd.
  - by rewrite !app_nil_r.
  - by rewrite !app_nil_r.
Qed.

Lemma delivered_for_app q l1 l2 :
  delivered_for q (l1 ++ l2) = delivered_for q l1 ++ delivered_for q l2.
Proof. unfold delivered_for. by rewrite List.filter_app, map_app. Qed.

Lemma delivered_for_one q k es :
  delivered_for q [(k, es)] = if decide (k = q) then [es] else [].
Proof.
  unfold delivered_for. simpl. destruct (decide (k = q)) as [E|E].
  - by rewrite bool_decide_true.
  - by rewrite bool_decide_false.
Qed.

Lemma persist_all_spec gs ids s :
  NoDup (map fst gs) ->
  let r := fold_left persist_one gs (ids, s) in
  exists dk : list key,
    (forall q, q ∈ dk -> q ∈ map fst gs) /\ same_stage s r.2 /\
    (forall q, delivered_for q (wr_delivered r.2) = delivered_for q (wr_delivered s) ++
       (if decide (q ∈ dk) then [map item_entry (group_of q gs)] else [])) /\
    (forall x, x ∈ r.1 <-> x ∈ ids \/ exists q, q ∈ dk /\ x ∈ map sw_stage_id (group_of q gs)) /\
    (forall q, q ∈ map fst gs ->
       exists s0, same_stage s s0 /\ confirmed q (group_of q gs) s0 = bool_decide (q ∈ dk)).
Proof.
  revert ids s. induction gs as [|[k its] gs IH]; intros ids s Hnd; cbn [fold_left].
  { exists []. split; [set_solver|]. split; [done|]. split; [|split; set_solver].
    intros q. by rewrite app_nil_r. }
  cbn in Hnd. apply NoDup_cons in Hnd as [Hk Hnd].
  destruct (persist_one_spec k its ids s) as (Hs & Hids & Hdel).
  destruct (persist_one (ids, s) (k, its)) as [ids1 s1]. simpl in Hs, Hids, Hdel.
  destruct (IH ids1 s1 Hnd) as (dk & Hsub & Hs' & Hd' & Hi' & Hc').
  assert (forall q, group_of q ((k, its) :: gs)
    = if decide (k = q) then its else group_of q gs) as Hg.
  { intros q.
    change (group_of q ((k, its) :: gs)) with ((if decide (k = q) then its else []) ++ group_of q gs).
    destruct (decide (k = q)) as [->|]; [|done]. rewrite group_of_absent by done. apply app_nil_r. }
  exists (if confirmed k its s then k :: dk else dk). split.
  { intros q Hq. cbn. destruct (confirmed k its s); [|right; by apply Hsub].
    apply elem_of_cons in Hq as [->|Hq]; [left|right; by apply Hsub]. }
  split; [by etrans|]. split.
  - intros q. rewrite Hd', Hdel, delivered_for_app, Hg, <- app_assoc. f_equal.
    destruct (decide (k = q)) as [->|Hne].
    + rewrite (decide_False (P := q ∈ dk)) by (intros ?%Hsub; done). rewrite app_nil_r.
      destruct (confirmed q its s); rewrite ?delivered_for_one.
      * by rewrite !decide_True by (done || left).
      * rewrite (decide_False (P := q ∈ dk)) by (intros ?%Hsub; done). done.
    + destruct (confirmed k its s); rewrite ?delivered_for_one; [|done].
      rewrite (decide_False (P := k = q)) by done. cbn [app].
      destruct (decide (q ∈ dk)); [by rewrite decide_True by (by right)|].
      rewrite decide_False; [done|]. intros [?|?]%elem_of_cons; congruence.
  - split; [|intros q Hq; rewrite Hg; destruct (decide (k = q)) as [<-|Hne]].
    2: { exists s. split; [done|]. destruct (confirmed k its s).
         - by rewrite bool_decide_true by left.
         - rewrite bool_decide_false; [done|]. by intros ?%Hsub. }
    2: { cbn in Hq. apply elem_of_cons in Hq as [|Hq]; [by subst|].
         destruct (Hc' q Hq) as (s0 & Hs0 & Hc0). exists s0. split; [by etrans|]. rewrite Hc0.
         destruct (confirmed k its s); [|done]. apply bool_decide_ext.
         split; [by right|]. intros [?|?]%elem_of_cons; congruence. }
    intros x. rewrite Hi', Hids, elem_of_app.
    assert ((exists q, q ∈ dk /\ x ∈ map sw_stage_id (group_of q ((k, its) :: gs))) <->
            (exists q, q ∈ dk /\ x ∈ map sw_stage_id (group_of q gs))) as Hdk.
    { split; intros (q & Hq & Hx); exists q; (split; [done|]); rewrite Hg in *;
        rewrite decide_False in * by (intros <-; by apply Hsub in Hq); done. }
    rewrite <- Hdk. destruct (confirmed k its s).
    + split.
      * intros [[?|?]|(q & ? & ?)]; [by left| |right; exists q; split; [by right|done]].
        right. exists k. split; [left|]. by rewrite Hg, decide_True.
      * intros [?|(q & [->|Hq]%elem_of_cons & Hx)]; [by left; left| |right; by exists q].
        left. right. by rewrite Hg, decide_True in Hx.
    + split; [intros [[?|?%not_elem_of_nil]|?]; tauto|tauto].
Qed.

(** ** What a turn of the flush loop does *)

Lemma filter_filter {A} (f g : A -> bool) l :
  List.filter f (List.filter g l) = List.filter (fun x => g x && f x) l.
Proof.
  induction l as [|x l IH]; [done|]. simpl. destruct (g x); simpl; [|done].
  destruct (f x); by rewrite IH.
Qed.

Lemma NoDup_map_unique {A B} (f : A -> B) l x y :
  NoDup (map f l) -> x ∈ l -> y ∈ l -> f x = f y -> x = y.
Proof.
  induction l as [|z l IH]; [set_solver|]. simpl. intros [Hz Hnd]%NoDup_cons Hx Hy E.
  apply elem_of_cons in Hx as [->|Hx], Hy as [->|Hy]; [done| | |by apply IH].
  - destruct Hz. rewrite E. by apply (list_elem_of_fmap_2 f).
  - destruct Hz. rewrite <- E. by apply (list_elem_of_fmap_2 f).
Qed.

(** Deleting the ids of the confirmed keys removes exactly their rows of the batch. *)
Lemma delete_confirmed A B b (dk : list key) (ids : list Z) q :
  NoDup (map sr_stage_id (A ++ B)) -> Forall2 is_parsed A b ->
  (forall x, x ∈ ids <-> exists q, q ∈ dk /\ x ∈ map sw_stage_id (List.filter (item_matches q) b)) ->
  staged_for q (List.filter (fun r => negb (bool_decide (sr_stage_id r ∈ ids))) (A ++ B))
  = (if decide (q ∈ dk) then [] else staged_for q A) ++ staged_for q B.
Proof.
  intros Hnd HAb Hids.
  assert (forall r, r ∈ A -> exists i, i ∈ b /\ is_parsed r i) as HA.
  { clear -HAb. induction HAb as [|r i A b Hp _ IH]; [set_solver|]. intros r' [->|Hr]%elem_of_cons.
    - exists i. split; [left|done].
    - destruct (IH _ Hr) as (i' & ? & ?). exists i'. split; [by right|done]. }
  assert (forall i, i ∈ b -> exists r, r ∈ A /\ is_parsed r i) as Hb.
  { clear -HAb. induction HAb as [|r i A b Hp _ IH]; [set_solver|]. intros r' [->|Hr]%elem_of_cons.
    - exists r. split; [left|done].
    - destruct (IH _ Hr) as (i' & ? & ?). exists i'. split; [by right|done]. }
  assert (forall r, r ∈ A ++ B -> sr_stage_id r ∈ ids <->
            r ∈ A /\ exists q, q ∈ dk /\ row_matches q r = true) as Hdel.
  { intros r Hr. rewrite Hids. split.
    - intros (p & Hp & (i & E & Hi)%list_elem_of_fmap). apply list_elem_of_In, filter_In in Hi as [Hi Hm].
      apply list_elem_of_In in Hi. destruct (Hb i Hi) as (r' & Hr' & Hpar).
      assert (r = r') as ->.
      { apply (NoDup_map_unique sr_stage_id (A ++ B)); [done..|set_solver|].
        destruct Hpar as (<- & _). done. }
      split; [done|]. exists p. split; [done|]. by rewrite <- (parsed_matches p r' i).
    - intros (HrA & p & Hp & Hm). destruct (HA r HrA) as (i & Hi & Hpar).
      exists p. split; [done|]. destruct Hpar as (E & Hrest). rewrite <- E.
      apply (list_elem_of_fmap_2 sw_stage_id). apply list_elem_of_In, filter_In.
      split; [by apply list_elem_of_In|]. by rewrite (parsed_matches p r i). }
  assert (forall r p, row_matches p r = true -> row_matches q r = true -> p = q) as Hkey.
  { intros r [k1 p1] Hm1 Hm2. unfold row_matches in *. destruct q as [k2 p2]. bool_prop. simpl in *.
    f_equal; [|congruence]. apply WriteKind_value_inj. congruence. }
  unfold staged_for. rewrite filter_filter, List.filter_app, map_app. f_equal.
  - erewrite (filter_ext_in (A := staged_row) _
      (fun r => if decide (q ∈ dk) then false else row_matches q r)).
    + case_decide; [|done]. induction A as [|r A IHA]; [done|]. clear. by induction A.
    + intros r Hr%list_elem_of_In. destruct (row_matches q r) eqn:Hm;
        [|by rewrite andb_false_r; case_decide]. rewrite andb_true_r.
      case_decide as Hq; [apply negb_false_iff, bool_decide_eq_true|apply negb_true_iff, bool_decide_eq_false];
        (rewrite Hdel; [|set_solver]).
      * split; [done|]. by exists q.
      * intros (_ & p & Hp & Hmp). by rewrite (Hkey r p Hmp Hm) in Hp.
  - f_equal. apply filter_ext_in. intros r Hr%list_elem_of_In.
    rewrite bool_decide_false; [done|]. rewrite Hdel by set_solver. intros [HrA _].
    rewrite map_app in Hnd. apply NoDup_app in Hnd as (_ & Hd & _).
    apply (Hd (sr_stage_id r)); by apply (list_elem_of_fmap_2 sr_stage_id).
Qed.

Record queue_ok (s : writer) : Prop := {
  qok_nodup : NoDup (map sr_stage_id (wr_stage s));
  qok_next : Forall (fun r => (sr_stage_id r < wr_next_id s)%Z) (wr_stage s);
  qok_known : Forall known_kind (wr_stage s)
}.

(** Everything a key was given, confirmed before staged. *)
Definition accounted (q : key) (s : writer) : list (Z * json) :=
  concat (delivered_for q (wr_delivered s)) ++ staged_for q (wr_stage s).

Lemma NoDup_map_filter {A B} (f : A -> B) (p : A -> bool) l :
  NoDup (map f l) -> NoDup (map f (List.filter p l)).
Proof.
  induction l as [|x l IH]; [done|]. simpl. intros [Hx Hnd]%NoDup_cons.
  destruct (p x); [|by apply IH]. constructor; [|by apply IH].
  intros (y & E & Hy)%list_elem_of_fmap. apply Hx. rewrite E. apply (list_elem_of_fmap_2 f).
  apply list_elem_of_In in Hy. apply filter_In in Hy as [Hy _]. by apply list_elem_of_In.
Qed.

Lemma Forall_list_filter {A} (P : A -> Prop) (p : A -> bool) l : Forall P l -> Forall P (List.filter p l).
Proof. induction 1; simpl; [done|]. case_match; [by constructor|done]. Qed.

Lemma queue_ok_stats s f : queue_ok s -> queue_ok (set_stats f s).
Proof. by intros [H1 H2 H3]. Qed.

Lemma delete_stage ids s :
  wr_stage (delete_staged_rows ids s)
  = List.filter (fun r => negb (bool_decide (sr_stage_id r ∈ ids))) (wr_stage s).
Proof.
  destruct ids; [|done]. cbn [delete_staged_rows]. induction (wr_stage s) as [|r l IH]; [done|].
  cbn [List.filter]. rewrite bool_decide_false by set_solver. cbn [negb]. by f_equal.
Qed.

Lemma delete_same ids s :
  wr_next_id (delete_staged_rows ids s) = wr_next_id s /\
  wr_running (delete_staged_rows ids s) = wr_running s /\
  wr_delivered (delete_staged_rows ids s) = wr_delivered s.
Proof. by destruct ids. Qed.

Lemma queue_ok_delete ids s : queue_ok s -> queue_ok (delete_staged_rows ids s).
Proof.
  intros [H1 H2 H3]. destruct (delete_same ids s) as (Hn & _).
  split; rewrite ?delete_stage, ?Hn; [by apply NoDup_map_filter|by apply Forall_list_filter..].
Qed.

Lemma same_stage_ok s s' : same_stage s s' -> queue_ok s -> queue_ok s'.
Proof.
  intros (Hst & Hid & _) [H1 H2 H3].
  split; [by rewrite Hst|rewrite Hst, Hid; done|by rewrite Hst].
Qed.

Lemma acquire_force now d : acquire true now d = (true, d).
Proof. done. Qed.

(** The batch a turn reads, and what persisting it confirms. *)
Lemma turn_batch s :
  queue_ok s ->
  exists b, fetch_staged_batch (wr_max_batch_size s) s = Ok b /\
    Forall2 is_parsed (take (Z.to_nat (Z.max (wr_max_batch_size s) 1)) (wr_stage s)) b.
Proof.
  intros Hok. unfold fetch_staged_batch.
  destruct (parse_rows_known (take (Z.to_nat (Z.max (wr_max_batch_size s) 1)) (wr_stage s)))
    as [b Hb]; [by apply Forall_take, Hok|].
  exists b. split; [done|]. by apply parse_rows_spec.
Qed.

Lemma persist_batch_spec b s :
  let r := persist_staged_batch b s in
  exists dk : list key,
    (forall q, q ∈ dk -> exists i, i ∈ b /\ item_key i = q) /\
    same_stage s r.2 /\
    (forall q, delivered_for q (wr_delivered r.2)
               = delivered_for q (wr_delivered s) ++ (if decide (q ∈ dk) then [batch_for q b] else [])) /\
    (forall x, x ∈ r.1 <->
       exists q, q ∈ dk /\ x ∈ map sw_stage_id (List.filter (item_matches q) b)) /\
    (forall i, i ∈ b -> exists s0, same_stage s s0 /\
       confirmed (item_key i) (List.filter (item_matches (item_key i)) b) s0
       = bool_decide (item_key i ∈ dk)).
Proof.
  intros r. destruct (group_batch_spec b) as (Hnd & Hk & Hg).
  destruct (persist_all_spec (group_batch b) [] s Hnd) as (dk & Hsub & Hs & Hd & Hi & Hc).
  exists dk. split; [intros q Hq; by apply Hk, Hsub|]. split; [done|]. split.
  - intros q. subst r. unfold persist_staged_batch. rewrite Hd, Hg. done.
  - split.
    + intros x. subst r. unfold persist_staged_batch. rewrite Hi. setoid_rewrite Hg. set_solver.
    + intros i Hin. rewrite <- Hg. apply Hc. apply Hk. by exists i.
Qed.

(** Deleting a non-empty list of confirmed ids shortens the stage. *)
Lemma delete_shrinks {n rows} b (dk : list key) ids :
  Forall2 is_parsed (take n rows) b ->
  (forall x, x ∈ ids <-> exists q, q ∈ dk /\ x ∈ map sw_stage_id (List.filter (item_matches q) b)) ->
  ids <> [] ->
  length (List.filter (fun r => negb (bool_decide (sr_stage_id r ∈ ids))) rows) < length rows.
Proof.
  intros Hpar Hi Hne. destruct ids as [|x ids'] eqn:Eids; [done|]. rewrite <- Eids in *.
  assert (x ∈ ids) as Hx by (rewrite Eids; left).
  pose proof Hx as (q & _ & (j & E & Hj)%list_elem_of_fmap)%Hi.
  apply list_elem_of_In, filter_In in Hj as [Hj _]. apply list_elem_of_In in Hj.
  assert (exists r, r ∈ take n rows /\ sr_stage_id r = x) as (r & Hr & Er).
  { clear -Hpar Hj E. induction Hpar as [|r j' A b (Hid & _) _ IH]; [set_solver|].
    apply elem_of_cons in Hj as [->|Hj]; [exists r; split; [left|congruence]|].
    destruct (IH Hj) as (r' & ? & ?). exists r'. split; [by right|done]. }
  apply elem_of_take in Hr as (k & Hk & _). apply list_elem_of_lookup_2 in Hk. clear -Hx Hk Er.
  induction rows as [|y l IH]; [set_solver|]. simpl.
  pose proof (List.filter_length_le (fun r => negb (bool_decide (sr_stage_id r ∈ ids))) l).
  apply elem_of_cons in Hk as [->|Hr].
  - rewrite bool_decide_true by (by rewrite Er). simpl. lia.
  - specialize (IH Hr). case_match; simpl; lia.
Qed.

(** What no step may lose, and what only a failed delete may repeat. *)
Definition keeps (s s' : writer) : Prop :=
  (forall q e, e ∈ accounted q s -> e ∈ accounted q s') /\
  ((forall n, delete_fails n = false) -> forall q, accounted q s' = accounted q s).

#[local] Instance keeps_preorder : PreOrder keeps.
Proof.
  split; [done|]. intros s1 s2 s3 [H1 E1] [H2 E2]. split; [naive_solver|].
  intros Hdel q. by rewrite E2, E1.
Qed.

Lemma keeps_equal s s' : (forall q, accounted q s' = accounted q s) -> keeps s s'.
Proof. intros E. split; [intros q e; by rewrite E|done]. Qed.

(** A turn loses nothing and, unless the delete fails, repeats nothing. *)
Lemma turn_accounts force now s :
  queue_ok s ->
  let r := flush_turn force now s in
  (exists b, r.1 = Ok b) /\ queue_ok r.2 /\ wr_next_id r.2 = wr_next_id s /\
  keeps s r.2.
Proof.
  intros Hok. unfold flush_turn. destruct (acquire _ _ _) as [granted d].
  destruct granted; cbn [negb].
  2: { split; [by eexists|]. split; [by destruct Hok|]. done. }
  set (s0 := set_limiter d s).
  assert (queue_ok s0) as Hok0 by (by destruct Hok).
  destruct (turn_batch s0 Hok0) as (b & Hb & Hpar).
  change (wr_max_batch_size (set_limiter d s)) with (wr_max_batch_size s0). rewrite Hb.
  destruct b as [|i b']; [split; [by eexists|]; split; [done|]; done|]. set (b := i :: b') in *.
  destruct (persist_batch_spec b s0) as (dk & _ & Hs & Hd & Hi & _).
  destruct (persist_staged_batch b s0) as [ids s1]. cbn [fst snd] in *.
  assert (queue_ok s1) as Hok1 by (by eapply same_stage_ok).
  destruct Hs as (Hst & Hid & _ & _ & _ & Hrun).
  set (A := take (Z.to_nat (Z.max (wr_max_batch_size s0) 1)) (wr_stage s0)) in *.
  set (B := drop (Z.to_nat (Z.max (wr_max_batch_size s0) 1)) (wr_stage s0)).
  assert (wr_stage s0 = A ++ B) as HAB by (symmetry; apply take_drop).
  assert (forall q, concat (delivered_for q (wr_delivered s1)) =
    concat (delivered_for q (wr_delivered s)) ++ (if decide (q ∈ dk) then staged_for q A else [])) as Hdc.
  { intros q. rewrite Hd, concat_app. f_equal. case_decide; [|done].
    simpl. rewrite app_nil_r. by apply parsed_batch. }
  case_bool_decide as Hne.
  { cbn [fst snd]. split; [by eexists|]. split; [done|]. split; [done|].
    apply keeps_equal. intros q. unfold accounted. rewrite Hdc, Hst.
    case_decide as Hq; [|by rewrite app_nil_r].
    assert (staged_for q A = []) as ->; [|by rewrite app_nil_r].
    destruct (staged_for q A) as [|e es] eqn:E; [done|]. exfalso.
    rewrite <- (parsed_batch q A b Hpar) in E. unfold batch_for in E.
    destruct (List.filter (item_matches q) b) as [|j js] eqn:Ef; [done|].
    assert (sw_stage_id j ∈ ids) as Hj.
    { apply Hi. exists q. split; [done|]. rewrite Ef. left. }
    rewrite Hne in Hj. set_solver. }
  destruct (delete_fails (wr_attempts s1)) eqn:Hdf; cbn [fst snd].
  { split; [by eexists|]. split; [by apply queue_ok_stats|]. split; [done|].
    split; [|intros Hdel; by rewrite Hdel in Hdf].
    intros q e. unfold accounted. cbn [set_stats wr_delivered wr_stage]. rewrite Hdc, Hst. set_solver. }
  pose proof (qok_nodup s0 Hok0) as Hnd. rewrite HAB in Hnd.
  pose proof (fun q => delete_confirmed A B b dk ids q Hnd Hpar Hi) as Hdc'.
  destruct (delete_same ids s1) as (Hn1 & _ & Hd1).
  split; [by eexists|]. split; [by apply queue_ok_stats, queue_ok_delete|].
  split; [cbn; by rewrite Hn1|].
  apply keeps_equal. intros q. unfold accounted. cbn [set_stats wr_delivered wr_stage].
  rewrite delete_stage, Hd1, Hst, HAB, Hdc', Hdc, <- app_assoc.
  f_equal. change (wr_stage s) with (wr_stage s0). rewrite HAB. unfold staged_for.
  rewrite List.filter_app, map_app. case_decide; done.
Qed.

(** ** The flush loop *)

Lemma turn_goes_on force now s s' :
  flush_turn force now s = (Ok true, s') -> length (wr_stage s') < length (wr_stage s).
Proof.
  unfold flush_turn. destruct (acquire _ _ _) as [[] d]; cbn [negb]; [|done].
  set (s0 := set_limiter d s).
  destruct (fetch_staged_batch _ _) as [[|i b']|e] eqn:Hb; [done| |done].
  apply parse_rows_spec in Hb. set (b := i :: b') in *.
  destruct (persist_batch_spec b s0) as (dk & _ & Hs & _ & Hi & _).
  destruct (persist_staged_batch b s0) as [ids s1]. cbn [fst snd] in *.
  case_bool_decide as Hne; [done|]. destruct (delete_fails _); [done|]. intros E. simplify_eq.
  cbn [set_stats wr_stage]. rewrite delete_stage. destruct Hs as (-> & _).
  apply (delete_shrinks b dk ids Hb Hi Hne).
Qed.

(** The loop ends within one turn more than there are rows, and more turns change nothing. *)
Lemma flush_loop_ends turns force now s :
  length (wr_stage s) < turns ->
  exists r, flush_loop turns force now s = Some r /\
            flush_loop (S (length (wr_stage s))) force now s = Some r.
Proof.
  revert s. induction turns as [turns IH] using lt_wf_ind. intros s Hf.
  destruct turns as [|turns]; [lia|]. cbn [flush_loop].
  destruct (flush_turn force now s) as [[[]|e] s'] eqn:Et; [|by eexists..].
  apply turn_goes_on in Et. destruct (IH turns) with (s := s') as (r & -> & Hr); [lia..|].
  exists r. split; [done|]. destruct (decide (length (wr_stage s) = turns)) as [->|Hne].
  - destruct (IH turns) with (s := s') as (r' & -> & Hr'); [lia..|]. congruence.
  - destruct (IH (length (wr_stage s))) with (s := s') as (r' & -> & Hr'); [lia..|]. congruence.
Qed.

(** A flush is its loop. *)
Lemma flush_is_loop force now s :
  flush_loop (S (length (wr_stage s))) force now (begin_flush s) = Some (flush_from_write_ahead force now s).
Proof.
  unfold flush_from_write_ahead.
  destruct (flush_loop_ends (S (length (wr_stage s))) force now (begin_flush s)) as (r & -> & _); [cbn; lia|done].
Qed.

Lemma flush_loop_accounts turns force now s r :
  queue_ok s -> flush_loop turns force now s = Some r ->
  r.1 = Ok tt /\ queue_ok r.2 /\ wr_next_id r.2 = wr_next_id s /\ keeps s r.2.
Proof.
  revert s. induction turns as [|turns IH]; intros s Hok; [done|].
  cbn [flush_loop]. destruct (turn_accounts force now s Hok) as ([b Hb] & Hok' & Hn & Ha).
  destruct (flush_turn force now s) as [r' s']. cbn [fst snd] in *. subst r'.
  destruct b; [|by intros [= <-]]. intros Hr.
  destruct (IH s' Hok' Hr) as (? & ? & Hn' & Ha'). split_and!; [done|done|congruence|by etrans].
Qed.

Lemma flush_accounts force now s :
  queue_ok s ->
  let r := flush_from_write_ahead force now s in
  r.1 = Ok tt /\ queue_ok r.2 /\ wr_next_id r.2 = wr_next_id s /\ keeps s r.2.
Proof.
  intros Hok. apply (flush_loop_accounts (S (length (wr_stage s))) force now (begin_flush s));
    [by destruct Hok|apply flush_is_loop].
Qed.

Lemma drain_accounts patience now s :
  queue_ok s ->
  let r := drain_until_empty patience now s in
  r.1 = Ok tt /\ queue_ok r.2 /\ wr_next_id r.2 = wr_next_id s /\ keeps s r.2.
Proof.
  revert s. induction patience as [|n IH]; intros s Hok; cbn [drain_until_empty];
    destruct (_ <=? 0)%Z; try done.
  destruct (flush_accounts true now s Hok) as (Hr & Hok' & Hn & Ha).
  destruct (flush_from_write_ahead true now s) as [r s']. cbn [fst snd] in *. subst r.
  destruct (_ <=? _)%Z; [done|]. destruct (IH s' Hok') as (? & ? & Hn' & Ha').
  split_and!; [done|done|congruence|by etrans].
Qed.

(** ** Histories *)

Inductive writer_event :=
  | EvEnqueue (item : QueuedWrite)
  | EvWorker (now : float)
  | EvStop (patience : nat) (now : float)
  | EvCrash (now : float)
  | EvDie (turns groups : nat) (inside : option (option nat)) (force : bool) (now : float).

Definition writer_step (s : writer) (ev : writer_event) : writer :=
  match ev with
  | EvEnqueue item => enqueue item (start s)
  | EvWorker now => worker_flush now s
  | EvStop patience now => (stop patience now s).2
  | EvCrash now => crash now s
  | EvDie turns groups inside force now => die turns groups inside force now s
  end.

(** The process did not die inside a flush. *)
Definition survives (ev : writer_event) : Prop :=
  match ev with EvDie _ _ _ _ _ => False | _ => True end.

Definition enqueued_for (q : key) (evs : list writer_event) : list json :=
  omap (fun ev => match ev with
                  | EvEnqueue it => if bool_decide ((qw_kind it, qw_db_path it) = q)
                                    then Some (qw_payload it) else None
                  | _ => None end) evs.

Lemma enqueue_spec item s :
  queue_ok s ->
  queue_ok (enqueue item (start s)) /\
  forall q, accounted q (enqueue item (start s)) = accounted q s ++
    (if bool_decide ((qw_kind item, qw_db_path item) = q) then [(wr_next_id s, qw_payload item)] else []).
Proof.
  intros Hok. assert (forall s0, queue_ok s0 -> queue_ok (enqueue item s0)) as H0.
  { intros s0 [H1 H2 H3]. split; cbn.
    - rewrite map_app. apply NoDup_app. split; [done|]. split; [|apply NoDup_singleton].
      intros x (r & -> & Hr)%list_elem_of_fmap. rewrite Forall_forall in H2. specialize (H2 r Hr).
      cbn. rewrite list_elem_of_singleton. lia.
    - apply Forall_app. split; [|by constructor; [cbn; lia|]].
      eapply Forall_impl; [exact H2|]. cbn. lia.
    - apply Forall_app. split; [done|]. constructor; [|done].
      exists (qw_kind item). apply kind_of_value_of. }
  assert (queue_ok (start s)) as Hs by (unfold start; destruct (wr_running s); by destruct Hok).
  split; [by apply H0|]. intros q.
  assert (accounted q (start s) = accounted q s) as <- by (unfold start; by destruct (wr_running s)).
  assert (wr_next_id s = wr_next_id (start s)) as -> by (unfold start; by destruct (wr_running s)).
  unfold accounted, enqueue, append_write_ahead. cbn. rewrite <- app_assoc. f_equal.
  unfold staged_for. rewrite List.filter_app, map_app. f_equal. cbn. unfold row_matches. cbn.
  destruct q as [k p]. cbn. destruct (decide (qw_kind item = k)) as [->|Hne].
  - rewrite (bool_decide_true (WriteKind_value k = _)) by done. cbn.
    destruct (decide (qw_db_path item = p)) as [->|];
      [by rewrite !bool_decide_true|rewrite !bool_decide_false by naive_solver; done].
  - rewrite (bool_decide_false (WriteKind_value _ = _)) by (by intros ?%WriteKind_value_inj).
    cbn. rewrite bool_decide_false by naive_solver. done.
Qed.

Lemma turns_accounts turns force now s :
  queue_ok s -> queue_ok (turns_done turns force now s) /\ keeps s (turns_done turns force now s).
Proof.
  revert s. induction turns as [|turns IH]; intros s Hok; [done|]. cbn [turns_done].
  destruct (turn_accounts force now s Hok) as ([b Hb] & Hok' & _ & Ha).
  destruct (flush_turn force now s) as [r s']. cbn [fst snd] in *. subst r. destruct b; [|done].
  destruct (IH s' Hok'). split; [done|by etrans].
Qed.

(** The groups that were persisted, and a half-written one, leave the stage as it is. *)
Lemma take_groups_NoDup n b : NoDup (map fst (take n (group_batch b))).
Proof.
  destruct (group_batch_spec b) as (Hnd & _). rewrite <- (take_drop n (group_batch b)), map_app in Hnd.
  by apply NoDup_app in Hnd as (? & _).
Qed.

Lemma half_written_same inside g s :
  wr_stage (half_written inside g s) = wr_stage s /\ wr_next_id (half_written inside g s) = wr_next_id s /\
  wr_delivered (half_written inside g s) = wr_delivered s /\
  wr_max_batch_size (half_written inside g s) = wr_max_batch_size s.
Proof. by destruct inside as [[]|]. Qed.

(** A death loses nothing; what it may do is leave staged what is written. *)
Lemma die_accounts turns groups inside force now s :
  queue_ok s ->
  queue_ok (die turns groups inside force now s) /\
  forall q e, e ∈ accounted q s -> e ∈ accounted q (die turns groups inside force now s).
Proof.
  intros Hok. assert (queue_ok (begin_flush s)) as Hok0 by (by destruct Hok).
  destruct (turns_accounts turns force now _ Hok0) as [Hok1 [Hk1 _]].
  unfold die. set (s1 := turns_done _ _ _ _) in *.
  assert (forall s2, queue_ok s2 -> (forall q e, e ∈ accounted q s1 -> e ∈ accounted q s2) ->
    queue_ok (crash now s2) /\ forall q e, e ∈ accounted q s -> e ∈ accounted q (crash now s2)) as Hcrash.
  { intros s2 [H1 H2 H3] Hin. split; [by split|]. intros q e He. apply (Hin q e), Hk1. exact He. }
  destruct (fetch_staged_batch _ s1) as [b|e]; [|by apply Hcrash]. unfold interrupted. cbv zeta.
  destruct (persist_all_spec (take groups (group_batch b)) [] s1 (take_groups_NoDup groups b)) as (dk & _ & Hs & Hd & _).
  set (s2 := (fold_left persist_one _ _).2) in *.
  assert (queue_ok s2) as Hok2 by (by eapply same_stage_ok).
  assert (forall q e, e ∈ accounted q s1 -> e ∈ accounted q s2) as Hk2.
  { intros q e. unfold accounted. rewrite Hd, (proj1 Hs), concat_app. set_solver. }
  destruct (drop groups _) as [|g gs]; [by apply Hcrash|].
  destruct (half_written_same inside g s2) as (Est & Eid & Edl & _). apply Hcrash.
  - destruct Hok2. split; by rewrite ?Est, ?Eid.
  - intros q e He. unfold accounted. rewrite Est, Edl. by apply Hk2.
Qed.

Lemma writer_step_accounts ev s :
  queue_ok s ->
  queue_ok (writer_step s ev) /\
  match ev with
  | EvEnqueue _ => True
  | EvDie _ _ _ _ _ => forall q e, e ∈ accounted q s -> e ∈ accounted q (writer_step s ev)
  | _ => keeps s (writer_step s ev)
  end.
Proof.
  intros Hok. destruct ev as [item|now|n now|now|turns groups inside force now]; cbn [writer_step].
  - split; [by apply enqueue_spec|done].
  - unfold worker_flush. destruct (wr_running s); [|done].
    destruct (flush_accounts false now s Hok) as (Hr & Hok' & _ & Ha).
    destruct (flush_from_write_ahead false now s) as [[|] s']; [done|done].
  - unfold stop. destruct (wr_running s).
    + destruct (flush_accounts true now s Hok) as (Hr & Hok' & _ & Ha).
      destruct (flush_from_write_ahead true now s) as [r s']. cbn [fst snd] in *.
      assert (queue_ok (set_running false s')) as Hok2 by (by destruct Hok').
      destruct (drain_accounts n now _ Hok2) as (_ & ? & _ & Hd). split; [done|].
      etrans; [exact Ha|exact Hd].
    + destruct (drain_accounts n now s Hok) as (_ & ? & _ & Hd). done.
  - split; [by destruct Hok|]. apply keeps_equal. done.
  - by apply die_accounts.
Qed.

Lemma writer_init_ok n pg now : queue_ok (writer_init n pg now).
Proof. split; cbn; constructor. Qed.

(** Over a history nothing is lost; and while deletes work and no flush is cut by the death of
    the process, each key's writes are confirmed or staged exactly once, in the order they
    were enqueued. *)
Lemma history_accounts s evs :
  queue_ok s ->
  queue_ok (runs writer_step s evs) /\
  (forall q p, p ∈ map snd (accounted q s) ++ enqueued_for q evs ->
     p ∈ map snd (accounted q (runs writer_step s evs))) /\
  ((forall n, delete_fails n = false) -> Forall survives evs -> forall q,
     map snd (accounted q (runs writer_step s evs)) = map snd (accounted q s) ++ enqueued_for q evs).
Proof.
  revert s. induction evs as [|ev evs IH]; intros s Hok.
  { split; [done|]. split; [intros q p; by rewrite app_nil_r|]. intros _ _ q. by rewrite app_nil_r. }
  rewrite runs_cons. destruct (writer_step_accounts ev s Hok) as [Hok' Hk].
  destruct (IH _ Hok') as (Hok'' & Hin & Heq). split; [done|].
  assert (forall q, (exists x, enqueued_for q (ev :: evs) = x ++ enqueued_for q evs /\
      match ev with EvEnqueue it => map snd (accounted q (writer_step s ev))
                                    = map snd (accounted q s) ++ x
      | _ => x = [] end)) as Hx.
  { intros q. destruct ev as [it| | | |]; try (by exists []).
    exists (if bool_decide ((qw_kind it, qw_db_path it) = q) then [qw_payload it] else []).
    split; [cbn; by case_bool_decide|]. destruct (enqueue_spec it s Hok) as [_ He]. cbn [writer_step].
    rewrite He, map_app. by case_bool_decide. }
  split.
  - intros q p Hp. apply Hin. destruct (Hx q) as (x & Ex & Hm). rewrite Ex in Hp. 
    destruct ev as [it| | | |]; [by rewrite Hm, <- app_assoc| | | |]; subst x;
      (apply elem_of_app in Hp as [(e & -> & He)%list_elem_of_fmap|Hp]; apply elem_of_app;
        [left; apply (list_elem_of_fmap_2 snd); by apply Hk|by right]).
  - intros Hdel [Hsv Hevs]%Forall_cons q. rewrite (Heq Hdel Hevs). destruct (Hx q) as (x & Ex & Hm).
    rewrite Ex, app_assoc. f_equal.
    destruct ev as [it| | | |]; [done| | | |done]; subst x; rewrite app_nil_r; f_equal; by apply Hk.
Qed.

(** ** What the tables hold *)

(** A kind whose store writes a group in one transaction. *)
Definition atomic_kind (k : WriteKind) : bool :=
  match k with CYCLE_METRICS | RECONCILIATION => false | _ => true end.

Definition replay (k : WriteKind) (groups : list (list (Z * json))) : list json :=
  fold_left (fun t es => write_rows k (map snd es) t) groups [].

Definition local_only (k : WriteKind) (s : writer) : bool :=
  negb (wr_postgres_configured s) || negb (drives_postgres k).

(** The table of an atomic kind that no Postgres batch follows is what its confirmed
    groups wrote. *)
Definition tables_ok (s : writer) : Prop :=
  forall k path, atomic_kind k = true -> local_only k s = true ->
    table_of k path s = replay k (delivered_for (k, path) (wr_delivered s)).

Lemma table_of_write k p ps s k' p' :
  table_of k' p' (write_table k p ps s)
  = if decide ((k, p) = (k', p')) then write_rows k ps (table_of k p s) else table_of k' p' s.
Proof.
  unfold table_of, write_table. cbn. case_decide as E.
  - injection E as -> ->. by rewrite lookup_insert_eq.
  - rewrite lookup_insert_ne; [done|]. intros [= E1 E2]. apply WriteKind_value_inj in E1. congruence.
Qed.

Lemma write_no_rows k t : write_rows k [] t = t.
Proof. destruct k; simpl; by rewrite ?app_nil_r. Qed.

Lemma persist_one_tables ids s g :
  tables_ok s -> tables_ok (persist_one (ids, s) g).2.
Proof.
  destruct g as [[k p] items]. intros Hok. unfold persist_one, persist_group.
  set (ps := map _ items). set (f := faults _ k p ps). set (s1 := count_attempt s).
  assert (tables_ok s1) as Hok1 by exact Hok.
  destruct (negb (registered k) && registered_kind k); [exact Hok1|].
  destruct (f_write f) as [n|].
  { intros k' p' Ha Hl. cbn [set_stats wr_delivered snd].
    change (table_of k' p' (write_table k p (partial_rows k n ps) s1)
            = replay k' (delivered_for (k', p') (wr_delivered s1))).
    rewrite table_of_write. case_decide as E; [|by apply Hok1]. injection E as -> ->.
    assert (partial_rows k' n ps = []) as -> by (by destruct k').
    rewrite write_no_rows. by apply Hok1. }
  assert (forall s', wr_sqlite s' = wr_sqlite (write_table k p ps s1) ->
    wr_delivered s' = wr_delivered s1 -> wr_postgres_configured s' = wr_postgres_configured s1 ->
    tables_ok (set_delivered (wr_delivered s' ++
      [(k, p, map (fun i => (sw_stage_id i, qw_payload (sw_item i))) items)]) s')) as Hconf.
  { intros s' Hsq Hd Hpg k' p' Ha Hl. cbn [set_delivered wr_delivered].
    rewrite Hd, delivered_for_app, delivered_for_one.
    change (table_of k' p' (set_delivered _ s')) with (default [] (wr_sqlite s' !! (WriteKind_value k', p'))).
    rewrite Hsq. change (default [] _) with (table_of k' p' (write_table k p ps s1)).
    rewrite table_of_write. unfold local_only in Hl. cbn in Hl. rewrite Hpg in Hl.
    case_decide as E; [|rewrite app_nil_r; by apply Hok1]. injection E as -> ->.
    unfold replay. rewrite fold_left_app. cbn [fold_left].
    rewrite (Hok1 k' p' Ha Hl), map_map. done. }
  destruct (drives_postgres k) eqn:Hpg; [|by apply Hconf].
  unfold flush_postgres. destruct (wr_postgres_configured _) eqn:Hc; cbn [negb];
    [|by apply Hconf]. destruct (f_postgres f); [|by apply Hconf].
  intros k' p' Ha Hl. cbn [fst snd].
  change (table_of k' p' (write_table k p ps s1)
          = replay k' (delivered_for (k', p') (wr_delivered s1))).
  rewrite table_of_write. case_decide as E; [|by apply Hok1]. injection E as -> ->.
  exfalso. unfold local_only in Hl. cbn in Hl, Hc. rewrite Hc, Hpg in Hl. done.
Qed.

Lemma persist_batch_tables b s : tables_ok s -> tables_ok (persist_staged_batch b s).2.
Proof.
  unfold persist_staged_batch. generalize (@nil Z). induction (group_batch b) as [|g gs IH] in s |- *;
    intros ids Hok; [done|]. cbn [fold_left].
  pose proof (persist_one_tables ids s g Hok). destruct (persist_one (ids, s) g). by apply IH.
Qed.

Lemma delete_tables ids s f : tables_ok s -> tables_ok (set_stats f (delete_staged_rows ids s)).
Proof. by destruct ids. Qed.

Lemma turn_tables force now s : tables_ok s -> tables_ok (flush_turn force now s).2.
Proof.
  intros Hok. unfold flush_turn. destruct (acquire _ _ _) as [[] d]; cbn [negb]; [|exact Hok].
  destruct (fetch_staged_batch _ _) as [[|i b']|e]; [exact Hok| |exact Hok].
  pose proof (persist_batch_tables (i :: b') (set_limiter d s) Hok) as Hp.
  destruct (persist_staged_batch _ _) as [ids s1]. cbn [snd] in Hp.
  case_bool_decide; [exact Hp|]. destruct (delete_fails _); [exact Hp|]. by apply delete_tables.
Qed.

Lemma flush_loop_tables turns force now s r :
  tables_ok s -> flush_loop turns force now s = Some r -> tables_ok r.2.
Proof.
  induction turns as [|turns IH] in s |- *; intros Hok; [done|]. cbn [flush_loop].
  pose proof (turn_tables force now s Hok). destruct (flush_turn force now s) as [[[]|e] s']; [|by intros [= <-]..].
  by apply IH.
Qed.

Lemma flush_tables force now s : tables_ok s -> tables_ok (flush_from_write_ahead force now s).2.
Proof. intros Hok. by apply (flush_loop_tables (S (length (wr_stage s))) force now (begin_flush s) _ Hok), flush_is_loop. Qed.

Lemma drain_tables patience now s : tables_ok s -> tables_ok (drain_until_empty patience now s).2.
Proof.
  induction patience as [|n IH] in s |- *; intros Hok; cbn [drain_until_empty];
    destruct (_ <=? 0)%Z; try done.
  pose proof (flush_tables true now s Hok). destruct (flush_from_write_ahead true now s) as [[|] s'];
    [|done]. destruct (_ <=? _)%Z; [done|]. by apply IH.
Qed.

Lemma writer_step_tables s ev : survives ev -> tables_ok s -> tables_ok (writer_step s ev).
Proof.
  intros Hsv Hok. destruct ev as [it|now|n now|now|]; cbn [writer_step]; [| | | |done].
  - unfold start. by destruct (wr_running s).
  - unfold worker_flush. destruct (wr_running s); [|done]. pose proof (flush_tables false now s Hok).
    by destruct (flush_from_write_ahead false now s) as [[|] s'].
  - unfold stop. apply drain_tables. destruct (wr_running s); [|done]. by apply flush_tables.
  - done.
Qed.

Lemma history_tables s evs : Forall survives evs -> tables_ok s -> tables_ok (runs writer_step s evs).
Proof.
  intros Hsv. revert s. induction Hsv as [|ev evs Hev _ IH]; intros s Hok; [done|].
  rewrite runs_cons. by apply IH, writer_step_tables.
Qed.

Lemma turn_rows force now s :
  (forall r, r ∈ wr_stage (flush_turn force now s).2 -> r ∈ wr_stage s) /\
  wr_postgres_configured (flush_turn force now s).2 = wr_postgres_configured s.
Proof.
  unfold flush_turn. destruct (acquire _ _ _) as [[] d]; cbn [negb]; [|done].
  destruct (fetch_staged_batch _ _) as [[|i b']|e]; [done| |done].
  destruct (persist_batch_spec (i :: b') (set_limiter d s)) as (dk & _ & Hs & _).
  destruct (persist_staged_batch _ _) as [ids s1]. cbn [fst snd] in *.
  destruct Hs as (Hst & _ & _ & Hpg & _). cbn in Hst, Hpg.
  case_bool_decide; [by rewrite <- Hst|]. destruct (delete_fails _); cbn [snd].
  - cbn. by rewrite Hst.
  - cbn [set_stats wr_stage wr_postgres_configured]. split.
    + intros r. rewrite delete_stage, Hst. intros Hr%list_elem_of_In%filter_In.
      apply list_elem_of_In, Hr.
    + by destruct ids.
Qed.

(** Whether Postgres is configured never changes. *)
Lemma flush_postgres_setting force now s :
  wr_postgres_configured (flush_from_write_ahead force now s).2 = wr_postgres_configured s.
Proof.
  assert (forall turns s r, flush_loop turns force now s = Some r ->
    wr_postgres_configured r.2 = wr_postgres_configured s) as Hl.
  { clear s. induction turns as [|turns IH]; intros s r; [done|]. cbn [flush_loop].
    destruct (turn_rows force now s) as [_ Hpg]. destruct (flush_turn force now s) as [[[]|e] s'];
      [|by intros [= <-]..]. intros ->%IH. exact Hpg. }
  exact (Hl _ (begin_flush s) _ (flush_is_loop force now s)).
Qed.

Lemma drain_postgres_setting patience now s :
  wr_postgres_configured (drain_until_empty patience now s).2 = wr_postgres_configured s.
Proof.
  induction patience as [|n IH] in s |- *; cbn [drain_until_empty]; destruct (_ <=? 0)%Z; try done.
  pose proof (flush_postgres_setting true now s). destruct (flush_from_write_ahead true now s) as [[|] s'];
    [|done]. destruct (_ <=? _)%Z; [done|]. by rewrite IH.
Qed.

Lemma turns_postgres_setting turns force now s :
  wr_postgres_configured (turns_done turns force now s) = wr_postgres_configured s.
Proof.
  induction turns as [|turns IH] in s |- *; [done|]. cbn [turns_done].
  destruct (turn_rows force now s) as [_ Hpg].
  destruct (flush_turn force now s) as [[[]|e] s']; [by rewrite IH|done..].
Qed.

Lemma die_postgres_setting turns groups inside force now s :
  wr_postgres_configured (die turns groups inside force now s) = wr_postgres_configured s.
Proof.
  unfold die. etrans; [|exact (turns_postgres_setting turns force now (begin_flush s))].
  set (s1 := turns_done _ _ _ _). destruct (fetch_staged_batch _ s1) as [b|e]; [|done]. unfold interrupted. cbv zeta.
  destruct (persist_all_spec (take groups (group_batch b)) [] s1 (take_groups_NoDup groups b))
    as (dk & _ & (_ & _ & _ & Hpg & _) & _).
  destruct (drop groups _) as [|g gs]; [exact Hpg|]. by destruct inside as [[]|].
Qed.

Lemma history_postgres s evs :
  wr_postgres_configured (runs writer_step s evs) = wr_postgres_configured s.
Proof.
  induction evs as [|ev evs IH] in s |- *; [done|]. rewrite runs_cons, IH.
  destruct ev as [it|now|n now|now|turns groups inside force now]; cbn [writer_step].
  - unfold start. by destruct (wr_running s).
  - unfold worker_flush. destruct (wr_running s); [|done]. pose proof (flush_postgres_setting false now s).
    by destruct (flush_from_write_ahead false now s) as [[|] s'].
  - unfold stop. rewrite drain_postgres_setting. destruct (wr_running s); [|done].
    exact (flush_postgres_setting true now s).
  - done.
  - apply die_postgres_setting.
Qed.

(** ** Theorems *)

Definition append_kind (k : WriteKind) : bool :=
  match k with
  | TRADE_ATTRIBUTION | PORTFOLIO_RISK_STATE | CYCLE_METRICS | RECONCILIATION => false
  | _ => true
  end.

Lemma replay_append k groups : append_kind k = true -> replay k groups = map snd (concat groups).
Proof.
  intros Hk. induction groups as [|es groups IH] using rev_ind; [done|].
  unfold replay in *. rewrite fold_left_app. cbn [fold_left]. rewrite IH, concat_app, map_app.
  simpl. rewrite app_nil_r. by destruct k.
Qed.

Lemma replay_snapshot groups :
  replay PORTFOLIO_RISK_STATE groups = option_list (last (map snd (concat groups))).
Proof.
  induction groups as [|es groups IH] using rev_ind; [done|].
  unfold replay in *. rewrite fold_left_app. cbn [fold_left]. rewrite IH, concat_app, map_app, last_app.
  simpl. rewrite app_nil_r. by destruct (last (map snd es)).
Qed.

(** C20: over any history of enqueues, worker passes, stops, crashes and deaths in the middle of a
    flush, and whatever writes fail, every enqueued payload is confirmed or still staged. In a history
    without such deaths in which every delete of staged rows works, each target's writes are
    confirmed or staged exactly once, in the order they were enqueued; and the table of an append-only
    kind that no Postgres batch follows (another kind, or Postgres is not configured) then holds exactly
    the confirmed payloads. The risk-state table holds exactly the latest confirmed snapshot in
    any history without such deaths. (A death between a group's commit and the delete, a delete
    that fails, and a Postgres batch that fails leave staged what is written:
    [death_repeats_a_row], [postgres_outage_repeats_rows].) *)
Theorem writes_reach_their_table_once n pg t0 evs k path :
  let s := runs writer_step (writer_init n pg t0) evs in
  (forall p, p ∈ enqueued_for (k, path) evs -> p ∈ map snd (accounted (k, path) s)) /\
  ((forall m, delete_fails m = false) -> Forall survives evs ->
     map snd (accounted (k, path) s) = enqueued_for (k, path) evs /\
     (append_kind k = true -> pg = false \/ drives_postgres k = false ->
        table_of k path s ++ map snd (staged_for (k, path) (wr_stage s)) = enqueued_for (k, path) evs)) /\
  (k = PORTFOLIO_RISK_STATE -> Forall survives evs ->
     table_of k path s = option_list (last (map snd (concat (delivered_for (k, path) (wr_delivered s)))))).
Proof.
  intros s. destruct (history_accounts _ evs (writer_init_ok n pg t0)) as (_ & Hin & Heq).
  fold s in Hin, Heq.
  assert (Forall survives evs -> tables_ok s) as Ht by (intros Hsv; by apply history_tables).
  split; [intros p Hp; apply Hin, elem_of_app; by right|]. split.
  - intros Hdel Hsv. specialize (Heq Hdel Hsv (k, path)). split; [exact Heq|]. intros Hk Hl.
    assert (local_only k s = true) as Hlo.
    { unfold local_only, s. rewrite history_postgres. cbn. by destruct Hl as [-> | ->]; rewrite ?orb_true_r. }
    rewrite (Ht Hsv), (replay_append k) by (done || by destruct k). rewrite <- map_app. exact Heq.
  - intros -> Hsv. rewrite (Ht Hsv) by (done || unfold local_only; by destruct (wr_postgres_configured s)).
    apply replay_snapshot.
Qed.

(** *** Failing groups *)

(** Every write of the row's group succeeds. *)
Definition healthy (pg : bool) (r : staged_row) : Prop :=
  forall k, kind_of_value (sr_write_kind r) = Some k ->
    (registered k || negb (registered_kind k) = true) /\
    forall a ps, f_write (faults a k (sr_target r) ps) = None /\
                 (pg && drives_postgres k = true -> f_postgres (faults a k (sr_target r) ps) = false).

(** Every write of the row's group raises, or nobody writes its kind. *)
Definition poison (r : staged_row) : Prop :=
  exists k, kind_of_value (sr_write_kind r) = Some k /\
    forall a ps, negb (registered k) && registered_kind k = true \/
                 f_write (faults a k (sr_target r) ps) <> None.

Lemma parsed_key r i k :
  is_parsed r i -> kind_of_value (sr_write_kind r) = Some k -> item_key i = (k, sr_target r).
Proof.
  intros (_ & _ & Hp & Hk) E. unfold item_key. rewrite Hp. f_equal. apply WriteKind_value_inj.
  rewrite Hk. by apply kind_of_value_inv.
Qed.

Lemma healthy_confirmed r i k its s :
  is_parsed r i -> kind_of_value (sr_write_kind r) = Some k ->
  healthy (wr_postgres_configured s) r -> confirmed (item_key i) its s = true.
Proof.
  intros Hp Hk Hh. rewrite (parsed_key r i k Hp Hk). destruct (Hh k Hk) as [Hreg Hf].
  unfold confirmed, persist_group. cbn [fst snd].
  assert (negb (registered k) && registered_kind k = false) as ->
    by (by destruct (registered k), (registered_kind k)).
  destruct (Hf (wr_attempts s) (map (fun i => qw_payload (sw_item i)) its)) as [-> Hpg].
  destruct (drives_postgres k) eqn:Hd; [|done]. unfold flush_postgres. cbn.
  destruct (wr_postgres_configured s); [|done]. cbn. by rewrite Hpg.
Qed.

Lemma poison_not_confirmed r i its s :
  is_parsed r i -> poison r -> confirmed (item_key i) its s = false.
Proof.
  intros Hp (k & Hk & Hf). rewrite (parsed_key r i k Hp Hk). unfold confirmed, persist_group. cbn [fst snd].
  destruct (Hf (wr_attempts s) (map (fun i => qw_payload (sw_item i)) its)) as [-> |Hw]; [done|].
  destruct (negb _ && _); [done|]. by destruct (f_write _).
Qed.

Definition batch_limit (s : writer) : nat := Z.to_nat (Z.max (wr_max_batch_size s) 1).

Lemma Forall2_elem_r {A B} (R : A -> B -> Prop) l k y :
  Forall2 R l k -> y ∈ k -> exists x, x ∈ l /\ R x y.
Proof.
  induction 1 as [|x z l k Hp _ IH]; [set_solver|]. intros [->|Hy]%elem_of_cons.
  - exists x. split; [left|done].
  - destruct (IH Hy) as (x' & ? & ?). exists x'. split; [by right|done].
Qed.

Lemma Forall2_elem_l {A B} (R : A -> B -> Prop) l k x :
  Forall2 R l k -> x ∈ l -> exists y, y ∈ k /\ R x y.
Proof.
  intros H%Forall2_flip. apply (Forall2_elem_r (flip R)). done.
Qed.

(** A turn over a batch of nothing but poison changes no row. *)
Lemma poison_turn force now s :
  Forall poison (take (batch_limit s) (wr_stage s)) ->
  let r := flush_turn force now s in
  (exists b, r.1 = Ok b) /\ (r.1 <> Ok true) /\ wr_stage r.2 = wr_stage s /\
  wr_max_batch_size r.2 = wr_max_batch_size s /\
  forall q, delivered_for q (wr_delivered r.2) = delivered_for q (wr_delivered s).
Proof.
  intros Hall. unfold flush_turn. destruct (acquire _ _ _) as [[] d]; cbn [negb];
    [|split; [by eexists|done]].
  set (s0 := set_limiter d s).
  destruct (parse_rows_known (take (batch_limit s) (wr_stage s))) as [b Hb].
  { eapply Forall_impl; [exact Hall|]. intros r (k & Hk & _). by exists k. }
  change (fetch_staged_batch (wr_max_batch_size s0) s0) with
    (parse_rows (take (batch_limit s) (wr_stage s))). rewrite Hb.
  destruct b as [|i b']; [split; [by eexists|done]|]. set (b := i :: b') in *.
  apply parse_rows_spec in Hb.
  destruct (persist_batch_spec b s0) as (dk & Hsub & Hs & Hd & Hi & Hc).
  assert (forall j, j ∈ b -> item_key j ∉ dk) as Hnone.
  { intros j Hj. destruct (Hc j Hj) as (s1 & _ & E).
    destruct (Forall2_elem_r _ _ _ _ Hb Hj) as (r & Hr & Hp).
    rewrite Forall_forall in Hall. rewrite (poison_not_confirmed r j _ s1 Hp (Hall r Hr)) in E.
    symmetry in E. by apply bool_decide_eq_false in E. }
  destruct (persist_staged_batch b s0) as [ids s1]. cbn [fst snd] in *.
  assert (ids = []) as ->.
  { destruct ids as [|x ids]; [done|]. assert (x ∈ x :: ids) as Hx by left.
    apply Hi in Hx as (q & Hq & (j & _ & Hj)%list_elem_of_fmap).
    apply list_elem_of_In, filter_In in Hj as [Hj Hm]. apply list_elem_of_In in Hj.
    apply bool_decide_eq_true in Hm. subst q. by apply Hnone in Hj. }
  rewrite bool_decide_true by done. destruct Hs as (Hst & _ & Hmb & _).
  split; [by eexists|]. split; [done|]. split; [exact Hst|]. split; [exact Hmb|].
  intros q. cbn [fst snd]. rewrite Hd. case_decide as Hq; [|by rewrite app_nil_r].
  destruct (Hsub q Hq) as (j & Hj & <-). by apply Hnone in Hj.
Qed.

(** Nor does a death while such a batch is written. *)
Lemma poison_batch_death groups inside s :
  Forall poison (take (batch_limit s) (wr_stage s)) ->
  let s' := match fetch_staged_batch (wr_max_batch_size s) s with
            | Raise _ => s
            | Ok batch => interrupted groups inside (group_batch batch) s
            end in
  batch_limit s' = batch_limit s /\ wr_stage s' = wr_stage s /\
  forall q, delivered_for q (wr_delivered s') = delivered_for q (wr_delivered s).
Proof.
  intros Hall. unfold fetch_staged_batch. fold (batch_limit s).
  destruct (parse_rows _) as [b|e] eqn:Hb; [|done]. apply parse_rows_spec in Hb. cbv zeta.
  destruct (persist_all_spec (take groups (group_batch b)) [] s (take_groups_NoDup groups b))
    as (dk & Hsub & (Hst & _ & Hmb & _) & Hd & _ & Hc).
  unfold interrupted. set (s2 := (fold_left persist_one _ _).2) in *.
  assert (forall q, delivered_for q (wr_delivered s2) = delivered_for q (wr_delivered s)) as Hd2.
  { intros q. rewrite Hd. case_decide as Hq; [exfalso|by rewrite app_nil_r].
    pose proof (Hsub q Hq) as Hin. destruct (Hc q Hin) as (s0 & _ & E).
    assert (q ∈ map fst (group_batch b)) as (i & Hi & <-)%group_batch_spec.
    { rewrite <- (take_drop groups (group_batch b)), map_app. apply elem_of_app. by left. }
    destruct (Forall2_elem_r _ _ _ _ Hb Hi) as (r & Hr & Hp). rewrite Forall_forall in Hall.
    rewrite (poison_not_confirmed r i _ s0 Hp (Hall r Hr)), bool_decide_true in E by done. done. }
  unfold batch_limit. destruct (drop groups _) as [|g gs]; [by rewrite Hmb|].
  destruct (half_written_same inside g s2) as (-> & _ & -> & ->). by rewrite Hmb.
Qed.

(** A turn that is granted and whose deletes work removes every healthy row it reads. *)
Lemma healthy_turn now s r :
  queue_ok s -> (forall m, delete_fails m = false) ->
  r ∈ take (batch_limit s) (wr_stage s) -> healthy (wr_postgres_configured s) r ->
  r ∉ wr_stage (flush_turn true now s).2 /\ (flush_turn true now s).1 = Ok true.
Proof.
  intros Hok Hdel Hr Hh. unfold flush_turn. rewrite acquire_force. cbn [negb].
  set (s0 := set_limiter _ s). assert (queue_ok s0) as Hok0 by (by destruct Hok).
  destruct (turn_batch s0 Hok0) as (b & Hb & Hpar).
  change (take _ (wr_stage s0)) with (take (batch_limit s) (wr_stage s)) in Hpar.
  change (wr_max_batch_size (set_limiter (wr_limiter s) s)) with (wr_max_batch_size s0). rewrite Hb.
  destruct (Forall2_elem_l _ _ _ _ Hpar Hr) as (j & Hj & Hp).
  destruct b as [|i b']; [set_solver|]. set (b := i :: b') in *.
  destruct (persist_batch_spec b s0) as (dk & _ & Hs & _ & Hi & Hc).
  assert (sw_stage_id j ∈ (persist_staged_batch b s0).1) as Hin.
  { apply Hi. exists (item_key j). split.
    - destruct (Hc j Hj) as (s1 & (_ & _ & _ & Hpg & _) & E).
      assert (is_Some (kind_of_value (sr_write_kind r))) as [k Hk].
      { pose proof (qok_known s Hok) as Hkn. rewrite Forall_forall in Hkn. apply Hkn.
        apply elem_of_take in Hr as (? & ? & _). by eapply list_elem_of_lookup_2. }
      rewrite (healthy_confirmed r j k _ s1 Hp Hk) in E by (by rewrite Hpg).
      symmetry in E. by apply bool_decide_eq_true in E.
    - apply (list_elem_of_fmap_2 sw_stage_id). apply list_elem_of_In, filter_In.
      split; [by apply list_elem_of_In|]. by apply bool_decide_eq_true. }
  destruct (persist_staged_batch b s0) as [ids s1]. cbn [fst snd] in *.
  rewrite bool_decide_false by (intros E; rewrite E in Hin; set_solver). rewrite Hdel.
  split; [|done]. cbn [snd set_stats wr_stage]. rewrite delete_stage.
  intros Hbad%list_elem_of_In%filter_In. destruct Hbad as [_ Hbad].
  destruct Hp as (E & _). rewrite E in Hin. by rewrite bool_decide_true in Hbad.
Qed.

(** one turn of the drain confirms and removes every row of its batch whose
    group can be written, whatever the other groups of the batch do; but when the
    oldest [max_batch_size] rows all belong to groups that cannot be written, no
    history moves anything: those rows stay at the head and no group of any target is
    ever confirmed again. *)
Theorem drain_isolates_poison_within_a_batch s :
  queue_ok s -> (forall m, delete_fails m = false) ->
  (forall now r, r ∈ take (batch_limit s) (wr_stage s) -> healthy (wr_postgres_configured s) r ->
     r ∉ wr_stage (flush_turn true now s).2) /\
  (batch_limit s <= length (wr_stage s) -> Forall poison (take (batch_limit s) (wr_stage s)) ->
   forall evs,
     take (batch_limit s) (wr_stage (runs writer_step s evs)) = take (batch_limit s) (wr_stage s) /\
     forall q, delivered_for q (wr_delivered (runs writer_step s evs))
               = delivered_for q (wr_delivered s)).
Proof.
  intros Hok Hdel. split; [intros now r Hr Hh; by apply healthy_turn|]. intros Hlen Hall evs.
  set (stuck := fun s' => batch_limit s' = batch_limit s /\
    (exists rest, wr_stage s' = take (batch_limit s) (wr_stage s) ++ rest) /\
    forall q, delivered_for q (wr_delivered s') = delivered_for q (wr_delivered s)).
  assert (stuck (runs writer_step s evs)) as (_ & [rest ->] & Hd).
  2: { split; [|exact Hd]. rewrite take_app_le by (rewrite length_take; lia).
       by rewrite take_take, Nat.min_id. }
  apply (runs_invariant writer_step stuck).
  { split; [done|]. split; [|done]. exists (drop (batch_limit s) (wr_stage s)). by rewrite take_drop. }
  clear evs.
  assert (forall s', stuck s' -> Forall poison (take (batch_limit s') (wr_stage s'))) as Hhead.
  { intros s' (Hbl & [rest Hst] & _). rewrite Hbl, Hst.
    rewrite take_app_le by (rewrite length_take; lia). by rewrite take_take, Nat.min_id. }
  assert (forall force now s', stuck s' -> stuck (flush_turn force now s').2 /\
            exists b, (flush_turn force now s').1 = Ok b /\ b = false) as Hturn.
  { intros force now s' Hs'. destruct (poison_turn force now s' (Hhead s' Hs'))
      as ([b Hb] & Hnt & Hst & Hmb & Hdl). destruct Hs' as (Hbl & [rest Hr] & Hd).
    split; [|exists b; split; [done|]; destruct b; [congruence|done]].
    split; [unfold batch_limit in *; by rewrite Hmb|]. split; [exists rest; by rewrite Hst|].
    intros q. by rewrite Hdl. }
  assert (forall force now s', stuck s' -> stuck (flush_from_write_ahead force now s').2 /\
            (flush_from_write_ahead force now s').1 = Ok tt /\
            length (wr_stage (flush_from_write_ahead force now s').2) = length (wr_stage s')) as Hflush.
  { intros force now s' Hs'. unfold flush_from_write_ahead. set (s1 := begin_flush s').
    assert (stuck s1) as Hs1 by exact Hs'. cbn [flush_loop].
    pose proof (poison_turn force now s1 (Hhead s1 Hs1)) as (_ & _ & Hst & _).
    destruct (Hturn force now s1 Hs1) as (Hs2 & b & Hb & ->).
    destruct (flush_turn force now s1) as [r s2]. cbn [fst snd] in *. subst r.
    split; [exact Hs2|]. split; [done|]. exact (f_equal length Hst). }
  assert (forall n now s', stuck s' -> stuck (drain_until_empty n now s').2) as Hdrain.
  { intros n. induction n as [|n IH]; intros now s' Hs'; cbn [drain_until_empty];
      destruct (_ <=? 0)%Z; try exact Hs'.
    destruct (Hflush true now s' Hs') as (Hs2 & _ & _).
    destruct (flush_from_write_ahead true now s') as [[|] s2]; [|exact Hs2].
    destruct (_ <=? _)%Z; [exact Hs2|]. by apply IH. }
  assert (forall turns force now s', stuck s' -> stuck (turns_done turns force now s')) as Hturns.
  { intros turns force now s' Hs'. destruct turns as [|turns]; [done|]. cbn [turns_done].
    destruct (Hturn force now s' Hs') as (Hs2 & b & Hb & ->).
    destruct (flush_turn force now s') as [r s2]. cbn [fst snd] in *. by subst r. }
  intros s' [it|now|n now|now|turns groups inside force now] Hs'; cbn [writer_step].
  - destruct Hs' as (Hbl & [rest Hr] & Hd).
    assert (batch_limit (start s') = batch_limit s /\ wr_stage (start s') = wr_stage s' /\
            wr_delivered (start s') = wr_delivered s') as (Hbl' & Hst' & Hdl')
      by (unfold start; destruct (wr_running s'); (split; [exact Hbl|done])).
    split; [exact Hbl'|]. split; [|intros q; cbn; rewrite Hdl'; apply Hd].
    cbn. rewrite Hst', Hr, <- app_assoc. by eexists.
  - unfold worker_flush. destruct (wr_running s'); [|done].
    destruct (Hflush false now s' Hs') as (Hs2 & Hr & _).
    destruct (flush_from_write_ahead false now s') as [r s2]. cbn [fst snd] in *. by subst r.
  - unfold stop. apply Hdrain. destruct (wr_running s'); [|done]. apply (Hflush true now s' Hs').
  - exact Hs'.
  - pose proof (Hturns turns force now (begin_flush s') Hs') as Hs1. unfold die.
    set (s1 := turns_done _ _ _ _) in *.
    destruct (poison_batch_death groups inside s1 (Hhead s1 Hs1)) as (Hbl' & Hst' & Hd').
    destruct Hs1 as (Hbl & [rest Hr] & Hd). split; [etrans; [exact Hbl'|exact Hbl]|].
    split; [exists rest; etrans; [exact Hst'|exact Hr]|]. intros q. etrans; [apply Hd'|apply Hd].
Qed.

(** *** Termination *)

Lemma healthy_loop_drains turns now s r :
  (forall m, delete_fails m = false) -> queue_ok s ->
  Forall (healthy (wr_postgres_configured s)) (wr_stage s) ->
  flush_loop turns true now s = Some r -> wr_stage r.2 = [].
Proof.
  intros Hdel. revert s. induction turns as [|turns IH]; intros s Hok Hall; [done|]. cbn [flush_loop].
  destruct (wr_stage s) as [|x rows] eqn:E.
  { unfold flush_turn. rewrite acquire_force. cbn [negb]. unfold fetch_staged_batch.
    cbn [set_limiter wr_stage]. rewrite E, take_nil. cbn [parse_rows]. intros [= <-]. exact E. }
  rewrite <- E in Hall.
  assert (x ∈ take (batch_limit s) (wr_stage s)) as Hx.
  { rewrite E. unfold batch_limit. destruct (Z.to_nat (Z.max _ 1)) eqn:En; [lia|left]. }
  destruct (healthy_turn now s x Hok Hdel Hx) as [_ Hgo].
  { rewrite Forall_forall in Hall. apply Hall. rewrite E. left. }
  destruct (turn_accounts true now s Hok) as (_ & Hok' & _).
  pose proof (turn_rows true now s) as (Hsub & Hpg).
  destruct (flush_turn true now s) as [res s'] eqn:Et. cbn [fst snd] in *. subst res.
  apply IH; [done|]. rewrite Hpg. rewrite Forall_forall in *. intros y Hy. apply Hall, Hsub, Hy.
Qed.

Lemma healthy_flush_drains now s :
  queue_ok s -> (forall m, delete_fails m = false) ->
  Forall (healthy (wr_postgres_configured s)) (wr_stage s) ->
  wr_stage (flush_from_write_ahead true now s).2 = [].
Proof.
  intros Hok Hdel Hall.
  apply (healthy_loop_drains _ now (begin_flush s) _ Hdel) with (3 := flush_is_loop true now s);
    [by destruct Hok|exact Hall].
Qed.

(** C35: a flush ends: the loop, allowed more turns than there are staged rows, stops by itself
    after at most one turn per row and one more, more turns never change how it ends, and what it
    ends in is the flush's answer. And when every staged row can be written and deletes work, one
    pass of the shutdown drain empties the stage, without an exception. *)
Theorem flush_terminates_and_drains :
  (forall turns force now s, length (wr_stage s) < turns ->
     flush_loop turns force now (begin_flush s) = Some (flush_from_write_ahead force now s) /\
     flush_loop (S (length (wr_stage s))) force now (begin_flush s)
       = Some (flush_from_write_ahead force now s)) /\
  (forall patience now s, queue_ok s -> (forall m, delete_fails m = false) ->
     Forall (healthy (wr_postgres_configured s)) (wr_stage s) ->
     (drain_until_empty (S patience) now s).1 = Ok tt /\
     wr_stage (drain_until_empty (S patience) now s).2 = []).
Proof.
  split.
  { intros turns force now s Hlen. rewrite flush_is_loop. split; [|done].
    destruct (flush_loop_ends turns force now (begin_flush s) Hlen) as (r & -> & Hr).
    rewrite <- Hr. exact (flush_is_loop force now s). }
  intros patience now s Hok Hdel Hall.
  destruct (drain_accounts (S patience) now s Hok) as (Hres & _). split; [exact Hres|]. clear Hres.
  cbn [drain_until_empty]. destruct (Z.leb_spec (pending_write_ahead_count s) 0) as [Hz|Hz].
  { unfold pending_write_ahead_count in Hz. cbn [snd]. destruct (wr_stage s); [done|simpl in Hz; lia]. }
  pose proof (healthy_flush_drains now s Hok Hdel Hall) as Hempty.
  destruct (flush_accounts true now s Hok) as (Hr & _).
  destruct (flush_from_write_ahead true now s) as [r s']. cbn [fst snd] in *. subst r.
  destruct (_ <=? _)%Z; [done|]. destruct patience; cbn [drain_until_empty];
    unfold pending_write_ahead_count; rewrite Hempty; done.
Qed.

(** *** A Postgres outage *)

Lemma group_batch_uniform q b :
  b <> [] -> Forall (fun i => item_key i = q) b -> group_batch b = [(q, b)].
Proof.
  intros Hne Hall. destruct (group_batch_spec b) as (Hnd & Hk & Hg).
  assert (List.filter (item_matches q) b = b) as Hf.
  { clear -Hall. induction Hall as [|i b Hi _ IH]; [done|]. simpl. unfold item_matches at 1.
    rewrite bool_decide_true by done. by rewrite IH. }
  specialize (Hg q). rewrite Hf in Hg. destruct b as [|i b']; [done|].
  rewrite Forall_forall in Hall.
  destruct (group_batch (i :: b')) as [|[k1 x1] gs] eqn:E.
  { exfalso. assert (item_key i ∈ map fst ([] : list (key * list StagedWrite))) as Hin
      by (apply Hk; exists i; split; [left|done]). set_solver. }
  assert (forall k, k ∈ map fst ((k1, x1) :: gs) -> k = q) as Hq.
  { intros k (j & Hj & <-)%Hk. by apply Hall. }
  assert (k1 = q) as -> by (apply Hq; left). destruct gs as [|[k2 x2] gs].
  - unfold group_of in Hg. cbn in Hg. rewrite app_nil_r in Hg.
    destruct (decide (q = q)); [by rewrite Hg|done].
  - exfalso. assert (k2 = q) as -> by (apply Hq; right; left).
    cbn in Hnd. apply NoDup_cons in Hnd as [Hn _]. apply Hn. left.
Qed.

(** The stage holds rows of one key whose Postgres batch fails. *)
Record outage (k : WriteKind) (path : string) (rows : list staged_row) (s : writer) : Prop := {
  out_stage : wr_stage s = rows;
  out_fits : length rows <= batch_limit s;
  out_pg : wr_postgres_configured s = true
}.

Lemma outage_pass k path rows force now s :
  append_kind k = true -> drives_postgres k = true -> rows <> [] ->
  Forall (fun r => sr_write_kind r = WriteKind_value k /\ sr_target r = path) rows ->
  (forall a ps, faults a k path ps = mkFault None true) ->
  outage k path rows s ->
  let s' := (flush_from_write_ahead force now s).2 in
  outage k path rows s' /\
  exists m, table_of k path s' = table_of k path s ++ concat (repeat (map sr_payload rows) m) /\
            n_sqlite_batches (wr_stats s') = (n_sqlite_batches (wr_stats s) + Z.of_nat m)%Z /\
            (force = true -> m = 1).
Proof.
  intros Hap Hdr Hne Hrows Hf [Hst Hfit Hpg]. unfold flush_from_write_ahead, begin_flush.
  set (s0 := set_limiter _ s). cbn [flush_loop]. unfold flush_turn.
  change (wr_limiter s0) with (update_backlog_depth (pending_write_ahead_count s) (wr_limiter s)).
  destruct (acquire force now _) as [granted d] eqn:Ea. destruct granted; cbn [negb].
  2: { split; [done|]. exists 0. cbn. split; [by rewrite app_nil_r|]. split; [lia|].
       intros ->. rewrite acquire_force in Ea. done. }
  set (s1 := set_limiter d s0).
  assert (take (Z.to_nat (Z.max (wr_max_batch_size s) 1)) (wr_stage s) = rows) as Htake.
  { rewrite Hst. apply take_ge. exact Hfit. }
  unfold fetch_staged_batch. cbn [wr_stage wr_max_batch_size s1 s0 set_limiter]. rewrite Htake.
  destruct (parse_rows_known rows) as [b Hb].
  { eapply Forall_impl; [exact Hrows|]. intros r [Hk _]. exists k. rewrite Hk. apply kind_of_value_of. }
  rewrite Hb. apply parse_rows_spec in Hb.
  assert (map (fun i => qw_payload (sw_item i)) b = map sr_payload rows) as Hps.
  { clear -Hb. induction Hb as [|r i rows b (_ & Hp & _) _ IH]; [done|]. simpl. congruence. }
  assert (Forall (fun i => item_key i = (k, path)) b) as Hkeys.
  { clear -Hb Hrows. induction Hb as [|r i rows b Hp _ IH]; [done|].
    inversion_clear Hrows as [|? ? [Hk Ht] Hrest]. constructor; [|by apply IH].
    rewrite (parsed_key r i k Hp); [by rewrite Ht|]. rewrite Hk. apply kind_of_value_of. }
  assert (b <> []) as Hbne.
  { intros ->. apply Hne. symmetry in Hps. by eapply map_eq_nil. }
  assert (registered_kind k = false) as Hreg by (by destruct k).
  destruct b as [|i b']; [done|]. set (b := i :: b') in *.
  unfold persist_staged_batch. rewrite (group_batch_uniform (k, path) b Hbne Hkeys).
  cbn [fold_left]. unfold persist_one, persist_group. rewrite Hps, Hf, Hreg, andb_false_r.
  cbn [f_write]. rewrite Hdr. unfold flush_postgres.
  cbn [set_stats write_table set_sqlite wr_postgres_configured count_attempt s1 s0 set_limiter].
  rewrite Hpg. cbn [negb f_postgres fst snd]. rewrite bool_decide_true by done. cbn [snd].
  split; [done|]. exists 1. split; [|split; [cbn; lia|done]].
  change (table_of k path (write_table k path (map sr_payload rows) (count_attempt s1))
          = table_of k path s ++ concat (repeat (map sr_payload rows) 1)).
  rewrite table_of_write, decide_True by done. simpl. rewrite app_nil_r. by destruct k.
Qed.

(** while the Postgres batch of an append-only kind fails, every pass that is
    granted commits the same rows to the local table once more and keeps them staged:
    after any passes the table holds one more copy of the staged payloads for each
    batch counted, and a stop adds one on its own. *)
Theorem postgres_outage_repeats_rows k path rows s passes :
  append_kind k = true -> drives_postgres k = true -> rows <> [] ->
  Forall (fun r => sr_write_kind r = WriteKind_value k /\ sr_target r = path) rows ->
  (forall a ps, faults a k path ps = mkFault None true) ->
  outage k path rows s ->
  let s' := fold_left (fun s (p : bool * float) => (flush_from_write_ahead p.1 p.2 s).2) passes s in
  wr_stage s' = rows /\
  exists m, table_of k path s' = table_of k path s ++ concat (repeat (map sr_payload rows) m) /\
            n_sqlite_batches (wr_stats s') = (n_sqlite_batches (wr_stats s) + Z.of_nat m)%Z /\
            length (List.filter fst passes) <= m.
Proof.
  intros Hap Hdr Hne Hrows Hf. revert s. induction passes as [|[force now] passes IH]; intros s Ho.
  { cbn [fold_left]. split; [apply Ho|]. exists 0. cbn. rewrite app_nil_r. split; [done|]. split; lia. }
  cbn [fold_left fst snd].
  destruct (outage_pass k path rows force now s Hap Hdr Hne Hrows Hf Ho) as (Ho' & m1 & Ht1 & Hn1 & Hm1).
  destruct (IH _ Ho') as (Hst & m2 & Ht2 & Hn2 & Hm2). split; [exact Hst|]. exists (m1 + m2).
  rewrite Ht2, Ht1, Hn2, Hn1. split; [|split; [lia|]].
  - by rewrite repeat_app, concat_app, app_assoc.
  - cbn. destruct force; cbn; [rewrite Hm1 by done|]; lia.
Qed.

(** *** A row of an unknown kind *)

(** The batch is parsed outside the exception handler: a row of a kind this version
    does not know ends the worker at every pass that reads it, with nothing drained. *)
Lemma unknown_kind_kills_worker now s r :
  wr_running s = true -> r ∈ take (batch_limit s) (wr_stage s) ->
  kind_of_value (sr_write_kind r) = None ->
  let s' := worker_flush now s in
  wr_stage s' = wr_stage s /\ wr_delivered s' = wr_delivered s /\
  (wr_running s' = false \/ n_wal_throttled (wr_stats s') = (n_wal_throttled (wr_stats s) + 1)%Z).
Proof.
  intros Hrun Hr Hk. unfold worker_flush. rewrite Hrun. unfold flush_from_write_ahead, begin_flush. cbn [flush_loop].
  unfold flush_turn. set (s0 := set_limiter _ s). destruct (acquire _ _ _) as [[] d]; cbn [negb].
  - assert (forall rows, r ∈ rows -> exists e, parse_rows rows = Raise e) as Hparse.
    { clear -Hk. intros rows. induction rows as [|x rows IH]; [set_solver|].
      intros [<-|Hin]%elem_of_cons; simpl; [rewrite Hk; by eexists|].
      destruct (kind_of_value (sr_write_kind x)) as [k|]; [|by exists "ValueError"].
      destruct (IH Hin) as [e ->]. by exists e. }
    destruct (Hparse _ Hr) as [e He]. unfold fetch_staged_batch.
    change (parse_rows _) with (parse_rows (take (batch_limit s) (wr_stage s))). rewrite He.
    split; [done|]. split; [done|]. by left.
  - split; [done|]. split; [done|]. by right.
Qed.
End Drain.

(** ** Concrete histories *)

Definition no_faults (a : nat) (k : WriteKind) (path : string) (ps : list json) : fault :=
  mkFault None false.
Definition deletes_work (a : nat) : bool := false.
(** A path of another machine: its writes raise. *)
Definition foreign_faults (a : nat) (k : WriteKind) (path : string) (ps : list json) : fault :=
  mkFault (if bool_decide (path = "C:\vault.db") then Some 0 else None) false.
Definition outage_faults (a : nat) (k : WriteKind) (path : string) (ps : list json) : fault :=
  mkFault None true.

Definition beat (n : Z) : QueuedWrite := mkQueued HEARTBEAT (JInt n) "vault.db".
Definition demo_events : list writer_event :=
  [EvEnqueue (beat 1); EvEnqueue (beat 2); EvWorker (of_Z 1);
   EvEnqueue (mkQueued HEARTBEAT (JInt 9) "C:\vault.db"); EvEnqueue (beat 3); EvCrash (of_Z 2);
   EvEnqueue (beat 4); EvWorker (of_Z 3)].

Lemma writes_reach_their_table_once_witness :
  let s := runs (writer_step registered_kind foreign_faults deletes_work) (writer_init 64 false fzero)
             demo_events in
  table_of HEARTBEAT "vault.db" s = [JInt 1; JInt 2; JInt 3; JInt 4] /\
  map snd (staged_for (HEARTBEAT, "C:\vault.db") (wr_stage s)) = [JInt 9] /\
  table_of HEARTBEAT "vault.db" s ++ map snd (staged_for (HEARTBEAT, "vault.db") (wr_stage s))
  = [JInt 1; JInt 2; JInt 3; JInt 4].
Proof.
  intros s. split; [vm_compute; reflexivity|]. split; [vm_compute; reflexivity|].
  refine (proj2 (proj1 (proj2 (writes_reach_their_table_once registered_kind foreign_faults deletes_work
    64 false fzero demo_events HEARTBEAT "vault.db")) (fun _ => eq_refl) _) eq_refl (or_introl eq_refl)).
  repeat constructor.
Defined.

(** The process dies after a group's commit and before its rows are deleted: the next process
    writes the row again. *)
Lemma death_repeats_a_row :
  let s := runs (writer_step registered_kind no_faults deletes_work) (writer_init 64 false fzero)
             [EvEnqueue (beat 1); EvDie 0 1 None false (of_Z 1); EvEnqueue (beat 2); EvWorker (of_Z 2)] in
  table_of HEARTBEAT "vault.db" s = [JInt 1; JInt 1; JInt 2] /\ wr_stage s = [].
Proof. split; vm_compute; reflexivity. Qed.

(** A stage whose limit is two: one foreign row is isolated, two block the healthy one. *)
Definition foreign_row (n : Z) : staged_row := mkStaged n "heartbeat" (JInt n) "C:\vault.db".
Definition local_row (n : Z) : staged_row := mkStaged n "heartbeat" (JInt n) "vault.db".
Definition blocked_writer : writer :=
  set_stage [foreign_row 1; foreign_row 2; local_row 3] 4 (writer_init 2 false fzero).

Lemma blocked_writer_ok : queue_ok blocked_writer.
Proof.
  split; cbn.
  - apply (bool_decide_eq_true_1 (NoDup [1%Z; 2%Z; 3%Z])). reflexivity.
  - repeat constructor.
  - repeat constructor; by exists HEARTBEAT.
Qed.

Lemma drain_isolates_poison_within_a_batch_witness :
  take 2 (wr_stage (runs (writer_step registered_kind foreign_faults deletes_work)
                      blocked_writer demo_events)) = [foreign_row 1; foreign_row 2].
Proof.
  refine (proj1 (proj2 (drain_isolates_poison_within_a_batch registered_kind foreign_faults deletes_work
    blocked_writer blocked_writer_ok (fun _ => eq_refl)) _ _ demo_events)).
  - vm_compute. lia.
  - change (Forall (poison registered_kind foreign_faults) [foreign_row 1; foreign_row 2]).
    repeat constructor; exists HEARTBEAT; (split; [reflexivity|]); intros a ps; right;
      discriminate.
Defined.

Lemma flush_terminates_and_drains_witness :
  wr_stage (drain_until_empty registered_kind no_faults deletes_work 1 fzero blocked_writer).2 = [].
Proof.
  refine (proj2 (proj2 (flush_terminates_and_drains registered_kind no_faults deletes_work) 0 fzero
    blocked_writer blocked_writer_ok (fun _ => eq_refl) _)).
  apply Forall_forall. intros r Hr k Hk.
  change (r ∈ [foreign_row 1; foreign_row 2; local_row 3]) in Hr.
  assert (k = HEARTBEAT) as ->.
  { apply elem_of_cons in Hr as [->|Hr]; [|apply elem_of_cons in Hr as [->|Hr]];
      [| |apply list_elem_of_singleton in Hr as ->]; vm_compute in Hk; by injection Hk. }
  split; [reflexivity|]. intros a ps. split; reflexivity.
Defined.

(** An outage of three passes, half an interval apart: the worker's own rate. *)
Definition outage_row : staged_row := mkStaged 1 "portfolio_constraint" (JInt 7) "vault.db".
Definition outage_writer : writer := set_stage [outage_row] 2 (writer_init 64 true fzero).

Lemma postgres_outage_repeats_rows_witness :
  table_of PORTFOLIO_CONSTRAINT "vault.db"
    (fold_left (fun s p => (flush_from_write_ahead registered_kind outage_faults deletes_work p.1 p.2 s).2)
       [(false, of_Z 450); (false, of_Z 900); (true, of_Z 1350)] outage_writer)
  = [JInt 7; JInt 7; JInt 7] /\
  wr_stage (fold_left (fun s p => (flush_from_write_ahead registered_kind outage_faults deletes_work p.1 p.2 s).2)
       [(false, of_Z 450); (false, of_Z 900); (true, of_Z 1350)] outage_writer) = [outage_row].
Proof.
  split; [vm_compute; reflexivity|].
  refine (proj1 (postgres_outage_repeats_rows registered_kind outage_faults deletes_work
    PORTFOLIO_CONSTRAINT "vault.db" [outage_row] outage_writer
    [(false, of_Z 450); (false, of_Z 900); (true, of_Z 1350)] eq_refl eq_refl _ _ _ _)).
  - discriminate.
  - repeat constructor.
  - reflexivity.
  - split; [reflexivity|vm_compute; lia|reflexivity].
Defined.
