(* ===== verification/CapacityGovernor.v ===== *)
(** * Capacity governor

    [src/engine/capacity_governor.py] (class [CapacityGovernor]): the daily turnover cap
    with its session lock, the participation clamp and the market-impact estimate. The
    four SQLite tables are fields of [capacity_db]; [session] and [now] are the date and
    the moment a call reads. *)

From stdpp Require Import base gmap strings list.
From Stdlib Require Import ZArith Lia.
From S2P Require Import Prelude PyFloat FloatInt Models.

(** ** Constants *)

Definition DEFAULT_EQUITY_TURNOVER_MULTIPLIER : float := Eval vm_compute in lit 3 0.
Definition DEFAULT_MAX_PARTICIPATION_RATE : float := Eval vm_compute in lit 1 2.
Definition DEFAULT_MIN_PARTICIPATION_RATE : float := Eval vm_compute in lit 25 4.
Definition DEFAULT_SQRT_IMPACT_COEFFICIENT : float := Eval vm_compute in lit 35 2.
Definition DEFAULT_LINEAR_IMPACT_COEFFICIENT : float := Eval vm_compute in lit 8 2.
Definition IMPACT_COEFFICIENT_EMA_ALPHA : float := Eval vm_compute in lit 15 2.
Definition MIN_BAR_VOLUME_SHARES : float := fone.
Definition BPS : float := Eval vm_compute in of_Z 10000.
Definition MICRO : float := Eval vm_compute in lit 1 6.
Definition COEFF_FLOOR : float := Eval vm_compute in lit 1 2.

Definition SESSION_TOTAL_SYMBOL : string := "__SESSION_TOTAL__".
Definition session_total_key (session : string) : string :=
  String.append session (String.append ":" SESSION_TOTAL_SYMBOL).

(** ** Tables *)

Record turnover_row := mkTurnoverRow {
  to_session_date : string; to_symbol : string; to_timestamp : string; to_strategy_id : string;
  to_side : string; to_notional : float; to_cumulative : float; to_cap : float; to_capped : Z;
  to_metadata : list (string * json)
}.

Record daily_total := mkDailyTotal { dt_realized : float; dt_cap : float; dt_updated_at : string }.

Record coefficient_row := mkCoefficient {
  co_sqrt : float; co_linear : float; co_sample_count : Z; co_updated_at : string
}.

Inductive ImpactModel := SQRT | LINEAR | BLENDED.

Record ImpactEstimateResult := mkImpact {
  im_trade_id : string; im_symbol : string;
  expected_impact_bps : float; realized_impact_bps : float; impact_residual_bps : float;
  model_used : ImpactModel; sqrt_coefficient : float; linear_coefficient : float;
  coefficient_adjustment : float; im_trailing_volume : float
}.

Record impact_row := mkImpactRow {
  ir_timestamp : string; ir_qty : float; ir_side : string; ir_result : ImpactEstimateResult;
  ir_metadata : list (string * json)
}.

Record capacity_db := mkCapacityDb {
  turnover_ledger : list turnover_row;
  daily_totals : gmap (string * string) daily_total;
  impact_ledger : list impact_row;
  coefficients : gmap string coefficient_row
}.

Record CapacityGovernor := mkCapacity {
  equity_turnover_multiplier : float;
  max_participation_rate : float;
  min_participation_rate : float;
  current_equity : float;
  session_locked : bool;
  breach_reason : string;
  session_cache : gmap string float;
  cap_db : capacity_db
}.

Definition capacity_init (db : capacity_db) : CapacityGovernor :=
  mkCapacity DEFAULT_EQUITY_TURNOVER_MULTIPLIER DEFAULT_MAX_PARTICIPATION_RATE
    DEFAULT_MIN_PARTICIPATION_RATE fzero false "" ∅ db.

Definition set_equity (x : float) (g : CapacityGovernor) : CapacityGovernor :=
  mkCapacity (equity_turnover_multiplier g) (max_participation_rate g) (min_participation_rate g)
    x (session_locked g) (breach_reason g) (session_cache g) (cap_db g).
Definition set_cache (c : gmap string float) (g : CapacityGovernor) : CapacityGovernor :=
  mkCapacity (equity_turnover_multiplier g) (max_participation_rate g) (min_participation_rate g)
    (current_equity g) (session_locked g) (breach_reason g) c (cap_db g).
Definition set_db (db : capacity_db) (g : CapacityGovernor) : CapacityGovernor :=
  mkCapacity (equity_turnover_multiplier g) (max_participation_rate g) (min_participation_rate g)
    (current_equity g) (session_locked g) (breach_reason g) (session_cache g) db.

Definition restore_session_state (locked : bool) (reason : string) (g : CapacityGovernor)
    : CapacityGovernor :=
  mkCapacity (equity_turnover_multiplier g) (max_participation_rate g) (min_participation_rate g)
    (current_equity g) locked reason (session_cache g) (cap_db g).

Definition apply_config (multiplier max_rate min_rate : float) (g : CapacityGovernor)
    : CapacityGovernor :=
  mkCapacity multiplier max_rate min_rate (current_equity g) (session_locked g) (breach_reason g)
    (session_cache g) (cap_db g).

Definition update_account_equity (equity : float) (g : CapacityGovernor) : float * CapacityGovernor :=
  let e := py_max equity fzero in (e, set_equity e g).

Definition resolve_daily_turnover_cap (equity : option float) (g : CapacityGovernor) : float :=
  let e := match equity with None => current_equity g | Some x => py_max x fzero end in
  if fleb e fzero then fzero else fmul e (equity_turnover_multiplier g).

(** ** The ledgers *)

(** The columns are NOT NULL: a NaN among them makes the insert raise. *)
Definition insert_turnover (r : turnover_row) (g : CapacityGovernor)
    : result string unit * CapacityGovernor :=
  match sql_real (to_notional r), sql_real (to_cumulative r), sql_real (to_cap r) with
  | Some n, Some c, Some p =>
      let r := mkTurnoverRow (to_session_date r) (to_symbol r) (to_timestamp r) (to_strategy_id r)
                 (to_side r) n c p (to_capped r) (to_metadata r) in
      (Ok tt, set_db (mkCapacityDb (turnover_ledger (cap_db g) ++ [r]) (daily_totals (cap_db g))
                        (impact_ledger (cap_db g)) (coefficients (cap_db g))) g)
  | _, _, _ => (Raise "IntegrityError", g)
  end.

Definition put_daily_total (session : string) (t : daily_total) (g : CapacityGovernor)
    : CapacityGovernor :=
  set_db (mkCapacityDb (turnover_ledger (cap_db g))
            (<[(session, SESSION_TOTAL_SYMBOL) := t]> (daily_totals (cap_db g)))
            (impact_ledger (cap_db g)) (coefficients (cap_db g))) g.

(** [_load_session_turnover_total]: the cache first, then the table; the answer is
    cached. *)
Definition load_session_turnover_total (session : string) (g : CapacityGovernor)
    : float * CapacityGovernor :=
  match session_cache g !! session_total_key session with
  | Some v => (v, g)
  | None =>
      let v := match daily_totals (cap_db g) !! (session, SESSION_TOTAL_SYMBOL) with
               | Some t => dt_realized t | None => fzero end in
      (v, set_cache (<[session_total_key session := v]> (session_cache g)) g)
  end.

(** The lock is set before the row is inserted. *)
Definition engage_session_breach (symbol strategy_id now session : string)
    (realized cap equity : float) : py CapacityGovernor string unit := fun g =>
  if session_locked g then (Ok tt, g) else
  let g := restore_session_state true "turnover_breach_session_lock" g in
  insert_turnover (mkTurnoverRow session symbol now strategy_id "" (py_max (fsub realized cap) fzero)
    realized cap 1
    [("event", JStr "turnover_breach"); ("current_equity", JFloat equity); ("breach", JBool true);
     ("session_locked", JBool true)]) g.

Definition persist_turnover_check (symbol session strategy_id now : string)
    (proposed allowed cumulative cap equity : float) (capped breach : bool)
    : py CapacityGovernor string unit :=
  insert_turnover (mkTurnoverRow session symbol now strategy_id "" (fsub proposed allowed)
    cumulative cap (if capped then 1 else 0)
    [("event", JStr "pre_trade_cap_check"); ("proposed", JFloat proposed);
     ("allowed", JFloat allowed); ("current_equity", JFloat equity); ("breach", JBool breach)]).

(** ** The turnover cap *)

Record TurnoverLimitDecision := mkTurnoverDecision {
  td_symbol : string; td_session_date : string;
  proposed_notional : float; allowed_notional : float; daily_turnover_so_far : float;
  cap_notional : float; td_equity : float;
  td_capped : bool; td_blocked : bool; td_breach : bool; td_session_locked : bool;
  td_reason : string
}.

Definition enforce_daily_turnover_limits (symbol : string) (size equity_in : float)
    (strategy_id session now : string) : py CapacityGovernor string TurnoverLimitDecision := fun g =>
  let sym := upper symbol in
  let proposed := py_max size fzero in
  let equity := py_max equity_in fzero in
  let g := if fltb fzero equity then set_equity equity g else g in
  let cap := resolve_daily_turnover_cap (Some equity) g in
  let '(realized, g) := load_session_turnover_total session g in
  let remaining := py_max (fsub cap realized) fzero in
  let decide := mkTurnoverDecision sym session proposed in
  if session_locked g then
    (Ok (decide fzero realized cap equity true true true true
           (str_or (breach_reason g) "turnover_breach_session_lock")), g)
  else if fleb proposed fzero then
    (Ok (decide fzero realized cap equity false true false false "non_positive_proposed_notional"), g)
  else if fleb cap fzero then
    (Ok (decide fzero realized cap equity true true false false "equity_unavailable_for_turnover_cap"), g)
  else if fleb cap realized then
    (let! _ := engage_session_breach sym strategy_id now session realized cap equity in
     py_ret (decide fzero realized cap equity true true true true "daily_turnover_cap_exhausted"))%py g
  else
    let allowed := py_min proposed remaining in
    let capped := fltb allowed proposed in
    let blocked := fleb allowed fzero in
    let reason := if capped then "proposed_notional_trimmed_to_remaining_cap" else "within_cap" in
    (let! _ := if capped || blocked
               then persist_turnover_check sym session strategy_id now proposed allowed
                      (fadd realized allowed) cap equity capped false
               else py_ret tt in
     py_ret (decide allowed realized cap equity capped blocked false false reason))%py g.

Definition record_realized_turnover (symbol : string) (notional : float)
    (strategy_id side session now : string) (equity_in : option float)
    : py CapacityGovernor string float := fun g =>
  let sym := upper symbol in
  let amount := py_max notional fzero in
  let equity := match equity_in with None => current_equity g | Some x => py_max x fzero end in
  let g := match equity_in with None => g | Some _ => set_equity equity g end in
  if fleb amount fzero then
    let '(v, g) := load_session_turnover_total session g in (Ok v, g)
  else
    let cap := resolve_daily_turnover_cap (Some equity) g in
    let '(prior, g) := load_session_turnover_total session g in
    let cumulative := fadd prior amount in
    let g := set_cache (<[session_total_key session := cumulative]> (session_cache g)) g in
    (* one transaction: the total and the ledger row, or neither *)
    match sql_real cumulative, sql_real cap with
    | Some c, Some p =>
        (let! _ := insert_turnover (mkTurnoverRow session sym now strategy_id side amount cumulative
                     cap 0
                     [("event", JStr "realized_fill"); ("current_equity", JFloat equity);
                      ("session_total", JFloat cumulative)]) in
         let! _ := py_modify (put_daily_total session (mkDailyTotal c p now)) in
         let! _ := if fltb fzero cap && fltb cap cumulative
                   then engage_session_breach sym strategy_id now session cumulative cap equity
                   else py_ret tt in
         py_ret cumulative)%py g
    | _, _ => (Raise "IntegrityError", g)
    end.

(** ** Participation *)

Record ParticipationClampDecision := mkClamp {
  pc_symbol : string; original_shares : float; clamped_shares : float;
  participation_rate : float; pc_max_participation_rate : float; reference_bar_volume : float;
  pc_clamped : bool; pc_reason : string
}.

Definition resolve_participation_rate (shares bar_volume : float) (g : CapacityGovernor) : float :=
  if fleb bar_volume fzero then max_participation_rate g
  else py_min (max_participation_rate g) (fdiv shares bar_volume).

(** [np_median] stands for numpy's median of a non-empty array. *)
Definition clamp_participation_rate (np_median : list float -> float) (symbol : string) (order_size : float) (volumes : list float)
    (g : CapacityGovernor) : ParticipationClampDecision :=
  let sym := upper symbol in
  let original := py_max order_size fzero in
  let volumes := List.filter (fun v => isfinite v && fltb fzero v) volumes in
  if fleb original fzero then
    mkClamp sym original fzero fzero (max_participation_rate g) fzero true "zero_order_size"
  else match last volumes with
  | None => mkClamp sym original original fzero (max_participation_rate g) fzero false "no_volume_profile"
  | Some current_volume =>
      let reference_volume := np_median volumes in
      let bar_volume := py_max (py_max current_volume reference_volume) MIN_BAR_VOLUME_SHARES in
      let participation_cap := resolve_participation_rate original bar_volume g in
      let max_allowed := fmul bar_volume (max_participation_rate g) in
      let shares := py_min original max_allowed in
      let realized_rate := if fltb fzero bar_volume then fdiv shares bar_volume else fzero in
      let clamped := fltb shares original in
      let reason := if clamped && fleb shares fzero then "participation_limit_blocks_order"
                    else if clamped then "order_shares_trimmed_to_participation_cap"
                    else "within_participation_limit" in
      mkClamp sym original shares realized_rate participation_cap bar_volume clamped reason
  end.

(** ** Market impact *)

(** The keys [calculate_expected_vs_realized_impact] reads from [fill_data]. *)
Record fill_data := mkFill {
  fd_trade_id : string; fd_symbol : string; fd_qty : option float; fd_side : string;
  fd_trailing_volume : option float;
  fd_markout_5m : option float; fd_markout_1m : option float; fd_slippage_bps : option float;
  fd_expected_price : option float; fd_filled_price : option float;
  fd_timestamp : option string; fd_metadata : list (string * json)
}.

(** [float(d.get(k) or 0.0)]. *)
Definition or_zero (x : option float) : float :=
  match x with Some v => if ftruthy v then v else fzero | None => fzero end.

(** [np_sqrt] stands for numpy's square root. *)
Definition estimate_sqrt_impact_bps (np_sqrt : float -> float) (qty volume coeff : float) : float :=
  fmul (fmul coeff (np_sqrt (fdiv qty (py_max volume MIN_BAR_VOLUME_SHARES)))) BPS.

Definition estimate_linear_impact_bps (qty volume coeff : float) : float :=
  fmul (fmul coeff (fdiv qty (py_max volume MIN_BAR_VOLUME_SHARES))) BPS.

Definition blend_impact_estimates (sqrt_bps linear_bps sqrt_coeff linear_coeff : float) : float :=
  let total := fadd sqrt_coeff linear_coeff in
  if fleb total fzero then fmul (lit 5 1) (fadd sqrt_bps linear_bps) else
  let w := fdiv sqrt_coeff total in
  fadd (fmul w sqrt_bps) (fmul (fsub fone w) linear_bps).

Definition select_impact_model (sqrt_coeff linear_coeff : float) : ImpactModel :=
  if fltb (fabs (fsub sqrt_coeff linear_coeff)) MICRO then BLENDED
  else if fleb linear_coeff sqrt_coeff then SQRT else LINEAR.

Definition resolve_realized_impact_bps (f : fill_data) : float :=
  match fd_markout_5m f, fd_markout_1m f, fd_slippage_bps f with
  | Some x, _, _ | None, Some x, _ | None, None, Some x => x
  | None, None, None =>
      let expected := or_zero (fd_expected_price f) in
      let filled := or_zero (fd_filled_price f) in
      if fltb fzero expected && fltb fzero filled then
        let slip := if bool_decide (lower (str_or (fd_side f) "buy") = "buy")
                    then fdiv (fsub filled expected) expected
                    else fdiv (fsub expected filled) expected in
        fmul slip BPS
      else fzero
  end.

Definition load_impact_coefficients (symbol : string) (g : CapacityGovernor) : float * float :=
  match coefficients (cap_db g) !! upper symbol with
  | None => (DEFAULT_SQRT_IMPACT_COEFFICIENT, DEFAULT_LINEAR_IMPACT_COEFFICIENT)
  | Some r => (co_sqrt r, co_linear r)
  end.

Definition persist_impact_coefficients (symbol now : string) (s l : float)
    : py CapacityGovernor string unit := fun g =>
  match sql_real s, sql_real l with
  | Some s, Some l =>
      let n := match coefficients (cap_db g) !! upper symbol with
               | Some r => (co_sample_count r + 1)%Z | None => 1%Z end in
      (Ok tt, set_db (mkCapacityDb (turnover_ledger (cap_db g)) (daily_totals (cap_db g))
                        (impact_ledger (cap_db g))
                        (<[upper symbol := mkCoefficient s l n now]> (coefficients (cap_db g)))) g)
  | _, _ => (Raise "IntegrityError", g)
  end.

Definition persist_impact_estimate (f : fill_data) (r : ImpactEstimateResult) (now : string)
    : py CapacityGovernor string unit := fun g =>
  if existsb is_nan [or_zero (fd_qty f); expected_impact_bps r; realized_impact_bps r;
                     impact_residual_bps r; sqrt_coefficient r; linear_coefficient r;
                     im_trailing_volume r]
  then (Raise "IntegrityError", g)
  else (Ok tt, set_db (mkCapacityDb (turnover_ledger (cap_db g)) (daily_totals (cap_db g))
          (impact_ledger (cap_db g) ++
             [mkImpactRow (opt_or (fd_timestamp f) now) (or_zero (fd_qty f)) (fd_side f) r
                (fd_metadata f)]) (coefficients (cap_db g))) g).

Definition calculate_expected_vs_realized_impact (np_sqrt : float -> float) (f : fill_data) (now : string)
    : py CapacityGovernor string ImpactEstimateResult := fun g =>
  let symbol := upper (fd_symbol f) in
  let qty := py_max (or_zero (fd_qty f)) fzero in
  let volume := py_max (or_zero (fd_trailing_volume f)) fzero in
  let '(sc, lc) := load_impact_coefficients symbol g in
  let expected := blend_impact_estimates (estimate_sqrt_impact_bps np_sqrt qty volume sc)
                    (estimate_linear_impact_bps qty volume lc) sc lc in
  let model := select_impact_model sc lc in
  let realized := resolve_realized_impact_bps f in
  let residual := fsub realized expected in
  let learn := fltb MICRO expected in
  let adjustment := if learn
    then fmul IMPACT_COEFFICIENT_EMA_ALPHA (fsub (fdiv realized expected) fone) else fzero in
  let sc' := if learn then py_max COEFF_FLOOR (fmul sc (fadd fone adjustment)) else sc in
  let lc' := if learn then py_max COEFF_FLOOR (fmul lc (fadd fone adjustment)) else lc in
  let r := mkImpact (fd_trade_id f) symbol expected realized residual model sc' lc' adjustment volume in
  (let! _ := if learn then persist_impact_coefficients symbol now sc' lc' else py_ret tt in
   let! _ := persist_impact_estimate f r now in
   py_ret r)%py g.

(** ** The turnover cap, specified

    With whole amounts the governor is a counter: it grants what is left of the cap and
    locks the session when a request finds nothing left. *)

Record cap_state := mkCapState { cs_total : Z; cs_locked : bool }.

Definition cap_step (cap : Z) (s : cap_state) (n : Z) : Z * cap_state :=
  if cs_locked s || (n <=? 0)%Z then (0%Z, s)
  else if (cap <=? cs_total s)%Z then (0%Z, mkCapState (cs_total s) true)
  else let granted := Z.min n (cap - cs_total s) in
       (granted, mkCapState (cs_total s + granted) false).

(** A client: ask, then report the granted amount as filled. *)
Definition trade (symbol strategy_id session now : string) (equity : float) (n : Z)
    : py CapacityGovernor string float := fun g =>
  match enforce_daily_turnover_limits symbol (of_Z n) equity strategy_id session now g with
  | (Ok d, g) =>
      if td_blocked d then (Ok fzero, g)
      else match record_realized_turnover symbol (allowed_notional d) strategy_id "buy" session now
                   (Some equity) g with
           | (Ok _, g) => (Ok (allowed_notional d), g)
           | (Raise e, g) => (Raise e, g)
           end
  | (Raise e, g) => (Raise e, g)
  end.

(** ** Bookkeeping lemmas *)

Lemma insert_turnover_ok r g a b c :
  sql_real (to_notional r) = Some a -> sql_real (to_cumulative r) = Some b ->
  sql_real (to_cap r) = Some c ->
  exists g', insert_turnover r g = (Ok tt, g') /\ session_cache g' = session_cache g /\
    session_locked g' = session_locked g /\ breach_reason g' = breach_reason g /\
    equity_turnover_multiplier g' = equity_turnover_multiplier g /\
    current_equity g' = current_equity g /\ daily_totals (cap_db g') = daily_totals (cap_db g).
Proof. intros Ha Hb Hc. unfold insert_turnover. rewrite Ha, Hb, Hc. by eexists. Qed.

Lemma engage_ok symbol sid now session (t c : Z) equity g :
  session_locked g = false -> whole t -> whole c -> whole (t - c) ->
  exists g', engage_session_breach symbol sid now session (of_Z t) (of_Z c) equity g = (Ok tt, g') /\
    session_cache g' = session_cache g /\ session_locked g' = true /\
    equity_turnover_multiplier g' = equity_turnover_multiplier g.
Proof.
  intros Hl Ht Hc Hd. unfold engage_session_breach. rewrite Hl, fsub_of_Z, fzero_of_Z, py_max_of_Z by done.
  set (r := mkTurnoverRow _ _ _ _ _ _ _ _ _ _).
  destruct (insert_turnover_ok r (restore_session_state true "turnover_breach_session_lock" g)
    (of_Z (Z.max (t - c) 0)) (of_Z t) (of_Z c)) as (g' & E & H1 & H2 & _ & H3 & _);
    [apply sql_real_of_Z; unfold whole in *; lia|by apply sql_real_of_Z..|].
  exists g'. by rewrite E.
Qed.

Lemma load_total_spec session g :
  exists v g', load_session_turnover_total session g = (v, g') /\
    session_cache g' !! session_total_key session = Some v /\
    session_locked g' = session_locked g /\ breach_reason g' = breach_reason g /\
    equity_turnover_multiplier g' = equity_turnover_multiplier g /\
    v = match session_cache g !! session_total_key session with
        | Some v => v
        | None => match daily_totals (cap_db g) !! (session, SESSION_TOTAL_SYMBOL) with
                  | Some t => dt_realized t | None => fzero end
        end.
Proof.
  unfold load_session_turnover_total. destruct (session_cache g !! _) as [v|] eqn:E.
  - by exists v, g.
  - eexists _, _. split; [done|]. cbn. by rewrite lookup_insert_eq.
Qed.

(** What the governor answers for the session's total. *)
Definition session_total (session : string) (g : CapacityGovernor) : float :=
  (load_session_turnover_total session g).1.

Lemma cap_depends_on_multiplier e g g' :
  equity_turnover_multiplier g' = equity_turnover_multiplier g ->
  resolve_daily_turnover_cap (Some e) g' = resolve_daily_turnover_cap (Some e) g.
Proof. intros E. unfold resolve_daily_turnover_cap. by rewrite E. Qed.

Lemma resolve_cap_twice e g :
  resolve_daily_turnover_cap (Some (py_max e fzero)) g = resolve_daily_turnover_cap (Some e) g.
Proof.
  unfold resolve_daily_turnover_cap. assert (py_max (py_max e fzero) fzero = py_max e fzero) as ->; [|done].
  unfold py_max. destruct (fltb e fzero) eqn:E; [done|by rewrite E].
Qed.

(** The governor stands at counter [s] of a session, capped at [cap]. *)
Record at_counter (session : string) (equity : float) (cap : Z) (s : cap_state)
    (g : CapacityGovernor) : Prop := {
  ac_total : session_total session g = of_Z (cs_total s);
  ac_locked : session_locked g = cs_locked s;
  ac_cap : resolve_daily_turnover_cap (Some equity) g = of_Z cap
}.

Definition bounded_counter (cap : Z) (s : cap_state) : Prop :=
  (0 <= cs_total s <= cap)%Z /\ whole cap /\ (0 < cap)%Z.

Lemma cached_total session v g :
  session_cache g !! session_total_key session = Some v -> session_total session g = v.
Proof. intros H. unfold session_total, load_session_turnover_total. by rewrite H. Qed.

Lemma session_total_equity session e g : session_total session (set_equity e g) = session_total session g.
Proof.
  unfold session_total, load_session_turnover_total. cbn.
  by destruct (session_cache g !! _).
Qed.

Lemma record_step symbol sid session now equity cap a s g :
  bounded_counter cap s -> at_counter session equity cap s g ->
  (0 < a)%Z -> (cs_total s + a <= cap)%Z ->
  exists g', record_realized_turnover symbol (of_Z a) sid "buy" session now (Some equity) g
             = (Ok (of_Z (cs_total s + a)), g') /\
    at_counter session equity cap (mkCapState (cs_total s + a) (cs_locked s)) g'.
Proof.
  intros (Hb & Hwc & Hpos) [Ht Hl Hc] Ha Hac. unfold record_realized_turnover.
  assert (whole a /\ whole (cs_total s) /\ whole (cs_total s + a) /\ whole 0) as (Hwa & Hwt & Hws & Hw0)
    by (unfold whole in *; lia).
  rewrite fzero_of_Z, py_max_of_Z, Z.max_l, fleb_of_Z by (done || lia). rewrite <- fzero_of_Z.
  rewrite (proj2 (Z.leb_gt a 0)) by lia.
  set (g0 := set_equity (py_max equity fzero) g).
  rewrite (cap_depends_on_multiplier _ g g0), resolve_cap_twice, Hc by done.
  destruct (load_total_spec session g0) as (v & g1 & E1 & Hv & Hl1 & Hr1 & Hm1 & _).
  assert (v = of_Z (cs_total s)) as ->.
  { rewrite <- Ht, <- (session_total_equity session (py_max equity fzero) g).
    unfold session_total. fold g0. by rewrite E1. }
  rewrite E1, fadd_of_Z, !sql_real_of_Z by done. unfold py_bind.
  set (g2 := set_cache _ g1). set (r := mkTurnoverRow _ _ _ _ _ _ _ _ _ _).
  destruct (insert_turnover_ok r g2 (of_Z a) (of_Z (cs_total s + a)) (of_Z cap))
    as (g3 & -> & H1 & H2 & _ & H3 & _); [by apply sql_real_of_Z..|].
  rewrite fzero_of_Z, !fltb_of_Z by done. rewrite (proj2 (Z.ltb_ge cap (cs_total s + a))) by lia.
  rewrite andb_false_r. cbn. eexists. split; [done|]. split; cbn.
  - apply cached_total. cbn. rewrite H1. unfold g2. cbn. apply lookup_insert_eq.
  - rewrite H2. unfold g2. cbn. rewrite Hl1. unfold g0. done.
  - rewrite (cap_depends_on_multiplier equity g) by (cbn; by rewrite H3; unfold g2; cbn; rewrite Hm1).
    done.
Qed.

Lemma insert_check_keeps session equity cap s g r n c p :
  at_counter session equity cap s g ->
  sql_real (to_notional r) = Some n -> sql_real (to_cumulative r) = Some c ->
  sql_real (to_cap r) = Some p ->
  exists g', at_counter session equity cap s g' /\ insert_turnover r g = (Ok tt, g').
Proof.
  intros [Ht Hl Hc] Hn Hcu Hp.
  destruct (insert_turnover_ok r g n c p) as (g' & E & H1 & H2 & _ & H3 & _ & H4); [done..|].
  exists g'. split; [|done]. split; [|congruence|by rewrite (cap_depends_on_multiplier equity g g')].
  revert Ht. unfold session_total, load_session_turnover_total. rewrite H1, H4.
  by destruct (session_cache g !! _).
Qed.

Lemma trade_step symbol sid session now equity n cap s g :
  whole n -> bounded_counter cap s -> at_counter session equity cap s g ->
  exists g', trade symbol sid session now equity n g = (Ok (of_Z (cap_step cap s n).1), g') /\
    at_counter session equity cap (cap_step cap s n).2 g' /\
    bounded_counter cap (cap_step cap s n).2.
Proof.
  intros Hn (Hb & Hwc & Hpos) [Ht Hl Hc]. unfold trade, enforce_daily_turnover_limits.
  rewrite fzero_of_Z, py_max_of_Z by (done || unfold whole; lia). rewrite <- fzero_of_Z.
  set (e := py_max equity fzero). set (g0 := if fltb fzero e then set_equity e g else g).
  assert (session_total session g0 = of_Z (cs_total s)) as Ht0 by (unfold g0; destruct (fltb fzero e); [by rewrite session_total_equity|done]).
  assert (session_locked g0 = cs_locked s) as Hl0 by (unfold g0; by destruct (fltb fzero e)).
  assert (equity_turnover_multiplier g0 = equity_turnover_multiplier g) as Hm0
    by (unfold g0; by destruct (fltb fzero e)).
  assert (resolve_daily_turnover_cap (Some e) g0 = of_Z cap) as Hc0.
  { rewrite (cap_depends_on_multiplier e g g0 Hm0), <- Hc. apply resolve_cap_twice. }
  rewrite Hc0. unfold session_total in Ht0.
  destruct (load_total_spec session g0) as (v & g1 & E1 & Hv & Hl1 & Hr1 & Hm1 & _).
  rewrite E1 in *. cbn in Ht0. subst v. rewrite Hl0 in Hl1. rewrite Hl1.
  assert (whole (cs_total s)) as Hwt by (unfold whole in *; lia).
  assert (whole (cap - cs_total s)) as Hwr by (unfold whole in *; lia).
  assert (at_counter session equity cap s g1) as Hac.
  { split; [by apply cached_total|done|].
    rewrite (cap_depends_on_multiplier equity g g1), Hc by congruence. done. }
  unfold cap_step. destruct (cs_locked s) eqn:Els; cbn [orb].
  { exists g1. cbn [td_blocked fst snd]. done. }
  rewrite fzero_of_Z, fleb_of_Z by (done || unfold whole in *; lia).
  destruct (Z.leb_spec n 0) as [Hle|Hgt].
  { rewrite (proj2 (Z.leb_le (Z.max n 0) 0)) by lia. exists g1. by cbn [td_blocked fst snd]. }
  rewrite (proj2 (Z.leb_gt (Z.max n 0) 0)) by lia. rewrite !Z.max_l by lia.
  rewrite fleb_of_Z by (done || unfold whole; lia). rewrite (proj2 (Z.leb_gt cap 0)) by lia.
  rewrite fleb_of_Z by done. destruct (Z.leb_spec cap (cs_total s)) as [Hfull|Hroom].
  { unfold py_bind.
    destruct (engage_ok (upper symbol) sid now session (cs_total s) cap e g1 Hl1 Hwt Hwc
      ltac:(unfold whole in *; lia)) as (g2 & -> & Hca & Hlk & Hmu).
    cbn. exists g2. split; [done|]. split; [|by split; [cbn; lia|]].
    split; cbn; [apply cached_total; by rewrite Hca|done|].
    rewrite (cap_depends_on_multiplier equity g1 g2) by done. by destruct Hac. }
  rewrite fsub_of_Z, py_max_of_Z, (Z.max_l (cap - _)), py_min_of_Z, fltb_of_Z, fleb_of_Z
    by (done || unfold whole in *; lia).
  set (a := Z.min n (cap - cs_total s)).
  rewrite (proj2 (Z.leb_gt a 0)) by lia. rewrite orb_false_r.
  assert (exists g2, at_counter session equity cap s g2 /\
    (if (a <? n)%Z then persist_turnover_check (upper symbol) session sid now (of_Z n) (of_Z a)
       (fadd (of_Z (cs_total s)) (of_Z a)) (of_Z cap) e (a <? n)%Z false else py_ret tt) g1
    = (Ok tt, g2)) as (g2 & Hac2 & Eg2).
  { destruct (a <? n)%Z; [|by exists g1]. unfold persist_turnover_check. 
    eapply insert_check_keeps; [done|..]; cbn; [rewrite fsub_of_Z|rewrite fadd_of_Z|];
      try apply sql_real_of_Z; unfold whole, a in *; lia. }
  unfold py_bind. rewrite Eg2. cbn [py_ret td_blocked allowed_notional].
  destruct (record_step symbol sid session now equity cap a s g2) as (g3 & -> & Hac3);
    [done|done|unfold a; lia..|].
  rewrite Els in Hac3. exists g3. split; [done|]. split; [done|]. split; [cbn; unfold a; lia|done].
Qed.

(** A run of trades: each asks for a whole notional. *)
Fixpoint trades (sid session : string) (equity : float) (reqs : list (string * string * Z))
    (g : CapacityGovernor) : list (result string float) * CapacityGovernor :=
  match reqs with
  | [] => ([], g)
  | (symbol, now, n) :: reqs =>
      let '(r, g) := trade symbol sid session now equity n g in
      let '(rs, g) := trades sid session equity reqs g in (r :: rs, g)
  end.

Fixpoint cap_run (cap : Z) (s : cap_state) (ns : list Z) : list Z * cap_state :=
  match ns with
  | [] => ([], s)
  | n :: ns =>
      let '(a, s) := cap_step cap s n in
      let '(l, s) := cap_run cap s ns in (a :: l, s)
  end.

(** C22: over any run of trades of whole notionals the governor grants what the capped
    counter grants (the request, what is left of the cap, or nothing) and locks
    the session when the counter does; the session's total in the cache is the counter's and
    never passes the cap. *)
Theorem turnover_refines_counter sid session equity cap reqs s g :
  Forall (fun r => whole r.2) reqs -> bounded_counter cap s -> at_counter session equity cap s g ->
  exists g',
    trades sid session equity reqs g
      = (map (fun a => Ok (of_Z a)) (cap_run cap s (map snd reqs)).1, g') /\
    at_counter session equity cap (cap_run cap s (map snd reqs)).2 g' /\
    (0 <= cs_total (cap_run cap s (map snd reqs)).2 <= cap)%Z.
Proof.
  intros Hw. revert s g.
  induction Hw as [|[[symbol now] n] reqs Hn Hw IH]; intros s g Hb Hac; cbn.
  { exists g. split; [done|]. split; [done|]. apply Hb. }
  destruct (trade_step symbol sid session now equity n cap s g) as (g1 & -> & Hac1 & Hb1); [done..|].
  destruct (cap_step cap s n) as [a s1]. cbn in Hac1, Hb1.
  destruct (IH s1 g1 Hb1 Hac1) as (g2 & E2 & Hac2 & Hb2). rewrite E2.
  destruct (cap_run cap s1 (map snd reqs)) as [l s2]. by exists g2.
Qed.

Definition empty_capacity_db : capacity_db := mkCapacityDb [] ∅ [] ∅.

(** Equity 1000 caps the day at 3000: 2000 is granted, 1500 is trimmed to 1000, and the
    next request locks the session. *)
Lemma turnover_refines_counter_witness :
  exists g',
    trades "mr" "2024-01-02" (of_Z 1000)
      [("SPY", "t1", 2000%Z); ("QQQ", "t2", 1500%Z); ("SPY", "t3", 10%Z)]
      (capacity_init empty_capacity_db)
      = (map (fun a => Ok (of_Z a)) [2000; 1000; 0]%Z, g') /\
    at_counter "2024-01-02" (of_Z 1000) 3000 (mkCapState 3000 true) g' /\ (0 <= 3000 <= 3000)%Z.
Proof.
  apply (turnover_refines_counter "mr" "2024-01-02" (of_Z 1000) 3000
    [("SPY", "t1", 2000%Z); ("QQQ", "t2", 1500%Z); ("SPY", "t3", 10%Z)] (mkCapState 0 false)).
  - repeat constructor.
  - repeat constructor; cbn; lia.
  - split; vm_compute; reflexivity.
Defined.

(** ** The session lock *)

(** The operations that take a session. *)
Inductive capacity_call :=
  | CEnforce (symbol : string) (size equity : float) (strategy_id session now : string)
  | CRecord (symbol : string) (notional : float) (strategy_id side session now : string)
      (equity : option float)
  | CImpact (f : fill_data) (now : string)
  | CConfig (multiplier max_rate min_rate : float)
  | CEquity (equity : float).

Definition run_call (np_sqrt : float -> float) (c : capacity_call) (g : CapacityGovernor) : CapacityGovernor :=
  match c with
  | CEnforce symbol size equity sid session now =>
      (enforce_daily_turnover_limits symbol size equity sid session now g).2
  | CRecord symbol n sid side session now equity =>
      (record_realized_turnover symbol n sid side session now equity g).2
  | CImpact f now => (calculate_expected_vs_realized_impact np_sqrt f now g).2
  | CConfig m a b => apply_config m a b g
  | CEquity e => (update_account_equity e g).2
  end.

Lemma insert_keeps_lock r g : session_locked (insert_turnover r g).2 = session_locked g.
Proof. unfold insert_turnover. by repeat case_match. Qed.

Lemma load_keeps_lock session g :
  session_locked (load_session_turnover_total session g).2 = session_locked g.
Proof. unfold load_session_turnover_total. by case_match. Qed.

Lemma engage_keeps_lock symbol sid now session a b c g :
  session_locked g = true ->
  session_locked (engage_session_breach symbol sid now session a b c g).2 = true.
Proof. intros H. unfold engage_session_breach. by rewrite H. Qed.

Lemma enforce_locked symbol size equity sid session now g :
  session_locked g = true ->
  exists d g', enforce_daily_turnover_limits symbol size equity sid session now g = (Ok d, g') /\
    td_blocked d = true /\ allowed_notional d = fzero /\ session_locked g' = true /\
    cap_db g' = cap_db g.
Proof.
  intros H. unfold enforce_daily_turnover_limits.
  set (g0 := if fltb fzero _ then _ else g).
  assert (session_locked g0 = true /\ cap_db g0 = cap_db g) as [H0 Hd] by (unfold g0; by case_match).
  pose proof (load_keeps_lock session g0) as Hl.
  assert (cap_db (load_session_turnover_total session g0).2 = cap_db g) as Hd'
    by (unfold load_session_turnover_total; by case_match).
  destruct (load_session_turnover_total session g0) as [v g1]. cbn in Hl, Hd'.
  rewrite Hl, H0. eexists _, g1. split; [done|]. cbn. repeat split; congruence.
Qed.

Lemma record_keeps_lock symbol n sid side session now equity g :
  session_locked g = true ->
  session_locked (record_realized_turnover symbol n sid side session now equity g).2 = true.
Proof.
  intros H. unfold record_realized_turnover.
  set (g0 := match equity with Some _ => _ | None => g end).
  assert (session_locked g0 = true) as H0 by (unfold g0; by case_match).
  pose proof (load_keeps_lock session g0) as Hl.
  destruct (load_session_turnover_total session g0) as [v g1]. cbn in Hl. rewrite H0 in Hl.
  set (eq := match equity with Some x => py_max x fzero | None => current_equity g end).
  set (cap := resolve_daily_turnover_cap (Some eq) g0). set (total := fadd v (py_max n fzero)).
  destruct (fleb (py_max n fzero) fzero); [done|].
  destruct (sql_real total); [|done]. destruct (sql_real cap); [|done].
  unfold py_bind. set (r := mkTurnoverRow _ _ _ _ _ _ _ _ _ _). set (g2 := set_cache _ g1).
  pose proof (insert_keeps_lock r g2) as Hi.
  destruct (insert_turnover r g2) as [[[]|] g3]; cbn in Hi |- *; [|congruence].
  set (g4 := put_daily_total _ _ g3).
  assert (session_locked g4 = true) as H4 by (unfold g4; cbn; congruence).
  destruct (fltb fzero cap && fltb cap total); [|done].
  pose proof (engage_keeps_lock (upper symbol) sid now session total cap eq g4 H4) as He.
  by destruct (engage_session_breach _ _ _ _ _ _ _ g4) as [[[]|] g5].
Qed.

Lemma impact_keeps_lock np_sqrt f now g :
  session_locked (calculate_expected_vs_realized_impact np_sqrt f now g).2 = session_locked g.
Proof.
  unfold calculate_expected_vs_realized_impact.
  destruct (load_impact_coefficients _ g) as [sc lc].
  set (expected := blend_impact_estimates _ _ _ _).
  unfold py_bind, py_ret, persist_impact_coefficients, persist_impact_estimate.
  repeat case_match; simplify_eq; done.
Qed.

Lemma call_keeps_lock np_sqrt c g : session_locked g = true -> session_locked (run_call np_sqrt c g) = true.
Proof.
  intros H. destruct c; cbn; [|by apply record_keeps_lock|by rewrite impact_keeps_lock|done|done].
  edestruct (enforce_locked symbol size equity strategy_id session now g H)
    as (d & g' & -> & _ & _ & Hl & _). done.
Qed.

(** once a turnover breach has locked the governor, no call unlocks it: whatever is
    enforced, recorded, estimated or configured afterwards, in any session, on later
    days too, every request is blocked with nothing granted and nothing is written for it. *)
Theorem lock_outlives_the_session np_sqrt calls symbol size equity sid session now g :
  session_locked g = true ->
  exists d g', enforce_daily_turnover_limits symbol size equity sid session now
                 (foldl (fun g c => run_call np_sqrt c g) g calls) = (Ok d, g') /\
    td_blocked d = true /\ allowed_notional d = fzero /\ session_locked g' = true /\
    cap_db g' = cap_db (foldl (fun g c => run_call np_sqrt c g) g calls).
Proof.
  revert g. induction calls as [|c calls IH]; intros g H; cbn; [by apply enforce_locked|].
  by apply IH, call_keeps_lock.
Qed.

Lemma lock_outlives_the_session_witness :
  let g := foldl (fun g c => run_call fsqrt c g) (capacity_init empty_capacity_db)
             [CRecord "SPY" (of_Z 3001) "mr" "buy" "2024-01-02" "t1" (Some (of_Z 1000))] in
  exists d g', enforce_daily_turnover_limits "SPY" (of_Z 1) (of_Z 1000) "mr" "2024-01-03" "t2"
                 (foldl (fun g c => run_call fsqrt c g) g [CEquity (of_Z 9000)]) = (Ok d, g') /\
    td_blocked d = true /\ allowed_notional d = fzero /\ session_locked g' = true /\
    cap_db g' = cap_db (foldl (fun g c => run_call fsqrt c g) g [CEquity (of_Z 9000)]).
Proof.
  intros g. apply (lock_outlives_the_session fsqrt [CEquity (of_Z 9000)] "SPY" (of_Z 1) (of_Z 1000) "mr"
    "2024-01-03" "t2" g). vm_compute. reflexivity.
Defined.

(** ** Two trades the counter does not cover *)

(** Off whole amounts the remainder rounds: granted what is left of the cap, the fill
    takes the total one ulp past it and the breach lock comes on. *)
Lemma trimmed_trade_can_breach :
  let equity := lit 12352232 2 in
  let g := (record_realized_turnover "SPY" (lit 7564078 2) "mr" "buy" "2024-01-02" "t1" (Some equity)
              (capacity_init empty_capacity_db)).2 in
  match enforce_daily_turnover_limits "SPY" (of_Z 300000) equity "mr" "2024-01-02" "t2" g with
  | (Ok d, g) =>
      td_blocked d = false /\ td_breach d = false /\
      session_locked (record_realized_turnover "SPY" (allowed_notional d) "mr" "buy" "2024-01-02" "t3"
                        (Some equity) g).2 = true
  | _ => False
  end.
Proof. vm_compute. repeat split. Qed.

(** A NaN notional is cached as the session's total before its insert is refused; against a NaN
    total no request is capped. *)
Lemma nan_turnover_lifts_the_cap :
  let '(r, g) := record_realized_turnover "SPY" fnan "mr" "buy" "2024-01-02" "t1" (Some (of_Z 1000))
                   (capacity_init empty_capacity_db) in
  r = Raise "IntegrityError" /\
  match enforce_daily_turnover_limits "SPY" (of_Z 1000000) (of_Z 1000) "mr" "2024-01-02" "t2" g with
  | (Ok d, _) => td_blocked d = false /\ allowed_notional d = of_Z 1000000 /\ cap_notional d = of_Z 3000
  | _ => False
  end.
Proof. vm_compute. repeat split. Qed.

(** ** Participation *)

(** Without a usable bar volume the order passes whole. *)
Lemma no_profile_no_clamp np_median symbol n volumes g :
  whole n -> (0 < n)%Z ->
  List.filter (fun v => isfinite v && fltb fzero v) volumes = [] ->
  clamped_shares (clamp_participation_rate np_median symbol (of_Z n) volumes g) = of_Z n.
Proof.
  intros Hn Hpos Hv. unfold clamp_participation_rate.
  rewrite fzero_of_Z, py_max_of_Z, Z.max_l by (done || unfold whole in *; lia).
  rewrite fleb_of_Z by (done || unfold whole in *; lia).
  rewrite (proj2 (Z.leb_gt n 0)) by lia. rewrite <- fzero_of_Z, Hv. done.
Qed.

(** The clamp never raises an order above its size. *)
Lemma clamp_is_at_most_the_order np_median symbol n volumes g :
  whole n -> (0 < n)%Z ->
  fltb (of_Z n) (clamped_shares (clamp_participation_rate np_median symbol (of_Z n) volumes g)) = false.
Proof.
  intros Hn Hpos. unfold clamp_participation_rate.
  rewrite fzero_of_Z, py_max_of_Z, Z.max_l by (done || unfold whole in *; lia).
  rewrite fleb_of_Z by (done || unfold whole in *; lia).
  rewrite (proj2 (Z.leb_gt n 0)) by lia. rewrite <- fzero_of_Z.
  destruct (last _) as [v|]; cbn [clamped_shares]; [|apply fltb_irrefl].
  unfold py_min. set (m := fmul _ _). destruct (fltb m (of_Z n)) eqn:E; [|apply fltb_irrefl].
  destruct (fltb (of_Z n) m) eqn:E2; [|done].
  by rewrite <- (fltb_irrefl m), (fltb_trans m (of_Z n) m).
Qed.
