(* ===== verification/MarketCalendar.v ===== *)
(** * The NYSE session calendar

    [src/core/market_calendar.py]. A date is its number of days since 1970-01-01, a
    moment its microseconds since the epoch, and a wall-clock moment of New York the
    microseconds of the wall clock since the same midnight: Python compares two
    datetimes of one zone by the wall clock. *)

From stdpp Require Import base list strings.
From Stdlib Require Import ZArith Lia.
From S2P Require Import Prelude PyFloat.

Local Open Scope Z_scope.

(** ** Dates *)

(** [date(y, m, d)]. *)
Definition date (y m d : Z) : Z :=
  let y := if m <=? 2 then y - 1 else y in
  let era := y / 400 in
  let yoe := y mod 400 in
  let doy := (153 * (m + (if 2 <? m then -3 else 9)) + 2) / 5 + d - 1 in
  era * 146097 + (yoe * 365 + yoe / 4 - yoe / 100 + doy) - 719468.

(** Monday is 0; 1970-01-01 was a Thursday. *)
Definition weekday (d : Z) : Z := (d + 3) mod 7.

Definition MINUTE : Z := 60 * 1000000.
Definition HOUR : Z := 60 * MINUTE.
Definition DAY : Z := 24 * HOUR.

Definition RTH_OPEN : Z := 9 * HOUR + 30 * MINUTE.
Definition RTH_CLOSE_REGULAR : Z := 16 * HOUR.
Definition RTH_CLOSE_EARLY : Z := 13 * HOUR.

Definition NYSE_HOLIDAYS : list Z := Eval vm_compute in [
  date 2025 1 1; date 2025 1 20; date 2025 2 17; date 2025 4 18; date 2025 5 26;
  date 2025 6 19; date 2025 7 4; date 2025 9 1; date 2025 11 27; date 2025 12 25;
  date 2026 1 1; date 2026 1 19; date 2026 2 16; date 2026 4 3; date 2026 5 25;
  date 2026 6 19; date 2026 7 3; date 2026 9 7; date 2026 11 26; date 2026 12 25;
  date 2027 1 1; date 2027 1 18; date 2027 2 15; date 2027 3 26; date 2027 5 31;
  date 2027 6 18; date 2027 7 5; date 2027 9 6; date 2027 11 25; date 2027 12 24].

Definition NYSE_EARLY_CLOSE : list Z := Eval vm_compute in [
  date 2025 7 3; date 2025 11 28; date 2025 12 24; date 2026 11 27; date 2026 12 24;
  date 2027 11 26; date 2027 12 31].

(** ** The zone America/New_York

    [local_of t] is [t.astimezone(ET)], [utc_of w] takes a wall-clock moment back. The
    offsets come from the zone database, which is not part of the repository. *)

Class Zone := {
  local_of : Z -> Z;
  utc_of : Z -> Z
}.

(** The wall clock of noon less the moment of noon. *)
Definition day_offset `{Zone} (d : Z) : Z := d * DAY + 12 * HOUR - utc_of (d * DAY + 12 * HOUR).

(** New York is four or five hours behind, changes its clocks at night, and from three
    o'clock on keeps one offset for the rest of the day. *)
Class ZoneLaws `{Zone} := {
  zone_west t : -5 * HOUR <= local_of t - t <= -4 * HOUR;
  zone_local t : 3 * HOUR <= local_of t mod DAY -> local_of t = t + day_offset (local_of t / DAY);
  zone_utc w : 3 * HOUR <= w mod DAY -> utc_of w = w - day_offset (w / DAY) /\ local_of (utc_of w) = w
}.

(** ** The calendar *)

Record MarketSessionCalendar := mkCalendar { holidays : list Z; early_closes : list Z }.

Definition nyse : MarketSessionCalendar := mkCalendar NYSE_HOLIDAYS NYSE_EARLY_CLOSE.

Record SessionBounds := mkBounds {
  sb_session_date : Z;
  open_et : Z;
  close_et : Z;
  session_minutes : Z;
  early_close : bool;
  trading_day : bool
}.

Definition is_trading_day (c : MarketSessionCalendar) (d : Z) : bool :=
  if 5 <=? weekday d then false else negb (bool_decide (d ∈ holidays c)).

Definition is_early_close (c : MarketSessionCalendar) (d : Z) : bool :=
  bool_decide (d ∈ early_closes c).

Definition session_close_time (c : MarketSessionCalendar) (d : Z) : Z :=
  if is_early_close c d then RTH_CLOSE_EARLY else RTH_CLOSE_REGULAR.

(** The minutes are a whole number, which the float holds exactly. *)
Definition session_bounds (c : MarketSessionCalendar) (d : Z) : SessionBounds :=
  let open_dt := d * DAY + RTH_OPEN in
  let close_dt := d * DAY + session_close_time c d in
  mkBounds d open_dt close_dt
    (if is_trading_day c d then (close_dt - open_dt) / MINUTE else 0)
    (is_early_close c d) (is_trading_day c d).

Definition expected_bars_for_session (c : MarketSessionCalendar) (d bar_minutes : Z) : Z :=
  let b := session_bounds c d in
  if negb (trading_day b) || (bar_minutes <=? 0) then 0
  else Z.max 1 (session_minutes b / bar_minutes).

Section Clock.
Context `{Zone}.

Definition is_within_rth (c : MarketSessionCalendar) (t : Z) : bool :=
  let et := local_of t in
  let b := session_bounds c (et / DAY) in
  if negb (trading_day b) then false
  else (RTH_OPEN <=? et mod DAY) && (et mod DAY <=? close_et b mod DAY).

Fixpoint close_scan (c : MarketSessionCalendar) (et cursor : Z) (turns : nat) : option Z :=
  match turns with
  | O => None
  | S turns =>
      if is_trading_day c cursor &&
         ((close_et (session_bounds c cursor) <=? et) || (cursor <? et / DAY))
      then Some (close_et (session_bounds c cursor))
      else close_scan c et (cursor - 1) turns
  end.

Definition last_session_close (c : MarketSessionCalendar) (reference : Z) : Z :=
  let et := local_of reference in
  match close_scan c et (et / DAY) 10 with
  | Some close_dt => utc_of close_dt
  | None => reference
  end.

Definition effective_reference_time (c : MarketSessionCalendar) (exchange_reference : Z)
    (asset_class : String.string) : Z :=
  if bool_decide (asset_class = "crypto"%string) then exchange_reference
  else if is_within_rth c exchange_reference then exchange_reference
  else last_session_close c exchange_reference.

End Clock.

(** ** New York in the calendar's years

    The clock changes of 2025 to 2027, as moments: an hour less than five behind UTC
    between each pair. *)

Definition DST : list (Z * Z) := Eval vm_compute in [
  (date 2025 3 9 * DAY + 7 * HOUR, date 2025 11 2 * DAY + 6 * HOUR);
  (date 2026 3 8 * DAY + 7 * HOUR, date 2026 11 1 * DAY + 6 * HOUR);
  (date 2027 3 14 * DAY + 7 * HOUR, date 2027 11 7 * DAY + 6 * HOUR)].

Definition in_dst (t : Z) : bool := existsb (fun p => (p.1 <=? t) && (t <? p.2)) DST.

Definition new_york_local (t : Z) : Z := t - (if in_dst t then 4 else 5) * HOUR.

(** An ambiguous wall clock is read as the first of its two moments. *)
Definition new_york_utc (w : Z) : Z :=
  if in_dst (w + 4 * HOUR) then w + 4 * HOUR else w + 5 * HOUR.

#[export] Instance new_york : Zone := {| local_of := new_york_local; utc_of := new_york_utc |}.

Ltac zone_lia := unfold DAY, HOUR, MINUTE in *; lia.

(** The bounds of [DST] fall between six and seven in the morning, UTC. *)
Lemma dst_day d t t' :
  d * DAY + 7 * HOUR <= t < d * DAY + 30 * HOUR ->
  d * DAY + 7 * HOUR <= t' < d * DAY + 30 * HOUR -> in_dst t = in_dst t'.
Proof.
  intros Ht Ht'. unfold in_dst.
  assert (forall k h, h = 6 \/ h = 7 ->
    (k * DAY + h * HOUR <=? t) = (k * DAY + h * HOUR <=? t') /\
    (t <? k * DAY + h * HOUR) = (t' <? k * DAY + h * HOUR)) as Hside
    by (intros k h [-> | ->]; split; zone_lia).
  assert (Forall (fun p => (exists k, p.1 = k * DAY + 7 * HOUR) /\ exists k, p.2 = k * DAY + 6 * HOUR) DST)
    as Hb.
  { repeat constructor; cbn [fst snd];
      match goal with |- exists k, ?b = _ => let d := eval vm_compute in (b / DAY) in exists d end;
      reflexivity. }
  induction Hb as [|p l [[k1 E1] [k2 E2]] _ IH]; [done|]. cbn [existsb]. rewrite IH, E1, E2.
  by rewrite (proj1 (Hside k1 7 ltac:(by right))), (proj2 (Hside k2 6 ltac:(by left))).
Qed.

Lemma local_day w : 0 <= w mod DAY < DAY /\ w = w / DAY * DAY + w mod DAY.
Proof.
  split; [apply Z.mod_pos_bound; zone_lia|]. rewrite Z.mul_comm. apply Z.div_mod. zone_lia.
Qed.

Lemma day_split d w : d * DAY <= w < d * DAY + DAY -> w / DAY = d /\ w mod DAY = w - d * DAY.
Proof.
  intros Hw. destruct (local_day w) as [Hm He].
  assert (w / DAY = d) as E by (symmetry; apply (Z.div_unique _ _ d (w - d * DAY)); zone_lia).
  rewrite E in He. split; [done|lia].
Qed.

Lemma new_york_offset d : day_offset d = (if in_dst (d * DAY + 16 * HOUR) then -4 else -5) * HOUR.
Proof.
  unfold day_offset. cbn [utc_of new_york]. unfold new_york_utc.
  replace (d * DAY + 12 * HOUR + 4 * HOUR) with (d * DAY + 16 * HOUR) by zone_lia.
  destruct (in_dst _); zone_lia.
Qed.

#[export] Instance new_york_laws : ZoneLaws.
Proof.
  split.
  - intros t. cbn. unfold new_york_local. destruct (in_dst t); zone_lia.
  - intros t Ht. rewrite new_york_offset. cbn [local_of new_york] in *.
    destruct (local_day (new_york_local t)) as [Hm Hd].
    set (d := new_york_local t / DAY) in *. unfold new_york_local in *.
    rewrite (dst_day d (d * DAY + 16 * HOUR) t) by (destruct (in_dst t); zone_lia).
    destruct (in_dst t); zone_lia.
  - intros w Hw. rewrite new_york_offset. cbn [local_of utc_of new_york].
    destruct (local_day w) as [Hm Hd]. set (d := w / DAY) in *.
    unfold new_york_utc, new_york_local.
    rewrite (dst_day d (d * DAY + 16 * HOUR) (w + 4 * HOUR)) by zone_lia.
    destruct (in_dst (w + 4 * HOUR)) eqn:E; [rewrite E; split; zone_lia|].
    rewrite (dst_day d (w + 5 * HOUR) (w + 4 * HOUR)), E by zone_lia. split; zone_lia.
Qed.

(** ** Sessions *)

(** Some trading day lies in the nine days before any date. *)
Lemma nyse_trading_day_near d : exists k, 1 <= k <= 9 /\ is_trading_day nyse (d - k) = true.
Proof.
  set (near := existsb (fun k => is_trading_day nyse (d - k)) [1; 2; 3; 4; 5; 6; 7; 8; 9]).
  assert (near = true) as Hn.
  { destruct (existsb (fun h => (h <? d) && (d <=? h + 9)) NYSE_HOLIDAYS) eqn:E.
    - apply existsb_exists in E as (h & Hh & Hd).
      assert (exists j, 1 <= j <= 9 /\ d = h + j) as (j & Hj & ->) by (exists (d - h); lia).
      assert (forallb (fun h => forallb (fun j => existsb (fun k => is_trading_day nyse (h + j - k))
        [1; 2; 3; 4; 5; 6; 7; 8; 9]) [1; 2; 3; 4; 5; 6; 7; 8; 9]) NYSE_HOLIDAYS = true) as Hall
        by (vm_compute; reflexivity).
      rewrite forallb_forall in Hall. specialize (Hall h Hh). rewrite forallb_forall in Hall.
      apply (Hall j). cbn. lia.
    - assert (forall k, 1 <= k <= 9 -> d - k ∉ NYSE_HOLIDAYS) as Hno.
      { intros k Hk Hin%list_elem_of_In.
        enough (existsb (fun h => (h <? d) && (d <=? h + 9)) NYSE_HOLIDAYS = true) by congruence.
        apply existsb_exists. exists (d - k). split; [done|]. lia. }
      apply existsb_exists. exists (if weekday (d - 1) <? 5 then 1 else 3).
      assert (1 <= (if weekday (d - 1) <? 5 then 1 else 3) <= 3) by (destruct (_ <? _); lia).
      split; [destruct (_ <? _); cbn; lia|]. unfold is_trading_day.
      rewrite (proj2 (Z.leb_gt _ _)).
      + rewrite bool_decide_false; [done|]. apply Hno. lia.
      + unfold weekday in *. destruct (Z.ltb_spec ((d - 1 + 3) mod 7) 5);
          Z.to_euclidean_division_equations; lia. }
  apply existsb_exists in Hn as (k & Hk & Ht). exists k. split; [cbn in Hk; lia|done].
Qed.

Definition close_wall (c : MarketSessionCalendar) (d : Z) : Z := close_et (session_bounds c d).

Lemma close_wall_time c d :
  close_wall c d / DAY = d /\ 13 * HOUR <= close_wall c d mod DAY <= 16 * HOUR /\
  close_wall c d mod DAY = session_close_time c d.
Proof.
  assert (13 * HOUR <= session_close_time c d <= 16 * HOUR) as Hc
    by (unfold session_close_time, RTH_CLOSE_EARLY, RTH_CLOSE_REGULAR; destruct (is_early_close c d); zone_lia).
  unfold close_wall, session_bounds. cbn [close_et].
  destruct (day_split d (d * DAY + session_close_time c d)) as [-> ->]; [zone_lia|]. repeat split; zone_lia.
Qed.

Lemma close_wall_day c d : d * DAY + 13 * HOUR <= close_wall c d <= d * DAY + 16 * HOUR.
Proof.
  destruct (close_wall_time c d) as (Hd & Hm & _), (local_day (close_wall c d)) as [_ Hw].
  rewrite Hd in Hw. zone_lia.
Qed.

(** The scan finds the last close that the wall clock has reached. *)
Lemma close_scan_spec c et cursor n w :
  cursor <= et / DAY -> close_scan c et cursor n = Some w ->
  exists d, d <= cursor /\ is_trading_day c d = true /\ w = close_wall c d /\ w <= et /\
    forall d', d < d' <= cursor -> is_trading_day c d' = true -> et < close_wall c d'.
Proof.
  revert cursor. induction n as [|n IH]; intros cursor Hc; cbn [close_scan]; [done|].
  destruct (local_day et) as [Hm He].
  assert ((close_et (session_bounds c cursor) <=? et) || (cursor <? et / DAY)
          = (close_wall c cursor <=? et)) as ->.
  { fold (close_wall c cursor). pose proof (close_wall_day c cursor).
    destruct (Z.leb_spec (close_wall c cursor) et), (Z.ltb_spec cursor (et / DAY)); try done; zone_lia. }
  destruct (is_trading_day c cursor) eqn:Et; cbn [andb];
    [destruct (Z.leb_spec (close_wall c cursor) et) as [Hle|Hlt]|].
  - intros [= <-]. exists cursor. repeat split; [lia|done|done|lia].
  - intros (d & Hd & Ht & Hw & Hle & Hlast)%IH; [|lia]. exists d. repeat split; try done; [lia|].
    intros d' Hd' Ht'. destruct (decide (d' = cursor)) as [->|]; [done|]. apply Hlast; [lia|done].
  - intros (d & Hd & Ht & Hw & Hle & Hlast)%IH; [|lia]. exists d. repeat split; try done; [lia|].
    intros d' Hd' Ht'. destruct (decide (d' = cursor)) as [->|]; [congruence|]. apply Hlast; [lia|done].
Qed.

Lemma close_scan_found c et cursor (k : nat) n :
  is_trading_day c (cursor - Z.of_nat k) = true -> cursor - Z.of_nat k < et / DAY -> (k < n)%nat ->
  close_scan c et cursor n <> None.
Proof.
  revert cursor k. induction n as [|n IH]; intros cursor k Ht Hlt Hk; cbn [close_scan]; [lia|].
  destruct (is_trading_day c cursor && _) eqn:E; [done|]. destruct k as [|k].
  - replace (cursor - Z.of_nat 0) with cursor in * by lia.
    rewrite Ht, (proj2 (Z.ltb_lt cursor (et / DAY))), orb_true_r in E by lia. done.
  - apply (IH _ k); [by replace (cursor - 1 - Z.of_nat k) with (cursor - Z.of_nat (S k)) by lia|lia|lia].
Qed.

Section Sessions.
Context `{ZoneLaws}.

(** Two moments whose wall clocks lie within a day of each other past eight in the
    morning differ by what their wall clocks do. *)
Lemma same_offset d s t :
  d * DAY + 3 * HOUR <= local_of s < d * DAY + DAY ->
  d * DAY + 3 * HOUR <= local_of t < d * DAY + DAY -> local_of s - s = local_of t - t.
Proof.
  intros Hs Ht.
  assert (forall w, d * DAY + 3 * HOUR <= w < d * DAY + DAY -> w / DAY = d /\ 3 * HOUR <= w mod DAY) as Hday.
  { intros w Hw. destruct (day_split d w) as [-> ->]; zone_lia. }
  destruct (Hday _ Hs) as [Es Hs'], (Hday _ Ht) as [Et Ht'].
  pose proof (zone_local s Hs') as E1. pose proof (zone_local t Ht') as E2.
  rewrite Es in E1. rewrite Et in E2. lia.
Qed.

(** In daytime the wall clock orders moments. *)
Lemma wall_order d s t :
  d * DAY + 9 * HOUR <= local_of s <= d * DAY + 16 * HOUR ->
  (s <= t <-> local_of s <= local_of t) /\ (t <= s <-> local_of t <= local_of s).
Proof.
  intros Hs. pose proof (zone_west s) as W1. pose proof (zone_west t) as W2.
  destruct (decide (d * DAY + 3 * HOUR <= local_of t < d * DAY + DAY)) as [Ht|Ht].
  - assert (local_of s - s = local_of t - t) by (apply (same_offset d); zone_lia). lia.
  - zone_lia.
Qed.

Lemma within_rth_spec c t :
  is_within_rth c t = true <->
  exists d, is_trading_day c d = true /\ d * DAY + RTH_OPEN <= local_of t <= close_wall c d.
Proof.
  unfold is_within_rth. destruct (local_day (local_of t)) as [Hm Hd].
  change (trading_day (session_bounds c (local_of t / DAY))) with (is_trading_day c (local_of t / DAY)).
  fold (close_wall c (local_of t / DAY)).
  destruct (close_wall_time c (local_of t / DAY)) as (E1 & Hb & _).
  destruct (local_day (close_wall c (local_of t / DAY))) as [_ Hc]. rewrite E1 in Hc.
  split.
  - destruct (is_trading_day c (local_of t / DAY)) eqn:Et; cbn [negb]; [|done].
    intros [H1 H2]%andb_prop. exists (local_of t / DAY). split; [done|]. zone_lia.
  - intros (d & Ht & Hl). pose proof (close_wall_day c d) as Hcd.
    assert (local_of t / DAY = d) as <-.
    { unfold RTH_OPEN in Hl. apply day_split. zone_lia. }
    rewrite Ht. cbn [negb]. apply andb_true_intro. lia.
Qed.

(** A close is a moment of its session. *)
Lemma close_moment c d :
  local_of (utc_of (close_wall c d)) = close_wall c d.
Proof. apply zone_utc. destruct (close_wall_time c d) as (_ & Hb & _). zone_lia. Qed.

(** the time a stock's data is judged against is the latest moment, up to the
    reference, at which the exchange was in session: with the calendar shipped, the scan for
    the last close never runs out, whatever the date. *)
Theorem reference_time_is_last_session_moment t asset :
  asset <> "crypto"%string ->
  let r := effective_reference_time nyse t asset in
  r <= t /\ is_within_rth nyse r = true /\ (forall s, r < s <= t -> is_within_rth nyse s = false).
Proof.
  intros Ha r. unfold r, effective_reference_time. rewrite bool_decide_false by done.
  destruct (is_within_rth nyse t) eqn:Et; [repeat split; [lia|done|lia]|].
  unfold last_session_close. set (et := local_of t).
  destruct (close_scan nyse et (et / DAY) 10) as [w|] eqn:Es.
  2:{ destruct (nyse_trading_day_near (et / DAY)) as (k & Hk & Htr). exfalso.
      apply (close_scan_found nyse et (et / DAY) (Z.to_nat k) 10) in Es; [done|..];
        rewrite ?Z2Nat.id by lia; [done|lia|lia]. }
  apply close_scan_spec in Es as (d & Hd & Htr & -> & Hle & Hlast); [|lia].
  pose proof (close_wall_day nyse d) as Hcd. pose proof (close_moment nyse d) as Hcm.
  set (u := utc_of (close_wall nyse d)) in *.
  assert (u <= t) as Hut by (apply (wall_order d u t); rewrite Hcm; [zone_lia|done]).
  repeat split; [done|apply within_rth_spec; exists d; split; [done|]; unfold RTH_OPEN; zone_lia|].
  intros s [Hus Hst]. destruct (is_within_rth nyse s) eqn:Ews; [exfalso|done].
  apply within_rth_spec in Ews as (d' & Htr' & Hs). pose proof (close_wall_day nyse d') as Hcd'.
  unfold RTH_OPEN in Hs.
  assert (local_of s <= et) as Hset by (apply (wall_order d' s t); [zone_lia|done]).
  assert (close_wall nyse d < local_of s) as Hcs.
  { rewrite <- Hcm. destruct (Z.lt_ge_cases (local_of u) (local_of s)) as [|Hge]; [done|].
    apply (wall_order d' s u) in Hge; [lia|zone_lia]. }
  assert (d < d') as Hdd by (destruct (decide (d = d')) as [->|]; zone_lia).
  destruct (Z.le_gt_cases (close_wall nyse d') et) as [Hc|Hc].
  - assert (d' <= et / DAY) as Hde by (apply Z.div_le_lower_bound; zone_lia).
    specialize (Hlast d' ltac:(lia) Htr'). lia.
  - enough (is_within_rth nyse t = true) by congruence. apply within_rth_spec. exists d'.
    split; [done|]. fold et. unfold RTH_OPEN. lia.
Qed.

End Sessions.

(** Christmas of 2025: the reference is the early close of the day before. *)
Lemma reference_time_is_last_session_moment_witness :
  let t := date 2025 12 25 * DAY + 20 * HOUR in
  effective_reference_time nyse t "stock" = date 2025 12 24 * DAY + 18 * HOUR /\
  (forall s, date 2025 12 24 * DAY + 18 * HOUR < s <= t -> is_within_rth nyse s = false).
Proof.
  intros t. split; [vm_compute; reflexivity|].
  exact (proj2 (proj2 (reference_time_is_last_session_moment t "stock" ltac:(discriminate)))).
Defined.
