(* ===== verification/SloMonitor.v ===== *)
(** * The SLO monitor

    [src/engine/slo_monitor.py]: the metrics of a leg's data against the session
    calendar, the verdict on them and the per-symbol history of quote fetches. The
    thresholds themselves are [Degradation.judge_integrity]. A payload's timestamps are
    moments, as [_coerce_ts] leaves them. *)

From stdpp Require Import base gmap strings list sorting.
From Stdlib Require Import ZArith Lia.
From S2P Require Import Prelude PyFloat FloatInt Models BarFreshness Degradation ColdStart MarketCalendar.

Definition RL_BACKFILL_LAG_SOFT_HOURS : float := Eval vm_compute in of_Z 8.
Definition RL_BACKFILL_LAG_HARD_HOURS : float := Eval vm_compute in of_Z 30.
Definition NBBO_TRACK_WINDOW : nat := 40.
Definition MISSING_BAR_LOOKBACK : Z := 48.
Definition MAX_CYCLE_BUDGET_MS : float := Eval vm_compute in of_Z 1000.
Definition MAX_PENDING_BUNDLES : Z := 5.

Record DataIntegrityVerdict := mkDataVerdict {
  di_passed : bool;
  di_severity : IntegritySeverity;
  di_bar_freshness_seconds : float;
  di_missing_bar_rate : float;
  di_nbbo_success_rate : float;
  di_rl_backfill_lag_hours : float;
  di_calendar_session_minutes : Z;
  di_is_early_close_session : bool;
  di_reasons : list string
}.

(** What the degradation manager reads of a verdict. *)
Definition slo_part (v : DataIntegrityVerdict) : slo_verdict :=
  mkVerdict (di_severity v) (di_reasons v).

Record SLOMonitor := mkMonitor {
  slo_calendar : MarketSessionCalendar;
  max_cycle_budget_ms : float;
  max_pending_bundles : Z;
  nbbo_attempts_by_symbol : gmap string (list Z)
}.

Definition monitor_init : SLOMonitor := mkMonitor nyse MAX_CYCLE_BUDGET_MS MAX_PENDING_BUNDLES ∅.

(** The keys [evaluate_data_integrity] reads. *)
Record data_payload := mkPayload {
  exchange_reference_ts : Z;
  dp_asset_class : option string;
  dp_bar_minutes : option Z;
  dp_timeframe : option string;
  dp_latest_bar_timestamp : option Z;
  dp_bar_timestamps : option (list Z);
  dp_lookback_bars : option Z;
  dp_symbol : option string;
  dp_nbbo_fetch_success : option bool;
  dp_nbbo_success_rate : option float;
  dp_rl_backfill_lag_hours : option float;
  dp_circuit_breaker_tripped : option bool;
  dp_sequence_misalignments : option Z;
  dp_ingest_arrival_lag : option float
}.

(** [x or d] on an optional integer, and on an optional float. *)
Definition int_or (x : option Z) (d : Z) : Z :=
  match x with Some n => if (n =? 0)%Z then d else n | None => d end.
Definition float_or (x : option float) (d : float) : float :=
  match x with Some v => if ftruthy v then v else d | None => d end.

(** ** Missing bars *)

(** [l[i:]]. *)
Definition slice_from {A} (i : Z) (l : list A) : list A :=
  if (i <? 0)%Z then drop (Z.to_nat (Z.of_nat (length l) + i)) l else drop (Z.to_nat i) l.

(** The bars missing from a gap: the gap in bar intervals, truncated, less one. *)
Definition gap_bars (interval delta : Z) : Z := (
  if (4 * delta <=? 7 * interval)%Z then 0
  else default 0%Z (ftrunc (fdiv (of_Z delta) (of_Z interval))) - 1)%Z.

Definition pairs {A} (l : list A) : list (A * A) := zip l (tail l).

(** Bars observed, bars missing. *)
Definition bar_rate (expected gaps : Z) : float :=
  fdiv (of_Z gaps) (of_Z (Z.max (expected + gaps) 1)).

Definition sum_gaps (l : list Z) : Z := fold_left Z.add l 0%Z.

Section Monitor.
Context `{Zone}.

Definition both_in_same_rth_span (c : MarketSessionCalendar) (left right : Z) : bool :=
  (left / DAY =? right / DAY)%Z && is_within_rth c left && is_within_rth c right.

Definition observed_today (c : MarketSessionCalendar) (session_date : Z) (ordered : list Z) : Z :=
  Z.of_nat (length (List.filter (fun t => (local_of t / DAY =? session_date)%Z && is_within_rth c t) ordered)).

Definition stock_gaps (c : MarketSessionCalendar) (bar_minutes : Z) (ordered : list Z) : Z :=
  let interval := (bar_minutes * MINUTE)%Z in
  sum_gaps (map (fun p => if both_in_same_rth_span c p.1 p.2 then gap_bars interval (p.2 - p.1) else 0)%Z
              (pairs ordered)).

Definition compute_missing_bar_rate (c : MarketSessionCalendar) (bar_timestamps : list Z)
    (bar_minutes lookback_bars : Z) (asset_class : string) : float :=
  if (bar_minutes <=? 0)%Z || bool_decide (bar_timestamps = []) then fzero else
  let ordered := slice_from (- lookback_bars) (merge_sort Z.le bar_timestamps) in
  if bool_decide (length ordered < 2) then fzero else
  let interval := (bar_minutes * MINUTE)%Z in
  let expected := Z.of_nat (length ordered) in
  if bool_decide (asset_class = "crypto") then
    bar_rate expected (sum_gaps (map (fun p => gap_bars interval (p.2 - p.1))%Z (pairs ordered)))
  else
    let gaps := stock_gaps c bar_minutes ordered in
    let session_date := (local_of (default 0%Z (last ordered)) / DAY)%Z in
    let session_expected := expected_bars_for_session c session_date bar_minutes in
    let gaps :=
      if (0 <? session_expected)%Z && is_early_close c session_date
      then Z.max gaps (Z.max 0 (session_expected - observed_today c session_date ordered))
      else gaps in
    bar_rate expected gaps.

(** ** The reward backfill

    The shadow ledger is its rows' times, with whether the reward is in; the minimum age
    is a constant of [persistence.db], which is not in the repository. A query that
    fails has no rows. *)
Definition query_rl_backfill_lag_hours (min_age : float) (ledger : option (list (Z * bool)))
    (reference : Z) : float :=
  match ledger with
  | None => fzero
  | Some rows =>
      fold_left (fun max_lag origin =>
          let age := fdiv (total_seconds (reference - origin)) (of_Z 3600) in
          if fltb age min_age then max_lag else py_max max_lag (fsub age min_age))
        (take 200 (merge_sort Z.le (map fst (List.filter (fun r => negb r.2) rows)))) fzero
  end.

(** ** The monitor *)

Definition set_attempts (m : gmap string (list Z)) (s : SLOMonitor) : SLOMonitor :=
  mkMonitor (slo_calendar s) (max_cycle_budget_ms s) (max_pending_bundles s) m.

Definition note_nbbo_fetch (success : bool) (symbol asset_class : string) (reference : Z)
    (s : SLOMonitor) : SLOMonitor :=
  if negb (bool_decide (asset_class = "crypto")) && negb (is_within_rth (slo_calendar s) reference)
  then s else
  let key := upper symbol in
  set_attempts (<[key := deque_append NBBO_TRACK_WINDOW
                           (default [] (nbbo_attempts_by_symbol s !! key))
                           (if success then 1 else 0)%Z]> (nbbo_attempts_by_symbol s)) s.

Definition is_market_dormant (asset_class : string) (reference : Z) (s : SLOMonitor) : bool :=
  negb (bool_decide (str_or asset_class "stock" = "crypto")) &&
  negb (is_within_rth (slo_calendar s) reference).

Definition calendar_adjusted_freshness_limit (c : MarketSessionCalendar) (freshness : float)
    (bar_minutes reference : Z) (asset_class : string) : float :=
  if bool_decide (asset_class = "crypto") then freshness
  else if is_within_rth c reference then freshness
  else
    let b := session_bounds c (local_of reference / DAY) in
    if early_close b && negb (trading_day b) then freshness
    else py_min freshness (of_Z (bar_minutes * 60)).

Definition dormant_verdict : DataIntegrityVerdict :=
  mkDataVerdict true SevOK fzero fzero fone fzero 0 false ["dormant_market_closed"].

(** [np_mean] stands for numpy's mean of a non-empty sequence of integers. *)
Definition nbbo_rate (np_mean : list Z -> float) (symbol : string) (s : SLOMonitor) : float :=
  match nbbo_attempts_by_symbol s !! upper symbol with
  | None | Some [] => fone
  | Some dq => np_mean dq
  end.

Definition evaluate_data_integrity (np_mean : list Z -> float) (min_age : float)
    (ledger : option (list (Z * bool))) (p : data_payload)
    : py SLOMonitor string DataIntegrityVerdict := fun s =>
  let c := slo_calendar s in
  let reference := exchange_reference_ts p in
  let asset_class := opt_or (dp_asset_class p) "stock" in
  if is_market_dormant asset_class reference s then (Ok dormant_verdict, s) else
  let timeframe := opt_or (dp_timeframe p) "15Min" in
  let bar_minutes := int_or (dp_bar_minutes p) (timeframe_minutes timeframe) in
  match dp_latest_bar_timestamp p with
  | None => (Raise "ValueError", s)
  | Some latest =>
      let reference_ts := effective_reference_time c reference asset_class in
      let missing := compute_missing_bar_rate c (default [] (dp_bar_timestamps p)) bar_minutes
                       (int_or (dp_lookback_bars p) MISSING_BAR_LOOKBACK) asset_class in
      let freshness := bar_staleness_seconds latest (bar_minutes * 60) reference_ts in
      let freshness := calendar_adjusted_freshness_limit c freshness bar_minutes reference asset_class in
      let symbol := opt_or (dp_symbol p) "" in
      let s := match dp_nbbo_fetch_success p with
               | Some ok => note_nbbo_fetch ok symbol asset_class reference s
               | None => s end in
      let nbbo := float_or (dp_nbbo_success_rate p) (nbbo_rate np_mean symbol s) in
      let rl_lag := match dp_rl_backfill_lag_hours p with
                    | Some x => x | None => query_rl_backfill_lag_hours min_age ledger reference end in
      let bounds := session_bounds c (local_of reference / DAY) in
      let v := judge_integrity (mkMetrics (of_Z (bar_minutes * 60)) freshness missing nbbo
                 (default false (dp_circuit_breaker_tripped p))
                 (default 0%Z (dp_sequence_misalignments p))
                 (float_or (dp_ingest_arrival_lag p) fzero)
                 (of_Z (timeframe_minutes timeframe * 60))) in
      (Ok (mkDataVerdict
             (bool_decide (v_severity v = SevOK) || bool_decide (v_severity v = SevWARNING))
             (v_severity v) freshness missing nbbo rl_lag (session_minutes bounds) (early_close bounds)
             (v_reasons v)), s)
  end.

End Monitor.

Record CycleLatencyVerdict := mkLatency {
  total_cycle_ms : float; phase_a_ms : float; phase_b_ms : float; phase_c_ms : float;
  lv_max_cycle_budget_ms : float; violated : bool
}.

Definition evaluate_cycle_latency (a b c total : float) (s : SLOMonitor) : CycleLatencyVerdict :=
  mkLatency total a b c (max_cycle_budget_ms s) (fltb (max_cycle_budget_ms s) total).

Record BackpressureVerdict := mkBackpressure {
  pending_bundles : Z; bp_max_pending_bundles : Z; blocks_new_entries : bool
}.

Definition evaluate_fill_sieve_backpressure (pending : Z) (s : SLOMonitor) : BackpressureVerdict :=
  mkBackpressure pending (max_pending_bundles s) (max_pending_bundles s <? pending)%Z.

(** The pipeline's health, alert, lag and reason. *)
Definition evaluate_research_pipeline_health (min_age : float) (ledger : option (list (Z * bool)))
    (reference : Z) (lag : option float) : bool * bool * float * string :=
  let lag := match lag with Some x => x
             | None => query_rl_backfill_lag_hours min_age ledger reference end in
  let healthy := fleb lag RL_BACKFILL_LAG_SOFT_HOURS in
  (healthy, fltb RL_BACKFILL_LAG_HARD_HOURS lag, lag, if healthy then "" else "rl_backfill_lag").

(** ** Bars on a grid *)

Lemma gap_bars_slots interval k :
  (0 < interval)%Z -> (1 <= k)%Z -> whole (k * interval) -> whole interval ->
  gap_bars interval (k * interval) = (k - 1)%Z.
Proof.
  intros Hi Hk Hw Hwi. unfold gap_bars.
  destruct (Z.leb_spec (4 * (k * interval)) (7 * interval)) as [Hle|Hlt]; [nia|].
  rewrite ftrunc_div_of_Z, Z.div_mul by (done || nia). done.
Qed.

Lemma sum_gaps_cons x l : sum_gaps (x :: l) = (x + sum_gaps l)%Z.
Proof.
  unfold sum_gaps. rewrite !fold_symmetric by (intros; lia). done.
Qed.

Lemma last_default {A} (x y : A) l : List.last (y :: l) x = List.last l y.
Proof.
  revert x y. induction l as [|z l IH]; intros x y; [done|].
  change (List.last (z :: l) x = List.last (z :: l) y). by rewrite !IH.
Qed.

Lemma pairs_cons {A} (x y : A) l : pairs (x :: y :: l) = (x, y) :: pairs (y :: l).
Proof. done. Qed.

(** Consecutive bars a whole positive number of intervals apart, less than a span away. *)
Definition on_grid (interval : Z) (l : list Z) : Prop :=
  Forall (fun p => exists k, (1 <= k)%Z /\ (p.2 - p.1 = k * interval)%Z /\ whole (p.2 - p.1)) (pairs l).

Lemma grid_gaps interval x l :
  (0 < interval)%Z -> whole interval -> on_grid interval (x :: l) ->
  exists slots, (List.last l x - x = (slots - 1) * interval)%Z /\ (Z.of_nat (length l) < slots)%Z /\
    sum_gaps (map (fun p => gap_bars interval (p.2 - p.1))%Z (pairs (x :: l)))
      = (slots - Z.of_nat (S (length l)))%Z.
Proof.
  intros Hi Hwi. revert x. induction l as [|y l IH]; intros x Hg.
  { exists 1%Z. cbn. split; [lia|]. split; lia. }
  unfold on_grid in *. rewrite pairs_cons in *. apply Forall_cons in Hg as [(k & Hk & Ed & Hw) Hg].
  destruct (IH y Hg) as (slots & El & Hn & Es). cbn [fst snd] in *.
  exists (slots + k)%Z. cbn [map fst snd]. rewrite sum_gaps_cons, Es, Ed, gap_bars_slots by (done || congruence).
  rewrite last_default.
  cbn [length] in *. split; [lia|]. split; lia.
Qed.

Lemma sorted_strict_grid interval x l :
  (0 < interval)%Z -> on_grid interval (x :: l) -> Sorted Z.le (x :: l).
Proof.
  intros Hi. revert x. induction l as [|y l IH]; intros x Hg; [by repeat constructor|].
  unfold on_grid in Hg. rewrite pairs_cons in Hg. apply Forall_cons in Hg as [(k & Hk & Ed & _) Hg].
  cbn in Ed. constructor; [by apply IH|]. constructor. nia.
Qed.

(** the missing-bar rate of a crypto feed whose bars stand on the grid of their interval,
    and are no more than the lookback, is exactly the share of the grid's slots between the first and the
    last bar that hold no bar. *)
Theorem missing_rate_counts_absent_slots `{Zone} c bar_minutes lookback x y l :
  (0 < bar_minutes)%Z -> whole (bar_minutes * MINUTE) -> on_grid (bar_minutes * MINUTE) (x :: y :: l) ->
  (Z.of_nat (length (x :: y :: l)) <= lookback)%Z ->
  let slots := ((List.last l y - x) / (bar_minutes * MINUTE) + 1)%Z in
  compute_missing_bar_rate c (x :: y :: l) bar_minutes lookback "crypto"
    = fdiv (of_Z (slots - Z.of_nat (length (x :: y :: l)))) (of_Z slots) /\
  (Z.of_nat (length (x :: y :: l)) <= slots)%Z.
Proof.
  intros Hb Hw Hg Hlb slots. set (interval := (bar_minutes * MINUTE)%Z) in *.
  assert (0 < interval)%Z as Hi by (unfold interval, MINUTE; lia).
  pose proof (sorted_strict_grid interval x (y :: l) Hi Hg) as Hs.
  destruct (grid_gaps interval x (y :: l) Hi Hw Hg) as (n & El & Hn & Es).
  rewrite last_default in El. assert (slots = n) as -> by (unfold slots; rewrite El, Z.div_mul by lia; lia).
  cbn [length] in *. split; [|lia]. unfold compute_missing_bar_rate.
  rewrite (proj2 (Z.leb_gt _ _)) by lia. cbn [orb].
  rewrite bool_decide_false by done.
  assert (merge_sort Z.le (x :: y :: l) = x :: y :: l) as ->.
  { apply (Sorted_unique Z.le); [apply Sorted_merge_sort; intros ??; lia|done|apply merge_sort_Permutation]. }
  unfold slice_from. rewrite (proj2 (Z.ltb_lt _ _)) by lia.
  replace (Z.to_nat _) with 0 by (cbn [length]; lia). rewrite drop_0, bool_decide_false by (cbn; lia).
  rewrite bool_decide_true by done. fold interval. rewrite Es. unfold bar_rate. cbn [length].
  do 2 f_equal. lia.
Qed.

Lemma missing_rate_counts_absent_slots_witness :
  compute_missing_bar_rate (H := new_york) nyse (map (fun k => k * (15 * MINUTE))%Z [1; 2; 4; 5; 9; 10]%Z) 15 48 "crypto"
    = fdiv (of_Z 4) (of_Z 10).
Proof.
  refine (proj1 (missing_rate_counts_absent_slots (H := new_york) nyse 15 48 (1 * (15 * MINUTE)) (2 * (15 * MINUTE))
    (map (fun k => k * (15 * MINUTE))%Z [4; 5; 9; 10]%Z) _ _ _ _)).
  - lia.
  - reflexivity.
  - repeat constructor;
      match goal with |- exists k, _ /\ (?a - ?b = _)%Z /\ _ =>
        let k := eval vm_compute in ((a - b) / (15 * MINUTE))%Z in exists k end;
      (split; [lia|]); split; reflexivity.
  - cbn. lia.
Defined.

(** ** Stock feeds *)

(** In session the UTC date and New York's date agree. *)
Lemma session_dates_agree `{ZoneLaws} c s t :
  is_within_rth c s = true -> is_within_rth c t = true ->
  (s / DAY =? t / DAY)%Z = (local_of s / DAY =? local_of t / DAY)%Z.
Proof.
  assert (forall x, is_within_rth c x = true -> (x / DAY = local_of x / DAY)%Z) as Hx.
  { intros x (d & _ & Hl)%within_rth_spec. pose proof (close_wall_day c d) as Hc.
    pose proof (zone_west x) as Hz. unfold RTH_OPEN in Hl.
    destruct (day_split d x) as [-> _]; [zone_lia|]. destruct (day_split d (local_of x)) as [-> _]; zone_lia. }
  intros Hs Ht. by rewrite (Hx s Hs), (Hx t Ht).
Qed.

(** Nights, weekends and holidays are no gaps: bars that keep to their interval
    within each session are complete. *)
Lemma complete_sessions_miss_nothing `{ZoneLaws} c bar_minutes ordered :
  Forall (fun p => is_within_rth c p.1 = true -> is_within_rth c p.2 = true ->
    (local_of p.1 / DAY = local_of p.2 / DAY)%Z -> (4 * (p.2 - p.1) <= 7 * (bar_minutes * MINUTE))%Z)
    (pairs ordered) ->
  stock_gaps c bar_minutes ordered = 0%Z.
Proof.
  intros Hf. unfold stock_gaps. induction Hf as [|[a b] l Hp _ IH]; [done|].
  cbn [map]. rewrite sum_gaps_cons, IH. cbn [fst snd] in *. unfold both_in_same_rth_span.
  destruct (is_within_rth c a) eqn:Ea; [|by rewrite andb_false_r].
  destruct (is_within_rth c b) eqn:Eb; [|by rewrite andb_false_r].
  rewrite (session_dates_agree c a b) by done. rewrite !andb_true_r.
  destruct (Z.eqb_spec (local_of a / DAY) (local_of b / DAY)); [|done].
  unfold gap_bars. rewrite (proj2 (Z.leb_le _ _)); [done|]. by apply Hp.
Qed.

(** ** Verdicts *)

Lemma missing_rate_is_hard m :
  fltb (lit 18 2) (Degradation.missing_bar_rate m) = true ->
  v_severity (judge_integrity m) = SevHARD_BREACH.
Proof.
  intros Hm. apply (judge_integrity_is_worst_fired m).
  apply list.Exists_exists. exists (true, "missing_bar_rate_critical", SevHARD_BREACH). split; [|done].
  apply list_elem_of_filter. split; [done|]. unfold integrity_table. cbv zeta. rewrite Hm.
  do 3 apply list_elem_of_further. apply list_elem_of_here.
Qed.

(** A tripped ingest breaker alone is a breach. *)
Lemma tripped_is_breach m :
  Degradation.ingest_circuit_breaker_tripped m = true ->
  v_severity (judge_integrity m) = SevSOFT_BREACH \/ v_severity (judge_integrity m) = SevHARD_BREACH.
Proof.
  intros Hm. destruct (judge_integrity_is_worst_fired m) as (_ & [Hok _] & _).
  assert ((true, "ingest_circuit_breaker_tripped", SevSOFT_BREACH) ∈ fired (integrity_table m)) as Hin.
  { apply list_elem_of_filter. split; [done|]. unfold integrity_table. cbv zeta. rewrite Hm.
    do 6 apply list_elem_of_further. apply list_elem_of_here. }
  destruct (v_severity (judge_integrity m)); auto; rewrite Hok in Hin by auto; by apply elem_of_nil in Hin.
Qed.

Lemma early_close_rate o : (0 <= o <= 3)%Z -> fltb (lit 18 2) (bar_rate 48 (14 - o)) = true.
Proof. intros Ho. assert (o = 0 \/ o = 1 \/ o = 2 \/ o = 3)%Z as [->|[->|[->| ->]]] by lia; by vm_compute. Qed.

Lemma early_close_missing_rate `{Zone} c d bars :
  is_trading_day c d = true -> is_early_close c d = true -> (48 <= Z.of_nat (length bars))%Z ->
  let ordered := slice_from (- 48) (merge_sort Z.le bars) in
  stock_gaps c 15 ordered = 0%Z -> (local_of (default 0%Z (last ordered)) / DAY)%Z = d ->
  (observed_today c d ordered <= 3)%Z ->
  fltb (lit 18 2) (compute_missing_bar_rate c bars 15 48 "stock") = true.
Proof.
  intros Ht He Hlen ordered Hg Hd Ho. unfold compute_missing_bar_rate.
  rewrite bool_decide_false by (intros ->; cbn in Hlen; lia). change (15 <=? 0)%Z with false. cbn [orb].
  change (slice_from (Z.opp 48) (merge_sort Z.le bars)) with ordered.
  assert (length ordered = 48) as Hl.
  { unfold ordered, slice_from. change (-48 <? 0)%Z with true. cbn iota. rewrite length_drop.
    pose proof (Permutation_length (merge_sort_Permutation Z.le bars)). lia. }
  rewrite bool_decide_false by lia. rewrite bool_decide_false by done.
  rewrite Hd, Hg, He, Hl. unfold expected_bars_for_session, session_bounds. cbn [trading_day session_minutes].
  rewrite Ht. unfold session_close_time. rewrite He. cbn [negb orb].
  replace (d * DAY + RTH_CLOSE_EARLY - (d * DAY + RTH_OPEN))%Z with (210 * MINUTE)%Z by (unfold RTH_CLOSE_EARLY, RTH_OPEN; zone_lia).
  change (15 <=? 0)%Z with false. cbn iota.
  replace (Z.max 1 (210 * MINUTE / MINUTE / 15))%Z with 14%Z by reflexivity.
  change (0 <? 14)%Z with true. cbn [andb].
  assert (0 <= observed_today c d ordered)%Z as Ho0 by (unfold observed_today; lia).
  rewrite !Z.max_r by lia. by apply early_close_rate.
Qed.

(** on the day of an early close a complete 15-minute feed is judged a hard breach until the
    session's fourth bar: the slots still to come count as missing. The degradation
    manager that reads the verdict goes to its hard mode, with the flatten of all legs
    requested. *)
Theorem early_close_opens_in_hard_breach `{ZoneLaws} np_mean min_age ledger p s bars now m :
  let c := slo_calendar s in
  let d := (local_of (exchange_reference_ts p) / DAY)%Z in
  let ordered := slice_from (- 48) (merge_sort Z.le bars) in
  dp_asset_class p = Some "stock" -> dp_timeframe p = Some "15Min" -> dp_bar_minutes p = None ->
  dp_lookback_bars p = None -> dp_latest_bar_timestamp p <> None -> dp_bar_timestamps p = Some bars ->
  is_within_rth c (exchange_reference_ts p) = true -> is_early_close c d = true ->
  (48 <= Z.of_nat (length bars))%Z -> stock_gaps c 15 ordered = 0%Z ->
  (local_of (default 0%Z (last ordered)) / DAY)%Z = d -> (observed_today c d ordered <= 3)%Z ->
  exists v s', evaluate_data_integrity np_mean min_age ledger p s = (Ok v, s') /\
    di_severity v = SevHARD_BREACH /\ di_passed v = false /\
    dm_mode (evaluate_from_slo (slo_part v) now m) = HARD_CRITICAL_DEGRADE /\
    dm_flatten_latched (evaluate_from_slo (slo_part v) now m) = true.
Proof.
  intros c d ordered Ha Htf Hbm Hlb Hlt Hts Hin He Hlen Hg Hd Ho.
  assert (is_trading_day c d = true) as Htr.
  { revert Hin. unfold is_within_rth. fold d. unfold session_bounds. cbn [trading_day].
    by destruct (is_trading_day c d). }
  assert (fltb (lit 18 2) (compute_missing_bar_rate c bars 15 48 "stock") = true) as Hrate
    by (by apply (early_close_missing_rate c d)).
  unfold evaluate_data_integrity, is_market_dormant. fold c. rewrite Hin, andb_false_r.
  destruct (dp_latest_bar_timestamp p) as [latest|]; [|done].
  rewrite Ha, Htf, Hbm, Hlb, Hts. eexists _, _. split; [reflexivity|].
  cbn [di_severity di_passed].
  match goal with |- context [judge_integrity ?M] => set (met := M) end.
  assert (v_severity (judge_integrity met) = SevHARD_BREACH) as Hs by (by apply missing_rate_is_hard).
  rewrite Hs. split; [done|]. split; [done|].
  unfold evaluate_from_slo, slo_part. cbn [v_severity di_severity].
  rewrite bool_decide_true by done. unfold apply_hard_critical_degrade, dispatch_degradation_entered.
  by destruct (negb _).
Qed.

(** The 15-minute bars of a session in standard time, from its open. *)
Definition session_feed (d : Z) (n : nat) : list Z :=
  map (fun k => d * DAY + RTH_OPEN + 5 * HOUR + Z.of_nat k * (15 * MINUTE))%Z (seq 0 n).

Definition early_feed : list Z :=
  session_feed (date 2025 11 25) 26 ++ session_feed (date 2025 11 26) 26 ++ session_feed (date 2025 11 28) 3.

(** A quarter past ten on the day after Thanksgiving, every bar delivered. *)
Definition early_payload : data_payload :=
  mkPayload (date 2025 11 28 * DAY + 15 * HOUR + 15 * MINUTE) (Some "stock") None (Some "15Min")
    (Some (date 2025 11 28 * DAY + 15 * HOUR)%Z) (Some early_feed) None (Some "SPY") (Some true) (Some fone)
    (Some fzero) None None None.

Lemma early_close_opens_in_hard_breach_witness :
  exists v s', evaluate_data_integrity (fun _ => fone) fzero None early_payload monitor_init = (Ok v, s') /\
    di_severity v = SevHARD_BREACH /\ di_passed v = false /\
    dm_mode (evaluate_from_slo (slo_part v) "now" (manager_init true None)) = HARD_CRITICAL_DEGRADE /\
    dm_flatten_latched (evaluate_from_slo (slo_part v) "now" (manager_init true None)) = true.
Proof.
  apply (early_close_opens_in_hard_breach (fun _ => fone) fzero None early_payload monitor_init early_feed
           "now" (manager_init true None)); try reflexivity; try (vm_compute; reflexivity);
    solve [discriminate | apply Z.leb_le; vm_compute; reflexivity].
Defined.

(** A closed market's payload is never read and never a failure. *)
Lemma dormant_payload_is_ok `{Zone} np_mean min_age ledger p s :
  is_market_dormant (opt_or (dp_asset_class p) "stock") (exchange_reference_ts p) s = true ->
  evaluate_data_integrity np_mean min_age ledger p s = (Ok dormant_verdict, s).
Proof. intros Hd. unfold evaluate_data_integrity. by rewrite Hd. Qed.

(** It is a verdict all the same: three of them, on data nobody looked at, end a soft
    degrade. *)
Lemma dormant_verdicts_recover reason :
  let m := apply_soft_degrade reason "t0" (manager_init true None) in
  let v := slo_part dormant_verdict in
  dm_mode (evaluate_from_slo v "t3" (evaluate_from_slo v "t2" (evaluate_from_slo v "t1" m))) = NORMAL.
Proof. vm_compute. reflexivity. Qed.

(** While the market is open the two calendar adjustments change nothing: the age is taken from
    the reference itself. *)
Lemma open_market_age_is_plain `{Zone} c freshness bar_minutes t asset :
  is_within_rth c t = true ->
  effective_reference_time c t asset = t /\
  calendar_adjusted_freshness_limit c freshness bar_minutes t asset = freshness.
Proof.
  intros Ht. unfold effective_reference_time, calendar_adjusted_freshness_limit. rewrite Ht.
  by repeat case_bool_decide.
Qed.

(** A reported success rate of zero is read as no report: without a history the leg is
    judged as if every fetch had worked. *)
Lemma zero_rate_is_no_report np_mean symbol s :
  nbbo_attempts_by_symbol s !! upper symbol = None ->
  float_or (Some fzero) (nbbo_rate np_mean symbol s) = fone.
Proof. intros Hs. unfold nbbo_rate. rewrite Hs. reflexivity. Qed.

(** ** Quote history *)

Section Quotes.
Context `{Zone} (np_mean : list Z -> float) (min_age : float).

(** A monitor is driven by fetches and by payloads, of any symbol. *)
Inductive monitor_event :=
  | NoteFetch (success : bool) (symbol asset_class : string) (reference : Z)
  | Judge (ledger : option (list (Z * bool))) (p : data_payload).

Definition monitor_step (s : SLOMonitor) (e : monitor_event) : SLOMonitor :=
  match e with
  | NoteFetch ok symbol asset reference => note_nbbo_fetch ok symbol asset reference s
  | Judge ledger p => (evaluate_data_integrity np_mean min_age ledger p s).2
  end.

(** The outcome an event is a sample of, with its symbol: none for a stock outside its
    session. *)
Definition fetch_sample (c : MarketSessionCalendar) (ok : bool) (symbol asset : string) (t : Z)
    : option (string * Z) :=
  if bool_decide (asset = "crypto") || is_within_rth c t
  then Some (upper symbol, if ok then 1 else 0)%Z else None.

Definition event_sample (c : MarketSessionCalendar) (e : monitor_event) : option (string * Z) :=
  match e with
  | NoteFetch ok symbol asset t => fetch_sample c ok symbol asset t
  | Judge _ p =>
      match dp_latest_bar_timestamp p, dp_nbbo_fetch_success p with
      | Some _, Some ok => fetch_sample c ok (opt_or (dp_symbol p) "") (opt_or (dp_asset_class p) "stock")
                             (exchange_reference_ts p)
      | _, _ => None
      end
  end.

Definition own_samples (c : MarketSessionCalendar) (symbol : string) (evs : list monitor_event) : list Z :=
  omap (fun e => match event_sample c e with
                 | Some (k, x) => if bool_decide (k = upper symbol) then Some x else None
                 | None => None end) evs.

Definition last_n {A} (n : nat) (l : list A) : list A := drop (length l - n) l.

Lemma deque_append_last_n {A} n (l : list A) x : deque_append n (last_n n l) x = last_n n (l ++ [x]).
Proof.
  unfold deque_append, last_n. rewrite length_drop, length_app. cbn [length].
  destruct (decide (length l <= n)) as [Hl|Hl].
  - replace (length l - n) with 0 by lia. rewrite drop_0. f_equal. lia.
  - rewrite <- (drop_app_le l) by lia. rewrite drop_drop. f_equal. lia.
Qed.

(** One event, at the level of a symbol's history. *)
Lemma note_history symbol ok sym asset t s :
  default [] (nbbo_attempts_by_symbol (note_nbbo_fetch ok sym asset t s) !! upper symbol) =
  match fetch_sample (slo_calendar s) ok sym asset t with
  | Some (k, x) => if bool_decide (k = upper symbol)
                   then deque_append NBBO_TRACK_WINDOW (default [] (nbbo_attempts_by_symbol s !! upper symbol)) x
                   else default [] (nbbo_attempts_by_symbol s !! upper symbol)
  | None => default [] (nbbo_attempts_by_symbol s !! upper symbol)
  end.
Proof.
  unfold note_nbbo_fetch, fetch_sample.
  destruct (bool_decide (asset = "crypto")), (is_within_rth (slo_calendar s) t); cbn [negb andb orb];
    try done; cbn [nbbo_attempts_by_symbol set_attempts];
    (case_bool_decide as E; [rewrite E, lookup_insert_eq|rewrite lookup_insert_ne by done]; done).
Qed.

Lemma note_calendar ok sym asset t s : slo_calendar (note_nbbo_fetch ok sym asset t s) = slo_calendar s.
Proof. unfold note_nbbo_fetch. by destruct (_ && _). Qed.

Lemma step_history symbol e s :
  slo_calendar (monitor_step s e) = slo_calendar s /\
  default [] (nbbo_attempts_by_symbol (monitor_step s e) !! upper symbol) =
  match event_sample (slo_calendar s) e with
  | Some (k, x) => if bool_decide (k = upper symbol)
                   then deque_append NBBO_TRACK_WINDOW (default [] (nbbo_attempts_by_symbol s !! upper symbol)) x
                   else default [] (nbbo_attempts_by_symbol s !! upper symbol)
  | None => default [] (nbbo_attempts_by_symbol s !! upper symbol)
  end.
Proof.
  destruct e as [ok sym asset t|ledger p]; cbn [monitor_step event_sample].
  { split; [apply note_calendar|apply note_history]. }
  unfold evaluate_data_integrity.
  destruct (is_market_dormant _ _ s) eqn:Ed.
  - split; [done|]. cbn [snd]. destruct (dp_latest_bar_timestamp p), (dp_nbbo_fetch_success p); try done.
    unfold fetch_sample. unfold is_market_dormant in Ed. apply andb_prop in Ed as [E1 E2].
    replace (bool_decide (opt_or (dp_asset_class p) "stock" = "crypto")) with false.
    + by destruct (is_within_rth _ _).
    + destruct (dp_asset_class p) as [[|? ?]|]; try done. cbn [opt_or str_or truthy] in *.
      by destruct (bool_decide _).
  - destruct (dp_latest_bar_timestamp p); [|done]. cbn [snd].
    destruct (dp_nbbo_fetch_success p); [|done]. split; [apply note_calendar|apply note_history].
Qed.

(** after any fetches and payloads, of whatever symbols, a symbol's quote success rate is the
    mean of the last forty of its own samples, those of a stock taken in session only;
    without one it is 1. No other symbol's data, and no closed market, enters it. *)
Theorem quote_rate_is_own_history evs symbol :
  nbbo_rate np_mean symbol (runs monitor_step monitor_init evs) =
  match last_n NBBO_TRACK_WINDOW (own_samples nyse symbol evs) with
  | [] => fone
  | samples => np_mean samples
  end.
Proof.
  assert (slo_calendar (runs monitor_step monitor_init evs) = nyse /\
    default [] (nbbo_attempts_by_symbol (runs monitor_step monitor_init evs) !! upper symbol) =
    last_n NBBO_TRACK_WINDOW (own_samples nyse symbol evs)) as [_ Hh].
  { induction evs as [|e evs [IHc IH]] using rev_ind; [done|]. rewrite runs_snoc.
    destruct (step_history symbol e (runs monitor_step monitor_init evs)) as [-> ->]. rewrite IHc, IH.
    split; [done|]. unfold own_samples. rewrite omap_app. cbn [omap list_omap].
    destruct (event_sample nyse e) as [[k x]|]; [case_bool_decide|];
      [by rewrite deque_append_last_n|by rewrite app_nil_r..]. }
  unfold nbbo_rate. rewrite <- Hh.
  by destruct (nbbo_attempts_by_symbol (runs monitor_step monitor_init evs) !! upper symbol) as [[|? ?]|].
Qed.

End Quotes.
