(* ===== verification/SimBroker.v ===== *)
(** * The simulated broker

    [src/broker/simulated.py] (class [SimulatedBroker]): immediate fills at a price with
    slippage and fee, cash-proceeds accounting, longs clipped by cash and shorts by
    margin. Quantities are filled in whole units, [int(..)]; a NaN or an infinity there
    raises. [now] is the time stamped on a submission's fills. *)

From stdpp Require Import base gmap strings list.
From Stdlib Require Import ZArith Lia.
From S2P Require Import Prelude Dict PyFloat FloatInt Models.

Definition SHORT_MARGIN_INITIAL : float := Eval vm_compute in lit 5 1.

Record SimulatedBroker := mkSim {
  sim_equity : float;
  sim_cash : float;
  slippage_pct : float;
  taker_fee_pct : float;
  sim_positions : list (string * Position);
  sim_fills : list OrderResult
}.

Definition sim_init (initial_equity slippage fee : float) : SimulatedBroker :=
  mkSim initial_equity initial_equity slippage fee [] [].

Definition set_book (c : float) (ps : list (string * Position)) (b : SimulatedBroker) : SimulatedBroker :=
  mkSim (sim_equity b) c (slippage_pct b) (taker_fee_pct b) ps (sim_fills b).
Definition set_equity (e : float) (b : SimulatedBroker) : SimulatedBroker :=
  mkSim e (sim_cash b) (slippage_pct b) (taker_fee_pct b) (sim_positions b) (sim_fills b).
Definition add_fill (r : OrderResult) (b : SimulatedBroker) : SimulatedBroker :=
  mkSim (sim_equity b) (sim_cash b) (slippage_pct b) (taker_fee_pct b) (sim_positions b) (sim_fills b ++ [r]).

Definition fill_price (s : Side) (raw_price : float) (b : SimulatedBroker) : float :=
  let slip := fmul raw_price (fadd (slippage_pct b) (taker_fee_pct b)) in
  if bool_decide (s = BUY) then fadd raw_price slip else fsub raw_price slip.

(** [int(x)]. *)
Definition py_int (x : float) : result string Z :=
  match ftrunc x with
  | Some n => Ok n
  | None => Raise (if is_nan x then "ValueError" else "OverflowError")
  end.

Definition pos_of (symbol qside : string) (qty avg : float) : Position :=
  mkPosition symbol qty qside avg fzero.

(** A position of one side that grows: weighted average entry. *)
Definition grow_position (symbol qside : string) (fill : Z) (price : float) (b : SimulatedBroker)
    : list (string * Position) :=
  let fresh := pos_of symbol qside (of_Z fill) price in
  match assoc symbol (sim_positions b) with
  | Some p =>
      if bool_decide (pos_side p = qside) then
        let total := fadd (pos_qty p) (of_Z fill) in
        let avg := fdiv (fadd (fmul (pos_avg_entry_price p) (pos_qty p)) (fmul price (of_Z fill))) total in
        assoc_set symbol (pos_of symbol qside total avg) (sim_positions b)
      else assoc_set symbol fresh (sim_positions b)
  | None => assoc_set symbol fresh (sim_positions b)
  end.

Definition open_long (symbol : string) (qty price : float) : py SimulatedBroker string float := fun b =>
  if fleb price fzero then (Ok fzero, b) else
  match py_int (fdiv (sim_cash b) price) with Raise e => (Raise e, b) | Ok affordable =>
  match py_int qty with Raise e => (Raise e, b) | Ok n =>
    let fill := Z.min n affordable in
    if (fill <=? 0)%Z then (Ok fzero, b) else
    let cost := fmul price (of_Z fill) in
    (Ok (of_Z fill), set_book (fsub (sim_cash b) cost) (grow_position symbol "long" fill price b) b)
  end end.

Definition open_short (symbol : string) (qty price : float) : py SimulatedBroker string float := fun b =>
  if fleb price fzero then (Ok fzero, b) else
  let margin_per_share := fmul price SHORT_MARGIN_INITIAL in
  match (if fltb fzero margin_per_share then py_int (fdiv (sim_cash b) margin_per_share) else Ok 0%Z) with
  | Raise e => (Raise e, b) | Ok affordable =>
  match py_int qty with Raise e => (Raise e, b) | Ok n =>
    let fill := Z.min n affordable in
    if (fill <=? 0)%Z then (Ok fzero, b) else
    (Ok (of_Z fill), set_book (fadd (sim_cash b) (fmul price (of_Z fill)))
                       (grow_position symbol "short" fill price b) b)
  end end.

(** [_close_long] and [_close_short]: the side, and what the fill does to the cash. *)
Definition close_side (qside : string) (settle : float -> float -> float)
    (symbol : string) (qty price : float) : py SimulatedBroker string float := fun b =>
  match assoc symbol (sim_positions b) with
  | None => (Ok fzero, b)
  | Some p =>
      if negb (bool_decide (pos_side p = qside)) then (Ok fzero, b) else
      match py_int qty with Raise e => (Raise e, b) | Ok n =>
      match py_int (pos_qty p) with Raise e => (Raise e, b) | Ok held =>
        let fill := Z.min n held in
        if (fill <=? 0)%Z then (Ok fzero, b) else
        let cash := settle (sim_cash b) (fmul price (of_Z fill)) in
        let remaining := fsub (pos_qty p) (of_Z fill) in
        let ps := if fleb remaining fzero then assoc_del symbol (sim_positions b)
                  else assoc_set symbol (pos_of symbol qside remaining (pos_avg_entry_price p))
                         (sim_positions b) in
        (Ok (of_Z fill), set_book cash ps b)
      end end
  end.

Definition close_long := close_side "long" fadd.
Definition close_short := close_side "short" fsub.

Definition mark_equity (mark_price : float) (b : SimulatedBroker) : SimulatedBroker :=
  let holdings := fold_left (fun h e =>
      if bool_decide (pos_side e.2 = "long") then fadd h (fmul mark_price (pos_qty e.2))
      else if bool_decide (pos_side e.2 = "short") then fsub h (fmul mark_price (pos_qty e.2))
      else h) (sim_positions b) fzero in
  set_equity (fadd (sim_cash b) holdings) b.

Definition route_order (o : Order) (price : float) : py SimulatedBroker string float := fun b =>
  let held := match assoc (ord_symbol o) (sim_positions b) with Some p => pos_side p | None => "" end in
  match ord_side o with
  | BUY => if bool_decide (held = "short") then close_short (ord_symbol o) (ord_qty o) price b
           else open_long (ord_symbol o) (ord_qty o) price b
  | SELL => if bool_decide (held = "long") then close_long (ord_symbol o) (ord_qty o) price b
            else open_short (ord_symbol o) (ord_qty o) price b
  end.

Fixpoint fill_orders (now : Z) (raw : float) (orders : list Order)
    : py SimulatedBroker string (list OrderResult) := fun b =>
  match orders with
  | [] => (Ok [], b)
  | o :: orders =>
      let price := fill_price (ord_side o) raw b in
      (let! filled := route_order o price in
       if fleb filled fzero then fill_orders now raw orders else
       let r := mkOrderResult (ord_symbol o) (ord_side o) filled price now None "filled" in
       let! _ := py_modify (add_fill r) in
       let! rs := fill_orders now raw orders in
       py_ret (r :: rs))%py b
  end.

Definition submit_orders (now : Z) (orders : list Order) (raw : float)
    : py SimulatedBroker string (list OrderResult) :=
  if fleb raw fzero then py_ret [] else
  (let! rs := fill_orders now raw orders in
   let! _ := py_modify (mark_equity raw) in
   py_ret rs)%py.

Definition get_positions (b : SimulatedBroker) : list Position := map snd (sim_positions b).

Definition get_account (b : SimulatedBroker) : Account :=
  mkAccount (sim_equity b) (sim_cash b) (py_max (sim_cash b) fzero).

Fixpoint close_each (mark : float) (ps : list (string * Position)) : py SimulatedBroker string unit :=
  fun b =>
  match ps with
  | [] => (Ok tt, b)
  | (symbol, p) :: ps =>
      (let! _ :=
         if bool_decide (pos_side p = "long")
         then close_long symbol (pos_qty p) (fill_price SELL mark b)
         else if bool_decide (pos_side p = "short")
         then close_short symbol (pos_qty p) (fill_price BUY mark b)
         else py_ret fzero in
       close_each mark ps)%py b
  end.

Definition close_all_positions (mark : float) : py SimulatedBroker string unit := fun b =>
  if fleb mark fzero then (Ok tt, set_equity (sim_cash b) (set_book (sim_cash b) [] b)) else
  (let! _ := close_each mark (sim_positions b) in
   py_modify (mark_equity mark))%py b.

(** ** The book, specified

    On whole amounts the broker is an account of cash and signed shares. A raw price is quoted
    with what slippage and fee make of it for a buy and for a sell; these are even, so that half of
    one, the margin of a short, is whole. *)

Local Open Scope Z_scope.

Record book := mkBook { bk_cash : Z; bk_shares : list (string * Z) }.

Definition held (k : string) (b : book) : Z := default 0 (assoc k (bk_shares b)).

Definition put_shares (k : string) (n : Z) (l : list (string * Z)) : list (string * Z) :=
  if n =? 0 then assoc_del k l else assoc_set k n l.

(** A raw price, and half the price a buy and a sell fill at. *)
Record quote := mkQuote { qt_raw : Z; qt_buy : Z; qt_sell : Z }.
Definition half (q : quote) (s : Side) : Z := match s with BUY => qt_buy q | SELL => qt_sell q end.

(** The shares an order fills at the price [2 * h]: a buy covers a short before it opens a
    long, a sell reduces a long before it opens a short, and what opens is what the cash, or
    twice the cash, pays for. *)
Definition book_fill (h : Z) (s : Side) (k : string) (q : Z) (b : book) : Z :=
  Z.max 0
    match s with
    | BUY => if held k b <? 0 then Z.min q (- held k b) else Z.min q (bk_cash b / (2 * h))
    | SELL => if 0 <? held k b then Z.min q (held k b) else Z.min q (bk_cash b / h)
    end.

Definition signed (s : Side) (f : Z) : Z := match s with BUY => f | SELL => - f end.

Definition book_step (h : Z) (s : Side) (k : string) (q : Z) (b : book) : book :=
  let f := signed s (book_fill h s k q b) in
  if f =? 0 then b
  else mkBook (bk_cash b - 2 * h * f) (put_shares k (held k b + f) (bk_shares b)).

(** The amounts of a step fit, and the account stays solvent. *)
Definition small (n : Z) : bool := Z.abs n <? 2 ^ 53.

Definition step_fits (h : Z) (s : Side) (k : string) (q : Z) (b : book) : bool :=
  let f := signed s (book_fill h s k q b) in
  (0 <? h) && small (2 * h) && small q && small (2 * h * f) && (0 <=? bk_cash b) && small (bk_cash b) &&
  small (bk_cash b - 2 * h * f) && small (held k b) && small (held k b + f).

Definition share_value (p : Z) (l : list (string * Z)) : Z :=
  fold_right (fun e v => p * e.2 + v) 0 l.

Definition book_value (p : Z) (b : book) : Z := bk_cash b + share_value p (bk_shares b).

(** [orders] as (side, symbol, quantity). *)
Fixpoint book_run (p : quote) (os : list (Side * string * Z)) (b : book) : book :=
  match os with [] => b | (s, k, q) :: os => book_run p os (book_step (half p s) s k q b) end.

Fixpoint run_fits (p : quote) (os : list (Side * string * Z)) (b : book) : bool :=
  match os with
  | [] => true
  | (s, k, q) :: os => step_fits (half p s) s k q b && run_fits p os (book_step (half p s) s k q b)
  end.

(** What the orders pay over the raw price. *)
Fixpoint run_cost (p : quote) (os : list (Side * string * Z)) (b : book) : Z :=
  match os with
  | [] => 0
  | (s, k, q) :: os => (2 * half p s - qt_raw p) * signed s (book_fill (half p s) s k q b) +
                       run_cost p os (book_step (half p s) s k q b)
  end.

(** The running sum of a mark fits. *)
Fixpoint mark_fits (p v : Z) (l : list (string * Z)) : bool :=
  match l with
  | [] => true
  | (_, n) :: l => small (p * Z.abs n) && small (v + p * n) && mark_fits p (v + p * n) l
  end.

(** ** The correspondence *)

Definition entry_rel (e : string * Position) (n : string * Z) : Prop :=
  e.1 = n.1 /\ n.2 <> 0 /\ whole n.2 /\ pos_qty e.2 = of_Z (Z.abs n.2) /\
  pos_side e.2 = (if (0 <? n.2)%Z then "long" else "short")%string.

Section Costs.
Context (slip fee : float).

(** The prices of the quote are what the broker makes of its raw price. *)
Definition quoted (p : quote) : bool :=
  let raw := of_Z (qt_raw p) in
  let off := fmul raw (fadd slip fee) in
  (0 <? qt_raw p) && small (qt_raw p) && bool_decide (fadd raw off = of_Z (2 * qt_buy p)) &&
  bool_decide (fsub raw off = of_Z (2 * qt_sell p)).

Record book_rel (b : book) (s : SimulatedBroker) : Prop := {
  br_cash : sim_cash s = of_Z (bk_cash b);
  br_entries : Forall2 entry_rel (sim_positions s) (bk_shares b);
  br_keys : NoDup (bk_shares b).*1;
  br_costs : slippage_pct s = slip /\ taker_fee_pct s = fee
}.

Lemma assoc_rel k ps ns :
  Forall2 entry_rel ps ns ->
  match assoc k ps, assoc k ns with
  | Some p, Some n => entry_rel (k, p) (k, n)
  | None, None => True
  | _, _ => False
  end.
Proof.
  induction 1 as [|[k1 p] [k2 n] ps ns (E & H2 & H3 & H4 & H5) Hl IH]; [done|].
  cbn in E. subst k2. cbn. destruct (decide (k = k1)) as [->|]; [by repeat split|exact IH].
Qed.

Lemma assoc_set_rel k p n ps ns :
  entry_rel (k, p) (k, n) -> Forall2 entry_rel ps ns ->
  Forall2 entry_rel (assoc_set k p ps) (assoc_set k n ns).
Proof.
  intros Hpn. induction 1 as [|[k1 p1] [k2 n1] ps ns He Hl IH]; [by apply List.Forall2_cons|].
  assert (k1 = k2) as -> by apply He. cbn. destruct (decide (k = k2)) as [->|]; by constructor.
Qed.

Lemma assoc_del_rel k ps ns :
  Forall2 entry_rel ps ns -> Forall2 entry_rel (assoc_del k ps) (assoc_del k ns).
Proof.
  unfold assoc_del. induction 1 as [|[k1 p1] [k2 n1] ps ns He Hl IH]; [done|].
  assert (k1 = k2) as -> by apply He. cbn. destruct (negb _); [by constructor|done].
Qed.

Lemma put_shares_keys k n l : NoDup l.*1 -> NoDup (put_shares k n l).*1.
Proof. unfold put_shares. destruct (n =? 0); [apply assoc_del_NoDup|apply assoc_set_NoDup]. Qed.

Lemma share_value_cons p k n l : share_value p ((k, n) :: l) = p * n + share_value p l.
Proof. done. Qed.

Lemma share_value_put p k n l :
  NoDup l.*1 -> share_value p (put_shares k n l) = share_value p l + p * (n - default 0 (assoc k l)).
Proof.
  unfold put_shares. induction l as [|[k1 v1] l IH]; intros Hnd.
  - destruct (Z.eqb_spec n 0) as [->|]; unfold share_value; cbn; lia.
  - rewrite fmap_cons in Hnd. apply NoDup_cons in Hnd as [Hk Hnd]. specialize (IH Hnd).
    rewrite assoc_cons, share_value_cons. cbn [fst] in Hk. destruct (Z.eqb_spec n 0) as [->|Hn0].
    + unfold assoc_del. cbn [List.filter fst]. fold (assoc_del k l).
      destruct (decide (k = k1)) as [->|Hne].
      * rewrite bool_decide_true by done. cbn [negb default]. rewrite assoc_del_none by done. unfold default, id. lia.
      * rewrite bool_decide_false by done. cbn [negb]. rewrite share_value_cons, IH. lia.
    + cbn [assoc_set]. destruct (decide (k = k1)) as [->|Hne].
      * rewrite share_value_cons. unfold default, id. lia.
      * rewrite share_value_cons, IH. lia.
Qed.

(** Trading at a price keeps the value at that price, and at another pays the difference. *)
Lemma book_step_value p h s k q b :
  NoDup (bk_shares b).*1 ->
  book_value p (book_step h s k q b) = book_value p b - (2 * h - p) * signed s (book_fill h s k q b).
Proof.
  intros Hnd. unfold book_step. destruct (Z.eqb_spec (signed s (book_fill h s k q b)) 0) as [->|]; [lia|].
  unfold book_value. cbn [bk_cash bk_shares]. rewrite share_value_put by done. fold (held k b). lia.
Qed.

(** ** The steps correspond *)

Lemma small_whole n : small n = true -> whole n.
Proof. unfold small, whole. lia. Qed.

Lemma py_int_of_Z n : whole n -> py_int (of_Z n) = Ok n.
Proof. intros Hn. unfold py_int. by rewrite ftrunc_of_Z. Qed.

Lemma py_int_div a b : 0 <= a -> 0 < b -> whole a -> whole b -> py_int (fdiv (of_Z a) (of_Z b)) = Ok (a / b).
Proof. intros. unfold py_int. by rewrite ftrunc_div_of_Z. Qed.

Definition side_name (s : Side) : string := match s with BUY => "long" | SELL => "short" end.

Lemma fill_price_quoted p s b sb :
  quoted p = true -> book_rel b sb -> fill_price s (of_Z (qt_raw p)) sb = of_Z (2 * half p s).
Proof.
  unfold quoted. intros Hq Hr. destruct (br_costs _ _ Hr) as [E1 E2]. unfold fill_price. rewrite E1, E2.
  repeat (apply andb_prop in Hq as [Hq ?]).
  repeat match goal with H : bool_decide _ = true |- _ => apply bool_decide_eq_true in H end.
  by destruct s.
Qed.

Lemma held_assoc k b sb :
  book_rel b sb ->
  match assoc k (sim_positions sb) with
  | Some p => entry_rel (k, p) (k, held k b) /\ assoc k (bk_shares b) <> None
  | None => held k b = 0
  end.
Proof.
  intros Hr. pose proof (assoc_rel k _ _ (br_entries _ _ Hr)) as Ha. unfold held.
  destruct (assoc k (sim_positions sb)), (assoc k (bk_shares b)); done.
Qed.

(** A position that grows. *)
Lemma grow_rel s k f price b sb :
  book_rel b sb -> 0 < f -> whole f -> whole (held k b + signed s f) -> 0 <= signed s (held k b) ->
  Forall2 entry_rel (grow_position k (side_name s) f price sb)
    (put_shares k (held k b + signed s f) (bk_shares b)).
Proof.
  intros Hr Hf Hwf Hwn Hs. unfold put_shares.
  destruct (Z.eqb_spec (held k b + signed s f) 0) as [E|_]; [destruct s; cbn in *; lia|].
  assert (entry_rel (k, pos_of k (side_name s) (of_Z (Z.abs (held k b + signed s f))) price)
            (k, held k b + signed s f)) as He.
  { repeat split; [destruct s; cbn in *; lia|done|].
    cbn. destruct s; cbn in *; [rewrite (proj2 (Z.ltb_lt _ _))|rewrite (proj2 (Z.ltb_ge _ _))]; (done || lia). }
  pose proof (held_assoc k b sb Hr) as Ha. unfold grow_position.
  destruct (assoc k (sim_positions sb)) as [p|].
  - destruct Ha as [(_ & Hn0 & Hw & Hq & Hsd) _]. cbn in *.
    rewrite bool_decide_true.
    2:{ rewrite Hsd. destruct s; cbn in *; [rewrite (proj2 (Z.ltb_lt _ _))|rewrite (proj2 (Z.ltb_ge _ _))]; (done || lia). }
    apply assoc_set_rel; [|apply Hr]. rewrite Hq, fadd_of_Z
      by (first [done | unfold whole in *; destruct s; cbn in *; lia]).
    replace (Z.abs (held k b) + f) with (Z.abs (held k b + signed s f)) by (destruct s; cbn in *; lia).
    repeat split; apply He.
  - apply assoc_set_rel; [|apply Hr]. rewrite Ha in *.
    replace f with (Z.abs (0 + signed s f)) at 1 by (destruct s; cbn; lia). exact He.
Qed.

Lemma rel_put s k f c ps b sb :
  book_rel b sb -> Forall2 entry_rel ps (put_shares k (held k b + signed s f) (bk_shares b)) ->
  book_rel (mkBook c (put_shares k (held k b + signed s f) (bk_shares b))) (set_book (of_Z c) ps sb).
Proof. intros Hr Hps. split; [done|done|by apply put_shares_keys, Hr|apply Hr]. Qed.

(** A position that shrinks. *)
Lemma close_refines s k q h b sb :
  book_rel b sb -> signed s (held k b) < 0 -> 0 < h -> whole (2 * h) -> whole q -> whole (held k b) ->
  let f := Z.max 0 (Z.min q (Z.abs (held k b))) in
  whole (2 * h * f) -> whole (bk_cash b) -> whole (bk_cash b - 2 * h * signed s f) ->
  exists sb', (match s with BUY => close_short | SELL => close_long end) k (of_Z q) (of_Z (2 * h)) sb
              = (Ok (of_Z f), sb') /\
    (if f =? 0 then sb' = sb
     else book_rel (mkBook (bk_cash b - 2 * h * signed s f)
                      (put_shares k (held k b + signed s f) (bk_shares b))) sb').
Proof.
  intros Hr Hs Hh Hwp Hwq Hwh f Hwpf Hwc Hwc'.
  pose proof (held_assoc k b sb Hr) as Ha.
  assert (forall settle qside, qside = side_name (match s with BUY => SELL | SELL => BUY end) ->
    settle (of_Z (bk_cash b)) (of_Z (2 * h * f)) = of_Z (bk_cash b - 2 * h * signed s f) ->
    exists sb', close_side qside settle k (of_Z q) (of_Z (2 * h)) sb = (Ok (of_Z f), sb') /\
    (if f =? 0 then sb' = sb
     else book_rel (mkBook (bk_cash b - 2 * h * signed s f)
                      (put_shares k (held k b + signed s f) (bk_shares b))) sb')) as Hc.
  { intros settle qside -> Hset. unfold close_side.
    destruct (assoc k (sim_positions sb)) as [p|]; [|destruct s; cbn in Hs; lia].
    destruct Ha as [(_ & Hn0 & _ & Hq & Hsd) _]. cbn in Hq, Hsd, Hn0.
    rewrite bool_decide_true; cbn [negb].
    2:{ rewrite Hsd. destruct s; cbn in *; [rewrite (proj2 (Z.ltb_ge _ _))|rewrite (proj2 (Z.ltb_lt _ _))]; (done || lia). }
    rewrite Hq, !py_int_of_Z by (done || (unfold whole in *; lia)).
    destruct (Z.leb_spec (Z.min q (Z.abs (held k b))) 0) as [Hle|Hgt].
    { exists sb. replace f with 0 by lia. done. }
    replace (Z.min q (Z.abs (held k b))) with f by lia.
    rewrite (proj2 (Z.eqb_neq f 0)) by lia. rewrite (br_cash _ _ Hr).
    rewrite fmul_of_Z, Hset by (done || (unfold whole in *; lia)).
    rewrite fsub_of_Z, fzero_of_Z, fleb_of_Z by (done || (unfold whole in *; lia)).
    eexists. split; [reflexivity|]. apply (rel_put s); [done|]. unfold put_shares.
    assert (Z.abs (held k b) - f = Z.abs (held k b + signed s f)) as Eabs by (destruct s; cbn in *; lia).
    rewrite Eabs. destruct (Z.leb_spec (Z.abs (held k b + signed s f)) 0) as [H0|H0].
    - rewrite (proj2 (Z.eqb_eq _ _)) by lia. apply assoc_del_rel, Hr.
    - rewrite (proj2 (Z.eqb_neq _ _)) by lia. apply assoc_set_rel; [|apply Hr].
      repeat split; [cbn; lia|unfold whole in *; destruct s; cbn in *; lia|]. cbn.
      destruct s; cbn in *; [rewrite (proj2 (Z.ltb_ge _ _))|rewrite (proj2 (Z.ltb_lt _ _))]; (done || lia). }
  destruct s; cbn [signed] in *; apply Hc; try done; [apply fsub_of_Z|rewrite fadd_of_Z; [f_equal; lia|..]];
    try done. by replace (bk_cash b + 2 * h * f) with (bk_cash b - 2 * h * - f) by lia.
Qed.

Lemma open_refines s k q h b sb :
  book_rel b sb -> 0 <= signed s (held k b) -> 0 < h -> whole (2 * h) -> whole q ->
  0 <= bk_cash b -> whole (bk_cash b) ->
  let f := Z.max 0 (Z.min q (bk_cash b / match s with BUY => 2 * h | SELL => h end)) in
  whole (2 * h * f) -> whole (bk_cash b - 2 * h * signed s f) -> whole (held k b + signed s f) ->
  exists sb', (match s with BUY => open_long | SELL => open_short end) k (of_Z q) (of_Z (2 * h)) sb
              = (Ok (of_Z f), sb') /\
    (if f =? 0 then sb' = sb
     else book_rel (mkBook (bk_cash b - 2 * h * signed s f)
                      (put_shares k (held k b + signed s f) (bk_shares b))) sb').
Proof.
  intros Hr Hs Hh Hwp Hwq Hc0 Hwc f Hwpf Hwc' Hwh.
  assert (whole h) as Hwhh by (unfold whole in *; lia).
  assert (fleb (of_Z (2 * h)) fzero = false) as Hp
    by (rewrite fzero_of_Z, fleb_of_Z by (done || (unfold whole; lia)); apply Z.leb_gt; lia).
  assert (forall fill, fill = Z.min q (bk_cash b / match s with BUY => 2 * h | SELL => h end) -> 0 < fill ->
    f = fill /\ whole f /\ Forall2 entry_rel (grow_position k (side_name s) f (of_Z (2 * h)) sb)
                             (put_shares k (held k b + signed s f) (bk_shares b))) as Hgrow.
  { intros fill -> Hfill. assert (whole f) by (unfold f, whole in *; lia).
    split; [lia|]. split; [done|]. apply grow_rel; (done || lia). }
  destruct s; unfold open_long, open_short; rewrite Hp, (br_cash _ _ Hr).
  - rewrite py_int_div, py_int_of_Z by (done || lia).
    destruct (Z.leb_spec (Z.min q (bk_cash b / (2 * h))) 0) as [Hle|Hgt].
    { exists sb. replace f with 0 by lia. done. }
    destruct (Hgrow _ eq_refl Hgt) as (Ef & Hwf & Hg). rewrite <- Ef.
    rewrite (proj2 (Z.eqb_neq f 0)) by lia. rewrite fmul_of_Z, fsub_of_Z by (done || lia).
    eexists. split; [reflexivity|]. by apply (rel_put BUY).
  - rewrite fmul_half by done.
    rewrite fzero_of_Z, fltb_of_Z, (proj2 (Z.ltb_lt 0 h)) by (done || (unfold whole; lia)).
    rewrite py_int_div, py_int_of_Z by (done || lia).
    destruct (Z.leb_spec (Z.min q (bk_cash b / h)) 0) as [Hle|Hgt].
    { exists sb. replace f with 0 by lia. done. }
    destruct (Hgrow _ eq_refl Hgt) as (Ef & Hwf & Hg). rewrite <- Ef.
    rewrite (proj2 (Z.eqb_neq f 0)) by lia. cbn [signed] in *.
    replace (bk_cash b - 2 * h * - f) with (bk_cash b + 2 * h * f) in * by lia.
    rewrite fmul_of_Z, fadd_of_Z by (done || lia).
    eexists. split; [reflexivity|]. by apply (rel_put SELL).
Qed.

Lemma step_fits_spec h s k q b :
  step_fits h s k q b = true ->
  let f := book_fill h s k q b in
  0 < h /\ whole (2 * h) /\ whole q /\ whole (2 * h * f) /\ 0 <= bk_cash b /\ whole (bk_cash b) /\
  whole (held k b) /\ whole (bk_cash b - 2 * h * signed s f) /\ whole (held k b + signed s f).
Proof.
  intros Hf f. subst f. unfold step_fits in Hf. repeat (apply andb_prop in Hf as [Hf ?]).
  repeat match goal with H : small _ = true |- _ => apply small_whole in H end.
  repeat split; try done; try lia. unfold whole in *. destruct s; cbn [signed] in *; lia.
Qed.

(** An order of the code fills what the book's step fills. *)
Lemma route_refines h s k q b sb o :
  step_fits h s k q b = true -> book_rel b sb ->
  ord_symbol o = k -> ord_side o = s -> ord_qty o = of_Z q ->
  exists sb', route_order o (of_Z (2 * h)) sb = (Ok (of_Z (book_fill h s k q b)), sb') /\
    book_rel (book_step h s k q b) sb'.
Proof.
  intros Hfit Hr Ek Es Eq.
  destruct (step_fits_spec _ _ _ _ _ Hfit) as (Hh & Hp & Hq & Hpf & Hc0 & Hc & Hheld & Hc' & Hh').
  set (f := book_fill h s k q b) in *.
  assert (forall sb', (if f =? 0 then sb' = sb
     else book_rel (mkBook (bk_cash b - 2 * h * signed s f)
                      (put_shares k (held k b + signed s f) (bk_shares b))) sb') ->
     book_rel (book_step h s k q b) sb') as Hstep.
  { intros sb' H. unfold book_step. fold f. destruct (Z.eqb_spec f 0) as [E|E].
    - subst sb'. rewrite E. by destruct s.
    - rewrite (proj2 (Z.eqb_neq (signed s f) 0)) by (destruct s; cbn; lia). done. }
  assert ((match assoc k (sim_positions sb) with Some p => pos_side p | None => "" end)%string
          = (if (held k b <? 0)%Z then "short" else if (0 <? held k b)%Z then "long" else "")%string) as Eside.
  { pose proof (held_assoc k b sb Hr) as Ha. destruct (assoc k (sim_positions sb)) as [p|].
    - destruct Ha as [(_ & Hn0 & _ & _ & Hsd) _]. cbn in Hsd, Hn0. rewrite Hsd.
      destruct (Z.ltb_spec (held k b) 0), (Z.ltb_spec 0 (held k b)); try done; lia.
    - by rewrite Ha. }
  unfold route_order. rewrite Ek, Es, Eq, Eside.
  destruct s.
  - destruct (Z.ltb_spec (held k b) 0) as [Hneg|Hpos].
    + rewrite bool_decide_true by done.
      assert (Z.max 0 (Z.min q (Z.abs (held k b))) = f) as Ef
        by (unfold f, book_fill; rewrite (proj2 (Z.ltb_lt _ _)) by lia; f_equal; lia).
      destruct (close_refines BUY k q h b sb Hr) as (sb' & E & H'); rewrite ?Ef; try done.
      rewrite Ef in *. exists sb'. split; [done|by apply Hstep].
    + rewrite bool_decide_false by (by destruct (0 <? held k b)).
      assert (Z.max 0 (Z.min q (bk_cash b / (2 * h))) = f) as Ef
        by (unfold f, book_fill; rewrite (proj2 (Z.ltb_ge _ _)) by lia; done).
      destruct (open_refines BUY k q h b sb Hr) as (sb' & E & H'); rewrite ?Ef; try done.
      rewrite Ef in *. exists sb'. split; [done|by apply Hstep].
  - destruct (Z.ltb_spec 0 (held k b)) as [Hpos|Hneg].
    + rewrite (proj2 (Z.ltb_ge (held k b) 0)) by lia. rewrite bool_decide_true by done.
      assert (Z.max 0 (Z.min q (Z.abs (held k b))) = f) as Ef
        by (unfold f, book_fill; rewrite (proj2 (Z.ltb_lt _ _)) by lia; f_equal; lia).
      destruct (close_refines SELL k q h b sb Hr) as (sb' & E & H'); rewrite ?Ef; try done; [cbn; lia|].
      rewrite Ef in *. exists sb'. split; [done|by apply Hstep].
    + rewrite bool_decide_false by (by destruct (held k b <? 0)).
      assert (Z.max 0 (Z.min q (bk_cash b / h)) = f) as Ef
        by (unfold f, book_fill; rewrite (proj2 (Z.ltb_ge _ _)) by lia; done).
      destruct (open_refines SELL k q h b sb Hr) as (sb' & E & H'); rewrite ?Ef; try done; [cbn; lia|].
      rewrite Ef in *. exists sb'. split; [done|by apply Hstep].
Qed.

(** ** Submissions *)

Definition order_of (t : Side * string * Z) : Order :=
  mkOrder t.1.2 t.1.1 (of_Z t.2) "market" None "" None.

Fixpoint run_fills (p : quote) (os : list (Side * string * Z)) (b : book) : list Z :=
  match os with
  | [] => []
  | (s, k, q) :: os =>
      let f := book_fill (half p s) s k q b in
      (if f =? 0 then [] else [f]) ++ run_fills p os (book_step (half p s) s k q b)
  end.

Lemma book_fill_nonneg h s k q b : 0 <= book_fill h s k q b.
Proof. unfold book_fill. lia. Qed.

Lemma add_fill_rel r b sb : book_rel b sb -> book_rel b (add_fill r sb).
Proof. intros []. by split. Qed.

Lemma fill_orders_refine now p ts b sb :
  quoted p = true -> run_fits p ts b = true -> book_rel b sb ->
  exists rs sb', fill_orders now (of_Z (qt_raw p)) (map order_of ts) sb = (Ok rs, sb') /\
    book_rel (book_run p ts b) sb' /\ map res_qty rs = map of_Z (run_fills p ts b).
Proof.
  intros Hp. revert b sb. induction ts as [|[[s k] q] ts IH]; intros b sb Hfit Hr; [by exists [], sb|].
  cbn [run_fits] in Hfit. apply andb_prop in Hfit as [Hs Hfit]. set (h := half p s) in *.
  destruct (route_refines h s k q b sb (order_of (s, k, q)) Hs Hr) as (sb1 & E & Hr1); [done..|].
  cbn [map fill_orders book_run run_fills]. change (ord_side (order_of (s, k, q))) with s.
  rewrite (fill_price_quoted p s b sb Hp Hr). fold h.
  unfold py_bind. rewrite E. pose proof (book_fill_nonneg h s k q b) as Hf0.
  pose proof (step_fits_spec _ _ _ _ _ Hs) as Hspec.
  assert (whole (book_fill h s k q b)) as Hwf by (unfold whole in *; nia).
  rewrite fzero_of_Z, fleb_of_Z by done.
  destruct (Z.leb_spec (book_fill h s k q b) 0) as [Hle|Hgt].
  - destruct (IH _ _ Hfit Hr1) as (rs & sb2 & -> & Hr2 & Hq). exists rs, sb2.
    rewrite (proj2 (Z.eqb_eq _ _)) by lia. done.
  - cbn [py_modify]. set (r := mkOrderResult _ _ _ _ _ _ _).
    destruct (IH _ _ Hfit (add_fill_rel r _ _ Hr1)) as (rs & sb2 & -> & Hr2 & Hq).
    exists (r :: rs), sb2. rewrite (proj2 (Z.eqb_neq _ _)) by lia. split; [done|]. split; [done|].
    cbn. by rewrite Hq.
Qed.

Lemma mark_fold p ps l v :
  0 < p -> whole p -> Forall2 entry_rel ps l -> whole v -> mark_fits p v l = true ->
  fold_left (fun h e =>
      if bool_decide (pos_side e.2 = "long")%string then fadd h (fmul (of_Z p) (pos_qty e.2))
      else if bool_decide (pos_side e.2 = "short")%string then fsub h (fmul (of_Z p) (pos_qty e.2))
      else h) ps (of_Z v) = of_Z (v + share_value p l).
Proof.
  intros Hp Hwp Hl. revert v.
  induction Hl as [|[k1 q] [k2 n] ps l (E & Hn0 & Hwn & Hq & Hsd) Hl IH]; intros v Hv Hm; cbn [mark_fits fold_left].
  { by rewrite Z.add_0_r. }
  cbn [mark_fits] in Hm. apply andb_prop in Hm as [Hm Hm3]. apply andb_prop in Hm as [Hm1 Hm2].
  apply small_whole in Hm1, Hm2. cbn [fst snd] in *. rewrite share_value_cons, Hsd, Hq.
  rewrite fmul_of_Z by (done || (unfold whole in *; lia)).
  destruct (Z.ltb_spec 0 n) as [Hpos|Hneg].
  - rewrite bool_decide_true by done. rewrite Z.abs_eq in * by lia.
    rewrite fadd_of_Z, IH by done. f_equal. lia.
  - rewrite bool_decide_false, bool_decide_true by done.
    replace (v + p * n) with (v - p * Z.abs n) in * by nia.
    rewrite fsub_of_Z, IH by done. f_equal. nia.
Qed.

Lemma book_step_keys h s k q b : NoDup (bk_shares b).*1 -> NoDup (bk_shares (book_step h s k q b)).*1.
Proof. intros Hnd. unfold book_step. destruct (_ =? 0); [done|]. cbn [bk_shares]. by apply put_shares_keys. Qed.

Lemma book_run_value p ts b :
  NoDup (bk_shares b).*1 -> book_value (qt_raw p) (book_run p ts b) = book_value (qt_raw p) b - run_cost p ts b.
Proof.
  revert b. induction ts as [|[[s k] q] ts IH]; intros b Hnd; [cbn; lia|]. cbn [book_run run_cost].
  rewrite IH by (by apply book_step_keys). rewrite book_step_value by done. lia.
Qed.

Lemma book_run_keys p ts b : NoDup (bk_shares b).*1 -> NoDup (bk_shares (book_run p ts b)).*1.
Proof.
  revert b. induction ts as [|[[s k] q] ts IH]; intros b Hnd; [done|]. by apply IH, book_step_keys.
Qed.

(** No order gains over the raw price when the quote is no better than it. *)
Lemma run_cost_nonneg p ts b :
  2 * qt_sell p <= qt_raw p <= 2 * qt_buy p -> 0 <= run_cost p ts b.
Proof.
  intros Hp. revert b. induction ts as [|[[s k] q] ts IH]; intros b; [done|]. cbn [run_cost].
  specialize (IH (book_step (half p s) s k q b)). pose proof (book_fill_nonneg (half p s) s k q b).
  destruct s; cbn [half signed] in *; nia.
Qed.

Lemma run_cost_free p ts b : 2 * qt_sell p = qt_raw p -> 2 * qt_buy p = qt_raw p -> run_cost p ts b = 0.
Proof.
  intros Hs Hb. revert b. induction ts as [|[[s k] q] ts IH]; intros b; [done|]. cbn [run_cost].
  rewrite IH. destruct s; cbn [half]; lia.
Qed.

(** A submission that fits: its running amounts and its mark. *)
Definition submission_fits (p : quote) (ts : list (Side * string * Z)) (b : book) : bool :=
  quoted p && run_fits p ts b &&
  small (bk_cash (book_run p ts b)) && mark_fits (qt_raw p) 0 (bk_shares (book_run p ts b)) &&
  small (share_value (qt_raw p) (bk_shares (book_run p ts b))) && small (book_value (qt_raw p) (book_run p ts b)).

Lemma submit_refines now p ts b sb :
  submission_fits p ts b = true -> book_rel b sb ->
  exists rs sb', submit_orders now (map order_of ts) (of_Z (qt_raw p)) sb = (Ok rs, sb') /\
    book_rel (book_run p ts b) sb' /\ sim_equity sb' = of_Z (book_value (qt_raw p) b - run_cost p ts b) /\
    map res_qty rs = map of_Z (run_fills p ts b).
Proof.
  unfold submission_fits. intros Hf Hr. do 5 (apply andb_prop in Hf as [Hf ?]).
  repeat match goal with H : small _ = true |- _ => apply small_whole in H end.
  assert (0 < qt_raw p /\ whole (qt_raw p)) as [Hp Hwp].
  { pose proof Hf as Hq. unfold quoted in Hq. repeat (apply andb_prop in Hq as [Hq ?]).
    split; [lia|unfold whole, small in *; lia]. }
  destruct (fill_orders_refine now p ts b sb) as (rs & sb1 & E & Hr1 & Hq); [done..|].
  unfold submit_orders. rewrite fzero_of_Z, fleb_of_Z, (proj2 (Z.leb_gt _ _)) by (done || lia).
  unfold py_bind. rewrite E. cbn [py_modify py_ret]. eexists _, _. split; [reflexivity|].
  split; [by destruct Hr1|]. split; [|done]. unfold mark_equity. cbn [sim_equity set_equity].
  rewrite (br_cash _ _ Hr1), fzero_of_Z.
  rewrite (mark_fold _ _ (bk_shares (book_run p ts b)) 0) by (done || lia || apply Hr1).
  rewrite Z.add_0_l, <- (book_run_value p ts b (br_keys _ _ Hr)). by rewrite fadd_of_Z.
Qed.

(** ** Histories *)

(** Submissions as (time, quote, orders). *)
Definition submission : Type := Z * quote * list (Side * string * Z).

Fixpoint submit_all (subs : list submission) (sb : SimulatedBroker)
    : result string (list float) * SimulatedBroker :=
  match subs with
  | [] => (Ok [], sb)
  | (now, p, ts) :: subs =>
      (let! rs := submit_orders now (map order_of ts) (of_Z (qt_raw p)) in
       let! qs := submit_all subs in
       py_ret (map res_qty rs ++ qs))%py sb
  end.

Fixpoint book_all (subs : list submission) (b : book) : book * list Z :=
  match subs with
  | [] => (b, [])
  | (_, p, ts) :: subs =>
      let '(b', fs) := book_all subs (book_run p ts b) in (b', run_fills p ts b ++ fs)
  end.

Fixpoint all_fit (subs : list submission) (b : book) : bool :=
  match subs with
  | [] => true
  | (_, p, ts) :: subs => submission_fits p ts b && all_fit subs (book_run p ts b)
  end.

Lemma submit_all_refine subs b sb :
  all_fit subs b = true -> book_rel b sb ->
  exists sb', submit_all subs sb = (Ok (map of_Z (book_all subs b).2), sb') /\
    book_rel (book_all subs b).1 sb'.
Proof.
  revert b sb. induction subs as [|[[now p] ts] subs IH]; intros b sb Hf Hr; [by exists sb|].
  cbn [all_fit] in Hf. apply andb_prop in Hf as [Hf1 Hf2].
  destruct (submit_refines now p ts b sb Hf1 Hr) as (rs & sb1 & E & Hr1 & _ & Hq).
  destruct (IH _ _ Hf2 Hr1) as (sb2 & E2 & Hr2). cbn [submit_all book_all]. unfold py_bind.
  rewrite E, E2, Hq. destruct (book_all subs (book_run p ts b)) as [b' fs]. cbn [fst snd] in *.
  exists sb2. by rewrite map_app.
Qed.

(** C33: whatever the slippage and the fee, over any submissions of whole orders at raw prices from which
    they make whole even fill prices, whose amounts stay below 2^53 and keep the cash non-negative, the
    broker fills exactly what the book of cash and signed shares fills, and stands where the book stands;
    after a last submission its equity is the value, at that raw price, of the book before it, less
    what the fills paid over that price: nothing where slippage and fee are zero, and never a
    gain where a buy fills at or above the raw price and a sell at or below it. *)
Theorem sim_refines_book subs now p ts b sb :
  all_fit subs b = true -> submission_fits p ts (book_all subs b).1 = true -> book_rel b sb ->
  exists sb1 rs sb2, submit_all subs sb = (Ok (map of_Z (book_all subs b).2), sb1) /\
    submit_orders now (map order_of ts) (of_Z (qt_raw p)) sb1 = (Ok rs, sb2) /\
    map res_qty rs = map of_Z (run_fills p ts (book_all subs b).1) /\
    book_rel (book_run p ts (book_all subs b).1) sb2 /\
    sim_equity sb2 = of_Z (book_value (qt_raw p) (book_all subs b).1 - run_cost p ts (book_all subs b).1) /\
    (2 * qt_sell p = qt_raw p -> 2 * qt_buy p = qt_raw p -> run_cost p ts (book_all subs b).1 = 0) /\
    (2 * qt_sell p <= qt_raw p <= 2 * qt_buy p -> 0 <= run_cost p ts (book_all subs b).1).
Proof.
  intros Hf Hf2 Hr. destruct (submit_all_refine subs b sb Hf Hr) as (sb1 & E1 & Hr1).
  destruct (submit_refines now p ts _ sb1 Hf2 Hr1) as (rs & sb2 & E2 & Hr2 & He & Hq).
  exists sb1, rs, sb2. split_and!; try done; [by apply run_cost_free|by apply run_cost_nonneg].
Qed.

Lemma init_rel c : book_rel (mkBook c []) (sim_init (of_Z c) slip fee).
Proof. split; [done|by constructor|by constructor|done]. Qed.
End Costs.

(** The broker's own defaults, a slippage of 0.05%: a long that is clipped by the cash, sold through zero,
    and covered. *)
Lemma sim_refines_book_witness :
  let slip := lit 5 4 in
  let subs := [(1, mkQuote 4000 2001 1999, [(BUY, "SPY", 70); (BUY, "SPY", 70)]);
               (2, mkQuote 8000 4002 3998, [(SELL, "SPY", 200); (SELL, "SPY", 50)])]%Z%string in
  let b := mkBook 400200 [] in
  let b1 := (book_all subs b).1 in
  b1 = mkBook 1199400 [("SPY"%string, -50)] /\
  exists sb1 rs sb2,
    submit_all subs (sim_init (of_Z 400200) slip fzero) = (Ok (map of_Z [70; 30; 100; 50]), sb1) /\
    submit_orders 3 (map order_of [(BUY, "SPY"%string, 20)]) (of_Z 4000) sb1 = (Ok rs, sb2) /\
    map res_qty rs = map of_Z [20] /\ sim_equity sb2 = of_Z 999360 /\
    run_cost (mkQuote 4000 2001 1999) [(BUY, "SPY"%string, 20)] b1 = 40.
Proof.
  intros slip subs b b1. split; [vm_compute; reflexivity|].
  destruct (sim_refines_book slip fzero subs 3 (mkQuote 4000 2001 1999) [(BUY, "SPY"%string, 20)] b
    (sim_init (of_Z 400200) slip fzero)) as (sb1 & rs & sb2 & H1 & H2 & H3 & _ & H4 & _);
    [vm_compute; reflexivity..|apply init_rel|].
  exists sb1, rs, sb2. split; [exact H1|]. split; [exact H2|]. split; [exact H3|]. split; [exact H4|].
  vm_compute. reflexivity.
Defined.

(** ** Shorts margin shorts *)

(** The shares that [m] sales short from a cash of [c] at a price of 2. *)
Fixpoint shorted (m : nat) (c : Z) : Z :=
  match m with O => 0 | S m => c + shorted m (3 * c) end.

Lemma shorted_value m c : 2 * shorted m c = (3 ^ Z.of_nat m - 1) * c.
Proof.
  revert c. induction m as [|m IH]; intros c; [cbn; lia|].
  rewrite Nat2Z.inj_succ, Z.pow_succ_r by lia. cbn [shorted]. rewrite Z.mul_add_distr_l, IH. lia.
Qed.

Definition short_book (k : string) (c n : Z) : book := mkBook c (if n =? 0 then [] else [(k, n)]).

Lemma short_step k c n q :
  0 < c <= q -> n <= 0 ->
  book_fill 1 SELL k q (short_book k c n) = c /\
  book_step 1 SELL k q (short_book k c n) = short_book k (3 * c) (n - c) /\
  held k (short_book k c n) = n.
Proof.
  intros Hc Hn.
  assert (held k (short_book k c n) = n) as Hh.
  { unfold held, short_book. cbn [bk_shares]. destruct (Z.eqb_spec n 0) as [->|]; [done|].
    cbn. by rewrite decide_True. }
  assert (book_fill 1 SELL k q (short_book k c n) = c) as Hf.
  { unfold book_fill. rewrite Hh, (proj2 (Z.ltb_ge 0 n)) by lia. cbn [bk_cash short_book].
    rewrite Z.div_1_r. lia. }
  split; [done|]. split; [|done]. unfold book_step. rewrite Hf, Hh. cbn [signed].
  rewrite (proj2 (Z.eqb_neq (- c) 0)) by lia. unfold short_book, put_shares. cbn [bk_cash bk_shares].
  rewrite (proj2 (Z.eqb_neq (n + - c) 0)), (proj2 (Z.eqb_neq (n - c) 0)) by lia.
  replace (c - 2 * 1 * - c) with (3 * c) by lia. replace (n + - c) with (n - c) by lia.
  destruct (n =? 0); cbn; [done|]. by rewrite decide_True.
Qed.

Definition even_quote : quote := mkQuote 2 1 1.

Lemma short_run m k c n q :
  0 < c -> n <= 0 -> 3 ^ Z.of_nat m * c <= q -> q < 2 ^ 53 -> shorted m c - n < 2 ^ 53 ->
  let os := repeat (SELL, k, q) m in
  book_run even_quote os (short_book k c n) = short_book k (3 ^ Z.of_nat m * c) (n - shorted m c) /\
  run_fits even_quote os (short_book k c n) = true.
Proof.
  revert c n. induction m as [|m IH]; intros c n Hc Hn Hq Hq53 Hb os.
  { cbn in *. split; [|done]. f_equal; [by destruct c|lia]. }
  rewrite Nat2Z.inj_succ, Z.pow_succ_r in * by lia.
  assert (1 <= 3 ^ Z.of_nat m) as H3 by (pose proof (Z.pow_pos_nonneg 3 (Z.of_nat m)); lia).
  destruct (short_step k c n q ltac:(nia) Hn) as (Ef & Es & Eh).
  cbn [shorted] in Hb.
  assert (0 <= shorted m (3 * c)) as Hs0 by (pose proof (shorted_value m (3 * c)); nia).
  destruct (IH (3 * c) (n - c)) as [Er Ef2]; [nia..|].
  cbn [os repeat book_run run_fits]. change (half even_quote SELL) with 1. rewrite Es, Er, Ef2. split.
  - cbn [shorted]. f_equal; lia.
  - rewrite andb_true_r. unfold step_fits. rewrite Ef, Eh. cbn [signed bk_cash short_book]. unfold small.
    assert (3 * c <= q) by nia.
    repeat (apply andb_true_intro; split); try apply Z.ltb_lt; try apply Z.leb_le; lia.
Qed.

(** the proceeds of a short count as margin for the next: from a cash of [c], at a price of 2
    with half of it as margin, [m] sales leave a cash of [3^m * c] and a short worth
    [(3^m - 1) * c], while the equity is still [c]. One sale is short twice the equity, as the margin of
    half allows; the exposure of [m] has no bound but the number of orders. *)
Theorem short_leverage_is_unbounded now k c m :
  (0 < m)%nat -> 0 < c -> 4 * (3 ^ Z.of_nat m * c) < 2 ^ 53 ->
  exists rs sb, submit_orders now (map order_of (repeat (SELL, k, 3 ^ Z.of_nat m * c) m)) (of_Z 2)
                  (sim_init (of_Z c) fzero fzero) = (Ok rs, sb) /\
    sim_cash sb = of_Z (3 ^ Z.of_nat m * c) /\ sim_equity sb = of_Z c /\
    exists p n, assoc k (sim_positions sb) = Some p /\ pos_side p = "short"%string /\
      pos_qty p = of_Z n /\ 2 * n = (3 ^ Z.of_nat m - 1) * c.
Proof.
  intros Hm Hc Hb. set (q := 3 ^ Z.of_nat m * c) in *.
  pose proof (shorted_value m c) as Hv.
  assert (3 <= 3 ^ Z.of_nat m) as H3 by (change 3 with (3 ^ 1) at 1; apply Z.pow_le_mono_r; lia).
  assert (0 < shorted m c) as Hs by nia.
  destruct (short_run m k c 0 q) as [Er Ef]; [lia..|nia|].
  change (short_book k c 0) with (mkBook c []) in *.
  assert (short_book k q (0 - shorted m c) = mkBook q [(k, - shorted m c)]) as Eb.
  { unfold short_book. rewrite (proj2 (Z.eqb_neq _ _)) by lia. by rewrite Z.sub_0_l. }
  fold q in Er. rewrite Eb in Er.
  destruct (submit_refines fzero fzero now even_quote (repeat (SELL, k, q) m) (mkBook c []) (sim_init (of_Z c) fzero fzero))
    as (rs & sb & E & Hr & He & _); [|apply init_rel|].
  { unfold submission_fits. rewrite Er, Ef. change (quoted fzero fzero even_quote) with true.
    change (qt_raw even_quote) with 2. cbn [bk_cash bk_shares mark_fits share_value fold_right snd].
    unfold book_value, small. cbn [bk_cash bk_shares share_value fold_right snd].
    assert (2 * shorted m c = q - c) as Hs2 by (unfold q; lia). assert (c <= q) by nia.
    repeat (apply andb_true_intro; split); try apply Z.ltb_lt; try done; lia. }
  rewrite Er in Hr. exists rs, sb. split; [done|]. split; [apply Hr|].
  split; [rewrite He, run_cost_free by done; unfold book_value; cbn; by rewrite Z.add_0_r, Z.sub_0_r|].
  pose proof (assoc_rel k _ _ (br_entries _ _ _ _ Hr)) as Ha. cbn [bk_shares] in Ha.
  rewrite assoc_cons, decide_True in Ha by done.
  destruct (assoc k (sim_positions sb)) as [p|]; [|done]. destruct Ha as (_ & _ & _ & Hq & Hsd).
  cbn [fst snd] in *. exists p, (shorted m c). split; [done|].
  rewrite (proj2 (Z.ltb_ge _ _)) in Hsd by lia. split; [done|].
  split; [rewrite Hq; f_equal; lia|done].
Qed.

Lemma short_leverage_is_unbounded_witness :
  exists rs sb, submit_orders 0 (map order_of (repeat (SELL, "GLD"%string, 6561000) 8)) (of_Z 2)
                  (sim_init (of_Z 1000) fzero fzero) = (Ok rs, sb) /\
    sim_cash sb = of_Z 6561000 /\ sim_equity sb = of_Z 1000 /\
    exists p n, assoc "GLD"%string (sim_positions sb) = Some p /\ pos_side p = "short"%string /\
      pos_qty p = of_Z n /\ 2 * n = (3 ^ 8 - 1) * 1000.
Proof. apply (short_leverage_is_unbounded 0 "GLD" 1000 8); [lia|lia|reflexivity]. Defined.

(** A remainder below one share is never closed. *)
Lemma fractional_remainder_stays :
  let p := pos_of "BTC" "long" (lit 15 1) (of_Z 100) in
  let b := mkSim (of_Z 0) (of_Z 0) fzero fzero [("BTC"%string, p)] [] in
  match close_long "BTC" (pos_qty p) (of_Z 100) b with
  | (Ok x, b) => x = of_Z 1 /\
      match close_all_positions (of_Z 100) b with (Ok _, b) => get_positions b <> [] | _ => False end
  | _ => False
  end.
Proof. vm_compute. by split. Qed.
