(* ===== verification/FeedGuard.v ===== *)
(** * Feed guards

    [src/ingestor/feed_ingest_guard.py] (classes [FeedSequenceGuard] and
    [IngestCircuitBreaker]) and [src/ingestor/feed_stream_health.py] (class
    [FeedStreamHealthRegistry]): which bars of a stream are accepted, when its arrival lag
    trips the breaker, and whether a stream counts as connected. Bar times are moments, the
    monotonic clock is a float. Every method holds its object's lock. *)

From stdpp Require Import base gmap strings list sorting.
From Stdlib Require Import ZArith Lia.
From S2P Require Import Prelude PyFloat Models BarFreshness Degradation ColdStart MarketCalendar SloMonitor.

(** A symbol, upper-cased, with its timeframe. *)
Definition feed_key : Type := string * string.
Definition key_of (symbol timeframe : string) : feed_key := (upper symbol, timeframe).

(** ** The sequence guard *)

Record FeedSequenceGuard := mkGuard {
  last_ts : gmap feed_key Z;
  last_seq : gmap feed_key Z;
  misalignment_events : gmap feed_key Z
}.

Definition guard_init : FeedSequenceGuard := mkGuard ∅ ∅ ∅.

Definition note_misalignment (k : feed_key) (g : FeedSequenceGuard) : FeedSequenceGuard :=
  mkGuard (last_ts g) (last_seq g)
    (<[k := (default 0 (misalignment_events g !! k) + 1)%Z]> (misalignment_events g)).

(** The vendor's id, or the timestamp in milliseconds, which is finite. *)
Definition sequence_id (t : Z) (vendor : option Z) : Z :=
  match vendor with
  | Some n => n
  | None => default 0%Z (ftrunc (fmul (total_seconds t) (of_Z 1000)))
  end.

Definition at_most (x : Z) (bound : option Z) : bool :=
  match bound with Some b => (x <=? b)%Z | None => false end.

(** Whether the bar is accepted, with the reason. *)
Definition evaluate (symbol timeframe : string) (bar_timestamp : Z) (vendor : option Z)
    (g : FeedSequenceGuard) : (bool * string) * FeedSequenceGuard :=
  let k := key_of symbol timeframe in
  let sid := sequence_id bar_timestamp vendor in
  if at_most bar_timestamp (last_ts g !! k)
  then ((false, "out_of_order_or_duplicate_timestamp"), note_misalignment k g)
  else if at_most sid (last_seq g !! k)
  then ((false, "sequence_misalignment"), note_misalignment k g)
  else ((true, "accepted"),
        mkGuard (<[k := bar_timestamp]> (last_ts g)) (<[k := sid]> (last_seq g)) (misalignment_events g)).

Definition misalignment_count (symbol timeframe : option string) (g : FeedSequenceGuard) : Z :=
  match symbol, timeframe with
  | Some s, Some t => default 0%Z (misalignment_events g !! key_of s t)
  | _, _ => fold_right (fun e n => e.2 + n)%Z 0%Z (map_to_list (misalignment_events g))
  end.

(** ** The circuit breaker *)

Definition INGEST_ARRIVAL_LAG_CEILING_FRACTION : float := Eval vm_compute in fdiv (of_Z 15) (of_Z 900).
Definition INGEST_CIRCUIT_BREAKER_STREAK : Z := 3.
Definition STREAM_BAR_PERIOD_SECONDS : Z := 60.

Definition bar_period_seconds (timeframe : string) : float :=
  fmul (of_Z (timeframe_minutes timeframe)) (of_Z 60).

Record IngestCircuitBreaker := mkBreaker {
  consecutive_breaches : gmap feed_key Z;
  last_lag_seconds : gmap feed_key float;
  tripped : gmap feed_key bool
}.

Definition breaker_init : IngestCircuitBreaker := mkBreaker ∅ ∅ ∅.

Definition lag_breach (timeframe : string) (lag : float) : bool :=
  fltb (fmul INGEST_ARRIVAL_LAG_CEILING_FRACTION (bar_period_seconds timeframe)) lag.

Definition note_bar_arrival (bar_timestamp : Z) (symbol timeframe : string) (arrival : Z)
    (b : IngestCircuitBreaker) : IngestCircuitBreaker :=
  let lag := bar_staleness_seconds bar_timestamp STREAM_BAR_PERIOD_SECONDS arrival in
  let k := key_of symbol timeframe in
  let n := if lag_breach timeframe lag then (default 0 (consecutive_breaches b !! k) + 1)%Z else 0%Z in
  mkBreaker (<[k := n]> (consecutive_breaches b)) (<[k := lag]> (last_lag_seconds b))
    (if (INGEST_CIRCUIT_BREAKER_STREAK <=? n)%Z then <[k := true]> (tripped b) else tripped b).

Definition is_tripped (symbol timeframe : option string) (b : IngestCircuitBreaker) : bool :=
  match symbol, timeframe with
  | Some s, Some t => default false (tripped b !! key_of s t)
  | _, _ => existsb snd (map_to_list (tripped b))
  end.

Record IngestGuardSnapshot := mkIngestSnapshot {
  sequence_misalignment_events : Z;
  consecutive_lag_breaches : Z;
  ingest_circuit_breaker_tripped : bool;
  last_arrival_lag_seconds : float
}.

(** [max(.., default=0.0)] over the recorded lags: the first is kept unless a later one is
    greater. The order of a dict is its insertions'; no lag is a NaN, so it does not
    show. *)
Definition max_lag (l : list float) : float :=
  match l with [] => fzero | x :: l => fold_left py_max l x end.

Definition breaker_snapshot (symbol timeframe : option string) (b : IngestCircuitBreaker)
    : IngestGuardSnapshot :=
  match symbol, timeframe with
  | Some s, Some t =>
      let k := key_of s t in
      mkIngestSnapshot 0 (default 0%Z (consecutive_breaches b !! k)) (default false (tripped b !! k))
        (default fzero (last_lag_seconds b !! k))
  | _, _ =>
      mkIngestSnapshot 0
        (fold_right (fun e n => Z.max e.2 n) 0%Z (map_to_list (consecutive_breaches b)))
        (existsb snd (map_to_list (tripped b)))
        (max_lag (map snd (map_to_list (last_lag_seconds b))))
  end.

Definition ingest_guard_snapshot (symbol timeframe : option string) (g : FeedSequenceGuard)
    (b : IngestCircuitBreaker) : IngestGuardSnapshot :=
  let base := breaker_snapshot symbol timeframe b in
  mkIngestSnapshot (misalignment_count symbol timeframe g) (consecutive_lag_breaches base)
    (ingest_circuit_breaker_tripped base) (last_arrival_lag_seconds base).

(** ** Stream health *)

Definition FEED_RECONNECT_DEGRADED_SECONDS : float := Eval vm_compute in of_Z 300.
Definition KNOWN_STREAM_TYPES : list string := ["stock"; "crypto"].

Inductive FeedStreamMode := HEALTHY | RECONNECTING | DEGRADED_FEED.
#[export] Instance FeedStreamMode_eq_dec : EqDecision FeedStreamMode.
Proof. solve_decision. Defined.

(** [mode, disconnect_since, last_bar]. *)
Record stream_entry := mkEntry {
  en_mode : FeedStreamMode;
  disconnect_since : option float;
  last_bar : option float
}.

Definition fresh_entry : stream_entry := mkEntry HEALTHY None None.

Notation registry := (gmap string stream_entry).

Definition registry_init : registry := list_to_map (map (fun s => (s, fresh_entry)) KNOWN_STREAM_TYPES).

Definition refresh_locked (now : float) (e : stream_entry) : stream_entry :=
  match disconnect_since e with
  | None => mkEntry HEALTHY None (last_bar e)
  | Some since =>
      mkEntry (if fleb FEED_RECONNECT_DEGRADED_SECONDS (fsub now since) then DEGRADED_FEED else RECONNECTING)
        (Some since) (last_bar e)
  end.

Definition note_stream_bar (stream : string) (now : float) (r : registry) : registry :=
  <[stream := mkEntry HEALTHY None (Some now)]> r.

(** [note_disconnect] and [note_reconnect_attempt] do the same; [refreshed] is the clock
    [_refresh_locked] reads. *)
Definition note_lost (now refreshed : float) (stream : string) (r : registry) : registry :=
  let e := default fresh_entry (r !! stream) in
  let since := match disconnect_since e with Some t => t | None => now end in
  <[stream := refresh_locked refreshed (mkEntry RECONNECTING (Some since) (last_bar e))]> r.

Definition keys_of (stream : option string) : list string :=
  match stream with None => KNOWN_STREAM_TYPES | Some s => [s] end.

Definition note_disconnect (now refreshed : float) (stream : option string) (r : registry) : registry :=
  fold_left (fun r k => note_lost now refreshed k r) (keys_of stream) r.

Definition note_reconnect_attempt := note_disconnect.

(** A read refreshes a known entry in place; an unknown stream gets a throwaway one. *)
Definition refresh_key (now : float) (k : string) (r : registry) : registry :=
  match r !! k with Some e => <[k := refresh_locked now e]> r | None => r end.

Fixpoint mode_scan (now : float) (keys : list string) (worst : FeedStreamMode) (r : registry)
    : FeedStreamMode * registry :=
  match keys with
  | [] => (worst, r)
  | k :: keys =>
      let m := en_mode (refresh_locked now (default fresh_entry (r !! k))) in
      let r := refresh_key now k r in
      match m with
      | DEGRADED_FEED => (DEGRADED_FEED, r)
      | RECONNECTING => mode_scan now keys RECONNECTING r
      | HEALTHY => mode_scan now keys worst r
      end
  end.

Definition mode (now : float) (stream : option string) (r : registry) : FeedStreamMode * registry :=
  mode_scan now (keys_of stream) HEALTHY r.

Definition is_degraded_feed (now : float) (stream : option string) (r : registry) : bool * registry :=
  let '(m, r) := mode now stream r in (bool_decide (m = DEGRADED_FEED), r).

Record FeedStreamHealthSnapshot := mkFeedSnapshot {
  fs_mode : FeedStreamMode;
  fs_disconnected_seconds : float;
  fs_last_bar_monotonic : option float
}.

Definition worse (m worst : FeedStreamMode) : FeedStreamMode :=
  match m, worst with
  | DEGRADED_FEED, _ => DEGRADED_FEED
  | RECONNECTING, DEGRADED_FEED => DEGRADED_FEED
  | RECONNECTING, _ => RECONNECTING
  | HEALTHY, w => w
  end.

Definition snapshot (now refreshed : float) (stream : option string) (r : registry)
    : FeedStreamHealthSnapshot * registry :=
  fold_left (fun acc k =>
      let e := refresh_locked refreshed (default fresh_entry (acc.2 !! k)) in
      let s := acc.1 in
      (mkFeedSnapshot (worse (en_mode e) (fs_mode s))
         (match disconnect_since e with
          | Some since => py_max (fs_disconnected_seconds s) (py_max fzero (fsub now since))
          | None => fs_disconnected_seconds s end)
         (match last_bar e with
          | Some b => Some (match fs_last_bar_monotonic s with Some x => py_min x b | None => b end)
          | None => fs_last_bar_monotonic s end),
       refresh_key refreshed k acc.2))
    (keys_of stream) (mkFeedSnapshot HEALTHY fzero None, r).

(** ** Accepted bars, specified *)

Record bar_event := mkBarEvent {
  be_symbol : string; be_timeframe : string; be_ts : Z; be_vendor : option Z
}.

Definition guard_step (g : FeedSequenceGuard) (e : bar_event) : FeedSequenceGuard :=
  (evaluate (be_symbol e) (be_timeframe e) (be_ts e) (be_vendor e) g).2.

(** A key's own bars, in order of arrival, each with its sequence id. *)
Definition own_bars (k : feed_key) (evs : list bar_event) : list (Z * Z) :=
  omap (fun e => if decide (key_of (be_symbol e) (be_timeframe e) = k)
                 then Some (be_ts e, sequence_id (be_ts e) (be_vendor e)) else None) evs.

(** Keep a bar when both its numbers pass the last kept bar's. *)
Definition newer (l : option (Z * Z)) (b : Z * Z) : bool :=
  match l with Some l => (l.1 <? b.1)%Z && (l.2 <? b.2)%Z | None => true end.

Definition keep_newer (acc : list (Z * Z)) (b : Z * Z) : list (Z * Z) :=
  if newer (last acc) b then acc ++ [b] else acc.

Definition kept_bars (bars : list (Z * Z)) : list (Z * Z) := fold_left keep_newer bars [].

Definition bar_lt (a b : Z * Z) : Prop := (a.1 < b.1)%Z /\ (a.2 < b.2)%Z.

Definition event_key (e : bar_event) : feed_key := key_of (be_symbol e) (be_timeframe e).
Definition event_bar (e : bar_event) : Z * Z := (be_ts e, sequence_id (be_ts e) (be_vendor e)).

(** One bar, against the last one its feed kept. *)
Lemma sequence_evaluate_spec e g l :
  let k := event_key e in
  last_ts g !! k = fst <$> l -> last_seq g !! k = snd <$> l ->
  let r := evaluate (be_symbol e) (be_timeframe e) (be_ts e) (be_vendor e) g in
  r.1.1 = newer l (event_bar e) /\
  (forall k', k' <> k -> last_ts r.2 !! k' = last_ts g !! k' /\ last_seq r.2 !! k' = last_seq g !! k' /\
     misalignment_events r.2 !! k' = misalignment_events g !! k') /\
  if newer l (event_bar e)
  then last_ts r.2 !! k = Some (event_bar e).1 /\ last_seq r.2 !! k = Some (event_bar e).2 /\
       misalignment_events r.2 = misalignment_events g
  else last_ts r.2 = last_ts g /\ last_seq r.2 = last_seq g /\
       misalignment_events r.2 !! k = Some (default 0 (misalignment_events g !! k) + 1)%Z.
Proof.
  intros k H1 H2 r. unfold r, evaluate. fold (event_key e). fold k. rewrite H1, H2.
  unfold newer, event_bar. destruct l as [l|]; cbn [fmap option_fmap option_map at_most fst snd].
  - rewrite !Z.leb_antisym.
    destruct (l.1 <? be_ts e)%Z; [destruct (l.2 <? sequence_id (be_ts e) (be_vendor e))%Z|]; cbn [negb andb];
      (split; [done|]); split;
      try (intros k' Hk; cbn; rewrite ?lookup_insert_ne by done; done);
      cbn; rewrite ?lookup_insert_eq; done.
  - split; [done|]. split; [intros k' Hk; cbn; by rewrite !lookup_insert_ne|].
    cbn. by rewrite !lookup_insert_eq.
Qed.

Definition own_bar (k : feed_key) (e : bar_event) : option (Z * Z) :=
  if decide (event_key e = k) then Some (event_bar e) else None.

Lemma own_bars_snoc k evs e :
  own_bars k (evs ++ [e]) = own_bars k evs ++ match own_bar k e with Some b => [b] | None => [] end.
Proof. unfold own_bars. rewrite omap_app. cbn. unfold own_bar. by destruct (decide _). Qed.

Lemma kept_snoc bars b : kept_bars (bars ++ [b]) = keep_newer (kept_bars bars) b.
Proof. unfold kept_bars. by rewrite fold_left_app. Qed.

Lemma guard_history evs k :
  let g := runs guard_step guard_init evs in
  let kept := kept_bars (own_bars k evs) in
  last_ts g !! k = fst <$> last kept /\ last_seq g !! k = snd <$> last kept /\
  default 0%Z (misalignment_events g !! k) = (Z.of_nat (length (own_bars k evs)) - Z.of_nat (length kept))%Z.
Proof.
  revert k. induction evs as [|e evs IH] using rev_ind; intros k; [done|]. cbn zeta.
  rewrite runs_snoc, own_bars_snoc. unfold own_bar.
  set (g := runs guard_step guard_init evs) in *. unfold guard_step.
  destruct (IH (event_key e)) as (H1 & H2 & _).
  destruct (sequence_evaluate_spec e g _ H1 H2) as (_ & Hother & Hown).
  destruct (IH k) as (H1k & H2k & H3k).
  destruct (decide (event_key e = k)) as [E|Hne].
  - subst k. rewrite kept_snoc, length_app. unfold keep_newer. cbn [length].
    destruct (newer _ _); destruct Hown as (E1 & E2 & E3); rewrite E1, E2, E3.
    + rewrite last_snoc, length_app, H3k. cbn [length]. repeat split; lia.
    + repeat split; [done|done|]. rewrite H3k. cbn [default]. unfold default, id. lia.
  - rewrite app_nil_r. destruct (Hother k) as (-> & -> & ->); done.
Qed.

Lemma keep_newer_last acc :
  StronglySorted bar_lt acc -> Forall (fun x => match last acc with Some l => x = l \/ bar_lt x l | None => False end) acc.
Proof.
  induction acc as [|x acc IH] using rev_ind; [done|]. intros Hs. rewrite last_snoc.
  apply Forall_app. split; [|by repeat constructor; left].
  apply Forall_forall. intros y Hy. right.
  apply StronglySorted_app in Hs as (Hlt & _ & _). apply Hlt; [done|]. apply list_elem_of_singleton. done.
Qed.

Lemma keep_newer_sorted acc b : StronglySorted bar_lt acc -> StronglySorted bar_lt (keep_newer acc b).
Proof.
  intros Hs. unfold keep_newer. pose proof (keep_newer_last acc Hs) as Hf.
  destruct (last acc) as [l|] eqn:El; cbn [newer].
  - destruct ((l.1 <? b.1)%Z && (l.2 <? b.2)%Z) eqn:Eb; [|done]. apply StronglySorted_app.
    split; [|split; [done|by repeat constructor]].
    intros x y Hx Hy%list_elem_of_singleton. subst y. rewrite Forall_forall in Hf. specialize (Hf x Hx).
    unfold bar_lt in *. destruct Hf as [->|[? ?]]; lia.
  - apply last_None in El as ->. by repeat constructor.
Qed.

Lemma kept_sorted bars : StronglySorted bar_lt (kept_bars bars).
Proof.
  unfold kept_bars. assert (StronglySorted bar_lt []) as Hs by constructor. revert Hs.
  generalize (@nil (Z * Z)). induction bars as [|b bars IH]; intros acc Hs; [done|].
  cbn. by apply IH, keep_newer_sorted.
Qed.

(** The bars a run accepts, with their keys. *)
Fixpoint accepted_bars (evs : list bar_event) (g : FeedSequenceGuard) : list (feed_key * (Z * Z)) :=
  match evs with
  | [] => []
  | e :: evs =>
      let '((ok, _), g') := evaluate (be_symbol e) (be_timeframe e) (be_ts e) (be_vendor e) g in
      (if ok then [(event_key e, event_bar e)] else []) ++ accepted_bars evs g'
  end.

Definition accepted_of (k : feed_key) (l : list (feed_key * (Z * Z))) : list (Z * Z) :=
  omap (fun e => if decide (e.1 = k) then Some e.2 else None) l.

Lemma accepted_snoc evs e g :
  accepted_bars (evs ++ [e]) g =
  accepted_bars evs g ++ accepted_bars [e] (runs guard_step g evs).
Proof.
  revert g. induction evs as [|a evs IH]; intros g; [done|].
  change (runs guard_step g (a :: evs)) with (runs guard_step (guard_step g a) evs).
  cbn [app accepted_bars]. unfold guard_step at 2. destruct (evaluate _ _ _ _ g) as [[ok r] g'] eqn:E.
  cbn [snd]. rewrite IH. cbn [accepted_bars]. by rewrite app_assoc.
Qed.

(** along any stream of bars, of whatever symbols and timeframes, the guard accepts of each
    feed exactly the bars that are newer than the last one it kept, in time and in sequence
    number; those it accepted increase strictly in both, and the feed's count of misalignments is
    the number of its other bars, since the process started. *)
Theorem guard_accepts_newer_bars evs k :
  let g := runs guard_step guard_init evs in
  accepted_of k (accepted_bars evs guard_init) = kept_bars (own_bars k evs) /\
  StronglySorted bar_lt (accepted_of k (accepted_bars evs guard_init)) /\
  default 0%Z (misalignment_events g !! k)
    = (Z.of_nat (length (own_bars k evs)) - Z.of_nat (length (accepted_of k (accepted_bars evs guard_init))))%Z.
Proof.
  intros g. assert (accepted_of k (accepted_bars evs guard_init) = kept_bars (own_bars k evs)) as E.
  { clear g. induction evs as [|e evs IH] using rev_ind; [done|].
    destruct (guard_history evs (event_key e)) as (H1 & H2 & _).
    destruct (sequence_evaluate_spec e _ _ H1 H2) as (Hok & _ & _).
    rewrite accepted_snoc, own_bars_snoc. unfold accepted_of in *. rewrite omap_app, IH. unfold own_bar.
    cbn [accepted_bars]. destruct (evaluate _ _ _ _ _) as [[ok r] g']. cbn [fst] in Hok. subst ok.
    destruct (decide (event_key e = k)) as [<-|Hne].
    - rewrite kept_snoc. unfold keep_newer. destruct (newer _ _); cbn; [by rewrite decide_True|by rewrite app_nil_r].
    - destruct (newer _ _); cbn; rewrite ?decide_False by done; by rewrite !app_nil_r. }
  split; [done|]. rewrite E. split; [apply kept_sorted|].
  apply guard_history.
Qed.

Lemma guard_accepts_newer_bars_sample :
  let bar t := mkBarEvent "spy" "15Min" t None in
  accepted_of ("SPY", "15Min") (accepted_bars [bar 60000000; bar 60000000; bar 120000000; bar 90000000]%Z guard_init)
  = [(60000000, 60000); (120000000, 120000)]%Z.
Proof. vm_compute. reflexivity. Qed.

(** ** Three late bars in a row *)

Record arrival_event := mkArrival {
  ar_ts : Z; ar_symbol : string; ar_timeframe : string; ar_arrival : Z
}.

Definition breaker_step (b : IngestCircuitBreaker) (e : arrival_event) : IngestCircuitBreaker :=
  note_bar_arrival (ar_ts e) (ar_symbol e) (ar_timeframe e) (ar_arrival e) b.

(** Which of a feed's own arrivals were late. *)
Definition own_breaches (k : feed_key) (evs : list arrival_event) : list bool :=
  omap (fun e => if decide (key_of (ar_symbol e) (ar_timeframe e) = k)
                 then Some (lag_breach (ar_timeframe e)
                              (bar_staleness_seconds (ar_ts e) STREAM_BAR_PERIOD_SECONDS (ar_arrival e)))
                 else None) evs.

Definition streak (l : list bool) : nat := fold_left (fun n (b : bool) => if b then S n else 0) l 0.

Lemma streak_snoc l b : streak (l ++ [b]) = if b then S (streak l) else 0.
Proof. unfold streak. by rewrite fold_left_app. Qed.

Lemma streak_suffix n l : n <= streak l <-> exists pre, l = pre ++ repeat true n.
Proof.
  revert l. induction n as [|n IH]; intros l.
  { split; [|lia]. intros _. exists l. by rewrite app_nil_r. }
  induction l as [|b l _] using rev_ind.
  { split; [cbn; lia|]. intros (pre & E). by destruct pre. }
  rewrite streak_snoc. split.
  - destruct b; [|lia]. intros Hn. destruct (proj1 (IH l)) as (pre & ->); [lia|].
    exists pre. by rewrite <- app_assoc, <- repeat_cons.
  - intros (pre & E). cbn [repeat] in E. rewrite repeat_cons, app_assoc in E. apply app_inj_tail in E as [-> ->].
    apply le_n_S, IH. by exists pre.
Qed.

Definition three_in_a_row (l : list bool) : Prop := exists pre suf, l = pre ++ repeat true 3 ++ suf.

Lemma three_snoc l b : three_in_a_row (l ++ [b]) <-> three_in_a_row l \/ 3 <= streak (l ++ [b]).
Proof.
  rewrite streak_suffix. split.
  - intros (pre & suf & E). induction suf as [|x suf _] using rev_ind.
    + right. exists pre. by rewrite app_nil_r in E.
    + left. rewrite !app_assoc in E. apply app_inj_tail in E as [-> _]. exists pre, suf. by rewrite app_assoc.
  - intros [(pre & suf & ->)|(pre & ->)].
    + exists pre, (suf ++ [b]). by rewrite <- !app_assoc.
    + exists pre, []. by rewrite app_nil_r.
Qed.

Lemma breaker_history evs k :
  let b := runs breaker_step breaker_init evs in
  default 0%Z (consecutive_breaches b !! k) = Z.of_nat (streak (own_breaches k evs)) /\
  (default false (tripped b !! k) = true <-> three_in_a_row (own_breaches k evs)).
Proof.
  induction evs as [|e evs [H1 H2]] using rev_ind.
  { split; [done|]. split; [done|]. intros (pre & suf & E). by destruct pre. }
  cbn zeta. rewrite runs_snoc. unfold own_breaches in *. rewrite omap_app. cbn [omap list_omap].
  set (b := runs breaker_step breaker_init evs) in *. unfold breaker_step, note_bar_arrival.
  set (k' := key_of (ar_symbol e) (ar_timeframe e)). set (late := lag_breach _ _).
  destruct (decide (k' = k)) as [->|Hne].
  - rewrite streak_snoc, three_snoc, streak_snoc. cbn [consecutive_breaches tripped].
    rewrite lookup_insert_eq, H1.
    set (n := streak _) in *. destruct late; cbn [default].
    + split; [unfold default, id; lia|]. unfold INGEST_CIRCUIT_BREAKER_STREAK.
      destruct (Z.leb_spec 3 (Z.of_nat n + 1)).
      * rewrite lookup_insert_eq. split; [right; lia|done].
      * rewrite H2. split; [by left|]. intros [?|?]; [done|lia].
    + split; [done|]. change (INGEST_CIRCUIT_BREAKER_STREAK <=? 0)%Z with false. rewrite H2.
      split; [by left|]. intros [?|?]; [done|lia].
  - rewrite app_nil_r. cbn [consecutive_breaches tripped]. rewrite lookup_insert_ne by done. split; [done|].
    destruct (_ <=? _)%Z; [rewrite lookup_insert_ne by done|]; done.
Qed.

Lemma own_breaches_app k evs evs' : own_breaches k (evs ++ evs') = own_breaches k evs ++ own_breaches k evs'.
Proof. unfold own_breaches. by rewrite omap_app. Qed.

(** a feed's breaker is tripped exactly when three of its own bars in a row arrived late, whatever
    other feeds do, and then for the life of the process: no run of punctual bars resets it. *)
Theorem breaker_trips_for_good evs more symbol timeframe :
  let b := runs breaker_step breaker_init evs in
  (is_tripped (Some symbol) (Some timeframe) b = true
     <-> three_in_a_row (own_breaches (key_of symbol timeframe) evs)) /\
  (is_tripped (Some symbol) (Some timeframe) b = true ->
   ingest_circuit_breaker_tripped
     (breaker_snapshot (Some symbol) (Some timeframe) (runs breaker_step breaker_init (evs ++ more))) = true).
Proof.
  intros b. destruct (breaker_history evs (key_of symbol timeframe)) as [_ H].
  destruct (breaker_history (evs ++ more) (key_of symbol timeframe)) as [_ H'].
  split; [exact H|]. intros Ht. apply H'. rewrite own_breaches_app.
  apply H in Ht as (pre & suf & ->). exists pre, (suf ++ own_breaches (key_of symbol timeframe) more).
  by rewrite <- !app_assoc.
Qed.

(** Three bars forty seconds late, then a punctual one. *)
Definition late_then_fine : list arrival_event :=
  let bar n late := mkArrival (n * 60000000) "QQQ" "15Min" ((n + 1) * 60000000 + late * 1000000) in
  [bar 1 40; bar 2 40; bar 3 40; bar 4 1]%Z.

Lemma breaker_trips_for_good_witness :
  ingest_circuit_breaker_tripped
    (breaker_snapshot (Some "QQQ") (Some "15Min") (runs breaker_step breaker_init (late_then_fine ++ late_then_fine)))
  = true.
Proof.
  apply (proj2 (breaker_trips_for_good late_then_fine late_then_fine "QQQ" "15Min")). vm_compute. reflexivity.
Defined.

(** ** What a tripped breaker does to the verdicts *)

Lemma breach_leaves_normal v now m :
  degrade_inv m -> v_severity v = SevSOFT_BREACH \/ v_severity v = SevHARD_BREACH ->
  dm_mode (evaluate_from_slo v now m) <> NORMAL.
Proof.
  intros Hi Hv. pose proof (inv_soft_streak m Hi) as Hs. unfold evaluate_from_slo.
  destruct Hv as [Hv|Hv]; rewrite Hv; cbn [bool_decide].
  - rewrite bool_decide_false by done. destruct (dm_mode m) eqn:Em.
    + rewrite bool_decide_true by done. unfold apply_soft_degrade, soft_degrade_memory. rewrite Em. done.
    + rewrite bump_streak_cases. unfold credit. rewrite Hv. rewrite bool_decide_false by done.
      cbn [dm_recovery_streak assign]. specialize (Hs eq_refl).
      rewrite (proj2 (Z.leb_gt _ _)) by (unfold SOFT_RECOVERY_STREAK in *; lia). cbn. by rewrite Em.
    + rewrite bool_decide_true by done. unfold apply_soft_degrade, soft_degrade_memory. rewrite Em. done.
    + destruct (_ <=? _)%Z; [done|]. rewrite bump_streak_cases. cbn. by rewrite Em.
  - rewrite bool_decide_true by done. unfold apply_hard_critical_degrade, dispatch_degradation_entered.
    by destruct (negb _).
Qed.

(** once tripped, every payload of an open market that carries the feed's snapshot is judged a
    breach, and the degradation manager that reads it is not in its normal mode: whatever
    arrives afterwards, the process opens no entries again. *)
Theorem tripped_breaker_holds_the_verdict `{Zone} np_mean min_age ledger evs more symbol timeframe p s now m :
  is_tripped (Some symbol) (Some timeframe) (runs breaker_step breaker_init evs) = true ->
  dp_circuit_breaker_tripped p = Some (ingest_circuit_breaker_tripped
    (breaker_snapshot (Some symbol) (Some timeframe) (runs breaker_step breaker_init (evs ++ more)))) ->
  is_market_dormant (opt_or (dp_asset_class p) "stock") (exchange_reference_ts p) s = false ->
  dp_latest_bar_timestamp p <> None -> degrade_inv m ->
  exists v s', evaluate_data_integrity np_mean min_age ledger p s = (Ok v, s') /\ di_passed v = false /\
    dm_mode (evaluate_from_slo (slo_part v) now m) <> NORMAL /\
    should_block_entry_action (Some LONG) now (evaluate_from_slo (slo_part v) now m) = true.
Proof.
  intros Ht Hp Hd Hl Hm.
  assert (dp_circuit_breaker_tripped p = Some true) as Hp'.
  { rewrite Hp. f_equal. apply (breaker_history (evs ++ more) (key_of symbol timeframe)).
    rewrite own_breaches_app. apply (breaker_history evs (key_of symbol timeframe)) in Ht as (pre & suf & ->).
    exists pre, (suf ++ own_breaches (key_of symbol timeframe) more). by rewrite <- !app_assoc. }
  unfold evaluate_data_integrity. rewrite Hd, Hp'. destruct (dp_latest_bar_timestamp p) as [latest|]; [|done].
  eexists _, _. split; [reflexivity|]. cbn [di_passed].
  match goal with |- context [judge_integrity ?M] => set (met := M) end.
  assert (v_severity (judge_integrity met) = SevSOFT_BREACH \/ v_severity (judge_integrity met) = SevHARD_BREACH)
    as Hv by (by apply tripped_is_breach).
  split; [destruct Hv as [-> | ->]; done|].
  assert (dm_mode (evaluate_from_slo (mkVerdict (v_severity (judge_integrity met)) (v_reasons (judge_integrity met)))
                     now m) <> NORMAL) as Hmode by (by apply breach_leaves_normal).
  unfold slo_part. cbn [di_severity di_reasons]. split; [done|].
  unfold should_block_entry_action, build_state. by destruct (dm_mode (evaluate_from_slo _ now m)).
Qed.

Lemma tripped_breaker_holds_the_verdict_witness :
  let p := mkPayload (date 2025 11 25 * DAY + 16 * HOUR) (Some "stock") None (Some "15Min")
    (Some (date 2025 11 25 * DAY + 15 * HOUR + 30 * MINUTE)%Z) None None (Some "QQQ") (Some true) None (Some fzero)
    (Some true) None None in
  let m := manager_init true None in
  exists v s', evaluate_data_integrity (fun _ => fone) fzero None p monitor_init = (Ok v, s') /\
    di_passed v = false /\ dm_mode (evaluate_from_slo (slo_part v) "now" m) <> NORMAL /\
    should_block_entry_action (Some LONG) "now" (evaluate_from_slo (slo_part v) "now" m) = true.
Proof.
  intros p m. apply (tripped_breaker_holds_the_verdict (fun _ => fone) fzero None late_then_fine late_then_fine "QQQ" "15Min");
    [vm_compute; reflexivity..|discriminate|apply manager_init_inv].
Defined.

(** ** Stream modes, specified *)

Inductive stream_event :=
  | EvBar (stream : string) (now : float)
  | EvLost (stream : option string) (now refreshed : float)       (* a disconnect or a reconnect attempt *)
  | EvRead (stream : option string) (now : float)                 (* mode, is_degraded_feed *)
  | EvSnapshot (stream : option string) (now refreshed : float).

Definition health_step (r : registry) (e : stream_event) : registry :=
  match e with
  | EvBar s now => note_stream_bar s now r
  | EvLost s now refreshed => note_disconnect now refreshed s r
  | EvRead s now => (mode now s r).2
  | EvSnapshot s now refreshed => (snapshot now refreshed s r).2
  end.

(** The times of the losses a stream has seen since its last bar. *)
Definition losses_since_bar (s : string) (evs : list stream_event) : list float :=
  fold_left (fun l e =>
    match e with
    | EvBar s' _ => if decide (s' = s) then [] else l
    | EvLost st now _ => if decide (s ∈ keys_of st) then l ++ [now] else l
    | _ => l
    end) evs [].

Definition mode_since (now : float) (since : option float) : FeedStreamMode :=
  match since with
  | None => HEALTHY
  | Some t => if fleb FEED_RECONNECT_DEGRADED_SECONDS (fsub now t) then DEGRADED_FEED else RECONNECTING
  end.

Definition since_of (s : string) (r : registry) : option float := disconnect_since (default fresh_entry (r !! s)).

Lemma refresh_since now e : disconnect_since (refresh_locked now e) = disconnect_since e.
Proof. unfold refresh_locked. by destruct (disconnect_since e) eqn:E. Qed.

Lemma refresh_key_since now k s r : since_of s (refresh_key now k r) = since_of s r.
Proof.
  unfold refresh_key, since_of. destruct (r !! k) as [e|] eqn:E; [|done].
  destruct (decide (k = s)) as [->|]; [|by rewrite lookup_insert_ne].
  rewrite lookup_insert_eq, E. apply refresh_since.
Qed.

Lemma mode_scan_since now keys worst s r : since_of s (mode_scan now keys worst r).2 = since_of s r.
Proof.
  revert worst r. induction keys as [|k keys IH]; intros worst r; [done|]. cbn [mode_scan].
  destruct (en_mode _); rewrite ?IH; apply refresh_key_since.
Qed.

Lemma snapshot_since now refreshed st s r : since_of s (snapshot now refreshed st r).2 = since_of s r.
Proof.
  unfold snapshot. generalize (mkFeedSnapshot HEALTHY fzero None). revert r.
  induction (keys_of st) as [|k keys IH]; intros r sn; [done|]. cbn [fold_left fst snd].
  rewrite IH. apply refresh_key_since.
Qed.

Lemma note_lost_since now refreshed k s r :
  since_of s (note_lost now refreshed k r) =
  if decide (k = s) then Some (default now (since_of s r)) else since_of s r.
Proof.
  unfold note_lost, since_of. destruct (decide (k = s)) as [->|Hne]; [|by rewrite lookup_insert_ne].
  rewrite lookup_insert_eq. etransitivity; [apply refresh_since|]. cbn [disconnect_since].
  by destruct (disconnect_since _).
Qed.

Lemma note_disconnect_since now refreshed st s r :
  since_of s (note_disconnect now refreshed st r) =
  if decide (s ∈ keys_of st) then Some (default now (since_of s r)) else since_of s r.
Proof.
  unfold note_disconnect. revert r. induction (keys_of st) as [|k keys IH]; intros r; [done|].
  cbn [fold_left]. rewrite IH, note_lost_since.
  destruct (decide (k = s)) as [->|Hne].
  - rewrite (decide_True (P := s ∈ s :: keys)) by set_solver. by destruct (decide (s ∈ keys)).
  - destruct (decide (s ∈ keys)); [rewrite decide_True by set_solver|rewrite decide_False by set_solver]; done.
Qed.

Lemma health_since evs s : since_of s (runs health_step registry_init evs) = head (losses_since_bar s evs).
Proof.
  induction evs as [|e evs IH] using rev_ind.
  { change (runs health_step registry_init []) with registry_init.
    unfold since_of. destruct (decide (s = "stock")) as [->|]; [done|].
    destruct (decide (s = "crypto")) as [->|]; [done|].
    assert (registry_init !! s = None) as ->; [|done].
    apply not_elem_of_list_to_map_1. cbn. set_solver. }
  rewrite runs_snoc. unfold losses_since_bar in *. rewrite fold_left_app. cbn [fold_left].
  set (r := runs health_step registry_init evs) in *. set (l := fold_left _ evs []) in *.
  destruct e as [s' now|st now refreshed|st now|st now refreshed]; cbn [health_step].
  - unfold since_of, note_stream_bar in *.
    destruct (decide (s' = s)) as [->|]; [by rewrite lookup_insert_eq|by rewrite lookup_insert_ne].
  - rewrite note_disconnect_since, IH. destruct (decide (s ∈ keys_of st)); [|done]. by destruct l.
  - unfold mode. by rewrite mode_scan_since.
  - by rewrite snapshot_since.
Qed.

(** a stream's mode is read off the first loss since its last bar: none, and it is healthy; less
    than five minutes ago, and it is reconnecting; degraded from then on, whatever attempts,
    reads and other streams' events come between. A stream that falls silent without a
    loss stays healthy. *)
Theorem stream_mode_dates_from_first_loss evs s now :
  (mode now (Some s) (runs health_step registry_init evs)).1
    = mode_since now (head (losses_since_bar s evs)) /\
  (forall silence : list (option string * float),
     losses_since_bar s evs = [] ->
     (mode now (Some s) (runs health_step registry_init
        (evs ++ map (fun q => EvRead q.1 q.2) silence))).1 = HEALTHY).
Proof.
  assert (forall r, (mode now (Some s) r).1 = mode_since now (since_of s r)) as Hm.
  { intros r. unfold mode. cbn [keys_of mode_scan]. unfold since_of.
    destruct (default fresh_entry (r !! s)) as [m since bar]. unfold refresh_locked. cbn [disconnect_since].
    destruct since as [t|]; [|done]. cbn [en_mode mode_since].
    by destruct (fleb _ _). }
  split; [by rewrite Hm, health_since|]. intros silence Hl. rewrite Hm, health_since.
  replace (losses_since_bar s (evs ++ _)) with (losses_since_bar s evs); [by rewrite Hl|].
  unfold losses_since_bar. rewrite fold_left_app. generalize (fold_left (fun (l : list float) (e : stream_event) =>
    match e with
    | EvBar s' _ => if decide (s' = s) then [] else l
    | EvLost st now _ => if decide (s ∈ keys_of st) then l ++ [now] else l
    | _ => l
    end) evs []). induction silence as [|q silence IH]; intros l; [done|]. cbn. apply IH.
Qed.
