(* ===== verification/Coroutine.v ===== *)
(** * Asynchronous methods

    An [async def] method runs without interruption from one [await] to the next; at an
    [await] other calls of the same object may run. A call in progress is a coroutine: what
    it still does to the shared state and which external calls it awaits. An external call
    answers anything its type allows, or raises. An [asyncio.Lock] whose critical sections
    hold no [await] is never contended, so that taking it is not a point of interruption. *)

From stdpp Require Import base strings list.
From S2P Require Import Prelude.

Section Coroutines.
Context {S : Type} {C : Type -> Type}.

(** Return, raise, touch the shared state, await an external call. *)
Inductive co (A : Type) : Type :=
  | Done (a : A)
  | Throw (e : string)
  | Act {X : Type} (f : S -> X * S) (k : X -> co A)
  | Await {X : Type} (c : C X) (k : X -> co A).
#[global] Arguments Done {A} a.
#[global] Arguments Throw {A} e.
#[global] Arguments Act {A X} f k.
#[global] Arguments Await {A X} c k.

Fixpoint co_bind {A B} (t : co A) (k : A -> co B) : co B :=
  match t with
  | Done a => k a
  | Throw e => Throw e
  | Act f g => Act f (fun x => co_bind (g x) k)
  | Await c g => Await c (fun x => co_bind (g x) k)
  end.

Definition act {X} (f : S -> X * S) : co X := Act f Done.
Definition read {X} (f : S -> X) : co X := Act (fun s => (f s, s)) Done.
Definition modify (f : S -> S) : co unit := Act (fun s => (tt, f s)) Done.
Definition await {X} (c : C X) : co X := Await c Done.

Fixpoint co_for {A} (body : A -> co unit) (l : list A) : co unit :=
  match l with
  | [] => Done tt
  | x :: l => co_bind (body x) (fun _ => co_for body l)
  end.

(** ** Interleaved *)

Definition answers : Type := forall X, C X -> result string X.

(** On to the next [await]. *)
Fixpoint advance {A} (t : co A) (s : S) : co A * S :=
  match t with
  | Act f k => let '(x, s) := f s in advance (k x) s
  | _ => (t, s)
  end.

Definition resume {A} (an : answers) (t : co A) (s : S) : co A * S :=
  match t with
  | Await c k => match an _ c with Ok x => advance (k x) s | Raise e => (Throw e, s) end
  | _ => (t, s)
  end.

(** Calls in progress, each with a label, over the shared state; a call starts or the
    [i]-th goes on. *)
Inductive co_event (L A : Type) : Type :=
  | Start (l : L) (t : co A)
  | Resume (i : nat) (an : answers).
#[global] Arguments Start {L A} l t.
#[global] Arguments Resume {L A} i an.

Definition co_world (L A : Type) : Type := S * list (L * co A).

Definition co_step {L A} (w : co_world L A) (e : co_event L A) : co_world L A :=
  match e with
  | Start l t => let '(t, s) := advance t w.1 in (s, w.2 ++ [(l, t)])
  | Resume i an =>
      match w.2 !! i with
      | Some (l, t) => let '(t, s) := resume an t w.1 in (s, <[i := (l, t)]> w.2)
      | None => w
      end
  end.

(** ** Alone

    A call that nothing interrupts, over an external world that answers. *)
Context {W : Type} (broker : W -> forall X, C X -> result string X * W).

Fixpoint alone {A} (t : co A) (s : S) (w : W) : result string A * S * W :=
  match t with
  | Done a => (Ok a, s, w)
  | Throw e => (Raise e, s, w)
  | Act f k => let '(x, s) := f s in alone (k x) s w
  | Await c k =>
      let '(r, w) := broker w _ c in
      match r with Ok x => alone (k x) s w | Raise e => (Raise e, s, w) end
  end.

Lemma alone_bind {A B} (t : co A) (k : A -> co B) s w :
  alone (co_bind t k) s w =
  let '(r, s, w) := alone t s w in match r with Ok a => alone (k a) s w | Raise e => (Raise e, s, w) end.
Proof.
  revert s w. induction t as [a|e|X f g IH|X c g IH]; intros s w; cbn; [done..| |].
  - destruct (f s) as [x s']. apply IH.
  - destruct (broker w X c) as [[x|e] w']; [apply IH|done].
Qed.

(** [t], started at [s] and never interrupted, returns, whatever the external calls answer as
    long as they do not raise, and [Q] holds then. *)
Fixpoint solo {A} (Q : S -> A -> Prop) (t : co A) (s : S) : Prop :=
  match t with
  | Done a => Q s a
  | Throw _ => False
  | Act f k => solo Q (k (f s).1) (f s).2
  | Await c k => forall x, solo Q (k x) s
  end.

Lemma solo_bind {A B} (Q : S -> B -> Prop) (t : co A) (k : A -> co B) s :
  solo (fun s a => solo Q (k a) s) t s -> solo Q (co_bind t k) s.
Proof. revert s. induction t as [a|e|X f g IH|X c g IH]; intros s; cbn; auto. Qed.

Lemma solo_weaken {A} (Q Q' : S -> A -> Prop) t s :
  (forall s a, Q s a -> Q' s a) -> solo Q t s -> solo Q' t s.
Proof. intros HQ. revert s. induction t as [a|e|X f g IH|X c g IH]; intros s; cbn; auto. Qed.

Lemma solo_read {X B} (Q : S -> B -> Prop) (f : S -> X) (k : X -> co B) s :
  solo Q (k (f s)) s -> solo Q (co_bind (read f) k) s.
Proof. done. Qed.

Lemma solo_act {X B} (Q : S -> B -> Prop) (f : S -> X * S) (k : X -> co B) s :
  solo Q (k (f s).1) (f s).2 -> solo Q (co_bind (act f) k) s.
Proof. done. Qed.

Lemma solo_modify {B} (Q : S -> B -> Prop) (f : S -> S) (k : unit -> co B) s :
  solo Q (k tt) (f s) -> solo Q (co_bind (modify f) k) s.
Proof. done. Qed.

Lemma solo_await {X B} (Q : S -> B -> Prop) (c : C X) (k : X -> co B) s :
  (forall x, solo Q (k x) s) -> solo Q (co_bind (await c) k) s.
Proof. done. Qed.

Definition answering : Prop := forall w X (c : C X), exists x, (broker w X c).1 = Ok x.

Lemma solo_alone {A} (Q : S -> A -> Prop) (t : co A) s w :
  answering -> solo Q t s -> exists a s' w', alone t s w = (Ok a, s', w') /\ Q s' a.
Proof.
  intros Hb. revert s w. induction t as [a|e|X f g IH|X c g IH]; intros s w; cbn; [by eauto|done| |].
  - intros Ht. destruct (f s) as [x s']. by apply IH.
  - intros Ht. destruct (Hb w X c) as [x Ex]. destruct (broker w X c) as [r w']. cbn in Ex. subst r.
    by apply IH.
Qed.

(** ** What a call ensures whatever interrupts it

    [I] holds whenever the call is interrupted; while it is, the others change the state
    by [R] at most and keep [I], as the call itself does. [Q] relates the state to the
    result at the very moment the call returns. *)

Context (I : S -> Prop) (R : S -> S -> Prop) `{!PreOrder R}.

Section Ensures.
Context {A : Type} (Q : S -> A -> Prop).

Fixpoint ensures (t : co A) (s : S) : Prop :=
  match t with
  | Done a => Q s a
  | Throw _ => True
  | Act f k => I (f s).2 /\ R s (f s).2 /\ ensures (k (f s).1) (f s).2
  | Await c k => forall x s', I s' -> R s s' -> ensures (k x) s'
  end.

Lemma ensures_advance t s :
  I s -> ensures t s ->
  I (advance t s).2 /\ R s (advance t s).2 /\ ensures (advance t s).1 (advance t s).2.
Proof.
  revert s. induction t as [a|e|X f k IH|X c k IH]; intros s Hs Ht; cbn in *; [done..| |done].
  destruct (f s) as [x s']. cbn in *. destruct Ht as (Hi & Hr & Ht).
  destruct (IH x s' Hi Ht) as (? & ? & ?). repeat split; try done. by etrans.
Qed.

Lemma ensures_resume an t s :
  I s -> ensures t s ->
  I (resume an t s).2 /\ R s (resume an t s).2 /\ ensures (resume an t s).1 (resume an t s).2.
Proof.
  destruct t as [a|e|X f k|X c k]; intros Hs Ht; cbn in *;
    try (split; [exact Hs|split; [reflexivity|exact Ht]]).
  destruct (an X c) as [x|e]; [|by repeat split]. apply ensures_advance; [done|]. by apply Ht.
Qed.

(** Between two interruptions a call that has not returned only waits. *)
Definition parked (t : co A) : Prop := match t with Act _ _ => False | _ => True end.
Definition waiting (t : co A) : Prop := match t with Done _ | Act _ _ => False | _ => True end.

Lemma advance_parked t s : parked (advance t s).1.
Proof.
  revert s. induction t as [a|e|X f k IH|X c k IH]; intros s; cbn; [done..| |done].
  destruct (f s). apply IH.
Qed.

Lemma resume_parked an t s : parked t -> parked (resume an t s).1.
Proof.
  destruct t as [a|e|X f k|X c k]; cbn; try done. intros _.
  destruct (an X c); [apply advance_parked|done].
Qed.

Lemma ensures_stable t s s' : waiting t -> R s s' -> ensures t s -> ensures t s'.
Proof. destruct t; cbn; try done. intros _ Hr Ht x s'' Hi Hr'. apply Ht; [done|by etrans]. Qed.
End Ensures.

Lemma ensures_bind {A B} (Q : S -> B -> Prop) (t : co A) (k : A -> co B) s :
  ensures (fun s a => ensures Q (k a) s) t s -> ensures Q (co_bind t k) s.
Proof.
  revert s. induction t as [a|e|X f g IH|X c g IH]; intros s; cbn; [done..| |].
  - intros (Hi & Hr & Ht). auto.
  - intros Ht x s' Hs' Hr. auto.
Qed.

(** One step of a call at a time. *)
Lemma ensures_read {X B} (Q : S -> B -> Prop) (f : S -> X) (k : X -> co B) s :
  I s -> ensures Q (k (f s)) s -> ensures Q (co_bind (read f) k) s.
Proof. intros Hs Hk. repeat split; [done|reflexivity|done]. Qed.

Lemma ensures_act {X B} (Q : S -> B -> Prop) (f : S -> X * S) (k : X -> co B) s :
  I (f s).2 /\ R s (f s).2 -> ensures Q (k (f s).1) (f s).2 -> ensures Q (co_bind (act f) k) s.
Proof. by intros [? ?]. Qed.

Lemma ensures_modify {B} (Q : S -> B -> Prop) (f : S -> S) (k : unit -> co B) s :
  I (f s) /\ R s (f s) -> ensures Q (k tt) (f s) -> ensures Q (co_bind (modify f) k) s.
Proof. by intros [? ?]. Qed.

Lemma ensures_last (f : S -> S) s :
  I (f s) /\ R s (f s) -> ensures (fun _ _ => True) (modify f) s.
Proof. by intros [? ?]. Qed.

Lemma ensures_await {X B} (Q : S -> B -> Prop) (c : C X) (k : X -> co B) s :
  (forall x s', I s' -> R s s' -> ensures Q (k x) s') -> ensures Q (co_bind (await c) k) s.
Proof. done. Qed.

Lemma ensures_weaken {A} (Q Q' : S -> A -> Prop) t s :
  (forall s' a, I s' -> R s s' -> Q s' a -> Q' s' a) -> I s -> ensures Q t s -> ensures Q' t s.
Proof.
  intros HQ Hs. enough (forall s0, I s0 -> R s s0 -> ensures Q t s0 -> ensures Q' t s0) as H
    by (apply H; [done|reflexivity]).
  induction t as [a|e|X f g IH|X c g IH]; intros s0 Hs0 Hr; cbn; auto.
  - intros (Hi & Hr' & Ht). repeat split; try done. apply IH; [done|by etrans|done].
  - intros Ht x s' Hs' Hr'. apply IH; [done|by etrans|auto].
Qed.

(** A call that nothing interrupts keeps what it ensures as well. *)
Lemma solo_ensures {A} (P Q : S -> A -> Prop) t s :
  I s -> ensures Q t s -> solo P t s -> solo (fun s' a => P s' a /\ I s' /\ R s s' /\ Q s' a) t s.
Proof.
  intros Hs. enough (forall s0, I s0 -> R s s0 -> ensures Q t s0 -> solo P t s0 ->
    solo (fun s' a => P s' a /\ I s' /\ R s s' /\ Q s' a) t s0) as H
    by (intros; apply H; [done|reflexivity|done..]).
  induction t as [a|e|X f g IH|X c g IH]; intros s0 Hs0 Hr; cbn; auto.
  - intros (Hi & Hr' & Ht) Hp. apply IH; [done|by etrans|done|done].
  - intros Ht Hp x. apply IH; [done|done| |apply Hp]. apply Ht; [done|reflexivity].
Qed.

Lemma ensures_for {A} (body : A -> co unit) (P : A -> S -> Prop) l s :
  (forall x s s', R s s' -> P x s -> P x s') ->
  I s -> Forall (fun x => P x s) l ->
  (forall x s, I s -> P x s -> ensures (fun _ _ => True) (body x) s) ->
  ensures (fun _ _ => True) (co_for body l) s.
Proof.
  intros HP Hs Hl Hb. revert s Hs Hl. induction l as [|x l IH]; intros s Hs Hl; cbn; [done|].
  apply Forall_cons in Hl as [Hx Hl]. apply ensures_bind.
  eapply ensures_weaken; [|exact Hs|by apply Hb].
  intros s' [] Hs' Hr _. apply IH; [done|]. eapply Forall_impl; [exact Hl|]. cbn. eauto.
Qed.

(** What every call ensures holds along any schedule: the invariant always, and the
    postcondition of a call in the state in which it returned. *)
Section Schedules.
Context {L A : Type} (Q : L -> S -> A -> Prop).

Definition start_ok (e : co_event L A) : Prop :=
  match e with Start l t => forall s, I s -> ensures (Q l) t s | Resume _ _ => True end.

(** A call that has not returned still keeps its promise. *)
Definition call_ok (s : S) (e : L * co A) : Prop :=
  parked e.2 /\ (waiting e.2 -> ensures (Q e.1) e.2 s).

Definition world_ok (w : co_world L A) : Prop := I w.1 /\ Forall (call_ok w.1) w.2.

(** The event makes a call labelled [l] return [a]. *)
Definition returns_now (w : co_world L A) (e : co_event L A) (l : L) (a : A) : Prop :=
  match e with
  | Start l' t => l' = l /\ (advance t w.1).1 = Done a
  | Resume i an => exists t, w.2 !! i = Some (l, t) /\ waiting t /\ (resume an t w.1).1 = Done a
  end.

Lemma calls_stable s s' (l : list (L * co A)) : R s s' -> Forall (call_ok s) l -> Forall (call_ok s') l.
Proof.
  intros Hr Hl. eapply Forall_impl; [exact Hl|]. intros [k t] [Hp Ht]. split; [done|]. intros Hw.
  eapply ensures_stable; eauto.
Qed.

Lemma co_step_ok w e :
  world_ok w -> start_ok e ->
  world_ok (co_step w e) /\ (forall l a, returns_now w e l a -> Q l (co_step w e).1 a).
Proof.
  intros [Hs Hc] He. destruct e as [l t|i an]; cbn in *.
  - pose proof (ensures_advance (Q l) t w.1 Hs (He _ Hs)) as (Hi & Hr & Ht).
    pose proof (advance_parked t w.1) as Hp.
    destruct (advance t w.1) as [t' s']. cbn in *. split.
    + split; [done|]. apply Forall_app. split; [by eapply calls_stable|]. by repeat constructor.
    + intros l' a [<- ->]. exact Ht.
  - destruct (w.2 !! i) as [[l t]|] eqn:Ei.
    2:{ split; [by split|]. by intros l a (t & Et & _). }
    destruct (Forall_lookup_1 _ _ _ _ Hc Ei) as [Hp Ht].
    pose proof (resume_parked an t w.1 Hp) as Hp'. cbn in Hp, Ht, Hp'.
    destruct (resume an t w.1) as [t' s'] eqn:Er.
    assert (waiting t -> I s' /\ R w.1 s' /\ ensures (Q l) t' s') as Hstep.
    { intros Hw. pose proof (ensures_resume (Q l) an t w.1 Hs (Ht Hw)) as H. by rewrite Er in H. }
    assert (~ waiting t -> t' = t /\ s' = w.1) as Hstay by (destruct t; cbn in *; intros; by simplify_eq).
    cbn in *. split.
    + assert (waiting t \/ ~ waiting t) as [Hw|Hw] by (destruct t; cbn; tauto).
      * destruct (Hstep Hw) as (Hi & Hr & Ht'). split; [done|].
        apply Forall_insert; [by eapply calls_stable|]. by split.
      * destruct (Hstay Hw) as [-> ->]. split; [done|]. by apply Forall_insert.
    + intros l' a (t0 & [= <- <-] & Hw & E). rewrite Er in E. cbn in E. subst t'. by apply Hstep.
Qed.

Lemma schedule_ok s0 evs e l a :
  I s0 -> Forall start_ok (evs ++ [e]) ->
  let w := runs co_step (s0, []) evs in
  world_ok w /\ world_ok (co_step w e) /\ (returns_now w e l a -> Q l (co_step w e).1 a).
Proof.
  intros Hi [Hevs [He _]%Forall_cons]%Forall_app w.
  assert (world_ok w) as Hw.
  { unfold w. clear w. induction evs as [|e' evs IH] using rev_ind; [by split|].
    apply Forall_app in Hevs as [Hevs [He' _]%Forall_cons]. rewrite runs_snoc.
    by destruct (co_step_ok _ e' (IH Hevs) He') as [? _]. }
  split; [done|]. destruct (co_step_ok w e Hw He). auto.
Qed.
End Schedules.
End Coroutines.
#[global] Arguments co S C A : clear implicits.
#[global] Arguments co_event S C L A : clear implicits.
#[global] Arguments answers C : clear implicits.
#[global] Arguments co_world S C L A : clear implicits.

Declare Scope co_scope.
Delimit Scope co_scope with co.
Notation "'let*' x ':=' c 'in' k" := (co_bind c (fun x => k))
  (at level 10, x name, c at level 100, k at level 200) : co_scope.
Notation "c ;;* k" := (co_bind c (fun _ => k))
  (at level 190, right associativity) : co_scope.
#[global] Arguments solo : simpl never.
#[global] Arguments ensures : simpl never.
