(* ===== verification/FillSieve.v ===== *)
(** * Fill reconciliation sieve

    [src/engine/broker_fill_sieve.py] (class [BrokerFillReconciliationSieve]) with the
    broker-primary part of [src/engine/execution_adaptor.py]: fills that are not complete
    after a submission are tracked over cycles, and the legs' memory follows the broker's
    positions. The methods are coroutines that interleave at the broker's calls; leg states and
    bundles are mutable objects that calls in progress share. *)

From stdpp Require Import base gmap strings list.
From Stdlib Require Import ZArith Lia.
From S2P Require Import Prelude Dict PyFloat FloatInt Models Coroutine.

(** ** Broker-primary reconciliation *)

Record BrokerPrimaryReconciliation := mkRecon {
  rc_broker_qty : float;
  rc_position_side : string;
  rc_bars_in_trade : Z;
  rc_is_partial : bool;
  rc_requested_qty : float;
  rc_filled_qty : float;
  rc_residual_qty : float
}.

Definition signed_broker_qty (p : option Position) : float :=
  match p with
  | None => fzero
  | Some p => let qty := fabs (pos_qty p) in
              if bool_decide (lower (pos_side p) = "short") then fneg qty else qty
  end.

Definition position_side_label (p : option Position) : string :=
  match p with
  | None => "flat"
  | Some p => if bool_decide (lower (pos_side p) = "long") then "long" else "short"
  end.

Definition EPSILON : float := Eval vm_compute in lit 1 9.

Definition reconcile_broker_primary_fill (requested_qty : float) (fill_result : OrderResult)
    (prior_position broker_position : option Position) (bars_in_trade : Z) : BrokerPrimaryReconciliation :=
  let filled_qty := py_max (res_qty fill_result) fzero in
  let requested := py_max requested_qty fzero in
  let is_partial :=
    bool_decide (lower (res_status fill_result) = "partially_filled")
    || (fltb fzero requested && fltb (fadd filled_qty EPSILON) requested) in
  mkRecon (signed_broker_qty broker_position) (position_side_label broker_position)
    (match broker_position, prior_position with
     | None, _ => 0
     | _, None => 1
     | _, _ => Z.max bars_in_trade 1
     end)%Z
    is_partial requested filled_qty
    (if is_partial then py_max (fsub requested filled_qty) fzero else fzero).

Definition in_position (p : option Position) : bool :=
  match p with Some p => fltb EPSILON (fabs (pos_qty p)) | None => false end.

Definition detect_leg_broker_memory_drift (bars_in_trade : Z) (broker_position : option Position) : bool :=
  negb (eqb (0 <? bars_in_trade)%Z (in_position broker_position)).

Definition apply_broker_authority_to_leg_memory (bars_in_trade : Z)
    (broker_position prior_position : option Position) : Z :=
  match broker_position with
  | None => 0
  | Some _ => match prior_position with None => Z.max bars_in_trade 1 | Some _ => Z.max bars_in_trade 1 end
  end.

(** ** Bundles *)

Definition INCOMPLETE_CYCLE_CANCEL_THRESHOLD : Z := 3.
Definition TERMINAL_ORDER_STATUSES : list string :=
  ["filled"; "partially_filled"; "canceled"; "cancelled"; "expired"; "rejected"].
Definition OPEN_ORDER_STATUSES : list string := ["new"; "accepted"; "pending_new"; "submitted"; "open"].

Record ChildFillSlice := mkSlice {
  sl_order_id : option string;
  sl_requested_qty : float;
  sl_side : Side;
  sl_filled_qty : float;
  sl_status : string
}.

Record PendingFillBundle := mkBundle {
  bu_strategy_id : string;
  bu_symbol : string;
  bu_slices : list ChildFillSlice;
  bu_positions_before : list Position;
  unresolved_cycles : Z
}.

Definition set_slices (l : list ChildFillSlice) (b : PendingFillBundle) : PendingFillBundle :=
  mkBundle (bu_strategy_id b) (bu_symbol b) l (bu_positions_before b) (unresolved_cycles b).
Definition set_cycles (n : Z) (b : PendingFillBundle) : PendingFillBundle :=
  mkBundle (bu_strategy_id b) (bu_symbol b) (bu_slices b) (bu_positions_before b) n.

Definition requested_qty (b : PendingFillBundle) : float :=
  fsum (map (fun s => py_max (sl_requested_qty s) fzero) (bu_slices b)).
Definition filled_qty (b : PendingFillBundle) : float :=
  fsum (map (fun s => py_max (sl_filled_qty s) fzero) (bu_slices b)).

Definition is_terminal (b : PendingFillBundle) : bool :=
  match bu_slices b with
  | [] => true
  | l => forallb (fun s => bool_decide (lower (sl_status s) ∈ TERMINAL_ORDER_STATUSES)) l
  end.

Definition slice_open (s : ChildFillSlice) : bool := bool_decide (lower (sl_status s) ∈ OPEN_ORDER_STATUSES).
Definition slice_unfilled (s : ChildFillSlice) : bool :=
  bool_decide (lower (sl_status s) = "partially_filled")
  || (fltb fzero (sl_requested_qty s) && fltb (fadd (sl_filled_qty s) EPSILON) (sl_requested_qty s)).

Definition needs_tracking (b : PendingFillBundle) : bool :=
  match bu_slices b with
  | [] => false
  | l => existsb slice_open l
         || fltb (fadd (filled_qty b) EPSILON) (requested_qty b)
         || existsb slice_unfilled l
  end.

Definition bundle_key (strategy_id symbol : string) : string :=
  String.append strategy_id (String.append ":" (upper symbol)).

(** [f"{symbol}:{side.value}"]. *)
Definition order_key (symbol : string) (side : Side) : string :=
  String.append symbol (String.append ":" (Side_value side)).

(** A dict comprehension: of two orders of one symbol and side the later stays. *)
Definition order_lookup (orders : list Order) : list (string * Order) :=
  fold_left (fun d o => assoc_set (order_key (ord_symbol o) (ord_side o)) o d) orders [].

Definition order_of_result (orders : list Order) (r : OrderResult) : option Order :=
  assoc (order_key (res_symbol r) (res_side r)) (order_lookup orders).

Definition build_slice (orders : list Order) (r : OrderResult) : ChildFillSlice :=
  let order := order_of_result orders r in
  mkSlice (res_order_id r)
    (match order with Some o => ord_qty o | None => res_qty r end)
    (match order with Some o => ord_side o | None => res_side r end)
    (py_max (res_qty r) fzero)
    (lower (str_or (res_status r) "submitted")).

Definition build_slices (orders : list Order) (results : list OrderResult) : list ChildFillSlice :=
  map (build_slice orders) results.

Definition bundle_from_submission (strategy_id symbol : string) (orders : list Order)
    (results : list OrderResult) (positions_before : list Position) : PendingFillBundle :=
  mkBundle strategy_id (upper symbol) (build_slices orders results) positions_before 0.

(** ** The shared objects and the broker's calls *)

(** A leg: which object it is, its identifiers, and the time of its window's latest bar. *)
Record LegState := mkLeg {
  leg_ref : nat;
  leg_strategy_id : string;
  leg_symbol : string;
  leg_latest : option Z
}.

Record sieve := mkSieve {
  bundles : gmap nat PendingFillBundle;     (* every bundle object made *)
  next_bundle : nat;
  pending : list (string * nat);
  bars_in_trade : gmap nat Z;               (* of each leg object *)
  position_reads : Z                        (* the sum of [risk_manager_note] *)
}.

Definition sieve_init (bars : gmap nat Z) : sieve := mkSieve ∅ 0 [] bars 0.

Inductive broker_call : Type -> Type :=
  | GetPositions : broker_call (list Position)
  | ShortBurst (orders : list Order) (results : list OrderResult) : broker_call (list OrderResult)
  | RefreshResult (o : Order) (r : OrderResult) : broker_call OrderResult
  | CancelSymbol (symbol : string) : broker_call Z.

Notation task := (co sieve broker_call).

Definition set_pending (p : list (string * nat)) (s : sieve) : sieve :=
  mkSieve (bundles s) (next_bundle s) p (bars_in_trade s) (position_reads s).
Definition set_bars (leg : LegState) (n : Z) (s : sieve) : sieve :=
  mkSieve (bundles s) (next_bundle s) (pending s) (<[leg_ref leg := n]> (bars_in_trade s)) (position_reads s).
Definition put_bundle (r : nat) (b : PendingFillBundle) (s : sieve) : sieve :=
  mkSieve (<[r := b]> (bundles s)) (next_bundle s) (pending s) (bars_in_trade s) (position_reads s).
Definition note_read (s : sieve) : sieve :=
  mkSieve (bundles s) (next_bundle s) (pending s) (bars_in_trade s) (position_reads s + 1).
Definition new_bundle (b : PendingFillBundle) (s : sieve) : nat * sieve :=
  (next_bundle s,
   mkSieve (<[next_bundle s := b]> (bundles s)) (S (next_bundle s)) (pending s) (bars_in_trade s)
     (position_reads s)).

Definition bars_of (leg : LegState) (s : sieve) : Z := default 0%Z (bars_in_trade s !! leg_ref leg).
Definition bundle_at (r : nat) (s : sieve) : PendingFillBundle :=
  default (mkBundle "" "" [] [] 0) (bundles s !! r).

(** ** The sieve *)

Section Sieve.
Local Open Scope co_scope.

(** Whether the caller passes a [risk_manager_note]. *)
Context (note : bool).

Definition read_positions : task (list Position) :=
  let* positions := await GetPositions in
  (if note then modify note_read else Done tt) ;;*
  Done positions.

(** The loop over the results; it ends with the position the next one would compare with. *)
Fixpoint apply_results (leg : LegState) (orders : list Order) (current prior : option Position)
    (results : list OrderResult) : task unit :=
  match results with
  | [] => Done tt
  | r :: results =>
      if fleb (res_filled_price r) fzero && fleb (res_qty r) fzero
         && negb (bool_decide (lower (res_status r) ∈ TERMINAL_ORDER_STATUSES))
      then apply_results leg orders current prior results
      else
        let requested := match order_of_result orders r with Some o => ord_qty o | None => res_qty r end in
        let* recon := act (fun s =>
          let recon := reconcile_broker_primary_fill requested r prior current (bars_of leg s) in
          (recon, set_bars leg (rc_bars_in_trade recon) s)) in
        (if rc_is_partial recon && fltb EPSILON (rc_residual_qty recon)
         then let* _ := await (CancelSymbol (leg_symbol leg)) in Done tt else Done tt) ;;*
        apply_results leg orders current current results
  end.

Definition apply_broker_authority (leg : LegState) (orders : list Order) (results : list OrderResult)
    (positions_before : list Position) : task (list Position) :=
  let* positions := read_positions in
  let prior := match_position (leg_symbol leg) positions_before in
  let current := match_position (leg_symbol leg) positions in
  apply_results leg orders current prior results ;;*
  let* drift := read (fun s => detect_leg_broker_memory_drift (bars_of leg s) current) in
  if drift then
    let* positions := read_positions in
    let current := match_position (leg_symbol leg) positions in
    modify (fun s => set_bars leg (apply_broker_authority_to_leg_memory (bars_of leg s) current prior) s) ;;*
    Done positions
  else Done positions.

Definition pending_bundle_count (s : sieve) : nat := length (pending s).
Definition has_pending_bundle_for_leg (strategy_id symbol : string) (s : sieve) : bool :=
  match assoc (bundle_key strategy_id symbol) (pending s) with Some _ => true | None => false end.

(** [self._pending[key] = bundle] and [self._pending.pop(key, None)]. *)
Definition track (key : string) (r : nat) (s : sieve) : sieve := set_pending (assoc_set key r (pending s)) s.
Definition untrack (key : string) (s : sieve) : sieve := set_pending (assoc_del key (pending s)) s.

Definition reconcile_post_submit (leg : LegState) (orders : list Order) (results : list OrderResult)
    (positions_before : list Position) : task (list Position) :=
  match results with
  | [] => Done positions_before
  | _ =>
      let* refreshed := await (ShortBurst orders results) in
      let* positions := apply_broker_authority leg orders refreshed positions_before in
      let key := bundle_key (leg_strategy_id leg) (leg_symbol leg) in
      let* _ := modify (fun s =>
        let '(r, s) := new_bundle (bundle_from_submission (leg_strategy_id leg) (leg_symbol leg) orders
                                     refreshed positions_before) s in
        if needs_tracking (bundle_at r s) then track key r s else untrack key s) in
      Done positions
  end.

Definition register_ioc_residual (leg : LegState) (orders : list Order) (results : list OrderResult)
    (positions_before : list Position) (residual_qty : float) : task (list Position) :=
  match fleb residual_qty EPSILON, results with
  | true, _ | _, [] => Done positions_before
  | _, _ =>
      let* refreshed := await (ShortBurst orders results) in
      let* positions := apply_broker_authority leg orders refreshed positions_before in
      let key := bundle_key (leg_strategy_id leg) (leg_symbol leg) in
      let* _ := modify (fun s =>
        let '(r, s) := new_bundle (set_cycles 0 (bundle_from_submission (leg_strategy_id leg) (leg_symbol leg)
                                     orders refreshed positions_before)) s in
        track key r s) in
      Done positions
  end.

Definition order_of_slice (b : PendingFillBundle) (s : ChildFillSlice) : Order :=
  mkOrder (bu_symbol b) (sl_side s) (sl_requested_qty s) "market" None (bu_strategy_id b) None.

(** [now] is read when the leg's window holds no bar. *)
Definition result_of_slice (leg : LegState) (now : Z) (b : PendingFillBundle) (s : ChildFillSlice) : OrderResult :=
  mkOrderResult (bu_symbol b) (sl_side s) (sl_filled_qty s) fzero (default now (leg_latest leg))
    (sl_order_id s) (sl_status s).

(** The loop over the orders and results, side by side. *)
Fixpoint refresh_all (l : list (Order * OrderResult)) : task (list OrderResult) :=
  match l with
  | [] => Done []
  | (o, r) :: l =>
      let* r := (if truthy_opt (res_order_id r) then await (RefreshResult o r) else Done r) in
      let* rest := refresh_all l in
      Done (r :: rest)
  end.

Definition advance_bundle (leg : LegState) (now : Z) (ref : nat) : task unit :=
  let* b := read (bundle_at ref) in
  let key := bundle_key (bu_strategy_id b) (bu_symbol b) in
  let orders := map (order_of_slice b) (bu_slices b) in
  let* refreshed := refresh_all (combine orders (map (result_of_slice leg now b) (bu_slices b))) in
  modify (fun s => put_bundle ref (set_slices (build_slices orders refreshed) (bundle_at ref s)) s) ;;*
  let* before := read (fun s => bu_positions_before (bundle_at ref s)) in
  apply_broker_authority leg orders refreshed before ;;*
  let* tracked := read (fun s => needs_tracking (bundle_at ref s)) in
  if tracked then
    let* cycles := act (fun s => let b := bundle_at ref s in
      let n := (unresolved_cycles b + 1)%Z in (n, put_bundle ref (set_cycles n b) s)) in
    if (INCOMPLETE_CYCLE_CANCEL_THRESHOLD <=? cycles)%Z then
      await (CancelSymbol (bu_symbol b)) ;;*
      modify (untrack key)
    else modify (track key ref)
  else modify (untrack key).

Definition advance_pending_cycles (legs : list (string * LegState)) (now : Z) : task unit :=
  let* items := read pending in
  co_for (fun item =>
    let* b := read (bundle_at item.2) in
    match assoc (bu_strategy_id b) legs with
    | None => modify (untrack item.1)
    | Some leg => advance_bundle leg now item.2
    end) items.
End Sieve.

(** ** Calls in progress *)

Inductive sieve_call :=
  | Submit (leg : LegState) (orders : list Order) (results : list OrderResult) (before : list Position)
  | SubmitIoc (leg : LegState) (orders : list Order) (results : list OrderResult) (before : list Position)
      (residual_qty : float)
  | Cycle (legs : list (string * LegState)) (now : Z).

Definition call_task (note : bool) (c : sieve_call) : task (list Position) :=
  match c with
  | Submit leg orders results before => reconcile_post_submit note leg orders results before
  | SubmitIoc leg orders results before residual => register_ioc_residual note leg orders results before residual
  | Cycle legs now => co_bind (advance_pending_cycles note legs now) (fun _ => Done [])
  end.

Inductive sieve_event :=
  | Call (c : sieve_call)
  | Answer (i : nat) (an : answers broker_call).

Definition event_of (note : bool) (e : sieve_event) : co_event sieve broker_call sieve_call (list Position) :=
  match e with Call c => Start c (call_task note c) | Answer i an => Resume i an end.

(** The object and the history of the sieve: calls start and are answered, in any order. *)
Definition sieve_runs (note : bool) (bars : gmap nat Z) (evs : list sieve_event) :=
  runs co_step (sieve_init bars, []) (map (event_of note) evs).

(** ** The registry's invariant *)

Record sieve_ok (s : sieve) : Prop := mkSieveOk {
  so_keys : NoDup (pending s).*1;
  so_own : forall k r, (k, r) ∈ pending s ->
    exists b, bundles s !! r = Some b /\ k = bundle_key (bu_strategy_id b) (bu_symbol b);
  so_cycles : forall r b, bundles s !! r = Some b -> (0 <= unresolved_cycles b)%Z;
  so_next : forall r, next_bundle s <= r -> bundles s !! r = None
}.

(** A bundle object keeps its leg, and its cycles only grow. *)
Definition bundle_le (b b' : PendingFillBundle) : Prop :=
  bu_strategy_id b' = bu_strategy_id b /\ bu_symbol b' = bu_symbol b /\
  (unresolved_cycles b <= unresolved_cycles b')%Z.

Definition sieve_le (s s' : sieve) : Prop :=
  forall r b, bundles s !! r = Some b -> exists b', bundles s' !! r = Some b' /\ bundle_le b b'.

#[export] Instance sieve_le_preorder : PreOrder sieve_le.
Proof.
  split.
  - intros s r b Hb. exists b. split; [done|]. repeat split. lia.
  - intros s1 s2 s3 H12 H23 r b Hb. destruct (H12 r b Hb) as (b2 & Hb2 & E1 & E2 & E3).
    destruct (H23 r b2 Hb2) as (b3 & Hb3 & F1 & F2 & F3). exists b3. split; [done|].
    repeat split; [congruence..|lia].
Qed.

Lemma sieve_le_same s s' : bundles s' = bundles s -> sieve_le s s'.
Proof. intros E r b Hb. rewrite E. exists b. split; [done|]. repeat split. lia. Qed.

Definition same_registry (s s' : sieve) : Prop :=
  bundles s' = bundles s /\ next_bundle s' = next_bundle s /\ pending s' = pending s.

Lemma same_registry_ok s s' : same_registry s s' -> sieve_ok s -> sieve_ok s' /\ sieve_le s s'.
Proof.
  intros (E1 & E2 & E3) [H1 H2 H3 H4]. split.
  - constructor; rewrite ?E1, ?E2, ?E3; done.
  - by apply sieve_le_same.
Qed.

Lemma untrack_ok key s : sieve_ok s -> sieve_ok (untrack key s) /\ sieve_le s (untrack key s).
Proof.
  intros [H1 H2 H3 H4]. split; [|by apply sieve_le_same].
  constructor; cbn; [by apply assoc_del_NoDup| |done|done].
  intros k r [_ Hin]%elem_of_assoc_del. by apply H2.
Qed.

Lemma track_ok key r b s :
  sieve_ok s -> bundles s !! r = Some b -> key = bundle_key (bu_strategy_id b) (bu_symbol b) ->
  sieve_ok (track key r s) /\ sieve_le s (track key r s).
Proof.
  intros [H1 H2 H3 H4] Hb Hk. split; [|by apply sieve_le_same].
  constructor; cbn; [by apply assoc_set_NoDup| |done|done].
  intros k' r' [[= -> ->]|Hin]%elem_of_assoc_set; [by exists b|by apply H2].
Qed.

Lemma new_bundle_ok b s :
  sieve_ok s -> (0 <= unresolved_cycles b)%Z ->
  sieve_ok (new_bundle b s).2 /\ sieve_le s (new_bundle b s).2.
Proof.
  intros [H1 H2 H3 H4] Hc.
  assert (forall r b', bundles s !! r = Some b' -> r <> next_bundle s) as Hne.
  { intros r b' Hb ->. by rewrite H4 in Hb. }
  split.
  - constructor; cbn; [done| | |].
    + intros k r Hin. destruct (H2 k r Hin) as (b' & Hb & Hk). exists b'. split; [|done].
      rewrite lookup_insert_ne; [done|]. by apply not_eq_sym, (Hne r b').
    + intros r b' [[<- <-]|[_ Hb]]%lookup_insert_Some; [done|by apply (H3 r)].
    + intros r Hr. rewrite lookup_insert_ne by lia. apply H4. lia.
  - intros r b' Hb. exists b'. cbn. split; [|repeat split; lia].
    rewrite lookup_insert_ne; [done|]. by apply not_eq_sym, (Hne r b').
Qed.

Lemma put_bundle_ok r b b' s :
  sieve_ok s -> bundles s !! r = Some b -> bundle_le b b' ->
  sieve_ok (put_bundle r b' s) /\ sieve_le s (put_bundle r b' s).
Proof.
  intros [H1 H2 H3 H4] Hb Hle. split.
  - constructor; cbn; [done| | |].
    + intros k r' Hin. destruct (H2 k r' Hin) as (b1 & Hb1 & Hk).
      destruct (decide (r' = r)) as [->|Hne].
      * exists b'. rewrite lookup_insert_eq. split; [done|]. destruct Hle as (-> & -> & _).
        rewrite Hb1 in Hb. by simplify_eq.
      * exists b1. by rewrite lookup_insert_ne.
    + intros r' b1 [[<- <-]|[_ Hb1]]%lookup_insert_Some; [|by apply (H3 r')].
      destruct Hle as (_ & _ & Hle). pose proof (H3 r b Hb). lia.
    + intros r' Hr. rewrite lookup_insert_ne; [by apply H4|]. intros ->. by rewrite (H4 r' Hr) in Hb.
  - intros r' b1 Hb1. cbn. destruct (decide (r' = r)) as [->|Hne].
    + exists b'. rewrite lookup_insert_eq. rewrite Hb1 in Hb. by simplify_eq.
    + exists b1. rewrite lookup_insert_ne by done. split; [done|]. repeat split. lia.
Qed.

(** ** Memory follows the broker *)

(** The leg's memory against a list of positions: in a trade only with a position of its own, and in
    one if that position is more than dust. *)
Definition agrees (leg : LegState) (positions : list Position) (s : sieve) : Prop :=
  ((0 < bars_of leg s)%Z -> match_position (leg_symbol leg) positions <> None) /\
  (in_position (match_position (leg_symbol leg) positions) = true -> (0 < bars_of leg s)%Z).

Notation ens := (ensures (C := broker_call) sieve_ok sieve_le).

Lemma bars_same leg n s : same_registry s (set_bars leg n s).
Proof. done. Qed.

Lemma read_positions_ens note s :
  sieve_ok s -> ens (fun _ _ => True) (read_positions note) s.
Proof.
  intros Hs. apply ensures_await. intros ps s' Hs' _. destruct note; [|done].
  apply ensures_modify; [|done]. by apply same_registry_ok.
Qed.

Lemma apply_results_ens leg orders current prior results s :
  sieve_ok s -> ens (fun _ _ => True) (apply_results leg orders current prior results) s.
Proof.
  revert prior s. induction results as [|r results IH]; intros prior s Hs; cbn [apply_results]; [done|].
  destruct (_ && _ && _); [by apply IH|]. apply ensures_act; [by apply same_registry_ok|].
  cbn [fst snd]. destruct (_ && _); cbn [co_bind].
  - apply ensures_await. intros n s' Hs' _. by apply IH.
  - apply IH. by apply (same_registry_ok s).
Qed.

Lemma bars_of_set leg n s : bars_of leg (set_bars leg n s) = n.
Proof. unfold bars_of. cbn. by rewrite lookup_insert_eq. Qed.

Lemma apply_broker_authority_ens note leg orders results before s :
  sieve_ok s -> ens (fun s' ps => agrees leg ps s') (apply_broker_authority note leg orders results before) s.
Proof.
  intros Hs. unfold apply_broker_authority. apply ensures_bind.
  eapply ensures_weaken; [apply _| |exact Hs|by apply read_positions_ens].
  intros s1 ps Hs1 _ _. apply ensures_bind.
  eapply ensures_weaken; [apply _| |exact Hs1|by apply apply_results_ens].
  intros s2 _ Hs2 _ _. apply ensures_read; [apply _|done|].
  destruct (detect_leg_broker_memory_drift _ _) eqn:Ed.
  - apply ensures_bind. eapply ensures_weaken; [apply _| |exact Hs2|by apply read_positions_ens].
    intros s3 ps' Hs3 _ _. apply ensures_modify; [by apply same_registry_ok|].
    red. unfold agrees. rewrite bars_of_set.
    unfold apply_broker_authority_to_leg_memory. destruct (match_position (leg_symbol leg) ps'); [|done].
    split; [done|]. intros _. destruct (match_position _ before); lia.
  - red. unfold agrees, detect_leg_broker_memory_drift in *. apply negb_false_iff, eqb_prop in Ed.
    unfold in_position in *. destruct (match_position (leg_symbol leg) ps); [|lia].
    split; [done|]. intros E. rewrite E in Ed. by apply Z.ltb_lt.
Qed.

(** A new bundle, and what becomes of its key. *)
Lemma register_ok leg orders results before s s' b :
  b = bundle_from_submission (leg_strategy_id leg) (leg_symbol leg) orders results before ->
  let key := bundle_key (leg_strategy_id leg) (leg_symbol leg) in
  let s1 := (new_bundle b s).2 in
  s' = track key (next_bundle s) s1 \/ s' = untrack key s1 ->
  sieve_ok s -> sieve_ok s' /\ sieve_le s s'.
Proof.
  intros Eb key s1 Hf Hs. destruct (new_bundle_ok b s Hs) as [H1 H2]; [by rewrite Eb|]. fold s1 in H1, H2.
  assert (sieve_ok s' /\ sieve_le s1 s') as [? ?]; [|split; [done|by etrans]].
  destruct Hf as [-> | ->]; [|by apply untrack_ok].
  apply (track_ok key _ b); [done|by apply lookup_insert_eq|]. rewrite Eb. cbn. unfold key, bundle_key.
  by rewrite upper_idem.
Qed.

Lemma bundle_at_new b s : bundle_at (next_bundle s) (new_bundle b s).2 = b.
Proof. unfold bundle_at. cbn. by rewrite lookup_insert_eq. Qed.

(** What a submission promises: nothing if it has nothing to reconcile. *)
Definition promise (c : sieve_call) (s : sieve) (positions : list Position) : Prop :=
  match c with
  | Submit leg _ (_ :: _) _ => agrees leg positions s
  | SubmitIoc leg _ (_ :: _) _ residual => if fleb residual EPSILON then True else agrees leg positions s
  | _ => True
  end.

Lemma reconcile_post_submit_ens note leg orders results before s :
  sieve_ok s ->
  ens (promise (Submit leg orders results before)) (reconcile_post_submit note leg orders results before) s.
Proof.
  intros Hs. destruct results as [|r results]; [done|]. cbn [reconcile_post_submit].
  apply ensures_await. intros refreshed s1 Hs1 _. apply ensures_bind.
  eapply ensures_weaken; [apply _| |exact Hs1|by apply apply_broker_authority_ens].
  intros s2 ps Hs2 _ Ha. apply ensures_modify.
  - cbn [new_bundle]. destruct (needs_tracking _); (eapply register_ok; [done| |done]); [by left|by right].
  - red. cbn [promise]. unfold agrees, bars_of in *. cbn [new_bundle]. by destruct (needs_tracking _).
Qed.

Lemma register_ioc_residual_ens note leg orders results before residual s :
  sieve_ok s ->
  ens (promise (SubmitIoc leg orders results before residual))
    (register_ioc_residual note leg orders results before residual) s.
Proof.
  intros Hs. unfold register_ioc_residual.
  destruct (fleb residual EPSILON) eqn:E; destruct results as [|r results];
    try (red; cbn [promise]; rewrite ?E; done).
  apply ensures_await. intros refreshed s1 Hs1 _. apply ensures_bind.
  eapply ensures_weaken; [apply _| |exact Hs1|by apply apply_broker_authority_ens].
  intros s2 ps Hs2 _ Ha. apply ensures_modify; [|red; cbn [promise]; by rewrite E].
  eapply register_ok; [done| |done]. by left.
Qed.

Lemma refresh_all_ens l s : sieve_ok s -> ens (fun _ _ => True) (refresh_all l) s.
Proof.
  revert s. induction l as [|[o r] l IH]; intros s Hs; [done|]. cbn [refresh_all].
  destruct (truthy_opt _); cbn [co_bind].
  - apply ensures_await. intros r' s' Hs' _. apply ensures_bind.
    eapply ensures_weaken; [apply _| |exact Hs'|by apply IH]. done.
  - apply ensures_bind. eapply ensures_weaken; [apply _| |exact Hs|by apply IH]. done.
Qed.

Definition has_bundle (r : nat) (b : PendingFillBundle) (s : sieve) : Prop :=
  exists b', bundles s !! r = Some b' /\ bundle_le b b'.

Lemma has_bundle_stable r b s s' : sieve_le s s' -> has_bundle r b s -> has_bundle r b s'.
Proof.
  intros Hle (b1 & Hb1 & E1 & E2 & E3). destruct (Hle r b1 Hb1) as (b2 & Hb2 & F1 & F2 & F3).
  exists b2. split; [done|]. repeat split; [congruence..|lia].
Qed.

Lemma bundle_at_some r b s : bundles s !! r = Some b -> bundle_at r s = b.
Proof. unfold bundle_at. by intros ->. Qed.

Lemma advance_bundle_ens note leg now ref b s :
  sieve_ok s -> has_bundle ref b s ->
  ens (fun _ _ => True) (advance_bundle note leg now ref) s.
Proof.
  intros Hs Hb. unfold advance_bundle. apply ensures_read; [apply _|done|].
  destruct Hb as (b0 & Hb0 & _). rewrite (bundle_at_some _ _ _ Hb0).
  assert (has_bundle ref b0 s) as Hb by (exists b0; split; [done|by repeat split]). clear Hb0.
  set (key := bundle_key (bu_strategy_id b0) (bu_symbol b0)).
  assert (forall s' b', has_bundle ref b0 s' -> bundles s' !! ref = Some b' ->
    key = bundle_key (bu_strategy_id b') (bu_symbol b')) as Hkey.
  { intros s' b' (b1 & Hb1 & E1 & E2 & _) Hb'. rewrite Hb1 in Hb'. simplify_eq. unfold key. congruence. }
  apply ensures_bind. eapply ensures_weaken; [apply _| |exact Hs|by apply refresh_all_ens].
  intros s1 refreshed Hs1 H1 _. apply (has_bundle_stable _ _ _ _ H1) in Hb.
  destruct Hb as (b1 & Hb1 & Hle1).
  destruct (put_bundle_ok ref b1 (set_slices (build_slices (map (order_of_slice b0) (bu_slices b0)) refreshed) b1)
    s1 Hs1 Hb1) as [Hs2 H2]; [by repeat split|].
  apply ensures_modify; cbv beta; rewrite (bundle_at_some _ _ _ Hb1); [done|].
  apply ensures_read; [apply _|done|]. apply ensures_bind.
  eapply ensures_weaken; [apply _| |exact Hs2|by apply apply_broker_authority_ens].
  intros s3 ps Hs3 H3 _. apply ensures_read; [apply _|done|].
  destruct (needs_tracking _); [|by apply ensures_last, untrack_ok].
  assert (has_bundle ref b0 s3) as (b3 & Hb3 & Hle3).
  { apply (has_bundle_stable _ _ _ _ H3), (has_bundle_stable _ _ _ _ H2). by exists b1. }
  assert (sieve_ok (put_bundle ref (set_cycles (unresolved_cycles b3 + 1) b3) s3) /\
          sieve_le s3 (put_bundle ref (set_cycles (unresolved_cycles b3 + 1) b3) s3)) as [Hs4 H4].
  { apply (put_bundle_ok ref b3); [done..|]. repeat split; cbn. lia. }
  apply ensures_act; cbv beta; rewrite (bundle_at_some _ _ _ Hb3); [done|]. cbn [fst snd].
  destruct (_ <=? _)%Z.
  - apply ensures_await. intros n s5 Hs5 _. by apply ensures_last, untrack_ok.
  - apply ensures_last, (track_ok key ref (set_cycles (unresolved_cycles b3 + 1) b3)); [done|by apply lookup_insert_eq|].
    cbn. apply (Hkey s3); [by exists b3|done].
Qed.

Lemma advance_pending_cycles_ens note legs now s :
  sieve_ok s -> ens (fun _ _ => True) (advance_pending_cycles note legs now) s.
Proof.
  intros Hs. apply ensures_read; [apply _|done|].
  apply (ensures_for _ _ _ (fun item s => exists b, has_bundle item.2 b s)).
  - intros item s1 s2 Hle [b Hb]. exists b. by eapply has_bundle_stable.
  - done.
  - apply Forall_forall. intros [k r] Hin. destruct (so_own _ Hs k r Hin) as (b & Hb & _). exists b, b.
    by repeat split.
  - intros [k r] s1 Hs1 [b Hb]. apply ensures_read; [apply _|done|].
    destruct (assoc _ legs) as [leg|]; [by eapply advance_bundle_ens|]. by apply ensures_last, untrack_ok.
Qed.

Lemma call_task_ens note c s : sieve_ok s -> ens (promise c) (call_task note c) s.
Proof.
  destruct c as [leg orders results before|leg orders results before residual|legs now]; intros Hs;
    cbn [call_task].
  - by apply reconcile_post_submit_ens.
  - by apply register_ioc_residual_ens.
  - apply ensures_bind. eapply ensures_weaken; [apply _| |exact Hs|by apply advance_pending_cycles_ens]. done.
Qed.

Lemma sieve_init_ok bars : sieve_ok (sieve_init bars).
Proof. constructor; cbn; [apply NoDup_nil_2|set_solver|set_solver|done]. Qed.

Lemma sieve_starts_ok note evs : Forall (start_ok sieve_ok sieve_le promise) (map (event_of note) evs).
Proof.
  apply Forall_fmap, Forall_forall. intros [c|i an] _; [|done]. intros s Hs. by apply call_task_ens.
Qed.

Lemma sieve_runs_ok note bars evs : sieve_ok (sieve_runs note bars evs).1.
Proof.
  destruct (schedule_ok sieve_ok sieve_le promise (sieve_init bars) (map (event_of note) evs)
    (Resume 0 (fun _ _ => Raise ""))  (Cycle [] 0) []) as [[H _] _]; [by apply sieve_init_ok| |done].
  apply Forall_app. split; [apply sieve_starts_ok|by repeat constructor].
Qed.

(** C23: however the calls of the sieve interleave at the broker's calls, and whatever these answer, at the
    moment a submission's reconciliation returns, the leg's memory agrees with the positions it
    returns: the leg counts bars only with a position of its own at the broker, and counts them
    whenever that position is more than dust. *)
Theorem memory_follows_broker note bars evs e leg orders results before positions :
  let w := sieve_runs note bars evs in
  results <> [] ->
  returns_now w (event_of note e) (Submit leg orders results before) positions ->
  agrees leg positions (co_step w (event_of note e)).1.
Proof.
  intros w Hr Hret.
  destruct (schedule_ok sieve_ok sieve_le promise (sieve_init bars) (map (event_of note) evs) (event_of note e)
    (Submit leg orders results before) positions) as (_ & _ & H); [by apply sieve_init_ok| |].
  - apply Forall_app. split; [apply sieve_starts_ok|].
    apply (sieve_starts_ok note [e]).
  - specialize (H Hret). by destruct results.
Qed.

(** A broker that gives back what it is shown. *)
Definition echo (positions : list Position) : answers broker_call :=
  fun X c => match c with
             | GetPositions => Ok positions
             | ShortBurst _ results => Ok results
             | RefreshResult _ r => Ok r
             | CancelSymbol _ => Ok 0%Z
             end.

Definition sample_leg : LegState := mkLeg 0 "mr" "QQQ" None.
Definition sample_position (n : Z) : Position := mkPosition "QQQ" (of_Z n) "long" (of_Z 100) fzero.
Definition sample_order (n : Z) : Order := mkOrder "QQQ" BUY (of_Z n) "market" None "mr" None.
Definition sample_result (id : string) (n : Z) (status : string) : OrderResult :=
  mkOrderResult "QQQ" BUY (of_Z n) (of_Z 100) 0 (Some id) status.

Definition sample_call : sieve_call := Submit sample_leg [sample_order 10] [sample_result "a" 10 "filled"] [].
Definition sample_world := sieve_runs true ∅ [Call sample_call; Answer 0 (echo [])].
Definition sample_last := event_of true (Answer 0 (echo [sample_position 10])).

Lemma memory_follows_broker_witness :
  returns_now sample_world sample_last sample_call [sample_position 10] /\
  agrees sample_leg [sample_position 10] (co_step sample_world sample_last).1.
Proof.
  assert (returns_now sample_world sample_last sample_call [sample_position 10]) as H
    by (eexists; split; [reflexivity|split; [exact Logic.I|reflexivity]]).
  split; [exact H|]. pose proof (memory_follows_broker true ∅ [Call sample_call; Answer 0 (echo [])]
    (Answer 0 (echo [sample_position 10])) sample_leg [sample_order 10] [sample_result "a" 10 "filled"] []
    [sample_position 10]) as T. cbv zeta in T. fold sample_call sample_world sample_last in T.
  apply T; [discriminate|exact H].
Defined.

(** ** Three cycles *)

Lemma read_positions_solo note s :
  solo (C := broker_call) (fun s' _ => same_registry s s') (read_positions note) s.
Proof. apply solo_await. intros ps. by destruct note. Qed.

#[export] Instance same_registry_preorder : PreOrder same_registry.
Proof.
  split; [done|]. intros s1 s2 s3 (E1 & E2 & E3) (F1 & F2 & F3).
  by repeat split; rewrite ?F1, ?F2, ?F3.
Qed.

Lemma apply_results_solo leg orders current prior results s :
  solo (C := broker_call) (fun s' _ => same_registry s s') (apply_results leg orders current prior results) s.
Proof.
  revert prior s. induction results as [|r results IH]; intros prior s; cbn [apply_results]; [done|].
  destruct (_ && _ && _); [by apply IH|]. apply solo_act. cbn [fst snd].
  assert (forall n, solo (C := broker_call) (fun s' _ => same_registry s s')
    (apply_results leg orders current current results) (set_bars leg n s)) as H.
  { intros n. eapply solo_weaken; [|apply IH]. intros s' u Hs'. etrans; [apply bars_same|exact Hs']. }
  destruct (_ && _); cbn [co_bind]; [apply solo_await; intros _|]; apply H.
Qed.

Lemma apply_broker_authority_solo note leg orders results before s :
  solo (fun s' _ => same_registry s s') (apply_broker_authority note leg orders results before) s.
Proof.
  unfold apply_broker_authority. apply solo_bind. eapply solo_weaken; [|apply read_positions_solo].
  intros s1 ps H1. apply solo_bind. eapply solo_weaken; [|apply apply_results_solo].
  intros s2 u H2. apply solo_read. assert (same_registry s s2) as H by (by transitivity s1).
  destruct (detect_leg_broker_memory_drift _ _); [|done].
  apply solo_bind. eapply solo_weaken; [|apply read_positions_solo].
  intros s3 ps' H3. apply solo_modify. red. transitivity s2; [exact H|]. by transitivity s3.
Qed.

Lemma refresh_all_solo l s : solo (fun s' _ => s' = s) (refresh_all l) s.
Proof.
  induction l as [|[o r] l IH]; [done|]. cbn [refresh_all].
  destruct (truthy_opt _); cbn [co_bind]; [apply solo_await; intros r'|];
    apply solo_bind; (eapply solo_weaken; [|apply IH]); by intros s' rest ->.
Qed.

(** An advance that nothing interrupts gives up its own key, or keeps it with one more of its
    fewer than three cycles; it touches no other bundle. *)
Definition advanced (key : string) (ref : nat) (n : Z) (s s' : sieve) : Prop :=
  (forall r, r <> ref -> bundles s' !! r = bundles s !! r) /\
  (exists b', bundles s' !! ref = Some b' /\ has_bundle ref (bundle_at ref s) s' /\
     (pending s' = assoc_del key (pending s) \/
      pending s' = assoc_set key ref (pending s) /\ unresolved_cycles b' = (n + 1)%Z /\
      (unresolved_cycles b' < INCOMPLETE_CYCLE_CANCEL_THRESHOLD)%Z)).

Lemma advance_bundle_solo note leg now ref b s :
  bundles s !! ref = Some b ->
  solo (fun s' _ => advanced (bundle_key (bu_strategy_id b) (bu_symbol b)) ref (unresolved_cycles b) s s')
    (advance_bundle note leg now ref) s.
Proof.
  intros Hb. unfold advance_bundle. apply solo_read. rewrite (bundle_at_some _ _ _ Hb).
  set (key := bundle_key _ _). apply solo_bind. eapply solo_weaken; [|apply refresh_all_solo].
  intros s1 refreshed ->. apply solo_modify. cbv beta. rewrite (bundle_at_some _ _ _ Hb).
  set (b1 := set_slices _ b). set (s1 := put_bundle ref b1 s).
  apply solo_read, solo_bind. eapply solo_weaken; [|apply apply_broker_authority_solo].
  intros s2 ps (E1 & E2 & E3). apply solo_read.
  assert (bundles s2 !! ref = Some b1) as Hb2 by (rewrite E1; apply lookup_insert_eq).
  rewrite (bundle_at_some _ _ _ Hb2).
  assert (forall r, r <> ref -> bundles s2 !! r = bundles s !! r) as Hne
    by (intros r Hr; rewrite E1; by apply lookup_insert_ne).
  assert (forall s', bundles s' = bundles s2 -> has_bundle ref (bundle_at ref s) s') as Hhas.
  { intros s' E. exists b1. rewrite E, (bundle_at_some _ _ _ Hb). split; [done|]. repeat split. cbn. lia. }
  destruct (needs_tracking b1).
  2:{ split; [exact Hne|]. exists b1. split; [done|]. split; [by apply Hhas|]. left. cbn. by rewrite E3. }
  apply solo_act. cbv beta. rewrite (bundle_at_some _ _ _ Hb2). cbn [fst snd].
  set (b2 := set_cycles _ b1).
  assert (forall s', bundles s' = <[ref := b2]> (bundles s2) ->
    (forall r, r <> ref -> bundles s' !! r = bundles s !! r) /\ bundles s' !! ref = Some b2 /\
    has_bundle ref (bundle_at ref s) s') as Hfinal.
  { intros s' E. rewrite E. split_and!.
    - intros r Hr. rewrite lookup_insert_ne by done. by apply Hne.
    - apply lookup_insert_eq.
    - exists b2. rewrite E, lookup_insert_eq, (bundle_at_some _ _ _ Hb). split; [done|]. repeat split. cbn. lia. }
  destruct (Z.leb_spec INCOMPLETE_CYCLE_CANCEL_THRESHOLD (unresolved_cycles b1 + 1)%Z).
  - apply solo_await. intros n. destruct (Hfinal (untrack key (put_bundle ref b2 s2)) eq_refl) as (F1 & F2 & F3).
    split; [exact F1|]. exists b2. split; [done|]. split; [done|]. left. cbn. by rewrite E3.
  - destruct (Hfinal (track key ref (put_bundle ref b2 s2)) eq_refl) as (F1 & F2 & F3).
    split; [exact F1|]. exists b2. split; [done|]. split; [done|]. right. cbn. rewrite E3. done.
Qed.

(** A round over the items [l]: each gives up its key or comes one cycle nearer to the threshold. *)
Record cycled (l : list (string * nat)) (s s' : sieve) : Prop := mkCycled {
  cy_ok : sieve_ok s';
  cy_le : sieve_le s s';
  cy_frame : forall r, r ∉ l.*2 -> bundles s' !! r = bundles s !! r;
  cy_sub : forall e, e ∈ pending s' -> e ∈ pending s \/ e ∈ l;
  cy_one : forall k r b, (k, r) ∈ l -> (k, r) ∈ pending s' -> bundles s !! r = Some b ->
    exists b', bundles s' !! r = Some b' /\
      (unresolved_cycles b + 1 <= unresolved_cycles b' < INCOMPLETE_CYCLE_CANCEL_THRESHOLD)%Z
}.

Definition own_bundle (e : string * nat) (s : sieve) : Prop :=
  exists b, bundles s !! e.2 = Some b /\ e.1 = bundle_key (bu_strategy_id b) (bu_symbol b).

Lemma own_bundle_stable e s s' : sieve_le s s' -> own_bundle e s -> own_bundle e s'.
Proof.
  intros Hle (b & Hb & Hk). destruct (Hle _ b Hb) as (b' & Hb' & E1 & E2 & _). exists b'.
  split; [done|]. congruence.
Qed.

Definition cycle_body (note : bool) (legs : list (string * LegState)) (now : Z) (item : string * nat) : task unit :=
  co_bind (read (bundle_at item.2)) (fun b =>
    match assoc (bu_strategy_id b) legs with
    | None => modify (untrack item.1)
    | Some leg => advance_bundle note leg now item.2
    end).

Lemma cycle_body_solo note legs now k r s :
  sieve_ok s -> own_bundle (k, r) s ->
  solo (fun s' _ => cycled [(k, r)] s s') (cycle_body note legs now (k, r)) s.
Proof.
  intros Hs (b & Hb & Hk). cbn [fst snd] in *. apply solo_read. cbn [fst snd].
  rewrite (bundle_at_some _ _ _ Hb). destruct (assoc _ legs) as [leg|].
  - assert (has_bundle r b s) as Hhas by (exists b; split; [done|by repeat split]).
    eapply solo_weaken; [|exact (solo_ensures sieve_ok sieve_le _ _ _ s Hs
      (advance_bundle_ens note leg now r b s Hs Hhas) (advance_bundle_solo note leg now r b s Hb))].
    intros s' u ((F1 & b' & Hb' & _ & Hp) & Hok & Hle & _). rewrite <- Hk in Hp. constructor; [done..| | |].
    + intros r' Hr. apply F1. set_solver.
    + intros e He. destruct Hp as [Hp|[Hp _]]; rewrite Hp in He.
      * apply elem_of_assoc_del in He as [_ He]. by left.
      * apply elem_of_assoc_set in He as [->|He]; set_solver.
    + intros k1 r1 b1 Hin Hin' Hb1. apply list_elem_of_singleton in Hin. simplify_eq.
      destruct Hp as [Hp|(Hp & Hn & Hlt)].
      * rewrite Hp in Hin'. by apply elem_of_assoc_del in Hin' as [[] _].
      * exists b'. split; [done|]. lia.
  - destruct (untrack_ok k s Hs) as [Hok Hle]. constructor; [done..| |].
    + intros e [_ He]%elem_of_assoc_del. by left.
    + intros k1 r1 b1 Hin Hin' _. apply list_elem_of_singleton in Hin. simplify_eq.
      by apply elem_of_assoc_del in Hin' as [[] _].
Qed.

Lemma cycled_cons k r l s s1 s2 :
  r ∉ l.*2 -> cycled [(k, r)] s s1 -> cycled l s1 s2 -> cycled ((k, r) :: l) s s2.
Proof.
  intros Hr [A1 A2 A3 A4 A5] [B1 B2 B3 B4 B5]. constructor; [done|by etrans| | |].
  - intros r' Hr'. rewrite fmap_cons in Hr'. apply not_elem_of_cons in Hr' as [Hne Hr'].
    rewrite B3 by done. apply A3. cbn. set_solver.
  - intros e He. destruct (B4 e He) as [He'|He']; [|set_solver]. destruct (A4 e He'); set_solver.
  - intros k' r' b Hin Hin2 Hb. apply elem_of_cons in Hin as [[= -> ->]|Hin].
    + destruct (B4 _ Hin2) as [Hin1|Hin1]; [|contradict Hr; by apply (list_elem_of_fmap_2 snd l (k, r))].
      destruct (A5 k r b) as (b' & Hb' & Hc); [set_solver|done|done|]. exists b'. by rewrite B3.
    + destruct (A2 r' b Hb) as (b1 & Hb1 & _ & _ & Hle).
      destruct (B5 k' r' b1 Hin Hin2 Hb1) as (b2 & Hb2 & Hc). exists b2. split; [done|]. lia.
Qed.

Lemma cycle_items_solo note legs now l s :
  sieve_ok s -> NoDup l.*1 -> Forall (fun e => own_bundle e s) l ->
  solo (fun s' _ => cycled l s s') (co_for (cycle_body note legs now) l) s.
Proof.
  revert s. induction l as [|[k r] l IH]; intros s Hs Hnd Hl.
  - constructor; [done|reflexivity|done|by left|set_solver].
  - rewrite fmap_cons in Hnd. apply NoDup_cons in Hnd as [Hk Hnd]. apply Forall_cons in Hl as [Hkr Hl].
    cbn [co_for]. apply solo_bind. eapply solo_weaken; [|by apply cycle_body_solo].
    intros s1 u H1. eapply solo_weaken; [|apply IH; [by apply (cy_ok _ _ _ H1)|done|]].
    + intros s2 u2 H2. apply cycled_cons with s1; [|done|done].
      intros ((k' & r') & E & Hin)%list_elem_of_fmap. cbn in E. subst r'. apply Hk.
      rewrite Forall_forall in Hl. destruct (Hl _ Hin) as (b & Hb & E1), Hkr as (b' & Hb' & E2). cbn in *.
      assert (k = k') as -> by congruence. by apply (list_elem_of_fmap_2 fst l (k', r)).
    + eapply Forall_impl; [exact Hl|]. intros e. by apply own_bundle_stable, (cy_le _ _ _ H1).
Qed.

Lemma advance_cycles_solo note legs now s :
  sieve_ok s -> solo (fun s' _ => cycled (pending s) s s') (advance_pending_cycles note legs now) s.
Proof.
  intros Hs. apply solo_read, cycle_items_solo; [done|apply Hs|].
  apply Forall_forall. intros [k r] Hin. by apply Hs.
Qed.

(** The rounds of a process, one after another. *)
Definition rounds (note : bool) (l : list (list (string * LegState) * Z)) : task unit :=
  co_for (fun q => advance_pending_cycles note q.1 q.2) l.

Lemma rounds_solo note l s n :
  sieve_ok s ->
  (forall k r b, (k, r) ∈ pending s -> bundles s !! r = Some b ->
     n <= unresolved_cycles b /\ (l = [] -> unresolved_cycles b < INCOMPLETE_CYCLE_CANCEL_THRESHOLD))%Z ->
  solo (fun s' _ => sieve_ok s' /\ (forall k r b, (k, r) ∈ pending s' -> bundles s' !! r = Some b ->
      n + Z.of_nat (length l) <= unresolved_cycles b < INCOMPLETE_CYCLE_CANCEL_THRESHOLD)%Z) (rounds note l) s.
Proof.
  revert s n. induction l as [|[legs now] l IH]; intros s n Hs Hn.
  - split; [done|]. intros k r b Hin Hb. cbn. destruct (Hn k r b Hin Hb) as [H1 H2]. specialize (H2 eq_refl). lia.
  - unfold rounds. cbn [co_for fst snd]. apply solo_bind.
    eapply solo_weaken; [|by apply advance_cycles_solo].
    intros s1 u H1. eapply solo_weaken; [|apply (IH s1 (n + 1)%Z); [by apply (cy_ok _ _ _ H1)|]].
    + intros s2 u2 [Hok2 H2]. split; [done|]. intros k r b Hin Hb. specialize (H2 k r b Hin Hb).
      cbn [length]. lia.
    + intros k r b Hin Hb. destruct (cy_sub _ _ _ H1 _ Hin) as [Hin0|Hin0];
        destruct (so_own _ Hs k r Hin0) as (b0 & Hb0 & _);
        destruct (cy_one _ _ _ H1 k r b0 Hin0 Hin Hb0) as (b1 & Hb1 & Hc);
        rewrite Hb in Hb1; simplify_eq; destruct (Hn k r b0 Hin0 Hb0); lia.
Qed.

(** C29: from any state the interleaved calls of the sieve can reach, three rounds of
    [advance_pending_cycles] that nothing interrupts leave no bundle pending, whatever the
    broker answers, as long as it answers: every incomplete fill is either resolved or, at its third
    unresolved cycle, cancelled and given up. *)
Theorem three_rounds_empty_the_sieve {W} (broker : W -> forall X, broker_call X -> result string X * W)
    note bars evs r1 r2 r3 w :
  answering broker ->
  exists s' w', alone broker (rounds note [r1; r2; r3]) (sieve_runs note bars evs).1 w = (Ok tt, s', w') /\
    pending s' = [] /\ pending_bundle_count s' = 0.
Proof.
  intros Hb. set (s := (sieve_runs note bars evs).1).
  assert (sieve_ok s) as Hs by apply sieve_runs_ok.
  pose proof (rounds_solo note [r1; r2; r3] s 0 Hs) as Hr.
  apply (solo_alone broker) with (w := w) in Hr; [|done|].
  2:{ intros k r b _ Hk. split; [by apply (so_cycles _ Hs r)|done]. }
  destruct Hr as ([] & s' & w' & E & Hok & H).
  exists s', w'. split; [exact E|]. unfold pending_bundle_count.
  assert (pending s' = []) as ->; [|done].
  destruct (pending s') as [|[k r] l] eqn:Ep; [done|]. exfalso.
  destruct (so_own _ Hok k r) as (b & Hb' & _); [rewrite Ep; by left|].
  specialize (H k r b ltac:(by left) Hb'). cbn in H. unfold INCOMPLETE_CYCLE_CANCEL_THRESHOLD in H. lia.
Qed.

(** A witness' broker, and a sieve left with a partial fill. *)
Definition echoing (positions : list Position) (w : unit) X (c : broker_call X) : result string X * unit :=
  (echo positions X c, tt).

Lemma three_rounds_empty_the_sieve_witness :
  let partial := Submit sample_leg [sample_order 10] [sample_result "a" 4 "partially_filled"] [] in
  let evs := [Call partial; Answer 0 (echo []); Answer 0 (echo [sample_position 4]);
              Answer 0 (echo [])] in
  let round := ([("mr", sample_leg)], 0%Z) in
  has_pending_bundle_for_leg "mr" "QQQ" (sieve_runs true ∅ evs).1 = true /\
  exists s' w', alone (echoing [sample_position 4]) (rounds true [round; round; round])
    (sieve_runs true ∅ evs).1 tt = (Ok tt, s', w') /\ pending s' = [] /\ pending_bundle_count s' = 0.
Proof.
  intros partial evs round. split; [vm_compute; reflexivity|].
  apply (three_rounds_empty_the_sieve (echoing [sample_position 4]) true ∅ evs round round round tt).
  intros [] X []; eexists; reflexivity.
Defined.

(** ** Orders filled in slices *)

(** The passive tactic of the broker answers one order with a result per child order: same symbol
    and side, its own quantity. *)
Definition child_result (o : Order) (status : string) (child : option string * float * Z) : OrderResult :=
  mkOrderResult (ord_symbol o) (ord_side o) (of_Z child.2) child.1.2 0 child.1.1 status.

Lemma order_of_child o status child : order_of_result [o] (child_result o status child) = Some o.
Proof. unfold order_of_result, order_lookup. cbn. by rewrite decide_True. Qed.

Lemma whole_summand n l : Forall (fun n => 0 < n)%Z l -> whole (zsum l) -> n ∈ l -> whole n.
Proof.
  intros Hl Hw Hn. unfold whole in *. assert (0 <= n <= zsum l)%Z; [|lia].
  clear Hw. induction Hl as [|m l Hm Hl IH]; [set_solver|].
  assert (0 <= zsum l)%Z by (apply zsum_nonneg; eapply Forall_impl; [exact Hl|]; cbn; lia).
  unfold zsum in *. cbn. apply elem_of_cons in Hn as [->|Hn]; [lia|]. specialize (IH Hn). lia.
Qed.

Lemma zsum_repeat n q : zsum (repeat q n) = (Z.of_nat n * q)%Z.
Proof. unfold zsum. induction n as [|n IH]; cbn [repeat fold_right]; [done|]. rewrite IH. lia. Qed.

Section Slices.
Context (o : Order) (status : string) (children : list (option string * float * Z)).
Context (Hpos : Forall (fun n => 0 < n)%Z (map snd children)).
Context (Hqty : ord_qty o = of_Z (zsum (map snd children))).
Context (Hfit : whole (Z.of_nat (length children) * zsum (map snd children))).
Context (Htwo : 2 <= length children).

Let results := map (child_result o status) children.
Let q : Z := zsum (map snd children).

Lemma slices_whole : (0 < q < 2 ^ 52)%Z /\ whole q.
Proof.
  assert (0 < q)%Z as H0.
  { unfold q, zsum. destruct children as [|c l]; [cbn in Htwo; lia|]. cbn [map fold_right] in *.
    apply Forall_cons in Hpos as [Hc Hl].
    assert (0 <= fold_right Z.add 0 (map snd l))%Z; [|lia].
    apply (zsum_nonneg (map snd l)). eapply Forall_impl; [exact Hl|]. cbn. lia. }
  fold q in Hfit. unfold whole in *. assert (2 <= Z.of_nat (length children))%Z by lia. split; nia.
Qed.

Lemma sliced_filled strategy symbol before :
  filled_qty (bundle_from_submission strategy symbol [o] results before) = of_Z q.
Proof.
  destruct slices_whole as [Hq Hw].
  unfold filled_qty, bundle_from_submission, build_slices, results. cbn [bu_slices]. rewrite !map_map.
  transitivity (fsum (map of_Z (map snd children)));
    [|apply fsum_of_Z; [eapply Forall_impl; [exact Hpos|]; cbn; lia|done]].
  rewrite map_map. f_equal. apply map_ext_in. intros c Hc%list_elem_of_In.
  assert (whole c.2 /\ 0 < c.2)%Z as [Hcw Hc0].
  { assert (c.2 ∈ map snd children) as Hin by (by apply (list_elem_of_fmap_2 snd)).
    split; [by eapply whole_summand|]. rewrite Forall_forall in Hpos. by apply Hpos. }
  cbn. rewrite fzero_of_Z, !py_max_of_Z by (done || (unfold whole in *; lia)). f_equal. lia.
Qed.

Lemma sliced_requested strategy symbol before :
  requested_qty (bundle_from_submission strategy symbol [o] results before)
    = of_Z (Z.of_nat (length children) * q).
Proof.
  destruct slices_whole as [Hq Hw].
  unfold requested_qty, bundle_from_submission, build_slices, results. cbn [bu_slices]. rewrite !map_map.
  rewrite (map_ext _ (fun _ => of_Z q)).
  - rewrite map_const, <- map_repeat, fsum_of_Z; rewrite ?zsum_repeat; [done| |done].
    apply Forall_forall. intros n Hn%list_elem_of_In%repeat_spec. lia.
  - intros c. unfold build_slice. rewrite order_of_child. cbn [sl_requested_qty].
    rewrite Hqty, fzero_of_Z. fold q.
    rewrite py_max_of_Z by (done || (unfold whole in *; lia)). f_equal. lia.
Qed.

Lemma sliced_tracked strategy symbol before :
  needs_tracking (bundle_from_submission strategy symbol [o] results before) = true.
Proof.
  destruct slices_whole as [Hq Hw]. unfold needs_tracking. rewrite sliced_filled, sliced_requested.
  change EPSILON with (lit 1 9). rewrite fltb_add_tolerance; [|lia|nia|lia|exact Hfit].
  cbn [bundle_from_submission bu_slices]. unfold build_slices, results.
  destruct children; [cbn in Htwo; lia|]. cbn [map]. by rewrite orb_true_r.
Qed.
End Slices.

(** an order that the passive tactic fills completely in two or more slices is reconciled as if each slice had
    asked for the whole order: the leg's bundle counts the order's quantity once as filled and once per
    slice as requested, and stays pending, although nothing of the order is open. *)
Theorem sliced_order_reads_as_partial {W} (broker : W -> forall X, broker_call X -> result string X * W)
    note leg o status children before s w :
  Forall (fun n => 0 < n)%Z (map snd children) -> 2 <= length children ->
  ord_qty o = of_Z (zsum (map snd children)) ->
  whole (Z.of_nat (length children) * zsum (map snd children)) ->
  answering broker ->
  (forall w orders results, (broker w _ (ShortBurst orders results)).1 = Ok results) ->
  exists positions s' w' r b,
    alone broker (reconcile_post_submit note leg [o] (map (child_result o status) children) before) s w
      = (Ok positions, s', w') /\
    has_pending_bundle_for_leg (leg_strategy_id leg) (leg_symbol leg) s' = true /\
    assoc (bundle_key (leg_strategy_id leg) (leg_symbol leg)) (pending s') = Some r /\
    bundles s' !! r = Some b /\ filled_qty b = ord_qty o /\
    requested_qty b = of_Z (Z.of_nat (length children) * zsum (map snd children)).
Proof.
  intros Hpos Htwo Hqty Hfit Hans Hecho.
  set (results := map (child_result o status) children). set (key := bundle_key _ _).
  set (b := bundle_from_submission (leg_strategy_id leg) (leg_symbol leg) [o] results before).
  assert (needs_tracking b = true) as Ht by (by apply sliced_tracked).
  assert (solo (fun s' _ => exists r, assoc key (pending s') = Some r /\ bundles s' !! r = Some b)
    (co_bind (apply_broker_authority note leg [o] results before) (fun positions =>
       co_bind (modify (fun s =>
         let '(r, s) := new_bundle b s in
         if needs_tracking (bundle_at r s) then track key r s else untrack key s))
       (fun _ => Done positions))) s) as Hs.
  { apply solo_bind. eapply solo_weaken; [|apply apply_broker_authority_solo].
    intros s1 ps _. apply solo_modify. red. exists (next_bundle s1).
    change (new_bundle b s1) with (next_bundle s1, (new_bundle b s1).2). cbv beta iota.
    rewrite bundle_at_new, Ht.
    split; [apply assoc_set_same|by apply lookup_insert_eq]. }
  assert (results <> []) as Hne by (unfold results; destruct children; [cbn in Htwo; lia|done]).
  unfold reconcile_post_submit. destruct results as [|r0 rs] eqn:Er; [done|]. cbn [co_bind await alone].
  specialize (Hecho w [o] (r0 :: rs)). destruct (broker w _ (ShortBurst [o] (r0 :: rs))) as [r w1].
  cbn [fst] in Hecho. subst r.
  destruct (solo_alone broker _ _ s w1 Hans Hs) as (ps & s' & w' & Ea & r & Hr & Hb).
  exists ps, s', w', r, b. split; [exact Ea|]. unfold has_pending_bundle_for_leg. fold key. rewrite Hr.
  split; [done|]. split; [done|]. split; [exact Hb|]. unfold b. rewrite <- Er. unfold results.
  rewrite sliced_filled, sliced_requested by done. done.
Qed.

Definition three_slices : list (option string * float * Z) :=
  [(Some "a", of_Z 100, 3%Z); (Some "b", of_Z 100, 3%Z); (Some "c", of_Z 100, 3%Z)].

Lemma sliced_order_reads_as_partial_witness :
  exists positions s' w' r b,
    alone (echoing [sample_position 9])
      (reconcile_post_submit true sample_leg [sample_order 9] (map (child_result (sample_order 9) "filled") three_slices) [])
      (sieve_init ∅) tt = (Ok positions, s', w') /\
    has_pending_bundle_for_leg (leg_strategy_id sample_leg) (leg_symbol sample_leg) s' = true /\
    assoc (bundle_key (leg_strategy_id sample_leg) (leg_symbol sample_leg)) (pending s') = Some r /\
    bundles s' !! r = Some b /\ filled_qty b = ord_qty (sample_order 9) /\
    requested_qty b = of_Z (Z.of_nat (length three_slices) * zsum (map snd three_slices)).
Proof.
  apply (sliced_order_reads_as_partial (echoing [sample_position 9]) true sample_leg (sample_order 9) "filled"
    three_slices [] (sieve_init ∅) tt).
  - by repeat constructor.
  - cbn. lia.
  - reflexivity.
  - reflexivity.
  - intros [] X []; eexists; reflexivity.
  - reflexivity.
Defined.

(** ** Interleavings that lose a bundle *)

(** A round in flight looks at an old, completed fill of the leg; meanwhile a new submission of the leg is
    registered as incomplete; the round then drops the leg's key, and with it the new bundle. *)
Lemma round_drops_newer_bundle :
  let old := Submit sample_leg [sample_order 10] [sample_result "a" 0 "submitted"] [] in
  let new := Submit sample_leg [sample_order 20] [sample_result "b" 5 "partially_filled"] [] in
  let finished : answers broker_call := fun X c =>
    match c with
    | GetPositions => Ok [sample_position 10]
    | ShortBurst _ results => Ok results
    | RefreshResult _ _ => Ok (sample_result "a" 10 "filled")
    | CancelSymbol _ => Ok 0%Z
    end in
  let before := [Call old; Answer 0 finished; Answer 0 finished; Answer 0 finished;
                 Call (Cycle [("mr", sample_leg)] 0);
                 Call new; Answer 2 finished; Answer 2 finished; Answer 2 finished] in
  has_pending_bundle_for_leg "mr" "QQQ" (sieve_runs true ∅ before).1 = true /\
  has_pending_bundle_for_leg "mr" "QQQ" (sieve_runs true ∅ (before ++ [Answer 1 finished; Answer 1 finished])).1 = false.
Proof. split; vm_compute; reflexivity. Qed.

(** A refresh that raises ends the round: the bundles behind it are not looked at. *)
Lemma raising_refresh_ends_the_round :
  let partial leg o := Submit leg [o] [mkOrderResult (ord_symbol o) BUY (of_Z 4) (of_Z 100) 0 (Some "a") "partially_filled"] [] in
  let other := mkLeg 1 "mr2" "SPY" None in
  let spy := mkOrder "SPY" BUY (of_Z 10) "market" None "mr2" None in
  let down : answers broker_call := fun X c =>
    match c with
    | RefreshResult _ _ => Raise "ConnectionError"
    | c => echo [] _ c
    end in
  let registered := [Call (partial sample_leg (sample_order 10)); Answer 0 (echo []); Answer 0 (echo []); Answer 0 (echo []);
                     Answer 0 (echo []);
                     Call (partial other spy); Answer 1 (echo []); Answer 1 (echo []); Answer 1 (echo []); Answer 1 (echo [])] in
  let cycle i := [Call (Cycle [("mr", sample_leg); ("mr2", other)] 0); Answer i down] in
  let s := (sieve_runs true ∅ (registered ++ cycle 2 ++ cycle 3 ++ cycle 4)).1 in
  map fst (pending s) = ["mr:QQQ"; "mr2:SPY"] /\
  map (fun e => unresolved_cycles (bundle_at e.2 s)) (pending s) = [0; 0]%Z.
Proof. split; vm_compute; reflexivity. Qed.
