(* ===== verification/PolicyLifecycle.v ===== *)
(** * AI policy lifecycle

    [src/engine/policy_lifecycle.py] (class [AIPolicyLifecycleManager]): how a learned policy
    gains authority over a leg (probation, then sovereignty), loses it (staged rollback,
    attribution rollback, velocity shock) and gets it back after a shock. The ledgers it reads are
    lists of rows; the functions of [persistence.db], which is not in the repository, and the change
    journal are an environment whose every call may raise; numpy and polars are arguments. *)

From stdpp Require Import base gmap strings list.
From Stdlib Require Import ZArith Lia.
From S2P Require Import Prelude Dict PyFloat Models.

(** The states are strings of [router.risk_manager], which is not in the repository; the code only
    compares them. *)
Inductive policy_state := PASSIVE | PROBATIONAL | SOVEREIGN.
#[export] Instance policy_state_eq_dec : EqDecision policy_state.
Proof. solve_decision. Defined.

Definition LOOKBACK_30D : Z := 30.
Definition LOOKBACK_60D : Z := 60.
Definition MIN_STRATUM_SAMPLES : Z := 3.
Definition MIN_REGIME_BUCKETS_PASS : Z := 2.
Definition MIN_SESSION_BUCKETS_PASS : Z := 2.
Definition PROBATION_EDGE_DECAY_RATIO : float := Eval vm_compute in lit 85 2.
Definition PROBATION_EDGE_DECAY_STREAK : Z := 3.
Definition PROBATION_ATTRIBUTION_LOOKBACK_DAYS : Z := 14.
Definition DEFAULT_ATTRIBUTION_MAX_DRAWDOWN_PCT : float := Eval vm_compute in lit 8 2.
Definition PROBATION_MIN_ATTRIBUTION_TRADES : Z := 5.
Definition SOVEREIGN_MIN_VERIFIED_TRADING_DAYS : Z := 10.
Definition SOVEREIGN_MIN_FILLED_TRADES : Z := 25.
Definition SOVEREIGN_MAX_AVG_SLIPPAGE_PCT : float := Eval vm_compute in lit 15 4.
Definition SOVEREIGN_MIN_FILL_QUALITY_SCORE : float := Eval vm_compute in lit 70 2.
Definition SOVEREIGN_MIN_EDGE_VS_RULES : float := Eval vm_compute in lit 2 2.
Definition CATASTROPHIC_HIT_RATE_FLOOR : float := Eval vm_compute in lit 30 2.
Definition CATASTROPHIC_EXECUTION_DRIFT : string := "execution_drift".
Definition MACRO_VELOCITY_SHOCK_REASON : string := "macro_velocity_shock".
Definition VELOCITY_SHOCK_RECOVERY_REASON : string := "velocity_shock_cool_off_recovery".
Definition SHOCK_RECOVERY_MIN_DUAL_SHADOW_SAMPLES : Z := 5.
Definition SHOCK_RECOVERY_SHADOW_LOOKBACK_DAYS : Z := 14.
Definition ONE_E_MINUS_9 : float := Eval vm_compute in lit 1 9.
Definition ONE_E_MINUS_12 : float := Eval vm_compute in lit 1 12.

Inductive RollbackTier :=
  | TIER_NONE | SOVEREIGN_TO_PROBATIONAL | PROBATIONAL_TO_PASSIVE | CATASTROPHIC_EVICTION
  | VELOCITY_SHOCK_DEMOTION.
#[export] Instance RollbackTier_eq_dec : EqDecision RollbackTier.
Proof. solve_decision. Defined.

(** ** Ledgers *)

Record attr_row := mkAttr {
  at_timestamp : string; at_strategy_id : string; at_symbol : string;
  at_pnl : float; at_slippage_pct : float;
  at_regime_id : option string; at_session_type : option string
}.

Record shadow_row := mkShadow {
  sh_timestamp : string; sh_symbol : string; sh_action : option string;
  sh_reward_24h : option float; sh_rules_action : option string
}.

Record dual_row := mkDual {
  du_timestamp : string; du_symbol : string;
  du_challenger_pnl : option float; du_rules_pnl : option float
}.

Record health_row := mkHealth { he_strategy_id : string; he_timestamp : string; he_new_status : string }.

(** The tables of the vault; [None] is a table that cannot be read. *)
Record tables := mkTables {
  live_attribution_ledger : option (list attr_row);
  shadow_rl_ledger : option (list shadow_row);
  dual_policy_shadow_log : option (list dual_row);
  system_health_ledger : option (list health_row)
}.

(** The clock of a call: now, today's date, and the moment some days ago, as ISO texts. *)
Record clock := mkClock { now_iso : string; today_iso : string; days_ago : Z -> string }.

(** [timestamp >= ?] on texts. *)
Definition since (cutoff ts : string) : bool := String.leb cutoff ts.

Definition load_attribution_frame (t : tables) (ck : clock) (lookback_days : Z) (strategy_id : option string)
    : list attr_row :=
  let rows := List.filter (fun r => since (days_ago ck lookback_days) (at_timestamp r))
                (default [] (live_attribution_ledger t)) in
  if truthy_opt strategy_id
  then List.filter (fun r => bool_decide (Some (at_strategy_id r) = strategy_id)) rows else rows.

Definition load_shadow_frame (t : tables) (ck : clock) (lookback_days : Z) (symbol : option string)
    : list shadow_row :=
  let rows := List.filter (fun r => since (days_ago ck lookback_days) (sh_timestamp r)
                                    && bool_decide (sh_reward_24h r <> None))
                (default [] (shadow_rl_ledger t)) in
  match symbol with
  | Some s => if truthy s then List.filter (fun r => bool_decide (sh_symbol r = upper s)) rows else rows
  | None => rows
  end.

Definition load_dual_policy_shadow_frame (t : tables) (ck : clock) (symbol : string)
    (since_timestamp : option string) : list dual_row :=
  let cutoff := opt_or since_timestamp (days_ago ck SHOCK_RECOVERY_SHADOW_LOOKBACK_DAYS) in
  List.filter (fun r => since cutoff (du_timestamp r) && bool_decide (du_symbol r = upper symbol))
    (default [] (dual_policy_shadow_log t)).

(** ** Measures *)

Class Numerics := {
  np_mean : list float -> float;
  np_std : list float -> float;
  np_sum : list float -> float;
  np_clip : float -> float -> float -> float;
  pl_mean : list float -> float;                    (* of a polars column *)
  session_of : string -> string                     (* [resolve_trading_session] of a timestamp *)
}.

Section Measures.
Context `{Numerics}.

Definition sharpe (returns : list float) : float :=
  if (length returns <? 2) then fzero
  else let std := np_std returns in
       if fltb std ONE_E_MINUS_12 then fzero else fdiv (np_mean returns) std.

Definition max_drawdown_pct (pnls : list float) : float :=
  (fold_left (fun (acc : float * float * float) pnl =>
     let '(equity, peak, max_dd) := acc in
     let equity := fadd equity pnl in
     let peak := py_max peak equity in
     (equity, peak, if fltb fzero peak then py_max max_dd (fdiv (fsub peak equity) peak) else max_dd))
   pnls (of_Z 100000, of_Z 100000, fzero)).2.

Definition shadow_allocation (action : string) : float :=
  if bool_decide (action = "STAND_DOWN") then fzero
  else if bool_decide (action = "ALLOCATION_HALF") then lit 5 1
  else if bool_decide (action = "ALLOCATION_MAX") then fone else lit 75 2.

Definition rules_allocation (action : string) : float :=
  if bool_decide (action ∈ ["NO_TRADE_FALLBACK"; "UNSAFE_DISABLED"]) then fzero
  else if bool_decide (action ∈ ["DEFENSIVE_FALLBACK"; "BEAR_DEFENSIVE"]) then lit 25 2
  else if bool_decide (action = "BASELINE_FALLBACK") then lit 5 1
  else if bool_decide (action ∈ ["HIGH_VOL_MR"; "CALM_MR"]) then fone else lit 75 2.

(** What a shadow row's two policies made of the reward; [None] when there is none. *)
Definition shadow_return (r : shadow_row) : option float :=
  option_map (fmul (shadow_allocation (opt_or (sh_action r) ""))) (sh_reward_24h r).
Definition rules_return (r : shadow_row) : option float :=
  option_map (fmul (rules_allocation (opt_or (sh_rules_action r) "UNKNOWN"))) (sh_reward_24h r).

(** A stratum's entry in [stratum_details]. *)
Record stratum := mkStratum {
  st_n : Z; st_challenger : float; st_rules : float; st_mean_pnl : option float; st_passed : option bool
}.

Record StratifiedWindowMetrics := mkWindow {
  w_lookback_days : Z;
  w_challenger_return : float;
  w_rules_return : float;
  w_challenger_sharpe : float;
  w_rules_sharpe : float;
  w_sample_count : Z;
  w_regime_buckets_passed : Z;
  w_session_buckets_passed : Z;
  w_stratum_details : list (string * stratum)
}.

(** [str(x)] of a text column. *)
Definition str_of (o : option string) : string := match o with Some s => s | None => "None" end.

Definition stratum_key (regime session : string) : string :=
  String.append regime (String.append "|" session).

(** The groups of [(regime_id, session_type)] with their profits, in order of first appearance; polars
    leaves the order open, and nothing but the order of [stratum_details] shows it. *)
Fixpoint group_add (k : option string * option string) (x : float)
    (gs : list ((option string * option string) * list float)) :=
  match gs with
  | [] => [(k, [x])]
  | (k', xs) :: gs => if decide (k = k') then (k', xs ++ [x]) :: gs else (k', xs) :: group_add k x gs
  end.

Definition attribution_groups (rows : list attr_row) :=
  fold_left (fun gs r => group_add (at_regime_id r, at_session_type r) (at_pnl r) gs) rows [].

(** [results[k] = results.get(k, False) or passed]. *)
Definition or_result (k : string) (passed : bool) (d : list (string * bool)) : list (string * bool) :=
  assoc_set k (default false (assoc k d) || passed) d.

Definition count_passed (d : list (string * bool)) : Z := Z.of_nat (length (List.filter snd d)).

Definition attribution_strata (rows : list attr_row)
    : list (string * stratum) * list (string * bool) * list (string * bool) :=
  fold_left (fun acc g =>
      let '(details, regimes, sessions) := acc in
      let regime := str_of g.1.1 in
      let session := str_of g.1.2 in
      let n := Z.of_nat (length g.2) in
      let mean_pnl := pl_mean g.2 in
      let passed := (MIN_STRATUM_SAMPLES <=? n)%Z && fltb fzero mean_pnl in
      (assoc_set (stratum_key regime session) (mkStratum n fzero fzero (Some mean_pnl) (Some passed)) details,
       or_result regime passed regimes, or_result session passed sessions))
    (attribution_groups rows) ([], [], []).

(** The loop over the shadow rows: a challenger return is appended only while there is none. *)
Definition shadow_returns (rows : list shadow_row) (challenger_returns : list float)
    : list float * list float :=
  fold_left (fun (acc : list float * list float) r =>
      match shadow_return r, rules_return r with
      | Some c, Some u => (match acc.1 with [] => [c] | l => l end, acc.2 ++ [u])
      | _, _ => acc
      end)
    rows (challenger_returns, []).

Fixpoint zip3 (ts : list string) (cs us : list float) : list (string * float * float) :=
  match ts, cs, us with t :: ts, c :: cs, u :: us => (t, c, u) :: zip3 ts cs us | _, _, _ => [] end.

(** The strata of a window without attribution: one bucket per session, of the regime [SHADOW]. *)
Definition shadow_buckets (l : list (string * float * float)) : list (string * (Z * float * float)) :=
  fold_left (fun d e =>
      let '(n, c, u) := default (0%Z, fzero, fzero) (assoc (session_of e.1.1) d) in
      assoc_set (session_of e.1.1) ((n + 1)%Z, fadd c e.1.2, fadd u e.2) d) l [].

Definition shadow_strata (l : list (string * float * float))
    : list (string * stratum) * list (string * bool) * list (string * bool) :=
  fold_left (fun acc b =>
      let '(details, regimes, sessions) := acc in
      let '(session, (n, c, u)) := b in
      if (n <? MIN_STRATUM_SAMPLES)%Z
      then (details ++ [(stratum_key "SHADOW" session, mkStratum n c u None None)], regimes, sessions)
      else
        let ch_avg := fdiv c (of_Z n) in
        let ru_avg := fdiv u (of_Z n) in
        let passed := fltb ru_avg ch_avg in
        (details ++ [(stratum_key "SHADOW" session, mkStratum n c u (Some (fsub ch_avg ru_avg)) (Some passed))],
         or_result "SHADOW" passed regimes, or_result session passed sessions))
    (shadow_buckets l) ([], [], []).

Definition compute_stratified_window (lookback_days : Z) (attribution : list attr_row) (shadow : list shadow_row)
    : StratifiedWindowMetrics :=
  let '(challenger, rules) := shadow_returns shadow (map at_pnl attribution) in
  let '(details, regimes, sessions) :=
    match attribution, challenger with
    | _ :: _, _ => attribution_strata attribution
    | [], _ :: _ => shadow_strata (zip3 (map sh_timestamp shadow) challenger rules)
    | [], [] => ([], [], [])
    end in
  mkWindow lookback_days
    (match challenger with [] => fzero | _ => np_sum challenger end)
    (match rules with [] => fzero | _ => np_sum rules end)
    (sharpe challenger) (sharpe rules)
    (Z.max (Z.of_nat (length challenger)) (Z.of_nat (length attribution)))
    (count_passed regimes) (count_passed sessions) details.
End Measures.

(** ** The stored state and the environment *)

Record lifecycle_row := mkRow {
  lr_execution_state : string;
  lr_probation_started_at : option string;
  lr_clean_days : Z;
  lr_last_anomaly_session : option string;
  lr_eviction_lockout_until : option string;
  lr_velocity_shock_prior_state : option string;
  lr_velocity_shock_demoted_at : option string;
  lr_updated_at : string
}.

(** An argument of [upsert_ai_policy_lifecycle_state]: left out, [...], or a value. *)
Inductive field := Omitted | Unchanged | Put (v : option string).

Record upsert := mkUpsert {
  up_strategy_id : string;
  up_symbol : string;
  up_execution_state : policy_state;
  up_probation_started_at : option string;
  up_clean_days : Z;
  up_last_anomaly_session : option string;
  up_eviction_lockout_until : option string;
  up_velocity_shock_prior_state : field;
  up_velocity_shock_demoted_at : field
}.

(** A call of the change journal: the entry's kind, its strategy, the states and the rationale. *)
Record journal_note := mkNote {
  jn_kind : string; jn_strategy_id : string; jn_from : string; jn_to : policy_state; jn_rationale : string
}.

Class LifecycleEnv (R : Type) := {
  state_value : policy_state -> string;
  get_ai_policy_lifecycle_state : string -> py R string (option lifecycle_row);
  upsert_ai_policy_lifecycle_state : upsert -> py R string unit;
  is_shadow_policy_model_evicted : py R string bool;
  mark_shadow_policy_model_evicted : string -> Z -> py R string unit;
  count_shadow_rl_ledger_tuples : py R string Z;
  AI_POLICY_MIN_LEDGER_TUPLES : Z;
  get_prior_config_backup : string -> py R string (option (Z * string));
  mark_failed_live_attribution : string -> string -> string -> py R string unit;
  (* [yaml.safe_load(..).get("params") or {}]; [None] if any of it raises *)
  yaml_params : string -> option (list (string * json));
  record_journal : journal_note -> py R string unit
}.

(** [current_state if current_state in AI_POLICY_VALID_STATES else STATE_PASSIVE]. *)
Definition parse_state {R} `{LifecycleEnv R} (s : string) : option policy_state :=
  List.find (fun p => bool_decide (state_value p = s)) [PASSIVE; PROBATIONAL; SOVEREIGN].
Definition valid_state {R} `{LifecycleEnv R} (s : string) : policy_state := default PASSIVE (parse_state s).

Record ProbationEntryVerdict := mkEntryVerdict {
  pe_reasons : list string;
  pe_window_30d : StratifiedWindowMetrics;
  pe_window_60d : StratifiedWindowMetrics
}.
Definition pe_approved (v : ProbationEntryVerdict) : bool := match pe_reasons v with [] => true | _ => false end.

Inductive edge_directive := DIRECTIVE_NONE | PREEMPTIVE_DEGRADE.
#[export] Instance edge_directive_eq_dec : EqDecision edge_directive.
Proof. solve_decision. Defined.

Record ProbationEdgeVerdict := mkEdge {
  ed_maintains_edge : bool;
  ed_directive : edge_directive;
  ed_challenger_edge : float;
  ed_rules_edge : float;
  ed_edge_ratio : float;
  ed_decay_streak : Z;
  ed_reason : string
}.

Record SovereignPromotionVerdict := mkSovereign {
  sv_reasons : list string;
  sv_verified_trading_days : Z;
  sv_filled_trade_count : Z;
  sv_avg_slippage_pct : float;
  sv_fill_quality_score : float
}.
Definition sv_approved (v : SovereignPromotionVerdict) : bool := match sv_reasons v with [] => true | _ => false end.

Record AttributionSloVerdict := mkSlo {
  as_breached : bool;
  as_reasons : list string;
  as_live_sharpe : float;
  as_max_drawdown_pct : float;
  as_trade_count : Z;
  as_drawdown_limit_pct : float
}.

Record StagedRollbackResult := mkRollback {
  rb_prior_state : policy_state;
  rb_new_state : policy_state;
  rb_tier : RollbackTier;
  rb_catastrophic : bool;
  rb_reason : string;
  rb_eviction_lockout_until : option string;
  rb_restored_params : option (list (string * json));
  rb_restored_config_version_id : option Z
}.

Record VelocityShockRecoveryVerdict := mkRecovery {
  vr_reasons : list string;
  vr_challenger_edge : float;
  vr_rules_edge : float;
  vr_edge_ratio : float;
  vr_sample_count : Z
}.
Definition vr_approved (v : VelocityShockRecoveryVerdict) : bool := match vr_reasons v with [] => true | _ => false end.

Record LifecycleTransition := mkTransition {
  lt_strategy_id : string; lt_symbol : string;
  lt_from_state : policy_state; lt_to_state : policy_state; lt_reason : string
}.

(** The verdict of the regime's stabilisation that the recovery reads. *)
Record RegimeStabilizationVerdict := mkStabilization { stabilized : bool; stabilization_reason : string }.

(** The parameters of a leg that the manager reads. *)
Record leg_params := mkParams {
  lp_execution_state : option string;         (* ai_policy_execution_state *)
  lp_max_live_drawdown_pct : option float;
  lp_attribution_lookback_days : option Z
}.
Definition no_params : leg_params := mkParams None None None.

Record leg_context := mkLegContext { lc_strategy_id : string; lc_symbol : string; lc_params : leg_params }.

(** What a leg's evening or recovery reports. *)
Record transition_payload := mkPayload {
  tp_from : policy_state; tp_to : policy_state; tp_reason : string; tp_clean_days : option Z
}.

(** The manager, the ledgers, and the rest of the world. *)
Record world (R : Type) := mkWorld {
  edge_decay_streak : gmap string Z;
  ledgers : tables;
  rest : R
}.
Arguments mkWorld {R} _ _ _.
Arguments edge_decay_streak {R} _.
Arguments ledgers {R} _.
Arguments rest {R} _.

Definition set_streak {R} (k : string) (n : Z) (w : world R) : world R :=
  mkWorld (<[k := n]> (edge_decay_streak w)) (ledgers w) (rest w).

Definition env_call {R A} (c : py R string A) : py (world R) string A :=
  fun w => let '(r, x) := c (rest w) in (r, mkWorld (edge_decay_streak w) (ledgers w) x).

Definition some_str (s : string) : option string := if truthy s then Some s else None.

Section Manager.
Context `{Numerics} {R : Type} `{LifecycleEnv R}.
Local Open Scope py_scope.

Notation lpy A := (py (world R) string A).

(** ** Verdicts *)

Definition window_reasons (label : string) (w : StratifiedWindowMetrics) : list string :=
  (if (w_sample_count w <? MIN_STRATUM_SAMPLES * 2)%Z then [String.append label "_insufficient_samples"] else []) ++
  (if fleb (w_challenger_return w) (w_rules_return w) then [String.append label "_underperforms_rules_return"] else []) ++
  (if fleb (w_challenger_sharpe w) (w_rules_sharpe w) then [String.append label "_underperforms_rules_sharpe"] else []) ++
  (if (w_regime_buckets_passed w <? MIN_REGIME_BUCKETS_PASS)%Z
   then [String.append label "_insufficient_regime_strata"] else []) ++
  (if (w_session_buckets_passed w <? MIN_SESSION_BUCKETS_PASS)%Z
   then [String.append label "_insufficient_session_strata"] else []).

(** [windows]: what the caller passes as ["30d"] and ["60d"]. *)
Definition entry_windows (ck : clock) (symbol : string)
    (windows : option (StratifiedWindowMetrics * StratifiedWindowMetrics)) (t : tables)
    : StratifiedWindowMetrics * StratifiedWindowMetrics :=
  match windows with
  | Some w => w
  | None =>
      let one days := compute_stratified_window days (load_attribution_frame t ck days None)
                        (load_shadow_frame t ck days (some_str (upper symbol))) in
      (one LOOKBACK_30D, one LOOKBACK_60D)
  end.

Definition evaluate_probation_entry (ck : clock) (symbol : string)
    (windows : option (StratifiedWindowMetrics * StratifiedWindowMetrics)) : lpy ProbationEntryVerdict :=
  fun w =>
  (let '(w30, w60) := entry_windows ck symbol windows (ledgers w) in
   let! tuple_count := env_call count_shadow_rl_ledger_tuples in
   let! evicted := env_call is_shadow_policy_model_evicted in
   py_ret (mkEntryVerdict
     ((if (tuple_count <? AI_POLICY_MIN_LEDGER_TUPLES)%Z then ["insufficient_shadow_ledger_tuples"] else []) ++
      (if evicted : bool then ["model_eviction_lockout_active"] else []) ++
      window_reasons "30d" w30 ++ window_reasons "60d" w60) w30 w60)) w.

Definition pairs_of (rows : list shadow_row) : list (float * float) :=
  omap (fun r => match shadow_return r, rules_return r with Some c, Some u => Some (c, u) | _, _ => None end) rows.

Definition mean_or_zero (l : list float) : float := match l with [] => fzero | _ => np_mean l end.

Definition edge_ratio_of (challenger_edge rules_edge : float) : float :=
  if fltb fzero rules_edge then fdiv challenger_edge (py_max rules_edge ONE_E_MINUS_9)
  else if fleb fzero challenger_edge then fone else fzero.

(** The verdict and the streak it leaves. *)
Definition edge_verdict (frame : list shadow_row) (streak : Z) : ProbationEdgeVerdict :=
  let challenger_edge := mean_or_zero (map fst (pairs_of frame)) in
  let rules_edge := mean_or_zero (map snd (pairs_of frame)) in
  let ratio := edge_ratio_of challenger_edge rules_edge in
  let maintains := fleb PROBATION_EDGE_DECAY_RATIO ratio && fleb rules_edge challenger_edge in
  let streak := if maintains then 0%Z else (streak + 1)%Z in
  mkEdge maintains
    (if (PROBATION_EDGE_DECAY_STREAK <=? streak)%Z then PREEMPTIVE_DEGRADE else DIRECTIVE_NONE)
    challenger_edge rules_edge ratio streak
    (if (PROBATION_EDGE_DECAY_STREAK <=? streak)%Z then "probation_edge_decay_streak"
     else if maintains then "edge_stable" else "probation_edge_below_rules").

Definition evaluate_probation_edge (ck : clock) (strategy_id symbol : string) : lpy ProbationEdgeVerdict :=
  fun w =>
  let k := str_or strategy_id "global" in
  match load_shadow_frame (ledgers w) ck 14 (some_str (upper symbol)) with
  | [] => (Ok (mkEdge true DIRECTIVE_NONE fzero fzero fone 0 "insufficient_recent_shadow_sample"), w)
  | frame =>
      let v := edge_verdict frame (default 0%Z (edge_decay_streak w !! k)) in
      (Ok v, set_streak k (ed_decay_streak v) w)
  end.

Definition attribution_of (t : tables) (ck : clock) (days : Z) (strategy_id : option string) (symbol : string)
    : list attr_row :=
  let rows := load_attribution_frame t ck days strategy_id in
  if truthy symbol then List.filter (fun r => bool_decide (at_symbol r = upper symbol)) rows else rows.

Definition live_attribution_slo (t : tables) (ck : clock) (strategy_id symbol : string) (params : leg_params)
    : AttributionSloVerdict :=
  let limit := default DEFAULT_ATTRIBUTION_MAX_DRAWDOWN_PCT (lp_max_live_drawdown_pct params) in
  let days := default PROBATION_ATTRIBUTION_LOOKBACK_DAYS (lp_attribution_lookback_days params) in
  let pnls := map at_pnl (attribution_of t ck days (some_str strategy_id) symbol) in
  match pnls with
  | [] => mkSlo false ["insufficient_attribution_sample"] fzero fzero 0 limit
  | _ =>
      let n := Z.of_nat (length pnls) in
      if (n <? PROBATION_MIN_ATTRIBUTION_TRADES)%Z
      then mkSlo false ["insufficient_attribution_trades"] (sharpe pnls) (max_drawdown_pct pnls) n limit
      else
        let reasons := (if fltb (sharpe pnls) fzero then ["live_sharpe_below_zero"] else []) ++
                       (if fltb limit (max_drawdown_pct pnls) then ["live_drawdown_breach"] else []) in
        mkSlo (match reasons with [] => false | _ => true end) reasons (sharpe pnls) (max_drawdown_pct pnls) n limit
  end.

Definition evaluate_live_attribution_slo (ck : clock) (strategy_id symbol : string) (params : leg_params)
    : lpy AttributionSloVerdict :=
  fun w => (Ok (live_attribution_slo (ledgers w) ck strategy_id symbol params), w).

Definition sovereign_promotion (t : tables) (ck : clock) (symbol : string) (clean_days : Z) : SovereignPromotionVerdict :=
  let attr := attribution_of t ck 30 None symbol in
  let filled := Z.of_nat (length attr) in
  let days := Z.max (Z.of_nat (length (remove_dups (map (fun r => String.substring 0 10 (at_timestamp r)) attr))))
                clean_days in
  let avg_slippage := match attr with [] => fzero | _ => pl_mean (map at_slippage_pct attr) end in
  let fill_quality := match attr with [] => fone | _ =>
    fsub fone (np_clip (fdiv avg_slippage SOVEREIGN_MAX_AVG_SLIPPAGE_PCT) fzero fone) end in
  let edge_delta := match pairs_of (load_shadow_frame t ck 30 (some_str (upper symbol))) with
                    | [] => fzero
                    | l => fsub (np_mean (map fst l)) (np_mean (map snd l)) end in
  mkSovereign
    ((if (filled <? SOVEREIGN_MIN_FILLED_TRADES)%Z then ["insufficient_filled_trades"] else []) ++
     (if (days <? SOVEREIGN_MIN_VERIFIED_TRADING_DAYS)%Z then ["insufficient_verified_trading_days"] else []) ++
     (if fltb SOVEREIGN_MAX_AVG_SLIPPAGE_PCT avg_slippage then ["execution_slippage_breach"] else []) ++
     (if fltb fill_quality SOVEREIGN_MIN_FILL_QUALITY_SCORE then ["fill_quality_below_floor"] else []) ++
     (if fltb edge_delta SOVEREIGN_MIN_EDGE_VS_RULES then ["sovereign_edge_vs_rules_insufficient"] else []))
    days filled avg_slippage fill_quality.

Definition evaluate_sovereign_promotion (ck : clock) (symbol : string) (clean_days : Z)
    : lpy SovereignPromotionVerdict :=
  fun w => (Ok (sovereign_promotion (ledgers w) ck symbol clean_days), w).

Definition velocity_shock_shadow_recovery (t : tables) (ck : clock) (symbol : string) (demoted_at : option string)
    : VelocityShockRecoveryVerdict :=
  match load_dual_policy_shadow_frame t ck symbol demoted_at with
  | [] => mkRecovery ["insufficient_dual_policy_shadow_log"] fzero fzero fzero 0
  | frame =>
      let ch := map (fun r => default fzero (du_challenger_pnl r)) frame in
      let ru := map (fun r => default fzero (du_rules_pnl r)) frame in
      let n := Z.of_nat (length frame) in
      if (n <? SHOCK_RECOVERY_MIN_DUAL_SHADOW_SAMPLES)%Z
      then mkRecovery ["insufficient_dual_policy_shadow_samples"] fzero fzero fzero n
      else
        let challenger_edge := np_mean ch in
        let rules_edge := np_mean ru in
        let ratio := edge_ratio_of challenger_edge rules_edge in
        mkRecovery
          ((if fltb challenger_edge rules_edge then ["shadow_challenger_underperforms_rules"] else []) ++
           (if fltb ratio PROBATION_EDGE_DECAY_RATIO then ["shadow_edge_ratio_below_floor"] else []))
          challenger_edge rules_edge ratio n
  end.

(** ** Rollbacks *)

Definition execute_staged_rollback (ck : clock) (current_state : string) (strategy_id symbol reason : string)
    (catastrophic : bool) (live_hit_rate : option float) : lpy StagedRollbackResult :=
  let state := valid_state current_state in
  if catastrophic || (match live_hit_rate with Some h => fltb h CATASTROPHIC_HIT_RATE_FLOOR | None => false end)
     || bool_decide (reason = CATASTROPHIC_EXECUTION_DRIFT)
  then
    let lockout := days_ago ck (-14) in
    env_call (mark_shadow_policy_model_evicted reason 14) ;;!
    env_call (upsert_ai_policy_lifecycle_state
      (mkUpsert strategy_id symbol PASSIVE None 0 (Some (today_iso ck)) (Some lockout) Omitted Omitted)) ;;!
    py_modify (set_streak strategy_id 0) ;;!
    py_ret (mkRollback state PASSIVE CATASTROPHIC_EVICTION true reason (Some lockout) None None)
  else match state with
  | SOVEREIGN =>
      env_call (upsert_ai_policy_lifecycle_state
        (mkUpsert strategy_id symbol PROBATIONAL (Some (now_iso ck)) 0 (Some (today_iso ck)) None Omitted Omitted)) ;;!
      py_ret (mkRollback state PROBATIONAL SOVEREIGN_TO_PROBATIONAL false reason None None None)
  | PROBATIONAL =>
      env_call (upsert_ai_policy_lifecycle_state
        (mkUpsert strategy_id symbol PASSIVE None 0 (Some (today_iso ck)) None Omitted Omitted)) ;;!
      py_modify (set_streak strategy_id 0) ;;!
      py_ret (mkRollback state PASSIVE PROBATIONAL_TO_PASSIVE false reason None None None)
  | PASSIVE => py_ret (mkRollback state state TIER_NONE false "no_rollback_applicable" None None None)
  end.

(** [str(restored.get("runtime_regime") or restored.get("regime") or "UNKNOWN")]: texts are what the
    configuration holds there. *)
Definition json_text (j : option json) : string := match j with Some (JStr s) => s | _ => "" end.

Definition restored_of (backup : option (Z * string)) : list (string * json) * option Z :=
  match backup with
  | None => ([], None)
  | Some (version, raw) =>
      (match yaml_params raw with
       | Some ps => assoc_set "config_version_id" (JInt version)
                      (assoc_set "fallback_class" (JStr "BASELINE_FALLBACK")
                         (assoc_set "fallback_mode_active" (JBool true) ps))
       | None => []
       end, Some version)
  end.

(** [journal]: whether the caller passes one. *)
Definition execute_attribution_rules_rollback (ck : clock) (strategy_id symbol current_state reason : string)
    (journal : bool) : lpy StagedRollbackResult :=
  let! rollback := execute_staged_rollback ck current_state strategy_id symbol reason false None in
  let! backup := env_call (get_prior_config_backup symbol) in
  let restored := (restored_of backup).1 in
  (if journal && match restored with [] => false | _ => true end
   then env_call (record_journal (mkNote "recovery_rollback" strategy_id current_state PASSIVE reason))
   else py_ret tt) ;;!
  env_call (mark_failed_live_attribution symbol
    (str_or (json_text (assoc "runtime_regime" restored))
       (str_or (json_text (assoc "regime" restored)) "UNKNOWN")) strategy_id) ;;!
  py_ret (mkRollback (rb_prior_state rollback) (rb_new_state rollback) (rb_tier rollback)
    (rb_catastrophic rollback) (rb_reason rollback) (rb_eviction_lockout_until rollback)
    (match restored with [] => None | _ => Some restored end) (restored_of backup).2).

Definition execute_velocity_shock_demotion (ck : clock) (current_state strategy_id symbol shock_reason : string)
    : lpy StagedRollbackResult :=
  let state := valid_state current_state in
  match state with
  | PASSIVE => py_ret (mkRollback state state TIER_NONE false "velocity_shock_not_applicable" None None None)
  | _ =>
      env_call (upsert_ai_policy_lifecycle_state
        (mkUpsert strategy_id symbol PASSIVE None 0 (Some (today_iso ck)) None
           (Put (Some (state_value state))) (Put (Some (now_iso ck))))) ;;!
      py_modify (set_streak strategy_id 0) ;;!
      py_ret (mkRollback state PASSIVE VELOCITY_SHOCK_DEMOTION false
                (str_or shock_reason MACRO_VELOCITY_SHOCK_REASON) None None None)
  end.

(** The state a leg starts from: its row's, or its parameters' when it has none. *)
Definition current_of (stored : option lifecycle_row) (params : leg_params) : policy_state :=
  valid_state (match stored with
               | Some r => lr_execution_state r
               | None => default (state_value PASSIVE) (lp_execution_state params)
               end).

Fixpoint shock_legs (ck : clock) (shock_reason : string) (legs : list leg_context) : lpy (list LifecycleTransition) :=
  match legs with
  | [] => py_ret []
  | leg :: legs =>
      let! stored := env_call (get_ai_policy_lifecycle_state (lc_strategy_id leg)) in
      let! rollback := execute_velocity_shock_demotion ck
        (state_value (current_of stored (lc_params leg))) (lc_strategy_id leg) (lc_symbol leg) shock_reason in
      let! rest := shock_legs ck shock_reason legs in
      py_ret ((if bool_decide (rb_tier rollback = VELOCITY_SHOCK_DEMOTION)
               then [mkTransition (lc_strategy_id leg) (lc_symbol leg) (rb_prior_state rollback)
                       (rb_new_state rollback) (rb_reason rollback)] else []) ++ rest)
  end.

Definition handle_macro_velocity_shock (ck : clock) (shock_detected : bool) (reason : string)
    (legs : list leg_context) : lpy (list LifecycleTransition) :=
  if shock_detected then shock_legs ck (str_or reason MACRO_VELOCITY_SHOCK_REASON) legs else py_ret [].

(** ** Recovery from a shock *)

(** The state restored, why, and the shadow verdict if it was taken. *)
Definition attempt_velocity_shock_recovery (t : tables) (ck : clock) (symbol : string) (stored : lifecycle_row)
    (stabilization : option RegimeStabilizationVerdict)
    : string * string * option VelocityShockRecoveryVerdict :=
  match (match some_str (opt_or (lr_velocity_shock_prior_state stored) "") with
         | Some p => parse_state p | None => None end) with
  | None => (lr_execution_state stored, "unchanged", None)
  | Some prior =>
      if negb (bool_decide (lr_execution_state stored = state_value PASSIVE))
      then (lr_execution_state stored, "unchanged", None)
      else match stabilization with
      | None => (state_value PASSIVE, "no_stabilization_verdict", None)
      | Some v =>
          if negb (stabilized v) then
            (state_value PASSIVE,
             (let r := stabilization_reason v in
              if bool_decide (r = "cool_off_window_incomplete") then "velocity_shock_cool_off_pending"
              else if bool_decide (r = "composite_stress_above_hysteresis_threshold")
              then "velocity_shock_hysteresis_blocked"
              else if bool_decide (r = "no_recorded_velocity_shock") then "unchanged" else r), None)
          else
            let recovery := velocity_shock_shadow_recovery t ck symbol
                              (some_str (opt_or (lr_velocity_shock_demoted_at stored) "")) in
            if vr_approved recovery
            then (state_value prior, VELOCITY_SHOCK_RECOVERY_REASON, Some recovery)
            else (state_value PASSIVE, String.concat "|" (vr_reasons recovery), Some recovery)
      end
  end.

(** One leg of [process_intraday_velocity_shock_recovery]; [None] when nothing is reported. *)
Definition recover_leg (ck : clock) (stabilization : option RegimeStabilizationVerdict) (journal : bool)
    (leg : leg_context) : lpy (option transition_payload) :=
  let! stored := env_call (get_ai_policy_lifecycle_state (lc_strategy_id leg)) in
  match stored with
  | None => py_ret None
  | Some row =>
      if negb (bool_decide (lr_execution_state row = state_value PASSIVE)) then py_ret None
      else fun w =>
        (let '(restored, reason, verdict) :=
           attempt_velocity_shock_recovery (ledgers w) ck (lc_symbol leg) row stabilization in
         if bool_decide (reason = "unchanged") then py_ret None
         else
           let to := valid_state restored in
           let payload := mkPayload PASSIVE to reason None in
           match to with
           | PASSIVE => py_ret (Some payload)
           | _ =>
               (if journal then env_call (record_journal
                  (mkNote "ai_lifecycle_adjustment" (lc_strategy_id leg) (state_value PASSIVE) to reason))
                else py_ret tt) ;;!
               env_call (upsert_ai_policy_lifecycle_state
                 (mkUpsert (lc_strategy_id leg) (lc_symbol leg) to
                    (match to, lr_probation_started_at row with
                     | PROBATIONAL, None => Some (now_iso ck)
                     | _, started => started end)
                    (lr_clean_days row) (lr_last_anomaly_session row) (lr_eviction_lockout_until row)
                    (Put None) (Put None))) ;;!
               py_ret (Some payload)
           end) w
  end.

Fixpoint process_intraday_velocity_shock_recovery (ck : clock)
    (stabilization : option RegimeStabilizationVerdict) (journal : bool) (legs : list leg_context)
    : lpy (list (string * transition_payload)) :=
  match legs with
  | [] => py_ret []
  | leg :: legs =>
      let! payload := recover_leg ck stabilization journal leg in
      let! rest := process_intraday_velocity_shock_recovery ck stabilization journal legs in
      py_ret (match payload with Some p => (lc_strategy_id leg, p) :: rest | None => rest end)
  end.

(** ** The evening *)

Definition probation_anomaly_detected (t : tables) (strategy_id session_date : string) : bool :=
  existsb (fun r => bool_decide (he_strategy_id r = strategy_id)
                    && since (String.append session_date "T00:00:00") (he_timestamp r)
                    && bool_decide (he_new_status r ∈ ["DEFENSIVE"; "DEGRADED"]))
    (default [] (system_health_ledger t)).

(** The branch of a leg's state: the new state, the reason, the clean days and the start of probation. *)
Definition evening_branch (ck : clock) (journal : bool) (leg : leg_context) (stored : option lifecycle_row)
    (current : policy_state) : lpy (policy_state * string * Z * option string) :=
  let id := lc_strategy_id leg in
  let clean := match stored with Some r => lr_clean_days r | None => 0%Z end in
  let started := match stored with Some r => lr_probation_started_at r | None => None end in
  match current with
  | PASSIVE =>
      let! verdict := evaluate_probation_entry ck (lc_symbol leg) None in
      py_ret (if pe_approved verdict
              then (PROBATIONAL, "probation_entry_sieve_passed", 0%Z, Some (now_iso ck))
              else (PASSIVE, "unchanged", clean, started))
  | PROBATIONAL | SOVEREIGN =>
      let! slo := evaluate_live_attribution_slo ck id (lc_symbol leg) (lc_params leg) in
      if as_breached slo then
        let! rollback := execute_attribution_rules_rollback ck id (lc_symbol leg) (state_value current)
          (String.concat "|" (as_reasons slo)) journal in
        py_ret (rb_new_state rollback, "attribution_slo_rollback", clean, started)
      else
        let! edge := evaluate_probation_edge ck id (lc_symbol leg) in
        match current with
        | SOVEREIGN =>
            if negb (ed_maintains_edge edge) && (1 <=? ed_decay_streak edge)%Z then
              let! rollback := execute_staged_rollback ck (state_value current) id (lc_symbol leg)
                "sovereign_edge_decay" false None in
              py_ret (rb_new_state rollback, rb_reason rollback, clean, started)
            else py_ret (current, "unchanged", clean, started)
        | _ =>
            if bool_decide (ed_directive edge = PREEMPTIVE_DEGRADE) then
              let! rollback := execute_staged_rollback ck (state_value current) id (lc_symbol leg)
                (ed_reason edge) false None in
              py_ret (rb_new_state rollback, rb_reason rollback, clean, started)
            else fun w =>
              (let clean :=
                 if probation_anomaly_detected (ledgers w) id (today_iso ck) then 0%Z
                 else if match stored with
                         | None => true
                         | Some r => negb (bool_decide (String.substring 0 10 (lr_updated_at r) = today_iso ck))
                         end then (clean + 1)%Z else clean in
               let! verdict := evaluate_sovereign_promotion ck (lc_symbol leg) clean in
               py_ret (if sv_approved verdict
                       then (SOVEREIGN, "sovereign_promotion_criteria_met", clean, started)
                       else (current, "unchanged", clean, started))) w
        end
  end.

Definition evening_leg (ck : clock) (journal : bool) (leg : leg_context) : lpy transition_payload :=
  let! stored := env_call (get_ai_policy_lifecycle_state (lc_strategy_id leg)) in
  let prior := current_of stored (lc_params leg) in
  let! out := evening_branch ck journal leg stored prior in
  (fun w =>
   (let '(current, reason, clean, started) := out in
    env_call (upsert_ai_policy_lifecycle_state
      (mkUpsert (lc_strategy_id leg) (lc_symbol leg) current started clean
         (if probation_anomaly_detected (ledgers w) (lc_strategy_id leg) (today_iso ck) then Some (today_iso ck)
          else match stored with Some r => lr_last_anomaly_session r | None => None end)
         (match stored with Some r => lr_eviction_lockout_until r | None => None end)
         Unchanged Unchanged)) ;;!
    py_ret (mkPayload prior current reason (Some clean))) w).

(** [legs] are the caller's, or the enabled strategies of the configuration. The reports are
    listed in the order of the legs. *)
Fixpoint run_evening_progression (ck : clock) (journal : bool) (legs : list leg_context)
    : lpy (list (string * transition_payload)) :=
  match legs with
  | [] => py_ret []
  | leg :: legs =>
      let! payload := evening_leg ck journal leg in
      let! rest := run_evening_progression ck journal legs in
      py_ret ((lc_strategy_id leg, payload) :: rest)
  end.

(** [run_ai_policy_lifecycle_progression] of [maintenance_scheduler]: a new manager every evening. *)
Definition scheduled_evening (ck : clock) (legs : list leg_context) : lpy (list (string * transition_payload)) :=
  fun w => run_evening_progression ck true legs (mkWorld ∅ (ledgers w) (rest w)).
End Manager.

(** ** What the environment promises *)

Definition field_written (f : field) (old new : option string) : Prop :=
  match f with Put v => new = v | Unchanged => new = old | Omitted => new = old \/ new = None end.

Class LifecycleLaws (R : Type) `{LifecycleEnv R} := {
  rows : R -> gmap string lifecycle_row;
  state_value_inj a b : state_value a = state_value b -> a = b;
  state_value_truthy a : truthy (state_value a) = true;
  get_law k s : rows (get_ai_policy_lifecycle_state k s).2 = rows s /\
    forall o, (get_ai_policy_lifecycle_state k s).1 = Ok o -> o = rows s !! k;
  upsert_raises u s e : (upsert_ai_policy_lifecycle_state u s).1 = Raise e ->
    rows (upsert_ai_policy_lifecycle_state u s).2 = rows s;
  upsert_law u s : (upsert_ai_policy_lifecycle_state u s).1 = Ok tt ->
    exists row, rows (upsert_ai_policy_lifecycle_state u s).2 = <[up_strategy_id u := row]> (rows s) /\
      lr_execution_state row = state_value (up_execution_state u) /\
      lr_probation_started_at row = up_probation_started_at u /\
      lr_clean_days row = up_clean_days u /\
      lr_last_anomaly_session row = up_last_anomaly_session u /\
      lr_eviction_lockout_until row = up_eviction_lockout_until u /\
      field_written (up_velocity_shock_prior_state u)
        (rows s !! up_strategy_id u ≫= lr_velocity_shock_prior_state) (lr_velocity_shock_prior_state row) /\
      field_written (up_velocity_shock_demoted_at u)
        (rows s !! up_strategy_id u ≫= lr_velocity_shock_demoted_at) (lr_velocity_shock_demoted_at row);
  evicted_quiet s : rows (is_shadow_policy_model_evicted s).2 = rows s;
  mark_evicted_quiet r d s : rows (mark_shadow_policy_model_evicted r d s).2 = rows s;
  tuples_quiet s : rows (count_shadow_rl_ledger_tuples s).2 = rows s;
  backup_quiet k s : rows (get_prior_config_backup k s).2 = rows s;
  mark_failed_quiet a b c s : rows (mark_failed_live_attribution a b c s).2 = rows s;
  journal_quiet n s : rows (record_journal n s).2 = rows s
}.

(** ** Histories *)

Inductive lifecycle_event :=
  | EvEvening (ck : clock) (journal : bool) (legs : list leg_context)
  | EvScheduledEvening (ck : clock) (legs : list leg_context)
  | EvShock (ck : clock) (detected : bool) (reason : string) (legs : list leg_context)
  | EvRecovery (ck : clock) (stabilization : option RegimeStabilizationVerdict) (journal : bool)
      (legs : list leg_context)
  | EvRollback (ck : clock) (current id symbol reason : string) (catastrophic : bool) (hit_rate : option float)
  | EvAttributionRollback (ck : clock) (id symbol current reason : string) (journal : bool)
  | EvLedgers (t : tables)                    (* the other components write the ledgers *)
  | EvRestart.

Section Authority.
Context `{Numerics} {R : Type} `{!LifecycleEnv R} `{!LifecycleLaws R}.

Definition lifecycle_step (w : world R) (e : lifecycle_event) : world R :=
  match e with
  | EvEvening ck journal legs => (run_evening_progression ck journal legs w).2
  | EvScheduledEvening ck legs => (scheduled_evening ck legs w).2
  | EvShock ck detected reason legs => (handle_macro_velocity_shock ck detected reason legs w).2
  | EvRecovery ck stabilization journal legs =>
      (process_intraday_velocity_shock_recovery ck stabilization journal legs w).2
  | EvRollback ck current id symbol reason catastrophic hit_rate =>
      (execute_staged_rollback ck current id symbol reason catastrophic hit_rate w).2
  | EvAttributionRollback ck id symbol current reason journal =>
      (execute_attribution_rules_rollback ck id symbol current reason journal w).2
  | EvLedgers t => mkWorld (edge_decay_streak w) t (rest w)
  | EvRestart => mkWorld ∅ (ledgers w) (rest w)
  end.

Definition row_of (k : string) (w : world R) : option lifecycle_row := rows (rest w) !! k.

(** The leg has full authority, or would get it back from a shock. *)
Definition authority (k : string) (w : world R) : Prop :=
  exists r, row_of k w = Some r /\
    (lr_execution_state r = state_value SOVEREIGN \/
     lr_velocity_shock_prior_state r = Some (state_value SOVEREIGN)).

Definition event_legs (e : lifecycle_event) : list leg_context :=
  match e with
  | EvEvening _ _ legs | EvScheduledEvening _ legs | EvShock _ _ _ legs | EvRecovery _ _ _ legs => legs
  | _ => []
  end.

(** The clean days an evening counts for a leg: none after an anomaly today, and one more than the
    stored row's unless that row was already written today. *)
Definition clean_today (t : tables) (ck : clock) (k : string) (stored : option lifecycle_row) : Z :=
  if probation_anomaly_detected t k (today_iso ck) then 0%Z
  else match stored with
       | None => 1%Z
       | Some r => if bool_decide (String.substring 0 10 (lr_updated_at r) = today_iso ck)
                   then lr_clean_days r else (lr_clean_days r + 1)%Z
       end.

(** The promotion criteria at these ledgers: 25 fills of the symbol in 30 days, ten distinct days of
    them or ten clean days, an average slippage of at most 0.15%, the fill quality that goes with it
    of at least 0.70, and an edge of the policy over the rules of at least 0.02. *)
Definition criteria_met (t : tables) (ck : clock) (symbol : string) (clean : Z) : Prop :=
  let fills := attribution_of t ck 30 None symbol in
  let slippage := match fills with [] => fzero | _ => pl_mean (map at_slippage_pct fills) end in
  let edges := pairs_of (load_shadow_frame t ck 30 (some_str (upper symbol))) in
  25 <= length fills /\
  (10 <= length (remove_dups (map (fun r => String.substring 0 10 (at_timestamp r)) fills)) \/
   (10 <= clean)%Z) /\
  fltb (lit 15 4) slippage = false /\
  fltb (fsub fone (np_clip (fdiv slippage (lit 15 4)) fzero fone)) (lit 70 2) = false /\
  fltb (match edges with [] => fzero | _ => fsub (np_mean (map fst edges)) (np_mean (map snd edges)) end)
    (lit 2 2) = false.

(** An evening over [legs] that reaches the leg on probation, with what it has stored then,
    unbreached in live trading and with every criterion met. *)
Definition evening_promotes (k : string) (ck : clock) (journal : bool) (legs : list leg_context)
    (w : world R) : Prop :=
  exists before leg after out w1,
    legs = before ++ leg :: after /\ lc_strategy_id leg = k /\
    run_evening_progression ck journal before w = (Ok out, w1) /\
    current_of (row_of k w1) (lc_params leg) = PROBATIONAL /\
    as_breached (live_attribution_slo (ledgers w) ck k (lc_symbol leg) (lc_params leg)) = false /\
    criteria_met (ledgers w) ck (lc_symbol leg) (clean_today (ledgers w) ck k (row_of k w1)).

Definition promotion_met (k : string) (w : world R) (e : lifecycle_event) : Prop :=
  match e with
  | EvEvening ck journal legs => evening_promotes k ck journal legs w
  | EvScheduledEvening ck legs => evening_promotes k ck true legs (mkWorld ∅ (ledgers w) (rest w))
  | _ => False
  end.

(** A call is handed the leg as sovereign by its parameters, and there is no row for it. *)
Definition configured (k : string) (w : world R) (e : lifecycle_event) : Prop :=
  row_of k w = None /\
  exists leg, leg ∈ event_legs e /\ lc_strategy_id leg = k /\
    lp_execution_state (lc_params leg) = Some (state_value SOVEREIGN).

Lemma approved_criteria t ck symbol clean :
  sv_approved (sovereign_promotion t ck symbol clean) = true -> criteria_met t ck symbol clean.
Proof.
  unfold sovereign_promotion, criteria_met. cbv zeta. unfold sv_approved. cbn [sv_reasons].
  set (fills := attribution_of t ck 30 None symbol). intros Hr.
  destruct (Z.ltb_spec (Z.of_nat (length fills)) SOVEREIGN_MIN_FILLED_TRADES) as [|Hf]; [done|].
  destruct (Z.ltb_spec (Z.max (Z.of_nat (length (remove_dups (map (fun r => String.substring 0 10 (at_timestamp r)) fills))))
                clean) SOVEREIGN_MIN_VERIFIED_TRADING_DAYS) as [|Hd]; [done|].
  split; [unfold SOVEREIGN_MIN_FILLED_TRADES in Hf; lia|].
  split; [unfold SOVEREIGN_MIN_VERIFIED_TRADING_DAYS in Hd; lia|].
  change (lit 15 4) with SOVEREIGN_MAX_AVG_SLIPPAGE_PCT. change (lit 70 2) with SOVEREIGN_MIN_FILL_QUALITY_SCORE.
  change (lit 2 2) with SOVEREIGN_MIN_EDGE_VS_RULES.
  cbn [app] in Hr. destruct (fltb SOVEREIGN_MAX_AVG_SLIPPAGE_PCT _); [done|]. split; [done|].
  cbn [app] in Hr. destruct fills eqn:Ef; [unfold SOVEREIGN_MIN_FILLED_TRADES in Hf; simpl in Hf; lia|].
  destruct (fltb (fsub fone _) _); [done|]. split; [done|].
  cbn [app] in Hr. destruct (pairs_of _); by destruct (fltb _ SOVEREIGN_MIN_EDGE_VS_RULES).
Qed.

(** ** A call gives authority on a warrant only *)

Section Warrant.
Context (k : string) (w0 : world R) (G : Prop).
Let t : tables := ledgers w0.

(** No row is ever removed. *)
Definition guarded (w : world R) : Prop :=
  ledgers w = t /\ (row_of k w = None -> row_of k w0 = None) /\ (authority k w -> G).

Definition safe {A} (c : py (world R) string A) (Q : A -> Prop) : Prop :=
  forall w, guarded w -> guarded (c w).2 /\ forall a, (c w).1 = Ok a -> Q a.

Lemma safe_ret {A} (a : A) (Q : A -> Prop) : Q a -> safe (py_ret a) Q.
Proof. intros HQ w Hw. split; [done|]. intros b [= <-]. exact HQ. Qed.

Lemma safe_bind {A B} (c : py (world R) string A) (f : A -> py (world R) string B) Q Q' :
  safe c Q -> (forall a, Q a -> safe (f a) Q') -> safe (py_bind c f) Q'.
Proof.
  intros Hc Hf w Hw. destruct (Hc w Hw) as [Hw' Ha]. unfold py_bind.
  destruct (c w) as [[a|e] w'] eqn:E; cbn in *; [|done].
  by apply (Hf a (Ha a eq_refl) w').
Qed.

Lemma safe_weaken {A} (c : py (world R) string A) (Q Q' : A -> Prop) :
  safe c Q -> (forall a, Q a -> Q' a) -> safe c Q'.
Proof. intros Hc HQ w Hw. destruct (Hc w Hw) as [Hw' Ha]. auto. Qed.

Lemma safe_quiet {A} (c : py R string A) : (forall s, rows (c s).2 = rows s) -> safe (env_call c) (fun _ => True).
Proof.
  intros Hq w (Ht & Hn & Ha). unfold env_call. specialize (Hq (rest w)). destruct (c (rest w)) as [r s'].
  split; [|done]. split; [done|]. unfold row_of in *. cbn in *. rewrite Hq. split; [exact Hn|].
  intros (row & Hr & Hs). apply Ha. exists row. unfold row_of in *. cbn in *.
  by rewrite Hq in Hr.
Qed.

Lemma safe_get id :
  safe (env_call (get_ai_policy_lifecycle_state id)) (fun o => id = k ->
    (o = None -> row_of k w0 = None) /\
    forall r, o = Some r ->
    (lr_execution_state r = state_value SOVEREIGN \/
     lr_velocity_shock_prior_state r = Some (state_value SOVEREIGN)) -> G).
Proof.
  intros w (Ht & Hn & Ha). destruct (get_law id (rest w)) as [Hq Ho]. unfold env_call.
  destruct (get_ai_policy_lifecycle_state id (rest w)) as [r s'] eqn:E. cbn in *. split.
  - split; [done|]. unfold row_of in *. cbn in *. rewrite Hq. split; [exact Hn|].
    intros (row & Hr & Hs). apply Ha. exists row. unfold row_of in *. cbn in *. by rewrite Hq in Hr.
  - intros o -> <-. specialize (Ho o eq_refl). split; [intros ->; by apply Hn|].
    intros row -> Hs. apply Ha. exists row. by split.
Qed.

Lemma safe_upsert u :
  (up_strategy_id u = k -> up_execution_state u = SOVEREIGN \/
     up_velocity_shock_prior_state u = Put (Some (state_value SOVEREIGN)) -> G) ->
  safe (env_call (upsert_ai_policy_lifecycle_state u)) (fun _ => True).
Proof.
  intros HG w (Ht & Hn & Ha). pose proof (upsert_raises u (rest w)) as He. pose proof (upsert_law u (rest w)) as Hok.
  unfold env_call. destruct (upsert_ai_policy_lifecycle_state u (rest w)) as [[[]|e] s'] eqn:E; cbn in *.
  - split; [|done]. split; [done|]. destruct (Hok eq_refl) as (row & Hrows & Hst & _ & _ & _ & _ & Hp & _).
    split.
    { unfold row_of in *. cbn. rewrite Hrows. destruct (decide (up_strategy_id u = k)) as [->|Hk];
        [by rewrite lookup_insert_eq|by rewrite lookup_insert_ne]. }
    intros (r & Hr & Hs). unfold row_of in Hr. cbn in Hr. rewrite Hrows in Hr.
    destruct (decide (up_strategy_id u = k)) as [Hk|Hk].
    2:{ rewrite lookup_insert_ne in Hr by done. apply Ha. by exists r. }
    rewrite Hk, lookup_insert_eq in Hr. injection Hr as ->. rewrite Hk in Hp. destruct Hs as [Hs|Hs].
    { apply HG; [done|]. left. apply state_value_inj. congruence. }
    assert (rows (rest w) !! k ≫= lr_velocity_shock_prior_state = Some (state_value SOVEREIGN) -> G) as Hold.
    { intros Hold. destruct (rows (rest w) !! k) as [old|] eqn:Eo; [|done]. apply Ha. exists old. split; [exact Eo|by right]. }
    destruct (up_velocity_shock_prior_state u) as [| |v]; cbn in Hp.
    + destruct Hp as [Hp|Hp]; [|congruence]. apply Hold. congruence.
    + apply Hold. congruence.
    + apply HG; [done|]. right. congruence.
  - split; [|done]. split; [done|]. unfold row_of in *. cbn in *. rewrite (He e eq_refl). split; [exact Hn|].
    intros (row & Hr & Hs). apply Ha. exists row. unfold row_of in *. cbn in *. by rewrite (He e eq_refl) in Hr.
Qed.

Lemma safe_streak id n : safe (py_modify (set_streak id n)) (fun _ => True).
Proof. intros w Hw. split; [exact Hw|done]. Qed.

Lemma valid_state_value p : valid_state (state_value p) = p.
Proof.
  unfold valid_state, parse_state. destruct p; cbn; repeat case_bool_decide; try done;
    exfalso; match goal with E : state_value _ = state_value _ |- _ => by apply state_value_inj in E | _ => naive_solver end.
Qed.

Lemma safe_staged ck current id symbol reason catastrophic hit :
  safe (execute_staged_rollback ck current id symbol reason catastrophic hit)
    (fun r => rb_new_state r <> SOVEREIGN).
Proof.
  unfold execute_staged_rollback. destruct (_ || _).
  - eapply safe_bind; [apply safe_quiet; intros; apply mark_evicted_quiet|]. intros _ _.
    eapply safe_bind; [apply safe_upsert; cbn; naive_solver|]. intros _ _.
    eapply safe_bind; [apply safe_streak|]. intros _ _. by apply safe_ret.
  - destruct (valid_state current).
    + by apply safe_ret.
    + eapply safe_bind; [apply safe_upsert; cbn; naive_solver|]. intros _ _.
      eapply safe_bind; [apply safe_streak|]. intros _ _. by apply safe_ret.
    + eapply safe_bind; [apply safe_upsert; cbn; naive_solver|]. intros _ _. by apply safe_ret.
Qed.

Lemma safe_attribution_rollback ck id symbol current reason journal :
  safe (execute_attribution_rules_rollback ck id symbol current reason journal)
    (fun r => rb_new_state r <> SOVEREIGN).
Proof.
  unfold execute_attribution_rules_rollback.
  eapply safe_bind; [apply safe_staged|]. intros rollback Hr.
  eapply safe_bind; [apply safe_quiet; intros; apply backup_quiet|]. intros backup _. cbv zeta.
  eapply (safe_bind _ _ (fun _ => True)).
  - destruct (_ && _); [apply safe_quiet; intros; apply journal_quiet|by apply safe_ret].
  - intros _ _. eapply safe_bind; [apply safe_quiet; intros; apply mark_failed_quiet|]. intros _ _. by apply safe_ret.
Qed.

Lemma valid_state_sovereign s : valid_state s = SOVEREIGN -> s = state_value SOVEREIGN.
Proof.
  unfold valid_state, parse_state. cbn. repeat case_bool_decide; naive_solver.
Qed.

Lemma current_sovereign stored params :
  current_of stored params = SOVEREIGN ->
  (exists r, stored = Some r /\ lr_execution_state r = state_value SOVEREIGN) \/
  (stored = None /\ lp_execution_state params = Some (state_value SOVEREIGN)).
Proof.
  unfold current_of. intros Hv%valid_state_sovereign. destruct stored as [r|]; [left; by exists r|right].
  destruct (lp_execution_state params) as [s|]; cbn in Hv; [by subst|].
  by apply state_value_inj in Hv.
Qed.

(** What a call does to a fixed state of the ledgers, it does to the ledgers it reads. *)
Lemma safe_apply {A} (c : py (world R) string A) (Q : A -> Prop) w :
  safe c Q -> guarded w -> guarded (c w).2 /\ forall a, (c w).1 = Ok a -> Q a.
Proof. intros Hc Hw. exact (Hc w Hw). Qed.

Lemma safe_demotion ck current id symbol reason :
  (id = k -> current = state_value SOVEREIGN -> G) ->
  safe (execute_velocity_shock_demotion ck current id symbol reason) (fun _ => True).
Proof.
  intros HG. unfold execute_velocity_shock_demotion.
  destruct (valid_state current) eqn:Hv; [by apply safe_ret|..];
    (eapply safe_bind;
      [apply safe_upsert; cbn; intros Hk [Hs|Hs]; [done|]
      |intros _ _; eapply safe_bind; [apply safe_streak|intros _ _; by apply safe_ret]]).
  { injection Hs as Hs. by apply state_value_inj in Hs. }
  by apply HG; [|apply valid_state_sovereign].
Qed.

(** What it is worth that the leg's parameters say it is sovereign. *)
Definition params_warrant (leg : leg_context) : Prop :=
  lc_strategy_id leg = k -> lp_execution_state (lc_params leg) = Some (state_value SOVEREIGN) ->
  row_of k w0 = None -> G.

Lemma current_warrant leg stored :
  params_warrant leg ->
  (lc_strategy_id leg = k -> (stored = None -> row_of k w0 = None) /\
    forall r, stored = Some r -> (lr_execution_state r = state_value SOVEREIGN \/
      lr_velocity_shock_prior_state r = Some (state_value SOVEREIGN)) -> G) ->
  lc_strategy_id leg = k -> current_of stored (lc_params leg) = SOVEREIGN -> G.
Proof.
  intros Hleg Hst Hk Hs. destruct (Hst Hk) as [Hnone Hsome].
  destruct (current_sovereign _ _ Hs) as [(r & -> & Hr)|[-> Hp]]; [|by apply Hleg; auto].
  apply (Hsome r eq_refl). by left.
Qed.

Lemma safe_shock ck reason legs :
  Forall params_warrant legs -> safe (shock_legs ck reason legs) (fun _ => True).
Proof.
  induction 1 as [|leg legs Hleg _ IH]; [by apply safe_ret|]. cbn [shock_legs].
  eapply safe_bind; [apply safe_get|]. intros stored Hst. cbn in Hst.
  eapply safe_bind.
  - apply safe_demotion. intros Hk Hs%state_value_inj. by eapply current_warrant.
  - intros rollback _. eapply safe_bind; [exact IH|]. intros ts _. by apply safe_ret.
Qed.

Lemma attempt_restores ck symbol row stabilization restored reason verdict :
  attempt_velocity_shock_recovery t ck symbol row stabilization = (restored, reason, verdict) ->
  lr_execution_state row = state_value PASSIVE -> valid_state restored = SOVEREIGN ->
  lr_velocity_shock_prior_state row = Some (state_value SOVEREIGN).
Proof.
  unfold attempt_velocity_shock_recovery. intros Ha Hp Hv%valid_state_sovereign. subst restored.
  assert (Hne : state_value PASSIVE <> state_value SOVEREIGN) by (intros E; by apply state_value_inj in E).
  destruct (match some_str _ with Some _ => _ | None => _ end) as [prior|] eqn:Eprior.
  2:{ injection Ha as Ha _ _. congruence. }
  rewrite Hp in Ha. rewrite bool_decide_true in Ha by done. cbn [negb] in Ha.
  destruct stabilization as [v|]; [|injection Ha as Ha _ _; congruence].
  destruct (negb (stabilized v)); [injection Ha; congruence|].
  destruct (vr_approved _); [|injection Ha as Ha _ _; congruence].
  injection Ha as Ha _ _. apply state_value_inj in Ha. subst prior.
  destruct (lr_velocity_shock_prior_state row) as [[|c s]|]; [done| |done]. cbn [opt_or str_or some_str truthy] in Eprior.
  f_equal. apply valid_state_sovereign. unfold valid_state. by rewrite Eprior.
Qed.

Lemma safe_recover ck stabilization journal leg :
  safe (recover_leg ck stabilization journal leg) (fun _ => True).
Proof.
  unfold recover_leg. eapply safe_bind; [apply safe_get|]. intros [row|] Hst; [|by apply safe_ret].
  case_bool_decide as Hp; [|by apply safe_ret]. cbn [negb]. intros w Hw. pose proof Hw as [Ht _].
  rewrite Ht. apply safe_apply; [|exact Hw].
  destruct (attempt_velocity_shock_recovery _ _ _ _ _) as [[restored reason] verdict] eqn:Ea.
  case_bool_decide; [by apply safe_ret|]. cbv zeta.
  destruct (valid_state restored) eqn:Hv; [by apply safe_ret|..];
    (eapply (safe_bind _ _ (fun _ => True));
      [destruct journal; [apply safe_quiet; intros; apply journal_quiet|by apply safe_ret]|intros _ _];
     eapply safe_bind; [apply safe_upsert; cbn; intros Hk [Hs|Hs]; [|done]|intros _ _; by apply safe_ret]); [done|].
  apply (proj2 (Hst Hk) row eq_refl). right. by eapply attempt_restores.
Qed.

Lemma safe_recovery ck stabilization journal legs :
  safe (process_intraday_velocity_shock_recovery ck stabilization journal legs) (fun _ => True).
Proof.
  induction legs as [|leg legs IH]; [by apply safe_ret|]. cbn [process_intraday_velocity_shock_recovery].
  eapply safe_bind; [apply safe_recover|]. intros payload _.
  eapply safe_bind; [exact IH|]. intros rest _. by apply safe_ret.
Qed.

(** What it is worth that the leg, with this row, is promoted. *)
Definition promotes (ck : clock) (leg : leg_context) (stored : option lifecycle_row) : Prop :=
  lc_strategy_id leg = k -> current_of stored (lc_params leg) = PROBATIONAL ->
  as_breached (live_attribution_slo t ck k (lc_symbol leg) (lc_params leg)) = false ->
  criteria_met t ck (lc_symbol leg) (clean_today t ck k stored) -> G.

Lemma safe_reading {A} (a : world R -> A) : safe (fun w => (Ok (a w), w)) (fun _ => True).
Proof. intros w Hw. split; [exact Hw|done]. Qed.

Lemma safe_edge ck id symbol : safe (evaluate_probation_edge ck id symbol) (fun _ => True).
Proof.
  intros w Hw. unfold evaluate_probation_edge. destruct (load_shadow_frame _ _ _ _); split; try done; exact Hw.
Qed.

Lemma safe_entry ck symbol windows :
  safe (evaluate_probation_entry ck symbol windows) (fun _ => True).
Proof.
  intros w Hw. unfold evaluate_probation_entry. destruct (entry_windows _ _ _ _) as [w30 w60].
  apply safe_apply; [|exact Hw].
  eapply safe_bind; [apply safe_quiet; intros; apply tuples_quiet|]. intros n _.
  eapply safe_bind; [apply safe_quiet; intros; apply evicted_quiet|]. intros b _. by apply safe_ret.
Qed.

Lemma safe_slo ck leg :
  safe (evaluate_live_attribution_slo ck (lc_strategy_id leg) (lc_symbol leg) (lc_params leg))
    (fun slo => slo = live_attribution_slo t ck (lc_strategy_id leg) (lc_symbol leg) (lc_params leg)).
Proof. intros w Hw. split; [exact Hw|]. intros slo [= <-]. by destruct Hw as [-> _]. Qed.

Lemma safe_branch ck journal leg stored :
  promotes ck leg stored ->
  (lc_strategy_id leg = k -> current_of stored (lc_params leg) = SOVEREIGN -> G) ->
  safe (evening_branch ck journal leg stored (current_of stored (lc_params leg)))
    (fun out => lc_strategy_id leg = k -> out.1.1.1 = SOVEREIGN -> G).
Proof.
  unfold promotes. intros Hpro Hcur. unfold evening_branch. cbv zeta.
  destruct (current_of stored (lc_params leg)).
  - eapply safe_bind; [apply safe_entry|]. intros v _. apply safe_ret. by destruct (pe_approved v).
  - eapply safe_bind; [apply safe_slo|]. intros slo Hslo. destruct (as_breached slo) eqn:Eslo.
    { eapply safe_bind; [apply safe_attribution_rollback|]. intros r Hr. apply safe_ret. by cbn. }
    eapply safe_bind; [apply safe_edge|]. intros edge _. case_bool_decide.
    { eapply safe_bind; [apply safe_staged|]. intros r Hr. apply safe_ret. by cbn. }
    intros w Hw. pose proof Hw as [Ht _]. rewrite Ht. apply safe_apply; [|exact Hw].
    match goal with |- context[evaluate_sovereign_promotion ck _ ?c] =>
      assert (c = clean_today t ck (lc_strategy_id leg) stored) as -> end.
    { unfold clean_today. destruct (probation_anomaly_detected _ _ _); [done|].
      destruct stored as [r|]; [by case_bool_decide|done]. }
    eapply (safe_bind _ _ (fun v => v = sovereign_promotion t ck (lc_symbol leg) _)).
    { intros w' Hw'. pose proof Hw' as [Ht' _]. split; [exact Hw'|]. intros v [= <-]. by rewrite Ht'. }
    intros v ->. apply safe_ret. destruct (sv_approved _) eqn:Ev; cbn; [|done]. intros Hk _.
    rewrite Hslo in Eslo. rewrite Hk in *. by apply Hpro; [| | |apply approved_criteria].
  - eapply safe_bind; [apply safe_reading|]. intros slo _. destruct (as_breached slo).
    { eapply safe_bind; [apply safe_attribution_rollback|]. intros r Hr. apply safe_ret. by cbn. }
    eapply safe_bind; [apply safe_edge|]. intros edge _. destruct (_ && _).
    { eapply safe_bind; [apply safe_staged|]. intros r Hr. apply safe_ret. by cbn. }
    apply safe_ret. exact Hcur.
Qed.

Lemma safe_evening_leg ck journal leg w :
  promotes ck leg (row_of (lc_strategy_id leg) w) -> params_warrant leg -> guarded w ->
  guarded (evening_leg ck journal leg w).2.
Proof.
  intros Hpro Hleg Hw. unfold evening_leg.
  destruct (safe_get (lc_strategy_id leg) w Hw) as [Hw' Hst].
  destruct (get_law (lc_strategy_id leg) (rest w)) as [_ Ho].
  unfold py_bind at 1. unfold env_call in Hw', Hst |- * at 1. fold (row_of (lc_strategy_id leg) w) in Ho.
  destruct (get_ai_policy_lifecycle_state (lc_strategy_id leg) (rest w)) as [[stored|e] s']; [|exact Hw'].
  specialize (Hst stored eq_refl). specialize (Ho stored eq_refl). rewrite <- Ho in Hpro.
  refine (proj1 ((_ : safe _ (fun _ => True)) _ Hw')).
  eapply safe_bind.
  - apply safe_branch; [exact Hpro|]. intros Hk Hs. by eapply current_warrant.
  - intros [[[current reason] clean] started] Hout. cbn in Hout.
    intros w' Hw2. apply safe_apply; [|exact Hw2].
    eapply safe_bind; [apply safe_upsert; cbn|intros _ _; by apply safe_ret].
    intros Hk [Hs|Hs]; [by apply Hout|done].
Qed.

Lemma evening_snoc ck journal before leg w out w1 payload w2 :
  run_evening_progression ck journal before w = (Ok out, w1) ->
  evening_leg ck journal leg w1 = (Ok payload, w2) ->
  run_evening_progression ck journal (before ++ [leg]) w
  = (Ok (out ++ [(lc_strategy_id leg, payload)]), w2).
Proof.
  revert w out. induction before as [|l before IH]; intros w out; cbn [run_evening_progression app].
  - intros [= <- <-] E. unfold py_bind. by rewrite E.
  - unfold py_bind. destruct (evening_leg ck journal l w) as [[p|e] w']; [|done].
    destruct (run_evening_progression ck journal before w') as [[o|e] w''] eqn:E; [|done].
    intros [= <- <-] El. by rewrite (IH w' o E El).
Qed.

(** [w]: where the evening starts. *)
Lemma safe_evening ck journal legs before w out w1 :
  ledgers w = t -> (evening_promotes k ck journal (before ++ legs) w -> G) -> Forall params_warrant legs ->
  run_evening_progression ck journal before w = (Ok out, w1) -> guarded w1 ->
  guarded (run_evening_progression ck journal legs w1).2.
Proof.
  intros Ht HG Hlegs. revert before out w1 HG.
  induction Hlegs as [|leg legs Hleg _ IH]; intros before out w1 HG Hrun Hw1; [exact Hw1|].
  cbn [run_evening_progression]. unfold py_bind.
  assert (guarded (evening_leg ck journal leg w1).2) as Hw2.
  { apply safe_evening_leg; [|done|done]. intros Hk Hcur Hslo Hcrit. apply HG.
    rewrite Hk in Hcur, Hcrit. exists before, leg, legs, out, w1. rewrite Ht. done. }
  destruct (evening_leg ck journal leg w1) as [[payload|e] w2] eqn:E; [|exact Hw2]. cbn in Hw2.
  pose proof (IH (before ++ [leg]) (out ++ [(lc_strategy_id leg, payload)]) w2) as Hrest. rewrite <- app_assoc in Hrest.
  specialize (Hrest HG (evening_snoc _ _ _ _ _ _ _ _ _ Hrun E) Hw2).
  by destruct (run_evening_progression ck journal legs w2) as [[]].
Qed.
End Warrant.

Lemma lifecycle_step_safe k w e :
  authority k (lifecycle_step w e) -> authority k w \/ promotion_met k w e \/ configured k w e.
Proof.
  set (G := authority k w \/ promotion_met k w e \/ configured k w e).
  assert (Hw : guarded k w G w) by (split; [done|]; split; [done|by left]).
  assert (Forall (params_warrant k w G) (event_legs e)) as Hp.
  { apply Forall_forall. intros leg Hin Hk Hs Hn. right; right. split; [exact Hn|]. by exists leg. }
  destruct e as [ck journal legs|ck legs|ck detected reason legs|ck st journal legs|ck cur id sy re ca hr
                |ck id sy cur re journal|t|]; cbn [lifecycle_step].
  - refine (proj2 (proj2 (safe_evening k w G ck journal legs [] w [] w eq_refl _ Hp eq_refl Hw))).
    intros Hm. right; by left.
  - refine (proj2 (proj2 (safe_evening k w G ck true legs [] (mkWorld ∅ (ledgers w) (rest w)) [] _ eq_refl _ Hp eq_refl Hw))).
    intros Hm. right; by left.
  - unfold handle_macro_velocity_shock. destruct detected; [|by left].
    exact (proj2 (proj2 (proj1 (safe_shock k w G ck _ legs Hp w Hw)))).
  - exact (proj2 (proj2 (proj1 (safe_recovery k w G ck st journal legs w Hw)))).
  - exact (proj2 (proj2 (proj1 (safe_staged k w G ck cur id sy re ca hr w Hw)))).
  - exact (proj2 (proj2 (proj1 (safe_attribution_rollback k w G ck id sy cur re journal w Hw)))).
  - by left.
  - by left.
Qed.

Notation lifecycle_runs := (runs lifecycle_step).

(** C24: a leg that has no authority (its row is not sovereign, nor would a shock's recovery make
    it so) has it later only if at some point of the history an evening reached it on
    probation, with live trading unbreached and every promotion criterion met by the ledgers and
    by the clean days its row then counted; or if, while it had no row, a call was handed its
    parameters with the sovereign state in them. *)
Theorem sovereign_is_earned k w evs :
  ~ authority k w -> authority k (lifecycle_runs w evs) ->
  exists pre e post, evs = pre ++ e :: post /\
    (promotion_met k (lifecycle_runs w pre) e \/ configured k (lifecycle_runs w pre) e).
Proof.
  intros Hw. induction evs as [|e evs IH] using rev_ind; intros Ha; [done|].
  rewrite runs_snoc in Ha.
  apply lifecycle_step_safe in Ha as [Ha|Hp]; [|by exists evs, e, []].
  destruct (IH Ha) as (pre & e' & post & -> & Hp). exists pre, e', (post ++ [e]). by rewrite <- app_assoc.
Qed.
End Authority.

(** ** An evening's streak of lost edges *)

Section Evenings.
Context `{Numerics} {R : Type} `{!LifecycleEnv R} `{!LifecycleLaws R}.

(** What a call that returns establishes. *)
Definition returning {A} (P : world R -> Prop) (c : py (world R) string A) (Q : A -> world R -> Prop) : Prop :=
  forall w a w', P w -> c w = (Ok a, w') -> Q a w'.

Lemma returning_ret {A} (a : A) (P : world R -> Prop) (Q : A -> world R -> Prop) :
  (forall w, P w -> Q a w) -> returning P (py_ret a) Q.
Proof. intros HQ w b w' Hw [= <- <-]. auto. Qed.

Lemma returning_bind {A B} (c : py (world R) string A) (f : A -> py (world R) string B) P Q Q' :
  returning P c Q -> (forall a, returning (Q a) (f a) Q') -> returning P (py_bind c f) Q'.
Proof.
  intros Hc Hf w b w' Hw. unfold py_bind. destruct (c w) as [[a|e] w1] eqn:E; [|done].
  intros Hb. exact (Hf a w1 b w' (Hc w a w1 Hw E) Hb).
Qed.

Lemma returning_weaken {A} (c : py (world R) string A) (P P' : world R -> Prop) Q :
  (forall w, P' w -> P w) -> returning P c Q -> returning P' c Q.
Proof. intros HP Hc w a w' Hw. exact (Hc w a w' (HP w Hw)). Qed.

(** The environment does not see the manager. *)
Lemma returning_env {A} (c : py R string A) (S : gmap string Z -> Prop) :
  returning (fun w => S (edge_decay_streak w)) (env_call c) (fun _ w => S (edge_decay_streak w)).
Proof. intros w a w' Hw. unfold env_call. destruct (c (rest w)) as [r s']. intros [= _ <-]. exact Hw. Qed.

(** The streaks of these keys are at rest. *)
Definition rested (ks : list string) (d : gmap string Z) : Prop :=
  Forall (fun k => (default 0%Z (d !! k) <= 0)%Z) ks.

Definition unstreaked (ks : list string) (w : world R) : Prop := rested ks (edge_decay_streak w).

Definition streak_key (leg : leg_context) : string := str_or (lc_strategy_id leg) "global".

Lemma unstreaked_set ks k n w :
  (n <= 0)%Z \/ k ∉ ks -> unstreaked ks w -> unstreaked ks (set_streak k n w).
Proof.
  intros Hn. unfold unstreaked, rested. rewrite !Forall_forall. cbn. intros Hall k' Hin. specialize (Hall k' Hin).
  destruct (decide (k = k')) as [<-|Hne]; [|by rewrite lookup_insert_ne].
  rewrite lookup_insert_eq. cbn. by destruct Hn as [|Hn].
Qed.

Lemma returning_quiet {A} ks (c : py R string A) : returning (unstreaked ks) (env_call c) (fun _ => unstreaked ks).
Proof. exact (returning_env c (rested ks)). Qed.

Lemma returning_reset ks id : returning (unstreaked ks) (py_modify (set_streak id 0)) (fun _ => unstreaked ks).
Proof. intros w a w' Hw [= <- <-]. apply unstreaked_set; [by left|done]. Qed.

Lemma returning_staged ks ck current id symbol reason catastrophic hit :
  returning (unstreaked ks) (execute_staged_rollback ck current id symbol reason catastrophic hit)
    (fun r w => unstreaked ks w /\ (rb_reason r = reason \/ rb_reason r = "no_rollback_applicable")).
Proof.
  unfold execute_staged_rollback. destruct (_ || _); [|destruct (valid_state current)];
    repeat (eapply returning_bind; [first [apply returning_quiet|apply returning_reset]|intros ?]);
    apply returning_ret; cbn; auto.
Qed.

Lemma returning_attribution_rollback ks ck id symbol current reason journal :
  returning (unstreaked ks) (execute_attribution_rules_rollback ck id symbol current reason journal)
    (fun _ => unstreaked ks).
Proof.
  unfold execute_attribution_rules_rollback.
  eapply returning_bind; [intros w r w' Hw Hr; exact (proj1 (returning_staged ks _ _ _ _ _ _ _ w r w' Hw Hr))|].
  intros r. eapply returning_bind; [apply returning_quiet|]. intros backup. cbv zeta.
  eapply (returning_bind _ _ _ (fun _ => unstreaked ks)).
  - destruct (_ && _); [apply returning_quiet|by apply returning_ret].
  - intros u1. eapply returning_bind; [apply returning_quiet|]. intros u2. by apply returning_ret.
Qed.

(** A first lost edge is no streak. *)
Lemma returning_edge ks ck id symbol :
  str_or id "global" ∉ ks ->
  returning (unstreaked (str_or id "global" :: ks)) (evaluate_probation_edge ck id symbol)
    (fun v w => unstreaked ks w /\ ed_directive v = DIRECTIVE_NONE).
Proof.
  intros Hk w v w' Hall. apply Forall_cons in Hall as [Hw Hks]. unfold evaluate_probation_edge.
  destruct (load_shadow_frame _ _ _ _) as [|row frame]; intros [= <- <-]; [done|]. split.
  - apply unstreaked_set; [by right|exact Hks].
  - cbn. unfold PROBATION_EDGE_DECAY_STREAK. case_match; [|done].
    exfalso. destruct (_ && _); lia.
Qed.

Lemma unstreaked_tail k ks w : unstreaked (k :: ks) w -> unstreaked ks w.
Proof. intros Hw. by apply Forall_cons in Hw as [_ Hw]. Qed.

Definition no_decay {A} (reason : A -> string) (ks : list string) (a : A) (w : world R) : Prop :=
  unstreaked ks w /\ reason a <> "probation_edge_decay_streak".

Lemma returning_branch ks ck journal leg stored current :
  streak_key leg ∉ ks ->
  returning (unstreaked (streak_key leg :: ks)) (evening_branch ck journal leg stored current)
    (no_decay (fun out => out.1.1.2) ks).
Proof.
  intros Hk. unfold evening_branch. cbv zeta.
  assert (Hslo : forall params, returning (unstreaked (streak_key leg :: ks))
            (evaluate_live_attribution_slo ck (lc_strategy_id leg) (lc_symbol leg) params)
            (fun _ => unstreaked (streak_key leg :: ks))).
  { intros params w slo w' Hw [= _ <-]. exact Hw. }
  assert (Hroll : forall (f : StagedRollbackResult -> policy_state * string * Z * option string) c,
            (forall r, (f r).1.1.2 = "attribution_slo_rollback") ->
            returning (unstreaked (streak_key leg :: ks)) c (fun _ => unstreaked (streak_key leg :: ks)) ->
            returning (unstreaked (streak_key leg :: ks)) (py_bind c (fun r => py_ret (f r)))
              (no_decay (fun out => out.1.1.2) ks)).
  { intros f c Hf Hc. eapply returning_bind; [exact Hc|]. intros r. apply returning_ret. intros w Hw.
    split; [exact (unstreaked_tail _ _ _ Hw)|]. by rewrite Hf. }
  destruct current.
  - apply (returning_weaken _ (unstreaked ks)); [apply unstreaked_tail|].
    eapply (returning_bind _ _ _ (fun _ => unstreaked ks)).
    + intros w v w' Hw. unfold evaluate_probation_entry. destruct (entry_windows _ _ _ _) as [w30 w60].
      revert w v w' Hw.
      match goal with |- context[py_bind ?c ?f _ = _] =>
        change (returning (unstreaked ks) (py_bind c f) (fun _ => unstreaked ks)) end.
      eapply returning_bind; [apply returning_quiet|]. intros n.
      eapply returning_bind; [apply returning_quiet|]. intros b. by apply returning_ret.
    + intros v. apply returning_ret. intros w Hw. split; [exact Hw|]. by destruct (pe_approved v).
  - eapply returning_bind; [apply Hslo|]. intros slo. destruct (as_breached slo).
    { apply Hroll; [done|apply returning_attribution_rollback]. }
    eapply returning_bind; [by apply returning_edge|]. intros edge w out w' [Hw Hd]. rewrite Hd. cbn.
    intros [= <- <-]. split; [exact Hw|]. by destruct (sv_approved _).
  - eapply returning_bind; [apply Hslo|]. intros slo. destruct (as_breached slo).
    { apply Hroll; [done|apply returning_attribution_rollback]. }
    eapply returning_bind; [by apply returning_edge|]. intros edge. cbv beta.
    destruct (_ && _); [|apply returning_ret; by intros w [Hw _]].
    eapply (returning_bind _ _ _ (fun r w => unstreaked ks w /\ _)).
    + intros w r w' [Hw _]. apply returning_staged. exact Hw.
    + intros r. apply returning_ret. intros w [Hw Hr]. split; [exact Hw|]. cbn. by destruct Hr as [-> | ->].
Qed.

Lemma returning_evening_leg ks ck journal leg :
  streak_key leg ∉ ks ->
  returning (unstreaked (streak_key leg :: ks)) (evening_leg ck journal leg) (no_decay tp_reason ks).
Proof.
  intros Hk. unfold evening_leg. eapply returning_bind; [apply returning_quiet|]. intros stored. cbv zeta.
  eapply returning_bind; [by apply returning_branch|].
  intros [[[current reason] clean] started] w p w' [Hw Hr]. revert w p w' Hw.
  intros w p w' Hw. unfold py_bind. destruct (env_call _ w) as [[[]|e] w1] eqn:E; [|done]. intros [= <- <-].
  split; [|exact Hr]. exact (returning_quiet ks _ w tt w1 Hw E).
Qed.

Lemma returning_evening ck journal legs :
  NoDup (map streak_key legs) ->
  returning (unstreaked (map streak_key legs)) (run_evening_progression ck journal legs)
    (fun out _ => Forall (fun p => tp_reason p.2 <> "probation_edge_decay_streak") out).
Proof.
  induction legs as [|leg legs IH]; intros Hnd; [by apply returning_ret|].
  cbn [map] in *. apply NoDup_cons in Hnd as [Hk Hnd]. cbn [run_evening_progression].
  eapply returning_bind; [by apply returning_evening_leg|]. intros payload w out w' [Hw Hr]. revert w out w' Hw.
  match goal with |- context[py_bind ?c ?f] =>
    change (returning (unstreaked (map streak_key legs)) (py_bind c f)
      (fun out _ => Forall (fun p => tp_reason p.2 <> "probation_edge_decay_streak") out)) end.
  eapply returning_bind; [by apply IH|]. intros rest. apply returning_ret. intros w Hall. by constructor.
Qed.

(** at a scheduled evening no leg is degraded for a streak of lost edges: the streak lives in a manager
    made for the evening, and three evaluations of one leg are needed. *)
Theorem scheduled_evening_never_decays ck legs (w w' : world R) out :
  NoDup (map streak_key legs) -> scheduled_evening ck legs w = (Ok out, w') ->
  Forall (fun p => tp_reason p.2 <> "probation_edge_decay_streak") out.
Proof.
  intros Hnd. apply (returning_evening ck true legs Hnd). apply Forall_forall. intros k _. cbn. by rewrite lookup_empty.
Qed.
End Evenings.

(** ** The rows an evening and a shock leave *)

Section Rows.
Context `{Numerics} {R : Type} `{!LifecycleEnv R} `{!LifecycleLaws R}.

(** An upsert that returns leaves its arguments in the row. *)
Definition row_wrote (u : upsert) (old : option lifecycle_row) (row : lifecycle_row) : Prop :=
  lr_execution_state row = state_value (up_execution_state u) /\
  lr_probation_started_at row = up_probation_started_at u /\
  lr_clean_days row = up_clean_days u /\
  field_written (up_velocity_shock_prior_state u) (old ≫= lr_velocity_shock_prior_state)
    (lr_velocity_shock_prior_state row) /\
  field_written (up_velocity_shock_demoted_at u) (old ≫= lr_velocity_shock_demoted_at)
    (lr_velocity_shock_demoted_at row).

Lemma upsert_leaves u (w w' : world R) :
  env_call (upsert_ai_policy_lifecycle_state u) w = (Ok tt, w') ->
  ledgers w' = ledgers w /\
  exists row, row_of (up_strategy_id u) w' = Some row /\ row_wrote u (row_of (up_strategy_id u) w) row.
Proof.
  unfold env_call. pose proof (upsert_law u (rest w)) as Hok.
  destruct (upsert_ai_policy_lifecycle_state u (rest w)) as [r s']. intros [= -> <-]. split; [done|].
  destruct (Hok eq_refl) as (row & Hrows & Hst & Hps & Hcd & _ & _ & Hp & Hd). exists row. unfold row_of. cbn in *.
  rewrite Hrows, lookup_insert_eq. done.
Qed.

Lemma py_bind_ok {A B} (c : py (world R) string A) (f : A -> py (world R) string B) w b w' :
  py_bind c f w = (Ok b, w') -> exists a w1, c w = (Ok a, w1) /\ f a w1 = (Ok b, w').
Proof. unfold py_bind. destruct (c w) as [[a|e] w1]; [|done]. by exists a, w1. Qed.

Lemma get_returns id (w w1 : world R) o :
  env_call (get_ai_policy_lifecycle_state id) w = (Ok o, w1) ->
  o = row_of id w /\ ledgers w1 = ledgers w /\ edge_decay_streak w1 = edge_decay_streak w /\
  forall k, row_of k w1 = row_of k w.
Proof.
  unfold env_call. destruct (get_law id (rest w)) as [Hq Ho].
  destruct (get_ai_policy_lifecycle_state id (rest w)) as [r s']. intros [= -> <-]. cbn in *.
  split; [by apply Ho|]. split; [done|]. split; [done|]. intros k. unfold row_of. cbn. by rewrite Hq.
Qed.

(** The shadow policy has lost its edge over the rules. *)
Definition edge_lost (t : tables) (ck : clock) (symbol : string) : Prop :=
  load_shadow_frame t ck 14 (some_str (upper symbol)) <> [] /\
  ed_maintains_edge (edge_verdict (load_shadow_frame t ck 14 (some_str (upper symbol))) 0) = false.

Lemma edge_streak frame n :
  ed_decay_streak (edge_verdict frame n) =
  if ed_maintains_edge (edge_verdict frame 0) then 0%Z else (n + 1)%Z.
Proof. reflexivity. Qed.

Lemma edge_lost_verdict ck id symbol (w w' : world R) v :
  edge_lost (ledgers w) ck symbol -> (0 <= default 0 (edge_decay_streak w !! str_or id "global"))%Z ->
  evaluate_probation_edge ck id symbol w = (Ok v, w') ->
  ed_maintains_edge v = false /\ (1 <= ed_decay_streak v)%Z.
Proof.
  intros [Hne Hlost] Hs. unfold evaluate_probation_edge.
  destruct (load_shadow_frame _ _ _ _) as [|row frame]; [done|]. intros [= <- _].
  rewrite edge_streak, Hlost. split; [exact Hlost|lia].
Qed.

Lemma enough_days t ck symbol clean :
  (SOVEREIGN_MIN_VERIFIED_TRADING_DAYS <= clean)%Z ->
  "insufficient_verified_trading_days" ∉ sv_reasons (sovereign_promotion t ck symbol clean).
Proof.
  intros Hc. unfold sovereign_promotion. cbv zeta. cbn [sv_reasons].
  destruct (_ <? SOVEREIGN_MIN_VERIFIED_TRADING_DAYS)%Z eqn:E; [lia|].
  rewrite !not_elem_of_app.
  repeat split; repeat match goal with |- context[if ?b then _ else _] => destruct b end;
    first [apply not_elem_of_nil|by rewrite list_elem_of_singleton].
Qed.

(** an evening that takes sovereignty away for a lost edge leaves the leg's clean days and the start of its
    probation as they were: the rollback resets them, and the evening's own write puts the old values back. A leg
    with ten clean days has met the trading-days criterion again at once. *)
Theorem rollback_reset_is_undone ck journal leg (w w' : world R) row payload :
  row_of (lc_strategy_id leg) w = Some row -> lr_execution_state row = state_value SOVEREIGN ->
  as_breached (live_attribution_slo (ledgers w) ck (lc_strategy_id leg) (lc_symbol leg) (lc_params leg)) = false ->
  edge_lost (ledgers w) ck (lc_symbol leg) ->
  (0 <= default 0 (edge_decay_streak w !! streak_key leg))%Z ->
  evening_leg ck journal leg w = (Ok payload, w') ->
  tp_from payload = SOVEREIGN /\ tp_to payload = PROBATIONAL /\
  exists row', row_of (lc_strategy_id leg) w' = Some row' /\
    lr_execution_state row' = state_value PROBATIONAL /\
    lr_clean_days row' = lr_clean_days row /\ lr_probation_started_at row' = lr_probation_started_at row /\
    ((SOVEREIGN_MIN_VERIFIED_TRADING_DAYS <= lr_clean_days row)%Z -> forall t ck' symbol,
      "insufficient_verified_trading_days" ∉ sv_reasons (sovereign_promotion t ck' symbol (lr_clean_days row'))).
Proof.
  intros Hrow Hsov Hslo Hlost Hst. unfold evening_leg.
  intros (stored & w1 & (-> & Hl1 & Hs1 & Hr1)%get_returns & He)%py_bind_ok. rewrite Hrow in He.
  assert (Hcur : current_of (Some row) (lc_params leg) = SOVEREIGN).
  { unfold current_of. rewrite Hsov. by apply valid_state_value. }
  rewrite Hcur in He. cbv zeta in He. apply py_bind_ok in He as (out & w2 & Hbr & He).
  assert (Hout : exists reason, out = (PROBATIONAL, reason, lr_clean_days row, lr_probation_started_at row)).
  { unfold evening_branch in Hbr. cbv zeta in Hbr. apply py_bind_ok in Hbr as (slo & w3 & Hs & Hbr).
    injection Hs as <- <-. rewrite Hl1, Hslo in Hbr. apply py_bind_ok in Hbr as (edge & w4 & Hedge & Hbr).
    apply edge_lost_verdict in Hedge as [Hm Hd]; [|by rewrite Hl1|by rewrite Hs1].
    rewrite Hm in Hbr. rewrite (proj2 (Z.leb_le _ _) Hd) in Hbr. cbn [negb andb] in Hbr.
    apply py_bind_ok in Hbr as (r & w5 & Hroll & Hbr). injection Hbr as <- _.
    unfold execute_staged_rollback in Hroll. rewrite valid_state_value in Hroll. cbn in Hroll.
    apply py_bind_ok in Hroll as (u & w6 & _ & Hroll). injection Hroll as <- _. by eexists. }
  destruct Hout as [reason ->]. apply py_bind_ok in He as ([] & w7 & Hup & He). injection He as <- <-.
  apply upsert_leaves in Hup as (_ & row' & Hrow' & Hst' & Hps' & Hcd' & _). cbn in *.
  split; [done|]. split; [done|]. exists row'. rewrite Hcd'. repeat split; try done.
  intros Hten t ck' symbol. by apply enough_days.
Qed.

(** C30: a leg the shock demoted gets its state back once the regime is stable and its shadow record since the
    demotion is good enough; its clean days and the start of its probation are lost. *)
Theorem shock_recovery_roundtrip ck ck' p id symbol reason v journal leg (w w1 w2 : world R) r t streak out :
  p <> PASSIVE -> lc_strategy_id leg = id -> stabilized v = true ->
  vr_approved (velocity_shock_shadow_recovery t ck' (lc_symbol leg) (some_str (now_iso ck))) = true ->
  execute_velocity_shock_demotion ck (state_value p) id symbol reason w = (Ok r, w1) ->
  recover_leg ck' (Some v) journal leg (mkWorld streak t (rest w1)) = (Ok out, w2) ->
  rb_tier r = VELOCITY_SHOCK_DEMOTION /\
  (exists row1, row_of id w1 = Some row1 /\ lr_execution_state row1 = state_value PASSIVE) /\
  out = Some (mkPayload PASSIVE p VELOCITY_SHOCK_RECOVERY_REASON None) /\
  exists row, row_of id w2 = Some row /\ lr_execution_state row = state_value p /\
    lr_velocity_shock_prior_state row = None /\ lr_clean_days row = 0%Z /\
    lr_probation_started_at row = (if decide (p = PROBATIONAL) then Some (now_iso ck') else None).
Proof.
  intros Hp Hid Hv Happ Hdem Hrec. unfold execute_velocity_shock_demotion in Hdem. rewrite valid_state_value in Hdem.
  assert (Hd : rb_tier r = VELOCITY_SHOCK_DEMOTION /\ exists row1, row_of id w1 = Some row1 /\
            row_wrote (mkUpsert id symbol PASSIVE None 0 (Some (today_iso ck)) None
              (Put (Some (state_value p))) (Put (Some (now_iso ck)))) (row_of id w) row1).
  { destruct p; [done|..]; apply py_bind_ok in Hdem as ([] & wa & (_ & row1 & Hr1 & Hw1)%upsert_leaves & Hdem);
      apply py_bind_ok in Hdem as ([] & wb & [= <-] & [= <- <-]); (split; [done|exists row1; by split]). }
  destruct Hd as [Htier (row1 & Hr1 & Hs1 & Hps1 & Hcd1 & Hprior & Hat)]. cbn in Hs1, Hps1, Hcd1, Hprior, Hat.
  split; [exact Htier|]. split; [by exists row1|].
  unfold recover_leg in Hrec. subst id.
  apply py_bind_ok in Hrec as (stored & wa & (-> & Hl & _ & Hk)%get_returns & Hrec). cbn in Hl.
  assert (Hrow : row_of (lc_strategy_id leg) (mkWorld streak t (rest w1)) = Some row1) by exact Hr1.
  rewrite Hrow, Hs1, bool_decide_true in Hrec by done. cbn [negb] in Hrec. rewrite Hl in Hrec.
  assert (Hatt : exists verdict, attempt_velocity_shock_recovery t ck' (lc_symbol leg) row1 (Some v) =
            (state_value p, VELOCITY_SHOCK_RECOVERY_REASON, verdict)).
  { unfold attempt_velocity_shock_recovery. rewrite Hprior, Hat, Hs1, Hv.
    assert (Htr : some_str (opt_or (Some (state_value p)) "") = Some (state_value p)).
    { pose proof (state_value_truthy p) as Ht. unfold some_str, opt_or, str_or. destruct (state_value p); done. }
    rewrite Htr. pose proof (valid_state_value p) as Hvs. unfold valid_state in Hvs.
    destruct (parse_state (state_value p)) as [q|]; cbn in Hvs; [|by subst p]. subst q.
    rewrite bool_decide_true by done. cbn [negb].
    replace (some_str (opt_or (Some (now_iso ck)) "")) with (some_str (now_iso ck)) by by destruct (now_iso ck).
    rewrite Happ. by eexists. }
  destruct Hatt as [verdict Hatt]. rewrite Hatt in Hrec. rewrite bool_decide_false in Hrec by done.
  cbv zeta in Hrec. rewrite valid_state_value in Hrec.
  destruct p; [done|..];
    (apply py_bind_ok in Hrec as (u1 & wb & _ & Hrec);
     apply py_bind_ok in Hrec as ([] & wc & (_ & row & Hr & Hwr)%upsert_leaves & [= <- <-]);
     split; [done|]; exists row; destruct Hwr as (Hst & Hst2 & Hst3 & Hst4 & _); cbn in *;
     rewrite Hps1 in Hst2; by rewrite Hst3, Hcd1).
Qed.
End Rows.

(** ** What the entry sieve asks of a window *)

Section Entry.
Context `{Numerics} {R : Type} `{!LifecycleEnv R}.

Lemma shadow_returns_one rows :
  length (shadow_returns rows []).1 <= 1.
Proof.
  unfold shadow_returns. assert (Hgen : forall acc, length acc.1 <= 1 ->
    length (fold_left (fun (acc : list float * list float) r =>
      match shadow_return r, rules_return r with
      | Some c, Some u => (match acc.1 with [] => [c] | l => l end, acc.2 ++ [u])
      | _, _ => acc
      end) rows acc).1 <= 1); [|apply Hgen; cbn; lia].
  induction rows as [|r rows IH]; intros acc Hacc; [exact Hacc|]. cbn [fold_left]. apply IH.
  destruct (shadow_return r), (rules_return r); try exact Hacc.
  destruct acc as [[|c1 cs] us]; cbn [fst snd length] in *; lia.
Qed.

Lemma shadow_window_one days shadow : (w_sample_count (compute_stratified_window days [] shadow) <= 1)%Z.
Proof.
  unfold compute_stratified_window. cbn [map]. pose proof (shadow_returns_one shadow) as Hone.
  destruct (shadow_returns shadow []) as [ch ru]. cbn [fst] in Hone.
  destruct (match ch with [] => _ | _ => _ end) as [[details regimes] sessions]. cbn. lia.
Qed.

(** shadow evidence alone never lets a policy enter probation: without a live trade in the last thirty days
    the window counts one sample at most, whatever the shadow ledger holds, because only the first shadow return
    is kept. *)
Theorem shadow_only_never_enters ck symbol (w w' : world R) v :
  load_attribution_frame (ledgers w) ck LOOKBACK_30D None = [] ->
  evaluate_probation_entry ck symbol None w = (Ok v, w') ->
  (w_sample_count (pe_window_30d v) <= 1)%Z /\ "30d_insufficient_samples" ∈ pe_reasons v /\ pe_approved v = false.
Proof.
  intros Hattr. unfold evaluate_probation_entry, entry_windows. cbv zeta. rewrite Hattr.
  set (w30 := compute_stratified_window LOOKBACK_30D [] _). set (w60 := compute_stratified_window LOOKBACK_60D _ _).
  assert (Hone : (w_sample_count w30 <= 1)%Z) by apply shadow_window_one. clearbody w30.
  assert (Hlow : "30d_insufficient_samples" ∈ window_reasons "30d" w30).
  { unfold window_reasons. rewrite (proj2 (Z.ltb_lt _ _)); [by constructor|]. unfold MIN_STRATUM_SAMPLES. lia. }
  intros Heval. unfold py_bind in Heval. destruct (env_call count_shadow_rl_ledger_tuples w) as [[n|e] w1]; [|done].
  destruct (env_call is_shadow_policy_model_evicted w1) as [[b|e] w2]; [|done]. injection Heval as <- _.
  split; [exact Hone|].
  assert (Hin : "30d_insufficient_samples" ∈ pe_reasons (mkEntryVerdict
     ((if (n <? AI_POLICY_MIN_LEDGER_TUPLES)%Z then ["insufficient_shadow_ledger_tuples"] else []) ++
      (if b : bool then ["model_eviction_lockout_active"] else []) ++
      window_reasons "30d" w30 ++ window_reasons "60d" w60) w30 w60)).
  { cbn [pe_reasons]. rewrite !elem_of_app. auto. }
  split; [exact Hin|]. unfold pe_approved. destruct (pe_reasons _); [by apply not_elem_of_nil in Hin|done].
Qed.
End Entry.

(** ** A vault in memory *)

Module Vault.
#[export] Instance numerics : Numerics := {|
  np_mean l := fdiv (fold_left fadd l fzero) (of_Z (Z.of_nat (length l)));
  np_std _ := fone;
  np_sum l := fold_left fadd l fzero;
  np_clip x lo hi := if fltb x lo then lo else if fltb hi x then hi else x;
  pl_mean l := fdiv (fold_left fadd l fzero) (of_Z (Z.of_nat (length l)));
  session_of _ := "REGULAR"
|}.

Definition vault : Type := gmap string lifecycle_row.

Definition write_field (f : field) (old : option string) : option string :=
  match f with Put v => v | _ => old end.

Definition write (u : upsert) (v : vault) : vault :=
  <[up_strategy_id u := mkRow
      match up_execution_state u with PASSIVE => "PASSIVE" | PROBATIONAL => "PROBATIONAL" | SOVEREIGN => "SOVEREIGN" end
      (up_probation_started_at u) (up_clean_days u) (up_last_anomaly_session u) (up_eviction_lockout_until u)
      (write_field (up_velocity_shock_prior_state u) (v !! up_strategy_id u ≫= lr_velocity_shock_prior_state))
      (write_field (up_velocity_shock_demoted_at u) (v !! up_strategy_id u ≫= lr_velocity_shock_demoted_at))
      ""]> v.

#[export] Instance env : LifecycleEnv vault := {|
  state_value p := match p with PASSIVE => "PASSIVE" | PROBATIONAL => "PROBATIONAL" | SOVEREIGN => "SOVEREIGN" end;
  get_ai_policy_lifecycle_state k v := (Ok (v !! k), v);
  upsert_ai_policy_lifecycle_state u v := (Ok tt, write u v);
  is_shadow_policy_model_evicted := py_ret false;
  mark_shadow_policy_model_evicted _ _ := py_ret tt;
  count_shadow_rl_ledger_tuples := py_ret 100%Z;
  AI_POLICY_MIN_LEDGER_TUPLES := 50;
  get_prior_config_backup _ := py_ret None;
  mark_failed_live_attribution _ _ _ := py_ret tt;
  yaml_params _ := None;
  record_journal _ := py_ret tt
|}.

#[export] Instance laws : LifecycleLaws vault.
Proof.
  refine {| rows := id |}; try done.
  - by intros [] [].
  - by intros [].
  - split; [done|]. by intros o [= <-].
  - intros u s _. eexists. split; [reflexivity|]. cbn. repeat split; try done.
    + destruct (up_velocity_shock_prior_state u); cbn; auto.
    + destruct (up_velocity_shock_demoted_at u); cbn; auto.
Defined.

Definition ck : clock := mkClock "2024-02-01T21:00:00" "2024-02-01" (fun _ => "2024-01-01").
Definition leg : leg_context := mkLegContext "mr_spy" "SPY" no_params.
Definition row (state : string) (clean : Z) : lifecycle_row :=
  mkRow state (Some "2024-01-10") clean None None None None "2024-01-31T21:00:00".

(** Thirty good trades, and shadow rows of which the policy made one and the rules nothing. *)
Definition trades : list attr_row :=
  repeat (mkAttr "2024-01-20T15:00:00" "mr_spy" "SPY" fone fzero (Some "CALM") (Some "REGULAR")) 30.
Definition shadow (action rules : string) : list shadow_row :=
  repeat (mkShadow "2024-01-20T15:00:00" "SPY" (Some action) (Some fone) (Some rules)) 6.
Definition duals : list dual_row := repeat (mkDual "2024-02-02" "SPY" (Some fone) (Some fzero)) 6.

Definition good : tables := mkTables (Some trades) (Some (shadow "ALLOCATION_MAX" "NO_TRADE_FALLBACK")) (Some duals) None.
Definition bad : tables := mkTables (Some trades) (Some (shadow "STAND_DOWN" "CALM_MR")) (Some duals) None.
Definition unproven : tables := mkTables None (Some (shadow "ALLOCATION_MAX" "NO_TRADE_FALLBACK")) None None.

Definition start (t : tables) (state : string) : world vault := mkWorld ∅ t {["mr_spy" := row state 12]}.
End Vault.

Import Vault.

Definition is_ok {A B} (x : result string A * B) : bool := match x.1 with Ok _ => true | Raise _ => false end.

Lemma ok_run {A B} (x : result string A * B) : is_ok x = true -> exists a, x = (Ok a, x.2).
Proof. destruct x as [[a|e] w]; [|done]. by exists a. Qed.

Lemma sovereign_is_earned_witness :
  authority "mr_spy" (runs lifecycle_step (start good "PROBATIONAL") [EvEvening ck true [leg]]) /\
  exists pre e post, [EvEvening ck true [leg]] = pre ++ e :: post /\
    (promotion_met "mr_spy" (runs lifecycle_step (start good "PROBATIONAL") pre) e \/
     configured "mr_spy" (runs lifecycle_step (start good "PROBATIONAL") pre) e).
Proof.
  assert (Ha : authority "mr_spy" (runs lifecycle_step (start good "PROBATIONAL") [EvEvening ck true [leg]])).
  { eexists. split; [vm_compute; reflexivity|]. left. reflexivity. }
  split; [exact Ha|].
  apply (sovereign_is_earned "mr_spy" (start good "PROBATIONAL") [EvEvening ck true [leg]]); [|exact Ha].
  intros (r & Hr & Hs). vm_compute in Hr. injection Hr as <-. by destruct Hs.
Defined.

Lemma scheduled_evening_never_decays_witness :
  exists out w', scheduled_evening ck [leg] (start bad "PROBATIONAL") = (Ok out, w') /\
    Forall (fun p => tp_reason p.2 <> "probation_edge_decay_streak") out.
Proof.
  destruct (ok_run (scheduled_evening ck [leg] (start bad "PROBATIONAL"))) as [out E]; [vm_compute; reflexivity|].
  eexists out, _. split; [exact E|].
  exact (scheduled_evening_never_decays ck [leg] (start bad "PROBATIONAL") _ out (NoDup_singleton _) E).
Defined.

Lemma rollback_reset_is_undone_witness :
  exists payload w', evening_leg ck true leg (start bad "SOVEREIGN") = (Ok payload, w') /\
    exists row', row_of "mr_spy" w' = Some row' /\ lr_execution_state row' = "PROBATIONAL" /\ lr_clean_days row' = 12%Z.
Proof.
  destruct (ok_run (evening_leg ck true leg (start bad "SOVEREIGN"))) as [payload E]; [vm_compute; reflexivity|].
  eexists payload, _. split; [exact E|].
  destruct (rollback_reset_is_undone ck true leg (start bad "SOVEREIGN") (evening_leg ck true leg (start bad "SOVEREIGN")).2 (row "SOVEREIGN" 12) payload)
    as (_ & _ & row' & Hr & Hs & Hc & _);
    [vm_compute; reflexivity|vm_compute; reflexivity|vm_compute; reflexivity|split; [vm_compute; discriminate|vm_compute; reflexivity]
    |vm_compute; discriminate|exact E|].
  exists row'. split; [exact Hr|]. by split.
Defined.

Definition shocked : result string StagedRollbackResult * world vault :=
  execute_velocity_shock_demotion ck "SOVEREIGN" "mr_spy" "SPY" "" (start good "SOVEREIGN").
Definition recovered : result string (option transition_payload) * world vault :=
  recover_leg ck (Some (mkStabilization true "")) true leg (mkWorld ∅ good (rest shocked.2)).

Lemma shock_recovery_roundtrip_witness :
  exists r out, shocked = (Ok r, shocked.2) /\ recovered = (Ok out, recovered.2) /\
    out = Some (mkPayload PASSIVE SOVEREIGN VELOCITY_SHOCK_RECOVERY_REASON None).
Proof.
  destruct (ok_run shocked) as [r E1]; [vm_compute; reflexivity|].
  destruct (ok_run recovered) as [out E2]; [vm_compute; reflexivity|].
  exists r, out. split; [exact E1|]. split; [exact E2|].
  refine (proj1 (proj2 (proj2 (shock_recovery_roundtrip ck ck SOVEREIGN "mr_spy" "SPY" "" (mkStabilization true "")
    true leg (start good "SOVEREIGN") shocked.2 recovered.2 r good ∅ out _ eq_refl eq_refl _ E1 E2))));
    [done|vm_compute; reflexivity].
Defined.

Lemma shadow_only_never_enters_witness :
  exists v w', evaluate_probation_entry ck "SPY" None (start unproven "PASSIVE") = (Ok v, w') /\
    (w_sample_count (pe_window_30d v) <= 1)%Z /\ "30d_insufficient_samples" ∈ pe_reasons v /\ pe_approved v = false.
Proof.
  destruct (ok_run (evaluate_probation_entry ck "SPY" None (start unproven "PASSIVE"))) as [v E];
    [vm_compute; reflexivity|].
  eexists v, _. split; [exact E|].
  exact (shadow_only_never_enters ck "SPY" (start unproven "PASSIVE") _ v eq_refl E).
Defined.
