(* ===== verification/PortfolioBrain.v ===== *)
(** * Portfolio brain

    [src/engine/portfolio_brain.py]: risk budgets by volatility parity, the portfolio mode, the
    global exposure gate, the caps on inventory held over several days, and the resolution of
    signals that collide. The class [PortfolioBrain] is a record; a method is a function that
    also returns the record it leaves. numpy and the texts of formatted numbers are arguments. *)

From stdpp Require Import base gmap strings list pretty.
From Stdlib Require Import ZArith Lia Floats.SpecFloat.
From S2P Require Import Prelude Dict PyFloat FloatInt Models Correlation.

Definition GLOBAL_ENTRY_LOCKOUT : string := "GLOBAL_ENTRY_LOCKOUT".
Definition FORCE_LIQUIDATION_EXECUTE : string := "FORCE_LIQUIDATION_EXECUTE".
Definition FORCED_DURATION_EXHAUSTION : string := "FORCED_DURATION_EXHAUSTION".
Definition DEFAULT_MAX_MULTIDAY_DIRECTIONAL_EXPOSURE_FRACTION : float := Eval vm_compute in lit 40 2.
Definition DEFAULT_MAX_MULTIDAY_HOLDING_CALENDAR_DAYS : Z := 5.
Definition MIN_MULTIDAY_CALENDAR_DAYS : Z := 1.

Definition QQQ_STRATEGY_ID : string := "mean_reversion_qqq".
Definition SPY_STRATEGY_ID : string := "mean_reversion_spy".

Inductive portfolio_mode := DUAL_LEG | SINGLE_LEG_QQQ | SINGLE_LEG_SPY | SPY_DISABLED.
#[export] Instance portfolio_mode_eq_dec : EqDecision portfolio_mode.
Proof. solve_decision. Defined.

Definition MAX_NET_BETA_EXPOSURE : float := Eval vm_compute in lit 125 2.
Definition MAX_GROSS_EXPOSURE_RATIO : float := Eval vm_compute in lit 150 2.
Definition MAX_SECTOR_CONCENTRATION : float := Eval vm_compute in lit 85 2.
Definition MAX_FACTOR_CROWDING : float := Eval vm_compute in lit 90 2.
Definition SPY_DISABLE_HEALTH_FLOOR : float := Eval vm_compute in lit 45 2.
Definition DOMINANT_LEG_BUDGET_SHARE : float := Eval vm_compute in lit 95 2.
Definition OPPOSING_SIGNAL_CORRELATION_FLOOR : float := ONE_RISK_UNIT_CORRELATION.
Definition MIN_MARGINAL_SHARPE : float := Eval vm_compute in lit 5 2.
Definition VOL_FLOOR : float := Eval vm_compute in lit 5 2.
Definition DD_CAP : float := Eval vm_compute in lit 95 2.
Definition TOLERANCE : float := Eval vm_compute in lit 1 9.

Definition SECTOR_BY_SYMBOL : list (string * string) :=
  [("QQQ", "US_LARGE_CAP_GROWTH"); ("SPY", "US_LARGE_CAP_BLEND"); ("GLD", "PRECIOUS_METALS");
   ("USO", "ENERGY_COMMODITIES"); ("BTC/USD", "CRYPTO")].

Definition factors : Type := (float * float * float)%type.

Definition FACTOR_LOADINGS_BY_SYMBOL : list (string * factors) := Eval vm_compute in
  [("QQQ", (lit 115 2, lit (-20) 2, lit 30 2)); ("SPY", (lit 100 2, lit 0 2, lit 5 2));
   ("GLD", (lit 5 2, lit 0 1, lit 0 1)); ("USO", (lit 30 2, lit 0 1, lit 0 1));
   ("BTC/USD", (lit 200 2, lit 0 1, lit 0 1))].

Definition BETA_BY_SYMBOL : list (string * float) := Eval vm_compute in
  [("QQQ", lit 115 2); ("SPY", lit 100 2); ("GLD", lit 5 2); ("USO", lit 30 2); ("BTC/USD", lit 200 2)].

(** ** Records *)

Record ActivePositionManifest := mkManifest {
  am_strategy_id : string;
  am_symbol : string;
  am_side : string;
  am_notional : float;
  am_calendar_days_held : Z;
  am_bars_in_trade : Z;
  am_opened_session_date : option Z        (* a day; [None] is the empty text *)
}.

Record ForceLiquidationTarget := mkTarget {
  fl_strategy_id : string;
  fl_symbol : string;
  fl_side : string;
  fl_notional : float;
  fl_calendar_days_held : Z;
  fl_opened_session_date : option Z;
  fl_transition_reason : string
}.

Record InventoryPathDependencyVerdict := mkInventoryVerdict {
  iv_directive : option string;
  iv_allowed : bool;
  iv_net_long_exposure : float;
  iv_net_short_exposure : float;
  iv_multiday_net_exposure : float;
  iv_multiday_exposure_ratio : float;
  iv_cap_notional : float;
  iv_blocked_entry_by_symbol : list (string * gset string);
  iv_breach_codes : list string;
  iv_reasons : list (string * string);
  iv_directives : list string;
  iv_force_liquidation_targets : list ForceLiquidationTarget
}.

Definition is_entry_locked (v : InventoryPathDependencyVerdict) (symbol direction : string) : bool :=
  bool_decide (lower direction ∈ default ∅ (assoc (upper symbol) (iv_blocked_entry_by_symbol v))).

Definition has_directive (v : InventoryPathDependencyVerdict) (directive : string) : bool :=
  bool_decide (iv_directive v = Some directive) || bool_decide (directive ∈ iv_directives v).

Record LegMetrics := mkLegMetrics {
  lm_strategy_id : string;
  lm_symbol : string;
  lm_realized_vol : float;
  lm_drawdown_contribution : float;
  lm_marginal_sharpe : float;
  lm_notional_exposure : float;
  lm_health_score : float;
  lm_champion_score : float;
  lm_enabled : bool
}.

Record ProposedPosition := mkProposed {
  pp_strategy_id : string;
  pp_symbol : string;
  pp_side : string;
  pp_notional : float;
  pp_beta : float;
  pp_sector : string;
  pp_factor_loadings : factors
}.

Record ExposureValidation := mkExposure {
  ev_allowed : bool;
  ev_sizing_multipliers : list (string * float);
  ev_breach_codes : list string;
  ev_net_beta : float;
  ev_gross_exposure_ratio : float;
  ev_sector_concentration : float;
  ev_factor_crowding : float
}.

Record SignalConflictResolution := mkResolution {
  sr_approved_signals : list (string * option Signal);
  sr_blocked_strategy_ids : gset string;
  sr_scale_multipliers : list (string * float);
  sr_reasons : list (string * string)
}.

Record PortfolioModeDecision := mkMode {
  md_mode : portfolio_mode;
  md_spy_leg_enabled : bool;
  md_single_leg_mode : bool;
  md_dominant_strategy_id : option string;
  md_reason : string
}.

Record PortfolioBrainState := mkBrainState {
  bs_risk_budgets : list (string * float);
  bs_mode : option PortfolioModeDecision;
  bs_last_exposure : option ExposureValidation;
  bs_last_conflict_resolution : option SignalConflictResolution;
  bs_last_inventory_verdict : option InventoryPathDependencyVerdict
}.

Record PortfolioBrain := mkBrain {
  br_equity : float;
  br_single_leg_symbol : option string;
  br_static_equal_split : bool;
  br_max_multiday_fraction : float;
  br_max_multiday_days : Z;
  br_state : PortfolioBrainState
}.

Definition brain_init (equity : float) (single_leg_symbol : option string) (static_equal_split : bool)
    (fraction : float) (days : Z) : PortfolioBrain :=
  mkBrain (py_max equity fone)
    (match single_leg_symbol with Some s => if truthy s then Some (upper s) else None | None => None end)
    static_equal_split fraction days (mkBrainState [] None None None None).

Definition set_state (st : PortfolioBrainState) (b : PortfolioBrain) : PortfolioBrain :=
  mkBrain (br_equity b) (br_single_leg_symbol b) (br_static_equal_split b) (br_max_multiday_fraction b)
    (br_max_multiday_days b) st.
Definition set_equity (e : float) (b : PortfolioBrain) : PortfolioBrain :=
  mkBrain e (br_single_leg_symbol b) (br_static_equal_split b) (br_max_multiday_fraction b)
    (br_max_multiday_days b) (br_state b).
Definition set_budgets (x : list (string * float)) (b : PortfolioBrain) : PortfolioBrain :=
  set_state (let s := br_state b in mkBrainState x (bs_mode s) (bs_last_exposure s)
    (bs_last_conflict_resolution s) (bs_last_inventory_verdict s)) b.
Definition set_mode (x : PortfolioModeDecision) (b : PortfolioBrain) : PortfolioBrain :=
  set_state (let s := br_state b in mkBrainState (bs_risk_budgets s) (Some x) (bs_last_exposure s)
    (bs_last_conflict_resolution s) (bs_last_inventory_verdict s)) b.
Definition set_exposure (x : ExposureValidation) (b : PortfolioBrain) : PortfolioBrain :=
  set_state (let s := br_state b in mkBrainState (bs_risk_budgets s) (bs_mode s) (Some x)
    (bs_last_conflict_resolution s) (bs_last_inventory_verdict s)) b.
Definition set_resolution (x : SignalConflictResolution) (b : PortfolioBrain) : PortfolioBrain :=
  set_state (let s := br_state b in mkBrainState (bs_risk_budgets s) (bs_mode s) (bs_last_exposure s)
    (Some x) (bs_last_inventory_verdict s)) b.
Definition set_inventory (x : InventoryPathDependencyVerdict) (b : PortfolioBrain) : PortfolioBrain :=
  set_state (let s := br_state b in mkBrainState (bs_risk_budgets s) (bs_mode s) (bs_last_exposure s)
    (bs_last_conflict_resolution s) (Some x)) b.

(** ** Helpers *)

Definition symbol_beta (symbol : string) : float := default fone (assoc (upper symbol) BETA_BY_SYMBOL).
Definition symbol_sector (symbol : string) : string :=
  default "US_EQUITY_OTHER" (assoc (upper symbol) SECTOR_BY_SYMBOL).
Definition symbol_factors (symbol : string) : factors :=
  default (fone, fzero, fzero) (assoc (upper symbol) FACTOR_LOADINGS_BY_SYMBOL).

Definition signal_direction (a : SignalAction) : Z := match a with LONG => 1 | SHORT => -1 | _ => 0 end.

Definition normalize_weights (raw : list (string * float)) : list (string * float) :=
  let positive := map (fun e => (e.1, py_max e.2 fzero)) raw in
  let total := fsum (map snd positive) in
  if fleb total fzero
  then map (fun e => (e.1, fdiv fone (of_Z (Z.of_nat (max 1 (length positive)))))) positive
  else map (fun e => (e.1, fdiv e.2 total)) positive.

(** [max(d, key=d.get)]: the first key of the largest value. *)
Definition top_entry (d : list (string * float)) : option (string * float) :=
  match d with
  | [] => None
  | e :: d => Some (fold_left (fun best e => if fltb best.2 e.2 then e else best) d e)
  end.

(** ** Risk budgets *)

Definition raw_weight (m : LegMetrics) : float :=
  if lm_enabled m then
    let inv_vol := fdiv fone (py_max (lm_realized_vol m) VOL_FLOOR) in
    let dd_penalty := fsub fone (py_min (py_max (lm_drawdown_contribution m) fzero) DD_CAP) in
    let sharpe_boost := py_max (lm_marginal_sharpe m) MIN_MARGINAL_SHARPE in
    fmul (fmul inv_vol dd_penalty) sharpe_boost
  else fzero.

Definition allocate_risk_budgets (leg_metrics : list (string * LegMetrics)) (b : PortfolioBrain)
    : list (string * float) * PortfolioBrain :=
  match leg_metrics with
  | [] => ([], b)
  | _ =>
      let weight m := if br_static_equal_split b then (if lm_enabled m then fone else fzero) else raw_weight m in
      let budgets := normalize_weights (map (fun e => (e.1, weight e.2)) leg_metrics) in
      (budgets, set_budgets budgets b)
  end.

(** ** The portfolio mode *)

Definition mode_of_leg (id : string) : portfolio_mode :=
  if bool_decide (id = QQQ_STRATEGY_ID) then SINGLE_LEG_QQQ
  else if bool_decide (id = SPY_STRATEGY_ID) then SINGLE_LEG_SPY else DUAL_LEG.

(** [enabled_strategy_ids or frozenset(leg_metrics)]. *)
Definition enabled_set (leg_metrics : list (string * LegMetrics)) (ids : option (gset string)) : gset string :=
  match ids with
  | Some s => if bool_decide (s = ∅) then list_to_set (map fst leg_metrics) else s
  | None => list_to_set (map fst leg_metrics)
  end.

Definition resolve_mode (leg_metrics : list (string * LegMetrics)) (capital_winner : option string)
    (ids : option (gset string)) (b : PortfolioBrain) : PortfolioModeDecision :=
  let enabled := enabled_set leg_metrics ids in
  let spy := assoc SPY_STRATEGY_ID leg_metrics in
  let spy_enabled_config := match spy with Some m => lm_enabled m | None => false end in
  let disabled reason := mkMode SPY_DISABLED false true (Some QQQ_STRATEGY_ID) reason in
  if bool_decide (br_single_leg_symbol b = Some "QQQ") then
    mkMode SINGLE_LEG_QQQ false true (Some QQQ_STRATEGY_ID) "explicit_single_leg_symbol_qqq"
  else if bool_decide (br_single_leg_symbol b = Some "SPY") then
    mkMode SINGLE_LEG_SPY true true (Some SPY_STRATEGY_ID) "explicit_single_leg_symbol_spy"
  else match elements enabled with
  | [dominant] =>
      mkMode (mode_of_leg dominant) (bool_decide (SPY_STRATEGY_ID ∈ enabled)) true (Some dominant)
        "single_enabled_leg_config"
  | _ =>
  if negb spy_enabled_config then disabled "spy_config_disabled"
  else if match spy with Some m => fltb (lm_health_score m) SPY_DISABLE_HEALTH_FLOOR | None => false end
  then disabled "spy_health_below_floor"
  else
    let winner := opt_or capital_winner "" in
    if truthy winner && negb (bool_decide (winner = SPY_STRATEGY_ID))
       && bool_decide (SPY_STRATEGY_ID ∈ enabled) && bool_decide (QQQ_STRATEGY_ID ∈ enabled)
    then mkMode SPY_DISABLED false true (Some winner) "capital_prioritization_non_spy"
    else match top_entry (bs_risk_budgets (br_state b)) with
    | Some (top_id, share) =>
        if fleb DOMINANT_LEG_BUDGET_SHARE share
        then mkMode (mode_of_leg top_id) spy_enabled_config true (Some top_id) "vol_parity_dominant_budget"
        else mkMode DUAL_LEG spy_enabled_config false None "dual_leg_default"
    | None => mkMode DUAL_LEG spy_enabled_config false None "dual_leg_default"
    end
  end.

Definition resolve_portfolio_mode (leg_metrics : list (string * LegMetrics)) (qqq_spy_correlation : float)
    (capital_winner : option string) (ids : option (gset string)) (b : PortfolioBrain)
    : PortfolioModeDecision * PortfolioBrain :=
  let decision := resolve_mode leg_metrics capital_winner ids b in (decision, set_mode decision b).

(** numpy, and the texts of numbers ([f"{x:.3f}"], [f"${x:,.0f}"], [f"{x:.0%}"]). *)
Class BrainNumerics := {
  np_log : float -> float;
  np_std : list float -> float;
  np_corrcoef : list float -> list float -> float;
  np_mean : list float -> float;
  np_sum : list float -> float;                      (* of a vector *)
  np_column_sum : list float -> float;               (* of a column, [sum(axis=0)] *)
  np_norm : factors -> float;                        (* of a row, [norm(axis=1)] *)
  np_average : list float -> list float -> float;    (* values, weights *)
  fmt_3f : float -> string;
  fmt_money : float -> string;
  fmt_percent : float -> string
}.

Section Brain.
Context `{BrainNumerics}.

(** ** Global exposure *)

(** A position that counts: [not (notional <= 0.0 or side == "flat")]. *)
Definition counts (p : ProposedPosition) : bool :=
  negb (fleb (pp_notional p) fzero) && negb (bool_decide (pp_side p = "flat")).

Definition signed_notional (p : ProposedPosition) : float :=
  if bool_decide (pp_side p = "long") then pp_notional p else fneg (pp_notional p).

Definition sector_notionals (live : list ProposedPosition) : list (string * float) :=
  fold_left (fun d p => assoc_set (pp_sector p)
    (fadd (default fzero (assoc (pp_sector p) d)) (fabs (pp_notional p))) d) live [].

Definition f_or (x d : float) : float := if ftruthy x then x else d.

Definition factors_map2 (f : float -> float -> float) (a b : factors) : factors :=
  (f a.1.1 b.1.1, f a.1.2 b.1.2, f a.2 b.2).

Definition factor_crowding (live : list ProposedPosition) : float :=
  if (length live <? 2)%nat then fzero
  else
    let notionals := map (fun p => fabs (pp_notional p)) live in
    let weight_sum := f_or (np_sum notionals) fone in
    let weights := map (fun n => fdiv n weight_sum) notionals in
    let stacked := map pp_factor_loadings live in
    let weighted := zip_with (fun (v : factors) w => (fmul v.1.1 w, fmul v.1.2 w, fmul v.2 w)) stacked weights in
    let centroid := (np_column_sum (map (fun v : factors => v.1.1) weighted),
                     np_column_sum (map (fun v : factors => v.1.2) weighted),
                     np_column_sum (map (fun v : factors => v.2) weighted)) in
    let dispersions := map (fun v => np_norm (factors_map2 fsub v centroid)) stacked in
    py_max fzero (py_min fone (fsub fone (np_average dispersions weights))).

Definition exposure_breaches (net_beta gross_ratio concentration crowding : float) : list string :=
  (if fltb MAX_NET_BETA_EXPOSURE (fabs net_beta) then ["net_beta_cap"] else []) ++
  (if fltb MAX_GROSS_EXPOSURE_RATIO gross_ratio then ["gross_exposure_cap"] else []) ++
  (if fltb MAX_SECTOR_CONCENTRATION concentration then ["sector_concentration_cap"] else []) ++
  (if fltb MAX_FACTOR_CROWDING crowding then ["factor_crowding_cap"] else []).

Definition exposure_severity (net_beta gross_ratio concentration crowding : float) : float :=
  py_max (py_max (py_max (fdiv (fabs net_beta) MAX_NET_BETA_EXPOSURE)
    (fdiv gross_ratio MAX_GROSS_EXPOSURE_RATIO)) (fdiv concentration MAX_SECTOR_CONCENTRATION))
    (if fltb fzero crowding then fdiv crowding MAX_FACTOR_CROWDING else fzero).

Definition sector_concentration (live : list ProposedPosition) : float :=
  let values := map snd (sector_notionals live) in
  fdiv (match values with [] => fzero | v :: vs => fold_left py_max vs v end) (f_or (fsum values) fone).

Definition exposure_of (equity : option float) (proposed : list ProposedPosition) (b : PortfolioBrain)
    : ExposureValidation :=
  let equity_base := py_max (match equity with Some e => f_or e (br_equity b) | None => br_equity b end) fone in
  let live := List.filter counts proposed in
  let net_beta := fdiv (fold_left (fun n p => fadd n (fmul (signed_notional p) (pp_beta p))) live fzero) equity_base in
  let gross_ratio := fdiv (fold_left (fun g p => fadd g (fabs (pp_notional p))) live fzero) equity_base in
  let concentration := sector_concentration live in
  let crowding := factor_crowding live in
  let breaches := exposure_breaches net_beta gross_ratio concentration crowding in
  let multipliers := fold_left (fun d p => assoc_set (pp_strategy_id p) fone d) proposed [] in
  let multipliers :=
    match breaches with
    | [] => multipliers
    | _ =>
        let severity := exposure_severity net_beta gross_ratio concentration crowding in
        let scale := py_max fzero (py_min fone (fdiv fone severity)) in
        map (fun e => (e.1, if fltb fone severity then fzero else scale)) multipliers
    end in
  mkExposure (match breaches with [] => true | _ => false end) multipliers breaches net_beta gross_ratio
    concentration crowding.

Definition validate_global_exposure (proposed : list ProposedPosition) (equity : option float) (b : PortfolioBrain)
    : ExposureValidation * PortfolioBrain :=
  let result := exposure_of equity proposed b in (result, set_exposure result b).

(** ** Inventory held over several days *)

Definition is_multiday (r : ActivePositionManifest) : bool :=
  bool_decide (am_side r ∈ ["long"; "short"]) && fltb fzero (am_notional r)
  && (MIN_MULTIDAY_CALENDAR_DAYS <=? am_calendar_days_held r)%Z.

Definition on_side (side : string) (rows : list ActivePositionManifest) : list ActivePositionManifest :=
  List.filter (fun r => bool_decide (am_side r = side)) rows.

Definition net_of (rows : list ActivePositionManifest) : float :=
  fold_left (fun n r => fadd n (fabs (am_notional r))) rows fzero.

Definition net_by_symbol (rows : list ActivePositionManifest) : list (string * float) :=
  fold_left (fun d r => assoc_set (upper (am_symbol r))
    (fadd (default fzero (assoc (upper (am_symbol r)) d)) (fabs (am_notional r))) d) rows [].

(** [blocked.setdefault(symbol, set()).add(side)]. *)
Definition block_side (symbol side : string) (d : list (string * gset string)) : list (string * gset string) :=
  assoc_set symbol ({[side]} ∪ default ∅ (assoc symbol d)) d.

Definition block_symbols (side : string) (by_symbol : list (string * float)) (d : list (string * gset string)) :=
  fold_left (fun d e => if fleb e.2 fzero then d else block_side e.1 side d) by_symbol d.

Definition cap_reason (label : string) (net cap fraction : float) : string :=
  String.append "net " (String.append label (String.append " multi-day exposure $" (String.append (fmt_money net)
    (String.append " exceeds cap $" (String.append (fmt_money cap) (String.append " ("
      (String.append (fmt_percent fraction) " equity)"))))))).

Definition holding_reason (symbol : string) (held max_days : Z) : string :=
  String.append symbol (String.append " held " (String.append (pretty held)
    (String.append " calendar days (max " (String.append (pretty max_days) ")")))).

Definition is_overdue (max_days : Z) (r : ActivePositionManifest) : bool := (max_days <=? am_calendar_days_held r)%Z.

Definition target_of (r : ActivePositionManifest) : ForceLiquidationTarget :=
  mkTarget (am_strategy_id r) (upper (am_symbol r)) (am_side r) (fabs (am_notional r)) (am_calendar_days_held r)
    (am_opened_session_date r) FORCED_DURATION_EXHAUSTION.

Definition inventory_verdict (manifest : list ActivePositionManifest) (current_equity : float) (b : PortfolioBrain)
    : InventoryPathDependencyVerdict :=
  let equity := py_max current_equity fone in
  let cap := fmul equity (br_max_multiday_fraction b) in
  let rows := List.filter is_multiday manifest in
  let longs := on_side "long" rows in
  let shorts := on_side "short" rows in
  let overdue := List.filter (is_overdue (br_max_multiday_days b)) rows in
  let net_long := net_of longs in
  let net_short := net_of shorts in
  let net := py_max net_long net_short in
  let long_breach := fltb (fadd cap TOLERANCE) net_long in
  let short_breach := fltb (fadd cap TOLERANCE) net_short in
  let blocked := if long_breach then block_symbols "long" (net_by_symbol longs) [] else [] in
  let blocked := if short_breach then block_symbols "short" (net_by_symbol shorts) blocked else blocked in
  let blocked := fold_left (fun d r => block_side (upper (am_symbol r)) (am_side r) d) overdue blocked in
  let holding := fold_left (fun d r => assoc_set (upper (am_symbol r))
      (holding_reason (upper (am_symbol r)) (am_calendar_days_held r) (br_max_multiday_days b)) d) overdue [] in
  let breaches := (if long_breach then ["MULTIDAY_LONG_EXPOSURE_CAP"] else []) ++
    (if short_breach then ["MULTIDAY_SHORT_EXPOSURE_CAP"] else []) ++
    (match overdue with [] => [] | _ => ["MULTIDAY_HOLDING_DURATION"] end) in
  let reasons :=
    (if long_breach then [("MULTIDAY_LONG_EXPOSURE_CAP",
       cap_reason "long" net_long cap (br_max_multiday_fraction b))] else []) ++
    (if short_breach then [("MULTIDAY_SHORT_EXPOSURE_CAP",
       cap_reason "short" net_short cap (br_max_multiday_fraction b))] else []) ++
    (match overdue with [] => []
     | _ => [("MULTIDAY_HOLDING_DURATION", String.concat "; " (map snd holding))] end) in
  let directives := (match breaches with [] => [] | _ => [GLOBAL_ENTRY_LOCKOUT] end) ++
    (match overdue with [] => [] | _ => [FORCE_LIQUIDATION_EXECUTE] end) in
  mkInventoryVerdict (head directives) (match directives with [] => true | _ => false end) net_long net_short net
    (fdiv net equity) cap blocked breaches reasons directives (map target_of overdue).

Definition check_inventory_path_dependency (manifest : list ActivePositionManifest) (current_equity : float)
    (b : PortfolioBrain) : InventoryPathDependencyVerdict * PortfolioBrain :=
  let verdict := inventory_verdict manifest current_equity b in (verdict, set_inventory verdict b).

(** The days a position has been held, counting the first; [as_of] is today. *)
Definition calendar_days_between (opened : option Z) (as_of : Z) : Z :=
  match opened with None => 0 | Some day => Z.max 1 (as_of - day + 1) end.

(** ** Signals that collide *)

Definition marginal_sharpe_of (leg_metrics : list (string * LegMetrics)) (id : string) : float :=
  match assoc id leg_metrics with Some m => lm_marginal_sharpe m | None => MIN_MARGINAL_SHARPE end.

(** [sorted(.., reverse=True)], which keeps the order of equals. *)
Fixpoint insert_desc {A} (key : A -> float) (x : A) (l : list A) : list A :=
  match l with
  | [] => [x]
  | y :: l => if fltb (key y) (key x) then x :: y :: l else y :: insert_desc key x l
  end.
Definition sort_desc {A} (key : A -> float) (l : list A) : list A :=
  fold_left (fun acc x => insert_desc key x acc) l [].

(** What the resolution has decided so far. *)
Record ruling := mkRuling {
  approved : list (string * option Signal);
  blocked : gset string;
  reasons : list (string * string)
}.

Definition block (id reason : string) (r : ruling) : ruling :=
  mkRuling (assoc_set id None (approved r)) ({[id]} ∪ blocked r) (assoc_set id reason (reasons r)).

Definition entries_of (signals : list (string * option Signal)) : list (string * Signal) :=
  omap (fun e => match e.2 with
                 | Some s => if is_entry_action (sig_action s) then Some (e.1, s) else None
                 | None => None
                 end) signals.

(** [by_symbol.setdefault(symbol, []).append((sid, sig))]. *)
Definition group_by_symbol (entries : list (string * Signal)) : list (string * list (string * Signal)) :=
  fold_left (fun d e => assoc_set (upper (sig_symbol e.2)) (default [] (assoc (upper (sig_symbol e.2)) d) ++ [e]) d)
    entries [].

Definition same_symbol_reason (symbol winner : string) : string :=
  String.append "same_symbol_opposing_entry:" (String.append symbol (String.append ":kept=" winner)).
Definition correlated_reason (corr : float) (winner : string) : string :=
  String.append "correlated_opposing_entry:corr=" (String.append (fmt_3f corr) (String.append ":kept=" winner)).
Definition same_direction_reason (winner : string) : string :=
  String.append "single_leg_correlated_same_direction:kept=" winner.

Definition one_direction (group : list (string * Signal)) : bool :=
  match group with
  | [] => true
  | e :: g => forallb (fun e' => (signal_direction (sig_action e'.2) =? signal_direction (sig_action e.2))%Z) g
  end.

Definition resolve_group (leg_metrics : list (string * LegMetrics)) (g : string * list (string * Signal)) (r : ruling)
    : ruling :=
  if (length g.2 <? 2)%nat || one_direction g.2 then r
  else match sort_desc (fun e => marginal_sharpe_of leg_metrics e.1) g.2 with
       | [] => r
       | winner :: losers =>
           fold_left (fun r e => block e.1 (same_symbol_reason g.1 winner.1) r) losers r
       end.

Definition correlation_of (correlations : list ((string * string) * float)) (a b : string) : float :=
  let get k := option_map snd (List.find (fun e : (string * string) * float => bool_decide (e.1 = k)) correlations) in
  default (default fzero (get (b, a))) (get (a, b)).

Definition single_leg (b : PortfolioBrain) : bool :=
  match bs_mode (br_state b) with Some m => md_single_leg_mode m | None => false end.

Definition resolve_pair (leg_metrics : list (string * LegMetrics)) (correlations : list ((string * string) * float))
    (b : PortfolioBrain) (x y : string * Signal) (r : ruling) : ruling :=
  let sym_a := upper (sig_symbol x.2) in
  let sym_b := upper (sig_symbol y.2) in
  if bool_decide (sym_a = sym_b) then r
  else
    let corr := correlation_of correlations sym_a sym_b in
    let dir_a := signal_direction (sig_action x.2) in
    let dir_b := signal_direction (sig_action y.2) in
    if (dir_a =? 0)%Z || (dir_b =? 0)%Z then r
    else if fltb corr OPPOSING_SIGNAL_CORRELATION_FLOOR then r
    else
      let a_wins := fleb (marginal_sharpe_of leg_metrics y.1) (marginal_sharpe_of leg_metrics x.1) in
      let loser := if a_wins then y.1 else x.1 in
      let winner := if a_wins then x.1 else y.1 in
      if negb (dir_a =? dir_b)%Z then block loser (correlated_reason corr winner) r
      else if single_leg b then block loser (same_direction_reason winner) r
      else r.

Fixpoint resolve_pairs (leg_metrics : list (string * LegMetrics)) (correlations : list ((string * string) * float))
    (b : PortfolioBrain) (l : list (string * Signal)) (r : ruling) : ruling :=
  match l with
  | [] => r
  | x :: l =>
      resolve_pairs leg_metrics correlations b l
        (fold_left (fun r y => resolve_pair leg_metrics correlations b x y r) l r)
  end.

Definition entry_of (o : option Signal) : bool :=
  match o with Some s => is_entry_action (sig_action s) | None => false end.

Definition apply_spy_gate (b : PortfolioBrain) (r : ruling) : ruling :=
  match bs_mode (br_state b) with
  | Some m =>
      if negb (md_spy_leg_enabled m) && entry_of (default None (assoc SPY_STRATEGY_ID (approved r)))
      then block SPY_STRATEGY_ID (String.append "spy_disabled:" (md_reason m)) r else r
  | None => r
  end.

Definition apply_dominance (b : PortfolioBrain) (r : ruling) : ruling :=
  match bs_mode (br_state b) with
  | Some m =>
      match md_dominant_strategy_id m with
      | Some dominant =>
          if md_single_leg_mode m && truthy dominant then
            fold_left (fun r e =>
                if entry_of e.2 && negb (bool_decide (e.1 = dominant))
                then block e.1 (String.append "single_leg_mode:dominant=" dominant) r else r)
              (approved r) r
          else r
      | None => r
      end
  | None => r
  end.

Definition resolve_conflicts (signals : list (string * option Signal)) (leg_metrics : list (string * LegMetrics))
    (correlations : list ((string * string) * float)) (b : PortfolioBrain) : ruling :=
  let entries := entries_of signals in
  let r := fold_left (fun r g => resolve_group leg_metrics g r) (group_by_symbol entries)
             (mkRuling signals ∅ []) in
  let remaining := List.filter (fun e => negb (bool_decide (e.1 ∈ blocked r))) entries in
  apply_dominance b (apply_spy_gate b (resolve_pairs leg_metrics correlations b remaining r)).

Definition resolve_signal_conflicts (signals : list (string * option Signal))
    (leg_metrics : list (string * LegMetrics)) (correlations : list ((string * string) * float)) (b : PortfolioBrain)
    : SignalConflictResolution * PortfolioBrain :=
  let r := resolve_conflicts signals leg_metrics correlations b in
  let resolution := mkResolution (approved r) (blocked r) (map (fun e => (e.1, fone)) signals) (reasons r) in
  (resolution, set_resolution resolution b).

(** ** Proposed positions *)

(** [{p.symbol.upper(): p for p in positions}]. *)
Definition pos_by_symbol (positions : list Position) : list (string * Position) :=
  fold_left (fun d p => assoc_set (upper (pos_symbol p)) p d) positions [].

Definition position_notional (p : Position) : float :=
  fmul (fabs (pos_qty p)) (py_max (pos_avg_entry_price p) fzero).

Definition propose (id symbol side : string) (notional : float) : ProposedPosition :=
  mkProposed id symbol side notional (symbol_beta symbol) (symbol_sector symbol) (symbol_factors symbol).

Definition estimate_proposed_positions (signals : list (string * option Signal)) (positions : list Position)
    (leg_metrics : list (string * LegMetrics)) (equity : float) (b : PortfolioBrain) : list ProposedPosition :=
  let budgets := match bs_risk_budgets (br_state b) with
                 | [] => normalize_weights (map (fun e => (e.1, fone)) leg_metrics)
                 | l => l
                 end in
  omap (fun e => option_map (fun p => propose e.1 (upper (lm_symbol e.2)) (pos_side p) (position_notional p))
                   (assoc (upper (lm_symbol e.2)) (pos_by_symbol positions))) leg_metrics ++
  omap (fun e => match e.2 with
    | Some s =>
        if is_entry_action (sig_action s) then
          option_map (fun _ => propose e.1 (upper (sig_symbol s))
              (if bool_decide (sig_action s = LONG) then "long" else "short")
              (fmul (fmul equity (default fzero (assoc e.1 budgets))) DD_CAP))
            (assoc e.1 leg_metrics)
        else None
    | None => None
    end) signals.

Definition annualized_vol_from_closes (closes : list float) (bars_per_year : Z) : float :=
  if (length closes <? 3)%nat then VOL_FLOOR
  else py_max (fmul (np_std (np_diff (map np_log closes))) (fsqrt (of_Z bars_per_year))) VOL_FLOOR.
End Brain.

(** ** The resolution of collisions *)

Section Conflicts.
Context `{BrainNumerics}.

Lemma insert_desc_perm {A} (key : A -> float) x l : insert_desc key x l ≡ₚ x :: l.
Proof.
  induction l as [|y l IH]; [done|]. cbn. destruct (fltb _ _); [done|]. rewrite IH. apply Permutation_swap.
Qed.

Lemma sort_desc_perm {A} (key : A -> float) l : sort_desc key l ≡ₚ l.
Proof.
  unfold sort_desc. assert (Hgen : forall acc, fold_left (fun acc x => insert_desc key x acc) l acc ≡ₚ l ++ acc).
  { induction l as [|x l IH]; intros acc; [done|]. cbn. rewrite IH, insert_desc_perm. by rewrite Permutation_middle. }
  rewrite Hgen. by rewrite app_nil_r.
Qed.

Definition sym_of (e : string * Signal) : string := upper (sig_symbol e.2).
Definition dir_of (e : string * Signal) : Z := signal_direction (sig_action e.2).

(** The group of a symbol holds its entries, in their order. *)
Lemma group_by_symbol_spec entries s :
  assoc s (group_by_symbol entries) =
  match List.filter (fun e => bool_decide (sym_of e = s)) entries with [] => None | g => Some g end.
Proof.
  unfold group_by_symbol.
  assert (Hgen : forall d, assoc s (fold_left (fun d e =>
      assoc_set (upper (sig_symbol e.2)) (default [] (assoc (upper (sig_symbol e.2)) d) ++ [e]) d) entries d) =
    match List.filter (fun e => bool_decide (sym_of e = s)) entries with
    | [] => assoc s d | g => Some (default [] (assoc s d) ++ g) end).
  { induction entries as [|e entries IH]; intros d; [done|]. cbn [fold_left]. rewrite IH.
    cbn [List.filter]. case_bool_decide as Hs; unfold sym_of in *.
    - subst s. rewrite assoc_set_same. cbn. destruct (List.filter _ _); [done|]. by rewrite <- app_assoc.
    - rewrite assoc_set_other by congruence. done. }
  rewrite Hgen. cbn. by destruct (List.filter _ _).
Qed.

Lemma group_by_symbol_NoDup entries : NoDup (group_by_symbol entries).*1.
Proof.
  unfold group_by_symbol. assert (Hgen : forall d, NoDup d.*1 -> NoDup (fold_left (fun d e =>
      assoc_set (upper (sig_symbol e.2)) (default [] (assoc (upper (sig_symbol e.2)) d) ++ [e]) d) entries d).*1).
  { induction entries as [|e entries IH]; intros d Hd; [exact Hd|]. apply IH. by apply assoc_set_NoDup. }
  apply Hgen. constructor.
Qed.

Lemma group_is_filter entries s g :
  (s, g) ∈ group_by_symbol entries -> g = List.filter (fun e => bool_decide (sym_of e = s)) entries.
Proof.
  intros Hin%assoc_elem; [|apply group_by_symbol_NoDup]. rewrite group_by_symbol_spec in Hin.
  destruct (List.filter _ _); [done|]. by injection Hin.
Qed.

Lemma entry_has_group entries e :
  e ∈ entries -> (sym_of e, List.filter (fun e' => bool_decide (sym_of e' = sym_of e)) entries) ∈ group_by_symbol entries.
Proof.
  intros He. apply assoc_Some_elem. rewrite group_by_symbol_spec.
  assert (Hin : e ∈ List.filter (fun e' => bool_decide (sym_of e' = sym_of e)) entries).
  { apply list_elem_of_In, filter_In. split; [by apply list_elem_of_In|by apply bool_decide_eq_true]. }
  destruct (List.filter _ _); [by apply not_elem_of_nil in Hin|done].
Qed.

Lemma elem_of_entries signals id sg :
  (id, sg) ∈ entries_of signals <-> (id, Some sg) ∈ signals /\ is_entry_action (sig_action sg) = true.
Proof.
  unfold entries_of. rewrite list_elem_of_omap. split.
  - intros ([id' o] & Hin & Hs). cbn in Hs. destruct o as [s|]; [|done].
    destruct (is_entry_action (sig_action s)) eqn:Ea; [|done]. by injection Hs as -> ->.
  - intros [Hin Ha]. exists (id, Some sg). cbn. by rewrite Ha.
Qed.

Lemma entries_NoDup signals : NoDup signals.*1 -> NoDup (entries_of signals).*1.
Proof.
  induction signals as [|[id o] signals IH]; intros Hnd; [constructor|]. cbn in Hnd. apply NoDup_cons in Hnd as [Hk Hnd].
  specialize (IH Hnd). unfold entries_of. cbn. destruct o as [sg|]; [|exact IH].
  destruct (is_entry_action _); [|exact IH]. cbn. constructor; [|exact IH].
  intros ([id' s'] & -> & Hin)%list_elem_of_fmap. apply elem_of_entries in Hin as [Hin _].
  apply Hk. apply list_elem_of_fmap. by exists (id', Some s').
Qed.

(** What every step of the resolution keeps: a blocked leg is an entry, and its signal is gone; every other
    leg's signal is as it was. *)
Section Rulings.
Context (signals : list (string * option Signal)).
Context (Hnd : NoDup signals.*1).

Record ruling_ok (r : ruling) : Prop := {
  ro_assoc id : assoc id (approved r) = if decide (id ∈ blocked r) then Some None else assoc id signals;
  ro_entry id : id ∈ blocked r -> id ∈ (entries_of signals).*1;
  ro_keys : (approved r).*1 = signals.*1
}.

Definition ruling_step (f : ruling -> ruling) : Prop :=
  forall r, ruling_ok r -> ruling_ok (f r) /\ blocked r ⊆ blocked (f r).

Lemma entry_key id : id ∈ (entries_of signals).*1 -> id ∈ signals.*1.
Proof.
  intros ([id' s'] & -> & [Hin _]%elem_of_entries)%list_elem_of_fmap. apply list_elem_of_fmap. by exists (id', Some s').
Qed.

Lemma ruling_start : ruling_ok (mkRuling signals ∅ []).
Proof. split; [|set_solver|done]. intros id. cbn. by rewrite decide_False by set_solver. Qed.

Lemma step_id : ruling_step (fun r => r).
Proof. by split. Qed.

Lemma step_block id reason : id ∈ (entries_of signals).*1 -> ruling_step (block id reason).
Proof.
  intros Hid r Hr. split; [|set_solver]. split; cbn.
  - intros id'. destruct (decide (id' = id)) as [->|Hne].
    + rewrite assoc_set_same, decide_True by set_solver. done.
    + rewrite assoc_set_other, (ro_assoc _ Hr) by done.
      destruct (decide (id' ∈ blocked r)); [rewrite decide_True by set_solver|rewrite decide_False by set_solver]; done.
  - intros id' [->%elem_of_singleton|Hin]%elem_of_union; [done|]. by apply (ro_entry _ Hr).
  - rewrite assoc_set_same_keys, (ro_keys _ Hr); [done|]. rewrite (ro_keys _ Hr). by apply entry_key.
Qed.

Lemma step_fold {A} (f : A -> ruling -> ruling) l :
  (forall x, x ∈ l -> ruling_step (f x)) -> ruling_step (fun r => fold_left (fun r x => f x r) l r).
Proof.
  induction l as [|x l IH]; intros Hl r Hr; [by split|]. cbn.
  destruct (Hl x ltac:(by left) r Hr) as [Hr1 Hs1].
  destruct (IH (fun y Hy => Hl y ltac:(by right)) (f x r) Hr1) as [Hr2 Hs2]. split; [exact Hr2|set_solver].
Qed.

Lemma entry_elem_key e : e ∈ entries_of signals -> e.1 ∈ (entries_of signals).*1.
Proof. intros He. apply list_elem_of_fmap. by exists e. Qed.

Lemma step_group lm g :
  (forall e, e ∈ g.2 -> e ∈ entries_of signals) -> ruling_step (resolve_group lm g).
Proof.
  intros Hg r Hr. unfold resolve_group. destruct (_ || _); [by apply step_id|].
  destruct (sort_desc _ g.2) as [|winner losers] eqn:Es; [by apply step_id|].
  apply (step_fold (fun e => block e.1 (same_symbol_reason g.1 winner.1))); [|exact Hr].
  intros e He. apply step_block, entry_elem_key, Hg. rewrite <- (sort_desc_perm (fun e => marginal_sharpe_of lm e.1)), Es. by right.
Qed.

Lemma step_pair lm corr b x y :
  x ∈ entries_of signals -> y ∈ entries_of signals -> ruling_step (resolve_pair lm corr b x y).
Proof.
  intros Hx Hy r Hr. unfold resolve_pair. cbv zeta.
  repeat match goal with |- context[if ?b then r else _] => destruct b; [by apply step_id|] end.
  destruct (negb _); [|destruct (single_leg b); [|by apply step_id]];
    (apply step_block; [destruct (fleb _ _); by apply entry_elem_key|exact Hr]).
Qed.

Lemma step_pairs lm corr b l :
  (forall e, e ∈ l -> e ∈ entries_of signals) -> ruling_step (resolve_pairs lm corr b l).
Proof.
  induction l as [|x l IH]; intros Hl r Hr; [by apply step_id|]. cbn [resolve_pairs].
  assert (Hx : x ∈ entries_of signals) by (apply Hl; by left).
  assert (Hrest : forall e, e ∈ l -> e ∈ entries_of signals) by (intros e He; apply Hl; by right).
  destruct (step_fold (fun y => resolve_pair lm corr b x y) l) with (r := r) as [Hr1 Hs1];
    [intros y Hy; by apply step_pair, Hrest|exact Hr|].
  destruct (IH Hrest _ Hr1) as [Hr2 Hs2]. split; [exact Hr2|set_solver].
Qed.

Lemma approved_entry r id : ruling_ok r -> entry_of (default None (assoc id (approved r))) = true ->
  id ∈ (entries_of signals).*1 /\ id ∉ blocked r.
Proof.
  intros Hr. rewrite (ro_assoc _ Hr). destruct (decide (id ∈ blocked r)) as [|Hnb]; [done|]. intros He. split; [|exact Hnb].
  destruct (assoc id signals) as [[sg|]|] eqn:Ea; cbn in He; try done.
  apply list_elem_of_fmap. exists (id, sg). split; [done|]. apply elem_of_entries. split; [by apply assoc_Some_elem|done].
Qed.

Lemma step_spy b : ruling_step (apply_spy_gate b).
Proof.
  intros r Hr. unfold apply_spy_gate. destruct (bs_mode _) as [m|]; [|by apply step_id].
  destruct (negb _ && _) eqn:Ec; [|by apply step_id]. apply andb_prop in Ec as [_ Ec].
  apply step_block; [|exact Hr]. by apply (approved_entry r).
Qed.

Lemma step_dominance b : ruling_step (apply_dominance b).
Proof.
  intros r Hr. unfold apply_dominance. destruct (bs_mode _) as [m|]; [|by apply step_id].
  destruct (md_dominant_strategy_id m) as [d|]; [|by apply step_id].
  destruct (_ && _); [|by apply step_id].
  apply (step_fold (fun e r => if entry_of e.2 && negb (bool_decide (e.1 = d))
    then block e.1 (String.append "single_leg_mode:dominant=" d) r else r)); [|exact Hr].
  intros [id o] Hin. destruct (_ && _) eqn:Ec; [|by apply step_id]. apply andb_prop in Ec as [Ec _].
  apply step_block. apply (approved_entry r id Hr). cbn in *.
  rewrite (assoc_elem id o); [exact Ec| |exact Hin]. change (NoDup (approved r).*1). by rewrite (ro_keys _ Hr).
Qed.

Lemma block_fold_in (f : string * Signal -> string) l r e :
  e ∈ l -> e.1 ∈ blocked (fold_left (fun r e => block e.1 (f e) r) l r).
Proof.
  assert (Hmono : forall l r, blocked r ⊆ blocked (fold_left (fun r e => block e.1 (f e) r) l r)).
  { clear. induction l as [|x l IH]; intros r; [done|]. cbn. etransitivity; [|apply IH]. set_solver. }
  intros He. revert r. induction l as [|x l IH]; intros r; [by apply not_elem_of_nil in He|]. cbn.
  apply elem_of_cons in He as [->|He]; [|by apply IH]. apply Hmono. set_solver.
Qed.

Lemma one_direction_spec g e1 e2 : one_direction g = true -> e1 ∈ g -> e2 ∈ g -> dir_of e1 = dir_of e2.
Proof.
  destruct g as [|e g]; [by intros _ ?%not_elem_of_nil|]. cbn. rewrite forallb_forall. intros Hall.
  assert (Hd : forall e', e' ∈ e :: g -> dir_of e' = dir_of e).
  { intros e' [->|He]%elem_of_cons; [done|]. apply Z.eqb_eq, Hall. by apply list_elem_of_In. }
  intros H1 H2. by rewrite (Hd _ H1), (Hd _ H2).
Qed.

Lemma two_elements {A} (l : list A) x y : x ∈ l -> y ∈ l -> x <> y -> (length l <? 2)%nat = false.
Proof.
  intros Hx Hy Hne. destruct l as [|a [|b l]]; [by apply not_elem_of_nil in Hx| |done].
  apply list_elem_of_singleton in Hx, Hy. congruence.
Qed.

(** A group of opposing entries keeps one of them. *)
Lemma group_leaves_one_direction lm g r e1 e2 :
  e1 ∈ g.2 -> e2 ∈ g.2 -> e1 <> e2 ->
  e1.1 ∉ blocked (resolve_group lm g r) -> e2.1 ∉ blocked (resolve_group lm g r) -> dir_of e1 = dir_of e2.
Proof.
  intros H1 H2 Hne. unfold resolve_group. rewrite (two_elements _ _ _ H1 H2 Hne). cbn [orb].
  destruct (one_direction g.2) eqn:Ed; [intros _ _; by apply (one_direction_spec g.2)|].
  pose proof (sort_desc_perm (fun e => marginal_sharpe_of lm e.1) g.2) as Hp.
  destruct (sort_desc _ g.2) as [|winner losers]; [apply Permutation_nil_l in Hp; rewrite <- Hp in H1; by apply not_elem_of_nil in H1|].
  rewrite <- Hp in H1, H2. intros Hb1 Hb2. exfalso.
  apply elem_of_cons in H1 as [->|H1]; [|by apply Hb1, block_fold_in].
  apply elem_of_cons in H2 as [->|H2]; [done|by apply Hb2, block_fold_in].
Qed.

Notation groups_done lm := (fold_left (fun r g => resolve_group lm g r) (group_by_symbol (entries_of signals))
  (mkRuling signals ∅ [])).

Lemma group_members g e : g ∈ group_by_symbol (entries_of signals) -> e ∈ g.2 -> e ∈ entries_of signals.
Proof.
  destruct g as [s g]. intros Hg%group_is_filter. cbn. subst g.
  intros He. apply list_elem_of_In in He. apply filter_In in He as [He _]. by apply list_elem_of_In.
Qed.

Lemma groups_step lm l :
  (forall g, g ∈ l -> g ∈ group_by_symbol (entries_of signals)) ->
  ruling_step (fun r => fold_left (fun r g => resolve_group lm g r) l r).
Proof.
  intros Hl. apply (step_fold (resolve_group lm)). intros g Hg. apply step_group.
  intros e He. apply (group_members g); [by apply Hl|done].
Qed.

Lemma groups_leave_one_direction lm e1 e2 :
  e1 ∈ entries_of signals -> e2 ∈ entries_of signals -> e1 <> e2 -> sym_of e1 = sym_of e2 ->
  e1.1 ∉ blocked (groups_done lm) -> e2.1 ∉ blocked (groups_done lm) -> dir_of e1 = dir_of e2.
Proof.
  intros H1 H2 Hne Hs. pose proof (entry_has_group _ _ H1) as Hg.
  pose proof Hg as (l1 & l2 & El)%list_elem_of_split. rewrite El, fold_left_app. cbn [fold_left].
  match goal with |- context[resolve_group lm ?g ?r] => set (rg := resolve_group lm g r) end.
  assert (Hsub1 : forall g, g ∈ l1 -> g ∈ group_by_symbol (entries_of signals)) by (intros g Hin; rewrite El; set_solver).
  assert (Hsub2 : forall g, g ∈ l2 -> g ∈ group_by_symbol (entries_of signals)) by (intros g Hin; rewrite El; set_solver).
  destruct (groups_step lm l1 Hsub1 _ ruling_start) as [Hr1 _].
  assert (Hrg : ruling_ok rg).
  { apply step_group; [|exact Hr1]. intros e He. by apply (group_members _ e Hg). }
  destruct (groups_step lm l2 Hsub2 rg Hrg) as [_ Hm]. intros Hb1 Hb2.
  apply (group_leaves_one_direction lm _ _ e1 e2) with (5 := fun Hin => Hb2 (Hm _ Hin)) (4 := fun Hin => Hb1 (Hm _ Hin));
    [cbn; apply list_elem_of_In, filter_In; (split; [by apply list_elem_of_In|by apply bool_decide_eq_true])..|done].
Qed.

(** Two entries of different symbols that move together, on opposite sides or in a single-leg mode. *)
Definition collides (corr : list ((string * string) * float)) (b : PortfolioBrain) (x y : string * Signal) : Prop :=
  sym_of x <> sym_of y /\
  fltb (correlation_of corr (sym_of x) (sym_of y)) OPPOSING_SIGNAL_CORRELATION_FLOOR = false /\
  (dir_of x <> dir_of y \/ single_leg b = true).

Lemma entry_dir e : e ∈ entries_of signals -> (dir_of e =? 0)%Z = false.
Proof. destruct e as [id sg]. intros [_ Ha]%elem_of_entries. unfold dir_of. cbn. by destruct (sig_action sg). Qed.

Lemma pair_blocks_one lm corr b x y r :
  x ∈ entries_of signals -> y ∈ entries_of signals -> collides corr b x y ->
  x.1 ∈ blocked (resolve_pair lm corr b x y r) \/ y.1 ∈ blocked (resolve_pair lm corr b x y r).
Proof.
  intros Hx Hy (Hs & Hc & Hd). unfold resolve_pair. cbv zeta. rewrite bool_decide_false by exact Hs.
  fold (sym_of x) (sym_of y) (dir_of x) (dir_of y). rewrite (entry_dir x Hx), (entry_dir y Hy), Hc. cbn [orb].
  destruct (dir_of x =? dir_of y)%Z eqn:Ed; cbn [negb].
  - apply Z.eqb_eq in Ed. destruct Hd as [Hd| ->]; [done|]. destruct (fleb _ _); set_solver.
  - destruct (fleb _ _); set_solver.
Qed.

Lemma pairs_leave_no_collision lm corr b l r x y :
  (forall e, e ∈ l -> e ∈ entries_of signals) -> ruling_ok r -> x ∈ l -> y ∈ l -> x <> y ->
  collides corr b x y -> collides corr b y x ->
  x.1 ∈ blocked (resolve_pairs lm corr b l r) \/ y.1 ∈ blocked (resolve_pairs lm corr b l r).
Proof.
  revert r. induction l as [|a l IH]; intros r Hl Hr Hx Hy Hne Hxy Hyx; [by apply not_elem_of_nil in Hx|].
  cbn [resolve_pairs].
  assert (Ha : a ∈ entries_of signals) by (apply Hl; by left).
  assert (Hrest : forall e, e ∈ l -> e ∈ entries_of signals) by (intros e He; apply Hl; by right).
  destruct (step_fold (fun y => resolve_pair lm corr b a y) l) with (r := r) as [Hr1 _];
    [intros e He; by apply step_pair, Hrest|exact Hr|].
  assert (Hcase : forall e, e ∈ l -> collides corr b a e ->
    a.1 ∈ blocked (resolve_pairs lm corr b l (fold_left (fun r y => resolve_pair lm corr b a y r) l r)) \/
    e.1 ∈ blocked (resolve_pairs lm corr b l (fold_left (fun r y => resolve_pair lm corr b a y r) l r))).
  { intros e He Hc. destruct (step_pairs lm corr b l Hrest _ Hr1) as [_ Hm].
    assert (Hin : a.1 ∈ blocked (fold_left (fun r y => resolve_pair lm corr b a y r) l r) \/
                  e.1 ∈ blocked (fold_left (fun r y => resolve_pair lm corr b a y r) l r)).
    { apply list_elem_of_split in He as (l1 & l2 & ->). rewrite fold_left_app. cbn [fold_left].
      set (r1 := fold_left _ l1 r).
      assert (Hr1' : ruling_ok r1).
      { apply (step_fold (fun y => resolve_pair lm corr b a y) l1); [|exact Hr].
        intros e' He'. apply step_pair; [done|]. apply Hrest. set_solver. }
      destruct (step_pair lm corr b a e Ha ltac:(apply Hrest; set_solver) r1 Hr1') as [Hr2 _].
      destruct (step_fold (fun y => resolve_pair lm corr b a y) l2) with (r := resolve_pair lm corr b a e r1) as [_ Hm2];
        [intros e' He'; apply step_pair; [done|]; apply Hrest; set_solver|exact Hr2|].
      destruct (pair_blocks_one lm corr b a e r1 Ha ltac:(apply Hrest; set_solver) Hc); [left|right]; by apply Hm2. }
    destruct Hin; [left|right]; by apply Hm. }
  apply elem_of_cons in Hx as [->|Hx]; apply elem_of_cons in Hy as [->|Hy].
  - done.
  - by apply Hcase.
  - destruct (Hcase x Hx Hyx); auto.
  - by apply IH.
Qed.

Lemma resolve_conflicts_ok lm corr b : ruling_ok (resolve_conflicts signals lm corr b).
Proof.
  unfold resolve_conflicts. apply step_dominance, step_spy, step_pairs.
  - intros e He. apply list_elem_of_In, filter_In in He as [He _]. by apply list_elem_of_In.
  - apply (groups_step lm _); [done|apply ruling_start].
Qed.

(** An approved entry passed every stage. *)
Lemma approved_is_entry r id sg :
  ruling_ok r -> assoc id (approved r) = Some (Some sg) -> is_entry_action (sig_action sg) = true ->
  (id, sg) ∈ entries_of signals /\ id ∉ blocked r.
Proof.
  intros Hr Ha He. rewrite (ro_assoc _ Hr) in Ha. destruct (decide (id ∈ blocked r)); [done|].
  split; [|done]. apply elem_of_entries. split; [by apply assoc_Some_elem|done].
Qed.

Lemma spy_gate_holds b r m :
  ruling_ok r -> bs_mode (br_state b) = Some m -> md_spy_leg_enabled m = false ->
  SPY_STRATEGY_ID ∈ (entries_of signals).*1 -> SPY_STRATEGY_ID ∈ blocked (apply_spy_gate b r).
Proof.
  intros Hr Hm Hs Hin. unfold apply_spy_gate. rewrite Hm, Hs. cbn [negb andb].
  destruct (decide (SPY_STRATEGY_ID ∈ blocked r)) as [Hb|Hb].
  { destruct (entry_of _); [set_solver|done]. }
  assert (He : entry_of (default None (assoc SPY_STRATEGY_ID (approved r))) = true).
  { rewrite (ro_assoc _ Hr), decide_False by done. apply list_elem_of_fmap in Hin as ([id sg] & Eid & Hin).
    cbn in Eid. subst id. apply elem_of_entries in Hin as [Hin Ha].
    rewrite (assoc_elem _ (Some sg)); [exact Ha|exact Hnd|exact Hin]. }
  rewrite He. set_solver.
Qed.

Lemma dominance_holds b r m d id :
  ruling_ok r -> bs_mode (br_state b) = Some m -> md_single_leg_mode m = true -> md_dominant_strategy_id m = Some d ->
  truthy d = true -> id <> d -> id ∈ (entries_of signals).*1 -> id ∈ blocked (apply_dominance b r).
Proof.
  intros Hr Hm Hs Hd Ht Hne Hin. unfold apply_dominance. rewrite Hm, Hd, Hs, Ht. cbn [andb].
  set (f := fun e r => if entry_of e.2 && negb (bool_decide (e.1 = d))
    then block e.1 (String.append "single_leg_mode:dominant=" d) r else r).
  assert (Hstep : forall e, e ∈ approved r -> ruling_step (f e)).
  { intros [id' o] He'. unfold f. destruct (_ && _) eqn:Ec; [|by apply step_id]. apply andb_prop in Ec as [Ec _].
    apply step_block. apply (approved_entry r id' Hr). cbn in *.
    rewrite (assoc_elem id' o); [exact Ec| |exact He']. change (NoDup (approved r).*1). by rewrite (ro_keys _ Hr). }
  destruct (decide (id ∈ blocked r)) as [Hb|Hb].
  { by apply (step_fold f (approved r) Hstep r Hr). }
  apply list_elem_of_fmap in Hin as ([id' sg] & Eid & Hin). cbn in Eid. subst id'.
  apply elem_of_entries in Hin as [Hin Ha].
  assert (He : (id, Some sg) ∈ approved r).
  { apply assoc_Some_elem. rewrite (ro_assoc _ Hr), decide_False by done. by apply assoc_elem. }
  apply list_elem_of_split in He as (l1 & l2 & El). rewrite El in Hstep |- *. rewrite fold_left_app. cbn [fold_left].
  destruct (step_fold f l1) with (r := r) as [Hr1 _]; [intros e He; apply Hstep; set_solver|exact Hr|].
  assert (Hf : id ∈ blocked (f (id, Some sg) (fold_left (fun r e => f e r) l1 r))).
  { unfold f at 1. cbn [entry_of fst snd]. rewrite Ha, bool_decide_false by done. cbn. set_solver. }
  destruct (Hstep (id, Some sg) ltac:(set_solver) _ Hr1) as [Hr2 _].
  destruct (step_fold f l2) with (r := f (id, Some sg) (fold_left (fun r e => f e r) l1 r)) as [_ Hm2];
    [intros e He; apply Hstep; set_solver|exact Hr2|].
  by apply Hm2.
Qed.
End Rulings.

Lemma approved_entries_clear signals lm corr b :
  NoDup signals.*1 ->
  let out := (resolve_signal_conflicts signals lm corr b).1 in
  let entry id sg := assoc id (sr_approved_signals out) = Some (Some sg) /\ is_entry_action (sig_action sg) = true in
  (forall id, assoc id (sr_approved_signals out) = assoc id signals \/
     exists sg, assoc id signals = Some (Some sg) /\ is_entry_action (sig_action sg) = true /\
       assoc id (sr_approved_signals out) = Some None /\ id ∈ sr_blocked_strategy_ids out) /\
  (forall id1 id2 s1 s2, entry id1 s1 -> entry id2 s2 -> id1 <> id2 ->
     (upper (sig_symbol s1) = upper (sig_symbol s2) -> sig_action s1 = sig_action s2) /\
     (upper (sig_symbol s1) <> upper (sig_symbol s2) ->
      fltb (correlation_of corr (upper (sig_symbol s1)) (upper (sig_symbol s2))) OPPOSING_SIGNAL_CORRELATION_FLOOR = false ->
      fltb (correlation_of corr (upper (sig_symbol s2)) (upper (sig_symbol s1))) OPPOSING_SIGNAL_CORRELATION_FLOOR = false ->
      sig_action s1 = sig_action s2 /\ single_leg b = false)) /\
  (forall m id sg, bs_mode (br_state b) = Some m -> entry id sg ->
     (md_spy_leg_enabled m = false -> id <> SPY_STRATEGY_ID) /\
     (forall d, md_single_leg_mode m = true -> md_dominant_strategy_id m = Some d -> truthy d = true -> id = d)).
Proof.
  intros Hnd out entry. subst out entry. cbv beta. cbn [resolve_signal_conflicts fst sr_approved_signals sr_blocked_strategy_ids].
  set (R := resolve_conflicts signals lm corr b).
  assert (HR : ruling_ok signals R) by by apply resolve_conflicts_ok.
  set (r1 := fold_left (fun r g => resolve_group lm g r) (group_by_symbol (entries_of signals)) (mkRuling signals ∅ [])).
  set (rest := List.filter (fun e => negb (bool_decide (e.1 ∈ blocked r1))) (entries_of signals)).
  assert (Hrest : forall e, e ∈ rest <-> e ∈ entries_of signals /\ e.1 ∉ blocked r1).
  { intros e. unfold rest. rewrite !list_elem_of_In, filter_In, negb_true_iff, bool_decide_eq_false. done. }
  destruct (groups_step signals Hnd lm _ (fun g Hg => Hg) _ (ruling_start signals Hnd)) as [H1 _]. fold r1 in H1.
  set (r2 := resolve_pairs lm corr b rest r1).
  destruct (step_pairs signals Hnd lm corr b rest (fun e He => proj1 (proj1 (Hrest e) He)) r1 H1) as [H2 M2]. fold r2 in H2, M2.
  destruct (step_spy signals Hnd b r2 H2) as [H3 M3]. set (r3 := apply_spy_gate b r2) in *.
  destruct (step_dominance signals Hnd b r3 H3) as [_ M4]. change (apply_dominance b r3) with R in M4.
  split; [|split].
  - intros id. rewrite (ro_assoc _ _ HR). destruct (decide (id ∈ blocked R)) as [Hb|]; [right|by left].
    pose proof (ro_entry _ _ HR id Hb) as ([id' sg] & Eid & Hin)%list_elem_of_fmap. cbn in Eid. subst id'.
    apply elem_of_entries in Hin as [Hin Ha]. exists sg. split; [by apply assoc_elem|done].
  - intros id1 id2 s1 s2 [Ha1 He1] [Ha2 He2] Hne.
    destruct (approved_is_entry signals R id1 s1 HR Ha1 He1) as [Hi1 Hb1].
    destruct (approved_is_entry signals R id2 s2 HR Ha2 He2) as [Hi2 Hb2].
    assert (Hb1' : id1 ∉ blocked r2) by set_solver. assert (Hb2' : id2 ∉ blocked r2) by set_solver.
    assert (Hpair : (id1, s1) <> (id2, s2)) by congruence.
    assert (Hact : dir_of (id1, s1) = dir_of (id2, s2) -> sig_action s1 = sig_action s2).
    { unfold dir_of. cbn. destruct (sig_action s1), (sig_action s2); cbn in *; done. }
    split.
    + intros Hs. apply Hact, (groups_leave_one_direction signals Hnd lm _ _ Hi1 Hi2 Hpair Hs); fold r1; cbn; set_solver.
    + intros Hs Hc12 Hc21.
      destruct (decide (dir_of (id1, s1) = dir_of (id2, s2))) as [Hd|Hd], (single_leg b) eqn:Esl;
        [exfalso| by split; [apply Hact|]|exfalso|exfalso];
        (destruct (pairs_leave_no_collision signals Hnd lm corr b rest r1 (id1, s1) (id2, s2)) as [Hin|Hin];
          [intros e He; by apply Hrest in He as []|exact H1|apply Hrest; (split; [done|cbn; set_solver])
          |apply Hrest; (split; [done|cbn; set_solver])|exact Hpair
          |split; [done|split; [done|by auto]]|split; [done|split; [done|by auto]]|by apply Hb1'|by apply Hb2']).
  - intros m id sg Hm [Ha He]. destruct (approved_is_entry signals R id sg HR Ha He) as [Hi Hb].
    assert (Hkey : id ∈ (entries_of signals).*1) by exact (entry_elem_key signals (id, sg) Hi).
    split.
    + intros Hs ->. apply Hb, M4. by apply (spy_gate_holds signals Hnd b r2 m).
    + intros d Hsl Hd Ht. destruct (decide (id = d)) as [|Hne]; [done|]. exfalso. apply Hb.
      by apply (dominance_holds signals Hnd b r3 m d id).
Qed.

(** C28: the resolution takes entries away and nothing else, and no two entries it approves collide: two of one
    symbol go the same way, two of symbols that move together go the same way and only outside a single-leg
    mode; no SPY entry passes a mode that disables SPY, and none but the dominant leg's passes a single-leg
    mode. *)
Theorem approved_entries_do_not_collide signals lm corr b :
  NoDup signals.*1 ->
  let out := (resolve_signal_conflicts signals lm corr b).1 in
  let entry id sg := assoc id (sr_approved_signals out) = Some (Some sg) /\ is_entry_action (sig_action sg) = true in
  (forall id, assoc id (sr_approved_signals out) = assoc id signals \/
     exists sg, assoc id signals = Some (Some sg) /\ is_entry_action (sig_action sg) = true /\
       assoc id (sr_approved_signals out) = Some None /\ id ∈ sr_blocked_strategy_ids out) /\
  (forall id1 id2 s1 s2, entry id1 s1 -> entry id2 s2 -> id1 <> id2 ->
     (upper (sig_symbol s1) = upper (sig_symbol s2) -> sig_action s1 = sig_action s2) /\
     (upper (sig_symbol s1) <> upper (sig_symbol s2) ->
      fltb (correlation_of corr (upper (sig_symbol s1)) (upper (sig_symbol s2))) OPPOSING_SIGNAL_CORRELATION_FLOOR = false ->
      fltb (correlation_of corr (upper (sig_symbol s2)) (upper (sig_symbol s1))) OPPOSING_SIGNAL_CORRELATION_FLOOR = false ->
      sig_action s1 = sig_action s2 /\ single_leg b = false)) /\
  (forall m id sg, bs_mode (br_state b) = Some m -> entry id sg ->
     (md_spy_leg_enabled m = false -> id <> SPY_STRATEGY_ID) /\
     (forall d, md_single_leg_mode m = true -> md_dominant_strategy_id m = Some d -> truthy d = true -> id = d)).
Proof. apply approved_entries_clear. Qed.

(** ** The strongest entry *)

(** The first of the entries with the largest Sharpe ratio. *)
Definition strongest {A} (key : A -> float) (x : A) (l : list A) : Prop :=
  exists l1 l2, l = l1 ++ x :: l2 /\ (forall e, e ∈ l1 -> fltb (key e) (key x) = true) /\
    (forall e, e ∈ l2 -> fleb (key e) (key x) = true).

Lemma strongest_exists {A} (key : A -> float) l :
  l <> [] -> (forall e, e ∈ l -> is_nan (key e) = false) -> exists x, strongest key x l.
Proof.
  induction l as [|a l IH]; intros Hne Hn; [done|]. destruct (decide (l = [])) as [->|Hl].
  { exists a, [], []. split; [done|]. split; intros e He; by apply not_elem_of_nil in He. }
  destruct (IH Hl (fun e He => Hn e ltac:(by right))) as (x & l1 & l2 & -> & Hlt & Hle).
  assert (Hx : is_nan (key x) = false) by (apply Hn; set_solver).
  destruct (fltb (key a) (key x)) eqn:Eax.
  - exists x, (a :: l1), l2. split; [done|]. split; [|exact Hle].
    intros e [->|He]%elem_of_cons; [exact Eax|by apply Hlt].
  - assert (Hxa : fleb (key x) (key a) = true).
    { pose proof (Hn a ltac:(by left)). forder. }
    exists a, [], (l1 ++ x :: l2). split; [done|]. split; [intros e He; by apply not_elem_of_nil in He|].
    intros e [He|[->|He]%elem_of_cons]%elem_of_app; [|exact Hxa|].
    + apply Hlt in He. forder.
    + apply Hle in He. by eapply fleb_trans.
Qed.

Lemma strongest_filter {A} (key : A -> float) (f : A -> bool) x l :
  strongest key x l -> f x = true -> strongest key x (List.filter f l).
Proof.
  intros (l1 & l2 & -> & Hlt & Hle) Hf. exists (List.filter f l1), (List.filter f l2).
  rewrite List.filter_app. cbn. rewrite Hf. split; [done|].
  split; intros e He; apply list_elem_of_In, filter_In in He as [He _]; apply list_elem_of_In in He; auto.
Qed.

Lemma sort_desc_strongest {A} (key : A -> float) x l :
  strongest key x l -> exists losers, sort_desc key l = x :: losers.
Proof.
  intros (l1 & l2 & -> & Hlt & Hle). unfold sort_desc. rewrite fold_left_app. cbn [fold_left].
  pose proof (sort_desc_perm key l1) as Hp. unfold sort_desc in Hp.
  assert (Hins : exists acc, insert_desc key x (fold_left (fun acc x => insert_desc key x acc) l1 []) = x :: acc).
  { destruct (fold_left _ l1 []) as [|y acc]; cbn; [by eexists|].
    rewrite (Hlt y); [by eexists|]. rewrite <- Hp. by left. }
  destruct Hins as [acc ->]. clear Hp Hlt. revert acc.
  induction l2 as [|y l2 IH]; intros acc; cbn; [by eexists|].
  assert (Ey : fltb (key x) (key y) = false).
  { destruct (fltb (key x) (key y)) eqn:Ey; [|done]. pose proof (Hle y ltac:(by left)). exfalso. forder. }
  rewrite Ey. apply IH. intros e He. apply Hle. by right.
Qed.

(** Unless a mode forbids it, the resolution keeps the strongest entry. *)
Lemma group_keeps_strongest signals lm g r M :
  NoDup signals.*1 -> strongest (fun e => marginal_sharpe_of lm e.1) M (entries_of signals) ->
  g ∈ group_by_symbol (entries_of signals) -> M.1 ∉ blocked r -> M.1 ∉ blocked (resolve_group lm g r).
Proof.
  intros Hnd HM Hg Hb. unfold resolve_group. destruct (_ || _); [exact Hb|].
  destruct (sort_desc _ g.2) as [|winner losers] eqn:Es; [exact Hb|].
  assert (Hlose : forall e, e ∈ losers -> e.1 <> M.1).
  { intros e He Heq. pose proof (sort_desc_perm (fun e => marginal_sharpe_of lm e.1) g.2) as Hp. rewrite Es in Hp.
    assert (Hin : e ∈ g.2) by (rewrite <- Hp; by right).
    assert (HeM : e = M).
    { pose proof (group_members signals g e Hg Hin) as H1.
      assert (H2 : M ∈ entries_of signals) by (destruct HM as (l1 & l2 & -> & _); set_solver).
      destruct e as [i1 s1], M as [i2 s2]. cbn in Heq. subst i2. f_equal.
      apply elem_of_entries in H1 as [H1 _], H2 as [H2 _].
      apply (assoc_elem _ _ _ Hnd) in H1, H2. congruence. }
    subst e. destruct g as [sy g]. cbn [fst snd] in *. apply group_is_filter in Hg as Eg.
    assert (Hs : strongest (fun e => marginal_sharpe_of lm e.1) M g).
    { subst g. apply strongest_filter; [exact HM|]. apply list_elem_of_In, filter_In in Hin as [_ Hin]. exact Hin. }
    destruct (sort_desc_strongest _ _ _ Hs) as [losers' Es']. rewrite Es in Es'. injection Es' as -> ->.
    assert (Hndg : NoDup (M :: losers')).
    { rewrite Hp. apply (NoDup_fmap_1 fst). subst g.
      by apply filter_keys_NoDup, entries_NoDup. }
    apply NoDup_cons in Hndg as [Hn _]. done. }
  clear Es. revert r Hb. induction losers as [|e losers IH]; intros r Hb; [exact Hb|]. cbn. apply IH.
  - intros e' He'. apply Hlose. by right.
  - cbn. pose proof (Hlose e ltac:(by left)). set_solver.
Qed.

Lemma pair_keeps lm corr b x y r id :
  id ∉ blocked r ->
  (x.1 = id -> fleb (marginal_sharpe_of lm y.1) (marginal_sharpe_of lm id) = true /\ y.1 <> id) ->
  (y.1 = id -> fleb (marginal_sharpe_of lm id) (marginal_sharpe_of lm x.1) = false) ->
  id ∉ blocked (resolve_pair lm corr b x y r).
Proof.
  intros Hb Hx Hy. unfold resolve_pair. cbv zeta.
  repeat match goal with |- context[if ?c then r else _] => destruct c; [exact Hb|] end.
  assert (Hl : (if fleb (marginal_sharpe_of lm y.1) (marginal_sharpe_of lm x.1) then y.1 else x.1) <> id).
  { destruct (fleb (marginal_sharpe_of lm y.1) (marginal_sharpe_of lm x.1)) eqn:E; intros Heq.
    - destruct (decide (x.1 = id)) as [Hxi|]; [destruct (Hx Hxi) as [_ Hn]; exact (Hn Heq)|]. rewrite Heq in E. pose proof (Hy Heq). congruence.
    - destruct (Hx Heq) as [Hle _]. rewrite Heq in E. congruence. }
  destruct (negb _); [|destruct (single_leg b)]; cbn; set_solver.
Qed.

Lemma pairs_keep_strongest lm corr b l r M :
  NoDup l.*1 -> strongest (fun e => marginal_sharpe_of lm e.1) M l -> M.1 ∉ blocked r ->
  M.1 ∉ blocked (resolve_pairs lm corr b l r).
Proof.
  intros Hnd (l1 & l2 & -> & Hlt & Hle). revert r.
  assert (Hno : forall l r, M.1 ∉ l.*1 -> M.1 ∉ blocked r -> M.1 ∉ blocked (resolve_pairs lm corr b l r)).
  { clear. induction l as [|x l IH]; intros r Hl Hb; [exact Hb|]. cbn in *. apply not_elem_of_cons in Hl as [Hx Hl].
    apply IH; [exact Hl|]. clear IH. induction l as [|y l IH] using rev_ind; [exact Hb|].
    rewrite fold_left_app. cbn. rewrite fmap_app, not_elem_of_app in Hl. destruct Hl as [Hl Hy]. apply pair_keeps; [by apply IH|done|].
    intros Heq. cbn in Hy. set_solver. }
  induction l1 as [|x l1 IH]; intros r Hb; cbn [app resolve_pairs].
  - cbn in Hnd. apply NoDup_cons in Hnd as [HM Hnd]. apply Hno; [exact HM|].
    clear Hno. induction l2 as [|y l2 IH] using rev_ind; [exact Hb|]. rewrite fold_left_app. cbn.
    rewrite fmap_app, NoDup_app in Hnd. rewrite fmap_app, not_elem_of_app in HM. apply pair_keeps.
    + apply IH; first [tauto|intros e He; apply Hle; set_solver].
    + intros _. split; [apply Hle; set_solver|]. destruct HM as [_ HM]. cbn in HM. set_solver.
    + intros Heq. destruct HM as [_ HM]. cbn in HM. set_solver.
  - cbn in Hnd. apply NoDup_cons in Hnd as [Hx Hnd]. apply IH; [exact Hnd|intros e He; apply Hlt; by right|].
    assert (HxM : x.1 <> M.1) by (intros Heq; apply Hx; rewrite Heq, fmap_app; set_solver).
    specialize (Hlt x ltac:(by left)). clear IH Hno Hle Hnd Hx.
    induction (l1 ++ M :: l2) as [|y l IH] using rev_ind; [exact Hb|]. rewrite fold_left_app. cbn.
    apply pair_keeps; [exact IH|done|]. intros Heq. rewrite fltb_negb_fleb in Hlt by forder. by apply negb_true_iff in Hlt.
Qed.

(** in a dual-leg mode with the SPY leg enabled the strongest of the proposed entries is approved, whatever
    collides: the resolution never silences the whole book. *)
Theorem strongest_entry_is_approved signals lm corr b :
  NoDup signals.*1 -> entries_of signals <> [] ->
  (forall e, e ∈ entries_of signals -> is_nan (marginal_sharpe_of lm e.1) = false) ->
  (forall m, bs_mode (br_state b) = Some m -> md_spy_leg_enabled m = true /\ md_single_leg_mode m = false) ->
  exists M, strongest (fun e => marginal_sharpe_of lm e.1) M (entries_of signals) /\
    assoc M.1 (sr_approved_signals (resolve_signal_conflicts signals lm corr b).1) = Some (Some M.2).
Proof.
  intros Hnd Hne Hnan Hmode. destruct (strongest_exists _ _ Hne Hnan) as [M HM]. exists M. split; [exact HM|].
  cbn [resolve_signal_conflicts fst sr_approved_signals]. unfold resolve_conflicts. cbv zeta.
  set (r1 := fold_left _ _ _). set (rest := List.filter _ _).
  set (r2 := resolve_pairs lm corr b rest r1).
  assert (Eg : apply_dominance b (apply_spy_gate b r2) = r2).
  { unfold apply_dominance, apply_spy_gate. destruct (bs_mode (br_state b)) as [m|]; [|done].
    destruct (Hmode m eq_refl) as [Hs Hl]. rewrite Hs, Hl. cbn. by destruct (md_dominant_strategy_id m). }
  rewrite Eg.
  assert (Hin : M ∈ entries_of signals) by (destruct HM as (l1 & l2 & -> & _); set_solver).
  assert (H1 : ruling_ok signals r1 /\ M.1 ∉ blocked r1).
  { split; [by apply (groups_step signals Hnd lm _ (fun g Hg => Hg) _ (ruling_start signals Hnd))|].
    subst r1. assert (Hgen : forall l r, (forall g, g ∈ l -> g ∈ group_by_symbol (entries_of signals)) ->
      M.1 ∉ blocked r -> M.1 ∉ blocked (fold_left (fun r g => resolve_group lm g r) l r)).
    { induction l as [|g l IH]; intros r Hl Hb; [exact Hb|]. cbn. apply IH; [intros g' Hg'; apply Hl; by right|].
      apply (group_keeps_strongest signals); [done|done|apply Hl; by left|done]. }
    apply Hgen; [done|]. cbn. set_solver. }
  destruct H1 as [H1 Hb1].
  assert (Hb2 : M.1 ∉ blocked r2).
  { apply pairs_keep_strongest; [|apply strongest_filter; [exact HM|by rewrite bool_decide_false]|exact Hb1].
    by apply filter_keys_NoDup, entries_NoDup. }
  assert (H2 : ruling_ok signals r2).
  { apply step_pairs; [done| |exact H1]. intros e He. apply list_elem_of_In, filter_In in He as [He _]. by apply list_elem_of_In. }
  rewrite (ro_assoc _ _ H2), decide_False by exact Hb2. destruct M as [id sg]. cbn in *.
  apply elem_of_entries in Hin as [Hin _]. by apply assoc_elem.
Qed.
End Conflicts.

(** ** One sector *)

Section Exposure.
Context `{BrainNumerics}.

Definition gross_of (live : list ProposedPosition) : float :=
  fold_left (fun g p => fadd g (fabs (pp_notional p))) live fzero.

Lemma sector_fold_one sector live x :
  Forall (fun p => pp_sector p = sector) live ->
  fold_left (fun d p => assoc_set (pp_sector p)
      (fadd (default fzero (assoc (pp_sector p) d)) (fabs (pp_notional p))) d) live [(sector, x)] =
  [(sector, fold_left (fun g p => fadd g (fabs (pp_notional p))) live x)].
Proof.
  intros Hall. revert x. induction Hall as [|p live Hp _ IH]; intros x; [done|]. cbn [fold_left]. rewrite Hp.
  cbn [assoc assoc_set]. destruct (decide (sector = sector)); [apply IH|done].
Qed.

Lemma sector_notionals_one sector live :
  live <> [] -> Forall (fun p => pp_sector p = sector) live -> sector_notionals live = [(sector, gross_of live)].
Proof.
  intros Hne Hall. destruct live as [|p live]; [done|]. apply Forall_cons in Hall as [Hp Hall].
  unfold sector_notionals, gross_of. cbn [fold_left]. rewrite Hp. by apply sector_fold_one.
Qed.

(** Whatever its size, a book of one sector is concentrated in it. *)
Lemma one_sector_is_breached sector equity proposed b :
  List.filter counts proposed <> [] -> Forall (fun p => pp_sector p = sector) (List.filter counts proposed) ->
  isfinite (gross_of (List.filter counts proposed)) = true -> ftruthy (gross_of (List.filter counts proposed)) = true ->
  ev_allowed (exposure_of equity proposed b) = false /\
  "sector_concentration_cap" ∈ ev_breach_codes (exposure_of equity proposed b).
Proof.
  intros Hne Hall Hfin Htr. unfold exposure_of. cbv zeta. cbn [ev_allowed ev_breach_codes].
  set (live := List.filter counts proposed) in *.
  assert (Hc : sector_concentration live = fone).
  { unfold sector_concentration. rewrite (sector_notionals_one sector live Hne Hall). cbn [map snd fold_left].
    destruct (gross_of live) as [s|s| |s m e] eqn:Eg; try done.
    change (fsum [S754_finite s m e]) with (S754_finite s m e). unfold f_or. rewrite Htr. apply fdiv_self. }
  rewrite Hc.
  set (nb := fdiv _ _). set (gr := fdiv _ _). clearbody nb gr. generalize (factor_crowding live). intros cr.
  assert (Hin : "sector_concentration_cap" ∈ exposure_breaches nb gr fone cr).
  { unfold exposure_breaches. rewrite !elem_of_app. right; right; left. vm_compute. by left. }
  split; [|exact Hin]. destruct (exposure_breaches _ _ _ _); [by apply not_elem_of_nil in Hin|done].
Qed.
End Exposure.

(** ** The lockout of held inventory *)

Section Inventory.
Context `{BrainNumerics}.

Definition locked_in (s dir : string) (d : list (string * gset string)) : Prop := dir ∈ default ∅ (assoc s d).

Lemma locked_block_side s dir symbol side d :
  locked_in s dir (block_side symbol side d) <-> (symbol = s /\ side = dir) \/ locked_in s dir d.
Proof.
  unfold locked_in, block_side. destruct (decide (s = symbol)) as [<-|Hne].
  - rewrite assoc_set_same. cbn. rewrite elem_of_union, elem_of_singleton. intuition congruence.
  - rewrite assoc_set_other by done. intuition congruence.
Qed.

Lemma locked_block_symbols s dir side l d :
  locked_in s dir (block_symbols side l d) <->
  (side = dir /\ exists x, (s, x) ∈ l /\ fleb x fzero = false) \/ locked_in s dir d.
Proof.
  unfold block_symbols. revert d. induction l as [|[s' x] l IH]; intros d; cbn [fold_left].
  { split; [by right|]. intros [(_ & y & Hy & _)|]; [by apply not_elem_of_nil in Hy|done]. }
  rewrite IH. cbn. destruct (fleb x fzero) eqn:Ex; [|rewrite locked_block_side]; split.
  - intros [(<- & y & Hy & Hf)|]; [left|by right]. split; [done|]. exists y. set_solver.
  - intros [(<- & y & [Heq|Hy]%elem_of_cons & Hf)|]; [congruence| |by right]. left. eauto.
  - intros [(<- & y & Hy & Hf)|[[-> ->]|]]; [left..|by right]; (split; [done|]); [exists y|exists x]; set_solver.
  - intros [(<- & y & [Heq|Hy]%elem_of_cons & Hf)|]; [|left; eauto|auto]. injection Heq as -> ->. auto.
Qed.

Lemma locked_overdue s dir l d :
  locked_in s dir (fold_left (fun d r => block_side (upper (am_symbol r)) (am_side r) d) l d) <->
  (exists r, r ∈ l /\ upper (am_symbol r) = s /\ am_side r = dir) \/ locked_in s dir d.
Proof.
  revert d. induction l as [|r l IH]; intros d; cbn [fold_left].
  { split; [by right|]. intros [(r & Hr & _)|]; [by apply not_elem_of_nil in Hr|done]. }
  rewrite IH, locked_block_side. split.
  - intros [(r' & Hr' & Hs)|[Hs|]]; [left; exists r'; set_solver|left; exists r; set_solver|by right].
  - intros [(r' & [->|Hr']%elem_of_cons & Hs)|]; auto. left. eauto.
Qed.

Definition of_symbol (s : string) (rows : list ActivePositionManifest) : list ActivePositionManifest :=
  List.filter (fun r => bool_decide (upper (am_symbol r) = s)) rows.

Lemma net_by_symbol_spec rows s :
  assoc s (net_by_symbol rows) = match of_symbol s rows with [] => None | l => Some (net_of l) end.
Proof.
  unfold net_by_symbol, net_of, of_symbol.
  assert (Hgen : forall d, assoc s (fold_left (fun d r => assoc_set (upper (am_symbol r))
      (fadd (default fzero (assoc (upper (am_symbol r)) d)) (fabs (am_notional r))) d) rows d) =
    match List.filter (fun r => bool_decide (upper (am_symbol r) = s)) rows with
    | [] => assoc s d
    | l => Some (fold_left (fun n r => fadd n (fabs (am_notional r))) l (default fzero (assoc s d))) end).
  { induction rows as [|r rows IH]; intros d; [done|]. cbn [fold_left]. rewrite IH. cbn [List.filter].
    case_bool_decide as Hs.
    - subst s. rewrite assoc_set_same. cbn. by destruct (List.filter _ _).
    - rewrite assoc_set_other by congruence. done. }
  rewrite Hgen. cbn. done.
Qed.

Lemma net_by_symbol_NoDup rows : NoDup (net_by_symbol rows).*1.
Proof.
  unfold net_by_symbol. assert (Hgen : forall d, NoDup d.*1 -> NoDup (fold_left (fun d r => assoc_set (upper (am_symbol r))
      (fadd (default fzero (assoc (upper (am_symbol r)) d)) (fabs (am_notional r))) d) rows d).*1).
  { induction rows as [|r rows IH]; intros d Hd; [exact Hd|]. apply IH. by apply assoc_set_NoDup. }
  apply Hgen. constructor.
Qed.

Lemma elem_of_net_by_symbol rows s x :
  (s, x) ∈ net_by_symbol rows <-> of_symbol s rows <> [] /\ x = net_of (of_symbol s rows).
Proof.
  pose proof (net_by_symbol_spec rows s) as Hs. split.
  - intros Hin%assoc_elem; [|apply net_by_symbol_NoDup]. rewrite Hin in Hs. destruct (of_symbol s rows); [done|].
    by injection Hs as ->.
  - intros [Hne ->]. apply assoc_Some_elem. rewrite Hs. by destruct (of_symbol s rows).
Qed.

Lemma entry_lock_iff manifest current_equity b symbol side :
  side = "long" \/ side = "short" ->
  let cap := fmul (py_max current_equity fone) (br_max_multiday_fraction b) in
  let held := on_side side (List.filter is_multiday manifest) in
  is_entry_locked (inventory_verdict manifest current_equity b) symbol side = true <->
  exists r, r ∈ held /\ upper (am_symbol r) = upper symbol /\
    (is_overdue (br_max_multiday_days b) r = true \/
     fltb (fadd cap TOLERANCE) (net_of held) = true /\ fleb (net_of (of_symbol (upper symbol) held)) fzero = false).
Proof.
  intros Hside cap held.
  assert (Hl : lower side = side) by (by destruct Hside as [-> | ->]).
  unfold is_entry_locked. rewrite bool_decide_eq_true, Hl.
  fold (locked_in (upper symbol) side (iv_blocked_entry_by_symbol (inventory_verdict manifest current_equity b))).
  unfold inventory_verdict. cbv zeta. cbn [iv_blocked_entry_by_symbol].
  set (rows := List.filter is_multiday manifest) in *. rewrite locked_overdue.
  assert (Hheld : forall r, r ∈ held <-> r ∈ rows /\ am_side r = side).
  { intros r. unfold held, on_side. rewrite !list_elem_of_In, filter_In, bool_decide_eq_true. done. }
  assert (Hover : (exists r, r ∈ List.filter (is_overdue (br_max_multiday_days b)) rows /\
            upper (am_symbol r) = upper symbol /\ am_side r = side) <->
          exists r, r ∈ held /\ upper (am_symbol r) = upper symbol /\ is_overdue (br_max_multiday_days b) r = true).
  { split; intros (r & Hr & Hs & Ho); exists r; rewrite Hheld, !list_elem_of_In, ?filter_In in *; tauto. }
  rewrite Hover. clear Hover.
  assert (Hcap : locked_in (upper symbol) side
      (if fltb (fadd cap TOLERANCE) (net_of (on_side "short" rows))
       then block_symbols "short" (net_by_symbol (on_side "short" rows))
              (if fltb (fadd cap TOLERANCE) (net_of (on_side "long" rows))
               then block_symbols "long" (net_by_symbol (on_side "long" rows)) [] else [])
       else if fltb (fadd cap TOLERANCE) (net_of (on_side "long" rows))
            then block_symbols "long" (net_by_symbol (on_side "long" rows)) [] else []) <->
    fltb (fadd cap TOLERANCE) (net_of held) = true /\ of_symbol (upper symbol) held <> [] /\
      fleb (net_of (of_symbol (upper symbol) held)) fzero = false).
  { assert (Hempty : locked_in (upper symbol) side [] <-> False) by (unfold locked_in; cbn; set_solver).
    assert (Hsym : forall rows', (exists x, (upper symbol, x) ∈ net_by_symbol rows' /\ fleb x fzero = false) <->
              of_symbol (upper symbol) rows' <> [] /\ fleb (net_of (of_symbol (upper symbol) rows')) fzero = false).
    { intros rows'. setoid_rewrite elem_of_net_by_symbol. naive_solver. }
    destruct (fltb _ (net_of (on_side "short" rows))) eqn:Es, (fltb _ (net_of (on_side "long" rows))) eqn:El;
      rewrite ?locked_block_symbols, ?Hempty, ?Hsym;
      destruct Hside as [-> | ->]; unfold held; rewrite ?Es, ?El; naive_solver. }
  fold cap. rewrite Hcap. split.
  - intros [(r & Hr & Hs & Ho)|(Hc & Hne & Hn)]; [exists r; auto|].
    destruct (of_symbol (upper symbol) held) as [|r l] eqn:Eo; [done|]. exists r.
    assert (Hin : r ∈ of_symbol (upper symbol) held) by (rewrite Eo; by left).
    unfold of_symbol in Hin. rewrite list_elem_of_In, filter_In, bool_decide_eq_true, <- list_elem_of_In in Hin.
    destruct Hin as [Hin Hs]. auto.
  - intros (r & Hr & Hs & [Ho|[Hc Hn]]); [left; eauto|right]. split; [exact Hc|]. split; [|exact Hn].
    assert (Hin : r ∈ of_symbol (upper symbol) held).
    { unfold of_symbol. rewrite list_elem_of_In, filter_In, bool_decide_eq_true, <- list_elem_of_In. done. }
    intros E. rewrite E in Hin. by apply not_elem_of_nil in Hin.
Qed.

(** A lockout comes with its directive. *)
Lemma lock_has_directive manifest current_equity b symbol side :
  side = "long" \/ side = "short" ->
  is_entry_locked (inventory_verdict manifest current_equity b) symbol side = true ->
  has_directive (inventory_verdict manifest current_equity b) GLOBAL_ENTRY_LOCKOUT = true.
Proof.
  intros Hside Hlock. apply entry_lock_iff in Hlock as (r & Hr & _ & Hcase); [|exact Hside].
  unfold has_directive, inventory_verdict. cbv zeta. cbn [iv_directive iv_directives].
  apply orb_true_iff. right. apply bool_decide_eq_true, elem_of_app. left.
  match goal with |- _ ∈ match ?l with [] => _ | _ => _ end => assert (Hne : l <> []); [|by destruct l; [|left]] end.
  destruct Hcase as [Ho|[Hc _]].
  - assert (Hin : r ∈ List.filter (is_overdue (br_max_multiday_days b)) (List.filter is_multiday manifest)).
    { unfold on_side in Hr. rewrite !list_elem_of_In, !filter_In in *. tauto. }
    destruct (List.filter (is_overdue _) _); [by apply not_elem_of_nil in Hin|].
    repeat destruct (fltb _ _); done.
  - destruct Hside as [-> | ->]; rewrite Hc; repeat destruct (fltb _ _); done.
Qed.

(** an entry is locked out exactly by inventory of its own symbol and side that has been held over a day: by a
    position at the end of its days, or by any, when the side as a whole is over its cap. *)
Theorem entry_lock_spec manifest current_equity b symbol side :
  side = "long" \/ side = "short" ->
  let cap := fmul (py_max current_equity fone) (br_max_multiday_fraction b) in
  let held := on_side side (List.filter is_multiday manifest) in
  is_entry_locked (inventory_verdict manifest current_equity b) symbol side = true <->
  exists r, r ∈ held /\ upper (am_symbol r) = upper symbol /\
    (is_overdue (br_max_multiday_days b) r = true \/
     fltb (fadd cap TOLERANCE) (net_of held) = true /\ fleb (net_of (of_symbol (upper symbol) held)) fzero = false).
Proof. apply entry_lock_iff. Qed.
End Inventory.


(** ** Numbers, in memory *)

Module Numbers.
Definition total (l : list float) : float := fold_left fadd l fzero.
Definition mean (l : list float) : float := fdiv (total l) (of_Z (Z.of_nat (length l))).

(** [np_log] and [np_corrcoef] stand still: the examples' prices do. *)
#[export] Instance numerics : BrainNumerics := {|
  np_log x := x;
  np_std l := fsqrt (mean (map (fun x => let d := fsub x (mean l) in fmul d d) l));
  np_corrcoef _ _ := fzero;
  np_mean := mean;
  np_sum := total;
  np_column_sum := total;
  np_norm v := fsqrt (fadd (fadd (fmul v.1.1 v.1.1) (fmul v.1.2 v.1.2)) (fmul v.2 v.2));
  np_average l ws := fdiv (total (zip_with fmul l ws)) (total ws);
  fmt_3f _ := "";
  fmt_money _ := "";
  fmt_percent _ := ""
|}.

Definition signal (id symbol : string) (a : SignalAction) : Signal := mkSignal symbol a (of_Z 100) 0 id [].
Definition qqq_long : Signal := signal QQQ_STRATEGY_ID "QQQ" LONG.
Definition spy_short : Signal := signal SPY_STRATEGY_ID "SPY" SHORT.
Definition opposed : list (string * option Signal) :=
  [(QQQ_STRATEGY_ID, Some qqq_long); (SPY_STRATEGY_ID, Some spy_short)].
Definition together : list ((string * string) * float) := [(("QQQ", "SPY"), fone)].
Definition brain : PortfolioBrain := brain_init (of_Z 100000) None false
  DEFAULT_MAX_MULTIDAY_DIRECTIONAL_EXPOSURE_FRACTION DEFAULT_MAX_MULTIDAY_HOLDING_CALENDAR_DAYS.
Definition heavy : ActivePositionManifest := mkManifest QQQ_STRATEGY_ID "QQQ" "long" (of_Z 50000) 2 0 (Some 0%Z).
End Numbers.

Import Numbers.

Lemma opposed_NoDup : NoDup opposed.*1.
Proof. apply (bool_decide_unpack _). vm_compute. exact I. Qed.

Lemma approved_entries_do_not_collide_witness :
  let out := (resolve_signal_conflicts opposed [] together brain).1 in
  assoc QQQ_STRATEGY_ID (sr_approved_signals out) = Some (Some qqq_long) /\
  assoc SPY_STRATEGY_ID (sr_approved_signals out) <> Some (Some spy_short).
Proof.
  intros out. assert (Hq : assoc QQQ_STRATEGY_ID (sr_approved_signals out) = Some (Some qqq_long))
    by (vm_compute; reflexivity).
  split; [exact Hq|]. intros Hs.
  destruct (approved_entries_do_not_collide opposed [] together brain opposed_NoDup) as (_ & Hpair & _).
  destruct (Hpair QQQ_STRATEGY_ID SPY_STRATEGY_ID qqq_long spy_short (conj Hq eq_refl) (conj Hs eq_refl))
    as [_ Hcorr]; [vm_compute; discriminate|].
  destruct Hcorr as [Hside _]; [vm_compute; discriminate|vm_compute; reflexivity..|discriminate Hside].
Defined.

Lemma strongest_entry_is_approved_witness :
  exists M, strongest (fun e => marginal_sharpe_of [] e.1) M (entries_of opposed) /\
    assoc M.1 (sr_approved_signals (resolve_signal_conflicts opposed [] together brain).1) = Some (Some M.2).
Proof.
  apply (strongest_entry_is_approved opposed [] together brain opposed_NoDup); [discriminate|done|].
  intros m. discriminate.
Defined.

Lemma entry_lock_spec_witness :
  is_entry_locked (inventory_verdict [heavy] (of_Z 100000) brain) "qqq" "long" = true.
Proof.
  apply (entry_lock_spec [heavy] (of_Z 100000) brain "qqq" "long" (or_introl eq_refl)). exists heavy.
  split; [by left|]. split; [vm_compute; reflexivity|]. right. split; vm_compute; reflexivity.
Defined.

(** ** A loser that still wins *)

Module Chain.
Definition leg (id : string) (sharpe : Z) : string * LegMetrics :=
  (id, mkLegMetrics id id VOL_FLOOR fzero (of_Z sharpe) fzero fone fzero true).
Definition metrics : list (string * LegMetrics) := [leg "GLD" 1; leg "SLV" 2; leg "GDX" 3].
Definition signals : list (string * option Signal) :=
  [("GLD", Some (signal "GLD" "GLD" LONG)); ("SLV", Some (signal "SLV" "SLV" SHORT));
   ("GDX", Some (signal "GDX" "GDX" LONG))].
Definition correlations : list ((string * string) * float) := [(("GLD", "SLV"), fone); (("SLV", "GDX"), fone)].
End Chain.

(** A leg that a stronger one takes away still takes a weaker one with it: GLD goes for SLV, SLV for GDX, and GLD,
    which collides with nothing that is left, stays blocked. *)
Lemma blocked_leg_still_blocks :
  let out := (resolve_signal_conflicts Chain.signals Chain.metrics Chain.correlations brain).1 in
  map (fun e => (e.1, entry_of e.2)) (sr_approved_signals out) = [("GLD", false); ("SLV", false); ("GDX", true)].
Proof. vm_compute. reflexivity. Qed.
