(* ===== verification/PortfolioCoordinator.v ===== *)
(** * Portfolio coordinator and order router

    [src/engine/portfolio_coordinator.py] over the brain of [PortfolioBrain], and
    [src/router/default.py]. A cycle collects the legs' signals, asks the brain, and leaves one plan
    per leg; the constraint ledger and the inventory registry are tables of the coordinator's state.
    Every use of the database may raise, and an exception ends the cycle.
    The risk manager ([router.risk_manager]) and [persistence.db] are not in the repository and are
    arguments; the metadata column of the ledger is not modelled. *)

From stdpp Require Import base gmap strings list sorting.
From Stdlib Require Import ZArith Lia.
From S2P Require Import Prelude Dict PyFloat FloatInt Models Correlation RollingWindow PortfolioBrain.

Definition ROUTING_POSTURE_AGGRESSIVE_TAKER : string := "AGGRESSIVE_TAKER".
Definition BARS_PER_YEAR : Z := 252 * 26.
Definition DEFAULT_SHARPE : float := Eval vm_compute in lit 25 2.
Definition SHARPE_STD_FLOOR : float := Eval vm_compute in lit 1 9.
Definition BREACH_LINE : float := Eval vm_compute in lit 65 2.

(** The risk manager, the stored profits and [float] of a text. *)
Class RiskEnv := {
  AssetContext : Type;
  PortfolioState : Type;
  ps_halted : PortfolioState -> bool;
  check_drawdown_breaker : Account -> PortfolioState -> PortfolioState;
  size_order : Signal -> RollingWindow -> Account -> list Position -> PortfolioState -> float ->
    list (string * json) -> option AssetContext -> option (list (string * RollingWindow)) -> list Order;
  promotion_pnls : string -> string -> list float;
  get_leg_realized_pnl : string -> float;
  float_of_text : string -> option float
}.

(** The fields of a strategy's configuration that the coordinator reads. *)
Record StrategyConfig := mkStrategyConfig {
  sc_strategy_id : string; sc_symbol : string; sc_enabled : bool
}.

(** A row of [portfolio_constraint_ledger]; the lockout column holds the dict that was serialised. *)
Record constraint_row := mkConstraint {
  cr_cycle_id : string;
  cr_type : string;
  cr_strategy_id : option string;
  cr_symbol : option string;
  cr_action_taken : string;
  cr_sizing_multiplier : option float;
  cr_inventory : option float;
  cr_lockout : option (list (string * list string));
  cr_equity : option float
}.

(** A row of [portfolio_inventory_registry], whose key is the strategy and the symbol; days are
    counted, the column holds their ISO text. *)
Record registry_row := mkRegistry {
  rg_side : string; rg_opened : Z; rg_last_seen : Z; rg_net : float
}.

Notation registry := (gmap (string * string) registry_row).

Definition json_truthy (j : json) : bool :=
  match j with
  | JNull => false
  | JBool b => b
  | JInt n => negb (n =? 0)%Z
  | JFloat x => ftruthy x
  | JStr s => truthy s
  | JArr l => match l with [] => false | _ => true end
  | JObj l => match l with [] => false | _ => true end
  end.

Section Coordinator.
Context `{BrainNumerics} `{RiskEnv}.
Local Open Scope py_scope.

Record LegCyclePayload := mkPayload {
  pl_strategy_id : string;
  pl_symbol : string;
  pl_signal : option Signal;
  pl_routing_params : list (string * json);
  pl_base_risk_fraction : float;
  pl_window : RollingWindow;
  pl_enabled : bool;
  pl_health_score : float;
  pl_champion_score : float;
  pl_asset_context : option AssetContext;
  pl_bars_in_trade : Z;
  pl_position_side : string
}.

Record CoordinatedLegPlan := mkPlan {
  cp_strategy_id : string;
  cp_signal : option Signal;
  cp_routing_params : list (string * json);
  cp_risk_fraction : float;
  cp_sizing_multiplier : float;
  cp_window : RollingWindow;
  cp_asset_context : option AssetContext;
  cp_blocked : bool;
  cp_block_reason : string;
  cp_force_liquidation : bool;
  cp_cancel_pending_orders : bool;
  cp_force_liquidation_reason : string
}.

Record CycleCoordinationResult := mkCycle {
  cc_cycle_id : string;
  cc_risk_budgets : list (string * float);
  cc_plans : list (string * CoordinatedLegPlan);
  cc_mode_reason : string;
  cc_exposure_allowed : bool;
  cc_exposure_block_reason : option string
}.

Record PortfolioCoordinator := mkCoordinator {
  co_brain : PortfolioBrain;
  co_cycle_id : string;
  co_pending : list (string * LegCyclePayload);
  co_windows : list (string * RollingWindow);
  co_last_result : option CycleCoordinationResult;
  co_registry : registry;
  co_ledger : list constraint_row;
  co_faults : list bool          (* whether the next uses of the database raise *)
}.

Definition coordinator_init (faults : list bool) (single_leg_symbol : option string) (static_risk_split : bool)
    : PortfolioCoordinator :=
  mkCoordinator (brain_init (of_Z 100000) single_leg_symbol static_risk_split
      DEFAULT_MAX_MULTIDAY_DIRECTIONAL_EXPOSURE_FRACTION DEFAULT_MAX_MULTIDAY_HOLDING_CALENDAR_DAYS)
    "" [] [] None ∅ [] faults.

Definition set_brain (b : PortfolioBrain) (c : PortfolioCoordinator) : PortfolioCoordinator :=
  mkCoordinator b (co_cycle_id c) (co_pending c) (co_windows c) (co_last_result c) (co_registry c) (co_ledger c) (co_faults c).
Definition set_registry (r : registry) (c : PortfolioCoordinator) : PortfolioCoordinator :=
  mkCoordinator (co_brain c) (co_cycle_id c) (co_pending c) (co_windows c) (co_last_result c) r (co_ledger c) (co_faults c).
Definition set_result (x : CycleCoordinationResult) (c : PortfolioCoordinator) : PortfolioCoordinator :=
  mkCoordinator (co_brain c) (co_cycle_id c) (co_pending c) (co_windows c) (Some x) (co_registry c) (co_ledger c)
    (co_faults c).

(** A use of the database: the ledger's insert (or its staging), the registry's transaction, its
    reading, the legs' realised profits. A transaction that raises is rolled back. *)
Definition store_call : py PortfolioCoordinator string unit := fun c =>
  let next := mkCoordinator (co_brain c) (co_cycle_id c) (co_pending c) (co_windows c) (co_last_result c)
                (co_registry c) (co_ledger c) (tail (co_faults c)) in
  match co_faults c with true :: _ => (Raise "sqlite3.Error", next) | _ => (Ok tt, next) end.

Definition log_portfolio_constraint (r : constraint_row) : py PortfolioCoordinator string unit :=
  store_call ;;!
  py_modify (fun c => mkCoordinator (co_brain c) (co_cycle_id c) (co_pending c) (co_windows c) (co_last_result c)
    (co_registry c) (co_ledger c ++ [r]) (co_faults c)).

Definition log_row (row : PortfolioCoordinator -> constraint_row) : py PortfolioCoordinator string unit :=
  fun c => log_portfolio_constraint (row c) c.

Fixpoint log_rows (rows : list (PortfolioCoordinator -> constraint_row)) : py PortfolioCoordinator string unit :=
  match rows with
  | [] => py_ret tt
  | row :: rows => log_row row ;;! log_rows rows
  end.

(** [cycle_id]: the fresh identifier. *)
Definition begin_cycle (account : Account) (cycle_id : string) (c : PortfolioCoordinator) : PortfolioCoordinator :=
  mkCoordinator (set_equity (py_max (equity account) fone) (co_brain c)) cycle_id [] [] (co_last_result c)
    (co_registry c) (co_ledger c) (co_faults c).

Definition register_leg_evaluation (p : LegCyclePayload) (c : PortfolioCoordinator) : PortfolioCoordinator :=
  mkCoordinator (co_brain c) (co_cycle_id c) (assoc_set (pl_strategy_id p) p (co_pending c))
    (assoc_set (pl_strategy_id p) (pl_window p) (co_windows c)) (co_last_result c) (co_registry c) (co_ledger c) (co_faults c).

(** ** Measures of the legs *)

Definition marginal_sharpe (strategy_id symbol : string) : float :=
  match promotion_pnls strategy_id symbol with
  | [] => DEFAULT_SHARPE
  | series =>
      let std := np_std series in
      if fltb std SHARPE_STD_FLOOR then DEFAULT_SHARPE
      else py_max (fdiv (np_mean series) std) MIN_MARGINAL_SHARPE
  end.

Definition drawdown_stress (cfg : StrategyConfig) : float :=
  py_max fzero (fneg (get_leg_realized_pnl (sc_strategy_id cfg))).

Definition leg_metrics_of (c : PortfolioCoordinator) (positions : list Position) (total : float)
    (leg_dd : list (string * float)) (cfg : StrategyConfig) : LegMetrics :=
  let id := sc_strategy_id cfg in
  let payload := assoc id (co_pending c) in
  let window := match payload with Some p => Some (pl_window p) | None => assoc id (co_windows c) end in
  mkLegMetrics id (upper (sc_symbol cfg))
    (annualized_vol_from_closes (match window with Some w => closes_array w | None => [] end) BARS_PER_YEAR)
    (if fltb fzero total then fdiv (default fzero (assoc id leg_dd)) total else fzero)
    (marginal_sharpe id (sc_symbol cfg))
    (match assoc (upper (sc_symbol cfg)) (pos_by_symbol positions) with
     | Some p => position_notional p | None => fzero end)
    (match payload with Some p => pl_health_score p | None => fone end)
    (match payload with Some p => pl_champion_score p | None => fzero end)
    (sc_enabled cfg).

Definition build_leg_metrics (configs : list StrategyConfig) (positions : list Position) (c : PortfolioCoordinator)
    : list (string * LegMetrics) :=
  let total := fold_left (fun t cfg => fadd t (drawdown_stress cfg)) configs fzero in
  let leg_dd := fold_left (fun d cfg => assoc_set (sc_strategy_id cfg) (drawdown_stress cfg) d) configs [] in
  fold_left (fun d cfg => assoc_set (sc_strategy_id cfg) (leg_metrics_of c positions total leg_dd cfg) d) configs [].

Definition qqq_spy_correlation (c : PortfolioCoordinator) : float :=
  match assoc QQQ_STRATEGY_ID (co_windows c), assoc SPY_STRATEGY_ID (co_windows c) with
  | Some q, Some s => compute_return_correlation np_log np_std np_corrcoef (closes_array q) (closes_array s)
  | _, _ => fzero
  end.

Fixpoint correlation_pairs (symbols : list (string * list float)) (keys : list string)
    : list ((string * string) * float) :=
  match keys with
  | [] => []
  | a :: keys =>
      flat_map (fun b =>
        let corr := compute_return_correlation np_log np_std np_corrcoef
                      (default [] (assoc a symbols)) (default [] (assoc b symbols)) in
        [((a, b), corr); ((b, a), corr)]) keys ++ correlation_pairs symbols keys
  end.

Definition symbol_correlation_map (c : PortfolioCoordinator) : list ((string * string) * float) :=
  let symbols := fold_left (fun d e => assoc_set (upper (pl_symbol e.2)) (closes_array (pl_window e.2)) d)
                   (co_pending c) [] in
  correlation_pairs symbols (sorted_keys symbols.*1).

(** ** The inventory registry *)

Definition position_side (p : Position) : string := if fltb fzero (pos_qty p) then "long" else "short".

(** [{cfg.symbol.upper(): cfg for cfg in enabled_configs}]. *)
Definition strategy_by_symbol (configs : list StrategyConfig) : list (string * StrategyConfig) :=
  fold_left (fun d cfg => assoc_set (upper (sc_symbol cfg)) cfg d) configs [].

Definition sync_position (today : Z) (configs : list StrategyConfig) (r : registry) (e : string * Position) : registry :=
  match assoc e.1 (strategy_by_symbol configs) with
  | None => r
  | Some cfg =>
      let side := position_side e.2 in
      let notional := position_notional e.2 in
      let signed := if bool_decide (side = "long") then notional else fneg notional in
      let key := (sc_strategy_id cfg, e.1) in
      <[key := mkRegistry side (match r !! key with Some old => rg_opened old | None => today end) today signed]> r
  end.

Definition sync_inventory_registry (today : Z) (configs : list StrategyConfig) (positions : list Position)
    (r : registry) : registry :=
  let held := pos_by_symbol positions in
  let r := fold_left (sync_position today configs) held r in
  fold_left (fun r cfg => match assoc (upper (sc_symbol cfg)) held with
                          | Some _ => r
                          | None => delete (sc_strategy_id cfg, upper (sc_symbol cfg)) r
                          end) configs r.

Definition manifest_of (today : Z) (positions : list Position) (c : PortfolioCoordinator) (cfg : StrategyConfig)
    : option ActivePositionManifest :=
  let symbol := upper (sc_symbol cfg) in
  match assoc symbol (pos_by_symbol positions) with
  | None => None
  | Some p =>
      let opened := match co_registry c !! (sc_strategy_id cfg, symbol) with
                    | Some row => rg_opened row | None => today end in
      Some (mkManifest (sc_strategy_id cfg) symbol (position_side p) (position_notional p)
        (calendar_days_between (Some opened) today)
        (match assoc (sc_strategy_id cfg) (co_pending c) with Some l => pl_bars_in_trade l | None => 0 end)
        (Some opened))
  end.

Definition build_active_positions_manifest (today : Z) (configs : list StrategyConfig) (positions : list Position)
    (c : PortfolioCoordinator) : list ActivePositionManifest :=
  omap (manifest_of today positions c) configs.

(** ** Lockouts and forced liquidation *)

Definition direction_of (a : SignalAction) : string := if bool_decide (a = LONG) then "long" else "short".

Definition lockout_reason (s : Signal) : string :=
  String.append GLOBAL_ENTRY_LOCKOUT (String.append ":" (String.append (direction_of (sig_action s))
    (String.append ":" (upper (sig_symbol s))))).

(** The signal a lockout takes away. *)
Definition locked_out (v : InventoryPathDependencyVerdict) (o : option Signal) : option Signal :=
  match o with
  | Some s => if is_entry_action (sig_action s) && is_entry_locked v (sig_symbol s) (direction_of (sig_action s))
              then Some s else None
  | None => None
  end.

Definition apply_inventory_entry_lockouts (signals : list (string * option Signal))
    (v : InventoryPathDependencyVerdict) : list (string * option Signal) * list (string * string) :=
  if has_directive v GLOBAL_ENTRY_LOCKOUT
  then (map (fun e => (e.1, match locked_out v e.2 with Some _ => None | None => e.2 end)) signals,
        omap (fun e => option_map (fun s => (e.1, lockout_reason s)) (locked_out v e.2)) signals)
  else (signals, []).

Definition format_directional_entry_lockout (v : InventoryPathDependencyVerdict)
    : option (list (string * list string)) :=
  match iv_blocked_entry_by_symbol v with
  | [] => None
  | d => Some (map (fun e => (e.1, sorted_strings e.2)) d)
  end.

Definition force_liquidation_map (v : InventoryPathDependencyVerdict) : list (string * ForceLiquidationTarget) :=
  if has_directive v FORCE_LIQUIDATION_EXECUTE
  then fold_left (fun d t => assoc_set (fl_strategy_id t) t d) (iv_force_liquidation_targets v) []
  else [].

Definition build_forced_exit_signal (t : ForceLiquidationTarget) (reference_price : float) (timestamp : Z) : Signal :=
  mkSignal (fl_symbol t) EXIT (py_max reference_price fzero) timestamp (fl_strategy_id t)
    [("force_liquidation", JBool true); ("transition_reason", JStr (fl_transition_reason t));
     ("calendar_days_held", JInt (fl_calendar_days_held t))].

Definition apply_force_liquidation_routing (params : list (string * json)) (t : ForceLiquidationTarget)
    : list (string * json) :=
  assoc_set "symbol" (JStr (fl_symbol t))
    (assoc_set "calendar_days_held" (JInt (fl_calendar_days_held t))
      (assoc_set "force_liquidation_reason" (JStr (fl_transition_reason t))
        (assoc_set "routing_posture_override" (JStr ROUTING_POSTURE_AGGRESSIVE_TAKER)
          (assoc_set "bypass_exit_thresholds" (JBool true)
            (assoc_set "force_terminal_liquidation" (JBool true) params))))).

(** ** The plans *)

(** [float(x)]. *)
Definition float_of_json (j : json) : result string float :=
  match j with
  | JFloat x => Ok x
  | JInt n => Ok (of_Z n)
  | JBool b => Ok (if b then fone else fzero)
  | JStr s => match float_of_text s with Some x => Ok x | None => Raise "ValueError" end
  | _ => Raise "TypeError"
  end.

Definition scaled_routing (params : list (string * json)) (multiplier : float)
    : result string (list (string * json)) :=
  let found := match assoc "max_position_pct" params with
               | Some j => j
               | None => default (JFloat DD_CAP) (assoc "effective_max_position_pct" params)
               end in
  try! base_max := float_of_json (if json_truthy found then found else JFloat DD_CAP) in
  Ok (assoc_set "portfolio_coordination_scale" (JFloat multiplier)
        (assoc_set "max_position_pct" (JFloat (fmul base_max multiplier)) params)).

(** What the cycle has decided before the plans are made. *)
Record cycle_context := mkContext {
  cx_budgets : list (string * float);
  cx_resolution : SignalConflictResolution;
  cx_exposure : ExposureValidation;
  cx_lockouts : list (string * string);
  cx_targets : list (string * ForceLiquidationTarget);
  cx_macro_block : bool;
  cx_now : Z
}.

Definition is_entry (o : option Signal) : bool :=
  match o with Some s => is_entry_action (sig_action s) | None => false end.

Definition str_join (sep : string) (l : list string) : string := String.concat sep l.

(** Blocked, and why: after the conflicts and lockouts, the exposure gate and the macro gate. *)
Definition block_of (x : cycle_context) (id : string) (signal : option Signal) : bool * string :=
  let res := cx_resolution x in
  let blocked := bool_decide (id ∈ sr_blocked_strategy_ids res) in
  let reason := default "" (assoc id (sr_reasons res)) in
  let '(blocked, reason) := match assoc id (cx_lockouts x) with
                            | Some r => (true, str_or reason r) | None => (blocked, reason) end in
  let '(blocked, reason) :=
    if negb (ev_allowed (cx_exposure x)) && is_entry signal
    then (true, str_or reason (str_join "|" (ev_breach_codes (cx_exposure x)))) else (blocked, reason) in
  if cx_macro_block x && is_entry signal then (true, str_or reason "macro_risk_off_block") else (blocked, reason).

Definition plan_leg (x : cycle_context) (e : string * LegCyclePayload) : result string CoordinatedLegPlan :=
  let '(id, p) := e in
  let target := assoc id (cx_targets x) in
  let signal := match target with
    | Some t => Some (build_forced_exit_signal t
                  (match latest (pl_window p) with Some b => bar_close b | None => fzero end) (cx_now x))
    | None => default None (assoc id (sr_approved_signals (cx_resolution x)))
    end in
  let '(blocked, reason) := match target with
    | Some _ => (false, FORCE_LIQUIDATION_EXECUTE)
    | None => block_of x id signal
    end in
  let budget := default (pl_base_risk_fraction p) (assoc id (cx_budgets x)) in
  let multiplier := fmul (default fone (assoc id (sr_scale_multipliers (cx_resolution x))))
                      (default fone (assoc id (ev_sizing_multipliers (cx_exposure x)))) in
  let multiplier := if blocked then fzero else multiplier in
  let signal := if blocked && is_entry signal then None else signal in
  try! routing := match target with
    | Some t => Ok (apply_force_liquidation_routing (pl_routing_params p) t)
    | None => if fltb multiplier fone && fltb fzero multiplier then scaled_routing (pl_routing_params p) multiplier
              else Ok (pl_routing_params p)
    end in
  Ok (mkPlan id signal routing (fmul budget (py_max multiplier fzero)) multiplier (pl_window p) (pl_asset_context p)
    blocked reason (match target with Some _ => true | None => false end)
    (match target with Some _ => true | None => false end)
    (match target with Some t => fl_transition_reason t | None => "" end)).

Fixpoint plan_legs (x : cycle_context) (pending : list (string * LegCyclePayload))
    : result string (list (string * CoordinatedLegPlan)) :=
  match pending with
  | [] => Ok []
  | e :: pending =>
      try! plan := plan_leg x e in
      try! plans := plan_legs x pending in
      Ok ((e.1, plan) :: plans)
  end.

(** ** The cycle *)

(** The arguments of a call, its clock (a day and a moment) and the identifier it would draw. *)
Record cycle_args := mkArgs {
  ca_configs : list StrategyConfig;
  ca_account : Account;
  ca_positions : list Position;
  ca_capital_winner : option string;
  ca_cap_multiplier : float;
  ca_macro_block : bool;
  ca_today : Z;
  ca_now : Z;
  ca_fresh_id : string
}.

Definition mode_name (m : portfolio_mode) : string :=
  match m with
  | DUAL_LEG => "DUAL_LEG" | SINGLE_LEG_QQQ => "SINGLE_LEG_QQQ"
  | SINGLE_LEG_SPY => "SINGLE_LEG_SPY" | SPY_DISABLED => "SPY_DISABLED"
  end.

Definition plain_row (c : PortfolioCoordinator) (type action : string) : constraint_row :=
  mkConstraint (co_cycle_id c) type None None action None None None None.

Definition open_cycle (a : cycle_args) (c : PortfolioCoordinator) : PortfolioCoordinator :=
  if truthy (co_cycle_id c) then c else begin_cycle (ca_account a) (ca_fresh_id a) c.

(** Budgets and mode. The profits are read leg by leg before anything changes. *)
Definition cycle_mode (a : cycle_args)
    : py PortfolioCoordinator string (list (string * LegMetrics) * list (string * float) * PortfolioModeDecision) :=
  let enabled := list_to_set (map sc_strategy_id (List.filter sc_enabled (ca_configs a))) in
  store_call ;;!
  let! metrics := (fun c => (Ok (build_leg_metrics (ca_configs a) (ca_positions a) c), c)) in
  let! budgets := (fun c => let r := allocate_risk_budgets metrics (co_brain c) in (Ok r.1, set_brain r.2 c)) in
  log_row (fun c => plain_row c "risk_budget_allocation" "allocated") ;;!
  let! mode := (fun c => let r := resolve_portfolio_mode metrics (qqq_spy_correlation c) (ca_capital_winner a)
                                    (Some enabled) (co_brain c) in (Ok r.1, set_brain r.2 c)) in
  log_row (fun c => plain_row c "portfolio_mode" (mode_name (md_mode mode))) ;;!
  py_ret (metrics, budgets, mode).

Definition inventory_row (a : cycle_args) (v : InventoryPathDependencyVerdict) (type : string)
    (id symbol : option string) (action : string) (c : PortfolioCoordinator) : constraint_row :=
  mkConstraint (co_cycle_id c) type id symbol action None (Some (iv_multiday_net_exposure v))
    (format_directional_entry_lockout v) (Some (equity (ca_account a))).

(** The registry, the verdict on the inventory, and the legs to liquidate. *)
Definition cycle_inventory (a : cycle_args)
    : py PortfolioCoordinator string (InventoryPathDependencyVerdict * list (string * ForceLiquidationTarget)) :=
  store_call ;;!
  py_modify (fun c =>
    set_registry (sync_inventory_registry (ca_today a) (ca_configs a) (ca_positions a) (co_registry c)) c) ;;!
  store_call ;;!
  let! verdict := (fun c =>
    let r := check_inventory_path_dependency
               (build_active_positions_manifest (ca_today a) (ca_configs a) (ca_positions a) c)
               (equity (ca_account a)) (co_brain c) in (Ok r.1, set_brain r.2 c)) in
  log_row (inventory_row a verdict "cross_session_inventory" None None (opt_or (iv_directive verdict) "allowed")) ;;!
  log_rows (map (fun e => inventory_row a verdict "forced_duration_liquidation"
                            (Some (fl_strategy_id e.2)) (Some (fl_symbol e.2)) FORCE_LIQUIDATION_EXECUTE)
              (force_liquidation_map verdict)) ;;!
  py_ret (verdict, force_liquidation_map verdict).

(** Lockouts and collisions. *)
Definition pending_symbol (c : PortfolioCoordinator) (id : string) : option string :=
  option_map pl_symbol (assoc id (co_pending c)).

Definition cycle_conflicts (a : cycle_args) (metrics : list (string * LegMetrics))
    (verdict : InventoryPathDependencyVerdict)
    : py PortfolioCoordinator string (SignalConflictResolution * list (string * string)) :=
  let! locked := (fun c =>
    (Ok (apply_inventory_entry_lockouts (map (fun e => (e.1, pl_signal e.2)) (co_pending c)) verdict), c)) in
  log_rows (map (fun e c => inventory_row a verdict "inventory_entry_lockout" (Some e.1) (pending_symbol c e.1)
                              GLOBAL_ENTRY_LOCKOUT c) locked.2) ;;!
  let! resolution := (fun c =>
    let r := resolve_signal_conflicts locked.1 metrics (symbol_correlation_map c) (co_brain c) in
    (Ok r.1, set_brain r.2 c)) in
  log_rows (map (fun e c => mkConstraint (co_cycle_id c) "signal_conflict" (Some e.1)
                              (pending_symbol c e.1) "blocked" (Some fzero) None None None) (sr_reasons resolution)) ;;!
  py_ret (resolution, locked.2).

Definition scale_exposure (multiplier : float) (e : ExposureValidation) : ExposureValidation :=
  if fltb multiplier fone then
    let breach := negb (ev_allowed e) || fltb multiplier BREACH_LINE in
    mkExposure (negb breach) (map (fun m => (m.1, fmul m.2 multiplier)) (ev_sizing_multipliers e))
      (ev_breach_codes e ++ (if breach then ["macro_risk_off_cap"] else []))
      (ev_net_beta e) (ev_gross_exposure_ratio e) (ev_sector_concentration e) (ev_factor_crowding e)
  else e.

(** The exposure gate. *)
Definition cycle_exposure (a : cycle_args) (metrics : list (string * LegMetrics))
    (resolution : SignalConflictResolution) : py PortfolioCoordinator string ExposureValidation :=
  let! raw := (fun c =>
    let proposed := estimate_proposed_positions (sr_approved_signals resolution) (ca_positions a) metrics
                      (equity (ca_account a)) (co_brain c) in
    let r := validate_global_exposure proposed (Some (equity (ca_account a))) (co_brain c) in
    (Ok r.1, set_brain r.2 c)) in
  let exposure := scale_exposure (ca_cap_multiplier a) raw in
  log_row (fun c => mkConstraint (co_cycle_id c) "global_exposure" None None
     (if ev_allowed exposure then "allowed" else "breach")
     (Some (match map snd (ev_sizing_multipliers exposure) with
            | [] => fone | m :: ms => fold_left py_min ms m end)) None None None) ;;!
  py_ret exposure.

Definition coordinate_cycle (a : cycle_args) : py PortfolioCoordinator string CycleCoordinationResult :=
  py_modify (open_cycle a) ;;!
  let! m := cycle_mode a in
  let '(metrics, budgets, mode) := m in
  let! i := cycle_inventory a in
  let '(verdict, targets) := i in
  let! l := cycle_conflicts a metrics verdict in
  let '(resolution, lockouts) := l in
  let! exposure := cycle_exposure a metrics resolution in
  fun c =>
  match plan_legs (mkContext budgets resolution exposure lockouts targets (ca_macro_block a) (ca_now a))
          (co_pending c) with
  | Raise e => (Raise e, c)
  | Ok plans =>
      let result := mkCycle (co_cycle_id c) budgets plans (md_reason mode) (ev_allowed exposure)
        (if ev_allowed exposure then None
         else Some (str_or (str_join "|" (ev_breach_codes exposure)) "gross_cap_below_breach_line")) in
      (Ok result, set_result result c)
  end.

(** ** The router *)

(** [OrderRouter.route]. *)
Definition route (signal : option Signal) (window : RollingWindow) (account : Account) (positions : list Position)
    (state : PortfolioState) (risk_budget_fraction : float) (strategy_params : list (string * json))
    (asset_context : option AssetContext) (active_windows : option (list (string * RollingWindow)))
    : list Order * PortfolioState :=
  let updated := check_drawdown_breaker account state in
  match signal with
  | Some s => if ps_halted updated then ([], updated)
              else (size_order s window account positions updated risk_budget_fraction strategy_params asset_context
                      active_windows, updated)
  | None => ([], updated)
  end.

(** [d.setdefault(k, v)]. *)
Definition set_default (k : string) (v : json) (d : list (string * json)) : list (string * json) :=
  match assoc k d with Some _ => d | None => assoc_set k v d end.

Definition route_coordinated_plan (plan : CoordinatedLegPlan) (account : Account) (positions : list Position)
    (state : PortfolioState) (active_windows : option (list (string * RollingWindow))) : list Order * PortfolioState :=
  if cp_blocked plan && is_entry (cp_signal plan) && negb (cp_force_liquidation plan) then ([], state)
  else
    let params := if cp_force_liquidation plan
      then set_default "routing_posture_override" (JStr ROUTING_POSTURE_AGGRESSIVE_TAKER)
             (set_default "bypass_exit_thresholds" (JBool true)
               (set_default "force_terminal_liquidation" (JBool true) (cp_routing_params plan)))
      else cp_routing_params plan in
    match cp_signal plan with
    | None => ([], state)
    | Some _ => route (cp_signal plan) (cp_window plan) account positions state (cp_risk_fraction plan) params
                  (cp_asset_context plan) active_windows
    end.
End Coordinator.

(** ** What a cycle leaves *)

Section Cycle.
Context `{BrainNumerics} `{RiskEnv}.

(** What the database does touches the ledger and the faults to come only. *)
Record only_logged (c c' : PortfolioCoordinator) : Prop := {
  ol_brain : co_brain c' = co_brain c;
  ol_cycle_id : co_cycle_id c' = co_cycle_id c;
  ol_pending : co_pending c' = co_pending c;
  ol_windows : co_windows c' = co_windows c;
  ol_registry : co_registry c' = co_registry c;
  ol_faults : forall b, b ∈ co_faults c' -> b ∈ co_faults c
}.

Lemma only_logged_refl c : only_logged c c.
Proof. done. Qed.

Lemma only_logged_trans c c' c'' : only_logged c c' -> only_logged c' c'' -> only_logged c c''.
Proof. intros [? ? ? ? ? ?] [? ? ? ? ? ?]. split; [congruence..|auto]. Qed.

(** A call either raises because the database refused, or gives this value and leaves this
    state, up to what is logged. *)
Definition reaches {A} (m : py PortfolioCoordinator string A) (c : PortfolioCoordinator) (v : A)
    (c' : PortfolioCoordinator) : Prop :=
  forall c0, only_logged c c0 ->
    (exists c1, m c0 = (Raise "sqlite3.Error", c1) /\ true ∈ co_faults c) \/
    (exists c1, m c0 = (Ok v, c1) /\ only_logged c' c1).

Lemma reaches_ret {A} (v : A) c : reaches (py_ret v) c v c.
Proof. intros c0 Hl. right. by exists c0. Qed.

Lemma reaches_bind {A B} (m : py PortfolioCoordinator string A) (k : A -> py PortfolioCoordinator string B)
    c v c1 v' c2 :
  reaches m c v c1 -> co_faults c1 = co_faults c -> reaches (k v) c1 v' c2 -> reaches (py_bind m k) c v' c2.
Proof.
  intros Hm Hf Hk c0 Hl. unfold py_bind. destruct (Hm c0 Hl) as [(c' & -> & Ht)|(c' & -> & Hl')]; [left; by exists c'|].
  destruct (Hk c' Hl') as [(c'' & -> & Ht)|(c'' & -> & Hl'')]; [left; exists c''; by rewrite <- Hf|right; by exists c''].
Qed.

(** A step that decides from what the database does not touch. *)
Lemma reaches_step {A} (f : PortfolioCoordinator -> A) (g : PortfolioCoordinator -> PortfolioCoordinator) c :
  (forall c0, only_logged c c0 -> f c0 = f c /\ only_logged (g c) (g c0)) ->
  reaches (fun c0 => (Ok (f c0), g c0)) c (f c) (g c).
Proof. intros Hs c0 Hl. right. destruct (Hs c0 Hl) as [<- Hg]. by exists (g c0). Qed.

Lemma reaches_store c : reaches store_call c tt c.
Proof.
  intros c0 Hl. unfold store_call. pose proof (ol_faults _ _ Hl) as Hf.
  destruct (co_faults c0) as [|[] fs] eqn:Ef.
  - right. eexists. split; [reflexivity|]. destruct Hl. split; cbn; rewrite ?Ef; done.
  - left. eexists. split; [reflexivity|]. apply Hf. left.
  - right. eexists. split; [reflexivity|]. destruct Hl. split; cbn; try done. intros b Hb. apply Hf. by right.
Qed.

Lemma reaches_log row c : reaches (log_row row) c tt c.
Proof.
  intros c0 Hl. unfold log_row, log_portfolio_constraint, py_bind.
  destruct (reaches_store c c0 Hl) as [(c1 & -> & Ht)|(c1 & -> & Hl1)]; [left; by exists c1|].
  right. eexists. split; [reflexivity|]. by destruct Hl1.
Qed.

Lemma reaches_rows rows c : reaches (log_rows rows) c tt c.
Proof.
  induction rows as [|row rows IH]; [apply reaches_ret|]. cbn [log_rows].
  by eapply reaches_bind; [apply reaches_log| |exact IH].
Qed.

Lemma set_brain_logged b c c0 : only_logged c c0 -> only_logged (set_brain b c) (set_brain b c0).
Proof. by intros [? ? ? ? ? ?]. Qed.

(** What each stage of a cycle is given and gives, from the state the cycle opens in. *)
Section Decisions.
Context (a : cycle_args) (c : PortfolioCoordinator).

Definition d_metrics : list (string * LegMetrics) := build_leg_metrics (ca_configs a) (ca_positions a) c.
Definition d_budgets : list (string * float) := (allocate_risk_budgets d_metrics (co_brain c)).1.
Definition d_brain : PortfolioBrain := (allocate_risk_budgets d_metrics (co_brain c)).2.
Definition d_enabled : gset string := list_to_set (map sc_strategy_id (List.filter sc_enabled (ca_configs a))).
Definition d_mode : PortfolioModeDecision := resolve_mode d_metrics (ca_capital_winner a) (Some d_enabled) d_brain.
Definition d_registry : registry :=
  sync_inventory_registry (ca_today a) (ca_configs a) (ca_positions a) (co_registry c).
Definition d_manifest : list ActivePositionManifest :=
  build_active_positions_manifest (ca_today a) (ca_configs a) (ca_positions a) (set_registry d_registry c).
Definition d_verdict : InventoryPathDependencyVerdict :=
  inventory_verdict d_manifest (equity (ca_account a)) (set_mode d_mode d_brain).
Definition d_locked : list (string * option Signal) * list (string * string) :=
  apply_inventory_entry_lockouts (map (fun e => (e.1, pl_signal e.2)) (co_pending c)) d_verdict.
Definition d_resolution : SignalConflictResolution * PortfolioBrain :=
  resolve_signal_conflicts d_locked.1 d_metrics (symbol_correlation_map c)
    (set_inventory d_verdict (set_mode d_mode d_brain)).
Definition d_proposed : list ProposedPosition :=
  estimate_proposed_positions (sr_approved_signals d_resolution.1) (ca_positions a) d_metrics
    (equity (ca_account a)) d_resolution.2.
Definition d_exposure : ExposureValidation := exposure_of (Some (equity (ca_account a))) d_proposed d_resolution.2.
Definition d_context : cycle_context :=
  mkContext d_budgets d_resolution.1 (scale_exposure (ca_cap_multiplier a) d_exposure) d_locked.2
    (force_liquidation_map d_verdict) (ca_macro_block a) (ca_now a).
Definition d_result (plans : list (string * CoordinatedLegPlan)) : CycleCoordinationResult :=
  mkCycle (co_cycle_id c) d_budgets plans (md_reason d_mode) (ev_allowed (cx_exposure d_context))
    (if ev_allowed (cx_exposure d_context) then None
     else Some (str_or (str_join "|" (ev_breach_codes (cx_exposure d_context))) "gross_cap_below_breach_line")).
End Decisions.

Lemma build_leg_metrics_logged configs positions c c0 :
  only_logged c c0 -> build_leg_metrics configs positions c0 = build_leg_metrics configs positions c.
Proof. destruct c, c0. intros [? ? ? ? ? ?]; cbn in *; subst. reflexivity. Qed.

Lemma cycle_mode_spec a c :
  reaches (cycle_mode a) c (d_metrics a c, d_budgets a c, d_mode a c) (set_brain (set_mode (d_mode a c) (d_brain a c)) c).
Proof.
  unfold cycle_mode. cbv zeta. eapply reaches_bind; [apply reaches_store|done|].
  eapply reaches_bind; [apply (reaches_step (build_leg_metrics (ca_configs a) (ca_positions a)) id)|done|].
  { intros c0 Hl. split; [by apply build_leg_metrics_logged|exact Hl]. }
  fold (d_metrics a c). unfold id.
  eapply reaches_bind; [apply (reaches_step (fun c => (allocate_risk_budgets (d_metrics a _) (co_brain c)).1)
    (fun c => set_brain (allocate_risk_budgets (d_metrics a _) (co_brain c)).2 c))|done|].
  { intros c0 Hl. rewrite (ol_brain _ _ Hl). split; [done|by apply set_brain_logged]. }
  fold (d_budgets a c) (d_brain a c). eapply reaches_bind; [apply reaches_log|done|].
  eapply reaches_bind; [apply (reaches_step
      (fun c0 => resolve_mode (d_metrics a c) (ca_capital_winner a) (Some (d_enabled a)) (co_brain c0))
      (fun c0 => set_brain (set_mode (resolve_mode (d_metrics a c) (ca_capital_winner a) (Some (d_enabled a))
        (co_brain c0)) (co_brain c0)) c0))|done|].
  { intros c0 Hl. rewrite (ol_brain _ _ Hl). split; [done|by apply set_brain_logged]. }
  eapply reaches_bind; [apply reaches_log|done|apply reaches_ret].
Qed.

Lemma manifest_logged today configs positions c c0 :
  only_logged c c0 -> build_active_positions_manifest today configs positions c0
                      = build_active_positions_manifest today configs positions c.
Proof. destruct c, c0. intros [? ? ? ? ? ?]; cbn in *; subst. reflexivity. Qed.

Lemma cycle_inventory_spec a c b :
  let verdict := inventory_verdict (d_manifest a c) (equity (ca_account a)) b in
  reaches (cycle_inventory a) (set_brain b c) (verdict, force_liquidation_map verdict)
    (set_registry (d_registry a c) (set_brain (set_inventory verdict b) c)).
Proof.
  intros verdict. unfold cycle_inventory. eapply reaches_bind; [apply reaches_store|done|].
  eapply (reaches_bind _ _ _ tt (set_registry (d_registry a c) (set_brain b c))); [|done|].
  { apply (reaches_step (fun _ => tt) (fun c => set_registry (sync_inventory_registry (ca_today a) (ca_configs a)
      (ca_positions a) (co_registry c)) c)). intros c0 [? ? ? ? Hr ?]. split; [done|]. by split; cbn; rewrite ?Hr. }
  eapply reaches_bind; [apply reaches_store|done|].
  eapply reaches_bind; [apply (reaches_step
    (fun c => inventory_verdict (build_active_positions_manifest (ca_today a) (ca_configs a) (ca_positions a) c)
       (equity (ca_account a)) (co_brain c))
    (fun c => set_brain (set_inventory (inventory_verdict (build_active_positions_manifest (ca_today a)
       (ca_configs a) (ca_positions a) c) (equity (ca_account a)) (co_brain c)) (co_brain c)) c))|done|].
  { intros c0 Hl. rewrite (ol_brain _ _ Hl), (manifest_logged _ _ _ _ _ Hl). split; [done|by apply set_brain_logged]. }
  cbv beta. change (build_active_positions_manifest _ _ _ (set_registry (d_registry a c) (set_brain b c)))
    with (d_manifest a c). cbn [co_brain set_registry set_brain]. fold verdict.
  eapply reaches_bind; [apply reaches_log|done|]. eapply reaches_bind; [apply reaches_rows|done|apply reaches_ret].
Qed.

Lemma symbol_correlation_map_pending c c' :
  co_pending c' = co_pending c -> symbol_correlation_map c' = symbol_correlation_map c.
Proof. intros Hp. unfold symbol_correlation_map. by rewrite Hp. Qed.

Lemma cycle_conflicts_spec a metrics verdict c :
  let locked := apply_inventory_entry_lockouts (map (fun e => (e.1, pl_signal e.2)) (co_pending c)) verdict in
  let res := resolve_signal_conflicts locked.1 metrics (symbol_correlation_map c) (co_brain c) in
  reaches (cycle_conflicts a metrics verdict) c (res.1, locked.2) (set_brain res.2 c).
Proof.
  intros locked res. unfold cycle_conflicts.
  eapply reaches_bind; [apply (reaches_step (fun c => apply_inventory_entry_lockouts
    (map (fun e => (e.1, pl_signal e.2)) (co_pending c)) verdict) id)|done|].
  { intros c0 Hl. rewrite (ol_pending _ _ Hl). by split. }
  fold locked. unfold id. eapply reaches_bind; [apply reaches_rows|done|].
  eapply reaches_bind; [apply (reaches_step
    (fun c => (resolve_signal_conflicts locked.1 metrics (symbol_correlation_map c) (co_brain c)).1)
    (fun c => set_brain (resolve_signal_conflicts locked.1 metrics (symbol_correlation_map c) (co_brain c)).2 c))|done|].
  { intros c0 Hl. rewrite (ol_brain _ _ Hl), (symbol_correlation_map_pending _ _ (ol_pending _ _ Hl)).
    split; [done|by apply set_brain_logged]. }
  eapply reaches_bind; [apply reaches_rows|done|apply reaches_ret].
Qed.

Lemma cycle_exposure_spec a metrics resolution c :
  let raw := exposure_of (Some (equity (ca_account a))) (estimate_proposed_positions
    (sr_approved_signals resolution) (ca_positions a) metrics (equity (ca_account a)) (co_brain c)) (co_brain c) in
  reaches (cycle_exposure a metrics resolution) c (scale_exposure (ca_cap_multiplier a) raw)
    (set_brain (set_exposure raw (co_brain c)) c).
Proof.
  intros raw. unfold cycle_exposure. cbv zeta.
  eapply reaches_bind; [apply (reaches_step
    (fun c => exposure_of (Some (equity (ca_account a))) (estimate_proposed_positions (sr_approved_signals resolution)
       (ca_positions a) metrics (equity (ca_account a)) (co_brain c)) (co_brain c))
    (fun c => set_brain (set_exposure (exposure_of (Some (equity (ca_account a))) (estimate_proposed_positions
       (sr_approved_signals resolution) (ca_positions a) metrics (equity (ca_account a)) (co_brain c)) (co_brain c))
       (co_brain c)) c))|done|].
  { intros c0 Hl. rewrite (ol_brain _ _ Hl). split; [done|by apply set_brain_logged]. }
  eapply reaches_bind; [apply reaches_log|done|apply reaches_ret].
Qed.

Lemma open_cycle_faults a c : co_faults (open_cycle a c) = co_faults c.
Proof. unfold open_cycle. by destruct (truthy _). Qed.

(** A cycle is its stages, unless the database refuses one of its calls. *)
Lemma coordinate_cycle_spec a c :
  let c0 := open_cycle a c in
  (exists c', coordinate_cycle a c = (Raise "sqlite3.Error", c') /\ true ∈ co_faults c) \/
  exists c', co_brain c' = set_exposure (d_exposure a c0) (d_resolution a c0).2 /\
    co_registry c' = d_registry a c0 /\ co_pending c' = co_pending c0 /\ co_cycle_id c' = co_cycle_id c0 /\
    coordinate_cycle a c =
      match plan_legs (d_context a c0) (co_pending c0) with
      | Raise e => (Raise e, c')
      | Ok plans => (Ok (d_result a c0 plans), set_result (d_result a c0 plans) c')
      end.
Proof.
  intros c0. rewrite <- (open_cycle_faults a c). unfold coordinate_cycle, py_modify, py_bind. cbv beta iota.
  change (open_cycle a c) with c0. clearbody c0.
  destruct (cycle_mode_spec a c0 c0 (only_logged_refl c0)) as [(c1 & -> & Ht)|(c1 & -> & H1)];
    [left; by exists c1|].
  destruct (cycle_inventory_spec a c0 _ c1 H1) as [(c2 & -> & Ht)|(c2 & -> & H2)]; [left; by exists c2|].
  change (inventory_verdict (d_manifest a c0) (equity (ca_account a)) (set_mode (d_mode a c0) (d_brain a c0)))
    with (d_verdict a c0) in *.
  destruct (cycle_conflicts_spec a (d_metrics a c0) (d_verdict a c0) _ c2 H2) as [(c3 & -> & Ht)|(c3 & E3 & H3)];
    [left; by exists c3|].
  rewrite (symbol_correlation_map_pending c0) in E3, H3 by reflexivity.
  cbn [co_pending set_registry set_brain co_brain] in E3, H3. fold (d_locked a c0) in E3, H3.
  fold (d_resolution a c0) in E3, H3. rewrite E3.
  destruct (cycle_exposure_spec a (d_metrics a c0) (d_resolution a c0).1 _ c3 H3) as [(c4 & -> & Ht)|(c4 & E4 & H4)];
    [left; by exists c4|].
  cbn [co_brain set_registry set_brain] in E4, H4. fold (d_proposed a c0) in E4, H4. fold (d_exposure a c0) in E4, H4.
  rewrite E4. destruct H4 as [Hb Hi Hp Hw Hr _].
  cbn [co_brain co_cycle_id co_pending co_windows co_registry set_registry set_brain] in *. right.
  exists c4. split; [exact Hb|]. split; [exact Hr|]. split; [exact Hp|]. split; [exact Hi|].
  cbv beta iota zeta. rewrite Hp, Hi. fold (d_context a c0).
  destruct (plan_legs (d_context a c0) (co_pending c0)) as [plans|e]; [|reflexivity].
  unfold d_result. reflexivity.
Qed.

(** ** The plans of a cycle *)

Lemma plan_legs_ok x pending plans :
  plan_legs x pending = Ok plans ->
  Forall2 (fun e pl => pl.1 = e.1 /\ plan_leg x e = Ok pl.2) pending plans.
Proof.
  revert plans. induction pending as [|e pending IH]; intros plans; [by intros [= <-]|]. cbn [plan_legs result_bind].
  unfold result_bind. destruct (plan_leg x e) as [plan|er] eqn:Ep; [|done].
  destruct (plan_legs x pending) as [rest|er]; [|done]. intros [= <-]. constructor; [by split|by apply IH].
Qed.

Lemma plan_of x pending plans id plan :
  plan_legs x pending = Ok plans -> (id, plan) ∈ plans -> exists p, (id, p) ∈ pending /\ plan_leg x (id, p) = Ok plan.
Proof.
  intros Hok%plan_legs_ok Hin. induction Hok as [|[id' p] [id'' pl] pending plans [Hk Hp] _ IH]; [by apply not_elem_of_nil in Hin|].
  cbn in *. subst id''. apply elem_of_cons in Hin as [[= -> ->]|Hin]; [exists p; set_solver|].
  destruct (IH Hin) as (p' & Hp' & E). exists p'. set_solver.
Qed.

(** What a plan carries. *)
Lemma plan_leg_spec x id p plan :
  plan_leg x (id, p) = Ok plan ->
  match assoc id (cx_targets x) with
  | Some t =>
      cp_signal plan = Some (build_forced_exit_signal t
        (match latest (pl_window p) with Some b => bar_close b | None => fzero end) (cx_now x)) /\
      cp_blocked plan = false /\ cp_force_liquidation plan = true /\
      cp_routing_params plan = apply_force_liquidation_routing (pl_routing_params p) t
  | None =>
      let signal := default None (assoc id (sr_approved_signals (cx_resolution x))) in
      cp_blocked plan = (block_of x id signal).1 /\ cp_force_liquidation plan = false /\
      cp_signal plan = (if cp_blocked plan && is_entry signal then None else signal)
  end.
Proof.
  unfold plan_leg. destruct (assoc id (cx_targets x)) as [t|] eqn:Et.
  - cbn [result_bind andb]. intros [= <-]. done.
  - cbv zeta. destruct (block_of _ _ _) as [blocked reason]. unfold result_bind.
    match goal with |- (match ?r with _ => _ end) = _ -> _ => destruct r as [params|e]; [|done] end.
    intros [= <-]. done.
Qed.

Lemma plan_leg_window x id p plan :
  plan_leg x (id, p) = Ok plan -> cp_window plan = pl_window p /\ cp_asset_context plan = pl_asset_context p.
Proof.
  unfold plan_leg, result_bind.
  destruct (match assoc id (cx_targets x) with Some _ => _ | None => block_of _ _ _ end) as [blocked reason].
  match goal with |- (match ?r with _ => _ end) = _ -> _ => destruct r as [params|e]; [|done] end.
  by intros [= <-].
Qed.

Lemma block_of_entry x id o :
  is_entry o = true -> (block_of x id o).1 = false ->
  ev_allowed (cx_exposure x) = true /\ cx_macro_block x = false /\ assoc id (cx_lockouts x) = None /\
  id ∉ sr_blocked_strategy_ids (cx_resolution x).
Proof.
  intros He. unfold block_of. rewrite He, !andb_true_r.
  destruct (assoc id (cx_lockouts x)), (ev_allowed (cx_exposure x)), (cx_macro_block x);
    cbn; try done. by intros Hb%bool_decide_eq_false.
Qed.

Lemma block_of_other x id o :
  is_entry o = false -> (block_of x id o).1 = false <->
  assoc id (cx_lockouts x) = None /\ id ∉ sr_blocked_strategy_ids (cx_resolution x).
Proof.
  intros He. unfold block_of. rewrite He, !andb_false_r.
  destruct (assoc id (cx_lockouts x)); cbn; [naive_solver|]. rewrite bool_decide_eq_false. naive_solver.
Qed.

(** The signals of the pending legs after the lockouts. *)
Lemma locked_signals a c id :
  assoc id (d_locked a c).1 =
  option_map (fun p => match locked_out (d_verdict a c) (pl_signal p) with
                       | Some _ => if has_directive (d_verdict a c) GLOBAL_ENTRY_LOCKOUT then None else pl_signal p
                       | None => pl_signal p end) (assoc id (co_pending c)).
Proof.
  unfold d_locked, apply_inventory_entry_lockouts. destruct (has_directive _ _); cbn [fst].
  - induction (co_pending c) as [|[k p] l IH]; [done|]. cbn. by case_decide.
  - induction (co_pending c) as [|[k p] l IH]; [done|]. cbn. case_decide; [|exact IH]. cbn. by destruct (locked_out _ _).
Qed.

Lemma locked_keys a c : (d_locked a c).1.*1 = (co_pending c).*1.
Proof.
  unfold d_locked, apply_inventory_entry_lockouts. destruct (has_directive _ _); cbn [fst];
    (induction (co_pending c) as [|[k p] l IH]; [done|]; cbn; by f_equal).
Qed.

Lemma d_mode_kept a c : bs_mode (br_state (set_exposure (d_exposure a c) (d_resolution a c).2)) = Some (d_mode a c).
Proof. done. Qed.

Lemma d_verdict_kept a c :
  bs_last_inventory_verdict (br_state (set_exposure (d_exposure a c) (d_resolution a c).2)) = Some (d_verdict a c).
Proof. done. Qed.

(** What a cycle that returns leaves in its plans. *)
Lemma cycle_plans a c r c' :
  coordinate_cycle a c = (Ok r, c') ->
  let c0 := open_cycle a c in
  plan_legs (d_context a c0) (co_pending c0) = Ok (cc_plans r) /\ r = d_result a c0 (cc_plans r) /\
  co_registry c' = d_registry a c0 /\ co_brain c' = set_exposure (d_exposure a c0) (d_resolution a c0).2.
Proof.
  intros Hc c0. destruct (coordinate_cycle_spec a c) as [(c1 & E & _)|(c1 & Hb & Hr & Hp & _ & E)];
    [by rewrite E in Hc|]. fold c0 in Hb, Hr, Hp, E.
  rewrite E in Hc. destruct (plan_legs _ _) as [plans|e]; [|done]. injection Hc as <- <-.
  cbn [cc_plans d_result set_result co_registry co_brain]. done.
Qed.

(** An entry that reaches a plan was approved by the resolution. *)
Lemma entry_plan_approved a c id p plan s :
  plan_leg (d_context a c) (id, p) = Ok plan -> cp_signal plan = Some s -> is_entry_action (sig_action s) = true ->
  cp_blocked plan = false /\ cp_force_liquidation plan = false /\
  ev_allowed (scale_exposure (ca_cap_multiplier a) (d_exposure a c)) = true /\ ca_macro_block a = false /\
  assoc id (d_locked a c).2 = None /\ assoc id (sr_approved_signals (d_resolution a c).1) = Some (Some s).
Proof.
  intros Hp%plan_leg_spec Hs He. destruct (assoc id (cx_targets _)) as [t|].
  { destruct Hp as [Hsig _]. rewrite Hs in Hsig. by injection Hsig as ->. }
  destruct Hp as (Hb & Hf & Hsig). cbv zeta in Hb, Hsig. rewrite Hs in Hsig.
  destruct (default None (assoc id (sr_approved_signals (cx_resolution (d_context a c))))) as [s'|] eqn:Ea;
    [|by destruct (cp_blocked plan)].
  destruct (cp_blocked plan) eqn:Ebl.
  - exfalso. cbn [andb is_entry] in Hsig. destruct (is_entry_action (sig_action s')) eqn:Ee; [done|].
    injection Hsig as ->. congruence.
  - cbn [andb] in Hsig. injection Hsig as ->. symmetry in Hb.
    apply block_of_entry in Hb as (Hx & Hm & Hl & _); [|exact He].
    split; [done|]. split; [exact Hf|]. split; [exact Hx|]. split; [exact Hm|]. split; [exact Hl|].
    cbn [d_context cx_resolution] in Ea.
    destruct (assoc id (sr_approved_signals (d_resolution a c).1)); [cbn in Ea; congruence|done].
Qed.

Lemma resolution_clear a c :
  NoDup (co_pending c).*1 ->
  let out := (d_resolution a c).1 in
  let entry id sg := assoc id (sr_approved_signals out) = Some (Some sg) /\ is_entry_action (sig_action sg) = true in
  (forall id, assoc id (sr_approved_signals out) = assoc id (d_locked a c).1 \/
     exists sg, assoc id (d_locked a c).1 = Some (Some sg) /\ is_entry_action (sig_action sg) = true /\
       assoc id (sr_approved_signals out) = Some None /\ id ∈ sr_blocked_strategy_ids out) /\
  (forall id1 id2 s1 s2, entry id1 s1 -> entry id2 s2 -> id1 <> id2 ->
     upper (sig_symbol s1) = upper (sig_symbol s2) -> sig_action s1 = sig_action s2) /\
  (forall id sg, entry id sg ->
     (md_spy_leg_enabled (d_mode a c) = false -> id <> SPY_STRATEGY_ID) /\
     (forall d, md_single_leg_mode (d_mode a c) = true -> md_dominant_strategy_id (d_mode a c) = Some d ->
        truthy d = true -> id = d)).
Proof.
  intros Hnd. cbv zeta.
  destruct (approved_entries_clear (d_locked a c).1 (d_metrics a c) (symbol_correlation_map c)
    (set_inventory (d_verdict a c) (set_mode (d_mode a c) (d_brain a c)))) as (Hkeep & Hpair & Hmode);
    [by rewrite locked_keys|].
  fold (d_resolution a c) in Hkeep, Hpair, Hmode. split; [exact Hkeep|]. split.
  - intros id1 id2 s1 s2 H1 H2 Hne. exact (proj1 (Hpair id1 id2 s1 s2 H1 H2 Hne)).
  - intros id sg He. exact (Hmode (d_mode a c) id sg eq_refl He).
Qed.

(** C25: a plan that opens a position carries the signal its leg registered, unblocked, in a cycle whose exposure was
    allowed and whose macro gate was open; no held inventory locks it out; no other plan of its symbol goes the
    other way; and the portfolio mode admits its leg. *)
Theorem entry_plan_is_cleared a c r c' id plan s :
  NoDup (co_pending (open_cycle a c)).*1 -> coordinate_cycle a c = (Ok r, c') ->
  (id, plan) ∈ cc_plans r -> cp_signal plan = Some s -> is_entry_action (sig_action s) = true ->
  cp_blocked plan = false /\ cp_force_liquidation plan = false /\
  cc_exposure_allowed r = true /\ ca_macro_block a = false /\
  (exists p, (id, p) ∈ co_pending (open_cycle a c) /\ pl_signal p = Some s) /\
  (forall v, bs_last_inventory_verdict (br_state (co_brain c')) = Some v ->
     is_entry_locked v (sig_symbol s) (direction_of (sig_action s)) = false) /\
  (forall id2 plan2 s2, (id2, plan2) ∈ cc_plans r -> id2 <> id -> cp_signal plan2 = Some s2 ->
     is_entry_action (sig_action s2) = true -> upper (sig_symbol s2) = upper (sig_symbol s) ->
     sig_action s2 = sig_action s) /\
  (forall m, bs_mode (br_state (co_brain c')) = Some m ->
     (md_spy_leg_enabled m = false -> id <> SPY_STRATEGY_ID) /\
     (forall d, md_single_leg_mode m = true -> md_dominant_strategy_id m = Some d -> truthy d = true -> id = d)).
Proof.
  intros Hnd Hc Hin Hs He. destruct (cycle_plans a c r c' Hc) as (Hplans & Hr & _ & Hb). rewrite Hb.
  set (c0 := open_cycle a c) in *.
  destruct (plan_of _ _ _ _ _ Hplans Hin) as (p & Hp & Hleg).
  destruct (entry_plan_approved a c0 id p plan s Hleg Hs He) as (H1 & H2 & H3 & H4 & H5 & H6).
  destruct (resolution_clear a c0 Hnd) as (Hkeep & Hpair & Hmode).
  assert (Hap : assoc id (co_pending c0) = Some p) by by apply assoc_elem.
  assert (Hsig : assoc id (d_locked a c0).1 = Some (Some s)).
  { destruct (Hkeep id) as [Heq|(sg & _ & _ & Heq & _)]; rewrite H6 in Heq; [by symmetry|done]. }
  rewrite locked_signals, Hap in Hsig. cbn [option_map] in Hsig.
  assert (Hpay : pl_signal p = Some s /\ is_entry_locked (d_verdict a c0) (sig_symbol s) (direction_of (sig_action s)) = false).
  { injection Hsig as Hsig. destruct (locked_out (d_verdict a c0) (pl_signal p)) as [s'|] eqn:El.
    - destruct (has_directive _ _) eqn:Ed; [done|]. exfalso. unfold locked_out in El. rewrite Hsig, He in El. cbn in El.
      destruct (is_entry_locked _ _ _) eqn:Ek; [|done].
      assert (Hside : direction_of (sig_action s) = "long" \/ direction_of (sig_action s) = "short").
      { unfold direction_of. case_bool_decide; auto. }
      pose proof (lock_has_directive _ _ _ _ _ Hside Ek) as Hd. fold (d_verdict a c0) in Hd. congruence.
    - split; [exact Hsig|]. unfold locked_out in El. rewrite Hsig, He in El. cbn in El. by destruct (is_entry_locked _ _ _). }
  destruct Hpay as [Hpay Hlock].
  split; [exact H1|]. split; [exact H2|]. split; [by rewrite Hr|]. split; [exact H4|].
  split; [by exists p|]. split; [|split].
  - intros v. rewrite d_verdict_kept. by intros [= <-].
  - intros id2 plan2 s2 Hin2 Hne Hs2 He2 Hsym. destruct (plan_of _ _ _ _ _ Hplans Hin2) as (p2 & _ & Hleg2).
    destruct (entry_plan_approved a c0 id2 p2 plan2 s2 Hleg2 Hs2 He2) as (_ & _ & _ & _ & _ & H6').
    by apply (Hpair id2 id s2 s).
  - intros m. rewrite d_mode_kept. intros [= <-]. by apply (Hmode id s).
Qed.

(** The leg's own cap on a position is a number, if it has one. *)
Definition routable (params : list (string * json)) : Prop := exists params', scaled_routing params fone = Ok params'.

Lemma routable_scaled params m : routable params -> exists params', scaled_routing params m = Ok params'.
Proof.
  intros [params' Hp]. unfold scaled_routing, result_bind in *. destruct (float_of_json _); [by eexists|done].
Qed.

Lemma plan_leg_returns x id p : routable (pl_routing_params p) -> exists plan, plan_leg x (id, p) = Ok plan.
Proof.
  intros Hr. unfold plan_leg. cbv beta iota zeta.
  match goal with |- context[match ?m with Some _ => (false, FORCE_LIQUIDATION_EXECUTE) | None => ?k end] =>
    destruct (match m with Some _ => (false, FORCE_LIQUIDATION_EXECUTE) | None => k end) as [blocked reason] end.
  destruct (assoc id (cx_targets x)) as [t|]; [by eexists|].
  match goal with |- context[if ?b then scaled_routing _ ?m else _] =>
    destruct b; [destruct (routable_scaled (pl_routing_params p) m Hr) as [q ->]|] end; by eexists.
Qed.

(** The plans raise only over a leg that cannot be routed. *)
Lemma plan_legs_raise x pending e :
  plan_legs x pending = Raise e -> exists id p, (id, p) ∈ pending /\ ~ routable (pl_routing_params p).
Proof.
  induction pending as [|[id p] pending IH]; [done|]. cbn [plan_legs]. unfold result_bind.
  destruct (plan_leg x (id, p)) as [plan|e'] eqn:Ep.
  - destruct (plan_legs x pending); [done|]. intros [= ->]. destruct (IH eq_refl) as (id' & p' & Hin & Hr).
    exists id', p'. split; [by right|done].
  - intros _. exists id, p. split; [by left|]. intros Hr. destruct (plan_leg_returns x id p Hr) as [plan E]. congruence.
Qed.

(** What a cycle ends in when it raises. *)
Lemma cycle_raises a c e :
  (coordinate_cycle a c).1 = Raise e ->
  true ∈ co_faults c \/ exists id p, (id, p) ∈ co_pending (open_cycle a c) /\ ~ routable (pl_routing_params p).
Proof.
  destruct (coordinate_cycle_spec a c) as [(c1 & -> & Ht)|(c1 & _ & _ & _ & _ & ->)]; [by left|].
  destruct (plan_legs _ _) as [plans|e'] eqn:Ep; [done|]. intros _. right. by eapply plan_legs_raise.
Qed.

Lemma plan_for x pending plans id p :
  plan_legs x pending = Ok plans -> (id, p) ∈ pending -> exists plan, (id, plan) ∈ plans /\ plan_leg x (id, p) = Ok plan.
Proof.
  intros Hok%plan_legs_ok Hin. induction Hok as [|[id' q] [id'' pl] pending plans [Hk Hp] _ IH];
    [by apply not_elem_of_nil in Hin|].
  cbn in *. subst id''. apply elem_of_cons in Hin as [[= -> ->]|Hin]; [exists pl; set_solver|].
  destruct (IH Hin) as (pl' & Hp' & E). exists pl'. set_solver.
Qed.

(** A plan per leg, under its identifier. *)
Lemma plan_found x pending plans id p :
  plan_legs x pending = Ok plans -> NoDup pending.*1 -> (id, p) ∈ pending ->
  exists plan, assoc id plans = Some plan /\ plan_leg x (id, p) = Ok plan.
Proof.
  intros Hok Hnd Hin. destruct (plan_for x pending plans id p Hok Hin) as (plan & Hplan & Hleg).
  exists plan. split; [|exact Hleg]. apply assoc_elem; [|exact Hplan].
  enough (map fst plans = map fst pending) as -> by done. apply plan_legs_ok in Hok. clear -Hok.
  induction Hok as [|? ? ? ? [E _] _ IH]; [done|]. cbn. by rewrite E, IH.
Qed.

(** The plan of a leg that asks for no entry. *)
Lemma exit_plan_stands a c id plan p :
  NoDup (co_pending (open_cycle a c)).*1 -> (id, p) ∈ co_pending (open_cycle a c) -> is_entry (pl_signal p) = false ->
  plan_leg (d_context a (open_cycle a c)) (id, p) = Ok plan ->
  cp_blocked plan = false /\
  (cp_signal plan = pl_signal p /\ cp_force_liquidation plan = false \/
   cp_force_liquidation plan = true /\ exists s, cp_signal plan = Some s /\ sig_action s = EXIT) /\
  (forall s account positions state windows, cp_signal plan = Some s -> exists budget params,
     route_coordinated_plan plan account positions state windows =
     route (Some s) (pl_window p) account positions state budget params (pl_asset_context p) windows).
Proof.
  intros Hnd Hp He Hleg.
  set (c0 := open_cycle a c) in *.
  destruct (plan_leg_window _ _ _ _ Hleg) as [Hw Ha].
  assert (Hroute : cp_blocked plan = false -> forall s account positions state windows, cp_signal plan = Some s ->
    exists budget params, route_coordinated_plan plan account positions state windows =
      route (Some s) (pl_window p) account positions state budget params (pl_asset_context p) windows).
  { intros Hb s account positions state windows Hs. unfold route_coordinated_plan. rewrite Hb, Hs, Hw, Ha. cbn [andb].
    by eexists _, _. }
  pose proof (plan_leg_spec _ _ _ _ Hleg) as Hspec. destruct (assoc id (cx_targets _)) as [t|].
  { destruct Hspec as (Hs & Hb & Hf & _). split; [exact Hb|]. split; [right; split; [exact Hf|by eexists]|by apply Hroute]. }
  destruct Hspec as (Hb & Hf & Hs). cbv zeta in Hb, Hs. cbn [d_context cx_resolution] in Hb, Hs.
  destruct (resolution_clear a c0 Hnd) as (Hkeep & _ & _).
  assert (Hl : locked_out (d_verdict a c0) (pl_signal p) = None).
  { unfold locked_out. destruct (pl_signal p) as [sg|]; [|done]. cbn in He. by rewrite He. }
  assert (Hap : assoc id (co_pending c0) = Some p) by by apply assoc_elem.
  assert (Hlk : assoc id (d_locked a c0).1 = Some (pl_signal p)) by by rewrite locked_signals, Hap; cbn; rewrite Hl.
  assert (Hsig : default None (assoc id (sr_approved_signals (d_resolution a c0).1)) = pl_signal p).
  { destruct (Hkeep id) as [Heq|(sg & Heq & Hsg & _)]; rewrite Hlk in Heq; [by rewrite Heq|].
    injection Heq as Heq. rewrite Heq in He. cbn in He. congruence. }
  rewrite Hsig in Hb, Hs.
  assert (Hfree : cp_blocked plan = false).
  { rewrite Hb. apply block_of_other; [exact He|]. split.
    - apply assoc_none. intros ([id' rs] & Eid & Hin')%list_elem_of_fmap. cbn in Eid. subst id'.
      cbn [d_context cx_lockouts] in Hin'. unfold d_locked, apply_inventory_entry_lockouts in Hin'.
      destruct (has_directive _ _); [|by apply not_elem_of_nil in Hin']. cbn [snd] in Hin'.
      apply list_elem_of_omap in Hin' as ([id'' o] & Ho & Hlo). cbn in Hlo.
      apply list_elem_of_fmap in Ho as ([id3 p3] & [= -> ->] & Hp3). apply assoc_elem in Hp3; [|done].
      destruct (locked_out (d_verdict a c0) (pl_signal p3)) eqn:El; [|done]. injection Hlo as -> _. congruence.
    - intros Hbl. cbn [d_context cx_resolution] in Hbl.
      apply (ro_entry (d_locked a c0).1) in Hbl; [|apply resolve_conflicts_ok; by rewrite locked_keys].
      apply list_elem_of_fmap in Hbl as ([id' sg] & Eid & Hsg). cbn in Eid. subst id'.
      apply elem_of_entries in Hsg as [Hsg Hent]. apply assoc_elem in Hsg; [|by rewrite locked_keys].
      rewrite Hlk in Hsg. injection Hsg as Hsg. rewrite Hsg in He. cbn in He. congruence. }
  rewrite Hfree in Hs. split; [exact Hfree|]. split; [left; by split|by apply Hroute].
Qed.

(** C27: nothing a cycle decides stops an exit: in a cycle that returns, every registered leg that asks
    for anything but an entry has a plan, unblocked, that carries its own signal or liquidates it; the
    router is asked for it in either case. And a cycle raises instead only when the database refuses
    one of its calls, or when some registered leg's cap on a position is not a number
    ([one_bad_cap_stops_every_exit]). *)
Theorem exits_are_never_blocked a c id p :
  NoDup (co_pending (open_cycle a c)).*1 ->
  (id, p) ∈ co_pending (open_cycle a c) -> is_entry (pl_signal p) = false ->
  match (coordinate_cycle a c).1 with
  | Raise _ =>
      true ∈ co_faults c \/
      exists id' q e, (id', q) ∈ co_pending (open_cycle a c) /\ scaled_routing (pl_routing_params q) fone = Raise e
  | Ok r => exists plan,
      assoc id (cc_plans r) = Some plan /\ cp_blocked plan = false /\
      (cp_signal plan = pl_signal p /\ cp_force_liquidation plan = false \/
       cp_force_liquidation plan = true /\ exists s, cp_signal plan = Some s /\ sig_action s = EXIT) /\
      (forall s account positions state windows, cp_signal plan = Some s -> exists budget params,
         route_coordinated_plan plan account positions state windows =
         route (Some s) (pl_window p) account positions state budget params (pl_asset_context p) windows)
  end.
Proof.
  intros Hnd Hp He. destruct (coordinate_cycle a c) as [[r|e] c'] eqn:Hc; cbn [fst].
  2:{ pose proof (cycle_raises a c e ltac:(by rewrite Hc)) as [Ht|(id' & q & Hq & Hn)]; [by left|right].
      exists id', q. unfold routable in Hn. destruct (scaled_routing _ fone) as [ps|e'] eqn:Es; [|by exists e'].
      by destruct Hn; exists ps. }
  destruct (cycle_plans a c r c' Hc) as (Hplans & _).
  destruct (plan_found _ _ _ _ _ Hplans Hnd Hp) as (plan & Hfound & Hleg).
  exists plan. split; [exact Hfound|]. exact (exit_plan_stands a c id plan p Hnd Hp He Hleg).
Qed.

(** ** Books that cannot enter *)

Lemma d_metrics_elem a c e :
  e ∈ d_metrics a c -> exists cfg, cfg ∈ ca_configs a /\ e.1 = sc_strategy_id cfg /\
    lm_symbol e.2 = upper (sc_symbol cfg) /\ lm_enabled e.2 = sc_enabled cfg.
Proof.
  unfold d_metrics, build_leg_metrics. cbv zeta. set (f := leg_metrics_of c (ca_positions a) _ _).
  assert (Hgen : forall l d, e ∈ fold_left (fun d cfg => assoc_set (sc_strategy_id cfg) (f cfg) d) l d ->
    e ∈ d \/ exists cfg, cfg ∈ l /\ e.1 = sc_strategy_id cfg /\ lm_symbol e.2 = upper (sc_symbol cfg) /\
      lm_enabled e.2 = sc_enabled cfg).
  { induction l as [|x l IH]; intros d; [by left|]. intros He. destruct (IH _ He) as [Hd|(cfg & Hc & Hrest)].
    - apply elem_of_assoc_set in Hd as [->|Hd]; [right; exists x; split; [by left|done]|by left].
    - right. exists cfg. split; [by right|exact Hrest]. }
  intros He. destruct (Hgen _ _ He) as [Hin|]; [by apply not_elem_of_nil in Hin|done].
Qed.

Lemma symbol_sector_upper sym : symbol_sector (upper sym) = symbol_sector sym.
Proof. unfold symbol_sector. by rewrite upper_idem. Qed.

(** The approved signals, by their leg. *)
Lemma approved_assoc a c id s :
  NoDup (co_pending c).*1 -> (id, Some s) ∈ sr_approved_signals (d_resolution a c).1 ->
  assoc id (sr_approved_signals (d_resolution a c).1) = Some (Some s) /\
  exists p, (id, p) ∈ co_pending c /\ pl_signal p = Some s.
Proof.
  intros Hnd Ho.
  set (R := resolve_conflicts (d_locked a c).1 (d_metrics a c) (symbol_correlation_map c)
    (set_inventory (d_verdict a c) (set_mode (d_mode a c) (d_brain a c)))).
  assert (Hok : ruling_ok (d_locked a c).1 R) by (apply resolve_conflicts_ok; by rewrite locked_keys).
  apply assoc_elem in Ho; [|change (NoDup (approved R).*1); by rewrite (ro_keys _ _ Hok), locked_keys].
  split; [exact Ho|]. destruct (resolution_clear a c Hnd) as (Hkeep & _).
  destruct (Hkeep id) as [Heq|(sg & _ & _ & Heq & _)]; rewrite Ho in Heq; [|done].
  rewrite locked_signals in Heq. destruct (assoc id (co_pending c)) as [q|] eqn:Eq; [|done].
  exists q. split; [by apply assoc_Some_elem|]. cbn in Heq.
  destruct (locked_out _ _); [destruct (has_directive _ _)|]; congruence.
Qed.

(** The book a cycle weighs: what is held, and what is approved. *)
Lemma d_proposed_elem a c p :
  p ∈ d_proposed a c ->
  (exists cfg, cfg ∈ ca_configs a /\ assoc (upper (sc_symbol cfg)) (pos_by_symbol (ca_positions a)) <> None /\
     pp_sector p = symbol_sector (sc_symbol cfg)) \/
  exists id s, (id, Some s) ∈ sr_approved_signals (d_resolution a c).1 /\ is_entry_action (sig_action s) = true /\
    pp_sector p = symbol_sector (sig_symbol s).
Proof.
  unfold d_proposed, estimate_proposed_positions. cbv zeta.
  intros [([id m] & Hm & Hp)%list_elem_of_omap|([id o] & Ho & Hp)%list_elem_of_omap]%elem_of_app; cbn [fst snd] in Hp.
  - left. apply d_metrics_elem in Hm as (cfg & Hc & _ & Hs & _). cbn in Hs. exists cfg. split; [exact Hc|].
    rewrite Hs, upper_idem in Hp. destruct (assoc (upper (sc_symbol cfg)) _); [|done]. injection Hp as <-.
    split; [done|]. cbn [pp_sector propose]. by rewrite symbol_sector_upper.
  - right. destruct o as [s|]; [|done]. destruct (is_entry_action (sig_action s)) eqn:Ee; [|done].
    destruct (assoc id (d_metrics a c)); [|done]. injection Hp as <-. exists id, s. split; [exact Ho|].
    split; [exact Ee|]. cbn [pp_sector propose]. by rewrite symbol_sector_upper.
Qed.

Definition weighed (a : cycle_args) (c : PortfolioCoordinator) : float :=
  gross_of (List.filter counts (d_proposed a c)).

(** A cycle whose book is of one sector. *)
Lemma one_sector_cycle a c r c' sector :
  let c0 := open_cycle a c in
  Forall (fun p => pp_sector p = sector) (d_proposed a c0) ->
  isfinite (weighed a c0) = true -> ftruthy (weighed a c0) = true -> coordinate_cycle a c = (Ok r, c') ->
  cc_exposure_allowed r = false /\ forall id plan, (id, plan) ∈ cc_plans r -> is_entry (cp_signal plan) = false.
Proof.
  intros c0 Hall Hfin Htr Hc. destruct (cycle_plans a c r c' Hc) as (Hplans & Hr & _). fold c0 in Hplans, Hr.
  unfold weighed in *.
  destruct (one_sector_is_breached sector (Some (equity (ca_account a))) (d_proposed a c0) (d_resolution a c0).2)
    as [Hno _]; [by destruct (List.filter _ _)| |exact Hfin|exact Htr|].
  { rewrite Forall_forall in Hall |- *. intros p Hp. apply list_elem_of_In, filter_In in Hp as [Hp _].
    by apply Hall, list_elem_of_In. }
  fold (d_exposure a c0) in Hno.
  assert (Hscaled : ev_allowed (scale_exposure (ca_cap_multiplier a) (d_exposure a c0)) = false).
  { unfold scale_exposure. rewrite Hno. by destruct (fltb _ fone). }
  split; [rewrite Hr; exact Hscaled|]. intros id plan Hin. destruct (plan_of _ _ _ _ _ Hplans Hin) as (p & _ & Hleg).
  destruct (cp_signal plan) as [s|] eqn:Es; [|done]. cbn. destruct (is_entry_action (sig_action s)) eqn:Ee; [|done].
  destruct (entry_plan_approved a c0 id p plan s Hleg Es Ee) as (_ & _ & Ha & _). congruence.
Qed.

(** a book whose legs all belong to one sector - a single leg is such a book - never opens a position: whatever
    its size, the sector holds the whole of it, over the concentration cap, and the cycle strips every entry. *)
Theorem one_sector_book_never_enters a c r c' sector :
  let c0 := open_cycle a c in
  NoDup (co_pending c0).*1 ->
  (forall cfg, cfg ∈ ca_configs a -> symbol_sector (sc_symbol cfg) = sector) ->
  (forall id p s, (id, p) ∈ co_pending c0 -> pl_signal p = Some s -> symbol_sector (sig_symbol s) = sector) ->
  isfinite (weighed a c0) = true -> ftruthy (weighed a c0) = true -> coordinate_cycle a c = (Ok r, c') ->
  cc_exposure_allowed r = false /\ forall id plan, (id, plan) ∈ cc_plans r -> is_entry (cp_signal plan) = false.
Proof.
  intros c0 Hnd Hcfg Hsig Hfin Htr Hc. apply (one_sector_cycle a c r c' sector); [|done..].
  apply Forall_forall. intros p [(cfg & Hin & _ & ->)|(id & s & Hin & _ & ->)]%d_proposed_elem; [by apply Hcfg|].
  destruct (approved_assoc a c0 id s Hnd Hin) as (_ & q & Hq & Hs). by apply (Hsig id q s).
Qed.

(** Where no SPY leg is enabled, two others are, and no leg is singled out by configuration. *)
Lemma spy_less_mode a c :
  let c0 := open_cycle a c in
  br_single_leg_symbol (co_brain c) <> Some "QQQ" -> br_single_leg_symbol (co_brain c) <> Some "SPY" ->
  (forall cfg, cfg ∈ ca_configs a -> sc_strategy_id cfg = SPY_STRATEGY_ID -> sc_enabled cfg = false) ->
  2 <= size (d_enabled a) ->
  d_mode a c0 = mkMode SPY_DISABLED false true (Some QQQ_STRATEGY_ID) "spy_config_disabled".
Proof.
  intros c0 Hq Hs Hspy Htwo.
  assert (Hsym : br_single_leg_symbol (d_brain a c0) = br_single_leg_symbol (co_brain c)).
  { unfold d_brain, allocate_risk_budgets, c0, open_cycle. by destruct (d_metrics _ _), (truthy _). }
  unfold d_mode, resolve_mode. rewrite Hsym, !bool_decide_false by done. cbv zeta.
  unfold enabled_set. rewrite bool_decide_false by (intros Ez; rewrite Ez, size_empty in Htwo; lia).
  unfold size, set_size in Htwo. cbn in Htwo. destruct (elements (d_enabled a)) as [|x [|y l]]; cbn in Htwo; try lia.
  destruct (assoc SPY_STRATEGY_ID (d_metrics a c0)) as [m|] eqn:Em; [|done].
  apply assoc_Some_elem, d_metrics_elem in Em as (cfg & Hcfg & Eid & _ & Een). cbn in Een, Eid.
  by rewrite Een, (Hspy cfg Hcfg (eq_sym Eid)).
Qed.

(** where no SPY leg is enabled and two others are, and no leg is singled out by configuration, a plan that opens
    a position is the QQQ leg's, and something is already held: from a flat book nothing ever enters. *)
Theorem book_without_spy_stays_flat a c r c' id plan s :
  let c0 := open_cycle a c in
  NoDup (co_pending c0).*1 ->
  br_single_leg_symbol (co_brain c) <> Some "QQQ" -> br_single_leg_symbol (co_brain c) <> Some "SPY" ->
  (forall cfg, cfg ∈ ca_configs a -> sc_strategy_id cfg = SPY_STRATEGY_ID -> sc_enabled cfg = false) ->
  2 <= size (d_enabled a) ->
  isfinite (weighed a c0) = true -> ftruthy (weighed a c0) = true -> coordinate_cycle a c = (Ok r, c') ->
  (id, plan) ∈ cc_plans r -> cp_signal plan = Some s -> is_entry_action (sig_action s) = true ->
  id = QQQ_STRATEGY_ID /\ ca_positions a <> [].
Proof.
  intros c0 Hnd Hq Hs Hspy Htwo Hfin Htr Hc Hin Hsig He.
  destruct (cycle_plans a c r c' Hc) as (Hplans & _). fold c0 in Hplans.
  destruct (plan_of _ _ _ _ _ Hplans Hin) as (p & _ & Hleg).
  destruct (entry_plan_approved a c0 id p plan s Hleg Hsig He) as (_ & _ & _ & _ & _ & Ha).
  destruct (resolution_clear a c0 Hnd) as (_ & _ & Hmode).
  pose proof (spy_less_mode a c Hq Hs Hspy Htwo) as Em. fold c0 in Em. rewrite Em in Hmode.
  assert (Honly : forall id' s', assoc id' (sr_approved_signals (d_resolution a c0).1) = Some (Some s') ->
    is_entry_action (sig_action s') = true -> id' = QQQ_STRATEGY_ID).
  { intros id' s' Ha' He'. exact (proj2 (Hmode id' s' (conj Ha' He')) QQQ_STRATEGY_ID eq_refl eq_refl eq_refl). }
  split; [by apply (Honly id s)|]. intros Hflat.
  destruct (one_sector_cycle a c r c' (symbol_sector (sig_symbol s))) as [_ Hnone]; [|exact Hfin|exact Htr|exact Hc|].
  - apply Forall_forall. intros q [(cfg & _ & Hheld & _)|(id' & s' & Hin' & He' & ->)]%d_proposed_elem;
      [by rewrite Hflat in Hheld|].
    destruct (approved_assoc a c0 id' s' Hnd Hin') as (Ha' & _).
    rewrite (Honly _ _ Ha' He') in Ha'. rewrite (Honly _ _ Ha He) in Ha. congruence.
  - specialize (Hnone id plan Hin). rewrite Hsig in Hnone. cbn in Hnone. congruence.
Qed.
End Cycle.

(** ** The inventory registry over a history of cycles *)

Section History.
Context `{BrainNumerics} `{RiskEnv}.

(** A cycle as its caller runs it: begun, the legs registered, coordinated. *)
Definition cycle_event : Type := (cycle_args * list LegCyclePayload)%type.

Definition opened (e : cycle_event) (c : PortfolioCoordinator) : PortfolioCoordinator :=
  fold_left (fun c p => register_leg_evaluation p c) e.2 (begin_cycle (ca_account e.1) (ca_fresh_id e.1) c).

Definition coordinator_step (c : PortfolioCoordinator) (e : cycle_event) : PortfolioCoordinator :=
  (coordinate_cycle e.1 (opened e c)).2.

Definition cycle_returns (c : PortfolioCoordinator) (e : cycle_event) : Prop :=
  exists r, (coordinate_cycle e.1 (opened e c)).1 = Ok r.

(** Every cycle of the history returned. *)
Definition all_return (c : PortfolioCoordinator) (evs : list cycle_event) : Prop :=
  forall pre e post, evs = pre ++ e :: post -> cycle_returns (runs coordinator_step c pre) e.

Lemma all_return_snoc c evs e :
  all_return c (evs ++ [e]) -> all_return c evs /\ cycle_returns (runs coordinator_step c evs) e.
Proof.
  intros Hall. split; [|by apply (Hall evs e [])].
  intros pre e' post ->. apply (Hall pre e' (post ++ [e])). by rewrite <- app_assoc.
Qed.

Definition held (sym : string) (a : cycle_args) : option Position := assoc sym (pos_by_symbol (ca_positions a)).

(** The day of the first cycle of the unbroken run of cycles, up to the last, that saw the symbol held. *)
Definition run_start (sym : string) (evs : list cycle_event) : option Z :=
  fold_left (fun day e => match held sym e.1 with
                          | Some _ => Some (default (ca_today e.1) day)
                          | None => None
                          end) evs None.

Lemma run_start_snoc sym evs e :
  run_start sym (evs ++ [e]) =
  match held sym e.1 with Some _ => Some (default (ca_today e.1) (run_start sym evs)) | None => None end.
Proof. unfold run_start. by rewrite fold_left_app. Qed.

Lemma opened_fields e c :
  co_registry (opened e c) = co_registry c /\
  br_max_multiday_days (co_brain (opened e c)) = br_max_multiday_days (co_brain c) /\
  co_cycle_id (opened e c) = ca_fresh_id e.1 /\ co_faults (opened e c) = co_faults c.
Proof.
  unfold opened. assert (Hgen : forall l c, co_registry (fold_left (fun c p => register_leg_evaluation p c) l c) = co_registry c /\
    co_brain (fold_left (fun c p => register_leg_evaluation p c) l c) = co_brain c /\
    co_cycle_id (fold_left (fun c p => register_leg_evaluation p c) l c) = co_cycle_id c /\
    co_faults (fold_left (fun c p => register_leg_evaluation p c) l c) = co_faults c).
  { clear. induction l as [|p l IH]; intros c; [done|]. cbn.
    destruct (IH (register_leg_evaluation p c)) as (-> & -> & -> & ->). done. }
  destruct (Hgen e.2 (begin_cycle (ca_account e.1) (ca_fresh_id e.1) c)) as (-> & -> & -> & ->). done.
Qed.

Lemma pending_fold l c :
  NoDup (co_pending c).*1 -> NoDup (co_pending (fold_left (fun c p => register_leg_evaluation p c) l c)).*1.
Proof.
  revert c. induction l as [|p l IH]; intros c Hc; [exact Hc|]. apply IH. cbn. by apply assoc_set_NoDup.
Qed.

Lemma opened_NoDup e c : NoDup (co_pending (opened e c)).*1.
Proof. apply pending_fold. constructor. Qed.

Lemma opened_elem e c x : x ∈ co_pending (opened e c) -> x.2 ∈ e.2 /\ x.1 = pl_strategy_id x.2.
Proof.
  unfold opened. assert (Hgen : forall l c, x ∈ co_pending (fold_left (fun c p => register_leg_evaluation p c) l c) ->
    x ∈ co_pending c \/ x.2 ∈ l /\ x.1 = pl_strategy_id x.2).
  { induction l as [|p l IH]; intros c'; [by left|]. intros Hx. destruct (IH _ Hx) as [Hin|]; [|set_solver].
    cbn in Hin. apply elem_of_assoc_set in Hin as [->|]; [right; split; [by left|done]|by left]. }
  intros Hx. destruct (Hgen _ _ Hx) as [Hin|]; [|done]. by apply not_elem_of_nil in Hin.
Qed.

Lemma opened_registered e c p : p ∈ e.2 -> exists q, (pl_strategy_id p, q) ∈ co_pending (opened e c).
Proof.
  unfold opened. intros Hin.
  assert (Hkeep : forall l c k, k ∈ (co_pending c).*1 -> k ∈ (co_pending (fold_left (fun c p => register_leg_evaluation p c) l c)).*1).
  { clear. induction l as [|p l IH]; intros c k Hk; [exact Hk|]. apply IH. cbn.
    destruct (decide (k = pl_strategy_id p)) as [->|Hne].
    - apply list_elem_of_fmap. eexists (_, p). split; [done|]. apply assoc_Some_elem, assoc_set_same.
    - apply list_elem_of_fmap in Hk as ([k' q] & -> & Hq). cbn in *. destruct (assoc k' (assoc_set (pl_strategy_id p) p (co_pending c))) as [q'|] eqn:E.
      + apply assoc_Some_elem in E. apply list_elem_of_fmap. by exists (k', q').
      + rewrite assoc_set_other in E by done. apply assoc_None in E. destruct E. apply list_elem_of_fmap. by exists (k', q). }
  apply list_elem_of_split in Hin as (l1 & l2 & ->). rewrite fold_left_app. cbn [fold_left].
  specialize (Hkeep l2 (register_leg_evaluation p (fold_left (fun c p => register_leg_evaluation p c) l1
    (begin_cycle (ca_account e.1) (ca_fresh_id e.1) c))) (pl_strategy_id p)).
  destruct (proj1 (list_elem_of_fmap _ _ _) (Hkeep ltac:(apply list_elem_of_fmap; eexists (_, p); split; [done|];
    apply assoc_Some_elem, assoc_set_same))) as ([k q] & Ek & Hq). cbn in Ek. subst k. by exists q.
Qed.

Lemma open_opened e c : co_registry (open_cycle e.1 (opened e c)) = co_registry c /\
  br_max_multiday_days (co_brain (open_cycle e.1 (opened e c))) = br_max_multiday_days (co_brain c).
Proof.
  unfold open_cycle. destruct (opened_fields e c) as (Hr & Hd & _). destruct (truthy _); [done|]. done.
Qed.

Lemma step_fields c e :
  cycle_returns c e ->
  co_registry (coordinator_step c e) =
    sync_inventory_registry (ca_today e.1) (ca_configs e.1) (ca_positions e.1) (co_registry c) /\
  br_max_multiday_days (co_brain (coordinator_step c e)) = br_max_multiday_days (co_brain c).
Proof.
  unfold coordinator_step. intros [r Hret]. destruct (open_opened e c) as [Hr Hd].
  destruct (coordinate_cycle_spec e.1 (opened e c)) as [(c1 & E & _)|(c1 & Hb & Hreg & _ & _ & E)];
    [by rewrite E in Hret|]. rewrite E.
  assert (Hdays : br_max_multiday_days (co_brain c1) = br_max_multiday_days (co_brain c)).
  { rewrite Hb, <- Hd. cbn. unfold d_brain, allocate_risk_budgets. by destruct (d_metrics _ _). }
  destruct (plan_legs _ _); cbn; (split; [rewrite Hreg; unfold d_registry; by rewrite Hr|exact Hdays]).
Qed.

Section Book.
Context (configs : list StrategyConfig).
Context (Hsyms : NoDup (map (fun cfg => upper (sc_symbol cfg)) configs)).

Lemma strategy_by_symbol_elem sym cfg :
  assoc sym (strategy_by_symbol configs) = Some cfg <-> cfg ∈ configs /\ upper (sc_symbol cfg) = sym.
Proof.
  unfold strategy_by_symbol.
  assert (Hgen : forall l d, NoDup (map (fun cfg => upper (sc_symbol cfg)) l) ->
    assoc sym (fold_left (fun d cfg => assoc_set (upper (sc_symbol cfg)) cfg d) l d) = Some cfg <->
    (cfg ∈ l /\ upper (sc_symbol cfg) = sym) \/
    (assoc sym d = Some cfg /\ sym ∉ map (fun cfg => upper (sc_symbol cfg)) l)).
  { clear. induction l as [|x l IH]; intros d Hnd; cbn [fold_left map].
    { split; [right; split; [done|apply not_elem_of_nil]|]. intros [[Hin _]|[? _]]; [by apply not_elem_of_nil in Hin|done]. }
    apply NoDup_cons in Hnd as [Hx Hnd]. rewrite (IH _ Hnd). destruct (decide (sym = upper (sc_symbol x))) as [->|Hne].
    - rewrite assoc_set_same. split.
      + intros [[Hin Hs]|[[= ->] Hn]]; left; set_solver.
      + intros [[[->|Hin]%elem_of_cons Hs]|[_ Hn]]; [right; split; [done|exact Hx]|by left|set_solver].
    - rewrite assoc_set_other by done. split.
      + intros [[Hin Hs]|[Ha Hn]]; [left; set_solver|right; set_solver].
      + intros [[[->|Hin]%elem_of_cons Hs]|[Ha Hn]]; [congruence|by left|right; set_solver]. }
  rewrite (Hgen configs [] Hsyms). cbn. naive_solver.
Qed.

Definition row_for (today : Z) (p : Position) (old : option registry_row) : registry_row :=
  let side := position_side p in
  mkRegistry side (match old with Some r => rg_opened r | None => today end) today
    (if bool_decide (side = "long") then position_notional p else fneg (position_notional p)).

Lemma sync_position_other today r e id sym :
  e.1 <> sym -> sync_position today configs r e !! (id, sym) = r !! (id, sym).
Proof.
  intros Hne. unfold sync_position. destruct (assoc e.1 (strategy_by_symbol configs)) as [cfg|]; [|done].
  cbv zeta. apply lookup_insert_ne. congruence.
Qed.

(** A sync gives every held leg its row and no other leg one. *)
Lemma sync_spec today positions r cfg :
  cfg ∈ configs ->
  sync_inventory_registry today configs positions r !! (sc_strategy_id cfg, upper (sc_symbol cfg)) =
  option_map (fun p => row_for today p (r !! (sc_strategy_id cfg, upper (sc_symbol cfg))))
    (assoc (upper (sc_symbol cfg)) (pos_by_symbol positions)).
Proof.
  intros Hcfg. unfold sync_inventory_registry. set (book := pos_by_symbol positions).
  assert (Hnd : NoDup book.*1).
  { unfold book, pos_by_symbol. assert (Hgen : forall (l : list Position) d, NoDup d.*1 ->
      NoDup (fold_left (fun d p => assoc_set (upper (pos_symbol p)) p d) l d).*1).
    { clear. induction l as [|p l IH]; intros d Hd; [exact Hd|]. apply IH. by apply assoc_set_NoDup. }
    apply Hgen. constructor. }
  set (sym := upper (sc_symbol cfg)) in *. set (key := (sc_strategy_id cfg, sym)).
  assert (Hcfg' : assoc sym (strategy_by_symbol configs) = Some cfg) by (apply strategy_by_symbol_elem; done).
  assert (H1 : fold_left (sync_position today configs) book r !! key =
    match assoc sym book with Some p => Some (row_for today p (r !! key)) | None => r !! key end).
  { clear -Hnd Hcfg' Hsyms. revert r. induction book as [|[s p] book IH]; intros r; [done|].
    cbn in Hnd. apply NoDup_cons in Hnd as [Hs Hnd]. cbn [fold_left assoc]. rewrite (IH Hnd).
    destruct (decide (sym = s)) as [<-|Hne].
    - rewrite (assoc_none sym book Hs). unfold sync_position. cbn [fst snd]. rewrite Hcfg'. cbv zeta.
      fold key. change (sc_strategy_id cfg, sym) with key. by rewrite lookup_insert_eq.
    - unfold key. by rewrite sync_position_other by exact (not_eq_sym Hne). }
  assert (H2 : forall l (r : registry), (fold_left (fun r cfg => match assoc (upper (sc_symbol cfg)) book with
      | Some _ => r | None => delete (sc_strategy_id cfg, upper (sc_symbol cfg)) r end) l r) !! key =
    if bool_decide (assoc sym book = None) && existsb (fun cfg' => bool_decide ((sc_strategy_id cfg', upper (sc_symbol cfg')) = key)) l
    then None else r !! key).
  { clear. induction l as [|x l IH]; intros r; [by rewrite andb_false_r|]. cbn [fold_left existsb]. rewrite IH.
    destruct (decide ((sc_strategy_id x, upper (sc_symbol x)) = key)) as [Ek|Ek].
    - rewrite (bool_decide_true (_ = key)) by done. cbn [orb]. rewrite andb_true_r.
      injection Ek as Ek1 Ek2. rewrite Ek2. destruct (assoc sym book) eqn:Es.
      + by rewrite bool_decide_false by done.
      + rewrite bool_decide_true by done. cbn. rewrite Ek1. fold key. rewrite lookup_delete_eq. by destruct (existsb _ _).
    - rewrite (bool_decide_false (_ = key)) by done. cbn [orb].
      destruct (_ && _); [done|]. destruct (assoc (upper (sc_symbol x)) book); [done|]. by rewrite lookup_delete_ne. }
  rewrite H2, H1. destruct (assoc sym book) as [p|] eqn:Es; [by rewrite bool_decide_false by done|].
  rewrite bool_decide_true by done. cbn [andb].
  replace (existsb _ configs) with true; [done|]. symmetry. apply existsb_exists. exists cfg.
  split; [by apply list_elem_of_In|by apply bool_decide_eq_true].
Qed.

(** Over a history of cycles of one configuration. *)
Lemma registry_run c evs cfg :
  co_registry c = ∅ -> Forall (fun e : cycle_event => ca_configs e.1 = configs) evs -> all_return c evs ->
  cfg ∈ configs ->
  option_map rg_opened (co_registry (runs coordinator_step c evs) !! (sc_strategy_id cfg, upper (sc_symbol cfg))) =
  run_start (upper (sc_symbol cfg)) evs.
Proof.
  intros Hempty Hconf Hret Hcfg. induction evs as [|e evs IH] using rev_ind; [cbn; by rewrite Hempty, lookup_empty|].
  apply Forall_app in Hconf as [Hconf He]. apply Forall_cons in He as [He _].
  apply all_return_snoc in Hret as [Hret Hlast]. specialize (IH Hconf Hret).
  rewrite runs_snoc. destruct (step_fields (runs coordinator_step c evs) e Hlast) as [-> _]. rewrite He.
  rewrite sync_spec by exact Hcfg. rewrite run_start_snoc, <- IH. unfold held.
  destruct (assoc _ (pos_by_symbol _)) as [p|]; [|done]. cbn. f_equal. by destruct (_ !! _).
Qed.

End Book.

(** ** Overdue inventory *)

Lemma target_map_elem (l : list ForceLiquidationTarget) id :
  id ∈ map fl_strategy_id l ->
  exists t, assoc id (fold_left (fun d t => assoc_set (fl_strategy_id t) t d) l []) = Some t /\ t ∈ l /\ fl_strategy_id t = id.
Proof.
  induction l as [|t l IH] using rev_ind; [by intros ?%not_elem_of_nil|].
  rewrite map_app, fold_left_app. cbn. destruct (decide (fl_strategy_id t = id)) as [<-|Hne].
  - intros _. exists t. rewrite assoc_set_same. set_solver.
  - intros Hin. rewrite assoc_set_other by congruence.
    destruct IH as (t' & Ht & Hl & Hid); [set_solver|]. exists t'. set_solver.
Qed.

(** A position that the cycle's manifest shows overdue is a target. *)
Lemma overdue_target a c cfg p :
  NoDup (map sc_strategy_id (ca_configs a)) -> cfg ∈ ca_configs a ->
  assoc (upper (sc_symbol cfg)) (pos_by_symbol (ca_positions a)) = Some p ->
  fltb fzero (position_notional p) = true ->
  let row := manifest_of (ca_today a) (ca_positions a) (set_registry (d_registry a c) c) cfg in
  (forall m, row = Some m -> (1 <= am_calendar_days_held m)%Z /\
     is_overdue (br_max_multiday_days (co_brain c)) m = true) ->
  exists t, assoc (sc_strategy_id cfg) (force_liquidation_map (d_verdict a c)) = Some t /\
    fl_symbol t = upper (sc_symbol cfg).
Proof.
  intros Hids Hcfg Hheld Hpos row Hrow.
  assert (Hm : exists m, row = Some m /\ am_strategy_id m = sc_strategy_id cfg /\ am_symbol m = upper (sc_symbol cfg) /\
            is_multiday m = true).
  { subst row. unfold manifest_of in *. rewrite Hheld in *. eexists. split; [reflexivity|]. split; [done|]. split; [done|].
    specialize (Hrow _ eq_refl) as [Hone _]. unfold is_multiday. cbn [am_side am_notional am_calendar_days_held] in *.
    rewrite Hpos. rewrite (proj2 (Z.leb_le _ _)) by exact Hone. rewrite !andb_true_r. apply bool_decide_eq_true.
    unfold position_side. destruct (fltb fzero (pos_qty p)); [by left|by right; left]. }
  destruct Hm as (m & Em & Hid & Hsym & Hmd). destruct (Hrow m Em) as [_ Hover].
  assert (Hdays : br_max_multiday_days (set_mode (d_mode a c) (d_brain a c)) = br_max_multiday_days (co_brain c)).
  { cbn. unfold d_brain, allocate_risk_budgets. by destruct (d_metrics _ _). }
  set (over := List.filter (is_overdue (br_max_multiday_days (co_brain c))) (List.filter is_multiday (d_manifest a c))).
  assert (Hin : m ∈ over).
  { unfold over. rewrite list_elem_of_In, !filter_In, <- list_elem_of_In. split; [|exact Hover]. split; [|exact Hmd].
    unfold d_manifest, build_active_positions_manifest. apply list_elem_of_omap. by exists cfg. }
  assert (Htargets : iv_force_liquidation_targets (d_verdict a c) = map target_of over).
  { unfold d_verdict, inventory_verdict. cbv zeta. cbn [iv_force_liquidation_targets]. by rewrite Hdays. }
  assert (Hdir : has_directive (d_verdict a c) FORCE_LIQUIDATION_EXECUTE = true).
  { unfold has_directive, d_verdict, inventory_verdict. cbv zeta. cbn [iv_directive iv_directives]. rewrite Hdays. fold over.
    apply orb_true_iff. right. apply bool_decide_eq_true, elem_of_app. right.
    destruct over; [by apply not_elem_of_nil in Hin|by left]. }
  unfold force_liquidation_map. rewrite Hdir, Htargets.
  destruct (target_map_elem (map target_of over) (sc_strategy_id cfg)) as (t & Ht & Hl & Htid).
  { rewrite map_map. apply list_elem_of_fmap. exists m. cbn. by rewrite Hid. }
  exists t. split; [exact Ht|]. apply list_elem_of_fmap in Hl as (m' & -> & Hm'). cbn in *.
  assert (Hman : m' ∈ d_manifest a c).
  { unfold over in Hm'. rewrite list_elem_of_In, !filter_In, <- list_elem_of_In in Hm'. tauto. }
  unfold d_manifest, build_active_positions_manifest in Hman. apply list_elem_of_omap in Hman as (cfg' & Hcfg' & Em').
  assert (Hs' : am_strategy_id m' = sc_strategy_id cfg' /\ am_symbol m' = upper (sc_symbol cfg')).
  { unfold manifest_of in Em'. destruct (assoc (upper (sc_symbol cfg')) (pos_by_symbol (ca_positions a))); [|done].
    by injection Em' as <-. }
  destruct Hs' as [Hi' ->]. assert (cfg' = cfg) as ->; [|by rewrite upper_idem].
  apply list_elem_of_lookup in Hcfg as [i Hi], Hcfg' as [j Hj].
  assert (i = j) as ->; [|congruence]. eapply (NoDup_lookup _ i j (sc_strategy_id cfg) Hids); rewrite list_lookup_fmap.
  - by rewrite Hi.
  - rewrite Hj. cbn. congruence.
Qed.

Lemma runs_days c evs :
  all_return c evs ->
  br_max_multiday_days (co_brain (runs coordinator_step c evs)) = br_max_multiday_days (co_brain c).
Proof.
  induction evs as [|e evs IH] using rev_ind; [done|]. intros [Hret Hlast]%all_return_snoc.
  rewrite runs_snoc, <- IH by exact Hret. by apply step_fields.
Qed.

(** along any history of cycles over one configuration the registry dates every leg's inventory by the first
    cycle of the unbroken run of cycles that saw its symbol held, on whichever side, and knows no other,
    if every cycle returned. *)
Theorem registry_tracks_runs configs c evs cfg :
  NoDup (map (fun cfg => upper (sc_symbol cfg)) configs) ->
  co_registry c = ∅ -> Forall (fun e : cycle_event => ca_configs e.1 = configs) evs -> all_return c evs ->
  cfg ∈ configs -> option_map rg_opened (co_registry (runs coordinator_step c evs) !! (sc_strategy_id cfg, upper (sc_symbol cfg))) =
  run_start (upper (sc_symbol cfg)) evs.
Proof. intros Hsyms. by apply registry_run. Qed.

(** C26: along a history of cycles that return, over one configuration whose legs' ids and symbols are
    distinct, a leg's position of positive notional that every cycle since some day has seen is
    liquidated by the first cycle at which its days are up and the leg is evaluated, whatever its
    signal and the other gates say: the plan of the leg is an unblocked exit of its symbol. That
    cycle raises instead only when the database refuses one of its calls or some evaluated
    leg's cap on a position is not a number. *)
Theorem overdue_inventory_is_liquidated configs c evs e cfg p payload day :
  NoDup (map (fun cfg => upper (sc_symbol cfg)) configs) -> NoDup (map sc_strategy_id configs) ->
  co_registry c = ∅ -> Forall (fun e : cycle_event => ca_configs e.1 = configs) (evs ++ [e]) -> all_return c evs ->
  cfg ∈ configs ->
  held (upper (sc_symbol cfg)) e.1 = Some p -> fltb fzero (position_notional p) = true ->
  run_start (upper (sc_symbol cfg)) evs = Some day ->
  (br_max_multiday_days (co_brain c) <= ca_today e.1 - day + 1)%Z ->
  payload ∈ e.2 -> pl_strategy_id payload = sc_strategy_id cfg -> truthy (ca_fresh_id e.1) = true ->
  match (coordinate_cycle e.1 (opened e (runs coordinator_step c evs))).1 with
  | Raise _ =>
      true ∈ co_faults (runs coordinator_step c evs) \/
      exists q x, q ∈ e.2 /\ scaled_routing (pl_routing_params q) fone = Raise x
  | Ok r => exists plan s,
      assoc (sc_strategy_id cfg) (cc_plans r) = Some plan /\ cp_force_liquidation plan = true /\
      cp_blocked plan = false /\ cp_signal plan = Some s /\ sig_action s = EXIT /\ sig_symbol s = upper (sc_symbol cfg)
  end.
Proof.
  intros Hsyms Hids Hempty [Hconf [He _]%Forall_cons]%Forall_app Hret Hcfg Hheld Hpos Hrun Hdays Hin Hpid Hfresh.
  set (w := runs coordinator_step c evs). destruct (opened_fields e w) as (Hreg & Hmax & Hid & Hfaults).
  assert (Eo : open_cycle e.1 (opened e w) = opened e w) by (unfold open_cycle; by rewrite Hid, Hfresh).
  destruct (coordinate_cycle e.1 (opened e w)) as [[r|x] c'] eqn:Er; cbn [fst].
  2:{ pose proof (cycle_raises e.1 (opened e w) x ltac:(by rewrite Er)) as [Ht|(id & q & Hq & Hn)].
      { left. by rewrite <- Hfaults. }
      right. rewrite Eo in Hq. apply opened_elem in Hq as [Hq _]. exists q. unfold routable in Hn.
      destruct (scaled_routing _ fone) as [ps|x'] eqn:Es; [by destruct Hn; exists ps|by exists x']. }
  destruct (cycle_plans _ _ _ _ Er) as (Hplans & _). rewrite Eo in Hplans.
  destruct (opened_registered e w payload Hin) as [q Hq]. rewrite Hpid in Hq.
  destruct (plan_found _ _ _ _ _ Hplans (opened_NoDup e w) Hq) as (plan & Hplan & Hleg).
  destruct (overdue_target e.1 (opened e w) cfg p) as (t & Ht & Hsym); [by rewrite He..|exact Hheld|exact Hpos| |].
  { intros m. unfold manifest_of. fold (held (upper (sc_symbol cfg)) e.1). rewrite Hheld. cbn [co_registry set_registry].
    unfold d_registry. rewrite Hreg, He, (sync_spec configs Hsyms) by exact Hcfg.
    fold (held (upper (sc_symbol cfg)) e.1). rewrite Hheld. cbn [option_map row_for rg_opened].
    pose proof (registry_run configs Hsyms c evs cfg Hempty Hconf Hret Hcfg) as Hrow. fold w in Hrow. rewrite Hrun in Hrow.
    destruct (co_registry w !! _) as [row|]; [|done]. injection Hrow as Hday. rewrite Hday.
    intros [= <-]. unfold is_overdue. cbn [am_calendar_days_held calendar_days_between].
    rewrite Hmax. unfold w. rewrite runs_days by exact Hret. split; [lia|]. apply Z.leb_le. lia. }
  pose proof (plan_leg_spec _ _ _ _ Hleg) as Hspec. cbn [d_context cx_targets] in Hspec. rewrite Ht in Hspec.
  destruct Hspec as (Hs & Hb & Hf & _). eexists plan, _. split; [exact Hplan|].
  split; [exact Hf|]. split; [exact Hb|]. split; [exact Hs|]. split; [done|exact Hsym].
Qed.
End History.

(** ** A book in memory *)

Import Numbers.

Module Book.
(** A risk manager that sizes nothing; its state is its halt. *)
#[export] Instance risk : RiskEnv := {|
  AssetContext := unit;
  PortfolioState := bool;
  ps_halted s := s;
  check_drawdown_breaker _ s := s;
  size_order s _ _ _ _ budget _ _ _ := [];
  promotion_pnls _ _ := [];
  get_leg_realized_pnl _ := fzero;
  float_of_text _ := None
|}.

Definition GLD_STRATEGY_ID : string := "mean_reversion_gld".
Definition qqq_cfg : StrategyConfig := mkStrategyConfig QQQ_STRATEGY_ID "QQQ" true.
Definition spy_cfg : StrategyConfig := mkStrategyConfig SPY_STRATEGY_ID "SPY" true.
Definition gld_cfg : StrategyConfig := mkStrategyConfig GLD_STRATEGY_ID "GLD" true.

Definition empty_window : RollingWindow :=
  mkWindow 1 "w" [] None 0 0 [fzero] [fzero] [fzero] [fzero] [fzero] fzero None fzero.
Definition leg (id symbol : string) (a : option SignalAction) : LegCyclePayload :=
  mkPayload id symbol (option_map (signal id symbol) a) [] (lit 5 1) empty_window true fone fzero None 0 "flat".
Definition holding (symbol : string) (qty : Z) : Position := mkPosition symbol (of_Z qty) "long" (of_Z 100) fzero.
Definition account : Account := mkAccount (of_Z 100000) (of_Z 100000) (of_Z 100000).

Definition event (configs : list StrategyConfig) (positions : list Position) (legs : list LegCyclePayload)
    (macro : bool) (day : Z) : cycle_event :=
  (mkArgs configs account positions None fone macro day 0 "cycle", legs).
Definition empty_book : PortfolioCoordinator := coordinator_init [] None false.

(** What a cycle returns. *)
Definition returned (e : cycle_event) : option CycleCoordinationResult :=
  match (coordinate_cycle e.1 (opened e empty_book)).1 with Ok r => Some r | Raise _ => None end.

Definition two_longs : cycle_event :=
  event [qqq_cfg; spy_cfg] [] [leg QQQ_STRATEGY_ID "QQQ" (Some LONG); leg SPY_STRATEGY_ID "SPY" (Some LONG)] false 0.
Definition risk_off : cycle_event :=
  event [qqq_cfg; spy_cfg] [holding "QQQ" 10] [leg QQQ_STRATEGY_ID "QQQ" (Some EXIT)] true 0.
Definition lone_leg : cycle_event := event [qqq_cfg] [] [leg QQQ_STRATEGY_ID "QQQ" (Some LONG)] false 0.
Definition gold_held : cycle_event :=
  event [qqq_cfg; gld_cfg] [holding "GLD" 400]
    [leg QQQ_STRATEGY_ID "QQQ" (Some LONG); leg GLD_STRATEGY_ID "GLD" (Some LONG)] false 0.
Definition day_of_holding (day : Z) : cycle_event :=
  event [qqq_cfg; spy_cfg] [holding "QQQ" 10] [leg QQQ_STRATEGY_ID "QQQ" (Some LONG)] false day.
End Book.

Import Book.

Lemma returned_run e r :
  returned e = Some r ->
  coordinate_cycle e.1 (opened e empty_book) = (Ok r, (coordinate_cycle e.1 (opened e empty_book)).2).
Proof.
  unfold returned. destruct (coordinate_cycle e.1 (opened e empty_book)) as [[r'|x] c']; [|done]. by intros [= ->].
Qed.

Lemma entry_plan_is_cleared_witness :
  exists r plan s, returned two_longs = Some r /\ (QQQ_STRATEGY_ID, plan) ∈ cc_plans r /\ cp_signal plan = Some s /\
    sig_action s = LONG /\ cp_blocked plan = false /\ cc_exposure_allowed r = true.
Proof.
  eexists _, _, _. split; [vm_compute; reflexivity|]. split; [by left|]. split; [reflexivity|]. split; [reflexivity|].
  match goal with |- cp_blocked ?plan = false /\ cc_exposure_allowed ?r = true =>
    destruct (entry_plan_is_cleared two_longs.1 (opened two_longs empty_book) r
      (coordinate_cycle two_longs.1 (opened two_longs empty_book)).2 QQQ_STRATEGY_ID plan
      (signal QQQ_STRATEGY_ID "QQQ" LONG)) as (Hb & _ & Ha & _) end;
    [exact (opened_NoDup two_longs empty_book)|apply returned_run; vm_compute; reflexivity|by left|reflexivity|reflexivity
    |by split].
Defined.

Lemma exits_are_never_blocked_witness :
  exists r plan, returned risk_off = Some r /\ assoc QQQ_STRATEGY_ID (cc_plans r) = Some plan /\
    cc_exposure_allowed r = false /\ cp_blocked plan = false /\
    (cp_signal plan = Some (signal QQQ_STRATEGY_ID "QQQ" EXIT) \/ cp_force_liquidation plan = true).
Proof.
  pose proof (exits_are_never_blocked risk_off.1 (opened risk_off empty_book) QQQ_STRATEGY_ID
    (leg QQQ_STRATEGY_ID "QQQ" (Some EXIT)) (opened_NoDup risk_off empty_book) ltac:(vm_compute; left) eq_refl) as H.
  destruct (returned risk_off) as [r|] eqn:E; [|vm_compute in E; discriminate].
  rewrite (returned_run risk_off r E) in H. destruct H as (plan & Hp & Hb & Hs & _).
  exists r, plan. split; [reflexivity|]. split; [exact Hp|].
  split; [vm_compute in E; injection E as <-; reflexivity|]. split; [exact Hb|].
  destruct Hs as [[Hs _]|[Hf _]]; [by left|by right].
Defined.

(** One leg whose cap is a text that is no number, while another asks to leave: the cycle raises,
    and the exit gets no plan. *)
Lemma one_bad_cap_stops_every_exit :
  let bad := mkPayload SPY_STRATEGY_ID "SPY" (Some (signal SPY_STRATEGY_ID "SPY" LONG))
               [("max_position_pct", JStr "all")] (lit 5 1) empty_window true fone fzero None 0 "flat" in
  let e : cycle_event := (mkArgs [qqq_cfg; spy_cfg] account [holding "QQQ" 400] None (lit 9 1) false 0 0 "cycle",
               [leg QQQ_STRATEGY_ID "QQQ" (Some EXIT); bad]) in
  (coordinate_cycle e.1 (opened e empty_book)).1 = Raise "ValueError".
Proof. vm_compute. reflexivity. Qed.

(** The database refuses a row of the ledger: the same. *)
Lemma refused_row_stops_every_exit :
  (coordinate_cycle risk_off.1 (opened risk_off (coordinator_init [false; true] None false))).1 = Raise "sqlite3.Error".
Proof. vm_compute. reflexivity. Qed.

Lemma one_sector_book_never_enters_witness :
  exists r, returned lone_leg = Some r /\ cc_exposure_allowed r = false /\
    forall id plan, (id, plan) ∈ cc_plans r -> is_entry (cp_signal plan) = false.
Proof.
  eexists. split; [vm_compute; reflexivity|].
  refine (one_sector_book_never_enters lone_leg.1 (opened lone_leg empty_book) _
    (coordinate_cycle lone_leg.1 (opened lone_leg empty_book)).2 "US_LARGE_CAP_GROWTH"
    (opened_NoDup lone_leg empty_book) _ _ _ _ (returned_run lone_leg _ ltac:(vm_compute; reflexivity))).
  - by intros cfg ->%list_elem_of_singleton.
  - intros id p s Hin. vm_compute in Hin. apply list_elem_of_singleton in Hin. injection Hin as -> ->.
    by intros [= <-].
  - vm_compute. reflexivity.
  - vm_compute. reflexivity.
Defined.

Lemma book_without_spy_stays_flat_witness :
  exists r plan s, returned gold_held = Some r /\ (QQQ_STRATEGY_ID, plan) ∈ cc_plans r /\ cp_signal plan = Some s /\
    QQQ_STRATEGY_ID = QQQ_STRATEGY_ID /\ ca_positions gold_held.1 <> [].
Proof.
  eexists _, _, _. split; [vm_compute; reflexivity|]. split; [by left|]. split; [reflexivity|].
  refine (book_without_spy_stays_flat gold_held.1 (opened gold_held empty_book) _
    (coordinate_cycle gold_held.1 (opened gold_held empty_book)).2 QQQ_STRATEGY_ID _
    (signal QQQ_STRATEGY_ID "QQQ" LONG) (opened_NoDup gold_held empty_book) _ _ _ _ _ _
    (returned_run gold_held _ ltac:(vm_compute; reflexivity)) ltac:(by left) eq_refl eq_refl).
  - discriminate.
  - discriminate.
  - intros cfg [->|[->|[]%not_elem_of_nil]%elem_of_cons]%elem_of_cons; discriminate.
  - vm_compute. lia.
  - vm_compute. reflexivity.
  - vm_compute. reflexivity.
Defined.

Lemma two_symbols : NoDup (map (fun cfg => upper (sc_symbol cfg)) [qqq_cfg; spy_cfg]).
Proof. apply (bool_decide_unpack _). vm_compute. exact I. Qed.

Lemma two_ids : NoDup (map sc_strategy_id [qqq_cfg; spy_cfg]).
Proof. apply (bool_decide_unpack _). vm_compute. exact I. Qed.

Lemma days_return : all_return empty_book [day_of_holding 0; day_of_holding 1].
Proof.
  intros pre e post E. destruct pre as [|x [|y [|z pre]]]; simplify_list_eq; (eexists; vm_compute; reflexivity).
Qed.

Lemma registry_tracks_runs_witness :
  option_map rg_opened (co_registry (runs coordinator_step empty_book [day_of_holding 0; day_of_holding 1])
    !! (QQQ_STRATEGY_ID, "QQQ")) = Some 0%Z.
Proof.
  exact (registry_tracks_runs [qqq_cfg; spy_cfg] empty_book [day_of_holding 0; day_of_holding 1] qqq_cfg
    two_symbols eq_refl
    ltac:(by repeat constructor) days_return ltac:(by left)).
Defined.

Lemma overdue_inventory_is_liquidated_witness :
  exists r plan s,
    (coordinate_cycle (day_of_holding 4).1 (opened (day_of_holding 4) (runs coordinator_step empty_book
      [day_of_holding 0]))).1 = Ok r /\
    assoc QQQ_STRATEGY_ID (cc_plans r) = Some plan /\ cp_force_liquidation plan = true /\ cp_blocked plan = false /\
    cp_signal plan = Some s /\ sig_action s = EXIT /\ sig_symbol s = "QQQ".
Proof.
  pose proof (overdue_inventory_is_liquidated [qqq_cfg; spy_cfg] empty_book [day_of_holding 0] (day_of_holding 4) qqq_cfg
    (holding "QQQ" 10) (leg QQQ_STRATEGY_ID "QQQ" (Some LONG)) 0
    two_symbols two_ids eq_refl ltac:(by repeat constructor) (proj1 (all_return_snoc _ [day_of_holding 0] _ days_return))
    ltac:(by left) ltac:(vm_compute; reflexivity) ltac:(vm_compute; reflexivity) ltac:(vm_compute; reflexivity)
    ltac:(vm_compute; discriminate) ltac:(by left) eq_refl eq_refl) as H.
  destruct (coordinate_cycle _ _).1 as [r|e] eqn:E; [|vm_compute in E; discriminate].
  destruct H as (plan & s & H). exists r, plan, s. exact (conj eq_refl H).
Defined.

(** A position that was reversed within its days is liquidated by the age of the one before it: at the first cycle of
    its fifth day a short opened that day leaves as the long it replaced would have. *)
Lemma reversed_position_keeps_its_age :
  let short := mkPosition "QQQ" (fneg (of_Z 10)) "short" (of_Z 100) fzero in
  let reversed := event [qqq_cfg; spy_cfg] [short] [leg QQQ_STRATEGY_ID "QQQ" None] false 4 in
  match (coordinate_cycle reversed.1 (opened reversed (runs coordinator_step empty_book [day_of_holding 0]))).1 with
  | Ok r => map (fun e => cp_force_liquidation e.2) (cc_plans r) = [true]
  | Raise _ => False
  end.
Proof. vm_compute. reflexivity. Qed.

(** Of two legs of one symbol the registry knows the last only. *)
Lemma shared_symbol_registers_the_last_leg :
  let other := mkStrategyConfig "other" "qqq" true in
  let r := sync_inventory_registry 7 [qqq_cfg; other] [holding "QQQ" 10] ∅ in
  r !! (QQQ_STRATEGY_ID, "QQQ") = None /\ rg_opened <$> r !! ("other", "QQQ") = Some 7%Z.
Proof. split; vm_compute; reflexivity. Qed.
