(* ===== verification/MatrixRing.v ===== *)
(** * Feature matrices and the shadow refresh's clock

    The parts of [src/ingestor/dual_buffer_manager.py] that hold no reference: the ring of bar features, the
    comparison of two of its tails, and the moment a refresh of the shadow is due. The five numpy arrays of a
    ring share their index, so a cell is one row of them. *)

From stdpp Require Import base gmap strings list sorting.
From Stdlib Require Import ZArith Lia Sorted Floats.SpecFloat.
From Stdlib Require Znumtheory.
From S2P Require Import Prelude Dict PyFloat Models RollingWindow MarketCalendar.

Definition SHADOW_POST_CLOSE_DELAY : Z := 30 * 1000000.
Definition LOCKED_BLOCK_COUNT : nat := 5.
Definition ACTIVE_RING_CAPACITY : nat := 32.
Definition PRICE_FEATURE_TOLERANCE : float := Eval vm_compute in lit 1 4.
Definition VOLUME_FEATURE_TOLERANCE : float := Eval vm_compute in lit 1 2.

(** ** Timestamps in nanoseconds *)

Definition NANOS : float := Eval vm_compute in of_Z 1000000000.

(** [int(value.timestamp() * 1_000_000_000)]: the product is rounded to a double. *)
Definition timestamp_ns (t : Z) : Z := default 0%Z (ftrunc (fmul (total_seconds t) NANOS)).

Definition round_half_even (x : float) : Z :=
  match x with
  | S754_finite s m e =>
      let n := if (0 <=? e)%Z then (Z.pos m * 2 ^ e)%Z
               else
                 let d := (2 ^ (- e))%Z in
                 let q := (Z.pos m / d)%Z in
                 let r := (Z.pos m mod d)%Z in
                 if (2 * r <? d)%Z then q else if (d <? 2 * r)%Z then (q + 1)%Z
                 else if Z.even q then q else (q + 1)%Z in
      if s then (- n)%Z else n
  | _ => 0%Z
  end.

(** [datetime.fromtimestamp(ns / 1_000_000_000, tz=utc)]: the fraction of the quotient is rounded to whole
    microseconds. *)
Definition from_ns (ns : Z) : Z :=
  let x := fdiv (of_Z ns) NANOS in
  let whole := default 0%Z (ftrunc x) in
  (whole * 1000000 + round_half_even (fmul (fsub x (of_Z whole)) (of_Z 1000000)))%Z.

(** ** The ring *)

Record matrix_row := mkRow {
  mx_ts : Z;
  mx_high : float;
  mx_low : float;
  mx_close : float;
  mx_volume : float
}.

Definition zero_row : matrix_row := mkRow 0 fzero fzero fzero fzero.

#[export] Instance matrix_row_inhabited : Inhabited matrix_row := populate zero_row.

Definition row_of (b : Bar) : matrix_row :=
  mkRow (timestamp_ns (bar_timestamp b)) (bar_high b) (bar_low b) (bar_close b) (bar_volume b).

Record MatrixRing := mkRing {
  mr_capacity : nat;
  mr_cells : list matrix_row;
  mr_count : nat;
  mr_head : nat
}.

Definition ring_init (capacity : nat) : MatrixRing :=
  let cap := max capacity LOCKED_BLOCK_COUNT in mkRing cap (replicate cap zero_row) 0 0.

Definition ring_clear (r : MatrixRing) : MatrixRing := mkRing (mr_capacity r) (mr_cells r) 0 0.

(** The index before the head: [(head - 1) % capacity]. *)
Definition last_idx (r : MatrixRing) : nat := (mr_head r + (mr_capacity r - 1)) mod mr_capacity r.

Definition upsert_bar (b : Bar) (r : MatrixRing) : MatrixRing :=
  let row := row_of b in
  if (0 <? mr_count r) && bool_decide (mx_ts <$> mr_cells r !! last_idx r = Some (mx_ts row))
  then mkRing (mr_capacity r) (<[last_idx r := row]> (mr_cells r)) (mr_count r) (mr_head r)
  else mkRing (mr_capacity r) (<[mr_head r := row]> (mr_cells r)) (min (mr_count r + 1) (mr_capacity r))
         ((mr_head r + 1) mod mr_capacity r).

Definition upsert_bars (bars : list Bar) (r : MatrixRing) : MatrixRing :=
  fold_left (fun r b => upsert_bar b r) bars r.

Definition replace_bars (bars : list Bar) (r : MatrixRing) : MatrixRing := upsert_bars bars (ring_clear r).

Definition shift_row (offset : float) (x : matrix_row) : matrix_row :=
  mkRow (mx_ts x) (fadd (mx_high x) offset) (fadd (mx_low x) offset) (fadd (mx_close x) offset) (mx_volume x).

Definition apply_price_offset (offset : float) (r : MatrixRing) : bool * MatrixRing :=
  if fleb offset fzero || (mr_count r =? 0) then (false, r)
  else (true, mkRing (mr_capacity r)
          (if mr_count r <? mr_capacity r
           then map (shift_row offset) (take (mr_count r) (mr_cells r)) ++ drop (mr_count r) (mr_cells r)
           else map (shift_row offset) (mr_cells r)) (mr_count r) (mr_head r)).

(** [np.argsort] by timestamp; the order of equal ones, which it leaves open, is the ring's. *)
Fixpoint insert_row (x : matrix_row) (l : list matrix_row) : list matrix_row :=
  match l with
  | [] => [x]
  | y :: l => if (mx_ts x <? mx_ts y)%Z then x :: y :: l else y :: insert_row x l
  end.
Definition sort_rows (l : list matrix_row) : list matrix_row := fold_left (fun acc x => insert_row x acc) l [].

(** The rows of [tail(n)]'s five arrays. *)
Definition ring_tail (n : Z) (r : MatrixRing) : list matrix_row :=
  let taken := min (Z.to_nat n) (mr_count r) in
  if mr_count r <? mr_capacity r
  then drop (mr_count r - taken) (take (mr_count r) (mr_cells r))
  else sort_rows (map (fun i => mr_cells r !!! ((mr_head r + i) mod mr_capacity r))
                    (seq (mr_count r - taken) taken)).

(** ** Comparing two tails *)

Record BarFeatureDelta := mkDelta {
  fd_timestamp : Z;              (* the moment whose ISO text the field holds *)
  fd_field : string;
  fd_active_value : float;
  fd_shadow_value : float;
  fd_delta : float
}.

Definition close_within (tolerance a b : float) : bool :=
  let scale := py_max (py_max (fabs a) (fabs b)) fone in
  fleb (fabs (fsub a b)) (py_max tolerance (fmul tolerance scale)).

Definition price_close : float -> float -> bool := close_within PRICE_FEATURE_TOLERANCE.
Definition volume_close : float -> float -> bool := close_within VOLUME_FEATURE_TOLERANCE.

Definition row_deltas (a s : matrix_row) : list BarFeatureDelta :=
  let delta field close x y :=
    if (close x y : bool) then [] else [mkDelta (from_ns (mx_ts a)) field x y (fsub x y)] in
  delta "high" price_close (mx_high a) (mx_high s) ++ delta "low" price_close (mx_low a) (mx_low s) ++
  delta "close" price_close (mx_close a) (mx_close s) ++ delta "volume" volume_close (mx_volume a) (mx_volume s).

Definition compare_feature_matrices (active shadow : list matrix_row) : list BarFeatureDelta :=
  let index := fold_left (fun d x => assoc_set (mx_ts x) x d) shadow [] in
  flat_map (fun a => match assoc (mx_ts a) index with Some s => row_deltas a s | None => [] end) active.

(** ** When a refresh is due *)

Definition most_recent_bar_close (now bar_minutes : Z) : Z :=
  let total_min := ((now mod DAY) / MINUTE)%Z in
  let close_min := if (total_min mod bar_minutes =? 0)%Z then total_min
                   else ((total_min / bar_minutes + 1) * bar_minutes)%Z in
  (now / DAY * DAY + close_min * MINUTE)%Z.

Definition shadow_refresh_due (now bar_minutes : Z) (last_refreshed_close : option Z) : bool * Z :=
  let close := most_recent_bar_close now bar_minutes in
  if (now <? close + SHADOW_POST_CLOSE_DELAY)%Z then (false, close)
  else match last_refreshed_close with
       | Some c => ((c <? close)%Z, close)
       | None => (true, close)
       end.

(** ** The ring is the list of its last rows *)

(** What an upsert does to the rows, oldest first. *)
Definition upsert_row (cap : nat) (l : list matrix_row) (x : matrix_row) : list matrix_row :=
  if bool_decide (mx_ts <$> last l = Some (mx_ts x)) then replace_last l x else deque_append cap l x.

Definition ring_rows (r : MatrixRing) : list matrix_row :=
  ring_read (mr_capacity r) (mr_count r) (mr_head r) (mr_cells r).

Record matrix_ok (r : MatrixRing) : Prop := {
  mo_counters : counters_ok (mr_capacity r) (mr_count r) (mr_head r);
  mo_cells : length (mr_cells r) = mr_capacity r
}.

Lemma ring_init_ok capacity : matrix_ok (ring_init capacity) /\ ring_rows (ring_init capacity) = [].
Proof.
  unfold ring_rows, ring_init, ring_read. cbn. split; [|by rewrite bool_decide_true by (unfold LOCKED_BLOCK_COUNT; lia)].
  split; cbn; [|by rewrite length_replicate]. unfold counters_ok, LOCKED_BLOCK_COUNT. lia.
Qed.

Lemma ring_clear_ok r : matrix_ok r -> matrix_ok (ring_clear r) /\ ring_rows (ring_clear r) = [].
Proof.
  intros [(? & ? & ? & ?) Hl]. unfold ring_rows, ring_clear, ring_read. cbn.
  rewrite bool_decide_true by done. split; [|done]. split; cbn; [|done]. unfold counters_ok. lia.
Qed.

Lemma rows_ok r : matrix_ok r -> ring_ok (mr_capacity r) (mr_count r) (mr_head r) (mr_cells r) (ring_rows r).
Proof. intros [_ Hl]. by split. Qed.

Lemma rows_length r : matrix_ok r -> length (ring_rows r) = mr_count r.
Proof. intros Hr. exact (ring_length _ _ _ _ _ (mo_counters r Hr) (rows_ok r Hr)). Qed.

(** The cell before the head is the last row. *)
Lemma last_cell r : matrix_ok r -> 0 < mr_count r -> mr_cells r !! last_idx r = last (ring_rows r).
Proof.
  intros Hr Hpos. pose proof (ring_rewrite _ _ _ _ _ (default zero_row (mr_cells r !! last_idx r)) (mo_counters r Hr) (rows_ok r Hr) Hpos) as Hw.
  destruct (mo_counters r Hr) as (Hn & Hc & Hh & _). pose proof (mo_cells r Hr) as Hl.
  assert (Hidx : last_idx r < length (mr_cells r)) by (rewrite Hl; apply Nat.mod_upper_bound; lia).
  destruct (lookup_lt_is_Some_2 _ _ Hidx) as [x Hx]. fold (last_idx r) in Hw. rewrite Hx in Hw |- *. cbn in Hw.
  rewrite list_insert_id in Hw by exact Hx. destruct Hw as [_ Hw]. fold (ring_rows r) in Hw.
  rewrite Hw. symmetry. apply last_replace_last. intros E. pose proof (rows_length r Hr) as HL. rewrite E in HL. cbn in HL. lia.
Qed.

Lemma upsert_ok b r :
  matrix_ok r -> matrix_ok (upsert_bar b r) /\ mr_capacity (upsert_bar b r) = mr_capacity r /\
  ring_rows (upsert_bar b r) = upsert_row (mr_capacity r) (ring_rows r) (row_of b).
Proof.
  intros Hr. pose proof (mo_counters r Hr) as Hc. pose proof (mo_cells r Hr) as Hl. pose proof (rows_ok r Hr) as Hrows.
  unfold upsert_bar, upsert_row. destruct (decide (mr_count r = 0)) as [Ez|Hpos].
  - assert (ring_rows r = []) as E0 by (apply nil_length_inv; rewrite (rows_length r Hr); exact Ez).
    replace (0 <? mr_count r) with false by (symmetry; apply Nat.ltb_ge; lia). cbn [andb]. rewrite E0 in *. cbn [last fmap option_fmap option_map].
    rewrite (bool_decide_false (None = _)) by done. split; [|split; [done|]].
    + split; cbn; [by apply counters_next|by rewrite length_insert].
    + exact (proj2 (ring_write _ _ _ _ _ (row_of b) Hc Hrows)).
  - replace (0 <? mr_count r) with true by (symmetry; apply Nat.ltb_lt; lia). cbn [andb].
    rewrite last_cell by (done || lia). case_bool_decide.
    + split; [|split; [done|]]; [split; cbn; [done|by rewrite length_insert]|].
      exact (proj2 (ring_rewrite _ _ _ _ _ (row_of b) Hc Hrows ltac:(lia))).
    + split; [|split; [done|]].
      * split; cbn; [by apply counters_next|by rewrite length_insert].
      * exact (proj2 (ring_write _ _ _ _ _ (row_of b) Hc Hrows)).
Qed.

Lemma upsert_bars_ok bars r :
  matrix_ok r -> matrix_ok (upsert_bars bars r) /\ mr_capacity (upsert_bars bars r) = mr_capacity r /\
  ring_rows (upsert_bars bars r) = fold_left (upsert_row (mr_capacity r)) (map row_of bars) (ring_rows r).
Proof.
  revert r. induction bars as [|b bars IH]; intros r Hr; [done|].
  destruct (upsert_ok b r Hr) as (H1 & Hcap & Hrows). destruct (IH _ H1) as (H2 & Hcap2 & Hrows2).
  change (upsert_bars (b :: bars) r) with (upsert_bars bars (upsert_bar b r)). split; [exact H2|].
  split; [by rewrite Hcap2|]. rewrite Hrows2, Hcap, Hrows. done.
Qed.

(** ** Tails *)

Lemma rotated_lookup {A} (l : list A) head i :
  head < length l -> i < length l -> (drop head l ++ take head l) !! i = l !! ((head + i) mod length l).
Proof.
  intros Hh Hi. destruct (decide (i < length l - head)).
  - rewrite lookup_app_l by (rewrite length_drop; lia). rewrite lookup_drop. by rewrite Nat.mod_small by lia.
  - rewrite lookup_app_r by (rewrite length_drop; lia). rewrite length_drop, lookup_take_lt by lia.
    replace (head + i) with (head + i - length l + 1 * length l) by lia.
    rewrite Nat.Div0.mod_add, Nat.mod_small by lia. f_equal. lia.
Qed.

Lemma map_seq_drop {A} `{Inhabited A} (l : list A) (f : nat -> A) k :
  (forall i, i < length l -> l !! i = Some (f i)) -> map f (seq k (length l - k)) = drop k l.
Proof.
  intros Hf. apply list_eq. intros i. rewrite lookup_drop.
  destruct (decide (k + i < length l)) as [Hi|Hi].
  - rewrite Hf by lia. change (map f ?s) with (f <$> s). rewrite list_lookup_fmap, lookup_seq_lt by lia. done.
  - rewrite (lookup_ge_None_2 l) by lia. apply lookup_ge_None_2. rewrite length_map, length_seq. lia.
Qed.

(** A tail is the last rows, by timestamp once the ring is full. *)
Lemma ring_tail_spec n r :
  matrix_ok r ->
  ring_tail n r = (if mr_count r <? mr_capacity r then fun l => l else sort_rows)
    (drop (mr_count r - min (Z.to_nat n) (mr_count r)) (ring_rows r)).
Proof.
  intros Hr. pose proof (mo_counters r Hr) as (H1 & H2 & H3 & _). pose proof (mo_cells r Hr) as Hl.
  pose proof (rows_length r Hr) as Hlen.
  unfold ring_tail, ring_rows, ring_read in *. cbv zeta. destruct (mr_count r <? mr_capacity r) eqn:E.
  - apply Nat.ltb_lt in E. by rewrite bool_decide_true.
  - apply Nat.ltb_ge in E. rewrite bool_decide_false in Hlen |- * by lia. f_equal.
    set (t := min (Z.to_nat n) (mr_count r)). set (rot := drop _ _ ++ _) in *.
    rewrite <- (map_seq_drop rot (fun i => mr_cells r !!! ((mr_head r + i) mod mr_capacity r))).
    + do 2 f_equal. lia.
    + intros i Hi. unfold rot. rewrite rotated_lookup by lia. rewrite Hl.
      apply list_lookup_lookup_total_lt. rewrite Hl. apply Nat.mod_upper_bound. lia.
Qed.

Definition rows_lt (x y : matrix_row) : Prop := (mx_ts x < mx_ts y)%Z.

Lemma insert_row_last x l : Forall (fun y => rows_lt y x) l -> insert_row x l = l ++ [x].
Proof.
  induction 1 as [|y l Hy _ IH]; [done|]. cbn. unfold rows_lt in Hy.
  rewrite (proj2 (Z.ltb_ge _ _)) by lia. by rewrite IH.
Qed.

(** Rows in order stay in order. *)
Lemma sort_rows_sorted l : StronglySorted rows_lt l -> sort_rows l = l.
Proof.
  unfold sort_rows. intros Hs.
  assert (Hgen : forall acc, StronglySorted rows_lt (acc ++ l) -> fold_left (fun acc x => insert_row x acc) l acc = acc ++ l).
  { clear Hs. induction l as [|x l IH]; intros acc Hs; [by rewrite app_nil_r|]. cbn.
    rewrite insert_row_last, IH.
    - by rewrite <- app_assoc.
    - by rewrite <- app_assoc.
    - apply Forall_forall. intros y Hy. apply (StronglySorted_app_1_elem_of _ _ _ _ _ Hs); [done|by left]. }
  by apply (Hgen []).
Qed.

(** Upserting rows of distinct neighbouring times leaves them at the end. *)
Lemma upserts_suffix cap l rows :
  0 < length rows <= cap -> StronglySorted rows_lt rows ->
  exists l0, fold_left (upsert_row cap) rows l = l0 ++ rows.
Proof.
  intros Hlen Hs. induction rows as [|x rows IH] using rev_ind; [cbn in Hlen; lia|].
  rewrite fold_left_app, length_app in *. cbn [fold_left length] in *.
  destruct rows as [|y rows'] eqn:Er.
  - cbn. unfold upsert_row. case_bool_decide as Hb.
    + destruct l as [|z l] using rev_ind; [done|]. exists l. unfold replace_last.
      rewrite length_app. cbn. replace (length l + 1 - 1) with (length l + 0) by lia. by rewrite insert_app_r.
    + unfold deque_append. destruct (decide (length l < cap)).
      * exists l. replace (S (length l) - cap) with 0 by lia. done.
      * exists (drop (S (length l) - cap) l). rewrite drop_app_le by (cbn in Hlen; lia). done.
  - rewrite <- Er in *. assert (Hne : rows <> []) by by rewrite Er.
    assert (0 < length rows) by (rewrite Er; cbn; lia).
    destruct IH as [l0 ->]; [lia|by apply StronglySorted_app_1_l in Hs|].
    unfold upsert_row. rewrite bool_decide_false.
    + unfold deque_append. rewrite <- app_assoc. exists (drop (S (length (l0 ++ rows)) - cap) l0).
      rewrite drop_app_le; [done|]. rewrite length_app. lia.
    + rewrite last_app. destruct (last rows) as [z|] eqn:Ez; [|by apply last_None in Ez]. cbn. intros [= Et].
      assert (rows_lt z x) as Hlt; [|unfold rows_lt in Hlt; lia].
      apply (StronglySorted_app_1_elem_of _ _ _ _ _ Hs); [by apply last_Some_elem_of|by left].
Qed.

(** ** A tail against itself *)

Definition finite_row (x : matrix_row) : Prop :=
  isfinite (mx_high x) = true /\ isfinite (mx_low x) = true /\ isfinite (mx_close x) = true /\
  isfinite (mx_volume x) = true.

Lemma close_within_self tolerance x :
  fleb fzero tolerance = true -> isfinite x = true -> close_within tolerance x x = true.
Proof.
  intros Ht Hx. unfold close_within. cbv zeta.
  replace (fabs (fsub x x)) with fzero.
  - set (y := fmul _ _). destruct (is_nan tolerance) eqn:En; [by destruct tolerance|].
    apply (fleb_trans _ tolerance); [done|by apply py_max_le_l].
  - destruct x as [[]|[]| |s m e]; try done. unfold fsub, SFsub. by rewrite Z.sub_diag.
Qed.

Lemma row_deltas_self x : finite_row x -> row_deltas x x = [].
Proof.
  intros (H1 & H2 & H3 & H4). unfold row_deltas, price_close, volume_close. cbv zeta.
  by rewrite !close_within_self.
Qed.

Lemma compare_self l : NoDup (map mx_ts l) -> Forall finite_row l -> compare_feature_matrices l l = [].
Proof.
  intros Hnd Hfin. unfold compare_feature_matrices. cbv zeta. set (idx := fold_left _ l []).
  assert (Hidx : forall x, x ∈ l -> assoc (mx_ts x) idx = Some x).
  { unfold idx. assert (Hgen : forall d x, x ∈ l \/ (mx_ts x ∉ map mx_ts l /\ assoc (mx_ts x) d = Some x) ->
      assoc (mx_ts x) (fold_left (fun d x => assoc_set (mx_ts x) x d) l d) = Some x).
    { clear idx Hfin. induction l as [|y l IH]; intros d x Hx; [by destruct Hx as [?%not_elem_of_nil|[_ ?]]|].
      cbn in Hnd. apply NoDup_cons in Hnd as [Hy Hnd]. cbn [fold_left]. apply (IH Hnd).
      destruct Hx as [[->|Hx]%elem_of_cons|[Hn Hx]]; [right|by left|].
      - split; [exact Hy|]. by rewrite assoc_set_same.
      - cbn in Hn. apply not_elem_of_cons in Hn as [Hne Hn]. right. split; [exact Hn|]. by rewrite assoc_set_other. }
    intros x Hx. apply Hgen. by left. }
  clearbody idx. clear Hnd. revert Hidx Hfin.
  assert (Hall : forall k, (forall x, x ∈ k -> assoc (mx_ts x) idx = Some x) -> Forall finite_row k ->
    flat_map (fun a => match assoc (mx_ts a) idx with Some s => row_deltas a s | None => [] end) k = []).
  { induction k as [|x k IH]; intros Hk Hf; [done|]. cbn [flat_map].
    apply Forall_cons in Hf as [Hx Hf]. rewrite (Hk x) by by left. rewrite row_deltas_self by done. apply IH; [|done]. intros y Hy. apply Hk. by right. }
  exact (Hall l).
Qed.

(** ** The refresh's clock *)

Section Clock.
Local Open Scope Z_scope.
Context (bar_minutes : Z) (Hpos : 0 < bar_minutes).

Definition on_boundary (now : Z) : Prop := ((now mod DAY) / MINUTE) mod bar_minutes = 0.

#[export] Instance on_boundary_dec now : Decision (on_boundary now) := Z.eq_dec _ _.

Lemma minute_split now : now = now / DAY * DAY + (now mod DAY) / MINUTE * MINUTE + now mod MINUTE.
Proof.
  pose proof (Z.div_mod now DAY ltac:(done)). pose proof (Z.div_mod (now mod DAY) MINUTE ltac:(done)).
  assert ((now mod DAY) mod MINUTE = now mod MINUTE) as Hm.
  { symmetry. apply Znumtheory.Zmod_div_mod; [done|done|]. by exists 1440. }
  lia.
Qed.

(** In a minute that no bar ends in, the close is still to come. *)
Lemma close_ahead now : ~ on_boundary now -> now < most_recent_bar_close now bar_minutes.
Proof.
  unfold on_boundary, most_recent_bar_close. intros Hb. cbv zeta. set (m := (now mod DAY) / MINUTE) in *.
  rewrite (proj2 (Z.eqb_neq _ _)) by done.
  pose proof (minute_split now) as Hs. fold m in Hs. pose proof (Z.mod_pos_bound now MINUTE ltac:(done)).
  assert (m + 1 <= (m / bar_minutes + 1) * bar_minutes).
  { pose proof (Z.div_mod m bar_minutes ltac:(lia)). pose proof (Z.mod_pos_bound m bar_minutes Hpos). lia. }
  assert (MINUTE = 60000000) as Em by done. nia.
Qed.

Lemma close_on_boundary now : on_boundary now -> most_recent_bar_close now bar_minutes = now - now mod MINUTE.
Proof.
  unfold on_boundary, most_recent_bar_close. intros Hb. cbv zeta. rewrite (proj2 (Z.eqb_eq _ _)) by done.
  pose proof (minute_split now). lia.
Qed.

(** A refresh is due in the last half of a minute that a bar ends in, and then only. *)
Lemma refresh_due_spec now last :
  (shadow_refresh_due now bar_minutes last).1 = true <->
  on_boundary now /\ 30 * 1000000 <= now mod MINUTE /\
  (forall c, last = Some c -> c < now - now mod MINUTE).
Proof.
  unfold shadow_refresh_due, SHADOW_POST_CLOSE_DELAY. cbv zeta.
  destruct (decide (((now mod DAY) / MINUTE) mod bar_minutes = 0)) as [Hb|Hb].
  - rewrite (close_on_boundary now Hb). destruct (Z.ltb_spec now (now - now mod MINUTE + 30 * 1000000)); cbn [fst].
    + split; [done|]. intros (_ & ? & _). lia.
    + destruct last as [c|]; cbn [fst].
      * rewrite Z.ltb_lt. split; [intros Hc; split; [done|]; split; [lia|by intros ? [= <-]]|]. intros (_ & _ & Hc). by apply Hc.
      * split; [|done]. split; [done|]. split; [lia|done].
  - pose proof (close_ahead now Hb). rewrite (proj2 (Z.ltb_lt _ _)) by lia. cbn [fst]. split; [done|].
    by intros (? & _).
Qed.
End Clock.
