(* ===== verification/DualBuffer.v ===== *)
(** * The dual-buffer coordinator

    [src/ingestor/dual_buffer_manager.py]: streamed bars against the bars a REST refresh brings, the divergence
    latch, the tape status, the cold-start gate ([ColdStart]) they feed, and the watchdog of the ingester. Rings
    and clock arithmetic are in [MatrixRing]. The windows ([RollingWindow]) are shared with their callers: a leg
    holds an address. A call reads one moment of each clock; the gate's own clock is its sequence of readings.
    Every method runs as one step: its state is behind one lock, but for the fetch, which is an argument. *)

From stdpp Require Import base gmap strings list sorting.
From Stdlib Require Import ZArith Lia Sorted.
From S2P Require Import Prelude Dict PyFloat BarFreshness Models ColdStart RollingWindow MarketCalendar MatrixRing.

Definition SHADOW_REFRESH_POLL_SECONDS : float := Eval vm_compute in lit 1 0.
Definition INGESTER_STALL_MULTIPLE : float := Eval vm_compute in lit 2 0.
Definition INGESTER_WATCHDOG_CHECK_SECONDS : float := Eval vm_compute in lit 30 0.

Inductive TapeStatus := TAPE_UNKNOWN | TAPE_VERIFIED | TAPE_DIVERGENT.
#[export] Instance TapeStatus_eq_dec : EqDecision TapeStatus.
Proof. solve_decision. Defined.

Definition TapeStatus_value (s : TapeStatus) : string :=
  match s with
  | TAPE_UNKNOWN => "TAPE_STATUS_UNKNOWN"
  | TAPE_VERIFIED => "TAPE_STATUS_VERIFIED"
  | TAPE_DIVERGENT => "TAPE_STATUS_DIVERGENT"
  end.

Record MatrixAlignmentVerdict := mkVerdict {
  mv_aligned : bool;
  mv_compared_bars : Z;
  mv_mismatches : list BarFeatureDelta;
  mv_latch_engaged : bool;
  mv_latch_cleared : bool;
  mv_skip_reason : option string
}.

Record SymbolMatrixState := mkMatrix {
  sm_symbol : string;
  sm_timeframe : string;
  sm_asset_class : string;
  sm_active : MatrixRing;
  sm_shadow : MatrixRing;
  sm_last_shadow_refresh_monotonic : float;
  sm_last_shadow_refresh_bar_close : option Z;
  sm_strategy_ids : gset string
}.

Definition matrix_init (symbol timeframe asset_class : string) : SymbolMatrixState :=
  mkMatrix symbol timeframe asset_class (ring_init ACTIVE_RING_CAPACITY) (ring_init (LOCKED_BLOCK_COUNT + 4))
    fzero None ∅.

Definition set_rings (active shadow : MatrixRing) (s : SymbolMatrixState) : SymbolMatrixState :=
  mkMatrix (sm_symbol s) (sm_timeframe s) (sm_asset_class s) active shadow (sm_last_shadow_refresh_monotonic s)
    (sm_last_shadow_refresh_bar_close s) (sm_strategy_ids s).
Definition set_refreshed (mono : float) (close : Z) (s : SymbolMatrixState) : SymbolMatrixState :=
  mkMatrix (sm_symbol s) (sm_timeframe s) (sm_asset_class s) (sm_active s) (sm_shadow s) mono (Some close)
    (sm_strategy_ids s).
Definition set_legs (asset_class : string) (ids : gset string) (s : SymbolMatrixState) : SymbolMatrixState :=
  mkMatrix (sm_symbol s) (sm_timeframe s) asset_class (sm_active s) (sm_shadow s)
    (sm_last_shadow_refresh_monotonic s) (sm_last_shadow_refresh_bar_close s) ids.

Record DualBufferDataCoordinator := mkDual {
  db_ingestor : bool;                                     (* whether one is configured *)
  db_matrices : list ((string * string) * SymbolMatrixState);
  db_leg_index : list (string * (string * string));
  db_leg_windows : list (string * nat);
  db_divergent_latches : gmap string bool;
  db_tape_status : gmap string TapeStatus;
  db_cold_start_gate_cleared : bool;
  db_background_verified : bool;
  db_gate : ColdStartGateEngine;
  db_policies : gmap string ColdStartPolicy;
  db_listener : bool;                                     (* whether one is set *)
  db_running : bool;                                      (* the refresh thread *)
  db_last_promotion : gmap (string * string) float;
  db_last_watchdog_check : float;
  db_stalled : gset (string * string);
  db_heap : gmap nat RollingWindow
}.

Definition dual_init (ingestor : bool) (heap : gmap nat RollingWindow) : DualBufferDataCoordinator :=
  mkDual ingestor [] [] [] ∅ ∅ false false gate_init ∅ false false ∅ fzero ∅ heap.

Section Setters.
Context (d : DualBufferDataCoordinator).
Definition set_matrices x := mkDual (db_ingestor d) x (db_leg_index d) (db_leg_windows d) (db_divergent_latches d)
  (db_tape_status d) (db_cold_start_gate_cleared d) (db_background_verified d) (db_gate d) (db_policies d)
  (db_listener d) (db_running d) (db_last_promotion d) (db_last_watchdog_check d) (db_stalled d) (db_heap d).
Definition set_index x y := mkDual (db_ingestor d) (db_matrices d) x y (db_divergent_latches d)
  (db_tape_status d) (db_cold_start_gate_cleared d) (db_background_verified d) (db_gate d) (db_policies d)
  (db_listener d) (db_running d) (db_last_promotion d) (db_last_watchdog_check d) (db_stalled d) (db_heap d).
Definition set_tape x y := mkDual (db_ingestor d) (db_matrices d) (db_leg_index d) (db_leg_windows d) x y
  (db_cold_start_gate_cleared d) (db_background_verified d) (db_gate d) (db_policies d)
  (db_listener d) (db_running d) (db_last_promotion d) (db_last_watchdog_check d) (db_stalled d) (db_heap d).
Definition set_cleared x y := mkDual (db_ingestor d) (db_matrices d) (db_leg_index d) (db_leg_windows d)
  (db_divergent_latches d) (db_tape_status d) x y (db_gate d) (db_policies d)
  (db_listener d) (db_running d) (db_last_promotion d) (db_last_watchdog_check d) (db_stalled d) (db_heap d).
Definition set_gate x := mkDual (db_ingestor d) (db_matrices d) (db_leg_index d) (db_leg_windows d)
  (db_divergent_latches d) (db_tape_status d) (db_cold_start_gate_cleared d) (db_background_verified d) x
  (db_policies d) (db_listener d) (db_running d) (db_last_promotion d) (db_last_watchdog_check d) (db_stalled d)
  (db_heap d).
Definition set_policies x := mkDual (db_ingestor d) (db_matrices d) (db_leg_index d) (db_leg_windows d)
  (db_divergent_latches d) (db_tape_status d) (db_cold_start_gate_cleared d) (db_background_verified d) (db_gate d)
  x (db_listener d) (db_running d) (db_last_promotion d) (db_last_watchdog_check d) (db_stalled d) (db_heap d).
Definition set_wiring x y z := mkDual x (db_matrices d) (db_leg_index d) (db_leg_windows d)
  (db_divergent_latches d) (db_tape_status d) (db_cold_start_gate_cleared d) (db_background_verified d) (db_gate d)
  (db_policies d) y z (db_last_promotion d) (db_last_watchdog_check d) (db_stalled d) (db_heap d).
Definition set_watch x y z := mkDual (db_ingestor d) (db_matrices d) (db_leg_index d) (db_leg_windows d)
  (db_divergent_latches d) (db_tape_status d) (db_cold_start_gate_cleared d) (db_background_verified d) (db_gate d)
  (db_policies d) (db_listener d) (db_running d) x y z (db_heap d).
Definition set_heap x := mkDual (db_ingestor d) (db_matrices d) (db_leg_index d) (db_leg_windows d)
  (db_divergent_latches d) (db_tape_status d) (db_cold_start_gate_cleared d) (db_background_verified d) (db_gate d)
  (db_policies d) (db_listener d) (db_running d) (db_last_promotion d) (db_last_watchdog_check d) (db_stalled d) x.
End Setters.

(** What the clocks read in a call: UTC in microseconds and the monotonic clock. *)
Record moment := mkMoment { m_utc : Z; m_mono : float }.

Section Coordinator.
Context (cfg : ColdStartGateConfig) (mono : nat -> float) `{Zone}.
(** [load_research_validation_index()]. *)
Context (index : gmap string (gmap string policy_setting)).
Local Open Scope py_scope.

(** ** Reading *)

Definition is_divergent_latch (sid : string) (d : DualBufferDataCoordinator) : bool :=
  default false (db_divergent_latches d !! sid).

Definition tape_status (sid : string) (d : DualBufferDataCoordinator) : TapeStatus :=
  default TAPE_UNKNOWN (db_tape_status d !! sid).

Definition any_tape_latch_active (d : DualBufferDataCoordinator) : bool :=
  negb (db_cold_start_gate_cleared d) || existsb snd (map_to_list (db_divergent_latches d)).

Definition cold_start_gate_state (sid : string) (d : DualBufferDataCoordinator) : ColdStartGateState :=
  gate_state sid (db_gate d).

(** The scale is read through the gate, which may note a suppression. *)
Definition db_cold_start_entry_scale (sid : string) (d : DualBufferDataCoordinator)
    : float * DualBufferDataCoordinator :=
  if is_divergent_latch sid d then (fzero, d)
  else let '(scale, g) := cold_start_entry_scale cfg sid (db_gate d) in (scale, set_gate d g).

Definition blocks_all_entry_signals (sid : string) (d : DualBufferDataCoordinator) : bool :=
  is_divergent_latch sid d || blocks_all_entries sid (db_gate d).

Definition db_blocks_entry_signals (sid : string) (d : DualBufferDataCoordinator) : bool * DualBufferDataCoordinator :=
  if is_divergent_latch sid d then (true, d)
  else
    let '(blocked, g) := blocks_entry_signals sid (db_gate d) in
    let d := set_gate d g in
    if blocked then (true, d)
    else if bool_decide (gate_state sid g = STABILIZED_VERIFIED)
    then (bool_decide (tape_status sid d = TAPE_DIVERGENT), d)
    else (false, d).

(** The first window of the key, in the order of the legs, that holds a bar. *)
Fixpoint first_window (key : string * string) (legs : list (string * (string * string)))
    (d : DualBufferDataCoordinator) : option RollingWindow :=
  match legs with
  | [] => None
  | (sid, k) :: legs =>
      match (if bool_decide (k = key) then assoc sid (db_leg_windows d) ≫= (db_heap d !!.) else None) with
      | Some w => if (0 <? rw_count w)%nat then Some w else first_window key legs d
      | None => first_window key legs d
      end
  end.

Definition no_health : StreamHealthSnapshot := mkStreamHealth None None fzero fzero 0.

(** The last two of a list, newest first. *)
Definition last_two {A} (l : list A) : option A * option A :=
  match reverse l with x :: y :: _ => (Some x, Some y) | [x] => (Some x, None) | [] => (None, None) end.

Definition stream_health_for_key (key : string * string) (d : DualBufferDataCoordinator) : StreamHealthSnapshot :=
  match first_window key (db_leg_index d) d with
  | Some w =>
      let '(newest, prior) := last_two (chronological_bars w) in
      mkStreamHealth (option_map bar_timestamp newest) (option_map bar_timestamp prior)
        (match newest with Some b => bar_volume b | None => fzero end)
        (match prior with Some b => bar_volume b | None => fzero end) (Z.of_nat (rw_count w))
  | None =>
      match assoc key (db_matrices d) with
      | None => no_health
      | Some s =>
          let count := mr_count (sm_active s) in
          if (count =? 0)%nat then no_health
          else
            let '(newest, prior) := last_two (ring_tail (Z.of_nat (min count 2)) (sm_active s)) in
            mkStreamHealth (option_map (fun r => from_ns (mx_ts r)) newest)
              (option_map (fun r => from_ns (mx_ts r)) prior)
              (match newest with Some r => mx_volume r | None => fzero end)
              (match prior with Some r => mx_volume r | None => fzero end) (Z.of_nat count)
      end
  end.

Definition shadow_matrix_lag_seconds (now : moment) (d : DualBufferDataCoordinator) : option float :=
  match omap (fun e => let t := sm_last_shadow_refresh_monotonic e.2 in
                       if fleb t fzero then None else Some (py_max (fsub (m_mono now) t) fzero)) (db_matrices d) with
  | [] => None
  | x :: xs => Some (fold_left py_max xs x)
  end.

Record db_telemetry := mkDbTelemetry {
  dt_shadow_matrix_lag_seconds : option float;
  dt_tape_latch_active : bool;
  dt_cold_start_gate_cleared : bool;
  dt_background_verified : bool;
  dt_tape_status : gmap string string;
  dt_unknown_strategy_ids : gset string;       (* sorted lists in the code *)
  dt_divergent_strategy_ids : gset string;
  dt_gate : gate_telemetry
}.

Definition db_telemetry_snapshot (now : moment) (d : DualBufferDataCoordinator)
    : db_telemetry * DualBufferDataCoordinator :=
  let '(t, g) := telemetry_snapshot cfg mono (db_gate d) in
  (mkDbTelemetry (shadow_matrix_lag_seconds now d) (any_tape_latch_active d) (db_cold_start_gate_cleared d)
     (db_background_verified d) (TapeStatus_value <$> db_tape_status d)
     (dom (filter (fun e => e.2 = TAPE_UNKNOWN) (db_tape_status d)))
     (dom (filter (fun e => e.2 = true) (db_divergent_latches d))) t, set_gate d g).

(** ** Legs *)

Definition initialize_cold_start_state (d : DualBufferDataCoordinator) : DualBufferDataCoordinator :=
  let ids := map fst (db_leg_index d) in
  let d := set_tape d (fold_left (fun m sid => <[sid := false]> m) ids (db_divergent_latches d))
             (fold_left (fun m sid => <[sid := TAPE_UNKNOWN]> m) ids (db_tape_status d)) in
  let d := set_cleared d false false in
  set_gate d (begin_cold_start mono ids
    (list_to_map (map (fun sid => (sid, SetPolicyValue (default FAIL_SAFE_CLOSE (db_policies d !! sid)))) ids))
    (list_to_map (map (fun e => (e.1, e.2.1)) (db_leg_index d))) (db_gate d)).

(** The policy given for the leg comes before its parameters'. *)
Definition registered_policy (symbol : string) (strategy_params : option (gmap string policy_setting))
    (policy : option policy_setting) : ColdStartPolicy :=
  match policy with
  | Some raw => parse_cold_start_policy raw
  | None => resolve_cold_start_policy index strategy_params symbol
  end.

Definition register_leg (sid symbol timeframe asset_class : string) (window : option nat)
    (strategy_params : option (gmap string policy_setting)) (policy : option policy_setting)
    (d : DualBufferDataCoordinator) : DualBufferDataCoordinator :=
  let key := (upper symbol, timeframe) in
  let resolved := registered_policy symbol strategy_params policy in
  let s := default (matrix_init (upper symbol) timeframe asset_class) (assoc key (db_matrices d)) in
  let d := set_matrices d (assoc_set key (set_legs asset_class ({[sid]} ∪ sm_strategy_ids s) s) (db_matrices d)) in
  let d := set_index d (assoc_set sid key (db_leg_index d))
             (match window with Some a => assoc_set sid a (db_leg_windows d) | None => db_leg_windows d end) in
  let latches := match db_divergent_latches d !! sid with
                 | Some _ => db_divergent_latches d | None => <[sid := false]> (db_divergent_latches d) end in
  let tape := if negb (db_cold_start_gate_cleared d) || bool_decide (db_tape_status d !! sid = None)
              then <[sid := TAPE_UNKNOWN]> (db_tape_status d) else db_tape_status d in
  let d := set_policies (set_tape d latches tape) (<[sid := resolved]> (db_policies d)) in
  set_gate d (set_symbol sid symbol (set_policy sid (SetPolicyValue resolved) (db_gate d))).

Definition unregister_leg (sid : string) (d : DualBufferDataCoordinator) : DualBufferDataCoordinator :=
  let key := assoc sid (db_leg_index d) in
  let d := set_index d (assoc_del sid (db_leg_index d)) (assoc_del sid (db_leg_windows d)) in
  let d := set_tape d (delete sid (db_divergent_latches d)) (delete sid (db_tape_status d)) in
  let d := set_policies d (delete sid (db_policies d)) in
  match key with
  | None => d
  | Some key =>
      match assoc key (db_matrices d) with
      | None => d
      | Some s =>
          let ids := sm_strategy_ids s ∖ {[sid]} in
          if bool_decide (ids = ∅) then set_matrices d (assoc_del key (db_matrices d))
          else set_matrices d (assoc_set key (set_legs (sm_asset_class s) ids s) (db_matrices d))
      end
  end.

(** The windows of the legs of a key, in the order the windows were given. *)
Definition target_windows (key : string * string) (d : DualBufferDataCoordinator) : list nat :=
  omap (fun e => if bool_decide (assoc e.1 (db_leg_index d) = Some key) then Some e.2 else None) (db_leg_windows d).

(** ** The stream *)

Definition stream_window (b : Bar) (acc : string * gmap nat RollingWindow) (a : nat)
    : string * gmap nat RollingWindow :=
  match acc.2 !! a with
  | None => acc
  | Some w =>
      let '(outcome, w) := set_forming b w in
      (if bool_decide (outcome = "set") && bool_decide (acc.1 = "ignored") then "forming" else acc.1, <[a := w]> acc.2)
  end.

(** Also whether the listener is called; what it raises is caught. *)
Definition ingest_stream_bar (b : Bar) (timeframe : string) (d : DualBufferDataCoordinator)
    : string * option (string * string) * DualBufferDataCoordinator :=
  let key := (upper (bar_symbol b), timeframe) in
  let s := default (matrix_init (upper (bar_symbol b)) timeframe "stock") (assoc key (db_matrices d)) in
  let d := set_matrices d (assoc_set key (set_rings (MatrixRing.upsert_bar b (sm_active s)) (sm_shadow s) s)
             (db_matrices d)) in
  let '(outcome, heap) := fold_left (stream_window b) (target_windows key d) ("ignored", db_heap d) in
  (outcome, if bool_decide (outcome = "forming") && db_listener d then Some key else None, set_heap d heap).

Definition sync_active_from_window (symbol timeframe : string) (a : nat) (d : DualBufferDataCoordinator)
    : DualBufferDataCoordinator :=
  let key := (upper symbol, timeframe) in
  match db_heap d !! a, assoc key (db_matrices d) with
  | Some w, Some s =>
      match chronological_bars w with
      | [] => d
      | bars => set_matrices d (assoc_set key (set_rings (replace_bars bars (sm_active s)) (sm_shadow s) s)
                  (db_matrices d))
      end
  | _, _ => d
  end.

Definition db_apply_corporate_action_offset (symbol timeframe : string) (offset : float)
    (d : DualBufferDataCoordinator) : bool * DualBufferDataCoordinator :=
  if fleb offset fzero then (false, d)
  else
    let key := (upper symbol, timeframe) in
    match assoc key (db_matrices d) with
    | None => (false, d)
    | Some s =>
        let '(a, active) := apply_price_offset offset (sm_active s) in
        let '(b, shadow) := apply_price_offset offset (sm_shadow s) in
        (a || b, set_matrices d (assoc_set key (set_rings active shadow s) (db_matrices d)))
    end.

(** ** Verification *)

Definition sync_cold_start_gate_cleared (d : DualBufferDataCoordinator) : DualBufferDataCoordinator :=
  if negb (db_background_verified d) then d
  else match db_leg_index d with
       | [] => d
       | _ => if negb (operational_gate_cleared (db_gate d)) then d else set_cleared d true (db_background_verified d)
       end.

Definition apply_verdict_tape_status (sid : string) (v : MatrixAlignmentVerdict) (now : moment)
    (d : DualBufferDataCoordinator) : DualBufferDataCoordinator :=
  if bool_decide (mv_skip_reason v ∈ [Some "shadow_warming"; Some "active_warming"; Some "matrix_not_registered"])
  then
    if negb (db_cold_start_gate_cleared d)
    then set_tape d (db_divergent_latches d) (<[sid := TAPE_UNKNOWN]> (db_tape_status d)) else d
  else
    let d := set_tape d (db_divergent_latches d)
               (<[sid := if mv_aligned v then TAPE_VERIFIED else TAPE_DIVERGENT]> (db_tape_status d)) in
    match assoc sid (db_leg_index d) with
    | None => d
    | Some key =>
        sync_cold_start_gate_cleared (set_gate d
          (evaluate_verification cfg mono sid key.2 (mv_aligned v) (mv_skip_reason v) (stream_health_for_key key d)
             (db_background_verified d) (is_divergent_latch sid d) (m_utc now) (db_gate d)).2)
    end.

Definition skipped (count : nat) (reason : string) : MatrixAlignmentVerdict :=
  mkVerdict true (Z.of_nat count) [] false false (Some reason).

Definition verify_matrix_alignment (symbol timeframe : string) (leg : option string) (lookback : Z) (now : moment)
    (d : DualBufferDataCoordinator) : MatrixAlignmentVerdict * DualBufferDataCoordinator :=
  match assoc (upper symbol, timeframe) (db_matrices d) with
  | None => (skipped 0 "matrix_not_registered", d)
  | Some s =>
      if (Z.of_nat (mr_count (sm_shadow s)) <? lookback)%Z then (skipped (mr_count (sm_shadow s)) "shadow_warming", d)
      else if (Z.of_nat (mr_count (sm_active s)) <? lookback)%Z
      then (skipped (mr_count (sm_active s)) "active_warming", d)
      else
        let active := ring_tail lookback (sm_active s) in
        let shadow := ring_tail lookback (sm_shadow s) in
        let mismatches := compare_feature_matrices active shadow in
        let compared := Z.of_nat (min (length active) (length shadow)) in
        let diverged := match mismatches with [] => false | _ => true end in
        let latched := match leg with Some sid => is_divergent_latch sid d | None => diverged end in
        let v := mkVerdict (negb diverged) compared mismatches (diverged && negb latched)
                   (negb diverged && latched) None in
        match leg with
        | None => (v, d)
        | Some sid =>
            let d := if eqb diverged latched then d
                     else set_tape d (<[sid := diverged]> (db_divergent_latches d)) (db_tape_status d) in
            (v, apply_verdict_tape_status sid v now d)
        end
  end.

Definition tick_leg (readiness_ok background : bool) (now : moment) (d : DualBufferDataCoordinator)
    (e : string * (string * string)) : DualBufferDataCoordinator :=
  let '(sid, key) := e in
  let health := stream_health_for_key key d in
  let '(v, d) := verify_matrix_alignment key.1 key.2 None (Z.of_nat LOCKED_BLOCK_COUNT) now d in
  set_gate d (tick_time_bound cfg mono sid key.2 health (mv_aligned v && bool_decide (mv_skip_reason v = None))
    background readiness_ok (m_utc now) (db_gate d)).2.

Definition tick_cold_start_gates (readiness_ok : bool) (now : moment) (d : DualBufferDataCoordinator)
    : DualBufferDataCoordinator :=
  sync_cold_start_gate_cleared
    (fold_left (tick_leg readiness_ok (db_background_verified d) now) (db_leg_index d) d).

(** ** The shadow *)

Definition shadow_bars_as_list (key : string * string) (d : DualBufferDataCoordinator) : list Bar :=
  match assoc key (db_matrices d) with
  | None => []
  | Some s =>
      map (fun r => mkBar (from_ns (mx_ts r)) (mx_close r) (mx_high r) (mx_low r) (mx_close r) (mx_volume r)
                      (sm_symbol s)) (ring_tail (Z.of_nat (mr_count (sm_shadow s))) (sm_shadow s))
  end.

(** The bars of a refresh onto one window: what was appended and what was applied. *)
Fixpoint upsert_window (now : float) (bars : list Bar) (counts : Z * Z) (w : RollingWindow)
    : result string (Z * Z) * RollingWindow :=
  match bars with
  | [] => (Ok counts, w)
  | b :: bars =>
      match RollingWindow.upsert_bar now b w with
      | (Raise e, w) => (Raise e, w)
      | (Ok outcome, w) =>
          upsert_window now bars
            (if bool_decide (outcome = "appended") then (counts.1 + 1, counts.2 + 1)%Z
             else if bool_decide (outcome = "updated") then (counts.1, counts.2 + 1)%Z else counts) w
      end
  end.

Fixpoint reconcile_targets (now : float) (bars : list Bar) (targets : list nat) (counts : Z * Z)
    : py DualBufferDataCoordinator string (Z * Z) :=
  match targets with
  | [] => py_ret counts
  | a :: targets => fun d =>
      match db_heap d !! a with
      | None => reconcile_targets now bars targets counts d
      | Some w =>
          match upsert_window now bars counts w with
          | (Raise e, w) => (Raise e, set_heap d (<[a := w]> (db_heap d)))
          | (Ok counts, w) => reconcile_targets now bars targets counts (set_heap d (<[a := w]> (db_heap d)))
          end
      end
  end.

(** Returns the number of bars applied. *)
Definition reconcile_streaming_windows (symbol timeframe : string) (authority : option (list Bar)) (now : moment)
    : py DualBufferDataCoordinator string Z := fun d =>
  let key := (upper symbol, timeframe) in
  match (match authority with Some bars => bars | None => shadow_bars_as_list key d end) with
  | [] => (Ok 0%Z, d)
  | bars =>
      let targets := target_windows key d in
      let d := match assoc key (db_matrices d) with
               | Some s => set_matrices d (assoc_set key (set_rings (upsert_bars bars (sm_active s)) (sm_shadow s) s)
                             (db_matrices d))
               | None => d
               end in
      (let! counts := reconcile_targets (m_mono now) bars targets (0, 0)%Z in
       py_modify (fun d => if (0 <? counts.1)%Z
                           then set_watch d (<[key := m_mono now]> (db_last_promotion d)) (db_last_watchdog_check d)
                                  (db_stalled d ∖ {[key]})
                           else d) ;;!
       py_ret counts.2) d
  end.

Definition apply_tape_verification_for_state (key : string * string) (from_background : bool) (now : moment)
    (d : DualBufferDataCoordinator) : DualBufferDataCoordinator :=
  let d := if from_background then set_cleared d (db_cold_start_gate_cleared d) true else d in
  match assoc key (db_matrices d) with
  | None => d
  | Some s =>
      fold_left (fun d sid => (verify_matrix_alignment (sm_symbol s) (sm_timeframe s) (Some sid)
                                 (Z.of_nat LOCKED_BLOCK_COUNT) now d).2)
        (elements (sm_strategy_ids s)) d
  end.

(** [bars[-5:]]. *)
Definition last_bars (n : nat) (l : list Bar) : list Bar := drop (length l - n) l.

(** The REST call of the ingestor: symbol, timeframe, start, end and asset class. *)
Definition fetcher : Type := string -> string -> Z -> Z -> string -> result string (list Bar).

Definition refresh_shadow_for_state (fetch : fetcher) (key : string * string) (bar_close : option Z)
    (from_background : bool) (now : moment) : py DualBufferDataCoordinator string unit := fun d =>
  match assoc key (db_matrices d) with
  | None => (Ok tt, d)
  | Some s =>
      let minutes := timeframe_minutes (sm_timeframe s) in
      let until := default (most_recent_bar_close (m_utc now) minutes) bar_close in
      let start := (until - minutes * Z.of_nat (LOCKED_BLOCK_COUNT + 4) * MINUTE)%Z in
      match fetch (sm_symbol s) (sm_timeframe s) start until (sm_asset_class s) with
      | Raise e => (Raise e, d)
      | Ok [] => (Ok tt, d)
      | Ok bars =>
          let locked := last_bars LOCKED_BLOCK_COUNT bars in
          let d := set_matrices d (assoc_set key
                     (set_refreshed (m_mono now) until
                        (set_rings (sm_active s) (replace_bars locked (sm_shadow s)) s)) (db_matrices d)) in
          (let! _ := reconcile_streaming_windows (sm_symbol s) (sm_timeframe s) (Some locked) now in
           py_modify (apply_tape_verification_for_state key from_background now)) d
      end
  end.

(** [try: .. except Exception: log.warning(..)]. *)
Definition caught {S} (c : py S string unit) (s : S) : S := (c s).2.

Definition refresh_due_one (fetch : fetcher) (now : moment) (d : DualBufferDataCoordinator) (key : string * string)
    : DualBufferDataCoordinator :=
  match assoc key (db_matrices d) with
  | None => d
  | Some s =>
      let '(due, close) := shadow_refresh_due (m_utc now) (timeframe_minutes (sm_timeframe s))
                             (sm_last_shadow_refresh_bar_close s) in
      if due then caught (refresh_shadow_for_state fetch key (Some close) true now) d else d
  end.

Definition refresh_due_shadow_buffers (fetch : fetcher) (now : moment) (d : DualBufferDataCoordinator)
    : DualBufferDataCoordinator :=
  if negb (db_ingestor d) then d
  else fold_left (refresh_due_one fetch now) (map fst (db_matrices d)) d.

Definition refresh_all_shadow_buffers (fetch : fetcher) (now : moment) (d : DualBufferDataCoordinator)
    : DualBufferDataCoordinator :=
  if negb (db_ingestor d) then d
  else fold_left (fun d key => caught (refresh_shadow_for_state fetch key None false now) d)
         (map fst (db_matrices d)) d.

Definition refresh_shadow_now (fetch : fetcher) (symbol timeframe : string) (now : moment)
    : py DualBufferDataCoordinator string unit := fun d =>
  if negb (db_ingestor d) then (Ok tt, d)
  else refresh_shadow_for_state fetch (upper symbol, timeframe) None false now d.

(** ** The watchdog of the ingester *)

Definition watchdog_one (fetch : fetcher) (now : moment) (d : DualBufferDataCoordinator) (key : string * string)
    : DualBufferDataCoordinator :=
  match assoc key (db_matrices d) with
  | None => d
  | Some s =>
      if negb (bool_decide (sm_asset_class s = "crypto")) && negb (is_within_rth nyse (m_utc now))
      then set_watch d (db_last_promotion d) (db_last_watchdog_check d) (db_stalled d ∖ {[key]})
      else match db_last_promotion d !! key with
      | None => set_watch d (<[key := m_mono now]> (db_last_promotion d)) (db_last_watchdog_check d) (db_stalled d)
      | Some last =>
          let period := fmul (of_Z (timeframe_minutes (sm_timeframe s))) (of_Z 60) in
          let threshold := fmul INGESTER_STALL_MULTIPLE period in
          if fleb (fsub (m_mono now) last) threshold then d
          else
            let d := set_watch d (db_last_promotion d) (db_last_watchdog_check d) ({[key]} ∪ db_stalled d) in
            if db_ingestor d then caught (refresh_shadow_for_state fetch key None false now) d else d
      end
  end.

Definition check_ingestion_watchdog (fetch : fetcher) (now : moment) (d : DualBufferDataCoordinator)
    : DualBufferDataCoordinator :=
  fold_left (watchdog_one fetch now) (map fst (db_matrices d)) d.

(** One turn of [_shadow_refresh_loop]. *)
Definition refresh_turn (fetch : fetcher) (now : moment) (d : DualBufferDataCoordinator) : DualBufferDataCoordinator :=
  let d := refresh_due_shadow_buffers fetch now d in
  if fleb INGESTER_WATCHDOG_CHECK_SECONDS (fsub (m_mono now) (db_last_watchdog_check d))
  then check_ingestion_watchdog fetch now (set_watch d (db_last_promotion d) (m_mono now) (db_stalled d))
  else d.

(** ** Histories *)

Inductive db_event :=
  | EvInit
  | EvTick (readiness_ok : bool)
  | EvRegister (sid symbol timeframe asset_class : string) (window : option nat)
      (params : option (gmap string policy_setting)) (policy : option policy_setting)
  | EvUnregister (sid : string)
  | EvBar (b : Bar) (timeframe : string)
  | EvSync (symbol timeframe : string) (a : nat)
  | EvOffset (symbol timeframe : string) (offset : float)
  | EvVerify (symbol timeframe : string) (leg : option string) (lookback : Z)
  | EvReconcile (symbol timeframe : string) (authority : option (list Bar))
  | EvRefreshNow (fetch : fetcher) (symbol timeframe : string)
  | EvRefreshAll (fetch : fetcher)
  | EvTurn (fetch : fetcher)
  | EvWire (ingestor listener running : bool)          (* configure_ingestor, set_stream_bar_listener, start, stop *)
  | EvBlocks (sid : string)
  | EvScale (sid : string)
  | EvTelemetry
  | EvWindow (a : nat) (op : window_op).               (* a caller writes a window it shares *)

Definition db_step (d : DualBufferDataCoordinator) (e : moment * db_event) : DualBufferDataCoordinator :=
  let now := e.1 in
  match e.2 with
  | EvInit => initialize_cold_start_state d
  | EvTick ok => tick_cold_start_gates ok now d
  | EvRegister sid symbol tf class window params policy => register_leg sid symbol tf class window params policy d
  | EvUnregister sid => unregister_leg sid d
  | EvBar b tf => (ingest_stream_bar b tf d).2
  | EvSync symbol tf a => sync_active_from_window symbol tf a d
  | EvOffset symbol tf offset => (db_apply_corporate_action_offset symbol tf offset d).2
  | EvVerify symbol tf leg lookback => (verify_matrix_alignment symbol tf leg lookback now d).2
  | EvReconcile symbol tf authority => (reconcile_streaming_windows symbol tf authority now d).2
  | EvRefreshNow fetch symbol tf => (refresh_shadow_now fetch symbol tf now d).2
  | EvRefreshAll fetch => refresh_all_shadow_buffers fetch now d
  | EvTurn fetch => refresh_turn fetch now d
  | EvWire ingestor listener running => set_wiring d ingestor listener running
  | EvBlocks sid => (db_blocks_entry_signals sid d).2
  | EvScale sid => (db_cold_start_entry_scale sid d).2
  | EvTelemetry => (db_telemetry_snapshot now d).2
  | EvWindow a op => match db_heap d !! a with
                     | Some w => set_heap d (<[a := window_step w op]> (db_heap d))
                     | None => d
                     end
  end.
End Coordinator.

(** ** What the operations touch *)

Record matrix_wf (key : string * string) (s : SymbolMatrixState) : Prop := {
  mw_key : key = (sm_symbol s, sm_timeframe s);
  mw_symbol : upper (sm_symbol s) = sm_symbol s;
  mw_active : matrix_ok (sm_active s) /\ mr_capacity (sm_active s) = ACTIVE_RING_CAPACITY;
  mw_shadow : matrix_ok (sm_shadow s) /\ mr_capacity (sm_shadow s) = LOCKED_BLOCK_COUNT + 4
}.

Definition dual_ok (d : DualBufferDataCoordinator) : Prop :=
  (forall key s, assoc key (db_matrices d) = Some s -> matrix_wf key s) /\
  (forall a w, db_heap d !! a = Some w -> window_ok w).

Lemma matrix_init_wf symbol timeframe asset_class :
  matrix_wf (upper symbol, timeframe) (matrix_init (upper symbol) timeframe asset_class).
Proof.
  split; cbn; [done|by rewrite upper_idem|by split; [apply ring_init_ok|]|by split; [apply ring_init_ok|]].
Qed.

Lemma matrix_wf_rings key s active shadow :
  matrix_wf key s -> matrix_ok active -> mr_capacity active = ACTIVE_RING_CAPACITY ->
  matrix_ok shadow -> mr_capacity shadow = LOCKED_BLOCK_COUNT + 4 -> matrix_wf key (set_rings active shadow s).
Proof. intros [? ? ? ?] ? ? ? ?. by split. Qed.

Lemma matrix_wf_legs key s asset_class ids : matrix_wf key s -> matrix_wf key (set_legs asset_class ids s).
Proof. intros [? ? ? ?]. by split. Qed.

Lemma matrix_wf_refreshed key s mono close : matrix_wf key s -> matrix_wf key (set_refreshed mono close s).
Proof. intros [? ? ? ?]. by split. Qed.

#[export] Hint Resolve matrix_init_wf matrix_wf_legs matrix_wf_refreshed : dual.

Lemma dual_ok_matrix d key s : dual_ok d -> matrix_wf key s -> dual_ok (set_matrices d (assoc_set key s (db_matrices d))).
Proof.
  intros [Hm Hh] Hs. split; [|exact Hh]. intros k s'. cbn. destruct (decide (k = key)) as [->|Hne].
  - rewrite assoc_set_same. by intros [= <-].
  - rewrite assoc_set_other by done. apply Hm.
Qed.

Lemma dual_ok_heap d a w : dual_ok d -> window_ok w -> dual_ok (set_heap d (<[a := w]> (db_heap d))).
Proof.
  intros [Hm Hh] Hw. split; [exact Hm|]. intros a' w'. cbn. destruct (decide (a' = a)) as [->|Hne].
  - rewrite lookup_insert_eq. by intros [= <-].
  - rewrite lookup_insert_ne by done. apply Hh.
Qed.

Lemma ring_offset_ok offset r :
  matrix_ok r -> matrix_ok (apply_price_offset offset r).2 /\
  mr_capacity (apply_price_offset offset r).2 = mr_capacity r.
Proof.
  intros [Hc Hl]. unfold apply_price_offset. destruct (_ || _); [done|].
  split; [|done]. split; [done|]. cbn [snd mr_cells mr_capacity]. destruct (mr_count r <? mr_capacity r);
    rewrite ?length_app, ?length_map, ?length_take, ?length_drop; [|done].
  destruct Hc as (? & ? & _). lia.
Qed.

Lemma replace_bars_ok bars r :
  matrix_ok r -> matrix_ok (replace_bars bars r) /\ mr_capacity (replace_bars bars r) = mr_capacity r /\
  ring_rows (replace_bars bars r) = fold_left (upsert_row (mr_capacity r)) (map row_of bars) [].
Proof.
  intros Hr. destruct (ring_clear_ok r Hr) as [H1 H2].
  destruct (upsert_bars_ok bars (ring_clear r) H1) as (H3 & H4 & H5). rewrite H2 in H5. by split.
Qed.

Lemma upsert_returns now b w : window_ok w -> exists outcome, (RollingWindow.upsert_bar now b w).1 = Ok outcome.
Proof.
  intros Hok. pose proof (ok_count _ Hok) as Hn. unfold RollingWindow.upsert_bar.
  case_bool_decide; [by eexists|]. destruct (last (rw_bars w)) as [l|] eqn:El.
  - split_matches; by eexists.
  - apply last_None in El. rewrite El in Hn. done.
Qed.

Section Moves.
Context (cfg : ColdStartGateConfig) (mono : nat -> float) `{Zone}.
Context (index : gmap string (gmap string policy_setting)).
Context (sid : string).
Local Notation gate_runs := (runs (gate_step cfg mono)).

(** The windows' operations that [P] allows, gate calls that give nobody a new policy; the policies and the legs
    stay. *)
Record moves (P : window_op -> Prop) (d d' : DualBufferDataCoordinator) : Prop := {
  mv_policies : db_policies d' = db_policies d;
  mv_index : db_leg_index d' = db_leg_index d;
  mv_gate : exists calls, db_gate d' = gate_runs (db_gate d) calls /\ Forall (keeps_fail_safe sid) calls;
  mv_windows : forall a, exists ops, db_heap d' !! a = (fun w => runs window_step w ops) <$> db_heap d !! a /\ Forall P ops;
  mv_ok : dual_ok d -> dual_ok d'
}.

Ltac same_windows d := intros a; exists []; split; [cbn; by destruct (db_heap d !! a)|done].
Ltac inert d := split; [done|done|by exists []|same_windows d|try done].

Lemma moves_refl P d : moves P d d.
Proof. inert d. Qed.

Lemma moves_compose P d1 d2 d3 : moves P d1 d2 -> moves P d2 d3 -> moves P d1 d3.
Proof.
  intros [P1 I1 (c1 & G1 & F1) W1 O1] [P2 I2 (c2 & G2 & F2) W2 O2]. split; try congruence.
  - exists (c1 ++ c2). split; [by rewrite runs_app, <- G1|by apply Forall_app].
  - intros a. destruct (W1 a) as (o1 & E1 & Q1), (W2 a) as (o2 & E2 & Q2). exists (o1 ++ o2).
    split; [|by apply Forall_app]. rewrite E2, E1. destruct (db_heap d1 !! a); [|done]. cbn. by rewrite runs_app.
  - auto.
Qed.

#[local] Instance moves_preorder P : PreOrder (moves P).
Proof. split; [exact (moves_refl P)|exact (moves_compose P)]. Qed.

Lemma moves_weaken (P Q : window_op -> Prop) d d' : (forall op, P op -> Q op) -> moves P d d' -> moves Q d d'.
Proof.
  intros HPQ [? ? ? W ?]. split; try done. intros a. destruct (W a) as (ops & E & F). exists ops. split; [done|].
  by eapply Forall_impl.
Qed.

Lemma moves_fold {A} P (f : DualBufferDataCoordinator -> A -> DualBufferDataCoordinator) l d :
  (forall d x, moves P d (f d x)) -> moves P d (fold_left f l d).
Proof. intros Hf. revert d. induction l as [|x l IH]; intros d; [done|]. cbn. etrans; [apply Hf|apply IH]. Qed.

Lemma moves_gate P d c : keeps_fail_safe sid c -> moves P d (set_gate d (gate_step cfg mono (db_gate d) c)).
Proof.
  intros Hc. split; try done.
  - exists [c]. split; [done|by constructor].
  - same_windows d.
Qed.

Lemma moves_tape P d x y : moves P d (set_tape d x y).
Proof. inert d. Qed.
Lemma moves_cleared P d x y : moves P d (set_cleared d x y).
Proof. inert d. Qed.
Lemma moves_watch P d x y z : moves P d (set_watch d x y z).
Proof. inert d. Qed.
Lemma moves_wiring P d x y z : moves P d (set_wiring d x y z).
Proof. inert d. Qed.

Lemma moves_matrix P d key s :
  (dual_ok d -> matrix_wf key s) -> moves P d (set_matrices d (assoc_set key s (db_matrices d))).
Proof.
  intros Hs. inert d. intros Hok. apply dual_ok_matrix; auto.
Qed.

Lemma moves_heap_runs (P : window_op -> Prop) d a w ops :
  db_heap d !! a = Some w -> Forall P ops -> moves P d (set_heap d (<[a := runs window_step w ops]> (db_heap d))).
Proof.
  intros Ha Hops. split; [done|done|by exists []| |].
  - intros a'. cbn. destruct (decide (a' = a)) as [->|Hne].
    + exists ops. by rewrite lookup_insert_eq, Ha.
    + exists []. rewrite lookup_insert_ne by done. split; [by destruct (db_heap d !! a')|done].
  - intros Hok. apply dual_ok_heap; [done|]. apply runs_invariant; [by apply (proj2 Hok a)|].
    intros w' op Hw. by apply window_step_refines.
Qed.

Lemma moves_heap (P : window_op -> Prop) d a w op :
  db_heap d !! a = Some w -> P op -> moves P d (set_heap d (<[a := window_step w op]> (db_heap d))).
Proof. intros Ha Hop. apply (moves_heap_runs P d a w [op]); [done|by constructor]. Qed.
#[local] Hint Resolve moves_refl moves_tape moves_cleared moves_watch moves_wiring moves_matrix : dual.

Lemma moves_sync P d : moves P d (sync_cold_start_gate_cleared d).
Proof. unfold sync_cold_start_gate_cleared. split_matches; auto with dual. Qed.

Lemma moves_apply_verdict P sid' v now d : moves P d (apply_verdict_tape_status cfg mono sid' v now d).
Proof.
  unfold apply_verdict_tape_status. case_bool_decide; [destruct (negb _); auto with dual|].
  set (d1 := set_tape d _ _). trans d1; [apply moves_tape|]. clearbody d1.
  destruct (assoc sid' _) as [key|]; [|apply moves_refl].
  etrans; [|apply moves_sync]. apply (moves_gate P d1 (CallEvaluate sid' key.2 _ _ _ _ _ _)). exact I.
Qed.

Lemma moves_verify P symbol tf leg lookback now d :
  moves P d (verify_matrix_alignment cfg mono symbol tf leg lookback now d).2.
Proof.
  unfold verify_matrix_alignment. destruct (assoc _ (db_matrices d)) as [s|]; [|apply moves_refl].
  destruct (_ <? _)%Z; [apply moves_refl|]. destruct (_ <? _)%Z; [apply moves_refl|]. cbv zeta.
  destruct leg as [sid'|]; [|apply moves_refl]. cbn [snd].
  etrans; [|apply moves_apply_verdict]. destruct (eqb _ _); auto with dual.
Qed.

Lemma moves_tick P ok now d : moves P d (tick_cold_start_gates cfg mono ok now d).
Proof.
  unfold tick_cold_start_gates. etrans; [|apply moves_sync]. apply moves_fold. intros d' [sid' key]. unfold tick_leg.
  pose proof (moves_verify P key.1 key.2 None (Z.of_nat LOCKED_BLOCK_COUNT) now d') as Hv.
  destruct (verify_matrix_alignment _ _ _ _ _ _ _ d') as [v d1]. etrans; [exact Hv|].
  apply (moves_gate P d1 (CallTick sid' key.2 _ _ _ _ _)). exact I.
Qed.

Definition is_forming (op : window_op) : Prop := match op with OpForming _ => True | _ => False end.

(** An upsert of a bar of [S]; the bars a fetch may answer with. *)
Definition brings (S : Bar -> Prop) (op : window_op) : Prop := match op with OpUpsert _ b => S b | _ => False end.
Definition answers_in (S : Bar -> Prop) (fetch : fetcher) : Prop :=
  forall symbol tf start until class bars, fetch symbol tf start until class = Ok bars -> Forall S bars.

Lemma answers_any fetch : answers_in (fun _ => True) fetch.
Proof. intros symbol tf start until class bars _. by apply Forall_true. Qed.

Lemma moves_stream b tf d : moves is_forming d (ingest_stream_bar b tf d).2.
Proof.
  unfold ingest_stream_bar. cbv zeta.
  set (key := (upper (bar_symbol b), tf)).
  set (s := default (matrix_init (upper (bar_symbol b)) tf "stock") (assoc key (db_matrices d))).
  set (d1 := set_matrices d _). trans d1.
  { apply moves_matrix. intros Hok. assert (matrix_wf key s) as Hs.
    { subst s. destruct (assoc key (db_matrices d)) eqn:E; [by apply Hok|apply matrix_init_wf]. }
    destruct (mw_active _ _ Hs) as [Ha Hc], (mw_shadow _ _ Hs) as [? ?]. destruct (upsert_ok b _ Ha) as (Hu & Hcap & _).
    apply matrix_wf_rings; [done|done|congruence|done|done]. }
  clearbody d1.
  assert (Hgen : forall l outcome d, moves is_forming d
    (set_heap d (fold_left (stream_window b) l (outcome, db_heap d)).2)).
  { clear. induction l as [|a l IH]; intros outcome d; [by destruct d|]. cbn [fold_left]. unfold stream_window at 2. cbn [fst snd].
    destruct (db_heap d !! a) as [w|] eqn:Ea; [|apply IH].
    destruct (set_forming b w) as [o w'] eqn:Ef.
    trans (set_heap d (<[a := w']> (db_heap d))).
    - replace w' with (window_step w (OpForming b)) by (cbn; by rewrite Ef). by apply moves_heap.
    - exact (IH (if bool_decide (o = "set") && bool_decide (outcome = "ignored") then "forming" else outcome)
        (set_heap d (<[a := w']> (db_heap d)))). }
  specialize (Hgen (target_windows key d1) "ignored" d1). destruct (fold_left _ _ _) as [outcome heap]. exact Hgen.
Qed.

Lemma moves_upsert_window (S : Bar -> Prop) now bars counts w :
  Forall S bars ->
  exists ops, (upsert_window now bars counts w).2 = runs window_step w ops /\ Forall (brings S) ops.
Proof.
  intros Hb. revert counts w. induction Hb as [|b bars Hb _ IH]; intros counts w; [by exists []|]. cbn [upsert_window].
  destruct (RollingWindow.upsert_bar now b w) as [[o|e] w'] eqn:E.
  - destruct (IH (if bool_decide (o = "appended") then (counts.1 + 1, counts.2 + 1)%Z
      else if bool_decide (o = "updated") then (counts.1, counts.2 + 1)%Z else counts) w') as (ops & -> & Hops).
    exists (OpUpsert now b :: ops). split; [|by constructor]. rewrite runs_cons. cbn. by rewrite E.
  - exists [OpUpsert now b]. split; [|by repeat constructor]. cbn. by rewrite E.
Qed.

Lemma moves_targets (S : Bar -> Prop) now bars targets counts d :
  Forall S bars -> moves (brings S) d (reconcile_targets now bars targets counts d).2.
Proof.
  intros Hb. revert counts d. induction targets as [|a targets IH]; intros counts d; [apply moves_refl|]. cbn [reconcile_targets].
  destruct (db_heap d !! a) as [w|] eqn:Ea; [|apply IH].
  destruct (moves_upsert_window S now bars counts w Hb) as (ops & E & Hops).
  destruct (upsert_window now bars counts w) as [[c|e] w']; cbn [snd] in E; subst w'.
  - etrans; [|apply IH]. by apply moves_heap_runs.
  - by apply moves_heap_runs.
Qed.

Lemma moves_reconcile (S : Bar -> Prop) symbol tf authority now d :
  Forall S (match authority with Some bars => bars | None => shadow_bars_as_list (upper symbol, tf) d end) ->
  moves (brings S) d (reconcile_streaming_windows symbol tf authority now d).2.
Proof.
  intros Hb. unfold reconcile_streaming_windows. cbv zeta. set (key := (upper symbol, tf)) in *.
  destruct (match authority with Some bars => bars | None => _ end) as [|b bars]; [apply moves_refl|].
  set (targets := target_windows key d). set (d1 := match assoc key _ with Some s => _ | None => d end).
  trans d1.
  { subst d1. destruct (assoc key (db_matrices d)) as [s|] eqn:Es; [|apply moves_refl]. apply moves_matrix.
    intros Hok. pose proof (proj1 Hok _ _ Es) as Hs. destruct (mw_active _ _ Hs) as [Ha Hc], (mw_shadow _ _ Hs).
    destruct (upsert_bars_ok (b :: bars) _ Ha) as (? & Hcap & _). apply matrix_wf_rings; [done|done|congruence|done|done]. }
  clearbody d1. pose proof (moves_targets S (m_mono now) (b :: bars) targets (0, 0)%Z d1 Hb) as Hm.
  unfold py_bind. destruct (reconcile_targets _ _ _ _ d1) as [[c|e] d2]; [|exact Hm]. cbn [snd] in Hm |- *.
  trans d2; [exact Hm|]. cbn. destruct (0 <? c.1)%Z; auto with dual.
Qed.

Lemma moves_tape_verification P key background now d :
  moves P d (apply_tape_verification_for_state cfg mono key background now d).
Proof.
  unfold apply_tape_verification_for_state. cbv zeta. set (d1 := if background then _ else d).
  trans d1; [by subst d1; destruct background; auto with dual|]. clearbody d1.
  destruct (assoc key _) as [s|]; [|apply moves_refl]. apply moves_fold. intros. apply moves_verify.
Qed.

Lemma last_bars_Forall (S : Bar -> Prop) n l : Forall S l -> Forall S (last_bars n l).
Proof. apply Forall_drop. Qed.

Lemma moves_refresh (S : Bar -> Prop) fetch key close background now d :
  answers_in S fetch -> moves (brings S) d (refresh_shadow_for_state cfg mono fetch key close background now d).2.
Proof.
  intros Hf. unfold refresh_shadow_for_state. destruct (assoc key (db_matrices d)) as [s|] eqn:Es; [|apply moves_refl].
  cbv zeta. destruct (fetch _ _ _ _ _) as [[|b bars]|e] eqn:Ef; [apply moves_refl| |apply moves_refl].
  apply Hf, (last_bars_Forall S LOCKED_BLOCK_COUNT) in Ef.
  set (d1 := set_matrices d _). trans d1.
  { apply moves_matrix. intros Hok. pose proof (proj1 Hok _ _ Es) as Hs. apply matrix_wf_refreshed.
    destruct (mw_active _ _ Hs), (mw_shadow _ _ Hs) as [Ha Hc].
    destruct (replace_bars_ok (last_bars LOCKED_BLOCK_COUNT (b :: bars)) _ Ha) as (? & ? & _).
    apply matrix_wf_rings; [done|done|done|done|congruence]. }
  clearbody d1. unfold py_bind.
  pose proof (moves_reconcile S (sm_symbol s) (sm_timeframe s) (Some _) now d1 Ef) as Hm.
  destruct (reconcile_streaming_windows _ _ _ _ d1) as [[c|e] d2]; [|exact Hm]. cbn [snd] in Hm. etrans; [exact Hm|].
  apply moves_tape_verification.
Qed.

Lemma moves_turn (S : Bar -> Prop) fetch now d : answers_in S fetch -> moves (brings S) d (refresh_turn cfg mono fetch now d).
Proof.
  intros Hf. unfold refresh_turn. cbv zeta. set (d1 := refresh_due_shadow_buffers _ _ _ _ d). trans d1.
  { subst d1. unfold refresh_due_shadow_buffers. destruct (negb _); [apply moves_refl|]. apply moves_fold.
    intros d' key. unfold refresh_due_one. destruct (assoc key _); [|apply moves_refl].
    destruct (shadow_refresh_due _ _ _) as [[] ?]; [by apply moves_refresh|apply moves_refl]. }
  clearbody d1. destruct (fleb _ _); [|apply moves_refl]. etrans; [apply moves_watch|]. apply moves_fold.
  intros d' key. unfold watchdog_one. cbv zeta. destruct (assoc key _); [|apply moves_refl].
  destruct (_ && _); [apply moves_watch|]. destruct (_ !! key); [|apply moves_watch].
  destruct (fleb _ _); [apply moves_refl|]. etrans; [apply moves_watch|].
  destruct (db_ingestor _); [by apply moves_refresh|apply moves_refl].
Qed.

(** Over these the leg is only ever given the fail-safe policy. *)
Definition registers_fail_safe (e : moment * db_event) : Prop :=
  match e.2 with
  | EvRegister s symbol _ _ _ params policy => s = sid -> registered_policy index symbol params policy = FAIL_SAFE_CLOSE
  | _ => True
  end.

Definition leg_safe (d : DualBufferDataCoordinator) : Prop :=
  default FAIL_SAFE_CLOSE (db_policies d !! sid) = FAIL_SAFE_CLOSE /\
  exists calls, db_gate d = gate_runs gate_init calls /\ Forall (keeps_fail_safe sid) calls.

Lemma moves_safe P d d' : moves P d d' -> leg_safe d -> leg_safe d'.
Proof.
  intros [Hp _ (c & Hg & Hc) _ _] [Hs (calls & Hcalls & Hall)]. split; [by rewrite Hp|].
  exists (calls ++ c). split; [by rewrite runs_app, <- Hcalls|by apply Forall_app].
Qed.

Lemma gate_call_safe d c :
  leg_safe d -> keeps_fail_safe sid c -> leg_safe (set_gate d (gate_step cfg mono (db_gate d) c)).
Proof. intros Hs Hc. by apply (moves_safe (fun _ => True) d); [apply moves_gate|]. Qed.

Lemma init_safe d : leg_safe d -> leg_safe (initialize_cold_start_state mono d).
Proof.
  intros Hs. unfold initialize_cold_start_state. cbv zeta. set (ids := map fst (db_leg_index d)).
  set (d1 := set_cleared _ false false).
  assert (leg_safe d1) as H1 by exact Hs.
  apply (gate_call_safe d1 (CallBegin ids _ _) H1). intros Hin. cbn.
  set (l := map _ ids). destruct (list_to_map l !! sid) as [p|] eqn:El; [|done]. cbn.
  apply elem_of_list_to_map_2 in El. unfold l in El. apply list_elem_of_fmap in El as (x & [= <- ->] & _).
  exact (proj1 Hs).
Qed.

Lemma register_safe s symbol tf class window params policy now d :
  leg_safe d -> registers_fail_safe (now, EvRegister s symbol tf class window params policy) ->
  leg_safe (register_leg index s symbol tf class window params policy d).
Proof.
  intros Hs Hr. unfold registers_fail_safe in Hr. cbn [snd] in Hr. unfold register_leg. cbv zeta.
  set (d1 := set_policies _ _).
  assert (leg_safe d1) as H1.
  { split; [|exact (proj2 Hs)]. cbn. destruct (decide (s = sid)) as [->|Hne].
    - rewrite lookup_insert_eq. by apply Hr.
    - rewrite lookup_insert_ne by done. exact (proj1 Hs). }
  assert (leg_safe (set_gate d1 (set_policy s (SetPolicyValue (registered_policy index symbol params policy)) (db_gate d)))) as H2.
  { apply (gate_call_safe d1 (CallPolicy s _) H1). exact Hr. }
  exact (gate_call_safe _ (CallSymbol s symbol) H2 I).
Qed.

Lemma unregister_safe s d : leg_safe d -> leg_safe (unregister_leg s d).
Proof.
  intros Hs. unfold unregister_leg. cbv zeta. set (d1 := set_policies _ _).
  assert (leg_safe d1) as H1.
  { split; [|exact (proj2 Hs)]. cbn. destruct (decide (s = sid)) as [->|Hne].
    - by rewrite lookup_delete_eq.
    - rewrite lookup_delete_ne by done. exact (proj1 Hs). }
  clearbody d1. destruct (assoc s _); [|exact H1]. destruct (assoc _ _); [|exact H1]. by case_bool_decide.
Qed.

Lemma blocks_gate s d :
  (db_blocks_entry_signals s d).2 = d \/ (db_blocks_entry_signals s d).2 = set_gate d (gate_step cfg mono (db_gate d) (CallBlocks s)).
Proof.
  unfold db_blocks_entry_signals. destruct (is_divergent_latch s d); [by left|]. right. cbn [gate_step].
  destruct (blocks_entry_signals s (db_gate d)) as [[] g]; cbv zeta; [done|]. by case_bool_decide.
Qed.

Lemma scale_gate s d :
  (db_cold_start_entry_scale cfg s d).2 = d \/
  (db_cold_start_entry_scale cfg s d).2 = set_gate d (gate_step cfg mono (db_gate d) (CallScale s)).
Proof.
  unfold db_cold_start_entry_scale. destruct (is_divergent_latch s d); [by left|]. right. cbn [gate_step].
  by destruct (cold_start_entry_scale cfg s (db_gate d)).
Qed.

Lemma step_safe d e : leg_safe d -> registers_fail_safe e -> leg_safe (db_step cfg mono index d e).
Proof.
  intros Hs Hr. destruct e as [now []]; cbn [db_step fst snd].
  - by apply init_safe.
  - exact (moves_safe _ _ _ (moves_tick (fun _ => True) _ _ _) Hs).
  - by eapply register_safe.
  - by apply unregister_safe.
  - exact (moves_safe _ _ _ (moves_stream _ _ _) Hs).
  - unfold sync_active_from_window. cbv zeta. by repeat case_match.
  - unfold db_apply_corporate_action_offset. cbv zeta. destruct (fleb _ _); [done|]. destruct (assoc _ _); [|done].
    by destruct (apply_price_offset _ _), (apply_price_offset _ _).
  - exact (moves_safe _ _ _ (moves_verify (fun _ => True) _ _ _ _ _ _) Hs).
  - refine (moves_safe _ _ _ (moves_reconcile (fun _ => True) _ _ _ _ _ _) Hs). by apply Forall_true.
  - unfold refresh_shadow_now. destruct (negb _); [done|]. exact (moves_safe _ _ _ (moves_refresh _ _ _ _ _ _ _ (answers_any fetch)) Hs).
  - refine (moves_safe (brings (fun _ => True)) _ _ _ Hs). unfold refresh_all_shadow_buffers. destruct (negb _); [apply moves_refl|].
    apply moves_fold. intros. apply moves_refresh, answers_any.
  - exact (moves_safe _ _ _ (moves_turn _ _ _ _ (answers_any fetch)) Hs).
  - done.
  - destruct (blocks_gate sid0 d) as [->| ->]; [done|by apply gate_call_safe].
  - destruct (scale_gate sid0 d) as [->| ->]; [done|by apply gate_call_safe].
  - unfold db_telemetry_snapshot. destruct (telemetry_snapshot cfg mono (db_gate d)) as [t g] eqn:Et. cbn [snd].
    replace g with (gate_step cfg mono (db_gate d) CallTelemetry) by (cbn; by rewrite Et). by apply gate_call_safe.
  - by case_match.
Qed.

Lemma runs_safe evs ingestor heap :
  Forall registers_fail_safe evs -> leg_safe (runs (db_step cfg mono index) (dual_init ingestor heap) evs).
Proof.
  induction evs as [|e evs IH] using rev_ind; [intros _; split; [done|by exists []]|].
  rewrite runs_snoc. intros [Hl Hr]%Forall_app. inversion_clear Hr. apply step_safe; auto.
Qed.
End Moves.

(** ** What a verification decides *)

Section Verify.
Context (cfg : ColdStartGateConfig) (mono : nat -> float) `{Zone}.

Lemma sync_tape d :
  let d' := sync_cold_start_gate_cleared d in
  db_matrices d' = db_matrices d /\ db_divergent_latches d' = db_divergent_latches d /\
  db_tape_status d' = db_tape_status d.
Proof. cbv zeta. unfold sync_cold_start_gate_cleared. by split_matches. Qed.

(** A leg whose two tapes agree over the last bars: its latch opens and its tape is verified, and nothing else of
    the latches and the tapes changes. *)
Lemma verify_agreeing symbol tf sid now d s :
  assoc (upper symbol, tf) (db_matrices d) = Some s ->
  LOCKED_BLOCK_COUNT <= mr_count (sm_shadow s) -> LOCKED_BLOCK_COUNT <= mr_count (sm_active s) ->
  compare_feature_matrices (ring_tail (Z.of_nat LOCKED_BLOCK_COUNT) (sm_active s))
    (ring_tail (Z.of_nat LOCKED_BLOCK_COUNT) (sm_shadow s)) = [] ->
  let d' := (verify_matrix_alignment cfg mono symbol tf (Some sid) (Z.of_nat LOCKED_BLOCK_COUNT) now d).2 in
  db_matrices d' = db_matrices d /\ is_divergent_latch sid d' = false /\ tape_status sid d' = TAPE_VERIFIED /\
  (forall x, x <> sid -> is_divergent_latch x d' = is_divergent_latch x d /\ tape_status x d' = tape_status x d).
Proof.
  intros Hs Hshadow Hactive Hcmp. cbv zeta. unfold verify_matrix_alignment. rewrite Hs.
  rewrite (proj2 (Z.ltb_ge (Z.of_nat (mr_count (sm_shadow s))) _)) by lia.
  rewrite (proj2 (Z.ltb_ge (Z.of_nat (mr_count (sm_active s))) _)) by lia. cbv zeta. rewrite Hcmp. cbn [snd].
  set (d1 := if eqb false _ then d else _).
  assert (H1 : db_matrices d1 = db_matrices d /\ is_divergent_latch sid d1 = false /\
    db_tape_status d1 = db_tape_status d /\ (forall x, x <> sid -> is_divergent_latch x d1 = is_divergent_latch x d)).
  { subst d1. destruct (is_divergent_latch sid d) eqn:E; cbn; [|done].
    split; [done|]. unfold is_divergent_latch. cbn. rewrite lookup_insert_eq. split; [done|]. split; [done|].
    intros x Hx. by rewrite lookup_insert_ne. }
  clearbody d1. destruct H1 as (Hm & Hl & Ht & Ho). unfold apply_verdict_tape_status. cbn [mv_skip_reason mv_aligned].
  rewrite bool_decide_false by (rewrite !elem_of_cons, elem_of_nil; naive_solver).
  set (d2 := set_tape d1 _ _).
  assert (H2 : db_matrices d2 = db_matrices d /\ is_divergent_latch sid d2 = false /\ tape_status sid d2 = TAPE_VERIFIED /\
    (forall x, x <> sid -> is_divergent_latch x d2 = is_divergent_latch x d /\ tape_status x d2 = tape_status x d)).
  { subst d2. unfold tape_status, is_divergent_latch in *. cbn. rewrite lookup_insert_eq, Ht.
    split; [done|]. split; [done|]. split; [done|]. intros x Hx. rewrite lookup_insert_ne by done. by rewrite Ho. }
  clearbody d2. destruct (assoc sid (db_leg_index d2)) as [key|]; [|exact H2].
  set (d3 := set_gate d2 _). destruct (sync_tape d3) as (E1 & E2 & E3).
  unfold is_divergent_latch, tape_status in *. rewrite E1, E2, E3. exact H2.
Qed.

(** Of the legs verified one after another, all end verified. *)
Lemma verify_all_agreeing symbol tf now s sids d :
  assoc (upper symbol, tf) (db_matrices d) = Some s ->
  LOCKED_BLOCK_COUNT <= mr_count (sm_shadow s) -> LOCKED_BLOCK_COUNT <= mr_count (sm_active s) ->
  compare_feature_matrices (ring_tail (Z.of_nat LOCKED_BLOCK_COUNT) (sm_active s))
    (ring_tail (Z.of_nat LOCKED_BLOCK_COUNT) (sm_shadow s)) = [] ->
  let d' := fold_left (fun d sid => (verify_matrix_alignment cfg mono symbol tf (Some sid)
                                       (Z.of_nat LOCKED_BLOCK_COUNT) now d).2) sids d in
  forall sid, sid ∈ sids \/ (is_divergent_latch sid d = false /\ tape_status sid d = TAPE_VERIFIED) ->
  is_divergent_latch sid d' = false /\ tape_status sid d' = TAPE_VERIFIED.
Proof.
  intros Hs H1 H2 Hcmp. revert d Hs. induction sids as [|x sids IH]; intros d Hs; cbv zeta; intros sid Hsid.
  - destruct Hsid as [?%not_elem_of_nil|?]; done.
  - cbn [fold_left]. destruct (verify_agreeing symbol tf x now d s Hs H1 H2 Hcmp) as (Hm & Hl & Ht & Ho).
    apply IH; [by rewrite Hm|]. destruct (decide (sid = x)) as [->|Hne]; [by right|].
    destruct (Ho sid Hne) as [-> ->]. destruct Hsid as [[?|?]%elem_of_cons|?]; [done|by left|by right].
Qed.

(** A refresh's bars reach every window of well-formed ones; the rings are not touched again. *)
Lemma targets_return now bars targets counts d :
  dual_ok d -> exists counts' heap, reconcile_targets now bars targets counts d = (Ok counts', set_heap d heap) /\
  dual_ok (set_heap d heap).
Proof.
  revert counts d. induction targets as [|a targets IH]; intros counts d Hok.
  { exists counts, (db_heap d). by destruct d. }
  cbn [reconcile_targets]. destruct (db_heap d !! a) as [w|] eqn:Ea; [|by apply IH].
  destruct (moves_upsert_window (fun _ => True) now bars counts w) as (ops & E & _); [by apply Forall_true|].
  assert (Hret : forall c w, window_ok w -> exists c', (upsert_window now bars c w).1 = Ok c').
  { clear. induction bars as [|b bars IHb]; intros c w Hw; [by eexists|]. cbn [upsert_window].
    destruct (upsert_returns now b w Hw) as [o Ho]. pose proof (upsert_refines now b w Hw) as (Hw' & _).
    destruct (RollingWindow.upsert_bar now b w) as [r w']. cbn [fst] in Ho. subst r. by apply IHb. }
  destruct (Hret counts w (proj2 Hok _ _ Ea)) as [c' Hc].
  destruct (upsert_window now bars counts w) as [r w']. cbn [fst snd] in Hc, E. subst r w'.
  assert (dual_ok (set_heap d (<[a := runs window_step w ops]> (db_heap d)))) as Hok'.
  { apply dual_ok_heap; [done|]. apply runs_invariant; [by apply (proj2 Hok a)|]. intros w' op Hw'.
    by apply window_step_refines. }
  destruct (IH c' _ Hok') as (c2 & heap & E2 & H2). exists c2, heap. by rewrite E2.
Qed.

Lemma reconcile_returns symbol tf bars now d s :
  dual_ok d -> assoc (upper symbol, tf) (db_matrices d) = Some s -> bars <> [] ->
  exists n d', reconcile_streaming_windows symbol tf (Some bars) now d = (Ok n, d') /\
    db_matrices d' = assoc_set (upper symbol, tf) (set_rings (upsert_bars bars (sm_active s)) (sm_shadow s) s) (db_matrices d).
Proof.
  intros Hok Hs Hne. unfold reconcile_streaming_windows. cbv zeta. destruct bars as [|b bars]; [done|]. rewrite Hs.
  set (d1 := set_matrices d _).
  assert (dual_ok d1) as H1.
  { apply dual_ok_matrix; [done|]. pose proof (proj1 Hok _ _ Hs) as Hw.
    destruct (mw_active _ _ Hw) as [Ha Hc], (mw_shadow _ _ Hw). destruct (upsert_bars_ok (b :: bars) _ Ha) as (? & ? & _).
    apply matrix_wf_rings; [done|done|congruence|done|done]. }
  destruct (targets_return (m_mono now) (b :: bars) (target_windows (upper symbol, tf) d) (0, 0)%Z d1 H1) as (c & heap & E & _).
  unfold py_bind. rewrite E. cbn. eexists _, _. split; [done|]. by destruct (0 <? c.1)%Z.
Qed.

(** The tails of the two rings right after a refresh: the bars just fetched, in both. *)
Lemma refreshed_tails s bars :
  matrix_wf (sm_symbol s, sm_timeframe s) s -> length bars = LOCKED_BLOCK_COUNT ->
  StronglySorted rows_lt (map row_of bars) ->
  LOCKED_BLOCK_COUNT <= mr_count (upsert_bars bars (sm_active s)) /\
  LOCKED_BLOCK_COUNT <= mr_count (replace_bars bars (sm_shadow s)) /\
  ring_tail (Z.of_nat LOCKED_BLOCK_COUNT) (upsert_bars bars (sm_active s)) = map row_of bars /\
  ring_tail (Z.of_nat LOCKED_BLOCK_COUNT) (replace_bars bars (sm_shadow s)) = map row_of bars.
Proof.
  intros Hw Hlen Hsort.
  assert (Htail : forall r, matrix_ok r -> (exists l0, ring_rows r = l0 ++ map row_of bars) ->
    LOCKED_BLOCK_COUNT <= mr_count r /\ ring_tail (Z.of_nat LOCKED_BLOCK_COUNT) r = map row_of bars).
  { intros r Hr [l0 E]. pose proof (rows_length r Hr) as HL. rewrite E, length_app, length_map, Hlen in HL.
    split; [lia|]. rewrite ring_tail_spec by done. rewrite E, Nat2Z.id.
    replace (mr_count r - min LOCKED_BLOCK_COUNT (mr_count r)) with (length l0) by lia. rewrite drop_app_length.
    destruct (_ <? _); [done|by apply sort_rows_sorted]. }
  destruct (mw_active _ _ Hw) as [Ha Hca], (mw_shadow _ _ Hw) as [Hs Hcs].
  destruct (upsert_bars_ok bars _ Ha) as (Ha' & _ & Era), (replace_bars_ok bars _ Hs) as (Hs' & _ & Ers).
  assert (Hb : forall cap, LOCKED_BLOCK_COUNT <= cap -> 0 < length (map row_of bars) <= cap).
  { intros cap Hcap. rewrite length_map, Hlen. unfold LOCKED_BLOCK_COUNT in *. lia. }
  destruct (Htail _ Ha') as [H1 H2].
  { rewrite Era, Hca. apply upserts_suffix; [apply Hb; unfold ACTIVE_RING_CAPACITY, LOCKED_BLOCK_COUNT; lia|done]. }
  destruct (Htail _ Hs') as [H3 H4]; [|done].
  rewrite Ers, Hcs. apply upserts_suffix; [apply Hb; lia|done].
Qed.

Lemma rows_lt_NoDup l : StronglySorted rows_lt l -> NoDup (map mx_ts l).
Proof.
  induction 1 as [|x l _ IH Hx]; [constructor|]. cbn. constructor; [|done].
  intros (y & E & Hy)%list_elem_of_fmap. rewrite Forall_forall in Hx. apply Hx in Hy. unfold rows_lt in Hy. lia.
Qed.
End Verify.

(** Every operation keeps the rings and the windows well formed. *)
Section StepOk.
Context (cfg : ColdStartGateConfig) (mono : nat -> float) `{Zone}.
Context (index : gmap string (gmap string policy_setting)).

Lemma dual_ok_same d d' : db_matrices d' = db_matrices d -> db_heap d' = db_heap d -> dual_ok d -> dual_ok d'.
Proof. unfold dual_ok. by intros -> ->. Qed.

Lemma dual_ok_removed d key : dual_ok d -> dual_ok (set_matrices d (assoc_del key (db_matrices d))).
Proof.
  intros [Hm Hh]. split; [|exact Hh]. intros k s. cbn. destruct (decide (k = key)) as [->|Hne].
  - by rewrite assoc_del_same.
  - rewrite assoc_del_other by done. apply Hm.
Qed.

Lemma register_leg_ok s symbol tf class window params policy d :
  dual_ok d -> dual_ok (register_leg index s symbol tf class window params policy d).
Proof.
  intros Hok. unfold register_leg. cbv zeta. set (m := default (matrix_init (upper symbol) tf class) _).
  assert (matrix_wf (upper symbol, tf) m) as Hm.
  { subst m. destruct (assoc _ _) eqn:E; [by apply (proj1 Hok)|apply matrix_init_wf]. }
  eapply dual_ok_same, (dual_ok_matrix d (upper symbol, tf)); [done|done|exact Hok|by apply matrix_wf_legs].
Qed.

Lemma step_ok d e : dual_ok d -> dual_ok (db_step cfg mono index d e).
Proof.
  intros Hok. destruct e as [now []]; cbn [db_step fst snd].
  - by apply (dual_ok_same d).
  - by apply (mv_ok cfg mono "" _ _ _ (moves_tick cfg mono "" (fun _ => True) _ _ _)).
  - by apply register_leg_ok.
  - unfold unregister_leg. cbv zeta. set (d1 := set_policies _ _). assert (dual_ok d1) as H1 by by apply (dual_ok_same d).
    clearbody d1. destruct (assoc sid _); [|done]. destruct (assoc _ _) as [s|] eqn:E; [|done].
    case_bool_decide; [by apply dual_ok_removed|]. apply dual_ok_matrix; [done|]. by apply matrix_wf_legs, (proj1 H1).
  - by apply (mv_ok cfg mono "" _ _ _ (moves_stream cfg mono "" _ _ _)).
  - unfold sync_active_from_window. cbv zeta. destruct (_ !! a); [|done]. destruct (assoc _ _) as [s|] eqn:E; [|done].
    destruct (chronological_bars _); [done|]. apply dual_ok_matrix; [done|]. pose proof (proj1 Hok _ _ E) as Hw.
    destruct (mw_active _ _ Hw) as [Ha Hc], (mw_shadow _ _ Hw). destruct (replace_bars_ok (b :: l) _ Ha) as (? & ? & _).
    apply matrix_wf_rings; [done|done|congruence|done|done].
  - unfold db_apply_corporate_action_offset. cbv zeta. destruct (fleb _ _); [done|]. destruct (assoc _ _) as [s|] eqn:E; [|done].
    pose proof (proj1 Hok _ _ E) as Hw. destruct (mw_active _ _ Hw) as [Ha Hc], (mw_shadow _ _ Hw) as [Hs Hc'].
    pose proof (ring_offset_ok offset _ Ha) as [Ha2 Hca]. pose proof (ring_offset_ok offset _ Hs) as [Hs2 Hcs].
    destruct (apply_price_offset offset (sm_active s)), (apply_price_offset offset (sm_shadow s)).
    apply dual_ok_matrix; [done|]. cbn [snd] in *. apply matrix_wf_rings; [done|done|congruence|done|congruence].
  - by apply (mv_ok cfg mono "" _ _ _ (moves_verify cfg mono "" (fun _ => True) _ _ _ _ _ _)).
  - refine (mv_ok cfg mono "" _ _ _ (moves_reconcile cfg mono "" (fun _ => True) _ _ _ _ _ _) Hok). by apply Forall_true.
  - unfold refresh_shadow_now. destruct (negb _); [done|].
    by apply (mv_ok cfg mono "" _ _ _ (moves_refresh cfg mono "" _ _ _ _ _ _ _ (answers_any fetch))).
  - unfold refresh_all_shadow_buffers. destruct (negb _); [done|]. generalize (map fst (db_matrices d)). intros l.
    revert d Hok. induction l as [|k l IH]; intros d Hok; [done|]. cbn [fold_left].
    apply IH. by apply (mv_ok cfg mono "" _ _ _ (moves_refresh cfg mono "" _ _ _ _ _ _ _ (answers_any fetch))).
  - by apply (mv_ok cfg mono "" _ _ _ (moves_turn cfg mono "" _ _ _ _ (answers_any fetch))).
  - by apply (dual_ok_same d).
  - by destruct (blocks_gate cfg mono sid d) as [->| ->].
  - by destruct (scale_gate cfg mono sid d) as [->| ->].
  - unfold db_telemetry_snapshot. by destruct (telemetry_snapshot cfg mono (db_gate d)).
  - destruct (db_heap d !! a) as [w|] eqn:E; [|done]. apply dual_ok_heap; [done|]. apply window_step_refines. by apply (proj2 Hok a).
Qed.

Lemma runs_ok ingestor heap evs :
  (forall a w, heap !! a = Some w -> window_ok w) -> dual_ok (runs (db_step cfg mono index) (dual_init ingestor heap) evs).
Proof. intros Hh. apply runs_invariant; [by split|]. intros d e. apply step_ok. Qed.
End StepOk.

(** ** Where closed bars come from *)

(** What a caller does to a window it shares keeps to [S]: it closes a bar of [S], writes the forming slot, shifts the
    bars by an offset under which [S] is closed, or clears. *)
Definition writes_only (S : Bar -> Prop) (op : window_op) : Prop :=
  match op with
  | OpAppend _ b | OpUpsert _ b => S b
  | OpOffset offset => forall b, S b -> S (shift_bar offset b)
  | OpForming _ | OpClear => True
  end.

(** The bars that can reach a window in the event, made on [d], are in [S]: REST's answers, the bars a reconciliation
    is handed or else reads back from the shadow, and the caller's own. A streamed bar is any. *)
Definition brings_only (S : Bar -> Prop) (d : DualBufferDataCoordinator) (e : moment * db_event) : Prop :=
  match e.2 with
  | EvReconcile _ _ (Some bars) => Forall S bars
  | EvReconcile symbol tf None => Forall S (shadow_bars_as_list (upper symbol, tf) d)
  | EvRefreshNow fetch _ _ | EvRefreshAll fetch | EvTurn fetch => answers_in S fetch
  | EvWindow _ op => writes_only S op
  | _ => True
  end.

Section Provenance.
Context (cfg : ColdStartGateConfig) (mono : nat -> float) `{Zone} (index : gmap string (gmap string policy_setting)).
Context (S : Bar -> Prop).

Definition holds_only (w : RollingWindow) : Prop := window_ok w /\ Forall S (rw_bars w).
Definition heap_only (d : DualBufferDataCoordinator) : Prop := forall a w, db_heap d !! a = Some w -> holds_only w.

Lemma deque_append_Forall n l x : Forall S l -> S x -> Forall S (deque_append n l x).
Proof. intros Hl Hx. unfold deque_append. apply Forall_drop, Forall_app. by repeat constructor. Qed.

Lemma writes_only_moves op : is_forming op \/ brings S op -> writes_only S op.
Proof. by destruct op; intros []. Qed.

Lemma window_step_only w op : holds_only w -> writes_only S op -> holds_only (window_step w op).
Proof.
  intros [Hok Hl] Hop. destruct (window_step_refines w op Hok) as (Hok' & Habs & _). split; [done|].
  change (rw_bars (window_step w op)) with (window_abs (window_step w op)).1. rewrite Habs.
  destruct op as [now b | now b | b | offset |]; cbn in Hop |- *; [| |done| |by constructor].
  - destruct (newer_than _ _); [by apply deque_append_Forall|done].
  - destruct (last (rw_bars w)) as [l|] eqn:E; [|by apply deque_append_Forall].
    destruct (_ =? _)%Z; [|by destruct (newer_than _ _); [apply deque_append_Forall|]].
    unfold replace_last. by apply Forall_insert.
  - destruct (_ || _); [done|]. apply Forall_map. by eapply Forall_impl.
Qed.

Lemma heap_only_moves P d d' :
  (forall op, P op -> is_forming op \/ brings S op) -> moves cfg mono "" P d d' -> heap_only d -> heap_only d'.
Proof.
  intros HP Hm Hd a w' Hw'. destruct (mv_windows _ _ _ _ _ _ Hm a) as (ops & E & Hops). rewrite Hw' in E.
  destruct (db_heap d !! a) as [w|] eqn:Ew; [|done]. injection E as ->.
  specialize (Hd _ _ Ew). clear - Hd Hops HP. revert w Hd.
  induction Hops as [|op ops Hop _ IH]; intros w Hd; [done|]. rewrite runs_cons. by apply IH, window_step_only, writes_only_moves, HP.
Qed.

Lemma step_only d e : brings_only S d e -> heap_only d -> heap_only (db_step cfg mono index d e).
Proof.
  intros He Hd.
  assert (Hforming : forall op, is_forming op -> is_forming op \/ brings S op) by by left.
  assert (Hbrings : forall op, brings S op -> is_forming op \/ brings S op) by by right.
  destruct e as [now []]; unfold brings_only in He; cbn [db_step fst snd] in *; try done.
  - exact (heap_only_moves _ _ _ Hbrings (moves_tick cfg mono "" _ _ _ _) Hd).
  - unfold unregister_leg. cbv zeta. destruct (assoc sid _); [|done]. destruct (assoc p _); [|done]. by case_bool_decide.
  - exact (heap_only_moves _ _ _ Hforming (moves_stream cfg mono "" _ _ _) Hd).
  - unfold sync_active_from_window. cbv zeta. by repeat case_match.
  - unfold db_apply_corporate_action_offset. cbv zeta. destruct (fleb _ _); [done|]. destruct (assoc _ _); [|done].
    by destruct (apply_price_offset _ _), (apply_price_offset _ _).
  - exact (heap_only_moves _ _ _ Hbrings (moves_verify cfg mono "" _ _ _ _ _ _ _) Hd).
  - refine (heap_only_moves _ _ _ Hbrings (moves_reconcile cfg mono "" S _ _ authority _ _ _) Hd).
    by destruct authority.
  - unfold refresh_shadow_now. destruct (negb _); [done|].
    exact (heap_only_moves _ _ _ Hbrings (moves_refresh cfg mono "" S _ _ _ _ _ _ He) Hd).
  - refine (heap_only_moves _ _ _ Hbrings _ Hd). unfold refresh_all_shadow_buffers. destruct (negb _); [apply moves_refl|].
    apply moves_fold. intros. by apply moves_refresh.
  - exact (heap_only_moves _ _ _ Hbrings (moves_turn cfg mono "" S _ _ _ He) Hd).
  - by destruct (blocks_gate cfg mono sid d) as [->| ->].
  - by destruct (scale_gate cfg mono sid d) as [->| ->].
  - unfold db_telemetry_snapshot. by destruct (telemetry_snapshot cfg mono (db_gate d)).
  - destruct (db_heap d !! a) as [w|] eqn:E; [|done]. intros a' w'. cbn. destruct (decide (a' = a)) as [->|Hne].
    + rewrite lookup_insert_eq. intros [= <-]. apply window_step_only; [by apply (Hd a)|done].
    + rewrite lookup_insert_ne by done. apply Hd.
Qed.
End Provenance.

(** ** What the gate is shown

    The calls an event makes to the gate, and the state of the coordinator each was made on. *)

Section Looks.
Context (cfg : ColdStartGateConfig) (mono : nat -> float) `{Zone} (index : gmap string (gmap string policy_setting)).
Local Notation gate_runs := (runs (gate_step cfg mono)).
Local Notation db_runs := (runs (db_step cfg mono index)).

(** The newest [lookback] rows of the two rings of a key, all there, agree feature by feature. *)
Definition tapes_agree (ring : string * string) (lookback : Z) (x : DualBufferDataCoordinator) : Prop :=
  exists s, assoc ring (db_matrices x) = Some s /\
    (lookback <= Z.of_nat (mr_count (sm_shadow s)))%Z /\ (lookback <= Z.of_nat (mr_count (sm_active s)))%Z /\
    compare_feature_matrices (ring_tail lookback (sm_active s)) (ring_tail lookback (sm_shadow s)) = [].

(** [x] is where a refresh of [key] that began on [d] verifies its legs: REST answered bars, they are the shadow, and
    the reconciliation did not raise. *)
Definition refreshed_to (fetch : fetcher) (key : string * string) (close : option Z) (background : bool) (now : moment)
    (d : DualBufferDataCoordinator) (sid : string) (x : DualBufferDataCoordinator) (ring : string * string) : Prop :=
  exists s bars n d2 s2,
    let until := default (most_recent_bar_close (m_utc now) (timeframe_minutes (sm_timeframe s))) close in
    let start := (until - timeframe_minutes (sm_timeframe s) * Z.of_nat (LOCKED_BLOCK_COUNT + 4) * MINUTE)%Z in
    assoc key (db_matrices d) = Some s /\
    fetch (sm_symbol s) (sm_timeframe s) start until (sm_asset_class s) = Ok bars /\ bars <> [] /\
    reconcile_streaming_windows (sm_symbol s) (sm_timeframe s) (Some (last_bars LOCKED_BLOCK_COUNT bars)) now
      (set_matrices d (assoc_set key (set_refreshed (m_mono now) until
         (set_rings (sm_active s) (replace_bars (last_bars LOCKED_BLOCK_COUNT bars) (sm_shadow s)) s)) (db_matrices d)))
      = (Ok n, d2) /\
    x = (if background then set_cleared d2 (db_cold_start_gate_cleared d2) true else d2) /\
    assoc key (db_matrices x) = Some s2 /\ sid ∈ sm_strategy_ids s2 /\ ring = (upper (sm_symbol s2), sm_timeframe s2).

(** In the event, made on [d], the gate is shown [x] for the leg: the rings of [ring] over [lookback] rows. A tick takes the
    rings of the leg's own key; a refresh verifies the legs that its key lists. *)
Inductive looked (d : DualBufferDataCoordinator) (now : moment) :
    db_event -> string -> DualBufferDataCoordinator -> string * string -> Z -> Prop :=
  | look_tick ok sid key :
      (sid, key) ∈ db_leg_index d ->
      looked d now (EvTick ok) sid d (upper key.1, key.2) (Z.of_nat LOCKED_BLOCK_COUNT)
  | look_verify symbol tf sid lookback :
      looked d now (EvVerify symbol tf (Some sid) lookback) sid d (upper symbol, tf) lookback
  | look_now fetch symbol tf sid x ring :
      db_ingestor d = true -> refreshed_to fetch (upper symbol, tf) None false now d sid x ring ->
      looked d now (EvRefreshNow fetch symbol tf) sid x ring (Z.of_nat LOCKED_BLOCK_COUNT)
  | look_all fetch before key after sid x ring :
      db_ingestor d = true -> map fst (db_matrices d) = before ++ key :: after ->
      refreshed_to fetch key None false now
        (fold_left (fun d key => caught (refresh_shadow_for_state cfg mono fetch key None false now) d) before d) sid x ring ->
      looked d now (EvRefreshAll fetch) sid x ring (Z.of_nat LOCKED_BLOCK_COUNT)
  | look_due fetch before key after sid x ring close :
      db_ingestor d = true -> map fst (db_matrices d) = before ++ key :: after ->
      refreshed_to fetch key (Some close) true now (fold_left (refresh_due_one cfg mono fetch now) before d) sid x ring ->
      looked d now (EvTurn fetch) sid x ring (Z.of_nat LOCKED_BLOCK_COUNT)
  | look_watchdog fetch d1 before key after sid x ring :
      d1 = (let d' := refresh_due_shadow_buffers cfg mono fetch now d in
            set_watch d' (db_last_promotion d') (m_mono now) (db_stalled d')) ->
      map fst (db_matrices d1) = before ++ key :: after ->
      (let d2 := fold_left (watchdog_one cfg mono fetch now) before d1 in
       db_ingestor d2 = true /\
       refreshed_to fetch key None false now
         (set_watch d2 (db_last_promotion d2) (db_last_watchdog_check d2) ({[key]} ∪ db_stalled d2)) sid x ring) ->
      looked d now (EvTurn fetch) sid x ring (Z.of_nat LOCKED_BLOCK_COUNT).

(** The call shows the gate what [x] holds: the leg's stream, whether the background check is done, and agreement only
    where the rings agree. *)
Definition shows (leg : string) (x : DualBufferDataCoordinator) (ring : string * string) (lookback : Z) (now : moment)
    (c : gate_call) : Prop :=
  let look sid tf aligned health verified t :=
    sid = leg /\ (exists key, (sid, key) ∈ db_leg_index x /\ tf = key.2 /\ health = stream_health_for_key key x) /\
    verified = db_background_verified x /\ t = m_utc now /\ (aligned = true -> tapes_agree ring lookback x) in
  match c with
  | CallEvaluate sid tf aligned _ health verified _ t => look sid tf aligned health verified t
  | CallTick sid tf health aligned verified _ t => look sid tf aligned health verified t
  | _ => False
  end.

(** A call made by the event on [d]. *)
Definition made_by (d : DualBufferDataCoordinator) (e : moment * db_event) (c : gate_call) : Prop :=
  match c with
  | CallBegin ids _ _ => e.2 = EvInit /\ ids = map fst (db_leg_index d)
  | CallEvaluate _ _ _ _ _ _ _ _ | CallTick _ _ _ _ _ _ _ =>
      exists sid x ring lookback, looked d e.1 e.2 sid x ring lookback /\ shows sid x ring lookback e.1 c
  | _ => True
  end.

(** The calls a history makes, event by event; a restart of the coordinator restarts each of its legs. *)
Inductive gate_history (d0 : DualBufferDataCoordinator) : list (moment * db_event) -> list gate_call -> Prop :=
  | history_start : gate_history d0 [] []
  | history_event evs e calls made :
      gate_history d0 evs calls ->
      db_gate (db_step cfg mono index (db_runs d0 evs) e) = gate_runs (db_gate (db_runs d0 evs)) made ->
      Forall (made_by (db_runs d0 evs) e) made ->
      (e.2 = EvInit -> exists policies symbols, made = [CallBegin (map fst (db_leg_index (db_runs d0 evs))) policies symbols]) ->
      gate_history d0 (evs ++ [e]) (calls ++ made).

(** What the calls of a step are, by where they were made. *)
Definition calls_of (P : gate_call -> Prop) (d d' : DualBufferDataCoordinator) : Prop :=
  exists made, db_gate d' = gate_runs (db_gate d) made /\ Forall P made.

Lemma calls_none P d d' : db_gate d' = db_gate d -> calls_of P d d'.
Proof. intros E. by exists []. Qed.

Lemma calls_one P d g c : g = gate_step cfg mono (db_gate d) c -> P c -> calls_of P d (set_gate d g).
Proof. intros -> Hc. exists [c]. split; [done|by constructor]. Qed.

Lemma calls_trans P d1 d2 d3 : calls_of P d1 d2 -> calls_of P d2 d3 -> calls_of P d1 d3.
Proof.
  intros (m1 & E1 & F1) (m2 & E2 & F2). exists (m1 ++ m2). split; [by rewrite runs_app, <- E1|by apply Forall_app].
Qed.

Lemma calls_weaken (P Q : gate_call -> Prop) d d' : (forall c, P c -> Q c) -> calls_of P d d' -> calls_of Q d d'.
Proof. intros HPQ (m & E & F). exists m. split; [done|by eapply Forall_impl]. Qed.

Lemma calls_fold {A} (P : gate_call -> Prop) (f : DualBufferDataCoordinator -> A -> DualBufferDataCoordinator) l d :
  (forall before x after, l = before ++ x :: after -> calls_of P (fold_left f before d) (f (fold_left f before d) x)) ->
  calls_of P d (fold_left f l d).
Proof.
  induction l as [|x l IH] using rev_ind; intros Hf; [by apply calls_none|]. rewrite fold_left_app. cbn [fold_left].
  eapply calls_trans; [apply IH|by apply (Hf l x [])].
  intros before y after ->. apply (Hf before y (after ++ [x])). by rewrite <- app_assoc.
Qed.

(** The fields a verification reads and leaves alone. *)
Definition same_sight (x d : DualBufferDataCoordinator) : Prop :=
  db_matrices d = db_matrices x /\ db_heap d = db_heap x /\ db_leg_index d = db_leg_index x /\
  db_leg_windows d = db_leg_windows x /\ db_background_verified d = db_background_verified x.

Lemma same_sight_trans x d d' : same_sight x d -> same_sight d d' -> same_sight x d'.
Proof. intros (? & ? & ? & ? & ?) (? & ? & ? & ? & ?). repeat split; congruence. Qed.

Lemma same_sight_health x d key : same_sight x d -> stream_health_for_key key d = stream_health_for_key key x.
Proof.
  intros (Em & Eh & Ei & Ew & _). unfold stream_health_for_key. rewrite Em, Ei.
  assert (forall l, first_window key l d = first_window key l x) as ->; [|done].
  induction l as [|[sid k] l IH]; [done|]. cbn. by rewrite Ew, Eh, IH.
Qed.

Lemma sync_sight d : same_sight d (sync_cold_start_gate_cleared d) /\ db_gate (sync_cold_start_gate_cleared d) = db_gate d.
Proof. unfold sync_cold_start_gate_cleared. repeat case_match; by repeat split. Qed.

Lemma verdict_looks x ring lookback now sid v d :
  same_sight x d -> (mv_aligned v = true -> tapes_agree ring lookback x) ->
  let d' := apply_verdict_tape_status cfg mono sid v now d in
  same_sight x d' /\ calls_of (shows sid x ring lookback now) d d'.
Proof.
  intros Hx Hv. unfold apply_verdict_tape_status. case_bool_decide.
  { destruct (negb _); (split; [exact Hx|by apply calls_none]). }
  cbv zeta. set (d1 := set_tape d _ _). assert (same_sight x d1 /\ db_gate d1 = db_gate d) as [H1 Hg] by done. clearbody d1.
  destruct (assoc sid _) as [key|] eqn:Ek; [|split; [done|by apply calls_none]].
  set (d2 := set_gate d1 _). destruct (sync_sight d2) as [Hs Hsg]. split; [eapply same_sight_trans; [|exact Hs]; exact H1|].
  eapply calls_trans; [|by apply calls_none]. exists [CallEvaluate sid key.2 (mv_aligned v) (mv_skip_reason v)
    (stream_health_for_key key d1) (db_background_verified d1) (is_divergent_latch sid d1) (m_utc now)].
  split; [cbn; by rewrite <- Hg|]. constructor; [|done]. cbn. destruct (H1) as (Em & Eh & Ei & Ew & Eb).
  split; [done|]. split; [|by rewrite Eb]. exists key. split; [|split; [done|by apply same_sight_health]].
  rewrite <- Ei. by apply assoc_Some_elem.
Qed.

Lemma verify_looks x symbol tf leg lookback now d :
  same_sight x d ->
  let r := verify_matrix_alignment cfg mono symbol tf leg lookback now d in
  same_sight x r.2 /\
  match leg with
  | Some sid => calls_of (shows sid x (upper symbol, tf) lookback now) d r.2
  | None => r.2 = d
  end /\
  (mv_aligned r.1 && bool_decide (mv_skip_reason r.1 = None) = true -> tapes_agree (upper symbol, tf) lookback x).
Proof.
  intros Hx. unfold verify_matrix_alignment. rewrite (proj1 Hx).
  assert (forall P : gate_call -> Prop, match leg with Some _ => calls_of P d d | None => d = d end) as Hd
    by (intros P; destruct leg; [by apply calls_none|done]).
  assert (forall P : string -> gate_call -> Prop, match leg with Some sid => calls_of (P sid) d d | None => d = d end) as Hd'
    by (intros P; destruct leg; [by apply calls_none|done]). clear Hd.
  destruct (assoc _ _) as [s|] eqn:Es; [|split; [exact Hx|split; [apply (Hd' (fun _ => _))|done]]].
  destruct (_ <? _)%Z eqn:Esh; [split; [exact Hx|split; [apply (Hd' (fun _ => _))|done]]|].
  destruct (Z.of_nat (mr_count (sm_active s)) <? _)%Z eqn:Eac; [split; [exact Hx|split; [apply (Hd' (fun _ => _))|done]]|]. cbv zeta.
  clear Hd'. set (mm := compare_feature_matrices _ _).
  assert (negb (match mm with [] => false | _ => true end) = true -> tapes_agree (upper symbol, tf) lookback x) as Hag.
  { intros Hm. exists s. apply Z.ltb_ge in Esh, Eac. split_and!; [done..|]. fold mm. by destruct mm. }
  destruct leg as [sid|]; cbn [fst snd mv_aligned mv_skip_reason].
  - set (v := mkVerdict _ _ _ _ _ _). set (d1 := if eqb _ _ then d else _).
    assert (same_sight x d1 /\ db_gate d1 = db_gate d) as [H1 Hg] by (subst d1; by destruct (eqb _ _)). clearbody d1.
    destruct (verdict_looks x (upper symbol, tf) lookback now sid v d1 H1 Hag) as [H2 (m & Hm & Hf)]. split; [done|].
    split; [exists m; by rewrite <- Hg|]. rewrite bool_decide_true, andb_true_r by done. exact Hag.
  - split; [done|]. split; [done|]. rewrite bool_decide_true, andb_true_r by done. exact Hag.
Qed.

Lemma legs_look x s lookback now sids d :
  same_sight x d ->
  let d' := fold_left (fun d sid => (verify_matrix_alignment cfg mono (sm_symbol s) (sm_timeframe s) (Some sid) lookback now d).2) sids d in
  calls_of (fun c => exists sid, sid ∈ sids /\ shows sid x (upper (sm_symbol s), sm_timeframe s) lookback now c) d d'.
Proof.
  intros Hx. cbv zeta. set (f := fun _ _ => _).
  assert (forall l, same_sight x (fold_left f l d)) as Hl.
  { induction l as [|sid l IH] using rev_ind; [done|]. rewrite fold_left_app.
    by apply (verify_looks x (sm_symbol s) (sm_timeframe s) (Some sid) lookback now). }
  apply calls_fold. intros before sid after ->.
  destruct (verify_looks x (sm_symbol s) (sm_timeframe s) (Some sid) lookback now _ (Hl before)) as (_ & Hc & _).
  eapply calls_weaken; [|exact Hc]. intros c Hs. exists sid. split; [set_solver|done].
Qed.

(** What a refresh shows the gate. *)
Definition shown_by_refresh fetch key close background now d (c : gate_call) : Prop :=
  exists sid x ring, refreshed_to fetch key close background now d sid x ring /\
    shows sid x ring (Z.of_nat LOCKED_BLOCK_COUNT) now c.

Lemma reconcile_gate symbol tf authority now d :
  db_gate (reconcile_streaming_windows symbol tf authority now d).2 = db_gate d.
Proof.
  unfold reconcile_streaming_windows. cbv zeta. destruct (match authority with Some bars => bars | None => _ end) as [|b bars]; [done|].
  set (d1 := match assoc _ _ with Some s => _ | None => d end). assert (db_gate d1 = db_gate d) as <- by (subst d1; by case_match).
  clearbody d1. set (targets := target_windows _ d). clearbody targets. unfold py_bind.
  assert (forall counts d, db_gate (reconcile_targets (m_mono now) (b :: bars) targets counts d).2 = db_gate d) as Ht.
  { clear. induction targets as [|a l IH]; intros counts d; [done|]. cbn [reconcile_targets].
    destruct (_ !! a) as [w|]; [|apply IH]. destruct (upsert_window _ _ _ _) as [[c|e] w']; [|done]. by rewrite IH. }
  specialize (Ht (0, 0)%Z d1). destruct (reconcile_targets _ _ _ _ d1) as [[c|e] d2]; [|exact Ht]. cbn [snd] in Ht |- *. rewrite <- Ht. cbn.
  by destruct (0 <? c.1)%Z.
Qed.

Lemma refresh_looks fetch key close background now d :
  calls_of (shown_by_refresh fetch key close background now d) d
    (refresh_shadow_for_state cfg mono fetch key close background now d).2.
Proof.
  unfold refresh_shadow_for_state. destruct (assoc key (db_matrices d)) as [s|] eqn:Es; [|by apply calls_none]. cbv zeta.
  destruct (fetch _ _ _ _ _) as [[|b bars]|e] eqn:Ef; [by apply calls_none| |by apply calls_none].
  set (locked := last_bars _ _). set (d1 := set_matrices d _). unfold py_bind.
  pose proof (reconcile_gate (sm_symbol s) (sm_timeframe s) (Some locked) now d1) as Hg.
  destruct (reconcile_streaming_windows _ _ _ _ d1) as [[n|e] d2] eqn:Er; cbn [snd] in Hg; [|by apply calls_none].
  eapply calls_trans; [apply calls_none; exact Hg|]. cbn [py_modify snd]. unfold apply_tape_verification_for_state. cbv zeta.
  set (x := if background then _ else d2). eapply calls_trans; [apply (calls_none _ _ x); by subst x; destruct background|].
  destruct (assoc key (db_matrices x)) as [s2|] eqn:Es2; [|by apply calls_none].
  eapply calls_weaken; [|by apply (legs_look x s2)]. intros c (sid & Hin & Hs). apply elem_of_elements in Hin.
  exists sid, x, (upper (sm_symbol s2), sm_timeframe s2). split; [|done]. by exists s, (b :: bars), n, d2, s2.
Qed.

Lemma tick_looks ok now d :
  calls_of (made_by d (now, EvTick ok)) d (tick_cold_start_gates cfg mono ok now d).
Proof.
  unfold tick_cold_start_gates. eapply calls_trans; [|apply calls_none; by apply sync_sight].
  set (f := tick_leg cfg mono ok (db_background_verified d) now).
  assert (forall d' sid key, same_sight d d' -> same_sight d (f d' (sid, key)) /\
    ((sid, key) ∈ db_leg_index d -> calls_of (made_by d (now, EvTick ok)) d' (f d' (sid, key)))) as Hf.
  { intros d' sid key Hx. unfold f, tick_leg.
    destruct (verify_looks d key.1 key.2 None (Z.of_nat LOCKED_BLOCK_COUNT) now d' Hx) as (Hs & He & Hag).
    destruct (verify_matrix_alignment _ _ _ _ _ _ _ d') as [v d1]; cbn [fst snd] in *. subst d1. split; [exact Hs|]. intros Hin.
    exists [CallTick sid key.2 (stream_health_for_key key d') (mv_aligned v && bool_decide (mv_skip_reason v = None))
              (db_background_verified d) ok (m_utc now)]. split; [done|]. constructor; [|done].
    exists sid, d, (upper key.1, key.2), (Z.of_nat LOCKED_BLOCK_COUNT). split; [by constructor|]. split; [done|].
    split; [|done]. exists key. split; [done|]. split; [done|]. by apply same_sight_health. }
  assert (forall l, same_sight d (fold_left f l d)) as Hl.
  { induction l as [|[sid key] l IH] using rev_ind; [done|]. rewrite fold_left_app. by apply Hf. }
  apply calls_fold. intros before [sid key] after E. apply Hf; [apply Hl|]. rewrite E. set_solver.
Qed.

Lemma shows_made d e sid x ring lookback c :
  looked d e.1 e.2 sid x ring lookback -> shows sid x ring lookback e.1 c -> made_by d e c.
Proof. intros Hl Hs. destruct c; try done; by exists sid, x, ring, lookback. Qed.

Lemma turn_looks fetch now d : calls_of (made_by d (now, EvTurn fetch)) d (refresh_turn cfg mono fetch now d).
Proof.
  unfold refresh_turn. cbv zeta. apply (calls_trans _ _ (refresh_due_shadow_buffers cfg mono fetch now d)).
  { unfold refresh_due_shadow_buffers. destruct (db_ingestor d) eqn:Ei; [cbn [negb]|by apply calls_none].
    apply calls_fold. intros before key after E. set (d1 := fold_left _ before d). unfold refresh_due_one.
    destruct (assoc key _) as [s|] eqn:Es; [|by apply calls_none].
    destruct (shadow_refresh_due _ _ _) as [[] close]; [|by apply calls_none]. unfold caught.
    eapply calls_weaken; [|apply refresh_looks]. intros c (sid & x & ring & Hr & Hs).
    by eapply shows_made; [eapply look_due|]. }
  destruct (fleb _ _); [|by apply calls_none]. set (d1 := set_watch _ _ _ _).
  eapply calls_trans; [by apply (calls_none _ _ d1)|]. unfold check_ingestion_watchdog.
  apply calls_fold. intros before key after E. set (d2 := fold_left _ before d1). unfold watchdog_one. cbv zeta.
  destruct (assoc key _) as [s|]; [|by apply calls_none]. destruct (_ && _); [by apply calls_none|].
  destruct (_ !! key) as [last|]; [|by apply calls_none]. destruct (fleb _ _); [by apply calls_none|].
  set (d3 := set_watch d2 _ _ _). eapply calls_trans; [by apply (calls_none _ _ d3)|].
  change (db_ingestor d3) with (db_ingestor d2). destruct (db_ingestor d2) eqn:Ei; [|by apply calls_none]. unfold caught.
  eapply calls_weaken; [|apply refresh_looks]. intros c (sid & x & ring & Hr & Hs).
  by eapply shows_made; [eapply (look_watchdog d now fetch d1 before key after)|].
Qed.

(** A call of complete evidence, as the state it was made on has it. *)
Lemma made_evidence d e sid c :
  made_by d e c -> verifies cfg sid c ->
  exists x ring lookback key,
    looked d e.1 e.2 sid x ring lookback /\ (sid, key) ∈ db_leg_index x /\ tapes_agree ring lookback x /\
    db_background_verified x = true /\ fresh_at cfg key.2 (stream_health_for_key key x) (m_utc e.1) = true /\
    stream_is_structurally_intact (stream_health_for_key key x) = true.
Proof.
  intros Hm Hv. destruct c; try done; cbn in Hv.
  - destruct Hv as (<- & -> & -> & -> & -> & Hf & Hi).
    destruct Hm as (s & x & ring & lb & Hl & <- & (key & Hk & -> & ->) & Hb & -> & Ha).
    exists x, ring, lb, key. split_and!; auto.
  - destruct Hv as (<- & -> & -> & -> & Hf & Hi).
    destruct Hm as (s & x & ring & lb & Hl & <- & (key & Hk & -> & ->) & Hb & -> & Ha).
    exists x, ring, lb, key. split_and!; auto.
Qed.

(** The calls of one event. *)
Lemma step_calls d e :
  exists made, db_gate (db_step cfg mono index d e) = gate_runs (db_gate d) made /\ Forall (made_by d e) made /\
    (e.2 = EvInit -> exists policies symbols, made = [CallBegin (map fst (db_leg_index d)) policies symbols]).
Proof.
  assert (forall d', e.2 <> EvInit -> calls_of (made_by d e) d d' ->
    exists made, db_gate d' = gate_runs (db_gate d) made /\ Forall (made_by d e) made /\
    (e.2 = EvInit -> exists policies symbols, made = [CallBegin (map fst (db_leg_index d)) policies symbols])) as Hmade.
  { intros d' Hne (m & Hm & Hf). exists m. by split_and!. }
  destruct e as [now ev].
  assert (forall g c, g = gate_step cfg mono (db_gate d) c -> made_by d (now, ev) c -> calls_of (made_by d (now, ev)) d (set_gate d g))
    as Hone by (intros; by eapply calls_one).
  destruct ev; cbn [db_step fst snd] in *; try (apply Hmade; [done|]).
  - set (ids := map fst (db_leg_index d)). eexists [CallBegin ids _ _]. split; [reflexivity|]. split; [by repeat constructor|].
    intros _. by eexists _, _.
  - apply tick_looks.
  - unfold register_leg. cbv zeta. eexists [CallPolicy _ _; CallSymbol _ _]. split; [reflexivity|by repeat constructor].
  - apply calls_none. unfold unregister_leg. cbv zeta. destruct (assoc _ _); [|done]. destruct (assoc _ _); [|done]. by case_bool_decide.
  - apply calls_none. unfold ingest_stream_bar. cbv zeta. by destruct (fold_left _ _ _).
  - apply calls_none. unfold sync_active_from_window. cbv zeta. by repeat case_match.
  - apply calls_none. unfold db_apply_corporate_action_offset. cbv zeta. destruct (fleb _ _); [done|]. destruct (assoc _ _); [|done].
    by destruct (apply_price_offset _ _), (apply_price_offset _ _).
  - destruct (verify_looks d symbol timeframe leg lookback now d ltac:(done)) as (_ & Hc & _).
    destruct leg as [sid|]; [|rewrite Hc; by apply calls_none].
    eapply calls_weaken; [|exact Hc]. intros c Hs. by eapply shows_made; [apply look_verify|].
  - apply calls_none, reconcile_gate.
  - unfold refresh_shadow_now. destruct (db_ingestor d) eqn:Ei; [cbn [negb]|by apply calls_none].
    eapply calls_weaken; [|apply refresh_looks]. intros c (sid & x & ring & Hr & Hs). by eapply shows_made; [eapply look_now|].
  - unfold refresh_all_shadow_buffers. destruct (db_ingestor d) eqn:Ei; [cbn [negb]|by apply calls_none].
    apply calls_fold. intros before key after E. eapply calls_weaken; [|apply refresh_looks].
    intros c (sid & x & ring & Hr & Hs). by eapply shows_made; [eapply look_all|].
  - apply turn_looks.
  - by apply calls_none.
  - destruct (blocks_gate cfg mono sid d) as [->| ->]; [by apply calls_none|by eapply Hone].
  - destruct (scale_gate cfg mono sid d) as [->| ->]; [by apply calls_none|by eapply Hone].
  - unfold db_telemetry_snapshot. destruct (telemetry_snapshot cfg mono (db_gate d)) as [t g] eqn:Et. cbn [snd].
    apply (Hone _ CallTelemetry); [cbn; by rewrite Et|done].
  - apply calls_none. by case_match.
Qed.

Lemma history_exists d0 evs :
  exists calls, gate_history d0 evs calls /\ db_gate (db_runs d0 evs) = gate_runs (db_gate d0) calls.
Proof.
  induction evs as [|e evs (calls & Hh & Hg)] using rev_ind; [exists []; split; [constructor|done]|].
  destruct (step_calls (db_runs d0 evs) e) as (made & Hm & Hf & Hi). exists (calls ++ made).
  split; [by constructor|]. by rewrite runs_snoc, Hm, Hg, runs_app.
Qed.

(** The event that made a call, with what came before it and after; a later restart of the coordinator is a later
    restart of the gate. *)
Lemma history_event_of d0 evs p c q :
  gate_history d0 evs (p ++ c :: q) ->
  exists pre e post, evs = pre ++ e :: post /\ made_by (db_runs d0 pre) e c /\
    forall mid now rest, post = mid ++ (now, EvInit) :: rest ->
      exists policies symbols,
        CallBegin (map fst (db_leg_index (db_runs d0 (pre ++ e :: mid)))) policies symbols ∈ q.
Proof.
  remember (p ++ c :: q) as calls eqn:E. intros Hh. revert p c q E.
  induction Hh as [|evs e calls made Hh IH Hg Hf Hi]; intros p c q E; [by destruct p|].
  destruct (decide (length p < length calls)) as [Hlt|Hge].
  - assert (exists q', calls = p ++ c :: q' /\ q = q' ++ made) as (q' & -> & ->).
    { apply app_eq_inv in E as [(k & E1 & E2)|(k & E1 & E2)].
      - destruct k as [|c' k]; [rewrite app_nil_r in E1; subst; lia|]. injection E2 as <- ->. by exists k.
      - subst p. rewrite length_app in Hlt. lia. }
    destruct (IH p c q' eq_refl) as (pre & e0 & post & -> & Hm & Hr). exists pre, e0, (post ++ [e]).
    split; [by rewrite <- app_assoc|]. split; [done|]. intros mid now rest Hpost.
    destruct rest as [|z rest _] using rev_ind.
    + apply app_inj_tail in Hpost as [-> ->]. destruct (Hi eq_refl) as (ps & ss & ->). exists ps, ss. set_solver.
    + rewrite app_comm_cons, app_assoc in Hpost. apply app_inj_tail in Hpost as [-> _].
      destruct (Hr _ _ _ eq_refl) as (ps & ss & Hin). exists ps, ss. set_solver.
  - exists evs, e, []. split; [done|]. split.
    + rewrite Forall_forall in Hf. apply Hf. apply app_eq_inv in E as [(k & E1 & E2)|(k & E1 & E2)].
      * destruct k as [|c' k]; [set_solver|]. subst calls. rewrite length_app in Hge. cbn in Hge. lia.
      * rewrite E2. set_solver.
    + intros mid now rest Hn. by destruct mid.
Qed.
End Looks.

(** *** A leg, its five bars, and what can happen to it *)

Definition quarter (symbol : string) (i price : Z) : Bar :=
  mkBar ((1700000100 + 900 * i) * 1000000) (of_Z price) (of_Z (price + 1)) (of_Z (price - 1)) (of_Z price) (of_Z 10)
    symbol.
Definition quarters (symbol : string) (n : nat) : list Bar := map (fun i => quarter symbol (Z.of_nat i) 100) (seq 0 n).
Definition answering (bars : list Bar) : fetcher := fun _ _ _ _ _ => Ok bars.
(** So many seconds after the last of the five bars has closed. *)
Definition after_close (s : Z) : moment := mkMoment ((1700000100 + 4500 + s) * 1000000) (of_Z (1000 + s)).
Definition a_window : gmap nat RollingWindow :=
  match window_init 100 "BTC:15Min" with Ok w => {[ 0 := w ]} | Raise _ => ∅ end.
Definition ticking (n : nat) : float := of_Z (Z.of_nat n).
Definition boot (symbol asset_class : string) : list (moment * db_event) :=
  [(after_close 0, EvRegister "leg" symbol "15Min" asset_class (Some 0) None None);
   (after_close 0, EvWire true false true); (after_close 0, EvInit)].
Definition verified_leg : list (moment * db_event) :=
  boot "BTC" "crypto" ++ [(after_close 45, EvTurn (answering (quarters "BTC" 5)))].
(** The stream rewrites the last bar; a verification finds it. *)
Definition diverging_leg : list (moment * db_event) :=
  verified_leg ++ [(after_close 46, EvBar (quarter "BTC" 4 200) "15Min");
                   (after_close 47, EvVerify "BTC" "15Min" (Some "leg") 5)].
Definition after (evs : list (moment * db_event)) : DualBufferDataCoordinator :=
  runs (db_step default_cold_start_config ticking ∅) (dual_init false a_window) evs.
Definition btc_state (d : DualBufferDataCoordinator) : SymbolMatrixState :=
  default (matrix_init "" "" "") (assoc ("BTC", "15Min") (db_matrices d)).

Lemma a_window_ok a w : a_window !! a = Some w -> window_ok w.
Proof.
  unfold a_window. destruct (window_init 100 "BTC:15Min") as [w0|] eqn:E; [|done].
  intros [_ <-]%lookup_singleton_Some. by eapply window_init_ok.
Qed.

Lemma after_ok evs : dual_ok (after evs).
Proof. apply runs_ok, a_window_ok. Qed.

(** A stock's feed is quiet from the close to the open, and is called stalled at the first look after the open. *)
Lemma overnight_gap_flags_the_feed :
  let d := after (boot "SPY" "stock" ++ [(after_close 45, EvTurn (answering (quarters "SPY" 5)));
                                         (after_close 50000, EvTurn (answering []))]) in
  is_within_rth nyse (m_utc (after_close 50000)) = false /\ elements (db_stalled d) = [] /\
  is_within_rth nyse (m_utc (after_close 54060)) = true /\
  elements (db_stalled (refresh_turn default_cold_start_config ticking (answering []) (after_close 54060) d)) =
    [("SPY", "15Min")].
Proof. repeat split; vm_compute; reflexivity. Qed.

(** ** Theorems *)

(** A refresh verifies its own bars. Whatever the stream had put in the active ring, and whatever the latches
    said before, a refresh that is answered with at least five bars, the last five in order and finite, ends with every
    leg of the symbol unlatched and its tape verified: the bars it compares with were written over the stream's before
    the comparison. So the latch never closes on a divergence that a refresh finds. *)
Theorem refresh_verifies_itself cfg mono fetch key close background now d s bars
    (Hok : dual_ok d) (Hs : assoc key (db_matrices d) = Some s)
    (Hfetch : forall start until, fetch (sm_symbol s) (sm_timeframe s) start until (sm_asset_class s) = Ok bars)
    (Hlen : LOCKED_BLOCK_COUNT <= length bars)
    (Hsort : StronglySorted rows_lt (map row_of (last_bars LOCKED_BLOCK_COUNT bars)))
    (Hfin : Forall finite_row (map row_of (last_bars LOCKED_BLOCK_COUNT bars))) :
  let '(r, d') := refresh_shadow_for_state cfg mono fetch key close background now d in
  r = Ok tt /\
  forall sid, sid ∈ sm_strategy_ids s -> is_divergent_latch sid d' = false /\ tape_status sid d' = TAPE_VERIFIED.
Proof.
  pose proof (proj1 Hok _ _ Hs) as Hw. pose proof (mw_key _ _ Hw) as ->.
  unfold refresh_shadow_for_state. rewrite Hs. cbv zeta. rewrite Hfetch.
  destruct bars as [|b0 bars0]; [cbn in Hlen; unfold LOCKED_BLOCK_COUNT in Hlen; lia|].
  set (locked := last_bars _ _) in *.
  assert (length locked = LOCKED_BLOCK_COUNT) as Hll.
  { subst locked. unfold last_bars. rewrite length_drop. lia. }
  assert (locked <> []) as Hne by (intros E; by rewrite E in Hll).
  clearbody locked. set (s1 := set_refreshed _ _ _). set (d1 := set_matrices d _). unfold py_bind.
  destruct (refreshed_tails s locked Hw Hll Hsort) as (Ca & Cs & Ta & Ts).
  assert (assoc (upper (sm_symbol s), sm_timeframe s) (db_matrices d1) = Some s1) as Hs1.
  { cbn. rewrite (mw_symbol _ _ Hw). apply assoc_set_same. }
  assert (dual_ok d1) as Hok1.
  { apply dual_ok_matrix; [done|]. apply matrix_wf_refreshed. destruct (mw_active _ _ Hw), (mw_shadow _ _ Hw) as [Hsh Hc].
    destruct (replace_bars_ok locked _ Hsh) as (? & ? & _). apply matrix_wf_rings; [done|done|done|done|congruence]. }
  destruct (reconcile_returns (sm_symbol s) (sm_timeframe s) locked now d1 s1 Hok1 Hs1 Hne) as (n & d2 & E & Em).
  rewrite E. cbn [py_modify]. split; [done|]. intros sid Hsid. unfold apply_tape_verification_for_state. cbv zeta.
  set (d3 := if background then _ else d2).
  assert (db_matrices d3 = db_matrices d2) as E3 by (subst d3; by destruct background). clearbody d3.
  rewrite Em, (mw_symbol _ _ Hw) in E3. rewrite E3, assoc_set_same.
  eapply verify_all_agreeing; cycle 4; [left; by apply elem_of_elements| | | |].
  - cbn. rewrite (mw_symbol _ _ Hw), E3. apply assoc_set_same.
  - exact Cs.
  - exact Ca.
  - cbn. rewrite Ta, Ts. apply compare_self; [by apply rows_lt_NoDup|done].
Qed.

Lemma refresh_verifies_itself_witness :
  let d := after diverging_leg in
  is_divergent_latch "leg" d = true /\ tape_status "leg" d = TAPE_DIVERGENT /\
  is_divergent_latch "leg" (refresh_shadow_for_state default_cold_start_config ticking (answering (quarters "BTC" 5))
    ("BTC", "15Min") None false (after_close 60) d).2 = false.
Proof.
  split; [vm_compute; reflexivity|]. split; [vm_compute; reflexivity|].
  pose proof (refresh_verifies_itself default_cold_start_config ticking (answering (quarters "BTC" 5)) ("BTC", "15Min")
    None false (after_close 60) (after diverging_leg) (btc_state (after diverging_leg)) (quarters "BTC" 5)
    (after_ok diverging_leg) ltac:(vm_compute; reflexivity) ltac:(reflexivity) ltac:(vm_compute; lia)
    ltac:(vm_compute; repeat constructor) ltac:(vm_compute; repeat constructor)) as Hr.
  destruct (refresh_shadow_for_state _ _ _ _ _ _ _ _) as [r d']. apply Hr.
  assert ("leg" ∈ elements (sm_strategy_ids (btc_state (after diverging_leg)))) as Hin
    by (vm_compute; left).
  by apply elem_of_elements in Hin.
Defined.

(** What a refresh leaves of a key's own record. *)
Lemma verify_matrices cfg mono symbol tf leg lookback now d :
  db_matrices (verify_matrix_alignment cfg mono symbol tf leg lookback now d).2 = db_matrices d.
Proof.
  unfold verify_matrix_alignment. destruct (assoc _ _) as [s|]; [|done]. do 2 (destruct (_ <? _)%Z; [done|]). cbv zeta.
  destruct leg as [sid|]; [|done]. cbn [snd]. set (d1 := if eqb _ _ then d else _).
  assert (db_matrices d1 = db_matrices d) as <- by (subst d1; by destruct (eqb _ _)). clearbody d1.
  unfold apply_verdict_tape_status. clear. case_bool_decide; [by destruct (negb (db_cold_start_gate_cleared d1))|]. cbv zeta.
  destruct (assoc sid _); [|done]. by rewrite (proj1 (sync_tape _)).
Qed.

Lemma refresh_records cfg mono fetch key close background now d s bars :
  dual_ok d -> assoc key (db_matrices d) = Some s ->
  (forall start until, fetch (sm_symbol s) (sm_timeframe s) start until (sm_asset_class s) = Ok bars) -> bars <> [] ->
  exists s', assoc key (db_matrices (refresh_shadow_for_state cfg mono fetch key close background now d).2) = Some s' /\
    sm_timeframe s' = sm_timeframe s /\
    sm_last_shadow_refresh_bar_close s' =
      Some (default (most_recent_bar_close (m_utc now) (timeframe_minutes (sm_timeframe s))) close).
Proof.
  intros Hok Hs Hfetch Hne. pose proof (proj1 Hok _ _ Hs) as Hw. pose proof (mw_key _ _ Hw) as ->.
  unfold refresh_shadow_for_state. rewrite Hs. cbv zeta. rewrite Hfetch. destruct bars as [|b0 bars0]; [done|].
  set (locked := last_bars _ _).
  assert (locked <> []) as Hl.
  { intros E. apply (f_equal length) in E. unfold locked, last_bars in E. rewrite length_drop in E. cbn in E. lia. }
  clearbody locked. set (s1 := set_refreshed _ _ _). set (d1 := set_matrices d _). unfold py_bind.
  assert (assoc (upper (sm_symbol s), sm_timeframe s) (db_matrices d1) = Some s1) as Hs1.
  { cbn. rewrite (mw_symbol _ _ Hw). apply assoc_set_same. }
  assert (dual_ok d1) as Hok1.
  { apply dual_ok_matrix; [done|]. apply matrix_wf_refreshed. destruct (mw_active _ _ Hw), (mw_shadow _ _ Hw) as [Hsh Hc].
    destruct (replace_bars_ok locked _ Hsh) as (? & ? & _). apply matrix_wf_rings; [done|done|done|done|congruence]. }
  destruct (reconcile_returns (sm_symbol s) (sm_timeframe s) locked now d1 s1 Hok1 Hs1 Hl) as (n & d2 & E & Em).
  rewrite E. cbn [py_modify snd]. unfold apply_tape_verification_for_state. cbv zeta.
  set (d3 := if background then _ else d2).
  assert (db_matrices d3 = db_matrices d2) as E3 by (subst d3; by destruct background). clearbody d3.
  rewrite Em, (mw_symbol _ _ Hw) in E3. rewrite E3, assoc_set_same.
  match goal with |- exists s', assoc _ (db_matrices (fold_left ?f _ d3)) = _ /\ _ =>
    assert (Hfold : forall l d, db_matrices (fold_left f l d) = db_matrices d) end.
  { intros l. induction l as [|x l IH]; intros d'; [done|]. cbn [fold_left]. rewrite IH. apply verify_matrices. }
  rewrite Hfold, E3, assoc_set_same. by eexists.
Qed.

Section RefreshClock.
Local Open Scope Z_scope.
Context (bm : Z) (Hpos : 0 < bm) (Hdiv : (bm | 1440)).

(** A bar's boundaries are the multiples of its length. *)
Lemma boundary_multiple now : on_boundary bm now -> (bm * MINUTE | now - now mod MINUTE).
Proof.
  unfold on_boundary. intros [q Hq]%Z.mod_divide; [|lia]. destruct Hdiv as [k Hk].
  pose proof (minute_split now) as Hs. rewrite Hq in Hs. exists (now / DAY * k + q).
  assert (DAY = 1440 * MINUTE) as HD by done. set (n := now / DAY) in *. clearbody n. rewrite HD, Hk in Hs. lia.
Qed.

Lemma next_close_multiple now : (bm * MINUTE | most_recent_bar_close now bm).
Proof.
  destruct (decide (on_boundary bm now)) as [Hb|Hb].
  - rewrite close_on_boundary by done. by apply boundary_multiple.
  - unfold most_recent_bar_close, on_boundary in *. cbv zeta. rewrite (proj2 (Z.eqb_neq _ _)) by done.
    destruct Hdiv as [k Hk]. set (m := (now mod DAY) / MINUTE). exists (now / DAY * k + (m / bm + 1)).
    assert (DAY = 1440 * MINUTE) as HD by done. set (n := now / DAY). clearbody n m. rewrite HD, Hk. lia.
Qed.

(** Once a close is recorded, no refresh is due before half a minute after the next one. *)
Lemma recorded_close_rests c now :
  (bm * MINUTE | c) -> now < c + bm * MINUTE + SHADOW_POST_CLOSE_DELAY ->
  (shadow_refresh_due now bm (Some c)).1 = false.
Proof.
  intros [q Hq] Hnow. apply not_true_is_false. rewrite refresh_due_spec by done. intros (Hb & Hsec & Hc).
  specialize (Hc c eq_refl). destruct (boundary_multiple now Hb) as [r Hr]. unfold SHADOW_POST_CLOSE_DELAY in Hnow.
  assert (0 < bm * MINUTE) as HM by (apply Z.mul_pos_pos; [exact Hpos|done]).
  assert (q * (bm * MINUTE) < r * (bm * MINUTE)) as Hqr%Z.mul_lt_mono_pos_r by lia; [|done].
  assert ((q + 1) * (bm * MINUTE) <= r * (bm * MINUTE)) by (apply Z.mul_le_mono_nonneg_r; lia). lia.
Qed.
End RefreshClock.

Lemma timeframe_minutes_divide tf : (0 < timeframe_minutes tf)%Z /\ (timeframe_minutes tf | 1440)%Z.
Proof.
  unfold timeframe_minutes. repeat case_bool_decide; (split; [done|]); [by exists 1440%Z|by exists 96%Z|by exists 24%Z|by exists 6%Z|by exists 1%Z|by exists 96%Z].
Qed.

(** The watchdog's recovery costs the next refresh. A refresh forced between two bar closes records the close that is
    still to come as refreshed, so the refresh that should follow that close is not due: nothing is fetched for
    the key until half a minute after the close after it, though every window waits for the bar that has just closed. *)
Theorem forced_refresh_skips_the_close cfg mono fetch key background now d s bars
    (Hok : dual_ok d) (Hs : assoc key (db_matrices d) = Some s)
    (Hfetch : forall start until, fetch (sm_symbol s) (sm_timeframe s) start until (sm_asset_class s) = Ok bars)
    (Hne : bars <> []) (Hoff : ~ on_boundary (timeframe_minutes (sm_timeframe s)) (m_utc now)) :
  let bm := timeframe_minutes (sm_timeframe s) in
  let close := most_recent_bar_close (m_utc now) bm in
  let d' := (refresh_shadow_for_state cfg mono fetch key None background now d).2 in
  (m_utc now < close)%Z /\
  forall fetch' now', (m_utc now' < close + bm * MINUTE + SHADOW_POST_CLOSE_DELAY)%Z ->
    refresh_due_one cfg mono fetch' now' d' key = d'.
Proof.
  intros bm close d'. destruct (timeframe_minutes_divide (sm_timeframe s)) as [Hpos Hdiv]. split; [by apply close_ahead|].
  intros fetch' now' Hnow. destruct (refresh_records cfg mono fetch key None background now d s bars Hok Hs Hfetch Hne)
    as (s' & E & Et & Ec). fold d' in E. unfold refresh_due_one. rewrite E, Et, Ec. cbn [default]. fold bm close.
  pose proof (recorded_close_rests bm Hpos Hdiv close (m_utc now') (next_close_multiple bm Hpos Hdiv _) Hnow) as Hdue.
  change (default close None) with close. by destruct (shadow_refresh_due _ _ _) as [[] ?].
Qed.

(** Forced 90 s after a close: the close 15 minutes after that one passes without a refresh. *)
Lemma forced_refresh_skips_the_close_witness :
  let d := (refresh_shadow_for_state default_cold_start_config ticking (answering (quarters "BTC" 5)) ("BTC", "15Min")
              None false (after_close 90) (after verified_leg)).2 in
  refresh_due_one default_cold_start_config ticking (answering (quarters "BTC" 6)) (after_close 945) d ("BTC", "15Min") = d.
Proof.
  destruct (forced_refresh_skips_the_close default_cold_start_config ticking (answering (quarters "BTC" 5)) ("BTC", "15Min")
    false (after_close 90) (after verified_leg) (btc_state (after verified_leg)) (quarters "BTC" 5)
    (after_ok verified_leg) ltac:(vm_compute; reflexivity) ltac:(reflexivity) ltac:(discriminate)
    ltac:(vm_compute; discriminate)) as [_ Hrest].
  exact (Hrest (answering (quarters "BTC" 6)) (after_close 945) ltac:(vm_compute; reflexivity)).
Defined.



(** C9: No bar closes on the stream's word. Over any history, in which bars are streamed at will, a window's closed bars
    all lie in any set that holds the window's own bars, the bars that REST answers, those a reconciliation is handed or
    reads back from the shadow, and those that the callers who share the window append or upsert themselves, and
    that is closed under the offsets by which they shift it. *)
Theorem closed_bars_come_from_rest cfg mono `{Zone} index (S : Bar -> Prop) ingestor heap evs
    (Hheap : heap_only S (dual_init ingestor heap))
    (Hevs : forall pre e post, evs = pre ++ e :: post ->
       brings_only S (runs (db_step cfg mono index) (dual_init ingestor heap) pre) e) a w :
  db_heap (runs (db_step cfg mono index) (dual_init ingestor heap) evs) !! a = Some w ->
  Forall S (chronological_bars w).
Proof.
  intros Hw. enough (heap_only S (runs (db_step cfg mono index) (dual_init ingestor heap) evs)) as Hd by by apply (Hd a w).
  clear Hw. induction evs as [|e evs IH] using rev_ind; [done|]. rewrite runs_snoc. apply step_only; [by apply (Hevs evs e [])|].
  apply IH. intros pre e' post ->. apply (Hevs pre e' (post ++ [e])). by rewrite <- app_assoc.
Qed.

Lemma diverging_leg_has_window :
  is_Some (db_heap (runs (db_step default_cold_start_config ticking ∅) (dual_init false a_window) diverging_leg) !! 0).
Proof. vm_compute. by eexists. Qed.

(** The stream's 200 is not among the closed bars. *)
Lemma closed_bars_come_from_rest_witness :
  exists w, db_heap (runs (db_step default_cold_start_config ticking ∅) (dual_init false a_window) diverging_leg) !! 0 = Some w /\
    Forall (fun b => bar_close b = of_Z 100) (chronological_bars w).
Proof.
  destruct diverging_leg_has_window as [w E]. exists w. split; [exact E|]. revert E.
  apply (closed_bars_come_from_rest default_cold_start_config ticking ∅ (fun b => bar_close b = of_Z 100)).
  - intros a w' Hw. split; [by apply (a_window_ok a)|]. revert Hw. unfold a_window. cbn.
    intros [_ <-]%lookup_singleton_Some. by constructor.
  - assert (answers_in (fun b => bar_close b = of_Z 100) (answering (quarters "BTC" 5))) as Ha.
    { intros symbol tf start until class bars [= <-]. repeat constructor. }
    intros pre e post E. assert (e ∈ diverging_leg) as He by (rewrite E; set_solver).
    revert He. apply Forall_forall. by repeat constructor.
Defined.

(** A leg that is registered anew keeps the gate of its former life. Once verified, a leg that is removed and
    registered again, be it on another symbol of which no bar has been seen, has its entries open at full
    size at once, with its tape still unknown. *)
Lemma new_life_keeps_the_old_gate cfg sid index symbol tf class window params policy d
    (Hv : cold_start_gate_state sid d = STABILIZED_VERIFIED) :
  let d' := register_leg index sid symbol tf class window params policy (unregister_leg sid d) in
  (db_blocks_entry_signals sid d').1 = false /\ (db_cold_start_entry_scale cfg sid d').1 = fone /\
  tape_status sid d' = TAPE_UNKNOWN /\ assoc sid (db_leg_index d') = Some (upper symbol, tf).
Proof.
  cbv zeta. set (d1 := unregister_leg sid d).
  assert (db_gate d1 = db_gate d /\ db_divergent_latches d1 !! sid = None /\ db_tape_status d1 !! sid = None) as (Hg & Hl & Ht).
  { subst d1. unfold unregister_leg. cbv zeta. set (d2 := set_policies _ _).
    assert (db_gate d2 = db_gate d /\ db_divergent_latches d2 !! sid = None /\ db_tape_status d2 !! sid = None) as H2.
    { cbn. by rewrite !lookup_delete_eq. }
    clearbody d2. destruct (assoc sid _); [|done]. destruct (assoc _ _); [|done]. by case_bool_decide. }
  clearbody d1. unfold register_leg. cbv zeta. set (d2 := set_gate _ _).
  assert (is_divergent_latch sid d2 = false) as Hl2.
  { unfold is_divergent_latch. cbn. rewrite Hl. by rewrite lookup_insert_eq. }
  assert (tape_status sid d2 = TAPE_UNKNOWN) as Ht2.
  { unfold tape_status. cbn. rewrite Ht, bool_decide_true, orb_true_r by done. by rewrite lookup_insert_eq. }
  assert (assoc sid (db_leg_index d2) = Some (upper symbol, tf)) as Hi by apply assoc_set_same.
  assert (gate_state sid (db_gate d2) = STABILIZED_VERIFIED) as Hs2.
  { cbn. rewrite Hg. exact Hv. }
  clearbody d2. clear - Hl2 Ht2 Hi Hs2.
  assert (blocks_entry_signals sid (db_gate d2) = (false, db_gate d2)) as Hb by (unfold blocks_entry_signals; by rewrite Hs2).
  assert (cold_start_entry_scale cfg sid (db_gate d2) = (fone, db_gate d2)) as Hsc
    by (unfold cold_start_entry_scale; by rewrite Hs2).
  unfold db_blocks_entry_signals, db_cold_start_entry_scale. rewrite Hl2, Hb, Hsc, Hs2.
  change (tape_status sid (set_gate d2 (db_gate d2))) with (tape_status sid d2). by rewrite Ht2.
Qed.
