(* ===== verification/StatusText.v ===== *)
(** * Reading market-status messages

    The text side of [src/engine/microstructure_guard.py]: condition tokens, the status codes and phrases that
    halt or resume a symbol, and the two regular expressions, each a scanner that finds the matches [finditer]
    finds, in its order. *)

From stdpp Require Import base gmap strings list.
From Stdlib Require Import ZArith Lia Ascii Floats.SpecFloat.
From S2P Require Import Prelude PyFloat.

(** ** Scanning *)

(** What follows the literal [p]. *)
Fixpoint lit_prefix (p s : string) : option string :=
  match p, s with
  | EmptyString, _ => Some s
  | String a p, String b s => if Ascii.eqb a b then lit_prefix p s else None
  | String _ _, EmptyString => None
  end.

Fixpoint skip_while (f : ascii -> bool) (s : string) : string :=
  match s with
  | String c s' => if f c then skip_while f s' else s
  | EmptyString => EmptyString
  end.

Fixpoint take_while (f : ascii -> bool) (s : string) : string :=
  match s with
  | String c s' => if f c then String c (take_while f s') else EmptyString
  | EmptyString => EmptyString
  end.

Definition is_digit (c : ascii) : bool := let n := nat_of_ascii c in (48 <=? n) && (n <=? 57).
Definition is_upper_alnum (c : ascii) : bool :=
  let n := nat_of_ascii c in ((65 <=? n) && (n <=? 90)) || is_digit c.

Definition starts_with (f : ascii -> bool) (s : string) : bool :=
  match s with String c _ => f c | EmptyString => false end.

(** [str.split()]. *)
Fixpoint words (acc s : string) : list string :=
  match s with
  | EmptyString => if truthy acc then [acc] else []
  | String c s =>
      if ascii_space c then (if truthy acc then acc :: words EmptyString s else words EmptyString s)
      else words (acc +:+ String c EmptyString) s
  end.

(** ** Tokens *)

(** [str | list[str] | None]. *)
Inductive conditions := NoConditions | ConditionText (s : string) | ConditionList (l : list string).

Definition normalize_tokens (value : conditions) : gset string :=
  let raw_parts :=
    match value with
    | NoConditions => []
    | ConditionList l => l
    | ConditionText s => words EmptyString (str_map (fun c => if Ascii.eqb c "," then " "%char else c) s)
    end in
  list_to_set (omap (fun part => if truthy (strip part) then Some (upper (strip part)) else None) raw_parts).

Definition token_hits (tokens : gset string) (vocabulary : list string) : bool :=
  existsb (fun t => bool_decide (t ∈ tokens)) vocabulary.

Definition HALT_STATUS_TOKENS : list string :=
  ["H"; "HALT"; "HALTED"; "SUSPENDED"; "PAUSED"; "T1"; "T2"; "T5"; "T12"].
Definition LULD_STATUS_TOKENS : list string :=
  ["LULD"; "LIMIT_UP"; "LIMIT_DOWN"; "LIMITUP"; "LIMITDOWN"; "LU"; "LD"].
Definition RESUME_STATUS_CODES : list string := ["ACTIVE"; "RESUME"; "RESUMED"; "NORMAL"].
Definition HALT_CONDITION_TOKENS : list string := ["H"; "HALT"; "HALTED"].
Definition LULD_CONDITION_TOKENS : list string := ["L"; "LU"; "LD"; "LULD"].

(** ** A status message *)

Record status_text := mkStatus {
  st_code : string;
  st_message : string;
  st_reason_code : string;
  st_reason_message : string
}.

Definition is_resume_status (t : status_text) : bool :=
  if bool_decide (upper (strip (st_code t)) ∈ RESUME_STATUS_CODES) then true
  else
    let text := upper (st_message t +:+ " " +:+ st_reason_message t) in
    existsb (fun phrase => str_contains phrase text)
      ["TRADING RESUMED"; "RESUME TRADING"; "HALT CANCELLED"; "HALT LIFTED"].

Definition NEGATION_PREFIXES : list string := ["NOT "; "NO "; "NEVER "; "UN"; "NON-"; "NON "].

(** [TRADING\s+w]. *)
Definition trading_word (w s : string) : option string :=
  match lit_prefix "TRADING" s with
  | Some r => if starts_with ascii_space r then lit_prefix w (skip_while ascii_space r) else None
  | None => None
  end.

(** What follows a match of [_HALT_PHRASE_RE] that begins here, its lookbehind aside: of the alternatives the
    first that ends at the end of a word. *)
Definition halt_phrase (s : string) : option string :=
  hd_error (List.filter (fun r => negb (starts_with is_upper_alnum r))
    (omap (fun o => o) [trading_word "HALTED" s; trading_word "HALT" s; lit_prefix "HALTED" s;
                        lit_prefix "SUSPENDED" s; trading_word "SUSPENSION" s])).

(** The text before a match is kept last character first. *)
Fixpoint drop_blanks (l : list ascii) : list ascii :=
  match l with
  | c :: l' => if ascii_space c then drop_blanks l' else l
  | [] => []
  end.
Definition ends_with (p : string) (preceding : list ascii) : bool :=
  bool_decide (take (String.length p) preceding = reverse (Stdlib.Strings.String.list_ascii_of_string p)).

Definition negated (preceding : list ascii) : bool :=
  let tail := drop_blanks preceding in
  existsb (fun p => if bool_decide (p ∈ ["UN"; "NON-"]) then ends_with p preceding
                    else ends_with (strip p) tail && (length tail <? length preceding)%nat) NEGATION_PREFIXES.

(** Some match of the phrase is not negated; [skip] characters belong to the last match. *)
Fixpoint halt_phrase_found (preceding : list ascii) (skip : nat) (s : string) : bool :=
  match s with
  | EmptyString => false
  | String c s' =>
      match skip with
      | S skip => halt_phrase_found (c :: preceding) skip s'
      | O =>
          match (if match preceding with p :: _ => is_upper_alnum p | [] => false end then None else halt_phrase s) with
          | None => halt_phrase_found (c :: preceding) 0 s'
          | Some rest =>
              if negated preceding
              then halt_phrase_found (c :: preceding) (String.length s' - String.length rest) s'
              else true
          end
      end
  end.

Definition is_halt_status (t : status_text) : bool :=
  if bool_decide (upper (strip (st_code t)) ∈ HALT_STATUS_TOKENS) then true
  else if bool_decide (upper (strip (st_reason_code t)) ∈ HALT_STATUS_TOKENS) then true
  else existsb (fun text => halt_phrase_found [] 0 (upper text)) [st_message t; st_reason_message t].

Definition is_luld_status (t : status_text) : bool :=
  let tokens := normalize_tokens (ConditionList [st_code t; st_message t; st_reason_code t; st_reason_message t]) in
  if token_hits tokens LULD_STATUS_TOKENS then true
  else
    let text := upper (st_code t +:+ " " +:+ st_message t +:+ " " +:+ st_reason_code t +:+ " " +:+ st_reason_message t) in
    existsb (fun term => str_contains term text) LULD_STATUS_TOKENS.

(** ** The prices of a band *)

Fixpoint digits_value (acc : Z) (s : string) : Z :=
  match s with
  | String c s => digits_value (acc * 10 + Z.of_nat (nat_of_ascii c - 48)) s
  | EmptyString => acc
  end.

(** [float] of digits, [k] of them after the point: the quotient of two integers, rounded once. *)
Definition decimal (n : Z) (k : nat) : float :=
  match n, (10 ^ Z.of_nat k)%Z with
  | Z.pos p, Z.pos q => fdiv (S754_finite false p 0) (S754_finite false q 0)
  | _, _ => fzero
  end.

(** [limit[\s_-]*(?:up|down)|luld|band], in lower case. *)
Definition band_word (s : string) : option string :=
  match lit_prefix "limit" s with
  | Some r =>
      let r := skip_while (fun c => ascii_space c || Ascii.eqb c "_" || Ascii.eqb c "-") r in
      match lit_prefix "up" r with Some r => Some r | None => lit_prefix "down" r end
  | None => match lit_prefix "luld" s with Some r => Some r | None => lit_prefix "band" s end
  end.

(** [[^\d]*(\d+(?:\.\d+)?)] after the word: the number and what follows. *)
Definition band_number (s : string) : option (float * string) :=
  let r := skip_while (fun c => negb (is_digit c)) s in
  let whole := take_while is_digit r in
  if negb (truthy whole) then None
  else
    let rest := skip_while is_digit r in
    let fraction := match rest with String c r => if Ascii.eqb c "." then take_while is_digit r else "" | EmptyString => "" end in
    if truthy fraction
    then Some (decimal (digits_value 0 (whole +:+ fraction)) (String.length fraction),
               match rest with String _ r => skip_while is_digit r | EmptyString => "" end)
    else Some (decimal (digits_value 0 whole) 0, rest).

Fixpoint band_prices_from (skip : nat) (s : string) : list float :=
  match s with
  | EmptyString => []
  | String _ s' =>
      match skip with
      | S skip => band_prices_from skip s'
      | O => match band_word s ≫= band_number with
             | Some (x, rest) => x :: band_prices_from (String.length s' - String.length rest) s'
             | None => band_prices_from 0 s'
             end
      end
  end.

(** The numbers [_LULD_BAND_RE.finditer] finds. *)
Definition band_prices (text : string) : list float := band_prices_from 0 (lower text).

(** ** What the detectors take for a halt *)

Lemma negations_are_read :
  is_halt_status (mkStatus "" "Trading Halted" "" "") = true /\
  is_halt_status (mkStatus "" "Trading is NOT halted" "" "") = false /\
  is_halt_status (mkStatus "" "Trading is not currently halted" "" "") = true /\
  is_halt_status (mkStatus "" "symbol un-halted; UNHALTED" "" "") = true /\
  is_halt_status (mkStatus "T" "UNHALTED, non-halted" "" "") = false.
Proof. repeat split; vm_compute; reflexivity. Qed.

(** The negations are not tested at the start of a word: a name that ends in NO hides the halt. *)
Lemma name_hides_halt : is_halt_status (mkStatus "" "Casino halted" "" "") = false.
Proof. vm_compute. reflexivity. Qed.

(** A halt that says when trading will go on reads as a resume. *)
Lemma halt_reads_as_resume :
  is_resume_status (mkStatus "H" "Halted, will resume trading at 10:30" "T1" "") = true.
Proof. vm_compute. reflexivity. Qed.

(** LU and LD are looked for anywhere in the text: an ordinary word puts the symbol in a limit band. *)
Lemma words_read_as_bands :
  is_luld_status (mkStatus "ACTIVE" "Trading resumed; quotes held since open" "" "") = true /\
  is_luld_status (mkStatus "H" "Unusual volume" "" "") = true.
Proof. split; vm_compute; reflexivity. Qed.

Lemma band_prices_examples :
  band_prices "LULD band 12.50 - 13.25, limit down: 9" = [lit 125 1; of_Z 9] /\
  band_prices "limit up 101.1" = [lit 1011 1].
Proof. split; vm_compute; reflexivity. Qed.
