(* ===== verification/Microstructure.v ===== *)
(** * The microstructure guard

    [src/engine/microstructure_guard.py] over the quotes of [src/ingestor/level1_depth_cache.py]: what the stream says
    of a symbol, the halt latch with its recovery, the limit bands, and the verdict on entries. The messages are read
    by [StatusText]. Every method holds the guard's lock, but for the depth cache's own; a call reads one moment, in
    microseconds. *)

From stdpp Require Import base gmap strings list.
From Stdlib Require Import ZArith Lia.
From S2P Require Import Prelude PyFloat StatusText.

(** ** The depth cache *)

Definition DEPTH_STALE_SECONDS : float := of_Z 5.

Record Level1DepthQuote := mkDepthQuote {
  dq_symbol : string;
  dq_bid_price : float; dq_ask_price : float;
  dq_bid_size : float; dq_ask_size : float;
  dq_timestamp : Z;
  dq_source : string
}.

Definition mid_price (q : Level1DepthQuote) : float :=
  if fltb fzero (dq_bid_price q) && fltb fzero (dq_ask_price q)
  then fdiv (fadd (dq_bid_price q) (dq_ask_price q)) (of_Z 2)
  else py_max (py_max (dq_bid_price q) (dq_ask_price q)) fzero.

Definition spread_pct (q : Level1DepthQuote) : float :=
  let mid := mid_price q in
  if fleb mid fzero then fzero else fdiv (py_max (fsub (dq_ask_price q) (dq_bid_price q)) fzero) mid.

Definition total_depth (q : Level1DepthQuote) : float :=
  fadd (py_max (dq_bid_size q) fzero) (py_max (dq_ask_size q) fzero).

Definition age_seconds (now : Z) (q : Level1DepthQuote) : float :=
  py_max (total_seconds (now - dq_timestamp q)) fzero.

Definition is_stale (max_age : float) (now : Z) (q : Level1DepthQuote) : bool :=
  fltb (py_max max_age fzero) (age_seconds now q).

Notation Level1DepthCache := (gmap string Level1DepthQuote).

Definition depth_update (symbol : string) (bid ask bid_size ask_size : float) (timestamp : Z) (source : string)
    (c : Level1DepthCache) : Level1DepthQuote * Level1DepthCache :=
  let q := mkDepthQuote (upper symbol) (py_max bid fzero) (py_max ask fzero) (py_max bid_size fzero)
             (py_max ask_size fzero) timestamp source in
  (q, <[dq_symbol q := q]> c).

Definition depth_get (symbol : string) (c : Level1DepthCache) : option Level1DepthQuote := c !! upper symbol.

(** ** A symbol's state *)

Definition DEFAULT_MAX_ALLOWED_SPREAD_PCT : float := Eval vm_compute in lit 15 3.
Definition DEFAULT_MAX_QUOTE_STALE_SECONDS : float := Eval vm_compute in of_Z 5.
Definition DEFAULT_FRESH_BAR_WINDOW_SECONDS : float := Eval vm_compute in of_Z 120.
Definition DEFAULT_HALT_RECOVERY_CONFIRMATION_SECONDS : float := Eval vm_compute in of_Z 60.

Record MicrostructureGuardConfig := mkMsConfig {
  max_allowed_spread_pct : float;
  max_quote_stale_seconds : float;
  fresh_bar_window_seconds : float;
  halt_recovery_confirmation_seconds : float
}.

Definition default_ms_config : MicrostructureGuardConfig :=
  mkMsConfig DEFAULT_MAX_ALLOWED_SPREAD_PCT DEFAULT_MAX_QUOTE_STALE_SECONDS DEFAULT_FRESH_BAR_WINDOW_SECONDS
    DEFAULT_HALT_RECOVERY_CONFIRMATION_SECONDS.

(** What set the latch; the code keeps its rendering as text. *)
Inductive halt_trigger := NoTrigger | ByQuote (tokens : gset string) | ByTrade (tokens : gset string) | ByStatus (t : status_text).

Record SymbolMicrostructureState := mkMs {
  ms_halt : bool;
  ms_luld_active : bool;
  ms_luld_upper : option float;
  ms_luld_lower : option float;
  ms_status_code : string;
  ms_status_message : string;
  ms_status_ts : option Z;
  ms_quote_ts : option Z;
  ms_bar_ts : option Z;
  ms_trade_ts : option Z;
  ms_bid : float;
  ms_ask : float;
  ms_trade_price : float;
  ms_spread : float;
  ms_quote_conditions : gset string;
  ms_trade_conditions : gset string;
  ms_latched_at : option Z;
  ms_trigger : halt_trigger;
  ms_since : option Z                     (* halt_clear_candidate_since *)
}.

Definition ms_init : SymbolMicrostructureState :=
  mkMs false false None None "" "" None None None None fzero fzero fzero fzero ∅ ∅ None NoTrigger None.

Section Setters.
Context (s : SymbolMicrostructureState).
Definition set_halt (halt : bool) (at_ : option Z) (trigger : halt_trigger) (since : option Z) :=
  mkMs halt (ms_luld_active s) (ms_luld_upper s) (ms_luld_lower s) (ms_status_code s) (ms_status_message s)
    (ms_status_ts s) (ms_quote_ts s) (ms_bar_ts s) (ms_trade_ts s) (ms_bid s) (ms_ask s) (ms_trade_price s)
    (ms_spread s) (ms_quote_conditions s) (ms_trade_conditions s) at_ trigger since.
Definition set_luld (active : bool) (up low : option float) :=
  mkMs (ms_halt s) active up low (ms_status_code s) (ms_status_message s)
    (ms_status_ts s) (ms_quote_ts s) (ms_bar_ts s) (ms_trade_ts s) (ms_bid s) (ms_ask s) (ms_trade_price s)
    (ms_spread s) (ms_quote_conditions s) (ms_trade_conditions s) (ms_latched_at s) (ms_trigger s) (ms_since s).
Definition set_status (code message : string) (ts : Z) :=
  mkMs (ms_halt s) (ms_luld_active s) (ms_luld_upper s) (ms_luld_lower s) code message
    (Some ts) (ms_quote_ts s) (ms_bar_ts s) (ms_trade_ts s) (ms_bid s) (ms_ask s) (ms_trade_price s)
    (ms_spread s) (ms_quote_conditions s) (ms_trade_conditions s) (ms_latched_at s) (ms_trigger s) (ms_since s).
Definition set_quote (ts : Z) (bid ask spread : float) (conditions : gset string) :=
  mkMs (ms_halt s) (ms_luld_active s) (ms_luld_upper s) (ms_luld_lower s) (ms_status_code s) (ms_status_message s)
    (ms_status_ts s) (Some ts) (ms_bar_ts s) (ms_trade_ts s) bid ask (ms_trade_price s)
    spread conditions (ms_trade_conditions s) (ms_latched_at s) (ms_trigger s) (ms_since s).
Definition set_trade (ts : Z) (price : float) (conditions : gset string) :=
  mkMs (ms_halt s) (ms_luld_active s) (ms_luld_upper s) (ms_luld_lower s) (ms_status_code s) (ms_status_message s)
    (ms_status_ts s) (ms_quote_ts s) (ms_bar_ts s) (Some ts) (ms_bid s) (ms_ask s) price
    (ms_spread s) (ms_quote_conditions s) conditions (ms_latched_at s) (ms_trigger s) (ms_since s).
Definition set_bar (ts : Z) :=
  mkMs (ms_halt s) (ms_luld_active s) (ms_luld_upper s) (ms_luld_lower s) (ms_status_code s) (ms_status_message s)
    (ms_status_ts s) (ms_quote_ts s) (Some ts) (ms_trade_ts s) (ms_bid s) (ms_ask s) (ms_trade_price s)
    (ms_spread s) (ms_quote_conditions s) (ms_trade_conditions s) (ms_latched_at s) (ms_trigger s) (ms_since s).
End Setters.

(** ** The halt latch *)

Definition latch_halt (trigger : halt_trigger) (ts : Z) (s : SymbolMicrostructureState) : SymbolMicrostructureState :=
  if ms_halt s then set_halt s true (ms_latched_at s) (ms_trigger s) None else set_halt s true (Some ts) trigger None.

Definition clear_halt (s : SymbolMicrostructureState) : SymbolMicrostructureState :=
  if negb (ms_halt s) then set_halt s (ms_halt s) (ms_latched_at s) (ms_trigger s) None
  else set_halt s false None NoTrigger None.

Section Guard.
Context (cfg : MicrostructureGuardConfig).

Definition tradeable (s : SymbolMicrostructureState) (tokens : gset string) : bool :=
  fltb fzero (ms_bid s) && fltb fzero (ms_ask s) && fleb (ms_spread s) (max_allowed_spread_pct cfg) &&
  negb (token_hits tokens HALT_CONDITION_TOKENS) && negb (token_hits tokens LULD_CONDITION_TOKENS).

Definition set_since (since : option Z) (s : SymbolMicrostructureState) : SymbolMicrostructureState :=
  set_halt s (ms_halt s) (ms_latched_at s) (ms_trigger s) since.

Definition note_recovery_evidence (ts : Z) (tokens : gset string) (s : SymbolMicrostructureState)
    : SymbolMicrostructureState :=
  if negb (ms_halt s) then set_since None s
  else if negb (tradeable s tokens) then set_since None s
  else match ms_since s with None => set_since (Some ts) s | Some _ => s end.

Definition maybe_recover_halt (reference : Z) (quote_is_stale : bool) (s : SymbolMicrostructureState)
    : SymbolMicrostructureState :=
  if negb (ms_halt s) then s
  else if quote_is_stale || bool_decide (ms_quote_ts s = None) then set_since None s
  else match ms_since s with
  | None => s
  | Some since =>
      if fltb (total_seconds (reference - since)) (halt_recovery_confirmation_seconds cfg) then s else clear_halt s
  end.

(** ** What the stream says *)

Definition tokens_with_tape (c : conditions) (tape : option string) : gset string :=
  match tape with
  | Some t => if truthy t then {[upper t]} ∪ normalize_tokens c else normalize_tokens c
  | None => normalize_tokens c
  end.

Definition quote_spread (bid ask : float) : float :=
  let mid := if fltb fzero bid && fltb fzero ask then fdiv (fadd bid ask) (of_Z 2) else fzero in
  if fltb fzero mid then fdiv (py_max (fsub ask bid) fzero) mid else fzero.

Definition latch_on (tokens : gset string) (trigger : halt_trigger) (ts : Z) (s : SymbolMicrostructureState)
    : SymbolMicrostructureState :=
  let s := if token_hits tokens HALT_CONDITION_TOKENS then latch_halt trigger ts s else s in
  if token_hits tokens LULD_CONDITION_TOKENS then set_luld s true (ms_luld_upper s) (ms_luld_lower s) else s.

Definition quote_state (bid ask : float) (ts : Z) (c : conditions) (tape : option string)
    (s : SymbolMicrostructureState) : SymbolMicrostructureState :=
  let tokens := normalize_tokens c in
  let s := set_quote s ts (py_max bid fzero) (py_max ask fzero) (quote_spread bid ask) (tokens_with_tape c tape) in
  note_recovery_evidence ts tokens (latch_on tokens (ByQuote tokens) ts s).

Definition trade_state (price : float) (ts : Z) (c : conditions) (tape : option string)
    (s : SymbolMicrostructureState) : SymbolMicrostructureState :=
  let tokens := normalize_tokens c in
  latch_on tokens (ByTrade tokens) ts (set_trade s ts (py_max price fzero) (tokens_with_tape c tape)).

(** The bands a message names: those it gives, then those its texts hold, in what is still free. *)
Definition positive (x : option float) (d : option float) : option float :=
  match x with Some p => if fltb fzero p then Some p else d | None => d end.
Definition note_band (s : SymbolMicrostructureState) (price : float) : SymbolMicrostructureState :=
  match ms_luld_lower s, ms_luld_upper s with
  | None, _ => set_luld s (ms_luld_active s) (ms_luld_upper s) (Some price)
  | Some _, None => set_luld s (ms_luld_active s) (Some price) (ms_luld_lower s)
  | Some _, Some _ => s
  end.

Definition status_state (t : status_text) (limit_up limit_down : option float) (ts : Z)
    (s : SymbolMicrostructureState) : SymbolMicrostructureState :=
  let s := set_status s (st_code t) (st_message t) ts in
  let s := set_luld s (ms_luld_active s) (positive limit_up (ms_luld_upper s)) (positive limit_down (ms_luld_lower s)) in
  let s := fold_left note_band (band_prices (st_message t) ++ band_prices (st_reason_message t)) s in
  let s :=
    if is_resume_status t then
      let s := clear_halt s in set_luld s false (ms_luld_upper s) (ms_luld_lower s)
    else if is_halt_status t then latch_halt (ByStatus t) ts s else s in
  if is_luld_status t then set_luld s true (ms_luld_upper s) (ms_luld_lower s) else s.

(** ** The verdict *)

Record MicrostructureVerdict := mkMsVerdict {
  vd_symbol : string;
  vd_safe_for_entries : bool;
  vd_blocks_entries : bool;
  vd_halt_status : bool;
  vd_luld_active : bool;
  vd_realized_spread_pct : float;
  vd_stale_quote_detected : bool;
  vd_quote_age_seconds : option float;
  vd_reason : string
}.

(** Spread, time, bid and ask: the depth cache's quote when it has one. *)
Definition quote_view (depth : option Level1DepthQuote) (s : SymbolMicrostructureState) : float * option Z * float * float :=
  match depth with
  | Some q => (spread_pct q, Some (dq_timestamp q), dq_bid_price q, dq_ask_price q)
  | None => (ms_spread s, ms_quote_ts s, ms_bid s, ms_ask s)
  end.

Definition quote_age (reference : Z) (ts : option Z) : option float :=
  option_map (fun t => py_max (total_seconds (reference - t)) fzero) ts.

(** A quote is stale only beside a fresh bar. *)
Definition stale_quote (reference : Z) (bar : option Z) (age : option float) : bool :=
  match bar, age with
  | Some b, Some age =>
      fleb (py_max (total_seconds (reference - b)) fzero) (fresh_bar_window_seconds cfg) &&
      fltb (max_quote_stale_seconds cfg) age
  | _, _ => false
  end.

Definition unobservable (reference : Z) (depth : option Level1DepthQuote) (s : SymbolMicrostructureState) : bool :=
  let '(spread, ts, _, _) := quote_view depth s in
  stale_quote reference (ms_bar_ts s) (quote_age reference ts) || fltb (max_allowed_spread_pct cfg) spread.

Definition luld_breach (bid ask : float) (s : SymbolMicrostructureState) : bool :=
  match ms_luld_upper s, ms_luld_lower s with
  | Some up, Some low =>
      let price := if fltb fzero bid && fltb fzero ask then fdiv (fadd bid ask) (of_Z 2)
                   else if fltb fzero (ms_trade_price s) then ms_trade_price s else fzero in
      ms_luld_active s && fltb fzero price && (fleb up price || fleb price low)
  | _, _ => false
  end.

Definition evaluate_state (symbol : string) (reference : Z) (depth : option Level1DepthQuote)
    (s : SymbolMicrostructureState) : MicrostructureVerdict * SymbolMicrostructureState :=
  let '(spread, ts, bid, ask) := quote_view depth s in
  let age := quote_age reference ts in
  let stale := stale_quote reference (ms_bar_ts s) age in
  let exceeded := fltb (max_allowed_spread_pct cfg) spread in
  let s' := maybe_recover_halt reference (stale || exceeded) s in
  let luld := ms_luld_active s in
  let breach := luld_breach bid ask s in
  let blocks := ms_halt s' || exceeded || stale || luld || breach in
  (mkMsVerdict symbol (negb blocks) blocks (ms_halt s') (luld || breach) spread stale age
     (if ms_halt s' then "regulatory_halt" else if exceeded then "spread_exceeded" else if stale then "stale_quote"
      else if luld || breach then "luld_band" else ""), s').

(** ** The guard *)

Record MicrostructureGuard := mkMsGuard {
  mg_states : gmap string SymbolMicrostructureState;
  mg_depth : Level1DepthCache
}.

Definition ms_guard_init : MicrostructureGuard := mkMsGuard ∅ ∅.

Definition state_of (s : string) (g : MicrostructureGuard) : SymbolMicrostructureState :=
  default ms_init (mg_states g !! s).
Definition put_state (s : string) (x : SymbolMicrostructureState) (g : MicrostructureGuard) : MicrostructureGuard :=
  mkMsGuard (<[s := x]> (mg_states g)) (mg_depth g).

Definition note_stream_bar (symbol : string) (ts : Z) (g : MicrostructureGuard) : MicrostructureGuard :=
  let s := upper symbol in put_state s (set_bar (state_of s g) ts) g.
Definition note_quote (symbol : string) (bid ask : float) (ts : Z) (c : conditions) (tape : option string)
    (g : MicrostructureGuard) : MicrostructureGuard :=
  let s := upper symbol in put_state s (quote_state bid ask ts c tape (state_of s g)) g.
Definition note_trade (symbol : string) (price : float) (ts : Z) (c : conditions) (tape : option string)
    (g : MicrostructureGuard) : MicrostructureGuard :=
  let s := upper symbol in put_state s (trade_state price ts c tape (state_of s g)) g.
Definition note_trading_status (symbol : string) (t : status_text) (limit_up limit_down : option float) (ts : Z)
    (g : MicrostructureGuard) : MicrostructureGuard :=
  let s := upper symbol in put_state s (status_state t limit_up limit_down ts (state_of s g)) g.

Definition evaluate (symbol : string) (now : Z) (g : MicrostructureGuard) : MicrostructureVerdict * MicrostructureGuard :=
  let s := upper symbol in
  let '(v, x) := evaluate_state s now (depth_get s (mg_depth g)) (state_of s g) in (v, put_state s x g).

Definition ms_blocks_entry_signals (symbol : string) (now : Z) (g : MicrostructureGuard) : bool * MicrostructureGuard :=
  let '(v, g) := evaluate symbol now g in (vd_blocks_entries v, g).

(** The unsafe and the tracked symbols; [now] is what the clock reads at each. *)
Definition ms_telemetry_snapshot (now : string -> Z) (g : MicrostructureGuard)
    : (list string * list string) * MicrostructureGuard :=
  let symbols := sorted_strings (dom (mg_states g)) in
  let '(unsafe, g) :=
    fold_left (fun acc s => let '(v, g) := evaluate s (now s) acc.2 in
                 (if vd_blocks_entries v then acc.1 ++ [s] else acc.1, g)) symbols ([], g) in
  ((unsafe, symbols), g).

Inductive ms_event :=
  | EvMsBar (symbol : string) (ts : Z)
  | EvMsQuote (symbol : string) (bid ask : float) (ts : Z) (c : conditions) (tape : option string)
  | EvMsTrade (symbol : string) (price : float) (ts : Z) (c : conditions) (tape : option string)
  | EvMsStatus (symbol : string) (t : status_text) (limit_up limit_down : option float) (ts : Z)
  | EvMsEvaluate (symbol : string) (now : Z)
  | EvMsDepth (symbol : string) (bid ask bid_size ask_size : float) (ts : Z) (source : string).

Definition ms_step (g : MicrostructureGuard) (e : ms_event) : MicrostructureGuard :=
  match e with
  | EvMsBar symbol ts => note_stream_bar symbol ts g
  | EvMsQuote symbol bid ask ts c tape => note_quote symbol bid ask ts c tape g
  | EvMsTrade symbol price ts c tape => note_trade symbol price ts c tape g
  | EvMsStatus symbol t up low ts => note_trading_status symbol t up low ts g
  | EvMsEvaluate symbol now => (evaluate symbol now g).2
  | EvMsDepth symbol bid ask bsize asize ts source =>
      mkMsGuard (mg_states g) (depth_update symbol bid ask bsize asize ts source (mg_depth g)).2
  end.
End Guard.

(** ** The halt latch along a history *)

Section Latch.
Context (cfg : MicrostructureGuardConfig) (s : string).

Definition about (e : ms_event) : Prop :=
  match e with
  | EvMsBar x _ | EvMsQuote x _ _ _ _ _ | EvMsTrade x _ _ _ _ | EvMsStatus x _ _ _ _ | EvMsEvaluate x _ => upper x = s
  | EvMsDepth _ _ _ _ _ _ _ => False
  end.

#[export] Instance about_dec e : Decision (about e).
Proof. destruct e; simpl; apply _. Defined.

(** The event done to the symbol's own state. *)
Definition own_step (depth : option Level1DepthQuote) (x : SymbolMicrostructureState) (e : ms_event)
    : SymbolMicrostructureState :=
  match e with
  | EvMsBar _ ts => set_bar x ts
  | EvMsQuote _ bid ask ts c tape => quote_state cfg bid ask ts c tape x
  | EvMsTrade _ price ts c tape => trade_state price ts c tape x
  | EvMsStatus _ t up low ts => status_state t up low ts x
  | EvMsEvaluate sym now => (evaluate_state cfg s now depth x).2
  | EvMsDepth _ _ _ _ _ _ _ => x
  end.

Lemma state_put t x g : state_of s (put_state t x g) = if decide (t = s) then x else state_of s g.
Proof.
  unfold state_of, put_state. cbn. case_decide as E.
  - subst t. by rewrite lookup_insert_eq.
  - by rewrite lookup_insert_ne.
Qed.

Lemma step_own g e :
  state_of s (ms_step cfg g e) =
  if decide (about e) then own_step (depth_get s (mg_depth g)) (state_of s g) e else state_of s g.
Proof.
  destruct e; simpl; unfold note_stream_bar, note_quote, note_trade, note_trading_status, evaluate; cbv zeta;
    rewrite ?state_put; try by repeat case_decide; subst.
  destruct (evaluate_state cfg (upper symbol) now (depth_get (upper symbol) (mg_depth g)) (state_of (upper symbol) g))
    as [v x] eqn:E. cbn [snd]. rewrite state_put. case_decide as Hs; [|done]. subst. by rewrite E.
Qed.

(** The tokens and prices of a quote that speaks for trading. *)
Definition tradeable_quote (bid ask : float) (c : conditions) : bool :=
  fltb fzero (py_max bid fzero) && fltb fzero (py_max ask fzero) &&
  fleb (quote_spread bid ask) (max_allowed_spread_pct cfg) &&
  negb (token_hits (normalize_tokens c) HALT_CONDITION_TOKENS) &&
  negb (token_hits (normalize_tokens c) LULD_CONDITION_TOKENS).

(** What an unbroken run of tradeable quotes allows: of the symbol's own events, quotes like them, trades without
    a halt condition, messages that neither halt nor resume, and looks that could observe it. *)
Definition unbroken (g : MicrostructureGuard) (e : ms_event) : Prop :=
  about e ->
  match e with
  | EvMsQuote _ bid ask _ c _ => tradeable_quote bid ask c = true
  | EvMsTrade _ _ _ c _ => token_hits (normalize_tokens c) HALT_CONDITION_TOKENS = false
  | EvMsStatus _ t _ _ _ => is_resume_status t = false /\ is_halt_status t = false
  | EvMsEvaluate _ now => unobservable cfg now (depth_get s (mg_depth g)) (state_of s g) = false
  | _ => True
  end.

(** The history's last part is an unbroken run that a quote at [c] began. *)
Definition run_since (evs : list ms_event) (c : Z) : Prop :=
  exists pre sym bid ask cond tape post,
    evs = pre ++ EvMsQuote sym bid ask c cond tape :: post /\ upper sym = s /\ tradeable_quote bid ask cond = true /\
    forall mid e rest, post = mid ++ e :: rest ->
      unbroken (runs (ms_step cfg) ms_guard_init (pre ++ EvMsQuote sym bid ask c cond tape :: mid)) e.

Lemma band_keeps l x :
  let y := fold_left note_band l x in
  ms_halt y = ms_halt x /\ ms_since y = ms_since x /\ ms_luld_active y = ms_luld_active x.
Proof.
  cbv zeta. revert x. induction l as [|p l IH]; intros x; [done|]. cbn [fold_left].
  destruct (IH (note_band x p)) as (-> & -> & ->). unfold note_band.
  by destruct (ms_luld_lower x), (ms_luld_upper x).
Qed.

Lemma latch_on_halt tokens trigger ts x :
  let y := latch_on tokens trigger ts x in
  ms_halt y = ms_halt x || token_hits tokens HALT_CONDITION_TOKENS /\
  ms_since y = (if token_hits tokens HALT_CONDITION_TOKENS then None else ms_since x).
Proof.
  cbv zeta. unfold latch_on, latch_halt.
  destruct (token_hits tokens HALT_CONDITION_TOKENS), (token_hits tokens LULD_CONDITION_TOKENS), (ms_halt x) eqn:E;
    cbn; by rewrite ?E, ?orb_false_r.
Qed.

Lemma status_halt t up low ts x :
  let y := status_state t up low ts x in
  ms_halt y = (if is_resume_status t then false else ms_halt x || is_halt_status t) /\
  (is_resume_status t = false -> ms_since y = if is_halt_status t then None else ms_since x).
Proof.
  cbv zeta. unfold status_state. cbv zeta. set (x0 := set_luld (set_status x _ _ _) _ _ _).
  pose proof (band_keeps (band_prices (st_message t) ++ band_prices (st_reason_message t)) x0) as (Hh & Hs & _).
  set (x1 := fold_left _ _ x0) in *. clearbody x1. change (ms_halt x0) with (ms_halt x) in Hh.
  change (ms_since x0) with (ms_since x) in Hs.
  unfold clear_halt, latch_halt.
  destruct (is_resume_status t), (is_halt_status t), (is_luld_status t), (ms_halt x1) eqn:E; cbn; rewrite ?E, <- ?Hh; done.
Qed.

(** A halt that stands after an event, with a run behind it: the event began the run or left it unbroken. *)
Lemma own_since depth x e c :
  about e -> ms_halt (own_step depth x e) = true -> ms_since (own_step depth x e) = Some c ->
  (exists sym bid ask cond tape, e = EvMsQuote sym bid ask c cond tape /\ tradeable_quote bid ask cond = true) \/
  (ms_halt x = true /\ ms_since x = Some c /\
   match e with
   | EvMsQuote _ bid ask _ cond _ => tradeable_quote bid ask cond = true
   | EvMsTrade _ _ _ cond _ => token_hits (normalize_tokens cond) HALT_CONDITION_TOKENS = false
   | EvMsStatus _ t _ _ _ => is_resume_status t = false /\ is_halt_status t = false
   | EvMsEvaluate _ now => unobservable cfg now depth x = false
   | _ => True
   end).
Proof.
  intros Ha. destruct e as [sym ts|sym bid ask ts cond tape|sym price ts cond tape|sym t up low ts|sym now|]; [..|by destruct Ha];
    clear Ha; cbn [own_step].
  - cbn. auto.
  - unfold quote_state. cbv zeta. set (x1 := set_quote _ _ _ _ _ _).
    destruct (latch_on_halt (normalize_tokens cond) (ByQuote (normalize_tokens cond)) ts x1) as [Hh Hs].
    set (x2 := latch_on _ _ _ x1) in *.
    assert (tradeable cfg x2 (normalize_tokens cond) = tradeable_quote bid ask cond) as Ht.
    { subst x2 x1. unfold latch_on, latch_halt. cbn [ms_halt set_quote]. unfold tradeable, tradeable_quote.
      destruct (token_hits (normalize_tokens cond) HALT_CONDITION_TOKENS), (token_hits (normalize_tokens cond) LULD_CONDITION_TOKENS),
        (ms_halt x); reflexivity. }
    clearbody x2. change (ms_halt x1) with (ms_halt x) in Hh. change (ms_since x1) with (ms_since x) in Hs. clear x1.
    unfold note_recovery_evidence. destruct (ms_halt x2) eqn:E2; cbn [negb]; [|done].
    rewrite Ht. destruct (tradeable_quote bid ask cond) eqn:Et; cbn [negb]; [|done].
    assert (token_hits (normalize_tokens cond) HALT_CONDITION_TOKENS = false) as Hn.
    { unfold tradeable_quote in Et. destruct (token_hits _ HALT_CONDITION_TOKENS); [|done]. by rewrite andb_false_r in Et. }
    rewrite Hn in Hh, Hs. rewrite orb_false_r in Hh. destruct (ms_since x2) as [c'|] eqn:Ec.
    + intros _ ?. right. split; [congruence|]. split; [congruence|done].
    + cbn. intros _ [= ->]. left. by eexists _, _, _, _, _.
  - unfold trade_state. cbv zeta. set (x1 := set_trade _ _ _ _).
    destruct (latch_on_halt (normalize_tokens cond) (ByTrade (normalize_tokens cond)) ts x1) as [Hh Hs]. rewrite Hh, Hs.
    change (ms_halt x1) with (ms_halt x). change (ms_since x1) with (ms_since x).
    destruct (token_hits _ HALT_CONDITION_TOKENS); [done|]. rewrite orb_false_r. auto.
  - destruct (status_halt t up low ts x) as [-> Hs]. destruct (is_resume_status t); [done|]. rewrite Hs by done.
    destruct (is_halt_status t); [done|]. rewrite orb_false_r. auto.
  - unfold evaluate_state, unobservable. destruct (quote_view depth x) as [[[spread ts] bid] ask]. cbv zeta. cbn [snd].
    unfold maybe_recover_halt. destruct (ms_halt x) eqn:Eh; cbn [negb]; [|by rewrite Eh].
    destruct (stale_quote _ _ _ _ || _) eqn:Eo; cbn [orb]; [done|]. case_bool_decide; [done|].
    destruct (ms_since x) as [c'|] eqn:Ec; [|congruence]. destruct (fltb (total_seconds _) _); [intros H1 H2; right; split_and!; [congruence|congruence|done]|].
    unfold clear_halt. by rewrite Eh.
Qed.

Lemma halted_run evs c :
  let x := state_of s (runs (ms_step cfg) ms_guard_init evs) in
  ms_halt x = true -> ms_since x = Some c -> run_since evs c.
Proof.
  cbv zeta. induction evs as [|e evs IH] using rev_ind; [done|].
  rewrite runs_snoc. set (g := runs _ _ evs) in *. rewrite step_own.
  assert (Hmore : ms_halt (state_of s g) = true -> ms_since (state_of s g) = Some c -> unbroken g e -> run_since (evs ++ [e]) c).
  { intros Hh Hs Hu. destruct (IH Hh Hs) as (pre & sym & bid & ask & cond & tape & post & E & Hsym & Ht & Hp).
    exists pre, sym, bid, ask, cond, tape, (post ++ [e]). split; [by rewrite E, <- app_assoc|]. split; [done|]. split; [done|].
    intros mid e' rest Em. destruct rest as [|r rest _] using rev_ind.
    - apply app_inj_tail in Em as [-> ->]. by rewrite <- E.
    - rewrite app_comm_cons, app_assoc in Em. apply app_inj_tail in Em as [-> _]. by eapply Hp. }
  case_decide as Ha; [|intros; apply Hmore; [done|done|by intros ?]].
  intros Hh Hs. destruct (own_since _ _ e c Ha Hh Hs) as [(sym & bid & ask & cond & tape & -> & Ht)|(Hh' & Hs' & He)].
  - exists evs, sym, bid, ask, cond, tape, []. split; [done|]. split; [exact Ha|]. split; [done|].
    intros mid e' rest Em. by destruct mid.
  - apply Hmore; [done|done|]. intros _. by destruct e.
Qed.

(** The two ways out of a halt. *)
Lemma own_clears depth x e :
  about e -> ms_halt x = true -> ms_halt (own_step depth x e) = false ->
  (exists sym t up low ts, e = EvMsStatus sym t up low ts /\ is_resume_status t = true) \/
  (exists sym now c, e = EvMsEvaluate sym now /\ unobservable cfg now depth x = false /\ ms_since x = Some c /\
     fltb (total_seconds (now - c)) (halt_recovery_confirmation_seconds cfg) = false).
Proof.
  intros _ Hx. destruct e as [sym ts|sym bid ask ts cond tape|sym price ts cond tape|sym t up low ts|sym now|]; cbn [own_step].
  - cbn. congruence.
  - unfold quote_state. cbv zeta. set (x1 := set_quote _ _ _ _ _ _).
    destruct (latch_on_halt (normalize_tokens cond) (ByQuote (normalize_tokens cond)) ts x1) as [Hh _].
    change (ms_halt x1) with (ms_halt x) in Hh. rewrite Hx in Hh. cbn [orb] in Hh. set (x2 := latch_on _ _ _ x1) in *. clearbody x2. unfold note_recovery_evidence. rewrite Hh. cbn [orb negb].
    destruct (negb _); [cbn; congruence|]. destruct (ms_since x2); cbn; congruence.
  - unfold trade_state. cbv zeta. set (x1 := set_trade _ _ _ _).
    destruct (latch_on_halt (normalize_tokens cond) (ByTrade (normalize_tokens cond)) ts x1) as [-> _].
    change (ms_halt x1) with (ms_halt x). by rewrite Hx.
  - destruct (status_halt t up low ts x) as [-> _]. rewrite Hx. destruct (is_resume_status t) eqn:E; [|done].
    intros _. left. by eexists _, _, _, _, _.
  - unfold evaluate_state, unobservable. destruct (quote_view depth x) as [[[spread ts] bid] ask]. cbv zeta. cbn [snd].
    unfold maybe_recover_halt. rewrite Hx. cbn [negb].
    destruct (stale_quote _ _ _ _ || _) eqn:Eo; cbn [orb]; [cbn; congruence|]. case_bool_decide; [cbn; congruence|].
    destruct (ms_since x) as [c|] eqn:Ec; [|congruence]. destruct (fltb (total_seconds _) _) eqn:El; [congruence|].
    intros _. right. by eexists _, _, _.
  - cbn. congruence.
Qed.
End Latch.

(** ** The bands and the telemetry *)

(** A message that lets a symbol out of its limit band. *)
Definition frees_band (s : string) (e : ms_event) : Prop :=
  match e with
  | EvMsStatus x t _ _ _ => upper x = s /\ is_resume_status t = true /\ is_luld_status t = false
  | _ => False
  end.

Lemma own_luld cfg s depth x e :
  ms_luld_active x = true -> about s e -> ~ frees_band s e -> ms_luld_active (own_step cfg s depth x e) = true.
Proof.
  intros Hx Ha Hf. destruct e as [sym ts|sym bid ask ts cond tape|sym price ts cond tape|sym t up low ts|sym now|]; cbn [own_step].
  - done.
  - unfold quote_state, note_recovery_evidence, latch_on, latch_halt. cbv zeta. split_matches; cbn; done.
  - unfold trade_state, latch_on, latch_halt. cbv zeta. split_matches; cbn; done.
  - unfold status_state. cbv zeta. cbn in Ha, Hf.
    destruct (is_luld_status t) eqn:El; [done|]. destruct (is_resume_status t) eqn:Er; [by destruct Hf|].
    set (x0 := set_luld _ _ _ _).
    pose proof (band_keeps (band_prices (st_message t) ++ band_prices (st_reason_message t)) x0) as (_ & _ & Hl).
    unfold latch_halt. destruct (is_halt_status t); [destruct (ms_halt _)|]; cbn; rewrite Hl; exact Hx.
  - unfold evaluate_state. destruct (quote_view depth x) as [[[spread ts] bid] ask]. cbv zeta. cbn [snd].
    unfold maybe_recover_halt, clear_halt. split_matches; cbn; done.
  - done.
Qed.

(** A band has no recovery of its own: quotes, trades and time do not open it, and every look blocks. *)
Lemma band_blocks_until_resumed cfg s g evs now :
  ms_luld_active (state_of s g) = true -> Forall (fun e => ~ frees_band s e) evs -> upper s = s ->
  let v := (evaluate cfg s now (runs (ms_step cfg) g evs)).1 in
  vd_blocks_entries v = true /\ vd_luld_active v = true.
Proof.
  intros Hg Hevs Hs. assert (ms_luld_active (state_of s (runs (ms_step cfg) g evs)) = true) as Hl.
  { induction Hevs as [|e evs He _ IH] in g, Hg |- *; [done|]. rewrite runs_cons. apply IH. rewrite step_own.
    case_decide; [by apply own_luld|done]. }
  unfold evaluate. cbv zeta. rewrite Hs. set (x := state_of s (runs (ms_step cfg) g evs)) in *. clearbody x.
  unfold evaluate_state.
  match goal with |- context [quote_view ?d x] => destruct (quote_view d x) as [[[spread ts] bid] ask] end.
  cbv zeta. cbn. rewrite Hl. by rewrite !orb_true_r.
Qed.

(** The telemetry is a look at every tracked symbol. *)
Lemma telemetry_looks cfg now g :
  (ms_telemetry_snapshot cfg now g).2 =
  runs (ms_step cfg) g (map (fun s => EvMsEvaluate s (now s)) (sorted_strings (dom (mg_states g)))).
Proof.
  unfold ms_telemetry_snapshot. cbv zeta. set (l := sorted_strings _). clearbody l.
  match goal with |- context [fold_left ?f l ([], g)] =>
    assert (forall l acc, (fold_left f l acc).2 = runs (ms_step cfg) acc.2 (map (fun s => EvMsEvaluate s (now s)) l)) as H end.
  { clear. intros l. induction l as [|s l IH]; intros acc; [done|]. cbn [fold_left map]. rewrite IH, runs_cons. cbn [ms_step].
    by destruct (evaluate cfg s (now s) acc.2). }
  specialize (H l ([], g)). by destruct (fold_left _ l _).
Qed.

(** ** Theorems *)

(** C14: A halt is lifted on evidence. Over any history of the stream and of looks, a halt that stands before an event and
    not after it was lifted by a message that says trading resumes, or by a look that could observe the symbol and
    found behind it an unbroken run of tradeable quotes, begun at a quote at least the confirmation time before: since that
    quote no trade carried a halt condition, no message halted, and no look found a stale quote or a wide spread. *)
Theorem halt_clears_on_evidence cfg s evs e :
  let g := runs (ms_step cfg) ms_guard_init evs in
  ms_halt (state_of s g) = true -> ms_halt (state_of s (ms_step cfg g e)) = false ->
  (exists sym t up low ts, e = EvMsStatus sym t up low ts /\ upper sym = s /\ is_resume_status t = true) \/
  (exists sym now c, e = EvMsEvaluate sym now /\ upper sym = s /\
     unobservable cfg now (depth_get s (mg_depth g)) (state_of s g) = false /\
     fltb (total_seconds (now - c)) (halt_recovery_confirmation_seconds cfg) = false /\ run_since cfg s evs c).
Proof.
  intros g Hh Hc. rewrite step_own in Hc. case_decide as Ha; [|congruence].
  destruct (own_clears cfg s _ _ _ Ha Hh Hc) as [(sym & t & up & low & ts & -> & Hr)|(sym & now & c & -> & Ho & Hs & Hl)].
  - left. by eexists _, _, _, _, _.
  - right. exists sym, now, c. split; [done|]. split; [exact Ha|]. split; [done|]. split; [done|]. by apply halted_run.
Qed.

Definition a_second (n : Z) : Z := (1784500000 + n) * 1000000.
Definition halt_message : ms_event := EvMsStatus "QQQ" (mkStatus "H" "Halted" "T1" "News pending") None None (a_second 0).
Definition good_quote (n : Z) : ms_event := EvMsQuote "QQQ" (lit 1000 1) (lit 1001 1) (a_second n) (ConditionText "R") (Some "C").
Definition recovering : list ms_event :=
  [halt_message; EvMsBar "QQQ" (a_second 1); good_quote 2; EvMsEvaluate "QQQ" (a_second 3); good_quote 30; good_quote 61].

Lemma halt_clears_on_evidence_witness : exists c, run_since default_ms_config "QQQ" recovering c.
Proof.
  destruct (halt_clears_on_evidence default_ms_config "QQQ" recovering (EvMsEvaluate "QQQ" (a_second 63))
    ltac:(vm_compute; reflexivity) ltac:(vm_compute; reflexivity))
    as [(sym & t & up & low & ts & E & _)|(sym & now & c & _ & _ & _ & _ & Hr)]; [discriminate E|by exists c].
Defined.

(** Silence lifts a halt. A quote counts as stale only beside a fresh bar, so once the bars stop too the latch
    clears on time alone: after a single tradeable quote a halted symbol of which nothing more is heard is safe for
    entries, however old that quote is, at the first look after the confirmation time that finds no fresh bar. *)
Theorem silence_lifts_the_halt cfg s g bid ask c cond tape now
    (Hs : upper s = s)
    (Hhalt : ms_halt (state_of s g) = true) (Hrun : ms_since (state_of s g) = None)
    (Hband : ms_luld_active (state_of s g) = false) (Hdepth : mg_depth g !! s = None)
    (Hquote : tradeable_quote cfg bid ask cond = true)
    (Hwide : fltb (max_allowed_spread_pct cfg) (quote_spread bid ask) = false)
    (Hbars : forall b, ms_bar_ts (state_of s g) = Some b ->
               fleb (py_max (total_seconds (now - b)) fzero) (fresh_bar_window_seconds cfg) = false)
    (Hlong : fltb (total_seconds (now - c)) (halt_recovery_confirmation_seconds cfg) = false) :
  let g' := note_quote cfg s bid ask c cond tape g in
  ms_halt (state_of s g') = true /\
  vd_safe_for_entries (evaluate cfg s now g').1 = true /\ ms_halt (state_of s (evaluate cfg s now g').2) = false.
Proof.
  cbv zeta. unfold note_quote. cbv zeta. rewrite Hs. set (x := state_of s g) in *.
  set (y := quote_state cfg bid ask c cond tape x).
  assert (ms_halt y = true /\ ms_since y = Some c /\ ms_luld_active y = false /\ ms_spread y = quote_spread bid ask /\
          ms_quote_ts y = Some c /\ ms_bar_ts y = ms_bar_ts x) as (Eh & Es & El & Ep & Et & Eb).
  { subst y. unfold quote_state. cbv zeta. unfold tradeable_quote in Hquote. unfold latch_on.
    destruct (token_hits (normalize_tokens cond) HALT_CONDITION_TOKENS) eqn:E1; [by rewrite andb_false_r in Hquote|].
    destruct (token_hits (normalize_tokens cond) LULD_CONDITION_TOKENS) eqn:E2; [by rewrite andb_false_r in Hquote|].
    unfold note_recovery_evidence. cbn [ms_halt set_quote ms_since]. rewrite Hhalt, Hrun. cbn [negb].
    unfold tradeable. cbn [ms_bid ms_ask ms_spread set_quote]. rewrite E1, E2, Hquote. cbn. by rewrite Hband. }
  rewrite state_put, decide_True by done. split; [exact Eh|].
  unfold evaluate. cbv zeta. rewrite Hs, state_put, decide_True by done.
  change (mg_depth (put_state s y g)) with (mg_depth g). unfold depth_get. rewrite Hs, Hdepth.
  unfold evaluate_state. cbn [quote_view]. cbv zeta. rewrite Ep, Hwide, Et, Eb, El.
  assert (stale_quote cfg now (ms_bar_ts x) (quote_age now (Some c)) = false) as ->.
  { unfold stale_quote. destruct (ms_bar_ts x) as [b|]; [|done]. cbn. by rewrite Hbars. }
  unfold maybe_recover_halt. rewrite Eh, Et, Es. cbn [negb orb]. rewrite bool_decide_false by done. rewrite Hlong.
  unfold clear_halt. rewrite Eh. cbn [fst snd negb]. rewrite state_put, decide_True by done. cbn [ms_halt set_halt].
  split; [|done]. cbn. unfold luld_breach. rewrite El. by destruct (ms_luld_upper y), (ms_luld_lower y).
Qed.

(** Halted, one quote two minutes later, and nothing for a day. *)
Lemma silence_lifts_the_halt_witness :
  vd_safe_for_entries (evaluate default_ms_config "QQQ" (a_second 86400)
    (note_quote default_ms_config "QQQ" (lit 1000 1) (lit 1001 1) (a_second 120) (ConditionText "R") None
      (runs (ms_step default_ms_config) ms_guard_init [EvMsBar "QQQ" (a_second (-10)); halt_message]))).1 = true.
Proof.
  refine (proj1 (proj2 (silence_lifts_the_halt default_ms_config "QQQ"
    (runs (ms_step default_ms_config) ms_guard_init [EvMsBar "QQQ" (a_second (-10)); halt_message])
    (lit 1000 1) (lit 1001 1) (a_second 120) (ConditionText "R") None (a_second 86400) _ _ _ _ _ _ _ _ _))).
  - reflexivity.
  - vm_compute. reflexivity.
  - vm_compute. reflexivity.
  - vm_compute. reflexivity.
  - vm_compute. reflexivity.
  - vm_compute. reflexivity.
  - vm_compute. reflexivity.
  - intros b Hb. vm_compute in Hb. injection Hb as <-. vm_compute. reflexivity.
  - vm_compute. reflexivity.
Defined.
