(* ===== verification/TelemetryGate.v ===== *)
(** * The capital gate

    [src/engine/telemetry_gate.py]: the broker's telemetry (connectivity, margin, buying power, API budget, rejects)
    as constraints on the next cycle, with an emergency that cuts the position size and, in a storm of rejects, blocks
    entries. The module [src/router/risk_manager.py] is not in the repository: its functions, thresholds and the
    manager's own state are a class. A call reads the monotonic clock where it says so. *)

From stdpp Require Import base gmap strings list sorting.
From Stdlib Require Import ZArith Lia Sorted.
From S2P Require Import Prelude PyFloat FloatInt Models.

Definition REJECT_STORM_WINDOW_SECONDS : float := Eval vm_compute in of_Z 120.
Definition REJECT_STORM_THRESHOLD : nat := 3.
Definition MARGIN_ALERT_UTILIZATION : float := Eval vm_compute in lit 85 2.
Definition EMERGENCY_POSITION_MULT : float := Eval vm_compute in lit 35 2.
Definition EMERGENCY_BLOCK_ENTRIES_MULT : float := fzero.
Definition REJECT_STORM_POSITION_MULT : float := Eval vm_compute in lit 50 2.
Definition CONSTRAINED_POSITION_MULT : float := Eval vm_compute in lit 75 2.   (* the literal of apply_account_telemetry *)
Definition REJECT_DEQUE_MAXLEN : nat := 32.

(** [RiskManager] and the functions beside it. *)
Class RiskManager := {
  risk_state : Type;
  reset_capital_constraint_cycle : Account -> Z -> risk_state -> risk_state;
  capital_snapshot : risk_state -> option (float * float * Z);    (* margin, buying power per leg, API budget *)
  compute_margin_utilization : Account -> float;
  compute_buying_power_fragmentation : Account -> Z -> float;
  MARGIN_UTILIZATION_CEILING : float;
  BUYING_POWER_FRAGMENTATION_FLOOR : float;
  API_RATE_LOW_WATERMARK : Z
}.

Record CapitalGateSnapshot := mkGateSnapshot {
  cs_margin_utilization : float;
  cs_buying_power_per_leg : float;
  cs_api_budget_remaining : Z;
  cs_connectivity_ok : bool;
  cs_reject_count_window : nat;
  cs_constraint_active : bool;
  cs_emergency_active : bool;
  cs_position_size_multiplier : float;
  cs_block_new_entries : bool;
  cs_reasons : list string                (* joined by a bar in the code *)
}.

Record EmergencyTelemetrySignal := mkEmergencySignal {
  es_emergency_active : bool;
  es_position_size_multiplier : float;
  es_block_new_entries : bool;
  es_reasons : list string;
  es_snapshot : CapitalGateSnapshot
}.

(** A broker update: the keys the gate reads. *)
Record broker_update := mkUpdate {
  bu_event : option string;
  bu_account : option Account;
  bu_margin_utilization : option float;
  bu_buying_power_per_leg : option float;
  bu_connectivity_ok : option bool;
  bu_leg_count : option Z
}.

Section Gate.
Context `{RiskManager}.

Record CapitalGate := mkGate {
  cg_risk : risk_state;
  cg_leg_count : Z;
  cg_connectivity_ok : bool;
  cg_rejects : list float;
  cg_emergency_active : bool;
  cg_emergency_reason : string;
  cg_multiplier : float;
  cg_block_new_entries : bool;
  cg_last_account : option Account
}.

Definition gate_init (r : risk_state) : CapitalGate := mkGate r 1 true [] false "" fone false None.

Definition with_rejects (l : list float) (g : CapitalGate) : CapitalGate :=
  mkGate (cg_risk g) (cg_leg_count g) (cg_connectivity_ok g) l (cg_emergency_active g) (cg_emergency_reason g)
    (cg_multiplier g) (cg_block_new_entries g) (cg_last_account g).
Definition with_connectivity (ok : bool) (g : CapitalGate) : CapitalGate :=
  mkGate (cg_risk g) (cg_leg_count g) ok (cg_rejects g) (cg_emergency_active g) (cg_emergency_reason g)
    (cg_multiplier g) (cg_block_new_entries g) (cg_last_account g).
Definition with_emergency (active : bool) (reason : string) (mult : float) (block : bool) (g : CapitalGate) : CapitalGate :=
  mkGate (cg_risk g) (cg_leg_count g) (cg_connectivity_ok g) (cg_rejects g) active reason mult block (cg_last_account g).
Definition with_account (r : risk_state) (legs : Z) (a : Account) (g : CapitalGate) : CapitalGate :=
  mkGate r legs (cg_connectivity_ok g) (cg_rejects g) (cg_emergency_active g) (cg_emergency_reason g)
    (cg_multiplier g) (cg_block_new_entries g) (Some a).
Definition with_leg_count (legs : Z) (g : CapitalGate) : CapitalGate :=
  mkGate (cg_risk g) legs (cg_connectivity_ok g) (cg_rejects g) (cg_emergency_active g) (cg_emergency_reason g)
    (cg_multiplier g) (cg_block_new_entries g) (cg_last_account g).

Definition activate_emergency (reason : string) (mult : float) (block : bool) (g : CapitalGate) : CapitalGate :=
  with_emergency true reason (py_min (cg_multiplier g) mult) (cg_block_new_entries g || block) g.

Definition reset_emergency (g : CapitalGate) : CapitalGate := with_emergency false "" fone false g.

(** [while q and q[0] < cutoff: q.popleft()]. *)
Fixpoint prune (cutoff : float) (l : list float) : list float :=
  match l with
  | [] => []
  | t :: l' => if fltb t cutoff then prune cutoff l' else l
  end.

Definition prune_reject_window (now : float) (g : CapitalGate) : nat * CapitalGate :=
  let l := prune (fsub now REJECT_STORM_WINDOW_SECONDS) (cg_rejects g) in (length l, with_rejects l g).

(** [float(x or d)]. *)
Definition num_or (x : option float) (d : float) : float :=
  match x with Some f => if ftruthy f then f else d | None => d end.

(** The measurements of an update: its own account, else the last one seen, else its numbers. *)
Definition measured (u : broker_update) (g : CapitalGate) : float * float :=
  match (match bu_account u with Some a => Some a | None => cg_last_account g end) with
  | Some a => (compute_margin_utilization a, compute_buying_power_fragmentation a (cg_leg_count g))
  | None => (num_or (bu_margin_utilization u) fzero, num_or (bu_buying_power_per_leg u) fone)
  end.

Definition api_remaining (g : CapitalGate) : Z :=
  match capital_snapshot (cg_risk g) with Some (_, _, n) => n | None => 0%Z end.

(** What the rejects, the margin and the event make of the emergency, once the margin has been looked at. *)
Definition settle_emergency (event : string) (margin : float) (rejects : nat) (g : CapitalGate) : CapitalGate :=
  if (REJECT_STORM_THRESHOLD <=? rejects) then activate_emergency "reject_storm" REJECT_STORM_POSITION_MULT true g
  else if bool_decide (event = "account_sync") && fltb margin MARGIN_ALERT_UTILIZATION && cg_emergency_active g &&
          bool_decide (cg_emergency_reason g ∈ ["margin_alert"; "reject_storm"])
  then reset_emergency g
  else if negb (bool_decide (event = "order_reject")) && negb (cg_emergency_active g) then reset_emergency g
  else g.

Definition apply_account_telemetry (u : broker_update) (now : float) (g : CapitalGate) : CapitalGateSnapshot * CapitalGate :=
  let '(margin, per_leg) := measured u g in
  let ok := default (cg_connectivity_ok g) (bu_connectivity_ok u) in
  let g := with_connectivity ok g in
  let event := opt_or (bu_event u) "" in
  let api := api_remaining g in
  let alert := fleb MARGIN_ALERT_UTILIZATION margin in
  let g := if alert then activate_emergency "margin_alert" EMERGENCY_POSITION_MULT false g else g in
  let '(rejects, g) := prune_reject_window now g in
  let storm := REJECT_STORM_THRESHOLD <=? rejects in
  let flags := [(negb ok, "connectivity_down"); (fleb MARGIN_UTILIZATION_CEILING margin, "margin_utilization");
                (alert, "margin_alert"); (fltb per_leg BUYING_POWER_FRAGMENTATION_FLOOR, "buying_power_fragmentation");
                ((api <=? API_RATE_LOW_WATERMARK)%Z, "api_rate_limit"); (storm, "reject_storm")] in
  let constraint_active := existsb fst flags in
  let g := settle_emergency event margin rejects g in
  let g := if constraint_active && negb (cg_emergency_active g)
           then with_emergency (cg_emergency_active g) (cg_emergency_reason g)
                  (py_min (cg_multiplier g) CONSTRAINED_POSITION_MULT) (cg_block_new_entries g) g
           else g in
  (mkGateSnapshot margin per_leg api ok rejects (constraint_active || cg_emergency_active g) (cg_emergency_active g)
     (cg_multiplier g) (cg_block_new_entries g)
     (map snd (List.filter fst flags)), g).

Definition reset_cycle (a : Account) (leg_count : Z) (now : float) (g : CapitalGate) : CapitalGateSnapshot * CapitalGate :=
  let legs := Z.max leg_count 1 in
  let g := with_account (reset_capital_constraint_cycle a legs (cg_risk g)) legs a g in
  apply_account_telemetry (mkUpdate (Some "account_sync") (Some a) None None (Some (cg_connectivity_ok g)) None) now g.

(** [at_]: the clock when the reject is noted, [now]: when the window is pruned. *)
Definition note_order_reject (at_ now : float) (g : CapitalGate) : CapitalGateSnapshot * CapitalGate :=
  let g := with_rejects (deque_append REJECT_DEQUE_MAXLEN (cg_rejects g) at_) g in
  apply_account_telemetry (mkUpdate (Some "order_reject") None None None (Some (cg_connectivity_ok g)) None) now g.

Definition apply_emergency_to_max_position (base : float) (g : CapitalGate) : float :=
  if cg_block_new_entries g then fmul base EMERGENCY_BLOCK_ENTRIES_MULT else fmul base (cg_multiplier g).

(** The numbers of a strategy's parameters, and the two keys the gate adds. *)
Definition override_strategy_params (params : gmap string float) (g : CapitalGate)
    : gmap string float * option (bool * string) :=
  if negb (cg_emergency_active g) && fleb fone (cg_multiplier g) then (params, None)
  else (<["max_position_pct" :=
            apply_emergency_to_max_position (default (lit 95 2) (params !! "max_position_pct")) g]> params,
        Some (cg_emergency_active g, cg_emergency_reason g)).

Definition gate_snapshot (now : float) (g : CapitalGate) : CapitalGateSnapshot * CapitalGate :=
  let '(margin, per_leg, api) := default (fzero, fone, 0%Z) (capital_snapshot (cg_risk g)) in
  let '(rejects, g) := prune_reject_window now g in
  (mkGateSnapshot margin per_leg api (cg_connectivity_ok g) rejects (cg_emergency_active g) (cg_emergency_active g)
     (cg_multiplier g) (cg_block_new_entries g) [cg_emergency_reason g], g).

(** ** The bridge *)

Definition to_emergency_signal (s : CapitalGateSnapshot) : EmergencyTelemetrySignal :=
  mkEmergencySignal (cs_emergency_active s) (cs_position_size_multiplier s) (cs_block_new_entries s) (cs_reasons s) s.

Definition ingest_connectivity (connected : bool) (now : float) (g : CapitalGate) : CapitalGateSnapshot * CapitalGate :=
  apply_account_telemetry (mkUpdate (Some "connectivity") None None None (Some connected) None) now
    (with_connectivity connected g).

Definition ingest_account (a : Account) (leg_count : Z) (now : float) (g : CapitalGate) : CapitalGateSnapshot * CapitalGate :=
  reset_cycle a leg_count now (with_leg_count (Z.max leg_count 1) g).

Definition feed_capital_gate_telemetry (u : broker_update) (at_ now : float) (g : CapitalGate)
    : EmergencyTelemetrySignal * CapitalGate :=
  let event := opt_or (bu_event u) "telemetry" in
  let '(s, g) :=
    if bool_decide (event = "order_reject") then note_order_reject at_ now g
    else if bool_decide (event = "connectivity") then ingest_connectivity (default true (bu_connectivity_ok u)) now g
    else match bu_account u with
    | Some a =>
        let legs := match bu_leg_count u with Some n => if (n =? 0)%Z then cg_leg_count g else n | None => cg_leg_count g end in
        ingest_account a legs now g
    | None => apply_account_telemetry u now g
    end in
  (to_emergency_signal s, g).

(** ** Histories

    Each event with the clock's reading, in whole seconds; a reject also with the reading when it was noted. *)

Inductive gate_op :=
  | GReject (at_ : Z)
  | GTelemetry (u : broker_update)
  | GReset (a : Account) (leg_count : Z)
  | GFeed (u : broker_update) (at_ : Z)
  | GConnectivity (ok : bool)
  | GSnapshot.

Definition gate_step (g : CapitalGate) (e : Z * gate_op) : CapitalGate :=
  let now := of_Z e.1 in
  match e.2 with
  | GReject at_ => (note_order_reject (of_Z at_) now g).2
  | GTelemetry u => (apply_account_telemetry u now g).2
  | GReset a n => (reset_cycle a n now g).2
  | GFeed u at_ => (feed_capital_gate_telemetry u (of_Z at_) now g).2
  | GConnectivity ok => (ingest_connectivity ok now g).2
  | GSnapshot => (gate_snapshot now g).2
  end.
End Gate.

(** ** The window of rejects *)

(** The event as a call of [apply_account_telemetry], if it is one. *)
Definition reduce `{RiskManager} (g : CapitalGate) (e : Z * gate_op) : option (broker_update * CapitalGate) :=
  let rejecting at_ := Some (mkUpdate (Some "order_reject") None None None (Some (cg_connectivity_ok g)) None,
                             with_rejects (deque_append REJECT_DEQUE_MAXLEN (cg_rejects g) (of_Z at_)) g) in
  let connected ok := Some (mkUpdate (Some "connectivity") None None None (Some ok) None, with_connectivity ok g) in
  let synced a n :=
    let legs := Z.max n 1 in
    Some (mkUpdate (Some "account_sync") (Some a) None None (Some (cg_connectivity_ok g)) None,
          with_account (reset_capital_constraint_cycle a legs (cg_risk g)) legs a g) in
  match e.2 with
  | GReject at_ => rejecting at_
  | GTelemetry u => Some (u, g)
  | GReset a n => synced a n
  | GFeed u at_ =>
      let event := opt_or (bu_event u) "telemetry" in
      if bool_decide (event = "order_reject") then rejecting at_
      else if bool_decide (event = "connectivity") then connected (default true (bu_connectivity_ok u))
      else match bu_account u with
      | Some a => synced a (match bu_leg_count u with Some n => if (n =? 0)%Z then cg_leg_count g else n
                                                    | None => cg_leg_count g end)
      | None => Some (u, g)
      end
  | GConnectivity ok => connected ok
  | GSnapshot => None
  end.

(** When a reject is noted. *)
Definition noted (e : Z * gate_op) : option Z :=
  match e.2 with
  | GReject at_ => Some at_
  | GFeed u at_ => if bool_decide (opt_or (bu_event u) "telemetry" = "order_reject") then Some at_ else None
  | _ => None
  end.

Definition recent (now : Z) (times : list Z) : nat := length (List.filter (fun t => (now - 120 <=? t)%Z) times).

(** The readings of the clock never go back. *)
Fixpoint clock_ok (last : Z) (evs : list (Z * gate_op)) : Prop :=
  match evs with
  | [] => True
  | e :: evs => (last <= default (e.1) (noted e) <= e.1)%Z /\ (e.1 < 2 ^ 52)%Z /\ clock_ok e.1 evs
  end.

Section Window.
Context `{RiskManager}.

Lemma step_reduce g e :
  gate_step g e = match reduce g e with
                  | Some (u, g1) => (apply_account_telemetry u (of_Z e.1) g1).2
                  | None => (gate_snapshot (of_Z e.1) g).2
                  end.
Proof.
  destruct e as [now []]; try done. unfold gate_step, reduce, feed_capital_gate_telemetry. cbn [fst snd]. cbv zeta.
  case_bool_decide; [unfold note_order_reject; cbv zeta; by destruct (apply_account_telemetry _ _ _)|].
  case_bool_decide; [unfold ingest_connectivity; by destruct (apply_account_telemetry _ _ _)|].
  destruct (bu_account u) as [a|]; [|by destruct (apply_account_telemetry _ _ _)].
  unfold ingest_account, reset_cycle. cbv zeta. set (legs := Z.max _ 1).
  change (with_account (reset_capital_constraint_cycle a legs (cg_risk (with_leg_count legs g))) legs a (with_leg_count legs g))
    with (with_account (reset_capital_constraint_cycle a legs (cg_risk g)) legs a g).
  change (cg_connectivity_ok (with_account (reset_capital_constraint_cycle a legs (cg_risk g)) legs a g)) with (cg_connectivity_ok g).
  by destruct (apply_account_telemetry _ _ _).
Qed.

(** What an update leaves of the window and of the emergency. *)
Lemma apply_spec u now g :
  let m := (measured u g).1 in
  let g1 := if fleb MARGIN_ALERT_UTILIZATION m then activate_emergency "margin_alert" EMERGENCY_POSITION_MULT false g else g in
  let l := prune (fsub now REJECT_STORM_WINDOW_SECONDS) (cg_rejects g) in
  let g2 := settle_emergency (opt_or (bu_event u) "") m (length l) g1 in
  let g' := (apply_account_telemetry u now g).2 in
  cg_rejects g' = l /\ cg_block_new_entries g' = cg_block_new_entries g2 /\
  cg_emergency_active g' = cg_emergency_active g2 /\ cg_emergency_reason g' = cg_emergency_reason g2.
Proof.
  cbv zeta. unfold apply_account_telemetry. destruct (measured u g) as [m b]. cbv zeta. cbn [fst].
  set (g0 := with_connectivity _ g).
  set (g1 := if fleb _ m then activate_emergency _ _ _ g0 else g0).
  set (g1' := if fleb _ m then activate_emergency _ _ _ g else g).
  assert (cg_rejects g1 = cg_rejects g /\ cg_block_new_entries g1 = cg_block_new_entries g1' /\
    cg_emergency_active g1 = cg_emergency_active g1' /\ cg_emergency_reason g1 = cg_emergency_reason g1') as (E1 & E2 & E3 & E4).
  { subst g1 g1'. by destruct (fleb _ m). }
  clearbody g1 g1'. unfold prune_reject_window. rewrite E1. set (l := prune _ _). set (c := existsb fst _). clearbody c.
  set (g3 := settle_emergency _ _ _ (with_rejects l g1)). set (g3' := settle_emergency _ _ _ g1').
  assert (cg_rejects g3 = l /\ cg_block_new_entries g3 = cg_block_new_entries g3' /\
    cg_emergency_active g3 = cg_emergency_active g3' /\ cg_emergency_reason g3 = cg_emergency_reason g3') as (F1 & F2 & F3 & F4).
  { subst g3 g3'. unfold settle_emergency. cbn [cg_emergency_active cg_emergency_reason with_rejects]. rewrite E3, E4.
    destruct (_ <=? _); [cbn; by rewrite E2|]. destruct (_ && _); [done|]. by destruct (_ && _). }
  clearbody g3 g3'. by destruct (c && _).
Qed.

(** The window: the rejects noted since, or as many of them as the deque holds. *)
Definition window_ok (now : Z) (times : list Z) (g : CapitalGate) : Prop :=
  exists old l, times = old ++ l /\ cg_rejects g = map of_Z l /\ StronglySorted Z.le times /\
    Forall (fun t => (0 <= t <= now)%Z) times /\
    (Forall (fun t => (t < now - 120)%Z) old \/ length l = REJECT_DEQUE_MAXLEN).

Lemma prune_times now l :
  (0 <= now < 2 ^ 52)%Z -> StronglySorted Z.le l -> Forall (fun t => (0 <= t <= now)%Z) l ->
  exists k, prune (fsub (of_Z now) REJECT_STORM_WINDOW_SECONDS) (map of_Z l) = map of_Z (drop k l) /\ k <= length l /\
    Forall (fun t => (t < now - 120)%Z) (take k l) /\ Forall (fun t => (now - 120 <= t)%Z) (drop k l).
Proof.
  intros Hnow Hs Hl. change REJECT_STORM_WINDOW_SECONDS with (of_Z 120).
  rewrite fsub_of_Z by (unfold whole; lia).
  induction Hs as [|t l Hs IH Ht]; [by exists 0|]. cbn [prune map]. apply Forall_cons in Hl as [Ht0 Hl].
  rewrite fltb_of_Z by (unfold whole; lia). destruct (Z.ltb_spec t (now - 120)).
  - destruct (IH Hl) as (k & E & Hk & Ho & Hn). exists (S k). cbn. split; [done|]. split; [lia|]. by split; [constructor|].
  - exists 0. split; [done|]. split; [lia|]. split; [constructor|]. constructor; [lia|].
    eapply Forall_impl; [exact Ht|]. intros x Hx. lia.
Qed.

Lemma recent_split now old l :
  Forall (fun t => (t < now - 120)%Z) old -> Forall (fun t => (now - 120 <= t)%Z) l -> recent now (old ++ l) = length l.
Proof.
  intros Ho Hl. unfold recent. rewrite List.filter_app, length_app.
  assert (List.filter (fun t => (now - 120 <=? t)%Z) old = []) as ->.
  { induction Ho as [|t old Ht _ IH]; [done|]. cbn. by rewrite (proj2 (Z.leb_gt _ _)). }
  assert (List.filter (fun t => (now - 120 <=? t)%Z) l = l) as ->; [|done].
  induction Hl as [|t l Ht _ IH]; [done|]. cbn. by rewrite (proj2 (Z.leb_le _ _)), IH.
Qed.

(** Pruning the window at a later time leaves the storm's test what it is on the whole history. *)
Lemma window_prune last now times g l :
  window_ok last times g -> (last <= now < 2 ^ 52)%Z -> (0 <= now)%Z ->
  l = prune (fsub (of_Z now) REJECT_STORM_WINDOW_SECONDS) (cg_rejects g) ->
  (REJECT_STORM_THRESHOLD <= length l <-> REJECT_STORM_THRESHOLD <= recent now times) /\
  forall g', cg_rejects g' = l -> window_ok now times g'.
Proof.
  intros (old & k & -> & Er & Hs & Hb & Hold) Hnow Hpos ->. rewrite Er.
  assert (Forall (fun t => (0 <= t <= now)%Z) (old ++ k)) as Hb'.
  { eapply Forall_impl; [exact Hb|]. cbn. lia. }
  pose proof (proj2 (proj1 (Forall_app _ _ _) Hb')) as Hbk.
  assert (StronglySorted Z.le k) as Hsk by by apply StronglySorted_app_1_r in Hs.
  destruct (prune_times now k ltac:(lia) Hsk Hbk) as (n & E & Hn & Ho & Hd). rewrite E.
  assert (Hcase : Forall (fun t => (t < now - 120)%Z) (old ++ take n k) \/ (n = 0 /\ length k = REJECT_DEQUE_MAXLEN)).
  { destruct Hold as [Hold|Hfull].
    - left. apply Forall_app. split; [|done]. eapply Forall_impl; [exact Hold|]. cbn. lia.
    - destruct n as [|n]; [by right|]. left. apply Forall_app. split; [|done].
      destruct k as [|t k]; [done|]. cbn in Ho. apply Forall_cons in Ho as [Ht _].
      apply Forall_forall. intros x Hx. assert (x <= t)%Z by (apply (StronglySorted_app_1_elem_of _ _ _ _ _ Hs); [done|by left]). lia. }
  split.
  - rewrite length_map. destruct Hcase as [Hc|[-> Hfull]].
    + rewrite <- (take_drop n k) at 2. rewrite app_assoc, recent_split by done. done.
    + change (drop 0 k) with k in *. rewrite Hfull. split; [|unfold REJECT_STORM_THRESHOLD, REJECT_DEQUE_MAXLEN; lia]. intros _.
      unfold recent. rewrite List.filter_app, length_app.
      pose proof (recent_split now [] k (List.Forall_nil _) Hd) as Hr. unfold recent in Hr. cbn [app] in Hr. rewrite Hr, Hfull.
      unfold REJECT_STORM_THRESHOLD, REJECT_DEQUE_MAXLEN. lia.
  - intros g' Eg. exists (old ++ take n k), (drop n k). rewrite <- app_assoc, take_drop. split_and!; try done.
    destruct Hcase as [Hc|[-> Hfull]]; [by left|by right].
Qed.

Lemma window_note last at_ times g :
  window_ok last times g -> (last <= at_)%Z -> (0 <= at_)%Z ->
  window_ok at_ (times ++ [at_]) (with_rejects (deque_append REJECT_DEQUE_MAXLEN (cg_rejects g) (of_Z at_)) g).
Proof.
  intros (old & l & -> & Er & Hs & Hb & Hold) Hat Hpos. unfold deque_append. cbn [cg_rejects with_rejects]. rewrite Er, length_map.
  set (n := S (length l) - REJECT_DEQUE_MAXLEN).
  assert (Hsort : StronglySorted Z.le ((old ++ l) ++ [at_])).
  { apply StronglySorted_app_2; [|done|by repeat constructor]. intros x y Hx ->%list_elem_of_singleton.
    rewrite Forall_forall in Hb. specialize (Hb x Hx). cbn in Hb. lia. }
  assert (Hbound : Forall (fun t => (0 <= t <= at_)%Z) ((old ++ l) ++ [at_])).
  { apply Forall_app. split; [|by repeat constructor]. eapply Forall_impl; [exact Hb|]. cbn. lia. }
  exists (old ++ take n (l ++ [at_])), (drop n (l ++ [at_])). rewrite <- !app_assoc, take_drop. split; [done|].
  split; [change [of_Z at_] with (map of_Z [at_]); by rewrite <- map_app, skipn_map|]. rewrite app_assoc. split; [done|]. split; [done|].
  destruct Hold as [Hold|Hfull].
  - destruct n as [|n'] eqn:En; [left|right].
    + rewrite take_0, app_nil_r. eapply Forall_impl; [exact Hold|]. cbn. lia.
    + rewrite length_drop, length_app. cbn. lia.
  - right. rewrite length_drop, length_app. subst n. rewrite Hfull. done.
Qed.
End Window.

(** ** Histories of a latch

    A flag that a history sets and clears: it is up exactly when something set it and nothing has cleared it since. *)
Section Latch.
Context {S Ev : Type} (step : S -> Ev -> S) (flag : S -> bool) (init : S).
Context (good : list Ev -> Prop) (sets clears : list Ev -> Ev -> Prop).
Context (good_snoc : forall evs e, good (evs ++ [e]) -> good evs).
Context (flag_init : flag init = false).
Context (flag_step : forall evs e, good (evs ++ [e]) ->
  (flag (runs step init (evs ++ [e])) = true <->
   sets evs e \/ (flag (runs step init evs) = true /\ ~ clears evs e))).

Definition up_since (evs : list Ev) : Prop :=
  exists pre e post, evs = pre ++ e :: post /\ sets pre e /\
    forall mid e' rest, post = mid ++ e' :: rest -> ~ clears (pre ++ e :: mid) e'.

Lemma latch_history evs : good evs -> flag (runs step init evs) = true <-> up_since evs.
Proof.
  induction evs as [|e evs IH] using rev_ind; intros Hg.
  - rewrite runs_nil, flag_init. split; [done|]. intros (pre & e & post & E & _). by destruct pre.
  - rewrite (flag_step evs e Hg), (IH (good_snoc _ _ Hg)). split.
    + intros [Hs|[(pre & e0 & post & -> & Hs & Hp) Hn]].
      * exists evs, e, []. split; [done|]. split; [done|]. intros mid e' rest E. by destruct mid.
      * exists pre, e0, (post ++ [e]). split; [by rewrite <- app_assoc|]. split; [done|]. intros mid e' rest E.
        destruct rest as [|r rest _] using rev_ind.
        -- by apply app_inj_tail in E as [-> ->].
        -- rewrite app_comm_cons, app_assoc in E. apply app_inj_tail in E as [-> _]. by eapply Hp.
    + intros (pre & e0 & post & E & Hs & Hp). destruct post as [|p post _] using rev_ind.
      * apply app_inj_tail in E as [-> ->]. by left.
      * rewrite app_comm_cons, app_assoc in E. apply app_inj_tail in E as [-> ->]. right. split.
        -- exists pre, e0, post. split; [done|]. split; [done|]. intros mid e' rest ->. eapply Hp. by rewrite <- app_assoc.
        -- eapply Hp. done.
Qed.
End Latch.

Section History.
Context `{RiskManager}.

(** The event sees a storm: three rejects in the last two minutes. *)
Definition storm (evs : list (Z * gate_op)) (e : Z * gate_op) : Prop :=
  e.2 <> GSnapshot /\ REJECT_STORM_THRESHOLD <= recent e.1 (omap noted (evs ++ [e])).

(** The margin an account sync measures. *)
Definition sync_margin (g : CapitalGate) (e : Z * gate_op) : option float :=
  match reduce g e with
  | Some (u, g1) => if bool_decide (opt_or (bu_event u) "" = "account_sync") then Some (measured u g1).1 else None
  | None => None
  end.

(** An account sync that finds neither a margin alert nor a storm. *)
Definition clean_sync (r : risk_state) (evs : list (Z * gate_op)) (e : Z * gate_op) : Prop :=
  ~ storm evs e /\
  exists m, sync_margin (runs gate_step (gate_init r) evs) e = Some m /\ fltb m MARGIN_ALERT_UTILIZATION = true.

Definition last_time (evs : list (Z * gate_op)) : Z := default 0%Z (fst <$> last evs).

Lemma clock_snoc l evs e :
  clock_ok l (evs ++ [e]) <->
  clock_ok l evs /\ (default l (fst <$> last evs) <= default (e.1) (noted e) <= e.1)%Z /\ (e.1 < 2 ^ 52)%Z.
Proof.
  revert l. induction evs as [|x evs IH]; intros l; [cbn; tauto|]. cbn [app clock_ok]. rewrite IH, last_cons.
  destruct (last evs); cbn; tauto.
Qed.

Lemma reduce_spec g e u g1 :
  reduce g e = Some (u, g1) ->
  cg_rejects g1 = match noted e with
                  | Some at_ => deque_append REJECT_DEQUE_MAXLEN (cg_rejects g) (of_Z at_)
                  | None => cg_rejects g
                  end /\
  cg_block_new_entries g1 = cg_block_new_entries g /\ cg_emergency_active g1 = cg_emergency_active g /\
  cg_emergency_reason g1 = cg_emergency_reason g.
Proof.
  destruct e as [now []]; unfold reduce, noted; cbn [snd]; cbv zeta; try (intros; by simplify_eq).
  case_bool_decide; [intros; by simplify_eq|]. case_bool_decide; [intros; by simplify_eq|].
  destruct (bu_account u0); intros; by simplify_eq.
Qed.

Lemma reduce_snapshot g e : reduce g e = None <-> e.2 = GSnapshot.
Proof.
  destruct e as [now []]; unfold reduce; cbn [snd]; try done.
  case_bool_decide; [done|]. case_bool_decide; [done|]. by destruct (bu_account u).
Qed.

(** What holds of the emergency: it blocks only while it lasts, and it has one of the two reasons. *)
Definition emergency_ok (g : CapitalGate) : Prop :=
  (cg_emergency_active g = false -> cg_block_new_entries g = false) /\
  (cg_emergency_active g = true -> cg_emergency_reason g ∈ ["margin_alert"; "reject_storm"]).

Lemma step_emergency g e u g1 :
  emergency_ok g -> reduce g e = Some (u, g1) ->
  let rejects := length (prune (fsub (of_Z e.1) REJECT_STORM_WINDOW_SECONDS) (cg_rejects g1)) in
  let m := (measured u g1).1 in
  emergency_ok (gate_step g e) /\
  (cg_block_new_entries (gate_step g e) = true <->
   REJECT_STORM_THRESHOLD <= rejects \/
   (cg_block_new_entries g = true /\
    ~ (opt_or (bu_event u) "" = "account_sync" /\ fltb m MARGIN_ALERT_UTILIZATION = true))).
Proof.
  intros [Ho1 Ho2] Er. cbv zeta. rewrite step_reduce, Er. destruct (reduce_spec g e u g1 Er) as (_ & Eb & Ea & Ers).
  destruct (apply_spec u (of_Z e.1) g1) as (_ & Fb & Fa & Fr). unfold emergency_ok. rewrite Fb, Fa, Fr. clear Fb Fa Fr.
  set (n := length _). set (m := (measured u g1).1). unfold settle_emergency.
  assert (Halert : fleb MARGIN_ALERT_UTILIZATION m = true -> fltb m MARGIN_ALERT_UTILIZATION = false).
  { intros Hle. destruct (fltb m _) eqn:E; [|done]. pose proof (fleb_fltb_trans _ _ _ Hle E) as Hc. by rewrite fltb_irrefl in Hc. }
  clearbody n m. rewrite <- Nat.leb_le. rewrite <- Eb. rewrite <- Ea in Ho1, Ho2. rewrite <- Eb in Ho1. rewrite <- Ers in Ho2.
  destruct g1 as [r1 l1 k1 q1 act reason mult block a1]. cbn in Ho1, Ho2. clear Eb Ea Ers Er.
  unfold settle_emergency, activate_emergency, reset_emergency.
  destruct (REJECT_STORM_THRESHOLD <=? n), (fleb MARGIN_ALERT_UTILIZATION m) eqn:Em, act, block, (fltb m MARGIN_ALERT_UTILIZATION) eqn:El;
    cbn; rewrite ?(bool_decide_true _ (Ho2 eq_refl)); cbn; try (by specialize (Ho1 eq_refl)); try (by specialize (Halert eq_refl));
    repeat case_bool_decide; cbn;
    (split; [split; [done|intros ?; first [done|exact (Ho2 eq_refl)|by left|right; by left]]|]);
    (split; [intros ?; first [done|by left|right; split; [done|by intros [??]]]
            |intros [?|[? Hn]]; first [done|exfalso; by apply Hn]]).
Qed.

Lemma step_window last times g e u g1 :
  window_ok last times g -> (0 <= last <= default (e.1) (noted e))%Z -> (default (e.1) (noted e) <= e.1 < 2 ^ 52)%Z ->
  reduce g e = Some (u, g1) ->
  let rejects := length (prune (fsub (of_Z e.1) REJECT_STORM_WINDOW_SECONDS) (cg_rejects g1)) in
  (REJECT_STORM_THRESHOLD <= rejects <-> REJECT_STORM_THRESHOLD <= recent e.1 (times ++ option_list (noted e))) /\
  window_ok e.1 (times ++ option_list (noted e)) (gate_step g e).
Proof.
  intros Hw Hl He Er. cbv zeta. destruct (reduce_spec g e u g1 Er) as (Erej & _).
  rewrite step_reduce, Er. destruct (apply_spec u (of_Z e.1) g1) as (Fr & _).
  assert (exists t, window_ok t (times ++ option_list (noted e)) g1 /\ (t <= e.1)%Z) as (t & Hw1 & Ht).
  { destruct (noted e) as [at_|]; cbn in *.
    - exists at_. split; [|lia]. destruct (window_note last at_ times g Hw ltac:(lia) ltac:(lia)) as (old & l & E1 & E2 & E3).
      exists old, l. split; [done|]. split; [by rewrite Erej|done].
    - exists last. rewrite app_nil_r. split; [|lia]. destruct Hw as (old & l & E1 & E2 & E3). exists old, l.
      split; [done|]. split; [by rewrite Erej|done]. }
  destruct (window_prune t e.1 _ g1 _ Hw1 ltac:(lia) ltac:(lia) eq_refl) as [Hs Hn]. split; [exact Hs|by apply Hn].
Qed.

Lemma snapshot_window last times g now :
  window_ok last times g -> (last <= now < 2 ^ 52)%Z -> (0 <= now)%Z -> window_ok now times (gate_snapshot (of_Z now) g).2.
Proof.
  intros Hw Hl Hp. unfold gate_snapshot. destruct (default _ _) as [[m b] n]. unfold prune_reject_window. cbn [snd].
  destruct (window_prune last now times g _ Hw Hl Hp eq_refl) as [_ Hn]. by apply Hn.
Qed.

Lemma snapshot_emergency g now :
  let g' := (gate_snapshot now g).2 in
  cg_block_new_entries g' = cg_block_new_entries g /\ cg_emergency_active g' = cg_emergency_active g /\
  cg_emergency_reason g' = cg_emergency_reason g.
Proof. cbv zeta. unfold gate_snapshot. by destruct (default _ _) as [[m b] n]. Qed.

Lemma history_ok r evs :
  clock_ok 0 evs ->
  let g := runs gate_step (gate_init r) evs in
  window_ok (last_time evs) (omap noted evs) g /\ (0 <= last_time evs)%Z /\ emergency_ok g.
Proof.
  cbv zeta. induction evs as [|e evs IH] using rev_ind; intros Hc.
  - split; [|split; [done|by split]]. exists [], []. split_and!; try done; [constructor|by left].
  - apply clock_snoc in Hc as (Hc & Hl & Hm). destruct (IH Hc) as (Hw & Hp & He). fold (last_time evs) in Hl.
    rewrite runs_snoc. unfold last_time. rewrite last_snoc, omap_app. cbn [fmap option_fmap option_map default].
    assert (omap noted [e] = option_list (noted e)) as -> by (cbn; by destruct (noted e)).
    destruct (reduce (runs gate_step (gate_init r) evs) e) as [[u g1]|] eqn:Er.
    + destruct (step_window _ _ _ e _ _ Hw ltac:(lia) ltac:(lia) Er) as [_ Hw']. split; [done|]. split; [change (0 <= e.1)%Z; lia|].
      by apply (step_emergency _ _ _ _ He Er).
    + pose proof (proj1 (reduce_snapshot _ _) Er) as Es. destruct e as [now op]. cbn [fst snd] in *. subst op.
      cbn [noted snd default option_list] in *. rewrite app_nil_r. split; [apply (snapshot_window (last_time evs) _ _ now); [done|lia|lia]|].
      split; [change (0 <= now)%Z; lia|].
      destruct (snapshot_emergency (runs gate_step (gate_init r) evs) (of_Z now)) as (E1 & E2 & E3).
      destruct He as [H1 H2]. split; cbn; rewrite ?E1, ?E2, ?E3; done.
Qed.

(** One event of a history on the block of entries. *)
Lemma history_step r evs e :
  clock_ok 0 (evs ++ [e]) ->
  cg_block_new_entries (runs gate_step (gate_init r) (evs ++ [e])) = true <->
  storm evs e \/ (cg_block_new_entries (runs gate_step (gate_init r) evs) = true /\ ~ clean_sync r evs e).
Proof.
  intros Hc. apply clock_snoc in Hc as (Hc & Hl & Hm). destruct (history_ok r evs Hc) as (Hw & Hp & He).
  fold (last_time evs) in Hl. rewrite runs_snoc. set (g := runs gate_step (gate_init r) evs) in *.
  unfold clean_sync, storm, sync_margin. fold g. rewrite omap_app.
  assert (omap noted [e] = option_list (noted e)) as -> by (cbn; by destruct (noted e)).
  destruct (reduce g e) as [[u g1]|] eqn:Er.
  - destruct (step_window _ _ _ e _ _ Hw ltac:(lia) ltac:(lia) Er) as [Hs _].
    destruct (step_emergency _ _ _ _ He Er) as [_ ->]. cbv zeta in Hs. rewrite Hs.
    assert (e.2 <> GSnapshot) as Hne by (intros E; apply (reduce_snapshot g) in E; congruence).
    set (st := REJECT_STORM_THRESHOLD <= _). case_bool_decide as Hev.
    + split.
      * intros [Hst|[Hb Hn]]; [by left|]. right. split; [done|]. intros [_ (m & [= <-] & Hm')]. by apply Hn.
      * intros [[_ Hst]|[Hb Hn]]; [by left|]. destruct (decide st) as [Hst|Hst]; [by left|right]. split; [done|].
        intros [_ Hm']. apply Hn. split; [by intros [_ ?]|by eexists].
    + split.
      * intros [Hst|[Hb Hn]]; [by left|]. right. split; [done|]. by intros [_ (m & ? & _)].
      * intros [[_ Hst]|[Hb Hn]]; [by left|right]. split; [done|]. by intros [? _].
  - pose proof (proj1 (reduce_snapshot _ _) Er) as Es. destruct e as [now op]. cbn in Es |- *. subst op.
    destruct (snapshot_emergency g (of_Z now)) as (E1 & _). cbn. rewrite E1. split.
    + intros Hb. right. split; [done|]. by intros [_ (m & ? & _)].
    + by intros [[? _]|[? _]].
Qed.
End History.

(** C15: Entries are blocked from a storm to a clean sync. Over any history of rejects, updates, account syncs, changes of
    connection and snapshots, on a clock that never goes back, the gate blocks new entries exactly when some event saw
    three rejects in the two minutes before it, and no account sync since then has measured a margin under the alert
    while there was no storm. The deque of 32 rejects never hides one. *)
Theorem entries_blocked_since_storm `{RiskManager} (r : risk_state) evs (Hclock : clock_ok 0 evs) :
  cg_block_new_entries (runs gate_step (gate_init r) evs) = true <-> up_since storm (clean_sync r) evs.
Proof.
  apply (latch_history gate_step cg_block_new_entries (gate_init r) (clock_ok 0)); [|done| |done].
  - by intros l e [? _]%clock_snoc.
  - intros l e. apply history_step.
Qed.

(** A risk manager whose margin is what an account has borrowed of its equity. *)
#[local] Instance borrowed_margin : RiskManager := {|
  risk_state := unit; reset_capital_constraint_cycle := fun _ _ r => r; capital_snapshot := fun _ => Some (fzero, fone, 100%Z);
  compute_margin_utilization := fun a => fsub fone (fdiv (cash a) (equity a)); compute_buying_power_fragmentation := fun _ _ => fone;
  MARGIN_UTILIZATION_CEILING := lit 80 2; BUYING_POWER_FRAGMENTATION_FLOOR := lit 1 1; API_RATE_LOW_WATERMARK := 5%Z |}.

Definition no_state : @risk_state borrowed_margin := tt.

Definition rejected_thrice : list (Z * gate_op) :=
  [(10, GReject 10); (50, GReject 50); (60, GReset (mkAccount (of_Z 100) (of_Z 90) (of_Z 90)) 2); (101, GReject 100)]%Z.

Lemma entries_blocked_since_storm_witness :
  up_since storm (clean_sync no_state) rejected_thrice /\
  ~ up_since storm (clean_sync no_state)
      (rejected_thrice ++ [(300, GReset (mkAccount (of_Z 100) (of_Z 90) (of_Z 90)) 2)]%Z).
Proof.
  split.
  - apply (entries_blocked_since_storm no_state rejected_thrice); [by vm_compute|]. vm_compute. reflexivity.
  - rewrite <- (entries_blocked_since_storm no_state); [|by vm_compute]. vm_compute. discriminate.
Defined.

(** Without an account in the update, a buying power of zero reads as one: the fragmentation is not seen. *)
Lemma zero_buying_power_reads_as_one :
  cs_constraint_active
    (apply_account_telemetry (mkUpdate None None (Some fzero) (Some fzero) (Some true) None) fzero (gate_init no_state)).1 = false /\
  cs_constraint_active
    (apply_account_telemetry (mkUpdate None None (Some fzero) (Some (lit 1 2)) (Some true) None) fzero (gate_init no_state)).1 = true.
Proof. split; vm_compute; reflexivity. Qed.
