(* ===== verification/ExecutionRouting.v ===== *)
(** * Execution feedback, routing urgency and depth

    The tactics of [src/engine/execution_adaptor.py] (its broker-primary reconciliation is in [FillSieve]) and
    [src/engine/depth_router.py]: slippage and markout windows, the posture of an order, the participation cap, the
    level-1 depth behind them, and the residuals of defensive IOC orders. A context, a mapping in the code, is the record
    of the keys that are read; an absent key is [None]. *)

From stdpp Require Import base gmap strings list.
From Stdlib Require Import ZArith Lia Floats.SpecFloat.
From S2P Require Import Prelude PyFloat Models MatrixRing StatusText Microstructure ColdStart.

(** numpy, and the names of [src/router/risk_manager.py], a module that is not in the repository. *)
Class RoutingEnv := {
  re_mean : list float -> float;                    (* of a list that is not empty *)
  re_median : list float -> float;
  re_clip : float -> float -> float -> float;
  THIN_LIQUIDITY_PARTICIPATION_MULT : float;
  realized_slippage_pct : float -> float -> Side -> float;
  resolve_trading_session : Z -> string
}.

Definition MARKOUT_HORIZONS_MINUTES : list Z := [1; 5; 30]%Z.
Definition SLIPPAGE_FEEDBACK_WINDOW : nat := 20.
Definition ALPHA_DECAY_URGENCY_BPS : float := Eval vm_compute in lit 8 0.
Definition BOOK_PRESSURE_PASSIVE_THRESHOLD : float := Eval vm_compute in lit 65 2.
Definition BOOK_PRESSURE_AGGRESSIVE_THRESHOLD : float := Eval vm_compute in lit 35 2.
Definition THIN_LEVEL1_TOTAL_DEPTH : float := Eval vm_compute in lit 50 0.
Definition VOLATILE_SPREAD_PCT : float := Eval vm_compute in lit 15 3.
Definition MIN_EXPECTED_EDGE_BPS : float := Eval vm_compute in lit 5 0.
Definition PARTICIPATION_VOL_LOOKBACK : nat := 40.
Definition PARTICIPATION_VOL_FLOOR_MULT : float := Eval vm_compute in lit 35 2.
Definition PARTICIPATION_VOL_CEILING_MULT : float := Eval vm_compute in lit 1 0.
Definition PARTICIPATION_SIZE_IMPACT_CEILING : float := Eval vm_compute in lit 50 2.
Definition PARTICIPATION_ADV_NOTIONAL_FRACTION : float := Eval vm_compute in lit 2 2.
Definition TINY : float := Eval vm_compute in lit 1 9.
Definition TEN_THOUSAND : float := Eval vm_compute in of_Z 10000.

Inductive DepthConfidence := DC_HIGH | DC_LOW | DC_UNAVAILABLE.
#[export] Instance DepthConfidence_eq_dec : EqDecision DepthConfidence.
Proof. solve_decision. Defined.
Inductive RoutingPosture := PASSIVE_NBBO | BALANCED_IOC | AGGRESSIVE_TAKER.
#[export] Instance RoutingPosture_eq_dec : EqDecision RoutingPosture.
Proof. solve_decision. Defined.
Inductive SizeBucket := SB_MICRO | SB_SMALL | SB_MEDIUM | SB_LARGE.

(** [float(x or d)]. *)
Definition float_or (x : option float) (d : float) : float :=
  match x with Some f => if ftruthy f then f else d | None => d end.
(** [max(0.0, min(1.0, x))]. *)
Definition unit_interval (x : float) : float := py_max fzero (py_min fone x).

Definition classify_order_size_bucket (qty : float) : SizeBucket :=
  let shares := fabs qty in
  if fltb shares (of_Z 50) then SB_MICRO else if fltb shares (of_Z 200) then SB_SMALL
  else if fltb shares (of_Z 1000) then SB_MEDIUM else SB_LARGE.

(** ** Urgency *)

Record ExecutionDriftDiagnostics := mkDrift {
  ed_average_realized_slippage_pct : float;
  ed_modeled_slippage_pct : float;
  ed_drift_multiple : float;
  ed_elevated : bool;
  ed_critical : bool
}.

Record RoutingUrgencyDecision := mkUrgency {
  ru_posture : RoutingPosture;
  ru_aggressiveness : float;
  ru_alpha_decay_bps : float;
  ru_expected_edge_bps : float;
  ru_book_pressure : float;
  ru_reason : string
}.

Definition to_execution_diagnostics (u : RoutingUrgencyDecision) (base : ExecutionDriftDiagnostics) : ExecutionDriftDiagnostics :=
  match ru_posture u with
  | PASSIVE_NBBO => mkDrift (ed_average_realized_slippage_pct base) (ed_modeled_slippage_pct base)
                      (py_max (ed_drift_multiple base) (of_Z 2)) true false
  | AGGRESSIVE_TAKER => mkDrift (ed_average_realized_slippage_pct base) (ed_modeled_slippage_pct base)
                          (py_min (ed_drift_multiple base) (lit 15 1)) false false
  | BALANCED_IOC => base
  end.

Record urgency_context := mkUrgencyContext {
  uc_force_aggressive_ioc : bool;
  uc_depth_confidence : option DepthConfidence;
  uc_expected_edge_bps : option float;
  uc_book_pressure : option float;
  uc_alpha_decay_bps : option float;
  uc_modeled_slippage_bps : option float
}.

Definition emergency_flatten_urgency_context : urgency_context :=
  mkUrgencyContext false None (Some (of_Z 100)) (Some fzero) (Some ALPHA_DECAY_URGENCY_BPS) (Some fzero).

Definition determine_emergency_flatten_urgency : RoutingUrgencyDecision :=
  mkUrgency AGGRESSIVE_TAKER fone ALPHA_DECAY_URGENCY_BPS (of_Z 100) fzero "emergency_flatten_protocol".

(** ** Depth *)

Record DepthRoutingEvaluation := mkDepthEval {
  de_book_pressure : float;
  de_depth_confidence : DepthConfidence;
  de_force_aggressive_ioc : bool;
  de_bid_size : float;
  de_ask_size : float;
  de_spread_pct : float;
  de_depth_source : string
}.

(** The REST snapshot's fields; a missing or null one reads as zero. *)
Record rest_snapshot := mkRest {
  rs_bid_price : option float; rs_ask_price : option float;
  rs_bid_size : option float; rs_ask_size : option float;
  rs_source : option string
}.

Definition compute_book_pressure (bid_size ask_size spread : float) (side : Side) : float :=
  let depth := fadd (py_max bid_size fzero) (py_max ask_size fzero) in
  let imbalance := if fleb depth fzero then lit 5 1
                   else match side with BUY => fdiv ask_size depth | SELL => fdiv bid_size depth end in
  let spread_component := py_min fone (py_max fzero (fdiv spread (lit 2 3))) in
  unit_interval (fadd (fmul (lit 6 1) imbalance) (fmul (lit 4 1) spread_component)).

Record book := mkBook { bk_bid : float; bk_ask : float; bk_bid_size : float; bk_ask_size : float; bk_source : string;
                        bk_confidence : DepthConfidence }.

(** The stream's quote while it is fresh, else the REST snapshot, else nothing. *)
Definition resolve_book (now : Z) (stream : option Level1DepthQuote) (rest : option rest_snapshot) : book :=
  match (match stream with Some q => if is_stale DEPTH_STALE_SECONDS now q then None else Some q | None => None end) with
  | Some q => mkBook (dq_bid_price q) (dq_ask_price q) (dq_bid_size q) (dq_ask_size q) (dq_source q) DC_HIGH
  | None =>
      match rest with
      | Some r =>
          let bid := float_or (rs_bid_price r) fzero in
          let ask := float_or (rs_ask_price r) fzero in
          let bsize := float_or (rs_bid_size r) fzero in
          let asize := float_or (rs_ask_size r) fzero in
          mkBook bid ask bsize asize (opt_or (rs_source r) "rest")
            (if fltb fzero bid || fltb fzero ask
             then if fltb fzero bsize || fltb fzero asize then DC_HIGH else DC_LOW
             else DC_UNAVAILABLE)
      | None => mkBook fzero fzero fzero fzero "unavailable" DC_UNAVAILABLE
      end
  end.

Definition book_spread (b : book) : float :=
  let mid := if fltb fzero (bk_bid b) && fltb fzero (bk_ask b) then fdiv (fadd (bk_bid b) (bk_ask b)) (of_Z 2)
             else py_max (py_max (bk_bid b) (bk_ask b)) fzero in
  if fltb fzero mid then fdiv (py_max (fsub (bk_ask b) (bk_bid b)) fzero) mid else fzero.
Definition book_depth (b : book) : float := fadd (py_max (bk_bid_size b) fzero) (py_max (bk_ask_size b) fzero).

Definition evaluate_level1_depth_routing (now : Z) (side : Side) (stream : option Level1DepthQuote)
    (rest : option rest_snapshot) (thin volatile : float) : DepthRoutingEvaluation :=
  let b := resolve_book now stream rest in
  let spread := book_spread b in
  let depth := book_depth b in
  let '(confidence, force) :=
    if bool_decide (bk_confidence b = DC_UNAVAILABLE) then (DC_UNAVAILABLE, true)
    else if fleb depth fzero then (DC_LOW, true)
    else if fltb depth thin || fleb volatile spread then (DC_LOW, true)
    else (bk_confidence b, false) in
  let pressure := compute_book_pressure (bk_bid_size b) (bk_ask_size b) spread side in
  mkDepthEval (if force then py_min pressure BOOK_PRESSURE_AGGRESSIVE_THRESHOLD else pressure) confidence force
    (bk_bid_size b) (bk_ask_size b) spread (bk_source b).

(** ** The feedback loop *)

Record MarkoutHorizonResult := mkMarkout {
  mk_horizon_minutes : Z; mk_markout_bps : float; mk_reference_price : float; mk_drift_price : float
}.
Record StratifiedMarkoutBreakdown := mkBreakdown {
  sb_session_type : string; sb_size_bucket : SizeBucket; sb_horizons : list MarkoutHorizonResult;
  sb_implementation_shortfall_bps : float
}.
Record SlippageFeedbackRecord := mkFeedback {
  sf_trade_id : string; sf_timestamp : Z; sf_strategy_id : string; sf_symbol : string;
  sf_expected_slippage_pct : float; sf_realized_slippage_pct : float; sf_slippage_delta_pct : float;
  sf_session_type : string; sf_size_bucket : SizeBucket
}.
Record ParticipationCapDecision := mkCap {
  pc_participation_cap_pct : float; pc_vol_impact_scalar : float; pc_size_impact_scalar : float;
  pc_trailing_volume : float; pc_reference_volume : float; pc_thin_liquidity_active : bool
}.

(** [_coerce_side]: a [Side], or a text. *)
Inductive side_value := SideIs (s : Side) | SideText (t : string) | NoSide.
Definition coerce_side (v : side_value) : Side :=
  match v with
  | SideIs s => s
  | SideText t => if bool_decide (lower t ∈ ["buy"; "long"]) then BUY else SELL
  | NoSide => SELL
  end.

Record fill_data := mkFill {
  fl_trade_id : option string; fl_timestamp : Z; fl_strategy_id : option string; fl_symbol : option string;
  fl_side : side_value; fl_qty : option float; fl_expected_price : option float; fl_filled_price : option float;
  fl_expected_slippage_pct : option float; fl_routing_posture : option string; fl_participation_cap_pct : option float;
  fl_metadata : list (string * json)
}.

(** A row of execution_feedback_ledger. *)
Record feedback_row := mkFeedbackRow {
  fr_record : SlippageFeedbackRecord; fr_side : side_value; fr_qty : float; fr_expected_price : float;
  fr_filled_price : float; fr_routing_posture : string; fr_participation_cap_pct : float; fr_metadata : list (string * json);
  fr_markouts : option (float * float * float)
}.

Record ExecutionFeedbackLoop := mkLoop {
  lp_slippage_window : list float;
  lp_markout_window : list float;
  lp_volume_tracks : gmap string (list float);
  lp_ledger : list feedback_row
}.
Definition loop_init : ExecutionFeedbackLoop := mkLoop [] [] ∅ [].

(** [_markout_prices_at_horizons] for one target: the close of the first bar nearest to it, 0 without bars. *)
Definition nearest_step (target : Z) (best : Z * option float) (bar : Z * float) : Z * option float :=
  let delta := Z.abs (bar.1 - target) in if (delta <? best.1)%Z then (delta, Some bar.2) else best.
Definition INT64_MAX : Z := 9223372036854775807.
Definition markout_price (fill_ns : Z) (bars : list (Z * float)) (minutes : Z) : float :=
  default fzero (fold_left (nearest_step (fill_ns + minutes * 60 * 1000000000)) bars (INT64_MAX, None)).2.

Definition markout_of (side : Side) (fill_price drift : float) : float :=
  if fleb drift fzero || fleb fill_price fzero then fzero
  else fmul (fmul (fdiv (fsub drift fill_price) fill_price) (match side with BUY => fone | SELL => fneg fone end)) TEN_THOUSAND.

Section Loop.
Context `{RoutingEnv}.

Definition process_fill (f : fill_data) (l : ExecutionFeedbackLoop) : SlippageFeedbackRecord * ExecutionFeedbackLoop :=
  let expected := float_or (fl_expected_price f) fzero in
  let filled := float_or (fl_filled_price f) fzero in
  let slip := float_or (fl_expected_slippage_pct f) fzero in
  let qty := float_or (fl_qty f) fzero in
  let realized := realized_slippage_pct expected filled (coerce_side (fl_side f)) in
  let r := mkFeedback (opt_or (fl_trade_id f) "") (fl_timestamp f) (opt_or (fl_strategy_id f) "")
             (upper (opt_or (fl_symbol f) "")) slip realized (fsub realized slip)
             (resolve_trading_session (fl_timestamp f)) (classify_order_size_bucket qty) in
  (r, mkLoop (deque_append SLIPPAGE_FEEDBACK_WINDOW (lp_slippage_window l) realized) (lp_markout_window l)
        (lp_volume_tracks l)
        (lp_ledger l ++ [mkFeedbackRow r (fl_side f) qty expected filled (opt_or (fl_routing_posture f) "BALANCED_IOC")
                           (float_or (fl_participation_cap_pct f) fzero) (fl_metadata f) None])).

(** The bars: time and close; a missing close reads as zero. *)
Definition bars_to_arrays (bars : list (Z * option float)) : list (Z * float) :=
  map (fun b => (timestamp_ns b.1, float_or b.2 fzero)) bars.

Definition with_markouts (id : string) (m1 m5 m30 : float) (rows : list feedback_row) : list feedback_row :=
  map (fun r => if bool_decide (sf_trade_id (fr_record r) = id)
                then mkFeedbackRow (fr_record r) (fr_side r) (fr_qty r) (fr_expected_price r) (fr_filled_price r)
                       (fr_routing_posture r) (fr_participation_cap_pct r) (fr_metadata r) (Some (m1, m5, m30))
                else r) rows.

Definition calculate_post_fill_markouts (f : fill_data) (bars : list (Z * option float)) (l : ExecutionFeedbackLoop)
    : StratifiedMarkoutBreakdown * ExecutionFeedbackLoop :=
  let side := coerce_side (fl_side f) in
  let price := float_or (fl_filled_price f) fzero in
  let expected := float_or (fl_expected_price f) price in
  let arrays := bars_to_arrays bars in
  let at_ m := markout_price (timestamp_ns (fl_timestamp f)) arrays m in
  let horizons := map (fun m => mkMarkout m (markout_of side price (at_ m)) price (at_ m)) MARKOUT_HORIZONS_MINUTES in
  let m5 := markout_of side price (at_ 5%Z) in
  let shortfall := if fltb fzero price
                   then fsub (fmul (fabs (fdiv (fsub price expected) price)) TEN_THOUSAND) m5 else fzero in
  let id := opt_or (fl_trade_id f) "" in
  (mkBreakdown (resolve_trading_session (fl_timestamp f)) (classify_order_size_bucket (float_or (fl_qty f) fzero)) horizons shortfall,
   mkLoop (lp_slippage_window l) (deque_append SLIPPAGE_FEEDBACK_WINDOW (lp_markout_window l) m5) (lp_volume_tracks l)
     (if truthy id
      then with_markouts id (markout_of side price (at_ 1%Z)) m5 (markout_of side price (at_ 30%Z)) (lp_ledger l)
      else lp_ledger l)).

Definition alpha_decay_bps (u : urgency_context) (l : ExecutionFeedbackLoop) : float :=
  match lp_markout_window l with
  | [] => py_max fzero (float_or (uc_alpha_decay_bps u) fzero)
  | w => py_max fzero (fneg (re_mean w))
  end.

Definition determine_routing_urgency (u : urgency_context) (l : ExecutionFeedbackLoop) : RoutingUrgencyDecision :=
  let edge := float_or (uc_expected_edge_bps u) fzero in
  if uc_force_aggressive_ioc u then
    mkUrgency BALANCED_IOC fone fzero edge (unit_interval (float_or (uc_book_pressure u) fzero)) "low_confidence_depth_defensive_ioc"
  else
    let confidence := default DC_HIGH (uc_depth_confidence u) in
    let pressure := unit_interval (float_or (uc_book_pressure u) (lit 5 1)) in
    let decay := match uc_alpha_decay_bps u with Some d => d | None => alpha_decay_bps u l end in
    let score := fsub (fsub edge decay) (float_or (uc_modeled_slippage_bps u) (of_Z 5)) in
    if bool_decide (confidence ∈ [DC_LOW; DC_UNAVAILABLE]) then
      mkUrgency BALANCED_IOC fone decay edge pressure "thin_or_missing_depth_defensive_ioc"
    else if fleb ALPHA_DECAY_URGENCY_BPS decay && fleb MIN_EXPECTED_EDGE_BPS edge &&
            fleb pressure BOOK_PRESSURE_AGGRESSIVE_THRESHOLD then
      mkUrgency AGGRESSIVE_TAKER fone decay edge pressure "alpha_decay_with_edge"
    else if fleb BOOK_PRESSURE_PASSIVE_THRESHOLD pressure || fltb score fzero then
      mkUrgency PASSIVE_NBBO (if fleb fzero score then lit 5 1 else lit 35 2) decay edge pressure
        "book_pressure_or_negative_urgency"
    else mkUrgency BALANCED_IOC (lit 75 2) decay edge pressure "balanced_default".

Definition update_volume_track (symbol : string) (volume : float) (l : ExecutionFeedbackLoop) : ExecutionFeedbackLoop :=
  let key := upper symbol in
  mkLoop (lp_slippage_window l) (lp_markout_window l)
    (<[key := deque_append PARTICIPATION_VOL_LOOKBACK (default [] (lp_volume_tracks l !! key)) (py_max volume fzero)]>
       (lp_volume_tracks l)) (lp_ledger l).

Record participation_context := mkParticipation {
  pp_symbol : option string; pp_base_cap_pct : option float; pp_order_notional : option float;
  pp_thin_liquidity_active : bool; pp_trailing_volumes : list float; pp_reference_price : option float
}.

Definition participation_volumes (p : participation_context) (l : ExecutionFeedbackLoop) : list float :=
  match pp_trailing_volumes p with
  | [] => match lp_volume_tracks l !! upper (opt_or (pp_symbol p) "") with
          | None | Some [] => [fzero]
          | Some track => track
          end
  | v => v
  end.

Definition resolve_participation_cap (p : participation_context) (l : ExecutionFeedbackLoop) : ParticipationCapDecision :=
  let base := float_or (pp_base_cap_pct p) (lit 95 2) in
  let notional := float_or (pp_order_notional p) fzero in
  let volumes := participation_volumes p l in
  let trailing := List.last volumes fzero in
  let median := re_median volumes in
  let reference := if fleb median fzero then py_max trailing fone else median in
  let vol := re_clip (fdiv trailing reference) PARTICIPATION_VOL_FLOOR_MULT PARTICIPATION_VOL_CEILING_MULT in
  let adv := fmul reference (float_or (pp_reference_price p) fone) in
  let size_pressure := if fltb fzero adv && fltb fzero notional
                       then py_min PARTICIPATION_SIZE_IMPACT_CEILING
                              (fdiv notional (py_max (fmul adv PARTICIPATION_ADV_NOTIONAL_FRACTION) TINY))
                       else fzero in
  let size := fsub fone size_pressure in
  let cap := fmul (fmul base vol) size in
  let cap := if pp_thin_liquidity_active p then fmul cap THIN_LIQUIDITY_PARTICIPATION_MULT else cap in
  mkCap (py_max fzero (py_min base cap)) vol size trailing reference (pp_thin_liquidity_active p).

Definition average_slippage_delta_bps (l : ExecutionFeedbackLoop) : float :=
  match lp_slippage_window l with [] => fzero | w => fmul (re_mean w) TEN_THOUSAND end.
End Loop.


(** ** The depth router *)

Definition BASE_THIN_BOOK_DEPTH_SHARES : float := Eval vm_compute in lit 50 0.
Definition BASE_VOLATILE_SPREAD_PCT : float := Eval vm_compute in lit 15 3.
Definition ADV_REFERENCE_SHARES : float := Eval vm_compute in of_Z 10000000.
Definition MIN_DEPTH_CUTOFF_SHARES : float := Eval vm_compute in lit 5 0.
Definition MIN_SPREAD_TOLERANCE_PCT : float := Eval vm_compute in lit 2 3.
Definition RTH_MINUTES_PER_DAY : Z := 390.

(** The arguments are numbers: numba compares as Python does. *)
Definition adv_ratio_of (adv_shares : float) : float :=
  py_min (py_max (fdiv adv_shares ADV_REFERENCE_SHARES) (lit 5 2)) fone.
Definition vol_ratio_of (atr_pct : float) : float := py_min (py_max (fdiv atr_pct (lit 2 2)) (lit 5 1)) (of_Z 3).

Definition scale_liquidity_thresholds (adv_shares atr_pct base_depth base_spread : float) : float * float :=
  let adv_ratio := adv_ratio_of adv_shares in
  let vol_ratio := vol_ratio_of atr_pct in
  let cutoff := fdiv (fmul base_depth adv_ratio) vol_ratio in
  let tol := fdiv (fmul base_spread (py_max adv_ratio (lit 25 2))) vol_ratio in
  (if fltb cutoff MIN_DEPTH_CUTOFF_SHARES then MIN_DEPTH_CUTOFF_SHARES else cutoff,
   if fltb tol MIN_SPREAD_TOLERANCE_PCT then MIN_SPREAD_TOLERANCE_PCT else tol).

Record LiquidityThresholds := mkThresholds {
  lt_adv_shares : float; lt_atr_pct : float; lt_thin_book_depth_shares : float; lt_spread_tolerance_pct : float;
  lt_volatility_scalar : float; lt_adv_scalar : float
}.
Record DepthRoutingResult := mkDepthResult {
  dr_evaluation : DepthRoutingEvaluation; dr_thresholds : LiquidityThresholds; dr_total_book_depth : float;
  dr_liquidity_constrained : bool
}.
Record IocResidualAdjustment := mkAdjustment {
  ir_strategy_id : string; ir_symbol : string; ir_requested_qty : float; ir_filled_qty : float; ir_residual_qty : float;
  ir_entry_scale_factor : float
}.
Record IocResidualState := mkResidual { rd_residual_qty : float; rd_entry_scale_factor : float }.
Record DepthRouter := mkRouter {
  rt_base_thin_depth : float; rt_base_spread_pct : float; rt_ioc_residual : gmap string IocResidualState
}.
Definition router_init : DepthRouter := mkRouter BASE_THIN_BOOK_DEPTH_SHARES BASE_VOLATILE_SPREAD_PCT ∅.

(** [volumes[-min(lookback, n):]], which for a [lookback] of zero is the whole series. *)
Definition volume_tail (lookback : nat) (volumes : list float) : list float :=
  match min lookback (length volumes) with
  | O => volumes
  | k => drop (length volumes - k) volumes
  end.

Definition estimate_adv_shares `{RoutingEnv} (volumes : list float) (timeframe asset_class : string) (lookback : nat) : float :=
  match volumes with
  | [] => fmul ADV_REFERENCE_SHARES (lit 1 1)
  | _ =>
      let minutes := of_Z (timeframe_minutes timeframe) in
      let day := if bool_decide (asset_class = "crypto") then of_Z 1440 else of_Z RTH_MINUTES_PER_DAY in
      py_max (fmul (re_mean (volume_tail lookback volumes)) (fdiv day minutes)) fone
  end.

Definition compute_thresholds (adv_shares atr reference_price : float) (asset_class : string) (r : DepthRouter) : LiquidityThresholds :=
  let atr_pct := fdiv (py_max atr fzero) (py_max reference_price TINY) in
  let adv := if bool_decide (asset_class = "crypto") then py_max adv_shares (fmul ADV_REFERENCE_SHARES (lit 1 2))
             else adv_shares in
  let '(cutoff, tol) := scale_liquidity_thresholds adv atr_pct (rt_base_thin_depth r) (rt_base_spread_pct r) in
  mkThresholds adv atr_pct cutoff tol (vol_ratio_of atr_pct) (adv_ratio_of adv).

Definition evaluate_routing (now : Z) (side : Side) (stream : option Level1DepthQuote) (rest : option rest_snapshot)
    (adv_shares atr reference_price : float) (asset_class : string) (r : DepthRouter) : DepthRoutingResult :=
  let t := compute_thresholds adv_shares atr reference_price asset_class r in
  let e := evaluate_level1_depth_routing now side stream rest (lt_thin_book_depth_shares t) (lt_spread_tolerance_pct t) in
  mkDepthResult e t (fadd (py_max (de_bid_size e) fzero) (py_max (de_ask_size e) fzero))
    (de_force_aggressive_ioc e || bool_decide (de_depth_confidence e = DC_UNAVAILABLE)).

(** An order that was not routed as a defensive IOC, or that is not a partial fill, leaves no residual. *)
Definition register_defensive_ioc_partial (strategy_id symbol : string) (requested_qty : float) (result : OrderResult)
    (defensive_ioc : bool) (r : DepthRouter) : option IocResidualAdjustment * DepthRouter :=
  if negb defensive_ioc then (None, r) else
  let requested := py_max requested_qty fzero in
  let filled := py_max (res_qty result) fzero in
  let is_partial := bool_decide (lower (res_status result) = "partially_filled") ||
                    (fltb fzero requested && fltb (fadd filled TINY) requested) in
  if negb is_partial then (None, r) else
  let residual := py_max (fsub requested filled) fzero in
  if fleb residual TINY then (None, r) else
  let scale := py_min (py_max (fdiv filled requested) fzero) fone in
  (Some (mkAdjustment strategy_id (upper symbol) requested filled residual scale),
   mkRouter (rt_base_thin_depth r) (rt_base_spread_pct r) (<[strategy_id := mkResidual residual scale]> (rt_ioc_residual r))).

Definition entry_scale_for_strategy (strategy_id : string) (r : DepthRouter) : float :=
  match rt_ioc_residual r !! strategy_id with None => fone | Some s => rd_entry_scale_factor s end.
Definition residual_qty_for_strategy (strategy_id : string) (r : DepthRouter) : float :=
  match rt_ioc_residual r !! strategy_id with None => fzero | Some s => rd_residual_qty s end.
Definition clear_ioc_residual (strategy_id : string) (r : DepthRouter) : DepthRouter :=
  mkRouter (rt_base_thin_depth r) (rt_base_spread_pct r) (delete strategy_id (rt_ioc_residual r)).

(** ** The REST poller of the crypto symbols *)

(** The poll task: none, running, or ended by an exception. *)
Inductive poll_task := NoTask | TaskRunning | TaskFailed.
#[export] Instance poll_task_eq_dec : EqDecision poll_task.
Proof. solve_decision. Defined.
Record CryptoDepthRestWorker := mkWorker { cw_symbols : list string; cw_task : poll_task }.
Definition worker_init : CryptoDepthRestWorker := mkWorker [] NoTask.

Inductive worker_error := PollError.

(** [stop] cancels the task and awaits it: only the cancellation is caught. *)
Definition worker_stop (w : CryptoDepthRestWorker) : result worker_error () * CryptoDepthRestWorker :=
  match cw_task w with
  | NoTask => (Ok (), w)
  | TaskRunning => (Ok (), mkWorker [] NoTask)
  | TaskFailed => (Raise PollError, w)
  end.

(** [tuple(dict.fromkeys(...))]. *)
Definition from_keys (l : list string) : list string :=
  fold_left (fun acc s => if bool_decide (s ∈ acc) then acc else acc ++ [s]) l [].

Definition sync_symbols (symbols : list string) (w : CryptoDepthRestWorker) : result worker_error () * CryptoDepthRestWorker :=
  let normalized := from_keys (map upper symbols) in
  if bool_decide (normalized = cw_symbols w) && bool_decide (cw_task w = TaskRunning) then (Ok (), w) else
  match worker_stop w with
  | (Raise e, w) => (Raise e, w)
  | (Ok _, w) => (Ok (), mkWorker normalized (match normalized with [] => NoTask | _ => TaskRunning end))
  end.

(** What the fetch of a symbol gives: an exception, nothing, or a snapshot. *)
Definition poll_round (now : Z) (fetch : string -> result worker_error (option rest_snapshot)) (symbols : list string)
    (c : Level1DepthCache) : Level1DepthCache :=
  fold_left (fun c s =>
    match fetch s with
    | Raise _ | Ok None => c
    | Ok (Some r) =>
        let bid := float_or (rs_bid_price r) fzero in
        let ask := float_or (rs_ask_price r) fzero in
        if fleb bid fzero && fleb ask fzero then c
        else (depth_update s bid ask (float_or (rs_bid_size r) fzero) (float_or (rs_ask_size r) fzero) now "rest_crypto" c).2
    end) symbols c.

(** ** Arithmetic *)

Lemma fdiv_not_nan x y :
  isfinite x = true -> isfinite y = true -> feqb y fzero = false -> is_nan (fdiv x y) = false.
Proof.
  destruct x as [[]|[]| |sx mx ex], y as [[]|[]| |sy my ey]; try done; intros _ _ _;
    unfold fdiv, SFdiv;
    match goal with |- context [SFdiv_core_binary ?p ?e ?m1 ?e1 ?m2 ?e2] =>
      assert (0 <= (SFdiv_core_binary p e m1 e1 m2 e2).1.1)%Z as Hm;
      [|destruct (SFdiv_core_binary p e m1 e1 m2 e2) as [[mz ez] lz]; by apply binary_round_aux_sign] end;
    unfold SFdiv_core_binary; cbv zeta;
    match goal with |- context [Z.div_eucl ?a (Z.pos ?b)] =>
      assert (0 <= a)%Z as Ha; [case_match; try done; apply Z.shiftl_nonneg; done|];
      pose proof (Z.div_pos a (Z.pos b) Ha eq_refl) as Hq; unfold Z.div in Hq; destruct (Z.div_eucl a (Z.pos b)); done
    end.
Qed.

(** [min(max(x, 0.0), 1.0)] of a number. *)
Lemma scale_in_unit x : is_nan x = false ->
  fleb fzero (py_min (py_max x fzero) fone) = true /\ fleb (py_min (py_max x fzero) fone) fone = true.
Proof.
  intros Hx. pose proof (py_max_zero_nonneg x Hx) as Hm. assert (is_nan (py_max x fzero) = false) by auto with pyfloat.
  assert (is_nan fone = false) by done. split; [|by apply py_min_le_r].
  unfold py_min. case_match; [done|exact Hm].
Qed.

(** ** The defensive posture *)

(** A context that carries the force or a confidence below high gets the defensive order. *)
Lemma defensive_posture `{RoutingEnv} u l :
  uc_force_aggressive_ioc u = true \/ uc_depth_confidence u = Some DC_LOW \/ uc_depth_confidence u = Some DC_UNAVAILABLE ->
  let d := determine_routing_urgency u l in (ru_posture d, ru_aggressiveness d) = (BALANCED_IOC, fone).
Proof. unfold determine_routing_urgency. intros [-> |[-> | ->]]; [done|by destruct (uc_force_aggressive_ioc u)..]. Qed.

(** When the depth router does not force the order, in the prices and sizes it read. *)
Lemma unforced_iff now side stream rest thin volatile :
  de_force_aggressive_ioc (evaluate_level1_depth_routing now side stream rest thin volatile) = false <->
  exists bid ask bsize asize,
    ((exists q, stream = Some q /\ is_stale DEPTH_STALE_SECONDS now q = false /\
        dq_bid_price q = bid /\ dq_ask_price q = ask /\ dq_bid_size q = bsize /\ dq_ask_size q = asize) \/
     ((forall q, stream = Some q -> is_stale DEPTH_STALE_SECONDS now q = true) /\
      exists x, rest = Some x /\ float_or (rs_bid_price x) fzero = bid /\ float_or (rs_ask_price x) fzero = ask /\
        float_or (rs_bid_size x) fzero = bsize /\ float_or (rs_ask_size x) fzero = asize /\
        (fltb fzero bid || fltb fzero ask) = true)) /\
    let depth := fadd (py_max bsize fzero) (py_max asize fzero) in
    let mid := if fltb fzero bid && fltb fzero ask then fdiv (fadd bid ask) (of_Z 2)
               else py_max (py_max bid ask) fzero in
    let spread := if fltb fzero mid then fdiv (py_max (fsub ask bid) fzero) mid else fzero in
    fleb depth fzero = false /\ fltb depth thin = false /\ fleb volatile spread = false.
Proof.
  assert (forall b, bk_confidence b <> DC_UNAVAILABLE ->
    (let '(_, force) := if bool_decide (bk_confidence b = DC_UNAVAILABLE) then (DC_UNAVAILABLE, true)
       else if fleb (book_depth b) fzero then (DC_LOW, true)
       else if fltb (book_depth b) thin || fleb volatile (book_spread b) then (DC_LOW, true)
       else (bk_confidence b, false) in force = false) <->
    fleb (book_depth b) fzero = false /\ fltb (book_depth b) thin = false /\ fleb volatile (book_spread b) = false) as Hb.
  { intros b Hb. rewrite bool_decide_false by done. destruct (fleb (book_depth b) fzero); [naive_solver|].
    destruct (fltb (book_depth b) thin), (fleb volatile (book_spread b)); naive_solver. }
  unfold evaluate_level1_depth_routing, resolve_book. cbv zeta.
  destruct stream as [q|]; [destruct (is_stale _ _ q) eqn:Hq|].
  2: { specialize (Hb (mkBook (dq_bid_price q) (dq_ask_price q) (dq_bid_size q) (dq_ask_size q) (dq_source q) DC_HIGH) ltac:(done)).
       set (bk := mkBook _ _ _ _ _ _) in *. destruct (if bool_decide _ then _ else _) as [conf force]. cbn [de_force_aggressive_ioc].
       rewrite Hb. split.
       - intros Hd. exists (dq_bid_price q), (dq_ask_price q), (dq_bid_size q), (dq_ask_size q). split; [left; by exists q|exact Hd].
       - intros (bid & ask & bs & az & [(q' & [= <-] & _ & <- & <- & <- & <-)|[Hst _]] & Hd); [exact Hd|].
         by rewrite (Hst q eq_refl) in Hq. }
  all: destruct rest as [x|]; [|split; [done|intros (? & ? & ? & ? & [(? & ? & ? & _)|(_ & ? & ? & _)] & _); congruence]].
  all: set (bid := float_or (rs_bid_price x) fzero); set (ask := float_or (rs_ask_price x) fzero);
    set (bs := float_or (rs_bid_size x) fzero); set (az := float_or (rs_ask_size x) fzero);
    destruct (fltb fzero bid || fltb fzero ask) eqn:Hp;
    [|cbn [bk_confidence]; split; [done|intros (? & ? & ? & ? & [(? & ? & ? & _)|(_ & x' & Hx & <- & <- & _ & _ & Hp')] & _);
        [congruence|injection Hx as <-; fold bid ask in Hp'; congruence]]].
  all: specialize (Hb (mkBook bid ask bs az (opt_or (rs_source x) "rest")
      (if fltb fzero bs || fltb fzero az then DC_HIGH else DC_LOW)) ltac:(cbn; by destruct (fltb fzero bs || fltb fzero az)));
    set (bk := mkBook _ _ _ _ _ _) in *; destruct (if bool_decide _ then _ else _) as [conf force]; cbn [de_force_aggressive_ioc];
    rewrite Hb; split.
  1, 3: intros Hd; exists bid, ask, bs, az; split; [right; split; [by intros q' [= <-]|by exists x]|exact Hd].
  all: intros (? & ? & ? & ? & [(? & ? & ? & _)|(_ & x' & Hx & <- & <- & <- & <- & _)] & Hd); [congruence|injection Hx as <-; exact Hd].
Qed.

(** A forced evaluation. *)
Lemma constrained_evaluation now side stream rest thin volatile :
  let e := evaluate_level1_depth_routing now side stream rest thin volatile in
  de_force_aggressive_ioc e || bool_decide (de_depth_confidence e = DC_UNAVAILABLE) = de_force_aggressive_ioc e /\
  (de_force_aggressive_ioc e = true ->
   (de_depth_confidence e = DC_LOW \/ de_depth_confidence e = DC_UNAVAILABLE) /\
   fltb BOOK_PRESSURE_AGGRESSIVE_THRESHOLD (de_book_pressure e) = false).
Proof.
  cbv zeta. unfold evaluate_level1_depth_routing. cbv zeta. set (b := resolve_book now stream rest).
  assert (forall p, fltb BOOK_PRESSURE_AGGRESSIVE_THRESHOLD (py_min p BOOK_PRESSURE_AGGRESSIVE_THRESHOLD) = false) as Hp.
  { intros p. unfold py_min. destruct (fltb BOOK_PRESSURE_AGGRESSIVE_THRESHOLD p) eqn:E; done. }
  case_bool_decide as Hu; [cbn; auto|]. destruct (fleb _ fzero); [cbn; auto|].
  destruct (fltb (book_depth b) thin || _); cbn; [auto|]. by rewrite bool_decide_false.
Qed.

Lemma thresholds_floor adv atr price asset r :
  let t := compute_thresholds adv atr price asset r in
  fltb (lt_thin_book_depth_shares t) MIN_DEPTH_CUTOFF_SHARES = false /\
  fltb (lt_spread_tolerance_pct t) MIN_SPREAD_TOLERANCE_PCT = false.
Proof.
  cbv zeta. unfold compute_thresholds, scale_liquidity_thresholds. cbv zeta.
  cbn [lt_thin_book_depth_shares lt_spread_tolerance_pct].
  split; match goal with |- fltb (if ?c then _ else _) _ = _ => destruct c eqn:E end; done.
Qed.

(** C13: The depth router leaves an order alone exactly when it has seen a deep book: a fresh quote of the stream, or else a
    REST snapshot with a positive bid or ask, whose depth is not zero or less, not below the cutoff, and whose spread is
    not at or above the tolerance (which a NaN size or price escapes); cutoff and tolerance follow the symbol's volume and
    volatility and are never below five shares and 0.2%. An order it does not leave alone is marked with less than high
    confidence and a pressure no higher than a taker's, and any urgency context that carries the force or the confidence of
    the evaluation is routed as the defensive immediate-or-cancel order at full aggressiveness, whatever the edge, the decay and
    the markouts. (A context that carries neither is routed as if the book were deep.) *)
Theorem unconstrained_means_a_deep_book `{RoutingEnv} now side stream rest adv atr price asset r :
  let res := evaluate_routing now side stream rest adv atr price asset r in
  let e := dr_evaluation res in
  let cutoff := lt_thin_book_depth_shares (dr_thresholds res) in
  let tolerance := lt_spread_tolerance_pct (dr_thresholds res) in
  (dr_liquidity_constrained res = false <->
   exists bid ask bsize asize,
     ((exists q, stream = Some q /\ is_stale DEPTH_STALE_SECONDS now q = false /\
         dq_bid_price q = bid /\ dq_ask_price q = ask /\ dq_bid_size q = bsize /\ dq_ask_size q = asize) \/
      ((forall q, stream = Some q -> is_stale DEPTH_STALE_SECONDS now q = true) /\
       exists x, rest = Some x /\ float_or (rs_bid_price x) fzero = bid /\ float_or (rs_ask_price x) fzero = ask /\
         float_or (rs_bid_size x) fzero = bsize /\ float_or (rs_ask_size x) fzero = asize /\
         (fltb fzero bid || fltb fzero ask) = true)) /\
     let depth := fadd (py_max bsize fzero) (py_max asize fzero) in
     let mid := if fltb fzero bid && fltb fzero ask then fdiv (fadd bid ask) (of_Z 2)
                else py_max (py_max bid ask) fzero in
     let spread := if fltb fzero mid then fdiv (py_max (fsub ask bid) fzero) mid else fzero in
     fleb depth fzero = false /\ fltb depth cutoff = false /\ fleb tolerance spread = false) /\
  fltb cutoff (of_Z 5) = false /\ fltb tolerance (lit 2 3) = false /\
  (dr_liquidity_constrained res = true ->
   de_depth_confidence e <> DC_HIGH /\ fltb BOOK_PRESSURE_AGGRESSIVE_THRESHOLD (de_book_pressure e) = false /\
   forall u l, uc_force_aggressive_ioc u = de_force_aggressive_ioc e \/ uc_depth_confidence u = Some (de_depth_confidence e) ->
     let d := determine_routing_urgency u l in (ru_posture d, ru_aggressiveness d) = (BALANCED_IOC, fone)).
Proof.
  cbv zeta. unfold evaluate_routing. cbv zeta. cbn [dr_evaluation dr_thresholds dr_liquidity_constrained].
  pose proof (thresholds_floor adv atr price asset r) as [Ht1 Ht2]. set (t := compute_thresholds _ _ _ _ _) in *.
  destruct (constrained_evaluation now side stream rest (lt_thin_book_depth_shares t) (lt_spread_tolerance_pct t)) as [E Hc].
  set (e := evaluate_level1_depth_routing _ _ _ _ _ _) in *. rewrite E. split; [subst e; apply unforced_iff|].
  split; [exact Ht1|]. split; [exact Ht2|]. intros Hf. destruct (Hc Hf) as (Hlow & Hp).
  split; [by destruct Hlow as [-> | ->]|]. split; [exact Hp|]. intros u l Hu. apply defensive_posture.
  rewrite Hf in Hu. destruct Hu as [Hu|Hu]; [by left|]. rewrite Hu. destruct Hlow as [-> | ->]; auto.
Qed.

Definition deep_quote : Level1DepthQuote := mkDepthQuote "QQQ" (of_Z 100) (lit 10001 2) (of_Z 100) (of_Z 900) 0 "stream".
#[local] Instance quiet_routing : RoutingEnv := {|
  re_mean := fun _ => fzero; re_median := fun v => List.hd fzero v; re_clip := fun x lo hi => py_min (py_max x lo) hi;
  THIN_LIQUIDITY_PARTICIPATION_MULT := lit 5 1; realized_slippage_pct := fun _ _ _ => fzero;
  resolve_trading_session := fun _ => "RTH" |}.

Lemma unconstrained_means_a_deep_book_witness :
  let res := evaluate_routing 1000000 BUY (Some (mkDepthQuote "QQQ" (of_Z 100) (of_Z 130) (of_Z 100) (of_Z 900) 0 "stream")) None
               ADV_REFERENCE_SHARES fone (of_Z 100) "stock" router_init in
  dr_liquidity_constrained res = true /\ de_depth_confidence (dr_evaluation res) <> DC_HIGH.
Proof.
  cbv zeta. assert (dr_liquidity_constrained (evaluate_routing 1000000 BUY (Some (mkDepthQuote "QQQ" (of_Z 100) (of_Z 130) (of_Z 100)
    (of_Z 900) 0 "stream")) None ADV_REFERENCE_SHARES fone (of_Z 100) "stock" router_init) = true) as Hc by (vm_compute; reflexivity).
  split; [exact Hc|].
  exact (proj1 (proj2 (proj2 (proj2 (unconstrained_means_a_deep_book 1000000 BUY (Some (mkDepthQuote "QQQ" (of_Z 100) (of_Z 130)
    (of_Z 100) (of_Z 900) 0 "stream")) None ADV_REFERENCE_SHARES fone (of_Z 100) "stock" router_init))) Hc)).
Defined.

(** A context without a word on the book is routed as if it were deep, and may be a taker. *)
Lemma missing_depth_reads_as_deep `{RoutingEnv} l :
  let u := mkUrgencyContext false None (Some (of_Z 20)) (Some (lit 2 1)) (Some (of_Z 12)) (Some (of_Z 5)) in
  ru_posture (determine_routing_urgency u l) = AGGRESSIVE_TAKER.
Proof. by vm_compute. Qed.

(** ** Zeros that read as missing *)

(** A book pressure of zero, where a taker finds the most depth, reads as the neutral 0.5. *)
Lemma zero_pressure_reads_as_neutral `{RoutingEnv} u l z :
  uc_force_aggressive_ioc u = false -> uc_book_pressure u = Some z -> feqb z fzero = true ->
  ru_book_pressure (determine_routing_urgency u l) = lit 5 1 /\
  ru_posture (determine_routing_urgency u l) <> AGGRESSIVE_TAKER.
Proof.
  intros Hf Hp Hz. unfold determine_routing_urgency. rewrite Hf, Hp.
  assert (unit_interval (float_or (Some z) (lit 5 1)) = lit 5 1) as ->.
  { unfold float_or, ftruthy. rewrite Hz. by vm_compute. }
  assert (fleb (lit 5 1) BOOK_PRESSURE_AGGRESSIVE_THRESHOLD = false) as -> by done. rewrite andb_false_r. cbv zeta.
  case_bool_decide; [done|]. by case_match.
Qed.

(** So the context written for the emergency flatten, whose pressure is zero, is not routed as a taker. *)
Lemma emergency_context_is_not_a_taker `{RoutingEnv} l :
  ru_posture (determine_routing_urgency emergency_flatten_urgency_context l) <> AGGRESSIVE_TAKER.
Proof. by eapply (zero_pressure_reads_as_neutral _ l fzero). Qed.

(** A buyer's book without an offer has no spread, high confidence, and a pressure of zero. *)
Lemma no_offer_reads_as_no_spread :
  let e := evaluate_level1_depth_routing 0 BUY
             (Some (mkDepthQuote "QQQ" (of_Z 100) fzero (of_Z 500) fzero 0 "stream")) None
             THIN_LEVEL1_TOTAL_DEPTH VOLATILE_SPREAD_PCT in
  de_force_aggressive_ioc e = false /\ de_depth_confidence e = DC_HIGH /\ feqb (de_spread_pct e) fzero = true /\
  feqb (de_book_pressure e) fzero = true.
Proof. repeat split; vm_compute; reflexivity. Qed.

(** A base cap of zero reads as 95%. *)
Lemma zero_base_cap_reads_as_default `{RoutingEnv} p l :
  pp_base_cap_pct p = Some fzero ->
  resolve_participation_cap p l =
  resolve_participation_cap (mkParticipation (pp_symbol p) (Some (lit 95 2)) (pp_order_notional p) (pp_thin_liquidity_active p)
    (pp_trailing_volumes p) (pp_reference_price p)) l.
Proof. intros E. unfold resolve_participation_cap. rewrite E. reflexivity. Qed.

(** ** Bounds *)

(** The participation cap is a number between zero and the base cap, whatever the volumes, the notional and the
    liquidity multiplier are: infinities and NaN included, it never widens what the caller allowed. *)
Theorem participation_cap_bounded `{RoutingEnv} p l base
    (Hbase : float_or (pp_base_cap_pct p) (lit 95 2) = base) (Hnum : fnonneg base = true) :
  let cap := pc_participation_cap_pct (resolve_participation_cap p l) in
  fleb fzero cap = true /\ fleb cap base = true.
Proof.
  cbv zeta. unfold resolve_participation_cap. cbv zeta. rewrite Hbase. cbn [pc_participation_cap_pct].
  match goal with |- context [py_min base ?c] => generalize c; intros cap end.
  split; [apply py_max_zero_first|]. pose proof (fnonneg_not_nan _ Hnum).
  unfold py_max. case_match; [by apply py_min_le_l|exact Hnum].
Qed.

Lemma participation_cap_bounded_witness :
  fleb (pc_participation_cap_pct (resolve_participation_cap
    (mkParticipation (Some "qqq") (Some (lit 5 1)) (Some finf) true [of_Z 100; fnan] None) loop_init)) (lit 5 1) = true.
Proof.
  refine (proj2 (participation_cap_bounded
    (mkParticipation (Some "qqq") (Some (lit 5 1)) (Some finf) true [of_Z 100; fnan] None) loop_init (lit 5 1) _ _));
    vm_compute; reflexivity.
Defined.

(** ** Residuals of defensive orders *)

Inductive router_op :=
| ORegister (strategy_id symbol : string) (requested_qty : float) (result : OrderResult) (defensive_ioc : bool)
| OClear (strategy_id : string).
Definition router_step (r : DepthRouter) (o : router_op) : DepthRouter :=
  match o with
  | ORegister sid sym q res ioc => (register_defensive_ioc_partial sid sym q res ioc r).2
  | OClear sid => clear_ioc_residual sid r
  end.
Definition numbers (o : router_op) : Prop :=
  match o with
  | ORegister _ _ q res _ => isfinite q = true /\ is_nan (res_qty res) = false
  | OClear _ => True
  end.

(** A residual is more than the tolerance, and scales an entry to a share between none and all. *)
Definition sound_residual (s : IocResidualState) : Prop :=
  fltb TINY (rd_residual_qty s) = true /\
  fleb fzero (rd_entry_scale_factor s) = true /\ fleb (rd_entry_scale_factor s) fone = true.

Lemma py_max_finite a b : isfinite a = true -> isfinite b = true -> isfinite (py_max a b) = true.
Proof. unfold py_max. by destruct (fltb a b). Qed.

(** The division by the quantity asked for is never by zero: what is left of it is positive. *)
Lemma residual_sound q f :
  isfinite q = true -> is_nan f = false ->
  let requested := py_max q fzero in
  let filled := py_max f fzero in
  let residual := py_max (fsub requested filled) fzero in
  fleb residual TINY = false ->
  feqb requested fzero = false /\
  sound_residual (mkResidual residual (py_min (py_max (fdiv filled requested) fzero) fone)).
Proof.
  cbv zeta. intros Hq Hf. assert (Fq : isfinite (py_max q fzero) = true) by by apply py_max_finite.
  assert (Nf : fnonneg (py_max f fzero) = true) by by apply py_max_zero_nonneg.
  assert (Nq : fnonneg (py_max q fzero) = true).
  { apply py_max_zero_nonneg. unfold isfinite in Hq. by destruct (is_nan q). }
  revert Fq Nq Nf. generalize (py_max q fzero) (py_max f fzero). clear. intros q f Fq Nq Nf H.
  assert (Ff : isfinite f = true).
  { destruct f as [|[]| |]; try done. by destruct q as [[]|[]| |[] ? ?]. }
  assert (Zq : feqb q fzero = false).
  { destruct q as [[]|[]| |[] ? ?]; try done; destruct f as [[]|[]| |[] ? ?]; try done. }
  split; [done|]. split; [|by apply scale_in_unit, fdiv_not_nan].
  cbn [rd_residual_qty]. assert (is_nan (py_max (fsub q f) fzero) = false) by auto with pyfloat.
  assert (is_nan TINY = false) by done. forder.
Qed.

Lemma router_step_sound r o :
  numbers o -> map_Forall (fun _ => sound_residual) (rt_ioc_residual r) ->
  map_Forall (fun _ => sound_residual) (rt_ioc_residual (router_step r o)).
Proof.
  intros Ho Hr. destruct o as [sid sym q res ioc|sid]; cbn; [|by apply map_Forall_delete].
  destruct Ho as [Hq Hf]. unfold register_defensive_ioc_partial. cbv zeta.
  destruct ioc; [|done]. cbn [negb]. destruct (bool_decide _ || _); [|done]. cbn [negb].
  destruct (fleb _ TINY) eqn:E; [done|]. cbn [snd rt_ioc_residual]. apply map_Forall_insert_2; [|done].
  by apply residual_sound.
Qed.

(** Whatever fills defensive orders got, a strategy's next entry is scaled by a share between zero and one, and a strategy
    without a residual by exactly one; nothing divides by zero. *)
Theorem entry_scale_in_unit ops sid (Hops : Forall numbers ops) :
  let r := fold_left router_step ops router_init in
  fleb fzero (entry_scale_for_strategy sid r) = true /\ fleb (entry_scale_for_strategy sid r) fone = true /\
  (residual_qty_for_strategy sid r = fzero /\ entry_scale_for_strategy sid r = fone \/
   fltb TINY (residual_qty_for_strategy sid r) = true).
Proof.
  cbv zeta. assert (Hr : map_Forall (fun _ => sound_residual) (rt_ioc_residual (fold_left router_step ops router_init))).
  { assert (map_Forall (fun _ => sound_residual) (rt_ioc_residual router_init)) as H0 by apply map_Forall_empty.
    revert H0. generalize router_init. induction Hops; intros r Hr; cbn; auto using router_step_sound. }
  unfold entry_scale_for_strategy, residual_qty_for_strategy. destruct (_ !! sid) as [s|] eqn:E.
  - destruct (Hr _ _ E) as (? & ? & ?). auto.
  - split_and!; [done..|]. by left.
Qed.

Definition four_of_ten : list router_op :=
  [ORegister "leg_a" "QQQ" (of_Z 10) (mkOrderResult "QQQ" BUY (of_Z 4) (lit 1001 1) 0 None "partially_filled") true].

Lemma entry_scale_in_unit_witness :
  entry_scale_for_strategy "leg_a" (fold_left router_step four_of_ten router_init) = lit 4 1 /\
  fleb (entry_scale_for_strategy "leg_a" (fold_left router_step four_of_ten router_init)) fone = true.
Proof.
  split; [vm_compute; reflexivity|].
  refine (proj1 (proj2 (entry_scale_in_unit four_of_ten "leg_a" _))). repeat constructor.
Defined.

(** A full fill of a later defensive order keeps the residual of the one before: only [clear_ioc_residual] drops it. *)
Lemma full_fill_keeps_the_residual sid sym q res r :
  fleb (py_max (fsub (py_max q fzero) (py_max (res_qty res) fzero)) fzero) TINY = true ->
  (register_defensive_ioc_partial sid sym q res true r).2 = r.
Proof. intros E. unfold register_defensive_ioc_partial. cbv zeta. rewrite E. cbn. by case_match. Qed.

(** ** Markouts and the poller *)

(** The bar of a horizon is the nearest one, the first of those as near, however far it is. *)
Lemma nearest_fold target bars best :
  let r := fold_left (nearest_step target) bars best in
  (r = best /\ Forall (fun b => best.1 <= Z.abs (b.1 - target))%Z bars) \/
  exists pre t c post, bars = pre ++ (t, c) :: post /\ r = (Z.abs (t - target), Some c)%Z /\ (Z.abs (t - target) < best.1)%Z /\
    Forall (fun b => Z.abs (t - target) < Z.abs (b.1 - target))%Z pre /\
    Forall (fun b => Z.abs (t - target) <= Z.abs (b.1 - target))%Z post.
Proof.
  revert best. induction bars as [|[t c] bars IH]; intros best; [by left|]. cbn [fold_left].
  assert (nearest_step target best (t, c) = if (Z.abs (t - target) <? best.1)%Z then (Z.abs (t - target), Some c)%Z else best)
    as -> by done. destruct (Z.ltb_spec (Z.abs (t - target)) best.1) as [Hl|Hl].
  - right. destruct (IH (Z.abs (t - target), Some c)%Z) as [[-> Hf]|(pre & t' & c' & post & -> & -> & Hlt & Hpre & Hpost)].
    + exists [], t, c, bars. cbn in Hf. split_and!; auto.
    + cbn in Hlt. exists ((t, c) :: pre), t', c', post. split_and!; [done|done|lia| |done]. constructor; cbn; [lia|done].
  - destruct (IH best) as [[-> Hf]|(pre & t' & c' & post & -> & -> & Hlt & Hpre & Hpost)].
    + left. auto.
    + right. exists ((t, c) :: pre), t', c', post. split_and!; [done|done|done| |done]. constructor; cbn; [lia|done].
Qed.

Lemma markout_price_spec fill_ns bars minutes :
  let target := (fill_ns + minutes * 60 * 1000000000)%Z in
  Forall (fun b => Z.abs (b.1 - target) < INT64_MAX)%Z bars ->
  (bars = [] /\ markout_price fill_ns bars minutes = fzero) \/
  exists pre t c post, bars = pre ++ (t, c) :: post /\ markout_price fill_ns bars minutes = c /\
    Forall (fun b => Z.abs (t - target) < Z.abs (b.1 - target))%Z pre /\
    Forall (fun b => Z.abs (t - target) <= Z.abs (b.1 - target))%Z post.
Proof.
  cbv zeta. intros Hb. unfold markout_price.
  set (target := (fill_ns + minutes * 60 * 1000000000)%Z) in *.
  destruct (nearest_fold target bars (INT64_MAX, None)) as [[E Hf]|(pre & t & c & post & Eb & E & _ & Hpre & Hpost)]; rewrite E.
  - left. destruct bars as [|b bars]; [done|]. apply Forall_cons in Hb as [H1 _], Hf as [H2 _]. cbn in H2. lia.
  - right. exists pre, t, c, post. done.
Qed.

(** A poll task that ended with an exception is never replaced: [stop], awaiting it, raises again at every call. *)
Lemma failed_worker_never_restarts symbols w :
  cw_task w = TaskFailed -> sync_symbols symbols w = (Raise PollError, w) /\ worker_stop w = (Raise PollError, w).
Proof. intros E. unfold sync_symbols, worker_stop. rewrite E. by rewrite andb_false_r. Qed.

(** Otherwise the symbols polled are the ones asked for, in upper case and once each, and nothing is polled for none. *)
Lemma sync_polls_what_was_asked symbols w :
  cw_task w <> TaskFailed ->
  (sync_symbols symbols w).1 = Ok () /\ let w' := (sync_symbols symbols w).2 in
  cw_symbols w' = from_keys (map upper symbols) /\ (cw_task w' = TaskRunning -> cw_task w = TaskRunning \/ cw_symbols w' <> []).
Proof.
  intros Hw. unfold sync_symbols. cbv zeta. case_bool_decide as E1; [case_bool_decide as E2|]; cbn [andb].
  - rewrite E1, E2. auto.
  - unfold worker_stop. destruct (cw_task w); [|done..]. cbn. split_and!; auto. by case_match; [|right].
  - unfold worker_stop. destruct (cw_task w); [..|done]; cbn; split_and!; auto. by case_match; [|right].
Qed.
