(* ===== verification/ConfigWatcher.v ===== *)
(** * The hosted client and the configuration watcher

    [src/control/supabase_client.py] (the cached client and its bounded retry) and [src/control/config_watcher.py] (the
    strategy configuration read from the hosted table, with the local YAML behind it). The service is a world [W] that
    every call changes: connecting may fail, a call on a client raises a text or answers. [load_config], which reads the
    YAML files, is a call of the same world. Times are readings of the monotonic clock; the stored [updated_at] is a
    moment. *)

From stdpp Require Import base gmap strings list.
From Stdlib Require Import ZArith Lia.
From S2P Require Import Prelude PyFloat Models Dict.

(** ** Keys and address of the service *)

Section Environment.
Context (env : gmap string string).

Definition getenv (key : string) : string := default "" (env !! key).

Definition resolve_trading_bot_key : string :=
  str_or (strip (getenv "SUPABASE_TRADING_BOT_KEY")) (strip (getenv "SUPABASE_BOT_KEY")).
Definition resolve_service_role_key : string := strip (getenv "SUPABASE_SERVICE_ROLE_KEY").

(** The key and the channel; the warning about the legacy key has no effect on them. *)
Definition resolve_supabase_api_key (prefer_bot : bool) : string * string :=
  let legacy := resolve_service_role_key in
  if prefer_bot then
    if truthy resolve_trading_bot_key then (resolve_trading_bot_key, "trading_bot_node")
    else if truthy legacy then (legacy, "service_role_legacy") else ("", "")
  else if truthy legacy then (legacy, "service_role") else (resolve_trading_bot_key, "trading_bot_node").

Definition is_configured : bool :=
  truthy (getenv "SUPABASE_URL") && (truthy resolve_trading_bot_key || truthy resolve_service_role_key).
End Environment.

Fixpoint strip_left (c : Ascii.ascii) (s : string) : string :=
  match s with
  | String d s' => if Ascii.eqb c d then strip_left c s' else s
  | EmptyString => EmptyString
  end.
Fixpoint strip_right (c : Ascii.ascii) (s : string) : string :=
  match s with
  | EmptyString => EmptyString
  | String d s' => match strip_right c s' with
                   | EmptyString => if Ascii.eqb c d then EmptyString else String d EmptyString
                   | r => String d r
                   end
  end.
Definition quote : Ascii.ascii := Ascii.ascii_of_nat 34.
Definition apostrophe : Ascii.ascii := Ascii.ascii_of_nat 39.
Definition slash : Ascii.ascii := Ascii.ascii_of_nat 47.

Definition rest_suffix : string := "/rest/v1".
Definition normalize_supabase_url (url : string) : string :=
  let bare c s := strip_right c (strip_left c s) in
  let cleaned := strip_right slash (bare apostrophe (bare quote (strip url))) in
  let n := String.length cleaned - String.length rest_suffix in
  if bool_decide (String.substring n (String.length rest_suffix) cleaned = rest_suffix)
  then strip_right slash (String.substring 0 n cleaned) else cleaned.

(** ** The cached client *)

Section Client.
Context {W client : Type} (configured : bool) (create_client : W -> option client * W).

(** [sb_cached]: what [lru_cache] holds, which may be the [None] of a call that failed. *)
Record sb := mkSb { sb_cached : option (option client); sb_world : W }.

Definition get_supabase (s : sb) : option client * sb :=
  match sb_cached s with
  | Some c => (c, s)
  | None =>
      if configured then let '(c, w) := create_client (sb_world s) in (c, mkSb (Some c) w)
      else (None, mkSb (Some None) (sb_world s))
  end.

Definition hosted_op (A : Type) : Type := client -> W -> result string A * W.

Definition RETRY_ATTEMPTS : nat := 3.

(** [attempts] tries that are left; the waits between them have no effect. *)
Fixpoint run_with_supabase_retry {A} (attempts : nat) (op : hosted_op A) (s : sb) : option A * sb :=
  match attempts with
  | O => (None, s)
  | S rest =>
      match get_supabase s with
      | (None, s) => (None, s)
      | (Some c, s) =>
          match op c (sb_world s) with
          | (Ok a, w) => (Some a, mkSb (sb_cached s) w)
          | (Raise e, w) =>
              if str_contains "ConnectionTerminated" e && negb (rest =? 0)%nat
              then run_with_supabase_retry rest op (mkSb None w)
              else (None, mkSb (sb_cached s) w)
          end
      end
  end.
End Client.
Arguments sb : clear implicits.
Arguments mkSb {W client} _ _.
Arguments sb_cached {W client} _.
Arguments sb_world {W client} _.
Arguments hosted_op : clear implicits.

(** ** Configurations *)

Notation params := (gmap string json).

Record StrategyConfig := mkStrategyConfig {
  sc_strategy_id : string;
  sc_module : string;
  sc_symbol : string;
  sc_timeframe : string;
  sc_poll_interval_seconds : Z;
  sc_params : params;
  sc_enabled : bool;
  sc_environment : string;
  sc_asset_class : string;
  sc_extended_hours : bool
}.
Definition with_params (p : params) (s : StrategyConfig) : StrategyConfig :=
  mkStrategyConfig (sc_strategy_id s) (sc_module s) (sc_symbol s) (sc_timeframe s) (sc_poll_interval_seconds s) p
    (sc_enabled s) (sc_environment s) (sc_asset_class s) (sc_extended_hours s).

(** The fields the watcher and its readers touch. *)
Record AppConfig := mkAppConfig {
  ac_environment : string;
  ac_strategy : StrategyConfig;
  ac_strategies : list StrategyConfig;
  ac_email_from : string;
  ac_email_to : string
}.
Definition with_strategies (primary : StrategyConfig) (l : list StrategyConfig) (a : AppConfig) : AppConfig :=
  mkAppConfig (ac_environment a) primary l (ac_email_from a) (ac_email_to a).

(** A row of the hosted table, whose columns are NOT NULL. *)
Record strategy_row := mkStrategyRow {
  sr_id : string; sr_name : string; sr_module : string; sr_symbol : string; sr_timeframe : string; sr_enabled : bool;
  sr_environment : string; sr_params : params; sr_poll_interval_seconds : Z; sr_asset_class : string;
  sr_version_id : Z; sr_updated_at : Z
}.
Record reporting_row := mkReportingRow { rr_email_from : string; rr_email_to : string }.

Definition infer_asset_class (symbol : string) : string :=
  if str_contains "/" symbol then "crypto"
  else if bool_decide (upper symbol ∈ ["BTCUSD"; "ETHUSD"; "BTC"; "ETH"]) then "crypto" else "stock".

Definition PORTFOLIO_NAME : string := "portfolio".

Section Rows.
Context (MODULE_REGISTRY : string -> bool).     (* membership; the registry is not in the repository *)

Definition resolve_strategy_module (r : strategy_row) : option string :=
  let module := strip (sr_module r) in
  let name := strip (sr_name r) in
  let symbol := lower (strip (sr_symbol r)) in
  if MODULE_REGISTRY module then Some module
  else if MODULE_REGISTRY name then Some name
  else
    let candidate := "mean_reversion_" +:+ symbol in
    if bool_decide (module = "mean_reversion") && truthy symbol && MODULE_REGISTRY candidate then Some candidate
    else if String.prefix "mean_reversion_" name && MODULE_REGISTRY name then Some name
    else None.

Definition row_to_strategy (module : string) (r : strategy_row) (template : StrategyConfig) : StrategyConfig :=
  let symbol := str_or (sr_symbol r) (sc_symbol template) in
  mkStrategyConfig (str_or (sr_name r) (sc_strategy_id template)) module symbol (sr_timeframe r)
    (sr_poll_interval_seconds r) (if bool_decide (sr_params r = ∅) then sc_params template else sr_params r)
    (sr_enabled r) (sr_environment r) (str_or (sr_asset_class r) (infer_asset_class symbol))
    (sc_extended_hours template).

Definition template_for_row (base : AppConfig) (r : strategy_row) : StrategyConfig :=
  default (ac_strategy base)
    (hd_error (List.filter (fun s => bool_decide (upper (sc_symbol s) = upper (sr_symbol r))) (ac_strategies base))).

(** ** The watcher *)

Record override_meta := mkMeta { om_source : string; om_regime : option string; om_updated_at_monotonic : float }.

Record watcher := mkWatcher {
  wt_config : option AppConfig;
  wt_last_fetch : float;
  wt_uuids : list (string * string);
  wt_versions : gmap string Z;
  wt_updated_at : gmap string Z;
  wt_portfolio_uuid : option string;
  wt_reload_requested : bool;
  wt_overrides : gmap string params;
  wt_meta : gmap string override_meta;
  wt_remote_required : bool;
  wt_degraded : bool;
  wt_degraded_since : option float
}.
Definition watcher_init : watcher := mkWatcher None fzero [] ∅ ∅ None false ∅ ∅ false false None.

Definition set_config (c : option AppConfig) (at_ : float) (reload : bool) (w : watcher) : watcher :=
  mkWatcher c at_ (wt_uuids w) (wt_versions w) (wt_updated_at w) (wt_portfolio_uuid w) reload (wt_overrides w) (wt_meta w)
    (wt_remote_required w) (wt_degraded w) (wt_degraded_since w).
Definition set_tokens (u : list (string * string)) (v t : gmap string Z) (p : option string) (w : watcher) : watcher :=
  mkWatcher (wt_config w) (wt_last_fetch w) u v t p (wt_reload_requested w) (wt_overrides w) (wt_meta w)
    (wt_remote_required w) (wt_degraded w) (wt_degraded_since w).
Definition set_health (required degraded : bool) (since : option float) (w : watcher) : watcher :=
  mkWatcher (wt_config w) (wt_last_fetch w) (wt_uuids w) (wt_versions w) (wt_updated_at w) (wt_portfolio_uuid w)
    (wt_reload_requested w) (wt_overrides w) (wt_meta w) required degraded since.
Definition set_overrides (o : gmap string params) (m : gmap string override_meta) (c : option AppConfig) (w : watcher) : watcher :=
  mkWatcher c (wt_last_fetch w) (wt_uuids w) (wt_versions w) (wt_updated_at w) (wt_portfolio_uuid w)
    (wt_reload_requested w) o m (wt_remote_required w) (wt_degraded w) (wt_degraded_since w).

Definition config_staleness_seconds (now : float) (w : watcher) : float :=
  match wt_degraded_since w with None => fzero | Some t => py_max fzero (fsub now t) end.
Definition strategy_uuid (w : watcher) : option string := option_map snd (hd_error (wt_uuids w)).
Definition strategy_uuid_for (name : string) (w : watcher) : option string := assoc name (wt_uuids w).
Definition strategy_version_for (name : string) (w : watcher) : option Z := wt_versions w !! name.
Definition strategy_updated_at_for (name : string) (w : watcher) : option Z := wt_updated_at w !! name.
Definition request_reload (w : watcher) : watcher := set_config (wt_config w) (wt_last_fetch w) true w.

(** The first strategy of the id, up to the loop's [break]. *)
Fixpoint override_first (id : string) (p : params) (l : list StrategyConfig) : list StrategyConfig :=
  match l with
  | [] => []
  | s :: l => if bool_decide (sc_strategy_id s = id) then with_params p s :: l else s :: override_first id p l
  end.

(** The cached configuration is written in place. *)
Definition set_runtime_params_override (id : string) (p : params) (source : string) (regime : option string) (now : float)
    (w : watcher) : watcher :=
  set_overrides (<[id := p]> (wt_overrides w)) (<[id := mkMeta source regime now]> (wt_meta w))
    (option_map (fun a => with_strategies
       (if bool_decide (sc_strategy_id (ac_strategy a) = id) then with_params p (ac_strategy a) else ac_strategy a)
       (override_first id p (ac_strategies a)) a) (wt_config w)) w.

Definition clear_runtime_params_override (id : string) (w : watcher) : watcher :=
  set_overrides (delete id (wt_overrides w)) (delete id (wt_meta w)) (wt_config w) w.

Definition apply_runtime_overrides (o : gmap string params) (l : list StrategyConfig) : list StrategyConfig :=
  map (fun s => match o !! sc_strategy_id s with None => s | Some p => with_params p s end) l.

Definition mark_config_fetch_success (required : bool) (w : watcher) : watcher := set_health required false None w.
Definition mark_config_fetch_failure (now : float) (w : watcher) : watcher :=
  set_health (wt_remote_required w) true (match wt_degraded_since w with None => Some now | t => t end) w.

(** The configuration of the files, with the overrides. *)
Definition local_config (base : AppConfig) (w : watcher) : AppConfig :=
  match apply_runtime_overrides (wt_overrides w) (ac_strategies base) with
  | [] => base
  | (primary :: _) as l => with_strategies primary l base
  end.

Definition add_row (base : AppConfig) (acc : watcher * list StrategyConfig) (r : strategy_row) : watcher * list StrategyConfig :=
  let '(w, legs) := acc in
  if bool_decide (sr_name r = PORTFOLIO_NAME) || bool_decide (sr_module r = "portfolio")
  then (set_tokens (wt_uuids w) (wt_versions w) (wt_updated_at w) (Some (sr_id r)) w, legs)
  else match resolve_strategy_module r with
  | None => (w, legs)
  | Some module =>
      (set_tokens (assoc_set (sr_name r) (sr_id r) (wt_uuids w)) (<[sr_name r := sr_version_id r]> (wt_versions w))
         (<[sr_name r := sr_updated_at r]> (wt_updated_at w)) (wt_portfolio_uuid w) w,
       legs ++ [row_to_strategy module r (template_for_row base r)])
  end.

Section Fetch.
Context {W client : Type} (configured : bool) (create_client : W -> option client * W).
Context (load_config : W -> result string AppConfig * W).
Context (select_strategies : hosted_op W client (list strategy_row)) (select_reporting : hosted_op W client (list reporting_row)).

Definition retry {A} (op : hosted_op W client A) (s : sb W client) : option A * sb W client :=
  run_with_supabase_retry configured create_client RETRY_ATTEMPTS op s.

Definition fetch_failed (base : AppConfig) (now : float) (w : watcher) : AppConfig * watcher :=
  let w := mark_config_fetch_failure now w in
  (match wt_config w with Some c => c | None => local_config base w end, w).

(** What is fetched once a client is there; [w] already requires the remote source. *)
Definition fetch_remote (base : AppConfig) (now : float) (w : watcher) (s : sb W client) : (AppConfig * watcher) * sb W client :=
  match retry select_strategies s with
  | (None, s) | (Some [], s) => (fetch_failed base now w, s)
  | (Some rows, s) =>
      match fold_left (add_row base) rows (set_tokens [] ∅ ∅ None w, []) with
      | (w, []) => (fetch_failed base now w, s)
      | (w, legs) =>
          let '(rep, s) := retry select_reporting s in
          let reporting := match rep with Some (r :: _) => r | _ => mkReportingRow "" "" end in
          let legs := apply_runtime_overrides (wt_overrides w) legs in
          let primary := List.hd (ac_strategy base) legs in
          ((mkAppConfig (str_or (sc_environment primary) (ac_environment base)) primary legs
              (str_or (rr_email_from reporting) (ac_email_from base)) (str_or (rr_email_to reporting) (ac_email_to base)),
            mark_config_fetch_success true w), s)
      end
  end.

(** A watcher and the client it shares with the process. *)
Notation host := (watcher * sb W client)%type.

Definition fetch (now : float) (h : host) : result string AppConfig * host :=
  let '(w, s) := h in
  match load_config (sb_world s) with
  | (Raise e, x) => (Raise e, (w, mkSb (sb_cached s) x))
  | (Ok base, x) =>
      match get_supabase configured create_client (mkSb (sb_cached s) x) with
      | (None, s) => let w := mark_config_fetch_success false w in (Ok (local_config base w), (w, s))
      | (Some _, s) =>
          let '((a, w), s) := fetch_remote base now (set_health true (wt_degraded w) (wt_degraded_since w) w) s in
          (Ok a, (w, s))
      end
  end.

Definition get_latest (poll_interval now : float) (h : host) : result string AppConfig * host :=
  let w := h.1 in
  match wt_config w, fltb poll_interval (fsub now (wt_last_fetch w)) || wt_reload_requested w with
  | Some c, false => (Ok c, h)
  | _, _ =>
      match fetch now h with
      | (Ok a, (w, s)) => (Ok a, (set_config (Some a) now false w, s))
      | (Raise e, h) => (Raise e, h)
      end
  end.

(** The calls of a process. *)
Inductive watch_op :=
| WGet (now : float)
| WReload
| WOverride (id : string) (p : params) (source : string) (regime : option string) (now : float)
| WClear (id : string).
Definition watch_step (poll_interval : float) (h : host) (o : watch_op) : host :=
  match o with
  | WGet now => (get_latest poll_interval now h).2
  | WReload => (request_reload h.1, h.2)
  | WOverride id p source regime now => (set_runtime_params_override id p source regime now h.1, h.2)
  | WClear id => (clear_runtime_params_override id h.1, h.2)
  end.
End Fetch.
End Rows.

(** ** The health of the watcher and its tokens *)

(** A source that answers badly is a source that is required; a name has an id, a version and a time, or none. *)
Record watcher_sound (w : watcher) : Prop := {
  sound_since : wt_degraded w = true <-> wt_degraded_since w <> None;
  sound_required : wt_degraded w = true -> wt_remote_required w = true;
  sound_versions : forall name, name ∈ dom (wt_versions w) <-> name ∈ (wt_uuids w).*1;
  sound_updated : forall name, name ∈ dom (wt_updated_at w) <-> name ∈ (wt_uuids w).*1
}.

Lemma watcher_init_sound : watcher_sound watcher_init.
Proof. by split; cbn; try (split; congruence); try done; intros; rewrite dom_empty, elem_of_nil; split; set_solver. Qed.

Lemma assoc_set_dom {A} (k : string) (v : A) l x : x ∈ (assoc_set k v l).*1 <-> x = k \/ x ∈ l.*1.
Proof.
  split; [apply assoc_set_keys|]. induction l as [|[k1 v1] l IH]; cbn; [set_solver|].
  case_decide; subst; cbn; set_solver.
Qed.

(** A change of the tokens only, which keeps them together. *)
Record tokens_only (w w' : watcher) : Prop := {
  to_sound : watcher_sound w -> watcher_sound w';
  to_config : wt_config w' = wt_config w;
  to_overrides : wt_overrides w' = wt_overrides w;
  to_health : (wt_degraded w', wt_degraded_since w', wt_remote_required w') =
              (wt_degraded w, wt_degraded_since w, wt_remote_required w)
}.
#[local] Instance tokens_only_preorder : PreOrder tokens_only.
Proof. split; [by split|]. intros a b c [? ? ? ?] [? ? ? ?]. split; [auto|congruence..]. Qed.

Lemma tokens_only_reset w : tokens_only w (set_tokens [] ∅ ∅ None w).
Proof. split; try done. intros [? ? _ _]. split; cbn; try done; intros; set_solver. Qed.

Lemma add_row_tokens MR base acc r : tokens_only acc.1 (add_row MR base acc r).1.
Proof.
  destruct acc as [w legs]. unfold add_row. case_match; [|case_match]; cbn; [..|done].
  - split; try done. intros [? ? ? ?]. by split.
  - split; try done. intros [? ? Hv Hu]. split; cbn; try done; intros name;
      by rewrite dom_insert, elem_of_union, elem_of_singleton, assoc_set_dom, ?Hv, ?Hu.
Qed.

Lemma add_rows_tokens MR base rows acc : tokens_only acc.1 (fold_left (add_row MR base) rows acc).1.
Proof.
  revert acc. induction rows as [|r rows IH]; intros acc; [done|].
  etrans; [apply add_row_tokens|apply IH].
Qed.

Lemma failure_sound now w :
  watcher_sound w -> wt_remote_required w = true -> watcher_sound (mark_config_fetch_failure now w).
Proof. intros [? ? ? ?] Hr. split; cbn; try done. split; [|done]. by destruct (wt_degraded_since w). Qed.

Lemma success_sound required w : watcher_sound w -> watcher_sound (mark_config_fetch_success required w).
Proof. intros [? ? ? ?]. by split. Qed.

(** ** What a fetch does *)

(** A hosted fetch fails, and then keeps the cached configuration, or succeeds. *)
Inductive fetched (base : AppConfig) (now : float) (w : watcher) : AppConfig * watcher -> Prop :=
| fetched_failed w' : tokens_only w w' ->
    fetched base now w (match wt_config w with Some c => c | None => local_config base w end, mark_config_fetch_failure now w')
| fetched_ok w' legs env from to : tokens_only w w' -> legs <> [] ->
    let l := apply_runtime_overrides (wt_overrides w) legs in
    fetched base now w (mkAppConfig env (List.hd (ac_strategy base) l) l from to, mark_config_fetch_success true w').

Section Fetched.
Context (MR : string -> bool) {W client : Type} (configured : bool) (create_client : W -> option client * W).
Context (load_config : W -> result string AppConfig * W).
Context (select_strategies : hosted_op W client (list strategy_row)) (select_reporting : hosted_op W client (list reporting_row)).

Lemma failed_fetched base now w w' : tokens_only w w' -> fetched base now w (fetch_failed base now w').
Proof.
  intros [H1 H2 H3 H4]. unfold fetch_failed. cbv zeta. cbn [mark_config_fetch_failure set_health wt_config].
  assert (local_config base (mark_config_fetch_failure now w') = local_config base w) as ->.
  { unfold local_config. cbn. by rewrite H3. }
  rewrite H2. by apply (fetched_failed _ _ _ w').
Qed.

Lemma fetch_remote_fetched base now w s :
  fetched base now w (fetch_remote MR configured create_client select_strategies select_reporting base now w s).1.
Proof.
  unfold fetch_remote. destruct (retry _ _ select_strategies s) as [[[|r rows]|] s1]; [by apply failed_fetched| |by apply failed_fetched].
  pose proof (add_rows_tokens MR base (r :: rows) (set_tokens [] ∅ ∅ None w, [])) as Ht. cbn [fst] in Ht.
  destruct (fold_left _ _ _) as [w1 [|leg legs]] eqn:E.
  - apply failed_fetched. etrans; [apply tokens_only_reset|exact Ht].
  - destruct (retry _ _ select_reporting s1) as [rep s2]. cbn [fst] in Ht |- *.
    assert (tokens_only w w1) as Hw by (etrans; [apply tokens_only_reset|exact Ht]).
    rewrite (to_overrides _ _ Hw). by apply (fetched_ok _ _ _ w1 (leg :: legs)).
Qed.

Notation host := (watcher * sb W client)%type.
Notation Fetch := (fetch MR configured create_client load_config select_strategies select_reporting).
Notation Get := (get_latest MR configured create_client load_config select_strategies select_reporting).
Notation Step := (watch_step MR configured create_client load_config select_strategies select_reporting).

Lemma fetched_sound base now w out : fetched base now w out -> watcher_sound w -> wt_remote_required w = true -> watcher_sound out.2.
Proof.
  intros [w' Ht|w' legs env from to Ht _] Hw Hr; cbn [snd].
  - apply failure_sound; [by apply (to_sound _ _ Ht)|]. pose proof (to_health _ _ Ht). congruence.
  - apply success_sound. by apply (to_sound _ _ Ht).
Qed.

Lemma fetch_sound now (h : host) : watcher_sound h.1 -> watcher_sound (Fetch now h).2.1.
Proof.
  destruct h as [w s]. cbn [fst]. intros Hw. unfold fetch.
  destruct (load_config _) as [[base|e] x]; [|done]. destruct (get_supabase _ _ _) as [[c|] s1].
  - pose proof (fetch_remote_fetched base now (set_health true (wt_degraded w) (wt_degraded_since w) w) s1) as H.
    destruct (fetch_remote _ _ _ _ _ _ _ _ _) as [[a w1] s2]. cbn in H |- *.
    refine (fetched_sound _ _ _ _ H _ _); [|done]. destruct Hw. by split.
  - by apply success_sound.
Qed.

Lemma set_config_sound c at_ r w : watcher_sound w -> watcher_sound (set_config c at_ r w).
Proof. intros [? ? ? ?]. by split. Qed.

Lemma watch_step_sound poll (h : host) o : watcher_sound h.1 -> watcher_sound (Step poll h o).1.
Proof.
  intros Hw. destruct o as [now| |id p src regime now|id]; cbn [watch_step]; [|by apply set_config_sound|by destruct Hw..].
  pose proof (fetch_sound now h Hw) as Hf. unfold get_latest.
  destruct (wt_config h.1) as [c|]; [destruct (_ || _); [|done]|];
    (destruct (Fetch now h) as [[a|e] [w s]]; [by apply set_config_sound|done]).
Qed.

(** ** A client that was lost *)

Definition lost (s : sb W client) : Prop := sb_cached s = Some None.

Lemma lost_fetch now (h : host) : lost h.2 ->
  lost (Fetch now h).2.2 /\
  forall a h', Fetch now h = (Ok a, h') ->
    wt_remote_required h'.1 = false /\ wt_degraded h'.1 = false /\ config_staleness_seconds now h'.1 = fzero /\
    exists base x, load_config (sb_world h.2) = (Ok base, x) /\ a = local_config base h.1.
Proof.
  destruct h as [w [cached x]]. unfold lost. cbn [snd sb_cached]. intros ->. unfold fetch. cbn [sb_world sb_cached].
  destruct (load_config x) as [[base|e] y]; [|by split]. unfold get_supabase. cbn [sb_cached]. split; [done|].
  intros a h' [= <- <-]. split_and!; try done. by exists base, y.
Qed.

Lemma lost_step poll (h : host) o : lost h.2 -> lost (Step poll h o).2.
Proof.
  intros Hl. destruct o as [now| |id p src regime now|id]; try exact Hl. cbn [watch_step].
  pose proof (proj1 (lost_fetch now h Hl)) as Hf. unfold get_latest.
  destruct (wt_config h.1) as [c|]; [destruct (_ || _); [|done]|];
    (destruct (Fetch now h) as [[a|e] [w s]]; done).
Qed.

(** A connection that ends, on a client that cannot be made again. *)
Lemma dropped_fetch now w s c e base x0 x1 x2 :
  configured = true ->
  sb_cached s = Some (Some c) -> load_config (sb_world s) = (Ok base, x0) -> select_strategies c x0 = (Raise e, x1) ->
  str_contains "ConnectionTerminated" e = true -> create_client x1 = (None, x2) ->
  let h := (Fetch now (w, s)).2 in
  (Fetch now (w, s)).1 = Ok match wt_config w with Some cfg => cfg | None => local_config base w end /\
  wt_remote_required h.1 = true /\ wt_degraded h.1 = true /\ lost h.2.
Proof.
  intros Hc Hs Hb Hsel He Hcr. cbv zeta.
  assert (retry configured create_client select_strategies (mkSb (Some (Some c)) x0) = (None, mkSb (Some None) x2)) as Hr.
  { unfold retry, RETRY_ATTEMPTS. cbn [run_with_supabase_retry get_supabase sb_cached sb_world]. rewrite Hsel, He.
    cbn [negb andb Nat.eqb]. unfold get_supabase. cbn [sb_cached sb_world]. by rewrite Hc, Hcr. }
  assert (Fetch now (w, s) =
          (Ok match wt_config w with Some cfg => cfg | None => local_config base w end,
           (mark_config_fetch_failure now (set_health true (wt_degraded w) (wt_degraded_since w) w), mkSb (Some None) x2))) as ->.
  { unfold fetch. rewrite Hb, Hs. cbn [get_supabase sb_cached]. unfold fetch_remote. by rewrite Hr. }
  by split_and!.
Qed.

(** ** Runtime overrides *)

(** The first strategy of an id, the one a reader finds. *)
Definition leg_of (id : string) (l : list StrategyConfig) : option StrategyConfig :=
  hd_error (List.filter (fun s => bool_decide (sc_strategy_id s = id)) l).

(** An overridden leg runs on exactly the override. *)
Definition in_force (o : gmap string params) (a : AppConfig) : Prop :=
  (forall id p s, o !! id = Some p -> leg_of id (ac_strategies a) = Some s -> sc_params s = p) /\
  (forall p, ac_strategies a <> [] -> o !! sc_strategy_id (ac_strategy a) = Some p -> sc_params (ac_strategy a) = p).

Lemma leg_of_id id l s : leg_of id l = Some s -> sc_strategy_id s = id.
Proof.
  unfold leg_of. induction l as [|x l IH]; cbn; [done|]. case_bool_decide; [|done]. cbn. by intros [= ->].
Qed.

Lemma overrides_applied o l id p s :
  o !! id = Some p -> leg_of id (apply_runtime_overrides o l) = Some s -> sc_params s = p.
Proof.
  intros Ho. unfold leg_of, apply_runtime_overrides. induction l as [|x l IH]; cbn [map List.filter]; [done|].
  assert (sc_strategy_id (match o !! sc_strategy_id x with Some q => with_params q x | None => x end) = sc_strategy_id x)
    as -> by (by destruct (o !! sc_strategy_id x)).
  case_bool_decide as E; [|exact IH]. rewrite E, Ho. cbn. by intros [= <-].
Qed.

Lemma override_first_leg id p l j :
  leg_of j (override_first id p l) =
  if bool_decide (j = id) then with_params p <$> leg_of j l else leg_of j l.
Proof.
  unfold leg_of. induction l as [|x l IH]; cbn [override_first List.filter]; [by case_bool_decide|].
  destruct (bool_decide (sc_strategy_id x = id)) eqn:Ex; cbn [List.filter];
    change (sc_strategy_id (with_params p x)) with (sc_strategy_id x);
    destruct (bool_decide (sc_strategy_id x = j)) eqn:Ej; bool_prop; subst.
  - by rewrite bool_decide_true by congruence.
  - rewrite bool_decide_false by congruence. done.
  - rewrite bool_decide_false by congruence. done.
  - exact IH.
Qed.

Lemma in_force_applied o base l env from to : l <> [] ->
  in_force o (mkAppConfig env (List.hd base (apply_runtime_overrides o l)) (apply_runtime_overrides o l) from to).
Proof.
  intros Hl. split; cbn [ac_strategies ac_strategy]; [intros id p s; apply overrides_applied|].
  destruct l as [|x l]; [done|]. cbn [apply_runtime_overrides map List.hd]. intros p _ Ho. revert Ho.
  destruct (o !! sc_strategy_id x) eqn:E; cbn; congruence.
Qed.

Lemma in_force_local base w : in_force (wt_overrides w) (local_config base w).
Proof.
  unfold local_config. destruct (ac_strategies base) as [|x l] eqn:E.
  - cbn. split; [|by rewrite E]. intros id p s _. by rewrite E.
  - pose proof (in_force_applied (wt_overrides w) (ac_strategy base) (x :: l) (ac_environment base) (ac_email_from base)
      (ac_email_to base) ltac:(done)) as H. unfold apply_runtime_overrides in *. exact H.
Qed.

Lemma fetched_in_force base now w out :
  fetched base now w out -> (forall c, wt_config w = Some c -> in_force (wt_overrides w) c) ->
  in_force (wt_overrides w) out.1 /\ wt_overrides out.2 = wt_overrides w /\ wt_config out.2 = wt_config w.
Proof.
  intros [w' Ht|w' legs env from to Ht Hl l] Hw; cbn [fst snd]; split_and!; try apply Ht.
  - destruct (wt_config w); [by apply Hw|apply in_force_local].
  - by apply in_force_applied.
Qed.

Definition cached_in_force (w : watcher) : Prop := forall c, wt_config w = Some c -> in_force (wt_overrides w) c.

Lemma fetch_in_force now (h : host) : cached_in_force h.1 ->
  let out := Fetch now h in
  cached_in_force out.2.1 /\ wt_overrides out.2.1 = wt_overrides h.1 /\
  forall a, out.1 = Ok a -> in_force (wt_overrides h.1) a.
Proof.
  destruct h as [w s]. cbn [fst]. intros Hw. cbv zeta. unfold fetch.
  destruct (load_config _) as [[base|e] x]; [|by split]. destruct (get_supabase _ _ _) as [[c|] s1].
  - pose proof (fetch_remote_fetched base now (set_health true (wt_degraded w) (wt_degraded_since w) w) s1) as H.
    apply fetched_in_force in H as (H1 & H2 & H3); [|exact Hw].
    destruct (fetch_remote _ _ _ _ _ _ _ _ _) as [[a w1] s2]. cbn [fst snd] in *.
    split_and!; [|exact H2|by intros ? [= <-]]. unfold cached_in_force. rewrite H2, H3. exact Hw.
  - cbn [fst snd]. split_and!; try done. intros a [= <-]. apply (in_force_local base (mark_config_fetch_success false w)).
Qed.

Lemma watch_step_in_force poll (h : host) o : cached_in_force h.1 -> cached_in_force (Step poll h o).1.
Proof.
  intros Hw. destruct o as [now| |id p src regime now|id]; cbn [watch_step].
  - destruct (fetch_in_force now h Hw) as (H1 & H2 & H3). unfold get_latest.
    destruct (wt_config h.1) as [c|]; [destruct (_ || _); [|done]|];
      (destruct (Fetch now h) as [[a|e] [w s]]; [|done]); cbn [fst snd] in *;
      intros ? [= <-]; cbn [set_config wt_overrides]; rewrite H2; by apply H3.
  - exact Hw.
  - intros c. cbn [fst set_runtime_params_override set_overrides wt_config wt_overrides].
    destruct (wt_config h.1) as [a|] eqn:Ea; [|done]. intros [= <-]. destruct (Hw a Ea) as [Hl Hp].
    split; cbn [with_strategies ac_strategies ac_strategy].
    + intros j q x Ho. rewrite override_first_leg. case_bool_decide as Ej; subst.
      * rewrite lookup_insert_eq in Ho. simplify_eq. destruct (leg_of id _); [|done]. by intros [= <-].
      * rewrite lookup_insert_ne in Ho by done. by apply Hl.
    + intros q Hne. case_bool_decide as Ej; cbn [with_params sc_strategy_id sc_params].
      * rewrite Ej, lookup_insert_eq. congruence.
      * rewrite lookup_insert_ne by done. intros Ho. apply Hp; [|done].
        contradict Hne. by rewrite Hne.
  - intros c Hc. destruct (Hw c Hc) as [Hl Hp]. cbn [fst clear_runtime_params_override set_overrides wt_overrides].
    split; [intros j q x|intros q Hne]; intros [_ Ho]%lookup_delete_Some; eauto.
Qed.
End Fetched.

(** C16: The watcher's state along any history of refreshes, reload requests and runtime overrides, whatever the service and
    the files answer: its degraded flag and its degraded-since mark agree, only a required source is degraded, the ids, the
    versions and the times it holds are of the same strategies, and every leg of the cached configuration with a runtime
    override runs on exactly that override, through outages and reloads. *)
Theorem watcher_history MR {W client} configured (create_client : W -> option client * W) load_config
    (select_strategies : hosted_op W client (list strategy_row)) (select_reporting : hosted_op W client (list reporting_row))
    poll (s : sb W client) ops :
  let w := (runs (watch_step MR configured create_client load_config select_strategies select_reporting poll)
              (watcher_init, s) ops).1 in
  watcher_sound w /\
  forall a, wt_config w = Some a ->
    (forall id p leg, wt_overrides w !! id = Some p -> leg_of id (ac_strategies a) = Some leg -> sc_params leg = p) /\
    (forall p, ac_strategies a <> [] -> wt_overrides w !! sc_strategy_id (ac_strategy a) = Some p ->
       sc_params (ac_strategy a) = p).
Proof.
  cbv zeta.
  pose proof (runs_invariant (watch_step MR configured create_client load_config select_strategies select_reporting poll)
    (fun h => watcher_sound h.1 /\ cached_in_force h.1) (watcher_init, s) ops) as H.
  apply H; [split; [apply watcher_init_sound|done]|].
  intros h o [? ?]. split; [by apply watch_step_sound|by apply watch_step_in_force].
Qed.

(** A hosted connection that ends, with a service that cannot be reached again at once, is a degraded fetch on the last
    configuration. From then on the failed client stays cached, for any history of calls: the next fetch takes the service
    for one that was never configured, serves the local files, requires no remote source and reports no degradation. *)
Theorem dropped_connection_reads_as_local MR {W client} (create_client : W -> option client * W) load_config
    (select_strategies : hosted_op W client (list strategy_row)) (select_reporting : hosted_op W client (list reporting_row))
    poll w (s : sb W client) c e base x0 x1 x2 now :
  let Fetch := fetch MR true create_client load_config select_strategies select_reporting in
  sb_cached s = Some (Some c) -> load_config (sb_world s) = (Ok base, x0) -> select_strategies c x0 = (Raise e, x1) ->
  str_contains "ConnectionTerminated" e = true -> create_client x1 = (None, x2) ->
  let h := (Fetch now (w, s)).2 in
  wt_remote_required h.1 = true /\ wt_degraded h.1 = true /\
  forall ops, let h' := runs (watch_step MR true create_client load_config select_strategies select_reporting poll) h ops in
  forall later a h'', Fetch later h' = (Ok a, h'') ->
    wt_remote_required h''.1 = false /\ wt_degraded h''.1 = false /\ config_staleness_seconds later h''.1 = fzero /\
    exists files x, load_config (sb_world h'.2) = (Ok files, x) /\ a = local_config files h'.1.
Proof.
  cbv zeta. intros Hs Hb Hsel He Hc.
  destruct (dropped_fetch MR true create_client load_config select_strategies select_reporting now w s c e base x0 x1 x2
    eq_refl Hs Hb Hsel He Hc) as (_ & Hr & Hd & Hl).
  split_and!; [done..|]. intros ops later a h''. apply lost_fetch.
  apply (runs_invariant _ (fun h => lost h.2)); [done|]. intros. by apply lost_step.
Qed.

(** ** A service for the examples: the calls it answers before it ends every connection, then none can be made *)

Definition leg (id : string) (extended : bool) : StrategyConfig :=
  mkStrategyConfig id "mean_reversion" "QQQ" "15Min" 900 {[ "z" := JInt 1 ]} true "paper" "stock" extended.
Definition files : AppConfig := mkAppConfig "paper" (leg "qqq" true) [leg "qqq" true] "from" "to".
Definition hosted_leg : strategy_row :=
  mkStrategyRow "id-1" "qqq" "mean_reversion" "QQQ" "15Min" true "paper" {[ "z" := JInt 2 ]} 900 "stock" 7 1000.

Definition connect_once (w : bool * nat) : option unit * (bool * nat) :=
  if w.1 then (None, w) else (Some tt, (true, w.2)).
Definition answer_once {A} (a : A) : hosted_op (bool * nat) unit A :=
  fun _ w => match w.2 with O => (Raise "ConnectionTerminated: GOAWAY", w) | S n => (Ok a, (w.1, n)) end.
Definition read_files {W} (w : W) : result string AppConfig * W := (Ok files, w).
Definition mean_reversion_only (m : string) : bool := bool_decide (m = "mean_reversion").

Definition connected : watcher * sb (bool * nat) unit :=
  (fetch mean_reversion_only true connect_once read_files (answer_once [hosted_leg]) (answer_once []) fzero
     (watcher_init, mkSb None (false, 2))).2.

Lemma dropped_connection_reads_as_local_witness :
  wt_remote_required connected.1 = true /\ wt_versions connected.1 !! "qqq" = Some 7%Z /\
  let h := (fetch mean_reversion_only true connect_once read_files (answer_once [hosted_leg]) (answer_once []) fone connected).2 in
  wt_degraded h.1 = true.
Proof.
  split_and!; [vm_compute; reflexivity..|].
  refine (proj1 (proj2 (dropped_connection_reads_as_local mean_reversion_only connect_once read_files (answer_once [hosted_leg])
    (answer_once []) fone connected.1 connected.2 tt "ConnectionTerminated: GOAWAY" files (true, 0) (true, 0) (true, 0) fone
    _ _ _ _ _))); vm_compute; reflexivity.
Defined.

(** ** What the watcher keeps *)

(** A fetch that reads rows but no leg keeps the configuration and drops its tokens. *)
Lemma zero_legs_drop_the_tokens :
  let h := (fetch (fun _ => false) true connect_once read_files (answer_once [hosted_leg]) (answer_once []) fone
              (set_config (Some files) fzero false connected.1, mkSb (Some (Some tt)) (true, 2))) in
  h.1 = Ok files /\ wt_degraded h.2.1 = true /\ wt_uuids connected.1 = [("qqq", "id-1")] /\ wt_uuids h.2.1 = [].
Proof. repeat split; vm_compute; reflexivity. Qed.

(** A cleared override stays in the cached configuration until a fetch succeeds. *)
Lemma cleared_override_stays id w : wt_config (clear_runtime_params_override id w) = wt_config w.
Proof. done. Qed.
