(* ===== verification/ConfigEngine.v ===== *)
(** * Version locks and precedence of the configuration

    The resolver of [src/engine/config_engine.py] over a watcher and the client it shares: the version lock of a hosted
    strategy, the alignment before a cycle, the optimistic write, and the merge of the three layers. The commit of
    validated parameters is in [ConfigCommit]. Every method may raise what [load_config] raises in a reload; the events a
    method logs are kept in order. *)

From stdpp Require Import base gmap strings list.
From Stdlib Require Import ZArith Lia.
From S2P Require Import Prelude PyFloat Models Dict ConfigWatcher.

Local Open Scope py_scope.

(** The event log's entries. *)
Inductive config_event :=
| ConfigFallbackAlert (reason : string)
| ConfigVersionConflictResolved (strategies : list string).

Record ConfigVersionLockResult := mkLock {
  lk_allowed : bool;
  lk_strategy_id : string;
  lk_local_version_id : option Z;
  lk_remote_version_id : option Z;
  lk_remote_updated_at : option Z;
  lk_conflict_resolved : bool;
  lk_reason : string
}.
Record RemoteConfigWriteResult := mkWrite {
  rw_applied : bool; rw_strategy_id : string; rw_version_id : option Z; rw_reason : string
}.
Record PreflightConfigAlignmentResult := mkAlignment {
  pa_aligned : bool; pa_mismatches : list string; pa_reason : string
}.

Record resolver := mkResolver {
  rv_cached_versions : gmap string Z;
  rv_cached_updated_at : gmap string Z;
  rv_fallback_active : bool;
  rv_fallback_reason : string
}.
Definition resolver_init : resolver := mkResolver ∅ ∅ false "".

Section Engine.
Context (MR : string -> bool) {W client : Type} (configured : bool) (create_client : W -> option client * W).
Context (load_config : W -> result string AppConfig * W).
Context (select_strategies : hosted_op W client (list strategy_row)) (select_reporting : hosted_op W client (list reporting_row)).
(** The rows whose column holds a value; the update of a row's columns where id and version are the given ones, which
    answers with the rows it changed. *)
Context (select_row : string -> string -> hosted_op W client (list strategy_row)).
Context (update_row : string -> Z -> params -> hosted_op W client (list strategy_row)).
Context (poll_interval : float).

Record engine := mkEngine {
  eg_resolver : resolver;
  eg_watcher : watcher;
  eg_sb : sb W client;
  eg_events : list config_event
}.
Definition put_resolver (r : resolver) (g : engine) : engine := mkEngine r (eg_watcher g) (eg_sb g) (eg_events g).
Definition put_watcher (w : watcher) (g : engine) : engine := mkEngine (eg_resolver g) w (eg_sb g) (eg_events g).
Definition put_sb (s : sb W client) (g : engine) : engine := mkEngine (eg_resolver g) (eg_watcher g) s (eg_events g).
Definition put_event (e : config_event) (g : engine) : engine :=
  mkEngine (eg_resolver g) (eg_watcher g) (eg_sb g) (eg_events g ++ [e]).

Definition M (A : Type) : Type := py engine string A.

(** The watcher's [get_latest] at the reading [now]. *)
Definition watcher_latest (now : float) : M AppConfig := fun g =>
  let '(r, (w, s)) := get_latest MR configured create_client load_config select_strategies select_reporting poll_interval now
                        (eg_watcher g, eg_sb g) in
  (r, put_sb s (put_watcher w g)).

Definition sync_remote_version_cache (g : engine) : engine :=
  let w := eg_watcher g in
  let r := eg_resolver g in
  put_resolver (mkResolver (wt_versions w) (wt_updated_at w) (rv_fallback_active r && wt_degraded w)
                  (if wt_degraded w then rv_fallback_reason r else "")) g.

Definition blocks_policy_promotion (now : float) (g : engine) : bool :=
  let w := eg_watcher g in
  rv_fallback_active (eg_resolver g) || wt_degraded w ||
  (wt_remote_required w && fltb fzero (config_staleness_seconds now w)).

Definition note_config_fallback (reason : string) (g : engine) : engine :=
  let r := eg_resolver g in
  put_event (ConfigFallbackAlert reason)
    (put_resolver (mkResolver (rv_cached_versions r) (rv_cached_updated_at r) true reason) g).

(** One row, by the strategy's id when the watcher has one, else by its name. *)
Definition fetch_remote_strategy_row (sid : string) (g : engine) : option strategy_row * engine :=
  match get_supabase configured create_client (eg_sb g) with
  | (None, s) => (None, put_sb s g)
  | (Some c, s) =>
      let op := match strategy_uuid_for sid (eg_watcher g) with
                | Some u => if truthy u then select_row "id" u else select_row "name" sid
                | None => select_row "name" sid
                end in
      match op c (sb_world s) with
      | (Ok rows, x) => (hd_error rows, put_sb (mkSb (sb_cached s) x) g)
      | (Raise _, x) =>
          let g := put_sb (mkSb (sb_cached s) x) g in
          (None, if wt_remote_required (eg_watcher g) then note_config_fallback "remote_strategy_row_fetch_failed" g else g)
      end
  end.

Definition cache_remote (sid : string) (row : strategy_row) (g : engine) : engine :=
  let r := eg_resolver g in
  put_resolver (mkResolver (<[sid := sr_version_id row]> (rv_cached_versions r))
                  (<[sid := sr_updated_at row]> (rv_cached_updated_at r)) (rv_fallback_active r) (rv_fallback_reason r)) g.

(** A reload of the watcher, logged as a conflict resolved, and the caller's callback. *)
Definition reload_for_conflict (now : float) (strategies : list string) (on_conflict : option (M ())) : M () :=
  py_modify (fun g => put_watcher (request_reload (eg_watcher g)) g) ;;!
  watcher_latest now ;;!
  py_modify (put_event (ConfigVersionConflictResolved strategies)) ;;!
  match on_conflict with Some f => f | None => py_ret () end.

Definition verify_version_lock (now : float) (sid : string) (on_conflict : option (M ())) : M ConfigVersionLockResult := fun g =>
  let local := strategy_version_for sid (eg_watcher g) in
  let '(row, g) := fetch_remote_strategy_row sid g in
  match row with
  | None =>
      if wt_remote_required (eg_watcher g)
      then (Ok (mkLock false sid local None None false "remote_unreachable"), note_config_fallback "remote_unavailable" g)
      else (Ok (mkLock true sid local None None false "remote_unavailable"), g)
  | Some row =>
      let g := cache_remote sid row g in
      let remote := sr_version_id row in
      let at_ := sr_updated_at row in
      match local with
      | None => (Ok (mkLock true sid None (Some remote) (Some at_) false "no_local_version_cache"), g)
      | Some l =>
          let conflict reason :=
            (reload_for_conflict now [sid] on_conflict ;;!
             py_ret (mkLock false sid (Some l) (Some remote) (Some at_) true reason)) g in
          if (l =? remote)%Z then
            match strategy_updated_at_for sid (eg_watcher g) with
            | Some t => if negb (t =? at_)%Z then conflict "updated_at_mismatch"
                        else (Ok (mkLock true sid (Some l) (Some remote) (Some at_) false "version_match"), g)
            | None => (Ok (mkLock true sid (Some l) (Some remote) (Some at_) false "version_match"), g)
            end
          else conflict "version_mismatch"
      end
  end.

Definition strategy_version_tokens_aligned (sid : string) (w : watcher) (row : strategy_row) : bool :=
  match strategy_version_for sid w with Some l => (l =? sr_version_id row)%Z | None => true end &&
  match strategy_updated_at_for sid w with Some t => (t =? sr_updated_at row)%Z | None => true end.

Fixpoint find_version_mismatches (ids : list string) (g : engine) : list string * engine :=
  match ids with
  | [] => ([], g)
  | sid :: ids =>
      let '(row, g) := fetch_remote_strategy_row sid g in
      let '(bad, g) :=
        match row with
        | None => (wt_remote_required (eg_watcher g), g)
        | Some row => (negb (strategy_version_tokens_aligned sid (eg_watcher g) row), cache_remote sid row g)
        end in
      let '(rest, g) := find_version_mismatches ids g in
      (if bad then sid :: rest else rest, g)
  end.

Definition preflight_targets (strategy_ids : option (list string)) (w : watcher) : list string :=
  match strategy_ids with
  | Some ((_ :: _) as ids) => ids
  | _ => (wt_uuids w).*1
  end.

Definition enforce_preflight_config_alignment (now : float) (strategy_ids : option (list string))
    : M PreflightConfigAlignmentResult := fun g =>
  let targets := preflight_targets strategy_ids (eg_watcher g) in
  match targets with
  | [] => (Ok (mkAlignment true [] "no_remote_strategies"), g)
  | _ =>
      match find_version_mismatches targets g with
      | ([], g) => (Ok (mkAlignment true [] "aligned"), g)
      | (mismatches, g) =>
          if wt_degraded (eg_watcher g)
          then (Ok (mkAlignment false mismatches "config_fetch_degraded"),
                note_config_fallback "preflight_alignment_blocked_by_degraded_fetch" g)
          else
            (py_modify (fun g => put_watcher (request_reload (eg_watcher g)) g) ;;!
             watcher_latest now ;;!
             py_modify sync_remote_version_cache ;;!
             py_modify (put_event (ConfigVersionConflictResolved mismatches)) ;;!
             let! remaining := (fun g => let '(l, g) := find_version_mismatches targets g in (Ok l, g)) in
             py_ret (match remaining with
                     | [] => mkAlignment true [] "realigned_after_reload"
                     | l => mkAlignment false l "still_misaligned"
                     end)) g
      end
  end.

(** The columns a caller may write. *)
Definition write_payload (updates : params) : params := delete "updated_at" (delete "version_id" updates).

Definition note_written (sid : string) (version updated_at : Z) (w : watcher) : watcher :=
  set_tokens (wt_uuids w) (<[sid := version]> (wt_versions w)) (<[sid := updated_at]> (wt_updated_at w)) (wt_portfolio_uuid w) w.

Definition write_remote_strategy_update (now : float) (sid : string) (updates : params) (expected : option Z)
    : M RemoteConfigWriteResult := fun g =>
  match verify_version_lock now sid None g with
  | (Raise e, g) => (Raise e, g)
  | (Ok lock, g) =>
      if negb (lk_allowed lock) && lk_conflict_resolved lock
      then (Ok (mkWrite false sid (lk_remote_version_id lock) "config_version_conflict"), g)
      else match get_supabase configured create_client (eg_sb g) with
      | (None, s) => (Ok (mkWrite false sid None "remote_unavailable"), put_sb s g)
      | (Some c, s) =>
          let g := put_sb s g in
          match strategy_uuid_for sid (eg_watcher g) with
          | None => (Ok (mkWrite false sid None "strategy_uuid_missing"), g)
          | Some uuid =>
              let v := match expected with Some v => v | None =>
                         match strategy_version_for sid (eg_watcher g) with Some v => v | None =>
                           match lk_remote_version_id lock with Some v => v | None => 0%Z end end end in
              match update_row uuid v (write_payload updates) c (sb_world s) with
              | (Raise e, x) => (Ok (mkWrite false sid None e), put_sb (mkSb (sb_cached s) x) g)
              | (Ok [], x) =>
                  match verify_version_lock now sid None (put_sb (mkSb (sb_cached s) x) g) with
                  | (Raise e, g) => (Ok (mkWrite false sid None e), g)
                  | (Ok resolved, g) =>
                      (Ok (mkWrite false sid (lk_remote_version_id resolved) "optimistic_write_rejected"), g)
                  end
              | (Ok (row :: _), x) =>
                  let new := if (sr_version_id row =? 0)%Z then (v + 1)%Z else sr_version_id row in
                  (Ok (mkWrite true sid (Some new) "applied"),
                   put_watcher (note_written sid new (sr_updated_at row) (eg_watcher g)) (put_sb (mkSb (sb_cached s) x) g))
              end
          end
      end
  end.

(** ** Precedence *)

Inductive ConfigLayer := YAML_BASE | AI_POLICY_LIFECYCLE | RUNTIME_OVERRIDE.

Definition LIFECYCLE_PARAM_KEYS : list string :=
  ["ai_policy_execution_state"; "probation_started_at"; "probation_clean_trading_days"; "last_anomaly_session";
   "eviction_lockout_until"].

Record ResolvedConfiguration := mkResolved {
  rc_strategy_id : string; rc_params : params; rc_precedence_trace : list (ConfigLayer * list string)
}.

Definition present (d : params) (key : string) : option json :=
  match d !! key with Some JNull | None => None | Some v => Some v end.

Definition lifecycle_step (row : params) (acc : params * list string) (key : string) : params * list string :=
  match present row key with None => acc | Some v => (<[key := v]> acc.1, acc.2 ++ [key]) end.

(** [row.get(key)] is true. *)
Definition json_truthy (v : option json) : bool :=
  match v with
  | None | Some JNull | Some (JBool false) | Some (JStr "") | Some (JArr []) | Some (JObj []) => false
  | Some (JInt n) => negb (n =? 0)%Z
  | Some (JFloat x) => ftruthy x
  | Some _ => true
  end.

(** [base]: the YAML parameters; [row]: the stored lifecycle state of the leg; [override]: the watcher's. *)
Definition resolve_strategy_params (sid : string) (base : params) (row : option params) (override : option params)
    (symbol : option string) : ResolvedConfiguration :=
  let '(merged, lifecycle_keys) :=
    match row with
    | None => (base, [])
    | Some row =>
        let '(merged, keys) := fold_left (lifecycle_step row) LIFECYCLE_PARAM_KEYS (base, []) in
        (match symbol with
         | None => if json_truthy (row !! "symbol") then <["symbol" := default JNull (row !! "symbol")]> merged else merged
         | Some _ => merged
         end, keys)
    end in
  let '(merged, override_keys) :=
    match override with
    | None => (merged, [])
    | Some o => if bool_decide (o = ∅) then (merged, []) else (o ∪ merged, sorted_strings (dom o))
    end in
  mkResolved sid merged
    [(YAML_BASE, sorted_strings (dom base)); (AI_POLICY_LIFECYCLE, lifecycle_keys); (RUNTIME_OVERRIDE, override_keys)].

(** Every leg is built again, without its extended-hours field. *)
Definition rebuilt (s : StrategyConfig) (p : params) : StrategyConfig :=
  mkStrategyConfig (sc_strategy_id s) (sc_module s) (sc_symbol s) (sc_timeframe s) (sc_poll_interval_seconds s) p
    (sc_enabled s) (sc_environment s) (sc_asset_class s) false.

Definition resolve_legs (lifecycle : string -> option params) (w : option watcher) (a : AppConfig)
    : AppConfig * list ResolvedConfiguration :=
  let resolved := map (fun s => resolve_strategy_params (sc_strategy_id s) (sc_params s) (lifecycle (sc_strategy_id s))
                                  (w ≫= fun w => wt_overrides w !! sc_strategy_id s) (Some (sc_symbol s))) (ac_strategies a) in
  let legs := zip_with (fun s r => rebuilt s (rc_params r)) (ac_strategies a) resolved in
  (with_strategies (List.hd (ac_strategy a) legs) legs a, resolved).

(** The files are read first in any case; with a watcher its configuration replaces them. *)
Definition resolve_app_config (now : float) (lifecycle : string -> option params) (watching : bool)
    : M (AppConfig * list ResolvedConfiguration) := fun g =>
  match load_config (sb_world (eg_sb g)) with
  | (Raise e, x) => (Raise e, put_sb (mkSb (sb_cached (eg_sb g)) x) g)
  | (Ok base, x) =>
      let g := put_sb (mkSb (sb_cached (eg_sb g)) x) g in
      if watching
      then (let! a := watcher_latest now in
            fun g => (Ok (resolve_legs lifecycle (Some (eg_watcher g)) a), g)) g
      else (Ok (resolve_legs lifecycle None base), g)
  end.
End Engine.

(** ** What the calls keep *)

Section Laws.
Context (MR : string -> bool) {W client : Type} (configured : bool) (create_client : W -> option client * W).
Context (load_config : W -> result string AppConfig * W).
Context (select_strategies : hosted_op W client (list strategy_row)) (select_reporting : hosted_op W client (list reporting_row)).
Context (select_row : string -> string -> hosted_op W client (list strategy_row)).
Context (update_row : string -> Z -> params -> hosted_op W client (list strategy_row)).
Context (poll_interval : float).

Notation engine := (@engine W client).
Notation Fetch_row := (fetch_remote_strategy_row configured create_client select_row).
Notation Latest := (watcher_latest MR configured create_client load_config select_strategies select_reporting poll_interval).
Notation Verify := (verify_version_lock MR configured create_client load_config select_strategies select_reporting
                      select_row poll_interval).
Notation Mismatches := (find_version_mismatches configured create_client select_row).
Notation Preflight := (enforce_preflight_config_alignment MR configured create_client load_config select_strategies
                         select_reporting select_row poll_interval).
Notation Write := (write_remote_strategy_update MR configured create_client load_config select_strategies select_reporting
                     select_row update_row poll_interval).

Definition latched (g : engine) : Prop := rv_fallback_active (eg_resolver g) = true.

Lemma fetch_row_keeps sid g :
  eg_watcher (Fetch_row sid g).2 = eg_watcher g /\ (latched g -> latched (Fetch_row sid g).2).
Proof.
  unfold fetch_remote_strategy_row. destruct (get_supabase _ _ _) as [[c|] s]; [|done].
  match goal with |- context [match ?op c ?x with _ => _ end] => destruct (op c x) as [[rows|e] y] end; [done|].
  cbn. by destruct (wt_remote_required _).
Qed.

Lemma latest_resolver now g : eg_resolver (Latest now g).2 = eg_resolver g.
Proof. unfold watcher_latest. by destruct (get_latest _ _ _ _ _ _ _ _ _) as [r [w s]]. Qed.

Lemma reload_resolver now ids g :
  eg_resolver (reload_for_conflict MR configured create_client load_config select_strategies select_reporting poll_interval
                 now ids None g).2 = eg_resolver g.
Proof.
  unfold reload_for_conflict, py_bind, py_modify, py_ret. set (h := put_watcher _ g).
  pose proof (latest_resolver now h) as H. by destruct (Latest now h) as [[a|e] g1].
Qed.

Lemma verify_latched now sid g : latched g -> latched (Verify now sid None g).2.
Proof.
  intros Hg. unfold verify_version_lock. destruct (fetch_row_keeps sid g) as [_ Hl]. specialize (Hl Hg).
  destruct (Fetch_row sid g) as [[row|] g1]; cbn [snd] in Hl; [|by case_match].
  assert (latched (cache_remote sid row g1)) as Hc by exact Hl.
  assert (forall reason, latched ((reload_for_conflict MR configured create_client load_config select_strategies
    select_reporting poll_interval now [sid] None ;;!
    py_ret (mkLock false sid (strategy_version_for sid (eg_watcher g)) (Some (sr_version_id row)) (Some (sr_updated_at row)) true reason))
      (cache_remote sid row g1)).2) as Hr.
  { intros reason. unfold py_bind, py_ret. pose proof (reload_resolver now [sid] (cache_remote sid row g1)) as H.
    unfold latched in *. destruct (reload_for_conflict _ _ _ _ _ _ _ _ _ _ _) as [[[]|e] g2]; cbn [snd] in *; by rewrite H. }
  destruct (strategy_version_for sid (eg_watcher g)) as [l|]; [|done].
  destruct (l =? _)%Z; [|apply Hr].
  destruct (strategy_updated_at_for _ _) as [t|]; [destruct (negb _); [apply Hr|]|]; done.
Qed.

Lemma mismatches_keep ids g :
  eg_watcher (Mismatches ids g).2 = eg_watcher g /\ (latched g -> latched (Mismatches ids g).2).
Proof.
  revert g. induction ids as [|sid ids IH]; intros g; [done|]. cbn [find_version_mismatches].
  destruct (fetch_row_keeps sid g) as [Hw Hl]. destruct (Fetch_row sid g) as [[row|] g1]; cbn [snd] in Hw, Hl.
  - destruct (IH (cache_remote sid row g1)) as [Hw' Hl'].
    destruct (Mismatches ids _) as [rest g2]; cbn [snd] in *. split; [by rewrite Hw', <- Hw|]. intros H. by apply Hl', Hl.
  - destruct (IH g1) as [Hw' Hl'].
    destruct (Mismatches ids _) as [rest g2]; cbn [snd] in *. split; [by rewrite Hw', <- Hw|]. auto.
Qed.

(** A scan that finds nothing has read every row, as it was then, against the watcher. *)
Lemma no_mismatches ids g g' : Mismatches ids g = ([], g') ->
  Forall (fun sid => exists h, match (Fetch_row sid h).1 with
                               | None => wt_remote_required (eg_watcher g) = false
                               | Some row => strategy_version_tokens_aligned sid (eg_watcher g) row = true
                               end) ids.
Proof.
  revert g g'. induction ids as [|sid ids IH]; intros g g'; [done|]. cbn [find_version_mismatches].
  destruct (fetch_row_keeps sid g) as [Hw _]. destruct (Fetch_row sid g) as [[row|] g1] eqn:E; cbn [snd] in Hw.
  - pose proof (IH (cache_remote sid row g1)) as IH'. destruct (Mismatches ids _) as [rest g2].
    change (eg_watcher (cache_remote sid row g1)) with (eg_watcher g1) in IH' |- *. rewrite Hw in IH' |- *.
    destruct (strategy_version_tokens_aligned _ _ _) eqn:Ea; cbn [negb]; [|done]. intros [= -> ->].
    constructor; [exists g; by rewrite E|by eapply IH'].
  - pose proof (IH g1) as IH'. destruct (Mismatches ids g1) as [rest g2]. rewrite Hw in IH' |- *.
    destruct (wt_remote_required _) eqn:Ea; [done|]. intros [= -> ->].
    constructor; [exists g; by rewrite E|]. by eapply IH'.
Qed.

(** ** Locks *)

Lemma lock_of_row now sid g :
  let '(row, g1) := Fetch_row sid g in
  match (Verify now sid None g).1 with
  | Ok lk =>
      lk_allowed lk = true <->
      match row with
      | None => wt_remote_required (eg_watcher g) = false
      | Some row => strategy_version_for sid (eg_watcher g) = None \/
                    strategy_version_tokens_aligned sid (eg_watcher g) row = true
      end
  | Raise _ => True
  end.
Proof.
  unfold verify_version_lock. destruct (fetch_row_keeps sid g) as [Hw _].
  destruct (Fetch_row sid g) as [[row|] g1]; cbn [snd] in Hw; rewrite ?Hw; [|by destruct (wt_remote_required _)].
  unfold strategy_version_tokens_aligned.
  change (eg_watcher (cache_remote sid row g1)) with (eg_watcher g1). rewrite Hw.
  destruct (strategy_version_for sid (eg_watcher g)) as [l|]; [|by cbn; split; auto].
  assert (forall reason, match ((reload_for_conflict MR configured create_client load_config select_strategies select_reporting
    poll_interval now [sid] None ;;! py_ret (mkLock false sid (Some l) (Some (sr_version_id row)) (Some (sr_updated_at row)) true reason))
      (cache_remote sid row g1)).1 with Ok lk => lk_allowed lk = false | Raise _ => True end) as Hr.
  { intros reason. unfold py_bind, py_ret. by destruct (reload_for_conflict _ _ _ _ _ _ _ _ _ _ _) as [[[]|e] g2]. }
  destruct (l =? sr_version_id row)%Z.
  - destruct (strategy_updated_at_for sid (eg_watcher g)) as [t|]; [|by cbn; split; auto].
    destruct (t =? sr_updated_at row)%Z; [by cbn; split; auto|]. cbn [negb andb].
    specialize (Hr "updated_at_mismatch"). case_match; [|done]. split; [congruence|by intros [?|?]].
  - specialize (Hr "version_mismatch"). case_match; [|done]. split; [congruence|by intros [?|?]].
Qed.

(** A preflight that finds no mismatch logs and reloads nothing, and keeps what it noted. *)
Lemma preflight_latched now ids g :
  latched g -> (Mismatches (preflight_targets ids (eg_watcher g)) g).1 = [] -> latched (Preflight now ids g).2.
Proof.
  intros Hg. unfold enforce_preflight_config_alignment. destruct (preflight_targets _ _) as [|sid rest]; [done|].
  pose proof (proj2 (mismatches_keep (sid :: rest) g) Hg) as H. destruct (Mismatches (sid :: rest) g) as [[|x l] g1]; [|done].
  intros _. exact H.
Qed.

(** The calls of the resolver that do not find a mismatch before a cycle. *)
Inductive resolver_op :=
| RLatest (now : float)
| RVerify (now : float) (sid : string)
| RWrite (now : float) (sid : string) (updates : params) (expected : option Z)
| RPreflight (now : float) (ids : option (list string)).
Definition resolver_step (g : engine) (o : resolver_op) : engine :=
  match o with
  | RLatest now => (Latest now g).2
  | RVerify now sid => (Verify now sid None g).2
  | RWrite now sid updates expected => (Write now sid updates expected g).2
  | RPreflight now ids => (Preflight now ids g).2
  end.

Fixpoint nothing_found (g : engine) (ops : list resolver_op) : Prop :=
  match ops with
  | [] => True
  | o :: ops =>
      match o with
      | RPreflight _ ids => (Mismatches (preflight_targets ids (eg_watcher g)) g).1 = []
      | _ => True
      end /\ nothing_found (resolver_step g o) ops
  end.

Lemma write_latched now sid updates expected g : latched g -> latched (Write now sid updates expected g).2.
Proof.
  intros Hg. unfold write_remote_strategy_update.
  pose proof (verify_latched now sid g Hg) as Hv.
  destruct (Verify now sid None g) as [[lk|e] g1]; [|exact Hv]. cbn [snd] in Hv. destruct (negb _ && _); [exact Hv|].
  destruct (get_supabase _ _ _) as [[c|] x]; [|exact Hv].
  destruct (strategy_uuid_for _ _) as [u|]; [|exact Hv].
  match goal with |- context [update_row u ?v ?p c ?y] => destruct (update_row u v p c y) as [[[|row rows]|e] z] end;
    [|exact Hv|exact Hv].
  match goal with |- context [Verify now sid None ?h] =>
    pose proof (verify_latched now sid h Hv) as Hv'; destruct (Verify now sid None h) as [[lk'|e] g2] end; exact Hv'.
Qed.

Lemma latched_until_found g ops : latched g -> nothing_found g ops -> latched (runs resolver_step g ops).
Proof.
  revert g. induction ops as [|o ops IH]; intros g Hg; [done|]. intros [Ho Hops]. rewrite runs_cons. apply IH; [|exact Hops].
  destruct o as [now|now sid|now sid u e|now ids]; cbn [resolver_step].
  - unfold latched. by rewrite latest_resolver.
  - by apply verify_latched.
  - by apply write_latched.
  - by apply preflight_latched.
Qed.

Lemma preflight_checked now ids g r g' :
  Preflight now ids g = (Ok r, g') -> pa_aligned r = true ->
  let targets := preflight_targets ids (eg_watcher g) in
  pa_mismatches r = [] /\
  (targets = [] \/
   Forall (fun sid => exists h, match (Fetch_row sid h).1 with
                                | None => wt_remote_required (eg_watcher g') = false
                                | Some row => strategy_version_tokens_aligned sid (eg_watcher g') row = true
                                end) targets).
Proof.
  unfold enforce_preflight_config_alignment. cbv zeta. destruct (preflight_targets _ _) as [|sid rest] eqn:Et.
  { intros [= <- <-] _. split; [done|by left]. }
  generalize (sid :: rest). clear Et sid rest. intros targets.
  pose proof (no_mismatches targets g) as Hn.
  pose proof (proj1 (mismatches_keep targets g)) as Hk.
  destruct (Mismatches targets g) as [[|m ms] g1]; cbn [snd] in Hk.
  { intros [= <- <-] _. split; [done|right]. rewrite Hk. by eapply Hn. }
  destruct (wt_degraded (eg_watcher g1)); [by intros [= <- <-]|].
  unfold py_bind, py_modify, py_ret. destruct (Latest _ _) as [[a|e] g2]; [|done].
  match goal with |- context [Mismatches targets ?h] =>
    pose proof (no_mismatches targets h) as Hn2;
    pose proof (proj1 (mismatches_keep targets h)) as Hk2;
    destruct (Mismatches targets h) as [[|m2 ms2] g3] end; cbn [snd] in Hk2; intros [= <- <-]; [|done].
  intros _. split; [done|right]. rewrite Hk2. by eapply Hn2.
Qed.
End Laws.

(** A preflight reports the hosted configuration aligned only when there was nothing to compare, or the row of every
    strategy, read once more after the reload if there was one, has the version and the time that the watcher then holds;
    a row that could not be read passes only where no remote source is required. *)
Theorem aligned_means_checked MR {W client} configured (create_client : W -> option client * W) load_config
    (select_strategies : hosted_op W client (list strategy_row)) select_reporting select_row poll now ids g r g' :
  enforce_preflight_config_alignment MR configured create_client load_config select_strategies select_reporting select_row
    poll now ids g = (Ok r, g') ->
  pa_aligned r = true ->
  let targets := preflight_targets ids (eg_watcher g) in
  pa_mismatches r = [] /\
  (targets = [] \/
   forall sid, sid ∈ targets ->
     exists h, match (fetch_remote_strategy_row configured create_client select_row sid h).1 with
               | None => wt_remote_required (eg_watcher g') = false
               | Some row =>
                   (forall v, wt_versions (eg_watcher g') !! sid = Some v -> v = sr_version_id row) /\
                   (forall t, wt_updated_at (eg_watcher g') !! sid = Some t -> t = sr_updated_at row)
               end).
Proof.
  intros E Hr. destruct (preflight_checked _ _ _ _ _ _ _ _ _ _ _ _ _ E Hr) as [Hm Ht]. split; [done|].
  destruct Ht as [Ht|Ht]; [by left|right]. intros sid Hs. rewrite Forall_forall in Ht. destruct (Ht sid Hs) as [h Hh].
  exists h. destruct (fetch_remote_strategy_row _ _ _ sid h).1 as [row|]; [|done].
  unfold strategy_version_tokens_aligned, strategy_version_for, strategy_updated_at_for in Hh. bool_prop.
  split; intros v Hv; rewrite Hv in *; bool_prop; done.
Qed.

(** C39: A noted fallback outlives the recovery. Once a row could not be fetched, every promotion of a policy stays blocked
    through any history of refreshes, version checks, writes and preflights that find the configuration aligned, however
    healthy the service is: only a preflight that finds a mismatch clears the note. *)
Theorem fallback_outlives_recovery MR {W client} configured (create_client : W -> option client * W) load_config
    (select_strategies : hosted_op W client (list strategy_row)) select_reporting select_row update_row poll g reason ops now :
  let h := note_config_fallback reason g in
  nothing_found MR configured create_client load_config select_strategies select_reporting select_row update_row poll h ops ->
  blocks_policy_promotion now
    (runs (resolver_step MR configured create_client load_config select_strategies select_reporting select_row update_row poll)
       h ops) = true.
Proof.
  cbv zeta. intros Hn. unfold blocks_policy_promotion.
  assert (latched (note_config_fallback reason g)) as Hl by done.
  pose proof (latched_until_found _ _ _ _ _ _ _ _ _ _ _ Hl Hn) as H. unfold latched in H. by rewrite H.
Qed.

(** ** Writes *)

(** Fetching a row leaves the watcher alone. *)
Lemma fetched_row_watcher {W client} configured (create_client : W -> option client * W) select_row sid (g : @engine W client) :
  eg_watcher (fetch_remote_strategy_row configured create_client select_row sid g).2 = eg_watcher g.
Proof.
  unfold fetch_remote_strategy_row. destruct (get_supabase _ _ _) as [[c|] s]; [|done]. cbv zeta.
  match goal with |- context [?op c ?x] => destruct (op c x) as [[rows|e] y] end; [done|]. by destruct (wt_remote_required _).
Qed.

(** A lock that resolved no conflict left the watcher as it was, and carries the version of the row it fetched. *)
Lemma unresolved_lock MR {W client} configured (create_client : W -> option client * W) load_config
    (select_strategies : hosted_op W client (list strategy_row)) select_reporting select_row poll now sid g lk g1 :
  verify_version_lock MR configured create_client load_config select_strategies select_reporting select_row poll now sid None g
    = (Ok lk, g1) ->
  negb (lk_allowed lk) && lk_conflict_resolved lk = false ->
  eg_watcher g1 = eg_watcher g /\
  lk_remote_version_id lk = sr_version_id <$> (fetch_remote_strategy_row configured create_client select_row sid g).1.
Proof.
  unfold verify_version_lock. pose proof (fetched_row_watcher configured create_client select_row sid g) as Hw.
  destruct (fetch_remote_strategy_row _ _ _ _ _) as [[row|] g0]; cbn [fst snd] in *.
  - destruct (strategy_version_for sid (eg_watcher g)) as [l|]; [|by intros [= <- <-] _].
    assert (forall reason, (reload_for_conflict MR configured create_client load_config select_strategies select_reporting poll now
        [sid] None ;;! py_ret (mkLock false sid (Some l) (Some (sr_version_id row)) (Some (sr_updated_at row)) true reason))
        (cache_remote sid row g0) = (Ok lk, g1) -> negb (lk_allowed lk) && lk_conflict_resolved lk = true) as Hconf.
    { intros reason. unfold py_bind. destruct (reload_for_conflict _ _ _ _ _ _ _ _ _ _) as [[?|?] ?]; [|done]. by intros [= <- _]. }
    destruct (_ =? _)%Z; [|by intros H Hn; apply Hconf in H; rewrite H in Hn].
    destruct (strategy_updated_at_for _ _); [|by intros [= <- <-] _].
    destruct (negb (_ =? _)%Z); [by intros H Hn; apply Hconf in H; rewrite H in Hn|by intros [= <- <-] _].
  - destruct (wt_remote_required _); by intros [= <- <-] _.
Qed.

(** C11: A write is applied only to the version it was based on. With a hosted table that updates a row only when its version
    is the one asked for, an applied write found the row of the strategy's id at the version the caller expected; with
    none expected, at the version the watcher held before the call, whatever the row it then fetched said; and with none
    held, at the version of that row, or at 0 when no row came. It wrote neither the version nor the time, and the watcher
    now holds the new version. *)
Theorem applied_write_was_on_its_version MR {W client} configured (create_client : W -> option client * W) load_config
    (select_strategies : hosted_op W client (list strategy_row)) select_reporting select_row update_row poll
    (version_of : string -> W -> option Z)
    (Hcas : forall uuid v p c x row rows x', update_row uuid v p c x = (Ok (row :: rows), x') -> version_of uuid x = Some v)
    now sid updates expected g r g' :
  write_remote_strategy_update MR configured create_client load_config select_strategies select_reporting select_row update_row
    poll now sid updates expected g = (Ok r, g') ->
  rw_applied r = true ->
  exists uuid x v,
    strategy_uuid_for sid (eg_watcher g) = Some uuid /\ version_of uuid x = Some v /\
    (exists c row rows y, update_row uuid v (write_payload updates) c x = (Ok (row :: rows), y) /\
       sb_world (eg_sb g') = y /\
       rw_version_id r = Some (if (sr_version_id row =? 0)%Z then v + 1 else sr_version_id row)%Z) /\
    (match expected, strategy_version_for sid (eg_watcher g),
           (fetch_remote_strategy_row configured create_client select_row sid g).1 with
     | Some e, _, _ => v = e
     | None, Some held, _ => v = held
     | None, None, Some row => v = sr_version_id row
     | None, None, None => v = 0%Z
     end) /\
    strategy_version_for sid (eg_watcher g') = rw_version_id r /\
    write_payload updates !! "version_id" = None /\ write_payload updates !! "updated_at" = None.
Proof.
  unfold write_remote_strategy_update. destruct (verify_version_lock _ _ _ _ _ _ _ _ _ _ _ g) as [[lk|e] g1] eqn:El; [|done].
  destruct (negb _ && _) eqn:Hn; [by intros [= <- <-]|]. destruct (unresolved_lock _ _ _ _ _ _ _ _ _ _ _ _ _ El Hn) as [Hw Hr]. clear El.
  destruct (get_supabase _ _ _) as [[c|] s]; [|by intros [= <- <-]]. cbn [eg_watcher put_sb]. rewrite Hw.
  destruct (strategy_uuid_for sid _) as [uuid|] eqn:Eu; [|by intros [= <- <-]].
  match goal with |- context [update_row uuid ?v ?p c ?x] =>
    set (version := v); destruct (update_row uuid version p c x) as [[[|row rows]|e] y] eqn:E end;
    [by destruct (verify_version_lock _ _ _ _ _ _ _ _ _ _ _ _) as [[?|?] ?]; intros [= <- <-]| |by intros [= <- <-]].
  intros [= <- <-] _. exists uuid, (sb_world s), version. split_and!.
  - done.
  - by eapply Hcas.
  - by exists c, row, rows, y.
  - unfold version. rewrite Hr. destruct expected; [done|]. destruct (strategy_version_for sid _); [done|].
    by destruct (fetch_remote_strategy_row _ _ _ _ _).1.
  - unfold strategy_version_for. cbn. by rewrite lookup_insert_eq.
  - unfold write_payload. rewrite lookup_delete_ne by done. apply lookup_delete_eq.
  - apply lookup_delete_eq.
Qed.

(** A hosted table of one row: its version, and whether calls answer. *)
Definition one_row (v : Z) : strategy_row :=
  mkStrategyRow "id-1" "qqq" "mean_reversion" "QQQ" "15Min" true "paper" ∅ 900 "stock" v (1000 + v).
Definition table_rows : hosted_op (Z * bool) unit (list strategy_row) :=
  fun _ x => if x.2 then (Ok [one_row x.1], x) else (Raise "timeout", x).
Definition table_row (column value : string) : hosted_op (Z * bool) unit (list strategy_row) := table_rows.
Definition table_update : string -> Z -> params -> hosted_op (Z * bool) unit (list strategy_row) :=
  fun uuid v _ _ x => if x.2 && bool_decide (uuid = "id-1") && (v =? x.1)%Z then (Ok [one_row (x.1 + 1)], (x.1 + 1, x.2)%Z)
                      else (Ok [], x).
Definition table_version (uuid : string) (x : Z * bool) : option Z := if bool_decide (uuid = "id-1") then Some x.1 else None.
Definition no_reporting : hosted_op (Z * bool) unit (list reporting_row) := fun _ x => (Ok [], x).
Definition always_connect {W} (x : W) : option unit * W := (Some tt, x).

Definition at_version (v : Z) (answers : bool) : @engine (Z * bool) unit :=
  mkEngine resolver_init
    (fetch mean_reversion_only true always_connect read_files table_rows no_reporting fzero
       (watcher_init, mkSb None (v, true))).2.1 (mkSb (Some (Some tt)) (v, answers)) [].

Lemma table_update_cas uuid v p c x row rows x' :
  table_update uuid v p c x = (Ok (row :: rows), x') -> table_version uuid x = Some v.
Proof.
  unfold table_update, table_version. destruct (x.2); cbn [andb]; [|done]. case_bool_decide; cbn [andb]; [|done].
  destruct (Z.eqb_spec v x.1); [|done]. by subst.
Qed.

Lemma applied_write_was_on_its_version_witness :
  let out := write_remote_strategy_update mean_reversion_only true always_connect read_files table_rows no_reporting table_row
               table_update fzero fone "qqq" {[ "enabled" := JBool true ]} None (at_version 7 true) in
  exists uuid x v, strategy_uuid_for "qqq" (eg_watcher (at_version 7 true)) = Some uuid /\ table_version uuid x = Some v /\
    strategy_version_for "qqq" (eg_watcher out.2) = Some 8%Z.
Proof.
  cbv zeta. set (out := write_remote_strategy_update _ _ _ _ _ _ _ _ _ _ _ _ _ _).
  destruct (applied_write_was_on_its_version mean_reversion_only true always_connect read_files table_rows no_reporting table_row
    table_update fzero table_version table_update_cas fone "qqq" {[ "enabled" := JBool true ]} None (at_version 7 true)
    (mkWrite true "qqq" (Some 8%Z) "applied") out.2 ltac:(vm_compute; reflexivity) eq_refl) as (uuid & x & v & H1 & H2 & _ & _ & H3 & _).
  exists uuid, x, v. exact (conj H1 (conj H2 H3)).
Defined.

Lemma aligned_means_checked_witness :
  let out := enforce_preflight_config_alignment mean_reversion_only true always_connect read_files table_rows no_reporting
               table_row fzero fone None (at_version 7 true) in
  pa_mismatches (mkAlignment true [] "aligned") = [] /\ wt_versions (eg_watcher out.2) !! "qqq" = Some 7%Z.
Proof.
  split; [|vm_compute; reflexivity].
  refine (proj1 (aligned_means_checked mean_reversion_only true always_connect read_files table_rows no_reporting table_row
    fzero fone None (at_version 7 true) (mkAlignment true [] "aligned")
    (enforce_preflight_config_alignment mean_reversion_only true always_connect read_files table_rows no_reporting
               table_row fzero fone None (at_version 7 true)).2 _ eq_refl)).
  vm_compute. reflexivity.
Defined.

(** One timeout, and then a healthy service. *)
Definition after_a_timeout : list resolver_op :=
  [RVerify fone "qqq"; RPreflight fone None; RWrite fone "qqq" ∅ None; RPreflight fone None].

Lemma fallback_outlives_recovery_witness :
  let g := (verify_version_lock mean_reversion_only true always_connect read_files table_rows no_reporting table_row fzero
              fone "qqq" None (at_version 7 false)).2 in
  rv_fallback_active (eg_resolver g) = true /\
  blocks_policy_promotion fone
    (runs (resolver_step mean_reversion_only true always_connect read_files table_rows no_reporting table_row table_update fzero)
       (note_config_fallback "remote_unavailable" (at_version 7 true)) after_a_timeout) = true.
Proof.
  split; [vm_compute; reflexivity|].
  refine (fallback_outlives_recovery mean_reversion_only true always_connect read_files table_rows no_reporting table_row
    table_update fzero (at_version 7 true) "remote_unavailable" after_a_timeout fone _).
  vm_compute. repeat split.
Defined.

(** ** What passes *)

(** A watcher whose first fetch failed holds no strategy: the preflight of a degraded configuration reports it aligned. *)
Lemma outage_at_boot_is_aligned :
  let w := (fetch mean_reversion_only true always_connect read_files table_rows no_reporting fone
              (watcher_init, mkSb None (7, false)%Z)).2 in
  let g := mkEngine resolver_init w.1 w.2 [] in
  wt_degraded w.1 = true /\ wt_remote_required w.1 = true /\
  (enforce_preflight_config_alignment mean_reversion_only true always_connect read_files table_rows no_reporting table_row
     fzero fone None g).1 = Ok (mkAlignment true [] "no_remote_strategies").
Proof. repeat split; vm_compute; reflexivity. Qed.

(** A lock that is refused because the row could not be read does not stop the write. *)
Lemma refused_lock_still_writes :
  let unreadable (column value : string) : hosted_op (Z * bool) unit (list strategy_row) := fun _ x => (Raise "timeout", x) in
  let g := at_version 7 true in
  (exists lk, (verify_version_lock mean_reversion_only true always_connect read_files table_rows no_reporting unreadable fzero
     fone "qqq" None g).1 = Ok lk /\ lk_allowed lk = false) /\
  exists r, (write_remote_strategy_update mean_reversion_only true always_connect read_files table_rows no_reporting unreadable
     table_update fzero fone "qqq" ∅ None g).1 = Ok r /\ rw_applied r = true.
Proof. split; eexists; split; vm_compute; reflexivity. Qed.

(** The staleness of a required source is no condition of its own. *)
Lemma staleness_is_degradation now (g : @engine (Z * bool) unit) : watcher_sound (eg_watcher g) ->
  blocks_policy_promotion now g = rv_fallback_active (eg_resolver g) || wt_degraded (eg_watcher g).
Proof.
  intros [Hs _ _ _]. unfold blocks_policy_promotion, config_staleness_seconds.
  destruct (wt_degraded (eg_watcher g)); [by rewrite !orb_true_r|].
  destruct (wt_degraded_since (eg_watcher g)) as [t|].
  - destruct Hs as [_ Hs]. assert (false = true) by (apply Hs; congruence). done.
  - by destruct (rv_fallback_active _), (wt_remote_required _).
Qed.

(** ** Precedence *)

Lemma lifecycle_fold row keys acc key :
  (fold_left (lifecycle_step row) keys acc).1 !! key =
  match (if bool_decide (key ∈ keys) then present row key else None) with Some v => Some v | None => acc.1 !! key end.
Proof.
  revert acc. induction keys as [|k keys IH]; intros acc; cbn [fold_left].
  - by rewrite bool_decide_false by apply not_elem_of_nil.
  - rewrite IH. unfold lifecycle_step. destruct (decide (key = k)) as [->|Hne].
    + rewrite (bool_decide_true (k ∈ k :: keys)) by left. destruct (present row k) as [v|] eqn:E; cbn [fst].
      * rewrite lookup_insert_eq. by case_bool_decide.
      * by case_bool_decide.
    + assert (bool_decide (key ∈ k :: keys) = bool_decide (key ∈ keys)) as ->
        by (apply bool_decide_ext; rewrite elem_of_cons; naive_solver).
      destruct (present row k); cbn [fst]; [by rewrite lookup_insert_ne by done|done].
Qed.

(** A resolved parameter is the runtime override's where that has the key, else the stored lifecycle state's for the five
    keys of the policy's lifecycle, else the YAML's; and the trace lists the layers lowest first. *)
Theorem resolved_by_precedence sid base row override symbol key :
  let r := resolve_strategy_params sid base row override (Some symbol) in
  rc_params r !! key =
    match override ≫= (.!! key) with
    | Some v => Some v
    | None =>
        match (if bool_decide (key ∈ LIFECYCLE_PARAM_KEYS) then row ≫= (fun row => present row key) else None) with
        | Some v => Some v
        | None => base !! key
        end
    end /\
  map fst (rc_precedence_trace r) = [YAML_BASE; AI_POLICY_LIFECYCLE; RUNTIME_OVERRIDE].
Proof.
  cbv zeta. unfold resolve_strategy_params.
  set (m := match row with
            | None => (base, [])
            | Some row => let '(merged, keys) := fold_left (lifecycle_step row) LIFECYCLE_PARAM_KEYS (base, []) in (merged, keys)
            end).
  assert (Hm : m.1 !! key = match (if bool_decide (key ∈ LIFECYCLE_PARAM_KEYS) then row ≫= (fun row => present row key) else None) with
        | Some v => Some v | None => base !! key end).
  { unfold m. destruct row as [row|]; [|by case_bool_decide].
    pose proof (lifecycle_fold row LIFECYCLE_PARAM_KEYS (base, []) key) as H.
    by destruct (fold_left _ _ _) as [merged keys]. }
  rewrite <- Hm. destruct m as [merged keys]. cbn [fst].
  destruct override as [o|]; [|by split].
  destruct (bool_decide (o = ∅)) eqn:Ho; cbn [rc_params rc_precedence_trace map fst mbind option_bind]; (split; [|done]); bool_prop.
  - by rewrite Ho, lookup_empty.
  - rewrite lookup_union. by destruct (o !! key), (merged !! key).
Qed.

(** Through the application's configuration an override replaces: the YAML keys it does not name are gone. *)
Lemma override_replaces_in_the_app_config :
  let o : params := {[ "sigma" := JInt 2 ]} in
  let w := set_runtime_params_override "qqq" o "regime" None fone (set_config (Some files) fzero false watcher_init) in
  option_map (fun a => map (fun r => rc_params r !! "z") (resolve_legs (fun _ => None) (Some w) a).2) (wt_config w) = Some [None] /\
  rc_params (resolve_strategy_params "qqq" {[ "z" := JInt 1 ]} None (Some o) None) !! "z" = Some (JInt 1).
Proof. split; vm_compute; reflexivity. Qed.

(** A leg that was opted into extended hours is not, once it is resolved. *)
Lemma extended_hours_are_dropped lifecycle w a leg :
  leg ∈ ac_strategies (resolve_legs lifecycle w a).1 -> sc_extended_hours leg = false.
Proof.
  unfold resolve_legs. cbn [fst with_strategies ac_strategies]. generalize (ac_strategies a). intros l.
  rewrite zip_with_fmap_r. induction l as [|x l IH]; cbn; [by intros ?%not_elem_of_nil|].
  intros [->|H]%elem_of_cons; [done|by apply IH].
Qed.
