(* ===== verification/CostFilter.v ===== *)
(** * Slippage calibration and frictional costs

    [src/engine/slippage_calibration.py]: the grid of multipliers by session and direction, its calibration file, and the
    execution cost of a configuration that liquidates under stress. [src/engine/cost_filter.py]: the penalties that turn a
    selection score into an adjusted one. Dicts whose order shows are association lists; [float()] of a text is an
    argument. *)

From stdpp Require Import base gmap strings list.
From Stdlib Require Import ZArith Lia Floats.SpecFloat.
From S2P Require Import Prelude PyFloat FloatInt Models Dict.

Definition SESSION_OPENING_CROSS : string := "OPENING_CROSS".
Definition SESSION_MIDDAY_DOLDRUMS : string := "MIDDAY_DOLDRUMS".
Definition SESSION_CLOSING_IMBALANCE : string := "CLOSING_IMBALANCE".
Definition LONG_ENTRY : string := "long_entry".
Definition LONG_EXIT : string := "long_exit".
Definition SHORT_ENTRY : string := "short_entry".
Definition SHORT_EXIT : string := "short_exit".
Definition SESSION_SLIPPAGE_MULTIPLIERS : list (string * float) :=
  Eval vm_compute in [("OPENING_CROSS", of_Z 2); ("MIDDAY_DOLDRUMS", of_Z 1); ("CLOSING_IMBALANCE", lit 15 1)].
Definition EXECUTION_DIRECTION_TYPES : list string := [LONG_ENTRY; LONG_EXIT; SHORT_ENTRY; SHORT_EXIT].
Definition SESSION_TYPES : list string := [SESSION_OPENING_CROSS; SESSION_MIDDAY_DOLDRUMS; SESSION_CLOSING_IMBALANCE].
Definition STRESS_SESSION_TYPES : list string := [SESSION_OPENING_CROSS; SESSION_CLOSING_IMBALANCE].
Definition EXIT_DIRECTIONS : list string := [LONG_EXIT; SHORT_EXIT].
Definition ENTRY_DIRECTIONS : list string := [LONG_ENTRY; SHORT_ENTRY].

Notation directions := (list (string * float)).
Notation grid := (list (string * directions)).

Definition default_asymmetric_multipliers : grid :=
  map (fun e =>
    let exit_bias := if bool_decide (e.1 ∈ STRESS_SESSION_TYPES) then lit 135 2 else lit 115 2 in
    let entry_bias := if bool_decide (e.1 = SESSION_MIDDAY_DOLDRUMS) then lit 90 2 else fone in
    (e.1, [(LONG_ENTRY, fmul e.2 entry_bias); (LONG_EXIT, fmul e.2 exit_bias);
           (SHORT_ENTRY, fmul e.2 entry_bias); (SHORT_EXIT, fmul e.2 exit_bias)])) SESSION_SLIPPAGE_MULTIPLIERS.

Definition flatten_multiplier_map (nested : grid) : directions :=
  concat (map (fun e => map (fun d => (e.1 +:+ "::" +:+ d.1, d.2)) e.2) nested).

Inductive calibration_error := ValueError | TypeError | AttributeError | OverflowError.

Section Calibration.
Context (float_of_text : string -> option float).

(** [float(value)]. *)
Definition json_float (v : json) : result calibration_error float :=
  match v with
  | JFloat x => Ok x
  | JInt n => if is_inf (of_Z n) then Raise OverflowError else Ok (of_Z n)
  | JBool b => Ok (of_Z (Z.b2z b))
  | JStr s => match float_of_text s with Some x => Ok x | None => Raise ValueError end
  | JNull | JArr _ | JObj _ => Raise TypeError
  end.

Fixpoint set_directions (raw : list (string * json)) (types : list string) (d : directions) : result calibration_error directions :=
  match types with
  | [] => Ok d
  | t :: types =>
      match assoc t raw with
      | None | Some JNull => set_directions raw types d
      | Some v => result_bind (json_float v) (fun x => set_directions raw types (assoc_set t x d))
      end
  end.

Fixpoint set_sessions (raw : list (string * json)) (g : grid) : result calibration_error grid :=
  match raw with
  | [] => Ok g
  | (session, JObj fields) :: raw =>
      match assoc session g with
      | None => set_sessions raw g
      | Some d => result_bind (set_directions fields EXECUTION_DIRECTION_TYPES d)
                    (fun d => set_sessions raw (assoc_set session d g))
      end
  | _ :: raw => set_sessions raw g
  end.

(** No file, a file that cannot be read or parsed, or a payload. *)
Inductive calibration_file := NoFile | Unreadable | Payload (j : json).

Definition load_asymmetric_slippage_multipliers (f : calibration_file) : result calibration_error grid :=
  match f with
  | NoFile | Unreadable => Ok default_asymmetric_multipliers
  | Payload (JObj fields) =>
      match assoc "session_slippage_multipliers" fields with
      | Some (JObj raw) => set_sessions raw default_asymmetric_multipliers
      | _ => Ok default_asymmetric_multipliers
      end
  | Payload _ => Raise AttributeError
  end.

Definition resolve_directional_slippage_multiplier (m : grid) (session direction : string) : float :=
  match assoc direction (default [] (assoc session m)) with
  | Some v => v
  | None => default fone (assoc session SESSION_SLIPPAGE_MULTIPLIERS)
  end.

Definition or_grid (m : option grid) (d : grid) : grid := match m with None | Some [] => d | Some g => g end.

Definition resolve_directional_slippage_pct (base : float) (session direction : string) (m : option grid) : float :=
  fmul (py_max base fzero)
    (resolve_directional_slippage_multiplier (or_grid m default_asymmetric_multipliers) session direction).

(** [max(xs)] of a list that is not empty. *)
Definition max_list (xs : list float) (d : float) : float :=
  match xs with [] => d | x :: xs => fold_left py_max xs x end.

Definition multipliers_of (m : grid) (sessions kinds : list string) : list float :=
  concat (map (fun s => map (resolve_directional_slippage_multiplier m s) kinds) sessions).

Definition exit_stress_bps (m : grid) (base max_bars_in_trade short_bias : float) : float :=
  let urgency := py_min fone (fdiv (of_Z 25) (py_max max_bars_in_trade fone)) in
  let stress := max_list (multipliers_of m STRESS_SESSION_TYPES EXIT_DIRECTIONS) fone in
  let entry := fdiv (fsum (multipliers_of m SESSION_TYPES ENTRY_DIRECTIONS)) (of_Z 6) in
  let short := py_max (resolve_directional_slippage_multiplier m SESSION_OPENING_CROSS SHORT_EXIT)
                      (resolve_directional_slippage_multiplier m SESSION_CLOSING_IMBALANCE SHORT_EXIT) in
  let stress := if fleb (lit 105 2) short_bias then py_max stress (fmul short (lit 110 2)) else stress in
  let blended := fadd (fmul entry (lit 30 2)) (fmul stress (lit 70 2)) in
  let blended := fmul blended (fadd fone (fmul urgency (lit 60 2))) in
  fmul (fmul (py_max base fzero) (of_Z 10000)) blended.

Definition estimate_exit_stress_execution_bps (base : float) (m : option grid) (f : calibration_file)
    (max_bars_in_trade short_bias : float) : result calibration_error float :=
  match m with
  | None | Some [] => result_bind (load_asymmetric_slippage_multipliers f)
                        (fun g => Ok (exit_stress_bps g base max_bars_in_trade short_bias))
  | Some g => Ok (exit_stress_bps g base max_bars_in_trade short_bias)
  end.
End Calibration.

(** ** The cost filter *)

Definition TURNOVER_PENALTY_WEIGHT : float := Eval vm_compute in lit 35 2.
Definition EXECUTION_PENALTY_WEIGHT : float := Eval vm_compute in lit 30 2.
Definition BORROW_FEE_PENALTY_WEIGHT : float := Eval vm_compute in lit 20 2.
Definition SHORT_RECALL_PENALTY_WEIGHT : float := Eval vm_compute in lit 25 2.
Definition THIN_AVAILABILITY_PENALTY_WEIGHT : float := Eval vm_compute in lit 15 2.
Definition DEFAULT_BORROW_FEE_ANNUAL : float := Eval vm_compute in lit 3 2.
Definition ELEVATED_BORROW_FEE_THRESHOLD : float := Eval vm_compute in lit 5 2.
Definition HIGH_RECALL_RISK_THRESHOLD : float := Eval vm_compute in lit 65 2.
Definition SHORT_BIAS_THRESHOLD : float := Eval vm_compute in lit 105 2.

Record ShortSideCostContext := mkShortCost {
  sx_borrow_fee_rate : float; sx_easy_to_borrow : bool; sx_thin_availability : bool; sx_recall_risk_score : float;
  sx_short_interest_pressure : float; sx_borrow_stable : bool
}.
Definition default_short_cost : ShortSideCostContext := mkShortCost DEFAULT_BORROW_FEE_ANNUAL true false fzero fzero true.

Definition from_leg_indicators (borrow_stable thin_liquidity_active easy_to_borrow : bool) (fee : float) : ShortSideCostContext :=
  let risk := fzero in
  let risk := if negb borrow_stable then fadd risk (lit 35 2) else risk in
  let risk := if thin_liquidity_active then fadd risk (lit 25 2) else risk in
  let risk := if negb easy_to_borrow then fadd risk (lit 40 2) else risk in
  let risk := py_min fone risk in
  mkShortCost fee easy_to_borrow thin_liquidity_active risk (fmul risk (lit 5 1)) borrow_stable.

Record CostPenaltyBreakdown := mkPenalties {
  cb_turnover : float; cb_execution : float; cb_borrow : float; cb_recall : float; cb_thin : float;
  cb_short_multiplier : float; cb_total : float
}.
Record CompositeCostAdjustment := mkAdjusted {
  ca_raw_score : float; ca_adjusted_score : float; ca_breakdown : CostPenaltyBreakdown; ca_short_side_active : bool
}.

(** A row of frictional_cost_adjustments. *)
Record adjustment_row := mkAdjustmentRow {
  ar_scope_key : string; ar_turnover_tax : float; ar_execution_bps : float; ar_borrow_fee_rate : float;
  ar_short_recall_risk_premium : float; ar_result : CompositeCostAdjustment
}.
Record FrictionalCostFilter := mkFilter {
  ff_turnover_weight : float; ff_execution_weight : float; ff_borrow_weight : float; ff_recall_weight : float;
  ff_thin_weight : float; ff_multipliers : grid; ff_rows : list adjustment_row
}.

Section Filter.
Context (float_of_text : string -> option float).

Definition filter_init (f : calibration_file) : result calibration_error FrictionalCostFilter :=
  result_bind (load_asymmetric_slippage_multipliers float_of_text f) (fun g =>
    Ok (mkFilter TURNOVER_PENALTY_WEIGHT EXECUTION_PENALTY_WEIGHT BORROW_FEE_PENALTY_WEIGHT SHORT_RECALL_PENALTY_WEIGHT
          THIN_AVAILABILITY_PENALTY_WEIGHT g [])).

(** A file that raises leaves the old grid. *)
Definition reload_slippage_calibration (f : calibration_file) (x : FrictionalCostFilter)
    : result calibration_error grid * FrictionalCostFilter :=
  match load_asymmetric_slippage_multipliers float_of_text f with
  | Ok g => (Ok g, mkFilter (ff_turnover_weight x) (ff_execution_weight x) (ff_borrow_weight x) (ff_recall_weight x)
                     (ff_thin_weight x) g (ff_rows x))
  | Raise e => (Raise e, x)
  end.

Definition directional_execution_multiplier (session direction : string) (x : FrictionalCostFilter) : float :=
  resolve_directional_slippage_multiplier (ff_multipliers x) session direction.

Definition turnover_penalty (tax : float) (x : FrictionalCostFilter) : float := fmul (ff_turnover_weight x) (py_max tax fzero).
Definition execution_penalty (bps : float) (x : FrictionalCostFilter) : float :=
  fmul (ff_execution_weight x) (fdiv (py_max bps fzero) (of_Z 100)).
Definition borrow_penalty (fee : float) (c : ShortSideCostContext) (short_side_active : bool) (x : FrictionalCostFilter) : float :=
  if negb short_side_active then fzero else
  let fee := py_max fee fzero in
  let base := fmul (ff_borrow_weight x) fee in
  let base := if negb (sx_easy_to_borrow c) then fmul base (of_Z 2) else base in
  let base := if fleb ELEVATED_BORROW_FEE_THRESHOLD fee
              then fmul base (fadd fone (fmul (fsub fee ELEVATED_BORROW_FEE_THRESHOLD) (of_Z 4))) else base in
  if negb (sx_borrow_stable c) then fmul base (lit 135 2) else base.
Definition recall_penalty (premium : float) (c : ShortSideCostContext) (short_side_active : bool) (x : FrictionalCostFilter) : float :=
  if negb short_side_active then fzero else
  let risk := py_max (sx_recall_risk_score c) (py_max premium fzero) in
  if fleb risk fzero then fzero else
  let component := fmul (ff_recall_weight x) risk in
  if fleb HIGH_RECALL_RISK_THRESHOLD risk then fmul component (lit 175 2) else component.
Definition thin_availability_penalty (c : ShortSideCostContext) (short_side_active : bool) (x : FrictionalCostFilter) : float :=
  if negb short_side_active || negb (sx_thin_availability c) then fzero
  else fmul (ff_thin_weight x) (py_max (sx_short_interest_pressure c) (lit 25 2)).

(** The sum lies between one and 2.5: the clip at three does nothing. *)
Definition short_operational_multiplier (c : ShortSideCostContext) (short_side_active : bool) : float :=
  if negb short_side_active then fone else
  let m := fone in
  let m := if negb (sx_easy_to_borrow c) then fadd m (lit 45 2) else m in
  let m := if sx_thin_availability c then fadd m (lit 30 2) else m in
  let m := if fleb HIGH_RECALL_RISK_THRESHOLD (sx_recall_risk_score c) then fadd m (lit 50 2) else m in
  let m := if negb (sx_borrow_stable c) then fadd m (lit 25 2) else m in
  py_min (py_max m fone) (of_Z 3).

Definition apply_composite_cost_penalties (score tax bps fee premium : float) (c : option ShortSideCostContext)
    (short_bias : float) (scope_key : string) (persist : bool) (x : FrictionalCostFilter)
    : CompositeCostAdjustment * FrictionalCostFilter :=
  let c := default default_short_cost c in
  let short := fleb SHORT_BIAS_THRESHOLD short_bias in
  let p1 := turnover_penalty tax x in
  let p2 := execution_penalty bps x in
  let p3 := borrow_penalty fee c short x in
  let p4 := recall_penalty premium c short x in
  let p5 := thin_availability_penalty c short x in
  let m := short_operational_multiplier c short in
  let total := fmul (fadd (fadd (fadd (fadd p1 p2) p3) p4) p5) m in
  let r := mkAdjusted score (fsub score total) (mkPenalties p1 p2 p3 p4 p5 m total) short in
  (r, if persist
      then mkFilter (ff_turnover_weight x) (ff_execution_weight x) (ff_borrow_weight x) (ff_recall_weight x)
             (ff_thin_weight x) (ff_multipliers x) (ff_rows x ++ [mkAdjustmentRow scope_key tax bps fee premium r])
      else x).

Record parameter_row := mkParameterRow {
  pr_composite_score : option float; pr_full_trades : option float; pr_long_threshold_sigma : option float;
  pr_short_threshold_sigma : option float; pr_max_bars_in_trade : option float; pr_symbol : option string
}.
Definition number_or (v : option float) (d : float) : float :=
  match v with Some f => if ftruthy f then f else d | None => d end.

Definition adjust_parameter_row (row : parameter_row) (bps fee : float) (c : option ShortSideCostContext) (scope_key : string)
    (base_slippage_pct : option float) (f : calibration_file) (x : FrictionalCostFilter) : result calibration_error float :=
  let tax := py_min fone (fdiv (number_or (pr_full_trades row) fzero) (of_Z 250)) in
  let long := number_or (pr_long_threshold_sigma row) fone in
  let short := number_or (pr_short_threshold_sigma row) fone in
  let bias := fdiv short (py_max long (lit 1 6)) in
  let bars := number_or (pr_max_bars_in_trade row) (of_Z 40) in
  let effective :=
    match (match base_slippage_pct with Some b => if fltb fzero b then Some b else None | None => None end) with
    | Some b => estimate_exit_stress_execution_bps float_of_text b (Some (ff_multipliers x)) f bars bias
    | None =>
        let stress := py_max (py_max (directional_execution_multiplier SESSION_OPENING_CROSS LONG_EXIT x)
                                (directional_execution_multiplier SESSION_CLOSING_IMBALANCE LONG_EXIT x))
                        (directional_execution_multiplier SESSION_OPENING_CROSS SHORT_EXIT x) in
        let urgency := py_min fone (fdiv (of_Z 25) (py_max bars fone)) in
        Ok (fmul (fmul bps stress) (fadd fone (fmul urgency (lit 50 2))))
    end in
  result_bind effective (fun effective =>
    let c := default (mkShortCost fee true false fzero fzero true) c in
    Ok (ca_adjusted_score
          (apply_composite_cost_penalties (number_or (pr_composite_score row) fzero) tax effective fee
             (fmul (sx_recall_risk_score c) fee) (Some c) bias (str_or scope_key (opt_or (pr_symbol row) "parameter_row"))
             false x).1)).
End Filter.

(** ** The grid is always whole *)

Definition whole_grid (g : grid) : Prop :=
  map fst g = map fst SESSION_SLIPPAGE_MULTIPLIERS /\ Forall (fun e => map fst e.2 = EXECUTION_DIRECTION_TYPES) g.

Lemma set_directions_keys ft raw types d d' :
  map fst d = EXECUTION_DIRECTION_TYPES -> Forall (fun t => t ∈ EXECUTION_DIRECTION_TYPES) types ->
  set_directions ft raw types d = Ok d' -> map fst d' = EXECUTION_DIRECTION_TYPES.
Proof.
  intros Hd Ht. revert d Hd. induction Ht as [|t types Hin Ht IH]; intros d Hd; cbn; [by intros [= <-]|].
  destruct (assoc t raw) as [[]|]; try (by apply IH);
    match goal with |- result_bind ?r _ = _ -> _ => destruct r; cbn; [|done] end;
    (apply IH; etrans; [apply assoc_set_same_keys; change (d.*1) with (map fst d); by rewrite Hd|done]).
Qed.

Lemma set_sessions_whole ft raw g g' : whole_grid g -> set_sessions ft raw g = Ok g' -> whole_grid g'.
Proof.
  revert g. induction raw as [|[s j] raw IH]; intros g [Hk Hd]; cbn [set_sessions]; [by intros [= <-]|].
  destruct j as [| | | | | |fields]; try (by apply IH).
  destruct (assoc s g) as [d|] eqn:E; [|by apply IH].
  destruct (set_directions ft fields EXECUTION_DIRECTION_TYPES d) as [d'|] eqn:Es; cbn [result_bind]; [|done].
  pose proof (assoc_Some_elem _ _ _ E) as Hin. rewrite Forall_forall in Hd. pose proof (Hd _ Hin) as Hsd. cbn in Hsd.
  apply set_directions_keys in Es; [|done|by apply Forall_forall].
  apply IH. split.
  - etrans; [apply assoc_set_same_keys|done]. by apply (list_elem_of_fmap_2 fst g (s, d)).
  - rewrite Forall_forall. intros [k v] He. clear -He Hd Es. induction g as [|[k0 v0] g IH]; cbn in He.
    + apply list_elem_of_singleton in He. by simplify_eq.
    + case_decide; apply elem_of_cons in He as [He|He]; simplify_eq; try done.
      * apply Hd. by right.
      * by apply (Hd (k0, v0)); left.
      * apply IH; [|done]. intros y Hy. apply Hd. by right.
Qed.

(** Whatever a calibration file holds, the grid that is loaded has every session and every direction: a file that is
    missing, unreadable or without the grid gives the defaults. *)
Lemma loaded_grid_is_whole ft f g : load_asymmetric_slippage_multipliers ft f = Ok g -> whole_grid g.
Proof.
  assert (whole_grid default_asymmetric_multipliers) as H0 by (split; [reflexivity|]; repeat constructor).
  revert H0. unfold load_asymmetric_slippage_multipliers. generalize default_asymmetric_multipliers. intros D HD.
  destruct f as [| |j]; [by intros [= <-]..|]. destruct j as [| | | | | |fields]; try done.
  destruct (assoc _ fields) as [v|]; [|by intros [= <-]].
  destruct v as [| | | | | |raw]; [by intros [= <-]..|]. by apply set_sessions_whole.
Qed.

(** ** Signs *)

(** Not below zero: a number from minus zero up, or NaN. *)
Definition notneg (x : float) : Prop := fltb x fzero = false.

Lemma notneg_fmul x y : notneg x -> notneg y -> notneg (fmul x y).
Proof.
  unfold notneg. destruct x as [[]|[]| |[] mx ex], y as [[]|[]| |[] my ey]; try done; intros _ _.
  unfold fmul, SFmul. cbn [xorb].
  pose proof (binary_round_aux_sign false (Z.pos (mx * my)) (ex + ey) loc_Exact ltac:(lia)) as [H1 H2].
  by destruct (binary_round_aux _ _ _ _ _ _) as [[]|[]| |[] ? ?].
Qed.

Lemma notneg_fadd x y : notneg x -> notneg y -> notneg (fadd x y).
Proof.
  unfold notneg. destruct x as [[]|[]| |[] mx ex], y as [[]|[]| |[] my ey]; try done; intros _ _.
  unfold fadd, SFadd. cbv zeta.
  match goal with |- context [binary_normalize _ _ ?m ?e _] => pose proof (binary_normalize_sign m e) as [H1 H2] end.
  cbn [cond_Zopp] in *.
  match type of H2 with _ = (?m <? 0)%Z => assert ((m <? 0)%Z = false) as E by (apply Z.ltb_ge; lia); rewrite E in H2 end.
  by destruct (binary_normalize _ _ _ _ _) as [[]|[]| |[] ? ?].
Qed.

Lemma notneg_fdiv_pos x m e : notneg x -> notneg (fdiv x (S754_finite false m e)).
Proof.
  unfold notneg. destruct x as [[]|[]| |[] mx ex]; try done. intros _. unfold fdiv, SFdiv.
  destruct (SFdiv_core_binary fprec femax (Z.pos mx) ex (Z.pos m) e) as [[mz ez] lz] eqn:E. cbn [xorb].
  assert (0 <= mz)%Z as Hm.
  { revert E. unfold SFdiv_core_binary. cbv zeta.
    match goal with |- context [Z.div_eucl ?a (Z.pos ?b)] =>
      assert (0 <= a)%Z as Ha; [case_match; try done; apply Z.shiftl_nonneg; done|];
      pose proof (Z.div_pos a (Z.pos b) Ha eq_refl) as Hq; unfold Z.div in Hq; destruct (Z.div_eucl a (Z.pos b)) end.
    intros [= <- _ _]. done. }
  pose proof (binary_round_aux_sign false mz ez lz Hm) as [H1 H2].
  by destruct (binary_round_aux _ _ _ _ _ _) as [[]|[]| |[] ? ?].
Qed.

Lemma notneg_py_max x y : notneg y -> is_nan y = false -> notneg (py_max x y).
Proof. unfold notneg, py_max. intros. destruct (fltb x y) eqn:?; [done|]. forder. Qed.

Create HintDb signs.
#[export] Hint Resolve notneg_fmul notneg_fadd : signs.

Definition sound_weights (x : FrictionalCostFilter) : Prop :=
  notneg (ff_turnover_weight x) /\ notneg (ff_execution_weight x) /\ notneg (ff_borrow_weight x) /\
  notneg (ff_recall_weight x) /\ notneg (ff_thin_weight x).

Lemma turnover_penalty_notneg tax x : sound_weights x -> notneg (turnover_penalty tax x).
Proof. intros (H & _). apply notneg_fmul; [done|]. by apply notneg_py_max. Qed.

Lemma execution_penalty_notneg bps x : sound_weights x -> notneg (execution_penalty bps x).
Proof.
  intros (_ & H & _). apply notneg_fmul; [done|]. change (of_Z 100) with (S754_finite false 7036874417766400 (-46)).
  apply notneg_fdiv_pos. by apply notneg_py_max.
Qed.

(** A well-formed binary64 number. *)
Notation valid_float := (valid_binary fprec femax).

Lemma valid_mantissa m e : bounded fprec femax m e = true -> (-1074 < e)%Z -> (2 ^ 52 <= Z.pos m < 2 ^ 53)%Z.
Proof.
  unfold bounded, canonical_mantissa, fexp, emin, fprec, femax. intros [H _]%andb_true_iff He.
  apply Z.eqb_eq in H. assert (Z.pos (digits2_pos m) = 53)%Z as Hd by lia.
  pose proof (digits_bounds m) as Hb. by rewrite Hd in Hb.
Qed.

Lemma shl_align_value m e e' : (e' <= e)%Z -> Z.pos (shl_align m e e').1 = (Z.pos m * 2 ^ (e - e'))%Z.
Proof.
  intros He. unfold shl_align. destruct (e' - e)%Z as [|p|p] eqn:E; cbn [fst].
  - replace (e - e')%Z with 0%Z by lia. lia.
  - lia.
  - rewrite pos_iter_shl, shl_value. f_equal. f_equal. lia.
Qed.

(** A number from a bound up exceeds it by what is not negative. *)
Lemma notneg_fsub x my ey : (-1074 < ey)%Z -> valid_float (S754_finite false my ey) = true -> valid_float x = true ->
  fleb (S754_finite false my ey) x = true -> notneg (fsub x (S754_finite false my ey)).
Proof.
  intros Hey Hy Hx Hle. unfold notneg, fsub. destruct x as [[]|[]| |[] mx ex]; try done.
  unfold SFsub. cbv zeta. set (ez := Z.min ex ey). cbn [cond_Zopp].
  pose proof (valid_mantissa my ey Hy Hey) as By.
  assert (0 <= Z.pos (shl_align mx ex ez).1 - Z.pos (shl_align my ey ez).1)%Z as Hd.
  { rewrite !shl_align_value by lia. unfold fleb, SFleb, SFcompare in Hle.
    destruct (Z.compare_spec ey ex) as [He|He|He]; [| |done].
    - subst ez. rewrite He, Z.min_id, Z.sub_diag. fold (Pos.compare my mx) in Hle.
      destruct (Pos.compare_spec my mx); try done; subst; lia.
    - pose proof (valid_mantissa mx ex Hx ltac:(lia)) as Bx. subst ez. rewrite Z.min_r, Z.sub_diag by lia.
      assert (2 ^ 1 <= 2 ^ (ex - ey))%Z by (apply Z.pow_le_mono_r; lia). nia. }
  match goal with |- context [binary_normalize _ _ ?m ?e _] => pose proof (binary_normalize_sign m e) as [H1 H2] end.
  match type of H2 with _ = (?m <? 0)%Z => assert ((m <? 0)%Z = false) as E by (apply Z.ltb_ge; lia); rewrite E in H2 end.
  by destruct (binary_normalize _ _ _ _ _) as [[]|[]| |[] ? ?].
Qed.

Lemma py_max_valid x y : valid_float x = true -> valid_float y = true -> valid_float (py_max x y) = true.
Proof. unfold py_max. by destruct (fltb x y). Qed.

Lemma borrow_penalty_notneg fee c short x : sound_weights x -> valid_float fee = true -> notneg (borrow_penalty fee c short x).
Proof.
  intros (_ & _ & H & _) Hv. unfold borrow_penalty. destruct short; [|done]. cbn [negb]. cbv zeta.
  set (f := py_max fee fzero). assert (notneg f) by by apply notneg_py_max.
  assert (valid_float f = true) by by apply py_max_valid. clearbody f.
  assert (notneg (of_Z 2)) by done. assert (notneg (lit 135 2)) by done.
  assert (fleb ELEVATED_BORROW_FEE_THRESHOLD f = true ->
          notneg (fadd fone (fmul (fsub f ELEVATED_BORROW_FEE_THRESHOLD) (of_Z 4)))) as Hs.
  { intros Hf. apply notneg_fadd; [done|]. apply notneg_fmul; [|done]. by apply notneg_fsub. }
  destruct (fleb _ f); [specialize (Hs eq_refl)|]; destruct (sx_easy_to_borrow c), (sx_borrow_stable c);
    cbn [negb]; auto with signs.
Qed.

Lemma recall_penalty_notneg premium c short x : sound_weights x -> notneg (recall_penalty premium c short x).
Proof.
  intros (_ & _ & _ & H & _). unfold recall_penalty. destruct short; [|done]. cbn [negb]. cbv zeta.
  destruct (fleb _ fzero) eqn:E; [done|].
  assert (notneg (py_max (sx_recall_risk_score c) (py_max premium fzero))) as Hr by (unfold notneg; forder).
  assert (notneg (lit 175 2)) by done. case_match; auto with signs.
Qed.

Lemma thin_penalty_notneg c short x : sound_weights x -> notneg (thin_availability_penalty c short x).
Proof.
  intros (_ & _ & _ & _ & H). unfold thin_availability_penalty. destruct (_ || _); [done|].
  apply notneg_fmul; [done|]. unfold notneg, py_max. destruct (fltb _ (lit 25 2)) eqn:E; [done|].
  assert (fltb fzero (lit 25 2) = true) by done. forder.
Qed.

Lemma short_multiplier_bounds c short :
  fleb fone (short_operational_multiplier c short) = true /\ fleb (short_operational_multiplier c short) (lit 25 1) = true.
Proof.
  unfold short_operational_multiplier. destruct short; cbn [negb]; [|split; vm_compute; reflexivity]. cbv zeta.
  destruct (sx_easy_to_borrow c), (sx_thin_availability c), (fleb HIGH_RECALL_RISK_THRESHOLD (sx_recall_risk_score c)),
    (sx_borrow_stable c); cbn [negb]; split; vm_compute; reflexivity.
Qed.

(** Costs never reward: whatever the turnover, the execution cost, the fee, the premium and the context are, no penalty of
    an adjustment is below zero, nor their total, in binary64 and for infinities and NaN too; and a short leg's multiplier
    lies between one and 2.5, so its clip at three does nothing. *)
Theorem costs_never_reward score tax bps fee premium c short_bias scope_key persist x
    (Hw : sound_weights x) (Hfee : valid_float fee = true) :
  let r := (apply_composite_cost_penalties score tax bps fee premium c short_bias scope_key persist x).1 in
  let b := ca_breakdown r in
  Forall notneg [cb_turnover b; cb_execution b; cb_borrow b; cb_recall b; cb_thin b; cb_total b] /\
  ca_adjusted_score r = fsub score (cb_total b) /\
  fleb fone (cb_short_multiplier b) = true /\ fleb (cb_short_multiplier b) (lit 25 1) = true.
Proof.
  cbv zeta. unfold apply_composite_cost_penalties. cbv zeta. cbn [fst ca_breakdown ca_adjusted_score cb_turnover cb_execution
    cb_borrow cb_recall cb_thin cb_total cb_short_multiplier].
  pose proof (short_multiplier_bounds (default default_short_cost c) (fleb SHORT_BIAS_THRESHOLD short_bias)) as [H1 H2].
  pose proof (turnover_penalty_notneg tax x Hw). pose proof (execution_penalty_notneg bps x Hw).
  pose proof (borrow_penalty_notneg fee (default default_short_cost c) (fleb SHORT_BIAS_THRESHOLD short_bias) x Hw Hfee).
  pose proof (recall_penalty_notneg premium (default default_short_cost c) (fleb SHORT_BIAS_THRESHOLD short_bias) x Hw).
  pose proof (thin_penalty_notneg (default default_short_cost c) (fleb SHORT_BIAS_THRESHOLD short_bias) x Hw).
  set (m := short_operational_multiplier _ _) in *.
  assert (notneg m) by (clear -H1; unfold notneg; assert (fltb fzero fone = true) by reflexivity; forder).
  clearbody m. split; [|done]. repeat constructor; auto 8 with signs.
Qed.

Definition shorting : ShortSideCostContext := mkShortCost (lit 8 2) false true (lit 9 1) (lit 5 1) false.

Definition plain_filter : FrictionalCostFilter :=
  mkFilter TURNOVER_PENALTY_WEIGHT EXECUTION_PENALTY_WEIGHT BORROW_FEE_PENALTY_WEIGHT SHORT_RECALL_PENALTY_WEIGHT
    THIN_AVAILABILITY_PENALTY_WEIGHT default_asymmetric_multipliers [].

Lemma costs_never_reward_witness :
  fltb (cb_total (ca_breakdown (apply_composite_cost_penalties fone fone (of_Z 12) (lit 8 2) (lit 7 2) (Some shorting) (of_Z 2)
    "QQQ" true plain_filter).1)) fzero = false.
Proof.
  destruct (costs_never_reward fone fone (of_Z 12) (lit 8 2) (lit 7 2) (Some shorting) (of_Z 2) "QQQ" true plain_filter)
    as [H _]; [repeat split; vm_compute; reflexivity|vm_compute; reflexivity|].
  pose proof (proj1 (Forall_forall _ _) H) as Ht. apply Ht. repeat (first [left; reflexivity|right]).
Defined.

(** ** What is not counted *)

(** Without a base slippage the stress of an exit is the greatest of three multipliers: the fourth, of a short closed in the
    closing imbalance, is left out however large its calibration is. *)
Lemma closing_short_exit_is_ignored row bps fee c key ft f x d v :
  let with_short v := mkFilter (ff_turnover_weight x) (ff_execution_weight x) (ff_borrow_weight x) (ff_recall_weight x)
    (ff_thin_weight x) [(SESSION_OPENING_CROSS, d); (SESSION_CLOSING_IMBALANCE, [(LONG_EXIT, fone); (SHORT_EXIT, v)])] [] in
  adjust_parameter_row ft row bps fee c key None f (with_short v) = adjust_parameter_row ft row bps fee c key None f (with_short fone).
Proof. reflexivity. Qed.
