(* ===== verification/ConfigCommit.v ===== *)
(** * Parity of the configuration, and the commit of parameters

    [src/config/research_validation.py] and [src/config/parity_auditor.py]: the validated parameters of each symbol and the
    audit of a configuration against them. The commit of [src/engine/config_engine.py]: a candidate is checked, audited in a
    sandbox and written, over a disk whose writes may each fail and leave the file as it was. Parsing and printing YAML and
    JSON, [load_config] on the sandbox, [str()] and [float()] of a text are arguments. *)

From stdpp Require Import base gmap strings list.
From Stdlib Require Import ZArith Lia.
From S2P Require Import Prelude PyFloat Models Dict CostFilter ConfigWatcher ConfigEngine.

Definition PRODUCTION_ENVIRONMENTS : list string := ["paper"; "live"].
Definition CHAMPION_SLIPPAGE_PCT : float := Eval vm_compute in lit 5 4.
Definition PARAM_FLOAT_TOLERANCE : float := Eval vm_compute in lit 1 6.
Definition DEFAULT_MIN_BORROW_DRAG_COEFFICIENT : float := Eval vm_compute in lit 5 3.

(** ** Values *)

Definition number (j : json) : option float :=
  match j with
  | JBool b => Some (of_Z (Z.b2z b)) | JInt n => Some (of_Z n) | JFloat x => Some x | _ => None
  end.

(** [a == b]; an integer beside a float is compared as its nearest double. *)
Fixpoint json_eq (a b : json) {struct a} : bool :=
  match a, b with
  | JNull, JNull => true
  | JStr s, JStr t => String.eqb s t
  | JInt n, JInt m => (n =? m)%Z
  | JArr l, JArr m =>
      (fix go (l m : list json) : bool :=
         match l, m with
         | [], [] => true
         | x :: l, y :: m => json_eq x y && go l m
         | _, _ => false
         end) l m
  | JObj f, JObj g =>
      (length f =? length g)%nat &&
      (fix go (f : list (string * json)) : bool :=
         match f with
         | [] => true
         | (k, x) :: f => match assoc k g with Some y => json_eq x y | None => false end && go f
         end) f
  | _, _ => match number a, number b with Some x, Some y => feqb x y | _, _ => false end
  end.

Definition getd (d : params) (key : string) (v : json) : json := default v (d !! key).

Section Parity.
Context (float_of_text : string -> option float) (str_of : json -> string).

Definition text_of (j : json) : string := match j with JStr s => s | _ => str_of j end.
Definition to_float (j : json) : result calibration_error float := json_float float_of_text j.

(** ** The research index *)

Record constraints := mkConstraints {
  co_regime_filter : bool; co_allow_short : bool; co_min_borrow_drag_coefficient : float; co_cold_start_policy : string
}.
Record ResearchValidationRecord := mkValidation {
  vr_symbol : string; vr_params : list (string * json); vr_constraints : constraints
}.

Definition parse_constraints (entry fields : list (string * json)) : result calibration_error constraints :=
  match assoc "constraints" entry with
  | Some (JObj raw) =>
      result_bind (to_float (default (JFloat DEFAULT_MIN_BORROW_DRAG_COEFFICIENT) (assoc "min_borrow_drag_coefficient" raw)))
        (fun min_borrow =>
           Ok (mkConstraints (json_truthy (assoc "regime_filter" raw)) (json_truthy (assoc "allow_short" raw)) min_borrow
                 (upper (strip (text_of (default (JStr "FAIL_SAFE_CLOSE") (assoc "cold_start_policy" raw)))))))
  | _ => Ok (mkConstraints true (bool_decide ("short_threshold_sigma" ∈ map fst fields)) DEFAULT_MIN_BORROW_DRAG_COEFFICIENT
               "FAIL_SAFE_CLOSE")
  end.

Definition index_entry (acc : gmap string ResearchValidationRecord) (e : string * json)
    : result calibration_error (gmap string ResearchValidationRecord) :=
  match e.2 with
  | JObj entry =>
      match assoc "params" entry with
      | Some (JObj fields) =>
          let key := upper (text_of (default (JStr e.1) (assoc "symbol" entry))) in
          result_bind (parse_constraints entry fields) (fun c => Ok (<[key := mkValidation key fields c]> acc))
      | _ => Ok acc
      end
  | _ => Ok acc
  end.

Fixpoint index_entries (acc : gmap string ResearchValidationRecord) (l : list (string * json))
    : result calibration_error (gmap string ResearchValidationRecord) :=
  match l with
  | [] => Ok acc
  | e :: l => result_bind (index_entry acc e) (fun acc => index_entries acc l)
  end.

(** [None]: the file does not exist. *)
Definition load_research_validation_index (payload : option json) : result calibration_error (gmap string ResearchValidationRecord) :=
  match payload with
  | Some (JObj entries) => index_entries ∅ entries
  | _ => Ok ∅
  end.

(** ** The audit *)

Inductive drift_value := Expected (j : json) | AtLeast (x : float) | Words (s : string).
Record ParityDrift := mkParityDrift {
  pd_missing_gate : string; pd_ticker : option string; pd_strategy_id : option string; pd_expected : drift_value;
  pd_found : option json
}.

(** What the audit reads beside the strategies: the environment file's slippage, the application's, its long-only flag, and
    the calibration grid. *)
Record audit_context := mkAuditContext {
  au_env_slippage : option float; au_backtest_slippage : float; au_long_only : bool; au_grid : grid
}.

Definition is_production_capital (environment : string) : bool :=
  bool_decide (lower (strip environment) ∈ PRODUCTION_ENVIRONMENTS).

Definition slippage_drift (expected : drift_value) (found : option json) : ParityDrift :=
  mkParityDrift "slippage_multipliers" None None expected found.

Definition audit_session (g : grid) (session : string) : list ParityDrift :=
  match assoc session g with
  | None | Some [] => [slippage_drift (Words ("session:" +:+ session)) None]
  | Some ds => omap (fun d => if fleb d.2 fzero
                              then Some (slippage_drift (Words ("positive_multiplier:" +:+ session +:+ ":" +:+ d.1)) (Some (JFloat d.2)))
                              else None) ds
  end.

Definition audit_slippage_multipliers (environment : string) (c : audit_context) : list ParityDrift :=
  if negb (is_production_capital environment) then [] else
  let env := default (au_backtest_slippage c) (au_env_slippage c) in
  (if fltb PARAM_FLOAT_TOLERANCE (fabs (fsub env CHAMPION_SLIPPAGE_PCT))
   then [slippage_drift (Expected (JFloat CHAMPION_SLIPPAGE_PCT)) (Some (JFloat env))] else []) ++
  (if fltb PARAM_FLOAT_TOLERANCE (fabs (fsub (au_backtest_slippage c) env))
   then [slippage_drift (Expected (JFloat env)) (Some (JFloat (au_backtest_slippage c)))] else []) ++
  match au_grid c with
  | [] => [slippage_drift (Words "non_empty_session_grid") None]
  | g => concat (map (fun e => audit_session g e.1) SESSION_SLIPPAGE_MULTIPLIERS)
  end.

Definition resolve_borrow_drag_coefficient (p : params) : result calibration_error (option float) :=
  match p !! "borrow_drag_coefficient" with
  | Some v => result_bind (to_float v) (fun x => Ok (Some x))
  | None => match p !! "short_borrow_fee_annual" with
            | Some v => result_bind (to_float v) (fun x => Ok (Some x))
            | None => Ok None
            end
  end.

Definition is_bool (v : option json) (b : bool) : bool :=
  match v with Some (JBool c) => Bool.eqb b c | _ => false end.

Definition borrow_drifts (leg : string -> drift_value -> option json -> ParityDrift) (long_only : bool) (p : params) (c : constraints)
    : result calibration_error (list ParityDrift) :=
  if co_allow_short c && negb long_only then
    result_bind (resolve_borrow_drag_coefficient p) (fun drag =>
      match drag with
      | None => Ok [leg "borrow_drag_coefficient" (AtLeast (co_min_borrow_drag_coefficient c)) None]
      | Some x =>
          if fleb x fzero then Ok [leg "borrow_drag_coefficient" (AtLeast (co_min_borrow_drag_coefficient c)) (Some (JFloat x))]
          else if fltb (fadd x PARAM_FLOAT_TOLERANCE) (co_min_borrow_drag_coefficient c)
          then Ok [leg "borrow_drag_coefficient" (Expected (JFloat (co_min_borrow_drag_coefficient c))) (Some (JFloat x))]
          else Ok []
      end)
  else Ok [].

Definition audit_runtime_structure (s : StrategyConfig) (long_only : bool) (r : ResearchValidationRecord)
    : result calibration_error (list ParityDrift) :=
  let leg gate := mkParityDrift gate (Some (upper (sc_symbol s))) (Some (sc_strategy_id s)) in
  let p := sc_params s in
  let c := vr_constraints r in
  result_bind (borrow_drifts leg long_only p c) (fun borrow => Ok (
    (if negb (is_bool (p !! "regime_filter") (co_regime_filter c))
     then [leg "regime_filter" (Expected (JBool (co_regime_filter c))) (p !! "regime_filter")] else []) ++
    (if is_bool (p !! "regime_filter_bypass") true || is_bool (p !! "disable_regime_filter") true
     then [leg "regime_filter" (Expected (JBool false)) (Some (JBool true))] else []) ++
    borrow ++
    (if (sc_poll_interval_seconds s <=? 0)%Z
     then [leg "poll_interval_seconds" (Words ">0") (Some (JInt (sc_poll_interval_seconds s)))] else []) ++
    (if negb (truthy (strip (sc_timeframe s))) then [leg "timeframe" (Words "non_empty") (Some (JStr (sc_timeframe s)))] else []))).

(** Two numbers within the tolerance, or two equal values. *)
Definition same_setting (expected found : json) : bool :=
  match number expected, number found with
  | Some e, Some f => negb (fltb PARAM_FLOAT_TOLERANCE (fabs (fsub f e)))
  | _, _ => json_eq found expected
  end.

Definition audit_loop_settings (s : StrategyConfig) (r : ResearchValidationRecord) : list ParityDrift :=
  let leg := mkParityDrift "loop_settings" (Some (upper (sc_symbol s))) (Some (sc_strategy_id s)) in
  omap (fun e => match sc_params s !! e.1 with
                 | None => Some (leg (Expected (JStr e.1)) None)
                 | Some found => if same_setting e.2 found then None else Some (leg (Expected e.2) (Some found))
                 end) (vr_params r).

Definition audit_leg (index : gmap string ResearchValidationRecord) (long_only : bool) (s : StrategyConfig)
    : result calibration_error (list ParityDrift) :=
  if negb (sc_enabled s) then Ok [] else
  match index !! upper (sc_symbol s) with
  | None => Ok [mkParityDrift "research_validation_artifact" (Some (upper (sc_symbol s))) (Some (sc_strategy_id s))
                  (Words "validation_row") None]
  | Some r => result_bind (audit_runtime_structure s long_only r) (fun l => Ok (l ++ audit_loop_settings s r))
  end.

Fixpoint audit_legs (index : gmap string ResearchValidationRecord) (long_only : bool) (l : list StrategyConfig)
    : result calibration_error (list ParityDrift) :=
  match l with
  | [] => Ok []
  | s :: l => result_bind (audit_leg index long_only s) (fun ds => result_bind (audit_legs index long_only l) (fun rest => Ok (ds ++ rest)))
  end.

Definition collect_drifts (index : gmap string ResearchValidationRecord) (c : audit_context) (a : AppConfig)
    : result calibration_error (list ParityDrift) :=
  result_bind (audit_legs index (au_long_only c) (ac_strategies a)) (fun l =>
    Ok (audit_slippage_multipliers (ac_environment a) c ++ l)).

Inductive commit_error :=
| Violation (drifts : list ParityDrift) | Malformed (e : calibration_error) | BadArgument (text : string)
| FileNotFound (path : string) | WriteFailed (path : string) | EventRefused.

Definition lift {A} (r : result calibration_error A) : result commit_error A :=
  match r with Ok a => Ok a | Raise e => Raise (Malformed e) end.

Definition audit_app_config (index : gmap string ResearchValidationRecord) (c : audit_context) (a : AppConfig)
    : result commit_error () :=
  result_bind (lift (collect_drifts index c a)) (fun ds => match ds with [] => Ok () | _ => Raise (Violation ds) end).

(** ** The candidate *)

(** [dict(v or {})]. *)
Definition as_params (v : json) : result calibration_error (list (string * json)) :=
  match v with JObj f => Ok f | _ => if json_truthy (Some v) then Raise TypeError else Ok [] end.

Definition normalize_candidate_payload (staged active : params) : result calibration_error params :=
  let take key d := getd staged key (getd active key d) in
  result_bind (as_params (getd staged "params" JNull)) (fun p =>
    Ok (<["strategy_id" := JStr (if json_truthy (active !! "strategy_id") then text_of (getd active "strategy_id" JNull) else "")]>
       (<["params" := JObj p]>
       (<["environment" := take "environment" (JStr "paper")]>
       (<["enabled" := JBool (json_truthy (Some (take "enabled" (JBool true))))]>
       (<["poll_interval_seconds" := take "poll_interval_seconds" (JInt 900)]>
       (<["timeframe" := take "timeframe" JNull]>
       (<["symbol" := take "symbol" JNull]>
       (<["module" := take "module" JNull]> active))))))))).

Definition payload_text (key : string) (p : params) : string :=
  if json_truthy (p !! key) then text_of (getd p key JNull) else "".

Definition assert_candidate_invariants (p : params) (index : gmap string ResearchValidationRecord) : result commit_error () :=
  let symbol := upper (payload_text "symbol" p) in
  let leg gate := mkParityDrift gate (Some symbol) (Some (payload_text "strategy_id" p)) in
  result_bind (lift (as_params (getd p "params" JNull))) (fun fields =>
  match index !! symbol with
  | None => Raise (BadArgument "no research validation row")
  | Some r =>
      let c := vr_constraints r in
      let regime := if is_bool (assoc "regime_filter" fields) (co_regime_filter c) then []
                    else [leg "regime_filter" (Expected (JBool (co_regime_filter c))) (assoc "regime_filter" fields)] in
      let drag := match assoc "borrow_drag_coefficient" fields with
                  | Some v => Some v
                  | None => assoc "short_borrow_fee_annual" fields
                  end in
      result_bind
        (match drag with
         | None | Some JNull => Ok [leg "borrow_drag_coefficient" (AtLeast (co_min_borrow_drag_coefficient c)) None]
         | Some v => result_bind (lift (to_float v)) (fun x =>
             Ok (if fltb x (co_min_borrow_drag_coefficient c)
                 then [leg "borrow_drag_coefficient" (Expected (JFloat (co_min_borrow_drag_coefficient c))) (Some (JFloat x))]
                 else []))
         end)
        (fun borrow => match regime ++ borrow with [] => Ok () | ds => Raise (Violation ds) end)
  end).
End Parity.

(** ** The disk *)

Record ledger_row := mkLedgerRow {
  lr_timestamp_utc : string; lr_symbol : string; lr_strategy_id : string; lr_operator_hash : string;
  lr_validation_target_path : string; lr_previous_params : list (string * json); lr_new_params : list (string * json)
}.
(** [dk_faults]: which of the writes to come fail, the event's to SQLite among them; the parsed rows of a change log stand
    for its text. *)
Record disk := mkDisk {
  dk_files : gmap string string; dk_ledgers : gmap string (list ledger_row); dk_faults : list bool; dk_events : list string
}.

Local Open Scope py_scope.
Notation D := (py disk commit_error).

Definition next_fault (d : disk) : bool * disk :=
  match dk_faults d with
  | [] => (false, d)
  | b :: l => (b, mkDisk (dk_files d) (dk_ledgers d) l (dk_events d))
  end.

Definition read_text (path : string) : D string := fun d =>
  (match dk_files d !! path with Some t => Ok t | None => Raise (FileNotFound path) end, d).

(** A temporary file replaces the file at once, or nothing changes. *)
Definition atomic_write_text (path text : string) : D () := fun d =>
  let '(fault, d) := next_fault d in
  if fault then (Raise (WriteFailed path), d)
  else (Ok (), mkDisk (<[path := text]> (dk_files d)) (dk_ledgers d) (dk_faults d) (dk_events d)).

Definition write_change_log_row (path : string) (row : ledger_row) : D () := fun d =>
  let rows := default [] (dk_ledgers d !! path) ++ [row] in
  let '(fault, d) := next_fault d in
  if fault then (Raise (WriteFailed path), d)
  else (Ok (), mkDisk (dk_files d) (<[path := rows]> (dk_ledgers d)) (dk_faults d) (dk_events d)).

(** [persistence.log_system_event]: outside every [try], it may raise after all is committed. *)
Definition log_committed : D () := fun d =>
  let '(fault, d) := next_fault d in
  if fault then (Raise EventRefused, d)
  else (Ok (), mkDisk (dk_files d) (dk_ledgers d) (dk_faults d) (dk_events d ++ ["CONFIG_PARAMETERS_COMMITTED"])).

(** [try: c except Exception: h; raise]. *)
Definition on_error {A} (c : D A) (h : D ()) : D A := fun d =>
  match c d with
  | (Ok a, d) => (Ok a, d)
  | (Raise e, d) => match h d with (Ok _, d) => (Raise e, d) | (Raise e', d) => (Raise e', d) end
  end.

(** ** The commit *)

Record commit_args := mkCommitArgs {
  cm_staged : string; cm_target : string; cm_operator_hash : string; cm_env : string;
  cm_strategy_files : list string;              (* the YAML files of the strategies' directory, sorted *)
  cm_research : option string; cm_staged_research : option string; cm_target_research : option string;
  cm_change_log : string; cm_allow_schema_update : bool
}.
Record ParameterCommitResult := mkCommitted {
  cr_committed_at : string; cr_strategy_id : string; cr_symbol : string; cr_target_path : string;
  cr_validation_target_path : option string; cr_change_log_path : string; cr_operator_hash : string;
  cr_previous_params : list (string * json); cr_new_params : list (string * json)
}.

Definition RESEARCH_VALIDATION_PATH : string := "validate_production_24m.json".

Section Commit.
Context (float_of_text : string -> option float) (str_of : json -> string).
Context (yaml_load : string -> result commit_error json) (yaml_dump : params -> string).
Context (json_load : string -> result commit_error json) (json_dump : json -> string).
(** [load_config] on the sandbox's environment text and strategy files, and what the auditor reads beside it. *)
Context (load_sandbox : string -> list (string * string) -> result commit_error (AppConfig * audit_context)).

Definition py_lift {A} (r : result commit_error A) : D A := fun d => (r, d).

Definition read_yaml_payload (path : string) : D params :=
  let! t := read_text path in
  let! j := py_lift (yaml_load t) in
  py_ret (match j with JObj f => list_to_map f | _ => ∅ end).

Definition live_research (a : commit_args) : option string :=
  match cm_target_research a with Some p => Some p | None => cm_research a end.
Definition audit_research (a : commit_args) : option string :=
  match cm_allow_schema_update a, cm_staged_research a with true, Some p => Some p | _, _ => cm_research a end.

Definition check_arguments (a : commit_args) : D () := fun d =>
  (if negb (truthy (strip (cm_operator_hash a))) then Raise (BadArgument "operator_hash is required")
   else match dk_files d !! cm_staged a, dk_files d !! cm_target a with
   | None, _ => Raise (FileNotFound (cm_staged a))
   | _, None => Raise (FileNotFound (cm_target a))
   | Some _, Some _ =>
       if cm_allow_schema_update a then
         match cm_staged_research a, live_research a with
         | None, _ => Raise (BadArgument "staged_research_path is required")
         | _, None => Raise (BadArgument "target_research_path or research_path is required")
         | Some _, Some _ => Ok ()
         end
       else Ok ()
   end, d).

(** The files the schema update replaces, read before anything is checked. *)
Definition read_research (a : commit_args) : D (option json) :=
  match cm_allow_schema_update a, cm_staged_research a, live_research a with
  | true, Some staged, Some live =>
      let! t := read_text staged in
      let! staged := py_lift (json_load t) in
      let! l := read_text live in
      let! live := py_lift (json_load l) in
      py_ret (Some staged)
  | _, _, _ => py_ret None
  end.

Definition research_index (a : commit_args) : D (gmap string ResearchValidationRecord) := fun d =>
  match dk_files d !! (default RESEARCH_VALIDATION_PATH (audit_research a)) with
  | None => (lift (load_research_validation_index float_of_text str_of None), d)
  | Some t => (result_bind (json_load t) (fun j => lift (load_research_validation_index float_of_text str_of (Some j))), d)
  end.

Fixpoint read_all (paths : list string) : D (list (string * string)) :=
  match paths with
  | [] => py_ret []
  | p :: paths => let! t := read_text p in let! rest := read_all paths in py_ret ((p, t) :: rest)
  end.

(** The sandbox: the strategies of the directory but the staged and the target file, and the candidate. *)
Definition audit_candidate (a : commit_args) (candidate : params) : D () :=
  let! index := research_index a in
  py_lift (assert_candidate_invariants float_of_text str_of candidate index) ;;!
  let! env := read_text (cm_env a) in
  let! others := read_all (List.filter (fun p => negb (bool_decide (p = cm_staged a)) && negb (bool_decide (p = cm_target a)))
                             (cm_strategy_files a)) in
  let! app := py_lift (load_sandbox env (others ++ [(cm_target a, yaml_dump candidate)])) in
  py_lift (audit_app_config float_of_text index app.2 app.1).

Definition params_of (p : params) : D (list (string * json)) := py_lift (lift (as_params (getd p "params" JNull))).

Definition schema_of (a : commit_args) (staged_research : option json) : option (string * string) :=
  match staged_research, live_research a with Some j, Some live => Some (live, json_dump j) | _, _ => None end.

(** The two files, or the two files as they were. *)
Definition write_files (target text previous : string) (schema : option (string * string * string)) : D () :=
  on_error
    (atomic_write_text target text ;;!
     match schema with None => py_ret () | Some (live, text, _) => atomic_write_text live text end)
    (atomic_write_text target previous ;;!
     match schema with None => py_ret () | Some (live, _, previous) => atomic_write_text live previous end).

(** A candidate that was checked and audited, with the texts it replaces; and the research file's new and old text. *)
Record prepared := mkPrepared {
  pp_candidate : params; pp_previous_params : list (string * json); pp_new_params : list (string * json);
  pp_previous_text : string; pp_schema : option (string * string * string)
}.

Definition prepare_commit (a : commit_args) : D prepared :=
  check_arguments a ;;!
  let! active := read_yaml_payload (cm_target a) in
  let! staged := read_yaml_payload (cm_staged a) in
  let! candidate := py_lift (lift (normalize_candidate_payload str_of staged active)) in
  let! staged_research := read_research a in
  audit_candidate a candidate ;;!
  let! previous_params := params_of active in
  let! new_params := params_of candidate in
  let! previous := read_text (cm_target a) in
  let! schema := match schema_of a staged_research with
                 | None => py_ret None
                 | Some (live, text) => let! old := read_text live in py_ret (Some (live, text, old))
                 end in
  py_ret (mkPrepared candidate previous_params new_params previous schema).

Definition commit_row (a : commit_args) (now : string) (p : prepared) : ledger_row :=
  mkLedgerRow now (upper (payload_text str_of "symbol" (pp_candidate p))) (payload_text str_of "strategy_id" (pp_candidate p))
    (strip (cm_operator_hash a)) (match pp_schema p with Some (live, _, _) => live | None => "" end)
    (pp_previous_params p) (pp_new_params p).

Definition commit_validated_strategy_parameters (a : commit_args) (now : string) : D ParameterCommitResult :=
  let! p := prepare_commit a in
  write_files (cm_target a) (yaml_dump (pp_candidate p)) (pp_previous_text p) (pp_schema p) ;;!
  let row := commit_row a now p in
  write_change_log_row (cm_change_log a) row ;;!
  log_committed ;;!
  py_ret (mkCommitted now (lr_strategy_id row) (lr_symbol row) (cm_target a)
            (match pp_schema p with Some (live, _, _) => Some live | None => None end) (cm_change_log a)
            (lr_operator_hash row) (pp_previous_params p) (pp_new_params p)).
End Commit.

(** ** The backup drill *)

Record VaultBackupDrillResult := mkDrill {
  vb_checksum : string; vb_verification_passed : bool; vb_package_bytes : nat
}.

(** The snapshot's text is hashed, packed, hashed again and checked; the package and its mirror are written only.
    [integrity]: what SQLite answers for the snapshot, [None] when it raises. *)
Definition execute_sqlite_backup_drill (sha256 gzip : string -> string) (integrity : string -> option string)
    (source : option string) : result commit_error (VaultBackupDrillResult * string) :=
  match source with
  | None => Raise (FileNotFound "sqlite database not found")
  | Some snapshot =>
      let checksum := sha256 snapshot in
      let package := gzip snapshot in
      let verify := sha256 snapshot in
      let ok := match integrity snapshot with Some row => bool_decide (lower row = "ok") | None => false end in
      Ok (mkDrill checksum (bool_decide (checksum = verify) && ok) (String.length package), package)
  end.

(** ** The audit *)

Section AuditLaws.
Context (float_of_text : string -> option float).

Lemma result_bind_ok {E A B} (r : result E A) (k : A -> result E B) b : result_bind r k = Ok b -> exists a, r = Ok a /\ k a = Ok b.
Proof. destruct r; cbn; [eauto|done]. Qed.

Lemma omap_nil {A B} (f : A -> option B) l x : omap f l = [] -> x ∈ l -> f x = None.
Proof.
  induction l as [|y l IH]; [by intros _ ?%not_elem_of_nil|]. cbn. destruct (f y) eqn:E; [done|].
  intros H [->|Hx]%elem_of_cons; auto.
Qed.

Lemma audit_legs_nil index long_only l s : audit_legs float_of_text index long_only l = Ok [] -> s ∈ l ->
  audit_leg float_of_text index long_only s = Ok [].
Proof.
  induction l as [|x l IH]; [by intros _ ?%not_elem_of_nil|]. cbn [audit_legs].
  intros (ds & H1 & (rest & H2 & [= H3])%result_bind_ok)%result_bind_ok. apply app_eq_nil in H3 as [-> ->].
  intros [->|Hs]%elem_of_cons; auto.
Qed.

Lemma same_setting_spec v found : same_setting v found = true ->
  match number v, number found with
  | Some x, Some y => fleb (fabs (fsub y x)) (lit 1 6) = true \/ is_nan (fsub y x) = true
  | _, _ => json_eq found v = true
  end.
Proof.
  unfold same_setting. destruct (number v) as [x|], (number found) as [y|]; try done.
  change PARAM_FLOAT_TOLERANCE with (lit 1 6). intros H%negb_true_iff. destruct (is_nan (fsub y x)) eqn:En; [by right|left].
  rewrite fltb_negb_fleb in H; [by apply negb_false_iff in H|done|by destruct (fsub y x)].
Qed.

Lemma is_bool_spec v b : is_bool v b = true -> v = Some (JBool b).
Proof. destruct v as [[| c | | | | |]|]; cbn; try done. by intros ->%Bool.eqb_prop. Qed.
End AuditLaws.

(** C36: A configuration that passes the audit has parity, up to what NaN escapes: every enabled leg has a research row;
    carries each validated parameter, where both are numbers with a float difference of at most 1e-6 or one that is NaN, else
    with an equal value; keeps the validated regime filter without a bypass; is polled; has a timeframe; and, where it may
    be short, pays a borrow drag that is NaN, or positive and less than 1e-6 below the research minimum unless that is
    NaN itself. *)
Theorem audited_configuration_has_parity float_of_text index c a leg
    (Hok : audit_app_config float_of_text index c a = Ok ()) (Hleg : leg ∈ ac_strategies a) (Hon : sc_enabled leg = true) :
  exists r, index !! upper (sc_symbol leg) = Some r /\
    (forall key v, (key, v) ∈ vr_params r -> exists found, sc_params leg !! key = Some found /\
       match number v, number found with
       | Some x, Some y => fleb (fabs (fsub y x)) (lit 1 6) = true \/ is_nan (fsub y x) = true
       | _, _ => json_eq found v = true
       end) /\
    sc_params leg !! "regime_filter" = Some (JBool (co_regime_filter (vr_constraints r))) /\
    sc_params leg !! "regime_filter_bypass" <> Some (JBool true) /\
    sc_params leg !! "disable_regime_filter" <> Some (JBool true) /\
    (0 < sc_poll_interval_seconds leg)%Z /\ truthy (strip (sc_timeframe leg)) = true /\
    (co_allow_short (vr_constraints r) = true -> au_long_only c = false ->
     exists x, resolve_borrow_drag_coefficient float_of_text (sc_params leg) = Ok (Some x) /\
       (is_nan x = true \/
        fltb fzero x = true /\ fltb (fadd x (lit 1 6)) (co_min_borrow_drag_coefficient (vr_constraints r)) = false)).
Proof.
  apply result_bind_ok in Hok as (ds & H1 & H2). destruct ds; [|done]. clear H2. unfold lift in H1.
  destruct (collect_drifts _ _ _ _) as [ds|] eqn:E; [|done]. simplify_eq.
  apply result_bind_ok in E as (l & Hl & [= E]). apply app_eq_nil in E as [_ ->].
  apply (audit_legs_nil _ _ _ _ leg Hl) in Hleg. unfold audit_leg in Hleg. rewrite Hon in Hleg. cbn [negb] in Hleg.
  destruct (index !! _) as [r|]; [|done]. exists r. split; [done|].
  apply result_bind_ok in Hleg as (l & Hs & [= E]). apply app_eq_nil in E as [-> Hloop].
  apply result_bind_ok in Hs as (borrow & Hb & [= E]).
  apply app_eq_nil in E as [E1 E]. apply app_eq_nil in E as [E2 E]. apply app_eq_nil in E as [-> E].
  apply app_eq_nil in E as [E4 E5].
  assert (forall {A} (b : bool) (x : A), (if b then [x] else []) = [] -> b = false) as Hif by by intros ? [].
  apply Hif in E1, E2, E4, E5. bool_prop. split_and!.
  - intros key v Hin. unfold audit_loop_settings in Hloop. pose proof (omap_nil _ _ _ Hloop Hin) as Hk. cbn in Hk.
    destruct (sc_params leg !! key) as [f|]; [|done]. exists f. split; [done|]. apply same_setting_spec. by destruct (same_setting v f).
  - by apply is_bool_spec.
  - intros Hp. by rewrite Hp in *.
  - intros Hp. by rewrite Hp in *.
  - lia.
  - done.
  - intros Hs Hlo. unfold borrow_drifts in Hb. rewrite Hs, Hlo in Hb. cbn [negb andb] in Hb.
    apply result_bind_ok in Hb as ([x|] & Hx & Hb); [|done]. exists x. split; [done|].
    destruct (fleb x fzero) eqn:E0; [done|]. change PARAM_FLOAT_TOLERANCE with (lit 1 6) in Hb.
    destruct (fltb (fadd x _) _) eqn:Et; [done|]. destruct (is_nan x) eqn:En; [by left|right]. split; [|done].
    by rewrite fltb_negb_fleb, E0.
Qed.

(** A small audit, for the witnesses: one leg and its research row. *)
Definition no_text : string -> option float := fun _ => None.
Definition no_str : json -> string := fun _ => "".
Definition qqq_row : json :=
  JObj [("QQQ", JObj [("params", JObj [("sigma", JFloat (lit 15 1)); ("regime_filter", JBool true)]);
                      ("constraints", JObj [("regime_filter", JBool true); ("allow_short", JBool true)])])].
Definition qqq_params (sigma : float) : params :=
  {[ "sigma" := JFloat sigma; "regime_filter" := JBool true; "borrow_drag_coefficient" := JFloat (lit 1 2) ]}.
Definition qqq_leg (sigma : float) : StrategyConfig :=
  mkStrategyConfig "qqq" "mean_reversion" "QQQ" "15Min" 900 (qqq_params sigma) true "paper" "stock" false.
Definition qqq_app (sigma : float) : AppConfig := mkAppConfig "paper" (qqq_leg sigma) [qqq_leg sigma] "" "".
Definition qqq_context : audit_context :=
  mkAuditContext (Some CHAMPION_SLIPPAGE_PCT) CHAMPION_SLIPPAGE_PCT false default_asymmetric_multipliers.
Definition qqq_index : gmap string ResearchValidationRecord :=
  match load_research_validation_index no_text no_str (Some qqq_row) with Ok i => i | Raise _ => ∅ end.

Lemma audited_configuration_has_parity_witness :
  exists r, qqq_index !! upper (sc_symbol (qqq_leg (lit 15 1))) = Some r /\ vr_symbol r = "QQQ".
Proof.
  destruct (audited_configuration_has_parity no_text qqq_index qqq_context (qqq_app (lit 15 1)) (qqq_leg (lit 15 1)))
    as (r & Hr & _); [vm_compute; reflexivity|left|reflexivity|].
  exists r. split; [exact Hr|]. vm_compute in Hr. injection Hr as <-. reflexivity.
Defined.

(** A parameter that is NaN agrees with every validated number, a borrow drag that is NaN pays every minimum. *)
Lemma nan_passes_the_audit :
  audit_app_config no_text qqq_index qqq_context (qqq_app fnan) = Ok () /\
  audit_app_config no_text qqq_index qqq_context (qqq_app (of_Z 2)) <> Ok () /\
  assert_candidate_invariants no_text no_str
    {[ "symbol" := JStr "QQQ"; "params" := JObj [("regime_filter", JBool true); ("borrow_drag_coefficient", JFloat fnan)] ]}
    qqq_index = Ok ().
Proof. split_and!; [vm_compute; reflexivity|vm_compute; discriminate|vm_compute; reflexivity]. Qed.

(** With a loaded grid the audit's test for a missing session never fires. *)
Lemma missing_session_is_never_found g e : whole_grid g -> e ∈ SESSION_SLIPPAGE_MULTIPLIERS ->
  exists ds, assoc e.1 g = Some ds /\ ds <> [].
Proof.
  intros [Hk Hd] He. destruct (assoc e.1 g) as [ds|] eqn:E.
  - exists ds. split; [done|]. intros ->. rewrite Forall_forall in Hd.
    pose proof (Hd _ (assoc_Some_elem _ _ _ E)) as Hn. done.
  - apply assoc_None in E. destruct E. rewrite Hk. by apply list_elem_of_fmap_2.
Qed.

(** ** The commit *)

Section CommitLaws.
Context (float_of_text : string -> option float) (str_of : json -> string).
Context (yaml_load : string -> result commit_error json) (yaml_dump : params -> string).
Context (json_load : string -> result commit_error json) (json_dump : json -> string).
Context (load_sandbox : string -> list (string * string) -> result commit_error (AppConfig * audit_context)).

Definition reads_only {A} (c : D A) : Prop := forall d, (c d).2 = d.

Lemma reads_bind {A B} (c : D A) (k : A -> D B) : reads_only c -> (forall a, reads_only (k a)) -> reads_only (py_bind c k).
Proof. intros Hc Hk d. unfold py_bind. specialize (Hc d). destruct (c d) as [[a|e] d1]; cbn in *; subst; [apply Hk|done]. Qed.

Lemma reads_ret {A} (a : A) : reads_only (py_ret a).
Proof. done. Qed.
Lemma reads_lift {A} (r : result commit_error A) : reads_only (py_lift r).
Proof. done. Qed.
Lemma reads_text path : reads_only (read_text path).
Proof. done. Qed.
Lemma reads_yaml path : reads_only (read_yaml_payload yaml_load path).
Proof. repeat (apply reads_bind; intros); done. Qed.
Lemma reads_all paths : reads_only (read_all paths).
Proof. induction paths; [done|]. repeat (apply reads_bind; intros); done. Qed.
Lemma reads_index a : reads_only (research_index float_of_text str_of json_load a).
Proof. intros d. unfold research_index. by case_match. Qed.
Lemma reads_research a : reads_only (read_research json_load a).
Proof. unfold read_research. repeat case_match; try done. repeat (apply reads_bind; intros); done. Qed.
Lemma reads_audit a c : reads_only (audit_candidate float_of_text str_of yaml_dump json_load load_sandbox a c).
Proof. repeat (apply reads_bind; intros); first [apply reads_index|apply reads_all|done]. Qed.

Notation Prepare := (prepare_commit float_of_text str_of yaml_load yaml_dump json_load json_dump load_sandbox).
Notation Commit := (commit_validated_strategy_parameters float_of_text str_of yaml_load yaml_dump json_load json_dump load_sandbox).

Lemma reads_prepare a : reads_only (Prepare a).
Proof.
  unfold prepare_commit. repeat first [apply reads_yaml|apply reads_research|apply reads_audit|apply reads_bind; intros]; try done.
  destruct (schema_of _ _ _) as [[? ?]|]; [|done]. by apply reads_bind.
Qed.

Lemma bind_ok {A B} (c : D A) (k : A -> D B) d b d' : py_bind c k d = (Ok b, d') ->
  exists a d1, c d = (Ok a, d1) /\ k a d1 = (Ok b, d').
Proof. unfold py_bind. destruct (c d) as [[a|e] d1]; [eauto|done]. Qed.

Lemma read_ok {A} (c : D A) d a d' : reads_only c -> c d = (Ok a, d') -> d' = d.
Proof. intros Hc E. specialize (Hc d). by rewrite E in Hc. Qed.

Lemma checked_ok a d d' : check_arguments a d = (Ok (), d') ->
  d' = d /\ truthy (strip (cm_operator_hash a)) = true /\
  (cm_allow_schema_update a = true -> is_Some (cm_staged_research a) /\ is_Some (live_research a)).
Proof.
  unfold check_arguments. destruct (truthy (strip (cm_operator_hash a))) eqn:E; cbn [negb]; [|done].
  intros [= H <-]. split_and!; [done..|]. intros Hs. rewrite Hs in H.
  destruct (dk_files d !! cm_staged a), (dk_files d !! cm_target a); try done.
  by destruct (cm_staged_research a), (live_research a).
Qed.

(** The new research text of a disk: the staged file's, parsed and dumped. *)
Definition staged_research_text (a : commit_args) (d : disk) (live new : string) : Prop :=
  exists staged t j, cm_staged_research a = Some staged /\ dk_files d !! staged = Some t /\ json_load t = Ok j /\
    live_research a = Some live /\ new = json_dump j.

Lemma research_ok a d sr d' : read_research json_load a d = (Ok sr, d') ->
  (cm_allow_schema_update a = true -> is_Some (cm_staged_research a) /\ is_Some (live_research a)) ->
  match schema_of json_dump a sr with
  | None => cm_allow_schema_update a = false
  | Some (live, new) => cm_allow_schema_update a = true /\ staged_research_text a d live new
  end.
Proof.
  intros E Hs. unfold read_research, staged_research_text in *. destruct (cm_allow_schema_update a); [|by injection E as <- _].
  destruct (Hs eq_refl) as [[staged Es] [live El]]. rewrite Es, El in E.
  apply bind_ok in E as (t & d1 & H1 & E). pose proof H1 as ->%read_ok; [|done].
  apply bind_ok in E as (j & d1 & H2 & E). pose proof H2 as ->%read_ok; [|done].
  apply bind_ok in E as (l & d1 & H3 & E). pose proof H3 as ->%read_ok; [|done].
  apply bind_ok in E as (k & d1 & _ & E). injection E as <- _.
  unfold schema_of. rewrite El. split; [done|]. exists staged, t, j. unfold read_text in H1. injection H2 as H2.
  destruct (dk_files d !! staged); [|done]. by injection H1 as ->.
Qed.

(** What was prepared was audited, and the texts kept are those of the disk. *)
Lemma prepared_spec a d p : (Prepare a d).1 = Ok p ->
  (audit_candidate float_of_text str_of yaml_dump json_load load_sandbox a (pp_candidate p) d).1 = Ok () /\
  truthy (strip (cm_operator_hash a)) = true /\
  dk_files d !! cm_target a = Some (pp_previous_text p) /\
  match pp_schema p with
  | None => cm_allow_schema_update a = false
  | Some (live, new, old) =>
      dk_files d !! live = Some old /\ cm_allow_schema_update a = true /\ staged_research_text a d live new
  end.
Proof.
  destruct (Prepare a d) as [r d'] eqn:E. cbn. intros ->. pose proof (reads_prepare a d) as Hd. rewrite E in Hd. cbn in Hd. subst d'.
  revert E. unfold prepare_commit.
  intros ([] & d1 & (-> & Ho & Hc)%checked_ok & H)%bind_ok.
  apply bind_ok in H as (act & d1 & H1 & H). apply read_ok in H1 as ->; [|apply reads_yaml].
  apply bind_ok in H as (stg & d1 & H1 & H). apply read_ok in H1 as ->; [|apply reads_yaml].
  apply bind_ok in H as (cand & d1 & H1 & H). apply read_ok in H1 as ->; [|done].
  apply bind_ok in H as (sr & d1 & Hr & H). pose proof Hr as ->%read_ok; [|apply reads_research].
  apply research_ok in Hr; [|done].
  apply bind_ok in H as ([] & d1 & Ha & H). pose proof (reads_audit a cand d) as Hda. rewrite Ha in Hda. cbn in Hda. subst d1.
  apply bind_ok in H as (pp & d1 & H1 & H). apply read_ok in H1 as ->; [|done].
  apply bind_ok in H as (np & d1 & H1 & H). apply read_ok in H1 as ->; [|done].
  apply bind_ok in H as (prev & d1 & Hp & H). unfold read_text in Hp. destruct (dk_files d !! cm_target a) as [t|] eqn:Et; [|done].
  injection Hp as <- <-. apply bind_ok in H as (sch & d1 & Hs & H). unfold py_ret in H. injection H as <- ->. cbn [pp_candidate pp_previous_text pp_schema].
  split_and!; [by rewrite Ha|done..|].
  destruct (schema_of _ _ _) as [[live text]|]; [|unfold py_ret in Hs; by injection Hs as <-].
  apply bind_ok in Hs as (old & d2 & Hold & Hs). unfold read_text in Hold. destruct (dk_files d !! live) eqn:El; [|done].
  injection Hold as <- <-. unfold py_ret in Hs. injection Hs as <-. tauto.
Qed.

(** How many of the writes to come fail. *)
Definition failing (fs : list bool) : nat := length (List.filter (fun b => b) fs).

Lemma write_cases path text d :
  (exists fs, atomic_write_text path text d = (Ok (), mkDisk (<[path := text]> (dk_files d)) (dk_ledgers d) fs (dk_events d)) /\
     failing fs = failing (dk_faults d)) \/
  (exists fs, atomic_write_text path text d = (Raise (WriteFailed path), mkDisk (dk_files d) (dk_ledgers d) fs (dk_events d)) /\
     failing (dk_faults d) = S (failing fs)).
Proof.
  unfold atomic_write_text, next_fault, failing. destruct d as [f l [|[] fs] ev]; cbn.
  - left. by eexists.
  - right. by eexists.
  - left. by eexists.
Qed.

(** A handler's or a commit's writes when none fails. *)
Lemma write_clean path text d : failing (dk_faults d) = 0 ->
  exists fs, atomic_write_text path text d = (Ok (), mkDisk (<[path := text]> (dk_files d)) (dk_ledgers d) fs (dk_events d)) /\
    failing fs = 0.
Proof. intros H0. destruct (write_cases path text d) as [(fs & ? & ?)|(fs & ? & ?)]; [exists fs|]; split_and?; try done; lia. Qed.

(** At most one write fails: the files are all new, or all as they were. *)
Lemma write_files_cases target text previous schema d :
  (failing (dk_faults d) <= 1)%nat -> dk_files d !! target = Some previous ->
  match schema with None => True | Some (live, _, old) => dk_files d !! live = Some old end ->
  (exists fs, write_files target text previous schema d =
     (Ok (), mkDisk (match schema with
                     | None => <[target := text]> (dk_files d)
                     | Some (live, new, _) => <[live := new]> (<[target := text]> (dk_files d))
                     end) (dk_ledgers d) fs (dk_events d)) /\ (failing fs <= failing (dk_faults d))%nat) \/
  (exists e fs, write_files target text previous schema d = (Raise e, mkDisk (dk_files d) (dk_ledgers d) fs (dk_events d))).
Proof.
  intros Hf Hp Hs. unfold write_files, on_error, py_bind.
  destruct (write_cases target text d) as [(fs & -> & Hc)|(fs & -> & Hc)].
  - destruct schema as [[[live new] old]|]; [|left; exists fs; split; [done|lia]].
    set (d1 := mkDisk _ _ fs _). destruct (write_cases live new d1) as [(fs1 & -> & Hc1)|(fs1 & -> & Hc1)]; subst d1; cbn [dk_faults dk_files dk_ledgers dk_events] in *.
    + left. exists fs1. split; [done|lia].
    + right. set (d2 := mkDisk _ _ fs1 _). destruct (write_clean target previous d2) as (fs2 & -> & H2); [subst d2; cbn [dk_faults]; lia|].
      set (d3 := mkDisk _ _ fs2 _). destruct (write_clean live old d3) as (fs3 & -> & H3); [done|].
      exists (WriteFailed live), fs3. cbn. rewrite insert_insert_eq, (insert_id _ target previous) by done.
      by rewrite (insert_id _ live old).
  - right. set (d1 := mkDisk _ _ fs _). destruct (write_clean target previous d1) as (fs1 & -> & H1); [subst d1; cbn [dk_faults]; lia|].
    destruct schema as [[[live new] old]|].
    + set (d2 := mkDisk _ _ fs1 _). destruct (write_clean live old d2) as (fs2 & -> & H2); [done|].
      exists (WriteFailed target), fs2. cbn. rewrite (insert_id _ target previous) by done. by rewrite (insert_id _ live old).
    + exists (WriteFailed target), fs1. cbn. by rewrite (insert_id _ target previous).
Qed.
End CommitLaws.

(** C12: A commit of strategy parameters is all or nothing as far as the files go. Where at most one of its writes fails,
    there are four ways out. It returns, with the audited candidate in the target file, where a schema update is allowed
    the staged research in the live research file, no other file changed, one new row in the change log and the event
    logged. It raises with every file, the log and the events as they were. When the change log's write is the
    one that failed, it raises with the files committed and no row and no event. And when the event's is, it raises with the files
    committed and the row written. *)
Theorem commit_is_all_or_nothing float_of_text str_of yaml_load yaml_dump json_load json_dump load_sandbox a now d
    (Hfaults : (failing (dk_faults d) <= 1)%nat) :
  let '(r, d') := commit_validated_strategy_parameters float_of_text str_of yaml_load yaml_dump json_load json_dump load_sandbox
                    a now d in
  let committed live :=
    exists candidate,
      (audit_candidate float_of_text str_of yaml_dump json_load load_sandbox a candidate d).1 = Ok () /\
      match live with
      | None => cm_allow_schema_update a = false /\ dk_files d' = <[cm_target a := yaml_dump candidate]> (dk_files d)
      | Some live =>
          cm_allow_schema_update a = true /\
          exists new, staged_research_text json_load json_dump a d live new /\
            dk_files d' = <[live := new]> (<[cm_target a := yaml_dump candidate]> (dk_files d))
      end in
  let one_row :=
    exists row, dk_ledgers d' = <[cm_change_log a := default [] (dk_ledgers d !! cm_change_log a) ++ [row]]> (dk_ledgers d) /\
      lr_timestamp_utc row = now /\ lr_operator_hash row = strip (cm_operator_hash a) /\ truthy (lr_operator_hash row) = true in
  match r with
  | Ok res => committed (cr_validation_target_path res) /\ one_row /\ dk_events d' = dk_events d ++ ["CONFIG_PARAMETERS_COMMITTED"]
  | Raise e =>
      dk_events d' = dk_events d /\
      (dk_files d' = dk_files d /\ dk_ledgers d' = dk_ledgers d \/
       e = WriteFailed (cm_change_log a) /\ (exists live, committed live) /\ dk_ledgers d' = dk_ledgers d \/
       e = EventRefused /\ (exists live, committed live) /\ one_row)
  end.
Proof.
  destruct (commit_validated_strategy_parameters _ _ _ _ _ _ _ a now d) as [r d'] eqn:E. revert E.
  unfold commit_validated_strategy_parameters, py_bind at 1.
  pose proof (reads_prepare float_of_text str_of yaml_load yaml_dump json_load json_dump load_sandbox a d) as Hr.
  pose proof (prepared_spec float_of_text str_of yaml_load yaml_dump json_load json_dump load_sandbox a d) as Hs.
  destruct (prepare_commit _ _ _ _ _ _ _ a d) as [[p|e] d1]; cbn in Hr; subst d1; [|intros [= <- <-]; auto].
  destruct (Hs p eq_refl) as (Ha & Ho & Ht & Hl). clear Hs.
  assert (match pp_schema p with None => True | Some (live, _, old) => dk_files d !! live = Some old end) as Hl'
    by (destruct (pp_schema p) as [[[? ?] ?]|]; tauto).
  destruct (write_files_cases (cm_target a) (yaml_dump (pp_candidate p)) (pp_previous_text p) (pp_schema p) d Hfaults Ht Hl')
    as [(fs & Hw & Hfs)|(e & fs & Hw)]; unfold py_bind at 1; rewrite Hw; [|intros [= <- <-]; cbn; auto].
  match goal with |- context [mkDisk ?f (dk_ledgers d) fs _] => set (fl := f) end.
  assert (exists candidate,
      (audit_candidate float_of_text str_of yaml_dump json_load load_sandbox a candidate d).1 = Ok () /\
      match (match pp_schema p with Some (live, _, _) => Some live | None => None end) with
      | None => cm_allow_schema_update a = false /\ fl = <[cm_target a := yaml_dump candidate]> (dk_files d)
      | Some live =>
          cm_allow_schema_update a = true /\
          exists new, staged_research_text json_load json_dump a d live new /\
            fl = <[live := new]> (<[cm_target a := yaml_dump candidate]> (dk_files d))
      end) as Hc.
  { exists (pp_candidate p). split; [exact Ha|]. subst fl. destruct (pp_schema p) as [[[live new] old]|]; [|done].
    destruct Hl as (_ & ? & ?). eauto. }
  clearbody fl. unfold py_bind, write_change_log_row, log_committed, next_fault. cbv zeta. cbn [dk_faults dk_ledgers dk_files dk_events].
  destruct fs as [|[] [|[] fs]]; cbn [dk_faults dk_ledgers dk_files dk_events]; intros [= <- <-];
    cbn [cr_validation_target_path dk_ledgers dk_files dk_events].
  all: try (split; [exact Hc|split; [by exists (commit_row str_of a now p)|done]]).
  all: split; [done|]; right.
  all: first [right; split; [done|]; split; [by eexists|by exists (commit_row str_of a now p)]|left; split; [done|]; by split; [eexists|]].
Qed.

(** A commit for the examples: the texts are names of the payloads, the sandbox gives the audited configuration. *)
Definition a_payload (sigma : float) : json :=
  JObj [("strategy_id", JStr "qqq"); ("symbol", JStr "QQQ");
        ("params", JObj [("sigma", JFloat sigma); ("regime_filter", JBool true); ("borrow_drag_coefficient", JFloat (lit 1 2))])].
Definition a_yaml (t : string) : result commit_error json :=
  if bool_decide (t = "active text") then Ok (a_payload (of_Z 2)) else Ok (a_payload (lit 15 1)).
Definition a_json (t : string) : result commit_error json := Ok qqq_row.
Definition a_sandbox (env : string) (files : list (string * string)) : result commit_error (AppConfig * audit_context) :=
  Ok (qqq_app (lit 15 1), qqq_context).
Definition a_commit : commit_args :=
  mkCommitArgs "staged.yaml" "qqq.yaml" " ops " "env.yaml" ["qqq.yaml"] (Some "research.json") None None "log.csv" false.
Definition a_disk (faults : list bool) : disk :=
  mkDisk {[ "staged.yaml" := "staged text"; "qqq.yaml" := "active text"; "env.yaml" := "env"; "research.json" := "rows" ]} ∅ faults [].
Definition run_commit (d : disk) : result commit_error ParameterCommitResult * disk :=
  commit_validated_strategy_parameters no_text no_str a_yaml (fun _ => "candidate text") a_json (fun _ => "rows") a_sandbox
    a_commit "2026-01-05T10:00:00+00:00" d.

Lemma commit_is_all_or_nothing_witness :
  dk_files (run_commit (a_disk [])).2 !! "qqq.yaml" = Some "candidate text" /\
  exists candidate,
    (audit_candidate no_text no_str (fun _ => "candidate text") a_json a_sandbox a_commit candidate (a_disk [])).1 = Ok ().
Proof.
  split; [vm_compute; reflexivity|].
  pose proof (commit_is_all_or_nothing no_text no_str a_yaml (fun _ => "candidate text") a_json (fun _ => "rows") a_sandbox
    a_commit "2026-01-05T10:00:00+00:00" (a_disk []) ltac:(vm_compute; apply le_S, le_n)) as H.
  destruct (commit_validated_strategy_parameters _ _ _ _ _ _ _ _ _ _) as [[r|e] d'] eqn:E.
  - destruct H as ((candidate & Hc & _) & _). exists candidate. exact Hc.
  - exfalso. apply (f_equal fst) in E. vm_compute in E. discriminate E.
Defined.

(** The log's write fails: the commit raises, and the parameters are live without a row or an event. *)
Lemma commit_without_a_trace :
  let '(r, d) := run_commit (a_disk [false; true]) in
  r = Raise (WriteFailed "log.csv") /\ dk_files d !! "qqq.yaml" = Some "candidate text" /\ dk_ledgers d = ∅ /\ dk_events d = [].
Proof. vm_compute. repeat split. Qed.

(** The event's write fails: the commit raises with the parameters live and its row in the log. *)
Lemma commit_raises_after_it_is_done :
  let '(r, d) := run_commit (a_disk [false; false; true]) in
  r = Raise EventRefused /\ dk_files d !! "qqq.yaml" = Some "candidate text" /\
  length (default [] (dk_ledgers d !! "log.csv")) = 1 /\ dk_events d = [].
Proof. vm_compute. repeat split. Qed.

(** The drill passes whatever the package holds. *)
Lemma drill_ignores_the_package sha256 gzip integrity snapshot :
  integrity snapshot = Some "ok" ->
  exists r, execute_sqlite_backup_drill sha256 gzip integrity (Some snapshot) = Ok (r, gzip snapshot) /\
    vb_verification_passed r = true.
Proof.
  intros Hi. eexists. split; [reflexivity|]. cbn. rewrite Hi, bool_decide_true by done. by vm_compute.
Qed.
