(* ===== verification/Maintenance.v ===== *)
(** * The maintenance scheduler

    [src/control/maintenance_scheduler.py]: the table of jobs and the poll that fires them, the runbooks' workers and
    validators as the plane of the supervisor of [ControlPlane], the restore of the last known good state, and the gate that
    live consumption asks. The stores behind it (champions, the last known good ones, configuration backups, the job table)
    belong to a module that is not in the repository: they are operations of an environment that may raise. *)

From stdpp Require Import base gmap strings list sorting.
From Stdlib Require Import ZArith Lia.
From S2P Require Import Prelude PyFloat Models Dict ControlPlane ConfigWatcher ConfigEngine ConfigCommit.

Local Open Scope py_scope.

(** ** Jobs *)

(** A reading of the New York clock: the number of the day since the epoch, a Thursday, and the time of the day. *)
Record et_time := mkEt { et_date : Z; et_hour : Z; et_minute : Z }.
Definition weekday (t : et_time) : Z := ((et_date t + 3) mod 7)%Z.

Record ScheduledMaintenanceJob := mkJob {
  sj_job_id : string; sj_hour : Z; sj_minute : Z; sj_weekdays : option (list Z); sj_handler_name : string
}.

Definition JOB_WEEKEND_TUNER : string := "weekend_parameter_tuner".
Definition JOB_PRE_OPEN : string := "pre_open_readiness".
Definition WEEKEND_TUNER_JOB : ScheduledMaintenanceJob :=
  mkJob JOB_WEEKEND_TUNER 6 0 (Some [6%Z]) "run_weekend_parameter_tuner".
Definition WEEKLY_POLICY_JOB : ScheduledMaintenanceJob :=
  mkJob "weekly_policy_brain" 22 0 (Some [5%Z]) "run_weekly_policy_brain".
Definition PRE_OPEN_JOB : ScheduledMaintenanceJob := mkJob JOB_PRE_OPEN 8 30 None "run_pre_open_readiness".
Definition POST_CLOSE_JOB : ScheduledMaintenanceJob :=
  mkJob "post_close_reconciliation" 16 30 None "run_post_close_reconciliation".
Definition VAULT_BACKUP_JOB : ScheduledMaintenanceJob := mkJob "vault_backup" 3 0 None "run_vault_backup".
Definition DEFAULT_JOBS : list ScheduledMaintenanceJob :=
  [WEEKEND_TUNER_JOB; WEEKLY_POLICY_JOB; PRE_OPEN_JOB; POST_CLOSE_JOB; VAULT_BACKUP_JOB].
Definition OPERATIONAL_JOBS : list ScheduledMaintenanceJob := [PRE_OPEN_JOB; POST_CLOSE_JOB].

Definition CHAMPION_STALENESS_MAX_DAYS : Z := 14.
Definition STRATEGY_YAML : list string := ["QQQ"; "SPY"].      (* its keys *)
Definition TUNER_SUCCESS_STATUSES : list string := ["promoted"; "incumbent_retained"; "maintained_fallback"; "dry_run_promoted"].
Definition TUNER_FAILURE_STATUSES : list string := ["error"; "data_corruption"].

(** ** Payloads *)

(** [v.get(key)] and [v.items()] on a value that should be a dict. *)
Definition dict_of (v : json) : result string (list (string * json)) :=
  match v with JObj f => Ok f | _ => Raise "AttributeError" end.
(** [v or {}] as a dict. *)
Definition dict_or_empty (v : option json) : result string (list (string * json)) :=
  if json_truthy v then dict_of (default JNull v) else Ok [].

Section Validators.
Context (int_of : json -> result string Z) (str_of : json -> string).

Definition str (j : json) : string := match j with JStr s => s | _ => str_of j end.

Fixpoint first_bad_result (l : list (string * json)) : bool * string :=
  match l with
  | [] => (true, "")
  | (symbol, JObj fields) :: l =>
      let status := str (default (JStr "error") (assoc "status" fields)) in
      if bool_decide (status ∈ TUNER_FAILURE_STATUSES) then (false, symbol +:+ ":" +:+ status)
      else if bool_decide (status ∈ TUNER_SUCCESS_STATUSES) then first_bad_result l
      else (false, symbol +:+ ":unrecognized_status:" +:+ status)
  | (symbol, _) :: _ => (false, symbol +:+ ": invalid result payload")
  end.

Definition validate_tuner_payload (p : run_payload) : result string (bool * string) :=
  match assoc "report" p with
  | Some (JObj report) =>
      let results := default (JObj []) (assoc "results" report) in
      if json_truthy (Some results) then result_bind (dict_of results) (fun l => Ok (first_bad_result l))
      else Ok (false, "empty tuner results")
  | _ => Ok (false, "missing tuner report")
  end.

(** The Sharpe ratios are read, but every branch after the sample count accepts. *)
Definition validate_policy_payload (p : run_payload) : result string (bool * string) :=
  match assoc "result" p with
  | Some (JObj fields) =>
      let n := match assoc "sample_count" fields with Some v => if json_truthy (Some v) then int_of v else Ok 0%Z | None => Ok 0%Z end in
      result_bind n (fun n => if (n <=? 0)%Z then Ok (false, "insufficient shadow RL samples") else Ok (true, ""))
  | _ => Ok (false, "missing policy optimizer result")
  end.

(** The meta of a symbol fails its readiness. *)
Definition fails_readiness (fresh : list string) (symbol : string) (meta : list (string * json)) : bool :=
  json_truthy (assoc "stale" meta) && negb (bool_decide (upper symbol ∈ fresh)) &&
  negb (match assoc "reason" meta with Some r => json_eq r (JStr "vault_missing") | None => false end).

Fixpoint metas (l : list (string * json)) : result string (list (string * list (string * json))) :=
  match l with
  | [] => Ok []
  | (symbol, v) :: l => result_bind (dict_of v) (fun m => result_bind (metas l) (fun rest => Ok ((symbol, m) :: rest)))
  end.

Definition join (sep : string) (l : list string) : string := String.concat sep l.

(** The symbols that were seeded just now; [symbols] is a list of the store's making. *)
Definition seeded_symbols (auto_seed : list (string * json)) : result string (list string) :=
  match assoc "symbols" auto_seed with
  | None => Ok []
  | Some (JArr l) => Ok (if json_truthy (assoc "seeded" auto_seed) then map (fun s => upper (str s)) l else [])
  | Some _ => Raise "TypeError"
  end.

Definition validate_pre_open_payload (p : run_payload) : result string (bool * string) :=
  if negb (json_truthy (assoc "config_ready" p)) then Ok (false, "strategy config not ready") else
  try! seed := dict_or_empty (assoc "auto_seed" p) in
  try! fresh := seeded_symbols seed in
  try! staleness := dict_or_empty (assoc "staleness" p) in
  try! staleness := metas staleness in
  let bad := List.filter (fun e => fails_readiness fresh e.1 e.2) staleness in
  match bad with
  | [] =>
      try! inventory := dict_or_empty (assoc "inventory" p) in
      try! _ := metas inventory in                          (* read for a warning only *)
      Ok (true, "")
  | _ =>
      let missing := existsb (fun e => bool_decide (str (default JNull (assoc "reason" e.2)) = "no_champion")) bad in
      Ok (false, (if missing then "missing/stale champions" else "stale champions") +:+ ": " +:+ join "," (map fst bad))
  end.

Definition validate_post_close_payload (p : run_payload) : bool * string :=
  match assoc "vault_backup_drill" p with
  | Some (JObj drill) =>
      if json_truthy (assoc "verification_passed" drill) then (true, "")
      else if json_truthy (assoc "vault_backup" p) then (true, "") else (false, "research vault backup missing")
  | _ => if json_truthy (assoc "vault_backup" p) then (true, "") else (false, "research vault backup missing")
  end.
End Validators.

(** ** Champions *)

(** A row of regime_champions; the columns may be NULL. *)
Record champion_row := mkChampion {
  ch_symbol : string; ch_regime : string; ch_composite_score : option float; ch_promoted_at : option string
}.

(** SQL's MAX of a column: NULLs are skipped, no value gives NULL. *)
Definition sql_max {A} (lt : A -> A -> bool) (l : list (option A)) : option A :=
  fold_left (fun m x => match m, x with
                        | None, x => x
                        | Some _, None => m
                        | Some a, Some b => if lt a b then Some b else m
                        end) l None.

Definition DAY : Z := 86400000000.

Section Champions.
Context (fromisoformat : string -> option Z).   (* a moment; None where it raises ValueError *)

(** The staleness of one symbol; the newest date and the largest score may be of different rows. *)
Definition champion_staleness (now max_age_days : Z) (rows : list champion_row) (symbol : string)
    : result string (list (string * json)) :=
  let mine := List.filter (fun r => bool_decide (ch_symbol r = upper symbol)) rows in
  match sql_max String.ltb (map ch_promoted_at mine) with
  | None => Ok [("stale", JBool true); ("reason", JStr "no_champion")]
  | Some text =>
      match fromisoformat text with
      | None => Raise "ValueError"
      | Some t =>
          let age := ((now - t) / DAY)%Z in
          let score := default fzero (sql_max fltb (map ch_composite_score mine)) in
          Ok [("stale", JBool (max_age_days <? age)%Z); ("age_days", JInt age);
              ("composite_score", JFloat (if ftruthy score then score else fzero)); ("promoted_at", JStr text)]
      end
  end.

Fixpoint staleness_of (now max_age_days : Z) (rows : list champion_row) (symbols : list string)
    (out : list (string * json)) : result string (list (string * json)) :=
  match symbols with
  | [] => Ok out
  | s :: symbols =>
      result_bind (champion_staleness now max_age_days rows s)
        (fun m => staleness_of now max_age_days rows symbols (assoc_set s (JObj m) out))
  end.

(** [rows]: the table, or the error of the database. *)
Definition audit_champion_staleness (now max_age_days : Z) (rows : result string (list champion_row)) (symbols : list string)
    : list (string * json) :=
  match symbols with
  | [] => []
  | _ =>
      match result_bind rows (fun rows => staleness_of now max_age_days rows symbols []) with
      | Ok out => out
      | Raise e => fold_left (fun out s => assoc_set s (JObj [("stale", JBool true); ("reason", JStr "vault_query_failed");
                                                              ("error", JStr e)]) out) symbols []
      end
  end.
End Champions.

(** [[s for s in symbols if not staleness.get(s, {}).get("stale", True)]]. *)
Definition is_fresh (staleness : list (string * json)) (symbol : string) : bool :=
  match assoc symbol staleness with
  | Some (JObj m) => negb (json_truthy (Some (default (JBool true) (assoc "stale" m))))
  | _ => false
  end.

(** ** The environment *)

Record seed_result := mkSeed { sd_seeded : bool; sd_symbols : list string }.
Record completed := mkCompleted { cp_returncode : Z; cp_stdout : string; cp_stderr : string }.

(** A verdict of the drift evaluator, as far as the scheduler reads it; [dv_payload] is its entry in the payload. *)
Record drift_verdict := mkDriftVerdict {
  dv_symbol : string; dv_regime : string; dv_strategy_id : option string; dv_classification : string;
  dv_directive : string; dv_alert_id : json; dv_payload : json
}.
Definition CLASS_OLD_AND_WRONG : string := "OLD_AND_WRONG".
Definition DIRECTIVE_FORCE_MINI_SWEEP : string := "FORCE_MINI_SWEEP".
Definition DIRECTIVE_STAGED_ROLLBACK : string := "STAGED_ROLLBACK".

(** The job table answers for the last status put under an id. *)
Record job_row := mkJobRow { jb_validation_passed : bool; jb_last_error : string }.
Class JobTable (J : Type) := {
  job_status : string -> J -> option job_row;
  put_status : string -> string -> bool -> J -> result string unit * J
}.
Class JobTableLaws (J : Type) `{JobTable J} : Prop := {
  put_own j status passed t t' : put_status j status passed t = (Ok tt, t') ->
    option_map jb_validation_passed (job_status j t') = Some passed;
  put_failed j status passed t t' e : put_status j status passed t = (Raise e, t') -> t' = t;
  put_other j k status passed t : k <> j -> job_status k (put_status j status passed t).2 = job_status k t
}.

Section Scheduler.
Context {W J : Type} `{JobTable J}.
Notation act A := (W -> result string A * W).

Record surroundings := mkSurroundings {
  me_research_halted : act bool;
  me_load_config : act AppConfig;
  me_latest : act AppConfig;                             (* of the watcher *)
  me_request_reload : W -> W;
  me_alignment : act PreflightConfigAlignmentResult;     (* of the resolver of [ConfigEngine] *)
  me_recon_scheduled : act bool;
  me_run_recon : act bool;
  me_auto_seed : list string -> act seed_result;
  me_champions : act (list champion_row);
  me_snapshot_lkg : list string -> act unit;
  me_lkg_symbols : act (list string);
  me_baseline_safe : string -> act bool;
  me_restore_champion : string -> act bool;
  me_short_client : act unit;
  me_asset : string -> act (bool * bool);
  me_yaml_exists : string -> W -> bool;
  me_latest_backup : string -> act (option string);
  me_prior_backup : string -> act (option string);
  me_write_yaml : string -> string -> act unit;
  me_allocation_rows : act (list (string * string * float * string));   (* symbol, regime, score and date, as ordered *)
  me_health_rows : act (list (string * Z));              (* the day's transitions by new status *)
  me_shadow_eval : act json;
  me_policy_progression : act json;                      (* of [PolicyLifecycle] *)
  me_champion_groups : act (list (string * string));
  me_evaluate_portfolio : list (string * string * option string) -> act (list drift_verdict);
  me_mini_sweep : string -> act completed;
  me_mark_failed : string -> string -> string -> act unit;
  me_vault_drill : act (string * json);                  (* its snapshot's path and its fields *)
  me_trading_drill : act (string * json);
  me_tuner : act completed;
  me_tuner_report : act (option json);
  me_policy_brain : act completed;
  me_vault_backup : act (option string);
  me_alert : RunbookStep -> string -> act unit
}.
Context (Env : surroundings) (json_loads : string -> option json) (now : W -> Z) (fromisoformat : string -> option Z).
Context (int_of : json -> result string Z) (str_of : json -> string) (DEFAULT_AUTO_SEED_SYMBOLS : list string).

(** The scheduler's own fields, beside what its calls reach. *)
Record sched := mkSched { sc_env : W; sc_jobs : J; sc_blocked : bool; sc_block_reason : string }.
Definition put_env_of (w : W) (x : sched) : sched := mkSched w (sc_jobs x) (sc_blocked x) (sc_block_reason x).

Notation callback A := (@callback sched A).
Definition M (A : Type) : Type := py W string A.

(** A computation of the surroundings as a callback of the supervisor. *)
Definition on_env {A} (f : W -> result string A * W) : callback A := fun x =>
  let '(r, w) := f (sc_env x) in (r, put_env_of w x).

(** [try: f; except Exception: d]. *)
Definition attempt {A} (f : M A) (d : string -> A) : M A := fun w =>
  match f w with (Ok a, w) => (Ok a, w) | (Raise e, w) => (Ok (d e), w) end.

Definition active_mean_reversion_symbols : M (list string) :=
  attempt (let! a := me_load_config Env in
           py_ret (map (fun s => upper (sc_symbol s))
                     (List.filter (fun s => sc_enabled s && str_contains "mean_reversion" (sc_module s)) (ac_strategies a))))
    (fun _ => []).

Definition readiness_symbols : M (list string) :=
  let! l := active_mean_reversion_symbols in
  py_ret (match l with [] => DEFAULT_AUTO_SEED_SYMBOLS | _ => l end).

Definition audit (symbols : list string) : M (list (string * json)) := fun w =>
  match symbols with
  | [] => (Ok [], w)
  | _ => let '(rows, w') := me_champions Env w in
         (Ok (audit_champion_staleness fromisoformat (now w) CHAMPION_STALENESS_MAX_DAYS rows symbols), w')
  end.

Definition verify_strategy_config_readiness (symbols : list string) (w : W) : bool :=
  match symbols with
  | [] => false
  | _ => forallb (fun s => bool_decide (upper s ∈ STRATEGY_YAML) && me_yaml_exists Env (upper s) w) symbols
  end.

Definition seed_payload (r : seed_result) : json :=
  JObj [("seeded", JBool (sd_seeded r)); ("symbols", JArr (map JStr (sd_symbols r)))].
Definition failed_payload (e : string) : json := JObj [("seeded", JBool false); ("error", JStr e)].

Definition inventory_meta (client : bool) (symbol : string) : M json :=
  attempt (let! _ := if client then py_ret tt else py_raise "short-availability client unavailable" in
           let! c := me_asset Env symbol in
           py_ret (JObj [("shortable", JBool c.1); ("easy_to_borrow", JBool c.2)]))
    (fun e => JObj [("shortable", JBool false); ("easy_to_borrow", JBool false); ("error", JStr e)]).

Fixpoint inventory_of (client : bool) (symbols : list string) (out : list (string * json)) : M (list (string * json)) :=
  match symbols with
  | [] => py_ret out
  | s :: symbols => let! m := inventory_meta client s in inventory_of client symbols (assoc_set s m out)
  end.

Definition run_pre_open_checks : M run_payload :=
  let! _ := me_latest Env in
  let! symbols := active_mean_reversion_symbols in
  let! seed := attempt (let! r := me_auto_seed Env (map upper symbols) in py_ret (seed_payload r)) failed_payload in
  let! client := attempt (let! _ := me_short_client Env in py_ret true) (fun _ => false) in
  let! inventory := inventory_of client symbols [] in
  let! staleness := audit symbols in
  let fresh := List.filter (is_fresh staleness) symbols in
  let! _ := match fresh with [] => py_ret tt | _ => attempt (me_snapshot_lkg Env fresh) (fun _ => tt) end in
  let! w := py_get in
  let ready := verify_strategy_config_readiness symbols w in
  let! _ := py_modify (me_request_reload Env) in
  let! a := me_alignment Env in
  py_ret [("symbols", JArr (map JStr symbols)); ("inventory", JObj inventory); ("staleness", JObj staleness);
          ("config_ready", JBool ready); ("auto_seed", seed);
          ("config_alignment", JObj [("aligned", JBool (pa_aligned a)); ("reason", JStr (pa_reason a));
                                     ("mismatches", JArr (map JStr (pa_mismatches a)))])].

(** [payload.update(checks)] with a key that the checks do not have. *)
Definition invoke_pre_open_readiness : M run_payload :=
  let! scheduled := me_recon_scheduled Env in
  let! head := (if scheduled : bool
                then let! ok := me_run_recon Env in
                     py_ret [("deferred_pre_flight_recon", JObj [("scheduled", JBool true); ("success", JBool ok)])]
                else py_ret []) in
  let! checks := run_pre_open_checks in
  py_ret (head ++ checks).

(** The snapshot's legs: the rows of each symbol, in the order of the rows. *)
Definition add_allocation (legs : list (string * json)) (row : string * string * float * string) : list (string * json) :=
  let '(symbol, regime, score, promoted_at) := row in
  let entry := JObj [("regime", JStr regime); ("composite_score", JFloat score); ("promoted_at", JStr promoted_at)] in
  assoc_set symbol (JArr (match assoc symbol legs with Some (JArr l) => l ++ [entry] | _ => [entry] end)) legs.

Definition refresh_allocation_matrix_snapshot : M json :=
  let! rows := me_allocation_rows Env in
  py_ret (JObj [("legs", JObj (fold_left add_allocation rows []))]).

Definition review_health_score_ledger : M json :=
  let! rows := me_health_rows Env in
  let count status := default 0%Z (assoc status rows) in
  py_ret (JObj [("transitions_24h", JInt (foldr Z.add 0%Z (map snd rows)));
                ("degraded_or_halted", JInt (count "DEGRADED" + count "HALTED"));
                ("by_status", JObj (map (fun e => (e.1, JInt e.2)) rows))]).

Definition drift_strategy (symbol : string) : option string :=
  if bool_decide (upper symbol = "QQQ") then Some "mean_reversion_qqq"
  else if bool_decide (upper symbol = "SPY") then Some "mean_reversion_spy" else None.

Definition drift_action (v : drift_verdict) : M (list json) :=
  let entry := [("symbol", JStr (dv_symbol v)); ("directive", JStr (dv_directive v))] in
  if negb (bool_decide (dv_classification v = CLASS_OLD_AND_WRONG)) then py_ret []
  else if bool_decide (dv_directive v = DIRECTIVE_FORCE_MINI_SWEEP) then
    let! c := me_mini_sweep Env (dv_symbol v) in
    py_ret [JObj (entry ++ [("exit_code", JInt (cp_returncode c)); ("alert_id", dv_alert_id v)])]
  else if bool_decide (dv_directive v = DIRECTIVE_STAGED_ROLLBACK) then
    let! _ := me_mark_failed Env (dv_symbol v) (dv_regime v) (opt_or (dv_strategy_id v) (dv_symbol v)) in
    py_ret [JObj (entry ++ [("alert_id", dv_alert_id v)])]
  else py_ret [].

Fixpoint drift_actions (vs : list drift_verdict) : M (list json) :=
  match vs with
  | [] => py_ret []
  | v :: vs => let! l := drift_action v in let! rest := drift_actions vs in py_ret (l ++ rest)
  end.

Definition run_model_drift_evaluation : M json := fun w =>
  match me_champion_groups Env w with
  | (Raise e, w) => (Ok (JObj [("error", JStr e); ("verdicts", JArr []); ("actions", JArr [])]), w)
  | (Ok groups, w) =>
      (let! vs := me_evaluate_portfolio Env (map (fun g => (g.1, g.2, drift_strategy g.1)) groups) in
       let! actions := drift_actions vs in
       py_ret (JObj [("verdicts", JArr (map dv_payload vs)); ("actions", JArr actions)])) w
  end.

Definition run_post_close_tasks : M run_payload :=
  let! allocation := refresh_allocation_matrix_snapshot in
  let! health := review_health_score_ledger in
  let! vault := me_vault_drill Env in
  let! trading := me_trading_drill Env in
  let! shadow := me_shadow_eval Env in
  let! lifecycle := me_policy_progression Env in
  let! drift := run_model_drift_evaluation in
  py_ret [("allocation", allocation); ("health_review", health); ("vault_backup", JStr vault.1); ("vault_backup_drill", vault.2);
          ("trading_backup", JStr trading.1); ("trading_backup_drill", trading.2); ("shadow_policy", shadow);
          ("policy_lifecycle", lifecycle); ("drift_review", drift)].

Definition tail (n : nat) (s : string) : string := String.substring (String.length s - n) n s.
Definition output_of (c : completed) : run_payload :=
  [("exit_code", JInt (cp_returncode c)); ("stdout_tail", JStr (tail 4000 (cp_stdout c)));
   ("stderr_tail", JStr (tail 4000 (cp_stderr c)))].

Definition run_weekend_tuner_subprocess : M run_payload :=
  let! c := me_tuner Env in
  let! report := me_tuner_report Env in
  if (cp_returncode c =? 0)%Z
  then py_ret (output_of c ++ match report with Some j => [("report", j)] | None => [] end)
  else py_raise "adaptive_parameter_tuner exited".

Definition run_policy_brain_subprocess : M run_payload :=
  let! c := me_policy_brain Env in
  if (cp_returncode c =? 0)%Z
  then py_ret (output_of c ++ if truthy (strip (cp_stdout c)) then [("result", default JNull (json_loads (cp_stdout c)))] else [])
  else py_raise "optimize_policy_brain exited".

(** ** The last known good state *)

Fixpoint restore_champions (symbols : list string) : M bool :=
  match symbols with
  | [] => py_ret false
  | s :: symbols =>
      let! safe := me_baseline_safe Env s in
      let! done := if safe : bool then me_restore_champion Env s else py_ret false in
      let! rest := restore_champions symbols in
      py_ret (done || rest)
  end.

Definition restore_yaml (symbol : string) : M bool := fun w =>
  if negb (me_yaml_exists Env symbol w) then (Ok false, w) else
  (let! latest := me_latest_backup Env symbol in
   let! raw := (match latest with Some t => py_ret (Some t) | None => me_prior_backup Env symbol end) in
   match raw with
   | None => py_ret false
   | Some t => let! _ := me_write_yaml Env symbol t in py_ret true
   end) w.

Fixpoint restore_yamls (symbols : list string) : M bool :=
  match symbols with
  | [] => py_ret false
  | s :: symbols => let! a := restore_yaml s in let! b := restore_yamls symbols in py_ret (a || b)
  end.

Definition restore_last_known_good_configs : M bool :=
  let! symbols := readiness_symbols in
  let! a := restore_champions symbols in
  let! b := restore_yamls STRATEGY_YAML in
  let! _ := if a || b then py_modify (me_request_reload Env) else py_ret tt in
  py_ret (a || b).

(** Every readiness leg has a last known good champion, seeded and copied from a fresh one where that can be done. *)
Definition assert_readiness_lkg_present : M unit :=
  let! l := readiness_symbols in
  let symbols := map upper l in
  let! _ := attempt (let! _ := me_auto_seed Env symbols in
                     let! staleness := audit symbols in
                     me_snapshot_lkg Env (List.filter (is_fresh staleness) symbols)) (fun _ => tt) in
  let! have := me_lkg_symbols Env in
  match List.filter (fun s => negb (bool_decide (s ∈ have))) symbols with
  | [] => py_ret tt
  | missing => py_raise ("MAINTENANCE STARTUP CONFIG ERROR: " +:+ join "," missing)
  end.

(** ** The plane of the supervisor *)

Definition block_live_consumption (reason : string) : callback unit := fun x =>
  (Ok tt, mkSched (sc_env x) (sc_jobs x) true reason).
Definition release_live_consumption : callback unit := fun x => (Ok tt, mkSched (sc_env x) (sc_jobs x) false "").

Definition answers {A} (f : run_payload -> result string A) (p : run_payload) : callback A := fun x => (f p, x).

Definition workers_of (step : RunbookStep) : option (callback run_payload) :=
  Some (on_env match step with
               | PRE_OPEN_HYDRATION => invoke_pre_open_readiness
               | POST_CLOSE_RECONCILIATION => run_post_close_tasks
               | WEEKEND_PARAMETER_TUNER => run_weekend_tuner_subprocess
               | WEEKLY_POLICY_SWAP => run_policy_brain_subprocess
               end).
Definition validators_of (step : RunbookStep) : option (run_payload -> callback (bool * string)) :=
  Some (answers match step with
                | PRE_OPEN_HYDRATION => validate_pre_open_payload str_of
                | POST_CLOSE_RECONCILIATION => fun p => Ok (validate_post_close_payload p)
                | WEEKEND_PARAMETER_TUNER => validate_tuner_payload str_of
                | WEEKLY_POLICY_SWAP => validate_policy_payload int_of
                end).

(** A job's row is put with whether its validation passed. *)
Definition upsert (job status : string) : callback unit := fun x =>
  let '(r, t) := put_status job status (bool_decide (status = "success")) (sc_jobs x) in
  (r, mkSched (sc_env x) t (sc_blocked x) (sc_block_reason x)).

(** The hooks only write log lines. *)
Definition maintenance_plane : plane sched :=
  mkPlane workers_of validators_of (fun _ => []) (fun _ => []) (Some (on_env restore_last_known_good_configs))
    (Some block_live_consumption) (Some release_live_consumption) None (fun _ x => (Ok tt, x)) upsert
    (fun step e => on_env (me_alert Env step e)).

(** ** The gate *)

Record LiveConsumptionGate := mkGateVerdict { lg_allowed : bool; lg_reason : string }.

Fixpoint critical_rows (jobs : list string) (x : sched) : LiveConsumptionGate :=
  match jobs with
  | [] => mkGateVerdict true ""
  | j :: jobs =>
      match job_status j (sc_jobs x) with
      | Some row =>
          if jb_validation_passed row then critical_rows jobs x
          else let detail := strip (jb_last_error row) in
               let reason := j +:+ " validation not passed" in
               mkGateVerdict false (if truthy detail then reason +:+ ": " +:+ detail else reason)
      | None => critical_rows jobs x
      end
  end.

Definition live_consumption_gate (x : sched) : LiveConsumptionGate :=
  if sc_blocked x then mkGateVerdict false (sc_block_reason x)
  else critical_rows [JOB_WEEKEND_TUNER; JOB_PRE_OPEN] x.

(** ** The daemon *)

(** [sl_completed]: the jobs whose handlers returned, with the reading they fired at. *)
Record scheduler := mkScheduler {
  sl_supervisor : supervisor sched; sl_last_fired : gmap string Z; sl_completed : list (string * et_time)
}.
Definition D (A : Type) : Type := py (supervisor sched) string A.

Definition guarded_runbook (step : RunbookStep) : D unit :=
  let! halted := call [] (on_env (me_research_halted Env)) in
  if halted : bool then py_ret tt else let! _ := execute_runbook maintenance_plane step in py_ret tt.

Definition job_handlers (name : string) : option (D unit) :=
  if bool_decide (name = "run_weekend_parameter_tuner") then Some (guarded_runbook WEEKEND_PARAMETER_TUNER)
  else if bool_decide (name = "run_weekly_policy_brain") then Some (guarded_runbook WEEKLY_POLICY_SWAP)
  else if bool_decide (name = "run_vault_backup")
  then Some (let! _ := call [] (on_env (me_vault_backup Env)) in py_ret tt)
  else if bool_decide (name = "run_pre_open_readiness")
  then Some (let! _ := execute_runbook maintenance_plane PRE_OPEN_HYDRATION in py_ret tt)
  else if bool_decide (name = "run_post_close_reconciliation")
  then Some (let! _ := execute_runbook maintenance_plane POST_CLOSE_RECONCILIATION in py_ret tt)
  else None.

Definition handler_for (job : ScheduledMaintenanceJob) : D unit :=
  match job_handlers (sj_handler_name job) with
  | Some h => h
  | None => py_raise ("no registered handler " +:+ sj_handler_name job)
  end.

Definition in_window (job : ScheduledMaintenanceJob) (t : et_time) : bool :=
  match sj_weekdays job with Some days => bool_decide (weekday t ∈ days) | None => true end &&
  (et_hour t =? sj_hour job)%Z && (et_minute t =? sj_minute job)%Z.

Definition should_fire (job : ScheduledMaintenanceJob) (t : et_time) (last_fired : gmap string Z) : bool :=
  in_window job t && negb (bool_decide (last_fired !! sj_job_id job = Some (et_date t))).

Definition fire (job : ScheduledMaintenanceJob) (t : et_time) : py scheduler string unit := fun s =>
  match handler_for job (sl_supervisor s) with
  | (Ok _, v) => (Ok tt, mkScheduler v (<[sj_job_id job := et_date t]> (sl_last_fired s))
                           (sl_completed s ++ [(sj_job_id job, t)]))
  | (Raise e, v) => (Raise e, mkScheduler v (sl_last_fired s) (sl_completed s))
  end.

(** A handler that raises ends the tick: the jobs after it are not looked at. *)
Fixpoint tick (jobs : list ScheduledMaintenanceJob) (t : et_time) : py scheduler string unit := fun s =>
  match jobs with
  | [] => (Ok tt, s)
  | job :: jobs =>
      if should_fire job t (sl_last_fired s) then (fire job t ;;! tick jobs t) s else tick jobs t s
  end.

(** One turn of the daemon's loop, which swallows what the tick raised. *)
Definition poll (jobs : list ScheduledMaintenanceJob) (s : scheduler) (t : et_time) : scheduler := (tick jobs t s).2.

(** The start of the daemon: the champions are asserted, then the supervisor runs. *)
Definition start_daemon : D bool :=
  let! _ := call [] (on_env assert_readiness_lkg_present) in start maintenance_plane true.

Definition run_job (jobs : list ScheduledMaintenanceJob) (job_id : string) : D unit :=
  match hd_error (List.filter (fun j => bool_decide (sj_job_id j = job_id)) jobs) with
  | Some job => handler_for job
  | None => py_raise ("unknown maintenance job: " +:+ job_id)
  end.
End Scheduler.

(** ** What the callbacks keep, a runbook keeps *)

Lemma finally_env {W} (v : supervisor W) : sv_env (runbook_finally v) = sv_env v.
Proof. unfold runbook_finally. cbv zeta. by case_match. Qed.

Section Keeps.
Context {W : Type} (P : plane W) (I : W -> Prop) (step : RunbookStep).

Definition callback_keeps {A} (f : @callback W A) : Prop := forall w, I w -> I (f w).2.
Record plane_keeps : Prop := {
  pk_worker f : workers P step = Some f -> callback_keeps f;
  pk_validator f p : validators P step = Some f -> callback_keeps (f p);
  pk_pre name f : (name, f) ∈ pre_hooks P step -> callback_keeps f;
  pk_post name f p : (name, f) ∈ post_hooks P step -> callback_keeps (f p);
  pk_restore f : restore_on_failure P = Some f -> callback_keeps f;
  pk_block f r : on_block_consumption P = Some f -> callback_keeps (f r);
  pk_release f : on_release_consumption P = Some f -> callback_keeps f;
  pk_upsert status : callback_keeps (upsert_maintenance_job_status P (RUNBOOK_JOB_ID step) status);
  pk_alert e : callback_keeps (dispatch_system_alert P step e)
}.
Context (Hk : plane_keeps).

Definition env_keeps {A} (c : py (supervisor W) string A) : Prop := forall s, I (sv_env s) -> I (sv_env (c s).2).

Lemma env_local {A} (c : py (supervisor W) string A) : (forall s, sv_env (c s).2 = sv_env s) -> env_keeps c.
Proof. intros H s. by rewrite H. Qed.
Lemma env_bind {A B} (m : py (supervisor W) string A) (k : A -> py (supervisor W) string B) :
  env_keeps m -> (forall a, env_keeps (k a)) -> env_keeps (py_bind m k).
Proof. intros Hm Hk' s Hs. unfold py_bind. specialize (Hm s Hs). destruct (m s) as [[a|e] s']; [by apply Hk'|done]. Qed.
Lemma env_call {A} evs (f : @callback W A) : callback_keeps f -> env_keeps (call evs f).
Proof. intros Hf s Hs. unfold call. specialize (Hf _ Hs). by destruct (f (sv_env s)). Qed.
Lemma env_transition t : env_keeps (sup_transition t).
Proof. apply env_local. intros s. unfold sup_transition. by destruct (_ && _). Qed.
Lemma env_block r : env_keeps (block P r).
Proof.
  unfold block, call_opt. destruct (on_block_consumption P) as [f|] eqn:E; [|by apply env_local].
  apply env_call. by eapply pk_block.
Qed.
Lemma env_release : env_keeps (release P).
Proof.
  unfold release, call_opt. destruct (on_release_consumption P) as [f|] eqn:E; [|by apply env_local].
  apply env_call. by eapply pk_release.
Qed.
Lemma env_record status passed : env_keeps (record_job P step status passed).
Proof. apply env_call, pk_upsert, Hk. Qed.
Lemma env_alert e : env_keeps (alert_failure P step e).
Proof. apply env_call, pk_alert, Hk. Qed.
Lemma env_worker f evs : workers P step = Some f -> env_keeps (call evs f).
Proof. intros Hf. apply env_call. by eapply pk_worker. Qed.
Lemma env_validator f p evs : validators P step = Some f -> env_keeps (call evs (f p)).
Proof. intros Hf. apply env_call. by eapply pk_validator. Qed.
Lemma env_restore f evs : restore P step = Some f -> env_keeps (call evs f).
Proof. unfold restore. destruct (RUNBOOK_RESTORE_ON_FAILURE step); [|done]. intros Hf. apply env_call. by eapply pk_restore. Qed.
Lemma env_hooks : env_keeps (run_hooks (pre_hooks P step)).
Proof.
  assert (forall name f, (name, f) ∈ pre_hooks P step -> callback_keeps f) as Hh by by apply pk_pre.
  revert Hh. induction (pre_hooks P step) as [|[name f] l IH]; intros Hh; [by apply env_local|].
  cbn. apply env_bind; [apply env_call, (Hh name); by left|intros _].
  apply env_bind; [by apply env_local|intros _]. apply IH. intros n g Hg. apply (Hh n). by right.
Qed.
Lemma env_post_hooks p : env_keeps (run_post_hooks (post_hooks P step) p).
Proof.
  assert (forall name f p, (name, f) ∈ post_hooks P step -> callback_keeps (f p)) as Hh
    by (intros name f q; by apply pk_post).
  revert p Hh. induction (post_hooks P step) as [|[name f] l IH]; intros p Hh; [by apply env_local|].
  cbn. apply env_bind; [apply env_call, (Hh name); by left|intros p'].
  apply env_bind; [by apply env_local|intros _]. apply IH. intros n g q Hg. apply (Hh n). by right.
Qed.

Lemma env_ret {A} (a : A) : env_keeps (py_ret a).
Proof. by apply env_local. Qed.
Lemma env_stage g : env_keeps (set_stage g).
Proof. by apply env_local. Qed.
Lemma env_result ok p e : env_keeps (run_result step ok p e).
Proof. by apply env_local. Qed.
Lemma env_if {A} (b : supervisor W -> bool) (c d : py (supervisor W) string A) :
  env_keeps c -> env_keeps d -> env_keeps (fun s => if b s then c s else d s).
Proof. intros Hc Hd s Hs. destruct (b s); auto. Qed.

#[local] Hint Resolve env_ret env_stage env_result env_transition env_block env_release env_record env_alert env_worker
  env_validator env_restore env_hooks env_post_hooks : keeps_env.
Ltac keep_env := repeat first [solve [eauto with keeps_env] | apply env_bind; [|intros ?] | apply env_if | case_match].

Lemma env_fail e : env_keeps (fail_runbook P step e).
Proof. unfold fail_runbook. keep_env. Qed.
Lemma env_except e : env_keeps (runbook_except P step e).
Proof. unfold runbook_except. keep_env. Qed.
Lemma env_validate worker validator p : workers P step = Some worker -> validators P step = Some validator ->
  env_keeps (validate_with_restore P step worker validator p).
Proof. intros Hw Hv. unfold validate_with_restore. keep_env. Qed.
Lemma env_body worker validator : workers P step = Some worker -> validators P step = Some validator ->
  env_keeps (runbook_body P step worker validator).
Proof.
  intros Hw Hv. unfold runbook_body. keep_env; first [by apply env_validate | by apply env_local | idtac].
Qed.

Lemma env_runbook : env_keeps (execute_runbook P step).
Proof.
  unfold execute_runbook. apply env_bind; [by apply env_local|intros _]. apply env_bind; [by apply env_local|intros _].
  apply env_bind; [by apply env_local|intros s0]. case_match; [apply env_fail|].
  destruct (workers P step) as [worker|] eqn:Ew; [|apply env_fail].
  destruct (validators P step) as [validator|] eqn:Ev; [|apply env_fail].
  intros s Hs. pose proof (env_body _ _ Ew Ev s Hs) as Hb.
  destruct (runbook_body P step worker validator s) as [[r|e] s1]; cbn in *; [by rewrite finally_env|].
  pose proof (env_except e s1 Hb) as He. destruct (runbook_except P step e s1). cbn in *. by rewrite finally_env.
Qed.
End Keeps.

(** ** The gate and the runbooks *)

Lemma bind_returns {S E A B} (m : py S E A) (k : A -> py S E B) s b s' :
  py_bind m k s = (Ok b, s') -> exists a s1, m s = (Ok a, s1) /\ k a s1 = (Ok b, s').
Proof. unfold py_bind. destruct (m s) as [[a|e] s1]; [eauto|done]. Qed.

Section Gate.
Context {W J : Type} `{JobTableLaws J}.
Context (Env : @surroundings W) (json_loads : string -> option json) (now : W -> Z) (fromisoformat : string -> option Z).
Context (int_of : json -> result string Z) (str_of : json -> string) (DEFAULTS : list string).
Notation Plane := (maintenance_plane (J := J) Env json_loads now fromisoformat int_of str_of DEFAULTS).
Notation Run := (execute_runbook Plane).
Notation sched := (@sched W J).
Implicit Types s : supervisor sched.

(** What a runbook's result says of the flag and of its job's row. *)
Definition outcome (step : RunbookStep) (ok : bool) (x : sched) : Prop :=
  sc_blocked x = negb ok /\ (ok = true -> option_map jb_validation_passed (job_status (RUNBOOK_JOB_ID step) (sc_jobs x)) = Some true).

Lemma accept_outcome step p s r s' : accept_tail Plane step p s = (Ok r, s') ->
  rr_success r = true /\ outcome step true (sv_env s').
Proof.
  unfold accept_tail. intros ([] & s1 & H1 & Hr)%bind_returns. apply bind_returns in Hr as ([] & s2 & H2 & Hr).
  apply bind_returns in Hr as ([] & s3 & H3 & Hr). apply bind_returns in Hr as ([] & s4 & H4 & Hr).
  unfold run_result in Hr. injection Hr as <- <-. split; [done|].
  assert (sv_env s4 = sv_env s3) as -> by (unfold set_stage, py_modify in H4; by simplify_eq).
  assert (sc_blocked (sv_env s1) = false) as Hb by (unfold release, call_opt, call in H1; cbn in H1; by simplify_eq).
  assert (sv_env s2 = sv_env s1) as He.
  { revert H2. unfold sup_transition. case_bool_decide; [|by intros [= <-]]. case_match; [done|]. by intros [= <-]. }
  rewrite <- He in Hb. clear H1 H2 He. revert H3. unfold record_job, call. cbn. unfold upsert.
  destruct (put_status _ _ _ _) as [[[]|e] t] eqn:E; cbn; intros [= <-]. cbn. split; [done|]. intros _. by eapply put_own.
Qed.

Lemma reject_outcome step status e g p s r s' : reject_tail Plane step status e g p s = (Ok r, s') ->
  rr_success r = false /\ outcome step false (sv_env s').
Proof.
  unfold reject_tail. intros ([] & s1 & H1 & Hr)%bind_returns. apply bind_returns in Hr as ([] & s2 & H2 & Hr).
  apply bind_returns in Hr as ([] & s3 & H3 & Hr). apply bind_returns in Hr as ([] & s4 & H4 & Hr).
  apply bind_returns in Hr as ([] & s5 & H5 & Hr).
  unfold run_result in Hr. injection Hr as <- <-. split; [done|]. split; [|done].
  assert (sv_env s5 = sv_env s4) as -> by (unfold set_stage, py_modify in H5; by simplify_eq).
  assert (sc_blocked (sv_env s1) = true) as Hb by (unfold block, call_opt, call in H1; cbn in H1; by simplify_eq).
  assert (sv_env s2 = sv_env s1) as He.
  { revert H2. unfold sup_transition. case_match; [done|]. by intros [= <-]. }
  rewrite <- He in Hb. clear H1 H2 He.
  assert (sc_blocked (sv_env s3) = sc_blocked (sv_env s2)) as H3'.
  { revert H3. unfold record_job, call. cbn. unfold upsert. destruct (put_status _ _ _ _) as [[[]|?] t]; by intros [= <-]. }
  assert (sc_blocked (sv_env s4) = sc_blocked (sv_env s3)) as H4'.
  { revert H4. unfold alert_failure, call. cbn. unfold on_env. destruct (me_alert _ _ _ _) as [[[]|?] t]; by intros [= <-]. }
  cbn. congruence.
Qed.

Lemma body_outcome step worker validator s r s' : runbook_body Plane step worker validator s = (Ok r, s') ->
  outcome step (rr_success r) (sv_env s').
Proof.
  unfold runbook_body. intros ([] & s1 & _ & Hr)%bind_returns. apply bind_returns in Hr as ([] & s2 & _ & Hr).
  apply bind_returns in Hr as ([] & s3 & _ & Hr). apply bind_returns in Hr as (p & s4 & _ & Hr).
  apply bind_returns in Hr as (p1 & s5 & _ & Hr). apply bind_returns in Hr as ([] & s6 & _ & Hr).
  apply bind_returns in Hr as ([[ok reason] p2] & s7 & _ & Hr). cbn [fst snd] in Hr. destruct ok.
  - change (accept_tail Plane step p2 s7 = (Ok r, s')) in Hr. by apply accept_outcome in Hr as [-> ?].
  - change (reject_tail Plane step "validation_failed" reason ALERTED p2 s7 = (Ok r, s')) in Hr.
    by apply reject_outcome in Hr as [-> ?].
Qed.

Lemma except_outcome step e s r s' : runbook_except Plane step e s = (Ok r, s') ->
  rr_success r = false /\ outcome step false (sv_env s').
Proof.
  unfold runbook_except. intros (b & s1 & _ & Hr)%bind_returns.
  change (reject_tail Plane step "error" e STAGE_FAILED [("lkg_restored", JBool b)] s1 = (Ok r, s')) in Hr.
  by apply reject_outcome in Hr.
Qed.

Lemma fail_outcome step e s r s' : fail_runbook Plane step e s = (Ok r, s') ->
  rr_success r = false /\ outcome step false (sv_env s').
Proof.
  intros Hr. change (reject_tail Plane step "error" e ALERTED [] s = (Ok r, s')) in Hr. by apply reject_outcome in Hr.
Qed.

Lemma runbook_outcome step s r s' : Run step s = (Ok r, s') -> outcome step (rr_success r) (sv_env s').
Proof.
  unfold execute_runbook. intros ([] & s1 & _ & Hr)%bind_returns. apply bind_returns in Hr as ([] & s2 & _ & Hr).
  apply bind_returns in Hr as (s3 & s4 & _ & Hr). case_match; [by apply fail_outcome in Hr as [-> ?]|].
  cbn [workers validators Plane maintenance_plane workers_of validators_of] in Hr.
  destruct (runbook_body _ _ _ _ s4) as [[r1|e] s5] eqn:E.
  - injection Hr as <- <-. rewrite finally_env. by eapply body_outcome.
  - destruct (runbook_except _ _ e s5) as [[r1|?] s6] eqn:E2; [|done]. injection Hr as <- <-. rewrite finally_env.
    by apply except_outcome in E2 as [-> ?].
Qed.

(** The surroundings' calls do not reach the scheduler's fields. *)
Lemma on_env_jobs {A} (f : W -> result string A * W) (Q : J -> bool -> Prop) (x : sched) :
  Q (sc_jobs x) (sc_blocked x) -> Q (sc_jobs (on_env f x).2) (sc_blocked (on_env f x).2).
Proof. unfold on_env. by destruct (f (sc_env x)). Qed.

(** A runbook writes no row but its own job's. *)
Lemma runbook_other_rows step k s : k <> RUNBOOK_JOB_ID step ->
  job_status k (sc_jobs (sv_env (Run step s).2)) = job_status k (sc_jobs (sv_env s)).
Proof.
  intros Hk. apply (env_runbook Plane (fun x : sched => job_status k (sc_jobs x) = job_status k (sc_jobs (sv_env s))) step); [|done].
  split; cbn; try done.
  - intros f [= <-] x. by apply (on_env_jobs _ (fun t _ => job_status k t = _)).
  - intros f p [= <-] x. done.
  - by intros name f ?%not_elem_of_nil.
  - by intros name f p ?%not_elem_of_nil.
  - intros f [= <-] x. by apply (on_env_jobs _ (fun t _ => job_status k t = _)).
  - intros f r [= <-] x. done.
  - intros f [= <-] x. done.
  - intros status x Hx. unfold upsert. pose proof (put_other (RUNBOOK_JOB_ID step) k status (bool_decide (status = "success"))
      (sc_jobs x) Hk) as Hp. destruct (put_status _ _ _ _) as [? t]. cbn in *. congruence.
  - intros e x. by apply (on_env_jobs _ (fun t _ => job_status k t = _)).
Qed.

Lemma gate_allowed (x : sched) : lg_allowed (live_consumption_gate x) = true <->
  sc_blocked x = false /\ forall j row, j ∈ [JOB_WEEKEND_TUNER; JOB_PRE_OPEN] -> job_status j (sc_jobs x) = Some row ->
    jb_validation_passed row = true.
Proof.
  unfold live_consumption_gate. destruct (sc_blocked x); [split; [done|by intros [? _]]|]. cbn [critical_rows].
  split.
  - intros Ha. split; [done|]. intros j row Hj Hrow. rewrite !elem_of_cons, elem_of_nil in Hj.
    destruct (job_status JOB_WEEKEND_TUNER _) as [r1|] eqn:E1; [destruct (jb_validation_passed r1) eqn:P1; [|done]|];
      (destruct (job_status JOB_PRE_OPEN _) as [r2|] eqn:E2; [destruct (jb_validation_passed r2) eqn:P2; [|done]|]);
      destruct Hj as [->|[->|[]]]; congruence.
  - intros [_ Hr].
    destruct (job_status JOB_WEEKEND_TUNER _) as [r1|] eqn:E1; [rewrite (Hr JOB_WEEKEND_TUNER r1) by (done || by left)|];
      (destruct (job_status JOB_PRE_OPEN _) as [r2|] eqn:E2; [rewrite (Hr JOB_PRE_OPEN r2) by (done || by right; left)|]); done.
Qed.
End Gate.

(** C17: The gate follows the runbooks. After a runbook that returned, live consumption is allowed exactly when the runbook
    succeeded and no other critical job's row stands failed: a rejected payload, a worker that raised and a supervisor that
    cannot run close it, whatever the worker, the validator and the stores did. A success leaves its own job's row
    passed, and no runbook that returned has written another job's row. *)
Theorem gate_follows_the_runbook {W J} `{JobTableLaws J} (Env : @surroundings W) json_loads now fromisoformat int_of str_of
    DEFAULTS step (s : supervisor (@sched W J)) r s' :
  execute_runbook (maintenance_plane Env json_loads now fromisoformat int_of str_of DEFAULTS) step s = (Ok r, s') ->
  (lg_allowed (live_consumption_gate (sv_env s')) = true <->
   rr_success r = true /\
   forall j row, j ∈ [JOB_WEEKEND_TUNER; JOB_PRE_OPEN] -> j <> RUNBOOK_JOB_ID step ->
     job_status j (sc_jobs (sv_env s)) = Some row -> jb_validation_passed row = true) /\
  (rr_success r = true ->
   exists row, job_status (RUNBOOK_JOB_ID step) (sc_jobs (sv_env s')) = Some row /\ jb_validation_passed row = true) /\
  forall j, j <> RUNBOOK_JOB_ID step -> job_status j (sc_jobs (sv_env s')) = job_status j (sc_jobs (sv_env s)).
Proof.
  intros Hr. pose proof (runbook_outcome _ _ _ _ _ _ _ _ _ _ _ Hr) as [Hb Hown].
  pose proof (fun k => runbook_other_rows Env json_loads now fromisoformat int_of str_of DEFAULTS step k s) as Hother.
  rewrite Hr in Hother. cbn [snd] in Hother. split; [|split; [|exact Hother]].
  - rewrite gate_allowed, Hb. destruct (rr_success r); cbn [negb]; [|split; by intros [? _]].
    split; intros [_ Hrows]; (split; [done|]); intros j row Hj.
    + intros Hne Hrow. apply (Hrows j row Hj). by rewrite Hother.
    + destruct (decide (j = RUNBOOK_JOB_ID step)) as [->|Hne]; intros Hrow.
      * specialize (Hown eq_refl). rewrite Hrow in Hown. by injection Hown.
      * rewrite Hother in Hrow by done. by apply (Hrows j row Hj).
  - intros Hok. specialize (Hown Hok). destruct (job_status _ _) as [row|]; [|done]. exists row. split; [done|]. by injection Hown.
Qed.

(** ** The daemon's polls *)

Section Polls.
Context {W J : Type} `{JobTable J}.
Context (Env : @surroundings W) (json_loads : string -> option json) (now : W -> Z) (fromisoformat : string -> option Z).
Context (int_of : json -> result string Z) (str_of : json -> string) (DEFAULTS : list string).
Notation Handler := (handler_for (J := J) Env json_loads now fromisoformat int_of str_of DEFAULTS).
Notation Tick := (tick (J := J) Env json_loads now fromisoformat int_of str_of DEFAULTS).
Notation Poll := (poll (J := J) Env json_loads now fromisoformat int_of str_of DEFAULTS).
Implicit Types s : @scheduler W J.

Lemma handler_runs job step v : (job, step) ∈ [(PRE_OPEN_JOB, PRE_OPEN_HYDRATION); (POST_CLOSE_JOB, POST_CLOSE_RECONCILIATION)] ->
  (Handler job v).2 = (execute_runbook (maintenance_plane Env json_loads now fromisoformat int_of str_of DEFAULTS) step v).2.
Proof.
  rewrite !elem_of_cons, elem_of_nil. intros [[= -> ->]|[[= -> ->]|[]]].
  - change (Handler PRE_OPEN_JOB) with (let! _ := execute_runbook
      (maintenance_plane (J := J) Env json_loads now fromisoformat int_of str_of DEFAULTS) PRE_OPEN_HYDRATION in py_ret tt).
    unfold py_bind. by destruct (execute_runbook _ _ v) as [[?|?] ?].
  - change (Handler POST_CLOSE_JOB) with (let! _ := execute_runbook
      (maintenance_plane (J := J) Env json_loads now fromisoformat int_of str_of DEFAULTS) POST_CLOSE_RECONCILIATION in py_ret tt).
    unfold py_bind. by destruct (execute_runbook _ _ v) as [[?|?] ?].
Qed.

(** What every handler keeps, a poll keeps. *)
Lemma tick_keeps (Q : supervisor (@sched W J) -> Prop) jobs t s :
  (forall job v, job ∈ jobs -> Q v -> Q (Handler job v).2) -> Q (sl_supervisor s) -> Q (sl_supervisor (Tick jobs t s).2).
Proof.
  revert s. induction jobs as [|job jobs IH]; intros s Hh Hs; [done|]. cbn [tick].
  assert (forall job v, job ∈ jobs -> Q v -> Q (Handler job v).2) as Hh' by (intros; apply Hh; [by right|done]).
  destruct (should_fire job t (sl_last_fired s)); [|by apply IH]. unfold py_bind, fire.
  specialize (Hh job (sl_supervisor s) ltac:(by left) Hs). destruct (Handler job _) as [[[]|e] v]; cbn in *; [by apply IH|done].
Qed.

(** Along ticks of dates that do not go back: what was completed, and what is marked. *)
Record fired_ok (d : Z) s : Prop := {
  fo_past j t : (j, t) ∈ sl_completed s -> (et_date t <= d)%Z /\
    exists d', sl_last_fired s !! j = Some d' /\ (et_date t <= d')%Z;
  fo_mark j d' : sl_last_fired s !! j = Some d' -> (d' <= d)%Z /\ exists t, (j, t) ∈ sl_completed s /\ et_date t = d';
  fo_once : NoDup (map (fun e => (e.1, et_date e.2)) (sl_completed s))
}.

Lemma fired_later d d' s : (d <= d')%Z -> fired_ok d s -> fired_ok d' s.
Proof.
  intros Hd [H1 H2 H3]. split; [|intros j e He; destruct (H2 j e He); split; [lia|done]|done].
  intros j t Ht. destruct (H1 j t Ht). split; [lia|done].
Qed.

Lemma fired_fire job t s v : should_fire job t (sl_last_fired s) = true -> fired_ok (et_date t) s ->
  fired_ok (et_date t) (mkScheduler v (<[sj_job_id job := et_date t]> (sl_last_fired s)) (sl_completed s ++ [(sj_job_id job, t)])).
Proof.
  unfold should_fire. intros Hf [H1 H2 H3]. apply andb_true_iff in Hf as [_ Hf]. bool_prop.
  split; cbn [sl_completed sl_last_fired].
  - intros j t' [Hin|[=-> ->]%list_elem_of_singleton]%elem_of_app.
    + destruct (H1 j t' Hin) as (Hd & d' & Hm & ?). split; [done|].
      destruct (decide (j = sj_job_id job)) as [->|Hne].
      * exists (et_date t). by rewrite lookup_insert_eq.
      * exists d'. by rewrite lookup_insert_ne.
    + split; [done|]. exists (et_date t). by rewrite lookup_insert_eq.
  - intros j d'. destruct (decide (j = sj_job_id job)) as [->|Hne].
    + rewrite lookup_insert_eq. intros [= <-]. split; [done|]. exists t. split; [|done]. apply elem_of_app. right. by left.
    + rewrite lookup_insert_ne by done. intros (Hle & t' & Ht & He)%H2. split; [done|]. exists t'. split; [|done].
      apply elem_of_app. by left.
  - rewrite map_app. apply NoDup_app. split_and!; [done| |apply NoDup_singleton].
    intros e He [= ->]%list_elem_of_singleton. apply list_elem_of_In, in_map_iff in He as ([j t'] & E & Hin%list_elem_of_In). cbn in E. simplify_eq.
    destruct (H1 _ _ Hin) as (_ & d' & Hm & Hd'). destruct (H2 _ _ Hm) as [Hle _]. destruct Hf. rewrite Hm. f_equal. lia.
Qed.

Lemma fired_tick jobs t s : fired_ok (et_date t) s -> fired_ok (et_date t) (Tick jobs t s).2.
Proof.
  revert s. induction jobs as [|job jobs IH]; intros s Hs; [done|]. cbn [tick].
  destruct (should_fire job t (sl_last_fired s)) eqn:Ef; [|by apply IH]. unfold py_bind, fire.
  destruct (Handler job _) as [[[]|e] v]; [by apply IH, fired_fire|]. destruct Hs. by split.
Qed.

(** A tick only adds to what was completed: jobs of the table, in their window. *)
Lemma tick_adds jobs t s : exists l, sl_completed (Tick jobs t s).2 = sl_completed s ++ l /\
  forall e, e ∈ l -> e.2 = t /\ exists job, job ∈ jobs /\ sj_job_id job = e.1 /\ in_window job t = true.
Proof.
  revert s. induction jobs as [|job jobs IH]; intros s; cbn [tick].
  { exists []. rewrite app_nil_r. split; [done|]. by intros e ?%not_elem_of_nil. }
  assert (forall s, exists l, sl_completed (Tick jobs t s).2 = sl_completed s ++ l /\
    forall e, e ∈ l -> e.2 = t /\ exists j, j ∈ job :: jobs /\ sj_job_id j = e.1 /\ in_window j t = true) as IH'.
  { intros s1. destruct (IH s1) as (l & Hl & He). exists l. split; [done|]. intros e Hin.
    destruct (He e Hin) as (? & j & ? & ?). split; [done|]. exists j. split; [by right|done]. }
  destruct (should_fire job t (sl_last_fired s)) eqn:Ef; [|apply IH']. unfold py_bind, fire.
  destruct (Handler job _) as [[[]|e] v].
  - destruct (IH' (mkScheduler v (<[sj_job_id job := et_date t]> (sl_last_fired s)) (sl_completed s ++ [(sj_job_id job, t)])))
      as (l & -> & He). cbn [sl_completed]. exists ((sj_job_id job, t) :: l). split; [by rewrite <- app_assoc|].
    intros e [->|Hin]%elem_of_cons; [|by apply He]. split; [done|]. exists job. split_and!; [by left|done|].
    unfold should_fire in Ef. by apply andb_true_iff in Ef as [? _].
  - exists []. rewrite app_nil_r. split; [done|]. by intros ? ?%not_elem_of_nil.
Qed.

(** A tick that does not raise leaves every job in its window completed on that date. *)
Lemma tick_completes jobs t s job : fired_ok (et_date t) s -> (Tick jobs t s).1 = Ok tt -> job ∈ jobs -> in_window job t = true ->
  exists t', (sj_job_id job, t') ∈ sl_completed (Tick jobs t s).2 /\ et_date t' = et_date t.
Proof.
  revert s. induction jobs as [|j jobs IH]; intros s Hs Hok Hin Hw; [by apply not_elem_of_nil in Hin|]. cbn [tick] in *.
  destruct (should_fire j t (sl_last_fired s)) eqn:Ef.
  - unfold py_bind, fire in *. destruct (Handler j _) as [[[]|e] v]; [|done]. cbn [fst snd] in *.
    pose proof (fired_fire _ _ _ v Ef Hs) as Hs1. apply elem_of_cons in Hin as [->|Hin]; [|by apply IH].
    match goal with |- context [Tick jobs t ?s1] => destruct (tick_adds jobs t s1) as (l & -> & _) end.
    exists t. split; [|done]. apply elem_of_app. left. cbn [sl_completed]. apply elem_of_app. right. by left.
  - apply elem_of_cons in Hin as [->|Hin]; [|by apply IH].
    unfold should_fire in Ef. rewrite Hw in Ef. cbn in Ef. bool_prop.
    destruct Hs as [_ Hm _]. destruct (Hm _ _ Ef) as (_ & t' & Ht & He).
    destruct (tick_adds jobs t s) as (l & -> & _). exists t'. split; [|done]. apply elem_of_app. by left.
Qed.

(** A handler that raises ends the tick before the jobs after it, and is not marked: the next poll of the minute runs it again. *)
Lemma raising_job_ends_the_tick job jobs t s e v :
  should_fire job t (sl_last_fired s) = true -> Handler job (sl_supervisor s) = (Raise e, v) ->
  Tick (job :: jobs) t s = (Raise e, mkScheduler v (sl_last_fired s) (sl_completed s)).
Proof. intros Hf He. cbn [tick]. rewrite Hf. unfold py_bind, fire. by rewrite He. Qed.

Definition no_later (a b : et_time) : Prop := (et_date a <= et_date b)%Z.

Lemma runs_fired jobs ts s d : fired_ok d s -> (forall t, t ∈ ts -> (d <= et_date t)%Z) -> StronglySorted no_later ts ->
  forall d', (d <= d')%Z -> (forall t, t ∈ ts -> (et_date t <= d')%Z) -> fired_ok d' (runs (Poll jobs) s ts).
Proof.
  intros Hs. induction ts as [|t ts IH] using rev_ind; intros Hd Hsorted d' Hle Hmax; [by eapply fired_later|].
  rewrite runs_snoc. apply (fired_later (et_date t)); [apply Hmax, elem_of_app; right; by left|].
  apply fired_tick. apply StronglySorted_app in Hsorted as (Hlast & Hsorted & _). apply IH; [|done| |].
  - intros t' Ht. apply Hd, elem_of_app. by left.
  - apply Hd, elem_of_app. right. by left.
  - intros t' Ht. apply Hlast; [done|by left].
Qed.

Lemma runs_add jobs ts s : exists l, sl_completed (runs (Poll jobs) s ts) = sl_completed s ++ l /\
  forall e, e ∈ l -> e.2 ∈ ts /\ exists job, job ∈ jobs /\ sj_job_id job = e.1 /\ in_window job e.2 = true.
Proof.
  revert s. induction ts as [|t ts IH]; intros s.
  { exists []. rewrite runs_nil, app_nil_r. split; [done|]. by intros e ?%not_elem_of_nil. }
  rewrite runs_cons. destruct (IH (Poll jobs s t)) as (l & -> & Hl). destruct (tick_adds jobs t s) as (l' & Hl' & He).
  exists (l' ++ l). unfold poll at 1. rewrite Hl', app_assoc. split; [done|]. intros e [Hin|Hin]%elem_of_app.
  - destruct (He e Hin) as [-> ?]. split; [by left|done].
  - destruct (Hl e Hin). split; [by right|done].
Qed.
End Polls.

(** C19: A job runs once a day, in its window, and is not missed by a tick that goes through. Over any polls of dates that do
    not go back, no job completes twice on one date; what completed is a job of the table, at a polled moment of its weekday,
    hour and minute; and a tick that did not raise leaves every job whose window it was in completed on that date. *)
Theorem jobs_fire_once_a_day {W J} `{JobTable J} (Env : @surroundings W) json_loads now fromisoformat int_of str_of DEFAULTS
    jobs ts (s0 : @scheduler W J)
    (Hnew : sl_last_fired s0 = ∅ /\ sl_completed s0 = []) (Hsorted : StronglySorted no_later ts) :
  let Tick := tick Env json_loads now fromisoformat int_of str_of DEFAULTS in
  let state := runs (poll Env json_loads now fromisoformat int_of str_of DEFAULTS jobs) s0 in
  NoDup (map (fun e => (e.1, et_date e.2)) (sl_completed (state ts))) /\
  (forall e, e ∈ sl_completed (state ts) ->
     e.2 ∈ ts /\ exists job, job ∈ jobs /\ sj_job_id job = e.1 /\ in_window job e.2 = true) /\
  (forall pre t post job, ts = pre ++ t :: post -> (Tick jobs t (state pre)).1 = Ok tt -> job ∈ jobs ->
     in_window job t = true -> exists t', (sj_job_id job, t') ∈ sl_completed (state ts) /\ et_date t' = et_date t).
Proof.
  cbv zeta. destruct Hnew as [Hmark Hdone].
  assert (forall d, fired_ok d s0) as Hs0.
  { intros d. split; rewrite ?Hmark, ?Hdone; [by intros j t ?%not_elem_of_nil|done|constructor]. }
  assert (forall l : list et_time, exists d, forall t, t ∈ l -> (d <= et_date t)%Z) as Hmin.
  { induction l as [|t l [d Hd]]; [exists 0%Z; by intros t ?%not_elem_of_nil|]. exists (Z.min d (et_date t)).
    intros t' [->|Ht]%elem_of_cons; [lia|]. specialize (Hd t' Ht). lia. }
  assert (forall l : list et_time, exists d, forall t, t ∈ l -> (et_date t <= d)%Z) as Hmax.
  { induction l as [|t l [d Hd]]; [exists 0%Z; by intros t ?%not_elem_of_nil|]. exists (Z.max d (et_date t)).
    intros t' [->|Ht]%elem_of_cons; [lia|]. specialize (Hd t' Ht). lia. }
  destruct (Hmin ts) as [d Hd], (Hmax ts) as [d' Hd']. split_and!.
  - apply (fo_once (Z.max d d')). apply (runs_fired _ _ _ _ _ _ _ _ _ _ d); [done..|lia|]. intros t Ht. specialize (Hd' t Ht). lia.
  - destruct (runs_add Env json_loads now fromisoformat int_of str_of DEFAULTS jobs ts s0) as (l & -> & Hl).
    by rewrite Hdone.
  - intros pre t post job -> Hok Hjob Hw.
    apply StronglySorted_app in Hsorted as (Hlast & Hsorted & _).
    destruct (tick_completes Env json_loads now fromisoformat int_of str_of DEFAULTS jobs t _ job
      (runs_fired Env json_loads now fromisoformat int_of str_of DEFAULTS jobs pre s0 d (Hs0 d)
         (fun t' Ht => Hd t' (proj2 (elem_of_app _ _ _) (or_introl Ht))) Hsorted (et_date t)
         (Hd t ltac:(apply elem_of_app; right; by left)) (fun t' Ht => Hlast t' t Ht ltac:(by left))) Hok Hjob Hw) as (t' & Ht & He).
    exists t'. split; [|done]. rewrite runs_app, runs_cons.
    match goal with |- context [runs ?P ?s1 post] => destruct (runs_add Env json_loads now fromisoformat int_of str_of DEFAULTS jobs post s1)
      as (l & -> & _) end. apply elem_of_app. by left.
Qed.

(** A tuner's failed row closes the gate for good. The daemon runs the operational jobs only, so once the weekend tuner's
    row stands failed no history of polls opens the gate, whatever the readiness runbooks find. *)
Theorem failed_tuner_blocks_for_good {W J} `{JobTableLaws J} (Env : @surroundings W) json_loads now fromisoformat int_of str_of
    DEFAULTS ts (s : @scheduler W J) row :
  job_status JOB_WEEKEND_TUNER (sc_jobs (sv_env (sl_supervisor s))) = Some row -> jb_validation_passed row = false ->
  lg_allowed (live_consumption_gate (sv_env (sl_supervisor
    (runs (poll Env json_loads now fromisoformat int_of str_of DEFAULTS OPERATIONAL_JOBS) s ts)))) = false.
Proof.
  intros Hrow Hfail. set (s' := runs _ _ _).
  assert (job_status JOB_WEEKEND_TUNER (sc_jobs (sv_env (sl_supervisor s'))) = Some row) as Hrow'.
  { apply (runs_invariant _ (fun s => job_status JOB_WEEKEND_TUNER (sc_jobs (sv_env (sl_supervisor s))) = Some row)); [done|].
    intros s1 t Hs1. apply (tick_keeps _ _ _ _ _ _ _ (fun v => job_status JOB_WEEKEND_TUNER (sc_jobs (sv_env v)) = Some row)); [|done].
    intros job v Hjob Hv. rewrite <- Hv. unfold OPERATIONAL_JOBS in Hjob. rewrite !elem_of_cons, elem_of_nil in Hjob.
    destruct Hjob as [->|[->|[]]]; [rewrite (handler_runs _ _ _ _ _ _ _ _ PRE_OPEN_HYDRATION) by by left|
      rewrite (handler_runs _ _ _ _ _ _ _ _ POST_CLOSE_RECONCILIATION) by (right; by left)]; by apply runbook_other_rows. }
  destruct (lg_allowed _) eqn:E; [|done]. apply gate_allowed in E as [_ E].
  specialize (E JOB_WEEKEND_TUNER row ltac:(by left) Hrow'). congruence.
Qed.

(** ** Readiness *)

Section Readiness.
Context (fromisoformat : string -> option Z).

Definition newest_promotion (rows : list champion_row) (symbol : string) : option string :=
  sql_max String.ltb (map ch_promoted_at (List.filter (fun r => bool_decide (ch_symbol r = upper symbol)) rows)).

(** The entries of an audit are those of their symbols, and every symbol has one. *)
Lemma staleness_entries now days rows symbols out res :
  staleness_of fromisoformat now days rows symbols out = Ok res ->
  (forall k v, (k, v) ∈ out -> exists m, v = JObj m /\ champion_staleness fromisoformat now days rows k = Ok m) ->
  (forall k v, (k, v) ∈ res -> exists m, v = JObj m /\ champion_staleness fromisoformat now days rows k = Ok m) /\
  (forall s, s ∈ symbols \/ s ∈ out.*1 -> s ∈ res.*1).
Proof.
  revert out. induction symbols as [|s symbols IH]; intros out; cbn [staleness_of].
  { intros [= <-] Hout. split; [done|]. by intros s [?%not_elem_of_nil|Hs]. }
  destruct (champion_staleness _ _ _ _ s) as [m|e] eqn:E; cbn [result_bind]; [|done]. intros Hres Hout.
  destruct (IH _ Hres) as [H1 H2].
  { intros k v [[= -> ->]|Hin]%elem_of_assoc_set; [eauto|by apply Hout]. }
  split; [done|]. intros s' Hs'. apply H2. rewrite elem_of_cons in Hs'. rewrite assoc_set_dom. tauto.
Qed.

Lemma same_value_entries (v0 : json) (symbols : list string) out : (forall k v, (k, v) ∈ out -> v = v0) ->
  let res := fold_left (fun out s => assoc_set s v0 out) symbols out in
  (forall k v, (k, v) ∈ res -> v = v0) /\ (forall s, s ∈ symbols \/ s ∈ out.*1 -> s ∈ res.*1).
Proof.
  revert out. induction symbols as [|s symbols IH]; intros out Hout; cbn; [split; [done|by intros s [?%not_elem_of_nil|?]]|].
  destruct (IH (assoc_set s v0 out)) as [H1 H2]; [by intros k v [[= -> ->]|?%Hout]%elem_of_assoc_set|].
  split; [exact H1|]. intros s' Hs'. apply H2. rewrite elem_of_cons in Hs'. rewrite assoc_set_dom. tauto.
Qed.

(** A symbol that a passing validation has in its audit was seeded, or its champion is not old. *)
Definition up_to_date (now : Z) (rows : list champion_row) (symbol : string) : Prop :=
  exists text t, newest_promotion rows symbol = Some text /\ fromisoformat text = Some t /\
    ((now - t) / DAY <= CHAMPION_STALENESS_MAX_DAYS)%Z.

Lemma entry_passes now rows fresh symbol m :
  champion_staleness fromisoformat now CHAMPION_STALENESS_MAX_DAYS rows symbol = Ok m ->
  fails_readiness fresh symbol m = false -> upper symbol ∈ fresh \/ up_to_date now rows symbol.
Proof.
  unfold champion_staleness. fold (newest_promotion rows symbol). unfold fails_readiness.
  destruct (newest_promotion rows symbol) as [text|] eqn:En.
  - destruct (fromisoformat text) as [t|] eqn:Et; [|done]. intros [= <-]. cbn [assoc].
    rewrite decide_True by done. destruct (CHAMPION_STALENESS_MAX_DAYS <? _)%Z eqn:Ea; cbn [json_truthy andb].
    + intros Hf. destruct (decide (upper symbol ∈ fresh)); [by left|]. rewrite bool_decide_false in Hf by done. by vm_compute in Hf.
    + intros _. right. exists text, t. split_and!; [done..|]. lia.
  - intros [= <-] Hf. destruct (decide (upper symbol ∈ fresh)); [by left|]. rewrite bool_decide_false in Hf by done.
    by vm_compute in Hf.
Qed.

Lemma failed_entry fresh symbol e :
  fails_readiness fresh symbol [("stale", JBool true); ("reason", JStr "vault_query_failed"); ("error", JStr e)] = false ->
  upper symbol ∈ fresh.
Proof.
  unfold fails_readiness. intros Hf. destruct (decide (upper symbol ∈ fresh)); [done|].
  rewrite bool_decide_false in Hf by done. by vm_compute in Hf.
Qed.

(** An audit none of whose entries fails readiness. *)
Lemma audit_passes now rows fresh symbols s :
  (forall k m, (k, JObj m) ∈ audit_champion_staleness fromisoformat now CHAMPION_STALENESS_MAX_DAYS rows symbols ->
     fails_readiness fresh k m = false) ->
  s ∈ symbols -> upper s ∈ fresh \/ exists rs, rows = Ok rs /\ up_to_date now rs s.
Proof.
  intros Hall Hs.
  assert (forall (l : list (string * json)), s ∈ l.*1 -> exists v, (s, v) ∈ l) as Hkey.
  { intros l Hl. apply list_elem_of_In, in_map_iff in Hl as ([k v] & <- & Hin%list_elem_of_In). by exists v. }
  assert (forall e, (forall k m, (k, JObj m) ∈ fold_left (fun out s => assoc_set s (JObj [("stale", JBool true);
      ("reason", JStr "vault_query_failed"); ("error", JStr e)]) out) symbols [] -> fails_readiness fresh k m = false) ->
    upper s ∈ fresh) as Hfailed.
  { intros e He. destruct (same_value_entries (JObj [("stale", JBool true); ("reason", JStr "vault_query_failed"); ("error", JStr e)])
      symbols [] ltac:(by intros ? ? ?%not_elem_of_nil)) as [H1 H2].
    destruct (Hkey _ (H2 s (or_introl Hs))) as [v Hin]. pose proof (H1 _ _ Hin) as ->. exact (failed_entry _ _ _ (He _ _ Hin)). }
  unfold audit_champion_staleness in Hall. destruct symbols as [|s0 l]; [by apply not_elem_of_nil in Hs|].
  revert Hall Hs Hfailed. generalize (s0 :: l). clear s0 l. intros symbols Hall Hs Hfailed.
  destruct rows as [rs|e]; cbn [result_bind] in Hall; [|left; by apply (Hfailed e)].
  destruct (staleness_of _ _ _ _ _ _) as [res|e] eqn:Est; [|left; by apply (Hfailed e)].
  destruct (staleness_entries _ _ _ _ _ _ Est) as [H1 H2]; [by intros ? ? ?%not_elem_of_nil|].
  destruct (Hkey _ (H2 s (or_introl Hs))) as [v Hin]. destruct (H1 _ _ Hin) as (m & -> & Hm).
  destruct (entry_passes _ _ _ _ _ Hm (Hall _ _ Hin)) as [?|?]; [by left|right; eauto].
Qed.

Lemma metas_elem l ms : metas l = Ok ms -> forall k m, (k, JObj m) ∈ l -> (k, m) ∈ ms.
Proof.
  revert ms. induction l as [|[k v] l IH]; intros ms; cbn [metas]; [by intros _ k m ?%not_elem_of_nil|].
  destruct v as [| | | | | |f]; cbn [dict_of result_bind]; try done.
  destruct (metas l) as [rest|]; cbn [result_bind]; [|done]. intros [= <-] k' m [[= -> ->]|Hin]%elem_of_cons; [by left|].
  right. by apply IH.
Qed.

(** What a passing validation read. *)
Lemma pre_open_passes str_of p reason : validate_pre_open_payload str_of p = Ok (true, reason) ->
  json_truthy (assoc "config_ready" p) = true /\
  exists seed fresh staleness, dict_or_empty (assoc "auto_seed" p) = Ok seed /\ seeded_symbols str_of seed = Ok fresh /\
    dict_or_empty (assoc "staleness" p) = Ok staleness /\
    forall k m, (k, JObj m) ∈ staleness -> fails_readiness fresh k m = false.
Proof.
  unfold validate_pre_open_payload. destruct (json_truthy (assoc "config_ready" p)); cbn [negb]; [|done].
  destruct (dict_or_empty (assoc "auto_seed" p)) as [seed|]; cbn [result_bind]; [|done].
  destruct (seeded_symbols str_of seed) as [fresh|] eqn:Ef; cbn [result_bind]; [|done].
  destruct (dict_or_empty (assoc "staleness" p)) as [staleness|]; cbn [result_bind]; [|done].
  destruct (metas staleness) as [ms|] eqn:Em; cbn [result_bind]; [|done].
  destruct (List.filter _ ms) as [|bad l] eqn:Ebad; [|done]. intros _. split; [done|].
  exists seed, fresh, staleness. split_and!; [done..|]. intros k m Hin. pose proof (metas_elem _ _ Em _ _ Hin) as Hm.
  destruct (fails_readiness fresh k m) eqn:E; [|done]. exfalso.
  assert (In (k, m) (List.filter (fun e => fails_readiness fresh e.1 e.2) ms)) as Hi
    by (apply filter_In; split; [by apply list_elem_of_In|done]).
  rewrite Ebad in Hi. destruct Hi.
Qed.
End Readiness.

(** The legs a run works on: those of the configuration it loads, none when it does not load. *)
Lemma active_symbols_are {W} (Env : @surroundings W) w symbols w' :
  active_mean_reversion_symbols Env w = (Ok symbols, w') ->
  symbols = [] \/
  exists app, me_load_config Env w = (Ok app, w') /\
    symbols = map (fun s => upper (sc_symbol s))
                (List.filter (fun s => sc_enabled s && str_contains "mean_reversion" (sc_module s)) (ac_strategies app)).
Proof.
  unfold active_mean_reversion_symbols, attempt, py_bind. destruct (me_load_config Env w) as [[app|e] v]; cbn.
  - intros [= <- <-]. right. by exists app.
  - intros [= <- <-]. by left.
Qed.

(** C18: Ready means ready. When a pre-open run's payload passes its validation, the configuration loaded in that run and has
    at least one enabled mean-reversion leg. For every such leg there was a strategy file when the run looked; and either the
    auto-seed of this run, which was asked for exactly those symbols, seeded it, or the champions' table as this run read it
    has a newest promotion of the symbol at most fourteen whole days old at that moment. A table that could not be read, a
    date that does not parse and a missing champion do not pass. *)
Theorem ready_means_fresh_champions {W} (Env : @surroundings W) now fromisoformat str_of w p w' reason
    (Hrun : run_pre_open_checks Env now fromisoformat w = (Ok p, w'))
    (Hok : validate_pre_open_payload str_of p = Ok (true, reason)) :
  exists latest w1 app w2 w4 inventory w5 w7,
    me_latest Env w = (Ok latest, w1) /\ me_load_config Env w1 = (Ok app, w2) /\
    let legs := List.filter (fun s => sc_enabled s && str_contains "mean_reversion" (sc_module s)) (ac_strategies app) in
    let symbols := map (fun s => upper (sc_symbol s)) legs in
    let '(seed, w3) := me_auto_seed Env symbols w2 in
    w4 = (me_short_client Env w3).2 /\
    inventory_of Env (match (me_short_client Env w3).1 with Ok _ => true | Raise _ => false end) symbols [] w4 = (Ok inventory, w5) /\
    let '(rows, w6) := me_champions Env w5 in
    (w7 = w6 \/ exists fresh, w7 = (me_snapshot_lkg Env fresh w6).2) /\
    legs <> [] /\ assoc "symbols" p = Some (JArr (map JStr symbols)) /\
    forall leg, leg ∈ legs ->
      let s := upper (sc_symbol leg) in
      s ∈ STRATEGY_YAML /\ me_yaml_exists Env s w7 = true /\
      ((exists r, seed = Ok r /\ sd_seeded r = true /\ s ∈ map upper (sd_symbols r)) \/
       (exists table text t, rows = Ok table /\
          sql_max String.ltb (map ch_promoted_at (List.filter (fun r => bool_decide (ch_symbol r = s)) table)) = Some text /\
          fromisoformat text = Some t /\ ((now w5 - t) / DAY <= 14)%Z)).
Proof.
  unfold run_pre_open_checks in Hrun. apply bind_returns in Hrun as (latest & w1 & Hlatest & Hrun).
  apply bind_returns in Hrun as (symbols & w2 & Hsym & Hrun). apply bind_returns in Hrun as (seed & w3 & Hseed & Hrun).
  apply bind_returns in Hrun as (client & w4 & Hclient & Hrun). apply bind_returns in Hrun as (inventory & w5 & Hinv & Hrun).
  apply bind_returns in Hrun as (staleness & w6 & Haudit & Hrun). cbv zeta in Hrun.
  apply bind_returns in Hrun as ([] & w7 & Hlkg & Hrun). apply bind_returns in Hrun as (w8 & ? & Hw & Hrun).
  unfold py_get in Hw. injection Hw as <- <-. apply bind_returns in Hrun as ([] & w9 & _ & Hrun).
  apply bind_returns in Hrun as (al & w10 & _ & Hrun). unfold py_ret in Hrun. injection Hrun as <- _.
  apply pre_open_passes in Hok as (Hready & dseed & fresh & dst & Hds & Hfresh & Hst & Hall).
  change (assoc "config_ready" _) with (Some (JBool (verify_strategy_config_readiness Env symbols w7))) in Hready.
  change (assoc "auto_seed" _) with (Some seed) in Hds. change (assoc "staleness" _) with (Some (JObj staleness)) in Hst.
  assert (forall b, json_truthy (Some (JBool b)) = b) as Ht by by intros []. rewrite Ht in Hready.
  assert (dst = staleness) as ->.
  { unfold dict_or_empty in Hst. cbn in Hst. destruct staleness; cbn in Hst; by simplify_eq. }
  destruct (active_symbols_are Env w1 symbols w2 Hsym) as [->|(app & Happ & ->)]; [done|].
  set (legs := List.filter _ _) in *. assert (legs <> []) as Hne by (intros E; by rewrite E in Hready).
  set (symbols := map (fun s => upper (sc_symbol s)) legs) in *.
  assert (map upper symbols = symbols) as Hup.
  { unfold symbols. rewrite map_map. apply map_ext. intros. apply upper_idem. }
  assert (symbols <> []) as Hsne by (unfold symbols; by destruct legs).
  rewrite Hup in Hseed. exists latest, w1, app, w2, w4, inventory, w5, w7. do 2 (split; [done|]). cbv zeta. fold legs symbols.
  unfold attempt, py_bind in Hseed. destruct (me_auto_seed Env symbols w2) as [seedr v3] eqn:Er.
  assert (w3 = v3) as -> by by destruct seedr; injection Hseed.
  unfold attempt, py_bind in Hclient. split; [by destruct (me_short_client Env v3) as [[[]|?] ?]; cbn in *; simplify_eq|].
  split.
  { rewrite <- Hinv. by destruct (me_short_client Env v3) as [[[]|?] ?]; cbn in *; simplify_eq. }
  assert (audit Env now fromisoformat symbols w5 =
    let '(rows, w6) := me_champions Env w5 in
    (Ok (audit_champion_staleness fromisoformat (now w5) CHAMPION_STALENESS_MAX_DAYS rows symbols), w6)) as Haud
    by (unfold audit; by destruct symbols).
  rewrite Haud in Haudit. destruct (me_champions Env w5) as [rows v6] eqn:Ec. injection Haudit as <- ->. split.
  { destruct (List.filter _ symbols) as [|f fs]; [unfold py_ret in Hlkg; injection Hlkg as ->; by left|right].
    exists (f :: fs). unfold attempt in Hlkg. by destruct (me_snapshot_lkg Env (f :: fs) w6) as [[?|?] ?]; simplify_eq. }
  split; [done|]. split; [reflexivity|]. intros leg Hleg.
  assert (upper (sc_symbol leg) ∈ symbols) as Hs
    by exact (list_elem_of_fmap_2 (fun s => upper (sc_symbol s)) legs leg Hleg).
  assert (verify_strategy_config_readiness Env symbols w7 =
    forallb (fun s => bool_decide (upper s ∈ STRATEGY_YAML) && me_yaml_exists Env (upper s) w7) symbols) as Hv
    by (unfold verify_strategy_config_readiness; by destruct symbols).
  rewrite Hv, forallb_forall in Hready. specialize (Hready (upper (sc_symbol leg)) ltac:(by apply list_elem_of_In)).
  rewrite upper_idem in Hready. bool_prop. split; [done|]. split; [done|].
  destruct (audit_passes _ _ _ _ _ _ Hall Hs) as [Hf|(rs & -> & (text & t & Hn & Hi & Ha))]; rewrite ?upper_idem in *; [left|right].
  - unfold dict_or_empty in Hds. destruct seedr as [r|e]; cbn in Hseed; injection Hseed as <-; cbn in Hds; injection Hds as <-;
      cbn in Hfresh; injection Hfresh as <-; [|by apply not_elem_of_nil in Hf].
    exists r. split; [done|]. destruct (sd_seeded r); [|by apply not_elem_of_nil in Hf]. split; [done|]. by rewrite map_map in Hf.
  - exists rs, text, t. unfold newest_promotion in Hn. rewrite upper_idem in Hn. by split_and!.
Qed.

(** A leg without one of the two strategy files is never ready, and neither is a configuration without a leg. *)
Lemma third_leg_is_never_ready {W} (Env : @surroundings W) symbols s w :
  s ∈ symbols -> upper s ∉ STRATEGY_YAML -> verify_strategy_config_readiness Env symbols w = false.
Proof.
  intros Hs Hn. unfold verify_strategy_config_readiness. destruct symbols as [|s0 l]; [done|]. apply not_true_is_false.
  rewrite forallb_forall. intros Hall. specialize (Hall s ltac:(by apply list_elem_of_In)). by bool_prop.
Qed.
Lemma no_leg_is_never_ready {W} (Env : @surroundings W) w : verify_strategy_config_readiness Env [] w = false.
Proof. done. Qed.

(** A post-close run passes its validation whatever its drill said: the snapshot's path is in the payload in any case. *)
Lemma failed_drill_passes_post_close {W} (Env : @surroundings W) w p w' :
  run_post_close_tasks Env w = (Ok p, w') ->
  (forall v d v', me_vault_drill Env v = (Ok d, v') -> truthy d.1 = true) -> validate_post_close_payload p = (true, "").
Proof.
  unfold run_post_close_tasks. intros Hrun Hpath.
  apply bind_returns in Hrun as (? & ? & _ & Hrun). apply bind_returns in Hrun as (? & ? & _ & Hrun).
  apply bind_returns in Hrun as (vault & ? & Hv & Hrun). apply Hpath in Hv.
  apply bind_returns in Hrun as (? & ? & _ & Hrun). apply bind_returns in Hrun as (? & ? & _ & Hrun).
  apply bind_returns in Hrun as (? & ? & _ & Hrun). apply bind_returns in Hrun as (? & ? & _ & Hrun).
  injection Hrun as <- _. unfold validate_post_close_payload.
  change (assoc "vault_backup_drill" _) with (Some vault.2). change (assoc "vault_backup" _) with (Some (JStr vault.1)).
  destruct vault as [[|c path] drill]; [done|]. cbn. destruct drill; try done. by destruct (json_truthy _).
Qed.

(** A block for any reason is lifted by the next runbook that succeeds, whichever it is. *)
Lemma success_lifts_any_block {W J} `{JobTableLaws J} (Env : @surroundings W) json_loads now fromisoformat int_of str_of DEFAULTS
    step (s : supervisor (@sched W J)) r s' :
  execute_runbook (maintenance_plane Env json_loads now fromisoformat int_of str_of DEFAULTS) step s = (Ok r, s') ->
  rr_success r = true -> sc_blocked (sv_env s') = false.
Proof. intros Hr Hok. apply runbook_outcome in Hr as [Hb _]. by rewrite Hb, Hok. Qed.

(** A daemon that starts has a last known good champion for every readiness leg. *)
Lemma asserted_champions_are_there {W} (Env : @surroundings W) now fromisoformat DEFAULTS w w' :
  assert_readiness_lkg_present Env now fromisoformat DEFAULTS w = (Ok tt, w') ->
  exists symbols w1 have w2, readiness_symbols Env DEFAULTS w = (Ok symbols, w1) /\ me_lkg_symbols Env w2 = (Ok have, w') /\
    forall s, s ∈ symbols -> upper s ∈ have.
Proof.
  unfold assert_readiness_lkg_present. intros (symbols & w1 & H1 & Hr)%bind_returns. cbv zeta in Hr.
  apply bind_returns in Hr as ([] & w2 & _ & Hr). apply bind_returns in Hr as (have & w3 & H3 & Hr).
  exists symbols, w1, have, w2. destruct (List.filter _ _) as [|x l] eqn:E; [|done]. injection Hr as <-. split_and!; [done..|].
  intros s Hs. destruct (decide (upper s ∈ have)) as [|Hn]; [done|]. exfalso.
  assert (In (upper s) (List.filter (fun s => negb (bool_decide (s ∈ have))) (map upper symbols))) as Hi.
  { apply filter_In. split; [by apply in_map, list_elem_of_In|]. by rewrite bool_decide_false. }
  rewrite E in Hi. destruct Hi.
Qed.

(** ** The restore *)

Section Restore.
Context {W : Type} (Env : @surroundings W) (DEFAULTS : list string).
(** The champions as the store shows them: whether one is a baseline, and its stamp. *)
Context (champions : W -> gmap string (bool * string)).

Record restore_laws : Prop := {
  rl_config w : champions (me_load_config Env w).2 = champions w;
  rl_safe s w : champions (me_baseline_safe Env s w).2 = champions w;
  rl_safe_true s w w' c : me_baseline_safe Env s w = (Ok true, w') -> champions w !! s = Some c -> c.1 = true;
  rl_restore s k w : k <> s -> champions (me_restore_champion Env s w).2 !! k = champions w !! k;
  rl_latest s w : champions (me_latest_backup Env s w).2 = champions w;
  rl_prior s w : champions (me_prior_backup Env s w).2 = champions w;
  rl_write s t w : champions (me_write_yaml Env s t w).2 = champions w;
  rl_reload w : champions (me_request_reload Env w) = champions w
}.
Context (Hlaws : restore_laws) (symbol stamp : string).

Definition tuned (w : W) : Prop := champions w !! symbol = Some (false, stamp).
Definition keeps_tuned {A} (m : M A) : Prop := forall w, tuned w -> tuned (m w).2.

Lemma tuned_bind {A B} (m : M A) (k : A -> M B) : keeps_tuned m -> (forall a, keeps_tuned (k a)) -> keeps_tuned (py_bind m k).
Proof. intros Hm Hk w Hw. unfold py_bind. specialize (Hm w Hw). destruct (m w) as [[a|e] w']; [by apply Hk|done]. Qed.
Lemma tuned_same {A} (m : M A) : (forall w, champions (m w).2 = champions w) -> keeps_tuned m.
Proof. intros Hm w. unfold tuned. by rewrite Hm. Qed.

Lemma tuned_champions symbols : keeps_tuned (restore_champions Env symbols).
Proof.
  induction symbols as [|k symbols IH]; [by apply tuned_same|]. intros w Hw. cbn [restore_champions]. unfold py_bind at 1.
  pose proof (rl_safe Hlaws k w) as Hs. destruct (me_baseline_safe Env k w) as [[safe|e] w1] eqn:E; cbn [snd] in Hs;
    assert (tuned w1) as Hw1 by (by unfold tuned; rewrite Hs); [|done].
  apply tuned_bind; [|intros b; apply tuned_bind; [done|intros; by apply tuned_same]|done].
  destruct safe; [|by apply tuned_same]. intros w2 Hw2. destruct (decide (symbol = k)) as [Ek|Hne].
  - rewrite <- Ek in E. by pose proof (rl_safe_true Hlaws _ _ _ _ E Hw).
  - unfold tuned. by rewrite (rl_restore Hlaws).
Qed.

Lemma tuned_yaml k : keeps_tuned (restore_yaml Env k).
Proof.
  intros w Hw. unfold restore_yaml. destruct (negb _); [done|]. revert w Hw.
  apply tuned_bind; [apply tuned_same, Hlaws|intros [t|]]; (apply tuned_bind; [|intros [u|]]);
    first [by apply tuned_same | apply tuned_same, Hlaws | apply tuned_bind; [apply tuned_same, Hlaws|intros _; by apply tuned_same]].
Qed.

Lemma tuned_restore : keeps_tuned (restore_last_known_good_configs Env DEFAULTS).
Proof.
  unfold restore_last_known_good_configs, readiness_symbols, active_mean_reversion_symbols.
  apply tuned_bind; [|intros symbols].
  - apply tuned_bind; [|intros l; by apply tuned_same]. apply tuned_same. intros w. unfold attempt, py_bind.
    pose proof (rl_config Hlaws w) as Hc. by destruct (me_load_config Env w) as [[a|e] w'].
  - apply tuned_bind; [apply tuned_champions|intros a]. apply tuned_bind.
    + induction STRATEGY_YAML as [|k l IH]; [by apply tuned_same|]. cbn [restore_yamls].
      apply tuned_bind; [apply tuned_yaml|intros ?]. apply tuned_bind; [done|intros; by apply tuned_same].
    + intros b. apply tuned_bind; [|intros; by apply tuned_same]. destruct (a || b); apply tuned_same; [apply Hlaws|done].
Qed.
End Restore.

(** A restore launders no tuned champion. Whatever symbols the configuration names and whatever fails on the way, a
    champion that is not a baseline keeps its stamp through the restore of the last known good state. *)
Theorem restore_never_launders {W} (Env : @surroundings W) DEFAULTS champions (Hlaws : restore_laws Env champions) symbol stamp w :
  champions w !! symbol = Some (false, stamp) ->
  champions (restore_last_known_good_configs Env DEFAULTS w).2 !! symbol = Some (false, stamp).
Proof. exact (tuned_restore Env DEFAULTS champions Hlaws symbol stamp w). Qed.

(** ** A desk, for the witnesses

    One leg, whose champion is a table's; every other call answers. *)

#[local] Instance plain_job_table : JobTable (gmap string job_row) := {
  job_status j t := t !! j;
  put_status j _ passed t := (Ok tt, <[j := mkJobRow passed ""]> t)
}.
#[local] Instance plain_job_table_laws : JobTableLaws (gmap string job_row).
Proof.
  split.
  - intros j st passed t t' [= <-]. cbn. by rewrite lookup_insert_eq.
  - done.
  - intros j k st passed t Hk. cbn. by rewrite lookup_insert_ne.
Qed.

Definition champion_table : Type := gmap string (bool * string).
Definition desk_leg : StrategyConfig :=
  mkStrategyConfig "mean_reversion_qqq" "mean_reversion_qqq" "qqq" "5Min" 60 ∅ true "paper" "stock" false.
Definition always {A} (a : A) : champion_table -> result string A * champion_table := fun w => (Ok a, w).
Definition desk_of (recon_scheduled recon_ok aligned : bool) : @surroundings champion_table := {|
  me_research_halted := always false;
  me_load_config := always (mkAppConfig "paper" desk_leg [desk_leg] "" "");
  me_latest := always (mkAppConfig "paper" desk_leg [desk_leg] "" "");
  me_request_reload := fun w => w;
  me_alignment := always (mkAlignment aligned [] "");
  me_recon_scheduled := always recon_scheduled;
  me_run_recon := always recon_ok;
  me_auto_seed := fun _ => always (mkSeed false []);
  me_champions := fun w => (Ok (map (fun e => mkChampion e.1 "bull" (Some fone) (Some e.2.2)) (map_to_list w)), w);
  me_snapshot_lkg := fun _ => always tt;
  me_lkg_symbols := always ["QQQ"];
  me_baseline_safe := fun s w => (Ok (match w !! s with Some c => c.1 | None => true end), w);
  me_restore_champion := fun s w => (Ok true, <[s := (true, "today")]> w);
  me_short_client := always tt;
  me_asset := fun _ => always (true, true);
  me_yaml_exists := fun _ _ => true;
  me_latest_backup := fun _ => always (Some "yaml");
  me_prior_backup := fun _ => always None;
  me_write_yaml := fun _ _ => always tt;
  me_allocation_rows := always [];
  me_health_rows := always [];
  me_shadow_eval := always JNull;
  me_policy_progression := always JNull;
  me_champion_groups := always [];
  me_evaluate_portfolio := fun _ => always [];
  me_mini_sweep := fun _ => always (mkCompleted 0 "" "");
  me_mark_failed := fun _ _ _ => always tt;
  me_vault_drill := always ("snapshot.db", JObj [("verification_passed", JBool false)]);
  me_trading_drill := always ("snapshot.db", JNull);
  me_tuner := always (mkCompleted 0 "" "");
  me_tuner_report := always None;
  me_policy_brain := always (mkCompleted 0 "" "");
  me_vault_backup := always None;
  me_alert := fun _ _ => always tt
|}.
Definition desk : @surroundings champion_table := desk_of false true true.

Definition no_json (t : string) : option json := None.
Definition desk_now (w : champion_table) : Z := (20 * DAY)%Z.
Definition desk_dates (t : string) : option Z :=
  if bool_decide (t = "day 10") then Some (10 * DAY)%Z else if bool_decide (t = "day 2") then Some (2 * DAY)%Z else None.
Definition no_int (j : json) : result string Z := Raise "ValueError".
Definition json_text (j : json) : string := "".
Definition desk_plane := maintenance_plane (J := gmap string job_row) desk no_json desk_now desk_dates no_int json_text [].
Definition running (champions : champion_table) (jobs : gmap string job_row) : supervisor (@sched champion_table (gmap string job_row)) :=
  mkSupervisor RUNNING None IDLE None (mkSched champions jobs false "") [] [] [].

Definition at_half_past_eight (day : Z) : et_time := mkEt day 8 30.

Lemma jobs_fire_once_a_day_witness :
  NoDup (map (fun e => (e.1, et_date e.2)) (sl_completed
    (runs (poll desk no_json desk_now desk_dates no_int json_text [] DEFAULT_JOBS)
       (mkScheduler (running ∅ ∅) ∅ []) [at_half_past_eight 1; at_half_past_eight 1; at_half_past_eight 2]))).
Proof.
  refine (proj1 (jobs_fire_once_a_day desk no_json desk_now desk_dates no_int json_text [] DEFAULT_JOBS
    [at_half_past_eight 1; at_half_past_eight 1; at_half_past_eight 2] (mkScheduler (running ∅ ∅) ∅ []) _ _)).
  - split; reflexivity.
  - repeat constructor; unfold no_later; cbn; lia.
Defined.

(** The champion of day 10 passes on day 20, one of day 2 does not. *)
Definition ready_payload : run_payload :=
  Eval vm_compute in match (run_pre_open_checks desk desk_now desk_dates {[ "QQQ" := (true, "day 10") ]}).1 with
                     | Ok p => p | Raise _ => [] end.

Lemma ready_means_fresh_champions_witness :
  exists app w2, me_load_config desk {[ "QQQ" := (true, "day 10") ]} = (Ok app, w2) /\ ready_payload <> [].
Proof.
  assert (run_pre_open_checks desk desk_now desk_dates {[ "QQQ" := (true, "day 10") ]} =
    (Ok ready_payload, (run_pre_open_checks desk desk_now desk_dates {[ "QQQ" := (true, "day 10") ]}).2)) as Hrun
    by (vm_compute; reflexivity).
  assert (validate_pre_open_payload json_text ready_payload = Ok (true, "")) as Hok by (vm_compute; reflexivity).
  refine (match ready_means_fresh_champions desk desk_now desk_dates json_text _ _ _ _ Hrun Hok with
    ex_intro _ latest (ex_intro _ w1 (ex_intro _ app (ex_intro _ w2 (ex_intro _ _ (ex_intro _ _ (ex_intro _ _ (ex_intro _ _
      (conj H1 (conj H2 _))))))))) => _ end).
  exists app, w2. split; [|discriminate]. rewrite <- H2. f_equal. by injection H1.
Defined.

Lemma old_champion_is_not_ready :
  let '(r, s) := execute_runbook desk_plane PRE_OPEN_HYDRATION (running {[ "QQQ" := (false, "day 2") ]} ∅) in
  match r with Ok r => rr_error r = Some "stale champions: QQQ" | Raise _ => False end /\
  live_consumption_gate (sv_env s) = mkGateVerdict false "stale champions: QQQ".
Proof. vm_compute. split; reflexivity. Qed.

(** Neither a deferred reconciliation that failed nor a configuration out of step keeps a pre-open run from success. *)
Lemma failed_recon_and_misalignment_pass :
  let '(r, s) := execute_runbook (maintenance_plane (J := gmap string job_row) (desk_of true false false) no_json desk_now
                                    desk_dates no_int json_text []) PRE_OPEN_HYDRATION (running {[ "QQQ" := (true, "day 10") ]} ∅) in
  match r with
  | Ok r => rr_success r = true /\
      assoc "deferred_pre_flight_recon" (rr_payload r) = Some (JObj [("scheduled", JBool true); ("success", JBool false)])
  | Raise _ => False
  end /\ lg_allowed (live_consumption_gate (sv_env s)) = true.
Proof. vm_compute. repeat split; reflexivity. Qed.

Definition after_pre_open :=
  execute_runbook desk_plane PRE_OPEN_HYDRATION (running {[ "QQQ" := (true, "day 10") ]} ∅).
Definition pre_open_result : RunbookExecutionResult :=
  Eval vm_compute in match after_pre_open.1 with Ok r => r | Raise _ => mkRunResult WEEKLY_POLICY_SWAP "" IDLE false false [] None [] end.

Lemma gate_follows_the_runbook_witness : lg_allowed (live_consumption_gate (sv_env after_pre_open.2)) = true.
Proof.
  refine (proj2 (proj1 (gate_follows_the_runbook desk no_json desk_now desk_dates no_int json_text [] PRE_OPEN_HYDRATION
    (running {[ "QQQ" := (true, "day 10") ]} ∅) pre_open_result after_pre_open.2 _)) (conj _ _)).
  - vm_compute. reflexivity.
  - reflexivity.
  - intros j row Hj Hne Hrow. exfalso. cbn in Hrow. by rewrite lookup_empty in Hrow.
Defined.

Lemma failed_tuner_blocks_for_good_witness :
  lg_allowed (live_consumption_gate (sv_env (sl_supervisor
    (runs (poll desk no_json desk_now desk_dates no_int json_text [] OPERATIONAL_JOBS)
       (mkScheduler (running {[ "QQQ" := (true, "day 10") ]} {[ JOB_WEEKEND_TUNER := mkJobRow false "error" ]}) ∅ [])
       [at_half_past_eight 20])))) = false.
Proof.
  apply (failed_tuner_blocks_for_good desk no_json desk_now desk_dates no_int json_text [] [at_half_past_eight 20] _
    (mkJobRow false "error")); vm_compute; reflexivity.
Defined.

Lemma desk_restores : restore_laws desk (fun w => w).
Proof.
  split; try done.
  - intros s w w' c Hb Hc. assert (match w !! s with Some c => c.1 | None => true end = true) as Hs
      by exact (f_equal (fun r : result string bool * champion_table => match r.1 with Ok b => b | Raise _ => false end) Hb).
    change (w !! s = Some c) in Hc. by rewrite Hc in Hs.
  - intros s k w Hk. change (<[s := (true, "today")]> w !! k = w !! k). by apply lookup_insert_ne.
Qed.

Lemma restore_never_launders_witness :
  (restore_last_known_good_configs desk [] {[ "QQQ" := (false, "day 2") ]}).2 !! "QQQ" = Some (false, "day 2").
Proof.
  apply (restore_never_launders desk [] (fun w => w) desk_restores "QQQ" "day 2" {[ "QQQ" := (false, "day 2") ]}).
  vm_compute. reflexivity.
Defined.
