(* ===== verification/Indicators.v ===== *)
(** * Indicators, signal scans and the live mean-reversion rule

    [src/math/indicators.py], [src/strategies/mean_reversion_logic.py] and
    [src/strategies/regime_filter.py]: the numeric kernels over arrays of binary64, the
    batch scans that research runs, the rule the live path runs on a rolling window, and
    the uptrend filter of long entries. An array is the list of its cells; a loop over
    bars is a fold that emits one action code per bar. Numba's [min], [max] and [abs]
    are Python's; [x ** 0.5] is the C library's [pow], a parameter. *)

From stdpp Require Import base gmap strings list sorting.
From Stdlib Require Import ZArith Lia.
From S2P Require Import Prelude Dict PyFloat Models RollingWindow CostFilter ConfigEngine.

(** ** Action codes *)

Definition HOLD_CODE : Z := 0.
Definition LONG_CODE : Z := 1.
Definition SHORT_CODE : Z := 2.
Definition EXIT_CODE : Z := 3.

(** [mapping] of [_action_code_to_signal] and of [evaluate_mean_reversion]. *)
Definition action_of_code (c : Z) : option SignalAction :=
  if (c =? LONG_CODE)%Z then Some LONG
  else if (c =? SHORT_CODE)%Z then Some SHORT
  else if (c =? EXIT_CODE)%Z then Some EXIT else None.

(** [arr[i]]; the kernels do not check bounds, and no index of theirs leaves the arrays
    the callers pass, which are all of one length. *)
Definition at_ {A} (d : A) (l : list A) (i : nat) : A := nth i l d.

Definition py_max3 (a b c : float) : float := py_max (py_max a b) c.
Definition py_min3 (a b c : float) : float := py_min (py_min a b) c.

Definition VOLUME_CONFIRMATION_RATIO : float := Eval vm_compute in lit 15 1.

Section Kernels.
Context (pow_half : float -> float).
Local Open Scope float_scope.

(** [arr[n - period :]], the trailing cells. *)
Definition tail_of {A} (period : Z) (arr : list A) : list A := drop (length arr - Z.to_nat period) arr.

Definition too_short {A} (arr : list A) (period : Z) : bool :=
  ((Z.of_nat (length arr) <? period) || (period <=? 0))%Z.

Definition rolling_sma (arr : list float) (period : Z) : float :=
  if too_short arr period then fnan else
  fold_left fadd (tail_of period arr) fzero / of_Z period.

Definition rolling_std (arr : list float) (period : Z) : float :=
  if too_short arr period then fnan else
  let mean := rolling_sma arr period in
  pow_half (fold_left (fun var x => var + (x - mean) * (x - mean)) (tail_of period arr) fzero / of_Z period).

Definition true_range (highs lows closes : list float) (i : nat) : float :=
  let h := at_ fnan highs i in
  let l := at_ fnan lows i in
  let hl := h - l in
  match i with
  | O => py_max3 hl hl hl
  | S j => py_max3 hl (fabs (h - at_ fnan closes j)) (fabs (l - at_ fnan closes j))
  end.

Definition compute_atr (highs lows closes : list float) (period : Z) : float :=
  let n := length closes in
  if ((Z.of_nat n <? period + 1) || (period <=? 0))%Z then fzero else
  fold_left (fun tr_sum i => tr_sum + true_range highs lows closes i)
    (seq (n - Z.to_nat period) (Z.to_nat period)) fzero / of_Z period.

Definition mean_reversion_action (close sma std threshold exit_sigma : float) : Z :=
  if (std <=? fzero) || is_nan std || is_nan sma then HOLD_CODE else
  let z := (close - sma) / std in
  if z <? fneg threshold then LONG_CODE
  else if z >? threshold then SHORT_CODE
  else if fabs z <? exit_sigma then EXIT_CODE else HOLD_CODE.

Definition typical_price (hlc : float * float * float) : float :=
  (hlc.1.1 + hlc.1.2 + hlc.2) / of_Z 3.

Definition vwap_bands_last (highs lows closes volumes : list float) (period : Z) : float * float :=
  if too_short closes period then (fnan, fnan) else
  let window := tail_of period (zip (zip (zip highs lows) closes) volumes) in
  let '(vol_sum, pv_sum) :=
    fold_left (fun acc b => (acc.1 + b.2, acc.2 + typical_price b.1 * b.2)) window (fzero, fzero) in
  if vol_sum <=? fzero then (fnan, fnan) else
  let vwap := pv_sum / vol_sum in
  let var := fold_left (fun var b =>
      let diff := typical_price b.1 - vwap in var + b.2 * diff * diff) window fzero in
  (vwap, pow_half (var / vol_sum)).

Definition vwap_mr_action (close vwap vwstd deviation_sigma exit_sigma : float) (position_side enable_long : Z)
    (long_deviation_sigma : float) : Z :=
  if is_nan vwap || is_nan vwstd || (vwstd <=? fzero) then HOLD_CODE else
  let z := (close - vwap) / vwstd in
  if (position_side =? 0)%Z then
    if z >=? deviation_sigma then SHORT_CODE
    else if negb (enable_long =? 0)%Z && (z <=? fneg long_deviation_sigma) then LONG_CODE else HOLD_CODE
  else if fabs z <=? exit_sigma then EXIT_CODE else HOLD_CODE.

Definition mean_reversion_action_decoupled (z_long z_short long_threshold short_threshold exit_sigma : float)
    (position_side : Z) : Z :=
  if is_nan z_long || is_nan z_short then HOLD_CODE else
  if (position_side =? 0)%Z then
    if z_long <? fneg long_threshold then LONG_CODE
    else if z_short >? short_threshold then SHORT_CODE else HOLD_CODE
  else if (0 <? position_side)%Z then
    if fabs z_long <? exit_sigma then EXIT_CODE else HOLD_CODE
  else if fabs z_short <? exit_sigma then EXIT_CODE else HOLD_CODE.

Definition mean_reversion_action_asymmetric (close sma std long_threshold short_threshold exit_sigma : float) : Z :=
  if (std <=? fzero) || is_nan std || is_nan sma then HOLD_CODE else
  let z := (close - sma) / std in
  if z <? fneg long_threshold then LONG_CODE
  else if z >? short_threshold then SHORT_CODE
  else if fabs z <? exit_sigma then EXIT_CODE else HOLD_CODE.

(** ** Batch scans *)

(** The book a scan keeps: the side held and the bars it has been held. *)
Record scan_book := mkScanBook { position_side : Z; scan_bars : Z }.
Definition flat_book : scan_book := mkScanBook 0 0.

(** The time-stop, checked before the action of the bar: the advanced clock, and whether
    it forces an exit. *)
Definition time_stop (max_bars_in_trade : Z) (k : scan_book) : bool * scan_book :=
  if ((0 <? max_bars_in_trade) && negb (position_side k =? 0))%Z then
    let bars := (scan_bars k + 1)%Z in
    if (max_bars_in_trade <=? bars)%Z then (true, flat_book) else (false, mkScanBook (position_side k) bars)
  else (false, k).

(** The side and the clock after an action. *)
Definition book_action (code : Z) (k : scan_book) : scan_book :=
  if (code =? LONG_CODE)%Z then mkScanBook 1 (if (position_side k =? 1)%Z then scan_bars k else 0)
  else if (code =? SHORT_CODE)%Z then mkScanBook (-1) (if (position_side k =? -1)%Z then scan_bars k else 0)
  else if (code =? EXIT_CODE)%Z then flat_book else k.

(** The running sums of the sliding window. *)
Definition slide (closes : list float) (sma_period : Z) (sums : float * float) (i : nat) : float * float :=
  let c := at_ fnan closes i in
  let s := (sums.1 + c, sums.2 + c * c) in
  if (sma_period <=? Z.of_nat i)%Z then
    let old := at_ fnan closes (i - Z.to_nat sma_period) in (s.1 - old, s.2 - old * old)
  else s.

(** Mean and deviation from the sums. *)
Definition moments (sma_period : Z) (sums : float * float) : float * float :=
  let sma := sums.1 / of_Z sma_period in
  let var := sums.2 / of_Z sma_period - sma * sma in
  (sma, pow_half (if var <? fzero then fzero else var)).

Definition asymmetric_bar (closes : list float) (sma_period : Z) (long_threshold short_threshold exit_sigma : float)
    (max_bars_in_trade : Z) (st : float * float * scan_book) (i : nat) : Z * (float * float * scan_book) :=
  let sums := slide closes sma_period st.1 i in
  if (sma_period - 1 <=? Z.of_nat i)%Z then
    match time_stop max_bars_in_trade st.2 with
    | (true, k) => (EXIT_CODE, (sums, k))
    | (false, k) =>
        let '(sma, std) := moments sma_period sums in
        let code := mean_reversion_action_asymmetric (at_ fnan closes i) sma std long_threshold short_threshold exit_sigma in
        (code, (sums, if (0 <? max_bars_in_trade)%Z then book_action code k else k))
    end
  else (HOLD_CODE, (sums, st.2)).

(** A loop over bars that writes one cell per bar. *)
Fixpoint scan_bars_from {St} (bar : St -> nat -> Z * St) (st : St) (is_ : list nat) : list Z :=
  match is_ with
  | [] => []
  | i :: is_ => let '(code, st) := bar st i in code :: scan_bars_from bar st is_
  end.

Definition scan_mean_reversion_signals_asymmetric (closes : list float) (sma_period : Z)
    (long_threshold short_threshold exit_sigma : float) (max_bars_in_trade : Z) : list Z :=
  let n := length closes in
  if ((sma_period <=? 0) || (Z.of_nat n <? sma_period))%Z then replicate n HOLD_CODE else
  scan_bars_from (asymmetric_bar closes sma_period long_threshold short_threshold exit_sigma max_bars_in_trade)
    (fzero, fzero, flat_book) (seq 0 n).

Definition scan_mean_reversion_signals (closes : list float) (sma_period : Z) (threshold exit_sigma : float) : list Z :=
  scan_mean_reversion_signals_asymmetric closes sma_period threshold threshold exit_sigma 0.

(** [closes[i - period + 1 : i + 1]]. *)
Definition window_at (closes : list float) (period : Z) (i : nat) : list float :=
  let a := Z.to_nat (Z.of_nat i - period + 1) in take (S i - a) (drop a closes).

Definition decoupled_bar (closes : list float) (sma_period_long sma_period_short : Z)
    (long_threshold short_threshold exit_sigma : float) (max_bars_in_trade : Z) (k : scan_book) (i : nat) : Z * scan_book :=
  if ((Z.of_nat i <? sma_period_long - 1) || (Z.of_nat i <? sma_period_short - 1))%Z then (HOLD_CODE, k) else
  match time_stop max_bars_in_trade k with
  | (true, k) => (EXIT_CODE, k)
  | (false, k) =>
      let cl := window_at closes sma_period_long i in
      let cs := window_at closes sma_period_short i in
      let std_l := rolling_std cl sma_period_long in
      let std_s := rolling_std cs sma_period_short in
      if (std_l <=? fzero) || (std_s <=? fzero) then (HOLD_CODE, k) else
      let z_long := (at_ fnan closes i - rolling_sma cl sma_period_long) / std_l in
      let z_short := (at_ fnan closes i - rolling_sma cs sma_period_short) / std_s in
      let code := mean_reversion_action_decoupled z_long z_short long_threshold short_threshold exit_sigma (position_side k) in
      (code, book_action code k)
  end.

Definition scan_mean_reversion_signals_decoupled (closes : list float) (sma_period_long sma_period_short : Z)
    (long_threshold short_threshold exit_sigma : float) (max_bars_in_trade : Z) : list Z :=
  let n := length closes in
  let max_period := Z.max sma_period_long sma_period_short in
  if ((max_period <=? 0) || (Z.of_nat n <? max_period))%Z then replicate n HOLD_CODE else
  scan_bars_from (decoupled_bar closes sma_period_long sma_period_short long_threshold short_threshold exit_sigma max_bars_in_trade)
    flat_book (seq 0 n).

(** ** Trend and breakout *)

Definition ema_last (closes : list float) (period : Z) : float :=
  if too_short closes period then fnan else
  let p := Z.to_nat period in
  let alpha := of_Z 2 / (of_Z period + fone) in
  fold_left (fun ema c => alpha * c + (fone - alpha) * ema) (drop p closes)
    (fold_left fadd (take p closes) fzero / of_Z period).

(** The extremes of the [lookback] bars before the last one. *)
Definition donchian (xs : list float) (start : nat) (better : float -> float -> bool) (lookback : Z) : float :=
  fold_left (fun m x => if better x m then x else m) (take (Z.to_nat lookback - 1) (drop (S start) xs)) (at_ fnan xs start).

Definition low_volume (volumes : option (list float)) (volume_sma_period : Z) : bool :=
  match volumes with
  | Some (v :: vs) =>
      let vol_sma := rolling_sma (removelast (v :: vs)) volume_sma_period in
      (vol_sma >? fzero) && (List.last (v :: vs) fnan <? VOLUME_CONFIRMATION_RATIO * vol_sma)
  | _ => false
  end.

Definition breakout_action (close : float) (highs lows : list float) (lookback : Z) (volumes : option (list float))
    (volume_sma_period : Z) : Z :=
  if ((Z.of_nat (length highs) <? lookback + 1) || (lookback <=? 0))%Z then HOLD_CODE else
  let start := (length highs - Z.to_nat lookback - 1)%nat in
  let max_high := donchian highs start (fun x m => x >? m) lookback in
  let min_low := donchian lows start (fun x m => x <? m) lookback in
  if close <? min_low then EXIT_CODE
  else if close >? max_high then if low_volume volumes volume_sma_period then HOLD_CODE else LONG_CODE
  else HOLD_CODE.

Definition trend_cross_action (fast_ema slow_ema : float) : Z :=
  if is_nan fast_ema || is_nan slow_ema then HOLD_CODE
  else if fast_ema >? slow_ema then LONG_CODE
  else if fast_ema <? slow_ema then SHORT_CODE else HOLD_CODE.
End Kernels.

(** ** The live rule *)

Record MeanReversionDefaults := mkDefaults {
  md_symbol : string;
  md_sma_period : Z;
  md_long_threshold_sigma : float;
  md_short_threshold_sigma : float;
  md_exit_sigma : float;
  md_max_bars_in_trade : Z;
  md_sma_period_long : option Z;
  md_sma_period_short : option Z
}.

Record ResolvedParams := mkResolved {
  rp_sma_period : Z; rp_sma_period_long : Z; rp_sma_period_short : Z; rp_decoupled : bool;
  rp_long_threshold_sigma : float; rp_short_threshold_sigma : float; rp_exit_sigma : float;
  rp_max_bars_in_trade : Z; rp_bars_in_trade : Z; rp_in_position : bool; rp_position_side : Z;
  rp_price_adjustment : float; rp_window_adjusted : bool; rp_event_halt : bool;
  rp_regime_filter : bool; rp_regime_mask_active : bool
}.

Section Live.
Context (pow_half : float -> float) (float_of_text : string -> option float) (int_of_text : string -> option Z).
Local Open Scope float_scope.
Local Open Scope py_scope.

(** [int(value)]. *)
Definition json_int (v : json) : result calibration_error Z :=
  match v with
  | JInt n => Ok n
  | JBool b => Ok (Z.b2z b)
  | JFloat x => match ftrunc x with Some n => Ok n | None => Raise (if is_nan x then ValueError else OverflowError) end
  | JStr s => match int_of_text s with Some n => Ok n | None => Raise ValueError end
  | JNull | JArr _ | JObj _ => Raise TypeError
  end.

Definition get (params : list (string * json)) (key : string) (d : json) : json := default d (assoc key params).

Definition or_period (o : option Z) (coupled : Z) : Z :=
  match o with Some n => if (n =? 0)%Z then coupled else n | None => coupled end.

Definition present (params : list (string * json)) (key : string) : bool := bool_decide (is_Some (assoc key params)).

Definition side_of (v : json) : Z :=
  match v with
  | JStr s => if String.eqb s "long" then 1 else if String.eqb s "short" then -1 else 0
  | _ => 0
  end.

(** The threshold of a side: its own key, else the legacy one, else the default. *)
Definition threshold_of (params : list (string * json)) (key : string) (d : float) : json :=
  let legacy := get params "threshold_sigma" JNull in
  get params key (match legacy with JNull => JFloat d | v => v end).

Definition resolved_params (params : list (string * json)) (d : MeanReversionDefaults) : result calibration_error ResolvedParams :=
  try! coupled := json_int (get params "sma_period" (JInt (md_sma_period d))) in
  try! sma_long := json_int (get params "sma_period_long" (JInt (or_period (md_sma_period_long d) coupled))) in
  try! sma_short := json_int (get params "sma_period_short" (JInt (or_period (md_sma_period_short d) coupled))) in
  let decoupled := negb (sma_long =? sma_short)%Z || bool_decide (is_Some (md_sma_period_long d))
    || bool_decide (is_Some (md_sma_period_short d)) || present params "sma_period_long" || present params "sma_period_short" in
  try! long_th := json_float float_of_text (threshold_of params "long_threshold_sigma" (md_long_threshold_sigma d)) in
  try! short_th := json_float float_of_text (threshold_of params "short_threshold_sigma" (md_short_threshold_sigma d)) in
  try! exit_sigma := json_float float_of_text (get params "exit_sigma" (JFloat (md_exit_sigma d))) in
  try! max_bars := json_int (get params "max_bars_in_trade" (JInt (md_max_bars_in_trade d))) in
  try! bars := json_int (get params "bars_in_trade" (JInt 0)) in
  let adjustment := get params "corporate_action_price_adjustment" (JFloat fzero) in
  try! adj := json_float float_of_text (if json_truthy (Some adjustment) then adjustment else JFloat fzero) in
  Ok (mkResolved coupled sma_long sma_short decoupled long_th short_th exit_sigma max_bars bars
        (json_truthy (assoc "in_position" params)) (side_of (get params "position_side" (JStr "flat"))) adj
        (json_truthy (assoc "corporate_action_window_adjusted" params)) (json_truthy (assoc "corporate_event_halt" params))
        (json_truthy (assoc "regime_filter" params))
        (json_truthy (Some (get params "regime_mask_active" (JBool true))))).

Definition warmup_period (p : ResolvedParams) : Z :=
  if rp_decoupled p then Z.max (rp_sma_period_long p) (rp_sma_period_short p) else rp_sma_period p.

(** The action code of a window with the score and the mean it reports; none when a
    decoupled deviation is not positive. *)
Definition score_window (p : ResolvedParams) (eval_close : float) (w : RollingWindow) : option (Z * float * float) :=
  if rp_decoupled p then
    let closes_long := tail_closes (rp_sma_period_long p) w in
    let closes_short := tail_closes (rp_sma_period_short p) w in
    let sma_l := rolling_sma closes_long (rp_sma_period_long p) in
    let std_l := rolling_std pow_half closes_long (rp_sma_period_long p) in
    let sma_s := rolling_sma closes_short (rp_sma_period_short p) in
    let std_s := rolling_std pow_half closes_short (rp_sma_period_short p) in
    if (std_l <=? fzero) || (std_s <=? fzero) then None else
    let z_long := (eval_close - sma_l) / std_l in
    let z_short := (eval_close - sma_s) / std_s in
    let is_short := (rp_position_side p <? 0)%Z in
    Some (mean_reversion_action_decoupled z_long z_short (rp_long_threshold_sigma p) (rp_short_threshold_sigma p)
            (rp_exit_sigma p) (rp_position_side p),
          if is_short then z_short else z_long, if is_short then sma_s else sma_l)
  else
    let closes := tail_closes (rp_sma_period p) w in
    let sma := rolling_sma closes (rp_sma_period p) in
    let std := rolling_std pow_half closes (rp_sma_period p) in
    Some (mean_reversion_action_asymmetric eval_close sma std (rp_long_threshold_sigma p) (rp_short_threshold_sigma p)
            (rp_exit_sigma p),
          if std >? fzero then (eval_close - sma) / std else fzero, sma).

(** A long outside the regime, or any entry under a corporate halt, is dropped. *)
Definition suppressed (p : ResolvedParams) (code : Z) : bool :=
  (rp_regime_filter p && (code =? LONG_CODE)%Z && negb (rp_regime_mask_active p)) ||
  (rp_event_halt p && ((code =? LONG_CODE)%Z || (code =? SHORT_CODE)%Z)).

Definition evaluate_mean_reversion (w : RollingWindow) (params : list (string * json)) (d : MeanReversionDefaults)
    (strategy_id : string) : result calibration_error (option Signal) :=
  try! p := resolved_params params d in
  match latest w with
  | None => Ok None
  | Some bar =>
      if rp_in_position p && (rp_max_bars_in_trade p <=? rp_bars_in_trade p)%Z then
        Ok (Some (mkSignal (md_symbol d) EXIT (bar_close bar) (bar_timestamp bar) strategy_id
                    [("reason", JStr "time_stop"); ("bars_in_trade", JInt (rp_bars_in_trade p))]))
      else if negb (is_ready (warmup_period p) w) then Ok None else
      let price_adjustment := if rp_window_adjusted p then fzero else rp_price_adjustment p in
      match score_window p (bar_close bar + price_adjustment) w with
      | None => Ok None
      | Some (code, z_meta, sma_meta) =>
          if (code =? HOLD_CODE)%Z || suppressed p code then Ok None else
          Ok (option_map (fun action =>
                mkSignal (md_symbol d) action (bar_close bar) (bar_timestamp bar) strategy_id
                  [("z_score", JFloat z_meta); ("sma", JFloat sma_meta);
                   ("corporate_action_price_adjustment", JFloat price_adjustment);
                   ("regime_mask_active", JBool (rp_regime_mask_active p))])
                (action_of_code code))
      end
  end.
End Live.

(** ** The uptrend filter

    A timestamp is an aware datetime of UTC, its session date the day it falls on; the
    dates, ISO texts in the code, are day numbers, which they are in one-to-one and
    order-preserving correspondence with. *)

Definition DEFAULT_REGIME_SMA_PERIOD : Z := 200.
Definition DAY_MICROS : Z := 86400000000.
Definition date_of (t : Z) : Z := (t / DAY_MICROS)%Z.

Section Regime.
Local Open Scope float_scope.

Definition uptrend_day (timestamps : list Z) (closes : list float) (period : nat) (acc : float * gset Z) (idx : nat)
    : float * gset Z :=
  let c := at_ fnan closes idx in
  let running := if (period <=? idx)%nat then acc.1 + (c - at_ fnan closes (idx - period)) else acc.1 in
  (running, if c >? running / of_Z (Z.of_nat period) then {[date_of (at_ 0%Z timestamps idx)]} ∪ acc.2 else acc.2).

Definition build_uptrend_session_dates (timestamps : list Z) (closes : list float) (period : Z) : gset Z :=
  let n := length closes in
  let p := Z.to_nat period in
  if ((period <=? 0) || (Z.of_nat n <? period))%Z || negb (length timestamps =? n)%nat then ∅ else
  (fold_left (uptrend_day timestamps closes p) (seq (p - 1) (n - (p - 1))) (fsum (take p closes), ∅)).2.

Definition build_regime_mask (timestamps : list Z) (allowed_dates : option (gset Z)) : list Z :=
  match allowed_dates with
  | None => map (fun _ => 1%Z) timestamps
  | Some allowed => map (fun ts => if bool_decide (date_of ts ∈ allowed) then 1%Z else 0%Z) timestamps
  end.

Definition is_long_entry_regime_allowed (bar_timestamp : Z) (allowed_dates : option (gset Z)) (regime_filter_enabled : bool)
    : bool :=
  if negb regime_filter_enabled then true else
  match allowed_dates with None => false | Some allowed => bool_decide (date_of bar_timestamp ∈ allowed) end.

(** [by_day[day_key] = (ts, close)] over the bars, the later bar in the key's place. *)
Definition by_day (timestamps : list Z) (closes : list float) : list (Z * (Z * float)) :=
  fold_left (fun d b => assoc_set (date_of b.1) b d) (zip timestamps closes) [].

Definition daily_closes_from_intraday_bars (timestamps : list Z) (closes : list float) : list Z * list float :=
  let d := by_day timestamps closes in
  let rows := omap (fun day => assoc day d) (merge_sort Z.le (map fst d)) in
  (map fst rows, map snd rows).
End Regime.

(** [RegimeIntelligenceEngine]'s cache of the uptrend dates, by upper-case symbol, with the
    moment of the refresh. *)
Definition uptrend_cache : Type := gmap string (gset Z * Z).

Definition refresh_uptrend_session_dates (now : Z) (symbol : string) (timestamps : list Z) (closes : list float) (period : Z)
    (c : uptrend_cache) : gset Z * uptrend_cache :=
  let allowed := build_uptrend_session_dates timestamps closes period in (allowed, <[upper symbol := (allowed, now)]> c).

Definition refresh_uptrend_from_intraday (now : Z) (symbol : string) (timestamps : list Z) (closes : list float) (period : Z)
    (c : uptrend_cache) : gset Z * uptrend_cache :=
  let '(daily_ts, daily_closes) := daily_closes_from_intraday_bars timestamps closes in
  refresh_uptrend_session_dates now symbol daily_ts daily_closes period c.

Definition evaluate_long_entry_regime_mask (symbol : string) (bar_timestamp : Z) (regime_filter_enabled : bool)
    (c : uptrend_cache) : bool :=
  is_long_entry_regime_allowed bar_timestamp (fst <$> c !! upper symbol) regime_filter_enabled.

(** ** Scans *)

Lemma scan_bars_length {St} (bar : St -> nat -> Z * St) st l : length (scan_bars_from bar st l) = length l.
Proof. revert st. induction l as [|i l IH]; intros st; cbn; [done|]. destruct (bar st i). cbn. by rewrite IH. Qed.

(** The cell of a bar is what the bar's step writes, and the cells after it are the scan
    of the rest from the state the step leaves. *)
Lemma scan_bars_lookup {St} (bar : St -> nat -> Z * St) st l k c :
  scan_bars_from bar st l !! k = Some c ->
  exists i st1 st2, l !! k = Some i /\ bar st1 i = (c, st2) /\
    drop (S k) (scan_bars_from bar st l) = scan_bars_from bar st2 (drop (S k) l).
Proof.
  revert st k. induction l as [|i l IH]; intros st k; cbn; [done|]. destruct (bar st i) as [c0 st'] eqn:E.
  destruct k as [|k]; cbn; [|apply IH]. intros [= ->]. by exists i, st, st'.
Qed.

Lemma decoupled_action_sides z1 z2 lt st ex k c :
  mean_reversion_action_decoupled z1 z2 lt st ex k = c ->
  (c = LONG_CODE \/ c = SHORT_CODE -> k = 0%Z) /\ (k <> 0%Z -> c = HOLD_CODE \/ c = EXIT_CODE).
Proof.
  unfold mean_reversion_action_decoupled, LONG_CODE, SHORT_CODE, HOLD_CODE, EXIT_CODE.
  destruct (_ || _); [intros <-; lia|]. destruct (Z.eqb_spec k 0); [subst; split; intros; done|].
  destruct (0 <? k)%Z; case_match; intros <-; lia.
Qed.

Section DecoupledScan.
Context (pow_half : float -> float) (closes : list float) (pl ps : Z) (lt st ex : float) (m : Z) (Hm : (0 < m)%Z).
Notation Bar := (decoupled_bar pow_half closes pl ps lt st ex m).
Notation warm i := ((Z.of_nat i <? pl - 1) || (Z.of_nat i <? ps - 1))%Z.

Lemma entry_bar k i c k' : Bar k i = (c, k') -> c = LONG_CODE \/ c = SHORT_CODE ->
  warm i = false /\ position_side k' <> 0%Z /\ scan_bars k' = 0%Z.
Proof.
  unfold decoupled_bar. destruct (warm i); [intros [= <- <-] [|]; done|].
  destruct (time_stop m k) as [[] k1]; [intros [= <- <-] [|]; done|].
  destruct (fleb _ _ || fleb _ _); [intros [= <- <-] [|]; done|].
  match goal with |- context [book_action ?a ?b] => set (code := a); pose proof (decoupled_action_sides _ _ _ _ _ _ code eq_refl) as [Hs _] end.
  intros [= <- <-] Hc. split; [done|]. specialize (Hs Hc). unfold book_action.
  destruct Hc as [-> | ->]; cbn; by rewrite Hs.
Qed.

(** A held position is exited by the bar or its clock advances. *)
Lemma held_bar k i : warm i = false -> position_side k <> 0%Z ->
  (Bar k i).1 = EXIT_CODE \/
  (scan_bars k + 1 < m)%Z /\ position_side (Bar k i).2 <> 0%Z /\ scan_bars (Bar k i).2 = (scan_bars k + 1)%Z.
Proof.
  intros Hw Hp. unfold decoupled_bar. rewrite Hw. unfold time_stop.
  rewrite (proj2 (Z.ltb_lt 0 m)), (proj2 (Z.eqb_neq _ _)) by done. cbn [andb negb].
  destruct (Z.leb_spec m (scan_bars k + 1)); [by left|]. destruct (fleb _ _ || fleb _ _); [by right|].
  match goal with |- context [book_action ?a ?b] => set (code := a);
    pose proof (decoupled_action_sides _ _ _ _ _ _ code eq_refl) as [_ Hs] end.
  destruct (Hs Hp) as [-> | ->]; cbn; [right; auto|by left].
Qed.

Lemma held_scan l k :
  Forall (fun i => warm i = false) l -> position_side k <> 0%Z -> (m <= scan_bars k + Z.of_nat (length l))%Z -> (scan_bars k < m)%Z ->
  exists j, (Z.of_nat j < m - scan_bars k)%Z /\ scan_bars_from Bar k l !! j = Some EXIT_CODE.
Proof.
  revert k. induction l as [|i l IH]; intros k Hl Hp Hn Hk; cbn [length] in Hn; [lia|]. inversion_clear Hl as [|? ? Hi Hr].
  cbn [scan_bars_from]. destruct (held_bar k i Hi Hp) as [He|(Hb & Hp' & Hs)]; destruct (Bar k i) as [c k'] eqn:E; cbn [fst snd] in *.
  - exists 0. subst c. split; [lia|done].
  - destruct (IH k' Hr Hp') as (j & Hj & Hx); [lia|lia|]. exists (S j). split; [lia|done].
Qed.
End DecoupledScan.

(** The time-stop of the decoupled scan works: whatever the prices, a position it opens
    is closed within [max_bars_in_trade] bars, as long as there are that many left. *)
Theorem scanned_position_is_closed pow_half closes pl ps lt st ex m i c
    (Hm : (0 < m)%Z)
    (Hi : scan_mean_reversion_signals_decoupled pow_half closes pl ps lt st ex m !! i = Some c)
    (Hc : c = LONG_CODE \/ c = SHORT_CODE) (Hn : (Z.of_nat i + m < Z.of_nat (length closes))%Z) :
  exists j, (i < j)%nat /\ (Z.of_nat j <= Z.of_nat i + m)%Z /\
    scan_mean_reversion_signals_decoupled pow_half closes pl ps lt st ex m !! j = Some EXIT_CODE.
Proof.
  unfold scan_mean_reversion_signals_decoupled in *.
  destruct (_ || _)%Z. { apply lookup_replicate in Hi as [-> _]. by destruct Hc. }
  pose proof (scan_bars_lookup _ _ _ _ _ Hi) as (i' & k1 & k2 & Hl & Hb & Hd).
  apply lookup_seq in Hl as [-> Hl]. cbn [Nat.add] in Hb.
  destruct (entry_bar _ _ _ _ _ _ _ _ _ _ _ _ Hb Hc) as (Hw & Hp & H0).
  destruct (held_scan pow_half closes pl ps lt st ex m Hm (drop (S i) (seq 0 (length closes))) k2) as (j & Hj & Hx); try done.
  - apply Forall_lookup. intros x y. rewrite lookup_drop. intros [-> ?]%lookup_seq. apply orb_false_iff in Hw as [?%Z.ltb_ge ?%Z.ltb_ge].
    apply orb_false_iff. split; apply Z.ltb_ge; lia.
  - rewrite length_drop, length_seq. lia.
  - lia.
  - exists (S i + j). rewrite <- Hd, lookup_drop in Hx. split_and!; [lia|lia|done].
Qed.

Definition falling_closes : list float := map of_Z [10; 8; 6; 4; 2; 1]%Z.

Lemma scanned_position_is_closed_witness :
  let acts := scan_mean_reversion_signals_decoupled fsqrt falling_closes 2 2 (lit 5 1) (lit 5 1) (lit 1 1) 3 in
  acts !! 1 = Some LONG_CODE /\ exists j, (1 < j)%nat /\ (Z.of_nat j <= 1 + 3)%Z /\ acts !! j = Some EXIT_CODE.
Proof.
  cbv zeta. split; [by vm_compute|].
  apply (scanned_position_is_closed fsqrt falling_closes 2 2 (lit 5 1) (lit 5 1) (lit 1 1) 3 1 LONG_CODE);
    [lia|by vm_compute|by left|by vm_compute].
Defined.

(** The symmetric scan without its book: every bar on its own, by the symmetric action. *)
Definition stateless_action (pow_half : float -> float) (closes : list float) (sma_period : Z) (threshold exit_sigma : float)
    (i : nat) : Z :=
  if (sma_period - 1 <=? Z.of_nat i)%Z then
    let '(sma, std) := moments pow_half sma_period (fold_left (slide closes sma_period) (seq 0 (S i)) (fzero, fzero)) in
    mean_reversion_action (at_ fnan closes i) sma std threshold exit_sigma
  else HOLD_CODE.

Lemma asymmetric_scan_stateless pow_half closes p th ex n a sums :
  sums = fold_left (slide closes p) (seq 0 a) (fzero, fzero) ->
  scan_bars_from (asymmetric_bar pow_half closes p th th ex 0) (sums, flat_book) (seq a n)
  = map (stateless_action pow_half closes p th ex) (seq a n).
Proof.
  revert a sums. induction n as [|n IH]; intros a sums ->; cbn [seq scan_bars_from map]; [done|].
  assert (slide closes p (fold_left (slide closes p) (seq 0 a) (fzero, fzero)) a
    = fold_left (slide closes p) (seq 0 (S a)) (fzero, fzero)) as Hs by (by rewrite seq_S, fold_left_app).
  unfold asymmetric_bar at 1, stateless_action at 1. cbn [fst snd time_stop Z.ltb Z.compare andb]. rewrite Hs.
  destruct (p - 1 <=? Z.of_nat a)%Z; [destruct (moments _ _ _)|]; f_equal; by apply IH.
Qed.

(** Delegating the symmetric scan to the asymmetric one with equal thresholds and no
    time-stop changes nothing: each cell is the symmetric action on the sliding window
    that ends at its bar, with no memory of the actions before. *)
Theorem symmetric_scan_is_stateless pow_half closes p th ex :
  scan_mean_reversion_signals pow_half closes p th ex =
  if ((p <=? 0) || (Z.of_nat (length closes) <? p))%Z then replicate (length closes) HOLD_CODE
  else map (stateless_action pow_half closes p th ex) (seq 0 (length closes)).
Proof.
  unfold scan_mean_reversion_signals, scan_mean_reversion_signals_asymmetric. destruct (_ || _)%Z; [done|].
  by apply asymmetric_scan_stateless.
Qed.

(** ** The live rule *)

Section LiveRule.
Context (pow_half : float -> float) (float_of_text : string -> option float) (int_of_text : string -> option Z).
Notation Evaluate := (evaluate_mean_reversion pow_half float_of_text int_of_text).
Notation Resolved := (resolved_params float_of_text int_of_text).

Lemma action_of_code_entry c a : action_of_code c = Some a -> is_entry_action a = true ->
  (c = LONG_CODE /\ a = LONG) \/ (c = SHORT_CODE /\ a = SHORT).
Proof.
  unfold action_of_code. repeat (case_match; [intros [= <-]; try done; rewrite Z.eqb_eq in *; auto|]); try done.
Qed.

(** The score of a price over the last [period] closed bars. *)
Definition score_over (price : float) (period : Z) (w : RollingWindow) : float :=
  fdiv (fsub price (rolling_sma (tail_closes period w) period)) (rolling_std pow_half (tail_closes period w) period).

(** What the action of a window says of the two scores: a long was asked for by the score the signal reports. *)
Lemma entry_score p x w code z sma :
  score_window pow_half p x w = Some (code, z, sma) ->
  (code = LONG_CODE \/ code = SHORT_CODE -> rp_decoupled p = true -> rp_position_side p = 0%Z) /\
  (code = LONG_CODE ->
     z = score_over x (if rp_decoupled p then rp_sma_period_long p else rp_sma_period p) w /\
     fltb z (fneg (rp_long_threshold_sigma p)) = true) /\
  (code = SHORT_CODE ->
     fltb (rp_short_threshold_sigma p)
       (score_over x (if rp_decoupled p then rp_sma_period_short p else rp_sma_period p) w) = true).
Proof.
  unfold score_window, score_over. destruct (rp_decoupled p).
  - destruct (fleb _ _ || fleb _ _); [done|]. unfold mean_reversion_action_decoupled. intros [= <- <- _].
    destruct (_ || is_nan _); [by split_and!; intros; naive_solver|].
    destruct (Z.eqb_spec (rp_position_side p) 0) as [->|].
    + destruct (fltb _ (fneg _)) eqn:E; [done|]. destruct (fltb (rp_short_threshold_sigma p) _) eqn:E2; done.
    + destruct (0 <? _)%Z; [destruct (fltb _ _)|destruct (fltb (fabs _) _)]; by split_and!; intros; naive_solver.
  - unfold mean_reversion_action_asymmetric. destruct (fleb (rolling_std _ _ _) fzero) eqn:E1; [by intros [= <- <- _]|].
    destruct (is_nan (rolling_std _ _ _)) eqn:E2; [by intros [= <- <- _]|].
    destruct (is_nan (rolling_sma _ _)); [by intros [= <- <- _]|]. cbn [orb].
    rewrite (fltb_negb_fleb fzero (rolling_std _ _ _)), E1 by done. cbn [negb]. intros [= <- <- _].
    destruct (fltb _ (fneg _)) eqn:E; [done|]. destruct (fltb (rp_short_threshold_sigma p) _) eqn:E3; [done|].
    by destruct (fltb (fabs _) _).
Qed.

(** What the resolver reads, setting by setting. *)
Lemma resolved_fields params d p :
  Resolved params d = Ok p ->
  let given key v := default v (assoc key params) in
  let legacy v := match assoc "threshold_sigma" params with None | Some JNull => JFloat v | Some u => u end in
  json_int int_of_text (given "sma_period" (JInt (md_sma_period d))) = Ok (rp_sma_period p) /\
  json_int int_of_text (given "sma_period_long" (JInt (or_period (md_sma_period_long d) (rp_sma_period p)))) = Ok (rp_sma_period_long p) /\
  json_int int_of_text (given "sma_period_short" (JInt (or_period (md_sma_period_short d) (rp_sma_period p)))) = Ok (rp_sma_period_short p) /\
  json_float float_of_text (given "long_threshold_sigma" (legacy (md_long_threshold_sigma d))) = Ok (rp_long_threshold_sigma p) /\
  json_float float_of_text (given "short_threshold_sigma" (legacy (md_short_threshold_sigma d))) = Ok (rp_short_threshold_sigma p) /\
  json_int int_of_text (given "max_bars_in_trade" (JInt (md_max_bars_in_trade d))) = Ok (rp_max_bars_in_trade p) /\
  json_int int_of_text (given "bars_in_trade" (JInt 0)) = Ok (rp_bars_in_trade p) /\
  json_float float_of_text (if json_truthy (assoc "corporate_action_price_adjustment" params)
                            then given "corporate_action_price_adjustment" JNull else JFloat fzero) = Ok (rp_price_adjustment p) /\
  rp_decoupled p = (negb (rp_sma_period_long p =? rp_sma_period_short p)%Z || bool_decide (is_Some (md_sma_period_long d))
    || bool_decide (is_Some (md_sma_period_short d)) || present params "sma_period_long" || present params "sma_period_short") /\
  rp_in_position p = json_truthy (assoc "in_position" params) /\
  rp_position_side p = side_of (given "position_side" JNull) /\
  rp_window_adjusted p = json_truthy (assoc "corporate_action_window_adjusted" params) /\
  rp_event_halt p = json_truthy (assoc "corporate_event_halt" params) /\
  rp_regime_filter p = json_truthy (assoc "regime_filter" params) /\
  rp_regime_mask_active p = json_truthy (Some (given "regime_mask_active" (JBool true))).
Proof.
  unfold resolved_params, get, threshold_of, get. cbv zeta.
  repeat match goal with |- context [result_bind ?r _] => destruct r eqn:?; cbn [result_bind]; [|done] end.
  intros [= <-]. cbn. split_and!; try done.
  1, 2: by destruct (assoc "threshold_sigma" params) as [[]|].
  - by destruct (assoc "corporate_action_price_adjustment" params).
  - by destruct (assoc "position_side" params).
Qed.

(** The guards an entry passed. *)
Lemma cleared_guards p w code :
  is_ready (warmup_period p) w = true ->
  rp_in_position p && (rp_max_bars_in_trade p <=? rp_bars_in_trade p)%Z = false -> suppressed p code = false ->
  code = LONG_CODE \/ code = SHORT_CODE ->
  (if rp_decoupled p then rp_sma_period_long p <= Z.of_nat (rw_count w) /\ rp_sma_period_short p <= Z.of_nat (rw_count w)
   else rp_sma_period p <= Z.of_nat (rw_count w))%Z /\
  (rp_in_position p = true -> (rp_bars_in_trade p < rp_max_bars_in_trade p)%Z) /\ rp_event_halt p = false /\
  (code = LONG_CODE -> rp_regime_filter p = true -> rp_regime_mask_active p = true).
Proof.
  unfold is_ready, warmup_period, suppressed. intros Hr Ht Hsup Hcode. apply Z.leb_le in Hr. split_and!.
  - destruct (rp_decoupled p); lia.
  - intros Hin. rewrite Hin in Ht. apply Z.leb_gt in Ht. lia.
  - destruct Hcode as [-> | ->]; by destruct (rp_event_halt p), (rp_regime_filter p), (rp_regime_mask_active p).
  - intros -> Hf. rewrite Hf in Hsup. by destruct (rp_regime_mask_active p).
Qed.

Lemma side_flat v : side_of v = 0%Z -> v <> JStr "long" /\ v <> JStr "short".
Proof. intros H. by split; intros ->. Qed.

(** While its bars have run out a position is told to exit, before anything else is
    looked at: no warm-up, halt, filter or deviation delays it. *)
Lemma time_stop_always_exits w params d sid p bar :
  Resolved params d = Ok p -> latest w = Some bar ->
  rp_in_position p = true -> (rp_max_bars_in_trade p <= rp_bars_in_trade p)%Z ->
  exists s, Evaluate w params d sid = Ok (Some s) /\ sig_action s = EXIT /\ sig_price s = bar_close bar.
Proof.
  intros Hp Hb Hin Hm. unfold evaluate_mean_reversion. rewrite Hp. cbn [result_bind]. rewrite Hb, Hin. cbn [andb].
  apply Z.leb_le in Hm. rewrite Hm. by eexists.
Qed.
End LiveRule.

(** C4: An entry of the live rule is cleared, by the parameters as they are given and the defaults behind them. A held
    position has bars of its time left; the base period of bars has closed when the horizons are coupled (equal, and
    asked for by no default and no parameter), else both horizons'; no corporate event halts the symbol; horizons of
    their own need a flat side; a long is inside the regime when the filter is asked for, and its score over the long
    horizon, which the signal reports, lies below its threshold; a short's score over the short horizon lies
    above its own. A threshold is its own parameter, else the legacy one, else the default. The price is the close of the
    latest closed bar, without the adjustment the score is taken with. *)
Theorem live_entry_is_cleared pow_half float_of_text int_of_text w params d sid s
    (Hs : evaluate_mean_reversion pow_half float_of_text int_of_text w params d sid = Ok (Some s))
    (He : is_entry_action (sig_action s) = true) :
  let given key v := default v (assoc key params) in
  let truthy key := json_truthy (assoc key params) in
  let int_given key v := json_int int_of_text (given key v) in
  let float_given key v := json_float float_of_text (given key v) in
  let legacy v := match assoc "threshold_sigma" params with None | Some JNull => JFloat v | Some u => u end in
  exists bar base long short long_threshold short_threshold adjustment,
    latest w = Some bar /\ sig_price s = bar_close bar /\ sig_timestamp s = bar_timestamp bar /\
    int_given "sma_period" (JInt (md_sma_period d)) = Ok base /\
    int_given "sma_period_long"
      (JInt (match md_sma_period_long d with Some n => if (n =? 0)%Z then base else n | None => base end)) = Ok long /\
    int_given "sma_period_short"
      (JInt (match md_sma_period_short d with Some n => if (n =? 0)%Z then base else n | None => base end)) = Ok short /\
    float_given "long_threshold_sigma" (legacy (md_long_threshold_sigma d)) = Ok long_threshold /\
    float_given "short_threshold_sigma" (legacy (md_short_threshold_sigma d)) = Ok short_threshold /\
    (truthy "corporate_action_window_adjusted" = true /\ adjustment = fzero \/
     truthy "corporate_action_window_adjusted" = false /\
       json_float float_of_text (if truthy "corporate_action_price_adjustment"
                                 then given "corporate_action_price_adjustment" JNull else JFloat fzero) = Ok adjustment) /\
    (truthy "in_position" = true -> exists limit held,
       int_given "max_bars_in_trade" (JInt (md_max_bars_in_trade d)) = Ok limit /\
       int_given "bars_in_trade" (JInt 0) = Ok held /\ (held < limit)%Z) /\
    truthy "corporate_event_halt" = false /\
    (exists coupled : bool,
       (coupled = true <-> long = short /\ md_sma_period_long d = None /\ md_sma_period_short d = None /\
          assoc "sma_period_long" params = None /\ assoc "sma_period_short" params = None) /\
       (if coupled then base <= Z.of_nat (rw_count w)
        else long <= Z.of_nat (rw_count w) /\ short <= Z.of_nat (rw_count w))%Z /\
       (coupled = false -> given "position_side" JNull <> JStr "long" /\ given "position_side" JNull <> JStr "short") /\
       (sig_action s = LONG ->
          (truthy "regime_filter" = true -> json_truthy (Some (given "regime_mask_active" (JBool true))) = true) /\
          let z := score_over pow_half (fadd (bar_close bar) adjustment) (if coupled then base else long) w in
          assoc "z_score" (sig_metadata s) = Some (JFloat z) /\ fltb z (fneg long_threshold) = true) /\
       (sig_action s = SHORT ->
          fltb short_threshold
            (score_over pow_half (fadd (bar_close bar) adjustment) (if coupled then base else short) w) = true)).
Proof.
  cbv zeta. unfold evaluate_mean_reversion in Hs. destruct (resolved_params _ _ params d) as [p|] eqn:Ep; [|done].
  cbn [result_bind] in Hs. destruct (latest w) as [bar|] eqn:Eb; [|done].
  destruct (rp_in_position p && _) eqn:Et; [by simplify_eq|].
  destruct (is_ready _ w) eqn:Er; cbn [negb] in Hs; [|done].
  destruct (score_window _ _ _ _) as [[[code z] sma]|] eqn:Ec; [|done].
  destruct (_ || suppressed p code) eqn:Eh; [done|]. apply orb_false_iff in Eh as [_ Eh].
  destruct (action_of_code code) as [a|] eqn:Ea; [|done]. cbn in Hs. simplify_eq. cbn in He.
  cbn [sig_price sig_timestamp sig_action sig_metadata].
  apply resolved_fields in Ep as (? & ? & ? & ? & ? & Hmax & Hbars & Hadj & Hdec & Hin & Hside & Hwin & Hhalt & Hreg & Hmask).
  destruct (entry_score _ _ _ _ _ _ _ Ec) as (Hflat & Hlong & Hshort).
  destruct (action_of_code_entry _ _ Ea He) as [[-> ->]|[-> ->]].
  all: exists bar, (rp_sma_period p), (rp_sma_period_long p), (rp_sma_period_short p), (rp_long_threshold_sigma p),
    (rp_short_threshold_sigma p), (if rp_window_adjusted p then fzero else rp_price_adjustment p).
  all: destruct (cleared_guards p w _ Er Et Eh) as (Hready & Htime & Hnohalt & Hregime); [by auto|].
  all: split_and!; try done.
  all: try by (rewrite <- Hwin; destruct (rp_window_adjusted p); [by left|by right]).
  all: try by (rewrite <- Hin; intros Hp; exists (rp_max_bars_in_trade p), (rp_bars_in_trade p); auto).
  all: try by rewrite <- Hhalt.
  all: exists (negb (rp_decoupled p)); split_and!; try done.
  all: try by (rewrite negb_true_iff, Hdec, !orb_false_iff, !bool_decide_eq_false, negb_false_iff, Z.eqb_eq;
               unfold present; rewrite !bool_decide_eq_false, <- !eq_None_not_Some; tauto).
  all: try by (destruct (rp_decoupled p); cbn [negb]).
  all: try by (intros Hc%negb_false_iff; apply side_flat; rewrite <- Hside; apply Hflat; auto).
  - intros _. rewrite <- Hreg, <- Hmask. split; [by apply Hregime|]. destruct (Hlong eq_refl) as [-> Hz].
    destruct (rp_decoupled p); cbn [negb]; by split.
  - intros _. specialize (Hshort eq_refl). by destruct (rp_decoupled p).
Qed.

Definition demo_closes (closes : list Z) : RollingWindow :=
  match window_init 10 "demo" with
  | Ok w => fold_left (fun w tc => (append fzero (bar_at tc.1 tc.2) w).2) (zip [1; 2; 3; 4]%Z closes) w
  | Raise _ => mkWindow 0 "" [] None 0 0 [] [] [] [] [] fzero None fzero
  end.

Definition demo_defaults : MeanReversionDefaults := mkDefaults "SPY" 2 (lit 5 1) (lit 5 1) (lit 1 1) 40 None None.
Notation no_text := (fun _ : string => None).

Lemma live_entry_is_cleared_witness :
  let w := demo_closes [10; 8]%Z in
  exists s bar, evaluate_mean_reversion fsqrt no_text no_text w [] demo_defaults "mr" = Ok (Some s) /\
    latest w = Some bar /\ sig_price s = bar_close bar /\ sig_action s = LONG.
Proof.
  cbv zeta. destruct (evaluate_mean_reversion fsqrt no_text no_text (demo_closes [10; 8]%Z) [] demo_defaults "mr") as [[s|]|] eqn:E;
    [|by vm_compute in E|by vm_compute in E].
  assert (sig_action s = LONG) as Ha by (vm_compute in E; by simplify_eq).
  destruct (live_entry_is_cleared fsqrt no_text no_text (demo_closes [10; 8]%Z) [] demo_defaults "mr" s E)
    as (bar & _ & _ & _ & _ & _ & _ & Hb & Hs & _); [by rewrite Ha|].
  exists s, bar. exact (conj eq_refl (conj Hb (conj Hs Ha))).
Defined.

(** A short that the short horizon asks for from a flat book reports the long horizon's
    score: here the score of the signal is negative while its threshold is 0.5. *)
Lemma short_entry_reports_the_long_score :
  exists s z, evaluate_mean_reversion fsqrt no_text no_text (demo_closes [10; 1; 1; 2]%Z)
      [("sma_period_long", JInt 4); ("sma_period_short", JInt 2)] demo_defaults "mr" = Ok (Some s) /\
    sig_action s = SHORT /\ assoc "z_score" (sig_metadata s) = Some (JFloat z) /\ fltb z fzero = true.
Proof. eexists _, _. split_and!; [by vm_compute|done|done|by vm_compute]. Qed.

(** ** The uptrend filter *)

(** The session date of a bar is allowed or not by the close of its own day: two tapes
    that agree up to the bar at ten in the morning give it different masks. *)
Lemma regime_mask_reads_the_days_close :
  let bar := (DAY_MICROS + 36000000000)%Z in
  let last_bar := (DAY_MICROS + 57600000000)%Z in
  let mask c :=
    let '(ts, cs) := daily_closes_from_intraday_bars [0%Z; bar; last_bar] [of_Z 100; of_Z 101; of_Z c] in
    build_regime_mask [bar] (Some (build_uptrend_session_dates ts cs 2)) in
  mask 102%Z = [1%Z] /\ mask 99%Z = [0%Z].
Proof. by vm_compute. Qed.

(** Only dates of the closes it was built from can be allowed. *)
Lemma uptrend_dates_are_known timestamps closes period d :
  d ∈ build_uptrend_session_dates timestamps closes period -> d ∈ map date_of timestamps.
Proof.
  unfold build_uptrend_session_dates. destruct (_ || negb _) eqn:E; [set_solver|].
  apply orb_false_iff in E as [_ E]. apply negb_false_iff, Nat.eqb_eq in E. set (p := Z.to_nat period).
  assert (forall l acc, (forall i, i ∈ l -> i < length timestamps) -> (forall x, x ∈ acc.2 -> x ∈ map date_of timestamps) ->
    forall x, x ∈ (fold_left (uptrend_day timestamps closes p) l acc).2 -> x ∈ map date_of timestamps) as H.
  { induction l as [|i l IH]; intros acc Hl Ha x; cbn; [apply Ha|]. apply IH; [intros; apply Hl; by right|]. clear x IH.
    intros x. unfold uptrend_day. cbn. case_match; [|apply Ha]. intros [->%elem_of_singleton|Hx]%elem_of_union; [|by apply Ha].
    apply list_elem_of_fmap. eexists. split; [done|]. apply list_elem_of_In, nth_In, Hl. by left. }
  apply H; [|set_solver]. intros i Hi%elem_of_seq. lia.
Qed.

(** Live, the date of a bar is not among the closed days yet: with the filter on, no long
    of a day is allowed before that day is in the closes, however strong the trend. *)
Lemma live_day_is_never_allowed now symbol timestamps closes period c bar :
  date_of bar ∉ map date_of timestamps ->
  evaluate_long_entry_regime_mask symbol bar true (refresh_uptrend_session_dates now symbol timestamps closes period c).2 = false.
Proof.
  intros Hn. unfold evaluate_long_entry_regime_mask, refresh_uptrend_session_dates. cbv zeta. cbn [snd]. unfold uptrend_cache in *. simplify_map_eq. cbn.
  apply bool_decide_false. by intros ?%uptrend_dates_are_known.
Qed.

(** One row per day: the last bar of that day, in any order of the bars' days. *)
Lemma assoc_by_day l d0 day :
  assoc day (fold_left (fun d (b : Z * float) => assoc_set (date_of b.1) b d) l d0) =
  match last (List.filter (fun b => date_of b.1 =? day)%Z l) with Some b => Some b | None => assoc day d0 end.
Proof.
  revert d0. induction l as [|b l IH]; intros d0; cbn; [done|]. rewrite IH.
  destruct (Z.eqb_spec (date_of b.1) day) as [->|Hne].
  - rewrite last_cons. destruct (last _); [done|]. by rewrite assoc_set_same.
  - destruct (last _); [done|]. by rewrite assoc_set_other.
Qed.
