(* ===== verification/VectorBacktest.v ===== *)
(** * The vectorised mean-reversion backtest

    [src/backtest/vectorized_mr.py]: the precomputed series, the two simulation kernels
    (one horizon, and decoupled horizons) bar by bar in binary64, and the grid of a
    parameter sweep. The kernels' local variables are the records [Book] and [Track]; the
    blocks the two kernels spell twice, word for word, are one definition each. A division
    by zero raises, as Numba's does; [int(x)] of a float is the machine's conversion,
    [cast_int], and [x ** 0.5] the C library's, [pow_half]. *)

From stdpp Require Import base gmap strings list.
From Stdlib Require Import ZArith Lia.
From S2P Require Import Prelude Dict PyFloat Models Indicators.

Definition ANNUALIZE : float := Eval vm_compute in fsqrt (of_Z (252 * 26)).
Definition TRADING_DAYS_PER_YEAR : float := Eval vm_compute in of_Z 252.

(** ** Precomputed series *)

Definition build_session_boundary_mask (timestamps : list Z) : list Z :=
  match timestamps with
  | [] => []
  | t0 :: ts =>
      1%Z :: (fold_left (fun acc t => (date_of t, acc.2 ++ [if (date_of t =? acc.1)%Z then 0%Z else 1%Z])) ts (date_of t0, [])).2
  end.

(** Amounts of one ex-date are added up. *)
Definition dividends_by_date (events : list (Z * float)) : list (Z * float) :=
  fold_left (fun d e => assoc_set e.1 (fadd (default fzero (assoc e.1 d)) e.2) d) events [].

Definition build_dividend_array (timestamps : list Z) (events : list (Z * float)) : list float :=
  let by_date := dividends_by_date events in
  map (fun ts => let amt := default fzero (assoc (date_of ts) by_date) in if fltb fzero amt then amt else fzero) timestamps.

Section Series.
Context (pow_half : float -> float).
Local Open Scope float_scope.

Fixpoint sma_std_from (closes : list float) (sma_period : Z) (sums : float * float) (is_ : list nat) : list (float * float) :=
  match is_ with
  | [] => []
  | i :: is_ =>
      let sums := slide closes sma_period sums i in
      (if (sma_period - 1 <=? Z.of_nat i)%Z then moments pow_half sma_period sums else (fzero, fzero))
        :: sma_std_from closes sma_period sums is_
  end.

Definition precompute_sma_std (closes : list float) (sma_period : Z) : list (float * float) :=
  let n := length closes in
  if ((sma_period <=? 0) || (Z.of_nat n <? sma_period))%Z then replicate n (fzero, fzero)
  else sma_std_from closes sma_period (fzero, fzero) (seq 0 n).

(** A bar without a deviation scores zero. *)
Definition z_score (close : float) (m : float * float) : float :=
  if m.2 >? fzero then (close - m.1) / m.2 else fzero.

Definition precompute_z_scores (closes : list float) (sma_std : list (float * float)) : list float :=
  zip_with z_score closes sma_std.

Definition precompute_z_stack (closes : list float) (min_period max_period : Z) : list (list float) :=
  map (fun k => precompute_z_scores closes (precompute_sma_std closes (min_period + Z.of_nat k)))
    (seq 0 (Z.to_nat (max_period - min_period + 1))).

Definition bar_range (highs lows closes : list float) (j : nat) : float :=
  match j with
  | O => at_ fnan highs 0 - at_ fnan lows 0
  | S j' =>
      py_max3 (at_ fnan highs j - at_ fnan lows j) (fabs (at_ fnan highs j - at_ fnan closes j'))
        (fabs (at_ fnan lows j - at_ fnan closes j'))
  end.

Definition precompute_atr_series (highs lows closes : list float) (period : Z) : list float :=
  let n := length closes in
  let p := Z.to_nat period in
  if ((period <=? 0) || (Z.of_nat n <? period))%Z then replicate n fzero else
  map (fun i => if (i <? p - 1)%nat then fzero
                else fold_left (fun tr_sum j => tr_sum + bar_range highs lows closes j) (seq (i - (p - 1)) p) fzero / of_Z period)
    (seq 0 n).
End Series.

(** ** Inputs of a simulation *)

Record Tape := mkTape {
  tp_opens : list float;
  tp_closes : list float;
  tp_regime_mask : list Z;
  tp_atr : list float;
  tp_session_boundary : list Z;
  tp_dividend_per_share : list float
}.

Record Rules := mkRules { ru_long_th : float; ru_short_th : float; ru_exit_sigma : float; ru_max_bars : Z }.

Record VectorizedExecParams := mkExec {
  ve_slippage_pct : float;
  ve_max_risk_per_trade_pct : float;
  ve_max_position_pct : float;
  ve_initial_equity : float;
  ve_short_borrow_fee_annual : float;
  ve_short_size_multiplier : float;
  ve_short_margin_initial : float;
  ve_short_margin_maint : float;
  ve_liquidation_slip_multiplier : float;
  ve_atr_period : Z
}.

Definition default_exec : VectorizedExecParams := Eval vm_compute in
  mkExec (lit 5 4) (lit 1 2) (lit 95 2) (of_Z 100000) (lit 5 3) (lit 75 2) (lit 5 1) (lit 25 2) (of_Z 3) 14.

Record Book := mkBook {
  bk_cash : float;
  bk_position_qty : float;
  bk_bars_in_trade : Z;
  bk_pending_action : Z;
  bk_n_fills : Z;
  bk_gross_win : float;
  bk_gross_loss : float;
  bk_entry_cost : float
}.

Record Track := mkTrack {
  tr_peak : float;
  tr_max_dd : float;
  tr_ret_sum : float;
  tr_ret_sq_sum : float;
  tr_ret_count : Z;
  tr_prev_equity : float
}.

Section Kernel.
Context (pow_half : float -> float) (cast_int : float -> Z).
Local Open Scope float_scope.
Local Open Scope py_scope.

(** ** Sizing and cash *)

Definition shares_of (shares : float) : Z := if shares <? fone then 0 else cast_int shares.

Definition size_shares (equity cash atr_val price max_risk_pct max_pos_pct : float) : Z :=
  if (atr_val <=? fzero) || (price <=? fzero) || (equity <=? fzero) then 0%Z else
  shares_of (py_min3 (equity * max_risk_pct / atr_val) (cash / price) (equity * max_pos_pct / price)).

Definition size_shares_short (equity atr_val price max_risk_pct max_pos_pct initial_margin_pct short_size_multiplier : float)
    : result float_error Z :=
  if (atr_val <=? fzero) || (price <=? fzero) || (equity <=? fzero) || (initial_margin_pct <=? fzero) then Ok 0%Z else
  try! by_margin := py_div equity (price * initial_margin_pct) in
  Ok (shares_of (py_min3 (equity * max_risk_pct / atr_val) (equity * max_pos_pct / price) by_margin * short_size_multiplier)).

Definition mark_equity (cash position_qty mark_price : float) : float := cash + position_qty * mark_price.

Definition apply_borrow_fee (cash position_qty mark_notional_price borrow_fee_annual : float) : float :=
  if position_qty >=? fzero then cash else
  cash - fabs position_qty * mark_notional_price * (borrow_fee_annual / TRADING_DAYS_PER_YEAR).

(** A realised profit or loss goes to its side's sum. *)
Definition book_pnl (pnl : float) (b : Book) : Book :=
  let win := if pnl >? fzero then bk_gross_win b + pnl else bk_gross_win b in
  let loss := if pnl >? fzero then bk_gross_loss b else if pnl <? fzero then bk_gross_loss b - pnl else bk_gross_loss b in
  mkBook (bk_cash b) (bk_position_qty b) (bk_bars_in_trade b) (bk_pending_action b) (bk_n_fills b) win loss (bk_entry_cost b).

(** The book with its position closed for [cash]. *)
Definition close_book (cash : float) (b : Book) : Book :=
  mkBook cash fzero (bk_bars_in_trade b) (bk_pending_action b) (bk_n_fills b + 1) (bk_gross_win b) (bk_gross_loss b) fzero.

(** [_cover_short], its wins and losses added to the sums. *)
Definition cover_short (fill_raw slippage_pct slip_multiplier : float) (b : Book) : Book :=
  let slip := fill_raw * slippage_pct * slip_multiplier in
  let price := fill_raw + slip in
  let cover_cost := price * fabs (bk_position_qty b) in
  let pnl := bk_entry_cost b - cover_cost in
  let win := if pnl >? fzero then pnl else fzero in
  let loss := if pnl >? fzero then fzero else if pnl <? fzero then fneg pnl else fzero in
  mkBook (bk_cash b - cover_cost) fzero (bk_bars_in_trade b) (bk_pending_action b) (bk_n_fills b + 1)
    (bk_gross_win b + win) (bk_gross_loss b + loss) fzero.

Definition open_book (cash qty entry_cost : float) (b : Book) : Book :=
  mkBook cash qty (bk_bars_in_trade b) (bk_pending_action b) (bk_n_fills b + 1) (bk_gross_win b) (bk_gross_loss b) entry_cost.

Definition set_pending (a : Z) (b : Book) : Book :=
  mkBook (bk_cash b) (bk_position_qty b) (bk_bars_in_trade b) a (bk_n_fills b) (bk_gross_win b) (bk_gross_loss b) (bk_entry_cost b).

Definition set_cash (c : float) (b : Book) : Book :=
  mkBook c (bk_position_qty b) (bk_bars_in_trade b) (bk_pending_action b) (bk_n_fills b) (bk_gross_win b) (bk_gross_loss b) (bk_entry_cost b).

Definition set_bars (n : Z) (b : Book) : Book :=
  mkBook (bk_cash b) (bk_position_qty b) n (bk_pending_action b) (bk_n_fills b) (bk_gross_win b) (bk_gross_loss b) (bk_entry_cost b).

Definition is_flat (b : Book) : bool := bk_position_qty b =? fzero.
Definition is_long (b : Book) : bool := bk_position_qty b >? fzero.
Definition is_short (b : Book) : bool := bk_position_qty b <? fzero.

Section Slice.
Context (t : Tape) (r : Rules) (ex : VectorizedExecParams).

(** ** One bar *)

(** The pending action is filled at the open; the second component is the side of a
    position that was opened. *)
Definition fill_pending (i : nat) (b : Book) : result float_error (Book * option Z) :=
  let fill_raw := at_ fnan (tp_opens t) i in
  let slip := fill_raw * ve_slippage_pct ex in
  let mark_eq := mark_equity (bk_cash b) (bk_position_qty b) (at_ fnan (tp_closes t) (i - 1)) in
  if (bk_pending_action b =? LONG_CODE)%Z && is_flat b then
    let price := fill_raw + slip in
    let qty := size_shares mark_eq (bk_cash b) (at_ fnan (tp_atr t) (i - 1)) price
                 (ve_max_risk_per_trade_pct ex) (ve_max_position_pct ex) in
    Ok (if (0 <? qty)%Z then
          let cost := price * of_Z qty in (open_book (bk_cash b - cost) (of_Z qty) cost b, Some LONG_CODE)
        else (b, None))
  else if (bk_pending_action b =? SHORT_CODE)%Z && is_flat b then
    let price := fill_raw - slip in
    try! qty := size_shares_short mark_eq (at_ fnan (tp_atr t) (i - 1)) price (ve_max_risk_per_trade_pct ex)
                  (ve_max_position_pct ex) (ve_short_margin_initial ex) (ve_short_size_multiplier ex) in
    Ok (if (0 <? qty)%Z then
          let proceeds := price * of_Z qty in (open_book (bk_cash b + proceeds) (fneg (of_Z qty)) proceeds b, Some SHORT_CODE)
        else (b, None))
  else if (bk_pending_action b =? EXIT_CODE)%Z then
    if is_long b then
      let price := fill_raw - slip in
      let proceeds := price * bk_position_qty b in
      Ok (close_book (bk_cash b + proceeds) (book_pnl (proceeds - bk_entry_cost b) b), None)
    else if is_short b then Ok (cover_short fill_raw (ve_slippage_pct ex) fone b, None)
    else Ok (b, None)
  else Ok (b, None).

Definition open_bar (local_i i : nat) (b : Book) : result float_error (Book * option Z) :=
  if (0 <? local_i)%nat && negb (bk_pending_action b =? 0)%Z then
    try! f := fill_pending i b in Ok (set_pending 0 f.1, f.2)
  else Ok (b, None).

(** Overnight borrow fee, dividend of a short, and the clock of the trade. *)
Definition carry (local_i i : nat) (b : Book) : Book :=
  let b := if (0 <? local_i)%nat && (at_ 0%Z (tp_session_boundary t) i =? 1)%Z && is_short b then
             set_cash (apply_borrow_fee (bk_cash b) (bk_position_qty b) (at_ fnan (tp_closes t) (i - 1)) (ve_short_borrow_fee_annual ex)) b
           else b in
  let dividend := at_ fnan (tp_dividend_per_share t) i in
  let b := if is_short b && (dividend >? fzero) then set_cash (bk_cash b - fabs (bk_position_qty b) * dividend) b else b in
  if negb (is_flat b) then set_bars (bk_bars_in_trade b + 1) b else set_bars 0 b.

(** The equity at the close, and the forced cover of a short below its maintenance margin. *)
Definition margin_call (i : nat) (b : Book) : Book * float * bool :=
  let close := at_ fnan (tp_closes t) i in
  let equity := mark_equity (bk_cash b) (bk_position_qty b) close in
  if is_short b && (equity <? fabs (bk_position_qty b) * close * ve_short_margin_maint ex) then
    let b := set_bars 0 (cover_short close (ve_slippage_pct ex) (ve_liquidation_slip_multiplier ex) b) in
    (b, mark_equity (bk_cash b) (bk_position_qty b) close, true)
  else (b, equity, false).

Definition may_decide (warmup : Z) (local_i : nat) (b : Book) (liquidated : bool) : bool :=
  (warmup - 1 <=? Z.of_nat local_i)%Z && (bk_pending_action b =? 0)%Z && negb liquidated.

Definition time_is_up (b : Book) : bool := negb (is_flat b) && (ru_max_bars r <=? bk_bars_in_trade b)%Z.

(** The action the close decides on, for the next open: one score. *)
Definition decide_coupled (z : float) (mask : Z) (b : Book) : Book :=
  if time_is_up b then set_pending EXIT_CODE b
  else if is_flat b && (z <? fneg (ru_long_th r)) && (mask =? 1)%Z then set_pending LONG_CODE b
  else if is_flat b && (z >? ru_short_th r) then set_pending SHORT_CODE b
  else if negb (is_flat b) && (fabs z <? ru_exit_sigma r) then set_pending EXIT_CODE b
  else b.

(** The same with a score per side. *)
Definition decide_decoupled (zl zs : float) (mask : Z) (b : Book) : Book :=
  if time_is_up b then set_pending EXIT_CODE b
  else if is_flat b && (zl <? fneg (ru_long_th r)) && (mask =? 1)%Z then set_pending LONG_CODE b
  else if is_flat b && (zs >? ru_short_th r) then set_pending SHORT_CODE b
  else if is_long b && (fabs zl <? ru_exit_sigma r) then set_pending EXIT_CODE b
  else if is_short b && (fabs zs <? ru_exit_sigma r) then set_pending EXIT_CODE b
  else b.

Definition track_equity (local_i : nat) (equity : float) (k : Track) : Track :=
  let peak := if equity >? tr_peak k then equity else tr_peak k in
  let dd := (peak - equity) / peak in
  let max_dd := if (peak >? fzero) && (dd >? tr_max_dd k) then dd else tr_max_dd k in
  if (0 <? local_i)%nat && (tr_prev_equity k >? fzero) then
    let ret := (equity - tr_prev_equity k) / tr_prev_equity k in
    mkTrack peak max_dd (tr_ret_sum k + ret) (tr_ret_sq_sum k + ret * ret) (tr_ret_count k + 1) equity
  else mkTrack peak max_dd (tr_ret_sum k) (tr_ret_sq_sum k) (tr_ret_count k) equity.

Definition coupled_bar (z : list float) (sma_period : Z) (start : nat) (st : Book * Track) (local_i : nat)
    : result float_error (Book * Track) :=
  let i := (start + local_i)%nat in
  try! f := open_bar local_i i st.1 in
  let '(b, equity, liquidated) := margin_call i (carry local_i i f.1) in
  let b := if may_decide sma_period local_i b liquidated then
             decide_coupled (at_ fnan z i) (at_ 0%Z (tp_regime_mask t) i) b else b in
  Ok (b, track_equity local_i equity st.2).

(** The decoupled kernel also counts the entries of each side. *)
Definition decoupled_bar (z_long z_short : list float) (warmup : Z) (start : nat) (st : Book * Track * (Z * Z)) (local_i : nat)
    : result float_error (Book * Track * (Z * Z)) :=
  let i := (start + local_i)%nat in
  try! f := open_bar local_i i st.1.1 in
  let fills := match f.2 with
               | Some c => if (c =? LONG_CODE)%Z then (st.2.1 + 1, st.2.2)%Z else (st.2.1, st.2.2 + 1)%Z
               | None => st.2
               end in
  let '(b, equity, liquidated) := margin_call i (carry local_i i f.1) in
  let b := if may_decide warmup local_i b liquidated then
             decide_decoupled (at_ fnan z_long i) (at_ fnan z_short i) (at_ 0%Z (tp_regime_mask t) i) b else b in
  Ok (b, track_equity local_i equity st.1.2, fills).

(** ** A slice *)

Definition book_start : Book := mkBook (ve_initial_equity ex) fzero 0 0 0 fzero fzero fzero.
Definition track_start : Track := mkTrack (ve_initial_equity ex) fzero fzero fzero 0 (ve_initial_equity ex).

Fixpoint run_bars {St} (bar : St -> nat -> result float_error St) (st : St) (is_ : list nat) : result float_error St :=
  match is_ with
  | [] => Ok st
  | i :: is_ => try! st := bar st i in run_bars bar st is_
  end.

(** The state after the first [k] bars of a slice. *)
Definition coupled_state (z : list float) (sma_period : Z) (start k : nat) : result float_error (Book * Track) :=
  run_bars (coupled_bar z sma_period start) (book_start, track_start) (seq 0 k).

Definition decoupled_state (z_long z_short : list float) (warmup : Z) (start k : nat)
    : result float_error (Book * Track * (Z * Z)) :=
  run_bars (decoupled_bar z_long z_short warmup start) (book_start, track_start, (0, 0)%Z) (seq 0 k).

Record Outcome := mkOutcome {
  oc_total_return : float; oc_sharpe : float; oc_max_dd : float; oc_n_fills : Z; oc_profit_factor : float
}.
Definition no_outcome : Outcome := mkOutcome fzero fzero fzero 0 fzero.

Definition sharpe_of (k : Track) : float :=
  if (1 <? tr_ret_count k)%Z then
    let mean := tr_ret_sum k / of_Z (tr_ret_count k) in
    let var := tr_ret_sq_sum k / of_Z (tr_ret_count k) - mean * mean in
    let std := pow_half (if var <? fzero then fzero else var) in
    if std >? fzero then mean / std * ANNUALIZE else fzero
  else fzero.

Definition profit_factor_of (b : Book) : float :=
  if bk_gross_loss b >? fzero then bk_gross_win b / bk_gross_loss b
  else if bk_gross_win b >? fzero then of_Z 1000000000 else fzero.

Definition outcome_of (stop : nat) (b : Book) (k : Track) : Outcome :=
  let equity_start := ve_initial_equity ex in
  let equity_end := mark_equity (bk_cash b) (bk_position_qty b) (at_ fnan (tp_closes t) (stop - 1)) in
  mkOutcome (if equity_start >? fzero then (equity_end - equity_start) / equity_start else fzero)
    (sharpe_of k) (tr_max_dd k) (bk_n_fills b) (profit_factor_of b).

Definition slice_length (start stop : nat) : Z := (Z.of_nat stop - Z.of_nat start)%Z.

Definition simulate_mr_slice (z_scores : list float) (sma_period : Z) (start stop : nat) : result float_error Outcome :=
  if (slice_length start stop <? sma_period + 2)%Z then Ok no_outcome else
  try! st := coupled_state z_scores sma_period start (Z.to_nat (slice_length start stop)) in
  Ok (outcome_of stop st.1 st.2).

Definition simulate_mr_slice_decoupled (z_long z_short : list float) (sma_period_long sma_period_short : Z) (start stop : nat)
    : result float_error (Outcome * (Z * Z)) :=
  let warmup := if (sma_period_long <? sma_period_short)%Z then sma_period_short else sma_period_long in
  if (slice_length start stop <? warmup + 2)%Z then Ok (no_outcome, (0, 0)%Z) else
  try! st := decoupled_state z_long z_short warmup start (Z.to_nat (slice_length start stop)) in
  Ok (outcome_of stop st.1.1 st.1.2, st.2).
End Slice.

(** ** The grid of a sweep *)

Definition decode_inner_index (idx n_long n_short n_exit n_max : Z) : Z * Z * Z * Z :=
  let mi := (idx mod n_max)%Z in
  let u := (idx / n_max)%Z in
  let ei := (u mod n_exit)%Z in
  let u := (u / n_exit)%Z in
  ((u / n_short)%Z, (u mod n_short)%Z, ei, mi).

(** Cell [idx] of the output arrays; the cells are written in parallel, each by its own
    index only. *)
Definition sweep_decoupled_inner_grid (t : Tape) (ex : VectorizedExecParams) (z_long z_short : list float)
    (sma_period_long sma_period_short : Z) (long_grid short_grid exit_grid : list float) (max_bars_grid : list Z)
    (start stop : nat) : list (result float_error (Outcome * (Z * Z))) :=
  let n_inner := (length long_grid * length short_grid * length exit_grid * length max_bars_grid)%nat in
  map (fun idx =>
    let '(li, si, ei, mi) := decode_inner_index (Z.of_nat idx) (Z.of_nat (length long_grid)) (Z.of_nat (length short_grid))
                               (Z.of_nat (length exit_grid)) (Z.of_nat (length max_bars_grid)) in
    let r := mkRules (at_ fnan long_grid (Z.to_nat li)) (at_ fnan short_grid (Z.to_nat si)) (at_ fnan exit_grid (Z.to_nat ei))
               (at_ 0%Z max_bars_grid (Z.to_nat mi)) in
    simulate_mr_slice_decoupled t r ex z_long z_short sma_period_long sma_period_short start stop)
    (seq 0 n_inner).
End Kernel.

(** ** The grid *)

(** The index of a combination: the last grid runs fastest. *)
Definition encode_inner_index (c : Z * Z * Z * Z) (n_short n_exit n_max : Z) : Z :=
  let '(li, si, ei, mi) := c in (((li * n_short + si) * n_exit + ei) * n_max + mi)%Z.

Lemma div_mod_pair a b n : (0 <= b < n)%Z -> ((a * n + b) / n = a /\ (a * n + b) mod n = b)%Z.
Proof.
  intros. split; [symmetry; apply (Z.div_unique _ _ _ b)|symmetry; apply (Z.mod_unique _ _ a)]; lia.
Qed.

Lemma decode_encode li si ei mi nl ns ne nm : (0 <= si < ns -> 0 <= ei < ne -> 0 <= mi < nm ->
  decode_inner_index (encode_inner_index (li, si, ei, mi) ns ne nm) nl ns ne nm = (li, si, ei, mi))%Z.
Proof.
  intros Hs He Hm. unfold decode_inner_index, encode_inner_index.
  destruct (div_mod_pair ((li * ns + si) * ne + ei) mi nm Hm) as [-> ->].
  destruct (div_mod_pair (li * ns + si) ei ne He) as [-> ->].
  by destruct (div_mod_pair li si ns Hs) as [-> ->].
Qed.

Lemma encode_bounds li si ei mi nl ns ne nm : (0 <= li < nl -> 0 <= si < ns -> 0 <= ei < ne -> 0 <= mi < nm ->
  0 <= encode_inner_index (li, si, ei, mi) ns ne nm < nl * ns * ne * nm)%Z.
Proof.
  intros Hl Hs He Hm. unfold encode_inner_index.
  assert (0 <= li * ns + si < nl * ns)%Z by nia. assert (0 <= (li * ns + si) * ne + ei < nl * ns * ne)%Z by nia. nia.
Qed.

Lemma encode_decode idx nl ns ne nm : (0 < ns -> 0 < ne -> 0 < nm ->
  encode_inner_index (decode_inner_index idx nl ns ne nm) ns ne nm = idx)%Z.
Proof.
  intros. unfold decode_inner_index, encode_inner_index.
  pose proof (Z.div_mod idx nm). pose proof (Z.div_mod (idx / nm) ne). pose proof (Z.div_mod (idx / nm / ne) ns). lia.
Qed.

(** A sweep simulates every combination of its grids, once: the cell of each combination
    holds its simulation, and no two cells hold the same combination. *)
Theorem sweep_visits_every_combination_once pow_half cast_int t ex zl zs pl ps (lg sg eg : list float) (mg : list Z) start stop
    (li si ei mi : nat) l s e m
    (Hl : lg !! li = Some l) (Hs : sg !! si = Some s) (He : eg !! ei = Some e) (Hm : mg !! mi = Some m) :
  let nl := Z.of_nat (length lg) in let ns := Z.of_nat (length sg) in
  let ne := Z.of_nat (length eg) in let nm := Z.of_nat (length mg) in
  exists idx, sweep_decoupled_inner_grid pow_half cast_int t ex zl zs pl ps lg sg eg mg start stop !! idx
      = Some (simulate_mr_slice_decoupled pow_half cast_int t (mkRules l s e m) ex zl zs pl ps start stop) /\
    forall j, decode_inner_index (Z.of_nat j) nl ns ne nm = (Z.of_nat li, Z.of_nat si, Z.of_nat ei, Z.of_nat mi) <-> j = idx.
Proof.
  intros nl ns ne nm. pose proof (lookup_lt_Some _ _ _ Hl). pose proof (lookup_lt_Some _ _ _ Hs).
  pose proof (lookup_lt_Some _ _ _ He). pose proof (lookup_lt_Some _ _ _ Hm).
  set (c := (Z.of_nat li, Z.of_nat si, Z.of_nat ei, Z.of_nat mi)). set (idx := Z.to_nat (encode_inner_index c ns ne nm)).
  assert (0 <= encode_inner_index c ns ne nm < nl * ns * ne * nm)%Z as Hb by (apply encode_bounds; lia).
  assert (decode_inner_index (Z.of_nat idx) nl ns ne nm = c) as Hd.
  { unfold idx. rewrite Z2Nat.id by lia. apply decode_encode; lia. }
  assert (forall A (x d : A) (g : list A) k, g !! k = Some x -> at_ d g (Z.to_nat (Z.of_nat k)) = x) as Hat.
  { intros A x d g k Hk. rewrite Nat2Z.id. unfold at_. rewrite nth_lookup, Hk. done. }
  exists idx. split.
  - unfold sweep_decoupled_inner_grid. rewrite list_lookup_fmap, lookup_seq_lt by lia. cbn [fmap option_fmap option_map Nat.add].
    fold nl ns ne nm. rewrite Hd. unfold c. f_equal. by erewrite !Hat.
  - intros j. split; [|by intros ->]. intros Hj. apply (f_equal (fun c => encode_inner_index c ns ne nm)) in Hj.
    rewrite encode_decode in Hj by lia. unfold idx. fold c in Hj. rewrite <- Hj. lia.
Qed.

(** ** Runs *)

Lemma run_bars_ext {St} (f g : St -> nat -> result float_error St) st l :
  (forall st i, i ∈ l -> f st i = g st i) -> run_bars f st l = run_bars g st l.
Proof.
  revert st. induction l as [|i l IH]; intros st H; cbn; [done|]. rewrite (H st i) by left.
  destruct (g st i) as [st'|]; cbn; [|done]. apply IH. intros. apply H. by right.
Qed.

Lemma run_bars_snoc {St} (f : St -> nat -> result float_error St) st l i :
  run_bars f st (l ++ [i]) = result_bind (run_bars f st l) (fun st => f st i).
Proof. revert st. induction l as [|j l IH]; intros st; cbn; [by destruct (f st i)|]. destruct (f st j); cbn; [apply IH|done]. Qed.

(** What an invariant of the bars gives for the state after [k] of them. *)
Lemma run_bars_inv {St} (f : St -> nat -> result float_error St) (P : nat -> St -> Prop) st :
  P 0 st -> (forall k st st', P k st -> f st k = Ok st' -> P (S k) st') ->
  forall k st', run_bars f st (seq 0 k) = Ok st' -> P k st'.
Proof.
  intros H0 Hs k. induction k as [|k IH]; intros st'; [by intros [= <-]|].
  rewrite seq_S, run_bars_snoc. destruct (run_bars f st (seq 0 k)) as [s|]; cbn; [|done]. intros. eapply Hs; [by apply IH|done].
Qed.

Lemma fneg_not_nan x : is_nan x = false -> is_nan (fneg x) = false.
Proof. by destruct x. Qed.

Section Bars.
Context (pow_half : float -> float) (cast_int : float -> Z) (t : Tape) (r : Rules) (ex : VectorizedExecParams).
Notation Open := (open_bar cast_int t ex).
Notation Fill := (fill_pending cast_int t ex).

(** The position is a number, and only an exit or a forced cover makes it zero. *)
Definition numeric (b : Book) : Prop := is_nan (bk_position_qty b) = false.

(** A step of one bar's processing, seen from the position: it is kept, opened from flat,
    or closed. *)
Lemma fill_numeric i b f : numeric b -> Fill i b = Ok f -> numeric f.1.
Proof.
  unfold numeric, fill_pending. intros Hn.
  destruct (_ && is_flat b); [intros [= <-]; destruct (0 <? _)%Z; [apply of_Z_not_nan|done]|].
  destruct (_ && is_flat b).
  - destruct (size_shares_short _ _ _ _ _ _ _ _) as [q|]; cbn; [|done]. intros [= <-].
    destruct (0 <? q)%Z; [apply fneg_not_nan, of_Z_not_nan|done].
  - by destruct (_ =? EXIT_CODE)%Z, (is_long b), (is_short b); intros [= <-].
Qed.

Lemma open_numeric l i b f : numeric b -> Open l i b = Ok f -> numeric f.1.
Proof.
  unfold open_bar. intros Hn. case_match; [|by intros [= <-]]. destruct (Fill i b) as [g|] eqn:E; cbn; [|done].
  intros [= <-]. by apply (fill_numeric i b g).
Qed.

Lemma carry_position l i b : bk_position_qty (carry t ex l i b) = bk_position_qty b.
Proof. unfold carry. by repeat case_match. Qed.

Lemma margin_numeric i b : numeric b -> numeric (margin_call t ex i b).1.1.
Proof. unfold margin_call, numeric. intros. by case_match. Qed.

(** A number that is not zero has a sign. *)
Lemma numeric_sign b : numeric b -> negb (is_flat b) = is_long b || is_short b.
Proof. unfold numeric, is_flat, is_long, is_short. by destruct (bk_position_qty b) as [[]|[]| |[] ? ?]. Qed.

Lemma flat_no_sign b : is_flat b = true -> is_long b = false /\ is_short b = false.
Proof. unfold is_flat, is_long, is_short. by destruct (bk_position_qty b) as [[]|[]| |[] ? ?]. Qed.

(** With one score the two kernels decide the same. *)
Lemma decide_agree z mask b : numeric b -> decide_decoupled r z z mask b = decide_coupled r z mask b.
Proof.
  intros Hn. unfold decide_decoupled, decide_coupled. pose proof (numeric_sign b Hn) as Hs. pose proof (flat_no_sign b) as Hf.
  destruct (time_is_up r b); [done|]. destruct (is_flat b); cbn [negb andb] in *.
  - destruct (Hf eq_refl) as [-> ->]. by repeat case_match.
  - destruct (is_long b), (is_short b); cbn [orb andb] in *; try done; by destruct (fltb _ _).
Qed.

Lemma decide_position zl zs mask b : bk_position_qty (decide_decoupled r zl zs mask b) = bk_position_qty b.
Proof. unfold decide_decoupled. by repeat case_match. Qed.
End Bars.

Section Equivalence.
Context (pow_half : float -> float) (cast_int : float -> Z) (t : Tape) (r : Rules) (ex : VectorizedExecParams).

(** Bar by bar the two kernels are in step. *)
Lemma states_agree z p start k :
  match coupled_state cast_int t r ex z p start k, decoupled_state cast_int t r ex z z p start k with
  | Ok c, Ok d => c = d.1 /\ numeric c.1
  | Raise e, Raise e' => e = e'
  | _, _ => False
  end.
Proof.
  unfold coupled_state, decoupled_state. induction k as [|k IH]; [done|]. rewrite seq_S, !run_bars_snoc.
  destruct (run_bars (coupled_bar _ _ _ _ _ _ _) _ _) as [[b tr]|e], (run_bars (decoupled_bar _ _ _ _ _ _ _ _) _ _) as [[[b' tr'] n]|e'];
    cbn [result_bind]; try done.
  destruct IH as [[= <- <-] Hn]. cbn [fst] in Hn. unfold coupled_bar, decoupled_bar. cbn [Nat.add fst snd].
  destruct (open_bar _ _ _ _ _ b) as [f|] eqn:Ef; cbn [result_bind]; [|done].
  pose proof (open_numeric _ _ _ _ _ _ _ Hn Ef) as Hf.
  assert (numeric (carry t ex k (start + k) f.1)) as Hc by (unfold numeric; by rewrite carry_position).
  pose proof (margin_numeric t ex (start + k) _ Hc) as Hm.
  destruct (margin_call _ _ _ _) as [[b1 eq] liq]. cbn [fst] in Hm.
  destruct (may_decide _ _ _ _); cbn [fst snd]; rewrite ?decide_agree by done; split; try done.
  unfold numeric. rewrite <- decide_agree, decide_position; done.
Qed.
End Equivalence.

(** C38: The decoupled kernel with one horizon for both sides is the coupled kernel: the same
    return, ratio, drawdown, fills and profit factor, and an exception of one is the
    exception of the other. *)
Theorem equal_horizons_are_coupled pow_half cast_int t r ex z p start stop :
  simulate_mr_slice pow_half cast_int t r ex z p start stop =
  result_bind (simulate_mr_slice_decoupled pow_half cast_int t r ex z z p p start stop) (fun o => Ok o.1).
Proof.
  unfold simulate_mr_slice, simulate_mr_slice_decoupled. rewrite Z.ltb_irrefl. destruct (slice_length start stop <? p + 2)%Z; [done|].
  pose proof (states_agree cast_int t r ex z p start (Z.to_nat (slice_length start stop))) as H.
  destruct (coupled_state _ _ _ _ _ _ _ _) as [c|], (decoupled_state _ _ _ _ _ _ _ _ _) as [d|]; cbn; try done.
  - by destruct H as [-> _].
  - by subst.
Qed.

Section Holding.
Context (pow_half : float -> float) (cast_int : float -> Z) (t : Tape) (r : Rules) (ex : VectorizedExecParams) (warmup : Z).
Notation limit := (Z.max 1 (ru_max_bars r)).

(** Between bars: a position was opened after the warm-up, its clock is within the limit,
    and an exit is pending when its time is up. *)
Record timed (k : nat) (b : Book) : Prop := {
  td_numeric : numeric b;
  td_pending : bk_pending_action b <> 0%Z -> 0 < k /\ (warmup <= Z.of_nat k)%Z;
  td_flat : is_flat b = true -> bk_bars_in_trade b = 0%Z;
  td_held : is_flat b = false -> (warmup <= Z.of_nat k)%Z /\ (bk_bars_in_trade b <= limit)%Z /\
    ((bk_pending_action b = 0 /\ bk_bars_in_trade b < ru_max_bars r)%Z \/ bk_pending_action b = EXIT_CODE)
}.

(** After the open: nothing is pending, and what is still held has time left. *)
Record opened (k : nat) (b : Book) : Prop := {
  op_numeric : numeric b;
  op_pending : bk_pending_action b = 0%Z;
  op_held : is_flat b = false -> (warmup <= Z.of_nat k)%Z /\ (bk_bars_in_trade b + 1 <= limit)%Z
}.

Lemma fill_closes i b f : numeric b -> is_flat b = false -> bk_pending_action b = EXIT_CODE ->
  fill_pending cast_int t ex i b = Ok f -> is_flat f.1 = true.
Proof.
  intros Hn Hf Hp. unfold fill_pending. rewrite Hf, Hp, !andb_false_r. cbn [Z.eqb EXIT_CODE].
  pose proof (numeric_sign b Hn) as Hs. rewrite Hf in Hs.
  destruct (is_long b), (is_short b); try done; by intros [= <-].
Qed.

Lemma fill_keeps_clock i b f : is_flat b = true -> fill_pending cast_int t ex i b = Ok f ->
  bk_bars_in_trade f.1 = bk_bars_in_trade b.
Proof.
  unfold fill_pending. intros Hf. destruct (flat_no_sign b Hf) as [-> ->].
  destruct (_ && is_flat b); [intros [= <-]; by destruct (0 <? _)%Z|].
  destruct (_ && is_flat b); [|by destruct (_ =? EXIT_CODE)%Z; intros [= <-]].
  destruct (size_shares_short _ _ _ _ _ _ _ _) as [q|]; cbn; [|done]. intros [= <-]. by destruct (0 <? q)%Z.
Qed.

Lemma open_timed k i b f : timed k b -> open_bar cast_int t ex k i b = Ok f -> opened k f.1.
Proof.
  intros [Hn Hp Hf Hh] Ho. pose proof (open_numeric _ _ _ _ _ _ _ Hn Ho) as Hn'. unfold open_bar in Ho.
  destruct (Z.eqb_spec (bk_pending_action b) 0) as [E|E]; cbn [negb] in Ho.
  - rewrite andb_false_r in Ho. injection Ho as <-. split; cbn; [done|done|]. intros H.
    destruct (Hh H) as (? & ? & [[_ ?]|He]); [lia|]. by rewrite E in He.
  - destruct (Hp E) as [Hk Hw]. rewrite (proj2 (Nat.ltb_lt _ _) Hk) in Ho. cbn [andb] in Ho.
    destruct (fill_pending _ _ _ _ _) as [g|] eqn:Eg; cbn in Ho; [|done]. injection Ho as <-. split; cbn; [done|done|].
    destruct (is_flat b) eqn:Eb.
    + intros _. rewrite (fill_keeps_clock i b g Eb Eg), Hf by done. lia.
    + destruct (Hh eq_refl) as (_ & _ & [[? _]|He]); [done|]. intros H. change (is_flat g.1 = false) in H.
      by rewrite (fill_closes i b g) in H.
Qed.

Lemma carry_pending l i b : bk_pending_action (carry t ex l i b) = bk_pending_action b.
Proof. unfold carry. by repeat case_match. Qed.

Lemma carry_bars l i b :
  bk_bars_in_trade (carry t ex l i b) = if is_flat b then 0%Z else (bk_bars_in_trade b + 1)%Z.
Proof.
  unfold carry. cbv zeta. repeat match goal with |- context [if ?c then set_cash ?x ?y else ?z] => destruct c end;
    unfold is_flat; cbn; by destruct (feqb _ _).
Qed.

(** The close of a bar: within the limit, with an exit pending at the limit. *)
Lemma close_timed k i zl zs mask b : opened k b ->
  let '(b1, _, liq) := margin_call t ex i (carry t ex k i b) in
  timed (S k) (if may_decide warmup k b1 liq then decide_decoupled r zl zs mask b1 else b1).
Proof.
  intros [Hn Hp Hh]. pose proof (carry_position t ex k i b) as Hc. pose proof (carry_pending k i b) as Hcp.
  pose proof (carry_bars k i b) as Hcb. revert Hc Hcp Hcb. generalize (carry t ex k i b) as c. intros c Hc Hcp Hcb.
  assert (is_flat c = is_flat b) as Hcf by (unfold is_flat; by rewrite Hc).
  assert (numeric c) as Hcn by (unfold numeric; by rewrite Hc). rewrite Hp in Hcp. unfold margin_call.
  destruct (is_short c && _).
  - unfold may_decide. rewrite !andb_false_r. split; cbn; try done; by rewrite Hcp.
  - unfold may_decide. rewrite Hcp. cbn [Z.eqb negb andb]. rewrite !andb_true_r.
    destruct (Z.leb_spec (warmup - 1) (Z.of_nat k)) as [Hw|Hw].
    + split; unfold is_flat, numeric; rewrite ?decide_position; try done; [lia| |]; unfold decide_decoupled, time_is_up;
        change (bk_position_qty c =? fzero)%f with (is_flat c); intros Hfl; rewrite Hfl; cbn [negb andb].
      * rewrite <- Hcf, Hfl in Hcb. repeat case_match; done.
      * rewrite <- Hcf in Hh, Hcb. rewrite Hfl in Hcb. destruct (Hh Hfl) as [? ?]. split; [lia|].
        destruct (Z.leb_spec (ru_max_bars r) (bk_bars_in_trade c)); [cbn; rewrite Hcb in *; split; [lia|by right]|].
        repeat case_match; cbn; rewrite ?Hcp, Hcb in *; (split; [lia|]); auto with lia.
    + split; rewrite ?Hcp; try done; intros Hfl; rewrite Hcf in Hfl; rewrite Hfl in Hcb; [done|]. destruct (Hh Hfl). lia.
Qed.

Lemma decoupled_timed zl zs start k st :
  decoupled_state cast_int t r ex zl zs warmup start k = Ok st -> timed k st.1.1.
Proof.
  apply (run_bars_inv _ (fun k st => timed k st.1.1)); [by split|]. clear k st. intros k st st' Ht. unfold decoupled_bar.
  destruct (open_bar _ _ _ _ _ _) as [f|] eqn:Ef; cbn; [|done]. pose proof (open_timed _ _ _ _ Ht Ef) as Ho.
  pose proof (fun a b m => close_timed k (start + k) a b m _ Ho) as Hc.
  destruct (margin_call _ _ _ _) as [[b eq] liq]. intros [= <-]. apply Hc.
Qed.
End Holding.

(** C37: No position outlives the time-stop: after any bar of a slice, the clock of the trade is at most [max_bars] (one bar when that is less), a flat book's
    clock is zero, a position whose time is up has its exit pending for the next open, and
    no position is held before the warm-up is over. *)
Theorem no_position_outlives_the_time_stop cast_int t r ex zl zs warmup start k b tr n
    (Hk : decoupled_state cast_int t r ex zl zs warmup start k = Ok (b, tr, n)) :
  (bk_bars_in_trade b <= Z.max 1 (ru_max_bars r))%Z /\
  (is_flat b = true -> bk_bars_in_trade b = 0%Z) /\
  (is_flat b = false -> (ru_max_bars r <= bk_bars_in_trade b)%Z -> bk_pending_action b = EXIT_CODE) /\
  (is_flat b = false -> (warmup <= Z.of_nat k)%Z).
Proof.
  pose proof (decoupled_timed cast_int t r ex warmup zl zs start k _ Hk) as [Hn Hp Hf Hh]. cbn [fst] in *.
  destruct (is_flat b) eqn:E.
  - rewrite Hf by done. split_and!; try done. lia.
  - destruct (Hh eq_refl) as (Hw & Hl & Hc). split_and!; try done. intros _ Hm. destruct Hc as [[_ ?]|]; [lia|done].
Qed.

(** The coupled kernel's clock is within the same limit. *)
Lemma coupled_clock_bounded cast_int t r ex z p start k b tr :
  coupled_state cast_int t r ex z p start k = Ok (b, tr) -> (bk_bars_in_trade b <= Z.max 1 (ru_max_bars r))%Z.
Proof.
  intros Hk. pose proof (states_agree cast_int t r ex z p start k) as H. rewrite Hk in H.
  destruct (decoupled_state _ _ _ _ _ _ _ _ _) as [[[b' tr'] n]|] eqn:E; [|done]. destruct H as [[= -> ->] _].
  pose proof (decoupled_timed cast_int t r ex p z z start k _ E) as [_ _ Hf Hh]. cbn [fst] in *.
  destruct (is_flat b'); [rewrite Hf by done; lia|]. by destruct (Hh eq_refl) as (_ & ? & _).
Qed.

Definition truncating (x : float) : Z := default 0%Z (ftrunc x).

(** A tape of six bars that falls from 100: a long at the second open, out of time after
    two bars, sold at the open of the fifth. *)
Definition demo_tape : Tape :=
  mkTape (map of_Z [100; 98; 96; 94; 92; 90]%Z) (map of_Z [98; 96; 94; 92; 90; 88]%Z) 
    (replicate 6 1%Z) (replicate 6 fone) (replicate 6 0%Z) (replicate 6 fzero).
Definition demo_rules : Rules := mkRules (lit 5 1) (of_Z 5) (lit 1 1) 2.
Definition demo_z : list float := replicate 6 (of_Z (-2)).

Lemma no_position_outlives_the_time_stop_witness :
  exists b tr n, decoupled_state truncating demo_tape demo_rules default_exec demo_z demo_z 1 0 3 = Ok (b, tr, n) /\
    is_flat b = false /\ bk_bars_in_trade b = 2%Z /\ bk_pending_action b = EXIT_CODE.
Proof.
  destruct (decoupled_state truncating demo_tape demo_rules default_exec demo_z demo_z 1 0 3) as [[[b tr] n]|] eqn:E; [|by vm_compute in E].
  destruct (no_position_outlives_the_time_stop truncating demo_tape demo_rules default_exec demo_z demo_z 1 0 3 b tr n E) as (_ & _ & H & _).
  assert (is_flat b = false) as Hf by (vm_compute in E; injection E as <- _ _; reflexivity).
  assert (bk_bars_in_trade b = 2%Z) as Hb by (vm_compute in E; injection E as <- _ _; reflexivity).
  exists b, tr, n. split_and!; [reflexivity|exact Hf|exact Hb|]. apply H; [exact Hf|rewrite Hb; vm_compute; discriminate].
Defined.

Lemma sweep_visits_every_combination_once_witness :
  let sweep := sweep_decoupled_inner_grid fsqrt truncating demo_tape default_exec demo_z demo_z 1 1
                 [lit 5 1; fone] [of_Z 5] [lit 1 1; lit 2 1] [2; 4; 8]%Z 0 6 in
  exists idx, sweep !! idx = Some (simulate_mr_slice_decoupled fsqrt truncating demo_tape (mkRules fone (of_Z 5) (lit 1 1) 4)
                              default_exec demo_z demo_z 1 1 0 6).
Proof.
  destruct (sweep_visits_every_combination_once fsqrt truncating demo_tape default_exec demo_z demo_z 1 1
    [lit 5 1; fone] [of_Z 5] [lit 1 1; lit 2 1] [2; 4; 8]%Z 0 6 1 0 0 1 fone (of_Z 5) (lit 1 1) 4%Z eq_refl eq_refl eq_refl eq_refl)
    as (idx & H & _). exists idx. exact H.
Defined.

(** ** No look-ahead *)

Lemma at_agree {A} (d : A) l l' n i : take n l = take n l' -> i < n -> at_ d l i = at_ d l' i.
Proof.
  intros H Hi. unfold at_. rewrite !nth_lookup. rewrite <- (lookup_take_lt l n i), <- (lookup_take_lt l' n i) by done. by rewrite H.
Qed.

(** Two tapes with the same first [n] bars. *)
Record same_past (n : nat) (t t' : Tape) : Prop := {
  sp_opens : take n (tp_opens t) = take n (tp_opens t');
  sp_closes : take n (tp_closes t) = take n (tp_closes t');
  sp_mask : take n (tp_regime_mask t) = take n (tp_regime_mask t');
  sp_atr : take n (tp_atr t) = take n (tp_atr t');
  sp_boundary : take n (tp_session_boundary t) = take n (tp_session_boundary t');
  sp_dividend : take n (tp_dividend_per_share t) = take n (tp_dividend_per_share t')
}.

Lemma fill_agrees cast_int t t' ex i b : 0 < i ->
  take (S i) (tp_opens t) = take (S i) (tp_opens t') -> take i (tp_closes t) = take i (tp_closes t') ->
  take i (tp_atr t) = take i (tp_atr t') -> fill_pending cast_int t ex i b = fill_pending cast_int t' ex i b.
Proof.
  intros Hi Ho Hc Ha. unfold fill_pending.
  rewrite (at_agree fnan _ _ _ i Ho), (at_agree fnan _ _ _ (i - 1) Hc), (at_agree fnan _ _ _ (i - 1) Ha) by lia. done.
Qed.

Lemma take_agree {A} (l l' : list A) n m : m <= n -> take n l = take n l' -> take m l = take m l'.
Proof. intros Hm H. rewrite <- (Nat.min_l m n Hm), <- !take_take. by rewrite H. Qed.

Lemma bar_agrees cast_int t t' r ex zl zl' zs zs' warmup start n st k :
  same_past n t t' -> take n zl = take n zl' -> take n zs = take n zs' -> start + k < n ->
  decoupled_bar cast_int t r ex zl zs warmup start st k = decoupled_bar cast_int t' r ex zl' zs' warmup start st k.
Proof.
  intros [Ho Hc Hm Ha Hb Hd] Hl Hs Hi. unfold decoupled_bar, margin_call.
  assert (open_bar cast_int t ex k (start + k) st.1.1 = open_bar cast_int t' ex k (start + k) st.1.1) as ->.
  { unfold open_bar. destruct (Nat.ltb_spec 0 k); cbn [andb]; [|done]. destruct (negb _); [|done].
    rewrite (fill_agrees cast_int t t') by (first [lia|eapply take_agree; [|done]; lia]). done. }
  destruct (open_bar _ _ _ _ _ _) as [f|]; cbn [result_bind]; [|done].
  assert (carry t ex k (start + k) f.1 = carry t' ex k (start + k) f.1) as ->.
  { unfold carry. rewrite (at_agree 0%Z _ _ _ _ Hb Hi), (at_agree fnan _ _ _ _ Hd Hi), (at_agree fnan _ _ _ (start + k - 1) Hc) by lia. done. }
  rewrite (at_agree fnan _ _ _ _ Hc Hi), (at_agree 0%Z _ _ _ _ Hm Hi), (at_agree fnan _ _ _ _ Hl Hi), (at_agree fnan _ _ _ _ Hs Hi). done.
Qed.

(** C40: The simulation never looks ahead: what it has done and decided after [k] bars is the
    same on two tapes whose first [k] bars and scores are the same, whatever follows; and
    an order is filled knowing nothing of its bar but the open. *)
Theorem simulation_never_looks_ahead cast_int t t' r ex zl zl' zs zs' warmup start k
    (Ht : same_past (start + k) t t') (Hl : take (start + k) zl = take (start + k) zl')
    (Hs : take (start + k) zs = take (start + k) zs') :
  decoupled_state cast_int t r ex zl zs warmup start k = decoupled_state cast_int t' r ex zl' zs' warmup start k /\
  forall u b, 0 < start + k -> take (S (start + k)) (tp_opens t) = take (S (start + k)) (tp_opens u) -> same_past (start + k) t u ->
    fill_pending cast_int t ex (start + k) b = fill_pending cast_int u ex (start + k) b.
Proof.
  split.
  - apply run_bars_ext. intros st i Hi. apply elem_of_seq in Hi. by apply (bar_agrees _ _ _ _ _ _ _ _ _ _ _ (start + k)); [..|lia].
  - intros u b Hp Ho [_ Hc _ Ha _ _]. by apply fill_agrees.
Qed.

Lemma simulation_never_looks_ahead_witness :
  let crash := mkTape (map of_Z [100; 98; 96; 1; 1; 1]%Z) (map of_Z [98; 96; 94; 1; 1; 1]%Z)
    (replicate 6 1%Z) (replicate 6 fone) (replicate 6 0%Z) (replicate 6 fzero) in
  decoupled_state truncating demo_tape demo_rules default_exec demo_z demo_z 1 0 3 =
  decoupled_state truncating crash demo_rules default_exec demo_z demo_z 1 0 3.
Proof.
  cbv zeta. apply (simulation_never_looks_ahead truncating demo_tape _ demo_rules default_exec demo_z demo_z demo_z demo_z 1 0 3);
    [split; reflexivity|reflexivity|reflexivity].
Defined.

(** ** Where the backtest differs from what it says or from the live rule *)

(** A bar without a deviation scores zero, which the kernels read as a reversion: a
    position is sold there, while the live action of the same moments holds it. *)
Lemma flat_window_exits_only_here r mask close sma b :
  is_flat b = false -> (bk_bars_in_trade b < ru_max_bars r)%Z -> fltb fzero (ru_exit_sigma r) = true ->
  decide_coupled r (z_score close (sma, fzero)) mask b = set_pending EXIT_CODE b /\
  mean_reversion_action_asymmetric close sma fzero (ru_long_th r) (ru_short_th r) (ru_exit_sigma r) = HOLD_CODE.
Proof.
  intros Hf Hb He. split; [|done]. unfold decide_coupled, time_is_up. rewrite Hf, (proj2 (Z.leb_gt _ _)) by done.
  cbn. unfold fabs, fzero in *. cbn. by rewrite He.
Qed.

(** A dividend is written to every bar of its ex-date, and a short pays it at every bar
    that carries one: a short of 100 shares held through two bars of the date of a
    dividend of one pays 200. *)
Lemma dividend_is_paid_on_every_bar :
  let ts := [0; 900000000]%Z in
  let arr := build_dividend_array ts [(0%Z, fone)] in
  let t := mkTape [] (map of_Z [50; 50]%Z) [] [] (replicate 2 0%Z) arr in
  let short := mkBook (of_Z 10000) (of_Z (-100)) 0 0 0 fzero fzero fzero in
  arr = [fone; fone] /\ bk_cash (carry t default_exec 1 1 (carry t default_exec 0 0 short)) = of_Z 9800.
Proof. by vm_compute. Qed.
